(* ===== verification/_CoqProject ===== *)
-Q . S2P
Prelude.v
GoString.v
GoFmt.v
Regex.v
QueryScanner.v
QueryParser.v
QueryParserFacts.v
QueryGrammar.v
QueryProps.v
ServiceErrors.v
CentralRequest.v
Store.v
Versions.v
GoPath.v
ClusterTypes.v
ProviderTypes.v
World.v
ClusterRows.v
Effects.v
MemPlatform.v
Config.v
Providers.v
Resources.v
ApiFramework.v
NameSearch.v
DefaultVersion.v
Quota.v
Namespace.v
ClusterService.v
ClusterManager.v
ClusterManagerProps.v
ManualScaling.v
Ocm.v
ClusterProviders.v
Backends.v
MemBackends.v
BackendsProps.v
ProviderProps.v
CloudProviders.v
ServiceAccounts.v
CentralService.v
Auth.v
ConfigFiles.v
Iam.v
Flags.v
Environment.v
EnvironmentProps.v
FlagsProps.v
CentralProps.v
DataPlane.v
Presenters.v
CentralApi.v
CentralApiProps.v
Workers.v
WorkersProps.v
System.v
LeaderElection.v
WorkerLoop.v
Kube.v
ManagedDB.v
ManagedDBProps.v
CentralReconciler.v
CentralReconcilerProps.v
MemShard.v
CentralDeletion.v
FleetshardRuntime.v
Probe.v
ProbeProps.v
Schema.v
Migrations.v
MigrationsProps.v
MigrationsData.v
Transactions.v
Observatorium.v
AdminPassword.v
ClusterResources.v
Routes.v
InfoApi.v
RequestLog.v
FleetClient.v
