(* ===== verification/Prelude.v ===== *)
(** * ACS fleet manager: a verification development

    The fleet manager is the control plane of a managed service of "central"
    instances.  Users register centrals through an HTTP API; a database holds one
    row per central and one per data plane cluster; workers, run by the replica
    that holds the lease of the worker, move the rows through their lifecycle
    (accepted, preparing, provisioning, ready, failed, deprovision, deleting,
    gone); the fleetshard synchronizer of each data plane cluster reports the
    status of its centrals and of the cluster back.

    ** How the program is modelled

    A Go function that reads or writes shared state is a [prog world A]: a function
    from the world to the world and a result.  The world (World.v) holds the two
    tables, the external services (clock, identifiers, account management, DNS,
    single sign-on, cluster providers) and the list of emitted metrics.  A Go
    [(value, error)] is a [result]; an [error] that may be nil is an [option].  A
    function that assigns to the struct it has a pointer to returns the struct.

    The database is an interface (Store.v): the class [Store] has the statements
    that the services use of gorm (find, first, count, group, page, update, create,
    save, soft delete), the class [StoreLaws] states what they guarantee, success
    or failure.  The theorems hold for every implementation of the laws, and so for
    every pattern of failing statements; [mem] is an implementation with a schedule
    of failures on which the definitions run.  The external services are the class
    [Externals]; nothing is assumed of their answers, except that a new identifier
    is not empty where System.v says so ([ExternalsLaws]) and what [ProviderContract]
    of ClusterManagerProps.v states.  Backends.v implements the class with the
    program's own clients and providers, over the SDKs they call, and BackendsProps.v
    discharges the contract.  Semantic version parsing is the class [Semver] of
    Versions.v.

    The row of a key has a state ([rowstate]: absent, live with its row, or soft
    deleted).  [on_rows Q] lifts a relation on these states to worlds, [at_row] to
    worlds that differ in one key, and [preserves] to programs; the automation
    ([preserves_tac], [rows_tac], [at_tac], the hint database [fleet]) proves such
    facts by following the structure of a program.

    The data plane side is modelled the same way over worlds of its own: the class
    [Kube] (Kube.v) is the Kubernetes client of a cluster, [AWS] and [Postgres]
    (ManagedDB.v) the database account, [Shard] (CentralReconciler.v) all that a pass
    of the synchronizer uses.  Their laws ([KubeLaws], [AWSLaws], [ShardLaws]) say
    what a successful operation and a failed one leave; every operation may fail.
    Programs over these worlds are reasoned about with weakest preconditions ([wp],
    [err_tac]).

    ** Files

    The foundations:
    - Prelude.v: results, programs, loops, shared lemmas and notation.
    - GoString.v, GoFmt.v, Regex.v, GoPath.v: what the program uses of Go's strings,
      strconv, fmt, regexp and path/filepath; sort is in Versions.v.
    - ServiceErrors.v: pkg/errors and the error helpers of pkg/services/util.go.
    - Store.v, World.v, ClusterRows.v, MemPlatform.v: the database, the world, the
      rules for the two tables, a concrete platform.  Effects.v: programs that return
      errors, their weakest preconditions and automation.

    Search expressions (pkg/services/queryparser):
    - QueryScanner.v, QueryParser.v: the scanner, the state machine and the parser.
      QueryParserFacts.v, QueryGrammar.v and QueryProps.v: the SQL condition carries
      user text in bind values only; the accepted texts are exactly the sentences of
      an independent grammar [expr]; the scanner loses nothing; no panic on ASCII
      texts, and a panic beyond ASCII.  NameSearch.v: the query for a central's name
      that the API builds by concatenation is read as intended.

    Data and configuration:
    - CentralRequest.v: the row and the statuses of a central.
    - Versions.v, ClusterTypes.v: pkg/api/semverutil.go and cluster_types.go; the
      stored operator versions are sorted.
    - Config.v, Providers.v: the configured clusters, their capacities, the quota
      list, and the cloud providers with their regions.
    - Resources.v: internal/dinosaur/pkg/converters and defaults, dbapi's specs and
      the admin API's update of them, with the maps that the defaults share.

    The services of the control plane (internal/dinosaur/pkg/services):
    - Quota.v: the two quota services and their factory.
    - Namespace.v: util.go, with the DNS labels of hosts ([HostNames]), and the list
      arguments of pkg/services/types.go.
    - DefaultVersion.v: central_default_version.go.
    - ClusterService.v: clusters.go and the placement of centrals.
    - CentralService.v: dinosaur.go, every operation.  CentralProps.v: the contracts
      of the operations (registration within capacity and quota, guarded updates,
      tenant isolation, authorised deletion, expiry) and their frame.
    - DataPlane.v: data_plane_dinosaur.go and data_plane_cluster.go; a report reaches
      only the centrals of the reporting cluster, and only sets the statuses it may.

    The workers (internal/dinosaur/pkg/workers, pkg/workers):
    - ClusterManager.v: clusters_mgr.go, every processor of a pass.
      ClusterManagerProps.v: a pass refines the lifecycle of clusters; with automatic
      scaling no region loses its last ready cluster.  ManualScaling.v: the clusters
      follow the configuration file.
    - Workers.v, WorkersProps.v: dinosaurmgrs; which moves each manager makes.
    - LeaderElection.v: leader_election_mgr.go, serially and with interleaved
      replicas.  WorkerLoop.v: reconciler.go, worker_interface.go and the manager's
      goroutines as a step relation; a worker has one loop at most, a tear-down can
      always finish, and [Stop] may return before a pass has ended.

    The providers and clients behind the services (internal/dinosaur/pkg/clusters,
    pkg/client, pkg/services/sso):
    - ProviderTypes.v: clusters/types.  Ocm.v: pkg/client/ocm.  ClusterProviders.v:
      the OCM and the standalone provider, the cluster builder.  Backends.v: the
      client of Route 53, and all of them as one instance of [Externals].
      MemBackends.v: a cloud in memory.  BackendsProps.v: the contract of the cluster
      manager with its providers.  ProviderProps.v: applying resources is idempotent
      and asks OCM for nothing superfluous; when add-on parameters count as the same.
    - ClusterResources.v: the builders of clusters_mgr.go for the resources of a cluster,
      which no processor calls.
    - FleetClient.v: pkg/client/fleetmanager; every request carries the token of the
      client's authentication.
    - CloudProviders.v: the endpoints for cloud providers and regions with their
      caches; when a cached answer is the answer of another request.
    - ServiceAccounts.v: the service accounts of clusters and the add-on that needs
      them; accounts leak.  Iam.v: the realms, the issuers of tokens, the client of
      Keycloak; the additional issuers are refused, the cache of tokens is not used.

    Starting the service (pkg/environments, pkg/shared, internal/dinosaur/pkg/config
    and environments, the configuration modules of the packages):
    - ConfigFiles.v: reading files, and [ReadFiles] of every module.  Flags.v: their
      flags and the defaults of the named environments.  Environment.v: registering
      flags, reading files, creating the services, starting and stopping.
      EnvironmentProps.v: the order of the modules does not matter, and a service that
      has started has a validated configuration.  FlagsProps.v: every environment
      sets flags that exist.

    The API (pkg/handlers, pkg/auth, pkg/acl, internal/dinosaur/pkg/handlers, routes
    and presenters):
    - ApiFramework.v: framework.go and the validators of values.
    - Auth.v: the claims of tokens, the middlewares and the chains of route_loader.go.
    - Presenters.v: what users, administrators and the data plane are shown of a
      central, and how reports are read.
    - CentralApi.v: the handlers.  CentralApiProps.v: what a creation must be like to
      be accepted, what users get, and which handlers write.
    - Routes.v: the table of routes of route_loader.go, the main router and the handlers
      around it (pkg/server), the public paths; what a request that reaches
      a handler has passed, and that no route hides another.
    - InfoApi.v: the endpoints of errors, metadata, status and cloud accounts, and the
      answers for unknown routes.
    - Transactions.v: the transaction that pkg/db keeps for a request.  The services do
      not use it: they have connections of their own.
    - Observatorium.v: pkg/client/observatorium, the metrics of a central with their
      handlers and presenters; the queries of a central name its namespace only.
    - RequestLog.v: pkg/logger, pkg/server/logging and the metrics of requests; secrets
      are not logged, and which status is.

    The database schema (pkg/db, internal/dinosaur/pkg/migrations):
    - Schema.v: the structs of the migrations and of the program with their columns.
      Migrations.v: pkg/db/migrations.go and the seventeen migrations, over gorm
      ([Database]) and gormigrate ([Gormigrate]); an instance implements both in
      memory.  MigrationsProps.v: a new database gets the columns of the program's
      structs, and rolling back leaves no table.  MigrationsData.v: the leases that the
      workers need, the migrated rows, and a rollback that is not undone;
      [DataMigration]: services/data_migration.go.

    The control plane as a whole:
    - System.v: the operations as one transition system ([step]), its invariant, the
      lifecycle of a key, and the interleaving of single statements with stale
      structs ([statement]).

    The fleetshard synchronizer (fleetshard/):
    - Kube.v: pkg/k8s, pkg/util, and of pkg/central/reconciler the files proxy.go,
      status.go and errors.go.
    - ManagedDB.v: awsclient/rds.go, postgres/dbconnection.go and dbinit.go.
      ManagedDBProps.v: centrals do not touch each other's databases; a provisioned
      database is available, a deprovisioned one is gone or going.
    - CentralReconciler.v: reconciler.go, init_auth.go, charts and the client of
      Central.  CentralReconcilerProps.v: a pass stays within the namespace of its
      central; what has been installed when a pass reports ready and removed when it
      reports deleted; the password in the cluster opens the database.  MemShard.v: a
      data plane in memory, the witnesses and runs.  CentralDeletion.v: the deletion
      of a central ends.
    - FleetshardRuntime.v: runtime/runtime.go as a step relation and
      operator/upgrade.go; passes of one reconciler do not overlap, and the reports
      are those the control plane understands.  It is here that the two sides meet:
      a central that Presenters.v presents is one that the synchronizer converts,
      and a status that it reports is one that DataPlane.v reads.
    - AdminPassword.v: pkg/shared/central_admin_password.go.

    The probe (probe/):
    - Probe.v: pkg/probe, pkg/runtime and the interrupt handling of internal/cli.
      ProbeProps.v: what a successful run has seen; the probe deletes only its own
      centrals; a run ends.

    ** Bounds and fuel

    The loops of the program range over lists and are structural recursions.  The
    parser's loop has one unit of fuel per token and one more ([parse_fuel]), and
    every turn consumes a token; running out counts as a panic, which the theorems
    exclude for ASCII texts.  The
    wait for a database ([waitForInstanceToBeAvailable]) takes as argument how often
    the ticker fires before the context is done, and gives the context's error then,
    as the code does; the theorems hold for every number.  The number of passes that
    a deletion takes is bounded by the number of objects left and one
    (CentralDeletion.v).  The retry loops of the probe have as fuel the number of ticks
    that the timeouts of their contexts allow, which is enough ([RunSingle_terminates]);
    a loop that runs out counts as one that does not end.  The loop of RollbackAll has one unit of fuel more than there are
    recorded migrations, which is enough on every database ([RollbackAll_terminates]).
    Quoted file names are decoded with one unit of fuel per byte.  Integers are unbounded where the program cannot leave
    the range of int64 and wrapped by [wrap64] where a configured or requested
    value is multiplied ([DeprovisionExpiredDinosaurs], [extractMetricsQueryParams],
    [DetermineListRange]).

    ** Not modelled

    - The generated API clients and mocks; the commands, the listeners and the wiring
      by the injection container, of which Environment.v keeps the order of events;
      glog, Sentry, telemetry's transport and the registration of metrics; construction
      of AWS sessions, Kubernetes clients, HTTP clients and the connection pool of the
      database; the CORS handler, event streams and the OpenAPI document.
    - The indexes of the database, and the wrapping of the transaction around the
      statements of the services, which use other connections.
    - Libraries are parameters: JSON and YAML decoding, pflag, gorm and gormigrate,
      database/sql, gorilla/mux, the Prometheus client, oauth2, the SDKs of OCM and AWS,
      gocloak, golang-jwt, Helm rendering, HTTP, token
      verification, gojsonschema, go-cmp, semantic versions, Kubernetes quantities.

    The effect of a search condition on rows is a parameter of [ListCentrals].  A
    step of System.v is one operation as a whole: the mutex of [RegisterDinosaurJob]
    makes this true of registrations in one process, not across replicas.  A
    dereference of nil is the error value [nil_dereference], the outcome [Panicked]
    or [Panics], according to where it happens. *)

From stdpp Require Export base list strings gmap option tactics.
From Stdlib Require Export ZArith Lia.

(** ** Results of fallible Go functions

    A Go function that returns [(value, error)] is modelled by [result]:
    [Ok value] when the error is nil, [Err e] otherwise. *)

Inductive result (E A : Type) : Type :=
| Ok (a : A)
| Err (e : E).

Arguments Ok {E A} a.
Arguments Err {E A} e.

#[export] Instance result_eq_dec {E A} `{EqDecision E, EqDecision A} : EqDecision (result E A).
Proof. solve_decision. Defined.

#[export] Instance result_ret {E} : MRet (result E) := fun A a => Ok a.

#[export] Instance result_bind {E} : MBind (result E) :=
  fun A B k r => match r with Ok a => k a | Err e => Err e end.

#[export] Instance result_fmap {E} : FMap (result E) :=
  fun A B f r => match r with Ok a => Ok (f a) | Err e => Err e end.

Definition is_Ok {E A} (r : result E A) : bool :=
  match r with Ok _ => true | Err _ => false end.

Lemma bind_Ok {E A B} (r : result E A) (k : A -> result E B) b :
  (r ≫= k) = Ok b <-> exists a, r = Ok a /\ k a = Ok b.
Proof. destruct r; naive_solver. Qed.

(** ** State-passing programs

    The fleet manager's handlers read and write a world (the tables, the
    external services, the emitted metrics).  [prog W A] is a program over
    the world [W] that returns an [A]; Go's early returns are matches on the
    returned [result]. *)

Definition prog (W A : Type) : Type := W -> W * A.

#[export] Instance prog_ret {W} : MRet (prog W) := fun A a w => (w, a).

#[export] Instance prog_bind {W} : MBind (prog W) :=
  fun A B k m w => let '(w', a) := m w in k a w'.

Lemma prog_bind_run {W A B} (m : prog W A) (k : A -> prog W B) w :
  (m ≫= k) w = k (m w).2 (m w).1.
Proof. unfold mbind, prog_bind. by destruct (m w). Qed.

Lemma prog_ret_run {W A} (a : A) (w : W) : (mret a : prog W A) w = (w, a).
Proof. done. Qed.

(** [forM xs f] is Go's [for _, x := range xs { ... }] whose body collects at
    most one error per element: the loop goes on after an error. *)
Fixpoint forM_errs {W A E} (xs : list A) (f : A -> prog W (option E)) : prog W (list E) :=
  match xs with
  | [] => mret []
  | x :: xs =>
      oe ← f x;
      es ← forM_errs xs f;
      mret (match oe with Some e => e :: es | None => es end)
  end.

(** An invariant preserved by every iteration is preserved by the loop. *)
Lemma forM_errs_inv {W A E} (I : W -> Prop) (xs : list A) (f : A -> prog W (option E)) :
  (forall x w, x ∈ xs -> I w -> I (f x w).1) ->
  forall w, I w -> I (forM_errs xs f w).1.
Proof.
  induction xs as [|x xs IH]; intros Hf w Hw; [done|]. simpl.
  rewrite !prog_bind_run. simpl. apply IH.
  - intros y v Hy. apply Hf. by right.
  - apply Hf; [by left|done].
Qed.

(** A relation that is a preorder and holds of every iteration holds of the loop. *)
Lemma forM_errs_rel {W A E} (R : relation W) `{!PreOrder R}
    (xs : list A) (f : A -> prog W (option E)) :
  (forall x w, x ∈ xs -> R w (f x w).1) ->
  forall w, R w (forM_errs xs f w).1.
Proof.
  induction xs as [|x xs IH]; intros Hf w; [reflexivity|]. simpl.
  rewrite !prog_bind_run. simpl. etransitivity; [apply Hf; by left|].
  apply IH. intros y v Hy. apply Hf. by right.
Qed.

Lemma NoDup_fmap_filter {A B} (f : A -> B) (P : A -> Prop) `{!forall x, Decision (P x)} (l : list A) :
  NoDup (f <$> l) -> NoDup (f <$> filter P l).
Proof.
  induction l as [|x l IH]; [done|]. intros Hn. inversion_clear Hn as [|? ? Hx Hl].
  rewrite filter_cons. case_decide; [|by apply IH]. constructor; [|by apply IH].
  intros (y & Heq & [_ Hy]%list_elem_of_filter)%list_elem_of_fmap.
  apply Hx. rewrite Heq. by apply list_elem_of_fmap_2.
Qed.

(** ** 64-bit integers *)

Definition int32 (x : Z) : Z := ((x + 2 ^ 31) mod 2 ^ 32 - 2 ^ 31)%Z.
Definition wrap64 (z : Z) : Z := ((z + 2 ^ 63) mod 2 ^ 64 - 2 ^ 63)%Z.

Lemma wrap64_id z : (- 2 ^ 63 <= z < 2 ^ 63)%Z -> wrap64 z = z.
Proof. intros H. unfold wrap64. rewrite Z.mod_small; lia. Qed.

Lemma wrap64_range z : (- 2 ^ 63 <= wrap64 z < 2 ^ 63)%Z.
Proof. unfold wrap64. pose proof (Z.mod_pos_bound (z + 2 ^ 63) (2 ^ 64)). lia. Qed.

(** ** Notation and automation *)

Declare Scope go_scope.
Delimit Scope go_scope with go.

(** Go's [==] on strings, integers and enumerations. *)
Notation "x =? y" := (bool_decide (x = y)) (at level 70, no associativity) : go_scope.
Notation "x <>? y" := (bool_decide (x <> y)) (at level 70, no associativity) : go_scope.
(** [slices.Contains]-like membership. *)
Notation "x ∈? l" := (bool_decide (x ∈ l)) (at level 70, no associativity) : go_scope.

Create HintDb fleet discriminated.

(** [split_matches] case-splits every [match] and [if] of the goal, keeping the
    equations, and closes the contradictory cases. *)
Ltac split_matches :=
  repeat (case_match || case_bool_decide); simplify_eq/=; try done.

Ltac split_ands := repeat match goal with |- _ /\ _ => split end.

(** [run_step] evaluates the head of a state-passing program. *)
Ltac run_step := rewrite ?prog_bind_run, ?prog_ret_run; simpl.

(** Case analysis of a membership in a concrete list. *)
Ltac elem_cases H :=
  repeat (apply elem_of_cons in H as [->|H]); try (by apply not_elem_of_nil in H).
