(* ===== verification/GoString.v ===== *)
(** * Go strings

    A Go string is a sequence of bytes, here [string].  This file models what
    the fleet manager uses of the language and of package [strings]: iteration
    over runes (UTF-8 decoding), [string(rune)], case folding, prefix and
    suffix tests, splitting, trimming and replacing. *)

From S2P Require Import Prelude.
From stdpp Require Export pretty.
From Stdlib Require Ascii String.

Local Open Scope N_scope.
#[local] Arguments String.append !_ _ /.

(** ** UTF-8 *)

Definition rune := N.

Definition rune_error : rune := 65533.

Definition bytes_of (s : string) : list N := Ascii.N_of_ascii <$> String.list_ascii_of_string s.

Definition string_of_bytes (bs : list N) : string :=
  String.string_of_list_ascii (Ascii.ascii_of_N <$> bs).

Definition in_range (lo hi b : N) : bool := (lo <=? b) && (b <=? hi).

(** The rune at the head of a byte sequence and the number of bytes it takes;
    an invalid sequence yields U+FFFD and takes one byte. *)
Definition decode_rune (bs : list N) : rune * nat :=
  match bs with
  | [] => (rune_error, 0%nat)
  | b0 :: tl =>
      if b0 <? 128 then (b0, 1%nat)
      else match tl with
      | b1 :: tl1 =>
          if in_range 194 223 b0 && in_range 128 191 b1
          then ((b0 - 192) * 64 + (b1 - 128), 2%nat)
          else
            let lo3 := if b0 =? 224 then 160 else 128 in
            let hi3 := if b0 =? 237 then 159 else 191 in
            let lo4 := if b0 =? 240 then 144 else 128 in
            let hi4 := if b0 =? 244 then 143 else 191 in
            match tl1 with
            | b2 :: tl2 =>
                if in_range 224 239 b0 && in_range lo3 hi3 b1 && in_range 128 191 b2
                then ((b0 - 224) * 4096 + (b1 - 128) * 64 + (b2 - 128), 3%nat)
                else match tl2 with
                | b3 :: _ =>
                    if in_range 240 244 b0 && in_range lo4 hi4 b1
                       && in_range 128 191 b2 && in_range 128 191 b3
                    then ((b0 - 240) * 262144 + (b1 - 128) * 4096
                          + (b2 - 128) * 64 + (b3 - 128), 4%nat)
                    else (rune_error, 1%nat)
                | [] => (rune_error, 1%nat)
                end
            | [] => (rune_error, 1%nat)
            end
      | [] => (rune_error, 1%nat)
      end
  end.

(** [for i, r := range s]: byte offsets and runes.  [skip] bytes of the current
    rune are still to be passed over. *)
Fixpoint decode (skip pos : nat) (bs : list N) : list (nat * rune) :=
  match bs with
  | [] => []
  | _ :: tl =>
      match skip with
      | S k => decode k (S pos) tl
      | O => let '(r, w) := decode_rune bs in
             (pos, r) :: decode (pred w) (S pos) tl
      end
  end.

Definition range_string (s : string) : list (nat * rune) := decode 0 0 (bytes_of s).

(** [[]rune(s)] *)
Definition runes (s : string) : list rune := (range_string s).*2.

(** [string(r)] *)
Definition encode_rune (r : rune) : string :=
  let r := if (1114111 <? r) || in_range 55296 57343 r then rune_error else r in
  string_of_bytes
    (if r <? 128 then [r]
     else if r <? 2048 then [192 + r / 64; 128 + r mod 64]
     else if r <? 65536 then [224 + r / 4096; 128 + (r / 64) mod 64; 128 + r mod 64]
     else [240 + r / 262144; 128 + (r / 4096) mod 64; 128 + (r / 64) mod 64; 128 + r mod 64]).

Fixpoint string_concat (l : list string) : string :=
  match l with
  | [] => EmptyString
  | s :: l => String.append s (string_concat l)
  end.

Definition encode_runes (rs : list rune) : string := string_concat (encode_rune <$> rs).

(** ASCII strings: every byte is below 128. *)
Definition is_ascii (s : string) : bool := forallb (fun b => b <? 128) (bytes_of s).

(** ** Package strings *)

Definition lower_byte (b : N) : N := if in_range 65 90 b then b + 32 else b.

(** [strings.ToLower] on ASCII strings (bytes above 127 are left alone). *)
Definition ToLower (s : string) : string := string_of_bytes (lower_byte <$> bytes_of s).

(** Simple case folding to the representative the fold orbit of an ASCII letter
    has: [K] (Kelvin sign) folds with [k] and long s with [s]. *)
Definition fold_rune (r : rune) : rune :=
  if in_range 65 90 r then r + 32
  else if r =? 8490 then 107
  else if r =? 383 then 115
  else r.

(** [strings.EqualFold s t] where one of the strings is ASCII. *)
Definition EqualFold (s t : string) : bool :=
  bool_decide (fold_rune <$> runes s = fold_rune <$> runes t).

Definition HasPrefix (s p : string) : bool := String.prefix p s.

Definition HasSuffix (s suf : string) : bool :=
  (String.length suf <=? String.length s)%nat &&
  bool_decide (String.substring (String.length s - String.length suf) (String.length suf) s = suf).

(** [strings.Split(s, c)] for a one-byte separator: never empty. *)
Fixpoint Split (c : Ascii.ascii) (s : string) : list string :=
  match s with
  | EmptyString => [EmptyString]
  | String a s' =>
      if bool_decide (a = c) then EmptyString :: Split c s'
      else match Split c s' with
           | [] => [String a EmptyString]
           | w :: ws => String a w :: ws
           end
  end.

(** [strings.Join(l, sep)] *)
Fixpoint Join (sep : string) (l : list string) : string :=
  match l with
  | [] => EmptyString
  | [s] => s
  | s :: l => String.append s (String.append sep (Join sep l))
  end.

Fixpoint TrimLeft (c : Ascii.ascii) (s : string) : string :=
  match s with
  | String a s' => if bool_decide (a = c) then TrimLeft c s' else s
  | EmptyString => EmptyString
  end.

(** [strings.TrimRight(s, c)] *)
Fixpoint TrimRight (c : Ascii.ascii) (s : string) : string :=
  match s with
  | EmptyString => EmptyString
  | String a s' =>
      match TrimRight c s' with
      | EmptyString => if bool_decide (a = c) then EmptyString else String a EmptyString
      | t => String a t
      end
  end.

(** [strings.Trim(s, c)] *)
Definition Trim (c : Ascii.ascii) (s : string) : string := TrimRight c (TrimLeft c s).

(** [strings.ReplaceAll(s, ab, c)] for a two-byte pattern. *)
Fixpoint ReplaceAll2 (a b : Ascii.ascii) (c : string) (s : string) : string :=
  match s with
  | String x (String y s' as t) =>
      if bool_decide (x = a) && bool_decide (y = b)
      then String.append c (ReplaceAll2 a b c s')
      else String x (ReplaceAll2 a b c t)
  | _ => s
  end.

(** ** Lemmas *)

Lemma string_append_assoc (s t u : string) :
  String.append s (String.append t u) = String.append (String.append s t) u.
Proof. induction s as [|a s IH]; simpl; [done|by rewrite IH]. Qed.

Lemma string_append_nil_r (s : string) : String.append s EmptyString = s.
Proof. induction s as [|a s IH]; simpl; [done|by rewrite IH]. Qed.

Lemma string_concat_app (l k : list string) :
  string_concat (l ++ k) = String.append (string_concat l) (string_concat k).
Proof.
  induction l as [|s l IH]; simpl; [done|]. by rewrite IH, string_append_assoc.
Qed.

Lemma string_length_append (s t : string) :
  String.length (String.append s t) = (String.length s + String.length t)%nat.
Proof. induction s as [|a s IH]; simpl; [done|by rewrite IH]. Qed.

Lemma substring_full (s : string) : String.substring 0 (String.length s) s = s.
Proof. induction s as [|a s IH]; simpl; [done|by rewrite IH]. Qed.

Lemma substring_append_drop (p s : string) n :
  String.substring (String.length p) n (String.append p s) = String.substring 0 n s.
Proof. induction p as [|a p IH]; simpl; [done|apply IH]. Qed.

Lemma string_split_at (s : string) n :
  (n <= String.length s)%nat ->
  exists p, String.length p = n /\
    s = String.append p (String.substring n (String.length s - n) s).
Proof.
  revert s. induction n as [|n IH]; intros s Hn.
  - exists EmptyString. split; [done|]. simpl. rewrite Nat.sub_0_r. by rewrite substring_full.
  - destruct s as [|a s]; simpl in *; [lia|].
    destruct (IH s ltac:(lia)) as (p & Hp & Hs). exists (String a p). simpl.
    split; [by rewrite Hp|]. by rewrite <- Hs.
Qed.

Lemma HasSuffix_spec (s suf : string) :
  HasSuffix s suf = true <-> exists p, s = String.append p suf.
Proof.
  unfold HasSuffix. rewrite andb_true_iff, Nat.leb_le, bool_decide_eq_true. split.
  - intros [Hlen Heq].
    destruct (string_split_at s (String.length s - String.length suf) ltac:(lia))
      as (p & Hp & Hs).
    exists p. rewrite Hs. f_equal.
    replace (String.length s - (String.length s - String.length suf))%nat
      with (String.length suf) by lia. done.
  - intros [p ->]. rewrite string_length_append. split; [lia|].
    replace (String.length p + String.length suf - String.length suf)%nat
      with (String.length p) by lia.
    rewrite substring_append_drop. apply substring_full.
Qed.

Lemma Split_nonempty c s : Split c s <> [].
Proof. destruct s as [|a s]; simpl; [done|]. case_bool_decide; [done|]. by destruct (Split c s). Qed.

(** Splitting and joining with the same separator gives the string back. *)
Lemma Join_Split (c : Ascii.ascii) (s : string) : Join (String c EmptyString) (Split c s) = s.
Proof.
  induction s as [|a s IH]; simpl; [done|].
  case_bool_decide as Ha.
  - subst. destruct (Split c s) as [|w ws] eqn:E; [by destruct (Split_nonempty c s)|].
    simpl. by rewrite <- IH.
  - destruct (Split c s) as [|w ws] eqn:E; [by destruct (Split_nonempty c s)|].
    rewrite <- IH. by destruct ws.
Qed.

Lemma TrimRight_app_last (c a : Ascii.ascii) (s : string) :
  a <> c -> TrimRight c (String.append s (String a EmptyString)) = String.append s (String a EmptyString).
Proof.
  intros Ha. induction s as [|b s IH]; simpl.
  - by rewrite bool_decide_eq_false_2.
  - rewrite IH. by destruct s.
Qed.

Lemma N_ascii_bytes (s : string) b : b ∈ bytes_of s -> b < 256.
Proof.
  unfold bytes_of. intros (a & -> & _)%list_elem_of_fmap. apply Ascii.N_ascii_bounded.
Qed.

Lemma bytes_of_append s t : bytes_of (s +:+ t) = (bytes_of s ++ bytes_of t)%list.
Proof.
  unfold bytes_of. rewrite <- fmap_app. f_equal. induction s as [|a s IH]; [done|].
  change (String.append (String a s) t) with (String a (String.append s t)). simpl. by f_equal.
Qed.

Lemma bytes_of_string_of_bytes bs :
  Forall (fun b => b < 256) bs -> bytes_of (string_of_bytes bs) = bs.
Proof.
  intros H. unfold bytes_of, string_of_bytes.
  rewrite String.list_ascii_of_string_of_list_ascii.
  induction H as [|b bs Hb H IH]; [done|].
  rewrite !fmap_cons, Ascii.N_ascii_embedding by done. by f_equal.
Qed.

Lemma string_of_bytes_of (s : string) : string_of_bytes (bytes_of s) = s.
Proof.
  unfold bytes_of, string_of_bytes.
  rewrite <- (String.string_of_list_ascii_of_string s) at 2. f_equal.
  induction (String.list_ascii_of_string s) as [|a l IH]; [done|].
  rewrite !fmap_cons, Ascii.ascii_N_embedding. by f_equal.
Qed.

Lemma decode_ascii bs pos :
  forallb (fun b => b <? 128) bs = true -> (decode 0 pos bs).*2 = bs.
Proof.
  revert pos. induction bs as [|b bs IH]; intros pos H; [done|].
  simpl in H. apply andb_true_iff in H as [Hb H].
  simpl. rewrite Hb. simpl. by rewrite IH.
Qed.

Lemma encode_rune_ascii b : b < 128 -> encode_rune b = String (Ascii.ascii_of_N b) EmptyString.
Proof.
  intros Hb. unfold encode_rune.
  rewrite (proj2 (N.ltb_ge 1114111 b)) by lia. simpl.
  unfold in_range. rewrite (proj2 (N.leb_gt 55296 b)) by lia. simpl.
  by rewrite (proj2 (N.ltb_lt b 128)).
Qed.

(** Decoding and encoding again is the identity on ASCII strings. *)
Lemma encode_runes_ascii (s : string) :
  is_ascii s = true -> encode_runes (runes s) = s.
Proof.
  unfold is_ascii, encode_runes, runes, range_string. intros H. rewrite decode_ascii by done.
  rewrite <- (string_of_bytes_of s) at 2. unfold string_of_bytes.
  induction (bytes_of s) as [|b bs IH]; [done|].
  simpl in H. apply andb_true_iff in H as [Hb%N.ltb_lt H].
  rewrite !fmap_cons. simpl. rewrite encode_rune_ascii by done. simpl. f_equal. by apply IH.
Qed.

Lemma runes_length_ascii (s : string) :
  is_ascii s = true -> length (runes s) = String.length s.
Proof.
  unfold is_ascii, runes, range_string. intros H. rewrite decode_ascii by done.
  unfold bytes_of. rewrite length_fmap. clear H.
  induction s as [|a s IH]; simpl; [done|by rewrite IH].
Qed.

Lemma lower_byte_range b : b < 256 -> lower_byte b < 256.
Proof.
  unfold lower_byte, in_range. intros H.
  destruct (65 <=? b); simpl; [|done].
  destruct (N.leb_spec b 90); simpl; lia.
Qed.

Lemma lower_byte_idem b : lower_byte (lower_byte b) = lower_byte b.
Proof.
  unfold lower_byte, in_range.
  destruct (65 <=? b) eqn:E1, (b <=? 90) eqn:E2; simpl; rewrite ?E1, ?E2; simpl; try done.
  apply N.leb_le in E1, E2.
  destruct (65 <=? b + 32) eqn:E3, (b + 32 <=? 90) eqn:E4; simpl; try done.
  apply N.leb_le in E3, E4. lia.
Qed.

Lemma ToLower_idem (s : string) : ToLower (ToLower s) = ToLower s.
Proof.
  unfold ToLower at 1. unfold ToLower at 1. rewrite bytes_of_string_of_bytes.
  - unfold ToLower. f_equal. rewrite <- list_fmap_compose. apply list_fmap_ext.
    intros i b _. apply lower_byte_idem.
  - apply Forall_fmap, Forall_forall. intros b Hb. apply lower_byte_range.
    by apply (N_ascii_bytes s).
Qed.

(** A rune below 128 is one byte of the text: a string whose runes are all
    ASCII is the string of those bytes. *)
Lemma decode_rune_ascii_inv b bs r w :
  decode_rune (b :: bs) = (r, w) -> r < 128 -> b = r /\ w = 1%nat.
Proof.
  unfold decode_rune, in_range, rune_error. intros H Hr.
  repeat match type of H with
  | context [?a <? ?b] => destruct (N.ltb_spec a b); simpl in H
  | context [?a <=? ?b] => destruct (N.leb_spec a b); simpl in H
  | context [?a =? ?b] => destruct (N.eqb_spec a b); simpl in H
  | context [match ?l with [] => _ | _ => _ end] => destruct l; simpl in H
  end; simplify_eq; try lia; done.
Qed.

Lemma decode_ascii_inv bs pos rs :
  (decode 0 pos bs).*2 = rs -> Forall (fun r => r < 128) rs -> bs = rs.
Proof.
  revert pos rs. induction bs as [|b bs IH]; intros pos rs H Hrs.
  - simpl in H. by subst.
  - cbn [decode] in H. destruct (decode_rune (b :: bs)) as [r w] eqn:E.
    rewrite fmap_cons in H. simpl in H. subst rs. apply Forall_cons in Hrs as [Hr Hrs].
    destruct (decode_rune_ascii_inv _ _ _ _ E Hr) as [-> ->]. simpl in *.
    f_equal. by eapply IH.
Qed.

Lemma runes_ascii_inv s :
  Forall (fun r => r < 128) (runes s) -> s = string_of_bytes (runes s).
Proof.
  intros H. unfold runes, range_string in *.
  rewrite <- (string_of_bytes_of s) at 1. f_equal. by eapply decode_ascii_inv.
Qed.

(** ** Substrings *)

(** [strings.Contains] *)
Fixpoint Contains (s sub : string) : bool :=
  HasPrefix s sub ||
  match s with
  | EmptyString => false
  | String _ s => Contains s sub
  end.

(** [strings.Replace(s, old, new, 1)] for a non-empty [old] *)
Fixpoint ReplaceFirst (s old new : string) : string :=
  if HasPrefix s old then new +:+ String.substring (String.length old) (String.length s) s
  else match s with
       | EmptyString => EmptyString
       | String a s => String a (ReplaceFirst s old new)
       end.

(** [strings.Index(s, sub)], [None] for -1 *)
Fixpoint Index (s sub : string) : option nat :=
  if HasPrefix s sub then Some 0%nat
  else match s with
       | EmptyString => None
       | String _ s => S <$> Index s sub
       end.

(** ** Decimal numbers *)

(** The value of a non-empty text of ASCII digits. *)
Fixpoint digits_value (acc : Z) (bs : list N) : option Z :=
  match bs with
  | [] => Some acc
  | b :: bs => if in_range 48 57 b then digits_value (acc * 10 + Z.of_N (b - 48))%Z bs else None
  end.

Definition parse_digits (bs : list N) : option Z :=
  match bs with [] => None | _ => digits_value 0 bs end.

(** [strconv.Atoi] on a 64-bit platform: an optional sign and digits; out of
    range, the nearest representable value is returned with an error. *)
Definition Atoi (s : string) : Z * bool :=
  let '(neg, bs) :=
    match bytes_of s with
    | 45%N :: bs => (true, bs)
    | 43%N :: bs => (false, bs)
    | bs => (false, bs)
    end in
  match parse_digits bs with
  | None => (0%Z, false)
  | Some n =>
      let z := if neg : bool then (- n)%Z else n in
      if (z <? - 2 ^ 63)%Z then ((- 2 ^ 63)%Z, false)
      else if (2 ^ 63 - 1 <? z)%Z then ((2 ^ 63 - 1)%Z, false)
      else (z, true)
  end.
