(* ===== verification/GoFmt.v ===== *)
(** * Formatted text (Go's fmt)

    [fmt.Sprintf] for the verbs the fleet manager uses ([%s], [%v], [%d], [%q],
    [%%]), without flags, width or precision, and with the notes fmt leaves in
    the text for a missing, an extra or an ill-typed operand. *)

From S2P Require Import Prelude GoString.
Local Open Scope string_scope.

(** An operand: a string (or an error, by its text) or an integer. *)
Inductive fmt_arg := VStr (s : string) | VInt (z : Z).

Definition arg_text (a : fmt_arg) : string :=
  match a with VStr s => s | VInt z => pretty z end.

Definition arg_note (a : fmt_arg) : string :=
  match a with VStr s => "string=" +:+ s | VInt z => "int=" +:+ pretty z end.

Definition hex_digit (n : N) : string :=
  string_of_bytes [if (n <? 10)%N then (48 + n)%N else (87 + n)%N].

(** The escapes of [strconv.Quote]; bytes above 127 are taken to be parts of
    printable runes. *)
Definition quote_byte (b : N) : string :=
  if (b =? 34)%N || (b =? 92)%N then string_of_bytes [92; b]%N
  else if (b =? 7)%N then "\a" else if (b =? 8)%N then "\b" else if (b =? 9)%N then "\t"
  else if (b =? 10)%N then "\n" else if (b =? 11)%N then "\v" else if (b =? 12)%N then "\f"
  else if (b =? 13)%N then "\r"
  else if (b <? 32)%N || (b =? 127)%N then "\x" +:+ hex_digit (b / 16) +:+ hex_digit (b mod 16)
  else string_of_bytes [b].

Definition dquote : string := string_of_bytes [34%N].

Definition Quote (s : string) : string :=
  dquote +:+ string_concat (quote_byte <$> bytes_of s) +:+ dquote.

Definition verb_char (v : N) : string := string_of_bytes [v].

Definition format_verb (v : N) (a : fmt_arg) : string :=
  match a with
  | VStr s =>
      if (v =? 115)%N || (v =? 118)%N then s
      else if (v =? 113)%N then Quote s
      else "%!" +:+ verb_char v +:+ "(" +:+ arg_note a +:+ ")"
  | VInt z =>
      if (v =? 100)%N || (v =? 118)%N then pretty z
      else "%!" +:+ verb_char v +:+ "(" +:+ arg_note a +:+ ")"
  end.

(** The text of the format's bytes and the operands left over. *)
Fixpoint format (bs : list N) (args : list fmt_arg) : string * list fmt_arg :=
  match bs with
  | [] => ("", args)
  | 37%N :: [] => ("%!(NOVERB)", args)
  | 37%N :: v :: rest =>
      if (v =? 37)%N then
        let '(s, a) := format rest args in ("%" +:+ s, a)
      else match args with
      | [] => let '(s, a) := format rest [] in ("%!" +:+ verb_char v +:+ "(MISSING)" +:+ s, a)
      | x :: args => let '(s, a) := format rest args in (format_verb v x +:+ s, a)
      end
  | b :: rest => let '(s, a) := format rest args in (verb_char b +:+ s, a)
  end.

Definition Sprintf (fmt : string) (args : list fmt_arg) : string :=
  let '(s, extra) := format (bytes_of fmt) args in
  match extra with
  | [] => s
  | _ => s +:+ "%!(EXTRA " +:+ Join ", " (arg_note <$> extra) +:+ ")"
  end.

Example Sprintf_values : Sprintf "%s-%d: %q" [VStr "a"; VInt 7; VStr "b"] = "a-7: " +:+ Quote "b".
Proof. reflexivity. Qed.

Example Sprintf_notes : Sprintf "50%d %s" [VStr "x"] = "50%!d(string=x) %!s(MISSING)".
Proof. reflexivity. Qed.

(** A text without percent signs is its own format. *)
Lemma format_plain bs args :
  37%N ∉ bs -> format bs args = (string_concat (verb_char <$> bs), args).
Proof.
  induction bs as [|b bs IH]; intros H; [done|].
  apply not_elem_of_cons in H as [Hb H]. rewrite fmap_cons. cbn [string_concat].
  rewrite <- (f_equal fst (IH H)) at 1. simpl.
  destruct b as [|p]; [by rewrite IH|].
  do 7 (try destruct p as [p|p|]); try (by rewrite IH); by destruct Hb.
Qed.

Lemma concat_verb_chars bs : string_concat (verb_char <$> bs) = string_of_bytes bs.
Proof.
  induction bs as [|b bs IH]; [done|]. rewrite fmap_cons. cbn [string_concat].
  rewrite IH. reflexivity.
Qed.

Lemma Sprintf_plain s : 37%N ∉ bytes_of s -> Sprintf s [] = s.
Proof.
  intros H. unfold Sprintf. rewrite format_plain by done.
  by rewrite concat_verb_chars, string_of_bytes_of.
Qed.
