(* ===== verification/Regex.v ===== *)
(** * Regular expressions

    The patterns the fleet manager gives to package [regexp] are, once anchored
    with [^] and [$], plain regular expressions over runes: character classes,
    sequence, alternation and repetition.  They are matched here by derivatives;
    [re_match_spec] relates the matcher to the language of the expression. *)

From S2P Require Import Prelude GoString.

Inductive re : Type :=
| RNone
| REps
| RClass (neg : bool) (ranges : list (N * N))
| RSeq (r s : re)
| RAlt (r s : re)
| RStar (r : re).

Definition in_class (neg : bool) (ranges : list (N * N)) (c : rune) : bool :=
  xorb neg (existsb (fun '(lo, hi) => in_range lo hi c) ranges).

Inductive re_lang : re -> list rune -> Prop :=
| LEps : re_lang REps []
| LClass neg ranges c : in_class neg ranges c = true -> re_lang (RClass neg ranges) [c]
| LSeq r s u v : re_lang r u -> re_lang s v -> re_lang (RSeq r s) (u ++ v)
| LAltL r s u : re_lang r u -> re_lang (RAlt r s) u
| LAltR r s u : re_lang s u -> re_lang (RAlt r s) u
| LStarNil r : re_lang (RStar r) []
| LStarCons r c u v : re_lang r (c :: u) -> re_lang (RStar r) v -> re_lang (RStar r) ((c :: u) ++ v).

Fixpoint nullable (r : re) : bool :=
  match r with
  | RNone | RClass _ _ => false
  | REps | RStar _ => true
  | RSeq r s => nullable r && nullable s
  | RAlt r s => nullable r || nullable s
  end.

Fixpoint deriv (c : rune) (r : re) : re :=
  match r with
  | RNone | REps => RNone
  | RClass neg ranges => if in_class neg ranges c then REps else RNone
  | RSeq r s =>
      if nullable r then RAlt (RSeq (deriv c r) s) (deriv c s)
      else RSeq (deriv c r) s
  | RAlt r s => RAlt (deriv c r) (deriv c s)
  | RStar r => RSeq (deriv c r) (RStar r)
  end.

(** Whole-string match. *)
Fixpoint re_match (r : re) (cs : list rune) : bool :=
  match cs with
  | [] => nullable r
  | c :: cs => re_match (deriv c r) cs
  end.

(** [regexp.MatchString("^r$", s)] *)
Definition MatchString (r : re) (s : string) : bool := re_match r (runes s).

(** [FindString] of [r$]: the longest suffix that matches, as runes. *)
Fixpoint find_suffix (r : re) (cs : list rune) : option (list rune) :=
  if re_match r cs then Some cs
  else match cs with [] => None | _ :: cs => find_suffix r cs end.

(** ** Abbreviations for the syntax of package [regexp] *)

Definition ROpt (r : re) : re := RAlt REps r.
Definition RPlus (r : re) : re := RSeq r (RStar r).
Definition chr (c : N) : N * N := (c, c).
Definition RLit (c : N) : re := RClass false [chr c].
Definition ROneOf (ranges : list (N * N)) : re := RClass false ranges.
Definition RNoneOf (ranges : list (N * N)) : re := RClass true ranges.
Definition az : N * N := (97, 122)%N.
Definition AZ : N * N := (65, 90)%N.
Definition digits : N * N := (48, 57)%N.

(** ** Correctness of the matcher *)

Lemma nullable_spec r : nullable r = true <-> re_lang r [].
Proof.
  split.
  - induction r; simpl; intros H; try done; try by constructor.
    + apply andb_true_iff in H as [? ?]. apply (LSeq _ _ [] []); auto.
    + apply orb_true_iff in H as [?|?]; [by apply LAltL, IHr1|by apply LAltR, IHr2].
  - intros H. remember [] as u eqn:Hu. revert Hu.
    induction H; intros Hu; simpl; try done.
    + apply app_eq_nil in Hu as [-> ->]. by rewrite IHre_lang1, IHre_lang2.
    + by rewrite IHre_lang.
    + rewrite IHre_lang by done. by rewrite orb_true_r.
Qed.

Lemma deriv_sound r c u : re_lang (deriv c r) u -> re_lang r (c :: u).
Proof.
  revert u. induction r; simpl; intros u H; try by inversion H.
  - destruct (in_class neg ranges c) eqn:E; inversion H; subst. by constructor.
  - destruct (nullable r1) eqn:E.
    + inversion H; subst.
      * match goal with H : re_lang (RSeq _ _) _ |- _ => inversion H; subst end.
        apply (LSeq _ _ (c :: _)); auto.
      * apply (LSeq _ _ [] (c :: u)); [by apply nullable_spec|auto].
    + inversion H; subst. apply (LSeq _ _ (c :: _)); auto.
  - inversion H; subst; [apply LAltL|apply LAltR]; auto.
  - inversion H; subst. apply (LStarCons _ c); auto.
Qed.

Lemma deriv_complete r c u : re_lang r (c :: u) -> re_lang (deriv c r) u.
Proof.
  intros H. remember (c :: u) as cu eqn:Hcu. revert c u Hcu.
  induction H as [|neg ranges c' Hc|r s v w Hr IHr Hs IHs|r s v Hr IHr|r s v Hs IHs| |r c' v w Hr IHr Hs IHs];
    intros c u Hcu; simpl in *; simplify_eq.
  - rewrite Hc. constructor.
  - destruct v as [|c' v]; simpl in Hcu; simplify_eq.
    + assert (nullable r = true) as -> by by apply nullable_spec.
      apply LAltR. auto.
    + destruct (nullable r); [apply LAltL|]; apply LSeq; auto.
  - apply LAltL. auto.
  - apply LAltR. auto.
  - apply LSeq; auto.
Qed.

Lemma re_match_spec r cs : re_match r cs = true <-> re_lang r cs.
Proof.
  revert r. induction cs as [|c cs IH]; intros r; simpl; [apply nullable_spec|].
  rewrite IH. split; [apply deriv_sound|apply deriv_complete].
Qed.

(** A run of a class: [ [..]* ] *)
Lemma re_star_class neg ranges cs :
  re_lang (RStar (RClass neg ranges)) cs <-> Forall (fun c => in_class neg ranges c = true) cs.
Proof.
  split.
  - intros H. remember (RStar (RClass neg ranges)) as r eqn:Hr. revert Hr.
    induction H; intros Hr; simplify_eq; [by constructor|].
    match goal with H : re_lang (RClass _ _) _ |- _ => inversion H; subst end.
    simpl. constructor; auto.
  - induction 1 as [|c cs Hc H IH]; [constructor|].
    apply (LStarCons _ c []); [by constructor|done].
Qed.

Lemma re_class_seq neg ranges r cs :
  re_lang (RSeq (RClass neg ranges) r) cs <->
  exists c cs', cs = c :: cs' /\ in_class neg ranges c = true /\ re_lang r cs'.
Proof.
  split.
  - intros H. inversion H; subst.
    match goal with H : re_lang (RClass _ _) _ |- _ => inversion H; subst end.
    simpl. eauto.
  - intros (c & cs' & -> & Hc & Hr). apply (LSeq _ _ [c] cs'); [by constructor|done].
Qed.
