(* ===== verification/QueryScanner.v ===== *)
(** * The scanner of search expressions (pkg/services/queryparser/scanner.go)

    [Init] cuts the text of a search query into tokens.  The mutable variables
    of the Go function ([s.tokens], [tokens], [currentTokenType], [quoted],
    [escaped]) are the fields of [scan_state]; [scan_rune] is the body of its
    loop over the runes of the text. *)

From S2P Require Import Prelude GoString.

Inductive TokenType := Op | Brace | Literal | QuotedLiteral | NoToken.

#[export] Instance TokenType_eq_dec : EqDecision TokenType.
Proof. solve_decision. Defined.

Record Token := mkToken {
  tok_TokenType : TokenType;
  tok_Value : string;
  tok_Position : nat
}.

(** ** Init *)

Record scan_state := mkScan {
  sc_out : list Token;
  sc_pending : list Token;
  sc_type : TokenType;
  sc_quoted : bool;
  sc_escaped : bool
}.

Definition scan_start : scan_state := mkScan [] [] NoToken false false.

Definition pending_text (st : scan_state) : string :=
  string_concat (tok_Value <$> sc_pending st).

Definition sendCurrentTokens (st : scan_state) : scan_state :=
  let res := pending_text st in
  let out :=
    match res, sc_pending st with
    | EmptyString, _ => sc_out st
    | _, t :: _ => sc_out st ++ [mkToken (sc_type st) res (tok_Position t)]
    | _, [] => sc_out st
    end in
  mkScan out [] NoToken (sc_quoted st) (sc_escaped st).

Definition push (ty : TokenType) (v : string) (i : nat) (st : scan_state) : scan_state :=
  mkScan (sc_out st) (sc_pending st ++ [mkToken ty v i]) (sc_type st) (sc_quoted st) (sc_escaped st).

Definition emit (t : Token) (st : scan_state) : scan_state :=
  mkScan (sc_out st ++ [t]) (sc_pending st) (sc_type st) (sc_quoted st) (sc_escaped st).

Definition with_type (ty : TokenType) (st : scan_state) : scan_state :=
  mkScan (sc_out st) (sc_pending st) ty (sc_quoted st) (sc_escaped st).

Definition with_quoted (q : bool) (st : scan_state) : scan_state :=
  mkScan (sc_out st) (sc_pending st) (sc_type st) q (sc_escaped st).

Definition with_escaped (e : bool) (st : scan_state) : scan_state :=
  mkScan (sc_out st) (sc_pending st) (sc_type st) (sc_quoted st) e.

(** [currentTokenType != NoToken && currentTokenType != Op] *)
Definition breaks_op (ty : TokenType) : bool :=
  negb (bool_decide (ty = NoToken)) && negb (bool_decide (ty = Op)).

(** [currentTokenType != NoToken && ... != Literal && ... != QuotedLiteral] *)
Definition breaks_literal (ty : TokenType) : bool :=
  negb (bool_decide (ty = NoToken)) && negb (bool_decide (ty = Literal))
  && negb (bool_decide (ty = QuotedLiteral)).

Definition sp : rune := 32%N.
Definition quote : rune := 39%N.
Definition lparen : rune := 40%N.
Definition rparen : rune := 41%N.
Definition lt_sign : rune := 60%N.
Definition eq_sign : rune := 61%N.
Definition gt_sign : rune := 62%N.
Definition backslash : rune := 92%N.

Definition scan_rune (st : scan_state) (ic : nat * rune) : scan_state :=
  let '(i, c) := ic in
  if bool_decide (c = sp) then
    if sc_quoted st then push Literal " " i st else sendCurrentTokens st
  else if bool_decide (c = lparen) || bool_decide (c = rparen) then
    emit (mkToken Brace (encode_rune c) i) (sendCurrentTokens st)
  else if bool_decide (c = eq_sign) || bool_decide (c = lt_sign) || bool_decide (c = gt_sign) then
    let st := if breaks_op (sc_type st) then sendCurrentTokens st else st in
    with_type Op (push Op (encode_rune c) i st)
  else if bool_decide (c = backslash) then
    if sc_quoted st then push QuotedLiteral "\" i (with_escaped true st)
    else
      let st := if breaks_literal (sc_type st) then sendCurrentTokens st else st in
      push Literal "\" i (with_type Literal st)
  else if bool_decide (c = quote) then
    if sc_quoted st then
      let st := push QuotedLiteral "'" i st in
      let st := if sc_escaped st then st
                else with_type NoToken (with_quoted false (sendCurrentTokens st)) in
      with_escaped false st
    else
      push Op "'" i (with_type QuotedLiteral (with_quoted true (sendCurrentTokens st)))
  else
    let st := if breaks_literal (sc_type st) then sendCurrentTokens st else st in
    push Literal (encode_rune c) i (with_type Literal st).

Definition scan_runes (st : scan_state) (ics : list (nat * rune)) : scan_state :=
  foldl scan_rune st ics.

(** The tokens [Init] leaves in the scanner. *)
Definition Init (txt : string) : list Token :=
  sc_out (sendCurrentTokens (scan_runes scan_start (range_string txt))).

(** ** Next, Peek, Token *)

Record scanner := mkScanner { s_tokens : list Token; s_pos : Z }.

Definition NewScanner (txt : string) : scanner := mkScanner (Init txt) (-1).

Definition Next (s : scanner) : bool * scanner :=
  if bool_decide (s_pos s < Z.of_nat (length (s_tokens s)) - 1)%Z
  then (true, mkScanner (s_tokens s) (s_pos s + 1))
  else (false, s).

(** [None] is the panic on an invalid position. *)
Definition cur_Token (s : scanner) : option Token :=
  if bool_decide (s_pos s < 0)%Z then None else s_tokens s !! Z.to_nat (s_pos s).

Definition Peek (s : scanner) : option Token :=
  if bool_decide (s_pos s < Z.of_nat (length (s_tokens s)) - 1)%Z
  then s_tokens s !! Z.to_nat (s_pos s + 1) else None.

(** ** What the scanner keeps

    [visible q e rs] is the input without the spaces outside quotes: [q] tells
    whether a quoted value is open, [e] whether a backslash was seen in it since
    its last quote. *)
Fixpoint visible (q e : bool) (rs : list rune) : list rune :=
  match rs with
  | [] => []
  | c :: rs =>
      if bool_decide (c = sp) then
        if q then c :: visible q e rs else visible q e rs
      else if bool_decide (c = backslash) then c :: visible q (e || q) rs
      else if bool_decide (c = quote) then
        if q then c :: visible e false rs else c :: visible true e rs
      else c :: visible q e rs
  end.

(** ** Lemmas *)

Definition out_text (st : scan_state) : string := string_concat (tok_Value <$> sc_out st).

(** Everything scanned so far: the tokens sent and the pending ones. *)
Definition scan_text (st : scan_state) : string := String.append (out_text st) (pending_text st).

Lemma scan_text_send st : scan_text (sendCurrentTokens st) = scan_text st.
Proof.
  unfold scan_text, sendCurrentTokens, out_text, pending_text. simpl.
  destruct (sc_pending st) as [|t ts] eqn:E; simpl.
  - by destruct (string_concat _).
  - destruct (String.append (tok_Value t) _) eqn:Et; simpl.
    + done.
    + rewrite fmap_app, string_concat_app. simpl. by rewrite !string_append_nil_r.
Qed.

Lemma scan_text_push ty v i st : scan_text (push ty v i st) = String.append (scan_text st) v.
Proof.
  unfold scan_text, out_text, pending_text, push; simpl.
  rewrite fmap_app, string_concat_app; simpl.
  by rewrite string_append_nil_r, string_append_assoc.
Qed.

Lemma scan_text_emit t st :
  sc_pending st = [] -> scan_text (emit t st) = String.append (scan_text st) (tok_Value t).
Proof.
  intros H. unfold scan_text, out_text, pending_text, emit; simpl. rewrite H; simpl.
  rewrite fmap_app, string_concat_app; simpl. by rewrite !string_append_nil_r.
Qed.

Lemma scan_text_type ty st : scan_text (with_type ty st) = scan_text st. Proof. done. Qed.
Lemma scan_text_quoted q st : scan_text (with_quoted q st) = scan_text st. Proof. done. Qed.
Lemma scan_text_escaped e st : scan_text (with_escaped e st) = scan_text st. Proof. done. Qed.

Lemma encode_sp : encode_rune sp = " ". Proof. reflexivity. Qed.
Lemma encode_backslash : encode_rune backslash = "\". Proof. reflexivity. Qed.
Lemma encode_quote : encode_rune quote = "'". Proof. reflexivity. Qed.

(** One iteration appends the rune, or drops a space outside quotes. *)
Lemma scan_rune_visible st i c rs :
  let st' := scan_rune st (i, c) in
  String.append (scan_text st) (encode_runes (visible (sc_quoted st) (sc_escaped st) (c :: rs))) =
  String.append (scan_text st') (encode_runes (visible (sc_quoted st') (sc_escaped st') rs)).
Proof.
  unfold scan_rune. simpl visible.
  destruct (bool_decide (c = sp)) eqn:Hsp.
  { apply bool_decide_eq_true in Hsp as ->. destruct (sc_quoted st) eqn:Hq; simpl.
    - rewrite scan_text_push. unfold encode_runes; simpl. rewrite Hq.
      by rewrite <- string_append_assoc.
    - by rewrite scan_text_send, Hq. }
  destruct (bool_decide (c = backslash)) eqn:Hbs.
  { apply bool_decide_eq_true in Hbs as ->. simpl.
    destruct (sc_quoted st) eqn:Hq; simpl.
    - rewrite scan_text_push, scan_text_escaped, Hq, orb_true_r. unfold encode_runes; simpl.
      by rewrite <- string_append_assoc.
    - rewrite scan_text_push, scan_text_type, orb_false_r.
      destruct (breaks_literal _); simpl; rewrite ?scan_text_send, Hq; unfold encode_runes; simpl;
        by rewrite <- string_append_assoc. }
  destruct (bool_decide (c = quote)) eqn:Hqt.
  { apply bool_decide_eq_true in Hqt as ->. simpl.
    destruct (sc_quoted st) eqn:Hq; simpl.
    - destruct (sc_escaped st) eqn:He; simpl;
        rewrite ?scan_text_escaped, ?scan_text_type, ?scan_text_quoted, ?scan_text_send, scan_text_push, ?Hq;
        unfold encode_runes; simpl; by rewrite <- string_append_assoc.
    - rewrite scan_text_push, scan_text_type, scan_text_quoted, scan_text_send.
      unfold encode_runes; simpl. by rewrite <- string_append_assoc. }
  assert (encode_runes (c :: visible (sc_quoted st) (sc_escaped st) rs) =
          String.append (encode_rune c) (encode_runes (visible (sc_quoted st) (sc_escaped st) rs)))
    as -> by done.
  destruct (bool_decide (c = lparen) || bool_decide (c = rparen)) eqn:Hbr.
  { rewrite scan_text_emit by done. rewrite scan_text_send. simpl. by rewrite <- string_append_assoc. }
  destruct (bool_decide (c = eq_sign) || bool_decide (c = lt_sign) || bool_decide (c = gt_sign)).
  { rewrite scan_text_type, scan_text_push. destruct (breaks_op _); simpl;
      rewrite ?scan_text_send; by rewrite <- string_append_assoc. }
  rewrite scan_text_push, scan_text_type. destruct (breaks_literal _); simpl;
    rewrite ?scan_text_send; by rewrite <- string_append_assoc.
Qed.

Lemma scan_runes_visible ics st :
  String.append (scan_text st) (encode_runes (visible (sc_quoted st) (sc_escaped st) ics.*2)) =
  scan_text (scan_runes st ics).
Proof.
  revert st. induction ics as [|[i c] ics IH]; intros st.
  - simpl. unfold encode_runes; simpl. by rewrite string_append_nil_r.
  - simpl fmap. rewrite (scan_rune_visible st i c). apply IH.
Qed.

(** Every token the scanner sends has a non-empty value. *)
Definition tokens_nonempty (st : scan_state) : Prop :=
  Forall (fun t => tok_Value t <> EmptyString) (sc_out st).

Lemma send_nonempty st : tokens_nonempty st -> tokens_nonempty (sendCurrentTokens st).
Proof.
  unfold tokens_nonempty, sendCurrentTokens; simpl. intros H.
  destruct (pending_text st) eqn:E; [done|].
  destruct (sc_pending st); [done|]. apply Forall_app. split; [done|].
  by constructor.
Qed.

Lemma encode_rune_nonempty c : encode_rune c <> EmptyString.
Proof.
  unfold encode_rune. repeat case_match; simpl; intros Habs; by discriminate Habs.
Qed.

Lemma scan_rune_nonempty st ic : tokens_nonempty st -> tokens_nonempty (scan_rune st ic).
Proof.
  intros H. pose proof (send_nonempty st H) as Hs. destruct ic as [i c]. unfold scan_rune.
  repeat match goal with
  | |- tokens_nonempty (if ?b then _ else _) => destruct b
  end; try done; cbv zeta.
  - unfold tokens_nonempty; simpl. apply Forall_app. split; [done|].
    constructor; [apply encode_rune_nonempty|done].
  - by destruct (breaks_op _).
  - by destruct (breaks_literal _).
  - destruct (sc_escaped _); [done|].
    by apply (send_nonempty (push QuotedLiteral "'" i st)).
  - by destruct (breaks_literal _).
Qed.

Lemma Init_nonempty txt : Forall (fun t => tok_Value t <> EmptyString) (Init txt).
Proof.
  unfold Init. apply send_nonempty. unfold scan_runes.
  assert (tokens_nonempty scan_start) as Hst by constructor. revert Hst.
  generalize scan_start. induction (range_string txt) as [|ic ics IH]; intros st Hst; [done|].
  simpl. by apply IH, scan_rune_nonempty.
Qed.

(** The tokens, read one after the other, spell the input without the spaces
    outside quotes. *)
Lemma Init_text txt :
  string_concat (tok_Value <$> Init txt) = encode_runes (visible false false (runes txt)).
Proof.
  unfold Init. set (st := scan_runes scan_start (range_string txt)).
  assert (out_text (sendCurrentTokens st) = scan_text st) as Heq.
  { rewrite <- scan_text_send. unfold scan_text at 1. unfold pending_text. simpl.
    by rewrite string_append_nil_r. }
  unfold out_text in Heq. rewrite Heq. unfold st. rewrite <- scan_runes_visible. done.
Qed.
