(* ===== verification/QueryParser.v ===== *)
(** * The parser of search expressions (pkg/services/queryparser)

    [statemachine.go], [statemachine_builder.go] and [query_parser.go]: a
    grammar of tokens and transitions is compiled to a state machine, which the
    parser runs over the scanner's tokens while [onNewToken] builds the SQL
    condition and its bind values.

    A [*state] pointer is modelled by the key under which [Build] stores it in
    its token map, so that the [next] lists alias the states of the map as the
    Go pointers do. *)

From S2P Require Import Prelude GoString Regex QueryScanner.
Local Open Scope string_scope.

(** ** States (statemachine.go) *)

Record state := mkState {
  st_tokenName : string;
  st_family : string;
  st_acceptPattern : re;
  st_last : bool;
  st_isEOF : bool;
  st_next : list string;
  st_onNewToken : bool
}.

Definition NewStartState : state := mkState "START" "" REps false false [] false.

Definition NewEndState : state := mkState "END" "" (RStar (RNoneOf [])) false true [] false.

Definition accept (s : state) (tok : string) : bool := MatchString (st_acceptPattern s) tok.

Definition addNextState (s : state) (key : string) (n : state) : state :=
  if st_isEOF n
  then mkState (st_tokenName s) (st_family s) (st_acceptPattern s) true (st_isEOF s)
         (st_next s) (st_onNewToken s)
  else mkState (st_tokenName s) (st_family s) (st_acceptPattern s) (st_last s) (st_isEOF s)
         (st_next s ++ [key]) (st_onNewToken s).

(** ** The builder (statemachine_builder.go) *)

Definition StartState : string := "__$$_START_$$__".
Definition EndState : string := "__$$_END_$$__".

Record TokenDefinition := mkTokenDef {
  td_Name : string;
  td_Family : string;
  td_AcceptPattern : re
}.

Record TransitionDefinition := mkTransition {
  tr_TokenName : string;
  tr_ValidTransitions : list string
}.

Record Grammar := mkGrammar {
  g_Tokens : list TokenDefinition;
  g_Transitions : list TransitionDefinition
}.

Definition build_token (t : TokenDefinition) : state :=
  mkState (td_Name t) (td_Family t) (td_AcceptPattern t) false false [] true.

(** [None]: a transition names a token the grammar does not define (nil dereference). *)
Definition add_transition (from : string) (tm : option (gmap string state)) (to : string)
    : option (gmap string state) :=
  m ← tm;
  s ← m !! from;
  n ← m !! to;
  Some (<[from := addNextState s to n]> m).

Definition Build (g : Grammar) : option (gmap string state) :=
  let m0 := <[EndState := NewEndState]> (<[StartState := NewStartState]> ∅) in
  let m1 := foldl (fun m t => <[td_Name t := build_token t]> m) m0 (g_Tokens g) in
  foldl (fun m tr => foldl (add_transition (tr_TokenName tr)) m (tr_ValidTransitions tr))
    (Some m1) (g_Transitions g).

(** ** The grammar of search expressions (query_parser.go) *)

Definition BraceTokenFamily := "BRACE".
Definition OpTokenFamily := "OP".
Definition LogicalOpTokenFamily := "LOGICAL".
Definition ColumnTokenFamily := "COLUMN".
Definition ValueTokenFamily := "VALUE".
Definition QuotedValueTokenFamily := "QUOTED".

Definition OpenBrace := "OPEN_BRACE".
Definition ClosedBrace := "CLOSED_BRACE".
Definition Column := "COLUMN".
Definition Value := "VALUE".
Definition QuotedValue := "QUOTED_VALUE".
Definition Eq := "EQ".
Definition NotEq := "NOT_EQ".
Definition LikeState := "LIKE".
Definition AndState := "AND".
Definition OrState := "OR".

Definition validColumns : list string := ["region"; "name"; "cloud_provider"; "status"; "owner"].

Definition MaximumComplexity : Z := 10.

Local Open Scope N_scope.

(** [[A-Za-z][A-Za-z0-9_]*] *)
Definition column_re : re := RSeq (ROneOf [AZ; az]) (RStar (ROneOf [AZ; az; digits; chr 95])).
(** [[^'][^ ^(^)]*]: inside a class only the first caret negates. *)
Definition value_re : re := RSeq (RNoneOf [chr 39]) (RStar (RNoneOf [chr 32; chr 94; chr 40; chr 41])).
(** ['([^']|\\')*'] *)
Definition quoted_re : re :=
  RSeq (RLit 39) (RSeq (RStar (RAlt (RNoneOf [chr 39]) (RSeq (RLit 92) (RLit 39)))) (RLit 39)).
Definition eq_re : re := RLit 61.
Definition noteq_re : re := RSeq (RLit 60) (RLit 62).
Definition letter_re (upper : N) : re := ROneOf [chr upper; chr (upper + 32)].
(** [[Ll][Ii][Kk][Ee]] *)
Definition like_re : re :=
  RSeq (letter_re 76) (RSeq (letter_re 73) (RSeq (letter_re 75) (letter_re 69))).
Definition and_re : re := RSeq (letter_re 65) (RSeq (letter_re 78) (letter_re 68)).
Definition or_re : re := RSeq (letter_re 79) (letter_re 82).

Local Open Scope string_scope.

Definition grammar : Grammar := mkGrammar
  [ mkTokenDef OpenBrace BraceTokenFamily (RLit 40);
    mkTokenDef ClosedBrace BraceTokenFamily (RLit 41);
    mkTokenDef Column ColumnTokenFamily column_re;
    mkTokenDef Value ValueTokenFamily value_re;
    mkTokenDef QuotedValue QuotedValueTokenFamily quoted_re;
    mkTokenDef Eq OpTokenFamily eq_re;
    mkTokenDef NotEq OpTokenFamily noteq_re;
    mkTokenDef LikeState OpTokenFamily like_re;
    mkTokenDef AndState LogicalOpTokenFamily and_re;
    mkTokenDef OrState LogicalOpTokenFamily or_re ]
  [ mkTransition StartState [Column; OpenBrace];
    mkTransition OpenBrace [Column; OpenBrace];
    mkTransition Column [Eq; NotEq; LikeState];
    mkTransition Eq [QuotedValue; Value];
    mkTransition NotEq [QuotedValue; Value];
    mkTransition LikeState [QuotedValue; Value];
    mkTransition QuotedValue [OrState; AndState; ClosedBrace; EndState];
    mkTransition Value [OrState; AndState; ClosedBrace; EndState];
    mkTransition ClosedBrace [OrState; AndState; ClosedBrace; EndState];
    mkTransition AndState [Column; OpenBrace];
    mkTransition OrState [Column; OpenBrace] ].

(** ** The token handler *)

Record ParsedToken := mkParsed { pt_tokenName : string; pt_family : string; pt_value : string }.

(** [p.dbqry] and the counters captured by the closures of [initStateMachine]. *)
Record qstate := mkQ {
  q_Query : string;
  q_Values : list string;
  q_complexity : Z;
  q_openBraces : Z
}.

Definition q_init : qstate := mkQ "" [] 0 0.

Inductive qerr := QErr (msg : string) | QPanic.

Definition add_query (piece : string) (h : qstate) : qstate :=
  mkQ (q_Query h +:+ piece) (q_Values h) (q_complexity h) (q_openBraces h).

Definition add_value (v : string) (h : qstate) : qstate :=
  mkQ (q_Query h) (q_Values h ++ [v]) (q_complexity h) (q_openBraces h).

Definition countOpenBraces (tok : string) (h : qstate) : result qerr qstate :=
  let n := if bool_decide (tok = "(") then (q_openBraces h + 1)%Z
           else if bool_decide (tok = ")") then (q_openBraces h - 1)%Z
           else q_openBraces h in
  let h := mkQ (q_Query h) (q_Values h) (q_complexity h) n in
  if bool_decide (n < 0)%Z then Err (QErr "unexpected ')'") else Ok h.

(** Unescape and remove the quotes.  The slice [[]rune(tmp)[1:len(tmp)-1]] takes
    its upper bound from the number of bytes: Go checks it against the capacity
    of the rune slice, which the language leaves to the implementation
    ([rune_cap n] for [n] runes), and panics beyond. *)
Definition unquote (rune_cap : nat -> nat) (v : string) : result qerr string :=
  let tmp := ReplaceAll2 (Ascii.ascii_of_N 92) (Ascii.ascii_of_N 39) "'" v in
  if (1 <? String.length tmp)%nat then
    let rs := runes tmp in
    let high := (String.length tmp - 1)%nat in
    let cap := rune_cap (length rs) in
    if (high <=? cap)%nat
    then Ok (encode_runes (take (high - 1) (drop 1 (rs ++ replicate (cap - length rs) 0%N))))
    else Err QPanic
  else Ok tmp.

Definition onNewToken (rune_cap : nat -> nat) (columns : list string)
    (token : ParsedToken) (h : qstate) : result qerr qstate :=
  let v := pt_value token in
  let f := pt_family token in
  if bool_decide (f = BraceTokenFamily) then
    h ← countOpenBraces v h;
    Ok (add_query v h)
  else if bool_decide (f = ValueTokenFamily) then
    Ok (add_value v (add_query " ?" h))
  else if bool_decide (f = QuotedValueTokenFamily) then
    tmp ← unquote rune_cap v;
    Ok (add_value tmp (add_query " ?" h))
  else if bool_decide (f = LogicalOpTokenFamily) then
    let c := (q_complexity h + 1)%Z in
    let h := mkQ (q_Query h) (q_Values h) c (q_openBraces h) in
    if bool_decide (c > MaximumComplexity)%Z
    then Err (QErr ("maximum number of permitted joins (" +:+ pretty MaximumComplexity +:+ ") exceeded"))
    else Ok (add_query (" " +:+ v +:+ " ") h)
  else if bool_decide (f = ColumnTokenFamily) then
    let columnName := ToLower v in
    if bool_decide (columnName ∈ columns)
    then Ok (add_query columnName h)
    else Err (QErr ("invalid column name: '" +:+ v +:+ "'"))
  else Ok (add_query (" " +:+ v) h).

(** ** Running the machine *)

Definition machine : option (gmap string state) := Build grammar.

(** [state.parse]: the first next state that accepts the token. *)
Fixpoint parse_next (cap : nat -> nat) (columns : list string) (m : gmap string state)
    (nexts : list string) (tok : string) (h : qstate) : result qerr (string * qstate) :=
  match nexts with
  | [] => Err (QErr ("Unexpected Token `" +:+ tok +:+ "`"))
  | key :: nexts =>
      match m !! key with
      | None => Err QPanic
      | Some n =>
          if accept n tok then
            if st_onNewToken n then
              h ← onNewToken cap columns (mkParsed (st_tokenName n) (st_family n) tok) h;
              Ok (key, h)
            else Ok (key, h)
          else parse_next cap columns m nexts tok h
      end
  end.

Definition parse (cap : nat -> nat) (columns : list string) (m : gmap string state)
    (key : string) (tok : string) (h : qstate) : result qerr (string * qstate) :=
  match m !! key with
  | None => Err QPanic
  | Some s => parse_next cap columns m (st_next s) tok h
  end.

Definition wrap_parse_error (t : Token) (e : qerr) : qerr :=
  match e with
  | QPanic => QPanic
  | QErr msg =>
      QErr ("[" +:+ pretty (N.of_nat (tok_Position t + 1)) +:+ "] error parsing the filter: " +:+ msg)
  end.

(** The loop [for scanner.Next() { ... }]; each iteration consumes a token. *)
Fixpoint parse_loop (fuel : nat) (cap : nat -> nat) (columns : list string) (m : gmap string state)
    (s : scanner) (key : string) (h : qstate) : result qerr (string * qstate) :=
  match fuel with
  | O => Err QPanic
  | S fuel =>
      let '(more, s) := Next s in
      if more then
        match cur_Token s with
        | None => Err QPanic
        | Some t =>
            match parse cap columns m key (tok_Value t) h with
            | Err e => Err (wrap_parse_error t e)
            | Ok (key, h) => parse_loop fuel cap columns m s key h
            end
        end
      else Ok (key, h)
  end.

Definition eof (m : gmap string state) (key : string) : result qerr unit :=
  match m !! key with
  | None => Err QPanic
  | Some s =>
      if st_last s then Ok tt
      else Err (QErr "unexpected EOF during parsing of database query: EOF encountered while parsing string")
  end.

Definition checkUnbalancedBraces (h : qstate) : result qerr unit :=
  if bool_decide (q_openBraces h > 0)%Z
  then Err (QErr "EOF while searching for closing brace ')'")
  else Ok tt.

Record DBQuery := mkDBQuery { dq_Query : string; dq_Values : list string; dq_ValidColumns : list string }.

(** One more iteration than there are tokens: the last [Next] returns false. *)
Definition parse_fuel (sql : string) : nat := S (length (Init sql)).

Definition Parse (cap : nat -> nat) (columns : list string) (sql : string) : result qerr DBQuery :=
  match machine with
  | None => Err QPanic
  | Some m =>
      '(key, h) ← parse_loop (parse_fuel sql) cap columns m (NewScanner sql) StartState q_init;
      _ ← eof m key;
      _ ← checkUnbalancedBraces h;
      Ok (mkDBQuery (Trim (Ascii.ascii_of_N 32) (q_Query h)) (q_Values h) columns)
  end.

(** [NewQueryParser(columns...).Parse(sql)] *)
Definition NewQueryParser (columns : list string) : list string :=
  match columns with [] => validColumns | _ => columns end.
