(* ===== verification/QueryParserFacts.v ===== *)
(** * Properties of the search-expression parser

    The state machine built by [Build] is related to a table of token kinds
    ([valid_next]); accepted inputs are runs of that table ([qrun]).  On the
    runs: the SQL text is made of a fixed vocabulary with one placeholder per
    bind value, the braces balance, the number of joins is bounded, and the
    accepted kind sequences are exactly the sentences of the expression grammar
    [expr]. *)

From S2P Require Import Prelude GoString Regex QueryScanner QueryParser.
Local Open Scope string_scope.

(** ** The machine as a table *)

Inductive kind :=
| KStart | KOpen | KClose | KColumn | KEq | KNotEq | KLike | KValue | KQuoted | KAnd | KOr.

#[export] Instance kind_eq_dec : EqDecision kind.
Proof. solve_decision. Defined.

Definition key (k : kind) : string :=
  match k with
  | KStart => StartState | KOpen => OpenBrace | KClose => ClosedBrace | KColumn => Column
  | KEq => Eq | KNotEq => NotEq | KLike => LikeState | KValue => Value
  | KQuoted => QuotedValue | KAnd => AndState | KOr => OrState
  end.

Definition family (k : kind) : string :=
  match k with
  | KStart => "" | KOpen | KClose => BraceTokenFamily | KColumn => ColumnTokenFamily
  | KEq | KNotEq | KLike => OpTokenFamily | KValue => ValueTokenFamily
  | KQuoted => QuotedValueTokenFamily | KAnd | KOr => LogicalOpTokenFamily
  end.

Definition pattern (k : kind) : re :=
  match k with
  | KStart => REps | KOpen => RLit 40 | KClose => RLit 41 | KColumn => column_re
  | KEq => eq_re | KNotEq => noteq_re | KLike => like_re | KValue => value_re
  | KQuoted => quoted_re | KAnd => and_re | KOr => or_re
  end.

Definition valid_next (k : kind) : list kind :=
  match k with
  | KStart | KOpen | KAnd | KOr => [KColumn; KOpen]
  | KColumn => [KEq; KNotEq; KLike]
  | KEq | KNotEq | KLike => [KQuoted; KValue]
  | KQuoted | KValue | KClose => [KOr; KAnd; KClose]
  end.

Definition may_end (k : kind) : bool :=
  match k with KQuoted | KValue | KClose => true | _ => false end.

Definition token_name (k : kind) : string :=
  match k with KStart => "START" | _ => key k end.

Definition state_of (k : kind) : state :=
  mkState (token_name k) (family k) (pattern k) (may_end k) false (key <$> valid_next k)
    (bool_decide (k <> KStart)).

(** The machine [Build] returns: it exists, and its states are those of the table. *)
Definition the_machine : gmap string state :=
  match machine with Some m => m | None => ∅ end.

Lemma machine_built : machine = Some the_machine.
Proof.
  assert (bool_decide (is_Some machine) = true) as H by (vm_compute; reflexivity).
  unfold the_machine. apply bool_decide_eq_true in H as [m Hm]. by rewrite Hm.
Qed.

Lemma machine_lookup k : the_machine !! key k = Some (state_of k).
Proof. destruct k; vm_compute; reflexivity. Qed.

#[global] Opaque the_machine.

(** ** Runs *)

Section Runs.
Context (cap : nat -> nat) (columns : list string).

Definition handle (k : kind) (tok : string) (h : qstate) : result qerr qstate :=
  onNewToken cap columns (mkParsed (token_name k) (family k) tok) h.

Inductive qrun : kind -> qstate -> list (kind * string) -> kind -> qstate -> Prop :=
| qrun_nil k h : qrun k h [] k h
| qrun_cons k h k1 tok h1 ts k2 h2 :
    k1 ∈ valid_next k ->
    MatchString (pattern k1) tok = true ->
    handle k1 tok h = Ok h1 ->
    qrun k1 h1 ts k2 h2 ->
    qrun k h ((k1, tok) :: ts) k2 h2.

Lemma parse_next_run ks tok h key' h' :
  KStart ∉ ks ->
  parse_next cap columns the_machine (key <$> ks) tok h = Ok (key', h') ->
  exists k, k ∈ ks /\ key' = key k /\ MatchString (pattern k) tok = true /\ handle k tok h = Ok h'.
Proof.
  induction ks as [|k ks IH]; intros Hks H; [done|].
  simpl in H. rewrite machine_lookup in H.
  apply not_elem_of_cons in Hks as [Hk Hks].
  unfold accept in H. simpl in H.
  destruct (MatchString (pattern k) tok) eqn:Hm.
  - rewrite bool_decide_eq_true_2 in H by done.
    apply bind_Ok in H as (h1 & Hh & Heq). simplify_eq.
    exists k. split_and!; [by left|done|done|exact Hh].
  - destruct (IH Hks H) as (k' & ? & ? & ? & ?). exists k'. split_and!; try done. by right.
Qed.

Lemma valid_next_start k : KStart ∉ valid_next k.
Proof. destruct k; simpl; set_solver. Qed.

Lemma parse_run k tok h key' h' :
  parse cap columns the_machine (key k) tok h = Ok (key', h') ->
  exists k1, k1 ∈ valid_next k /\ key' = key k1 /\
    MatchString (pattern k1) tok = true /\ handle k1 tok h = Ok h'.
Proof.
  unfold parse. rewrite machine_lookup. intros H.
  apply parse_next_run in H; [done|apply valid_next_start].
Qed.

(** *** The loop visits every token once, in order. *)

Fixpoint parse_tokens (ts : list Token) (ky : string) (h : qstate)
    : result qerr (string * qstate) :=
  match ts with
  | [] => Ok (ky, h)
  | t :: ts =>
      match parse cap columns the_machine ky (tok_Value t) h with
      | Err e => Err (wrap_parse_error t e)
      | Ok (ky, h) => parse_tokens ts ky h
      end
  end.

Lemma parse_loop_tokens pre post ky h fuel :
  (length post < fuel)%nat ->
  parse_loop fuel cap columns the_machine
    (mkScanner (pre ++ post) (Z.of_nat (length pre) - 1)) ky h = parse_tokens post ky h.
Proof.
  revert pre ky h fuel. induction post as [|t post IH]; intros pre ky h fuel Hf.
  - destruct fuel; simpl in *; [lia|]. unfold Next; simpl. rewrite app_nil_r.
    by rewrite bool_decide_eq_false_2 by lia.
  - destruct fuel; simpl in Hf; [lia|]. simpl. unfold Next; simpl.
    rewrite length_app. simpl. rewrite bool_decide_eq_true_2 by lia.
    unfold cur_Token. simpl. rewrite bool_decide_eq_false_2 by lia.
    replace (Z.to_nat (Z.of_nat (length pre) - 1 + 1)) with (length pre) by lia.
    rewrite list_lookup_middle by done.
    destruct (parse _ _ _ _ _ _) as [[ky' h']|e] eqn:E; [|done].
    rewrite <- (IH (pre ++ [t])%list ky' h' fuel) by (simpl; lia).
    rewrite <- app_assoc. simpl. f_equal. f_equal. rewrite length_app. simpl. lia.
Qed.

Lemma parse_tokens_run ts k h key' h' :
  parse_tokens ts (key k) h = Ok (key', h') ->
  exists kts k', key' = key k' /\ kts.*2 = tok_Value <$> ts /\ qrun k h kts k' h'.
Proof.
  revert k h. induction ts as [|t ts IH]; intros k h H; simpl in H.
  - simplify_eq. exists [], k. split_and!; try done. constructor.
  - destruct (parse _ _ _ _ _ _) as [[ky h1]|e] eqn:E; [|done].
    destruct (parse_run _ _ _ _ _ E) as (k1 & Hk & -> & Hm & Hh).
    destruct (IH _ _ H) as (kts & k' & -> & Hts & Hr).
    exists ((k1, tok_Value t) :: kts), k'. split_and!; [done|by rewrite fmap_cons, Hts|].
    by econstructor.
Qed.

(** An accepted text is a run from the start state to a final one, with no open
    brace left. *)
Lemma Parse_run sql q :
  Parse cap columns sql = Ok q ->
  exists kts k h,
    kts.*2 = tok_Value <$> Init sql /\
    qrun KStart q_init kts k h /\ may_end k = true /\ (q_openBraces h <= 0)%Z /\
    q = mkDBQuery (Trim (Ascii.ascii_of_N 32) (q_Query h)) (q_Values h) columns.
Proof.
  unfold Parse. rewrite machine_built. intros H.
  apply bind_Ok in H as ([ky h] & Hloop & H).
  unfold NewScanner, parse_fuel in Hloop.
  pose proof (parse_loop_tokens [] (Init sql) StartState q_init (S (length (Init sql))) ltac:(lia))
    as Hl.
  change (mkScanner ([] ++ Init sql)%list (Z.of_nat (length []) - 1))
    with (mkScanner (Init sql) (-1)) in Hl.
  rewrite Hl in Hloop.
  destruct (parse_tokens_run _ KStart _ _ _ Hloop) as (kts & k & -> & Hts & Hr).
  apply bind_Ok in H as ([] & Heof & H). apply bind_Ok in H as ([] & Hbr & H).
  exists kts, k, h. unfold eof in Heof. rewrite machine_lookup in Heof. simpl in Heof.
  unfold checkUnbalancedBraces in Hbr. case_bool_decide; [done|].
  destruct (may_end k); [|done]. split_and!; [done|done|done|lia|by simplify_eq].
Qed.

End Runs.

(** ** What a token of each kind looks like *)

Lemma re_class_single neg ranges cs :
  re_lang (RClass neg ranges) cs <-> exists c, cs = [c] /\ in_class neg ranges c = true.
Proof.
  split.
  - intros H. inversion H; subst. eauto.
  - intros (c & -> & Hc). by constructor.
Qed.

Lemma in_range_chr c x : in_range x x c = true -> c = x.
Proof. unfold in_range. rewrite andb_true_iff, !N.leb_le. lia. Qed.

Lemma in_class_chr c x : in_class false [chr x] c = true -> c = x.
Proof. unfold in_class; simpl. rewrite orb_false_r. apply in_range_chr. Qed.

Lemma in_class_chr2 c x y : in_class false [chr x; chr y] c = true -> c = x \/ c = y.
Proof.
  unfold in_class; simpl. rewrite orb_false_r, orb_true_iff.
  intros [H|H]; apply in_range_chr in H; auto.
Qed.

(** The text of a keyword, operator or brace token is determined, up to the
    case of its letters. *)
Definition kind_text (k : kind) : option string :=
  match k with
  | KOpen => Some "(" | KClose => Some ")" | KEq => Some "=" | KNotEq => Some "<>"
  | KLike => Some "like" | KAnd => Some "and" | KOr => Some "or"
  | _ => None
  end.

(** Closes [Forall (fun r => r < 128) rs] for a concrete [rs]. *)
Ltac ascii_runes := apply (bool_decide_unpack _); vm_compute; exact I.

Ltac invert_classes :=
  repeat match goal with
  | H : re_lang (RSeq (RClass _ _) _) _ |- _ =>
      apply re_class_seq in H as (? & ? & ? & ? & ?); simplify_eq
  | H : re_lang (RClass _ _) _ |- _ =>
      apply re_class_single in H as (? & ? & ?); simplify_eq
  | H : in_class false [chr _] _ = true |- _ => apply in_class_chr in H; subst
  | H : in_class false [chr _; chr _] _ = true |- _ => apply in_class_chr2 in H as [-> | ->]
  end.

Lemma kind_text_match k tok t :
  kind_text k = Some t -> MatchString (pattern k) tok = true -> ToLower tok = t.
Proof.
  unfold MatchString. rewrite re_match_spec. intros Hk H.
  assert (Forall (fun r => r < 128)%N (runes tok) -> tok = string_of_bytes (runes tok)) as Htok
    by apply runes_ascii_inv.
  remember (runes tok) as rs eqn:Hrs. clear Hrs.
  destruct k; simpl in Hk, H; simplify_eq;
    unfold eq_re, noteq_re, like_re, and_re, or_re, letter_re, ROneOf, RLit in H;
    invert_classes; rewrite Htok by ascii_runes; reflexivity.
Qed.

Lemma brace_text k tok :
  (k = KOpen \/ k = KClose) -> MatchString (pattern k) tok = true ->
  kind_text k = Some tok.
Proof.
  unfold MatchString. rewrite re_match_spec. intros Hk H.
  assert (Forall (fun r => r < 128)%N (runes tok) -> tok = string_of_bytes (runes tok)) as Htok
    by apply runes_ascii_inv.
  remember (runes tok) as rs eqn:Hrs. clear Hrs.
  destruct Hk as [-> | ->]; simpl in H; unfold RLit in H; invert_classes;
    rewrite Htok by ascii_runes; reflexivity.
Qed.

(** ** The effect of a token on the query *)

Definition piece (kt : kind * string) : string :=
  match kt.1 with
  | KStart => ""
  | KOpen | KClose => kt.2
  | KColumn => ToLower kt.2
  | KEq | KNotEq | KLike => " " +:+ kt.2
  | KValue | KQuoted => " ?"
  | KAnd | KOr => " " +:+ kt.2 +:+ " "
  end.

Definition is_value (k : kind) : bool :=
  match k with KValue | KQuoted => true | _ => false end.

Definition is_join (k : kind) : bool :=
  match k with KAnd | KOr => true | _ => false end.

Definition depth_change (k : kind) : Z :=
  match k with KOpen => 1 | KClose => -1 | _ => 0 end.

Definition count_kinds (p : kind -> bool) (ks : list kind) : nat := length (filter (fun k => p k = true) ks).

Section Effects.
Context (cap : nat -> nat) (columns : list string).

Lemma handle_effect k tok h h' :
  k <> KStart -> MatchString (pattern k) tok = true ->
  handle cap columns k tok h = Ok h' ->
  q_Query h' = q_Query h +:+ piece (k, tok) /\
  (exists vs, q_Values h' = (q_Values h ++ vs)%list /\ length vs = if is_value k then 1%nat else 0%nat) /\
  q_complexity h' = (q_complexity h + if is_join k then 1 else 0)%Z /\
  (is_join k = true -> (q_complexity h' <= MaximumComplexity)%Z) /\
  q_openBraces h' = (q_openBraces h + depth_change k)%Z /\
  (depth_change k <> 0 -> 0 <= q_openBraces h')%Z /\
  (k = KColumn -> ToLower tok ∈ columns).
Proof.
  intros Hk Hm H. unfold handle, onNewToken in H.
  destruct k; simpl in H; try done.
  - pose proof (brace_text KOpen tok (or_introl eq_refl) Hm) as Ht. simpl in Ht. simplify_eq.
    unfold countOpenBraces in H. simpl in H. case_bool_decide; simplify_eq/=.
    split_and!; try done; try lia. exists []. by rewrite app_nil_r.
  - pose proof (brace_text KClose tok (or_intror eq_refl) Hm) as Ht. simpl in Ht. simplify_eq.
    unfold countOpenBraces in H. simpl in H. case_bool_decide; simplify_eq/=.
    split_and!; try done; try lia. exists []. by rewrite app_nil_r.
  - case_bool_decide; simplify_eq/=. split_and!; try done; try lia. exists []. by rewrite app_nil_r.
  - simplify_eq/=. split_and!; try done; try lia. exists []. by rewrite app_nil_r.
  - simplify_eq/=. split_and!; try done; try lia. exists []. by rewrite app_nil_r.
  - simplify_eq/=. split_and!; try done; try lia. exists []. by rewrite app_nil_r.
  - simplify_eq/=. split_and!; try done; try lia. by exists [tok].
  - apply bind_Ok in H as (v & _ & H). simplify_eq/=. split_and!; try done; try lia. by exists [v].
  - case_bool_decide; simplify_eq/=. split_and!; try done; try lia. exists []. by rewrite app_nil_r.
  - case_bool_decide; simplify_eq/=. split_and!; try done; try lia. exists []. by rewrite app_nil_r.
Qed.

(** The pieces of SQL text a query may be made of. *)
Definition safe_piece (p : string) : Prop :=
  p ∈ ["("; ")"; " ?"; " ="; " <>"] \/ ToLower p ∈ [" like"; " and "; " or "] \/ p ∈ columns.

Lemma ToLower_append s t : ToLower (s +:+ t) = ToLower s +:+ ToLower t.
Proof.
  unfold ToLower, bytes_of, string_of_bytes.
  induction s as [|a s IH]; [done|].
  change (String.append (String a s) t) with (String a (String.append s t)).
  cbn [String.list_ascii_of_string]. rewrite !fmap_cons. cbn [String.string_of_list_ascii].
  rewrite IH. done.
Qed.

Lemma piece_safe k tok :
  k <> KStart -> MatchString (pattern k) tok = true ->
  (k = KColumn -> ToLower tok ∈ columns) -> safe_piece (piece (k, tok)).
Proof.
  intros Hk Hm Hc. unfold safe_piece, piece.
  destruct k; simpl; try done.
  - pose proof (brace_text KOpen tok (or_introl eq_refl) Hm). simplify_eq/=. set_solver.
  - pose proof (brace_text KClose tok (or_intror eq_refl) Hm). simplify_eq/=. set_solver.
  - auto.
  - left. apply re_match_spec in Hm. simpl in Hm. unfold eq_re, RLit in Hm.
    pose proof (runes_ascii_inv tok) as Ht. invert_classes.
    rewrite H in Ht. rewrite Ht by ascii_runes. set_solver.
  - left. apply re_match_spec in Hm. simpl in Hm. unfold noteq_re, RLit in Hm.
    pose proof (runes_ascii_inv tok) as Ht. invert_classes.
    rewrite H in Ht. rewrite Ht by ascii_runes. set_solver.
  - right; left. rewrite ToLower_append. rewrite (kind_text_match KLike tok "like") by done. set_solver.
  - set_solver.
  - set_solver.
  - right; left. rewrite !ToLower_append. rewrite (kind_text_match KAnd tok "and") by done. set_solver.
  - right; left. rewrite !ToLower_append. rewrite (kind_text_match KOr tok "or") by done. set_solver.
Qed.

(** *** Over a whole run *)

Lemma valid_next_not_start k k1 : k1 ∈ valid_next k -> k1 <> KStart.
Proof. intros H ->. by destruct (valid_next_start k). Qed.

Lemma count_kinds_cons p k ks : count_kinds p (k :: ks) = ((if p k then 1 else 0) + count_kinds p ks)%nat.
Proof. unfold count_kinds. rewrite filter_cons. case_decide as E; [by rewrite E|]. by destruct (p k). Qed.

Lemma run_effect k h kts k' h' :
  qrun cap columns k h kts k' h' ->
  q_Query h' = q_Query h +:+ string_concat (piece <$> kts) /\
  length (q_Values h') = (length (q_Values h) + count_kinds is_value kts.*1)%nat /\
  q_complexity h' = (q_complexity h + Z.of_nat (count_kinds is_join kts.*1))%Z /\
  (q_complexity h <= MaximumComplexity -> q_complexity h' <= MaximumComplexity)%Z /\
  Forall safe_piece (piece <$> kts).
Proof.
  induction 1 as [k h|k h k1 tok h1 ts k2 h2 Hk Hm Hh Hr IH].
  - simpl. rewrite string_append_nil_r. unfold count_kinds; simpl. split_and!; try done; lia.
  - pose proof (valid_next_not_start _ _ Hk) as Hns.
    destruct (handle_effect _ _ _ _ Hns Hm Hh) as (Hq & (vs & Hvs & Hlen) & Hc & Hc' & _ & _ & Hcol).
    destruct IH as (IHq & IHv & IHc & IHc' & IHs).
    rewrite !fmap_cons, !count_kinds_cons. simpl. split_and!.
    + by rewrite IHq, Hq, <- string_append_assoc.
    + rewrite IHv, Hvs, length_app. lia.
    + rewrite IHc, Hc. destruct (is_join k1); lia.
    + intros H. apply IHc'. destruct (is_join k1); [by apply Hc'|lia].
    + constructor; [by apply piece_safe|done].
Qed.

End Effects.
