(* ===== verification/QueryGrammar.v ===== *)
(** * The language of search expressions

    [expr] is the grammar a user of the search parameter has in mind: a
    condition, an expression in braces, two expressions joined by AND or OR.
    The table of transitions with its brace counter accepts exactly its
    sentences ([table_sound], [table_complete]); the parser accepts exactly the
    texts whose tokens form a sentence, name known columns and have at most
    [MaximumComplexity] joins. *)

From S2P Require Import Prelude GoString Regex QueryScanner QueryParser QueryParserFacts.
Local Open Scope list_scope.

Inductive expr : list kind -> Prop :=
| expr_cond o v :
    o ∈ [KEq; KNotEq; KLike] -> v ∈ [KValue; KQuoted] -> expr [KColumn; o; v]
| expr_braces e : expr e -> expr (KOpen :: e ++ [KClose])
| expr_join a l b : expr a -> l ∈ [KAnd; KOr] -> expr b -> expr (a ++ l :: b).

(** ** Soundness of the table

    [open_prefix]: what stands between the last open brace and the operand that
    comes next. [ctx d c]: [c] has [d] open braces and expects an operand. *)

Definition open_prefix (p : list kind) : Prop :=
  p = [] \/ exists e l, expr e /\ l ∈ [KAnd; KOr] /\ p = e ++ [l].

Inductive ctx : nat -> list kind -> Prop :=
| ctx_top p : open_prefix p -> ctx 0 p
| ctx_open d c p : ctx d c -> open_prefix p -> ctx (S d) (c ++ KOpen :: p).

Lemma open_prefix_operand p e : open_prefix p -> expr e -> expr (p ++ e).
Proof.
  intros [->|(a & l & Ha & Hl & ->)] He; [done|].
  rewrite <- app_assoc. by apply expr_join.
Qed.

Lemma ctx_join d c e l : ctx d c -> expr e -> l ∈ [KAnd; KOr] -> ctx d (c ++ e ++ [l]).
Proof.
  intros Hc He Hl.
  assert (forall p, open_prefix p -> open_prefix (p ++ e ++ [l])) as Hp.
  { intros p Hp. right. exists (p ++ e), l. rewrite app_assoc. split_and!; try done.
    by apply open_prefix_operand. }
  inversion Hc; subst; [constructor; auto|].
  rewrite <- app_assoc. simpl. constructor; auto.
Qed.

Definition table_inv (k : kind) (d : nat) (ts : list kind) : Prop :=
  match k with
  | KStart | KOpen | KAnd | KOr => ctx d ts
  | KColumn => exists c, ctx d c /\ ts = c ++ [KColumn]
  | KEq | KNotEq | KLike => exists c, ctx d c /\ ts = c ++ [KColumn; k]
  | KValue | KQuoted | KClose => exists c e, ctx d c /\ expr e /\ ts = c ++ e
  end.

Lemma table_step k k1 d d1 ts :
  table_inv k d ts -> k1 ∈ valid_next k ->
  Z.of_nat d1 = (Z.of_nat d + depth_change k1)%Z ->
  table_inv k1 d1 (ts ++ [k1]).
Proof.
  assert (forall d0 d ts k1, ctx d ts -> k1 = KColumn \/ k1 = KOpen ->
    Z.of_nat d0 = (Z.of_nat d + depth_change k1)%Z -> table_inv k1 d0 (ts ++ [k1])) as Hoperand.
  { intros d0 d' ts' k' Hc [-> | ->] Hd; simpl in Hd |- *.
    - replace d0 with d' by lia. eauto.
    - replace d0 with (S d') by lia. apply ctx_open; [done|by left]. }
  assert (forall d0 d c e k1, ctx d c -> expr e -> k1 ∈ [KOr; KAnd; KClose] ->
    Z.of_nat d0 = (Z.of_nat d + depth_change k1)%Z -> table_inv k1 d0 ((c ++ e) ++ [k1])) as Hafter.
  { intros d0 d' c e k' Hc He Hk Hd. rewrite <- app_assoc.
    elem_cases Hk; simpl in Hd |- *.
    - replace d0 with d' by lia. apply ctx_join; [done..|set_solver].
    - replace d0 with d' by lia. apply ctx_join; [done..|set_solver].
    - inversion Hc as [|d'' c' p Hc' Hp]; subst; [lia|]. replace d0 with d'' by lia.
      exists c', (KOpen :: (p ++ e) ++ [KClose]). split_and!; [done| |].
      + by apply expr_braces, open_prefix_operand.
      + rewrite <- !app_assoc. simpl. by rewrite <- ?app_assoc. }
  intros Hinv Hk Hd.
  destruct k; simpl in Hinv, Hk.
  all: try (apply (Hoperand _ d); [done|set_solver|done]).
  all: try (destruct Hinv as (c & e & Hc & He & ->); by apply (Hafter _ d)).
  all: destruct Hinv as (c & Hc & ->); rewrite <- app_assoc; simpl.
  all: elem_cases Hk.
  all: simpl in Hd |- *; replace d1 with d by lia; eauto.
  all: eexists c, _; split_and!; [done| |done]; constructor; set_solver.
Qed.

Lemma table_end k ts : table_inv k 0 ts -> may_end k = true -> expr ts.
Proof.
  destruct k; simpl; intros H Hk; try done;
    destruct H as (c & e & Hc & He & ->); inversion Hc; subst; by apply open_prefix_operand.
Qed.

(** A run of the parser keeps the invariant, its brace counter being the depth. *)
Lemma run_table cap columns k h kts k' h' ts d :
  qrun cap columns k h kts k' h' -> table_inv k d ts -> q_openBraces h = Z.of_nat d ->
  exists d', q_openBraces h' = Z.of_nat d' /\ table_inv k' d' (ts ++ kts.*1).
Proof.
  intros Hr. revert ts d.
  induction Hr as [k h|k h k1 tok h1 kts k2 h2 Hk Hm Hh Hr IH]; intros ts d Hinv Hd.
  - exists d. by rewrite app_nil_r.
  - pose proof (valid_next_not_start _ _ Hk) as Hns.
    destruct (handle_effect _ _ _ _ _ _ Hns Hm Hh) as (_ & _ & _ & _ & Hb & Hpos & _).
    assert (0 <= q_openBraces h1)%Z as Hnn.
    { destruct (decide (depth_change k1 = 0)%Z) as [E|E]; [rewrite Hb, Hd, E; lia|auto]. }
    destruct (IH (ts ++ [k1]) (Z.to_nat (q_openBraces h1))) as (d' & Hd' & Hinv').
    + apply (table_step k k1 d); [done..|]. rewrite Z2Nat.id by done. by rewrite Hb, Hd.
    + by rewrite Z2Nat.id.
    + exists d'. split; [done|]. rewrite fmap_cons. simpl. by rewrite <- app_assoc in Hinv'.
Qed.

Lemma table_inv_start : table_inv KStart 0 [].
Proof. constructor. by left. Qed.

(** ** Completeness of the table

    [table_path d k ts d' k']: the table reads [ts] from [k] to [k'], the
    brace counter going from [d] to [d'] without becoming negative. *)

Inductive table_path : Z -> kind -> list kind -> Z -> kind -> Prop :=
| path_nil d k : table_path d k [] d k
| path_cons d k k1 ts d' k' :
    k1 ∈ valid_next k -> (0 <= d + depth_change k1)%Z ->
    table_path (d + depth_change k1) k1 ts d' k' -> table_path d k (k1 :: ts) d' k'.

Lemma table_path_app d k ts d1 k1 us d2 k2 :
  table_path d k ts d1 k1 -> table_path d1 k1 us d2 k2 -> table_path d k (ts ++ us) d2 k2.
Proof. induction 1; intros Hus; [done|]. simpl. econstructor; eauto. Qed.

Definition expects_operand (k : kind) : bool :=
  match k with KStart | KOpen | KAnd | KOr => true | _ => false end.

Lemma expr_path e : expr e -> forall d k, (0 <= d)%Z -> expects_operand k = true ->
  exists k', table_path d k e d k' /\ may_end k' = true.
Proof.
  induction 1 as [o v Ho Hv|e He IH|a l b Ha IHa Hl Hb IHb]; intros d k Hd Hk.
  - exists v. split; [|by elem_cases Hv].
    assert (forall x y z k0, x ∈ valid_next k0 -> y ∈ valid_next x -> z ∈ valid_next y ->
      depth_change x = 0%Z -> depth_change y = 0%Z -> depth_change z = 0%Z ->
      table_path d k0 [x; y; z] d z) as Hpath.
    { intros x y z k0 Hx Hy Hz Ex Ey Ez.
      repeat (econstructor; [done|rewrite ?Ex, ?Ey, ?Ez; lia|]).
      rewrite Ex, Ey, Ez, !Z.add_0_r. constructor. }
    elem_cases Ho; elem_cases Hv; apply Hpath; try done; destruct k; try done; simpl; set_solver.
  - destruct (IH (d + 1)%Z KOpen ltac:(lia) eq_refl) as (k' & Hp & Hend).
    exists KClose. split; [|done]. econstructor.
    + destruct k; try done; simpl; set_solver.
    + simpl. lia.
    + simpl. eapply table_path_app; [exact Hp|]. econstructor.
      * destruct k'; try done; simpl; set_solver.
      * simpl. lia.
      * simpl. replace (d + 1 + -1)%Z with d by lia. constructor.
  - destruct (IHa d k Hd Hk) as (k1 & Hp1 & Hend1).
    destruct (IHb d l Hd) as (k2 & Hp2 & Hend2).
    { by elem_cases Hl. }
    exists k2. split; [|done]. eapply table_path_app; [exact Hp1|].
    assert (depth_change l = 0%Z) as El by (by elem_cases Hl).
    econstructor; rewrite ?El, ?Z.add_0_r; [|done|done].
    elem_cases Hl; destruct k1; try done; simpl; set_solver.
Qed.

(** ** The tokens determine the kinds

    The patterns a state may go to are told apart by their first rune. *)

Definition first_rune (k : kind) (c : rune) : bool :=
  match k with
  | KStart => false
  | KOpen => bool_decide (c = 40)%N | KClose => bool_decide (c = 41)%N
  | KColumn => in_class false [AZ; az] c
  | KEq => bool_decide (c = 61)%N | KNotEq => bool_decide (c = 60)%N
  | KLike => bool_decide (c = 76)%N || bool_decide (c = 108)%N
  | KValue => negb (bool_decide (c = 39))%N | KQuoted => bool_decide (c = 39)%N
  | KAnd => bool_decide (c = 65)%N || bool_decide (c = 97)%N
  | KOr => bool_decide (c = 79)%N || bool_decide (c = 111)%N
  end.

Lemma match_first_rune k tok :
  k <> KStart -> MatchString (pattern k) tok = true ->
  exists c cs, runes tok = c :: cs /\ first_rune k c = true.
Proof.
  unfold MatchString. rewrite re_match_spec. intros Hk H.
  remember (runes tok) as rs eqn:Hrs. clear Hrs.
  destruct k; try done; simpl in H |- *;
    unfold column_re, value_re, quoted_re, eq_re, noteq_re, like_re, and_re, or_re, letter_re,
      ROneOf, RNoneOf, RLit in H; invert_classes; eexists _, _; (split; [reflexivity|]); try done.
  - match goal with H : in_class true _ _ = true |- _ => revert H end.
    unfold in_class, in_range; simpl. rewrite orb_false_r.
    case_bool_decide; [subst; done|done].
Qed.

Lemma valid_next_disjoint k k1 k2 c :
  k1 ∈ valid_next k -> k2 ∈ valid_next k ->
  first_rune k1 c = true -> first_rune k2 c = true -> k1 = k2.
Proof.
  intros H1 H2 F1 F2.
  destruct k; simpl in H1, H2; elem_cases H1; elem_cases H2; try done;
    simpl in F1, F2; repeat case_bool_decide; simplify_eq/=; try done.
Qed.

Lemma match_deterministic k k1 k2 tok :
  k1 ∈ valid_next k -> k2 ∈ valid_next k ->
  MatchString (pattern k1) tok = true -> MatchString (pattern k2) tok = true -> k1 = k2.
Proof.
  intros H1 H2 M1 M2.
  destruct (match_first_rune k1 tok) as (c & cs & Hc & F1); [by eapply valid_next_not_start|done|].
  destruct (match_first_rune k2 tok) as (c2 & cs2 & Hc2 & F2); [by eapply valid_next_not_start|done|].
  rewrite Hc in Hc2. simplify_eq. by eapply valid_next_disjoint.
Qed.
