(* ===== verification/QueryProps.v ===== *)
(** * Search expressions: the theorems

    What a client of [Parse] relies on: the SQL condition holds no user text
    outside the bind values, the accepted texts are the sentences of [expr],
    nothing of the input is lost by the scanner, and the parser does not panic
    on ASCII input. *)

From S2P Require Import Prelude GoString Regex QueryScanner QueryParser QueryParserFacts QueryGrammar.
Local Open Scope string_scope.

(** ** Placeholders *)

Lemma bytes_ToLower s : bytes_of (ToLower s) = lower_byte <$> bytes_of s.
Proof.
  unfold ToLower. apply bytes_of_string_of_bytes, Forall_fmap, Forall_forall.
  intros b Hb. apply lower_byte_range. by apply (N_ascii_bytes s).
Qed.

Lemma lower_byte_not_letter b c : lower_byte b = c -> (c < 65)%N -> b = c.
Proof.
  unfold lower_byte, in_range. destruct (65 <=? b)%N eqn:E1; simpl; [|done].
  destruct (b <=? 90)%N; [|done]. apply N.leb_le in E1. lia.
Qed.

Lemma ToLower_placeholder s : ToLower s = " ?" -> s = " ?".
Proof.
  intros H. apply (f_equal bytes_of) in H. rewrite bytes_ToLower in H.
  rewrite <- (string_of_bytes_of s).
  change (bytes_of " ?") with [32; 63]%N in H.
  destruct (bytes_of s) as [|a [|b [|c l]]]; try discriminate H.
  injection H as Ha Hb.
  rewrite (lower_byte_not_letter a _ Ha), (lower_byte_not_letter b _ Hb) by done. reflexivity.
Qed.

Lemma piece_placeholder k tok :
  k <> KStart -> MatchString (pattern k) tok = true ->
  piece (k, tok) = " ?" <-> is_value k = true.
Proof.
  intros Hk Hm. unfold piece. destruct k; simpl; try done; split; try done; intros H.
  - pose proof (brace_text KOpen tok (or_introl eq_refl) Hm). by simplify_eq/=.
  - pose proof (brace_text KClose tok (or_intror eq_refl) Hm). by simplify_eq/=.
  - apply ToLower_placeholder in H as ->. done.
  - apply (f_equal ToLower) in H. rewrite ToLower_append in H.
    by rewrite (kind_text_match KEq tok "=" eq_refl Hm) in H.
  - apply (f_equal ToLower) in H. rewrite ToLower_append in H.
    by rewrite (kind_text_match KNotEq tok "<>" eq_refl Hm) in H.
  - apply (f_equal ToLower) in H. rewrite ToLower_append in H.
    by rewrite (kind_text_match KLike tok "like" eq_refl Hm) in H.
  - apply (f_equal ToLower) in H. rewrite !ToLower_append in H.
    by rewrite (kind_text_match KAnd tok "and" eq_refl Hm) in H.
  - apply (f_equal ToLower) in H. rewrite !ToLower_append in H.
    by rewrite (kind_text_match KOr tok "or" eq_refl Hm) in H.
Qed.

Lemma run_placeholders cap columns k h kts k' h' :
  qrun cap columns k h kts k' h' ->
  count_kinds is_value kts.*1 = length (filter (fun p => p = " ?") (piece <$> kts)).
Proof.
  induction 1 as [k h|k h k1 tok h1 ts k2 h2 Hk Hm Hh Hr IH]; [done|].
  rewrite !fmap_cons, count_kinds_cons, filter_cons. simpl.
  pose proof (piece_placeholder k1 tok (valid_next_not_start _ _ Hk) Hm) as Hp.
  rewrite IH. case_decide as E.
  - apply Hp in E. by rewrite E.
  - destruct (is_value k1); [by destruct E; apply Hp|done].
Qed.

(** ** Injection safety *)

(** C2. The SQL condition of an accepted search expression is put together from
    a fixed vocabulary only (braces, placeholders, comparison and logical
    operators, names of the permitted columns): user text reaches the database
    only as bind values, and there is exactly one value per placeholder. *)
Theorem Parse_no_injection cap columns sql q :
  Parse cap columns sql = Ok q ->
  exists pieces,
    dq_Query q = Trim (Ascii.ascii_of_N 32) (string_concat pieces) /\
    Forall (safe_piece columns) pieces /\
    length (dq_Values q) = length (filter (fun p => p = " ?") pieces).
Proof.
  intros H. destruct (Parse_run _ _ _ _ H) as (kts & k & h & _ & Hr & _ & _ & ->).
  destruct (run_effect _ _ _ _ _ _ _ Hr) as (Hq & Hv & _ & _ & Hs).
  exists (piece <$> kts). simpl. rewrite Hq, Hv. split_and!; [done..|].
  simpl. by apply (run_placeholders cap columns KStart q_init kts k h).
Qed.

Definition exact_cap (n : nat) : nat := n.

Definition sample_search : string := "name = 'it\'s' AND (region <> x or Owner like y)".

Definition sample_query : DBQuery :=
  mkDBQuery "name = ? AND (region <> ? or owner like ?)" ["it's"; "x"; "y"] validColumns.

Lemma Parse_no_injection_witness :
  Parse exact_cap validColumns sample_search = Ok sample_query /\
  exists pieces,
    dq_Query sample_query = Trim (Ascii.ascii_of_N 32) (string_concat pieces) /\
    Forall (safe_piece validColumns) pieces /\
    length (dq_Values sample_query) = length (filter (fun p => p = " ?") pieces).
Proof.
  assert (Parse exact_cap validColumns sample_search = Ok sample_query) as H
    by (vm_compute; reflexivity).
  split; [exact H|]. exact (Parse_no_injection exact_cap validColumns sample_search sample_query H).
Defined.

(** ** The accepted language *)

(** A token of the right kind is handled when its column is known, its joins are
    not exhausted and its quotes can be removed. *)
Definition token_ok (cap : nat -> nat) (columns : list string) (k : kind) (tok : string) : Prop :=
  match k with
  | KColumn => ToLower tok ∈ columns
  | KQuoted => is_Ok (unquote cap tok) = true
  | _ => True
  end.

(** An accepted text is a sentence of the grammar. *)
Lemma sentence_of_run cap columns k h kts k' h' toks :
  qrun cap columns k h kts k' h' -> kts.*2 = tok_Value <$> toks ->
  Forall2 (fun k t => MatchString (pattern k) (tok_Value t) = true /\
                      token_ok cap columns k (tok_Value t)) kts.*1 toks.
Proof.
  intros Hr. revert toks.
  induction Hr as [|k h k1 tok h1 ts k2 h2 Hk Hm Hh Hr IH]; intros toks Hts; simpl in Hts.
  - by destruct toks.
  - destruct toks as [|t toks]; simpl in Hts; simplify_eq. simpl. constructor; [|auto]. split; [done|].
    destruct k1; simpl; try done.
    + by eapply (handle_effect _ _ KColumn).
    + unfold handle, onNewToken in Hh. simpl in Hh. by destruct (unquote cap (tok_Value t)).
Qed.

Lemma Parse_sound cap columns sql q :
  Parse cap columns sql = Ok q ->
  exists ks,
    expr ks /\
    Forall2 (fun k t => MatchString (pattern k) (tok_Value t) = true /\
                        token_ok cap columns k (tok_Value t)) ks (Init sql) /\
    (Z.of_nat (count_kinds is_join ks) <= MaximumComplexity)%Z.
Proof.
  intros H. destruct (Parse_run _ _ _ _ H) as (kts & k & h & Hts & Hr & Hend & Hb & _).
  destruct (run_table _ _ _ _ _ _ _ [] 0 Hr table_inv_start eq_refl) as (d & Hd & Hinv).
  assert (d = 0)%nat as -> by lia.
  destruct (run_effect _ _ _ _ _ _ _ Hr) as (_ & _ & Hc & Hc' & _).
  exists kts.*1. split_and!.
  - by eapply table_end.
  - by eapply sentence_of_run.
  - rewrite <- (Z.add_0_l (Z.of_nat _)). change 0%Z with (q_complexity q_init).
    rewrite <- Hc. apply Hc'. done.
Qed.

Lemma handle_ok cap columns k tok h :
  k <> KStart -> MatchString (pattern k) tok = true -> token_ok cap columns k tok ->
  (0 <= q_openBraces h + depth_change k)%Z ->
  (is_join k = true -> q_complexity h < MaximumComplexity)%Z ->
  exists h', handle cap columns k tok h = Ok h'.
Proof.
  intros Hk Hm Hok Hd Hj. unfold handle, onNewToken.
  destruct k; simpl in *; try done; eauto.
  - pose proof (brace_text KOpen tok (or_introl eq_refl) Hm). simplify_eq/=.
    unfold countOpenBraces. simpl. rewrite bool_decide_eq_false_2 by lia. eauto.
  - pose proof (brace_text KClose tok (or_intror eq_refl) Hm). simplify_eq/=.
    unfold countOpenBraces. simpl. rewrite bool_decide_eq_false_2 by lia. eauto.
  - rewrite bool_decide_eq_true_2 by done. eauto.
  - destruct (unquote cap tok); [eauto|done].
  - rewrite bool_decide_eq_false_2 by (specialize (Hj eq_refl); lia). eauto.
  - rewrite bool_decide_eq_false_2 by (specialize (Hj eq_refl); lia). eauto.
Qed.

Lemma parse_next_found cap columns k ks k1 tok h h' :
  k1 ∈ ks -> (forall k', k' ∈ ks -> k' ∈ valid_next k) ->
  MatchString (pattern k1) tok = true -> handle cap columns k1 tok h = Ok h' ->
  parse_next cap columns the_machine (key <$> ks) tok h = Ok (key k1, h').
Proof.
  intros Hk1 Hsub Hm Hh. induction ks as [|k' ks IH]; [by apply not_elem_of_nil in Hk1|].
  rewrite fmap_cons. cbn [parse_next]. rewrite machine_lookup. unfold accept. simpl.
  destruct (MatchString (pattern k') tok) eqn:E.
  - assert (k' = k1) as ->.
    { apply (match_deterministic k k' k1 tok); [apply Hsub; by left|apply Hsub; done|done..]. }
    rewrite bool_decide_eq_true_2 by (eapply valid_next_not_start, Hsub; by left).
    unfold handle in Hh. by rewrite Hh.
  - apply IH; [|intros; apply Hsub; by right].
    apply elem_of_cons in Hk1 as [->|Hk1]; [by rewrite Hm in E|done].
Qed.

Lemma parse_tokens_step cap columns k k1 t toks h h1 :
  k1 ∈ valid_next k -> MatchString (pattern k1) (tok_Value t) = true ->
  handle cap columns k1 (tok_Value t) h = Ok h1 ->
  parse_tokens cap columns (t :: toks) (key k) h = parse_tokens cap columns toks (key k1) h1.
Proof.
  intros Hk Hm Hh. simpl. unfold parse. rewrite machine_lookup. simpl.
  by rewrite (parse_next_found cap columns k (valid_next k) k1 (tok_Value t) h h1).
Qed.

Lemma table_path_parse cap columns d k ks d' k' toks h :
  table_path d k ks d' k' ->
  Forall2 (fun k t => MatchString (pattern k) (tok_Value t) = true /\
                      token_ok cap columns k (tok_Value t)) ks toks ->
  q_openBraces h = d ->
  (q_complexity h + Z.of_nat (count_kinds is_join ks) <= MaximumComplexity)%Z ->
  exists h', parse_tokens cap columns toks (key k) h = Ok (key k', h') /\ q_openBraces h' = d'.
Proof.
  intros Hp. revert toks h.
  induction Hp as [d k|d k k1 ks d' k' Hk Hd Hp IH]; intros toks h Hts Hb Hc.
  - inversion Hts; subst. eauto.
  - inversion Hts as [|? t ? toks' [Hm Hok] Hts']; subst.
    rewrite count_kinds_cons in Hc. pose proof (valid_next_not_start _ _ Hk) as Hns.
    destruct (handle_ok cap columns k1 (tok_Value t) h) as [h1 Hh]; try done.
    { intros E. rewrite E in Hc. lia. }
    destruct (handle_effect _ _ _ _ _ _ Hns Hm Hh) as (_ & _ & Hc1 & _ & Hb1 & _).
    rewrite (parse_tokens_step cap columns k k1 t toks' h h1) by done.
    apply IH; [done..|]. rewrite Hc1. destruct (is_join k1); lia.
Qed.

(** Conversely every sentence is accepted. *)
Lemma Parse_complete cap columns sql ks :
  expr ks ->
  Forall2 (fun k t => MatchString (pattern k) (tok_Value t) = true /\
                      token_ok cap columns k (tok_Value t)) ks (Init sql) ->
  (Z.of_nat (count_kinds is_join ks) <= MaximumComplexity)%Z ->
  exists q, Parse cap columns sql = Ok q.
Proof.
  intros He Hts Hc.
  destruct (expr_path ks He 0 KStart ltac:(lia) eq_refl) as (k' & Hp & Hend).
  destruct (table_path_parse _ _ _ _ _ _ _ (Init sql) q_init Hp Hts eq_refl) as (h' & Hpt & Hb);
    [simpl; lia|].
  unfold Parse. rewrite machine_built.
  unfold parse_fuel, NewScanner.
  pose proof (parse_loop_tokens cap columns [] (Init sql) StartState q_init (S (length (Init sql)))
    ltac:(lia)) as Hl.
  change (mkScanner ([] ++ Init sql)%list (Z.of_nat (length []) - 1))
    with (mkScanner (Init sql) (-1)) in Hl.
  rewrite Hl. change StartState with (key KStart). rewrite Hpt.
  unfold mbind, result_bind, eof. rewrite machine_lookup. simpl. rewrite Hend.
  unfold checkUnbalancedBraces. rewrite bool_decide_eq_false_2 by lia. eauto.
Qed.


(** ** The scanner *)

(** The scanner neither drops nor invents text: its tokens are non-empty and,
    read one after the other, spell the input without the spaces outside
    quoted values. *)
Theorem scanner_lossless txt :
  Forall (fun t => tok_Value t <> EmptyString) (Init txt) /\
  string_concat (tok_Value <$> Init txt) = encode_runes (visible false false (runes txt)).
Proof. split; [apply Init_nonempty|apply Init_text]. Qed.

(** ** No panic on ASCII input *)

Definition all_ascii (st : scan_state) : Prop :=
  is_ascii (out_text st) = true /\ is_ascii (pending_text st) = true.

Lemma is_ascii_append s t : is_ascii (s +:+ t) = is_ascii s && is_ascii t.
Proof. unfold is_ascii. by rewrite bytes_of_append, forallb_app. Qed.

Lemma is_ascii_concat l : is_ascii (string_concat l) = forallb is_ascii l.
Proof. induction l as [|s l IH]; [done|]. simpl. by rewrite is_ascii_append, IH. Qed.

Lemma encode_rune_is_ascii c : (c < 128)%N -> is_ascii (encode_rune c) = true.
Proof.
  intros Hc. rewrite encode_rune_ascii by done. unfold is_ascii, bytes_of. simpl.
  rewrite Ascii.N_ascii_embedding by lia. rewrite (proj2 (N.ltb_lt c 128)) by done. done.
Qed.

Lemma visible_subset q e rs c : c ∈ visible q e rs -> c ∈ rs.
Proof.
  revert q e. induction rs as [|r rs IH]; intros q e H; simpl in H; [done|].
  repeat case_bool_decide; subst; try destruct q; rewrite ?elem_of_cons in *; naive_solver.
Qed.

(** The tokens of an ASCII text are ASCII. *)
Lemma Init_ascii txt t : is_ascii txt = true -> t ∈ Init txt -> is_ascii (tok_Value t) = true.
Proof.
  intros Ha Ht.
  assert (is_ascii (string_concat (tok_Value <$> Init txt)) = true) as Hall.
  { rewrite Init_text. unfold encode_runes. rewrite is_ascii_concat.
    apply forallb_forall. intros s Hs. apply list_elem_of_In, list_elem_of_fmap in Hs as (c & -> & Hc).
    apply encode_rune_is_ascii. apply visible_subset in Hc.
    unfold runes, range_string in Hc. rewrite decode_ascii in Hc by done.
    unfold is_ascii in Ha. rewrite forallb_forall in Ha.
    apply N.ltb_lt, Ha. by apply list_elem_of_In. }
  rewrite is_ascii_concat, forallb_forall in Hall. apply Hall.
  apply list_elem_of_In, list_elem_of_fmap. eauto.
Qed.

Lemma is_ascii_cons a s : is_ascii (String.String a s) = (Ascii.N_of_ascii a <? 128)%N && is_ascii s.
Proof. reflexivity. Qed.

Lemma ReplaceAll2_cons2 a b c x y s :
  ReplaceAll2 a b c (String.String x (String.String y s)) =
  if bool_decide (x = a) && bool_decide (y = b)
  then c +:+ ReplaceAll2 a b c s
  else String.String x (ReplaceAll2 a b c (String.String y s)).
Proof. reflexivity. Qed.

Lemma ReplaceAll2_ascii a b c s :
  is_ascii c = true -> is_ascii s = true -> is_ascii (ReplaceAll2 a b c s) = true.
Proof.
  intros Hc. remember (String.length s) as n eqn:Hn. revert s Hn.
  induction n as [n IH] using lt_wf_ind. intros s -> Hs.
  destruct s as [|x [|y s]]; [done|done|]. rewrite ReplaceAll2_cons2.
  rewrite !is_ascii_cons in Hs. apply andb_true_iff in Hs as [Hx [Hy Hs]%andb_true_iff].
  destruct (_ && _).
  - rewrite is_ascii_append, Hc, andb_true_l. eapply IH; [|done|done]. simpl; lia.
  - rewrite is_ascii_cons, Hx, andb_true_l. eapply IH; [|done|].
    + simpl; lia.
    + by rewrite is_ascii_cons, Hy.
Qed.

Lemma unquote_ascii cap v :
  (forall n, n <= cap n)%nat -> is_ascii v = true -> is_Ok (unquote cap v) = true.
Proof.
  intros Hcap Hv. unfold unquote.
  set (tmp := ReplaceAll2 _ _ _ _).
  assert (is_ascii tmp = true) as Ht by by apply ReplaceAll2_ascii.
  destruct (1 <? String.length tmp)%nat; [|done].
  rewrite runes_length_ascii by done.
  rewrite (proj2 (Nat.leb_le _ _)); [done|].
  specialize (Hcap (String.length tmp)). lia.
Qed.

Lemma handle_no_panic cap columns k tok h :
  is_Ok (unquote cap tok) = true -> handle cap columns k tok h <> Err QPanic.
Proof.
  intros Hu. unfold handle, onNewToken, countOpenBraces.
  destruct k; simpl; repeat case_bool_decide; simpl; try done;
    destruct (unquote cap tok); done.
Qed.

Lemma parse_next_no_panic cap columns ks tok h :
  KStart ∉ ks -> is_Ok (unquote cap tok) = true ->
  parse_next cap columns the_machine (key <$> ks) tok h <> Err QPanic.
Proof.
  intros Hks Hu. induction ks as [|k ks IH]; [done|].
  apply not_elem_of_cons in Hks as [Hk Hks].
  rewrite fmap_cons. cbn [parse_next]. rewrite machine_lookup. unfold accept. simpl.
  destruct (MatchString (pattern k) tok); [|auto].
  rewrite bool_decide_eq_true_2 by done.
  pose proof (handle_no_panic cap columns k tok h Hu) as Hh. unfold handle in Hh.
  destruct (onNewToken _ _ _ _) as [|e]; [done|]. simpl. congruence.
Qed.

Lemma parse_tokens_no_panic cap columns toks k h :
  Forall (fun t => is_Ok (unquote cap (tok_Value t)) = true) toks ->
  parse_tokens cap columns toks (key k) h <> Err QPanic.
Proof.
  intros Hall. revert k h. induction Hall as [|t toks Ht Hall IH]; intros k h; [done|]. simpl.
  destruct (parse cap columns the_machine (key k) (tok_Value t) h) as [[ky h1]|e] eqn:E.
  - destruct (parse_run _ _ _ _ _ _ _ E) as (k1 & _ & -> & _). apply IH.
  - unfold parse in E. rewrite machine_lookup in E. simpl in E.
    pose proof (parse_next_no_panic cap columns (valid_next k) (tok_Value t) h
      (valid_next_start k) Ht). destruct e; [done|congruence].
Qed.

(** C40. The parser terminates normally on every ASCII text, whatever capacity the
    implementation gives to rune slices: it returns a query or an error value
    and never panics (the loop's fuel is enough for every token). *)
Theorem Parse_no_panic_ascii cap columns sql :
  (forall n, n <= cap n)%nat -> is_ascii sql = true ->
  Parse cap columns sql <> Err QPanic.
Proof.
  intros Hcap Ha. unfold Parse. rewrite machine_built. unfold parse_fuel, NewScanner.
  pose proof (parse_loop_tokens cap columns [] (Init sql) StartState q_init (S (length (Init sql)))
    ltac:(lia)) as Hl.
  change (mkScanner ([] ++ Init sql)%list (Z.of_nat (length []) - 1))
    with (mkScanner (Init sql) (-1)) in Hl.
  rewrite Hl. change StartState with (key KStart).
  assert (Forall (fun t => is_Ok (unquote cap (tok_Value t)) = true) (Init sql)) as Hall.
  { apply Forall_forall. intros t Ht. apply unquote_ascii; [done|by apply (Init_ascii sql)]. }
  pose proof (parse_tokens_no_panic cap columns (Init sql) KStart q_init Hall) as Hnp.
  destruct (parse_tokens _ _ _ _ _) as [[ky h]|e] eqn:E; [|simpl; congruence].
  destruct (parse_tokens_run cap columns (Init sql) KStart q_init _ _ E) as (kts & k & -> & _).
  unfold mbind, result_bind, eof. rewrite machine_lookup. simpl.
  destruct (may_end k); [|done]. unfold checkUnbalancedBraces. by case_bool_decide.
Qed.

Lemma Parse_no_panic_ascii_witness : Parse exact_cap validColumns "name = 'a" <> Err QPanic.
Proof. apply (Parse_no_panic_ascii exact_cap validColumns "name = 'a"); [unfold exact_cap; lia|reflexivity]. Defined.

(** ** Where the parser departs from its documentation *)

(** 40 times U+00E9, a letter of two bytes. *)
Definition accents : string := encode_runes (replicate 40 233%N).

(** C39. A quoted value with two-byte letters makes the parser panic as soon as the
    rune slice has less capacity than the text has bytes: the upper bound of the
    slice that removes the quotes counts bytes, not runes. *)
Theorem Parse_panics_multibyte cap :
  (cap 42 < 81)%nat -> Parse cap validColumns ("name = '" +:+ accents +:+ "'") = Err QPanic.
Proof.
  intros Hcap. set (sql := "name = '" +:+ accents +:+ "'").
  unfold Parse. rewrite machine_built. unfold parse_fuel, NewScanner.
  pose proof (parse_loop_tokens cap validColumns [] (Init sql) StartState q_init
    (S (length (Init sql))) ltac:(lia)) as Hl.
  change (mkScanner ([] ++ Init sql)%list (Z.of_nat (length []) - 1))
    with (mkScanner (Init sql) (-1)) in Hl.
  rewrite Hl. clear Hl.
  assert (Init sql = [mkToken Literal "name" 0; mkToken Op "=" 5;
    mkToken Literal ("'" +:+ accents +:+ "'") 7]) as -> by (vm_compute; reflexivity).
  assert (unquote cap ("'" +:+ accents +:+ "'") = Err QPanic) as Hu.
  { unfold unquote.
    change (String.length _) with 82%nat; change (length (runes _)) with 42%nat.
    cbn [Nat.ltb Nat.leb]. rewrite (proj2 (Nat.leb_gt _ _)); [done|simpl; lia]. }
  change StartState with (key KStart).
  erewrite (parse_tokens_step cap validColumns KStart KColumn);
    [|vm_compute; set_solver|vm_compute; reflexivity|vm_compute; reflexivity].
  erewrite (parse_tokens_step cap validColumns KColumn KEq);
    [|vm_compute; set_solver|vm_compute; reflexivity|vm_compute; reflexivity].
  cbn [parse_tokens tok_Value].
  unfold parse. rewrite machine_lookup. cbn [st_next state_of valid_next fmap list_fmap parse_next].
  rewrite machine_lookup.
  assert (accept (state_of KQuoted) ("'" +:+ accents +:+ "'") = true) as -> by (vm_compute; reflexivity).
  cbn [st_onNewToken state_of]. rewrite bool_decide_eq_true_2 by done.
  unfold onNewToken. cbn [pt_family pt_value st_family state_of family].
  rewrite !bool_decide_eq_false_2 by done. rewrite bool_decide_eq_true_2 by done.
  by rewrite Hu.
Qed.

Lemma Parse_panics_multibyte_witness :
  Parse exact_cap validColumns ("name = '" +:+ accents +:+ "'") = Err QPanic.
Proof. apply (Parse_panics_multibyte exact_cap). unfold exact_cap; lia. Defined.

(** The scanner cuts quoted values at operator signs and braces: a text in
    quotes that matches the documented pattern of quoted values is refused as
    soon as it holds one. *)
Lemma Parse_quoted_operator_refused cap :
  MatchString quoted_re "'a=b'" = true /\ MatchString quoted_re "'a(b'" = true /\
  is_Ok (Parse cap validColumns "name = 'a=b'") = false /\
  is_Ok (Parse cap validColumns "name = 'a(b'") = false.
Proof. split_and!; vm_compute; reflexivity. Qed.
