(* ===== verification/ServiceErrors.v ===== *)
(** * Service errors (pkg/errors/errors.go)

    The error values every component returns, the table of error codes, the
    constructors and the predicates, and the error helpers of
    pkg/services/util.go that turn database errors into service errors. *)

From S2P Require Import Prelude GoString GoFmt.
Local Open Scope string_scope.
Local Open Scope Z_scope.

(** ** HTTP status codes (net/http) *)

Definition StatusBadRequest : Z := 400.
Definition StatusUnauthorized : Z := 401.
Definition StatusForbidden : Z := 403.
Definition StatusNotFound : Z := 404.
Definition StatusMethodNotAllowed : Z := 405.
Definition StatusConflict : Z := 409.
Definition StatusGone : Z := 410.
Definition StatusTooManyRequests : Z := 429.
Definition StatusInternalServerError : Z := 500.

(** ** Error codes and default reasons *)

Definition ErrorCodePrefix : string := "RHACS-MGMT".
Definition ErrorHREF : string := "/api/rhacs/v1/errors/".
Definition ConnectorMgmtErrorCodePrefix : string := "CONNECTOR-MGMT".
Definition ConnectorMgmtErrorHREF : string := "/api/connector_mgmt/v1/errors/".

Definition ErrorForbidden : Z := 4.
Definition ErrorForbiddenReason : string := "Forbidden to perform this action".
Definition ErrorMaxAllowedInstanceReached : Z := 5.
Definition ErrorMaxAllowedInstanceReachedReason : string := "Forbidden to create more instances than the maximum allowed".
Definition ErrorConflict : Z := 6.
Definition ErrorConflictReason : string := "An entity with the specified unique values already exists".
Definition ErrorNotFound : Z := 7.
Definition ErrorNotFoundReason : string := "Resource not found".
Definition ErrorValidation : Z := 8.
Definition ErrorValidationReason : string := "General validation failure".
Definition ErrorGeneral : Z := 9.
Definition ErrorGeneralReason : string := "Unspecified error".
Definition ErrorNotImplemented : Z := 10.
Definition ErrorNotImplementedReason : string := "HTTP Method not implemented for this endpoint".
Definition ErrorUnauthorized : Z := 11.
Definition ErrorUnauthorizedReason : string := "Account is unauthorized to perform this action".
Definition ErrorTermsNotAccepted : Z := 12.
Definition ErrorTermsNotAcceptedReason : string := "Required terms have not been accepted".
Definition ErrorUnauthenticated : Z := 15.
Definition ErrorUnauthenticatedReason : string := "Account authentication could not be verified".
Definition ErrorMalformedRequest : Z := 17.
Definition ErrorMalformedRequestReason : string := "Unable to read request body".
Definition ErrorBadRequest : Z := 21.
Definition ErrorBadRequestReason : string := "Bad request".
Definition ErrorFailedToParseSearch : Z := 23.
Definition ErrorFailedToParseSearchReason : string := "Failed to parse search query".
Definition ErrorTooManyDinosaurInstancesReached : Z := 24.
Definition ErrorTooManyDinosaurInstancesReachedReason : string := "The maximum number of allowed central instances has been reached".
Definition ErrorGone : Z := 25.
Definition ErrorGoneReason : string := "Resource gone".
Definition ErrorSyncActionNotSupported : Z := 103.
Definition ErrorSyncActionNotSupportedReason : string := "Synchronous action is not supported, use async=true parameter".
Definition ErrorFailedToCreateSSOClient : Z := 106.
Definition ErrorFailedToCreateSSOClientReason : string := "Failed to create central client in the mas sso".
Definition ErrorFailedToGetSSOClientSecret : Z := 107.
Definition ErrorFailedToGetSSOClientSecretReason : string := "Failed to get central client secret from the mas sso".
Definition ErrorFailedToGetSSOClient : Z := 108.
Definition ErrorFailedToGetSSOClientReason : string := "Failed to get central client from the mas sso".
Definition ErrorFailedToDeleteSSOClient : Z := 109.
Definition ErrorFailedToDeleteSSOClientReason : string := "Failed to delete central client from the mas sso".
Definition ErrorFailedToCreateServiceAccount : Z := 110.
Definition ErrorFailedToCreateServiceAccountReason : string := "Failed to create service account".
Definition ErrorFailedToGetServiceAccount : Z := 111.
Definition ErrorFailedToGetServiceAccountReason : string := "Failed to get service account".
Definition ErrorFailedToDeleteServiceAccount : Z := 112.
Definition ErrorFailedToDeleteServiceAccountReason : string := "Failed to delete service account".
Definition ErrorServiceAccountNotFound : Z := 113.
Definition ErrorServiceAccountNotFoundReason : string := "Failed to find service account".
Definition ErrorMaxLimitForServiceAccountsReached : Z := 115.
Definition ErrorMaxLimitForServiceAccountsReachedReason : string := "Max limit for the service account creation has reached".
Definition ErrorInsufficientQuota : Z := 120.
Definition ErrorInsufficientQuotaReason : string := "Insufficient quota".
Definition ErrorFailedToCheckQuota : Z := 121.
Definition ErrorFailedToCheckQuotaReason : string := "Failed to check quota".
Definition ErrorProviderNotSupported : Z := 30.
Definition ErrorProviderNotSupportedReason : string := "Provider not supported".
Definition ErrorInvalidCloudAccountID : Z := 122.
Definition ErrorInvalidCloudAccountIDReason : string := "Cloud account ID is not set up properly".
Definition ErrorRegionNotSupported : Z := 31.
Definition ErrorRegionNotSupportedReason : string := "Region not supported".
Definition ErrorMalformedDinosaurClusterName : Z := 32.
Definition ErrorMalformedDinosaurClusterNameReason : string := "Central cluster name is invalid".
Definition ErrorMinimumFieldLength : Z := 33.
Definition ErrorMinimumFieldLengthReason : string := "Minimum field length not reached".
Definition ErrorMaximumFieldLength : Z := 34.
Definition ErrorMaximumFieldLengthReason : string := "Maximum field length has been depassed".
Definition ErrorOnlyMultiAZSupported : Z := 35.
Definition ErrorOnlyMultiAZSupportedReason : string := "Only multiAZ Centrals are supported, use multi_az=true".
Definition ErrorDuplicateDinosaurClusterName : Z := 36.
Definition ErrorDuplicateDinosaurClusterNameReason : string := "Central cluster name is already used".
Definition ErrorFieldValidationError : Z := 37.
Definition ErrorFieldValidationErrorReason : string := "Field validation failed".
Definition ErrorUnableToSendErrorResponse : Z := 1000.
Definition ErrorUnableToSendErrorResponseReason : string := "An unexpected error happened, please check the log of the service for details".
Definition ErrorMalformedServiceAccountName : Z := 38.
Definition ErrorMalformedServiceAccountNameReason : string := "Service account name is invalid".
Definition ErrorMalformedServiceAccountDesc : Z := 39.
Definition ErrorMalformedServiceAccountDescReason : string := "Service account desc is invalid".
Definition ErrorMalformedServiceAccountID : Z := 40.
Definition ErrorMalformedServiceAccountIDReason : string := "Service account id is invalid".
Definition ErrorInstanceTypeNotSupported : Z := 41.
Definition ErrorInstanceTypeNotSupportedReason : string := "Instance Type not supported".
Definition ErrorInstancePlanNotSupported : Z := 42.
Definition ErrorInstancePlanNotSupportedReason : string := "Instance plan not supported".
Definition ErrorTooManyRequests : Z := 429.
Definition ErrorTooManyRequestsReason : string := "Too Many requests".

(** Every declared code. *)
Definition all_codes : list Z :=
  [ErrorForbidden; ErrorMaxAllowedInstanceReached; ErrorConflict; ErrorNotFound; ErrorValidation; ErrorGeneral; ErrorNotImplemented; ErrorUnauthorized; ErrorTermsNotAccepted; ErrorUnauthenticated; ErrorMalformedRequest; ErrorBadRequest; ErrorFailedToParseSearch; ErrorTooManyDinosaurInstancesReached; ErrorGone; ErrorSyncActionNotSupported; ErrorFailedToCreateSSOClient; ErrorFailedToGetSSOClientSecret; ErrorFailedToGetSSOClient; ErrorFailedToDeleteSSOClient; ErrorFailedToCreateServiceAccount; ErrorFailedToGetServiceAccount; ErrorFailedToDeleteServiceAccount; ErrorServiceAccountNotFound; ErrorMaxLimitForServiceAccountsReached; ErrorInsufficientQuota; ErrorFailedToCheckQuota; ErrorProviderNotSupported; ErrorInvalidCloudAccountID; ErrorRegionNotSupported; ErrorMalformedDinosaurClusterName; ErrorMinimumFieldLength; ErrorMaximumFieldLength; ErrorOnlyMultiAZSupported; ErrorDuplicateDinosaurClusterName; ErrorFieldValidationError; ErrorUnableToSendErrorResponse; ErrorMalformedServiceAccountName; ErrorMalformedServiceAccountDesc; ErrorMalformedServiceAccountID; ErrorInstanceTypeNotSupported; ErrorInstancePlanNotSupported; ErrorTooManyRequests].

(** ** Error values

    An [error] is a [*ServiceError], gorm's [ErrRecordNotFound], an error of the
    standard library ([EPlain]; [EFmtWrap] when built with [%w]) or one of
    pkg/errors, which carries a stack trace ([ETraced], [EWrap], [EWithStack]).
    [ENilService] is a nil [*ServiceError] held in an [error] interface, which is
    not nil itself. *)

Inductive error : Type :=
| EService (e : ServiceError)
| ENilService
| ErrRecordNotFound
| EPlain (msg : string)
| EFmtWrap (text : string) (inner : error)
| ETraced (msg : string)
| EWrap (msg : string) (inner : error)
| EWithStack (inner : error)
with ServiceError : Type :=
| mkServiceError (code : Z) (reason : string) (http_code : Z) (cause : option error).

Definition Code (e : ServiceError) : Z := let 'mkServiceError c _ _ _ := e in c.
Definition Reason (e : ServiceError) : string := let 'mkServiceError _ r _ _ := e in r.
Definition HTTPCode (e : ServiceError) : Z := let 'mkServiceError _ _ h _ := e in h.
Definition Unwrap (e : ServiceError) : option error := let 'mkServiceError _ _ _ c := e in c.

Definition CodeStr (code : Z) : string := Sprintf "%s-%d" [VStr ErrorCodePrefix; VInt code].
Definition Href (code : Z) : string := Sprintf "%s%d" [VStr ErrorHREF; VInt code].

(** [error.Error()] *)
Fixpoint Error (e : error) : string :=
  match e with
  | EService s => service_Error s
  | ENilService => EmptyString
  | ErrRecordNotFound => "record not found"
  | EPlain msg | ETraced msg => msg
  | EFmtWrap text _ => text
  | EWrap msg inner => msg +:+ ": " +:+ Error inner
  | EWithStack inner => Error inner
  end
with service_Error (s : ServiceError) : string :=
  match s with
  | mkServiceError c r _ None => Sprintf "%s: %s" [VStr (CodeStr c); VStr r]
  | mkServiceError c r _ (Some e) =>
      Sprintf "%s: %s" [VStr (CodeStr c); VStr r] +:+ string_of_bytes [10%N] +:+
      " caused by: " +:+ Error e
  end.

(** [fmt.Errorf("prefix: %w", err)] *)
Definition Errorf_w (prefix : string) (err : error) : error := EFmtWrap (prefix +:+ ": " +:+ Error err) err.

(** The errors that implement [stackTracer]. *)
Definition stackTracer (e : error) : bool :=
  match e with
  | EService _ | ENilService | ETraced _ | EWrap _ _ | EWithStack _ => true
  | ErrRecordNotFound | EPlain _ | EFmtWrap _ _ => false
  end.

(** ** The table *)

Definition Errors : list ServiceError :=
  [ mkServiceError ErrorForbidden ErrorForbiddenReason StatusForbidden None;
    mkServiceError ErrorMaxAllowedInstanceReached ErrorMaxAllowedInstanceReachedReason StatusForbidden None;
    mkServiceError ErrorTooManyDinosaurInstancesReached ErrorTooManyDinosaurInstancesReachedReason StatusForbidden None;
    mkServiceError ErrorTooManyRequests ErrorTooManyRequestsReason StatusTooManyRequests None;
    mkServiceError ErrorConflict ErrorConflictReason StatusConflict None;
    mkServiceError ErrorNotFound ErrorNotFoundReason StatusNotFound None;
    mkServiceError ErrorGone ErrorGoneReason StatusGone None;
    mkServiceError ErrorValidation ErrorValidationReason StatusBadRequest None;
    mkServiceError ErrorGeneral ErrorGeneralReason StatusInternalServerError None;
    mkServiceError ErrorNotImplemented ErrorNotImplementedReason StatusMethodNotAllowed None;
    mkServiceError ErrorUnauthorized ErrorUnauthorizedReason StatusForbidden None;
    mkServiceError ErrorTermsNotAccepted ErrorTermsNotAcceptedReason StatusForbidden None;
    mkServiceError ErrorUnauthenticated ErrorUnauthenticatedReason StatusUnauthorized None;
    mkServiceError ErrorMalformedRequest ErrorMalformedRequestReason StatusBadRequest None;
    mkServiceError ErrorBadRequest ErrorBadRequestReason StatusBadRequest None;
    mkServiceError ErrorFailedToParseSearch ErrorFailedToParseSearchReason StatusBadRequest None;
    mkServiceError ErrorSyncActionNotSupported ErrorSyncActionNotSupportedReason StatusBadRequest None;
    mkServiceError ErrorFailedToCreateSSOClient ErrorFailedToCreateSSOClientReason StatusInternalServerError None;
    mkServiceError ErrorFailedToGetSSOClientSecret ErrorFailedToGetSSOClientSecretReason StatusInternalServerError None;
    mkServiceError ErrorFailedToGetSSOClient ErrorFailedToGetSSOClientReason StatusInternalServerError None;
    mkServiceError ErrorFailedToDeleteSSOClient ErrorFailedToDeleteSSOClientReason StatusInternalServerError None;
    mkServiceError ErrorFailedToCreateServiceAccount ErrorFailedToCreateServiceAccountReason StatusInternalServerError None;
    mkServiceError ErrorFailedToGetServiceAccount ErrorFailedToGetServiceAccountReason StatusInternalServerError None;
    mkServiceError ErrorServiceAccountNotFound ErrorServiceAccountNotFoundReason StatusNotFound None;
    mkServiceError ErrorFailedToDeleteServiceAccount ErrorFailedToDeleteServiceAccountReason StatusInternalServerError None;
    mkServiceError ErrorProviderNotSupported ErrorProviderNotSupportedReason StatusBadRequest None;
    mkServiceError ErrorRegionNotSupported ErrorRegionNotSupportedReason StatusBadRequest None;
    mkServiceError ErrorInstanceTypeNotSupported ErrorInstanceTypeNotSupportedReason StatusBadRequest None;
    mkServiceError ErrorMalformedDinosaurClusterName ErrorMalformedDinosaurClusterNameReason StatusBadRequest None;
    mkServiceError ErrorMinimumFieldLength ErrorMinimumFieldLengthReason StatusBadRequest None;
    mkServiceError ErrorMaximumFieldLength ErrorMaximumFieldLengthReason StatusBadRequest None;
    mkServiceError ErrorOnlyMultiAZSupported ErrorOnlyMultiAZSupportedReason StatusBadRequest None;
    mkServiceError ErrorDuplicateDinosaurClusterName ErrorDuplicateDinosaurClusterNameReason StatusConflict None;
    mkServiceError ErrorUnableToSendErrorResponse ErrorUnableToSendErrorResponseReason StatusInternalServerError None;
    mkServiceError ErrorFieldValidationError ErrorFieldValidationErrorReason StatusBadRequest None;
    mkServiceError ErrorInsufficientQuota ErrorInsufficientQuotaReason StatusForbidden None;
    mkServiceError ErrorFailedToCheckQuota ErrorFailedToCheckQuotaReason StatusInternalServerError None;
    mkServiceError ErrorMalformedServiceAccountName ErrorMalformedServiceAccountNameReason StatusBadRequest None;
    mkServiceError ErrorMalformedServiceAccountDesc ErrorMalformedServiceAccountDescReason StatusBadRequest None;
    mkServiceError ErrorMalformedServiceAccountID ErrorMalformedServiceAccountIDReason StatusBadRequest None;
    mkServiceError ErrorMaxLimitForServiceAccountsReached ErrorMaxLimitForServiceAccountsReachedReason StatusForbidden None;
    mkServiceError ErrorInstancePlanNotSupported ErrorInstancePlanNotSupportedReason StatusBadRequest None;
    mkServiceError ErrorInvalidCloudAccountID ErrorInvalidCloudAccountIDReason StatusBadRequest None ].

Definition Find (code : Z) : option ServiceError := list_find (fun e => Code e = code) Errors ≫= fun p => Some p.2.

(** ** Building errors *)

Definition NewWithCause (code : Z) (cause : option error) (reason : string)
    (values : list fmt_arg) : ServiceError :=
  let err := match Find code with
             | Some e => e
             | None => mkServiceError ErrorGeneral "Unspecified error" StatusInternalServerError None
             end in
  let cause := match cause with
               | Some c => Some (if stackTracer c then c else EWithStack c)
               | None => None
               end in
  let reason := if bool_decide (reason <> "") then Sprintf reason values else Reason err in
  mkServiceError (Code err) reason (HTTPCode err) cause.

Definition New (code : Z) (reason : string) (values : list fmt_arg) : ServiceError :=
  NewWithCause code None reason values.

Definition NotFound (reason : string) (values : list fmt_arg) : ServiceError := New ErrorNotFound reason values.
Definition GeneralError (reason : string) (values : list fmt_arg) : ServiceError := New ErrorGeneral reason values.
Definition Unauthorized (reason : string) (values : list fmt_arg) : ServiceError := New ErrorUnauthorized reason values.
Definition TermsNotAccepted (reason : string) (values : list fmt_arg) : ServiceError := New ErrorTermsNotAccepted reason values.
Definition Unauthenticated (reason : string) (values : list fmt_arg) : ServiceError := New ErrorUnauthenticated reason values.
Definition Forbidden (reason : string) (values : list fmt_arg) : ServiceError := New ErrorForbidden reason values.
Definition MaximumAllowedInstanceReached (reason : string) (values : list fmt_arg) : ServiceError := New ErrorMaxAllowedInstanceReached reason values.
Definition TooManyDinosaurInstancesReached (reason : string) (values : list fmt_arg) : ServiceError := New ErrorTooManyDinosaurInstancesReached reason values.
Definition NotImplemented (reason : string) (values : list fmt_arg) : ServiceError := New ErrorNotImplemented reason values.
Definition Conflict (reason : string) (values : list fmt_arg) : ServiceError := New ErrorConflict reason values.
Definition Validation (reason : string) (values : list fmt_arg) : ServiceError := New ErrorValidation reason values.
Definition MalformedRequest (reason : string) (values : list fmt_arg) : ServiceError := New ErrorMalformedRequest reason values.
Definition BadRequest (reason : string) (values : list fmt_arg) : ServiceError := New ErrorBadRequest reason values.
Definition FailedToCreateSSOClient (reason : string) (values : list fmt_arg) : ServiceError := New ErrorFailedToCreateSSOClient reason values.
Definition FailedToGetSSOClientSecret (reason : string) (values : list fmt_arg) : ServiceError := New ErrorFailedToGetSSOClientSecret reason values.
Definition FailedToGetSSOClient (reason : string) (values : list fmt_arg) : ServiceError := New ErrorFailedToGetSSOClient reason values.
Definition FailedToDeleteSSOClient (reason : string) (values : list fmt_arg) : ServiceError := New ErrorFailedToDeleteSSOClient reason values.
Definition FailedToCreateServiceAccount (reason : string) (values : list fmt_arg) : ServiceError := New ErrorFailedToCreateServiceAccount reason values.
Definition FailedToDeleteServiceAccount (reason : string) (values : list fmt_arg) : ServiceError := New ErrorFailedToDeleteServiceAccount reason values.
Definition MaxLimitForServiceAccountReached (reason : string) (values : list fmt_arg) : ServiceError := New ErrorMaxLimitForServiceAccountsReached reason values.
Definition FailedToGetServiceAccount (reason : string) (values : list fmt_arg) : ServiceError := New ErrorFailedToGetServiceAccount reason values.
Definition ServiceAccountNotFound (reason : string) (values : list fmt_arg) : ServiceError := New ErrorServiceAccountNotFound reason values.
Definition RegionNotSupported (reason : string) (values : list fmt_arg) : ServiceError := New ErrorRegionNotSupported reason values.
Definition InstanceTypeNotSupported (reason : string) (values : list fmt_arg) : ServiceError := New ErrorInstanceTypeNotSupported reason values.
Definition ProviderNotSupported (reason : string) (values : list fmt_arg) : ServiceError := New ErrorProviderNotSupported reason values.
Definition MalformedDinosaurClusterName (reason : string) (values : list fmt_arg) : ServiceError := New ErrorMalformedDinosaurClusterName reason values.
Definition InstancePlanNotSupported (reason : string) (values : list fmt_arg) : ServiceError := New ErrorInstancePlanNotSupported reason values.
Definition MalformedServiceAccountName (reason : string) (values : list fmt_arg) : ServiceError := New ErrorMalformedServiceAccountName reason values.
Definition MalformedServiceAccountDesc (reason : string) (values : list fmt_arg) : ServiceError := New ErrorMalformedServiceAccountDesc reason values.
Definition MalformedServiceAccountID (reason : string) (values : list fmt_arg) : ServiceError := New ErrorMalformedServiceAccountID reason values.
Definition MinimumFieldLengthNotReached (reason : string) (values : list fmt_arg) : ServiceError := New ErrorMinimumFieldLength reason values.
Definition MaximumFieldLengthMissing (reason : string) (values : list fmt_arg) : ServiceError := New ErrorMaximumFieldLength reason values.
Definition FailedToParseQueryParms (reason : string) (values : list fmt_arg) : ServiceError := New ErrorBadRequest reason values.
Definition FailedToParseSearch (reason : string) (values : list fmt_arg) : ServiceError :=
  New ErrorFailedToParseSearch (Sprintf "%s: %s" [VStr ErrorFailedToParseSearchReason; VStr reason]) values.
Definition FieldValidationError (reason : string) (values : list fmt_arg) : ServiceError :=
  New ErrorFieldValidationError (Sprintf "%s: %s" [VStr ErrorFieldValidationErrorReason; VStr reason]) values.
Definition InsufficientQuotaError (reason : string) (values : list fmt_arg) : ServiceError :=
  New ErrorInsufficientQuota (Sprintf "%s: %s" [VStr ErrorInsufficientQuotaReason; VStr reason]) values.
Definition FailedToCheckQuota (reason : string) (values : list fmt_arg) : ServiceError :=
  New ErrorFailedToCheckQuota (Sprintf "%s: %s" [VStr ErrorFailedToCheckQuotaReason; VStr reason]) values.
Definition InvalidCloudAccountID (reason : string) (values : list fmt_arg) : ServiceError :=
  New ErrorInvalidCloudAccountID (Sprintf "%s: %s" [VStr ErrorInvalidCloudAccountIDReason; VStr reason]) values.
Definition SyncActionNotSupported : ServiceError := New ErrorSyncActionNotSupported ErrorSyncActionNotSupportedReason [].
Definition NotMultiAzActionNotSupported : ServiceError := New ErrorOnlyMultiAZSupported ErrorOnlyMultiAZSupportedReason [].
Definition DuplicateDinosaurClusterName : ServiceError := New ErrorDuplicateDinosaurClusterName ErrorDuplicateDinosaurClusterNameReason [].
Definition UnableToSendErrorResponse : ServiceError := New ErrorUnableToSendErrorResponse ErrorUnableToSendErrorResponseReason [].
Definition InvalidOCMConnection : ServiceError := New ErrorGeneral "invalid OCM connection" [].
Definition OrganisationNameInvalid (externalID name : string) : ServiceError :=
  New ErrorGeneral "organisation with external id %q has invalid name %q" [VStr externalID; VStr name].

(** ** Predicates *)

Definition Is404 (e : ServiceError) : bool := (Code e =? Code (NotFound EmptyString []))%Z.
Definition IsConflict (e : ServiceError) : bool := (Code e =? Code (Conflict EmptyString []))%Z.
Definition IsForbidden (e : ServiceError) : bool := (Code e =? Code (Forbidden EmptyString []))%Z.
Definition IsFailedToCreateSSOClient (e : ServiceError) : bool := (Code e =? Code (FailedToCreateSSOClient EmptyString []))%Z.
Definition IsFailedToGetSSOClientSecret (e : ServiceError) : bool := (Code e =? Code (FailedToGetSSOClientSecret EmptyString []))%Z.
Definition IsFailedToGetSSOClient (e : ServiceError) : bool := (Code e =? Code (FailedToGetSSOClient EmptyString []))%Z.
Definition IsFailedToDeleteSSOClient (e : ServiceError) : bool := (Code e =? Code (FailedToDeleteSSOClient EmptyString []))%Z.
Definition IsFailedToCreateServiceAccount (e : ServiceError) : bool := (Code e =? Code (FailedToCreateServiceAccount EmptyString []))%Z.
Definition IsFailedToGetServiceAccount (e : ServiceError) : bool := (Code e =? Code (FailedToGetServiceAccount EmptyString []))%Z.
Definition IsFailedToDeleteServiceAccount (e : ServiceError) : bool := (Code e =? Code (FailedToDeleteServiceAccount EmptyString []))%Z.
Definition IsServiceAccountNotFound (e : ServiceError) : bool := (Code e =? Code (ServiceAccountNotFound EmptyString []))%Z.
Definition IsMaxLimitForServiceAccountReached (e : ServiceError) : bool := (Code e =? ErrorMaxLimitForServiceAccountsReached)%Z.
Definition IsBadRequest (e : ServiceError) : bool := (Code e =? Code (BadRequest EmptyString []))%Z.
Definition InSufficientQuota (e : ServiceError) : bool := (Code e =? Code (InsufficientQuotaError EmptyString []))%Z.
Definition IsFailedToCheckQuota (e : ServiceError) : bool := (Code e =? Code (FailedToCheckQuota EmptyString []))%Z.
Definition IsInstanceTypeNotSupported (e : ServiceError) : bool := (Code e =? ErrorInstanceTypeNotSupported)%Z.
Definition IsClientErrorClass (e : ServiceError) : bool :=
  (StatusBadRequest <=? HTTPCode e) && (HTTPCode e <? StatusInternalServerError).
Definition IsServerErrorClass (e : ServiceError) : bool :=
  StatusInternalServerError <=? HTTPCode e.

(** ** Conversions *)

Definition ToServiceError (err : error) : ServiceError :=
  match err with
  | EService e => e
  | _ => GeneralError (Error err) []
  end.

Definition AsError (e : option ServiceError) : option error :=
  match e with None => None | Some e => Some (EPlain (Sprintf (service_Error e) [])) end.

Definition NewErrorFromHTTPStatusCode (httpCode : Z) (reason : string) (values : list fmt_arg)
    : ServiceError :=
  if (StatusBadRequest <=? httpCode) && (httpCode <? StatusInternalServerError) then
    if httpCode =? StatusBadRequest then BadRequest reason values
    else if httpCode =? StatusUnauthorized then Unauthorized reason values
    else if httpCode =? StatusForbidden then Forbidden reason values
    else if httpCode =? StatusNotFound then NotFound reason values
    else if httpCode =? StatusMethodNotAllowed then NotImplemented reason values
    else if httpCode =? StatusConflict then Conflict reason values
    else BadRequest reason values
  else GeneralError reason values.

Definition ocm_hint : string := " - visit https://console.redhat.com/openshift and try again".

Definition OrganisationNotFound (externalID : string) (err : error) : ServiceError :=
  let svcErr := ToServiceError err in
  let reason := "organisation with external id %s not found" in
  let reason := if Is404 svcErr then reason +:+ ocm_hint else reason in
  NewWithCause (Code svcErr) (Some (EService svcErr)) reason [VStr externalID].

Definition FailedClusterAuthorization (err : error) : ServiceError :=
  let svcErr := ToServiceError err in
  let reason := "failed to reserve quota" in
  let reason := if Is404 svcErr then reason +:+ ocm_hint else reason in
  NewWithCause (Code svcErr) (Some (EService svcErr)) reason [].

(** compat.Error *)
Record OpenapiError := mkOpenapiError {
  oe_Kind : string; oe_Id : string; oe_Href : string; oe_Code : string;
  oe_Reason : string; oe_OperationId : string
}.

Definition AsOpenapiError (e : ServiceError) (operationID basePath : string) : OpenapiError :=
  let href := Href (Code e) in
  let code := CodeStr (Code e) in
  let connector := Contains basePath "/api/connector_mgmt/" in
  let href := if connector then ReplaceFirst href ErrorHREF ConnectorMgmtErrorHREF else href in
  let code := if connector then ReplaceFirst code ErrorCodePrefix ConnectorMgmtErrorCodePrefix else code in
  mkOpenapiError "Error" (pretty (Code e)) href code (Reason e) operationID.

(** ** Database errors (pkg/services/util.go) *)

Definition piiFields : list string := ["username"; "first_name"; "last_name"; "email"; "address"].

(** The loop over [piiFields] *)
Definition redact (field : string) (value : fmt_arg) : fmt_arg :=
  if bool_decide (field ∈ piiFields) then VStr "<redacted>" else value.

Definition IsRecordNotFoundError (err : error) : bool :=
  match err with ErrRecordNotFound => true | _ => false end.

Definition HandleGetError (resourceType field : string) (value : fmt_arg) (err : error) : ServiceError :=
  let value := redact field value in
  if IsRecordNotFoundError err
  then NotFound "%s with %s='%v' not found" [VStr resourceType; VStr field; value]
  else NewWithCause ErrorGeneral (Some err) "Unable to find %s with %s='%v'"
         [VStr resourceType; VStr field; value].

Definition HandleGoneError (resourceType field : string) (value : fmt_arg) : ServiceError :=
  New ErrorGone "%s with %s='%v' has been deleted" [VStr resourceType; VStr field; redact field value].

Definition HandleDeleteError (resourceType field : string) (value : fmt_arg) (err : error) : ServiceError :=
  NewWithCause ErrorGeneral (Some err) "Unable to delete %s with %s='%v'"
    [VStr resourceType; VStr field; redact field value].

Definition HandleCreateError (resourceType : string) (err : error) : ServiceError :=
  if Contains (Error err) "violates unique constraint"
  then Conflict "This %s already exists" [VStr resourceType]
  else GeneralError "Unable to create %s: %s" [VStr resourceType; VStr (Error err)].

Definition HandleUpdateError (resourceType : string) (err : error) : ServiceError :=
  if Contains (Error err) "violates unique constraint"
  then Conflict "Changes to %s conflict with existing records" [VStr resourceType]
  else GeneralError "Unable to update %s: %s" [VStr resourceType; VStr (Error err)].

(** ** The table is consistent *)

Lemma Errors_codes : Code <$> Errors ≡ₚ all_codes.
Proof. apply NoDup_Permutation; [by apply (bool_decide_unpack _)..|].
  intros c. split; intros H; elem_cases H; by apply (bool_decide_unpack _).
Qed.

Lemma Find_Some code e : Find code = Some e -> Code e = code /\ e ∈ Errors.
Proof.
  unfold Find. intros H. apply bind_Some in H as ([i e'] & H & [= <-]).
  apply list_find_Some in H as (Hl & Hc & _). split; [done|]. by eapply list_elem_of_lookup_2.
Qed.

Lemma Find_defined code : code ∈ all_codes -> exists e, Find code = Some e.
Proof. intros H. unfold all_codes in H. elem_cases H; eexists; vm_compute; reflexivity. Qed.

Lemma Find_undefined code : code ∉ all_codes -> Find code = None.
Proof.
  intros H. unfold Find. apply bind_None. left. apply list_find_None, Forall_forall.
  intros e He <-. apply H. rewrite <- Errors_codes. apply list_elem_of_fmap. eauto.
Qed.

Lemma Errors_http e : e ∈ Errors -> (400 <= HTTPCode e <= 500)%Z.
Proof. intros H. unfold Errors in H. elem_cases H; vm_compute; split; discriminate. Qed.

Lemma NewWithCause_code code cause reason values :
  code ∈ all_codes -> Code (NewWithCause code cause reason values) = code.
Proof.
  intros H. unfold NewWithCause. destruct (Find_defined code H) as [e He]. rewrite He.
  by destruct (Find_Some _ _ He).
Qed.

Lemma NewWithCause_http code cause reason values :
  (400 <= HTTPCode (NewWithCause code cause reason values) <= 500)%Z.
Proof.
  unfold NewWithCause. destruct (Find code) as [e|] eqn:He; simpl; [|done].
  apply Errors_http. by destruct (Find_Some _ _ He).
Qed.

(** The table of errors is a bijection with the declared codes: no two entries
    share a code, every declared code has an entry, and an error built for a
    code carries that code and the HTTP status of its entry; an undeclared code
    becomes the general error with status 500. *)
Theorem NewWithCause_table code cause reason values :
  NoDup (Code <$> Errors) /\
  (code ∈ all_codes ->
     exists e, e ∈ Errors /\ Code e = code /\
       Code (NewWithCause code cause reason values) = code /\
       HTTPCode (NewWithCause code cause reason values) = HTTPCode e) /\
  (code ∉ all_codes ->
     Code (NewWithCause code cause reason values) = ErrorGeneral /\
     HTTPCode (NewWithCause code cause reason values) = StatusInternalServerError).
Proof.
  split_and!.
  - by apply (bool_decide_unpack _).
  - intros H. destruct (Find_defined code H) as [e He]. destruct (Find_Some _ _ He) as [Hc Hin].
    exists e. unfold NewWithCause. by rewrite He.
  - intros H. unfold NewWithCause. by rewrite (Find_undefined code H).
Qed.

Lemma NewWithCause_table_witness :
  (ErrorNotFound ∈ all_codes /\ 1 ∉ all_codes) /\
  exists e, e ∈ Errors /\ Code e = ErrorNotFound /\
    Code (NewWithCause ErrorNotFound None "" []) = ErrorNotFound /\
    HTTPCode (NewWithCause ErrorNotFound None "" []) = HTTPCode e.
Proof.
  assert (ErrorNotFound ∈ all_codes) as H by by apply (bool_decide_unpack _).
  split; [split; [exact H|by apply (bool_decide_unpack _)]|].
  apply (NewWithCause_table ErrorNotFound None "" []); exact H.
Defined.

(** Converting an HTTP status of an upstream service to a service error keeps
    its class: a 4xx answer becomes a client error, every other one a server
    error, never both; the exact status is kept for 400, 403, 404, 405, 409 and
    500, while 401 is reported as 403. *)
Theorem NewErrorFromHTTPStatusCode_class httpCode reason values :
  let e := NewErrorFromHTTPStatusCode httpCode reason values in
  IsClientErrorClass e = bool_decide (400 <= httpCode < 500) /\
  IsServerErrorClass e = negb (IsClientErrorClass e) /\
  (httpCode ∈ [400; 403; 404; 405; 409; 500] -> HTTPCode e = httpCode) /\
  (httpCode = StatusUnauthorized -> HTTPCode e = StatusForbidden).
Proof.
  unfold NewErrorFromHTTPStatusCode, IsClientErrorClass, IsServerErrorClass.
  unfold StatusBadRequest, StatusInternalServerError.
  destruct (400 <=? httpCode) eqn:H1; destruct (httpCode <? 500) eqn:H2; simpl;
    [|split_and!; [symmetry; rewrite bool_decide_eq_false; lia|done| |unfold StatusUnauthorized; lia];
      intros H; elem_cases H; try done; lia..].
  repeat match goal with |- context [(httpCode =? ?c)%Z] => destruct (httpCode =? c)%Z eqn:?; simpl end;
    (split_and!; [rewrite bool_decide_eq_true_2 by lia; done|done|
                  intros H; elem_cases H; try done; unfold StatusUnauthorized, StatusConflict, StatusForbidden, StatusMethodNotAllowed, StatusNotFound, StatusBadRequest in *; lia|
                  intros ->; try done; unfold StatusUnauthorized in *; lia]).
Qed.

Lemma NewErrorFromHTTPStatusCode_class_witness :
  HTTPCode (NewErrorFromHTTPStatusCode 404 "" []) = 404 /\
  HTTPCode (NewErrorFromHTTPStatusCode 401 "" []) = StatusForbidden.
Proof.
  split.
  - apply (NewErrorFromHTTPStatusCode_class 404 "" []). by apply (bool_decide_unpack _).
  - apply (NewErrorFromHTTPStatusCode_class 401 "" []). reflexivity.
Defined.

(** Reasons never lose the code of the error they explain. *)
Lemma ToServiceError_code err :
  match err with EService e => ToServiceError err = e | _ => Code (ToServiceError err) = ErrorGeneral end.
Proof. destruct err; try done; apply NewWithCause_code; by apply (bool_decide_unpack _). Qed.
