(* ===== verification/CentralRequest.v ===== *)
(** * Central requests

    [internal/dinosaur/constants/central.go]: the statuses of a central instance
    and their order; [internal/dinosaur/pkg/api/dbapi/central_request_types.go]:
    the row of a central instance, its host names and its routes;
    [data_plane_central_status.go]: the status a data plane cluster reports.

    A [time.Time] is a number of nanoseconds since the zero time.  JSON columns
    that the code decodes are kept as the value their text encodes. *)

From S2P Require Import Prelude GoString GoFmt ServiceErrors.
Local Open Scope string_scope.
Local Open Scope Z_scope.

(** ** Statuses *)

Definition CentralRequestStatusAccepted : string := "accepted".
Definition CentralRequestStatusPreparing : string := "preparing".
Definition CentralRequestStatusProvisioning : string := "provisioning".
Definition CentralRequestStatusReady : string := "ready".
Definition CentralRequestStatusFailed : string := "failed".
Definition CentralRequestStatusDeprovision : string := "deprovision".
Definition CentralRequestStatusDeleting : string := "deleting".

Definition CentralOperationCreate : string := "create".
Definition CentralOperationDelete : string := "delete".
Definition CentralOperationDeprovision : string := "deprovision".

Definition minute : Z := 60 * 1000000000.
Definition CentralMaxDurationWithProvisioningErrs : Z := 5 * minute.
Definition AcceptedCentralMaxRetryDuration : Z := 5 * minute.

(** The map [ordinals]; Go's lookup of a missing key gives 0. *)
Definition ordinals : list (string * Z) :=
  [ (CentralRequestStatusAccepted, 0);
    (CentralRequestStatusPreparing, 10);
    (CentralRequestStatusProvisioning, 20);
    (CentralRequestStatusReady, 30);
    (CentralRequestStatusDeprovision, 40);
    (CentralRequestStatusDeleting, 50);
    (CentralRequestStatusFailed, 500) ].

(** Lookup in a Go map literal, the zero value for a missing key. *)
Fixpoint map_get (k : string) (m : list (string * Z)) : Z :=
  match m with
  | [] => 0
  | (k', v) :: m => if bool_decide (k = k') then v else map_get k m
  end.

Definition ordinal (k : string) : Z := map_get k ordinals.

Definition CompareTo (k k1 : string) : Z :=
  if ordinal k =? ordinal k1 then 0 else if ordinal k >? ordinal k1 then 1 else -1.

Definition GetUpdateableStatuses : list string :=
  [ CentralRequestStatusPreparing; CentralRequestStatusProvisioning;
    CentralRequestStatusFailed; CentralRequestStatusReady ].

Definition all_statuses : list string :=
  [ CentralRequestStatusAccepted; CentralRequestStatusPreparing; CentralRequestStatusProvisioning;
    CentralRequestStatusReady; CentralRequestStatusDeprovision; CentralRequestStatusDeleting;
    CentralRequestStatusFailed ].

(** ** The reported status of a central instance *)

Record DataPlaneCentralStatusCondition := mkCondition {
  cond_Type : string; cond_Reason : string; cond_Status : string; cond_Message : string
}.

Record DataPlaneCentralRoute := mkRoute { route_Domain : string; route_Router : string }.

#[export] Instance route_eq_dec : EqDecision DataPlaneCentralRoute.
Proof. solve_decision. Defined.

Record DataPlaneCentralStatus := mkCentralStatus {
  ds_CentralClusterID : string;
  ds_Conditions : list DataPlaneCentralStatusCondition;
  ds_Routes : option (list DataPlaneCentralRoute);
  ds_CentralVersion : string;
  ds_CentralOperatorVersion : string
}.

Definition GetReadyCondition (d : DataPlaneCentralStatus) : option DataPlaneCentralStatusCondition :=
  snd <$> list_find (fun c => EqualFold (cond_Type c) "Ready" = true) (ds_Conditions d).

(** ** The row of a central instance *)

(** The text of the routes column: an array of routes, the literal [null], or a
    text that does not decode. *)
Inductive routes_json := JRoutes (l : list DataPlaneCentralRoute) | JNull | JInvalid.

#[export] Instance routes_json_eq_dec : EqDecision routes_json.
Proof. solve_decision. Defined.

Definition AuthConfigStaticClientOrigin : string := "shared_static_rhsso".
Definition AuthConfigDynamicClientOrigin : string := "dedicated_dynamic_rhsso".

Record CentralRequest := mkCentralRequest {
  cr_ID : string;
  cr_CreatedAt : Z;
  cr_UpdatedAt : Z;
  cr_Region : string;
  cr_ClusterID : string;
  cr_CloudProvider : string;
  cr_CloudAccountID : string;
  cr_MultiAZ : bool;
  cr_Name : string;
  cr_Status : string;
  cr_SubscriptionID : string;
  cr_Owner : string;
  cr_OwnerAccountID : string;
  cr_OwnerUserID : string;
  cr_Host : string;
  cr_OrganisationID : string;
  cr_OrganisationName : string;
  cr_FailedReason : string;
  cr_PlacementID : string;
  cr_Central : option string;
  cr_Scanner : option string;
  cr_DesiredCentralVersion : string;
  cr_ActualCentralVersion : string;
  cr_DesiredCentralOperatorVersion : string;
  cr_ActualCentralOperatorVersion : string;
  cr_CentralUpgrading : bool;
  cr_CentralOperatorUpgrading : bool;
  cr_InstanceType : string;
  cr_QuotaType : string;
  cr_Routes : option routes_json;
  cr_RoutesCreated : bool;
  cr_Namespace : string;
  cr_RoutesCreationID : string;
  cr_DeletionTimestamp : option Z;
  cr_Internal : bool;
  cr_ClientID : string;
  cr_ClientSecret : string;
  cr_Issuer : string;
  cr_ClientOrigin : string
}.

#[export] Instance CentralRequest_eq_dec : EqDecision CentralRequest.
Proof. solve_decision. Defined.

(** Go's zero value of the struct. *)
Definition zero_CentralRequest : CentralRequest :=
  mkCentralRequest
    "" 0 0 "" "" "" "" false "" "" "" "" "" "" "" "" "" "" "" None None "" "" "" "" false false
    "" "" None false "" "" None false "" "" "" "".

(** Assignments to one field. *)
Definition set_ID (v : string) (r : CentralRequest) : CentralRequest :=
  mkCentralRequest
    v (cr_CreatedAt r) (cr_UpdatedAt r) (cr_Region r) (cr_ClusterID r) (cr_CloudProvider r)
    (cr_CloudAccountID r) (cr_MultiAZ r) (cr_Name r) (cr_Status r) (cr_SubscriptionID r)
    (cr_Owner r) (cr_OwnerAccountID r) (cr_OwnerUserID r) (cr_Host r) (cr_OrganisationID r)
    (cr_OrganisationName r) (cr_FailedReason r) (cr_PlacementID r) (cr_Central r)
    (cr_Scanner r) (cr_DesiredCentralVersion r) (cr_ActualCentralVersion r)
    (cr_DesiredCentralOperatorVersion r) (cr_ActualCentralOperatorVersion r)
    (cr_CentralUpgrading r) (cr_CentralOperatorUpgrading r) (cr_InstanceType r)
    (cr_QuotaType r) (cr_Routes r) (cr_RoutesCreated r) (cr_Namespace r)
    (cr_RoutesCreationID r) (cr_DeletionTimestamp r) (cr_Internal r) (cr_ClientID r)
    (cr_ClientSecret r) (cr_Issuer r) (cr_ClientOrigin r).
Definition set_CreatedAt (v : Z) (r : CentralRequest) : CentralRequest :=
  mkCentralRequest
    (cr_ID r) v (cr_UpdatedAt r) (cr_Region r) (cr_ClusterID r) (cr_CloudProvider r)
    (cr_CloudAccountID r) (cr_MultiAZ r) (cr_Name r) (cr_Status r) (cr_SubscriptionID r)
    (cr_Owner r) (cr_OwnerAccountID r) (cr_OwnerUserID r) (cr_Host r) (cr_OrganisationID r)
    (cr_OrganisationName r) (cr_FailedReason r) (cr_PlacementID r) (cr_Central r)
    (cr_Scanner r) (cr_DesiredCentralVersion r) (cr_ActualCentralVersion r)
    (cr_DesiredCentralOperatorVersion r) (cr_ActualCentralOperatorVersion r)
    (cr_CentralUpgrading r) (cr_CentralOperatorUpgrading r) (cr_InstanceType r)
    (cr_QuotaType r) (cr_Routes r) (cr_RoutesCreated r) (cr_Namespace r)
    (cr_RoutesCreationID r) (cr_DeletionTimestamp r) (cr_Internal r) (cr_ClientID r)
    (cr_ClientSecret r) (cr_Issuer r) (cr_ClientOrigin r).
Definition set_UpdatedAt (v : Z) (r : CentralRequest) : CentralRequest :=
  mkCentralRequest
    (cr_ID r) (cr_CreatedAt r) v (cr_Region r) (cr_ClusterID r) (cr_CloudProvider r)
    (cr_CloudAccountID r) (cr_MultiAZ r) (cr_Name r) (cr_Status r) (cr_SubscriptionID r)
    (cr_Owner r) (cr_OwnerAccountID r) (cr_OwnerUserID r) (cr_Host r) (cr_OrganisationID r)
    (cr_OrganisationName r) (cr_FailedReason r) (cr_PlacementID r) (cr_Central r)
    (cr_Scanner r) (cr_DesiredCentralVersion r) (cr_ActualCentralVersion r)
    (cr_DesiredCentralOperatorVersion r) (cr_ActualCentralOperatorVersion r)
    (cr_CentralUpgrading r) (cr_CentralOperatorUpgrading r) (cr_InstanceType r)
    (cr_QuotaType r) (cr_Routes r) (cr_RoutesCreated r) (cr_Namespace r)
    (cr_RoutesCreationID r) (cr_DeletionTimestamp r) (cr_Internal r) (cr_ClientID r)
    (cr_ClientSecret r) (cr_Issuer r) (cr_ClientOrigin r).
Definition set_ClusterID (v : string) (r : CentralRequest) : CentralRequest :=
  mkCentralRequest
    (cr_ID r) (cr_CreatedAt r) (cr_UpdatedAt r) (cr_Region r) v (cr_CloudProvider r)
    (cr_CloudAccountID r) (cr_MultiAZ r) (cr_Name r) (cr_Status r) (cr_SubscriptionID r)
    (cr_Owner r) (cr_OwnerAccountID r) (cr_OwnerUserID r) (cr_Host r) (cr_OrganisationID r)
    (cr_OrganisationName r) (cr_FailedReason r) (cr_PlacementID r) (cr_Central r)
    (cr_Scanner r) (cr_DesiredCentralVersion r) (cr_ActualCentralVersion r)
    (cr_DesiredCentralOperatorVersion r) (cr_ActualCentralOperatorVersion r)
    (cr_CentralUpgrading r) (cr_CentralOperatorUpgrading r) (cr_InstanceType r)
    (cr_QuotaType r) (cr_Routes r) (cr_RoutesCreated r) (cr_Namespace r)
    (cr_RoutesCreationID r) (cr_DeletionTimestamp r) (cr_Internal r) (cr_ClientID r)
    (cr_ClientSecret r) (cr_Issuer r) (cr_ClientOrigin r).
Definition set_Status (v : string) (r : CentralRequest) : CentralRequest :=
  mkCentralRequest
    (cr_ID r) (cr_CreatedAt r) (cr_UpdatedAt r) (cr_Region r) (cr_ClusterID r)
    (cr_CloudProvider r) (cr_CloudAccountID r) (cr_MultiAZ r) (cr_Name r) v
    (cr_SubscriptionID r) (cr_Owner r) (cr_OwnerAccountID r) (cr_OwnerUserID r) (cr_Host r)
    (cr_OrganisationID r) (cr_OrganisationName r) (cr_FailedReason r) (cr_PlacementID r)
    (cr_Central r) (cr_Scanner r) (cr_DesiredCentralVersion r) (cr_ActualCentralVersion r)
    (cr_DesiredCentralOperatorVersion r) (cr_ActualCentralOperatorVersion r)
    (cr_CentralUpgrading r) (cr_CentralOperatorUpgrading r) (cr_InstanceType r)
    (cr_QuotaType r) (cr_Routes r) (cr_RoutesCreated r) (cr_Namespace r)
    (cr_RoutesCreationID r) (cr_DeletionTimestamp r) (cr_Internal r) (cr_ClientID r)
    (cr_ClientSecret r) (cr_Issuer r) (cr_ClientOrigin r).
Definition set_SubscriptionID (v : string) (r : CentralRequest) : CentralRequest :=
  mkCentralRequest
    (cr_ID r) (cr_CreatedAt r) (cr_UpdatedAt r) (cr_Region r) (cr_ClusterID r)
    (cr_CloudProvider r) (cr_CloudAccountID r) (cr_MultiAZ r) (cr_Name r) (cr_Status r) v
    (cr_Owner r) (cr_OwnerAccountID r) (cr_OwnerUserID r) (cr_Host r) (cr_OrganisationID r)
    (cr_OrganisationName r) (cr_FailedReason r) (cr_PlacementID r) (cr_Central r)
    (cr_Scanner r) (cr_DesiredCentralVersion r) (cr_ActualCentralVersion r)
    (cr_DesiredCentralOperatorVersion r) (cr_ActualCentralOperatorVersion r)
    (cr_CentralUpgrading r) (cr_CentralOperatorUpgrading r) (cr_InstanceType r)
    (cr_QuotaType r) (cr_Routes r) (cr_RoutesCreated r) (cr_Namespace r)
    (cr_RoutesCreationID r) (cr_DeletionTimestamp r) (cr_Internal r) (cr_ClientID r)
    (cr_ClientSecret r) (cr_Issuer r) (cr_ClientOrigin r).
Definition set_Host (v : string) (r : CentralRequest) : CentralRequest :=
  mkCentralRequest
    (cr_ID r) (cr_CreatedAt r) (cr_UpdatedAt r) (cr_Region r) (cr_ClusterID r)
    (cr_CloudProvider r) (cr_CloudAccountID r) (cr_MultiAZ r) (cr_Name r) (cr_Status r)
    (cr_SubscriptionID r) (cr_Owner r) (cr_OwnerAccountID r) (cr_OwnerUserID r) v
    (cr_OrganisationID r) (cr_OrganisationName r) (cr_FailedReason r) (cr_PlacementID r)
    (cr_Central r) (cr_Scanner r) (cr_DesiredCentralVersion r) (cr_ActualCentralVersion r)
    (cr_DesiredCentralOperatorVersion r) (cr_ActualCentralOperatorVersion r)
    (cr_CentralUpgrading r) (cr_CentralOperatorUpgrading r) (cr_InstanceType r)
    (cr_QuotaType r) (cr_Routes r) (cr_RoutesCreated r) (cr_Namespace r)
    (cr_RoutesCreationID r) (cr_DeletionTimestamp r) (cr_Internal r) (cr_ClientID r)
    (cr_ClientSecret r) (cr_Issuer r) (cr_ClientOrigin r).
Definition set_OrganisationName (v : string) (r : CentralRequest) : CentralRequest :=
  mkCentralRequest
    (cr_ID r) (cr_CreatedAt r) (cr_UpdatedAt r) (cr_Region r) (cr_ClusterID r)
    (cr_CloudProvider r) (cr_CloudAccountID r) (cr_MultiAZ r) (cr_Name r) (cr_Status r)
    (cr_SubscriptionID r) (cr_Owner r) (cr_OwnerAccountID r) (cr_OwnerUserID r) (cr_Host r)
    (cr_OrganisationID r) v (cr_FailedReason r) (cr_PlacementID r) (cr_Central r)
    (cr_Scanner r) (cr_DesiredCentralVersion r) (cr_ActualCentralVersion r)
    (cr_DesiredCentralOperatorVersion r) (cr_ActualCentralOperatorVersion r)
    (cr_CentralUpgrading r) (cr_CentralOperatorUpgrading r) (cr_InstanceType r)
    (cr_QuotaType r) (cr_Routes r) (cr_RoutesCreated r) (cr_Namespace r)
    (cr_RoutesCreationID r) (cr_DeletionTimestamp r) (cr_Internal r) (cr_ClientID r)
    (cr_ClientSecret r) (cr_Issuer r) (cr_ClientOrigin r).
Definition set_FailedReason (v : string) (r : CentralRequest) : CentralRequest :=
  mkCentralRequest
    (cr_ID r) (cr_CreatedAt r) (cr_UpdatedAt r) (cr_Region r) (cr_ClusterID r)
    (cr_CloudProvider r) (cr_CloudAccountID r) (cr_MultiAZ r) (cr_Name r) (cr_Status r)
    (cr_SubscriptionID r) (cr_Owner r) (cr_OwnerAccountID r) (cr_OwnerUserID r) (cr_Host r)
    (cr_OrganisationID r) (cr_OrganisationName r) v (cr_PlacementID r) (cr_Central r)
    (cr_Scanner r) (cr_DesiredCentralVersion r) (cr_ActualCentralVersion r)
    (cr_DesiredCentralOperatorVersion r) (cr_ActualCentralOperatorVersion r)
    (cr_CentralUpgrading r) (cr_CentralOperatorUpgrading r) (cr_InstanceType r)
    (cr_QuotaType r) (cr_Routes r) (cr_RoutesCreated r) (cr_Namespace r)
    (cr_RoutesCreationID r) (cr_DeletionTimestamp r) (cr_Internal r) (cr_ClientID r)
    (cr_ClientSecret r) (cr_Issuer r) (cr_ClientOrigin r).
Definition set_PlacementID (v : string) (r : CentralRequest) : CentralRequest :=
  mkCentralRequest
    (cr_ID r) (cr_CreatedAt r) (cr_UpdatedAt r) (cr_Region r) (cr_ClusterID r)
    (cr_CloudProvider r) (cr_CloudAccountID r) (cr_MultiAZ r) (cr_Name r) (cr_Status r)
    (cr_SubscriptionID r) (cr_Owner r) (cr_OwnerAccountID r) (cr_OwnerUserID r) (cr_Host r)
    (cr_OrganisationID r) (cr_OrganisationName r) (cr_FailedReason r) v (cr_Central r)
    (cr_Scanner r) (cr_DesiredCentralVersion r) (cr_ActualCentralVersion r)
    (cr_DesiredCentralOperatorVersion r) (cr_ActualCentralOperatorVersion r)
    (cr_CentralUpgrading r) (cr_CentralOperatorUpgrading r) (cr_InstanceType r)
    (cr_QuotaType r) (cr_Routes r) (cr_RoutesCreated r) (cr_Namespace r)
    (cr_RoutesCreationID r) (cr_DeletionTimestamp r) (cr_Internal r) (cr_ClientID r)
    (cr_ClientSecret r) (cr_Issuer r) (cr_ClientOrigin r).
Definition set_Central (v : option string) (r : CentralRequest) : CentralRequest :=
  mkCentralRequest
    (cr_ID r) (cr_CreatedAt r) (cr_UpdatedAt r) (cr_Region r) (cr_ClusterID r)
    (cr_CloudProvider r) (cr_CloudAccountID r) (cr_MultiAZ r) (cr_Name r) (cr_Status r)
    (cr_SubscriptionID r) (cr_Owner r) (cr_OwnerAccountID r) (cr_OwnerUserID r) (cr_Host r)
    (cr_OrganisationID r) (cr_OrganisationName r) (cr_FailedReason r) (cr_PlacementID r) v
    (cr_Scanner r) (cr_DesiredCentralVersion r) (cr_ActualCentralVersion r)
    (cr_DesiredCentralOperatorVersion r) (cr_ActualCentralOperatorVersion r)
    (cr_CentralUpgrading r) (cr_CentralOperatorUpgrading r) (cr_InstanceType r)
    (cr_QuotaType r) (cr_Routes r) (cr_RoutesCreated r) (cr_Namespace r)
    (cr_RoutesCreationID r) (cr_DeletionTimestamp r) (cr_Internal r) (cr_ClientID r)
    (cr_ClientSecret r) (cr_Issuer r) (cr_ClientOrigin r).
Definition set_Scanner (v : option string) (r : CentralRequest) : CentralRequest :=
  mkCentralRequest
    (cr_ID r) (cr_CreatedAt r) (cr_UpdatedAt r) (cr_Region r) (cr_ClusterID r)
    (cr_CloudProvider r) (cr_CloudAccountID r) (cr_MultiAZ r) (cr_Name r) (cr_Status r)
    (cr_SubscriptionID r) (cr_Owner r) (cr_OwnerAccountID r) (cr_OwnerUserID r) (cr_Host r)
    (cr_OrganisationID r) (cr_OrganisationName r) (cr_FailedReason r) (cr_PlacementID r) (cr_Central r)
    v (cr_DesiredCentralVersion r) (cr_ActualCentralVersion r)
    (cr_DesiredCentralOperatorVersion r) (cr_ActualCentralOperatorVersion r)
    (cr_CentralUpgrading r) (cr_CentralOperatorUpgrading r) (cr_InstanceType r)
    (cr_QuotaType r) (cr_Routes r) (cr_RoutesCreated r) (cr_Namespace r)
    (cr_RoutesCreationID r) (cr_DeletionTimestamp r) (cr_Internal r) (cr_ClientID r)
    (cr_ClientSecret r) (cr_Issuer r) (cr_ClientOrigin r).
Definition set_DesiredCentralVersion (v : string) (r : CentralRequest) : CentralRequest :=
  mkCentralRequest
    (cr_ID r) (cr_CreatedAt r) (cr_UpdatedAt r) (cr_Region r) (cr_ClusterID r)
    (cr_CloudProvider r) (cr_CloudAccountID r) (cr_MultiAZ r) (cr_Name r) (cr_Status r)
    (cr_SubscriptionID r) (cr_Owner r) (cr_OwnerAccountID r) (cr_OwnerUserID r) (cr_Host r)
    (cr_OrganisationID r) (cr_OrganisationName r) (cr_FailedReason r) (cr_PlacementID r)
    (cr_Central r) (cr_Scanner r) v (cr_ActualCentralVersion r)
    (cr_DesiredCentralOperatorVersion r) (cr_ActualCentralOperatorVersion r)
    (cr_CentralUpgrading r) (cr_CentralOperatorUpgrading r) (cr_InstanceType r)
    (cr_QuotaType r) (cr_Routes r) (cr_RoutesCreated r) (cr_Namespace r)
    (cr_RoutesCreationID r) (cr_DeletionTimestamp r) (cr_Internal r) (cr_ClientID r)
    (cr_ClientSecret r) (cr_Issuer r) (cr_ClientOrigin r).
Definition set_ActualCentralVersion (v : string) (r : CentralRequest) : CentralRequest :=
  mkCentralRequest
    (cr_ID r) (cr_CreatedAt r) (cr_UpdatedAt r) (cr_Region r) (cr_ClusterID r)
    (cr_CloudProvider r) (cr_CloudAccountID r) (cr_MultiAZ r) (cr_Name r) (cr_Status r)
    (cr_SubscriptionID r) (cr_Owner r) (cr_OwnerAccountID r) (cr_OwnerUserID r) (cr_Host r)
    (cr_OrganisationID r) (cr_OrganisationName r) (cr_FailedReason r) (cr_PlacementID r)
    (cr_Central r) (cr_Scanner r) (cr_DesiredCentralVersion r) v
    (cr_DesiredCentralOperatorVersion r) (cr_ActualCentralOperatorVersion r)
    (cr_CentralUpgrading r) (cr_CentralOperatorUpgrading r) (cr_InstanceType r)
    (cr_QuotaType r) (cr_Routes r) (cr_RoutesCreated r) (cr_Namespace r)
    (cr_RoutesCreationID r) (cr_DeletionTimestamp r) (cr_Internal r) (cr_ClientID r)
    (cr_ClientSecret r) (cr_Issuer r) (cr_ClientOrigin r).
Definition set_DesiredCentralOperatorVersion (v : string) (r : CentralRequest) : CentralRequest :=
  mkCentralRequest
    (cr_ID r) (cr_CreatedAt r) (cr_UpdatedAt r) (cr_Region r) (cr_ClusterID r)
    (cr_CloudProvider r) (cr_CloudAccountID r) (cr_MultiAZ r) (cr_Name r) (cr_Status r)
    (cr_SubscriptionID r) (cr_Owner r) (cr_OwnerAccountID r) (cr_OwnerUserID r) (cr_Host r)
    (cr_OrganisationID r) (cr_OrganisationName r) (cr_FailedReason r) (cr_PlacementID r)
    (cr_Central r) (cr_Scanner r) (cr_DesiredCentralVersion r) (cr_ActualCentralVersion r) v
    (cr_ActualCentralOperatorVersion r) (cr_CentralUpgrading r) (cr_CentralOperatorUpgrading r)
    (cr_InstanceType r) (cr_QuotaType r) (cr_Routes r) (cr_RoutesCreated r) (cr_Namespace r)
    (cr_RoutesCreationID r) (cr_DeletionTimestamp r) (cr_Internal r) (cr_ClientID r)
    (cr_ClientSecret r) (cr_Issuer r) (cr_ClientOrigin r).
Definition set_ActualCentralOperatorVersion (v : string) (r : CentralRequest) : CentralRequest :=
  mkCentralRequest
    (cr_ID r) (cr_CreatedAt r) (cr_UpdatedAt r) (cr_Region r) (cr_ClusterID r)
    (cr_CloudProvider r) (cr_CloudAccountID r) (cr_MultiAZ r) (cr_Name r) (cr_Status r)
    (cr_SubscriptionID r) (cr_Owner r) (cr_OwnerAccountID r) (cr_OwnerUserID r) (cr_Host r)
    (cr_OrganisationID r) (cr_OrganisationName r) (cr_FailedReason r) (cr_PlacementID r)
    (cr_Central r) (cr_Scanner r) (cr_DesiredCentralVersion r) (cr_ActualCentralVersion r)
    (cr_DesiredCentralOperatorVersion r) v (cr_CentralUpgrading r)
    (cr_CentralOperatorUpgrading r) (cr_InstanceType r) (cr_QuotaType r) (cr_Routes r)
    (cr_RoutesCreated r) (cr_Namespace r) (cr_RoutesCreationID r) (cr_DeletionTimestamp r)
    (cr_Internal r) (cr_ClientID r) (cr_ClientSecret r) (cr_Issuer r) (cr_ClientOrigin r).
Definition set_CentralUpgrading (v : bool) (r : CentralRequest) : CentralRequest :=
  mkCentralRequest
    (cr_ID r) (cr_CreatedAt r) (cr_UpdatedAt r) (cr_Region r) (cr_ClusterID r)
    (cr_CloudProvider r) (cr_CloudAccountID r) (cr_MultiAZ r) (cr_Name r) (cr_Status r)
    (cr_SubscriptionID r) (cr_Owner r) (cr_OwnerAccountID r) (cr_OwnerUserID r) (cr_Host r)
    (cr_OrganisationID r) (cr_OrganisationName r) (cr_FailedReason r) (cr_PlacementID r)
    (cr_Central r) (cr_Scanner r) (cr_DesiredCentralVersion r) (cr_ActualCentralVersion r)
    (cr_DesiredCentralOperatorVersion r) (cr_ActualCentralOperatorVersion r) v
    (cr_CentralOperatorUpgrading r) (cr_InstanceType r) (cr_QuotaType r) (cr_Routes r)
    (cr_RoutesCreated r) (cr_Namespace r) (cr_RoutesCreationID r) (cr_DeletionTimestamp r)
    (cr_Internal r) (cr_ClientID r) (cr_ClientSecret r) (cr_Issuer r) (cr_ClientOrigin r).
Definition set_CentralOperatorUpgrading (v : bool) (r : CentralRequest) : CentralRequest :=
  mkCentralRequest
    (cr_ID r) (cr_CreatedAt r) (cr_UpdatedAt r) (cr_Region r) (cr_ClusterID r)
    (cr_CloudProvider r) (cr_CloudAccountID r) (cr_MultiAZ r) (cr_Name r) (cr_Status r)
    (cr_SubscriptionID r) (cr_Owner r) (cr_OwnerAccountID r) (cr_OwnerUserID r) (cr_Host r)
    (cr_OrganisationID r) (cr_OrganisationName r) (cr_FailedReason r) (cr_PlacementID r)
    (cr_Central r) (cr_Scanner r) (cr_DesiredCentralVersion r) (cr_ActualCentralVersion r)
    (cr_DesiredCentralOperatorVersion r) (cr_ActualCentralOperatorVersion r)
    (cr_CentralUpgrading r) v (cr_InstanceType r) (cr_QuotaType r) (cr_Routes r)
    (cr_RoutesCreated r) (cr_Namespace r) (cr_RoutesCreationID r) (cr_DeletionTimestamp r)
    (cr_Internal r) (cr_ClientID r) (cr_ClientSecret r) (cr_Issuer r) (cr_ClientOrigin r).
Definition set_InstanceType (v : string) (r : CentralRequest) : CentralRequest :=
  mkCentralRequest
    (cr_ID r) (cr_CreatedAt r) (cr_UpdatedAt r) (cr_Region r) (cr_ClusterID r)
    (cr_CloudProvider r) (cr_CloudAccountID r) (cr_MultiAZ r) (cr_Name r) (cr_Status r)
    (cr_SubscriptionID r) (cr_Owner r) (cr_OwnerAccountID r) (cr_OwnerUserID r) (cr_Host r)
    (cr_OrganisationID r) (cr_OrganisationName r) (cr_FailedReason r) (cr_PlacementID r)
    (cr_Central r) (cr_Scanner r) (cr_DesiredCentralVersion r) (cr_ActualCentralVersion r)
    (cr_DesiredCentralOperatorVersion r) (cr_ActualCentralOperatorVersion r)
    (cr_CentralUpgrading r) (cr_CentralOperatorUpgrading r) v (cr_QuotaType r) (cr_Routes r)
    (cr_RoutesCreated r) (cr_Namespace r) (cr_RoutesCreationID r) (cr_DeletionTimestamp r)
    (cr_Internal r) (cr_ClientID r) (cr_ClientSecret r) (cr_Issuer r) (cr_ClientOrigin r).
Definition set_QuotaType (v : string) (r : CentralRequest) : CentralRequest :=
  mkCentralRequest
    (cr_ID r) (cr_CreatedAt r) (cr_UpdatedAt r) (cr_Region r) (cr_ClusterID r)
    (cr_CloudProvider r) (cr_CloudAccountID r) (cr_MultiAZ r) (cr_Name r) (cr_Status r)
    (cr_SubscriptionID r) (cr_Owner r) (cr_OwnerAccountID r) (cr_OwnerUserID r) (cr_Host r)
    (cr_OrganisationID r) (cr_OrganisationName r) (cr_FailedReason r) (cr_PlacementID r)
    (cr_Central r) (cr_Scanner r) (cr_DesiredCentralVersion r) (cr_ActualCentralVersion r)
    (cr_DesiredCentralOperatorVersion r) (cr_ActualCentralOperatorVersion r)
    (cr_CentralUpgrading r) (cr_CentralOperatorUpgrading r) (cr_InstanceType r) v (cr_Routes r)
    (cr_RoutesCreated r) (cr_Namespace r) (cr_RoutesCreationID r) (cr_DeletionTimestamp r)
    (cr_Internal r) (cr_ClientID r) (cr_ClientSecret r) (cr_Issuer r) (cr_ClientOrigin r).
Definition set_Routes (v : option routes_json) (r : CentralRequest) : CentralRequest :=
  mkCentralRequest
    (cr_ID r) (cr_CreatedAt r) (cr_UpdatedAt r) (cr_Region r) (cr_ClusterID r)
    (cr_CloudProvider r) (cr_CloudAccountID r) (cr_MultiAZ r) (cr_Name r) (cr_Status r)
    (cr_SubscriptionID r) (cr_Owner r) (cr_OwnerAccountID r) (cr_OwnerUserID r) (cr_Host r)
    (cr_OrganisationID r) (cr_OrganisationName r) (cr_FailedReason r) (cr_PlacementID r)
    (cr_Central r) (cr_Scanner r) (cr_DesiredCentralVersion r) (cr_ActualCentralVersion r)
    (cr_DesiredCentralOperatorVersion r) (cr_ActualCentralOperatorVersion r)
    (cr_CentralUpgrading r) (cr_CentralOperatorUpgrading r) (cr_InstanceType r)
    (cr_QuotaType r) v (cr_RoutesCreated r) (cr_Namespace r) (cr_RoutesCreationID r)
    (cr_DeletionTimestamp r) (cr_Internal r) (cr_ClientID r) (cr_ClientSecret r) (cr_Issuer r)
    (cr_ClientOrigin r).
Definition set_RoutesCreated (v : bool) (r : CentralRequest) : CentralRequest :=
  mkCentralRequest
    (cr_ID r) (cr_CreatedAt r) (cr_UpdatedAt r) (cr_Region r) (cr_ClusterID r)
    (cr_CloudProvider r) (cr_CloudAccountID r) (cr_MultiAZ r) (cr_Name r) (cr_Status r)
    (cr_SubscriptionID r) (cr_Owner r) (cr_OwnerAccountID r) (cr_OwnerUserID r) (cr_Host r)
    (cr_OrganisationID r) (cr_OrganisationName r) (cr_FailedReason r) (cr_PlacementID r)
    (cr_Central r) (cr_Scanner r) (cr_DesiredCentralVersion r) (cr_ActualCentralVersion r)
    (cr_DesiredCentralOperatorVersion r) (cr_ActualCentralOperatorVersion r)
    (cr_CentralUpgrading r) (cr_CentralOperatorUpgrading r) (cr_InstanceType r)
    (cr_QuotaType r) (cr_Routes r) v (cr_Namespace r) (cr_RoutesCreationID r)
    (cr_DeletionTimestamp r) (cr_Internal r) (cr_ClientID r) (cr_ClientSecret r) (cr_Issuer r)
    (cr_ClientOrigin r).
Definition set_Namespace (v : string) (r : CentralRequest) : CentralRequest :=
  mkCentralRequest
    (cr_ID r) (cr_CreatedAt r) (cr_UpdatedAt r) (cr_Region r) (cr_ClusterID r)
    (cr_CloudProvider r) (cr_CloudAccountID r) (cr_MultiAZ r) (cr_Name r) (cr_Status r)
    (cr_SubscriptionID r) (cr_Owner r) (cr_OwnerAccountID r) (cr_OwnerUserID r) (cr_Host r)
    (cr_OrganisationID r) (cr_OrganisationName r) (cr_FailedReason r) (cr_PlacementID r)
    (cr_Central r) (cr_Scanner r) (cr_DesiredCentralVersion r) (cr_ActualCentralVersion r)
    (cr_DesiredCentralOperatorVersion r) (cr_ActualCentralOperatorVersion r)
    (cr_CentralUpgrading r) (cr_CentralOperatorUpgrading r) (cr_InstanceType r)
    (cr_QuotaType r) (cr_Routes r) (cr_RoutesCreated r) v (cr_RoutesCreationID r)
    (cr_DeletionTimestamp r) (cr_Internal r) (cr_ClientID r) (cr_ClientSecret r) (cr_Issuer r)
    (cr_ClientOrigin r).
Definition set_RoutesCreationID (v : string) (r : CentralRequest) : CentralRequest :=
  mkCentralRequest
    (cr_ID r) (cr_CreatedAt r) (cr_UpdatedAt r) (cr_Region r) (cr_ClusterID r)
    (cr_CloudProvider r) (cr_CloudAccountID r) (cr_MultiAZ r) (cr_Name r) (cr_Status r)
    (cr_SubscriptionID r) (cr_Owner r) (cr_OwnerAccountID r) (cr_OwnerUserID r) (cr_Host r)
    (cr_OrganisationID r) (cr_OrganisationName r) (cr_FailedReason r) (cr_PlacementID r)
    (cr_Central r) (cr_Scanner r) (cr_DesiredCentralVersion r) (cr_ActualCentralVersion r)
    (cr_DesiredCentralOperatorVersion r) (cr_ActualCentralOperatorVersion r)
    (cr_CentralUpgrading r) (cr_CentralOperatorUpgrading r) (cr_InstanceType r)
    (cr_QuotaType r) (cr_Routes r) (cr_RoutesCreated r) (cr_Namespace r) v
    (cr_DeletionTimestamp r) (cr_Internal r) (cr_ClientID r) (cr_ClientSecret r) (cr_Issuer r)
    (cr_ClientOrigin r).
Definition set_DeletionTimestamp (v : option Z) (r : CentralRequest) : CentralRequest :=
  mkCentralRequest
    (cr_ID r) (cr_CreatedAt r) (cr_UpdatedAt r) (cr_Region r) (cr_ClusterID r)
    (cr_CloudProvider r) (cr_CloudAccountID r) (cr_MultiAZ r) (cr_Name r) (cr_Status r)
    (cr_SubscriptionID r) (cr_Owner r) (cr_OwnerAccountID r) (cr_OwnerUserID r) (cr_Host r)
    (cr_OrganisationID r) (cr_OrganisationName r) (cr_FailedReason r) (cr_PlacementID r)
    (cr_Central r) (cr_Scanner r) (cr_DesiredCentralVersion r) (cr_ActualCentralVersion r)
    (cr_DesiredCentralOperatorVersion r) (cr_ActualCentralOperatorVersion r)
    (cr_CentralUpgrading r) (cr_CentralOperatorUpgrading r) (cr_InstanceType r)
    (cr_QuotaType r) (cr_Routes r) (cr_RoutesCreated r) (cr_Namespace r)
    (cr_RoutesCreationID r) v (cr_Internal r) (cr_ClientID r) (cr_ClientSecret r) (cr_Issuer r)
    (cr_ClientOrigin r).
Definition set_ClientID (v : string) (r : CentralRequest) : CentralRequest :=
  mkCentralRequest
    (cr_ID r) (cr_CreatedAt r) (cr_UpdatedAt r) (cr_Region r) (cr_ClusterID r)
    (cr_CloudProvider r) (cr_CloudAccountID r) (cr_MultiAZ r) (cr_Name r) (cr_Status r)
    (cr_SubscriptionID r) (cr_Owner r) (cr_OwnerAccountID r) (cr_OwnerUserID r) (cr_Host r)
    (cr_OrganisationID r) (cr_OrganisationName r) (cr_FailedReason r) (cr_PlacementID r)
    (cr_Central r) (cr_Scanner r) (cr_DesiredCentralVersion r) (cr_ActualCentralVersion r)
    (cr_DesiredCentralOperatorVersion r) (cr_ActualCentralOperatorVersion r)
    (cr_CentralUpgrading r) (cr_CentralOperatorUpgrading r) (cr_InstanceType r)
    (cr_QuotaType r) (cr_Routes r) (cr_RoutesCreated r) (cr_Namespace r)
    (cr_RoutesCreationID r) (cr_DeletionTimestamp r) (cr_Internal r) v (cr_ClientSecret r)
    (cr_Issuer r) (cr_ClientOrigin r).
Definition set_ClientSecret (v : string) (r : CentralRequest) : CentralRequest :=
  mkCentralRequest
    (cr_ID r) (cr_CreatedAt r) (cr_UpdatedAt r) (cr_Region r) (cr_ClusterID r)
    (cr_CloudProvider r) (cr_CloudAccountID r) (cr_MultiAZ r) (cr_Name r) (cr_Status r)
    (cr_SubscriptionID r) (cr_Owner r) (cr_OwnerAccountID r) (cr_OwnerUserID r) (cr_Host r)
    (cr_OrganisationID r) (cr_OrganisationName r) (cr_FailedReason r) (cr_PlacementID r)
    (cr_Central r) (cr_Scanner r) (cr_DesiredCentralVersion r) (cr_ActualCentralVersion r)
    (cr_DesiredCentralOperatorVersion r) (cr_ActualCentralOperatorVersion r)
    (cr_CentralUpgrading r) (cr_CentralOperatorUpgrading r) (cr_InstanceType r)
    (cr_QuotaType r) (cr_Routes r) (cr_RoutesCreated r) (cr_Namespace r)
    (cr_RoutesCreationID r) (cr_DeletionTimestamp r) (cr_Internal r) (cr_ClientID r) v
    (cr_Issuer r) (cr_ClientOrigin r).
Definition set_Issuer (v : string) (r : CentralRequest) : CentralRequest :=
  mkCentralRequest
    (cr_ID r) (cr_CreatedAt r) (cr_UpdatedAt r) (cr_Region r) (cr_ClusterID r)
    (cr_CloudProvider r) (cr_CloudAccountID r) (cr_MultiAZ r) (cr_Name r) (cr_Status r)
    (cr_SubscriptionID r) (cr_Owner r) (cr_OwnerAccountID r) (cr_OwnerUserID r) (cr_Host r)
    (cr_OrganisationID r) (cr_OrganisationName r) (cr_FailedReason r) (cr_PlacementID r)
    (cr_Central r) (cr_Scanner r) (cr_DesiredCentralVersion r) (cr_ActualCentralVersion r)
    (cr_DesiredCentralOperatorVersion r) (cr_ActualCentralOperatorVersion r)
    (cr_CentralUpgrading r) (cr_CentralOperatorUpgrading r) (cr_InstanceType r)
    (cr_QuotaType r) (cr_Routes r) (cr_RoutesCreated r) (cr_Namespace r)
    (cr_RoutesCreationID r) (cr_DeletionTimestamp r) (cr_Internal r) (cr_ClientID r)
    (cr_ClientSecret r) v (cr_ClientOrigin r).
Definition set_ClientOrigin (v : string) (r : CentralRequest) : CentralRequest :=
  mkCentralRequest
    (cr_ID r) (cr_CreatedAt r) (cr_UpdatedAt r) (cr_Region r) (cr_ClusterID r)
    (cr_CloudProvider r) (cr_CloudAccountID r) (cr_MultiAZ r) (cr_Name r) (cr_Status r)
    (cr_SubscriptionID r) (cr_Owner r) (cr_OwnerAccountID r) (cr_OwnerUserID r) (cr_Host r)
    (cr_OrganisationID r) (cr_OrganisationName r) (cr_FailedReason r) (cr_PlacementID r)
    (cr_Central r) (cr_Scanner r) (cr_DesiredCentralVersion r) (cr_ActualCentralVersion r)
    (cr_DesiredCentralOperatorVersion r) (cr_ActualCentralOperatorVersion r)
    (cr_CentralUpgrading r) (cr_CentralOperatorUpgrading r) (cr_InstanceType r)
    (cr_QuotaType r) (cr_Routes r) (cr_RoutesCreated r) (cr_Namespace r)
    (cr_RoutesCreationID r) (cr_DeletionTimestamp r) (cr_Internal r) (cr_ClientID r)
    (cr_ClientSecret r) (cr_Issuer r) v.
Definition set_Region (v : string) (r : CentralRequest) : CentralRequest :=
  mkCentralRequest
    (cr_ID r) (cr_CreatedAt r) (cr_UpdatedAt r) v (cr_ClusterID r) (cr_CloudProvider r)
    (cr_CloudAccountID r) (cr_MultiAZ r) (cr_Name r) (cr_Status r) (cr_SubscriptionID r)
    (cr_Owner r) (cr_OwnerAccountID r) (cr_OwnerUserID r) (cr_Host r) (cr_OrganisationID r)
    (cr_OrganisationName r) (cr_FailedReason r) (cr_PlacementID r) (cr_Central r)
    (cr_Scanner r) (cr_DesiredCentralVersion r) (cr_ActualCentralVersion r)
    (cr_DesiredCentralOperatorVersion r) (cr_ActualCentralOperatorVersion r)
    (cr_CentralUpgrading r) (cr_CentralOperatorUpgrading r) (cr_InstanceType r)
    (cr_QuotaType r) (cr_Routes r) (cr_RoutesCreated r) (cr_Namespace r)
    (cr_RoutesCreationID r) (cr_DeletionTimestamp r) (cr_Internal r) (cr_ClientID r)
    (cr_ClientSecret r) (cr_Issuer r) (cr_ClientOrigin r).
Definition set_Owner (v : string) (r : CentralRequest) : CentralRequest :=
  mkCentralRequest
    (cr_ID r) (cr_CreatedAt r) (cr_UpdatedAt r) (cr_Region r) (cr_ClusterID r)
    (cr_CloudProvider r) (cr_CloudAccountID r) (cr_MultiAZ r) (cr_Name r) (cr_Status r)
    (cr_SubscriptionID r) v (cr_OwnerAccountID r) (cr_OwnerUserID r) (cr_Host r)
    (cr_OrganisationID r) (cr_OrganisationName r) (cr_FailedReason r) (cr_PlacementID r)
    (cr_Central r) (cr_Scanner r) (cr_DesiredCentralVersion r) (cr_ActualCentralVersion r)
    (cr_DesiredCentralOperatorVersion r) (cr_ActualCentralOperatorVersion r)
    (cr_CentralUpgrading r) (cr_CentralOperatorUpgrading r) (cr_InstanceType r)
    (cr_QuotaType r) (cr_Routes r) (cr_RoutesCreated r) (cr_Namespace r)
    (cr_RoutesCreationID r) (cr_DeletionTimestamp r) (cr_Internal r) (cr_ClientID r)
    (cr_ClientSecret r) (cr_Issuer r) (cr_ClientOrigin r).
Definition set_OrganisationID (v : string) (r : CentralRequest) : CentralRequest :=
  mkCentralRequest
    (cr_ID r) (cr_CreatedAt r) (cr_UpdatedAt r) (cr_Region r) (cr_ClusterID r)
    (cr_CloudProvider r) (cr_CloudAccountID r) (cr_MultiAZ r) (cr_Name r) (cr_Status r)
    (cr_SubscriptionID r) (cr_Owner r) (cr_OwnerAccountID r) (cr_OwnerUserID r) (cr_Host r) v
    (cr_OrganisationName r) (cr_FailedReason r) (cr_PlacementID r) (cr_Central r)
    (cr_Scanner r) (cr_DesiredCentralVersion r) (cr_ActualCentralVersion r)
    (cr_DesiredCentralOperatorVersion r) (cr_ActualCentralOperatorVersion r)
    (cr_CentralUpgrading r) (cr_CentralOperatorUpgrading r) (cr_InstanceType r)
    (cr_QuotaType r) (cr_Routes r) (cr_RoutesCreated r) (cr_Namespace r)
    (cr_RoutesCreationID r) (cr_DeletionTimestamp r) (cr_Internal r) (cr_ClientID r)
    (cr_ClientSecret r) (cr_Issuer r) (cr_ClientOrigin r).
Definition set_CloudProvider (v : string) (r : CentralRequest) : CentralRequest :=
  mkCentralRequest
    (cr_ID r) (cr_CreatedAt r) (cr_UpdatedAt r) (cr_Region r) (cr_ClusterID r) v
    (cr_CloudAccountID r) (cr_MultiAZ r) (cr_Name r) (cr_Status r) (cr_SubscriptionID r)
    (cr_Owner r) (cr_OwnerAccountID r) (cr_OwnerUserID r) (cr_Host r) (cr_OrganisationID r)
    (cr_OrganisationName r) (cr_FailedReason r) (cr_PlacementID r) (cr_Central r)
    (cr_Scanner r) (cr_DesiredCentralVersion r) (cr_ActualCentralVersion r)
    (cr_DesiredCentralOperatorVersion r) (cr_ActualCentralOperatorVersion r)
    (cr_CentralUpgrading r) (cr_CentralOperatorUpgrading r) (cr_InstanceType r)
    (cr_QuotaType r) (cr_Routes r) (cr_RoutesCreated r) (cr_Namespace r)
    (cr_RoutesCreationID r) (cr_DeletionTimestamp r) (cr_Internal r) (cr_ClientID r)
    (cr_ClientSecret r) (cr_Issuer r) (cr_ClientOrigin r).
Definition set_Name (v : string) (r : CentralRequest) : CentralRequest :=
  mkCentralRequest
    (cr_ID r) (cr_CreatedAt r) (cr_UpdatedAt r) (cr_Region r) (cr_ClusterID r)
    (cr_CloudProvider r) (cr_CloudAccountID r) (cr_MultiAZ r) v (cr_Status r)
    (cr_SubscriptionID r) (cr_Owner r) (cr_OwnerAccountID r) (cr_OwnerUserID r) (cr_Host r)
    (cr_OrganisationID r) (cr_OrganisationName r) (cr_FailedReason r) (cr_PlacementID r)
    (cr_Central r) (cr_Scanner r) (cr_DesiredCentralVersion r) (cr_ActualCentralVersion r)
    (cr_DesiredCentralOperatorVersion r) (cr_ActualCentralOperatorVersion r)
    (cr_CentralUpgrading r) (cr_CentralOperatorUpgrading r) (cr_InstanceType r)
    (cr_QuotaType r) (cr_Routes r) (cr_RoutesCreated r) (cr_Namespace r)
    (cr_RoutesCreationID r) (cr_DeletionTimestamp r) (cr_Internal r) (cr_ClientID r)
    (cr_ClientSecret r) (cr_Issuer r) (cr_ClientOrigin r).
Definition set_MultiAZ (v : bool) (r : CentralRequest) : CentralRequest :=
  mkCentralRequest
    (cr_ID r) (cr_CreatedAt r) (cr_UpdatedAt r) (cr_Region r) (cr_ClusterID r)
    (cr_CloudProvider r) (cr_CloudAccountID r) v (cr_Name r) (cr_Status r)
    (cr_SubscriptionID r) (cr_Owner r) (cr_OwnerAccountID r) (cr_OwnerUserID r) (cr_Host r)
    (cr_OrganisationID r) (cr_OrganisationName r) (cr_FailedReason r) (cr_PlacementID r)
    (cr_Central r) (cr_Scanner r) (cr_DesiredCentralVersion r) (cr_ActualCentralVersion r)
    (cr_DesiredCentralOperatorVersion r) (cr_ActualCentralOperatorVersion r)
    (cr_CentralUpgrading r) (cr_CentralOperatorUpgrading r) (cr_InstanceType r)
    (cr_QuotaType r) (cr_Routes r) (cr_RoutesCreated r) (cr_Namespace r)
    (cr_RoutesCreationID r) (cr_DeletionTimestamp r) (cr_Internal r) (cr_ClientID r)
    (cr_ClientSecret r) (cr_Issuer r) (cr_ClientOrigin r).

(** ** Struct updates

    gorm's [Updates(struct)] writes the fields of the struct that differ from
    their zero value; the primary key identifies the row and is not written. A
    JSON [null] is stored as NULL ([api.JSON.Value]). *)

Definition pick_string (old new : string) : string := if bool_decide (new = "") then old else new.
Definition pick_int (old new : Z) : Z := if new =? 0 then old else new.
Definition pick_bool (old new : bool) : bool := if new then new else old.
Definition pick_option {A} (old new : option A) : option A :=
  match new with Some _ => new | None => old end.
Definition pick_routes (old new : option routes_json) : option routes_json :=
  match new with Some JNull => None | Some _ => new | None => old end.

Definition merge (r u : CentralRequest) : CentralRequest :=
  mkCentralRequest
    (cr_ID r) (pick_int (cr_CreatedAt r) (cr_CreatedAt u))
    (pick_int (cr_UpdatedAt r) (cr_UpdatedAt u)) (pick_string (cr_Region r) (cr_Region u))
    (pick_string (cr_ClusterID r) (cr_ClusterID u))
    (pick_string (cr_CloudProvider r) (cr_CloudProvider u))
    (pick_string (cr_CloudAccountID r) (cr_CloudAccountID u))
    (pick_bool (cr_MultiAZ r) (cr_MultiAZ u)) (pick_string (cr_Name r) (cr_Name u))
    (pick_string (cr_Status r) (cr_Status u))
    (pick_string (cr_SubscriptionID r) (cr_SubscriptionID u))
    (pick_string (cr_Owner r) (cr_Owner u))
    (pick_string (cr_OwnerAccountID r) (cr_OwnerAccountID u))
    (pick_string (cr_OwnerUserID r) (cr_OwnerUserID u)) (pick_string (cr_Host r) (cr_Host u))
    (pick_string (cr_OrganisationID r) (cr_OrganisationID u))
    (pick_string (cr_OrganisationName r) (cr_OrganisationName u))
    (pick_string (cr_FailedReason r) (cr_FailedReason u))
    (pick_string (cr_PlacementID r) (cr_PlacementID u))
    (pick_option (cr_Central r) (cr_Central u)) (pick_option (cr_Scanner r) (cr_Scanner u))
    (pick_string (cr_DesiredCentralVersion r) (cr_DesiredCentralVersion u))
    (pick_string (cr_ActualCentralVersion r) (cr_ActualCentralVersion u))
    (pick_string (cr_DesiredCentralOperatorVersion r) (cr_DesiredCentralOperatorVersion u))
    (pick_string (cr_ActualCentralOperatorVersion r) (cr_ActualCentralOperatorVersion u))
    (pick_bool (cr_CentralUpgrading r) (cr_CentralUpgrading u))
    (pick_bool (cr_CentralOperatorUpgrading r) (cr_CentralOperatorUpgrading u))
    (pick_string (cr_InstanceType r) (cr_InstanceType u))
    (pick_string (cr_QuotaType r) (cr_QuotaType u)) (pick_routes (cr_Routes r) (cr_Routes u))
    (pick_bool (cr_RoutesCreated r) (cr_RoutesCreated u))
    (pick_string (cr_Namespace r) (cr_Namespace u))
    (pick_string (cr_RoutesCreationID r) (cr_RoutesCreationID u))
    (pick_option (cr_DeletionTimestamp r) (cr_DeletionTimestamp u))
    (pick_bool (cr_Internal r) (cr_Internal u)) (pick_string (cr_ClientID r) (cr_ClientID u))
    (pick_string (cr_ClientSecret r) (cr_ClientSecret u))
    (pick_string (cr_Issuer r) (cr_Issuer u))
    (pick_string (cr_ClientOrigin r) (cr_ClientOrigin u)).

(** ** Methods *)

(** A nil slice is [None]. *)
Definition GetRoutes (k : CentralRequest) : result error (option (list DataPlaneCentralRoute)) :=
  match cr_Routes k with
  | None | Some JNull => Ok None
  | Some (JRoutes l) => Ok (Some l)
  | Some JInvalid => Err (Errorf_w "unmarshalling routes from JSON" (EPlain "invalid JSON"))
  end.

Definition SetRoutes (routes : option (list DataPlaneCentralRoute)) (k : CentralRequest) : CentralRequest :=
  set_Routes (Some (match routes with Some l => JRoutes l | None => JNull end)) k.

Definition GetUIHost (k : CentralRequest) : string :=
  if bool_decide (cr_Host k = "") then ""
  else Sprintf "acs-%s.%s" [VStr (cr_ID k); VStr (cr_Host k)].

Definition GetDataHost (k : CentralRequest) : string :=
  if bool_decide (cr_Host k = "") then ""
  else Sprintf "acs-data-%s.%s" [VStr (cr_ID k); VStr (cr_Host k)].

(** [CentralList.Index] *)
Definition CentralIndex (l : list CentralRequest) : gmap string CentralRequest :=
  foldl (fun m o => <[cr_ID o := o]> m) ∅ l.

(** [BeforeCreate]: the given identifier is kept when there is one. *)
Definition BeforeCreate (new_id : string) (k : CentralRequest) : CentralRequest :=
  if bool_decide (cr_ID k = "") then set_ID new_id k else k.

(** ** Facts *)

Lemma CompareTo_spec k k1 :
  CompareTo k k1 = match ordinal k ?= ordinal k1 with Lt => -1 | Datatypes.Eq => 0 | Gt => 1 end.
Proof.
  unfold CompareTo. rewrite Z.gtb_ltb.
  destruct (Z.compare_spec (ordinal k) (ordinal k1)); subst.
  - by rewrite (proj2 (Z.eqb_eq _ _)).
  - rewrite (proj2 (Z.eqb_neq _ _)), (proj2 (Z.ltb_ge _ _)) by lia. done.
  - rewrite (proj2 (Z.eqb_neq _ _)), (proj2 (Z.ltb_lt _ _)) by lia. done.
Qed.

Lemma ordinal_inj k k1 : k ∈ all_statuses -> k1 ∈ all_statuses -> ordinal k = ordinal k1 -> k = k1.
Proof. intros H H1. elem_cases H; elem_cases H1; vm_compute; done. Qed.

(** Writing the value a field already has changes nothing. *)
Lemma pick_string_same v : pick_string v v = v.
Proof. unfold pick_string. by case_bool_decide. Qed.

Lemma pick_int_same v : pick_int v v = v.
Proof. unfold pick_int. by destruct (v =? 0). Qed.

Lemma pick_bool_same v : pick_bool v v = v.
Proof. by destruct v. Qed.

Lemma pick_option_same {A} (v : option A) : pick_option v v = v.
Proof. by destruct v. Qed.

Lemma merge_ID r u : cr_ID (merge r u) = cr_ID r.
Proof. done. Qed.

Lemma merge_Status r u :
  cr_Status (merge r u) = if bool_decide (cr_Status u = "") then cr_Status r else cr_Status u.
Proof. done. Qed.

(** An update struct of zero values changes nothing. *)
Lemma merge_zero r : merge r zero_CentralRequest = r.
Proof. by destruct r. Qed.

Lemma set_Status_same r : set_Status (cr_Status r) r = r.
Proof. by destruct r. Qed.

(** The update struct of a status change. *)
Lemma merge_status_update r s ts :
  s <> "" ->
  merge r (set_DeletionTimestamp ts (set_Status s zero_CentralRequest)) =
  set_Status s (match ts with Some n => set_DeletionTimestamp (Some n) r | None => r end).
Proof.
  intros Hs. unfold merge. cbn. unfold pick_string at 6. rewrite (bool_decide_eq_false_2 (s = "")) by done.
  by destruct r, ts.
Qed.
