(* ===== verification/Store.v ===== *)
(** * Database tables

    The fleet manager reaches PostgreSQL through gorm, which is not part of its
    sources.  [Store] is the interface its services rely on: a table is a finite
    map from primary keys to live rows and a set of keys whose rows are soft
    deleted, with the statements the services issue.  [StoreLaws] states the
    documented effect of each statement; any statement may fail, and a failed
    statement changes nothing.  The order of the rows of a query without ORDER BY
    is left open.  [mem] is an in-memory table with a schedule of failures that
    satisfies the laws. *)

From Stdlib Require Import Sorting.Sorted.
From stdpp Require Import sorting.
From S2P Require Import Prelude GoString GoFmt ServiceErrors.
Local Open Scope string_scope.

(** What gorm knows of a row: its primary key and its timestamps. *)
Class Row (R : Type) := {
  row_id : R -> string;
  stamp_created : Z -> R -> R;
  stamp_updated : Z -> R -> R
}.

Class RowLaws (R : Type) `{Row R} := {
  stamp_created_id now r : row_id (stamp_created now r) = row_id r;
  stamp_updated_id now r : row_id (stamp_updated now r) = row_id r
}.

Class Store (T R : Type) := {
  rows : T -> gmap string R;
  (** the keys of the soft-deleted rows, which stay in the table *)
  dead : T -> gset string;
  (** [Where(p).Find] / [Scan] *)
  db_find : (R -> bool) -> prog T (result error (list R));
  (** [Where(p).Order(key asc).Find], the column given as an integer *)
  db_find_by : (R -> bool) -> (R -> Z) -> prog T (result error (list R));
  (** [Where(p).Order(columns).Offset(o).Limit(l).Find] *)
  db_page : (R -> bool) -> list string -> Z -> Z -> prog T (result error (list R));
  (** [Select(columns, count(1)).Where(p).Group(columns)] *)
  db_group : (R -> bool) -> (R -> list string) -> prog T (result error (list (list string * Z)));
  (** [Where(p).First] *)
  db_first : (R -> bool) -> prog T (result error R);
  (** [Where(p).Count] *)
  db_count : (R -> bool) -> prog T (result error Z);
  (** [Where(p).Updates]: the assignments as a function; returns the affected rows *)
  db_update : (R -> bool) -> (R -> R) -> prog T (result error Z);
  (** [Create] *)
  db_create : R -> prog T (result error R);
  (** [Save]: insert or overwrite *)
  db_save : R -> prog T (result error R);
  (** [Where(p).Delete] (soft delete) *)
  db_delete : (R -> bool) -> prog T (result error Z)
}.

(** The rows of a table that satisfy a condition. *)
Definition matching {R} (p : R -> bool) (m : gmap string R) : gmap string R :=
  filter (fun kr => p kr.2 = true) m.

(** The effect of an UPDATE on the rows. *)
Definition updated {R} `{Row R} (now : Z) (p : R -> bool) (f : R -> R) (m : gmap string R) : gmap string R :=
  (fun r => if p r then stamp_updated now (f r) else r) <$> m.

(** Ascending order of a column. *)
Definition by_key {R} (key : R -> Z) (a b : R) : Prop := (key a <= key b)%Z.

#[export] Instance by_key_dec {R} (key : R -> Z) : RelDecision (by_key key).
Proof. intros a b. unfold by_key. apply _. Defined.
#[export] Instance by_key_total {R} (key : R -> Z) : Total (by_key key).
Proof. intros a b. unfold by_key. lia. Qed.
#[export] Instance by_key_trans {R} (key : R -> Z) : Transitive (by_key key).
Proof. intros a b c. unfold by_key. lia. Qed.

(** The number of rows of a group. *)
Definition group_size {R} (p : R -> bool) (key : R -> list string) (k : list string)
    (m : gmap string R) : Z :=
  Z.of_nat (size (matching (fun r => p r && bool_decide (key r = k)) m)).

(** Two states of a table with the same contents. *)
Definition same_table {T R} `{Store T R} (t t' : T) : Prop := rows t' = rows t /\ dead t' = dead t.

Class StoreLaws (T R : Type) `{Row R, Store T R} := {
  rows_id t k r : rows t !! k = Some r -> row_id r = k;
  rows_alive t k r : rows t !! k = Some r -> k ∉ dead t;
  find_same p t : same_table t (db_find p t).1;
  find_ok p t l : (db_find p t).2 = Ok l -> l ≡ₚ (map_to_list (matching p (rows t))).*2;
  find_by_same p key t : same_table t (db_find_by p key t).1;
  find_by_ok p key t l :
    (db_find_by p key t).2 = Ok l ->
    l ≡ₚ (map_to_list (matching p (rows t))).*2 /\ StronglySorted (by_key key) l;
  page_same p cols o l t : same_table t (db_page p cols o l t).1;
  page_ok p cols o l t x :
    (db_page p cols o l t).2 = Ok x -> (0 < l)%Z ->
    exists all, all ≡ₚ (map_to_list (matching p (rows t))).*2 /\
      x = take (Z.to_nat l) (drop (Z.to_nat o) all);
  page_elem p cols o l t x r :
    (db_page p cols o l t).2 = Ok x -> r ∈ x -> exists k, matching p (rows t) !! k = Some r;
  group_same p key t : same_table t (db_group p key t).1;
  group_ok p key t l :
    (db_group p key t).2 = Ok l ->
    NoDup l.*1 /\
    forall k n, (k, n) ∈ l <-> n = group_size p key k (rows t) /\ (0 < n)%Z;
  first_same p t : same_table t (db_first p t).1;
  first_ok p t r : (db_first p t).2 = Ok r -> rows t !! row_id r = Some r /\ p r = true;
  first_missing p t :
    (db_first p t).2 = Err ErrRecordNotFound -> forall k r, rows t !! k = Some r -> p r = false;
  count_same p t : same_table t (db_count p t).1;
  count_ok p t n : (db_count p t).2 = Ok n -> n = Z.of_nat (size (matching p (rows t)));
  update_ok p f t n :
    (forall r, row_id (f r) = row_id r) ->
    (db_update p f t).2 = Ok n ->
    n = Z.of_nat (size (matching p (rows t))) /\
    (exists now, rows (db_update p f t).1 = updated now p f (rows t)) /\
    dead (db_update p f t).1 = dead t;
  update_err p f t e : (db_update p f t).2 = Err e -> same_table t (db_update p f t).1;
  (** the primary key is unique among all rows, deleted ones included *)
  create_ok r t r' :
    (db_create r t).2 = Ok r' ->
    rows t !! row_id r = None /\ (row_id r ∉ dead t) /\
    (exists now, r' = stamp_created now r) /\
    rows (db_create r t).1 = <[row_id r := r']> (rows t) /\
    dead (db_create r t).1 = dead t;
  create_err r t e : (db_create r t).2 = Err e -> same_table t (db_create r t).1;
  save_ok r t r' :
    row_id r <> "" -> row_id r ∉ dead t -> (db_save r t).2 = Ok r' ->
    (exists now, (r' = stamp_updated now r) \/ (r' = stamp_created now r)) /\
    rows (db_save r t).1 = <[row_id r := r']> (rows t) /\
    dead (db_save r t).1 = dead t;
  save_err r t e : (db_save r t).2 = Err e -> same_table t (db_save r t).1;
  delete_ok p t n :
    (db_delete p t).2 = Ok n ->
    n = Z.of_nat (size (matching p (rows t))) /\
    rows (db_delete p t).1 = matching (fun r => negb (p r)) (rows t) /\
    dead (db_delete p t).1 = dead t ∪ dom (matching p (rows t));
  delete_err p t e : (db_delete p t).2 = Err e -> same_table t (db_delete p t).1
}.

(** In an ascending list, an earlier row has the smaller key. *)
Lemma sorted_lookup {R} (key : R -> Z) (l : list R) i j a b :
  StronglySorted (by_key key) l -> l !! i = Some a -> l !! j = Some b -> (i < j)%nat -> (key a <= key b)%Z.
Proof.
  intros Hs. revert i j. induction Hs as [|x l Hs IH Hx]; intros [|i] [|j] Hi Hj Hlt; simpl in *; try lia;
    try done; simplify_eq.
  - rewrite Forall_forall in Hx. apply Hx. by eapply list_elem_of_lookup_2.
  - eapply IH; eauto; lia.
Qed.

Lemma matching_lookup {R} (p : R -> bool) (m : gmap string R) k r :
  matching p m !! k = Some r <-> m !! k = Some r /\ p r = true.
Proof. unfold matching. by rewrite map_lookup_filter_Some. Qed.

Lemma updated_lookup {R} `{Row R} now (p : R -> bool) f (m : gmap string R) k :
  updated now p f m !! k = (fun r => if p r then stamp_updated now (f r) else r) <$> m !! k.
Proof. apply lookup_fmap. Qed.

(** An UPDATE that selects one key. *)
Lemma updated_row {R} `{Row R} now (p : R -> bool) f (m : gmap string R) k r :
  m !! k = Some r -> (forall k' r', m !! k' = Some r' -> p r' = bool_decide (k' = k)) ->
  updated now p f m = <[k := stamp_updated now (f r)]> m.
Proof.
  intros Hr Hp. apply map_eq. intros i. rewrite updated_lookup. destruct (decide (i = k)) as [->|Hne].
  - rewrite lookup_insert_eq, Hr. simpl. by rewrite (Hp k r Hr), bool_decide_eq_true_2.
  - rewrite lookup_insert_ne by done. destruct (m !! i) as [x|] eqn:Hx; [|done]. simpl.
    by rewrite (Hp i x Hx), bool_decide_eq_false_2.
Qed.

Lemma group_size_elem {R} (p : R -> bool) key k (m : gmap string R) :
  (0 < group_size p key k m)%Z -> exists i r, m !! i = Some r /\ p r = true /\ key r = k.
Proof.
  unfold group_size. intros Hpos.
  destruct (map_choose (matching (fun r => p r && bool_decide (key r = k)) m)) as (i & r & Hr).
  { intros E. rewrite E, map_size_empty in Hpos. lia. }
  apply matching_lookup in Hr as [Hr [Hp Hk]%andb_true_iff].
  exists i, r. split_and!; [done..|]. by case_bool_decide.
Qed.

(** ** The state of a key *)

Inductive rowstate (R : Type) := Absent | Live (r : R) | Dead.
Arguments Absent {R}.
Arguments Live {R} r.
Arguments Dead {R}.

Definition state_of {T R} `{Store T R} (t : T) (k : string) : rowstate R :=
  match rows t !! k with
  | Some r => Live r
  | None => if decide (k ∈ dead t) then Dead else Absent
  end.

Section table_facts.
Context {T R : Type} `{StoreLaws T R}.

Lemma find_elem (p : R -> bool) (t : T) l r :
  (db_find p t).2 = Ok l -> r ∈ l -> rows t !! row_id r = Some r /\ p r = true.
Proof.
  intros Hl Hr. apply find_ok in Hl. rewrite Hl in Hr.
  apply list_elem_of_fmap in Hr as ([k r'] & -> & Hr). simpl.
  apply elem_of_map_to_list, matching_lookup in Hr as [Hk Hp].
  by rewrite (rows_id _ _ _ Hk).
Qed.

Lemma same_state (t t' : T) k : same_table t t' -> state_of t' k = state_of t k.
Proof. intros [Hr Hd]. unfold state_of. by rewrite Hr, Hd. Qed.

(** A relation on the states of a key that every assignment of an UPDATE
    respects holds across the UPDATE, whether it succeeds or not. *)
Lemma update_state (Q : relation (rowstate R)) `{!PreOrder Q} (p : R -> bool) f (t : T) k :
  (forall r, row_id (f r) = row_id r) ->
  (forall r now, rows t !! k = Some r -> p r = true -> Q (Live r) (Live (stamp_updated now (f r)))) ->
  Q (state_of t k) (state_of (db_update p f t).1 k).
Proof.
  intros Hid Hq. destruct ((db_update p f t).2) as [n|e] eqn:E.
  - destruct (update_ok p f t n Hid E) as (_ & [now Hr] & Hd).
    unfold state_of. rewrite Hr, Hd, updated_lookup.
    destruct (rows t !! k) as [r|] eqn:Hk; simpl; [|reflexivity].
    destruct (p r) eqn:Hp; [by apply Hq|reflexivity].
  - rewrite (same_state t _ k (update_err p f t e E)). reflexivity.
Qed.

Lemma delete_state (Q : relation (rowstate R)) `{!PreOrder Q} (p : R -> bool) (t : T) k :
  (forall r, rows t !! k = Some r -> p r = true -> Q (Live r) Dead) ->
  Q (state_of t k) (state_of (db_delete p t).1 k).
Proof.
  intros Hq. destruct ((db_delete p t).2) as [n|e] eqn:E.
  - destruct (delete_ok p t n E) as (_ & Hr & Hd). unfold state_of. rewrite Hr, Hd.
    destruct (rows t !! k) as [r|] eqn:Hk.
    + destruct (p r) eqn:Hp.
      * assert (matching p (rows t) !! k = Some r) as Hm by by apply matching_lookup.
        assert (matching (fun r => negb (p r)) (rows t) !! k = None) as ->.
        { apply eq_None_not_Some. intros [r' [Hr' Hn]%matching_lookup]. simplify_eq. by rewrite Hp in Hn. }
        rewrite decide_True; [by apply Hq|]. apply elem_of_union_r, elem_of_dom. eauto.
      * assert (matching (fun r => negb (p r)) (rows t) !! k = Some r) as ->
          by (apply matching_lookup; by rewrite Hp). reflexivity.
    + assert (matching (fun r => negb (p r)) (rows t) !! k = None) as ->.
      { apply eq_None_not_Some. intros [r' [Hr' _]%matching_lookup]. congruence. }
      assert (k ∉ dom (matching p (rows t))) as Hn.
      { rewrite elem_of_dom. intros [r' [Hr' _]%matching_lookup]. congruence. }
      destruct (decide (k ∈ dead t)) as [Hin|Hnin].
      * rewrite decide_True by by apply elem_of_union_l. reflexivity.
      * rewrite decide_False by (rewrite elem_of_union; tauto). reflexivity.
  - rewrite (same_state t _ k (delete_err p t e E)). reflexivity.
Qed.

Lemma create_state (Q : relation (rowstate R)) `{!PreOrder Q} (r : R) (t : T) k :
  (forall now, Q Absent (Live (stamp_created now r))) ->
  Q (state_of t k) (state_of (db_create r t).1 k).
Proof.
  intros Hq. destruct ((db_create r t).2) as [r'|e] eqn:E.
  - destruct (create_ok r t r' E) as (Hnone & Hnd & [now ->] & Hr & Hd).
    unfold state_of. rewrite Hr, Hd. destruct (decide (k = row_id r)) as [->|Hne].
    + rewrite lookup_insert_eq, Hnone, decide_False by done. apply Hq.
    + rewrite lookup_insert_ne by done. reflexivity.
  - rewrite (same_state t _ k (create_err r t e E)). reflexivity.
Qed.
End table_facts.

(** ** An in-memory table *)

(** The rows, the soft-deleted keys, the outcomes of the coming statements
    ([true]: the statement fails) and the clock that stamps the rows. *)
Record mem (R : Type) := mkMem {
  mem_rows : gmap string R; mem_dead : gset string; mem_faults : list bool; mem_clock : Z
}.
Arguments mkMem {R}.
Arguments mem_rows {R}.
Arguments mem_dead {R}.
Arguments mem_faults {R}.
Arguments mem_clock {R}.

Section mem.
Context {R : Type} `{Row R} `{!RowLaws R}.

Definition mem_view (t : mem R) : gmap string R :=
  filter (fun kr => row_id kr.2 = kr.1 /\ kr.1 ∉ mem_dead t) (mem_rows t).

Definition db_down : error := EPlain "connection refused".

(** Run a statement unless the schedule says that it fails. *)
Definition mem_run {A} (t : mem R) (m : gmap string R) (d : gset string) (a : result error A)
    : mem R * result error A :=
  match mem_faults t with
  | true :: rest => (mkMem (mem_view t) (mem_dead t) rest (mem_clock t), Err db_down)
  | false :: rest => (mkMem m d rest (mem_clock t + 1)%Z, a)
  | [] => (mkMem m d [] (mem_clock t + 1)%Z, a)
  end.

Definition mem_read {A} (t : mem R) (a : result error A) : mem R * result error A :=
  mem_run t (mem_view t) (mem_dead t) a.

Definition mem_select (p : R -> bool) (t : mem R) : list R :=
  (map_to_list (matching p (mem_view t))).*2.

Definition mem_size (p : R -> bool) (t : mem R) : Z := Z.of_nat (size (matching p (mem_view t))).

#[export] Instance mem_store : Store (mem R) R := {|
  rows := mem_view;
  dead := mem_dead;
  db_find p t := mem_read t (Ok (mem_select p t));
  db_find_by p key t := mem_read t (Ok (merge_sort (by_key key) (mem_select p t)));
  db_page p cols o l t := mem_read t (Ok (take (Z.to_nat l) (drop (Z.to_nat o) (mem_select p t))));
  db_group p key t := mem_read t
    (Ok ((fun k => (k, group_size p key k (mem_view t))) <$> remove_dups (key <$> mem_select p t)));
  db_first p t := mem_read t (match mem_select p t with [] => Err ErrRecordNotFound | r :: _ => Ok r end);
  db_count p t := mem_read t (Ok (mem_size p t));
  db_update p f t :=
    mem_run t (updated (mem_clock t) p f (mem_view t)) (mem_dead t) (Ok (mem_size p t));
  db_create r t :=
    if decide (mem_view t !! row_id r = None /\ row_id r ∉ mem_dead t)
    then let r' := stamp_created (mem_clock t) r in
         mem_run t (<[row_id r := r']> (mem_view t)) (mem_dead t) (Ok r')
    else mem_read t (Err (EPlain "duplicate key value violates unique constraint"));
  db_save r t :=
    let r' := stamp_updated (mem_clock t) r in
    mem_run t (<[row_id r := r']> (mem_view t)) (mem_dead t) (Ok r');
  db_delete p t := mem_run t (matching (fun r => negb (p r)) (mem_view t))
    (mem_dead t ∪ dom (matching p (mem_view t))) (Ok (mem_size p t))
|}.

(** A map that is keyed by identifiers and avoids the deleted keys is its own view. *)
Definition well_keyed (m : gmap string R) (d : gset string) : Prop :=
  forall k r, m !! k = Some r -> row_id r = k /\ k ∉ d.

Lemma mem_view_fix m d fs c : well_keyed m d -> mem_view (mkMem m d fs c) = m.
Proof. intros Hm. unfold mem_view. apply map_filter_id. intros k r Hk. simpl. by apply Hm. Qed.

Lemma mem_view_keyed (t : mem R) : well_keyed (mem_view t) (mem_dead t).
Proof. intros k r. unfold mem_view. by rewrite map_lookup_filter_Some; intros [_ ?]. Qed.

Lemma mem_run_ok {A} (t : mem R) m d (a a' : result error A) :
  well_keyed m d -> (mem_run t m d a).2 = a' -> a' <> Err db_down ->
  rows (mem_run t m d a).1 = m /\ dead (mem_run t m d a).1 = d /\ a' = a.
Proof.
  intros Hm. unfold mem_run. destruct (mem_faults t) as [|[] fs]; simpl; intros <- Hne; try done;
    (split_and!; [by apply mem_view_fix|done..]).
Qed.

Lemma mem_run_err {A} (t : mem R) m d (x : A) e :
  (mem_run t m d (Ok x)).2 = Err e -> same_table t (mem_run t m d (Ok x)).1.
Proof.
  unfold mem_run. destruct (mem_faults t) as [|[] fs]; simpl; intros He; try done.
  split; [|done]. apply mem_view_fix, mem_view_keyed.
Qed.

Lemma mem_read_same {A} (t : mem R) (a : result error A) : same_table t (mem_read t a).1.
Proof.
  unfold mem_read, mem_run. destruct (mem_faults t) as [|[] fs]; simpl;
    (split; [apply mem_view_fix, mem_view_keyed|done]).
Qed.

Lemma mem_read_res {A} (t : mem R) (a a' : result error A) :
  (mem_read t a).2 = a' -> a' <> Err db_down -> a' = a.
Proof. unfold mem_read. intros Ha Hne. by apply (mem_run_ok t _ _ a a' (mem_view_keyed t) Ha Hne). Qed.

Lemma updated_keyed now p f (t : mem R) :
  (forall r, row_id (f r) = row_id r) -> well_keyed (updated now p f (mem_view t)) (mem_dead t).
Proof.
  intros Hf k r. rewrite updated_lookup. intros Hk.
  apply fmap_Some in Hk as (r' & Hr' & ->). destruct (mem_view_keyed _ _ _ Hr') as [<- Hd].
  split; [|done]. destruct (p r'); [|done]. by rewrite stamp_updated_id, Hf.
Qed.

Lemma insert_keyed (t : mem R) r r' :
  row_id r' = row_id r -> row_id r ∉ mem_dead t ->
  well_keyed (<[row_id r := r']> (mem_view t)) (mem_dead t).
Proof.
  intros Hr Hd k x Hx. apply lookup_insert_Some in Hx as [[<- <-]|[_ Hx]]; [done|].
  by apply mem_view_keyed in Hx.
Qed.

Lemma delete_keyed (p : R -> bool) (t : mem R) :
  well_keyed (matching (fun r => negb (p r)) (mem_view t)) (mem_dead t ∪ dom (matching p (mem_view t))).
Proof.
  intros k r [Hk Hp]%matching_lookup. destruct (mem_view_keyed _ _ _ Hk) as [Hid Hd].
  split; [done|]. rewrite elem_of_union, elem_of_dom. intros [?|[r' [Hr' Hp']%matching_lookup]]; [done|].
  simplify_eq. by rewrite Hp' in Hp.
Qed.

Lemma mem_select_elem p t r :
  r ∈ mem_select p t <-> mem_view t !! row_id r = Some r /\ p r = true.
Proof.
  unfold mem_select. rewrite list_elem_of_fmap. split.
  - intros ([k r'] & -> & Hr). simpl. apply elem_of_map_to_list, matching_lookup in Hr as [Hk Hp].
    by rewrite (proj1 (mem_view_keyed _ _ _ Hk)).
  - intros [Hk Hp]. exists (row_id r, r). split; [done|].
    by apply elem_of_map_to_list, matching_lookup.
Qed.

Lemma group_size_pos p key k (t : mem R) :
  (0 < group_size p key k (mem_view t))%Z <-> k ∈ remove_dups (key <$> mem_select p t).
Proof.
  rewrite elem_of_remove_dups, list_elem_of_fmap. split.
  - intros (i & r & Hr & Hp & <-)%group_size_elem.
    exists r. split; [done|]. apply mem_select_elem. by rewrite (proj1 (mem_view_keyed _ _ _ Hr)).
  - intros (r & -> & [Hr Hp]%mem_select_elem). unfold group_size. set (m := matching _ _).
    assert (m <> ∅) as Hm.
    { intros E. assert (m !! row_id r = Some r) as Hl; [|by rewrite E, lookup_empty in Hl].
      apply matching_lookup. split; [done|]. by rewrite Hp, bool_decide_eq_true_2. }
    rewrite <- map_size_non_empty_iff in Hm. lia.
Qed.

Lemma mem_group_ok p key (t : mem R) :
  let l := (fun k => (k, group_size p key k (mem_view t))) <$> remove_dups (key <$> mem_select p t) in
  NoDup l.*1 /\ forall k n, (k, n) ∈ l <-> n = group_size p key k (mem_view t) /\ (0 < n)%Z.
Proof.
  split.
  - rewrite <- list_fmap_compose. simpl. rewrite list_fmap_id. apply NoDup_remove_dups.
  - intros k n. rewrite list_elem_of_fmap. split.
    + intros (k' & [= -> ->] & Hk). split; [done|]. by apply group_size_pos.
    + intros [-> Hpos]. exists k. split; [done|]. by apply group_size_pos.
Qed.

Lemma mem_first_ok p (t : mem R) r :
  (match mem_select p t with [] => Err ErrRecordNotFound | r :: _ => Ok r end : result error R) = Ok r ->
  mem_view t !! row_id r = Some r /\ p r = true.
Proof.
  intros Hs. apply mem_select_elem. destruct (mem_select p t); simplify_eq. by left.
Qed.

Lemma mem_first_missing p (t : mem R) :
  (match mem_select p t with [] => Err ErrRecordNotFound | r :: _ => Ok r end : result error R)
    = Err ErrRecordNotFound ->
  forall k r, mem_view t !! k = Some r -> p r = false.
Proof.
  intros Hs k r Hk. destruct (p r) eqn:Hp; [|done]. exfalso.
  assert (r ∈ mem_select p t) as Hin.
  { apply mem_select_elem. by rewrite (proj1 (mem_view_keyed _ _ _ Hk)). }
  destruct (mem_select p t); [by apply not_elem_of_nil in Hin|done].
Qed.

Local Ltac read_ok H := apply mem_read_res in H; [|discriminate].

#[export] Instance mem_laws : StoreLaws (mem R) R.
Proof.
  split.
  - intros t k r Hk. apply (mem_view_keyed t k r Hk).
  - intros t k r Hk. apply (mem_view_keyed t k r Hk).
  - intros. apply mem_read_same.
  - intros p t l Hl. read_ok Hl. by injection Hl as ->.
  - intros. apply mem_read_same.
  - intros p key t l Hl. read_ok Hl. injection Hl as ->.
    split; [apply merge_sort_Permutation|apply (StronglySorted_merge_sort _)].
  - intros. apply mem_read_same.
  - intros p cols o l t x Hx _. read_ok Hx. injection Hx as ->. by exists (mem_select p t).
  - intros p cols o l t x r Hx Hr. read_ok Hx. injection Hx as ->.
    apply (subseteq_take (Z.to_nat l)), (subseteq_drop (Z.to_nat o)), mem_select_elem in Hr.
    exists (row_id r). by apply matching_lookup.
  - intros. apply mem_read_same.
  - intros p key t l Hl. read_ok Hl. injection Hl as ->. apply mem_group_ok.
  - intros. apply mem_read_same.
  - intros p t r Hr. read_ok Hr. by apply mem_first_ok.
  - intros p t Hr. read_ok Hr. by apply mem_first_missing.
  - intros. apply mem_read_same.
  - intros p t n Hn. read_ok Hn. by injection Hn as ->.
  - intros p f t n Hf Hn. destruct (mem_run_ok t _ _ _ _ (updated_keyed (mem_clock t) p f t Hf) Hn)
      as (Hr & Hd & [= ->]); [done|]. split_and!; [done|by exists (mem_clock t)|done].
  - intros p f t e He. by eapply mem_run_err.
  - intros r t r'. simpl. destruct (decide _) as [[Hn Hd]|Hx]; intros Hr'.
    + destruct (mem_run_ok t _ _ _ _ (insert_keyed t r _ (stamp_created_id _ _) Hd) Hr')
        as (Hr & Hdd & [= ->]); [done|]. split_and!; [done|done|by eexists|done|done].
    + apply mem_read_res in Hr'; [discriminate|discriminate].
  - intros r t e. simpl. destruct (decide _) as [[Hn Hd]|Hx]; intros He.
    + by eapply mem_run_err.
    + apply mem_read_same.
  - intros r t r' _ Hd Hr'.
    destruct (mem_run_ok t _ _ _ _ (insert_keyed t r _ (stamp_updated_id _ _) Hd) Hr')
      as (Hr & Hdd & [= ->]); [done|]. split_and!; [exists (mem_clock t); by left|done|done].
  - intros r t e He. by eapply mem_run_err.
  - intros p t n Hn. destruct (mem_run_ok t _ _ _ _ (delete_keyed p t) Hn) as (Hr & Hd & [= ->]); done.
  - intros p t e He. by eapply mem_run_err.
Qed.
End mem.
