(* ===== verification/Versions.v ===== *)
(** * Operator versions (pkg/api/semverutil.go, pkg/api/cluster_types.go)

    The versions of the central operator that a data plane cluster offers, their
    comparison and their sorting.  Parsing and comparing semantic versions is
    left to github.com/blang/semver, the class [Semver]; [SemverLaws] is the
    documented order of its versions.  The last part is sort.Strings. *)

From Stdlib Require Import Sorting.Sorted.
From stdpp Require Import sorting.
From S2P Require Import Prelude GoString GoFmt Regex ServiceErrors.
Local Open Scope string_scope.
Local Open Scope Z_scope.

(** ** Sorting (sort.Slice)

    Go sorts slices of at most twelve elements by insertion; for longer slices
    only the order of elements that compare equal may differ.  The comparison
    appends its errors to a list, in the order of the calls. *)

Section sort.
Context {A E : Type} (cmp : A -> A -> result E Z).

(** [less(j, j-1)] and the error it records. *)
Definition less (x y : A) : bool * list E :=
  match cmp x y with Ok r => (r =? -1, []) | Err e => (false, [e]) end.

(** Move [x] down the sorted prefix, held in reverse. *)
Fixpoint sort_insert (x : A) (rev : list A) : list A * list E :=
  match rev with
  | [] => ([x], [])
  | y :: rest =>
      let '(lt, errs) := less x y in
      if lt then let '(l, es) := sort_insert x rest in (y :: l, (errs ++ es)%list)
      else (x :: y :: rest, errs)
  end.

Fixpoint sort_loop (rev : list A) (xs : list A) : list A * list E :=
  match xs with
  | [] => (rev, [])
  | x :: xs =>
      let '(rev, errs) := sort_insert x rev in
      let '(l, es) := sort_loop rev xs in (l, (errs ++ es)%list)
  end.

Definition sort_slice (xs : list A) : list A * list E :=
  let '(rev, errs) := sort_loop [] xs in (reverse rev, errs).
End sort.

(** ** Semantic versions *)

Record semver := mkSemver {
  sv_Major : Z; sv_Minor : Z; sv_Patch : Z; sv_Pre : list string; sv_Build : list string
}.

Class Semver := {
  ParseTolerant : string -> result error semver;
  SemverCompare : semver -> semver -> Z
}.

(** [Version.Compare] is a total order given by -1, 0 and 1. *)
Class SemverLaws `{Semver} := {
  compare_range v w : SemverCompare v w ∈ [-1; 0; 1];
  compare_antisym v w : SemverCompare w v = - SemverCompare v w;
  compare_trans u v w :
    SemverCompare u v <= 0 -> SemverCompare v w <= 0 -> SemverCompare u w <= 0;
  compare_trans_lt u v w :
    SemverCompare u v <= 0 -> SemverCompare v w < 0 -> SemverCompare u w < 0
}.

(** Go's [<] on strings, by bytes. *)
Fixpoint bytes_ltb (a b : list N) : bool :=
  match a, b with
  | _, [] => false
  | [], _ :: _ => true
  | x :: a, y :: b => (x <? y)%N || ((x =? y)%N && bytes_ltb a b)
  end.

Definition string_ltb (s t : string) : bool := bytes_ltb (bytes_of s) (bytes_of t).

Definition build_compare (v1 v2 : semver) : Z :=
  let b1 := Join "." (sv_Build v1) in
  let b2 := Join "." (sv_Build v2) in
  if bool_decide (b1 = b2) then 0 else if string_ltb b2 b1 then 1 else -1.

Definition buildAwareSemanticVersioningCompare `{Semver} (v1 v2 : string) : result error Z :=
  match ParseTolerant v1 with
  | Err e => Err (Errorf_w "parsing first version" e)
  | Ok s1 =>
      match ParseTolerant v2 with
      | Err e => Err (Errorf_w "parsing second version" e)
      | Ok s2 =>
          let res := SemverCompare s1 s2 in
          Ok (if res =? 0 then build_compare s1 s2 else res)
      end
  end.

Definition checkIfMinorDowngrade `{Semver} (current desired : string) : result error Z :=
  match ParseTolerant current with
  | Err e => Err (Errorf_w "parsing current semantic version" e)
  | Ok c =>
      match ParseTolerant desired with
      | Err e => Err (Errorf_w "parsing desired semantic version" e)
      | Ok d =>
          if sv_Major c <? sv_Major d then Ok (-1)
          else if sv_Major c >? sv_Major d then Ok 1
          else if sv_Minor c =? sv_Minor d then Ok 0
          else if sv_Minor c >? sv_Minor d then Ok 1
          else Ok (-1)
      end
  end.

(** ** Operator versions *)

Record CentralVersion := mkCentralVersion { cv_Version : string }.

Record CentralOperatorVersion := mkOperatorVersion {
  ov_Version : string;
  ov_Ready : bool;
  ov_CentralVersions : list CentralVersion
}.

#[export] Instance CentralVersion_eq_dec : EqDecision CentralVersion.
Proof. solve_decision. Defined.
#[export] Instance CentralOperatorVersion_eq_dec : EqDecision CentralOperatorVersion.
Proof. solve_decision. Defined.

(** The regular expression [\d+\.\d+\.\d+-\d+$], unanchored on the left. *)
Definition version_number_re : re :=
  let num := RPlus (ROneOf [digits]) in
  RSeq num (RSeq (RLit 46) (RSeq num (RSeq (RLit 46) (RSeq num (RSeq (RLit 45) num))))).

(** [CentralOperatorVersionNumberPartRegex.FindString]: the leftmost match. *)
Definition version_number_part (s : string) : string :=
  match find_suffix version_number_re (runes s) with
  | Some rs => encode_runes rs
  | None => ""
  end.

Definition format_error (s : string) : error :=
  EPlain (Sprintf "'%s' does not follow expected Central Operator Version format" [VStr s]).

Section compare.
Context `{Semver}.

Definition CentralVersion_Compare (s other : CentralVersion) : result error Z :=
  buildAwareSemanticVersioningCompare (cv_Version s) (cv_Version other).

Definition CentralOperatorVersion_Compare (s other : CentralOperatorVersion) : result error Z :=
  let v1 := version_number_part (ov_Version s) in
  if bool_decide (v1 = "") then Err (format_error (ov_Version s))
  else
    let v2 := version_number_part (ov_Version other) in
    if bool_decide (v2 = "") then Err (format_error (ov_Version s))
    else buildAwareSemanticVersioningCompare v1 v2.

(** The central versions of each operator version, sorted in turn; the first
    operator version whose sort fails ends the loop. *)
Fixpoint sort_central_versions (vs : list CentralOperatorVersion)
    : result (list error) (list CentralOperatorVersion) :=
  match vs with
  | [] => Ok []
  | v :: vs =>
      match sort_slice CentralVersion_Compare (ov_CentralVersions v) with
      | (cvs, []) =>
          rest ← sort_central_versions vs;
          Ok (mkOperatorVersion (ov_Version v) (ov_Ready v) cvs :: rest)
      | (_, errs) => Err errs
      end
  end.

Definition CentralOperatorVersionsDeepSort (versions : list CentralOperatorVersion)
    : result (list error) (list CentralOperatorVersion) :=
  match sort_slice CentralOperatorVersion_Compare versions with
  | (vs, []) => sort_central_versions vs
  | (_, errs) => Err errs
  end.
End compare.

(** ** Facts *)

Section sort_facts.
Context {A E : Type} (cmp : A -> A -> result E Z).

Lemma sort_insert_perm x rev : (sort_insert cmp x rev).1 ≡ₚ x :: rev.
Proof.
  induction rev as [|y rev IH]; [done|]. simpl.
  destruct (less cmp x y) as [[] errs]; [|done].
  destruct (sort_insert cmp x rev) as [l es]. simpl in *. rewrite IH. apply Permutation_swap.
Qed.

Lemma sort_loop_perm rev xs : (sort_loop cmp rev xs).1 ≡ₚ (rev ++ xs)%list.
Proof.
  revert rev. induction xs as [|x xs IH]; intros rev; [by rewrite app_nil_r|]. simpl.
  pose proof (sort_insert_perm x rev) as Hi. destruct (sort_insert cmp x rev) as [r errs].
  specialize (IH r). destruct (sort_loop cmp r xs) as [l es]. simpl in *.
  rewrite IH, Hi. simpl. by rewrite Permutation_middle.
Qed.

Lemma sort_slice_perm xs : (sort_slice cmp xs).1 ≡ₚ xs.
Proof.
  unfold sort_slice. pose proof (sort_loop_perm [] xs) as Hl.
  destruct (sort_loop cmp [] xs) as [r errs]. simpl in *. by rewrite reverse_Permutation.
Qed.

(** Below, comparisons that succeed agree with a total preorder [le]. *)
Context (le : A -> A -> Prop) (le_trans : forall x y z, le x y -> le y z -> le x z).
Context (cmp_le : forall x y, cmp x y = Ok (-1) -> le x y).
Context (cmp_ge : forall x y r, cmp x y = Ok r -> r <> -1 -> le y x).

Abbreviation descending := (StronglySorted (fun x y => le y x)).

Lemma sort_insert_sorted x rev :
  descending rev -> (sort_insert cmp x rev).2 = [] -> descending (sort_insert cmp x rev).1.
Proof.
  induction rev as [|y rev IH]; intros Hs He; [repeat constructor|].
  apply StronglySorted_inv in Hs as [Hs Hy]. simpl in *. unfold less in *.
  destruct (cmp x y) as [r|e] eqn:Hc.
  - destruct (r =? -1) eqn:Hr.
    + assert (r = -1) as -> by lia. pose proof (sort_insert_perm x rev) as Hp.
      destruct (sort_insert cmp x rev) as [l es]. simpl in *.
      constructor; [by apply IH|]. rewrite Hp. constructor; [by apply cmp_le|done].
    + simpl. constructor; [by constructor|].
      assert (le y x) by (eapply cmp_ge; [done|lia]).
      constructor; [done|]. eapply Forall_impl; [done|]. simpl; eauto.
  - simpl in He. discriminate.
Qed.

Lemma sort_loop_sorted rev xs :
  descending rev -> (sort_loop cmp rev xs).2 = [] -> descending (sort_loop cmp rev xs).1.
Proof.
  revert rev. induction xs as [|x xs IH]; intros rev Hs He; [done|]. simpl in *.
  pose proof (sort_insert_sorted x rev Hs) as Hi.
  destruct (sort_insert cmp x rev) as [r errs]. specialize (IH r).
  destruct (sort_loop cmp r xs) as [l es]. simpl in *.
  apply app_eq_nil in He as [-> ->]. auto.
Qed.

Lemma StronglySorted_snoc (R : relation A) l x :
  StronglySorted R l -> Forall (fun y => R y x) l -> StronglySorted R (l ++ [x])%list.
Proof.
  induction 1 as [|y l Hl IH Hy]; intros Hx; simpl; [repeat constructor|].
  inversion Hx; subst. constructor; [auto|]. apply Forall_app; auto.
Qed.

Lemma StronglySorted_reverse l : descending l -> StronglySorted le (reverse l).
Proof.
  induction 1 as [|x l Hl IH Hx]; [constructor|]. rewrite reverse_cons.
  apply StronglySorted_snoc; [done|]. by rewrite reverse_Permutation.
Qed.

Lemma sort_slice_sorted xs : (sort_slice cmp xs).2 = [] -> StronglySorted le (sort_slice cmp xs).1.
Proof.
  unfold sort_slice. pose proof (sort_loop_sorted [] xs) as Hl.
  destruct (sort_loop cmp [] xs) as [r errs]. simpl in *. intros ->.
  apply StronglySorted_reverse, Hl; [constructor|done].
Qed.
End sort_facts.

Lemma bytes_ltb_irrefl a : bytes_ltb a a = false.
Proof. induction a as [|x a IH]; [done|]. simpl. by rewrite N.ltb_irrefl, N.eqb_refl, IH. Qed.

Lemma bytes_ltb_trans a b c : bytes_ltb a b = true -> bytes_ltb b c = true -> bytes_ltb a c = true.
Proof.
  revert b c. induction a as [|x a IH]; intros [|y b] [|z c]; simpl; try done.
  rewrite !orb_true_iff, !andb_true_iff, !N.ltb_lt, !N.eqb_eq.
  intros [Hxy|[-> Hab]] [Hyz|[-> Hbc]]; [left; lia|by left|by left|right]. eauto.
Qed.

Lemma bytes_ltb_total a b : a = b \/ bytes_ltb a b = true \/ bytes_ltb b a = true.
Proof.
  revert b. induction a as [|x a IH]; intros [|y b]; simpl; auto.
  rewrite !orb_true_iff, !andb_true_iff, !N.ltb_lt, !N.eqb_eq.
  destruct (N.lt_total x y) as [?|[->|?]]; auto.
  destruct (IH b) as [->|[?|?]]; auto.
Qed.

Lemma bytes_of_inj s t : bytes_of s = bytes_of t -> s = t.
Proof. intros H. by rewrite <- (string_of_bytes_of s), <- (string_of_bytes_of t), H. Qed.

Section order.
Context `{SemverLaws}.

(** The order of version texts: both parse, and the first is not after the second. *)
Definition version_le (v w : string) : Prop :=
  exists sv sw, ParseTolerant v = Ok sv /\ ParseTolerant w = Ok sw /\
    (SemverCompare sv sw < 0 \/
     (SemverCompare sv sw = 0 /\
      (Join "." (sv_Build sv) = Join "." (sv_Build sw) \/
       string_ltb (Join "." (sv_Build sv)) (Join "." (sv_Build sw)) = true))).

Lemma compare_range3 v w : SemverCompare v w = -1 \/ SemverCompare v w = 0 \/ SemverCompare v w = 1.
Proof. pose proof (compare_range v w) as Hr. elem_cases Hr; auto. Qed.

Lemma compare_eq_trans u v w :
  SemverCompare u v = 0 -> SemverCompare v w = 0 -> SemverCompare u w = 0.
Proof.
  intros H1 H2. pose proof (compare_antisym u v). pose proof (compare_antisym v w).
  pose proof (compare_trans u v w). pose proof (compare_trans w v u).
  pose proof (compare_antisym u w). lia.
Qed.

Lemma compare_lt_trans u v w :
  SemverCompare u v < 0 -> SemverCompare v w <= 0 -> SemverCompare u w < 0.
Proof.
  intros H1 H2. assert (SemverCompare u v <= 0) as Huv by lia.
  pose proof (compare_trans u v w Huv H2).
  destruct (decide (SemverCompare u w = 0)) as [E|]; [|lia].
  pose proof (compare_antisym u w). pose proof (compare_antisym u v).
  assert (SemverCompare w u <= 0) as Hwu by lia.
  pose proof (compare_trans v w u H2 Hwu). lia.
Qed.

Lemma version_le_trans u v w : version_le u v -> version_le v w -> version_le u w.
Proof.
  intros (su & sv & Hu & Hv & Huv) (sv' & sw & Hv' & Hw & Hvw).
  assert (sv' = sv) as -> by congruence.
  exists su, sw. split_and!; [done..|].
  destruct Huv as [Huv|[Huv Hb]], Hvw as [Hvw|[Hvw Hb']].
  - left. apply (compare_lt_trans su sv sw); lia.
  - left. apply (compare_lt_trans su sv sw); lia.
  - left. apply (compare_trans_lt su sv sw); lia.
  - right. split; [by apply (compare_eq_trans su sv sw)|].
    destruct Hb as [->|Hb]; [done|]. destruct Hb' as [<-|Hb']; [by right|].
    right. unfold string_ltb in *. by eapply bytes_ltb_trans.
Qed.

Lemma build_compare_cases v w :
  (build_compare v w = 0 /\ Join "." (sv_Build v) = Join "." (sv_Build w)) \/
  (build_compare v w = 1 /\ string_ltb (Join "." (sv_Build w)) (Join "." (sv_Build v)) = true) \/
  (build_compare v w = -1 /\ string_ltb (Join "." (sv_Build v)) (Join "." (sv_Build w)) = true).
Proof.
  unfold build_compare. case_bool_decide as E; [auto|].
  destruct (string_ltb (Join "." (sv_Build w)) _) eqn:L; [auto|].
  right. right. split; [done|]. unfold string_ltb in *.
  destruct (bytes_ltb_total (bytes_of (Join "." (sv_Build v))) (bytes_of (Join "." (sv_Build w))))
    as [Hb|[Hb|Hb]]; [by apply bytes_of_inj in Hb|done|congruence].
Qed.

Lemma buildAware_le v w : buildAwareSemanticVersioningCompare v w = Ok (-1) -> version_le v w.
Proof.
  unfold buildAwareSemanticVersioningCompare.
  destruct (ParseTolerant v) as [sv|] eqn:Hv; [|done].
  destruct (ParseTolerant w) as [sw|] eqn:Hw; [|done]. intros [= Hc].
  exists sv, sw. split_and!; [done..|]. destruct (SemverCompare sv sw =? 0) eqn:E.
  - right. split; [lia|]. destruct (build_compare_cases sv sw) as [[? ?]|[[? ?]|[? ?]]]; [lia|lia|auto].
  - left. lia.
Qed.

Lemma buildAware_ge v w r :
  buildAwareSemanticVersioningCompare v w = Ok r -> r <> -1 -> version_le w v.
Proof.
  unfold buildAwareSemanticVersioningCompare.
  destruct (ParseTolerant v) as [sv|] eqn:Hv; [|done].
  destruct (ParseTolerant w) as [sw|] eqn:Hw; [|done]. intros [= Hc] Hr.
  pose proof (compare_antisym sv sw). pose proof (compare_range3 sv sw).
  exists sw, sv. split_and!; [done..|]. destruct (SemverCompare sv sw =? 0) eqn:E.
  - right. split; [lia|].
    destruct (build_compare_cases sv sw) as [[? ?]|[[? ?]|[? ?]]]; [left; congruence|by right|lia].
  - left. lia.
Qed.

Lemma buildAware_range v w r :
  buildAwareSemanticVersioningCompare v w = Ok r -> r = -1 \/ r = 0 \/ r = 1.
Proof.
  unfold buildAwareSemanticVersioningCompare.
  destruct (ParseTolerant v) as [sv|]; [|done]. destruct (ParseTolerant w) as [sw|]; [|done].
  intros [= <-]. pose proof (compare_range3 sv sw).
  destruct (build_compare_cases sv sw) as [[? ?]|[[? ?]|[? ?]]], (SemverCompare sv sw =? 0); lia.
Qed.

Definition operator_le (v w : CentralOperatorVersion) : Prop :=
  version_le (version_number_part (ov_Version v)) (version_number_part (ov_Version w)).

Lemma operator_compare_le v w : CentralOperatorVersion_Compare v w = Ok (-1) -> operator_le v w.
Proof.
  unfold CentralOperatorVersion_Compare. do 2 (case_bool_decide; [done|]). apply buildAware_le.
Qed.

Lemma operator_compare_ge v w r :
  CentralOperatorVersion_Compare v w = Ok r -> r <> -1 -> operator_le w v.
Proof.
  unfold CentralOperatorVersion_Compare. do 2 (case_bool_decide; [done|]). apply buildAware_ge.
Qed.

Lemma sort_central_versions_ok vs l :
  sort_central_versions vs = Ok l ->
  Forall2 (fun v v' => ov_Version v' = ov_Version v /\ ov_Ready v' = ov_Ready v /\
    ov_CentralVersions v' ≡ₚ ov_CentralVersions v /\
    StronglySorted (fun a b => version_le (cv_Version a) (cv_Version b)) (ov_CentralVersions v')) vs l.
Proof.
  revert l. induction vs as [|v vs IH]; intros l Hl; simpl in Hl; [simplify_eq; constructor|].
  pose proof (sort_slice_perm CentralVersion_Compare (ov_CentralVersions v)) as Hp.
  pose proof (sort_slice_sorted CentralVersion_Compare
    (fun a b => version_le (cv_Version a) (cv_Version b))
    (fun x y z => version_le_trans _ _ _) (fun x y => buildAware_le _ _)
    (fun x y r => buildAware_ge _ _ r) (ov_CentralVersions v)) as Hs.
  destruct (sort_slice _ _) as [cvs [|e errs]]; [|done].
  apply bind_Ok in Hl as (rest & Hr & [= <-]). constructor; [|auto]. simpl in *. auto.
Qed.
End order.

(** ** Sorting (sort.Strings) *)

Definition string_le (s t : string) : Prop := string_ltb t s = false.

#[export] Instance string_le_dec : RelDecision string_le.
Proof. intros s t. unfold string_le. apply _. Defined.

Definition sort_Strings : list string -> list string := merge_sort string_le.

#[export] Instance string_le_total : Total string_le.
Proof.
  intros s t. unfold string_le, string_ltb. destruct (bytes_ltb (bytes_of t) (bytes_of s)) eqn:E; [right|by left].
  destruct (bytes_ltb (bytes_of s) (bytes_of t)) eqn:E'; [|done]. by rewrite <- (bytes_ltb_irrefl (bytes_of s)), (bytes_ltb_trans _ _ _ E' E).
Qed.

#[export] Instance string_le_antisymm : AntiSymm (=) string_le.
Proof.
  intros s t Hst Hts. unfold string_le, string_ltb in *.
  destruct (bytes_ltb_total (bytes_of s) (bytes_of t)) as [E|[E|E]]; [by apply bytes_of_inj|congruence..].
Qed.

#[export] Instance string_le_trans : Transitive string_le.
Proof.
  intros s t u Hst Htu. unfold string_le, string_ltb in *. destruct (bytes_ltb (bytes_of u) (bytes_of s)) eqn:E; [|done].
  destruct (bytes_ltb_total (bytes_of t) (bytes_of u)) as [Ht|[Ht|Ht]]; [|by rewrite (bytes_ltb_trans _ _ _ Ht E) in Hst|congruence].
  rewrite Ht in Hst. congruence.
Qed.

Lemma sort_Strings_perm l l' : l ≡ₚ l' -> sort_Strings l = sort_Strings l'.
Proof.
  intros Hl. apply (StronglySorted_unique string_le); [apply StronglySorted_merge_sort; typeclasses eauto..|].
  unfold sort_Strings. by rewrite !merge_sort_Permutation.
Qed.
