(* ===== verification/GoPath.v ===== *)
(** * Quoted strings, paths and files

    [strconv.Unquote] and [path/filepath]'s [Clean], [IsAbs] and [Join] (Unix),
    and pkg/shared/config.go: where the configuration files are and how their
    values are read.  A file system is a function from absolute paths to contents
    or an error. *)

From S2P Require Import Prelude GoString GoFmt ServiceErrors.
Local Open Scope string_scope.
Local Open Scope N_scope.

(** ** strconv.Unquote *)

Definition unhex (b : N) : option N :=
  if in_range 48 57 b then Some (b - 48)
  else if in_range 97 102 b then Some (b - 97 + 10)
  else if in_range 65 70 b then Some (b - 65 + 10)
  else None.

(** [n] hexadecimal digits, and what follows them. *)
Fixpoint hex_value (n : nat) (v : N) (bs : list N) : option (N * list N) :=
  match n, bs with
  | O, _ => Some (v, bs)
  | S n, b :: bs => x ← unhex b; hex_value n (v * 16 + x) bs
  | S _, [] => None
  end.

Definition ValidRune (r : rune) : bool := (r <? 55296) || in_range 57344 1114111 r.

Definition octal (b : N) : option N := if in_range 48 55 b then Some (b - 48) else None.

(** [strconv.UnquoteChar]: the character, whether it takes several bytes, and the
    rest. *)
Definition UnquoteChar (bs : list N) (quote : N) : option (rune * bool * list N) :=
  match bs with
  | [] => None
  | c :: tl =>
      if c =? quote then None
      else if 128 <=? c then let '(r, n) := decode_rune bs in Some (r, true, drop n bs)
      else if negb (c =? 92) then Some (c, false, tl)
      else
        match tl with
        | [] => None
        | c :: s =>
            let plain v := Some (v, false, s) in
            let wide n := '(v, s) ← hex_value n 0 s; if ValidRune v then Some (v, true, s) else None in
            if c =? 97 then plain 7 else if c =? 98 then plain 8 else if c =? 102 then plain 12
            else if c =? 110 then plain 10 else if c =? 114 then plain 13 else if c =? 116 then plain 9
            else if c =? 118 then plain 11
            else if c =? 120 then '(v, s) ← hex_value 2 0 s; Some (v, false, s)
            else if c =? 117 then wide 4%nat else if c =? 85 then wide 8%nat
            else if in_range 48 55 c then
              match s with
              | x :: y :: s =>
                  a ← octal x; b ← octal y;
                  let v := (c - 48) * 64 + a * 8 + b in
                  if 255 <? v then None else Some (v, false, s)
              | _ => None
              end
            else if c =? 92 then plain 92
            else if (c =? 39) || (c =? 34) then if negb (c =? quote) then None else plain c
            else None
        end
  end.

Definition append_char (r : rune) (multibyte : bool) : list N :=
  if (r <? 128) || negb multibyte then [r] else bytes_of (encode_rune r).

(** The slow path: characters up to the closing quote; one only between single
    quotes.  [fuel] is the number of bytes. *)
Fixpoint unquote_chars (fuel : nat) (quote : N) (bs : list N) : option (list N * list N) :=
  match bs with
  | [] => Some ([], [])
  | c :: _ =>
      if c =? quote then Some ([], bs)
      else
        match fuel with
        | O => None
        | S fuel =>
            '(r, multibyte, rem) ← UnquoteChar bs quote;
            if c =? 10 then None
            else if quote =? 39 then Some (append_char r multibyte, rem)
            else '(out, rest) ← unquote_chars fuel quote rem; Some ((append_char r multibyte ++ out)%list, rest)
        end
  end.

(** The bytes before the first [quote] and those after it. *)
Fixpoint until (quote : N) (bs : list N) : option (list N * list N) :=
  match bs with
  | [] => None
  | c :: tl => if c =? quote then Some ([], tl) else '(a, b) ← until quote tl; Some (c :: a, b)
  end.

(** Every sequence decodes: no U+FFFD that takes one byte. *)
Definition ValidString (bs : list N) : bool :=
  forallb (fun pr : nat * rune => negb ((pr.2 =? rune_error) && ((decode_rune (drop pr.1 bs)).2 =? 1)%nat)) (decode 0 0 bs).

Definition valid_char (bs : list N) : bool :=
  let '(r, n) := decode_rune bs in bool_decide (n = length bs) && negb ((r =? rune_error) && (n =? 1)%nat).

(** [None] stands for [ErrSyntax]. *)
Definition unquote_bytes (bs : list N) : option (list N) :=
  match bs with
  | quote :: ((_ :: _) as tl) =>
      '(body, rest) ← until quote tl;
      if quote =? 96 then
        match rest with [] => Some (filter (fun b => b <> 13) body) | _ => None end
      else if (quote =? 34) || (quote =? 39) then
        let simple := forallb (fun b => negb (b =? 92) && negb (b =? 10)) body &&
                      (if quote =? 34 then ValidString body else valid_char body) in
        if simple then match rest with [] => Some body | _ => None end
        else
          '(out, rest) ← unquote_chars (length tl) quote tl;
          match rest with
          | [c] => if c =? quote then Some out else None
          | _ => None
          end
      else None
  | _ => None
  end.

Definition Unquote (s : string) : option string := string_of_bytes <$> unquote_bytes (bytes_of s).

(** ** path/filepath *)

Definition IsAbs (path : string) : bool := HasPrefix path "/".

(** The elements of a cleaned path, the last one first.  [..] removes the element
    before it, or stays when there is none and the path is not rooted. *)
Definition clean_step (rooted : bool) (out : list string) (elem : string) : list string :=
  if bool_decide (elem = "" \/ elem = ".") then out
  else if bool_decide (elem = "..") then
    match out with
    | [] => if rooted then [] else [".."]
    | e :: rest => if bool_decide (e = "..") then ".." :: out else rest
    end
  else elem :: out.

Definition Clean (path : string) : string :=
  let rooted := IsAbs path in
  let text := Join "/" (rev (foldl (clean_step rooted) [] (Split (Ascii.ascii_of_nat 47) path))) in
  if rooted then "/" +:+ text else if bool_decide (text = "") then "." else text.

(** [filepath.Join] of two elements, which are not both empty. *)
Definition path_Join (a b : string) : string :=
  Clean (Join "/" (filter (fun e => e <> "") [a; b])).

Definition TrimSuffix (s suf : string) : string :=
  if HasSuffix s suf then String.substring 0 (String.length s - String.length suf) s else s.

Example Unquote_plain : Unquote "secrets/db.host" = None.
Proof. reflexivity. Qed.
Example Unquote_quoted : Unquote (dquote +:+ "secrets/a\x41\u00e9\101" +:+ dquote) = Some (string_of_bytes (bytes_of "secrets/aA" ++ [195; 169; 65])%list).
Proof. reflexivity. Qed.
Example Unquote_raw : Unquote "`a\b`" = Some "a\b".
Proof. reflexivity. Qed.
Example Unquote_char : Unquote "'ab'" = None /\ Unquote "'a'" = Some "a".
Proof. split; reflexivity. Qed.
Example Clean_examples : Clean "/a/./b//../c/" = "/a/c" /\ Clean "a/../.." = ".." /\ Clean "/.." = "/" /\ Clean "" = ".".
Proof. repeat split; reflexivity. Qed.
