(* ===== verification/ClusterTypes.v ===== *)
(** * Data plane clusters (pkg/api/cluster_types.go)

    The statuses of a data plane cluster and their order, its row, and the
    operator versions it offers, kept sorted. *)

From Stdlib Require Import Sorting.Sorted.
From S2P Require Import Prelude GoString GoFmt ServiceErrors CentralRequest Versions.
Local Open Scope string_scope.
Local Open Scope Z_scope.

(** ** Statuses *)

Definition ClusterAccepted : string := "cluster_accepted".
Definition ClusterProvisioning : string := "cluster_provisioning".
Definition ClusterProvisioned : string := "cluster_provisioned".
Definition ClusterFailed : string := "failed".
Definition ClusterReady : string := "ready".
Definition ClusterDeprovisioning : string := "deprovisioning".
Definition ClusterCleanup : string := "cleanup".
Definition ClusterWaitingForFleetShardOperator : string := "waiting_for_fleetshard_operator".
Definition ClusterFull : string := "full".
Definition ClusterComputeNodeScalingUp : string := "compute_node_scaling_up".

Definition ClusterProviderOCM : string := "ocm".
Definition ClusterProviderAwsEKS : string := "aws_eks".
Definition ClusterProviderStandalone : string := "standalone".

Definition EvalTypeSupport : string := "eval".
Definition StandardTypeSupport : string := "standard".
Definition AllInstanceTypeSupport : string := "standard,eval".

(** The map [ordinals]; [ClusterFull] has no entry. *)
Definition cluster_ordinals : list (string * Z) :=
  [ (ClusterAccepted, 0); (ClusterProvisioning, 10); (ClusterProvisioned, 20);
    (ClusterWaitingForFleetShardOperator, 30); (ClusterReady, 40);
    (ClusterComputeNodeScalingUp, 50); (ClusterDeprovisioning, 60);
    (ClusterCleanup, 70); (ClusterFailed, 80) ].

Definition cluster_ordinal (k : string) : Z := map_get k cluster_ordinals.

Definition Cluster_CompareTo (k k1 : string) : Z :=
  if cluster_ordinal k =? cluster_ordinal k1 then 0
  else if cluster_ordinal k >? cluster_ordinal k1 then 1 else -1.

(** [ClusterStatus.UnmarshalYAML] and [ClusterProviderType.UnmarshalYAML] on a
    decoded string. *)
Definition ClusterStatus_UnmarshalYAML (s : string) : result error string :=
  if bool_decide (s ∈ [ClusterProvisioning; ClusterProvisioned; ClusterReady]) then Ok s
  else Err (ETraced (Sprintf "invalid value %s" [VStr s])).

Definition ClusterProviderType_UnmarshalYAML (s : string) : result error string :=
  if bool_decide (s ∈ [ClusterProviderOCM; ClusterProviderAwsEKS; ClusterProviderStandalone]) then Ok s
  else Err (ETraced (Sprintf "invalid value %s" [VStr s])).

Definition StatusForValidCluster : list string :=
  [ ClusterProvisioning; ClusterProvisioned; ClusterReady; ClusterAccepted;
    ClusterWaitingForFleetShardOperator; ClusterComputeNodeScalingUp ].

Definition ClusterDeletionStatuses : list string := [ClusterCleanup; ClusterDeprovisioning].

(** ** The row *)

(** The text of the versions column: an array of versions or a text that does
    not decode. *)
Inductive versions_json := VJSON (l : list CentralOperatorVersion) | VInvalid.

#[export] Instance versions_json_eq_dec : EqDecision versions_json.
Proof. solve_decision. Defined.

Record Cluster := mkCluster {
  cl_ID : string;
  cl_CreatedAt : Z;
  cl_UpdatedAt : Z;
  cl_CloudProvider : string;
  cl_ClusterID : string;
  cl_ExternalID : string;
  cl_MultiAZ : bool;
  cl_Region : string;
  cl_Status : string;
  cl_StatusDetails : string;
  cl_IdentityProviderID : string;
  cl_ClusterDNS : string;
  cl_ProviderType : string;
  cl_ProviderSpec : option string;
  cl_ClusterSpec : option string;
  cl_AvailableCentralOperatorVersions : option versions_json;
  cl_SupportedInstanceType : string;
  cl_Schedulable : bool
}.

#[export] Instance Cluster_eq_dec : EqDecision Cluster.
Proof. solve_decision. Defined.

Definition zero_Cluster : Cluster :=
  mkCluster "" 0 0 "" "" "" false "" "" "" "" "" "" None None None "" false.

(** Assignments to one field. *)
Definition set_cl_ID (v : string) (c : Cluster) : Cluster :=
  mkCluster
    v (cl_CreatedAt c) (cl_UpdatedAt c) (cl_CloudProvider c) (cl_ClusterID c) (cl_ExternalID c)
    (cl_MultiAZ c) (cl_Region c) (cl_Status c) (cl_StatusDetails c) (cl_IdentityProviderID c)
    (cl_ClusterDNS c) (cl_ProviderType c) (cl_ProviderSpec c) (cl_ClusterSpec c)
    (cl_AvailableCentralOperatorVersions c) (cl_SupportedInstanceType c) (cl_Schedulable c).
Definition set_cl_CreatedAt (v : Z) (c : Cluster) : Cluster :=
  mkCluster
    (cl_ID c) v (cl_UpdatedAt c) (cl_CloudProvider c) (cl_ClusterID c) (cl_ExternalID c)
    (cl_MultiAZ c) (cl_Region c) (cl_Status c) (cl_StatusDetails c) (cl_IdentityProviderID c)
    (cl_ClusterDNS c) (cl_ProviderType c) (cl_ProviderSpec c) (cl_ClusterSpec c)
    (cl_AvailableCentralOperatorVersions c) (cl_SupportedInstanceType c) (cl_Schedulable c).
Definition set_cl_UpdatedAt (v : Z) (c : Cluster) : Cluster :=
  mkCluster
    (cl_ID c) (cl_CreatedAt c) v (cl_CloudProvider c) (cl_ClusterID c) (cl_ExternalID c)
    (cl_MultiAZ c) (cl_Region c) (cl_Status c) (cl_StatusDetails c) (cl_IdentityProviderID c)
    (cl_ClusterDNS c) (cl_ProviderType c) (cl_ProviderSpec c) (cl_ClusterSpec c)
    (cl_AvailableCentralOperatorVersions c) (cl_SupportedInstanceType c) (cl_Schedulable c).
Definition set_cl_CloudProvider (v : string) (c : Cluster) : Cluster :=
  mkCluster
    (cl_ID c) (cl_CreatedAt c) (cl_UpdatedAt c) v (cl_ClusterID c) (cl_ExternalID c)
    (cl_MultiAZ c) (cl_Region c) (cl_Status c) (cl_StatusDetails c) (cl_IdentityProviderID c)
    (cl_ClusterDNS c) (cl_ProviderType c) (cl_ProviderSpec c) (cl_ClusterSpec c)
    (cl_AvailableCentralOperatorVersions c) (cl_SupportedInstanceType c) (cl_Schedulable c).
Definition set_cl_ClusterID (v : string) (c : Cluster) : Cluster :=
  mkCluster
    (cl_ID c) (cl_CreatedAt c) (cl_UpdatedAt c) (cl_CloudProvider c) v (cl_ExternalID c)
    (cl_MultiAZ c) (cl_Region c) (cl_Status c) (cl_StatusDetails c) (cl_IdentityProviderID c)
    (cl_ClusterDNS c) (cl_ProviderType c) (cl_ProviderSpec c) (cl_ClusterSpec c)
    (cl_AvailableCentralOperatorVersions c) (cl_SupportedInstanceType c) (cl_Schedulable c).
Definition set_cl_ExternalID (v : string) (c : Cluster) : Cluster :=
  mkCluster
    (cl_ID c) (cl_CreatedAt c) (cl_UpdatedAt c) (cl_CloudProvider c) (cl_ClusterID c) v
    (cl_MultiAZ c) (cl_Region c) (cl_Status c) (cl_StatusDetails c) (cl_IdentityProviderID c)
    (cl_ClusterDNS c) (cl_ProviderType c) (cl_ProviderSpec c) (cl_ClusterSpec c)
    (cl_AvailableCentralOperatorVersions c) (cl_SupportedInstanceType c) (cl_Schedulable c).
Definition set_cl_MultiAZ (v : bool) (c : Cluster) : Cluster :=
  mkCluster
    (cl_ID c) (cl_CreatedAt c) (cl_UpdatedAt c) (cl_CloudProvider c) (cl_ClusterID c)
    (cl_ExternalID c) v (cl_Region c) (cl_Status c) (cl_StatusDetails c)
    (cl_IdentityProviderID c) (cl_ClusterDNS c) (cl_ProviderType c) (cl_ProviderSpec c)
    (cl_ClusterSpec c) (cl_AvailableCentralOperatorVersions c) (cl_SupportedInstanceType c)
    (cl_Schedulable c).
Definition set_cl_Region (v : string) (c : Cluster) : Cluster :=
  mkCluster
    (cl_ID c) (cl_CreatedAt c) (cl_UpdatedAt c) (cl_CloudProvider c) (cl_ClusterID c)
    (cl_ExternalID c) (cl_MultiAZ c) v (cl_Status c) (cl_StatusDetails c)
    (cl_IdentityProviderID c) (cl_ClusterDNS c) (cl_ProviderType c) (cl_ProviderSpec c)
    (cl_ClusterSpec c) (cl_AvailableCentralOperatorVersions c) (cl_SupportedInstanceType c)
    (cl_Schedulable c).
Definition set_cl_Status (v : string) (c : Cluster) : Cluster :=
  mkCluster
    (cl_ID c) (cl_CreatedAt c) (cl_UpdatedAt c) (cl_CloudProvider c) (cl_ClusterID c)
    (cl_ExternalID c) (cl_MultiAZ c) (cl_Region c) v (cl_StatusDetails c)
    (cl_IdentityProviderID c) (cl_ClusterDNS c) (cl_ProviderType c) (cl_ProviderSpec c)
    (cl_ClusterSpec c) (cl_AvailableCentralOperatorVersions c) (cl_SupportedInstanceType c)
    (cl_Schedulable c).
Definition set_cl_StatusDetails (v : string) (c : Cluster) : Cluster :=
  mkCluster
    (cl_ID c) (cl_CreatedAt c) (cl_UpdatedAt c) (cl_CloudProvider c) (cl_ClusterID c)
    (cl_ExternalID c) (cl_MultiAZ c) (cl_Region c) (cl_Status c) v (cl_IdentityProviderID c)
    (cl_ClusterDNS c) (cl_ProviderType c) (cl_ProviderSpec c) (cl_ClusterSpec c)
    (cl_AvailableCentralOperatorVersions c) (cl_SupportedInstanceType c) (cl_Schedulable c).
Definition set_cl_IdentityProviderID (v : string) (c : Cluster) : Cluster :=
  mkCluster
    (cl_ID c) (cl_CreatedAt c) (cl_UpdatedAt c) (cl_CloudProvider c) (cl_ClusterID c)
    (cl_ExternalID c) (cl_MultiAZ c) (cl_Region c) (cl_Status c) (cl_StatusDetails c) v
    (cl_ClusterDNS c) (cl_ProviderType c) (cl_ProviderSpec c) (cl_ClusterSpec c)
    (cl_AvailableCentralOperatorVersions c) (cl_SupportedInstanceType c) (cl_Schedulable c).
Definition set_cl_ClusterDNS (v : string) (c : Cluster) : Cluster :=
  mkCluster
    (cl_ID c) (cl_CreatedAt c) (cl_UpdatedAt c) (cl_CloudProvider c) (cl_ClusterID c)
    (cl_ExternalID c) (cl_MultiAZ c) (cl_Region c) (cl_Status c) (cl_StatusDetails c)
    (cl_IdentityProviderID c) v (cl_ProviderType c) (cl_ProviderSpec c) (cl_ClusterSpec c)
    (cl_AvailableCentralOperatorVersions c) (cl_SupportedInstanceType c) (cl_Schedulable c).
Definition set_cl_ProviderType (v : string) (c : Cluster) : Cluster :=
  mkCluster
    (cl_ID c) (cl_CreatedAt c) (cl_UpdatedAt c) (cl_CloudProvider c) (cl_ClusterID c)
    (cl_ExternalID c) (cl_MultiAZ c) (cl_Region c) (cl_Status c) (cl_StatusDetails c)
    (cl_IdentityProviderID c) (cl_ClusterDNS c) v (cl_ProviderSpec c) (cl_ClusterSpec c)
    (cl_AvailableCentralOperatorVersions c) (cl_SupportedInstanceType c) (cl_Schedulable c).
Definition set_cl_ProviderSpec (v : option string) (c : Cluster) : Cluster :=
  mkCluster
    (cl_ID c) (cl_CreatedAt c) (cl_UpdatedAt c) (cl_CloudProvider c) (cl_ClusterID c)
    (cl_ExternalID c) (cl_MultiAZ c) (cl_Region c) (cl_Status c) (cl_StatusDetails c)
    (cl_IdentityProviderID c) (cl_ClusterDNS c) (cl_ProviderType c) v (cl_ClusterSpec c)
    (cl_AvailableCentralOperatorVersions c) (cl_SupportedInstanceType c) (cl_Schedulable c).
Definition set_cl_ClusterSpec (v : option string) (c : Cluster) : Cluster :=
  mkCluster
    (cl_ID c) (cl_CreatedAt c) (cl_UpdatedAt c) (cl_CloudProvider c) (cl_ClusterID c)
    (cl_ExternalID c) (cl_MultiAZ c) (cl_Region c) (cl_Status c) (cl_StatusDetails c)
    (cl_IdentityProviderID c) (cl_ClusterDNS c) (cl_ProviderType c) (cl_ProviderSpec c) v
    (cl_AvailableCentralOperatorVersions c) (cl_SupportedInstanceType c) (cl_Schedulable c).
Definition set_cl_AvailableCentralOperatorVersions (v : option versions_json) (c : Cluster) : Cluster :=
  mkCluster
    (cl_ID c) (cl_CreatedAt c) (cl_UpdatedAt c) (cl_CloudProvider c) (cl_ClusterID c)
    (cl_ExternalID c) (cl_MultiAZ c) (cl_Region c) (cl_Status c) (cl_StatusDetails c)
    (cl_IdentityProviderID c) (cl_ClusterDNS c) (cl_ProviderType c) (cl_ProviderSpec c)
    (cl_ClusterSpec c) v (cl_SupportedInstanceType c) (cl_Schedulable c).
Definition set_cl_SupportedInstanceType (v : string) (c : Cluster) : Cluster :=
  mkCluster
    (cl_ID c) (cl_CreatedAt c) (cl_UpdatedAt c) (cl_CloudProvider c) (cl_ClusterID c)
    (cl_ExternalID c) (cl_MultiAZ c) (cl_Region c) (cl_Status c) (cl_StatusDetails c)
    (cl_IdentityProviderID c) (cl_ClusterDNS c) (cl_ProviderType c) (cl_ProviderSpec c)
    (cl_ClusterSpec c) (cl_AvailableCentralOperatorVersions c) v (cl_Schedulable c).
Definition set_cl_Schedulable (v : bool) (c : Cluster) : Cluster :=
  mkCluster
    (cl_ID c) (cl_CreatedAt c) (cl_UpdatedAt c) (cl_CloudProvider c) (cl_ClusterID c)
    (cl_ExternalID c) (cl_MultiAZ c) (cl_Region c) (cl_Status c) (cl_StatusDetails c)
    (cl_IdentityProviderID c) (cl_ClusterDNS c) (cl_ProviderType c) (cl_ProviderSpec c)
    (cl_ClusterSpec c) (cl_AvailableCentralOperatorVersions c) (cl_SupportedInstanceType c) v.

(** [Updates(struct)]: the non-zero fields ([StatusDetails] is not a column). *)
Definition merge_Cluster (c u : Cluster) : Cluster :=
  mkCluster
    (cl_ID c) (pick_int (cl_CreatedAt c) (cl_CreatedAt u))
    (pick_int (cl_UpdatedAt c) (cl_UpdatedAt u))
    (pick_string (cl_CloudProvider c) (cl_CloudProvider u))
    (pick_string (cl_ClusterID c) (cl_ClusterID u))
    (pick_string (cl_ExternalID c) (cl_ExternalID u)) (pick_bool (cl_MultiAZ c) (cl_MultiAZ u))
    (pick_string (cl_Region c) (cl_Region u)) (pick_string (cl_Status c) (cl_Status u))
    (cl_StatusDetails c) (pick_string (cl_IdentityProviderID c) (cl_IdentityProviderID u))
    (pick_string (cl_ClusterDNS c) (cl_ClusterDNS u))
    (pick_string (cl_ProviderType c) (cl_ProviderType u))
    (pick_option (cl_ProviderSpec c) (cl_ProviderSpec u))
    (pick_option (cl_ClusterSpec c) (cl_ClusterSpec u))
    (pick_option (cl_AvailableCentralOperatorVersions c) (cl_AvailableCentralOperatorVersions u))
    (pick_string (cl_SupportedInstanceType c) (cl_SupportedInstanceType u))
    (pick_bool (cl_Schedulable c) (cl_Schedulable u)).

(** [ClusterList.Index] *)
Definition ClusterIndex (l : list Cluster) : gmap string Cluster :=
  foldl (fun m o => <[cl_ID o := o]> m) ∅ l.

Definition Cluster_BeforeCreate (new_id : string) (c : Cluster) : Cluster :=
  let c := if bool_decide (cl_Status c = "") then set_cl_Status ClusterAccepted c else c in
  let c := if bool_decide (cl_ID c = "") then set_cl_ID new_id c else c in
  if bool_decide (cl_SupportedInstanceType c = "")
  then set_cl_SupportedInstanceType AllInstanceTypeSupport c else c.

(** ** Available operator versions *)

Definition GetAvailableCentralOperatorVersions (c : Cluster) : result error (list CentralOperatorVersion) :=
  match cl_AvailableCentralOperatorVersions c with
  | None => Ok []
  | Some (VJSON l) => Ok l
  | Some VInvalid =>
      Err (Errorf_w "getting available central operator versions" (EPlain "invalid JSON"))
  end.

Definition GetAvailableAndReadyCentralOperatorVersions (c : Cluster)
    : result error (list CentralOperatorVersion) :=
  vs ← GetAvailableCentralOperatorVersions c;
  Ok (filter (fun v => ov_Ready v = true) vs).

(** The text of an [errors.ErrorList]. *)
Definition ErrorList_Error (errs : list error) : string :=
  "[" +:+ string_concat ((fun e => ";" +:+ Error e) <$> errs) +:+ "]".

Definition SetAvailableCentralOperatorVersions `{Semver} (versions : list CentralOperatorVersion)
    (c : Cluster) : result error Cluster :=
  match CentralOperatorVersionsDeepSort versions with
  | Err errs => Err (EPlain (ErrorList_Error errs))
  | Ok sorted => Ok (set_cl_AvailableCentralOperatorVersions (Some (VJSON sorted)) c)
  end.

(** ** Theorems *)

Lemma Cluster_CompareTo_spec k k1 :
  Cluster_CompareTo k k1 =
  match cluster_ordinal k ?= cluster_ordinal k1 with Lt => -1 | Datatypes.Eq => 0 | Gt => 1 end.
Proof.
  unfold Cluster_CompareTo. rewrite Z.gtb_ltb.
  destruct (Z.compare_spec (cluster_ordinal k) (cluster_ordinal k1)) as [->|?|?].
  - by rewrite Z.eqb_refl.
  - rewrite (proj2 (Z.eqb_neq _ _)), (proj2 (Z.ltb_ge _ _)) by lia. done.
  - rewrite (proj2 (Z.eqb_neq _ _)), (proj2 (Z.ltb_lt _ _)) by lia. done.
Qed.

(** [CompareTo] orders the statuses of centrals and of clusters by their
    position in the lifecycle: it is reflexive, antisymmetric in sign and
    transitive; on the seven statuses of a central it returns 0 only for equal
    statuses.  A cluster status without an ordinal ([full]) compares like the
    first one ([cluster_accepted]). *)
Theorem CompareTo_lifecycle a b c :
  CompareTo a a = 0 /\ CompareTo b a = - CompareTo a b /\
  (CompareTo a b <= 0 -> CompareTo b c <= 0 -> CompareTo a c <= 0) /\
  (a ∈ all_statuses -> b ∈ all_statuses -> CompareTo a b = 0 -> a = b) /\
  Cluster_CompareTo b a = - Cluster_CompareTo a b /\
  (Cluster_CompareTo a b <= 0 -> Cluster_CompareTo b c <= 0 -> Cluster_CompareTo a c <= 0) /\
  Cluster_CompareTo ClusterFull a = Cluster_CompareTo ClusterAccepted a.
Proof.
  rewrite !CompareTo_spec, !Cluster_CompareTo_spec, Z.compare_refl.
  assert (cluster_ordinal ClusterFull = cluster_ordinal ClusterAccepted) as -> by reflexivity.
  split_and!; try done.
  - rewrite (Z.compare_antisym (ordinal a) (ordinal b)). by destruct (ordinal a ?= ordinal b).
  - repeat (match goal with |- context [ordinal ?x ?= ordinal ?y] =>
      destruct (Z.compare_spec (ordinal x) (ordinal y)) end); lia.
  - intros Ha Hb. destruct (Z.compare_spec (ordinal a) (ordinal b)) as [Ho|?|?]; try done.
    intros _. by apply ordinal_inj.
  - rewrite (Z.compare_antisym (cluster_ordinal a) (cluster_ordinal b)).
    by destruct (cluster_ordinal a ?= cluster_ordinal b).
  - repeat (match goal with |- context [cluster_ordinal ?x ?= cluster_ordinal ?y] =>
      destruct (Z.compare_spec (cluster_ordinal x) (cluster_ordinal y)) end); lia.
Qed.

Lemma CompareTo_lifecycle_witness :
  CompareTo CentralRequestStatusAccepted CentralRequestStatusReady <= 0 /\
  (CompareTo CentralRequestStatusReady CentralRequestStatusReady = 0 ->
   CentralRequestStatusReady = CentralRequestStatusReady).
Proof.
  split.
  - apply (CompareTo_lifecycle CentralRequestStatusAccepted CentralRequestStatusPreparing
      CentralRequestStatusReady); vm_compute; discriminate.
  - apply (CompareTo_lifecycle CentralRequestStatusReady CentralRequestStatusReady
      CentralRequestStatusReady); by apply (bool_decide_unpack _).
Defined.

(** Storing operator versions in a cluster and reading them back gives the same
    operator versions, in ascending version order, each with its own central
    versions in ascending order; nothing is lost, added or changed. *)
Theorem SetAvailableCentralOperatorVersions_sorted `{SemverLaws} versions c c' :
  SetAvailableCentralOperatorVersions versions c = Ok c' ->
  exists l sorted,
    GetAvailableCentralOperatorVersions c' = Ok l /\
    sorted ≡ₚ versions /\
    StronglySorted operator_le sorted /\
    Forall2 (fun v v' => ov_Version v' = ov_Version v /\ ov_Ready v' = ov_Ready v /\
      ov_CentralVersions v' ≡ₚ ov_CentralVersions v /\
      StronglySorted (fun a b => version_le (cv_Version a) (cv_Version b)) (ov_CentralVersions v'))
      sorted l.
Proof.
  unfold SetAvailableCentralOperatorVersions, CentralOperatorVersionsDeepSort. intros Hset.
  pose proof (sort_slice_perm CentralOperatorVersion_Compare versions) as Hp.
  pose proof (sort_slice_sorted CentralOperatorVersion_Compare operator_le
    (fun x y z => version_le_trans _ _ _) operator_compare_le operator_compare_ge versions) as Hs.
  destruct (sort_slice CentralOperatorVersion_Compare versions) as [vs [|e errs]]; [|done].
  destruct (sort_central_versions vs) as [l|errs] eqn:Hl; [|done].
  injection Hset as <-. exists l, vs. split_and!; [done|done|by apply Hs|].
  by apply sort_central_versions_ok.
Qed.

(** A list of one operator version is stored without any check of its format:
    the format is only looked at when two versions are compared. *)
Lemma single_version_unchecked `{Semver} v ready c :
  exists c', SetAvailableCentralOperatorVersions [mkOperatorVersion v ready []] c = Ok c' /\
    GetAvailableCentralOperatorVersions c' = Ok [mkOperatorVersion v ready []].
Proof. eexists. split; reflexivity. Qed.

(** ** A concrete order of versions

    Versions [major.minor.patch] with an optional numeric suffix after a dash. *)

Definition parse_number (s : string) : option Z := parse_digits (bytes_of s).

Definition parse_simple (s : string) : result error semver :=
  let bad := Err (EPlain ("invalid version " +:+ s)) in
  match Split (Ascii.ascii_of_N 45) s with
  | core :: rest =>
      match parse_number <$> Split (Ascii.ascii_of_N 46) core with
      | [Some a; Some b; Some c] => Ok (mkSemver a b c [] rest)
      | _ => bad
      end
  | [] => bad
  end.

Definition compare_simple (v w : semver) : Z :=
  let sign x y := if x <? y then -1 else if y <? x then 1 else 0 in
  if sv_Major v =? sv_Major w then
    if sv_Minor v =? sv_Minor w then sign (sv_Patch v) (sv_Patch w)
    else sign (sv_Minor v) (sv_Minor w)
  else sign (sv_Major v) (sv_Major w).

Definition simple_semver : Semver :=
  {| ParseTolerant := parse_simple; SemverCompare := compare_simple |}.

Definition simple_lt (v w : semver) : Prop :=
  sv_Major v < sv_Major w \/ (sv_Major v = sv_Major w /\
  (sv_Minor v < sv_Minor w \/ (sv_Minor v = sv_Minor w /\ sv_Patch v < sv_Patch w))).

Lemma compare_simple_cases v w :
  (compare_simple v w = -1 /\ simple_lt v w) \/ (compare_simple v w = 1 /\ simple_lt w v) \/
  (compare_simple v w = 0 /\ sv_Major v = sv_Major w /\ sv_Minor v = sv_Minor w /\
   sv_Patch v = sv_Patch w).
Proof. unfold compare_simple, simple_lt. repeat case_match; lia. Qed.

Lemma simple_semver_laws : @SemverLaws simple_semver.
Proof.
  split; simpl.
  - intros v w. destruct (compare_simple_cases v w) as [[-> _]|[[-> _]|[-> _]]];
      rewrite ?elem_of_cons; auto.
  - intros v w. pose proof (compare_simple_cases v w). pose proof (compare_simple_cases w v).
    unfold simple_lt in *. lia.
  - intros u v w. pose proof (compare_simple_cases u v). pose proof (compare_simple_cases v w).
    pose proof (compare_simple_cases u w). unfold simple_lt in *. lia.
  - intros u v w. pose proof (compare_simple_cases u v). pose proof (compare_simple_cases v w).
    pose proof (compare_simple_cases u w). unfold simple_lt in *. lia.
Qed.

Definition sample_versions : list CentralOperatorVersion :=
  [ mkOperatorVersion "central-operator.v1.10.0-2" true [mkCentralVersion "3.2.0"; mkCentralVersion "3.1.9"];
    mkOperatorVersion "central-operator.v1.9.1-7" false [] ].

Definition sorted_versions : list CentralOperatorVersion :=
  [ mkOperatorVersion "central-operator.v1.9.1-7" false [];
    mkOperatorVersion "central-operator.v1.10.0-2" true [mkCentralVersion "3.1.9"; mkCentralVersion "3.2.0"] ].

Definition sample_cluster : Cluster :=
  set_cl_AvailableCentralOperatorVersions (Some (VJSON sorted_versions)) zero_Cluster.

Lemma SetAvailableCentralOperatorVersions_sorted_witness :
  @SetAvailableCentralOperatorVersions simple_semver sample_versions zero_Cluster = Ok sample_cluster /\
  exists l sorted,
    GetAvailableCentralOperatorVersions sample_cluster = Ok l /\
    sorted ≡ₚ sample_versions /\
    StronglySorted (@operator_le simple_semver) sorted /\
    Forall2 (fun v v' => ov_Version v' = ov_Version v /\ ov_Ready v' = ov_Ready v /\
      ov_CentralVersions v' ≡ₚ ov_CentralVersions v /\
      StronglySorted (fun a b => @version_le simple_semver (cv_Version a) (cv_Version b))
        (ov_CentralVersions v')) sorted l.
Proof.
  assert (@SetAvailableCentralOperatorVersions simple_semver sample_versions zero_Cluster
          = Ok sample_cluster) as Hs by (vm_compute; reflexivity).
  split; [exact Hs|].
  exact (@SetAvailableCentralOperatorVersions_sorted simple_semver simple_semver_laws
    sample_versions zero_Cluster sample_cluster Hs).
Defined.
