(* ===== verification/ProviderTypes.v ===== *)
(** * What cluster providers work on (internal/dinosaur/pkg/clusters/types)

    The information a cluster provider is asked for and gives back: identity
    providers, sets of Kubernetes resources, cloud providers and their regions, and
    the merging of region lists.

    A resource is a Go value of some type that encodes to a JSON object; the
    unstructured form of a resource is the JSON object. *)

From S2P Require Import Prelude GoString.
Local Open Scope string_scope.

(** ** JSON values *)

#[warnings="-register-all"]
Inductive jvalue : Type :=
| JBool (b : bool)
| JString (s : string)
| JList (l : list jvalue)
| JObject (fields : list (string * jvalue)).

Fixpoint jvalue_eqb (a b : jvalue) : bool :=
  match a, b with
  | JBool x, JBool y => Bool.eqb x y
  | JString x, JString y => bool_decide (x = y)
  | JList xs, JList ys =>
      (fix go xs ys := match xs, ys with
        | [], [] => true
        | x :: xs, y :: ys => jvalue_eqb x y && go xs ys
        | _, _ => false
        end) xs ys
  | JObject xs, JObject ys =>
      (fix go xs ys := match xs, ys with
        | [], [] => true
        | (k, x) :: xs, (l, y) :: ys => bool_decide (k = l) && jvalue_eqb x y && go xs ys
        | _, _ => false
        end) xs ys
  | _, _ => false
  end.

(** The comparison decides equality; the values inside a list or an object are the
    induction hypotheses. *)
Lemma jvalue_eqb_eq : forall a b, jvalue_eqb a b = true <-> a = b.
Proof.
  fix IH 1. intros a b. destruct a as [x|x|xs|xs], b as [y|y|ys|ys]; simpl; try (split; congruence).
  - rewrite eqb_true_iff. split; congruence.
  - rewrite bool_decide_eq_true. split; congruence.
  - enough (forall ys, (fix go xs ys := match xs, ys with
      | [], [] => true | x :: xs, y :: ys => jvalue_eqb x y && go xs ys | _, _ => false end) xs ys = true
      <-> xs = ys) as -> by (split; congruence).
    clear ys. induction xs as [|x xs IHxs]; intros [|y ys]; [done..|].
    rewrite andb_true_iff, IH, IHxs. split; [intros [-> ->]; done|]. by intros [= -> ->].
  - enough (forall ys, (fix go xs ys := match xs, ys with
      | [], [] => true
      | (k, x) :: xs, (l, y) :: ys => bool_decide (k = l) && jvalue_eqb x y && go xs ys
      | _, _ => false end) xs ys = true <-> xs = ys) as -> by (split; congruence).
    clear ys. induction xs as [|[k x] xs IHxs]; intros [|[l y] ys]; [done..|].
    rewrite !andb_true_iff, bool_decide_eq_true, IH, IHxs.
    split; [intros [[-> ->] ->]; done|]. by intros [= -> -> ->].
Qed.

#[export] Instance jvalue_eq_dec : EqDecision jvalue.
Proof.
  intros a b. destruct (jvalue_eqb a b) eqn:E; [left; by apply jvalue_eqb_eq|].
  right. intros ->. by rewrite (proj2 (jvalue_eqb_eq b b) eq_refl) in E.
Defined.

(** A field of an object, [None] when there is none or the value is no object. *)
Definition jfield (k : string) (v : jvalue) : option jvalue :=
  match v with
  | JObject fs => snd <$> head (filter (fun f => f.1 = k) fs)
  | _ => None
  end.

Definition jtext (v : option jvalue) : string := match v with Some (JString s) => s | _ => "" end.

(** ** Resources *)

(** The Go type of a resource and its JSON object. *)
Record KResource := mkKResource { kr_Type : string; kr_Body : jvalue }.

#[export] Instance KResource_eq_dec : EqDecision KResource.
Proof. solve_decision. Defined.

Record ResourceSet := mkResourceSet { rset_Name : string; rset_Resources : list KResource }.

(** ** Identity providers and parameters *)

Record OpenIDIdentityProviderInfo := mkOpenID {
  oid_ID : string; oid_Name : string; oid_ClientID : string; oid_ClientSecret : string; oid_Issuer : string
}.

Record IdentityProviderInfo := mkIdentityProviderInfo { idp_OpenID : option OpenIDIdentityProviderInfo }.

Record AddonParameter := mkAddonParameter { par_ID : string; par_Value : string }.

#[export] Instance AddonParameter_eq_dec : EqDecision AddonParameter.
Proof. solve_decision. Defined.

(** ** Cloud providers and regions *)

Record CloudProviderInfo := mkCloudProviderInfo { cpi_ID : string; cpi_Name : string; cpi_DisplayName : string }.

Record CloudProviderRegionInfo := mkRegionInfo {
  ri_ID : string; ri_CloudProviderID : string; ri_Name : string; ri_DisplayName : string; ri_SupportsMultiAZ : bool
}.

#[export] Instance CloudProviderRegionInfo_eq_dec : EqDecision CloudProviderRegionInfo.
Proof. solve_decision. Defined.

(** [Merge]: the map of the known identifiers is kept next to the list. *)
Definition merge_step (acc : gmap string CloudProviderRegionInfo * list CloudProviderRegionInfo)
    (region : CloudProviderRegionInfo) : gmap string CloudProviderRegionInfo * list CloudProviderRegionInfo :=
  let '(known, items) := acc in
  match known !! ri_ID region with
  | Some _ => (known, items)
  | None => (<[ri_ID region := region]> known, (items ++ [region])%list)
  end.

Definition known_regions (items : list CloudProviderRegionInfo) : gmap string CloudProviderRegionInfo :=
  foldl (fun m r => <[ri_ID r := r]> m) ∅ items.

Definition Merge (target source : list CloudProviderRegionInfo) : list CloudProviderRegionInfo :=
  (foldl merge_step (known_regions target, target) source).2.
