(* ===== verification/World.v ===== *)
(** * The world of the fleet manager

    What the services read and write: the two tables, the external services and
    the emitted metrics.  The account management service (AMS), Route 53, the
    dynamic clients of the SSO, the cluster providers, the clock and the
    generator of identifiers are reached through [Externals], the interface the
    services use, and nothing is assumed of the answers; Backends.v implements it
    with the program's own clients and providers.  A
    [Platform] bundles concrete choices; theorems are proved for any platform
    whose tables satisfy [StoreLaws]. *)

From S2P Require Import Prelude GoString GoFmt ServiceErrors CentralRequest Store Versions ClusterTypes ProviderTypes.
Local Open Scope string_scope.
Local Open Scope Z_scope.

(** ** Rows *)

#[export] Instance central_row : Row CentralRequest := {|
  row_id := cr_ID;
  stamp_created now r :=
    let r := if cr_CreatedAt r =? 0 then set_CreatedAt now r else r in
    if cr_UpdatedAt r =? 0 then set_UpdatedAt now r else r;
  stamp_updated now r := set_UpdatedAt now r
|}.

#[export] Instance central_row_laws : RowLaws CentralRequest.
Proof. split; [|done]. intros now r. simpl. repeat case_match; done. Qed.

#[export] Instance cluster_row : Row Cluster := {|
  row_id := cl_ID;
  stamp_created now c :=
    let c := if cl_CreatedAt c =? 0 then set_cl_CreatedAt now c else c in
    if cl_UpdatedAt c =? 0 then set_cl_UpdatedAt now c else c;
  stamp_updated now c := set_cl_UpdatedAt now c
|}.

#[export] Instance cluster_row_laws : RowLaws Cluster.
Proof. split; [|done]. intros now r. simpl. repeat case_match; done. Qed.

(** ** Metrics (pkg/metrics): the events the services emit *)

Inductive metric :=
| CentralRequestsStatusSinceCreated (status id clusterID : string) (since : Z)
| CentralTotalOperations (op : string)
| CentralSuccessOperations (op : string)
| CentralTimeout (id clusterID : string)
| CentralCreationDuration (since : Z)
| CentralRequestsStatusCount (status : string) (n : Z)
| ClusterStatusCapacityUsed (region instanceType clusterID : string) (n : Z)
| ClusterTotalOperations (op : string)
| ClusterSuccessOperations (op : string)
| ClusterStatusSinceCreated (id clusterID status : string) (since : Z)
| ClusterCreationDuration (since : Z)
| ClusterStatusCount (status : string) (n : Z)
| ClusterStatusCapacityMax (region instanceType clusterID : string) (n : Z)
| CentralPerClusterCount (clusterID externalID : string) (n : Z)
(** events of the telemetry service *)
| TenantGroup (user tenantID : string) (props : list (string * string))
| CentralCreationRequested (user tenantID errMsg : string) (success isAdmin : bool)
| CentralDeletionRequested (user tenantID errMsg : string) (success isAdmin : bool).

(** ** External services *)

Record RelatedResource := mkRelatedResource { rr_BillingModel : string; rr_Cost : Z }.
Record QuotaCost := mkQuotaCost { qc_Allowed : Z; qc_Consumed : Z; qc_RelatedResources : list RelatedResource }.
Record CloudAccount := mkCloudAccount { ca_CloudAccountID : string; ca_CloudProviderID : string }.

(** The fields of a ClusterAuthorizationRequest that depend on the request; the
    constant ones (managed, multi-AZ, reserve, one [rhacs] resource) are part of
    the client call. *)
Record AuthorizationRequest := mkAuthorizationRequest {
  ar_AccountUsername : string; ar_CloudProviderID : string; ar_ProductID : string;
  ar_ClusterID : string; ar_BillingModel : string; ar_BillingMarketplaceAccount : option string
}.

(** A record change of Route 53. *)
Record ResourceRecordChange := mkRecordChange {
  rc_Action : string; rc_Name : string; rc_Type : string; rc_TTL : Z; rc_Value : string
}.

Record ChangeInfo := mkChangeInfo { ci_Id : option string; ci_Status : option string }.

(** types.ClusterSpec and types.ClusterRequest of the cluster providers. *)
Record ClusterSpec := mkClusterSpec {
  cs_InternalID : string; cs_ExternalID : string; cs_Status : string; cs_StatusDetails : string;
  cs_AdditionalInfo : option string
}.

Record ClusterRequest := mkClusterRequest {
  clr_CloudProvider : string; clr_Region : string; clr_MultiAZ : bool; clr_AdditionalSpec : option string
}.

Class Externals (X : Type) := {
  Now : prog X Z;
  NewID : prog X string;
  (** AMS: the organisation's identifier and name *)
  GetOrganisationFromExternalID : string -> prog X (result error (string * string));
  GetQuotaCostsForProduct (org resource product : string) : prog X (result error (list QuotaCost));
  GetCustomerCloudAccounts (org : string) (quotaIDs : list string) : prog X (result error (list CloudAccount));
  (** allowed, and the identifier of the subscription *)
  ClusterAuthorization : AuthorizationRequest -> prog X (result error (bool * string));
  DeleteSubscription : string -> prog X (result error unit);
  (** Route 53 *)
  NewAWSClient (region : string) : prog X (result error unit);
  ChangeResourceRecordSets (domain : string) (batch : list ResourceRecordChange)
    : prog X (result error (option (option ChangeInfo)));
  GetChange (id : string) : prog X (result error ChangeInfo);
  (** dynamic clients of the SSO: identifier and secret; a failed deletion comes
      with the HTTP status of the answer, if there was one *)
  CreateAcsClient (name org : string) (redirectURIs : list string) : prog X (result error (string * string));
  DeleteAcsClient (clientID : string) : prog X (result (option Z * error) unit);
  (** the providers of data plane clusters, by provider type *)
  (** a nil specification without an error is possible *)
  provider_Create (provider : string) : ClusterRequest -> prog X (result error (option ClusterSpec));
  provider_CheckClusterStatus (provider : string) : ClusterSpec -> prog X (result error ClusterSpec);
  provider_Delete (provider : string) : ClusterSpec -> prog X (result error bool);
  provider_GetClusterDNS (provider : string) : ClusterSpec -> prog X (result error string);
  provider_AddIdentityProvider (provider : string) (spec : ClusterSpec) (info : IdentityProviderInfo)
    : prog X (result error (option IdentityProviderInfo));
  provider_ApplyResources (provider : string) (spec : ClusterSpec) (resources : ResourceSet)
    : prog X (result error ResourceSet);
  provider_InstallDinosaurOperator (provider : string) : ClusterSpec -> prog X (result error bool);
  provider_InstallFleetshard (provider : string) (spec : ClusterSpec) (params : list AddonParameter)
    : prog X (result error bool);
  provider_GetComputeNodes (provider : string) : ClusterSpec -> prog X (result error (Z * Z));
  provider_SetComputeNodes (provider : string) : ClusterSpec -> Z -> prog X (result error ClusterSpec);
  provider_ScaleUp (provider : string) : ClusterSpec -> Z -> prog X (result error ClusterSpec);
  provider_ScaleDown (provider : string) : ClusterSpec -> Z -> prog X (result error ClusterSpec)
}.

(** [api.NewID] draws a random identifier, which is never empty. *)
Class ExternalsLaws (X : Type) `{Externals X} := { new_id_nonempty x : (NewID x).2 <> "" }.

(** ** The world *)

Class Platform := {
  centrals_table : Type;
  clusters_table : Type;
  externals : Type;
  platform_centrals :: Store centrals_table CentralRequest;
  platform_clusters :: Store clusters_table Cluster;
  platform_externals :: Externals externals
}.

Class PlatformLaws `{Platform} := {
  centrals_laws :: StoreLaws centrals_table CentralRequest;
  clusters_laws :: StoreLaws clusters_table Cluster
}.

Record world `{Platform} := mkWorld {
  w_centrals : centrals_table;
  w_clusters : clusters_table;
  w_ext : externals;
  w_metrics : list metric
}.

(** Relational reasoning about programs: every run relates the world before to
    the world after. *)
Definition preserves {W A} (R : relation W) (m : prog W A) : Prop := forall w, R w (m w).1.

Section preserves.
Context {W : Type} (R : relation W) `{!PreOrder R}.

Lemma preserves_ret {A} (a : A) : preserves R (mret a).
Proof. intros w. reflexivity. Qed.

Lemma preserves_bind {A B} (m : prog W A) (k : A -> prog W B) :
  preserves R m -> (forall a, preserves R (k a)) -> preserves R (m ≫= k).
Proof. intros Hm Hk w. rewrite prog_bind_run. etransitivity; [apply Hm|apply Hk]. Qed.

Lemma preserves_forM {A E} (xs : list A) (f : A -> prog W (option E)) :
  (forall x, preserves R (f x)) -> preserves R (forM_errs xs f).
Proof. intros Hf w. apply forM_errs_rel; [done|]. intros x v _. apply Hf. Qed.
End preserves.

Section world.
Context `{Platform}.

(** The live rows of the two tables. *)
Definition centrals (w : world) : gmap string CentralRequest := rows (w_centrals w).
Definition clusters (w : world) : gmap string Cluster := rows (w_clusters w).

Definition on_centrals {A} (m : prog centrals_table A) : prog world A := fun w =>
  let '(t, a) := m (w_centrals w) in (mkWorld _ t (w_clusters w) (w_ext w) (w_metrics w), a).

Definition on_clusters {A} (m : prog clusters_table A) : prog world A := fun w =>
  let '(t, a) := m (w_clusters w) in (mkWorld _ (w_centrals w) t (w_ext w) (w_metrics w), a).

Definition on_ext {A} (m : prog externals A) : prog world A := fun w =>
  let '(x, a) := m (w_ext w) in (mkWorld _ (w_centrals w) (w_clusters w) x (w_metrics w), a).

Definition emit (e : metric) : prog world unit := fun w =>
  (mkWorld _ (w_centrals w) (w_clusters w) (w_ext w) (w_metrics w ++ [e]), tt).

(** [for i := 0; i < n; i++ { emit }] *)
Fixpoint emit_times (n : nat) (es : list metric) : prog world unit :=
  match n with
  | O => mret tt
  | S n => fun w => emit_times n es (mkWorld _ (w_centrals w) (w_clusters w) (w_ext w) (w_metrics w ++ es))
  end.

Definition now : prog world Z := on_ext Now.
Definition fresh_id : prog world string := on_ext NewID.

(** [time.Since(t)] *)
Definition since (t : Z) : prog world Z := n ← now; mret (n - t).

Definition UpdateClusterStatusSinceCreatedMetric (c : Cluster) (status : string) : prog world unit :=
  d ← since (cl_CreatedAt c);
  emit (ClusterStatusSinceCreated (cl_ID c) (cl_ClusterID c) status d).

Lemma on_centrals_run {A} (m : prog centrals_table A) w :
  centrals (on_centrals m w).1 = rows (m (w_centrals w)).1 /\
  clusters (on_centrals m w).1 = clusters w /\
  (on_centrals m w).2 = (m (w_centrals w)).2.
Proof. unfold on_centrals. by destruct (m (w_centrals w)). Qed.

Lemma on_clusters_run {A} (m : prog clusters_table A) w :
  clusters (on_clusters m w).1 = rows (m (w_clusters w)).1 /\
  centrals (on_clusters m w).1 = centrals w /\
  (on_clusters m w).2 = (m (w_clusters w)).2.
Proof. unfold on_clusters. by destruct (m (w_clusters w)). Qed.

Lemma on_ext_run {A} (m : prog externals A) w :
  centrals (on_ext m w).1 = centrals w /\ clusters (on_ext m w).1 = clusters w.
Proof. unfold on_ext. by destruct (m (w_ext w)). Qed.

Lemma emit_run e w : centrals (emit e w).1 = centrals w /\ clusters (emit e w).1 = clusters w.
Proof. done. Qed.

Lemma emit_times_run n es w :
  centrals (emit_times n es w).1 = centrals w /\ clusters (emit_times n es w).1 = clusters w.
Proof.
  revert w. induction n as [|n IH]; intros w; [done|]. simpl.
  destruct (IH (mkWorld _ (w_centrals w) (w_clusters w) (w_ext w) (w_metrics w ++ es))) as [-> ->].
  done.
Qed.
End world.

(** ** Reasoning about the centrals table *)

(** The state of a key of the centrals table. *)
Definition central_state `{Platform} (w : world) (k : string) : rowstate CentralRequest :=
  state_of (w_centrals w) k.

(** [on_rows Q] relates two worlds when [Q] relates the state of every key before
    and after. *)
Definition on_rows `{Platform} (Q : relation (rowstate CentralRequest)) : relation world :=
  fun w w' => forall k, Q (central_state w k) (central_state w' k).

#[export] Instance on_rows_preorder `{Platform} Q `{!PreOrder Q} : PreOrder (on_rows Q).
Proof.
  split.
  - intros w k. reflexivity.
  - intros w1 w2 w3 H12 H23 k. etransitivity; [apply H12|apply H23].
Qed.

Lemma central_state_live `{Platform} w k r : central_state w k = Live r <-> centrals w !! k = Some r.
Proof.
  unfold central_state, state_of, centrals. destruct (rows (w_centrals w) !! k) as [x|]; [naive_solver|].
  case_decide; naive_solver.
Qed.

Lemma rows_eq `{Platform} w w' : on_rows eq w w' -> centrals w' = centrals w.
Proof.
  intros He. apply map_eq. intros k. apply option_eq. intros r.
  rewrite <- !central_state_live. by rewrite (He k).
Qed.

Section rows_rules.
Context `{PlatformLaws} (Q : relation (rowstate CentralRequest)) `{!PreOrder Q}.

Lemma rows_same w w' : same_table (w_centrals w) (w_centrals w') -> on_rows Q w w'.
Proof. intros Hs k. unfold central_state. rewrite (same_state _ _ k Hs). reflexivity. Qed.

Lemma rows_unchanged w w' : w_centrals w' = w_centrals w -> on_rows Q w w'.
Proof. intros Heq. apply rows_same. by rewrite Heq. Qed.

Lemma rows_on_clusters {A} (m : prog clusters_table A) : preserves (on_rows Q) (on_clusters m).
Proof. intros w. apply rows_unchanged. unfold on_clusters. by destruct (m (w_clusters w)). Qed.

Lemma rows_on_ext {A} (m : prog externals A) : preserves (on_rows Q) (on_ext m).
Proof. intros w. apply rows_unchanged. unfold on_ext. by destruct (m (w_ext w)). Qed.

Lemma rows_emit e : preserves (on_rows Q) (emit e).
Proof. intros w. by apply rows_unchanged. Qed.

Lemma rows_emit_times n es : preserves (on_rows Q) (emit_times n es).
Proof.
  induction n as [|n IH]; [apply preserves_ret, _|]. intros w. simpl.
  etransitivity; [|apply IH]. by apply rows_unchanged.
Qed.

Lemma rows_now : preserves (on_rows Q) now.
Proof. apply rows_on_ext. Qed.

Lemma rows_fresh_id : preserves (on_rows Q) fresh_id.
Proof. apply rows_on_ext. Qed.

Lemma on_centrals_table {A} (m : prog centrals_table A) w :
  w_centrals (on_centrals m w).1 = (m (w_centrals w)).1.
Proof. unfold on_centrals. by destruct (m (w_centrals w)). Qed.

Lemma rows_read {A} (m : prog centrals_table A) :
  (forall t, same_table t (m t).1) -> preserves (on_rows Q) (on_centrals m).
Proof. intros Hm w. apply rows_same. rewrite on_centrals_table. apply Hm. Qed.

Lemma rows_find p : preserves (on_rows Q) (on_centrals (db_find p)).
Proof. apply rows_read, find_same. Qed.

Lemma rows_find_by p key : preserves (on_rows Q) (on_centrals (db_find_by p key)).
Proof. apply rows_read, find_by_same. Qed.

Lemma rows_page p cols o l : preserves (on_rows Q) (on_centrals (db_page p cols o l)).
Proof. apply rows_read, page_same. Qed.

Lemma rows_group p key : preserves (on_rows Q) (on_centrals (db_group p key)).
Proof. apply rows_read, group_same. Qed.

Lemma rows_first p : preserves (on_rows Q) (on_centrals (db_first p)).
Proof. apply rows_read, first_same. Qed.

Lemma rows_count p : preserves (on_rows Q) (on_centrals (db_count p)).
Proof. apply rows_read, count_same. Qed.

(** An UPDATE respects [Q] when every assignment it may make does. *)
Lemma rows_update_at p f w :
  (forall r, cr_ID (f r) = cr_ID r) ->
  (forall k r t, centrals w !! k = Some r -> p r = true -> Q (Live r) (Live (set_UpdatedAt t (f r)))) ->
  on_rows Q w (on_centrals (db_update p f) w).1.
Proof.
  intros Hid Hq k. unfold central_state. rewrite on_centrals_table. apply update_state; [done..|].
  intros r t. apply Hq.
Qed.

Lemma rows_update p f :
  (forall r, cr_ID (f r) = cr_ID r) ->
  (forall r t, p r = true -> Q (Live r) (Live (set_UpdatedAt t (f r)))) ->
  preserves (on_rows Q) (on_centrals (db_update p f)).
Proof. intros Hid Hq w. apply rows_update_at; auto. Qed.

Lemma rows_delete_at p w :
  (forall k r, centrals w !! k = Some r -> p r = true -> Q (Live r) Dead) ->
  on_rows Q w (on_centrals (db_delete p) w).1.
Proof.
  intros Hq k. unfold central_state. rewrite on_centrals_table. apply delete_state; [done|].
  intros r. apply Hq.
Qed.

Lemma rows_delete p :
  (forall r, p r = true -> Q (Live r) Dead) ->
  preserves (on_rows Q) (on_centrals (db_delete p)).
Proof. intros Hq w. apply rows_delete_at. auto. Qed.

Lemma rows_create r :
  (forall t, Q Absent (Live (stamp_created t r))) ->
  preserves (on_rows Q) (on_centrals (db_create r)).
Proof.
  intros Hq w k. unfold central_state. rewrite on_centrals_table. by apply create_state.
Qed.
End rows_rules.

(** ** Programs that leave the clusters table unchanged *)

Definition same_clusters `{Platform} : relation world := fun w w' => clusters w' = clusters w.

#[export] Instance same_clusters_preorder `{Platform} : PreOrder same_clusters.
Proof. split; [done|]. intros w1 w2 w3 H12 H23. unfold same_clusters in *. congruence. Qed.

Section same_clusters.
Context `{PlatformLaws}.

Lemma kept_on_centrals {A} (m : prog centrals_table A) : preserves same_clusters (on_centrals m).
Proof. intros w. apply on_centrals_run. Qed.

Lemma kept_on_ext {A} (m : prog externals A) : preserves same_clusters (on_ext m).
Proof. intros w. apply on_ext_run. Qed.

Lemma kept_emit e : preserves same_clusters (emit e).
Proof. done. Qed.

Lemma kept_emit_times n es : preserves same_clusters (emit_times n es).
Proof. intros w. apply emit_times_run. Qed.

Lemma kept_now : preserves same_clusters now.
Proof. apply kept_on_ext. Qed.

Lemma kept_fresh_id : preserves same_clusters fresh_id.
Proof. apply kept_on_ext. Qed.

Lemma kept_read {A} (m : prog clusters_table A) :
  (forall t, same_table t (m t).1) -> preserves same_clusters (on_clusters m).
Proof.
  intros Hm w. unfold same_clusters. rewrite (proj1 (on_clusters_run m w)). apply Hm.
Qed.
End same_clusters.

(** The results of statements on the centrals table. *)
Section results.
Context `{PlatformLaws}.

Lemma on_centrals_result {A} (m : prog centrals_table A) w : (on_centrals m w).2 = (m (w_centrals w)).2.
Proof. unfold on_centrals. by destruct (m (w_centrals w)). Qed.

Lemma centrals_id w k r : centrals w !! k = Some r -> cr_ID r = k.
Proof. exact (rows_id (w_centrals w) k r). Qed.

Lemma clusters_id w k c : clusters w !! k = Some c -> cl_ID c = k.
Proof. exact (rows_id (w_clusters w) k c). Qed.

Lemma first_result p w r :
  (on_centrals (db_first p) w).2 = Ok r -> centrals w !! cr_ID r = Some r /\ p r = true.
Proof. rewrite on_centrals_result. exact (first_ok p (w_centrals w) r). Qed.

Lemma first_none p w :
  (on_centrals (db_first p) w).2 = Err ErrRecordNotFound ->
  forall k r, centrals w !! k = Some r -> p r = false.
Proof. rewrite on_centrals_result. exact (first_missing p (w_centrals w)). Qed.

Lemma count_result p w n :
  (on_centrals (db_count p) w).2 = Ok n -> n = Z.of_nat (size (matching p (centrals w))).
Proof. rewrite on_centrals_result. exact (count_ok p (w_centrals w) n). Qed.

Lemma find_result p w l r :
  (on_centrals (db_find p) w).2 = Ok l -> r ∈ l -> centrals w !! cr_ID r = Some r /\ p r = true.
Proof. rewrite on_centrals_result. exact (find_elem p (w_centrals w) l r). Qed.

Lemma find_nodup p w l : (on_centrals (db_find p) w).2 = Ok l -> NoDup (cr_ID <$> l).
Proof.
  rewrite on_centrals_result. intros Hl. apply find_ok in Hl.
  rewrite (fmap_Permutation cr_ID _ _ Hl), <- list_fmap_compose.
  assert ((cr_ID ∘ snd <$> map_to_list (matching p (centrals w))) = (map_to_list (matching p (centrals w))).*1)
    as E; [|unfold centrals in E; rewrite E; apply NoDup_fst_map_to_list].
  apply list_fmap_ext. intros i [k r] Hi. simpl. apply list_elem_of_lookup_2, elem_of_map_to_list in Hi.
  apply matching_lookup in Hi as [Hi _]. by apply (centrals_id w).
Qed.

Lemma page_result p cols o n w l r :
  (on_centrals (db_page p cols o n) w).2 = Ok l -> r ∈ l ->
  centrals w !! cr_ID r = Some r /\ p r = true.
Proof.
  rewrite on_centrals_result. intros Hl Hr.
  destruct (page_elem _ _ _ _ _ _ _ Hl Hr) as (k & [Hk Hp]%matching_lookup).
  by rewrite (centrals_id w k r Hk).
Qed.

Lemma update_result p f w n :
  (forall r, cr_ID (f r) = cr_ID r) ->
  (on_centrals (db_update p f) w).2 = Ok n ->
  n = Z.of_nat (size (matching p (centrals w))) /\
  exists t, centrals (on_centrals (db_update p f) w).1 = updated t p f (centrals w).
Proof.
  intros Hid. rewrite on_centrals_result. intros Hn.
  assert (forall r, row_id (f r) = row_id r) as Hid' by exact Hid.
  destruct (update_ok p f (w_centrals w) n Hid' Hn) as (-> & [t Ht] & _).
  split; [done|]. exists t. unfold centrals at 1. by rewrite on_centrals_table.
Qed.

Lemma update_failed p f w e :
  (on_centrals (db_update p f) w).2 = Err e -> centrals (on_centrals (db_update p f) w).1 = centrals w.
Proof.
  rewrite on_centrals_result. intros He. unfold centrals. rewrite on_centrals_table.
  apply (update_err p f _ e He).
Qed.

Lemma clusters_update_result p f w n :
  (forall r, cl_ID (f r) = cl_ID r) ->
  (on_clusters (db_update p f) w).2 = Ok n ->
  exists t, clusters (on_clusters (db_update p f) w).1 = updated t p f (clusters w).
Proof.
  intros Hid Hn. destruct (on_clusters_run (db_update p f) w) as (Hr & _ & Hres). rewrite Hres in Hn.
  assert (forall r, row_id (f r) = row_id r) as Hid' by exact Hid.
  destruct (update_ok p f (w_clusters w) n Hid' Hn) as (_ & [t Ht] & _). exists t. by rewrite Hr.
Qed.

Lemma create_result r w r' :
  (on_centrals (db_create r) w).2 = Ok r' ->
  centrals w !! cr_ID r = None /\ (exists t, r' = stamp_created t r) /\
  centrals (on_centrals (db_create r) w).1 = <[cr_ID r := r']> (centrals w).
Proof.
  rewrite on_centrals_result. intros Hr.
  destruct (create_ok r (w_centrals w) r' Hr) as (Hn & _ & Ht & Hrows & _).
  split_and!; [done|done|]. unfold centrals. by rewrite on_centrals_table.
Qed.

Lemma create_failed r w e :
  (on_centrals (db_create r) w).2 = Err e -> centrals (on_centrals (db_create r) w).1 = centrals w.
Proof.
  rewrite on_centrals_result. intros He. unfold centrals. rewrite on_centrals_table.
  apply (create_err r _ e He).
Qed.
End results.

(** A program runs, then another, on rows the first has not changed. *)
Lemma bind_frame `{Platform} {A B} (m : prog world A) (k : A -> prog world B) w (P : world * B -> Prop) :
  preserves (on_rows eq) m ->
  (forall w1, centrals w1 = centrals w -> P (k (m w).2 w1)) -> P ((m ≫= k) w).
Proof. intros Hm Hk. rewrite prog_bind_run. apply Hk, rows_eq, Hm. Qed.

Lemma bind_frame2 `{Platform} {A B} (m : prog world A) (k : A -> prog world B) w (P : world * B -> Prop) :
  preserves (on_rows eq) m -> preserves same_clusters m ->
  (forall w1, centrals w1 = centrals w -> clusters w1 = clusters w -> P (k (m w).2 w1)) -> P ((m ≫= k) w).
Proof. intros Hm Hm' Hk. rewrite prog_bind_run. apply Hk; [apply rows_eq, Hm|apply Hm']. Qed.

Lemma rows_eq_any `{Platform} Q `{!PreOrder Q} w w' : on_rows eq w w' -> on_rows Q w w'.
Proof. intros He k. rewrite (He k). reflexivity. Qed.

(** Two parts of a run, each related by [Q]. *)
Lemma bind_rows `{Platform} {A B} Q `{!PreOrder Q} (m : prog world A) (k : A -> prog world B) w :
  on_rows Q w (m w).1 -> (on_rows Q w (m w).1 -> on_rows Q (m w).1 (k (m w).2 (m w).1).1) ->
  on_rows Q w ((m ≫= k) w).1.
Proof. intros Hm Hk. rewrite prog_bind_run. etransitivity; [apply Hm|by apply Hk]. Qed.

(** The first part leaves the rows alone, so what holds of them still holds. *)
Lemma bind_read `{Platform} {A B} Q `{!PreOrder Q} (m : prog world A) (k : A -> prog world B) w :
  preserves (on_rows eq) m -> (forall w1, centrals w1 = centrals w -> on_rows Q w1 (k (m w).2 w1).1) ->
  on_rows Q w ((m ≫= k) w).1.
Proof.
  intros Hm Hk. apply bind_rows; [done|by apply rows_eq_any|]. intros _. apply Hk, rows_eq, Hm.
Qed.

(** A fact about the value a program returns. *)
Definition returns {W A} (P : A -> Prop) (m : prog W A) : Prop := forall w, P (m w).2.

Lemma returns_ret {W A} (P : A -> Prop) a : P a -> returns (W := W) P (mret a).
Proof. by intros Ha w. Qed.

Lemma returns_bind {W A B} (P : B -> Prop) (m : prog W A) k : (forall a, returns P (k a)) -> returns P (m ≫= k).
Proof. intros Hk w. rewrite prog_bind_run. apply Hk. Qed.

Ltac returns_tac :=
  cbv zeta; repeat lazymatch goal with
  | |- returns _ (mret _) => apply returns_ret
  | |- returns _ (mbind _ _) => apply returns_bind; intros ?
  | |- returns _ (match ?x with _ => _ end) => destruct x eqn:?
  | |- returns _ (let '_ := ?x in _) => destruct x eqn:?
  end.

(** [preserves_tac] proves [preserves R m] by following the structure of [m]. *)
Ltac preserves_step :=
  lazymatch goal with
  | |- preserves _ (mret _) => apply preserves_ret; typeclasses eauto
  | |- preserves _ (mbind _ _) => apply preserves_bind; [typeclasses eauto| |intros ?]
  | |- preserves _ (forM_errs _ _) => apply preserves_forM; [typeclasses eauto|intros ?]
  | |- preserves _ (match ?x with _ => _ end) => destruct x
  | |- preserves _ (let '_ := ?x in _) => destruct x
  end.

#[export] Hint Resolve rows_on_clusters rows_on_ext rows_emit rows_emit_times rows_now rows_fresh_id
  rows_find rows_find_by rows_page rows_group rows_first rows_count
  kept_on_centrals kept_on_ext kept_emit kept_emit_times kept_now kept_fresh_id : fleet.

Ltac preserves_tac :=
  repeat (first [solve [eauto with fleet typeclass_instances] | preserves_step | progress cbv zeta]).

(** The same for a program that leaves the clusters alone. *)
Ltac kept_tac :=
  match goal with |- clusters (?m _).1 = _ =>
    let Hm := fresh in assert (preserves same_clusters m) as Hm;
    [unfold UpdateClusterStatusSinceCreatedMetric, since; preserves_tac|apply Hm]
  end.

(** One run instead of all of them. *)
Ltac rows_tac :=
  match goal with |- on_rows ?Q _ (?m _).1 =>
    let Hm := fresh in assert (preserves (on_rows Q) m) as Hm; [preserves_tac|apply Hm]
  end.

(** ** Changes to one row *)

(** [at_row id Q]: [Q] relates the states of the key [id], and no other key changes. *)
Definition at_row `{Platform} (id : string) (Q : relation (rowstate CentralRequest)) : relation world :=
  fun w w' => Q (central_state w id) (central_state w' id) /\
    forall k, k <> id -> central_state w' k = central_state w k.

#[export] Instance at_row_preorder `{Platform} id Q `{!PreOrder Q} : PreOrder (at_row id Q).
Proof.
  split.
  - intros w. split; [reflexivity|done].
  - intros w1 w2 w3 [H1 H2] [H3 H4]. split; [by etransitivity|]. intros k Hk. rewrite H4, H2; done.
Qed.

Section at_row.
Context `{PlatformLaws} (id : string) (Q : relation (rowstate CentralRequest)) `{!PreOrder Q}.

Lemma at_row_rows w w' : at_row id Q w w' -> on_rows Q w w'.
Proof.
  intros [H1 H2] k. destruct (decide (k = id)) as [->|Hk]; [done|]. rewrite (H2 k Hk). reflexivity.
Qed.

Lemma at_row_same w w' : on_rows eq w w' -> at_row id Q w w'.
Proof. intros He. split; [rewrite (He id); reflexivity|]. intros k _. by rewrite (He k). Qed.

Lemma at_row_other w w' k r :
  at_row id Q w w' -> k <> id -> centrals w !! k = Some r -> centrals w' !! k = Some r.
Proof. intros [_ Hat] Hk. rewrite <- !central_state_live. by rewrite (Hat k Hk). Qed.

(** An UPDATE that selects the row [id] only. *)
Lemma at_row_update p f w :
  (forall r, cr_ID (f r) = cr_ID r) -> (forall r, p r = true -> cr_ID r = id) ->
  (forall r t, centrals w !! id = Some r -> p r = true -> Q (Live r) (Live (set_UpdatedAt t (f r)))) ->
  at_row id Q w (on_centrals (db_update p f) w).1.
Proof.
  intros Hf Hp Hq.
  pose (R (o o' : rowstate CentralRequest) := o' = o \/ exists r r', o = Live r /\ o' = Live r' /\
    cr_ID r = id /\ cr_ID r' = id /\ Q o o').
  assert (PreOrder R) as HR.
  { split; [by left|]. intros o1 o2 o3 [->|(r & r' & -> & -> & ? & ? & Hq1)]; [done|].
    intros [->|(? & r'' & [= <-] & -> & ? & ? & Hq2)]; right; [eauto 10|].
    exists r, r''. split_and!; try done. by etransitivity. }
  assert (on_rows R w (on_centrals (db_update p f) w).1) as Hr.
  { apply rows_update_at; [done..|]. intros k r t Hk Hpr. right. pose proof (Hp r Hpr) as Hid.
    assert (k = id) as -> by (by rewrite <- Hid, (centrals_id w k r Hk)).
    eexists _, _. split_and!; [done|done|done| |by apply Hq]. by rewrite <- Hid, <- (Hf r). }
  split.
  - destruct (Hr id) as [->|(? & ? & _ & _ & _ & _ & ?)]; [reflexivity|done].
  - intros k Hk. destruct (Hr k) as [->|(r & ? & E & _ & Hid & _)]; [done|].
    apply central_state_live, centrals_id in E. congruence.
Qed.

(** Composition. *)
Lemma bind_at {A B} (m : prog world A) (k : A -> prog world B) w :
  at_row id Q w (m w).1 -> (at_row id Q w (m w).1 -> at_row id Q (m w).1 (k (m w).2 (m w).1).1) ->
  at_row id Q w ((m ≫= k) w).1.
Proof. intros Hm Hk. rewrite prog_bind_run. etransitivity; [apply Hm|by apply Hk]. Qed.

Lemma bind_at_read {A B} (m : prog world A) (k : A -> prog world B) w :
  preserves (on_rows eq) m -> (forall w1, centrals w1 = centrals w -> at_row id Q w1 (k (m w).2 w1).1) ->
  at_row id Q w ((m ≫= k) w).1.
Proof. intros Hm Hk. apply bind_at; [apply at_row_same, Hm|intros _]. apply Hk, rows_eq, Hm. Qed.
End at_row.

(** A program that only reads the centrals table. *)
Ltac at_tac :=
  match goal with |- at_row _ _ _ (?m _).1 =>
    let Hm := fresh in assert (preserves (on_rows eq) m) as Hm; [preserves_tac|apply at_row_same; [typeclasses eauto|apply Hm]]
  end.

(** A loop that handles each row at most once, with a body that changes its own
    row only. *)
Section row_loop.
Context `{PlatformLaws} (Q : relation (rowstate CentralRequest)) `{!PreOrder Q}.

Lemma forM_rows {E} (l : list CentralRequest) (f : CentralRequest -> prog world (option E)) w :
  NoDup (cr_ID <$> l) -> (forall r, r ∈ l -> centrals w !! cr_ID r = Some r) ->
  (forall r w1, r ∈ l -> centrals w1 !! cr_ID r = Some r -> at_row (cr_ID r) Q w1 (f r w1).1) ->
  on_rows Q w (forM_errs l f w).1.
Proof.
  revert w. induction l as [|r l IH]; intros w Hnd Hin Hf; [reflexivity|]. simpl.
  rewrite fmap_cons, NoDup_cons in Hnd. destruct Hnd as [Hr Hnd].
  pose proof (Hf r w ltac:(by left) (Hin r ltac:(by left))) as Hat.
  apply bind_rows; [done|by eapply at_row_rows|intros _]. apply bind_rows; [done| |intros _; reflexivity].
  apply IH; [done| |intros r' w1 Hr'; apply Hf; by right]. intros r' Hr'.
  apply (at_row_other (cr_ID r) Q w); [done| |apply Hin; by right].
  intros E'. apply Hr. rewrite <- E'. by apply list_elem_of_fmap_2.
Qed.
End row_loop.
