(* ===== verification/ClusterRows.v ===== *)
(** * Reasoning about the clusters table

    The counterpart for clusters of the rules of World.v: the state of a key,
    relations on states lifted to worlds, and their preservation by statements. *)

From S2P Require Import Prelude GoString GoFmt ServiceErrors CentralRequest Store Versions ClusterTypes World.
Local Open Scope string_scope.
Local Open Scope Z_scope.

Definition cluster_state `{Platform} (w : world) (k : string) : rowstate Cluster := state_of (w_clusters w) k.

(** [on_crows Q] relates two worlds when [Q] relates the state of every key of the
    clusters table before and after. *)
Definition on_crows `{Platform} (Q : relation (rowstate Cluster)) : relation world :=
  fun w w' => forall k, Q (cluster_state w k) (cluster_state w' k).

#[export] Instance on_crows_preorder `{Platform} Q `{!PreOrder Q} : PreOrder (on_crows Q).
Proof.
  split.
  - intros w k. reflexivity.
  - intros w1 w2 w3 H12 H23 k. etransitivity; [apply H12|apply H23].
Qed.

Lemma cluster_state_live `{Platform} w k c : cluster_state w k = Live c <-> clusters w !! k = Some c.
Proof.
  unfold cluster_state, state_of, clusters. destruct (rows (w_clusters w) !! k) as [x|]; [naive_solver|].
  case_decide; naive_solver.
Qed.

Section crows_rules.
Context `{PlatformLaws} (Q : relation (rowstate Cluster)) `{!PreOrder Q}.

Lemma crows_same w w' : same_table (w_clusters w) (w_clusters w') -> on_crows Q w w'.
Proof. intros Hs k. unfold cluster_state. rewrite (same_state _ _ k Hs). reflexivity. Qed.

Lemma crows_unchanged w w' : w_clusters w' = w_clusters w -> on_crows Q w w'.
Proof. intros Heq. apply crows_same. by rewrite Heq. Qed.

Lemma crows_on_centrals {A} (m : prog centrals_table A) : preserves (on_crows Q) (on_centrals m).
Proof. intros w. apply crows_unchanged. unfold on_centrals. by destruct (m (w_centrals w)). Qed.

Lemma crows_on_ext {A} (m : prog externals A) : preserves (on_crows Q) (on_ext m).
Proof. intros w. apply crows_unchanged. unfold on_ext. by destruct (m (w_ext w)). Qed.

Lemma crows_emit e : preserves (on_crows Q) (emit e).
Proof. intros w. by apply crows_unchanged. Qed.

Lemma crows_emit_times n es : preserves (on_crows Q) (emit_times n es).
Proof.
  induction n as [|n IH]; [apply preserves_ret, _|]. intros w. simpl.
  etransitivity; [|apply IH]. by apply crows_unchanged.
Qed.

Lemma crows_now : preserves (on_crows Q) now.
Proof. apply crows_on_ext. Qed.

Lemma crows_fresh_id : preserves (on_crows Q) fresh_id.
Proof. apply crows_on_ext. Qed.

Lemma on_clusters_table {A} (m : prog clusters_table A) w :
  w_clusters (on_clusters m w).1 = (m (w_clusters w)).1.
Proof. unfold on_clusters. by destruct (m (w_clusters w)). Qed.

Lemma crows_read {A} (m : prog clusters_table A) :
  (forall t, same_table t (m t).1) -> preserves (on_crows Q) (on_clusters m).
Proof. intros Hm w. apply crows_same. rewrite on_clusters_table. apply Hm. Qed.

Lemma crows_find p : preserves (on_crows Q) (on_clusters (db_find p)).
Proof. apply crows_read, find_same. Qed.

Lemma crows_find_by p key : preserves (on_crows Q) (on_clusters (db_find_by p key)).
Proof. apply crows_read, find_by_same. Qed.

Lemma crows_group p key : preserves (on_crows Q) (on_clusters (db_group p key)).
Proof. apply crows_read, group_same. Qed.

Lemma crows_first p : preserves (on_crows Q) (on_clusters (db_first p)).
Proof. apply crows_read, first_same. Qed.

Lemma crows_count p : preserves (on_crows Q) (on_clusters (db_count p)).
Proof. apply crows_read, count_same. Qed.

(** The statements that write. *)
Lemma crow_update_at p f w k :
  (forall c, cl_ID (f c) = cl_ID c) ->
  (forall c t, clusters w !! k = Some c -> p c = true -> Q (Live c) (Live (set_cl_UpdatedAt t (f c)))) ->
  Q (cluster_state w k) (cluster_state (on_clusters (db_update p f) w).1 k).
Proof.
  intros Hid Hq. unfold cluster_state. rewrite on_clusters_table. apply update_state; [done..|].
  intros r t. apply Hq.
Qed.

Lemma crow_delete_at p w k :
  (forall c, clusters w !! k = Some c -> p c = true -> Q (Live c) Dead) ->
  Q (cluster_state w k) (cluster_state (on_clusters (db_delete p) w).1 k).
Proof.
  intros Hq. unfold cluster_state. rewrite on_clusters_table. apply delete_state; [done|]. intros r. apply Hq.
Qed.

Lemma crow_create_at c w k :
  (forall t, Q Absent (Live (stamp_created t c))) ->
  Q (cluster_state w k) (cluster_state (on_clusters (db_create c) w).1 k).
Proof. intros Hq. unfold cluster_state. rewrite on_clusters_table. by apply create_state. Qed.

(** Saving the struct of a live row. *)
Lemma crow_save_at c x w k :
  cl_ID c <> "" -> clusters w !! cl_ID c = Some x ->
  (k = cl_ID c -> forall t, Q (Live x) (Live (stamp_updated t c)) /\ Q (Live x) (Live (stamp_created t c))) ->
  Q (cluster_state w k) (cluster_state (on_clusters (db_save c) w).1 k).
Proof.
  intros Hne Hx Hq. unfold cluster_state. rewrite on_clusters_table.
  destruct ((db_save c (w_clusters w)).2) as [c'|e] eqn:E.
  - assert (cl_ID c ∉ dead (w_clusters w)) as Hd by exact (rows_alive _ _ _ Hx).
    assert (row_id c <> "") as Hne' by exact Hne.
    destruct (save_ok c (w_clusters w) c' Hne' Hd E) as ([t Ht] & Hr & Hdd).
    unfold state_of. rewrite Hr, Hdd. destruct (decide (k = cl_ID c)) as [->|Hk].
    + change (rows (w_clusters w) !! cl_ID c) with (clusters w !! cl_ID c). rewrite Hx.
      change (row_id c) with (cl_ID c). rewrite lookup_insert_eq. destruct Ht as [->| ->]; by apply Hq.
    + change (row_id c) with (cl_ID c). rewrite lookup_insert_ne by done. reflexivity.
  - rewrite (same_state _ _ k (save_err c _ e E)). reflexivity.
Qed.
End crows_rules.

#[export] Hint Resolve crows_on_centrals crows_on_ext crows_emit crows_emit_times crows_now crows_fresh_id
  crows_find crows_find_by crows_group crows_first crows_count : fleet.

(** A program that does not write the clusters table. *)
Ltac crows_tac :=
  match goal with |- on_crows ?Q _ (?m _).1 =>
    let Hm := fresh in assert (preserves (on_crows Q) m) as Hm; [preserves_tac|apply Hm]
  end.

Lemma crows_eq `{Platform} w w' : on_crows eq w w' -> clusters w' = clusters w.
Proof.
  intros He. apply map_eq. intros k. apply option_eq. intros r. rewrite <- !cluster_state_live. by rewrite (He k).
Qed.

Lemma crows_eq_any `{Platform} Q `{!PreOrder Q} w w' : on_crows eq w w' -> on_crows Q w w'.
Proof. intros He k. rewrite (He k). reflexivity. Qed.
