(* ===== verification/Effects.v ===== *)
(** * Programs that return errors

    Go's early return of an error as a bind, the rewriting of errors on their way
    up, weakest preconditions of one run, and the automation that proves that such
    programs preserve a relation between worlds. *)

From S2P Require Import Prelude World.

(** ** Programs that return errors *)

(** A result with its error rewritten, usually wrapped. *)
Definition with_err {S E E' A} (f : E -> E') (m : prog S (result E A)) : prog S (result E' A) :=
  r ← m; mret (match r with Ok a => Ok a | Err e => Err (f e) end).

(** [if err != nil { return ..., err }] *)
Definition try_bind {S E A B} (m : prog S (result E A)) (k : A -> prog S (result E B)) : prog S (result E B) :=
  r ← m; match r with Ok a => k a | Err e => mret (Err e) end.

Notation "x ←? m ; k" := (try_bind m (fun x => k))
  (at level 20, m at level 100, k at level 200, right associativity, only parsing) : stdpp_scope.

(** An operation that returns an error only. *)
Definition unit_result {S E} (m : prog S (option E)) : prog S (result E unit) :=
  r ← m; mret (match r with None => Ok tt | Some e => Err e end).

(** Reasoning about one run: what holds of the state and the answer it ends with. *)
Definition wp {S A} (m : prog S A) (Q : S -> A -> Prop) (s : S) : Prop := Q (m s).1 (m s).2.

Section wp.
Context {S : Type}.

Lemma wp_intro {A} (m : prog S A) Q s : Q (m s).1 (m s).2 -> wp m Q s.
Proof. done. Qed.

Lemma wp_ret {A} (a : A) (Q : S -> A -> Prop) s : Q s a -> wp (mret a) Q s.
Proof. done. Qed.

Lemma wp_mono {A} (m : prog S A) (Q Q' : S -> A -> Prop) s : wp m Q s -> (forall s' a, Q s' a -> Q' s' a) -> wp m Q' s.
Proof. intros Hm HQ. apply HQ, Hm. Qed.

Lemma wp_bind {A B} (m : prog S A) (k : A -> prog S B) Q s : wp m (fun s' a => wp (k a) Q s') s -> wp (m ≫= k) Q s.
Proof. unfold wp. by rewrite prog_bind_run. Qed.

Lemma wp_with_err {E E' A} (f : E -> E') (m : prog S (result E A)) Q s :
  wp m (fun s' r => Q s' (match r with Ok a => Ok a | Err e => Err (f e) end)) s -> wp (with_err f m) Q s.
Proof. intros Hm. apply wp_bind. exact Hm. Qed.

Lemma wp_try {E A B} (m : prog S (result E A)) (k : A -> prog S (result E B)) Q s :
  wp m (fun s' r => match r with Ok a => wp (k a) Q s' | Err e => Q s' (Err e) end) s -> wp (try_bind m k) Q s.
Proof. intros Hm. apply wp_bind. eapply wp_mono; [exact Hm|]. by intros s' [a|e]. Qed.

Lemma wp_unit_result {E} (m : prog S (option E)) (Q : S -> result E unit -> Prop) s :
  wp m (fun s' r => Q s' (match r with None => Ok tt | Some e => Err e end)) s -> wp (unit_result m) Q s.
Proof. intros Hm. apply wp_bind. exact Hm. Qed.

Lemma preserves_with_err {E E' A} (R : relation S) (f : E -> E') (m : prog S (result E A)) : preserves R m -> preserves R (with_err f m).
Proof. intros Hm s. unfold with_err. rewrite prog_bind_run. apply Hm. Qed.

Lemma preserves_unit_result {E} (R : relation S) (m : prog S (option E)) : preserves R m -> preserves R (unit_result m).
Proof. intros Hm s. unfold unit_result. rewrite prog_bind_run. apply Hm. Qed.

Lemma preserves_try {E A B} (R : relation S) `{!PreOrder R} (m : prog S (result E A)) (k : A -> prog S (result E B)) :
  preserves R m -> (forall a, preserves R (k a)) -> preserves R (try_bind m k).
Proof. intros Hm Hk. apply preserves_bind; [done|done|]. intros [a|e]; [apply Hk|by apply preserves_ret]. Qed.

Lemma preserves_weaken {A} (R R' : relation S) (m : prog S A) :
  (forall s s', R s s' -> R' s s') -> preserves R m -> preserves R' m.
Proof. intros HR Hm s. apply HR, Hm. Qed.
End wp.

(** [err_tac] proves [preserves R m] for programs that return errors. *)
Ltac err_step :=
  lazymatch goal with
  | |- preserves _ (with_err _ _) => apply preserves_with_err
  | |- preserves _ (unit_result _) => apply preserves_unit_result
  | |- preserves _ (try_bind _ _) => apply preserves_try; [typeclasses eauto| |intros ?]
  | |- _ => preserves_step
  end.

Ltac err_tac := repeat (first [solve [eauto with fleet typeclass_instances] | err_step | progress cbv zeta]).
