(* ===== verification/MemPlatform.v ===== *)
(** * A concrete platform

    In-memory tables and external services with fixed answers, on which the
    services can be run. *)

From S2P Require Import Prelude GoString GoFmt ServiceErrors CentralRequest Store Versions ClusterTypes ProviderTypes World.
Local Open Scope string_scope.
Local Open Scope Z_scope.

(** The clock, the identifiers to hand out, the answers of the services. *)
Record fake := mkFake {
  fk_clock : Z;
  fk_ids : list string;
  fk_org : result error (string * string);
  fk_costs : list QuotaCost;
  fk_accounts : list CloudAccount;
  fk_allowed : bool;
  fk_change : result error (option (option ChangeInfo));
  fk_delete_client : result (option Z * error) unit;
  fk_spec : result error ClusterSpec;
  fk_dns : result error string
}.

Definition fake_answer {A} (f : fake -> A) : prog fake A := fun x => (x, f x).

Definition unavailable {A} : prog fake (result error A) := fake_answer (fun _ => Err (EPlain "unavailable")).

#[export] Instance fake_externals : Externals fake := {|
  Now := fun x => (mkFake (fk_clock x + 1) (fk_ids x) (fk_org x) (fk_costs x) (fk_accounts x)
    (fk_allowed x) (fk_change x) (fk_delete_client x) (fk_spec x) (fk_dns x), fk_clock x);
  NewID := fun x => (mkFake (fk_clock x) (tail (fk_ids x)) (fk_org x) (fk_costs x) (fk_accounts x)
    (fk_allowed x) (fk_change x) (fk_delete_client x) (fk_spec x) (fk_dns x),
    match head (fk_ids x) with Some id => if bool_decide (id = "") then "id" else id | None => "id" end);
  GetOrganisationFromExternalID _ := fake_answer fk_org;
  GetQuotaCostsForProduct _ _ _ := fake_answer (fun x => Ok (fk_costs x));
  GetCustomerCloudAccounts _ _ := fake_answer (fun x => Ok (fk_accounts x));
  ClusterAuthorization _ := fake_answer (fun x => Ok (fk_allowed x, "subscription"));
  DeleteSubscription _ := fake_answer (fun _ => Ok tt);
  NewAWSClient _ := fake_answer (fun _ => Ok tt);
  ChangeResourceRecordSets _ _ := fake_answer fk_change;
  GetChange _ := unavailable;
  CreateAcsClient name _ _ := fake_answer (fun _ => Ok ("client-" +:+ name, "secret"));
  DeleteAcsClient _ := fake_answer fk_delete_client;
  provider_Create _ _ := fake_answer (fun x => Some <$> fk_spec x);
  provider_CheckClusterStatus _ _ := fake_answer fk_spec;
  provider_Delete _ _ := fake_answer (fun _ => Ok true);
  provider_GetClusterDNS _ _ := fake_answer fk_dns;
  provider_AddIdentityProvider _ _ _ := fake_answer (fun _ => Ok (Some (mkIdentityProviderInfo (Some (mkOpenID "idp" "" "" "" "")))));
  provider_ApplyResources _ _ resources := fake_answer (fun _ => Ok resources);
  provider_InstallDinosaurOperator _ _ := fake_answer (fun _ => Ok true);
  provider_InstallFleetshard _ _ _ := fake_answer (fun _ => Ok true);
  provider_GetComputeNodes _ _ := unavailable;
  provider_SetComputeNodes _ _ _ := unavailable;
  provider_ScaleUp _ _ _ := unavailable;
  provider_ScaleDown _ _ _ := unavailable
|}.

#[export] Instance fake_laws : ExternalsLaws fake.
Proof. split. intros x. simpl. destruct (head (fk_ids x)) as [id|]; [by case_bool_decide|done]. Qed.

#[export] Instance mem_platform : Platform := {|
  centrals_table := mem CentralRequest;
  clusters_table := mem Cluster;
  externals := fake
|}.

#[export] Instance mem_platform_laws : PlatformLaws.
Proof. split; typeclasses eauto. Qed.

Definition fake_default : fake :=
  mkFake 1000 ["aaa1"; "aaa2"; "aaa3"] (Ok ("org-1", "Acme"))
    [mkQuotaCost 5 0 [mkRelatedResource "standard" 1]] [] true
    (Ok (Some (Some (mkChangeInfo (Some "change") (Some "INSYNC"))))) (Ok tt)
    (Ok (mkClusterSpec "c1" "ext" ClusterProvisioned "" None)) (Ok "apps.example.com").

Definition keyed {R} `{Row R} (l : list R) : gmap string R :=
  list_to_map ((fun r => (row_id r, r)) <$> l).

(** A world with the given rows and no pending failure. *)
Definition mem_world (cs : list CentralRequest) (ks : list Cluster) : @world mem_platform :=
  @mkWorld mem_platform (mkMem (keyed cs) ∅ [] 1000) (mkMem (keyed ks) ∅ [] 1000) fake_default [].

(** A central with the fields the services look at. *)
Definition sample_central (id status owner org : string) : CentralRequest :=
  set_ID id (set_Status status (set_Owner owner (set_OrganisationID org
    (set_Region "us-east-1" (set_ClusterID "c1" (set_CloudProvider "aws"
      (set_CreatedAt 500 zero_CentralRequest))))))).

Definition ready_cluster (id clusterID : string) : Cluster :=
  set_cl_ID id (set_cl_ClusterID clusterID (set_cl_Status ClusterReady (set_cl_Region "us-east-1"
    (set_cl_CloudProvider "aws" (set_cl_Schedulable true
      (set_cl_SupportedInstanceType AllInstanceTypeSupport (set_cl_ClusterDNS "apps.example.com"
        zero_Cluster))))))).
