(* ===== verification/Config.v ===== *)
(** * Configuration

    [internal/dinosaur/pkg/config]: the configuration of centrals and the list of
    data plane clusters with their capacities; [pkg/quotamanagement]: the quota
    list.  Flags and files are read by libraries; the decoded values are the
    inputs here. *)

From S2P Require Import Prelude GoString GoFmt ServiceErrors CentralRequest Versions ClusterTypes.
Local Open Scope string_scope.
Local Open Scope Z_scope.

(** ** Centrals (config/central.go, central_lifespan.go, central_quota.go, central_request.go) *)

Definition AMSQuotaType : string := "ams".
Definition QuotaManagementListQuotaType : string := "quota-management-list".
Definition UndefinedQuotaType : string := "".

Record CentralConfig := mkCentralConfig {
  cc_EnableCentralExternalCertificate : bool;
  cc_CentralDomainName : string;
  cc_EnableDeletionOfExpiredCentral : bool;
  cc_CentralLifespanInHours : Z;
  cc_QuotaType : string;
  cc_AllowEvaluatorInstance : bool;
  cc_CentralIDPClientID : string;
  cc_CentralIDPClientSecret : string;
  cc_CentralIDPIssuer : string;
  cc_ExpirationTimeout : Z
}.

Definition HasStaticAuth (c : CentralConfig) : bool := bool_decide (cc_CentralIDPClientID c <> "").

(** ** Data plane clusters (config/dataplane_cluster_config.go) *)

Record ManualCluster := mkManualCluster {
  mc_Name : string;
  mc_ClusterID : string;
  mc_CloudProvider : string;
  mc_Region : string;
  mc_MultiAZ : bool;
  mc_Schedulable : bool;
  mc_CentralInstanceLimit : Z;
  mc_Status : string;
  mc_ProviderType : string;
  mc_ClusterDNS : string;
  mc_SupportedInstanceType : string;
  mc_AvailableCentralOperatorVersions : list CentralOperatorVersion
}.

(** The value [UnmarshalYAML] starts from: the fields the file does not set. *)
Definition manual_cluster_defaults : ManualCluster :=
  mkManualCluster "" "" "" "" false false 0 ClusterProvisioning ClusterProviderOCM ""
    AllInstanceTypeSupport [].

(** The checks and corrections [UnmarshalYAML] applies to the decoded value. *)
Definition ManualCluster_UnmarshalYAML (decoded : result error ManualCluster) : result error ManualCluster :=
  c ← decoded;
  let with_status st c := mkManualCluster (mc_Name c) (mc_ClusterID c) (mc_CloudProvider c)
    (mc_Region c) (mc_MultiAZ c) (mc_Schedulable c) (mc_CentralInstanceLimit c) st
    (mc_ProviderType c) (mc_ClusterDNS c) (mc_SupportedInstanceType c)
    (mc_AvailableCentralOperatorVersions c) in
  let with_support ty c := mkManualCluster (mc_Name c) (mc_ClusterID c) (mc_CloudProvider c)
    (mc_Region c) (mc_MultiAZ c) (mc_Schedulable c) (mc_CentralInstanceLimit c) (mc_Status c)
    (mc_ProviderType c) (mc_ClusterDNS c) ty (mc_AvailableCentralOperatorVersions c) in
  if bool_decide (mc_ClusterID c = "") then Err (EPlain "cluster_id is empty")
  else
    c ← (if bool_decide (mc_ProviderType c = ClusterProviderStandalone) then
           if bool_decide (mc_ClusterDNS c = "") then
             Err (ETraced (Sprintf "Standalone cluster with id %s does not have the cluster dns field provided"
               [VStr (mc_ClusterID c)]))
           else if bool_decide (mc_Name c = "") then
             Err (ETraced (Sprintf "Standalone cluster with id %s does not have the name field provided"
               [VStr (mc_ClusterID c)]))
           else if bool_decide (mc_Status c ∉ [ClusterProvisioning; ClusterProvisioned; ClusterReady])
           then Ok (with_status ClusterProvisioning c)
           else Ok c
         else Ok c);
    if bool_decide (mc_SupportedInstanceType c = "")
    then Ok (with_support AllInstanceTypeSupport c) else Ok c.

Record ClusterConfig := mkClusterConfig {
  clusterList : list ManualCluster;
  clusterConfigMap : gmap string ManualCluster
}.

Definition NewClusterConfig (clusters : list ManualCluster) : ClusterConfig :=
  mkClusterConfig clusters (foldl (fun m c => <[mc_ClusterID c := c]> m) ∅ clusters).

(** The sum is computed in Go's 64-bit [int]. *)
Definition GetCapacityForRegion (conf : ClusterConfig) (region : string) : Z :=
  foldl (fun capacity c =>
    if bool_decide (mc_Region c = region) then wrap64 (capacity + mc_CentralInstanceLimit c) else capacity)
    0 (clusterList conf).

Definition IsNumberOfDinosaurWithinClusterLimit (conf : ClusterConfig) (clusterID : string) (count : Z) : bool :=
  match clusterConfigMap conf !! clusterID with
  | Some c => (mc_CentralInstanceLimit c =? -1) || (count <=? mc_CentralInstanceLimit c)
  | None => true
  end.

Definition IsClusterSchedulable (conf : ClusterConfig) (clusterID : string) : bool :=
  match clusterConfigMap conf !! clusterID with Some c => mc_Schedulable c | None => true end.

Definition GetClusterSupportedInstanceType (conf : ClusterConfig) (clusterID : string) : string * bool :=
  match clusterConfigMap conf !! clusterID with
  | Some c => (mc_SupportedInstanceType c, true)
  | None => ("", false)
  end.

(** The order follows Go's map iteration, which is unspecified. *)
Definition ExcessClusters (conf : ClusterConfig) (clusterMap : gmap string Cluster) : list string :=
  (fun kc => cl_ClusterID kc.2) <$>
    filter (fun kc : string * Cluster => clusterConfigMap conf !! kc.1 = None) (map_to_list clusterMap).

Definition GetManualClusters (conf : ClusterConfig) : list ManualCluster := clusterList conf.

Definition MissingClusters (conf : ClusterConfig) (clusterMap : gmap string Cluster) : list ManualCluster :=
  filter (fun p => clusterMap !! mc_ClusterID p = None) (clusterList conf).

Definition ExistingClusters (conf : ClusterConfig) (clusterMap : gmap string Cluster) : list ManualCluster :=
  filter (fun p => clusterMap !! mc_ClusterID p <> None) (clusterList conf).

Definition ManualScaling : string := "manual".
Definition AutoScaling : string := "auto".
Definition NoScaling : string := "none".

Record DataplaneClusterConfig := mkDataplaneClusterConfig {
  dc_DataPlaneClusterScalingType : string;
  dc_ClusterConfig : ClusterConfig;
  dc_EnableReadyDataPlaneClustersReconcile : bool
}.

Definition IsDataPlaneManualScalingEnabled (c : DataplaneClusterConfig) : bool :=
  bool_decide (dc_DataPlaneClusterScalingType c = ManualScaling).
Definition IsDataPlaneAutoScalingEnabled (c : DataplaneClusterConfig) : bool :=
  bool_decide (dc_DataPlaneClusterScalingType c = AutoScaling).
Definition IsReadyDataPlaneClustersReconcileEnabled (c : DataplaneClusterConfig) : bool :=
  dc_EnableReadyDataPlaneClustersReconcile c.

(** ** The quota list (pkg/quotamanagement) *)

Record Account := mkAccount { acc_Username : string; acc_MaxAllowedInstances : Z }.

Record Organisation := mkOrganisation {
  org_ID : string; org_AnyUser : bool; org_MaxAllowedInstances : Z; org_RegisteredUsers : list Account
}.

Record QuotaManagementListConfig := mkQuotaList {
  ql_Organisations : list Organisation;
  ql_ServiceAccounts : list Account;
  ql_EnableInstanceLimitControl : bool;
  (** the package variable [MaxAllowedInstances], a flag *)
  ql_MaxAllowedInstances : Z
}.

(** [Account.GetMaxAllowedInstances] and [Organisation.GetMaxAllowedInstances] *)
Definition GetMaxAllowedInstances (default_max own : Z) : Z := if own <=? 0 then default_max else own.

Definition IsInstanceCountWithinLimit (default_max own count : Z) : bool :=
  count <? GetMaxAllowedInstances default_max own.

Definition GetByUsername (l : list Account) (username : string) : option Account :=
  snd <$> list_find (fun a => username = acc_Username a) l.

Definition GetByID (l : list Organisation) (id : string) : option Organisation :=
  snd <$> list_find (fun o => id = org_ID o) l.

Definition HasUsersRegistered (o : Organisation) : bool := (0 <? length (org_RegisteredUsers o))%nat.

Definition IsUserRegistered (o : Organisation) (username : string) : bool :=
  if negb (HasUsersRegistered o) then org_AnyUser o
  else bool_decide (is_Some (GetByUsername (org_RegisteredUsers o) username)).

Definition GetAllowedAccountByUsernameAndOrgID (c : QuotaManagementListConfig) (username orgID : string)
    : option Account :=
  let users := match GetByID (ql_Organisations c) orgID with
               | Some o => org_RegisteredUsers o | None => [] end in
  match GetByUsername users username with
  | Some u => Some u
  | None => GetByUsername (ql_ServiceAccounts c) username
  end.

(** ** Theorems *)

Lemma config_map_lookup clusters id c :
  clusterConfigMap (NewClusterConfig clusters) !! id = Some c -> c ∈ clusters /\ mc_ClusterID c = id.
Proof.
  simpl.
  assert (forall (m : gmap string ManualCluster),
    foldl (fun m c => <[mc_ClusterID c := c]> m) m clusters !! id = Some c ->
    (c ∈ clusters /\ mc_ClusterID c = id) \/ m !! id = Some c) as Hg.
  { induction clusters as [|a l IH]; intros m H; [by right|]. simpl in H.
    destruct (IH _ H) as [[Hc Hid]|Hm].
    - left. split; [by right|done].
    - apply lookup_insert_Some in Hm as [[Hid ->]|[_ Hm]]; [left; split; [by left|done]|by right]. }
  intros H. destruct (Hg _ H) as [?|Hm]; [done|]. by rewrite lookup_empty in Hm.
Qed.

Lemma config_map_none clusters id :
  clusterConfigMap (NewClusterConfig clusters) !! id = None <-> Forall (fun c => mc_ClusterID c <> id) clusters.
Proof.
  simpl.
  assert (forall (m : gmap string ManualCluster),
    foldl (fun m c => <[mc_ClusterID c := c]> m) m clusters !! id = None <->
    Forall (fun c => mc_ClusterID c <> id) clusters /\ m !! id = None) as Hg.
  { induction clusters as [|a l IH]; intros m; simpl; [naive_solver|].
    rewrite IH, Forall_cons, lookup_insert_None. naive_solver. }
  rewrite Hg. split; [naive_solver|]. intros H. split; [done|apply lookup_empty].
Qed.

Lemma ExcessClusters_spec configured clusterMap c :
  c ∈ ExcessClusters (NewClusterConfig configured) clusterMap <->
  exists id row, clusterMap !! id = Some row /\ cl_ClusterID row = c /\
    Forall (fun m => mc_ClusterID m <> id) configured.
Proof.
  unfold ExcessClusters. rewrite list_elem_of_fmap. split.
  - intros ([id row] & -> & Hin). apply list_elem_of_filter in Hin as [Hn Hin].
    apply elem_of_map_to_list in Hin. exists id, row. split_and!; [done..|]. by apply config_map_none.
  - intros (id & row & Hrow & <- & Hf). exists (id, row). split; [done|].
    apply list_elem_of_filter. split; [by apply config_map_none|by apply elem_of_map_to_list].
Qed.

(** Comparing the configured clusters with the clusters of the database splits
    both sides exactly: every configured cluster is either missing or existing,
    in configuration order, and a cluster of the database is in excess exactly
    when the configuration does not name it. *)
Lemma cluster_config_partition configured clusterMap c :
  let conf := NewClusterConfig configured in
  MissingClusters conf clusterMap ++ ExistingClusters conf clusterMap ≡ₚ GetManualClusters conf /\
  MissingClusters conf clusterMap `sublist_of` configured /\
  ExistingClusters conf clusterMap `sublist_of` configured /\
  (c ∈ ExcessClusters conf clusterMap <->
   exists id row, clusterMap !! id = Some row /\ cl_ClusterID row = c /\
     Forall (fun m => mc_ClusterID m <> id) configured).
Proof.
  intros conf. split_and!.
  - unfold MissingClusters, ExistingClusters, GetManualClusters. simpl.
    induction configured as [|m l IH]; [done|]. rewrite !filter_cons. simpl in *.
    repeat case_decide; try done; simpl.
    + by rewrite IH.
    + rewrite <- Permutation_middle. by rewrite IH.
  - apply sublist_filter.
  - apply sublist_filter.
  - apply ExcessClusters_spec.
Qed.

Definition region_limits (conf : ClusterConfig) (region : string) : list Z :=
  mc_CentralInstanceLimit <$> filter (fun c => mc_Region c = region) (clusterList conf).

Definition sum_list (l : list Z) : Z := foldr Z.add 0 l.

Lemma sum_list_nonneg l : Forall (Z.le 0) l -> 0 <= sum_list l.
Proof. induction 1; simpl; lia. Qed.

(** The capacity of a region is the sum of the limits of its clusters, as long
    as the limits are not negative and the sum fits in 63 bits. *)
Theorem GetCapacityForRegion_sum conf region :
  Forall (Z.le 0) (region_limits conf region) ->
  sum_list (region_limits conf region) < 2 ^ 63 ->
  GetCapacityForRegion conf region = sum_list (region_limits conf region).
Proof.
  unfold GetCapacityForRegion, region_limits. intros Hpos Hsum.
  assert (forall acc, 0 <= acc -> acc + sum_list (mc_CentralInstanceLimit <$>
      filter (fun c => mc_Region c = region) (clusterList conf)) < 2 ^ 63 ->
    foldl (fun capacity c => if bool_decide (mc_Region c = region)
      then wrap64 (capacity + mc_CentralInstanceLimit c) else capacity) acc (clusterList conf) =
    acc + sum_list (mc_CentralInstanceLimit <$>
      filter (fun c => mc_Region c = region) (clusterList conf))) as Hg; [|by rewrite Hg by lia].
  clear Hsum. revert Hpos. induction (clusterList conf) as [|c l IH]; intros Hpos acc Hacc Hsum; simpl.
  { lia. }
  rewrite filter_cons in *. case_bool_decide as E.
  - rewrite decide_True in * by done. rewrite fmap_cons in *. unfold sum_list in *. cbn [foldr] in *.
    inversion Hpos as [|? ? Hc Hl]; subst.
    pose proof (sum_list_nonneg _ Hl). unfold sum_list in *. rewrite wrap64_id by lia.
    rewrite IH; [lia|done|lia|lia].
  - rewrite decide_False in * by done. by apply IH.
Qed.

Definition eu_cluster (id : string) (limit : Z) : ManualCluster :=
  mkManualCluster "n" id "aws" "eu-west-1" true true limit ClusterReady ClusterProviderOCM ""
    AllInstanceTypeSupport [].

Lemma GetCapacityForRegion_sum_witness :
  GetCapacityForRegion (NewClusterConfig [eu_cluster "a" 5; eu_cluster "b" 7]) "eu-west-1" =
  sum_list (region_limits (NewClusterConfig [eu_cluster "a" 5; eu_cluster "b" 7]) "eu-west-1").
Proof.
  apply (GetCapacityForRegion_sum (NewClusterConfig [eu_cluster "a" 5; eu_cluster "b" 7]) "eu-west-1").
  - vm_compute. repeat constructor; discriminate.
  - vm_compute. reflexivity.
Defined.
