(* ===== verification/Providers.v ===== *)
(** * Cloud providers and regions (internal/dinosaur/pkg/config/providers.go)

    The configured cloud providers, their regions and the instance types of a
    region, the lookups the validators use, and the check of the configuration at
    start.  A lookup that returns a struct and a flag is an [option]; where the
    code goes on with the zero struct, the definitions do so too. *)

From S2P Require Import Prelude GoString GoFmt ServiceErrors CentralRequest.
Local Open Scope string_scope.
Local Open Scope Z_scope.

Record InstanceTypeConfig := mkInstanceTypeConfig { it_Limit : option Z }.

Definition InstanceTypeMap : Type := gmap string InstanceTypeConfig.

(** The order of the keys follows Go's map iteration, which is unspecified. *)
Definition AsSlice (itl : InstanceTypeMap) : list string := (map_to_list itl).*1.

Record Region := mkRegion {
  rg_Name : string; rg_Default : bool; rg_SupportedInstanceTypes : InstanceTypeMap
}.

Definition IsInstanceTypeSupported (r : Region) (instanceType : string) : bool :=
  existsb (fun k => bool_decide (k = instanceType)) (AsSlice (rg_SupportedInstanceTypes r)).

Definition zero_Region : Region := mkRegion "" false ∅.

Definition Region_GetByName (rl : list Region) (regionName : string) : option Region :=
  snd <$> list_find (fun r => rg_Name r = regionName) rl.

(** [fmt.Sprint] of a slice of strings *)
Definition Sprint_names (names : list string) : string := "[" +:+ Join " " names +:+ "]".

Definition RegionList_String (rl : list Region) : string := Sprint_names (rg_Name <$> rl).

Record Provider := mkProvider { pv_Name : string; pv_Default : bool; pv_Regions : list Region }.

Definition zero_Provider : Provider := mkProvider "" false [].

Definition Provider_GetByName (pl : list Provider) (providerName : string) : option Provider :=
  snd <$> list_find (fun p => pv_Name p = providerName) pl.

Definition ProviderList_String (pl : list Provider) : string := Sprint_names (pv_Name <$> pl).

(** [ProviderConfig], of which only the list of providers is read *)
Record ProviderConfig := mkProviderConfig { pc_SupportedProviders : list Provider }.

Definition count_defaults {A} (is_default : A -> bool) (l : list A) : Z :=
  foldl (fun n x => if is_default x then n + 1 else n) 0 l.

Definition Provider_Validate (provider : Provider) : option error :=
  let defaultCount := count_defaults rg_Default (pv_Regions provider) in
  if negb (defaultCount =? 1)
  then Some (EPlain (Sprintf "expected 1 default region in provider %s, got %d"
         [VStr (pv_Name provider); VInt defaultCount]))
  else None.

(** The loop returns at the first provider that is not valid. *)
Fixpoint validate_providers (pl : list Provider) (providerDefaultCount : Z) : result error Z :=
  match pl with
  | [] => Ok providerDefaultCount
  | p :: pl =>
      match Provider_Validate p with
      | Some err => Err err
      | None => validate_providers pl (if pv_Default p then providerDefaultCount + 1 else providerDefaultCount)
      end
  end.

Definition ProviderConfig_Validate (c : ProviderConfig) : option error :=
  match validate_providers (pc_SupportedProviders c) 0 with
  | Err err => Some err
  | Ok n =>
      if negb (n =? 1)
      then Some (EPlain (Sprintf "expected 1 default provider in provider list, got %d" [VInt n]))
      else None
  end.

Definition GetDefault (pl : list Provider) : result error Provider :=
  match list_find (fun p => pv_Default p = true) pl with
  | Some (_, p) => Ok p
  | None => Err (ETraced "no default provider found in list of supported providers")
  end.

Definition GetDefaultRegion (provider : Provider) : result error Region :=
  match list_find (fun r => rg_Default r = true) (pv_Regions provider) with
  | Some (_, r) => Ok r
  | None => Err (EPlain (Sprintf "no default region found for provider %s" [VStr (pv_Name provider)]))
  end.

Definition IsRegionSupported (provider : Provider) (regionName : string) : bool :=
  bool_decide (is_Some (Region_GetByName (pv_Regions provider) regionName)).

(** ** Facts *)

Lemma IsInstanceTypeSupported_spec r t :
  IsInstanceTypeSupported r t = true <-> is_Some (rg_SupportedInstanceTypes r !! t).
Proof.
  unfold IsInstanceTypeSupported, AsSlice. rewrite existsb_exists. split.
  - intros (k & Hk & Ht). case_bool_decide as E; [subst k|done].
    apply list_elem_of_In, list_elem_of_fmap in Hk as ([k c] & -> & Hk). apply elem_of_map_to_list in Hk. eauto.
  - intros [c Hc]. exists t. split; [|by apply bool_decide_eq_true].
    apply list_elem_of_In, list_elem_of_fmap. exists (t, c). split; [done|]. by apply elem_of_map_to_list.
Qed.

Lemma count_defaults_filter {A} (d : A -> bool) l :
  count_defaults d l = Z.of_nat (length (filter (fun x => d x = true) l)).
Proof.
  unfold count_defaults. rewrite <- (Z.add_0_l (Z.of_nat _)). generalize 0.
  induction l as [|x l IH]; intros n; simpl; [lia|]. rewrite IH, filter_cons.
  destruct (d x); simpl; lia.
Qed.

(** With one default element, the first default is the only one. *)
Lemma single_default {A} (d : A -> bool) l :
  count_defaults d l = 1 ->
  exists x, filter (fun x => d x = true) l = [x] /\ snd <$> list_find (fun x => d x = true) l = Some x.
Proof.
  rewrite count_defaults_filter. intros Hn.
  destruct (filter (fun x => d x = true) l) as [|x [|y k]] eqn:E; simpl in Hn; [lia| |lia].
  exists x. split; [done|].
  destruct (list_find (fun x => d x = true) l) as [[i y]|] eqn:F.
  - apply list_find_Some in F as (Hi & Hd & _). simpl. f_equal.
    assert (y ∈ filter (fun x => d x = true) l) as Hy.
    { apply list_elem_of_filter. split; [done|]. by eapply list_elem_of_lookup_2. }
    rewrite E in Hy. by apply list_elem_of_singleton in Hy.
  - apply list_find_None in F. rewrite Forall_forall in F.
    assert (x ∈ filter (fun x => d x = true) l) as Hx by (rewrite E; by left).
    apply list_elem_of_filter in Hx as [Hd Hx]. by destruct (F x Hx).
Qed.

Lemma validate_providers_ok pl n m :
  validate_providers pl n = Ok m ->
  m = n + count_defaults pv_Default pl /\ Forall (fun p => count_defaults rg_Default (pv_Regions p) = 1) pl.
Proof.
  revert n. induction pl as [|p pl IH]; intros n; simpl.
  { intros [= <-]. split; [unfold count_defaults; simpl; lia|constructor]. }
  unfold Provider_Validate. destruct (Z.eqb_spec (count_defaults rg_Default (pv_Regions p)) 1) as [E|]; [|done].
  simpl. intros Hv. apply IH in Hv as [-> Hall]. split; [|by constructor].
  rewrite !count_defaults_filter, filter_cons. destruct (pv_Default p); simpl; lia.
Qed.

Lemma Provider_GetByName_ok pl name p :
  Provider_GetByName pl name = Some p -> p ∈ pl /\ pv_Name p = name.
Proof.
  unfold Provider_GetByName. intros ([i q] & Hf & ->)%fmap_Some.
  apply list_find_Some in Hf as (Hi & Hn & _). split; [by eapply list_elem_of_lookup_2|done].
Qed.

Lemma Region_GetByName_ok rl name r : Region_GetByName rl name = Some r -> r ∈ rl /\ rg_Name r = name.
Proof.
  unfold Region_GetByName. intros ([i q] & Hf & ->)%fmap_Some.
  apply list_find_Some in Hf as (Hi & Hn & _). split; [by eapply list_elem_of_lookup_2|done].
Qed.

Lemma Region_GetByName_elem rl r : r ∈ rl -> is_Some (Region_GetByName rl (rg_Name r)).
Proof.
  intros Hr. unfold Region_GetByName. apply fmap_is_Some. apply (list_find_elem_of (fun x => rg_Name x = rg_Name r) rl r Hr). done.
Qed.

(** A validated configuration has defaults: the default provider and the default
    region of every provider exist and are the only ones. *)
Lemma validated_defaults c :
  ProviderConfig_Validate c = None ->
  (exists p, GetDefault (pc_SupportedProviders c) = Ok p /\
     filter (fun p => pv_Default p = true) (pc_SupportedProviders c) = [p]) /\
  forall p, p ∈ pc_SupportedProviders c ->
    exists r, GetDefaultRegion p = Ok r /\ filter (fun r => rg_Default r = true) (pv_Regions p) = [r].
Proof.
  unfold ProviderConfig_Validate. destruct (validate_providers _ 0) as [n|] eqn:E; [|done].
  apply validate_providers_ok in E as [-> Hall]. rewrite Z.add_0_l.
  destruct (Z.eqb_spec (count_defaults pv_Default (pc_SupportedProviders c)) 1) as [Hn|]; [|done]. intros _. split.
  - apply single_default in Hn as (p & Hf & Hp). exists p. split; [|done]. unfold GetDefault.
    apply fmap_Some in Hp as ([i q] & -> & ->). done.
  - intros p Hp. rewrite Forall_forall in Hall. apply Hall, single_default in Hp as (r & Hf & Hr).
    exists r. split; [|done]. unfold GetDefaultRegion. apply fmap_Some in Hr as ([i q] & -> & ->). done.
Qed.
