(* ===== verification/Resources.v ===== *)
(** * Compute resources and the specs of a central

    The resource requirements of Central and Scanner: the conversions between the
    API's maps of strings and Kubernetes quantities (converters/resourceutil.go),
    the defaults (internal/dinosaur/pkg/defaults), the specs stored as JSON with a
    central (dbapi/central_spec.go and the accessors of central_request_types.go)
    and their update by the admin API (handlers/admin_dinosaur.go).

    Quantities are those of k8s.io/apimachinery ([Quantities]); the JSON decoder of
    the specs is a parameter as well ([SpecCodec]): what it stores for a text, and
    its error, if any.  A nil map and an empty map are not told apart by the code
    and are both [∅].  A loop over a Go map runs in an unspecified order: the
    loops here take the entries as a list.

    The maps of the default specs are shared: [GetCentralSpec] copies the struct
    [DefaultCentralSpec], not its maps, and the JSON decoder adds the entries of an
    object to a map that exists already.  [Defaults] is that shared state. *)

From S2P Require Import Prelude GoString GoFmt ServiceErrors CentralRequest.
Local Open Scope string_scope.
Local Open Scope Z_scope.

(** ** Quantities and lists of resources *)

Class Quantities := {
  Quantity : Type;
  Quantity_eq_dec :: EqDecision Quantity;
  (** [resource.Quantity{}] *)
  zero_Quantity : Quantity;
  ParseQuantity : string -> result error Quantity;
  Quantity_String : Quantity -> string;
  (** [a.Cmp(b) == 0] *)
  Quantity_equiv :: Equiv Quantity
}.

(** Quantities are printed as text that parses to an equal quantity. *)
Class QuantityLaws `{Quantities} := {
  Quantity_equivalence :: Equivalence (≡@{Quantity});
  String_nonempty q : Quantity_String q <> "";
  Parse_String q : exists q', ParseQuantity (Quantity_String q) = Ok q' /\ q' ≡ q
}.

(** [corev1.ResourceList] *)
Abbreviation ResourceList := (gmap string Quantity).

Definition ResourceCPU : string := "cpu".
Definition ResourceMemory : string := "memory".

Definition supportedResources : list string := [ResourceCPU; ResourceMemory].

Definition ValidateResourceName (name : string) : option string :=
  snd <$> list_find (fun s => s = name) supportedResources.

(** The resource requirements of the API (public, private and admin). *)
Record ApiResources := mkApiResources { api_Requests : gmap string string; api_Limits : gmap string string }.

Record ScannerAnalyzerScaling := mkScaling {
  sa_AutoScaling : string; sa_Replicas : Z; sa_MinReplicas : Z; sa_MaxReplicas : Z
}.

Record ApiScannerSpec := mkApiScannerSpec {
  as_Analyzer : ApiResources; as_Scaling : ScannerAnalyzerScaling; as_Db : ApiResources
}.

Section resources.
Context `{Quantities}.

Record ResourceRequirements := mkResources { rs_Requests : ResourceList; rs_Limits : ResourceList }.

Definition qtyAsString (qty : Quantity) : string :=
  if bool_decide (qty = zero_Quantity) then "" else Quantity_String qty.

Definition convertCoreV1ResourceListToMap (v1Resources : ResourceList) : gmap string string :=
  omap (fun qty => if bool_decide (qtyAsString qty <> "") then Some (qtyAsString qty) else None) v1Resources.

Definition ConvertCoreV1ResourceRequirements (v1Resources : ResourceRequirements) : ApiResources :=
  mkApiResources (convertCoreV1ResourceListToMap (rs_Requests v1Resources))
    (convertCoreV1ResourceListToMap (rs_Limits v1Resources)).

(** The loop over the entries of the map; [acc] is the map built so far. *)
Fixpoint to_core_entries (entries : list (string * string)) (acc : ResourceList) : result error ResourceList :=
  match entries with
  | [] => Ok acc
  | (name, qty) :: entries =>
      if bool_decide (qty = "") then to_core_entries entries acc
      else match ParseQuantity qty with
           | Err err => Err (EPlain (Sprintf "parsing quantity %q for resource %s: %v"
               [VStr qty; VStr name; VStr (Error err)]))
           | Ok resourceQty => to_core_entries entries (<[name := resourceQty]> acc)
           end
  end.

Definition apiResourcesToCoreV1 (resources : gmap string string) : result error ResourceList :=
  to_core_entries (map_to_list resources) ∅.

Definition ConvertResourceRequirementsToCoreV1 (res : ApiResources) : result error ResourceRequirements :=
  match apiResourcesToCoreV1 (api_Requests res) with
  | Err err => Err err
  | Ok requests =>
      match apiResourcesToCoreV1 (api_Limits res) with
      | Err err => Err err
      | Ok limits => Ok (mkResources requests limits)
      end
  end.

(** ** Defaults (internal/dinosaur/pkg/defaults) *)

Record ComponentDefaults := mkComponentDefaults {
  cd_MemoryRequest : Quantity; cd_CPURequest : Quantity; cd_MemoryLimit : Quantity; cd_CPULimit : Quantity
}.

Definition default_resources (d : ComponentDefaults) : ResourceRequirements :=
  mkResources (<[ResourceCPU := cd_CPURequest d]> {[ResourceMemory := cd_MemoryRequest d]})
    (<[ResourceCPU := cd_CPULimit d]> {[ResourceMemory := cd_MemoryLimit d]}).

(** [defaults.Central], [defaults.Scanner.Analyzer] with its scaling and
    [defaults.Scanner.Db], read from the environment at start. *)
Record ServiceDefaults := mkServiceDefaults {
  sd_Central : ComponentDefaults; sd_Analyzer : ComponentDefaults;
  sd_Scaling : ScannerAnalyzerScaling; sd_Db : ComponentDefaults
}.

(** ** Specs *)

Record CentralSpec := mkCentralSpec { cs_Resources : ResourceRequirements }.

Record ScannerSpec := mkScannerSpec {
  ss_Analyzer : ResourceRequirements; ss_Scaling : ScannerAnalyzerScaling; ss_Db : ResourceRequirements
}.

(** The shared maps: [defaults.CentralResources], [ScannerAnalyzerResources] and
    [ScannerDbResources]. *)
Record Defaults := mkDefaults {
  df_Central : ResourceRequirements; df_Analyzer : ResourceRequirements; df_Db : ResourceRequirements
}.

Definition init_defaults (d : ServiceDefaults) : Defaults :=
  mkDefaults (default_resources (sd_Central d)) (default_resources (sd_Analyzer d)) (default_resources (sd_Db d)).

(** ** Decoding into an existing spec *)

(** A map in a document: missing, [null], or an object with its entries. *)
Inductive json_map := JAbsent | JNull | JObject (entries : ResourceList).

(** The decoder reuses a map that exists: the local variable, and the shared map it
    started as. *)
Definition decode_map (doc : json_map) (shared : ResourceList) : ResourceList * ResourceList :=
  match doc with
  | JAbsent => (shared, shared)
  | JNull => (∅, shared)
  | JObject entries => (entries ∪ shared, entries ∪ shared)
  end.

Record resources_doc := mkResourcesDoc { jd_Requests : json_map; jd_Limits : json_map }.

Definition decode_resources (doc : resources_doc) (shared : ResourceRequirements)
    : ResourceRequirements * ResourceRequirements :=
  let requests := decode_map (jd_Requests doc) (rs_Requests shared) in
  let limits := decode_map (jd_Limits doc) (rs_Limits shared) in
  (mkResources requests.1 limits.1, mkResources requests.2 limits.2).

Record scanner_doc := mkScannerDoc {
  js_Analyzer : resources_doc;
  js_AutoScaling : option string; js_Replicas : option Z; js_MinReplicas : option Z; js_MaxReplicas : option Z;
  js_Db : resources_doc
}.

Definition decode_scaling (doc : scanner_doc) (s : ScannerAnalyzerScaling) : ScannerAnalyzerScaling :=
  mkScaling (default (sa_AutoScaling s) (js_AutoScaling doc)) (default (sa_Replicas s) (js_Replicas doc))
    (default (sa_MinReplicas s) (js_MinReplicas doc)) (default (sa_MaxReplicas s) (js_MaxReplicas doc)).
End resources.

(** What the decoder stores for a text, with its error; and the encoders, for the
    specs as they are stored and as the public API has them. *)
Class SpecCodec `{Quantities} := {
  decode_CentralSpec : string -> resources_doc * option error;
  decode_ScannerSpec : string -> scanner_doc * option error;
  encode_CentralSpec : CentralSpec -> string;
  encode_ScannerSpec : ScannerSpec -> string;
  encode_payload_central : ApiResources -> string;
  encode_payload_scanner : ApiScannerSpec -> string
}.

Section specs.
Context `{SpecCodec} (service : ServiceDefaults).

(** [len(k.Central) > 0] *)
Definition stored_text (spec : option string) : option string :=
  match spec with Some t => if bool_decide (t = "") then None else Some t | None => None end.

Definition GetCentralSpec (k : CentralRequest) : prog Defaults (result error CentralSpec) := fun d =>
  match stored_text (cr_Central k) with
  | None => (d, Ok (mkCentralSpec (df_Central d)))
  | Some text =>
      let '(doc, failed) := decode_CentralSpec text in
      let '(local, shared) := decode_resources doc (df_Central d) in
      let d := mkDefaults shared (df_Analyzer d) (df_Db d) in
      match failed with
      | Some err => (d, Err (Errorf_w "unmarshalling CentralSpec" err))
      | None => (d, Ok (mkCentralSpec local))
      end
  end.

Definition GetScannerSpec (k : CentralRequest) : prog Defaults (result error ScannerSpec) := fun d =>
  match stored_text (cr_Scanner k) with
  | None => (d, Ok (mkScannerSpec (df_Analyzer d) (sd_Scaling service) (df_Db d)))
  | Some text =>
      let '(doc, failed) := decode_ScannerSpec text in
      let '(analyzer, shared_analyzer) := decode_resources (js_Analyzer doc) (df_Analyzer d) in
      let '(db, shared_db) := decode_resources (js_Db doc) (df_Db d) in
      let d := mkDefaults (df_Central d) shared_analyzer shared_db in
      match failed with
      | Some err => (d, Err (Errorf_w "unmarshalling ScannerSpec" err))
      | None => (d, Ok (mkScannerSpec analyzer (decode_scaling doc (sd_Scaling service)) db))
      end
  end.

Definition SetCentralSpec (spec : CentralSpec) (k : CentralRequest) : CentralRequest :=
  set_Central (Some (encode_CentralSpec spec)) k.

Definition SetScannerSpec (spec : ScannerSpec) (k : CentralRequest) : CentralRequest :=
  set_Scanner (Some (encode_ScannerSpec spec)) k.

(** ** Updates by the admin API *)

Fixpoint update_entries (to : ResourceList) (from : list (string * string)) : result error ResourceList :=
  match from with
  | [] => Ok to
  | (name, qty) :: from =>
      if bool_decide (qty = "") then update_entries to from
      else match ValidateResourceName name with
           | None => Err (EPlain (Sprintf "resource type %q is not supported" [VStr name]))
           | Some resourceName =>
               match ParseQuantity qty with
               | Err err => Err (Errorf_w (Sprintf "parsing %s quantity %q" [VStr resourceName; VStr qty]) err)
               | Ok resourceQty => update_entries (<[resourceName := resourceQty]> to) from
               end
           end
  end.

Definition updateResourcesList (to : ResourceList) (from : gmap string string) : result error ResourceList :=
  update_entries to (map_to_list from).

Definition updateCoreV1Resources (to : ResourceRequirements) (from : ApiResources) : result error ResourceRequirements :=
  match updateResourcesList (rs_Limits to) (api_Limits from) with
  | Err err => Err err
  | Ok limits =>
      match updateResourcesList (rs_Requests to) (api_Requests from) with
      | Err err => Err err
      | Ok requests => Ok (mkResources requests limits)
      end
  end.

Definition updateCentralFromPrivateAPI (c : CentralSpec) (api : ApiResources) : result error CentralSpec :=
  match updateCoreV1Resources (cs_Resources c) api with
  | Err err => Err (Errorf_w "updating resources within CentralSpec" err)
  | Ok resources => Ok (mkCentralSpec resources)
  end.

Definition updateScannerAnalyzerScaling (s api : ScannerAnalyzerScaling) : ScannerAnalyzerScaling :=
  mkScaling
    (if bool_decide (sa_AutoScaling api <> "") then sa_AutoScaling api else sa_AutoScaling s)
    (if 0 <? sa_Replicas api then sa_Replicas api else sa_Replicas s)
    (if 0 <? sa_MinReplicas api then sa_MinReplicas api else sa_MinReplicas s)
    (if 0 <? sa_MaxReplicas api then sa_MaxReplicas api else sa_MaxReplicas s).

Definition updateScannerFromPrivateAPI (s : ScannerSpec) (api : ApiScannerSpec) : result error ScannerSpec :=
  match updateCoreV1Resources (ss_Analyzer s) (as_Analyzer api) with
  | Err err => Err (Errorf_w "updating resources within ScannerSpec Analyzer" err)
  | Ok analyzer =>
      match updateCoreV1Resources (ss_Db s) (as_Db api) with
      | Err err => Err (Errorf_w "updating resources within ScannerSpec DB" err)
      | Ok db => Ok (mkScannerSpec analyzer (updateScannerAnalyzerScaling (ss_Scaling s) (as_Scaling api)) db)
      end
  end.

Definition ValidateScannerAnalyzerScaling (scaling : ScannerAnalyzerScaling) : option error :=
  let invalid msg args := Some (EPlain (Sprintf ("invalid scaling configuration: " +:+ msg) args)) in
  if negb (bool_decide (sa_AutoScaling scaling = "Enabled")) && negb (bool_decide (sa_AutoScaling scaling = "Disabled"))
  then invalid "unknown AutoScaling %q, must be 'Enabled' or 'Disabled'" [VStr (sa_AutoScaling scaling)]
  else if sa_MinReplicas scaling <=? 0
  then invalid "MinReplicas (%v) must be positive" [VInt (sa_MinReplicas scaling)]
  else if sa_Replicas scaling <=? 0
  then invalid "Replicas (%v) must be positive" [VInt (sa_Replicas scaling)]
  else if sa_MaxReplicas scaling <=? 0
  then invalid "MaxReplicas (%v) must be positive" [VInt (sa_MaxReplicas scaling)]
  else if sa_Replicas scaling <? sa_MinReplicas scaling
  then invalid "Replicas (%v) < MinReplicas (%v)" [VInt (sa_Replicas scaling); VInt (sa_MinReplicas scaling)]
  else if sa_MaxReplicas scaling <? sa_Replicas scaling
  then invalid "Replicas (%v) > MaxReplicas (%v)" [VInt (sa_Replicas scaling); VInt (sa_MaxReplicas scaling)]
  else None.

(** [private.CentralUpdateRequest] *)
Record CentralUpdateRequest := mkUpdateRequest {
  ur_CentralOperatorVersion : string; ur_CentralVersion : string;
  ur_Central : ApiResources; ur_Scanner : ApiScannerSpec
}.

(** The request pointer of the handlers is never nil. *)
Definition updateCentralRequest (update : CentralUpdateRequest) (request : CentralRequest)
    : prog Defaults (result error CentralRequest) :=
  rc ← GetCentralSpec request;
  match rc with
  | Err err => mret (Err (Errorf_w "retrieving CentralSpec from CentralRequest" err))
  | Ok centralSpec =>
  rs ← GetScannerSpec request;
  match rs with
  | Err err => mret (Err (Errorf_w "retrieving ScannerSpec from CentralRequest" err))
  | Ok scannerSpec =>
  match updateCentralFromPrivateAPI centralSpec (ur_Central update) with
  | Err err => mret (Err (Errorf_w "updating CentralSpec from CentralUpdateRequest" err))
  | Ok centralSpec =>
  match updateScannerFromPrivateAPI scannerSpec (ur_Scanner update) with
  | Err err => mret (Err (Errorf_w "updating ScannerSpec from CentralUpdateRequest" err))
  | Ok scannerSpec =>
  match ValidateScannerAnalyzerScaling (ss_Scaling scannerSpec) with
  | Some err => mret (Err err)
  | None =>
      mret (Ok (set_DesiredCentralVersion (ur_CentralVersion update)
        (SetScannerSpec scannerSpec (SetCentralSpec centralSpec request))))
  end end end end end.
End specs.

(** ** The loops over maps *)

Section loops.
Context `{Quantities}.

(** The entries of a map of the API that give a quantity. *)
Definition quantities (from : gmap string string) : ResourceList :=
  omap (fun qty => if bool_decide (qty = "") then None
                   else match ParseQuantity qty with Ok q => Some q | Err _ => None end) from.

(** Every entry that is not empty parses. *)
Definition parses (from : gmap string string) : Prop :=
  map_Forall (fun _ qty => qty <> "" -> is_Ok (ParseQuantity qty) = true) from.

Definition supported (from : gmap string string) : Prop :=
  map_Forall (fun name qty => qty <> "" -> name ∈ supportedResources) from.

Lemma ValidateResourceName_spec name name' :
  ValidateResourceName name = Some name' <-> name' = name /\ name ∈ supportedResources.
Proof.
  unfold ValidateResourceName. destruct (list_find _ _) as [[i s]|] eqn:E; simpl.
  - apply list_find_Some in E as (Hi & -> & _). apply list_elem_of_lookup_2 in Hi. naive_solver.
  - apply list_find_None in E. rewrite Forall_forall in E. split; [done|]. intros [-> Hin]. by destruct (E name Hin).
Qed.

(** A map seen from one of its entries. *)
Lemma quantities_insert from name qty to :
  from !! name = None ->
  quantities (<[name := qty]> from) ∪ to =
  quantities from ∪ (if bool_decide (qty = "") then to
                     else match ParseQuantity qty with Ok q => <[name := q]> to | Err _ => to end).
Proof.
  intros Hn. assert (quantities from !! name = None) as Hq.
  { unfold quantities. by rewrite lookup_omap, Hn. }
  unfold quantities at 1. case_bool_decide as E.
  - subst qty. rewrite omap_insert_None by done. by rewrite delete_id by done.
  - destruct (ParseQuantity qty) as [q|e] eqn:Ep.
    + rewrite (omap_insert_Some _ _ _ _ q) by (by rewrite bool_decide_eq_false_2, Ep). fold (quantities from).
      by rewrite <- insert_union_l, insert_union_r.
    + rewrite omap_insert_None by (by rewrite bool_decide_eq_false_2, Ep). fold (quantities from).
      by rewrite delete_id.
Qed.

Lemma parses_insert from name qty :
  from !! name = None ->
  parses (<[name := qty]> from) <-> (qty <> "" -> is_Ok (ParseQuantity qty) = true) /\ parses from.
Proof. intros Hn. unfold parses. by rewrite map_Forall_insert. Qed.

Lemma supported_insert from name qty :
  from !! name = None ->
  supported (<[name := qty]> from) <-> (qty <> "" -> name ∈ supportedResources) /\ supported from.
Proof. intros Hn. unfold supported. by rewrite map_Forall_insert. Qed.

Lemma to_core_entries_ok l acc r :
  NoDup l.*1 ->
  to_core_entries l acc = Ok r <->
  parses (list_to_map l) /\ r = quantities (list_to_map l) ∪ acc.
Proof.
  revert acc. induction l as [|[name qty] l IH]; intros acc Hnd; simpl.
  - unfold quantities. rewrite omap_empty, (left_id_L ∅ (∪)). split; [intros [= <-]|intros [_ ->]]; [|done].
    split; [apply map_Forall_empty|done].
  - apply NoDup_cons in Hnd as [Hn%not_elem_of_list_to_map_1 Hnd].
    rewrite (parses_insert _ _ _ Hn), quantities_insert by done. case_bool_decide as E.
    + rewrite IH by done. naive_solver.
    + destruct (ParseQuantity qty) as [q|e]; [rewrite IH by done; naive_solver|].
      split; [done|]. intros [[Hp _] _]. by specialize (Hp E).
Qed.

Lemma update_entries_ok l to r :
  NoDup l.*1 ->
  update_entries to l = Ok r <->
  (supported (list_to_map l) /\ parses (list_to_map l)) /\ r = quantities (list_to_map l) ∪ to.
Proof.
  revert to. induction l as [|[name qty] l IH]; intros to Hnd; simpl.
  - unfold quantities. rewrite omap_empty, (left_id_L ∅ (∪)). split; [intros [= <-]|intros [_ ->]]; [|done].
    split; [split; apply map_Forall_empty|done].
  - apply NoDup_cons in Hnd as [Hn%not_elem_of_list_to_map_1 Hnd].
    rewrite (parses_insert _ _ _ Hn), (supported_insert _ _ _ Hn), quantities_insert by done. case_bool_decide as E.
    + rewrite IH by done. naive_solver.
    + destruct (ValidateResourceName name) as [name'|] eqn:Ev.
      * apply ValidateResourceName_spec in Ev as [-> Hs].
        destruct (ParseQuantity qty) as [q|e]; [rewrite IH by done; naive_solver|].
        split; [done|]. intros [[_ [Hp _]] _]. by specialize (Hp E).
      * split; [done|]. intros [[[Hs _] _] _].
        assert (ValidateResourceName name = Some name) as Hv by (apply ValidateResourceName_spec; auto). congruence.
Qed.

(** The order of a loop does not matter for what it accepts and returns. *)
Lemma to_core_entries_order l from acc r :
  l ≡ₚ map_to_list from ->
  to_core_entries l acc = Ok r <-> parses from /\ r = quantities from ∪ acc.
Proof.
  intros Hl. assert (NoDup l.*1) as Hnd by (rewrite Hl; apply NoDup_fst_map_to_list).
  assert (list_to_map l = from) as E.
  { rewrite <- (list_to_map_to_list from). by apply list_to_map_proper. }
  by rewrite to_core_entries_ok, E.
Qed.

Lemma update_entries_order l from to r :
  l ≡ₚ map_to_list from ->
  update_entries to l = Ok r <-> (supported from /\ parses from) /\ r = quantities from ∪ to.
Proof.
  intros Hl. assert (NoDup l.*1) as Hnd by (rewrite Hl; apply NoDup_fst_map_to_list).
  assert (list_to_map l = from) as E.
  { rewrite <- (list_to_map_to_list from). by apply list_to_map_proper. }
  by rewrite update_entries_ok, E.
Qed.
End loops.

(** ** Round trip of the conversions *)

Section roundtrip.
Context `{QuantityLaws}.

Lemma convert_lookup (l : ResourceList) name :
  convertCoreV1ResourceListToMap l !! name =
  match l !! name with
  | Some q => if bool_decide (q = zero_Quantity) then None else Some (Quantity_String q)
  | None => None
  end.
Proof.
  unfold convertCoreV1ResourceListToMap. rewrite lookup_omap. destruct (l !! name) as [q|]; [|done]. simpl.
  unfold qtyAsString. destruct (bool_decide (q = zero_Quantity)); [done|].
  by rewrite bool_decide_eq_true_2 by apply String_nonempty.
Qed.

(** Resource lists survive the trip through the API: what a list of quantities
    is presented as converts back, in whatever order the map is walked, to the
    entries that are not the zero quantity, each with an equal quantity. *)
Theorem resources_roundtrip (l : ResourceList) entries :
  entries ≡ₚ map_to_list (convertCoreV1ResourceListToMap l) ->
  exists l', to_core_entries entries ∅ = Ok l' /\ l' ≡ filter (fun kv => kv.2 <> zero_Quantity) l.
Proof.
  intros He. exists (quantities (convertCoreV1ResourceListToMap l) ∪ ∅). split.
  - apply (to_core_entries_order _ _ _ _ He). split; [|done]. intros name qty. rewrite convert_lookup.
    destruct (l !! name) as [q|]; [|done]. case_bool_decide; [done|]. intros [= <-] _.
    by destruct (Parse_String q) as (q' & -> & _).
  - intros name. rewrite (right_id_L ∅ (∪)), map_lookup_filter. unfold quantities. rewrite lookup_omap, convert_lookup.
    destruct (l !! name) as [q|]; simpl; [|done]. case_bool_decide as E; simpl.
    + rewrite option_guard_False by auto. done.
    + rewrite option_guard_True by done. rewrite bool_decide_eq_false_2 by apply String_nonempty.
      destruct (Parse_String q) as (q' & -> & Hq). by constructor.
Qed.
End roundtrip.

(** ** The update of a central by the admin API *)

Section update.
Context `{SpecCodec} (service : ServiceDefaults).

(** The API's values over the stored ones. *)
Definition overlay (to : ResourceRequirements) (from : ApiResources) : ResourceRequirements :=
  mkResources (quantities (api_Requests from) ∪ rs_Requests to) (quantities (api_Limits from) ∪ rs_Limits to).

Definition admissible (from : ApiResources) : Prop :=
  (supported (api_Requests from) /\ parses (api_Requests from)) /\
  (supported (api_Limits from) /\ parses (api_Limits from)).

Lemma updateCoreV1Resources_ok to from r :
  updateCoreV1Resources to from = Ok r <-> admissible from /\ r = overlay to from.
Proof.
  unfold updateCoreV1Resources, updateResourcesList, admissible, overlay.
  destruct (update_entries (rs_Limits to) (map_to_list (api_Limits from))) as [limits|e] eqn:E1.
  - apply (update_entries_order _ (api_Limits from)) in E1 as [Hl ->]; [|done].
    destruct (update_entries (rs_Requests to) (map_to_list (api_Requests from))) as [requests|e] eqn:E2.
    + apply (update_entries_order _ (api_Requests from)) in E2 as [Hr ->]; [|done]. naive_solver.
    + split; [done|]. intros [[Hr _] _].
      assert (update_entries (rs_Requests to) (map_to_list (api_Requests from)) =
        Ok (quantities (api_Requests from) ∪ rs_Requests to)) as E by (by apply (update_entries_order _ (api_Requests from))).
      congruence.
  - split; [done|]. intros [[_ Hl] _].
    assert (update_entries (rs_Limits to) (map_to_list (api_Limits from)) =
      Ok (quantities (api_Limits from) ∪ rs_Limits to)) as E by (by apply (update_entries_order _ (api_Limits from))).
    congruence.
Qed.

Definition valid_scaling (s : ScannerAnalyzerScaling) : Prop :=
  sa_AutoScaling s ∈ ["Enabled"; "Disabled"] /\
  0 < sa_MinReplicas s /\ sa_MinReplicas s <= sa_Replicas s /\ sa_Replicas s <= sa_MaxReplicas s.

Lemma ValidateScannerAnalyzerScaling_ok s : ValidateScannerAnalyzerScaling s = None <-> valid_scaling s.
Proof.
  unfold ValidateScannerAnalyzerScaling, valid_scaling. rewrite !elem_of_cons, elem_of_nil.
  destruct (bool_decide_reflect (sa_AutoScaling s = "Enabled")) as [E1|E1];
    destruct (bool_decide_reflect (sa_AutoScaling s = "Disabled")) as [E2|E2]; simpl;
    repeat match goal with
    | |- context [?a <=? ?b] => destruct (Z.leb_spec a b)
    | |- context [?a <? ?b] => destruct (Z.ltb_spec a b)
    end; split; try done; intros; try lia; naive_solver lia.
Qed.

(** The specs an update leaves. *)
Definition updated_central (update : CentralUpdateRequest) (c : CentralSpec) : CentralSpec :=
  mkCentralSpec (overlay (cs_Resources c) (ur_Central update)).

Definition updated_scanner (update : CentralUpdateRequest) (s : ScannerSpec) : ScannerSpec :=
  mkScannerSpec (overlay (ss_Analyzer s) (as_Analyzer (ur_Scanner update)))
    (updateScannerAnalyzerScaling (ss_Scaling s) (as_Scaling (ur_Scanner update)))
    (overlay (ss_Db s) (as_Db (ur_Scanner update))).

Lemma updateCentralFromPrivateAPI_ok c api r :
  updateCentralFromPrivateAPI c api = Ok r <-> admissible api /\ r = mkCentralSpec (overlay (cs_Resources c) api).
Proof.
  unfold updateCentralFromPrivateAPI. pose proof (updateCoreV1Resources_ok (cs_Resources c) api) as Hu.
  destruct (updateCoreV1Resources _ _) as [x|e]; [destruct (proj1 (Hu x) eq_refl) as [Ha ->]; split; [by intros [= <-]|by intros [_ ->]]|].
  split; [done|]. intros [Ha _]. discriminate (proj2 (Hu (overlay (cs_Resources c) api)) (conj Ha eq_refl)).
Qed.

Lemma updateScannerFromPrivateAPI_ok s api r :
  updateScannerFromPrivateAPI s api = Ok r <->
  (admissible (as_Analyzer api) /\ admissible (as_Db api)) /\
  r = mkScannerSpec (overlay (ss_Analyzer s) (as_Analyzer api))
        (updateScannerAnalyzerScaling (ss_Scaling s) (as_Scaling api)) (overlay (ss_Db s) (as_Db api)).
Proof.
  unfold updateScannerFromPrivateAPI. pose proof (updateCoreV1Resources_ok (ss_Analyzer s) (as_Analyzer api)) as Hu.
  pose proof (updateCoreV1Resources_ok (ss_Db s) (as_Db api)) as Hv.
  destruct (updateCoreV1Resources (ss_Analyzer s) _) as [x|e].
  - destruct (updateCoreV1Resources (ss_Db s) _) as [y|e];
      [destruct (proj1 (Hu x) eq_refl) as [Ha ->]; destruct (proj1 (Hv y) eq_refl) as [Hb ->];
       split; [by intros [= <-]|by intros [_ ->]]|].
    split; [done|]. intros [[_ Ha] _]. discriminate (proj2 (Hv (overlay (ss_Db s) (as_Db api))) (conj Ha eq_refl)).
  - split; [done|]. intros [[Ha _] _]. discriminate (proj2 (Hu (overlay (ss_Analyzer s) (as_Analyzer api))) (conj Ha eq_refl)).
Qed.

(** An admin update is applied whole or not at all: when the stored specs are
    readable it succeeds exactly if every resource named is supported, every
    quantity parses and the resulting scaling is consistent; then the central gets
    the stored specs with the given values on top and the requested version, and
    no other field changes. *)
Theorem updateCentralRequest_spec update r d c s r' :
  (GetCentralSpec r d).2 = Ok c -> (GetScannerSpec service r (GetCentralSpec r d).1).2 = Ok s ->
  (updateCentralRequest service update r d).2 = Ok r' <->
  admissible (ur_Central update) /\ admissible (as_Analyzer (ur_Scanner update)) /\
  admissible (as_Db (ur_Scanner update)) /\ valid_scaling (ss_Scaling (updated_scanner update s)) /\
  r' = set_DesiredCentralVersion (ur_CentralVersion update)
         (set_Scanner (Some (encode_ScannerSpec (updated_scanner update s)))
           (set_Central (Some (encode_CentralSpec (updated_central update c))) r)).
Proof.
  intros Hc Hs. unfold updateCentralRequest. rewrite prog_bind_run, Hc, prog_bind_run, Hs.
  pose proof (updateCentralFromPrivateAPI_ok c (ur_Central update)) as Hu.
  pose proof (updateScannerFromPrivateAPI_ok s (ur_Scanner update)) as Hv.
  destruct (updateCentralFromPrivateAPI c _) as [c'|e].
  - destruct (proj1 (Hu c') eq_refl) as [Ha ->]. destruct (updateScannerFromPrivateAPI s _) as [s'|e].
    + destruct (proj1 (Hv s') eq_refl) as [[Hb Hd] ->]. fold (updated_scanner update s).
      pose proof (ValidateScannerAnalyzerScaling_ok (ss_Scaling (updated_scanner update s))) as Hw.
      destruct (ValidateScannerAnalyzerScaling _) as [e|]; simpl.
      * split; [done|]. intros (_ & _ & _ & Hx & _). by apply Hw in Hx.
      * unfold SetScannerSpec, SetCentralSpec. split.
        -- intros [= <-]. split_and!; try done. by apply Hw.
        -- by intros (_ & _ & _ & _ & ->).
    + split; [done|]. intros (_ & Hb & Hd & _). discriminate (proj2 (Hv (updated_scanner update s)) (conj (conj Hb Hd) eq_refl)).
  - split; [done|]. intros (Ha & _). discriminate (proj2 (Hu (updated_central update c)) (conj Ha eq_refl)).
Qed.

(** The default specs are shared: reading the stored spec of one central adds
    its quantities to the defaults of the process, and a central without a stored
    spec is then given the quantities of that other central. *)
Theorem GetCentralSpec_shares_defaults a b d text requests limits :
  stored_text (cr_Central a) = Some text ->
  decode_CentralSpec text = (mkResourcesDoc (JObject requests) (JObject limits), None) ->
  stored_text (cr_Central b) = None ->
  (GetCentralSpec b (GetCentralSpec a d).1).2 =
    Ok (mkCentralSpec (mkResources (requests ∪ rs_Requests (df_Central d)) (limits ∪ rs_Limits (df_Central d)))).
Proof. intros Ha Hd Hb. unfold GetCentralSpec. by rewrite Hb, Ha, Hd. Qed.
End update.

(** ** Concrete quantities: their text *)

Definition text_of (q : string) : string := if bool_decide (q = "") then "0" else q.

#[export] Instance text_quantities : Quantities := {|
  Quantity := string; zero_Quantity := "";
  ParseQuantity s := if bool_decide (s = "") then Err (EPlain "empty quantity") else Ok s;
  Quantity_String := text_of; Quantity_equiv := fun a b => text_of a = text_of b
|}.

#[export] Instance text_quantity_laws : QuantityLaws.
Proof.
  assert (forall q, text_of q <> "") as Hne by (intros q; unfold text_of; by case_bool_decide).
  split.
  - split; unfold equiv, Quantity_equiv; simpl; [by intros ?|by intros ? ?|intros ? ? ?; congruence].
  - exact Hne.
  - intros q. exists (text_of q). simpl. rewrite bool_decide_eq_false_2 by apply Hne. split; [done|].
    unfold equiv, Quantity_equiv. simpl. unfold text_of at 1. by rewrite bool_decide_eq_false_2 by apply Hne.
Qed.

Lemma resources_roundtrip_witness :
  let l : gmap string string := <["cpu" := "250m"]> {["memory" := ""]} in
  exists l', @to_core_entries text_quantities [("cpu", "250m")] ∅ = Ok l' /\
    l' ≡ filter (fun kv => kv.2 <> "") l.
Proof.
  exact (@resources_roundtrip text_quantities _ (<["cpu" := "250m"]> {["memory" := ""]}) [("cpu", "250m")]
    ltac:(apply (bool_decide_unpack _); vm_compute; exact I)).
Defined.

(** A codec that knows two texts: a stored spec with a CPU request, and the empty object. *)
#[export] Instance sample_codec : SpecCodec := {|
  decode_CentralSpec text :=
    if bool_decide (text = "{cpu}") then (mkResourcesDoc (JObject {["cpu" := "4"]}) (JObject {["cpu" := "8"]}), None)
    else (mkResourcesDoc JAbsent JAbsent, None);
  decode_ScannerSpec text :=
    (mkScannerDoc (mkResourcesDoc JAbsent JAbsent) None None None None (mkResourcesDoc JAbsent JAbsent), None);
  encode_CentralSpec c := "{" +:+ Join "," (map_to_list (rs_Requests (cs_Resources c))).*2 +:+ "}";
  encode_ScannerSpec s := "{" +:+ sa_AutoScaling (ss_Scaling s) +:+ "}";
  encode_payload_central r := "{" +:+ Join "," (map_to_list (api_Requests r)).*2 +:+ "}";
  encode_payload_scanner s := "{" +:+ sa_AutoScaling (as_Scaling s) +:+ "}"
|}.

Definition sample_component : ComponentDefaults := mkComponentDefaults "100M" "50m" "2500M" "250m".

Definition sample_defaults : ServiceDefaults :=
  mkServiceDefaults sample_component sample_component (mkScaling "Enabled" 1 1 3) sample_component.

Lemma GetCentralSpec_shares_defaults_witness :
  let a := set_Central (Some "{cpu}") zero_CentralRequest in
  let d := init_defaults sample_defaults in
  (GetCentralSpec zero_CentralRequest d).2 = Ok (mkCentralSpec (default_resources sample_component)) /\
  (GetCentralSpec zero_CentralRequest (GetCentralSpec a d).1).2 =
    Ok (mkCentralSpec (mkResources ({["cpu" := "4"]} ∪ rs_Requests (df_Central d)) ({["cpu" := "8"]} ∪ rs_Limits (df_Central d)))).
Proof.
  split; [reflexivity|].
  exact (GetCentralSpec_shares_defaults (set_Central (Some "{cpu}") zero_CentralRequest) zero_CentralRequest
    (init_defaults sample_defaults) "{cpu}" {["cpu" := "4"]} {["cpu" := "8"]} eq_refl eq_refl eq_refl).
Defined.

Definition sample_update : CentralUpdateRequest :=
  mkUpdateRequest "" "quay.io/rhacs-eng/main:4.0.0" (mkApiResources {["cpu" := "2"]} ∅)
    (mkApiScannerSpec (mkApiResources ∅ ∅) (mkScaling "" 2 0 5) (mkApiResources ∅ ∅)).

Lemma updateCentralRequest_spec_witness :
  let d := init_defaults sample_defaults in
  exists c s,
    (updateCentralRequest sample_defaults sample_update zero_CentralRequest d).2 =
      Ok (set_DesiredCentralVersion "quay.io/rhacs-eng/main:4.0.0"
           (set_Scanner (Some (encode_ScannerSpec (updated_scanner sample_update s)))
             (set_Central (Some (encode_CentralSpec (updated_central sample_update c))) zero_CentralRequest))) /\
    valid_scaling (ss_Scaling (updated_scanner sample_update s)).
Proof.
  exists (mkCentralSpec (default_resources sample_component)),
    (mkScannerSpec (default_resources sample_component) (mkScaling "Enabled" 1 1 3) (default_resources sample_component)).
  match goal with |- ?l = Ok ?r /\ _ => assert (l = Ok r) as E by (vm_compute; reflexivity) end.
  split; [exact E|].
  exact (proj1 (proj2 (proj2 (proj2 (proj1 (updateCentralRequest_spec sample_defaults sample_update zero_CentralRequest
    (init_defaults sample_defaults) _ _ _ eq_refl eq_refl) E))))).
Defined.
