(* ===== verification/ApiFramework.v ===== *)
(** * The HTTP handlers' framework and validators (pkg/handlers)

    [framework.go]: a handler decodes the body into a variable, runs its validators
    in order until one fails, performs its action and writes the answer.  A handler
    runs on a state of its own choice: the services' state together with the local
    variables that its closures share.  A [Validate] is a closure, run after the
    body has been decoded; what it reads through pointers it reads at that time.

    [validation.go] and [validation_builder.go]: the validators of values. *)

From S2P Require Import Prelude GoString GoFmt Regex ServiceErrors World.
Local Open Scope string_scope.
Local Open Scope Z_scope.

(** ** Handlers (framework.go) *)

(** What the client gets: an error, written with its HTTP code, or a body with a
    status; a panic aborts the connection. *)
Inductive response (R : Type) :=
| RError (e : ServiceError)
| RJson (status : Z) (body : R)
| RPanic.
Arguments RError {R}.
Arguments RJson {R}.
Arguments RPanic {R}.

Definition status_code {R} (r : response R) : option Z :=
  match r with RError e => Some (HTTPCode e) | RJson st _ => Some st | RPanic => None end.

Definition StatusOK : Z := 200.
Definition StatusAccepted : Z := 202.

Definition Validate (S : Type) : Type := prog S (option ServiceError).

Record HandlerConfig (S R : Type) := mkHandlerConfig {
  (** decoding the body into the variable [MarshalInto] points to, or its error *)
  hc_MarshalInto : option (prog S (option error));
  hc_Validate : list (Validate S);
  hc_Action : prog S (result ServiceError R)
}.
Arguments mkHandlerConfig {S R}.
Arguments hc_MarshalInto {S R}.
Arguments hc_Validate {S R}.
Arguments hc_Action {S R}.

Section framework.
Context {S R : Type}.

(** A closure that reads variables and changes none. *)
Definition reading {A} (f : S -> A) : prog S A := fun s => (s, f s).

Fixpoint run_validators (vs : list (Validate S)) : Validate S :=
  match vs with
  | [] => mret None
  | v :: vs =>
      r ← v;
      match r with Some err => mret (Some err) | None => run_validators vs end
  end.

Definition run_action (cfg : HandlerConfig S R) (httpStatus : Z) : prog S (response R) :=
  rv ← run_validators (hc_Validate cfg);
  match rv with
  | Some err => mret (RError err)
  | None =>
      ra ← hc_Action cfg;
      match ra with
      | Err serviceErr => mret (RError serviceErr)
      | Ok result => mret (RJson httpStatus result)
      end
  end.

Definition Handle (cfg : HandlerConfig S R) (httpStatus : Z) : prog S (response R) :=
  match hc_MarshalInto cfg with
  | None => run_action cfg httpStatus
  | Some decode =>
      rd ← decode;
      match rd with
      | Some err => mret (RError (MalformedRequest "Invalid request format: %s" [VStr (Error err)]))
      | None => run_action cfg httpStatus
      end
  end.

Definition HandleDelete (cfg : HandlerConfig S R) (httpStatus : Z) : prog S (response R) := run_action cfg httpStatus.
Definition HandleGet (cfg : HandlerConfig S R) : prog S (response R) := run_action cfg StatusOK.

(** For results that are not event streams; no handler returns one. *)
Definition HandleList (cfg : HandlerConfig S R) : prog S (response R) := run_action cfg StatusOK.

(** ** What a successful answer tells *)

(** The validators have passed, one after the other, from [s] to [s']. *)
Inductive validated : list (Validate S) -> S -> S -> Prop :=
| validated_nil s : validated [] s s
| validated_cons v vs s s' : (v s).2 = None -> validated vs (v s).1 s' -> validated (v :: vs) s s'.

Lemma run_validators_ok vs s :
  (run_validators vs s).2 = None <-> validated vs s (run_validators vs s).1.
Proof.
  revert s. induction vs as [|v vs IH]; intros s; simpl; [split; [by constructor|done]|].
  rewrite prog_bind_run. destruct ((v s).2) as [e|] eqn:E; simpl.
  - split; [done|]. inversion 1; congruence.
  - rewrite IH. split; [by constructor|by inversion 1].
Qed.

(** A handler answers with a body exactly when the body was decoded, all
    validators passed and the action succeeded. *)
Lemma run_action_ok cfg st s body :
  (run_action cfg st s).2 = RJson st body ->
  exists s1, validated (hc_Validate cfg) s s1 /\ (hc_Action cfg s1).2 = Ok body /\
    (run_action cfg st s).1 = (hc_Action cfg s1).1.
Proof.
  unfold run_action. rewrite prog_bind_run. pose proof (run_validators_ok (hc_Validate cfg) s) as Hv.
  destruct ((run_validators _ s).2) as [e|]; [done|]. rewrite prog_bind_run.
  set (s1 := (run_validators _ s).1) in *. destruct ((hc_Action cfg s1).2) as [b|e] eqn:E; [|done].
  intros [= <-]. exists s1. split_and!; [by apply Hv|done|done].
Qed.

Lemma run_action_plain decode action st s :
  run_action (mkHandlerConfig decode [] action) st s =
  ((action s).1, match (action s).2 with Ok b => RJson st b | Err e => RError e end).
Proof.
  unfold run_action. cbn [hc_Validate hc_Action run_validators]. rewrite prog_bind_run. cbn [mret prog_ret fst snd].
  rewrite prog_bind_run. by destruct ((action s).2).
Qed.

Lemma Handle_ok decode vs action st s body :
  (Handle (mkHandlerConfig (Some decode) vs action) st s).2 = RJson st body ->
  exists s1, (decode s).2 = None /\ validated vs (decode s).1 s1 /\ (action s1).2 = Ok body /\
    (Handle (mkHandlerConfig (Some decode) vs action) st s).1 = (action s1).1.
Proof.
  unfold Handle. cbn [hc_MarshalInto]. rewrite prog_bind_run. destruct ((decode s).2) as [e|]; [done|].
  intros (s1 & Hv & Ha & Hs)%run_action_ok. exists s1. by split_and!.
Qed.

Lemma run_validators_preserves (P : S -> S -> Prop) `{!PreOrder P} vs :
  Forall (preserves P) vs -> preserves P (run_validators vs).
Proof.
  intros Hvs. induction Hvs as [|v vs Hv Hvs IH]; simpl; [preserves_tac|]. apply preserves_bind; [apply _|done|].
  intros [e|]; [preserves_tac|done].
Qed.

(** Whatever a handler does, it does through its decoder, validators and action. *)
Lemma run_action_preserves (P : S -> S -> Prop) `{!PreOrder P} cfg st :
  Forall (preserves P) (hc_Validate cfg) -> preserves P (hc_Action cfg) -> preserves P (run_action cfg st).
Proof.
  intros Hvs Ha. pose proof (run_validators_preserves P _ Hvs) as Hv. unfold run_action. apply preserves_bind; [apply _|done|]. intros [e|]; [preserves_tac|].
  apply preserves_bind; [apply _|done|]. intros [b|e]; preserves_tac.
Qed.

(** The answers of a handler: a body with the status of the handler, when the
    validators passed and the action succeeded; otherwise an error, before the action
    or from it.  [P] is what decoding and validators respect. *)
Lemma run_action_cases (P : S -> S -> Prop) `{!PreOrder P} cfg st s :
  Forall (preserves P) (hc_Validate cfg) ->
  let out := run_action cfg st s in
  match out.2 with
  | RJson st' b => st' = st /\ exists s1, validated (hc_Validate cfg) s s1 /\ P s s1 /\ hc_Action cfg s1 = (out.1, Ok b)
  | RError e => P s out.1 \/ exists s1, P s s1 /\ hc_Action cfg s1 = (out.1, Err e)
  | RPanic => False
  end.
Proof.
  intros Hvs. pose proof (run_validators_preserves P _ Hvs s) as HP. pose proof (run_validators_ok (hc_Validate cfg) s) as Hv.
  unfold run_action. rewrite prog_bind_run. set (rv := run_validators (hc_Validate cfg) s) in *.
  destruct (rv.2) as [e|]; [by left|]. rewrite prog_bind_run.
  destruct (hc_Action cfg rv.1) as [s2 [b|e]] eqn:E; simpl.
  - split; [done|]. exists rv.1. split_and!; [by apply Hv|done|done].
  - right. exists rv.1. by split.
Qed.

(** Either the action is not reached, or it runs after what [P] allows. *)
Lemma run_action_through (P : S -> S -> Prop) `{!PreOrder P} cfg st s :
  Forall (preserves P) (hc_Validate cfg) ->
  P s (run_action cfg st s).1 \/ exists s1, P s s1 /\ (run_action cfg st s).1 = (hc_Action cfg s1).1.
Proof.
  intros Hvs. pose proof (run_action_cases P cfg st s Hvs) as Hc. cbv zeta in Hc.
  destruct ((run_action cfg st s).2); [|destruct Hc as [_ (s1 & _ & HP & E)]|done].
  - destruct Hc as [HP|(s1 & HP & E)]; [by left|right; exists s1; by rewrite E].
  - right. exists s1. by rewrite E.
Qed.

Lemma Handle_through (P : S -> S -> Prop) `{!PreOrder P} decode vs action st s :
  preserves P decode -> Forall (preserves P) vs ->
  let out := Handle (mkHandlerConfig (Some decode) vs action) st s in
  P s out.1 \/ exists s1, P s s1 /\ out.1 = (action s1).1.
Proof.
  intros Hd Hvs. cbv zeta. unfold Handle. cbn [hc_MarshalInto]. rewrite prog_bind_run. specialize (Hd s).
  destruct ((decode s).2); [by left|].
  destruct (run_action_through P (mkHandlerConfig (Some decode) vs action) st (decode s).1 Hvs) as [HP|(s1 & HP & E)].
  - left. by etransitivity.
  - right. exists s1. split; [by etransitivity|done].
Qed.

(** An answer that is an error comes before the action or from it. *)
Lemma run_action_refused cfg st s e :
  (run_validators (hc_Validate cfg) s).2 = Some e ->
  (run_action cfg st s).2 = RError e /\ (run_action cfg st s).1 = (run_validators (hc_Validate cfg) s).1.
Proof. intros He. unfold run_action. rewrite prog_bind_run, He. done. Qed.
End framework.

(** ** Validators of values (validation.go) *)

Definition MinRequiredFieldLength : Z := 1.
Definition MaxServiceAccountNameLength : Z := 50.
Definition MaxServiceAccountDescLength : Z := 255.
Definition MaxServiceAccountID : Z := 36.

Local Open Scope N_scope.

(** [[a-z]([-a-z0-9]*[a-z0-9])?] *)
Definition name_re : re :=
  RSeq (ROneOf [az]) (ROpt (RSeq (RStar (ROneOf [chr 45; az; digits])) (ROneOf [az; digits]))).
(** [[a-zA-Z0-9.,\-\s]*] *)
Definition desc_re : re :=
  RStar (ROneOf [az; AZ; digits; chr 46; chr 44; chr 45; chr 9; chr 10; chr 12; chr 13; chr 32]).
Definition hex_re : re := ROneOf [digits; (97, 102)].
Fixpoint RTimes (n : nat) (r : re) : re := match n with O => REps | S n => RSeq r (RTimes n r) end.
(** [[0-9a-f]{8}-[0-9a-f]{4}-[0-9a-f]{4}-[0-9a-f]{4}-[0-9a-f]{12}] *)
Definition uuid_re : re :=
  RSeq (RTimes 8 hex_re) (RSeq (RLit 45) (RSeq (RTimes 4 hex_re) (RSeq (RLit 45) (RSeq (RTimes 4 hex_re)
    (RSeq (RLit 45) (RSeq (RTimes 4 hex_re) (RSeq (RLit 45) (RTimes 12 hex_re)))))))).

Local Open Scope Z_scope.

Definition ValidServiceAccountNameRegexp : string := "^[a-z]([-a-z0-9]*[a-z0-9])?$".
Definition ValidServiceAccountDescRegexp : string := "^[a-zA-Z0-9.,\-\s]*$".
Definition ValidUUIDRegexp : string := "^[0-9a-f]{8}-[0-9a-f]{4}-[0-9a-f]{4}-[0-9a-f]{4}-[0-9a-f]{12}$".

(** [asyncParam] is the value of the query parameter [async]. *)
Definition ValidateAsyncEnabled (asyncParam : string) : option ServiceError :=
  if bool_decide (asyncParam <> "true") then Some SyncActionNotSupported else None.

Definition ValidateServiceAccountName (value field : string) : option ServiceError :=
  if negb (MatchString name_re value)
  then Some (MalformedServiceAccountName "%s does not match %s" [VStr field; VStr ValidServiceAccountNameRegexp])
  else None.

Definition ValidateServiceAccountDesc (value field : string) : option ServiceError :=
  if negb (MatchString desc_re value)
  then Some (MalformedServiceAccountDesc "%s does not match %s" [VStr field; VStr ValidServiceAccountDescRegexp])
  else None.

Definition ValidateServiceAccountID (value field : string) : option ServiceError :=
  if negb (MatchString uuid_re value)
  then Some (MalformedServiceAccountID "%s does not match %s" [VStr field; VStr ValidUUIDRegexp])
  else None.

Definition ValidateMultiAZEnabled (value : bool) : option ServiceError :=
  if negb value then Some NotMultiAzActionNotSupported else None.

(** [len] of a Go string: its bytes. *)
Definition len (s : string) : Z := Z.of_nat (String.length s).

Definition ValidateMaxLength (value field : string) (maxVal : option Z) : option ServiceError :=
  match maxVal with
  | Some m => if m <? len value
      then Some (MaximumFieldLengthMissing "%s is not valid. Maximum length %d is required" [VStr field; VInt m])
      else None
  | None => None
  end.

Definition ValidateMinLength (value : option string) (field : string) (min : Z) : option ServiceError :=
  let too_short := Some (MinimumFieldLengthNotReached "%s is not valid. Minimum length %d is required." [VStr field; VInt min]) in
  match value with
  | None => too_short
  | Some v => if len v <? min then too_short else None
  end.

(** [resp] is the closure of [ValidateMaxLength], which is not nil, and not its
    result: the closure of [ValidateMinLength] is never returned. *)
Definition ValidateLength (value field : string) (minVal : Z) (maxVal : option Z) : option ServiceError :=
  let min := if 1 <? minVal then minVal else 1 in
  let resp : option (unit -> option ServiceError) := Some (fun _ => ValidateMaxLength value field maxVal) in
  match resp with
  | Some resp => resp tt
  | None => ValidateMinLength (Some value) field min
  end.

Definition ValidatQueryParam (get : string -> string) (field : string) : option ServiceError :=
  let fieldValue := get field in
  let failed := Some (FailedToParseQueryParms "bad request, cannot parse query parameter '%s' '%s'"
    [VStr field; VStr fieldValue]) in
  if bool_decide (fieldValue = "") then failed
  else if (Atoi fieldValue).2 then None else failed.

(** ** Options of a value (validation_builder.go) *)

(** An option is given the pointer to the value; it may assign to it. *)
Definition ValidateOption : Type := string -> option string -> option string * option ServiceError.

Fixpoint run_options (field : string) (value : option string) (options : list ValidateOption)
    : option string * option ServiceError :=
  match options with
  | [] => (value, None)
  | o :: options =>
      match o field value with
      | (value, Some err) => (value, Some err)
      | (value, None) => run_options field value options
      end
  end.

(** On a nil pointer the code dereferences nil: it is not called so. *)
Definition WithDefault (d : string) : ValidateOption := fun _ value =>
  ((fun v => if bool_decide (v = "") then d else v) <$> value, None).

Definition MinLen (min : Z) : ValidateOption := fun field value =>
  (value,
   let too_short := Some (MinimumFieldLengthNotReached "%s is not valid. Minimum length %d is required." [VStr field; VInt min]) in
   match value with
   | None => too_short
   | Some v => if len v <? min then too_short else None
   end).

Definition MaxLen (min : Z) : ValidateOption := fun field value =>
  (value,
   match value with
   | Some v => if min <? len v
       then Some (MinimumFieldLengthNotReached "%s is not valid. Maximum length %d is required." [VStr field; VInt min])
       else None
   | None => None
   end).

Definition IsOneOf (options : list string) : ValidateOption := fun field value =>
  (value,
   match value with
   | Some v => if bool_decide (v ∈ options) then None
       else Some (MinimumFieldLengthNotReached "%s is not valid. Must be one of: %s" [VStr field; VStr (Join ", " options)])
   | None => Some (MinimumFieldLengthNotReached "%s is not valid. Must be one of: %s" [VStr field; VStr (Join ", " options)])
   end).

(** ** The names a central may have *)

Definition lower_letter (c : rune) : bool := in_range 97 122 c.
Definition lower_alnum (c : rune) : bool := in_range 97 122 c || in_range 48 57 c.
Definition lower_dash (c : rune) : bool := bool_decide (c = 45%N) || lower_alnum c.

(** A letter, then letters, digits and dashes, with a letter or digit last. *)
Definition label_runes (cs : list rune) : Prop :=
  exists c cs', cs = c :: cs' /\ lower_letter c = true /\ Forall (fun d => lower_dash d = true) cs' /\
    (cs' = [] \/ exists d, last cs' = Some d /\ lower_alnum d = true).

Lemma in_range_one a c : in_range a a c = bool_decide (c = a).
Proof.
  unfold in_range. destruct (bool_decide_reflect (c = a)) as [->|Hn]; [by rewrite N.leb_refl|].
  destruct (N.leb_spec a c), (N.leb_spec c a); simpl; try done. lia.
Qed.

Lemma in_class_dash c : in_class false [chr 45; az; digits]%N c = lower_dash c.
Proof. unfold in_class, lower_dash, lower_alnum, chr, az, digits. simpl. by rewrite orb_false_r, in_range_one. Qed.

Lemma in_class_alnum c : in_class false [az; digits] c = lower_alnum c.
Proof. unfold in_class, lower_alnum, az, digits. simpl. by rewrite orb_false_r. Qed.

Lemma name_re_spec s : MatchString name_re s = true <-> label_runes (runes s).
Proof.
  unfold MatchString. rewrite re_match_spec. unfold name_re, ROneOf, ROpt. rewrite re_class_seq. split.
  - intros (c & cs & -> & Hc & Hr). exists c, cs. split_and!; [done| | |].
    + unfold in_class in Hc. simpl in Hc. by rewrite orb_false_r in Hc.
    + inversion Hr as [| | |? ? ? He|? ? ? Hs| |]; subst; [inversion He; by constructor|].
      inversion Hs as [| |? ? u v Hu Hv| | | |]; subst. apply re_star_class in Hu.
      inversion Hv as [|? ? d Hd| | | | |]; subst. apply Forall_app. split.
      * eapply Forall_impl; [exact Hu|]. intros x Hx. by rewrite <- in_class_dash.
      * repeat constructor. unfold lower_dash. rewrite <- in_class_alnum, Hd. apply orb_true_r.
    + inversion Hr as [| | |? ? ? He|? ? ? Hs| |]; subst; [left; by inversion He|right].
      inversion Hs as [| |? ? u v Hu Hv| | | |]; subst. inversion Hv as [|? ? d Hd| | | | |]; subst.
      exists d. rewrite last_snoc. by rewrite <- in_class_alnum.
  - intros (c & cs & -> & Hc & Hall & Hlast). exists c, cs. split_and!; [done| |].
    + unfold in_class. simpl. by rewrite orb_false_r.
    + destruct Hlast as [->|(d & Hd & Hal)]; [apply LAltL; constructor|apply LAltR].
      destruct cs as [|e cs] using rev_ind; [done|]. clear IHcs. rewrite last_snoc in Hd. injection Hd as ->.
      apply Forall_app in Hall as [Hall _]. apply LSeq.
      * apply re_star_class. eapply Forall_impl; [exact Hall|]. intros x Hx. by rewrite in_class_dash.
      * apply LClass. by rewrite in_class_alnum.
Qed.

(** The pattern of names is what its description says: a name is accepted if and
    only if it consists of lower-case letters, digits and dashes, starts with a
    letter and ends with a letter or digit. *)
Theorem name_re_label s : MatchString name_re s = true <-> label_runes (runes s).
Proof. apply name_re_spec. Qed.
