(* ===== verification/NameSearch.v ===== *)
(** * Searching for a central by its name

    The validator of unique names looks for centrals with the search text
    [name = <name>], which is user input put into an expression.  For the names
    that the pattern of names admits, the parser reads it as intended. *)

From S2P Require Import Prelude GoString Regex QueryScanner QueryParser QueryParserFacts QueryGrammar QueryProps.
From S2P Require Import ApiFramework.
Local Open Scope string_scope.

(** ** Names are ASCII *)

Lemma lower_dash_ascii c : lower_dash c = true -> (c < 128)%N.
Proof.
  unfold lower_dash, lower_alnum, in_range. case_bool_decide; [lia|]. simpl.
  rewrite orb_true_iff, !andb_true_iff, !N.leb_le. lia.
Qed.

Lemma lower_dash_letter c : lower_letter c = true -> lower_dash c = true.
Proof. unfold lower_dash, lower_alnum, lower_letter. intros ->. by rewrite orb_true_r. Qed.

Lemma label_dash cs : label_runes cs -> cs <> [] /\ Forall (fun c => lower_dash c = true) cs.
Proof.
  intros (c & cs' & -> & Hc & Hall & _). split; [done|]. constructor; [by apply lower_dash_letter|done].
Qed.

(** The bytes of a text whose runes are ASCII. *)
Lemma runes_bytes s : Forall (fun r => (r < 128)%N) (runes s) -> bytes_of s = runes s /\ is_ascii s = true.
Proof.
  intros Hr. assert (bytes_of s = runes s) as E.
  { unfold runes, range_string in *. by apply (decode_ascii_inv _ 0). }
  split; [done|]. unfold is_ascii. rewrite E. apply forallb_forall. intros b Hb%list_elem_of_In.
  rewrite Forall_forall in Hr. apply N.ltb_lt, Hr, Hb.
Qed.

(** ** The scanner *)

Lemma decode_ascii_positions bs pos :
  forallb (fun b => b <? 128)%N bs = true -> decode 0 pos bs = zip (seq pos (length bs)) bs.
Proof.
  revert pos. induction bs as [|b bs IH]; intros pos Hb; [done|].
  apply andb_true_iff in Hb as [Hb Hbs]. cbn [decode]. unfold decode_rune. rewrite Hb. simpl. by rewrite IH.
Qed.

(** Runes of names are literals. *)
Lemma scan_rune_literal st i c :
  lower_dash c = true -> sc_type st = NoToken \/ sc_type st = Literal ->
  scan_rune st (i, c) =
  mkScan (sc_out st) (sc_pending st ++ [mkToken Literal (encode_rune c) i]) Literal (sc_quoted st) (sc_escaped st).
Proof.
  intros Hc Hty. unfold scan_rune, sp, lparen, rparen, eq_sign, lt_sign, gt_sign, backslash, quote.
  assert (forall x : N, lower_dash x = false -> bool_decide (c = x) = false) as Hne.
  { intros x Hx. apply bool_decide_eq_false. intros ->. congruence. }
  rewrite !Hne by reflexivity. simpl. unfold push, with_type. by destruct Hty as [-> | ->].
Qed.

Lemma scan_literals ics st :
  Forall (fun ic => lower_dash ic.2 = true) ics -> sc_type st = NoToken \/ sc_type st = Literal -> ics <> [] ->
  scan_runes st ics =
  mkScan (sc_out st) (sc_pending st ++ ((fun ic => mkToken Literal (encode_rune ic.2) ic.1) <$> ics)) Literal
    (sc_quoted st) (sc_escaped st).
Proof.
  intros Hall. revert st. induction Hall as [|[i c] ics Hc Hall IH]; intros st Hty Hne; [done|].
  unfold scan_runes. cbn [foldl]. rewrite scan_rune_literal by done. simpl. destruct ics as [|ic ics]; [done|].
  unfold scan_runes in IH. rewrite IH by (simpl; auto). simpl. by rewrite <- app_assoc.
Qed.

(** The tokens of the search text. *)
Lemma Init_name name :
  label_runes (runes name) ->
  tok_Value <$> Init ("name = " +:+ name) = ["name"; "="; name].
Proof.
  intros (Hne & Hall)%label_dash.
  assert (Forall (fun r => (r < 128)%N) (runes name)) as Hr
    by (eapply Forall_impl; [exact Hall|]; intros c; apply lower_dash_ascii).
  destruct (runes_bytes name Hr) as [Hb Ha]. unfold Init, range_string.
  rewrite bytes_of_append. set (pre := bytes_of "name = ").
  rewrite decode_ascii_positions by (rewrite forallb_app; exact Ha).
  rewrite length_app, seq_app, zip_with_app by (by rewrite length_seq).
  set (ics := zip (seq (0 + length pre) (length (bytes_of name))) (bytes_of name)).
  assert (ics.*2 = runes name) as Hics by (unfold ics; rewrite snd_zip, Hb; [done|by rewrite length_seq]).
  unfold scan_runes. rewrite foldl_app.
  change (foldl scan_rune scan_start (zip (seq 0 (length pre)) pre))
    with (mkScan [mkToken Literal "name" 0; mkToken Op "=" 5] [] NoToken false false).
  pose proof (scan_literals ics (mkScan [mkToken Literal "name" 0; mkToken Op "=" 5] [] NoToken false false)) as Hs.
  unfold scan_runes in Hs. rewrite Hs; [|by rewrite <- Hics, Forall_fmap in Hall|by left|].
  2: { intros E. rewrite E in Hics. by rewrite <- Hics in Hne. }
  simpl. unfold sendCurrentTokens, pending_text. cbn [sc_pending sc_out].
  rewrite <- list_fmap_compose. unfold compose. simpl.
  assert ((fun x : nat * rune => encode_rune x.2) <$> ics = encode_rune <$> runes name) as ->
    by (by rewrite <- Hics, <- list_fmap_compose).
  fold (encode_runes (runes name)). rewrite encode_runes_ascii by done.
  destruct ics as [|ic ics]; [by rewrite <- Hics in Hne|]. destruct name; [done|]. done.
Qed.

(** ** The parser *)

Lemma match_value name : label_runes (runes name) -> MatchString (pattern KValue) name = true.
Proof.
  intros (Hne & Hall)%label_dash. unfold MatchString. apply re_match_spec. simpl. unfold value_re, RNoneOf.
  destruct (runes name) as [|c cs]; [done|]. apply Forall_cons in Hall as [Hc Hall].
  assert (forall l x, lower_dash x = true -> forallb (fun d => negb (lower_dash d)) l = true ->
    in_class true (chr <$> l) x = true) as Hcl.
  { intros l x Hx Hl. unfold in_class. assert (existsb (fun '(lo, hi) => in_range lo hi x) (chr <$> l) = false) as ->; [|done].
    apply not_true_iff_false. intros (p & Hp & Hx')%existsb_exists.
    apply list_elem_of_In, list_elem_of_fmap in Hp as (d & -> & Hd). unfold chr in Hx'.
    rewrite in_range_one in Hx'. apply bool_decide_eq_true in Hx' as ->.
    apply list_elem_of_In in Hd. rewrite forallb_forall in Hl. specialize (Hl d Hd). by rewrite Hx in Hl. }
  apply re_class_seq. exists c, cs. split_and!; [done|by apply (Hcl [39%N])|].
  apply re_star_class. eapply Forall_impl; [exact Hall|]. intros x Hx. by apply (Hcl [32; 94; 40; 41]%N).
Qed.

Lemma parse_tokens_values cap columns ts ts' ky h :
  tok_Value <$> ts = tok_Value <$> ts' -> forall r, parse_tokens cap columns ts ky h = Ok r -> parse_tokens cap columns ts' ky h = Ok r.
Proof.
  revert ts' ky h. induction ts as [|t ts IH]; intros [|t' ts'] ky h E r; [exact id|discriminate E..|].
  injection E as E1 E2. cbn [parse_tokens].
  rewrite <- E1. destruct (parse _ _ _ _ _ _) as [[ky1 h1]|]; [by apply IH|discriminate].
Qed.

Lemma Parse_name_query_text cap name :
  MatchString name_re name = true ->
  Parse cap validColumns ("name = " +:+ name) = Ok (mkDBQuery "name = ?" [name] validColumns).
Proof.
  intros Hn%name_re_label. pose proof (Init_name name Hn) as Hi. unfold Parse. rewrite machine_built.
  unfold parse_fuel, NewScanner. set (toks := Init _) in *.
  pose proof (parse_loop_tokens cap validColumns [] toks StartState q_init (S (length toks)) ltac:(lia)) as Hl.
  change (mkScanner ([] ++ toks)%list (Z.of_nat (length []) - 1)) with (mkScanner toks (-1)) in Hl. rewrite Hl. clear Hl.
  assert (parse_tokens cap validColumns toks StartState q_init = Ok (key KValue, mkQ "name = ?" [name] 0 0)) as ->;
    [|reflexivity].
  eapply (parse_tokens_values cap validColumns [mkToken Literal "name" 0; mkToken Op "=" 0; mkToken Literal name 0]); [done|].
  change StartState with (key KStart).
  rewrite (parse_tokens_step cap validColumns KStart KColumn _ _ q_init (mkQ "name" [] 0 0)) by
    (first [apply (bool_decide_unpack _); vm_compute; exact I|vm_compute; reflexivity]).
  rewrite (parse_tokens_step cap validColumns KColumn KEq _ _ (mkQ "name" [] 0 0) (mkQ "name =" [] 0 0)) by
    (first [apply (bool_decide_unpack _); vm_compute; exact I|vm_compute; reflexivity]).
  rewrite (parse_tokens_step cap validColumns KEq KValue _ _ (mkQ "name =" [] 0 0) (mkQ "name = ?" [name] 0 0)); [done| | |].
  - apply (bool_decide_unpack _). vm_compute. exact I.
  - by apply match_value.
  - reflexivity.
Qed.

(** The check for duplicates asks the database what it means to: for every name
    that the pattern of names admits, whatever word it is, the search text
    [name = <name>] parses to the condition on the column [name] with the name as
    its only bind value. *)
Theorem Parse_name_query cap name :
  MatchString name_re name = true ->
  Parse cap validColumns ("name = " +:+ name) = Ok (mkDBQuery "name = ?" [name] validColumns).
Proof. apply Parse_name_query_text. Qed.

Lemma Parse_name_query_witness :
  Parse exact_cap validColumns "name = and-or-1" = Ok (mkDBQuery "name = ?" ["and-or-1"] validColumns).
Proof. exact (Parse_name_query exact_cap "and-or-1" ltac:(vm_compute; reflexivity)). Defined.
