(* ===== verification/DefaultVersion.v ===== *)
(** * The default version of centrals (services/central_default_version.go)

    A table to which a row is added whenever the default changes; the row with the
    highest identifier counts.  [VersionTable] is what the service relies on of the
    database, with any of its statements failing. *)

From S2P Require Import Prelude GoString GoFmt ServiceErrors Providers World.
Local Open Scope string_scope.

Class VersionTable (V : Type) := {
  (** the versions stored, by identifier *)
  stored_versions : V -> list string;
  (** [Order("id DESC").First] *)
  db_first_version : prog V (result error string);
  db_create_version : string -> prog V (result error unit)
}.

Class VersionTableLaws (V : Type) `{VersionTable V} := {
  first_version_rows t : stored_versions (db_first_version t).1 = stored_versions t;
  first_version_last t v : (db_first_version t).2 = Ok v -> last (stored_versions t) = Some v;
  create_version_rows v t :
    stored_versions (db_create_version v t).1 =
    match (db_create_version v t).2 with Ok _ => (stored_versions t ++ [v])%list | Err _ => stored_versions t end
}.

Definition allowedVersionPrefixes : list string :=
  ["quay.io/rhacs-eng"; "registry.redhat.io/advanced-cluster-security"; "quay.io/stackrox-io"].

Definition isAllowedVersion (version : string) : bool :=
  existsb (fun v => HasPrefix version v) allowedVersionPrefixes.

Definition ValidateCentralVersionString (version : string) : option error :=
  if negb (isAllowedVersion version)
  then Some (EPlain (Sprintf "version: %s does not match one of the allowed version prefixes: %s"
         [VStr version; VStr (Sprint_names allowedVersionPrefixes)]))
  else None.

Section service.
Context {V : Type} `{VersionTable V}.

Definition queryCurrentDefaultVersion : prog V (result error string) :=
  rv ← db_first_version;
  match rv with
  | Err err => mret (Err (EPlain (Sprintf "failed getting central default version: %s" [VStr (Error err)])))
  | Ok v => mret (Ok v)
  end.

Definition GetDefaultVersion : prog V (result error string) := queryCurrentDefaultVersion.

Definition SetDefaultVersion (version : string) : prog V (option error) :=
  rq ← queryCurrentDefaultVersion;
  match rq with
  | Err err => mret (Some err)
  | Ok currentVersion =>
      if bool_decide (currentVersion = version) then mret None
      else
        rc ← db_create_version version;
        match rc with
        | Err err => mret (Some (EPlain (Sprintf "failed creating central default version entry: %s" [VStr (Error err)])))
        | Ok _ => mret None
        end
  end.

(** At start; [true] when the process is to exit. *)
Definition Start (configured : string) : prog V bool :=
  if bool_decide (configured = "") then mret false
  else match ValidateCentralVersionString configured with
  | Some _ => mret true
  | None =>
      rs ← SetDefaultVersion configured;
      mret (match rs with Some _ => true | None => false end)
  end.
End service.

(** ** Theorems *)

Section laws.
Context {V : Type} `{VersionTableLaws V}.

Lemma query_rows t : stored_versions (queryCurrentDefaultVersion t).1 = stored_versions t.
Proof.
  unfold queryCurrentDefaultVersion. rewrite prog_bind_run. destruct ((db_first_version t).2); apply first_version_rows.
Qed.

Lemma query_last t v : (queryCurrentDefaultVersion t).2 = Ok v -> last (stored_versions t) = Some v.
Proof.
  unfold queryCurrentDefaultVersion. rewrite prog_bind_run. destruct ((db_first_version t).2) as [x|] eqn:E; [|done].
  intros [= <-]. by apply first_version_last.
Qed.

(** The effect of setting a version. *)
Lemma SetDefaultVersion_effect v t :
  match (SetDefaultVersion v t).2 with
  | Some _ => stored_versions (SetDefaultVersion v t).1 = stored_versions t
  | None => last (stored_versions (SetDefaultVersion v t).1) = Some v /\
      (stored_versions (SetDefaultVersion v t).1 = stored_versions t \/
       stored_versions (SetDefaultVersion v t).1 = (stored_versions t ++ [v])%list)
  end.
Proof.
  unfold SetDefaultVersion. rewrite prog_bind_run. pose proof (query_rows t) as Hr. pose proof (query_last t) as Hl.
  destruct ((queryCurrentDefaultVersion t).2) as [c|]; [|exact Hr]. specialize (Hl c eq_refl). case_bool_decide as E.
  - subst c. simpl. rewrite Hr. split; [done|by left].
  - rewrite prog_bind_run. pose proof (create_version_rows v (queryCurrentDefaultVersion t).1) as Hc.
    destruct ((db_create_version v _).2); simpl; rewrite Hc, Hr; [|done]. split; [apply last_snoc|by right].
Qed.

(** The default version that was set is the one that is read: after a
    successful [SetDefaultVersion v] the next reading that succeeds gives [v];
    setting it again adds no row; a failed one leaves the table as it was; and on a
    table without rows nothing can be set. *)
Theorem default_version_roundtrip v t :
  let set := SetDefaultVersion v t in
  (set.2 = None -> forall x, (GetDefaultVersion set.1).2 = Ok x -> x = v) /\
  (set.2 = None -> (SetDefaultVersion v set.1).2 = None ->
     stored_versions (SetDefaultVersion v set.1).1 = stored_versions set.1) /\
  (set.2 <> None -> stored_versions set.1 = stored_versions t) /\
  (stored_versions t = [] -> set.2 <> None).
Proof.
  intros set. unfold set. pose proof (SetDefaultVersion_effect v t) as He. set (t1 := (SetDefaultVersion v t).1) in *.
  split_and!.
  - intros Hs x Hx%query_last. rewrite Hs in He. destruct He as [He _]. congruence.
  - intros Hs Hs'. rewrite Hs in He. destruct He as [He _]. revert Hs'. unfold SetDefaultVersion. rewrite prog_bind_run.
    pose proof (query_rows t1) as Hr. pose proof (query_last t1) as Hl.
    destruct ((queryCurrentDefaultVersion t1).2) as [c|]; [|done]. specialize (Hl c eq_refl).
    rewrite bool_decide_eq_true_2 by congruence. done.
  - intros Hs. by destruct ((SetDefaultVersion v t).2).
  - intros Hn Hs. revert Hs. unfold SetDefaultVersion. rewrite prog_bind_run. pose proof (query_last t) as Hl.
    destruct ((queryCurrentDefaultVersion t).2) as [c|]; [|done]. specialize (Hl c eq_refl). by rewrite Hn in Hl.
Qed.
End laws.

(** ** A table in memory *)

#[export] Instance list_versions : VersionTable (list string) := {|
  stored_versions t := t;
  db_first_version t := (t, match last t with Some v => Ok v | None => Err ErrRecordNotFound end);
  db_create_version v t := ((t ++ [v])%list, Ok tt)
|}.

#[export] Instance list_versions_laws : VersionTableLaws (list string).
Proof. split; [done| |done]. intros t v. simpl. by destruct (last t); intros [= <-]. Qed.

Lemma default_version_roundtrip_witness :
  let t := ["quay.io/rhacs-eng/stackrox-operator:3.74.1"] in
  let set := SetDefaultVersion "quay.io/rhacs-eng/main:4" t in
  set.2 = None /\ (forall x, (GetDefaultVersion set.1).2 = Ok x -> x = "quay.io/rhacs-eng/main:4").
Proof.
  split; [reflexivity|].
  exact (proj1 (default_version_roundtrip "quay.io/rhacs-eng/main:4" ["quay.io/rhacs-eng/stackrox-operator:3.74.1"]) eq_refl).
Defined.
