(* ===== verification/Quota.v ===== *)
(** * Quota services (internal/dinosaur/pkg/services/quota)

    The two implementations of the [QuotaService] interface, one backed by the
    quota list of the configuration and one by AMS, and the factory that selects
    one by its type. *)

From S2P Require Import Prelude GoString GoFmt ServiceErrors CentralRequest Store World MemPlatform Config.
Local Open Scope string_scope.
Local Open Scope Z_scope.

(** ** Instance types (dinosaurs/types, pkg/client/ocm/types.go) *)

Definition EVAL : string := "eval".
Definition STANDARD : string := "standard".
Definition EvalQuota : string := "eval".
Definition StandardQuota : string := "standard".

Definition GetQuotaType (t : string) : string := if bool_decide (t = STANDARD) then StandardQuota else EvalQuota.
Definition GetProduct (q : string) : string := if bool_decide (q = StandardQuota) then "RHACS" else "RHACSTrial".
Definition GetResourceName (q : string) : string := "rhacs".

(** The interface (services/quota.go). *)
Record QuotaService `{Platform} := mkQuotaService {
  CheckIfQuotaIsDefinedForInstanceType : CentralRequest -> string -> prog world (result ServiceError bool);
  ReserveQuota : CentralRequest -> string -> prog world (result ServiceError string);
  DeleteQuota : string -> prog world (option ServiceError)
}.

Section quota_list.
Context `{Platform} (q : QuotaManagementListConfig).

(** The quota list entry of a request: the limit it carries, and whether it is
    the organisation's. *)
Definition list_CheckIfQuotaIsDefinedForInstanceType (dinosaur : CentralRequest) (instanceType : string)
    : prog world (result ServiceError bool) :=
  let username := cr_Owner dinosaur in
  let userIsRegistered :=
    match GetByID (ql_Organisations q) (cr_OrganisationID dinosaur) with
    | Some org => if IsUserRegistered org username then true
                  else bool_decide (is_Some (GetByUsername (ql_ServiceAccounts q) username))
    | None => bool_decide (is_Some (GetByUsername (ql_ServiceAccounts q) username))
    end in
  mret (Ok (
    if userIsRegistered && bool_decide (instanceType = STANDARD) then true
    else if negb userIsRegistered && bool_decide (instanceType = EVAL) then true
    else false)).

(** [quotaManagementListItem], [message] and [filterByOrd]: the organisation when
    it registers the user, else the service account when there is one. *)
Definition list_item (dinosaur : CentralRequest) : option Z * string * bool :=
  let username := cr_Owner dinosaur in
  let orgID := cr_OrganisationID dinosaur in
  let dflt := ql_MaxAllowedInstances q in
  let user_message n := Sprintf "User '%s' has reached a maximum number of %d allowed instances."
    [VStr username; VInt n] in
  let by_account :=
    match GetByUsername (ql_ServiceAccounts q) username with
    | Some a => (Some (acc_MaxAllowedInstances a),
                 user_message (GetMaxAllowedInstances dflt (acc_MaxAllowedInstances a)), false)
    | None => (None, user_message dflt, false)
    end in
  match GetByID (ql_Organisations q) orgID with
  | Some org =>
      if IsUserRegistered org username
      then (Some (org_MaxAllowedInstances org),
            Sprintf "Organization '%s' has reached a maximum number of %d allowed instances."
              [VStr orgID; VInt (GetMaxAllowedInstances dflt (org_MaxAllowedInstances org))], true)
      else by_account
  | None => by_account
  end.

(** The rows counted against the limit. *)
Definition counted (dinosaur : CentralRequest) (instanceType : string) (filterByOrg : bool)
    (r : CentralRequest) : bool :=
  bool_decide (cr_InstanceType r = instanceType) &&
  (if bool_decide (instanceType = STANDARD) && filterByOrg
   then bool_decide (cr_OrganisationID r = cr_OrganisationID dinosaur)
   else bool_decide (cr_Owner r = cr_Owner dinosaur)).

Definition list_ReserveQuota (dinosaur : CentralRequest) (instanceType : string)
    : prog world (result ServiceError string) :=
  if negb (ql_EnableInstanceLimitControl q) then mret (Ok "")
  else
    let '(item, message, filterByOrg) := list_item dinosaur in
    rc ← on_centrals (db_count (counted dinosaur instanceType filterByOrg));
    match rc with
    | Err _ => mret (Err (GeneralError "count failed from database" []))
    | Ok count =>
        match item with
        | Some limit =>
            if bool_decide (instanceType = STANDARD) then
              if IsInstanceCountWithinLimit (ql_MaxAllowedInstances q) limit count
              then mret (Ok "")
              else mret (Err (MaximumAllowedInstanceReached message []))
            else mret (Err (InsufficientQuotaError "Insufficient Quota" []))
        | None =>
            if bool_decide (instanceType = EVAL) then
              if ql_MaxAllowedInstances q <=? count
              then mret (Err (MaximumAllowedInstanceReached message []))
              else mret (Ok "")
            else mret (Err (InsufficientQuotaError "Insufficient Quota" []))
        end
    end.

Definition list_DeleteQuota (subscriptionID : string) : prog world (option ServiceError) := mret None.

Definition QuotaManagementListService : QuotaService :=
  mkQuotaService _ list_CheckIfQuotaIsDefinedForInstanceType list_ReserveQuota list_DeleteQuota.
End quota_list.

Section ams.
Context `{Platform}.

Definition RHACSMarketplaceQuotaID : string := "cluster|rhinfra|rhacs|marketplace".
Definition awsCloudProvider : string := "aws".

(** amsv1's billing models *)
Definition BillingModelMarketplace : string := "marketplace".
Definition BillingModelStandard : string := "standard".
Definition BillingModelMarketplaceAWS : string := "marketplace-aws".

Definition supportedAMSBillingModels : list string :=
  [BillingModelMarketplace; BillingModelStandard; BillingModelMarketplaceAWS].

(** The inner loop over the related resources of a quota cost: [inl tt] when a
    supported model is found, else the last unsupported one. *)
Fixpoint scan_resources (found : string) (rrs : list RelatedResource) : unit + string :=
  match rrs with
  | [] => inr found
  | rr :: rrs =>
      if bool_decide (rr_BillingModel rr ∈ supportedAMSBillingModels) then inl tt
      else scan_resources (rr_BillingModel rr) rrs
  end.

Fixpoint scan_costs (found : string) (qcs : list QuotaCost) : unit + string :=
  match qcs with
  | [] => inr found
  | qc :: qcs =>
      if 0 <? qc_Allowed qc then
        match scan_resources found (qc_RelatedResources qc) with
        | inl _ => inl tt
        | inr found => scan_costs found qcs
        end
      else scan_costs found qcs
  end.

Definition hasConfiguredQuotaCost (organizationID quotaType : string) : prog world (result error bool) :=
  rq ← on_ext (GetQuotaCostsForProduct organizationID (GetResourceName quotaType) (GetProduct quotaType));
  match rq with
  | Err err => mret (Err (EFmtWrap (Sprintf
      "retrieving quota costs for product %s, organization ID %s, resource type %s: %v"
      [VStr (GetProduct quotaType); VStr organizationID; VStr (GetResourceName quotaType);
       VStr (Error err)]) err))
  | Ok quotaCosts =>
      match scan_costs "" quotaCosts with
      | inl _ => mret (Ok true)
      | inr found =>
          if bool_decide (found <> "")
          then mret (Err (EService (GeneralError
            "Product %s only has unsupported allowed billing models. Last one found: %s"
            [VStr (GetProduct quotaType); VStr found])))
          else mret (Ok false)
      end
  end.

Definition ams_CheckIfQuotaIsDefinedForInstanceType (dinosaur : CentralRequest) (instanceType : string)
    : prog world (result ServiceError bool) :=
  ro ← on_ext (GetOrganisationFromExternalID (cr_OrganisationID dinosaur));
  match ro with
  | Err err => mret (Err (OrganisationNotFound (cr_OrganisationID dinosaur) err))
  | Ok (orgID, _) =>
      rh ← hasConfiguredQuotaCost orgID (GetQuotaType instanceType);
      match rh with
      | Err err => mret (Err (NewWithCause ErrorGeneral (Some err) (Sprintf
          "failed to get assigned quota of type %v for organization with external id %v and id %v"
          [VStr (GetQuotaType instanceType); VStr (cr_OrganisationID dinosaur); VStr orgID]) []))
      | Ok hasQuota => mret (Ok hasQuota)
      end
  end.

(** A related resource counts when its quota is not used up or it is free. *)
Definition offers (model : string) (quotaCosts : list QuotaCost) : bool :=
  existsb (fun qc => existsb (fun rr =>
    ((qc_Consumed qc <? qc_Allowed qc) || (rr_Cost rr =? 0)) &&
    bool_decide (rr_BillingModel rr = model)) (qc_RelatedResources qc)) quotaCosts.

Definition selectBillingModelFromDinosaurInstanceType
    (orgID cloudProviderID cloudAccountID instanceType : string) : prog world (result error string) :=
  let qt := GetQuotaType instanceType in
  rq ← on_ext (GetQuotaCostsForProduct orgID (GetResourceName qt) (GetProduct qt));
  match rq with
  | Err err => mret (Err (EService (InsufficientQuotaError "%v: error getting quotas for product %s"
      [VStr (Error err); VStr (GetProduct qt)])))
  | Ok quotaCosts =>
      let marketplace := offers BillingModelMarketplace quotaCosts in
      let marketplaceAWS := offers BillingModelMarketplaceAWS quotaCosts in
      let standard := offers BillingModelStandard quotaCosts in
      mret (
        if bool_decide (cloudAccountID <> "") && bool_decide (cloudProviderID = awsCloudProvider) then
          if marketplaceAWS || marketplace then Ok BillingModelMarketplaceAWS
          else Err (EService (InvalidCloudAccountID "No subscription available for cloud account %s"
            [VStr cloudAccountID]))
        else if marketplace then Ok BillingModelMarketplace
        else if standard then Ok BillingModelStandard
        else Err (EService (InsufficientQuotaError "No available billing model found" [])))
  end.

Definition verifyCloudAccountInAMS (dinosaur : CentralRequest) (orgID : string)
    : prog world (option ServiceError) :=
  rc ← on_ext (GetCustomerCloudAccounts orgID [RHACSMarketplaceQuotaID]);
  match rc with
  | Err err =>
      let svcErr := ToServiceError err in
      mret (Some (NewWithCause (Code svcErr) (Some (EService svcErr)) "Error getting cloud accounts" []))
  | Ok cloudAccounts =>
      if bool_decide (cr_CloudAccountID dinosaur = "") then
        if (0 <? length cloudAccounts)%nat
        then mret (Some (InvalidCloudAccountID "Missing cloud account id in creation request" []))
        else mret None
      else if existsb (fun a => bool_decide (ca_CloudAccountID a = cr_CloudAccountID dinosaur) &&
                                bool_decide (ca_CloudProviderID a = cr_CloudProvider dinosaur)) cloudAccounts
      then mret None
      else mret (Some (InvalidCloudAccountID
        "Request cloud account %s does not match organization cloud accounts"
        [VStr (cr_CloudAccountID dinosaur)]))
  end.

Definition ams_ReserveQuota (dinosaur : CentralRequest) (instanceType : string)
    : prog world (result ServiceError string) :=
  ro ← on_ext (GetOrganisationFromExternalID (cr_OrganisationID dinosaur));
  match ro with
  | Err err => mret (Err (OrganisationNotFound (cr_OrganisationID dinosaur) err))
  | Ok (orgID, _) =>
      rb ← selectBillingModelFromDinosaurInstanceType orgID (cr_CloudProvider dinosaur)
             (cr_CloudAccountID dinosaur) instanceType;
      match rb with
      | Err err =>
          let svcErr := ToServiceError err in
          mret (Err (NewWithCause (Code svcErr) (Some (EService svcErr)) "Error getting billing model" []))
      | Ok bm =>
          let needs_account := bool_decide (bm <> BillingModelStandard) in
          rv ← (if needs_account then verifyCloudAccountInAMS dinosaur orgID else mret None);
          match rv with
          | Some err => mret (Err err)
          | None =>
              ra ← on_ext (ClusterAuthorization (mkAuthorizationRequest
                     (cr_Owner dinosaur) (cr_CloudProvider dinosaur)
                     (GetProduct (GetQuotaType instanceType)) (cr_ID dinosaur) bm
                     (if needs_account then Some (cr_CloudAccountID dinosaur) else None)));
              match ra with
              | Err err => mret (Err (FailedClusterAuthorization err))
              | Ok (allowed, subscription) =>
                  if (allowed : bool) then mret (Ok subscription)
                  else mret (Err (InsufficientQuotaError "Insufficient Quota" []))
              end
          end
      end
  end.

Definition ams_DeleteQuota (subscriptionID : string) : prog world (option ServiceError) :=
  if bool_decide (subscriptionID = "") then mret None
  else
    rd ← on_ext (DeleteSubscription subscriptionID);
    match rd with
    | Err err => mret (Some (GeneralError "failed to delete the quota: %v" [VStr (Error err)]))
    | Ok _ => mret None
    end.

Definition amsQuotaService : QuotaService :=
  mkQuotaService _ ams_CheckIfQuotaIsDefinedForInstanceType ams_ReserveQuota ams_DeleteQuota.

(** ** The factory (default_quota_service_factory.go) *)

Definition GetQuotaService (q : QuotaManagementListConfig) (quotaType : string)
    : result ServiceError QuotaService :=
  let quotaType := if bool_decide (quotaType = UndefinedQuotaType)
                   then QuotaManagementListQuotaType else quotaType in
  if bool_decide (quotaType = AMSQuotaType) then Ok amsQuotaService
  else if bool_decide (quotaType = QuotaManagementListQuotaType) then Ok (QuotaManagementListService q)
  else Err (GeneralError "invalid quota service type: %v" [VStr quotaType]).
End ams.

(** ** Facts *)

Lemma GetQuotaService_cases `{Platform} q ty qs :
  GetQuotaService q ty = Ok qs -> qs = amsQuotaService \/ qs = QuotaManagementListService q.
Proof. unfold GetQuotaService. intros Hq. repeat case_bool_decide; simplify_eq; auto. Qed.

(** No quota operation writes the centrals table. *)
Section frame.
Context `{PlatformLaws} (Q : relation (rowstate CentralRequest)) `{!PreOrder Q}.

Lemma quota_check_rows q ty qs c t :
  GetQuotaService q ty = Ok qs -> preserves (on_rows Q) (CheckIfQuotaIsDefinedForInstanceType qs c t).
Proof.
  intros [->| ->]%GetQuotaService_cases; simpl.
  - unfold ams_CheckIfQuotaIsDefinedForInstanceType, hasConfiguredQuotaCost. preserves_tac.
  - unfold list_CheckIfQuotaIsDefinedForInstanceType. preserves_tac.
Qed.

Lemma quota_reserve_rows q ty qs c t :
  GetQuotaService q ty = Ok qs -> preserves (on_rows Q) (ReserveQuota qs c t).
Proof.
  intros [->| ->]%GetQuotaService_cases; simpl.
  - unfold ams_ReserveQuota, selectBillingModelFromDinosaurInstanceType, verifyCloudAccountInAMS.
    preserves_tac.
  - unfold list_ReserveQuota. preserves_tac.
Qed.

Lemma quota_delete_rows q ty qs s :
  GetQuotaService q ty = Ok qs -> preserves (on_rows Q) (DeleteQuota qs s).
Proof.
  intros [->| ->]%GetQuotaService_cases; simpl.
  - unfold ams_DeleteQuota. preserves_tac.
  - unfold list_DeleteQuota. preserves_tac.
Qed.
End frame.

(** Nor the clusters table. *)
Lemma quota_check_kept `{PlatformLaws} q ty qs c t :
  GetQuotaService q ty = Ok qs -> preserves same_clusters (CheckIfQuotaIsDefinedForInstanceType qs c t).
Proof.
  intros [->| ->]%GetQuotaService_cases; simpl.
  - unfold ams_CheckIfQuotaIsDefinedForInstanceType, hasConfiguredQuotaCost. preserves_tac.
  - unfold list_CheckIfQuotaIsDefinedForInstanceType. preserves_tac.
Qed.

(** ** Theorems *)

Section theorems.
Context `{PlatformLaws}.


(** The check of the cloud account succeeds only in two cases: the request names
    no cloud account and the organisation has none registered with the marketplace
    quota, or it names one that the organisation has registered for the cloud
    provider of the request. *)
Theorem verifyCloudAccountInAMS_sound c orgID w :
  (verifyCloudAccountInAMS c orgID w).2 = None ->
  exists accounts,
    (on_ext (GetCustomerCloudAccounts orgID [RHACSMarketplaceQuotaID]) w).2 = Ok accounts /\
    (cr_CloudAccountID c = "" -> accounts = []) /\
    (cr_CloudAccountID c <> "" ->
      exists a, a ∈ accounts /\ ca_CloudAccountID a = cr_CloudAccountID c /\
        ca_CloudProviderID a = cr_CloudProvider c).
Proof.
  unfold verifyCloudAccountInAMS. rewrite prog_bind_run.
  destruct ((on_ext _ w).2) as [accounts|e]; [|done]. intros Hv. exists accounts. split; [done|].
  revert Hv. case_bool_decide as E.
  - intros Hv. split; [|done]. intros _. destruct accounts; done.
  - intros Hv. split; [done|]. intros _. destruct (existsb _ accounts) eqn:Hx; [|done].
    apply existsb_exists in Hx as (a & Ha & [H1 H2]%andb_true_iff).
    exists a. split; [by apply list_elem_of_In|]. by repeat case_bool_decide.
Qed.
End theorems.

Definition sample_quota_list : QuotaManagementListConfig :=
  mkQuotaList [mkOrganisation "org-1" true 2 []] [] true 1.

Definition standard_central (id : string) : CentralRequest :=
  set_InstanceType STANDARD (sample_central id CentralRequestStatusReady "alice" "org-1").


Lemma verifyCloudAccountInAMS_sound_witness :
  exists accounts,
    (on_ext (GetCustomerCloudAccounts "org-1" [RHACSMarketplaceQuotaID]) (mem_world [] [])).2 = Ok accounts /\
    (cr_CloudAccountID (standard_central "b") = "" -> accounts = []) /\
    (cr_CloudAccountID (standard_central "b") <> "" ->
      exists a, a ∈ accounts /\ ca_CloudAccountID a = cr_CloudAccountID (standard_central "b") /\
        ca_CloudProviderID a = cr_CloudProvider (standard_central "b")).
Proof.
  apply (verifyCloudAccountInAMS_sound (standard_central "b") "org-1" (mem_world [] [])).
  vm_compute. reflexivity.
Defined.
