(* ===== verification/Namespace.v ===== *)
(** * Namespaces and list arguments

    [internal/dinosaur/pkg/services/util.go]: names derived from the identifier of
    a central; [pkg/services/types.go]: the arguments of list requests.  [HostNames]:
    the names for which [replaceHostSpecialChar] makes a DNS-1035 label. *)

From S2P Require Import Prelude GoString GoFmt Regex ServiceErrors.
Local Open Scope string_scope.

(** ** Names (util.go) *)

Definition dns1123LabelErrMsg : string :=
  "a lowercase RFC 1123 label must consist of lower case alphanumeric characters or '-', and must start and end with an alphanumeric character".
Definition dns1123LabelFmt : string := "[a-z0-9]([-a-z0-9]*[a-z0-9])?".

(** [a-z0-9]([-a-z0-9]*[a-z0-9])? *)
Definition dns1123_re : re :=
  let alnum := ROneOf [az; digits] in
  RSeq alnum (ROpt (RSeq (RStar (ROneOf [chr 45; az; digits])) alnum)).

(** validation.LabelValueMaxLength of k8s.io/apimachinery *)
Definition LabelValueMaxLength : nat := 63.

Definition truncateString (str : string) (num : nat) : string :=
  if (num <? String.length str)%nat then String.substring 0 num str else str.

(** [validation.RegexError] of k8s.io/apimachinery builds the text of the message. *)
Definition FormatNamespace (regexError : string) (text : string) : result error string :=
  if negb (MatchString dns1123_re text)
  then Err (EPlain (Sprintf "invalid namespace %s: %s" [VStr text; VStr regexError]))
  else Ok (TrimRight (Ascii.ascii_of_N 45) (truncateString ("rhacs-" +:+ text) LabelValueMaxLength)).

Definition maskProceedingandTrailingDash (name : string) : string :=
  let name := if HasSuffix name "-"
              then String.substring 0 (String.length name - 1) name +:+ "a" else name in
  if HasPrefix name "-" then ReplaceFirst name "-" "a" else name.

(** ** List arguments (types.go) *)

Definition GetAcceptedOrderByParams : list string :=
  ["host"; "cloud_provider"; "cluster_id"; "created_at"; "href"; "id"; "instance_type"; "multi_az";
   "name"; "organisation_id"; "owner"; "region"; "status"; "updated_at"; "version"].

Record ListArguments := mkListArguments {
  la_Page : Z; la_Size : Z; la_Preloads : list string; la_Search : string; la_OrderBy : list string
}.

(** [params.Get]: the first value of a parameter, or the empty string. *)
Definition NewListArguments (get : string -> string) : ListArguments :=
  let page := if bool_decide (get "page" <> "") then (Atoi (get "page")).1 else 1%Z in
  let size := if bool_decide (get "size" <> "") then (Atoi (get "size")).1 else 100%Z in
  let size := if (65500 <? size)%Z || (size <? 0)%Z then 65500%Z else size in
  let orderBy := if bool_decide (get "orderBy" <> "")
    then Trim (Ascii.ascii_of_N 32) <$> Split (Ascii.ascii_of_N 44) (get "orderBy") else [] in
  mkListArguments page size [] (get "search") orderBy.

(** [\s+] replaced by one space: Go's [\s] is tab, newline, form feed, carriage
    return and space. *)
Definition is_space (b : N) : bool := bool_decide (b ∈ [9; 10; 12; 13; 32]%N).

Fixpoint collapse_spaces (after_space : bool) (bs : list N) : list N :=
  match bs with
  | [] => []
  | b :: bs =>
      if is_space b then if after_space then collapse_spaces true bs else 32%N :: collapse_spaces true bs
      else b :: collapse_spaces false bs
  end.

Definition validate_clause (orderByClause : string) : option error :=
  let field := string_of_bytes (collapse_spaces false (bytes_of (ToLower orderByClause))) in
  let keywords := Split (Ascii.ascii_of_N 32) field in
  if (2 <? length keywords)%nat
  then Some (ETraced (Sprintf "invalid order by clause '%s'" [VStr orderByClause]))
  else
    let column := default "" (head keywords) in
    if bool_decide (column ∉ GetAcceptedOrderByParams)
    then Some (ETraced (Sprintf "unknown order by field '%s'" [VStr column]))
    else match keywords with
         | [_; dir] =>
             if bool_decide (dir ∉ ["asc"; "desc"])
             then Some (ETraced (Sprintf "invalid order by direction '%s'" [VStr dir])) else None
         | _ => None
         end.

Definition ListArguments_Validate (la : ListArguments) : option error :=
  if (la_Page la <? 0)%Z then Some (ETraced "page must be equal or greater than 0")
  else if (la_Size la <? 1)%Z then Some (ETraced "size must be equal or greater than 1")
  else head (omap validate_clause (la_OrderBy la)).

(** ** Theorems *)

(** Validated list arguments keep the ORDER BY clause closed: every clause is
    one of the accepted columns, optionally followed by [asc] or [desc] (up to
    letter case and spacing), and the page and size are in range. *)
Theorem ListArguments_Validate_order la :
  ListArguments_Validate la = None ->
  (0 <= la_Page la)%Z /\ (1 <= la_Size la)%Z /\
  forall clause, clause ∈ la_OrderBy la ->
    exists column, column ∈ GetAcceptedOrderByParams /\
      let field := string_of_bytes (collapse_spaces false (bytes_of (ToLower clause))) in
      Split (Ascii.ascii_of_N 32) field = [column] \/
      exists dir, dir ∈ ["asc"; "desc"] /\ Split (Ascii.ascii_of_N 32) field = [column; dir].
Proof.
  unfold ListArguments_Validate. destruct (Z.ltb_spec (la_Page la) 0); [done|].
  destruct (Z.ltb_spec (la_Size la) 1); [done|]. intros Hv. split_and!; [lia..|].
  intros clause Hin.
  assert (validate_clause clause = None) as Hc.
  { induction (la_OrderBy la) as [|c l IH]; [by apply not_elem_of_nil in Hin|].
    simpl in Hv. destruct (validate_clause c) eqn:E; [done|].
    apply elem_of_cons in Hin as [->|Hin]; auto. }
  unfold validate_clause in Hc. set (field := string_of_bytes _) in *.
  destruct (Nat.ltb_spec 2 (length (Split (Ascii.ascii_of_N 32) field))) as [|Hlen]; [done|].
  destruct (Split (Ascii.ascii_of_N 32) field) as [|column [|dir [|x l]]]; simpl in Hc, Hlen; [..|lia].
  - by vm_compute in Hc.
  - case_bool_decide as E; [done|]. exists column. split; [first [done | by apply dec_stable]|by left].
  - case_bool_decide as E; [done|]. case_bool_decide as E'; [done|].
    exists column. split; [first [done | by apply dec_stable]|]. right. exists dir. split; [first [done | by apply dec_stable]|done].
Qed.

Lemma ListArguments_Validate_order_witness :
  let la := mkListArguments 1 100 [] "" ["Name   DESC"] in
  (0 <= la_Page la)%Z /\ (1 <= la_Size la)%Z /\
  forall clause, clause ∈ la_OrderBy la ->
    exists column, column ∈ GetAcceptedOrderByParams /\
      let field := string_of_bytes (collapse_spaces false (bytes_of (ToLower clause))) in
      Split (Ascii.ascii_of_N 32) field = [column] \/
      exists dir, dir ∈ ["asc"; "desc"] /\ Split (Ascii.ascii_of_N 32) field = [column; dir].
Proof.
  apply (ListArguments_Validate_order (mkListArguments 1 100 [] "" ["Name   DESC"])).
  vm_compute. reflexivity.
Defined.

Lemma TrimRight_length c s : (String.length (TrimRight c s) <= String.length s)%nat.
Proof. induction s as [|a s IH]; simpl; [done|]. repeat case_match; simpl in *; lia. Qed.

Lemma substring_length n s : (String.length (String.substring 0 n s) <= n)%nat.
Proof. revert s. induction n as [|n IH]; intros [|a s]; simpl; try lia. specialize (IH s). lia. Qed.

#[local] Arguments String.append !_ _ /.

Lemma TrimRight_last c s p : TrimRight c s <> String.append p (String.String c EmptyString).
Proof.
  revert p. induction s as [|a s IH]; intros p; simpl.
  - by destruct p.
  - destruct (TrimRight c s) as [|b t] eqn:E.
    + case_bool_decide as Ha; [by destruct p|].
      destruct p as [|x p]; simpl; [congruence|]. intros [= _ Hp]. by destruct p.
    + destruct p as [|x p]; simpl; intros [= _ Hp]. by apply (IH p).
Qed.

#[local] Arguments String.append : simpl never.

(** A namespace derived from an identifier fits in a Kubernetes label: it is at
    most 63 bytes long and does not end with a dash. *)
Theorem FormatNamespace_label msg text ns :
  FormatNamespace msg text = Ok ns ->
  (String.length ns <= LabelValueMaxLength)%nat /\ HasSuffix ns "-" = false.
Proof.
  unfold FormatNamespace. destruct (MatchString dns1123_re text); [|done]. simpl. intros [= <-].
  split.
  - etransitivity; [apply TrimRight_length|]. unfold truncateString.
    destruct (Nat.ltb_spec LabelValueMaxLength (String.length ("rhacs-" +:+ text))); [|done].
    apply substring_length.
  - apply not_true_is_false. rewrite HasSuffix_spec. intros [p Hp]. by apply TrimRight_last in Hp.
Qed.

Lemma FormatNamespace_label_witness :
  (String.length "rhacs-cb45idheg5ip6dq1jo4g" <= LabelValueMaxLength)%nat /\
  HasSuffix "rhacs-cb45idheg5ip6dq1jo4g" "-" = false.
Proof. apply (FormatNamespace_label "" "cb45idheg5ip6dq1jo4g"). vm_compute. reflexivity. Defined.

(** ** Host names (util.go)

    replaceHostSpecialChar: a name is turned into a DNS-1035 label.  The validation of
    k8s.io/apimachinery is a parameter, with what it documents as [label_law]. *)

Module HostNames.

Definition replacementForSpecialChar : N := 45.
Definition letter (c : N) : bool := in_range 97 122 c.
Definition digit (c : N) : bool := in_range 48 57 c.

(** [ReplaceAllString] of the expression [^a-z]([^-a-z0-9]*[^a-z0-9])?, greedily: a rune that
    is no letter is replaced together with the runes after it that are neither letters,
    digits nor dashes, and one dash after those.  [matched] is whether the rune comes after
    the start of a match. *)
Fixpoint replace_special (matched : bool) (cs : list rune) : list N :=
  match cs with
  | [] => []
  | c :: cs =>
      if letter c then c :: replace_special false cs
      else if matched && (c =? 45)%N then replace_special false cs
      else if matched && negb (digit c) then replace_special true cs
      else replacementForSpecialChar :: replace_special true cs
  end.

(** What the validation documents: at most 63 characters, the first a letter, the last a
    letter or a digit, and letters, digits and dashes in between. *)
Definition label1035 (s : string) : bool :=
  let bs := bytes_of s in
  (String.length s <=? LabelValueMaxLength)%nat && forallb (fun b => letter b || digit b || (b =? 45)%N) bs &&
  match head bs, last bs with Some a, Some b => letter a && (letter b || digit b) | _, _ => false end.

Section host.
Variable (IsDNS1035Label : string -> list string).
Definition label_law : Prop := forall s, IsDNS1035Label s = [] <-> label1035 s = true.

Definition replaceHostSpecialChar (name : string) : string * option error :=
  let replacedName := maskProceedingandTrailingDash (string_of_bytes (replace_special false (runes (ToLower name)))) in
  let validationErrors := IsDNS1035Label replacedName in
  if bool_decide (validationErrors <> []) then
    (replacedName, Some (EPlain (Sprintf ("Host name is not valid: %s. A DNS-1035 label must consist of lower case alphanumeric characters or '-', " +:+
       "start with an alphabetic character, and end with an alphanumeric character, regex used for validation is '[a-z]([-a-z0-9]*[a-z0-9])?'")
       [VStr (Join "," validationErrors)])))
  else (replacedName, None).
End host.

(** *** The mask *)

Definition plain (bs : list N) : bool := forallb (fun b => letter b || (b =? 45)%N) bs.

Lemma replace_special_plain m cs : plain (replace_special m cs) = true.
Proof.
  revert m. induction cs as [|c cs IH]; intros m; simpl; [done|]. destruct (letter c) eqn:E; simpl; [by rewrite E, IH|].
  destruct (m && (c =? 45)%N); [done|]. destruct (m && negb (digit c)); [done|]. simpl. apply IH.
Qed.

Lemma replace_special_nil cs : replace_special false cs = [] -> cs = [].
Proof. destruct cs as [|c cs]; [done|]. simpl. by destruct (letter c). Qed.

Lemma bytes_of_length s : length (bytes_of s) = String.length s.
Proof. unfold bytes_of. rewrite length_fmap. induction s as [|a s IH]; [done|]. simpl. by rewrite IH. Qed.

Lemma substring_init p c : String.substring 0 (String.length (p +:+ String c "") - 1) (p +:+ String c "") = p.
Proof.
  rewrite string_length_append. simpl. replace (String.length p + 1 - 1)%nat with (String.length p) by lia.
  induction p as [|a p IH]; [done|]. change (String a p +:+ String c "") with (String a (p +:+ String c "")). simpl. by rewrite IH.
Qed.

Lemma substring_tail a s : String.substring 1 (String.length (String a s)) (String a s) = s.
Proof.
  cbn [String.substring String.length]. revert s. enough (forall s n, (String.length s <= n)%nat -> String.substring 0 n s = s) as H by (intros s; apply H; lia).
  induction s as [|b s IH]; intros [|n] Hn; simpl in *; try done; try lia. by rewrite IH by lia.
Qed.

(** The ends of a text of letters and dashes. *)
Definition good_last (bs : list N) : Prop := exists b, last bs = Some b /\ letter b = true.

Definition mask_last (name : string) : string :=
  if HasSuffix name "-" then String.substring 0 (String.length name - 1) name +:+ "a" else name.

Lemma string_last s : s <> "" -> exists p c, s = p +:+ String c "".
Proof.
  induction s as [|a s IH]; [done|]. intros _. destruct s as [|b s]; [by exists "", a|].
  destruct (IH ltac:(done)) as (p & c & E). exists (String a p), c. by rewrite E.
Qed.

Lemma mask_last_good s :
  s <> "" -> plain (bytes_of s) = true ->
  String.length (mask_last s) = String.length s /\ plain (bytes_of (mask_last s)) = true /\ good_last (bytes_of (mask_last s)).
Proof.
  intros Hne Hp. unfold mask_last. destruct (string_last s Hne) as (p & c & ->). rewrite bytes_of_append in Hp. unfold plain in *.
  rewrite forallb_app in Hp. apply andb_true_iff in Hp as [Hp Hc]. destruct (HasSuffix _ "-") eqn:E.
  - rewrite substring_init, !string_length_append, bytes_of_append, forallb_app, Hp. split; [done|]. split; [done|].
    exists 97%N. change (bytes_of "a") with [97%N]. by rewrite last_snoc.
  - rewrite bytes_of_append, forallb_app, Hp, Hc. split_and!; [done..|]. exists (Ascii.N_of_ascii c).
    change (bytes_of (String c "")) with [Ascii.N_of_ascii c] in *. rewrite last_snoc. split; [done|].
    simpl in Hc. rewrite andb_true_r in Hc. apply orb_true_iff in Hc as [Hc|Hc]; [done|]. apply N.eqb_eq in Hc.
    exfalso. enough (HasSuffix (p +:+ String c "") "-" = true) by congruence. apply HasSuffix_spec. exists p. repeat f_equal.
    by rewrite <- (Ascii.ascii_N_embedding c), Hc.
Qed.

Lemma mask_good s :
  s <> "" -> plain (bytes_of s) = true ->
  let m := maskProceedingandTrailingDash s in
  String.length m = String.length s /\ plain (bytes_of m) = true /\ good_last (bytes_of m) /\
  exists b, head (bytes_of m) = Some b /\ letter b = true.
Proof.
  intros Hne Hp. cbv zeta. change (maskProceedingandTrailingDash s) with
    (if HasPrefix (mask_last s) "-" then ReplaceFirst (mask_last s) "-" "a" else mask_last s).
  destruct (mask_last_good s Hne Hp) as (Hl & Hm & Hg). destruct (mask_last s) as [|a t]; [by destruct s|].
  destruct (HasPrefix (String a t) "-") eqn:E.
  - assert (ReplaceFirst (String a t) "-" "a" = String (Ascii.ascii_of_N 97) t) as ->.
    { cbn [ReplaceFirst]. rewrite E. change (String.length "-") with 1%nat. by rewrite substring_tail. }
    assert (t <> "") as Ht.
    { intros ->. unfold HasPrefix in E. cbn in E. case_match; [|done]. subst. destruct Hg as (b & [= <-] & Hlet). vm_compute in Hlet. discriminate. }
    split; [done|]. split; [|split].
    + unfold plain in *. simpl in *. apply andb_true_iff in Hm as [_ Hm]. exact Hm.
    + destruct Hg as (b & Hb & Hlb). exists b. split; [|done]. unfold bytes_of in *. destruct t as [|a' t]; [done|]. exact Hb.
    + by exists 97%N.
  - split_and!; [done..|]. exists (Ascii.N_of_ascii a). split; [done|]. unfold plain in Hm. simpl in Hm.
    apply andb_true_iff in Hm as [Hm _]. apply orb_true_iff in Hm as [Hm|Hm]; [done|]. apply N.eqb_eq in Hm. exfalso.
    assert (a = Ascii.ascii_of_N 45) as -> by by rewrite <- (Ascii.ascii_N_embedding a), Hm. by destruct t.
Qed.

(** A host name is built, and the comment holds that this should never fail, exactly when the
    name is not empty and what remains of it after the replacement is not too long; digits are
    replaced too, although a label may have them. *)
Theorem replaceHostSpecialChar_valid IsDNS1035Label name :
  label_law IsDNS1035Label ->
  let replaced := replace_special false (runes (ToLower name)) in
  ((replaceHostSpecialChar IsDNS1035Label name).2 = None <-> replaced <> [] /\ (length replaced <= LabelValueMaxLength)%nat).
Proof.
  intros Hlaw. cbv zeta. unfold replaceHostSpecialChar. set (bs := replace_special false (runes (ToLower name))).
  assert (Hb : bytes_of (string_of_bytes bs) = bs).
  { apply bytes_of_string_of_bytes. apply Forall_forall. intros b Hin. pose proof (replace_special_plain false (runes (ToLower name))) as Hp.
    unfold plain in Hp. rewrite forallb_forall in Hp. specialize (Hp b (proj1 (list_elem_of_In _ _) Hin)). cbn beta in Hp. unfold letter, in_range in Hp.
    rewrite orb_true_iff, andb_true_iff, !N.leb_le, N.eqb_eq in Hp. lia. }
  destruct (decide (bs = [])) as [Hn|Hn].
  - rewrite Hn. split; [|by intros []]. simpl. case_bool_decide as Hv; [done|]. by apply Hlaw in Hv.
  - assert (Hs : string_of_bytes bs <> "") by (intros H; rewrite H in Hb; by rewrite <- Hb in Hn).
    destruct (mask_good (string_of_bytes bs) Hs ltac:(rewrite Hb; apply replace_special_plain)) as (Hl & Hm & (b & Hlb & Hb') & a & Ha & Ha').
    rewrite <- (bytes_of_length (string_of_bytes bs)), Hb in Hl. set (m := maskProceedingandTrailingDash _) in *.
    assert (label1035 m = (length bs <=? LabelValueMaxLength)%nat) as Hlab.
    { unfold label1035. rewrite Hl, Ha, Hlb, Ha', Hb'. rewrite !andb_true_r. enough (forallb (fun b => letter b || digit b || (b =? 45)%N) (bytes_of m) = true) as -> by by rewrite andb_true_r.
      apply forallb_forall. intros x Hx. unfold plain in Hm. rewrite forallb_forall in Hm. specialize (Hm x Hx).
      apply orb_true_iff in Hm as [->| ->]; [done|]. by rewrite orb_true_r. }
    specialize (Hlaw m). rewrite Hlab, Nat.leb_le in Hlaw. case_bool_decide as Hv; simpl.
    + split; [done|]. intros [_ Hle]. by apply Hlaw in Hle.
    + split; [|done]. intros _. split; [done|]. by apply Hlaw.
Qed.

End HostNames.
