(* ===== verification/ClusterService.v ===== *)
(** * The cluster service (internal/dinosaur/pkg/services/clusters.go)

    Registration, lookup, update and removal of data plane clusters, the calls to
    the cluster providers, and the placement of centrals
    (cluster_placement_strategy.go).

    A nil pointer dereference is reported as [nil_dereference], an error whose
    code no service error has. *)

From Stdlib Require Import Sorting.Sorted.
From S2P Require Import Prelude GoString GoFmt ServiceErrors CentralRequest Store Versions ClusterTypes ProviderTypes.
From S2P Require Import World MemPlatform.
Local Open Scope string_scope.
Local Open Scope Z_scope.

Definition nil_dereference : ServiceError := mkServiceError 0 "nil pointer dereference" 0 None.

(** gorm refuses a DELETE without a condition. *)
Definition ErrMissingWhereClause : error := EPlain "WHERE conditions required".

Definition ClusterOperationCreate : string := "create".
Definition ClusterOperationDelete : string := "delete".

(** [Where(struct)]: the fields of the struct that are not zero are compared. *)
Definition where_string (wanted actual : string) : bool :=
  bool_decide (wanted = "") || bool_decide (wanted = actual).

Record FindClusterCriteria := mkCriteria {
  fc_Provider : string; fc_Region : string; fc_MultiAZ : bool; fc_Status : string
}.

Definition criteria_match (fc : FindClusterCriteria) (c : Cluster) : bool :=
  where_string (fc_Provider fc) (cl_CloudProvider c) && where_string (fc_Region fc) (cl_Region c) &&
  (negb (fc_MultiAZ fc) || cl_MultiAZ c) && where_string (fc_Status fc) (cl_Status c).

(** [DefaultProviderFactory.GetProvider]: the provider's key. *)
Definition GetProvider (providerType : string) : result error string :=
  let providerType := if bool_decide (providerType = "") then ClusterProviderOCM else providerType in
  if bool_decide (providerType ∈ [ClusterProviderStandalone; ClusterProviderOCM]) then Ok providerType
  else Err (ETraced (Sprintf "invalid provider type: %v" [VStr providerType])).

Definition general {A} (err : error) (msg : string) : result ServiceError A :=
  Err (NewWithCause ErrorGeneral (Some err) msg []).

Definition no_provider {A} (err : error) : result ServiceError A :=
  general err "failed to get provider implementation".

Definition buildClusterSpec (c : Cluster) : ClusterSpec :=
  mkClusterSpec (cl_ClusterID c) (cl_ExternalID c) (cl_Status c) "" (cl_ClusterSpec c).

Section service.
Context `{Platform}.

(** [dbConn.Save(cluster)]: an insert when the cluster has no identifier. *)
Definition save_cluster (c : Cluster) : prog world (result error Cluster) :=
  if bool_decide (cl_ID c = "") then
    id ← fresh_id;
    on_clusters (db_create (Cluster_BeforeCreate id c))
  else on_clusters (db_save c).

Definition RegisterClusterJob (clusterRequest : Cluster) : prog world (option ServiceError) :=
  r ← save_cluster clusterRequest;
  match r with
  | Err err => mret (Some (NewWithCause ErrorGeneral (Some err) "failed to register cluster job" []))
  | Ok _ => mret None
  end.

Definition Create (c : Cluster) : prog world (result ServiceError Cluster) :=
  match GetProvider (cl_ProviderType c) with
  | Err err => mret (no_provider err)
  | Ok p =>
      rs ← on_ext (provider_Create p (mkClusterRequest (cl_CloudProvider c) (cl_Region c)
             (cl_MultiAZ c) (cl_ProviderSpec c)));
      match rs with
      | Err err => mret (general err "failed to create cluster")
      | Ok None => mret (Err nil_dereference)
      | Ok (Some spec) =>
          let c := set_cl_ClusterID (cs_InternalID spec) c in
          let c := set_cl_ExternalID (cs_ExternalID spec) c in
          let c := set_cl_Status (cs_Status spec) c in
          let c := set_cl_Schedulable true c in
          let c := match cs_AdditionalInfo spec with
                   | Some i => set_cl_ClusterSpec (Some i) c | None => c end in
          r ← save_cluster c;
          match r with
          | Err err => mret (general err "failed to save data to db")
          | Ok c => mret (Ok c)
          end
      end
  end.

Definition FindClusterByID (clusterID : string) : prog world (result ServiceError (option Cluster)) :=
  if bool_decide (clusterID = "") then mret (Err (Validation "clusterID is undefined" []))
  else
    r ← on_clusters (db_first (fun c => bool_decide (cl_ClusterID c = clusterID)));
    match r with
    | Ok c => mret (Ok (Some c))
    | Err ErrRecordNotFound => mret (Ok None)
    | Err err => mret (Err (NewWithCause ErrorGeneral (Some err) "failed to find cluster with id: %s"
        [VStr clusterID]))
    end.

Definition Cluster_Update (c : Cluster) : prog world (option ServiceError) :=
  if bool_decide (cl_ID c = "") then mret (Some (Validation "id is undefined" []))
  else
    r ← on_clusters (db_update (fun r => bool_decide (cl_ID r = cl_ID c)) (fun r => merge_Cluster r c));
    match r with
    | Err err => mret (Some (NewWithCause ErrorGeneral (Some err) "failed to update cluster" []))
    | Ok _ => mret None
    end.

(** [fields] as the assignment it stands for. *)
Definition Cluster_Updates (c : Cluster) (fields : Cluster -> Cluster) : prog world (option ServiceError) :=
  if bool_decide (cl_ID c = "") then mret (Some (Validation "id is undefined" []))
  else
    r ← on_clusters (db_update (fun r => bool_decide (cl_ID r = cl_ID c)) fields);
    match r with
    | Err err => mret (Some (NewWithCause ErrorGeneral (Some err) "failed to update cluster" []))
    | Ok _ => mret None
    end.

Definition GetClusterDNS (clusterID : string) : prog world (result ServiceError string) :=
  rc ← FindClusterByID clusterID;
  match rc with
  | Err err => mret (Err err)
  | Ok None => mret (Err nil_dereference)
  | Ok (Some c) =>
      if bool_decide (cl_ClusterDNS c <> "") then mret (Ok (cl_ClusterDNS c))
      else match GetProvider (cl_ProviderType c) with
      | Err err => mret (no_provider err)
      | Ok p =>
          rd ← on_ext (provider_GetClusterDNS p (buildClusterSpec c));
          match rd with
          | Err err => mret (general err "failed to get cluster DNS from OCM")
          | Ok clusterDNS =>
              ru ← Cluster_Update (set_cl_ClusterDNS clusterDNS c);
              match ru with
              | Some err => mret (general (EService err) "failed to update cluster DNS")
              | None => mret (Ok clusterDNS)
              end
          end
      end
  end.

Definition Cluster_ListByStatus (status : string) : prog world (result ServiceError (list Cluster)) :=
  if bool_decide (status = "") then mret (Err (Validation "status is undefined" []))
  else
    r ← on_clusters (db_find (fun c => bool_decide (cl_Status c = status)));
    match r with
    | Err err => mret (general err "failed to query by status")
    | Ok l => mret (Ok l)
    end.

Definition Cluster_UpdateStatus (c : Cluster) (status : string) : prog world (option ServiceError) :=
  if bool_decide (status = "") then mret (Some (Validation "status is undefined" []))
  else if bool_decide (cl_ID c = "") && bool_decide (cl_ClusterID c = "")
  then mret (Some (Validation "id is undefined" []))
  else
    _ ← (if bool_decide (status ∈ [ClusterReady; ClusterFailed])
         then emit (ClusterTotalOperations ClusterOperationCreate) else mret tt);
    r ← on_clusters (db_update
          (fun r => if bool_decide (cl_ID c <> "") then bool_decide (cl_ID r = cl_ID c)
                    else bool_decide (cl_ClusterID r = cl_ClusterID c))
          (set_cl_Status status));
    match r with
    | Err err => mret (Some (NewWithCause ErrorGeneral (Some err) "failed to update cluster status" []))
    | Ok _ =>
        _ ← (if bool_decide (status = ClusterReady)
             then emit (ClusterSuccessOperations ClusterOperationCreate) else mret tt);
        mret None
    end.

(** provider, region and number of clusters *)
Definition ListGroupByProviderAndRegion (providers regions status : list string)
    : prog world (result ServiceError (list (list string * Z))) :=
  if (length providers =? 0)%nat || (length regions =? 0)%nat || (length status =? 0)%nat
  then mret (Err (Validation "provider, region and status must not be empty" []))
  else
    r ← on_clusters (db_group
          (fun c => bool_decide (cl_CloudProvider c ∈ providers) && bool_decide (cl_Region c ∈ regions) &&
                    bool_decide (cl_Status c ∈ status))
          (fun c => [cl_CloudProvider c; cl_Region c]));
    match r with
    | Err err => mret (general err "failed to list by cloud provider, regions and status")
    | Ok l => mret (Ok l)
    end.

(** The ORDER clause comes after [First] has run the query: no order by creation. *)
Definition FindCluster_criteria (fc : FindClusterCriteria) : prog world (result ServiceError (option Cluster)) :=
  r ← on_clusters (db_first (criteria_match fc));
  match r with
  | Ok c => mret (Ok (Some c))
  | Err ErrRecordNotFound => mret (Ok None)
  | Err err => mret (general err "failed to find cluster with criteria")
  end.

Definition FindAllClusters (fc : FindClusterCriteria) : prog world (result ServiceError (list Cluster)) :=
  r ← on_clusters (db_find_by (criteria_match fc) cl_CreatedAt);
  match r with
  | Ok l => mret (Ok l)
  | Err ErrRecordNotFound => mret (Ok [])
  | Err err => mret (general err "failed to find all clusters with criteria")
  end.

(** The common part of the calls to the provider of an existing cluster. *)
Definition with_cluster {A} (clusterID : string) (missing : ServiceError)
    (call : string -> ClusterSpec -> prog externals (result error A)) (failed : string)
    : prog world (result ServiceError A) :=
  if bool_decide (clusterID = "") then mret (Err (Validation "clusterID is undefined" []))
  else
    rc ← FindClusterByID clusterID;
    match rc with
    | Err err => mret (Err err)
    | Ok None => mret (Err missing)
    | Ok (Some c) =>
        match GetProvider (cl_ProviderType c) with
        | Err err => mret (no_provider err)
        | Ok p =>
            r ← on_ext (call p (buildClusterSpec c));
            match r with
            | Err err => mret (general err failed)
            | Ok a => mret (Ok a)
            end
        end
    end.

Definition cluster_missing (clusterID : string) : ServiceError :=
  New ErrorGeneral "unable to find a cluster identified by '%s'" [VStr clusterID].

Definition ScaleUpComputeNodes (clusterID : string) (increment : Z) : prog world (result ServiceError ClusterSpec) :=
  with_cluster clusterID (cluster_missing clusterID) (fun p s => provider_ScaleUp p s increment)
    "failed to scale up cluster".

Definition ScaleDownComputeNodes (clusterID : string) (decrement : Z) : prog world (result ServiceError ClusterSpec) :=
  with_cluster clusterID (cluster_missing clusterID) (fun p s => provider_ScaleDown p s decrement)
    "failed to scale down cluster".

Definition SetComputeNodes (clusterID : string) (numNodes : Z) : prog world (result ServiceError ClusterSpec) :=
  with_cluster clusterID nil_dereference (fun p s => provider_SetComputeNodes p s numNodes)
    "failed to set compute nodes".

Definition GetComputeNodes (clusterID : string) : prog world (result ServiceError (Z * Z)) :=
  with_cluster clusterID nil_dereference provider_GetComputeNodes
    "failed to get compute nodes info from provider".

Definition DeleteByClusterID (clusterID : string) : prog world (option ServiceError) :=
  _ ← emit (ClusterTotalOperations ClusterOperationDelete);
  r ← (if bool_decide (clusterID = "") then mret (Err ErrMissingWhereClause)
       else on_clusters (db_delete (fun c => bool_decide (cl_ClusterID c = clusterID))));
  match r with
  | Err err => mret (Some (NewWithCause ErrorGeneral (Some err) "Unable to delete cluster with cluster_id %s"
      [VStr clusterID]))
  | Ok _ =>
      _ ← emit (ClusterSuccessOperations ClusterOperationDelete);
      mret None
  end.

(** One statement with a subquery over the centrals. *)
Definition FindNonEmptyClusterByID (clusterID : string) : prog world (result ServiceError (option Cluster)) :=
  rs ← on_centrals (db_find (fun r => bool_decide (cr_Status r <> CentralRequestStatusFailed) &&
         bool_decide (cr_ClusterID r = clusterID)));
  match rs with
  | Err err => mret (Err (NewWithCause ErrorGeneral (Some err) "failed to find cluster with id %s"
      [VStr clusterID]))
  | Ok found =>
      r ← on_clusters (db_first (fun c => where_string clusterID (cl_ClusterID c) &&
            bool_decide (cl_ClusterID c ∈ cr_ClusterID <$> found)));
      match r with
      | Ok c => mret (Ok (Some c))
      | Err ErrRecordNotFound => mret (Ok None)
      | Err err => mret (Err (NewWithCause ErrorGeneral (Some err) "failed to find cluster with id %s"
          [VStr clusterID]))
      end
  end.

(** Only the column cluster_id is selected. *)
Definition ListAllClusterIds : prog world (result ServiceError (list Cluster)) :=
  r ← on_clusters (db_find_by (fun c => bool_decide (cl_ClusterID c <> "")) cl_CreatedAt);
  match r with
  | Err err => mret (general err "failed to query by cluster info")
  | Ok l => mret (Ok ((fun c => set_cl_ClusterID (cl_ClusterID c) zero_Cluster) <$> l))
  end.

Definition GetExternalID (clusterID : string) : prog world (result ServiceError string) :=
  rc ← FindClusterByID clusterID;
  match rc with
  | Err err => mret (Err err)
  | Ok None => mret (Err (GeneralError "failed to get External ID for clusterID %s" [VStr clusterID]))
  | Ok (Some c) => mret (Ok (cl_ExternalID c))
  end.

(** The counts of a list of keys: the groups found and zero for the others. *)
Definition fill_counts (keys : list string) (found : list (string * Z)) : list (string * Z) :=
  found ++ ((fun k => (k, 0)) <$> filter (fun k => k ∉ found.*1) keys).

(** The single column of a group key. *)
Definition group_name (g : list string * Z) : string * Z := (default "" (head g.1), g.2).

(** The ORDER BY of the query is not modelled: the order of the groups is open. *)
Definition FindDinosaurInstanceCount (clusterIDs : list string)
    : prog world (result ServiceError (list (string * Z))) :=
  r ← on_centrals (db_group
        (fun r => bool_decide (cr_Status r <> CentralRequestStatusAccepted) &&
          (if (0 <? length clusterIDs)%nat then bool_decide (cr_ClusterID r ∈ clusterIDs)
           else bool_decide (cr_ClusterID r <> "")))
        (fun r => [cr_ClusterID r]));
  match r with
  | Err err => mret (general err "failed to query by cluster info")
  | Ok groups => mret (Ok (fill_counts clusterIDs (group_name <$> groups)))
  end.

Definition UpdateMultiClusterStatus (clusterIds : list string) (status : string)
    : prog world (option ServiceError) :=
  if bool_decide (status = "") then mret (Some (Validation "status is undefined" []))
  else if (length clusterIds =? 0)%nat then mret (Some (Validation "ids is empty" []))
  else
    r ← on_clusters (db_update
          (fun c => bool_decide (cl_ClusterID c ∈ clusterIds) &&
            (if bool_decide (status = ClusterDeprovisioning)
             then bool_decide (cl_Status c <> ClusterCleanup) else true))
          (set_cl_Status status));
    match r with
    | Err err => mret (Some (NewWithCause ErrorGeneral (Some err) "failed to update status: %s"
        [VStr ("[" +:+ Join " " clusterIds +:+ "]")]))
    | Ok n =>
        _ ← emit_times (Z.to_nat n)
              (if bool_decide (status = ClusterFailed) then [ClusterTotalOperations ClusterOperationCreate]
               else if bool_decide (status = ClusterReady)
               then [ClusterTotalOperations ClusterOperationCreate;
                     ClusterSuccessOperations ClusterOperationCreate]
               else []);
        mret None
    end.

Definition Cluster_CountByStatus (status : list string) : prog world (result ServiceError (list (string * Z))) :=
  r ← on_clusters (db_group (fun c => bool_decide (cl_Status c ∈ status)) (fun c => [cl_Status c]));
  match r with
  | Err err => mret (general err "failed to count by status")
  | Ok groups => mret (Ok (fill_counts status (group_name <$> groups)))
  end.

Definition CheckClusterStatus (c : Cluster) : prog world (result ServiceError Cluster) :=
  match GetProvider (cl_ProviderType c) with
  | Err err => mret (no_provider err)
  | Ok p =>
      rs ← on_ext (provider_CheckClusterStatus p (buildClusterSpec c));
      match rs with
      | Err err => mret (general err "failed to check cluster status")
      | Ok spec =>
          let c := set_cl_Status (cs_Status spec) c in
          let c := set_cl_StatusDetails (cs_StatusDetails spec) c in
          let c := set_cl_ClusterSpec (cs_AdditionalInfo spec) c in
          let c := if bool_decide (cs_ExternalID spec <> "") && bool_decide (cl_ExternalID c = "")
                   then set_cl_ExternalID (cs_ExternalID spec) c else c in
          ru ← Cluster_Update c;
          match ru with
          | Some err => mret (Err err)
          | None => mret (Ok c)
          end
      end
  end.

Definition Cluster_Delete (c : Cluster) : prog world (result ServiceError bool) :=
  match GetProvider (cl_ProviderType c) with
  | Err err => mret (no_provider err)
  | Ok p =>
      r ← on_ext (provider_Delete p (buildClusterSpec c));
      match r with
      | Err err => mret (general err "failed to delete the cluster from the provider")
      | Ok removed => mret (Ok removed)
      end
  end.

Definition ConfigureAndSaveIdentityProvider (c : Cluster) (info : IdentityProviderInfo)
    : prog world (result ServiceError Cluster) :=
  if bool_decide (cl_IdentityProviderID c <> "") then mret (Ok c)
  else match GetProvider (cl_ProviderType c) with
  | Err err => mret (no_provider err)
  | Ok p =>
      r ← on_ext (provider_AddIdentityProvider p (buildClusterSpec c) info);
      match r with
      | Err err => mret (general err "failed to add identity provider")
      | Ok None | Ok (Some (mkIdentityProviderInfo None)) => mret (Err nil_dereference)
      | Ok (Some (mkIdentityProviderInfo (Some openID))) =>
          let c := set_cl_IdentityProviderID (oid_ID openID) c in
          ru ← Cluster_Update c;
          match ru with
          | Some err => mret (general (EService err) "failed to update cluster")
          | None => mret (Ok c)
          end
      end
  end.

Definition ApplyResources (c : Cluster) (resources : ResourceSet) : prog world (option ServiceError) :=
  match GetProvider (cl_ProviderType c) with
  | Err err => mret (Some (NewWithCause ErrorGeneral (Some err) "failed to get provider implementation" []))
  | Ok p =>
      r ← on_ext (provider_ApplyResources p (buildClusterSpec c) resources);
      match r with
      | Err err => mret (Some (NewWithCause ErrorGeneral (Some err) "failed to apply resources %s"
          [VStr (rset_Name resources)]))
      | Ok _ => mret None
      end
  end.

Definition InstallDinosaurOperator (c : Cluster) : prog world (result ServiceError bool) :=
  match GetProvider (cl_ProviderType c) with
  | Err err => mret (no_provider err)
  | Ok p =>
      r ← on_ext (provider_InstallDinosaurOperator p (buildClusterSpec c));
      match r with
      | Err err => mret (Err (NewWithCause ErrorGeneral (Some err) "failed to install central for cluster %s"
          [VStr (cl_ClusterID c)]))
      | Ok ready => mret (Ok ready)
      end
  end.
End service.

Definition wrap_versions_error {A} (err : error) : result error A :=
  Err (Errorf_w "retrieving ready central operator versions" err).

Definition CheckDinosaurOperatorVersionReady (c : Cluster) (operatorVersion : string) : result error bool :=
  match GetAvailableAndReadyCentralOperatorVersions c with
  | Err err => wrap_versions_error err
  | Ok vs => Ok (existsb (fun v => bool_decide (ov_Version v = operatorVersion)) vs)
  end.

(** The first ready operator version of that name decides. *)
Definition IsDinosaurVersionAvailableInCluster (c : Cluster) (operatorVersion dinosaurVersion : string)
    : result error bool :=
  match GetAvailableAndReadyCentralOperatorVersions c with
  | Err err => wrap_versions_error err
  | Ok vs =>
      match list_find (fun v => ov_Version v = operatorVersion) vs with
      | Some (_, v) => Ok (existsb (fun k => bool_decide (cv_Version k = dinosaurVersion)) (ov_CentralVersions v))
      | None => Ok false
      end
  end.

(** ** Placement (cluster_placement_strategy.go) *)

Definition supportsInstanceType (c : Cluster) (instanceType : string) : bool :=
  bool_decide (instanceType ∈ Split (Ascii.ascii_of_N 44) (cl_SupportedInstanceType c)).

Definition FindCluster `{Platform} (central : CentralRequest) : prog world (result error (option Cluster)) :=
  r ← FindAllClusters (mkCriteria (cr_CloudProvider central) (cr_Region central) (cr_MultiAZ central) ClusterReady);
  match r with
  | Err err => mret (Err (EService err))
  | Ok l => mret (Ok (snd <$> list_find (fun c =>
      cl_Schedulable c = true /\ supportsInstanceType c (cr_InstanceType central) = true) l))
  end.

(** ** Frame: the cluster service does not write the centrals table *)

Section frame.
Context `{PlatformLaws} (Q : relation (rowstate CentralRequest)) `{!PreOrder Q}.

Lemma rows_FindClusterByID id : preserves (on_rows Q) (FindClusterByID id).
Proof. unfold FindClusterByID. preserves_tac. Qed.

Lemma rows_Cluster_Update c : preserves (on_rows Q) (Cluster_Update c).
Proof. unfold Cluster_Update. preserves_tac. Qed.

Lemma rows_GetClusterDNS id : preserves (on_rows Q) (GetClusterDNS id).
Proof.
  unfold GetClusterDNS. pose proof rows_FindClusterByID. pose proof rows_Cluster_Update. preserves_tac.
Qed.

Lemma rows_FindAllClusters fc : preserves (on_rows Q) (FindAllClusters fc).
Proof. unfold FindAllClusters. preserves_tac. Qed.

Lemma rows_FindCluster r : preserves (on_rows Q) (FindCluster r).
Proof. unfold FindCluster. pose proof rows_FindAllClusters. preserves_tac. Qed.

Lemma rows_Cluster_UpdateStatus c s : preserves (on_rows Q) (Cluster_UpdateStatus c s).
Proof. unfold Cluster_UpdateStatus. preserves_tac. Qed.
End frame.

#[export] Hint Resolve rows_FindClusterByID rows_GetClusterDNS rows_FindCluster rows_Cluster_Update
  rows_Cluster_UpdateStatus : fleet.

(** ** Theorems *)

(** A cluster fit for a central: ready, open for scheduling, of the wanted
    provider and region, multi-AZ if wanted, and of a supported type. *)
Definition fits (central : CentralRequest) (c : Cluster) : Prop :=
  cl_Status c = ClusterReady /\ cl_Schedulable c = true /\
  where_string (cr_CloudProvider central) (cl_CloudProvider c) = true /\
  where_string (cr_Region central) (cl_Region c) = true /\
  (cr_MultiAZ central = true -> cl_MultiAZ c = true) /\
  cr_InstanceType central ∈ Split (Ascii.ascii_of_N 44) (cl_SupportedInstanceType c).

Lemma fits_criteria central c :
  fits central c <->
  criteria_match (mkCriteria (cr_CloudProvider central) (cr_Region central) (cr_MultiAZ central) ClusterReady) c
    = true /\
  cl_Schedulable c = true /\ supportsInstanceType c (cr_InstanceType central) = true.
Proof.
  unfold fits, criteria_match, supportsInstanceType. simpl.
  rewrite !andb_true_iff, orb_true_iff, bool_decide_eq_true. unfold where_string at 5. simpl.
  rewrite bool_decide_eq_true. split.
  - intros (Hs & ? & ? & ? & Hm & ?). split_and!; try done.
    destruct (cr_MultiAZ central); [right; auto|by left].
  - intros ((((Hp & Hr) & Hm) & Hs) & ? & ?). split_and!; try done. intros E. rewrite E in Hm. by destruct Hm.
Qed.

Section theorems.
Context `{PlatformLaws}.

Lemma FindClusterByID_ok id w c :
  (FindClusterByID id w).2 = Ok (Some c) -> clusters w !! cl_ID c = Some c /\ cl_ClusterID c = id.
Proof.
  unfold FindClusterByID. case_bool_decide; [done|]. rewrite prog_bind_run.
  destruct (on_clusters_run (db_first (fun c => bool_decide (cl_ClusterID c = id))) w) as (_ & _ & Hr).
  destruct ((on_clusters _ w).2) as [x|e]; [|by destruct e]. intros [= <-]. symmetry in Hr.
  apply (first_ok _ (w_clusters w) x) in Hr as [Hx Hid]. by apply bool_decide_eq_true in Hid.
Qed.

Lemma clusters_by_id w id k c :
  clusters w !! k = Some c -> bool_decide (cl_ID c = id) = bool_decide (k = id).
Proof. intros Hc. by rewrite (clusters_id w k c Hc). Qed.

Lemma Cluster_Update_ok c w x :
  (Cluster_Update c w).2 = None -> clusters w !! cl_ID c = Some x ->
  exists t, clusters (Cluster_Update c w).1 = <[cl_ID c := set_cl_UpdatedAt t (merge_Cluster x c)]> (clusters w).
Proof.
  unfold Cluster_Update. case_bool_decide; [done|]. rewrite prog_bind_run.
  set (p := fun r => bool_decide (cl_ID r = cl_ID c)). set (f := fun r => merge_Cluster r c).
  destruct ((on_clusters (db_update p f) w).2) as [n|e] eqn:E; [|done]. intros _ Hx.
  apply clusters_update_result in E as [t Ht]; [|done]. exists t. simpl. rewrite Ht.
  rewrite (updated_row t p f _ _ x Hx); [done|]. intros k y. apply clusters_by_id.
Qed.

Lemma Cluster_UpdateStatus_ok c s w x :
  cl_ID c <> "" -> (Cluster_UpdateStatus c s w).2 = None -> clusters w !! cl_ID c = Some x ->
  exists t, clusters (Cluster_UpdateStatus c s w).1 = <[cl_ID c := set_cl_UpdatedAt t (set_cl_Status s x)]> (clusters w).
Proof.
  intros Hne. unfold Cluster_UpdateStatus. case_bool_decide; [done|].
  rewrite (bool_decide_eq_false_2 (cl_ID c = "")) by done. simpl. rewrite prog_bind_run.
  set (w1 := (_ w).1). assert (clusters w1 = clusters w) as <- by (unfold w1; by destruct (bool_decide _)).
  rewrite prog_bind_run. rewrite (bool_decide_eq_true_2 (cl_ID c <> "")) by done.
  set (p := fun r => bool_decide (cl_ID r = cl_ID c)).
  destruct ((on_clusters (db_update p (set_cl_Status s)) w1).2) as [n|e] eqn:E; [|done]. intros _ Hx.
  apply clusters_update_result in E as [t Ht]; [|done]. exists t. rewrite prog_bind_run. simpl.
  transitivity (updated t p (set_cl_Status s) (clusters w1)); [rewrite <- Ht; by destruct (bool_decide (s = ClusterReady))|].
  rewrite (updated_row t p _ _ _ x Hx); [done|]. intros k y. apply clusters_by_id.
Qed.

Lemma FindAllClusters_ok fc w l :
  (FindAllClusters fc w).2 = Ok l ->
  l = [] \/ (l ≡ₚ (map_to_list (matching (criteria_match fc) (clusters w))).*2 /\
             StronglySorted (by_key cl_CreatedAt) l).
Proof.
  unfold FindAllClusters. rewrite prog_bind_run.
  destruct (on_clusters_run (db_find_by (criteria_match fc) cl_CreatedAt) w) as (_ & _ & Hr).
  destruct ((on_clusters (db_find_by (criteria_match fc) cl_CreatedAt) w).2) as [l'|e].
  - intros [= <-]. right. symmetry in Hr. by apply find_by_ok in Hr.
  - destruct e; intros [= <-]; by left.
Qed.

Lemma FindCluster_ok central w c :
  (FindCluster central w).2 = Ok (Some c) ->
  clusters w !! cl_ID c = Some c /\ fits central c /\
  forall id c', clusters w !! id = Some c' -> fits central c' -> cl_CreatedAt c <= cl_CreatedAt c'.
Proof.
  unfold FindCluster. rewrite prog_bind_run.
  destruct ((FindAllClusters _ w).2) as [l|e] eqn:Hl; [|done]. intros [= Hf].
  apply fmap_Some in Hf as ([i c0] & Hf & Hc0). simpl in Hc0. subst c0.
  apply list_find_Some in Hf as (Hi & [Hsch Hsup] & Hprev).
  apply FindAllClusters_ok in Hl as [->|[Hperm Hsort]]; [done|].
  assert (forall x, x ∈ l -> clusters w !! cl_ID x = Some x /\ criteria_match
    (mkCriteria (cr_CloudProvider central) (cr_Region central) (cr_MultiAZ central) ClusterReady) x = true)
    as Hin.
  { intros x Hx. rewrite Hperm in Hx. apply list_elem_of_fmap in Hx as ([k x'] & -> & Hx). simpl.
    apply elem_of_map_to_list, matching_lookup in Hx as [Hk Hm].
    by rewrite (clusters_id w k x' Hk). }
  destruct (Hin c) as [Hrow Hcrit]; [by eapply list_elem_of_lookup_2|].
  split_and!; [done|by apply fits_criteria|].
  intros id c' Hc' [Hcrit' [Hsch' Hsup']]%fits_criteria.
  assert (c' ∈ l) as Hc'l.
  { rewrite Hperm. apply list_elem_of_fmap. exists (id, c'). split; [done|].
    by apply elem_of_map_to_list, matching_lookup. }
  apply list_elem_of_lookup in Hc'l as [j Hj].
  assert (i <= j)%nat as Hij.
  { destruct (decide (j < i)%nat) as [Hlt|]; [|lia]. by destruct (Hprev j c' Hj Hlt). }
  destruct (decide (i = j)) as [->|Hne]; [simplify_eq; lia|].
  assert (i < j)%nat as Hlt by lia. by apply (sorted_lookup cl_CreatedAt l i j).
Qed.

(** C37. Placement: a cluster chosen for a central is a row of the table that fits
    the central, and no fitting cluster of the table was created before it. *)
Theorem FindCluster_sound central w c :
  (FindCluster central w).2 = Ok (Some c) ->
  clusters w !! cl_ID c = Some c /\ fits central c /\
  forall id c', clusters w !! id = Some c' -> fits central c' -> cl_CreatedAt c <= cl_CreatedAt c'.
Proof. apply FindCluster_ok. Qed.

(** The number of centrals per data plane cluster: every requested cluster is
    reported, and a reported number is the number of live centrals of that
    cluster that are past the accepted status. *)
Lemma FindDinosaurInstanceCount_ok ids w l :
  ids <> [] ->
  (FindDinosaurInstanceCount ids w).2 = Ok l ->
  (forall id, id ∈ ids -> id ∈ l.*1) /\
  forall id n, (id, n) ∈ l -> id ∈ ids /\
    n = Z.of_nat (size (matching (fun r => bool_decide (cr_Status r <> CentralRequestStatusAccepted) &&
          bool_decide (cr_ClusterID r ∈ ids) && bool_decide ([cr_ClusterID r] = [id])) (centrals w))).
Proof.
  intros Hids. unfold FindDinosaurInstanceCount. rewrite prog_bind_run.
  set (p := fun r => bool_decide (cr_Status r <> CentralRequestStatusAccepted) &&
    (if (0 <? length ids)%nat then bool_decide (cr_ClusterID r ∈ ids) else bool_decide (cr_ClusterID r <> ""))).
  set (key := fun r => [cr_ClusterID r]).
  destruct (on_centrals_run (db_group p key) w) as (_ & _ & Hres).
  destruct ((on_centrals (db_group p key) w).2) as [groups|e]; [|done]. intros [= <-].
  symmetry in Hres. apply group_ok in Hres as [_ Hgroups]. fold (centrals w) in Hgroups.
  assert (forall id n, (id, n) ∈ group_name <$> groups <->
    n = group_size p key [id] (centrals w) /\ 0 < n) as Hname.
  { intros id n. rewrite list_elem_of_fmap. split.
    - intros ([k m] & [= -> ->] & Hk). apply Hgroups in Hk as [-> Hpos].
      destruct (group_size_elem _ _ _ _ Hpos) as (i & r & _ & _ & <-). done.
    - intros [-> Hpos]. exists ([id], group_size p key [id] (centrals w)). split; [done|].
      by apply Hgroups. }
  assert (forall id, group_size p key [id] (centrals w) =
    Z.of_nat (size (matching (fun r => bool_decide (cr_Status r <> CentralRequestStatusAccepted) &&
          bool_decide (cr_ClusterID r ∈ ids) && bool_decide ([cr_ClusterID r] = [id])) (centrals w)))) as Hsize.
  { intros id. unfold group_size, p, key. by destruct ids. }
  unfold fill_counts. split.
  - intros id Hid. rewrite fmap_app, elem_of_app. destruct (decide (id ∈ (group_name <$> groups).*1)); [by left|].
    right. rewrite <- list_fmap_compose. simpl. rewrite list_fmap_id. by apply list_elem_of_filter.
  - intros id n [Hin|Hin]%elem_of_app; rewrite <- Hsize.
    { apply Hname in Hin as [-> Hpos]. split; [|done]. apply group_size_elem in Hpos as (i & r & _ & Hp & Hkey).
      unfold key in Hkey. injection Hkey as <-. unfold p in Hp. destruct ids; [done|].
      apply andb_true_iff in Hp as [_ Hp]. by apply bool_decide_eq_true in Hp. }
    apply list_elem_of_fmap in Hin as (k & [= -> ->] & [Hk Hkin]%list_elem_of_filter). split; [done|].
    assert (~ 0 < group_size p key [k] (centrals w)) as Hn; [|unfold group_size in *; lia].
    intros Hpos. apply Hk. apply list_elem_of_fmap.
    exists (k, group_size p key [k] (centrals w)). split; [done|]. by apply Hname.
Qed.
End theorems.

Lemma FindCluster_sound_witness :
  let w := mem_world [] [ready_cluster "k1" "c1"] in
  let r := set_InstanceType "eval" (sample_central "a" CentralRequestStatusAccepted "alice" "org-1") in
  clusters w !! "k1" = Some (ready_cluster "k1" "c1") /\ fits r (ready_cluster "k1" "c1") /\
  forall id c', clusters w !! id = Some c' -> fits r c' -> cl_CreatedAt (ready_cluster "k1" "c1") <= cl_CreatedAt c'.
Proof.
  exact (FindCluster_sound (set_InstanceType "eval" (sample_central "a" CentralRequestStatusAccepted "alice" "org-1"))
    (mem_world [] [ready_cluster "k1" "c1"]) (ready_cluster "k1" "c1") ltac:(vm_compute; reflexivity)).
Defined.
