(* ===== verification/ClusterManager.v ===== *)
(** * The cluster manager (internal/dinosaur/pkg/workers/clusters_mgr.go)

    The worker that moves the data plane clusters through their lifecycle.  A
    [Reconcile] runs nine processors in order; each lists the clusters of one
    status and handles one after the other, collecting errors.  With manual
    scaling the clusters follow the configuration file, with automatic scaling a
    cluster is kept in every region of every supported provider and empty clusters
    are given up.

    A processor returns the errors it has collected and whether it dereferenced a
    nil pointer, which ends the process.  Go's comparison of structs,
    [cmp.Equal] of google/go-cmp, is a parameter. *)

From S2P Require Import Prelude GoString GoFmt ServiceErrors CentralRequest Store Versions.
From S2P Require Import ClusterTypes World MemPlatform Config Providers ClusterService.
Local Open Scope string_scope.
Local Open Scope Z_scope.

Definition observabilityNamespace : string := "managed-application-services-observability".
Definition syncsetName : string := "ext-managedservice-cluster-mgr".
Definition imagePullSecretName : string := "rhoas-image-pull-secret".

Definition clusterMetricsStatuses : list string :=
  [ClusterAccepted; ClusterProvisioning; ClusterProvisioned; ClusterCleanup;
   ClusterWaitingForFleetShardOperator; ClusterReady; ClusterComputeNodeScalingUp; ClusterFull;
   ClusterFailed; ClusterDeprovisioning].

Record ClusterManagerOptions := mkClusterManagerOptions {
  cm_DataplaneClusterConfig : DataplaneClusterConfig;
  cm_SupportedProviders : ProviderConfig
}.

(** [errors.Wrapf] and [errors.WithMessagef] of a service error *)
Definition wrap_service (err : ServiceError) (msg : string) (values : list fmt_arg) : error :=
  EWrap (Sprintf msg values) (EService err).

(** The errors of a processor, and whether it has panicked. *)
Definition processor `{Platform} : Type := prog world (list error * bool).

Definition calm `{Platform} (m : prog world (list error)) : processor := es ← m; mret (es, false).

Fixpoint run_processors `{Platform} (ps : list processor) : processor :=
  match ps with
  | [] => mret ([], false)
  | p :: ps =>
      r ← p;
      if (r.2 : bool) then mret r
      else r' ← run_processors ps; mret (r.1 ++ r'.1, r'.2)%list
  end.

Fixpoint emit_each `{Platform} (es : list metric) : prog world unit :=
  match es with [] => mret tt | e :: es => _ ← emit e; emit_each es end.

Section manager.
Context `{Platform} `{Semver} (cmp_Equal : Cluster -> Cluster -> bool) (opts : ClusterManagerOptions).
Let dataplane : DataplaneClusterConfig := cm_DataplaneClusterConfig opts.

(** ** Metrics *)

Definition setClusterStatusCountMetrics : prog world (option ServiceError) :=
  rc ← Cluster_CountByStatus clusterMetricsStatuses;
  match rc with
  | Err err => mret (Some err)
  | Ok counters => _ ← emit_each ((fun c => ClusterStatusCount c.1 c.2) <$> counters); mret None
  end.

Fixpoint emit_centrals_per_cluster (counters : list (string * Z)) : prog world (option ServiceError) :=
  match counters with
  | [] => mret None
  | (id, count) :: counters =>
      re ← GetExternalID id;
      match re with
      | Err err => mret (Some err)
      | Ok clusterExternalID =>
          _ ← emit (CentralPerClusterCount id clusterExternalID count);
          emit_centrals_per_cluster counters
      end
  end.

Definition setDinosaurPerClusterCountMetrics : prog world (option ServiceError) :=
  rc ← FindDinosaurInstanceCount [];
  match rc with
  | Err err => mret (Some err)
  | Ok counters => emit_centrals_per_cluster counters
  end.

(** The instance types of a configured cluster with its capacity. *)
Definition capacity_metrics (c : ManualCluster) : list metric :=
  (fun t => ClusterStatusCapacityMax (mc_Region c) t (mc_ClusterID c) (mc_CentralInstanceLimit c)) <$>
    filter (fun t => t <> "") (Split (Ascii.ascii_of_N 44) (mc_SupportedInstanceType c)).

Definition setClusterStatusMaxCapacityMetrics : prog world unit :=
  emit_each (mjoin (capacity_metrics <$> GetManualClusters (dc_ClusterConfig dataplane))).

Definition processMetrics : prog world (list error) :=
  r1 ← setClusterStatusCountMetrics;
  match r1 with
  | Some err => mret [wrap_service err "failed to set cluster status count metrics" []]
  | None =>
      r2 ← setDinosaurPerClusterCountMetrics;
      match r2 with
      | Some err => mret [wrap_service err "failed to set central per cluster count metrics" []]
      | None => _ ← setClusterStatusMaxCapacityMetrics; mret []
      end
  end.

(** ** The steps of a cluster *)

Definition reconcileClusterDNS (cluster : Cluster) : prog world (option error) :=
  if bool_decide (cl_ClusterDNS cluster <> "") then mret None
  else
    rd ← GetClusterDNS (cl_ClusterID cluster);
    match rd with
    | Err dnsErr => mret (Some (wrap_service dnsErr "failed to reconcile cluster %s: GetClusterDNS %s"
        [VStr (cl_ClusterID cluster); VStr (Error (EService dnsErr))]))
    | Ok _ => mret None
    end.

Definition reconcileDeprovisioningCluster (cluster : Cluster) : prog world (option error) :=
  let delete : prog world (option error) :=
    rd ← Cluster_Delete cluster;
    match rd with
    | Err deleteClusterErr => mret (Some (EService deleteClusterErr))
    | Ok false => mret None
    | Ok true =>
        ru ← Cluster_UpdateStatus cluster ClusterCleanup;
        match ru with
        | Some err => mret (Some (wrap_service err "Failed to update deprovisioning cluster %s status to 'cleanup'"
            [VStr (cl_ClusterID cluster)]))
        | None => mret None
        end
    end in
  if IsDataPlaneAutoScalingEnabled dataplane then
    rs ← FindCluster_criteria (mkCriteria (cl_CloudProvider cluster) (cl_Region cluster)
           (cl_MultiAZ cluster) ClusterReady);
    match rs with
    | Err findClusterErr => mret (Some (EService findClusterErr))
    | Ok None =>
        ru ← Cluster_UpdateStatus cluster ClusterReady;
        match ru with
        | Some err => mret (Some (Errorf_w (Sprintf "updating status for cluster %s to %s"
            [VStr (cl_ClusterID cluster); VStr ClusterReady]) (EService err)))
        | None => mret None
        end
    | Ok (Some _) => delete
    end
  else delete.

Definition reconcileCleanupCluster (cluster : Cluster) : prog world (option error) :=
  rd ← DeleteByClusterID (cl_ClusterID cluster);
  match rd with
  | Some err => mret (Some (wrap_service err "Failed to soft delete Dataplane cluster %s from the database"
      [VStr (cl_ClusterID cluster)]))
  | None => mret None
  end.

Definition reconcileAcceptedCluster (cluster : Cluster) : prog world (option error) :=
  rc ← Create cluster;
  match rc with
  | Err err => mret (Some (wrap_service err "failed to create cluster for request %s" [VStr (cl_ID cluster)]))
  | Ok _ => mret None
  end.

Definition reconcileClusterStatus (cluster : Cluster) : prog world (option error) :=
  rc ← CheckClusterStatus cluster;
  match rc with
  | Err err => mret (Some (EService err))
  | Ok updatedCluster =>
      if bool_decide (cl_Status updatedCluster = ClusterFailed) then
        _ ← UpdateClusterStatusSinceCreatedMetric updatedCluster ClusterFailed;
        _ ← emit (ClusterTotalOperations ClusterOperationCreate);
        mret None
      else mret None
  end.

Definition reconcileAddonOperator (provisionedCluster : Cluster) : prog world (option error) :=
  let dinosaurOperatorIsReady := true in
  let fleetshardOperatorIsReady := true in
  if dinosaurOperatorIsReady && fleetshardOperatorIsReady then
    ru ← Cluster_UpdateStatus provisionedCluster ClusterWaitingForFleetShardOperator;
    match ru with
    | Some err => mret (Some (wrap_service err "failed to update local cluster %s status: %s"
        [VStr (cl_ClusterID provisionedCluster); VStr (Error (EService err))]))
    | None =>
        _ ← UpdateClusterStatusSinceCreatedMetric provisionedCluster ClusterWaitingForFleetShardOperator;
        mret None
    end
  else mret None.

Definition reconcileProvisionedCluster (cluster : Cluster) : prog world (option error) :=
  rd ← reconcileClusterDNS cluster;
  match rd with
  | Some err => mret (Some err)
  | None =>
      ra ← reconcileAddonOperator cluster;
      match ra with
      | Some addOnErr => mret (Some (EWrap (Sprintf "failed to reconcile cluster %s addon operator: %s"
          [VStr (cl_ClusterID cluster); VStr (Error addOnErr)]) addOnErr))
      | None => mret None
      end
  end.

(** The instance type a ready cluster should support; [None] leaves it as it is. *)
Definition wanted_instance_type (cluster : Cluster) : option string :=
  let manualScalingEnabled := IsDataPlaneManualScalingEnabled dataplane in
  let isset := bool_decide (cl_SupportedInstanceType cluster <> "") in
  if manualScalingEnabled then
    let '(supportedType, found) := GetClusterSupportedInstanceType (dc_ClusterConfig dataplane)
                                     (cl_ClusterID cluster) in
    if negb found && isset then None
    else if (found : bool) then Some supportedType else Some AllInstanceTypeSupport
  else if isset then None else Some AllInstanceTypeSupport.

Definition reconcileClusterInstanceType (cluster : Cluster) : prog world (option error) :=
  match wanted_instance_type cluster with
  | None => mret None
  | Some supportedInstanceType =>
      if bool_decide (cl_SupportedInstanceType cluster <> supportedInstanceType) then
        ru ← Cluster_Update (set_cl_SupportedInstanceType supportedInstanceType cluster);
        match ru with
        | Some err => mret (Some (wrap_service err "failed to update instance type in database for cluster %s"
            [VStr (cl_ClusterID cluster)]))
        | None => mret None
        end
      else mret None
  end.

Definition reconcileReadyCluster (cluster : Cluster) : prog world (option error) :=
  if negb (IsReadyDataPlaneClustersReconcileEnabled dataplane) then mret None
  else
    ri ← reconcileClusterInstanceType cluster;
    match ri with
    | Some err => mret (Some (EWrap (Sprintf "failed to reconcile instance type ready cluster %s: %s"
        [VStr (cl_ClusterID cluster); VStr (Error err)]) err))
    | None =>
        rd ← reconcileClusterDNS cluster;
        match rd with
        | Some err => mret (Some (EWrap (Sprintf "failed to reconcile cluster dns of ready cluster %s: %s"
            [VStr (cl_ClusterID cluster); VStr (Error err)]) err))
        | None => mret None
        end
    end.

(** When the group of the cluster is not found, the error returned is an interface
    that holds a nil [*ServiceError]: it is not nil. *)
Definition reconcileEmptyCluster (cluster : Cluster) : prog world (bool * option error) :=
  rf ← FindNonEmptyClusterByID (cl_ClusterID cluster);
  match rf with
  | Err err => mret (false, Some (EService err))
  | Ok (Some _) => mret (false, None)
  | Ok None =>
      rg ← ListGroupByProviderAndRegion [cl_CloudProvider cluster] [cl_Region cluster] [ClusterReady];
      match rg with
      | Err err => mret (false, Some (EService err))
      | Ok [] => mret (false, Some ENilService)
      | Ok ((_, count) :: _) =>
          if count <=? 1 then mret (false, None)
          else
            ru ← Cluster_UpdateStatus cluster ClusterDeprovisioning;
            match ru with
            | Some err => mret (false, Some (Errorf_w (Sprintf "updating status for cluster %s to %s"
                [VStr (cl_ClusterID cluster); VStr ClusterDeprovisioning]) (EService err)))
            | None => mret (true, None)
            end
      end
  end.

(** ** The processors *)

(** List the clusters of a status and handle one after the other. *)
Definition process_status (status : string) (list_failed : ServiceError -> error)
    (handle : Cluster -> prog world (option error)) : prog world (list error) :=
  rl ← Cluster_ListByStatus status;
  match rl with
  | Err err => mret [list_failed err]
  | Ok l => forM_errs l handle
  end.

(** A step with its metric and the text its errors are wrapped in. *)
Definition tracked (status msg : string) (name : Cluster -> string)
    (step : Cluster -> prog world (option error)) (cluster : Cluster) : prog world (option error) :=
  _ ← UpdateClusterStatusSinceCreatedMetric cluster status;
  re ← step cluster;
  mret (EWrap (Sprintf msg [VStr (name cluster)]) <$> re).

Definition processDeprovisioningClusters : prog world (list error) :=
  process_status ClusterDeprovisioning EService
    (tracked ClusterDeprovisioning "failed to reconcile deprovisioning cluster %s" cl_ID
       reconcileDeprovisioningCluster).

Definition processCleanupClusters : prog world (list error) :=
  process_status ClusterCleanup (fun err => wrap_service err "failed to list of cleaup clusters" [])
    (tracked ClusterCleanup "failed to reconcile cleanup cluster %s" cl_ID reconcileCleanupCluster).

Definition processAcceptedClusters : prog world (list error) :=
  process_status ClusterAccepted (fun err => wrap_service err "failed to list accepted clusters" [])
    (tracked ClusterAccepted "failed to reconcile accepted cluster %s" cl_ID reconcileAcceptedCluster).

Definition processProvisioningClusters : prog world (list error) :=
  process_status ClusterProvisioning (fun err => wrap_service err "failed to list pending clusters" [])
    (tracked ClusterProvisioning "failed to reconcile cluster %s status" cl_ClusterID reconcileClusterStatus).

Definition processProvisionedClusters : prog world (list error) :=
  process_status ClusterProvisioned (fun err => wrap_service err "failed to list provisioned clusters" [])
    (tracked ClusterProvisioned "failed to reconcile provisioned cluster %s" cl_ClusterID
       reconcileProvisionedCluster).

Definition reconcile_ready (readyCluster : Cluster) : prog world (option error) :=
  re ← (if IsDataPlaneAutoScalingEnabled dataplane then reconcileEmptyCluster readyCluster
        else mret (false, None));
  recErr ← (match re with
            | (false, None) => reconcileReadyCluster readyCluster
            | (_, e) => mret e
            end);
  mret (EWrap (Sprintf "failed to reconcile ready cluster %s" [VStr (cl_ClusterID readyCluster)]) <$> recErr).

Definition processReadyClusters : prog world (list error) :=
  process_status ClusterReady (fun err => wrap_service err "failed to list ready clusters" []) reconcile_ready.

(** ** Clusters of the configuration file *)

(** The row registered for a configured cluster. *)
Definition manual_request (p : ManualCluster) : Cluster :=
  mkCluster "" 0 0 (mc_CloudProvider p) (mc_ClusterID p) "" (mc_MultiAZ p) (mc_Region p) (mc_Status p) "" ""
    (mc_ClusterDNS p) (mc_ProviderType p) None None None (mc_SupportedInstanceType p) (mc_Schedulable p).

(** One missing cluster: [Some err] makes the processor return. *)
Definition register_manual (p : ManualCluster) : prog world (option error) :=
  let versioned :=
    if (0 <? length (mc_AvailableCentralOperatorVersions p))%nat
    then SetAvailableCentralOperatorVersions (mc_AvailableCentralOperatorVersions p) (manual_request p)
    else Ok (manual_request p) in
  match versioned with
  | Err err => mret (Some (EWrap (Sprintf "Failed to set operator versions for manual cluster %s with config file"
      [VStr (mc_ClusterID p)]) err))
  | Ok clusterRequest =>
      rr ← RegisterClusterJob clusterRequest;
      match rr with
      | Some err => mret (Some (wrap_service err "Failed to register new cluster %s with config file"
          [VStr (mc_ClusterID p)]))
      | None => mret None
      end
  end.

(** The fields of a row that the configuration sets. *)
Definition apply_manual (m : ManualCluster) (versions : option versions_json) (c : Cluster) : Cluster :=
  set_cl_Schedulable (mc_Schedulable m) (set_cl_AvailableCentralOperatorVersions versions
    (set_cl_SupportedInstanceType (mc_SupportedInstanceType m) (set_cl_ClusterDNS (mc_ClusterDNS m)
      (set_cl_ProviderType (mc_ProviderType m) (set_cl_Status (mc_Status m)
        (set_cl_MultiAZ (mc_MultiAZ m) (set_cl_Region (mc_Region m)
          (set_cl_CloudProvider (mc_CloudProvider m) c)))))))).

(** One existing cluster.  [inr true]: the row is gone and the code dereferences
    nil; [inr false]: done or skipped; [inl err] makes the processor return. *)
Definition update_manual (m : ManualCluster) : prog world (error + bool) :=
  rc ← FindClusterByID (mc_ClusterID m);
  match rc with
  | Err _ => mret (inr false)
  | Ok None => mret (inr true)
  | Ok (Some cluster) =>
      match SetAvailableCentralOperatorVersions (mc_AvailableCentralOperatorVersions m)
              (apply_manual m (cl_AvailableCentralOperatorVersions cluster) cluster) with
      | Err err => mret (inl (EWrap (Sprintf "Failed to update operator versions for manual cluster %s with config file"
          [VStr (mc_ClusterID m)]) err))
      | Ok newCluster =>
          if cmp_Equal cluster newCluster then mret (inr false)
          else
            ru ← Cluster_Updates newCluster (apply_manual m (cl_AvailableCentralOperatorVersions newCluster));
            match ru with
            | Some err => mret (inl (wrap_service err "Failed to update manual cluster %s"
                [VStr (cl_ClusterID cluster)]))
            | None => mret (inr false)
            end
      end
  end.

(** Loops that end with the first error. *)
Fixpoint register_all (ps : list ManualCluster) : prog world (option error) :=
  match ps with
  | [] => mret None
  | p :: ps =>
      r ← register_manual p;
      match r with Some err => mret (Some err) | None => register_all ps end
  end.

Fixpoint update_all (ms : list ManualCluster) : prog world (error + bool) :=
  match ms with
  | [] => mret (inr false)
  | m :: ms =>
      r ← update_manual m;
      match r with inr false => update_all ms | r => mret r end
  end.

(** The clusters the configuration does not name and that host no central. *)
Definition deprovision_excess (clusterIdsMap : gmap string Cluster) : prog world (list error) :=
  let excessClusterIds := ExcessClusters (dc_ClusterConfig dataplane) clusterIdsMap in
  if (length excessClusterIds =? 0)%nat then mret []
  else
    rc ← FindDinosaurInstanceCount excessClusterIds;
    match rc with
    | Err err => mret [wrap_service err "Failed to find central count a cluster: %s" [VStr (Sprint_names excessClusterIds)]]
    | Ok counts =>
        let idsOfClustersToDeprovision := (filter (fun c : string * Z => ~ 0 < c.2) counts).*1 in
        if (length idsOfClustersToDeprovision =? 0)%nat then mret []
        else
          ru ← UpdateMultiClusterStatus idsOfClustersToDeprovision ClusterDeprovisioning;
          match ru with
          | Some err => mret [wrap_service err "Failed to deprovisioning a cluster: %s"
              [VStr (Sprint_names idsOfClustersToDeprovision)]]
          | None => mret []
          end
    end.

Definition reconcileClusterWithManualConfig : processor :=
  if negb (IsDataPlaneManualScalingEnabled dataplane) then mret ([], false)
  else
    rl ← ListAllClusterIds;
    match rl with
    | Err err => mret ([wrap_service err "failed to retrieve cluster ids from clusters" []], false)
    | Ok allClusterIds =>
        let clusterIdsMap : gmap string Cluster :=
          foldl (fun m v => <[cl_ClusterID v := v]> m) ∅ allClusterIds in
        r1 ← register_all (MissingClusters (dc_ClusterConfig dataplane) clusterIdsMap);
        match r1 with
        | Some err => mret ([err], false)
        | None =>
            r2 ← update_all (ExistingClusters (dc_ClusterConfig dataplane) clusterIdsMap);
            match r2 with
            | inl err => mret ([err], false)
            | inr true => mret ([], true)
            | inr false => es ← deprovision_excess clusterIdsMap; mret (es, false)
            end
        end
    end.

(** ** Clusters of the regions *)

Definition region_request (provider region : string) : Cluster :=
  mkCluster "" 0 0 provider "" "" true region ClusterAccepted "" "" "" ClusterProviderOCM None None None
    AllInstanceTypeSupport false.

(** The provider and region of every configured region, in order. *)
Definition provider_regions (pl : list Provider) : list (string * string) :=
  mjoin ((fun p => (fun r => (pv_Name p, rg_Name r)) <$> pv_Regions p) <$> pl).

(** [v.Provider + "." + v.Region]: the key of a group. *)
Definition region_key (g : list string * Z) : string := nth 0 g.1 "" +:+ "." +:+ nth 1 g.1 "".

Fixpoint create_missing (existing : list string) (prs : list (string * string)) : prog world (list error) :=
  match prs with
  | [] => mret []
  | (p, r) :: prs =>
      if bool_decide (p +:+ "." +:+ r ∈ existing) then create_missing existing prs
      else
        rr ← RegisterClusterJob (region_request p r);
        match rr with
        | Some err => mret [wrap_service err "Failed to auto-create cluster request in %s, region: %s" [VStr p; VStr r]]
        | None => create_missing existing prs
        end
  end.

Definition reconcileClustersForRegions : prog world (list error) :=
  if negb (IsDataPlaneAutoScalingEnabled dataplane) then mret []
  else
    let providerList := pc_SupportedProviders (cm_SupportedProviders opts) in
    let providers := pv_Name <$> providerList in
    let regions := mjoin ((fun p => rg_Name <$> pv_Regions p) <$> providerList) in
    rg ← ListGroupByProviderAndRegion providers regions StatusForValidCluster;
    match rg with
    | Err err => mret [wrap_service err "failed to find cluster with criteria" []]
    | Ok grpResult => create_missing (region_key <$> grpResult) (provider_regions providerList)
    end.

(** ** A pass *)

Definition Reconcile : processor :=
  run_processors
    [ calm processMetrics;
      reconcileClusterWithManualConfig;
      calm reconcileClustersForRegions;
      calm processDeprovisioningClusters;
      calm processCleanupClusters;
      calm processAcceptedClusters;
      calm processProvisioningClusters;
      calm processProvisionedClusters;
      calm processReadyClusters ].
End manager.
