(* ===== verification/ClusterManagerProps.v ===== *)
(** * The cluster manager: which moves it makes

    The lifecycle of a data plane cluster as a transition relation ([transition])
    with one label per kind of move, and the proof that a pass of the manager only
    makes these moves, whatever statements fail and whatever the providers answer;
    with automatic scaling no region loses its last ready cluster. *)

From S2P Require Import Prelude GoString GoFmt ServiceErrors CentralRequest Store Versions.
From S2P Require Import ClusterTypes World ClusterRows MemPlatform Config Providers ClusterService ClusterManager.
Local Open Scope string_scope.
Local Open Scope Z_scope.

(** ** The lifecycle of a cluster *)

(** Where a cluster is, and the part of its row the lifecycle depends on. *)
Definition site (c : Cluster) : string * string * string * bool * string :=
  (cl_ID c, cl_CloudProvider c, cl_Region c, cl_MultiAZ c, cl_ProviderType c).

Definition core (c : Cluster) : (string * string * string * bool * string) * string * string :=
  (site c, cl_ClusterID c, cl_Status c).

(** A change outside the core. *)
Definition quiet (o o' : rowstate Cluster) : Prop :=
  match o, o' with
  | Live x, Live x' => core x' = core x
  | Absent, Absent | Dead, Dead => True
  | _, _ => False
  end.

#[export] Instance quiet_preorder : PreOrder quiet.
Proof.
  split.
  - by intros [|x|].
  - intros [|x|] [|y|] [|z|]; simpl; try done. congruence.
Qed.

Definition moved (from to : string) (x x' : Cluster) : Prop :=
  cl_Status x = from /\ core x' = core (set_cl_Status to x).

Inductive label := Registered | Created | Checked | Terraformed | Recalled | Cleaned | Removed | Drained.

#[export] Instance label_eq_dec : EqDecision label.
Proof. solve_decision. Defined.

(** The statuses that the cluster providers answer: for a new cluster, and for a
    cluster that is being provisioned. *)
Class Answers := { created_as : string -> Prop; checked_as : string -> Prop }.

Inductive transition `{Answers} : label -> relation (rowstate Cluster) :=
| t_registered x :
    cl_Status x = ClusterAccepted -> cl_ClusterID x = "" -> cl_ID x <> "" -> cl_ProviderType x = ClusterProviderOCM ->
    transition Registered Absent (Live x)
| t_created x x' :
    cl_Status x = ClusterAccepted -> site x' = site x -> created_as (cl_Status x') ->
    transition Created (Live x) (Live x')
| t_checked x x' :
    cl_Status x = ClusterProvisioning -> site x' = site x -> cl_ClusterID x' = cl_ClusterID x ->
    cl_Status x' = ClusterProvisioning \/ checked_as (cl_Status x') ->
    transition Checked (Live x) (Live x')
| t_terraformed x x' :
    moved ClusterProvisioned ClusterWaitingForFleetShardOperator x x' -> transition Terraformed (Live x) (Live x')
| t_recalled x x' : moved ClusterDeprovisioning ClusterReady x x' -> transition Recalled (Live x) (Live x')
| t_cleaned x x' : moved ClusterDeprovisioning ClusterCleanup x x' -> transition Cleaned (Live x) (Live x')
| t_removed x : cl_Status x = ClusterCleanup -> transition Removed (Live x) Dead
| t_drained x x' : moved ClusterReady ClusterDeprovisioning x x' -> transition Drained (Live x) (Live x').

#[export] Hint Constructors transition : fleet.

(** A quiet change or a move with a label of the list. *)
Definition edge `{Answers} (ls : list label) (o o' : rowstate Cluster) : Prop :=
  quiet o o' \/ exists l, l ∈ ls /\ transition l o o'.

Definition path `{Answers} (ls : list label) : relation (rowstate Cluster) := rtc (edge ls).

#[export] Instance path_preorder `{Answers} ls : PreOrder (path ls).
Proof. unfold path. apply _. Qed.

Lemma edge_path `{Answers} ls o o' : edge ls o o' -> path ls o o'.
Proof. apply rtc_once. Qed.

Lemma quiet_path `{Answers} ls o o' : quiet o o' -> path ls o o'.
Proof. intros Hq. apply edge_path. by left. Qed.

Lemma move_path `{Answers} ls l o o' : l ∈ ls -> transition l o o' -> path ls o o'.
Proof. intros Hl Ht. apply edge_path. right. eauto. Qed.

Lemma path_mono `{Answers} ls ls' o o' : ls ⊆ ls' -> path ls o o' -> path ls' o o'.
Proof.
  intros Hs. apply rtc_subrel. intros x y [Hq|(l & Hl & Ht)]; [by left|]. right. exists l. split; [by apply Hs|done].
Qed.

(** A property of the state of a key that every move keeps. *)
Lemma path_inv `{Answers} ls (P : rowstate Cluster -> Prop) :
  (forall o o', quiet o o' -> P o -> P o') -> (forall l o o', l ∈ ls -> transition l o o' -> P o -> P o') ->
  forall o o', path ls o o' -> P o -> P o'.
Proof.
  intros Hq Ht o o'. induction 1 as [|o o1 o2 [?|(l & ? & ?)] _ IH]; [done| |]; intros Ho; apply IH; eauto.
Qed.

(** What a platform's providers promise about their answers. *)
Class ProviderContract `{Platform} `{Answers} : Prop := {
  contract_create p req (x : externals) s : (provider_Create p req x).2 = Ok (Some s) -> created_as (cs_Status s);
  contract_check p spec (x : externals) s : cs_Status spec = ClusterProvisioning ->
    (provider_CheckClusterStatus p spec x).2 = Ok s -> checked_as (cs_Status s)
}.

(** Nothing. *)
Definition any_answer : Answers := {| created_as _ := True; checked_as _ := True |}.

Lemma any_contract `{Platform} : @ProviderContract _ any_answer.
Proof. done. Qed.

(** ** Tables *)

(** No row has the empty key; it holds of a table filled by the services, which
    draw the key of a new row ([ExternalsLaws]). *)
Definition keyed_clusters `{Platform} (w : world) : Prop := clusters w !! "" = None.

(** The column cluster_id has a unique index; a cluster that is not created yet has none. *)
Definition unique_ids `{Platform} (w : world) : Prop :=
  forall k1 k2 c1 c2, clusters w !! k1 = Some c1 -> clusters w !! k2 = Some c2 ->
    cl_ClusterID c1 = cl_ClusterID c2 -> cl_ClusterID c1 <> "" -> k1 = k2.

Section tables.
Context `{PlatformLaws} `{Answers}.

Lemma keyed_path ls w w' : on_crows (path ls) w w' -> keyed_clusters w -> keyed_clusters w'.
Proof.
  intros Hp Hk. unfold keyed_clusters in *. destruct (clusters w' !! "") as [c|] eqn:E; [|done]. exfalso.
  pose proof (clusters_id w' "" c E) as Hid. apply cluster_state_live in E.
  assert (match cluster_state w' "" with Live x => cl_ID x <> "" | _ => True end) as Hx; [|by rewrite E in Hx].
  refine (path_inv ls (fun o => match o with Live x => cl_ID x <> "" | _ => True end) _ _ _ _ (Hp "") _).
  - intros [|x|] [|y|]; simpl; try done. intros Hc Hn. injection Hc. congruence.
  - intros l o o' _ Ht. destruct Ht as [| x x' _ Hs| x x' _ Hs| x x' [_ Hs]| x x' [_ Hs]| x x' [_ Hs]| |x x' [_ Hs]];
      try done; simpl; intros Hn; injection Hs; congruence.
  - destruct (cluster_state w "") as [|x|] eqn:Ew; try done. apply cluster_state_live in Ew. congruence.
Qed.

(** The moves that keep the identifier of the cluster. *)
Lemma unique_path ls w w' : Created ∉ ls -> on_crows (path ls) w w' -> unique_ids w -> unique_ids w'.
Proof.
  intros Hls Hp Hu k1 k2 c1 c2 Hc1 Hc2 Heq Hne.
  assert (forall k c, clusters w' !! k = Some c -> cl_ClusterID c <> "" ->
    exists x, clusters w !! k = Some x /\ cl_ClusterID x = cl_ClusterID c) as Hback.
  { intros k c Hc Hcid. apply cluster_state_live in Hc.
    assert (match cluster_state w' k with
      | Live x => cl_ClusterID x <> "" -> exists y, clusters w !! k = Some y /\ cl_ClusterID y = cl_ClusterID x
      | _ => True end) as Hx; [|rewrite Hc in Hx; by apply Hx].
    refine (path_inv ls (fun o => match o with
      | Live x => cl_ClusterID x <> "" -> exists y, clusters w !! k = Some y /\ cl_ClusterID y = cl_ClusterID x
      | _ => True end) _ _ _ _ (Hp k) _).
    - intros [|x|] [|y|]; simpl; try done. intros E. injection E. intros. naive_solver congruence.
    - intros l o o' Hl Ht.
      destruct Ht as [x _ Hi _ _| | x x' _ _ Hi _| x x' [_ Hs]| x x' [_ Hs]| x x' [_ Hs]| |x x' [_ Hs]]; try done.
      all: try (assert (cl_ClusterID x' = cl_ClusterID x) as Hi by (injection Hs; done)); by rewrite Hi.
    - destruct (cluster_state w k) as [|x|] eqn:Ew; try done. apply cluster_state_live in Ew. eauto. }
  destruct (Hback k1 c1 Hc1 Hne) as (x1 & Hx1 & Ex1). destruct (Hback k2 c2 Hc2 ltac:(congruence)) as (x2 & Hx2 & Ex2).
  apply (Hu k1 k2 x1 x2); congruence.
Qed.
End tables.

(** ** Changes to one cluster *)

(** [tracks ls id]: the cluster with the key [id] moves along labels of [ls], the
    others change quietly. *)
Definition tracks `{Platform} `{Answers} (ls : list label) (id : string) : relation world :=
  fun w w' => path ls (cluster_state w id) (cluster_state w' id) /\
    forall k, k <> id -> quiet (cluster_state w k) (cluster_state w' k).

#[export] Instance tracks_preorder `{Platform} `{Answers} ls id : PreOrder (tracks ls id).
Proof.
  split.
  - intros w. split; [reflexivity|]. intros k _. reflexivity.
  - intros w1 w2 w3 [H1 H2] [H3 H4]. split; [by etransitivity|]. intros k Hk. etransitivity; eauto.
Qed.

(** The struct [c] a manager holds is, up to quiet changes, the row in the table. *)
Definition current `{Platform} (c : Cluster) (w : world) : Prop :=
  exists x, clusters w !! cl_ID c = Some x /\ core x = core c.

Section one_cluster.
Context `{PlatformLaws} `{Answers} (ls : list label).

Lemma tracks_crows id w w' : tracks ls id w w' -> on_crows (path ls) w w'.
Proof.
  intros [Hid Hother] k. destruct (decide (k = id)) as [->|Hk]; [done|]. by apply quiet_path, Hother.
Qed.

Lemma tracks_quiet id w w' : on_crows quiet w w' -> tracks ls id w w'.
Proof. intros Hq. split; [by apply quiet_path, Hq|]. intros k _. apply Hq. Qed.

Lemma current_quiet c w w' :
  quiet (cluster_state w (cl_ID c)) (cluster_state w' (cl_ID c)) -> current c w -> current c w'.
Proof.
  intros Hq (x & Hx & Hc). apply cluster_state_live in Hx. rewrite Hx in Hq.
  destruct (cluster_state w' (cl_ID c)) as [|y|] eqn:E; try done. apply cluster_state_live in E.
  exists y. split; [done|]. simpl in Hq. congruence.
Qed.

Lemma current_frame c w w' : on_crows eq w w' -> current c w -> current c w'.
Proof. intros He. apply current_quiet. rewrite (He (cl_ID c)). reflexivity. Qed.

Lemma current_key c w : keyed_clusters w -> current c w -> cl_ID c <> "".
Proof. intros Hk (x & Hx & _) E. rewrite E in Hx. unfold keyed_clusters in Hk. congruence. Qed.

(** Composition. *)
Lemma bind_tracks {A B} id (m : prog world A) (k : A -> prog world B) w :
  tracks ls id w (m w).1 -> tracks ls id (m w).1 (k (m w).2 (m w).1).1 -> tracks ls id w ((m ≫= k) w).1.
Proof. intros Hm Hk. rewrite prog_bind_run. by etransitivity. Qed.

(** A first part that only reads. *)
Lemma bind_tracks_read {A B} id (m : prog world A) (k : A -> prog world B) w :
  preserves (on_crows eq) m ->
  (forall w1, on_crows eq w w1 -> tracks ls id w1 (k (m w).2 w1).1) -> tracks ls id w ((m ≫= k) w).1.
Proof.
  intros Hm Hk. apply bind_tracks; [|apply Hk, Hm]. apply tracks_quiet, crows_eq_any; [apply _|apply Hm].
Qed.

(** An UPDATE of the row [id]. *)
Lemma tracks_update id p f w :
  (forall c, cl_ID (f c) = cl_ID c) -> (forall c, p c = true -> cl_ID c = id) ->
  (forall x t, clusters w !! id = Some x -> edge ls (Live x) (Live (set_cl_UpdatedAt t (f x)))) ->
  tracks ls id w (on_clusters (db_update p f) w).1.
Proof.
  intros Hf Hp He. split.
  - apply (crow_update_at (path ls)); [done|]. intros c t Hc _. by apply edge_path, He.
  - intros k Hk. apply (crow_update_at quiet); [done|]. intros c t Hc Hpc.
    destruct Hk. rewrite <- (Hp c Hpc). symmetry. by apply (clusters_id w).
Qed.

Lemma tracks_UpdateStatus c s w :
  keyed_clusters w -> current c w ->
  (forall x, core x = core c -> edge ls (Live x) (Live (set_cl_Status s x))) ->
  tracks ls (cl_ID c) w (Cluster_UpdateStatus c s w).1.
Proof.
  intros Hk Hc He. pose proof (current_key c w Hk Hc) as Hne. unfold Cluster_UpdateStatus.
  destruct (bool_decide (s = "")); [reflexivity|]. rewrite (bool_decide_eq_false_2 (cl_ID c = "")) by done. simpl.
  apply bind_tracks_read; [destruct (bool_decide _); preserves_tac|]. intros w1 Hw1.
  apply bind_tracks.
  - rewrite (bool_decide_eq_true_2 (cl_ID c <> "")) by done. apply tracks_update; [done| |].
    + intros x Hx. by apply bool_decide_eq_true in Hx.
    + intros x t Hx. destruct (current_frame c w w1 Hw1 Hc) as (y & Hy & Hcore).
      rewrite Hx in Hy. injection Hy as <-.
      destruct (He x Hcore) as [Hq|(l & Hl & Ht)]; [by left|]. right. exists l. split; [done|].
      inversion Ht; subst; eauto with fleet.
  - apply tracks_quiet, crows_eq_any; [apply _|].
    match goal with |- on_crows eq _ (?m _).1 => assert (preserves (on_crows eq) m) as Hm; [|apply Hm] end.
    preserves_tac.
Qed.

(** Writing back a struct that agrees with the row on its core. *)
Lemma merge_core x c : core x = core c -> core (merge_Cluster x c) = core x.
Proof.
  intros E. injection E as Ei Ep Er Em Et Ec Es. unfold core, site, merge_Cluster. simpl.
  by rewrite <- Ep, <- Er, <- Em, <- Et, <- Ec, <- Es, !pick_string_same, pick_bool_same.
Qed.

Lemma quiet_Cluster_Update c w :
  (forall x, clusters w !! cl_ID c = Some x -> core x = core c) -> on_crows quiet w (Cluster_Update c w).1.
Proof.
  intros Hc. unfold Cluster_Update. destruct (bool_decide _); [reflexivity|]. rewrite prog_bind_run.
  set (m := on_clusters _). transitivity (m w).1; [|by destruct ((m w).2)].
  intros k. apply (crow_update_at quiet); [done|]. intros x t Hx Hp. apply bool_decide_eq_true in Hp.
  rewrite (clusters_id w k x Hx) in Hp. subst k. by apply merge_core, Hc.
Qed.

Lemma crows_FindClusterByID id : preserves (on_crows eq) (FindClusterByID id).
Proof. unfold FindClusterByID. preserves_tac. Qed.

Lemma quiet_GetClusterDNS id w : on_crows quiet w (GetClusterDNS id w).1.
Proof.
  unfold GetClusterDNS. rewrite prog_bind_run. pose proof (crows_FindClusterByID id w) as Hw.
  destruct ((FindClusterByID id w).2) as [[c|]|e] eqn:Hf; [|by apply crows_eq_any, Hw; apply _..].
  apply FindClusterByID_ok in Hf as [Hc _]. set (w1 := (FindClusterByID id w).1) in *.
  transitivity w1; [by apply crows_eq_any; [apply _|]|]. apply crows_eq in Hw as Hw1.
  destruct (bool_decide _); [reflexivity|]. destruct (GetProvider _); [|reflexivity].
  rewrite prog_bind_run. set (m := on_ext _). pose proof (crows_on_ext eq (provider_GetClusterDNS a (buildClusterSpec c)) w1) as Hm.
  fold m in Hm. transitivity (m w1).1; [by apply crows_eq_any; [apply _|]|].
  destruct ((m w1).2) as [dns|]; [|reflexivity]. rewrite prog_bind_run.
  transitivity (Cluster_Update (set_cl_ClusterDNS dns c) (m w1).1).1; [|by destruct ((Cluster_Update _ _).2)].
  apply quiet_Cluster_Update. intros x. simpl. rewrite (crows_eq _ _ Hm), Hw1, Hc. by intros [= <-].
Qed.
End one_cluster.

(** ** Loops over listed clusters *)

Section loops.
Context `{PlatformLaws} `{Answers} (ls : list label).

(** [I] is a further invariant that the moves of [ls] keep, [R] a relation that
    every iteration respects. *)
Lemma forM_tracks {E} (I : world -> Prop) (R : relation world) `{!PreOrder R} (l : list Cluster)
    (f : Cluster -> prog world (option E)) w :
  (forall w1 w2, on_crows (path ls) w1 w2 -> I w1 -> I w2) ->
  NoDup (cl_ID <$> l) -> keyed_clusters w -> I w -> (forall c, c ∈ l -> current c w) ->
  (forall c w1, c ∈ l -> keyed_clusters w1 -> I w1 -> current c w1 ->
     tracks ls (cl_ID c) w1 (f c w1).1 /\ R w1 (f c w1).1) ->
  on_crows (path ls) w (forM_errs l f w).1 /\ R w (forM_errs l f w).1.
Proof.
  intros HI. revert w. induction l as [|c l IH]; intros w Hnd Hk Hi Hcur Hf; [split; reflexivity|]. simpl.
  rewrite fmap_cons, NoDup_cons in Hnd. destruct Hnd as [Hc Hnd].
  destruct (Hf c w ltac:(by left) Hk Hi (Hcur c ltac:(by left))) as [Ht HR].
  pose proof (tracks_crows ls _ _ _ Ht) as Hp. rewrite !prog_bind_run. simpl.
  destruct (IH (f c w).1) as [Hp' HR']; [done|by eapply keyed_path|by eapply HI| |intros; apply Hf; [by right|done..]|].
  - intros d Hd. apply (current_quiet d w); [|apply Hcur; by right]. apply Ht.
    intros E'. apply Hc. rewrite <- E'. by apply list_elem_of_fmap_2.
  - split; by etransitivity.
Qed.

Lemma crows_ListByStatus status : preserves (on_crows eq) (Cluster_ListByStatus status).
Proof. unfold Cluster_ListByStatus. preserves_tac. Qed.

Lemma Cluster_ListByStatus_ok status w l :
  (Cluster_ListByStatus status w).2 = Ok l ->
  NoDup (cl_ID <$> l) /\ forall c, c ∈ l -> clusters w !! cl_ID c = Some c /\ cl_Status c = status.
Proof.
  unfold Cluster_ListByStatus. destruct (bool_decide _); [done|]. rewrite prog_bind_run.
  set (p := fun c => _). destruct (on_clusters_run (db_find p) w) as (_ & _ & Hres).
  destruct ((on_clusters (db_find p) w).2) as [l'|]; [|done]. intros [= <-]. symmetry in Hres. split.
  - apply find_ok in Hres. rewrite (fmap_Permutation cl_ID _ _ Hres), <- list_fmap_compose.
    rewrite (list_fmap_ext _ fst); [apply NoDup_fst_map_to_list|].
    intros i [k c] Hi. apply list_elem_of_lookup_2, elem_of_map_to_list, matching_lookup in Hi as [Hi _].
    by apply (clusters_id w).
  - intros c Hc. destruct (find_elem p (w_clusters w) l' c Hres Hc) as [Hrow Hp].
    split; [exact Hrow|]. by apply bool_decide_eq_true in Hp.
Qed.

Lemma process_status_rel (I : world -> Prop) (R : relation world) `{!PreOrder R} status lf handle w :
  (forall w1 w2, on_crows (path ls) w1 w2 -> I w1 -> I w2) -> (forall w1 w2, on_crows eq w1 w2 -> R w1 w2) ->
  keyed_clusters w -> I w ->
  (forall c w1, cl_Status c = status -> keyed_clusters w1 -> I w1 -> current c w1 ->
     tracks ls (cl_ID c) w1 (handle c w1).1 /\ R w1 (handle c w1).1) ->
  on_crows (path ls) w (process_status status lf handle w).1 /\ R w (process_status status lf handle w).1.
Proof.
  intros HI HR Hk Hi Hh. unfold process_status. rewrite prog_bind_run.
  pose proof (crows_ListByStatus status w) as Hw. set (w1 := (Cluster_ListByStatus status w).1) in *.
  assert (on_crows (path ls) w w1) as Hp by by apply crows_eq_any; [apply _|].
  destruct ((Cluster_ListByStatus status w).2) as [l|e] eqn:Hl; [|split; [done|by apply HR]].
  apply Cluster_ListByStatus_ok in Hl as [Hnd Hl].
  destruct (forM_tracks I R l handle w1) as [Hp' HR']; [done|done|by eapply keyed_path|by eapply HI| | |].
  - intros c Hc. destruct (Hl c Hc) as [Hrow _]. exists c. by rewrite (crows_eq _ _ Hw).
  - intros c w2 Hc. apply Hh, Hl, Hc.
  - split; [by etransitivity|]. etransitivity; [by apply HR|done].
Qed.

Lemma process_status_path (I : world -> Prop) status lf handle w :
  (forall w1 w2, on_crows (path ls) w1 w2 -> I w1 -> I w2) -> keyed_clusters w -> I w ->
  (forall c w1, cl_Status c = status -> keyed_clusters w1 -> I w1 -> current c w1 ->
     tracks ls (cl_ID c) w1 (handle c w1).1) ->
  on_crows (path ls) w (process_status status lf handle w).1.
Proof.
  intros HI Hk Hi Hh.
  assert (PreOrder (fun _ _ : world => True)) as Hpo by done.
  apply (process_status_rel I (fun _ _ => True)); auto.
Qed.

Lemma crows_status_metric c status : preserves (on_crows eq) (UpdateClusterStatusSinceCreatedMetric c status).
Proof. unfold UpdateClusterStatusSinceCreatedMetric, since. preserves_tac. Qed.

Lemma tracks_tracked id status msg name step c w :
  (forall w1, on_crows eq w w1 -> tracks ls id w1 (step c w1).1) ->
  tracks ls id w (tracked status msg name step c w).1.
Proof.
  intros Hs. unfold tracked. apply bind_tracks_read; [apply crows_status_metric|]. intros w1 Hw1.
  apply bind_tracks; [by apply Hs|reflexivity].
Qed.
End loops.

#[export] Hint Resolve crows_FindClusterByID crows_status_metric : fleet.

Lemma keyed_frame `{Platform} w w' : on_crows eq w w' -> keyed_clusters w -> keyed_clusters w'.
Proof. intros He. unfold keyed_clusters. by rewrite (crows_eq _ _ He). Qed.

Lemma unique_frame `{Platform} w w' : on_crows eq w w' -> unique_ids w -> unique_ids w'.
Proof. intros He. unfold unique_ids. by rewrite (crows_eq _ _ He). Qed.

(** ** The steps *)

Section steps.
Context `{PlatformLaws} `{Answers} `{!ProviderContract} `{Semver} (opts : ClusterManagerOptions).

Lemma quiet_reconcileClusterDNS c w : on_crows quiet w (reconcileClusterDNS c w).1.
Proof.
  unfold reconcileClusterDNS. destruct (bool_decide _); [reflexivity|]. rewrite prog_bind_run.
  transitivity (GetClusterDNS (cl_ClusterID c) w).1; [apply quiet_GetClusterDNS|]. by destruct ((GetClusterDNS _ w).2).
Qed.

(** A status the struct was listed with moves to [s]. *)
Lemma status_edge ls l (c : Cluster) from s x :
  l ∈ ls -> cl_Status c = from -> core x = core c ->
  (forall x x', moved from s x x' -> transition l (Live x) (Live x')) ->
  edge ls (Live x) (Live (set_cl_Status s x)).
Proof.
  intros Hl Hc Hx Ht. right. exists l. split; [done|]. apply Ht. split; [|done]. injection Hx. congruence.
Qed.

Lemma deprovisioning_tracks ls c w :
  Cleaned ∈ ls -> (IsDataPlaneAutoScalingEnabled (cm_DataplaneClusterConfig opts) = true -> Recalled ∈ ls) ->
  cl_Status c = ClusterDeprovisioning -> keyed_clusters w -> current c w ->
  tracks ls (cl_ID c) w (reconcileDeprovisioningCluster opts c w).1.
Proof.
  intros HC HR Hs Hk Hc. unfold reconcileDeprovisioningCluster.
  set (delete := (mbind _ (Cluster_Delete c))).
  assert (forall w1, on_crows eq w w1 -> tracks ls (cl_ID c) w1 (delete w1).1) as Hd.
  { intros w1 Hw1. unfold delete. apply bind_tracks_read; [unfold Cluster_Delete; preserves_tac|]. intros w2 Hw2.
    destruct ((Cluster_Delete c w1).2) as [[|]|e]; [|reflexivity..].
    apply bind_tracks; [|by destruct ((Cluster_UpdateStatus _ _ _).2)].
    apply tracks_UpdateStatus; [by eapply keyed_frame, keyed_frame|by eapply current_frame, current_frame|].
    intros x Hx. eapply (status_edge _ Cleaned c); [done..|]. by constructor. }
  destruct (IsDataPlaneAutoScalingEnabled _) eqn:Hauto; [|by apply Hd].
  apply bind_tracks_read; [unfold FindCluster_criteria; preserves_tac|]. intros w1 Hw1.
  destruct ((FindCluster_criteria _ w).2) as [[s|]|e]; [by apply Hd| |reflexivity].
  apply bind_tracks; [|by destruct ((Cluster_UpdateStatus _ _ _).2)].
  apply tracks_UpdateStatus; [by eapply keyed_frame|by eapply current_frame|].
  intros x Hx. eapply (status_edge _ Recalled c); [auto|done..|]. by constructor.
Qed.

Lemma cleanup_tracks c w :
  cl_Status c = ClusterCleanup -> unique_ids w -> current c w ->
  tracks [Removed] (cl_ID c) w (reconcileCleanupCluster c w).1.
Proof.
  intros Hs Hu Hc. unfold reconcileCleanupCluster.
  apply bind_tracks; [|by destruct ((DeleteByClusterID _ _).2)]. unfold DeleteByClusterID.
  apply bind_tracks_read; [preserves_tac|]. intros w1 Hw1.
  apply bind_tracks; [|by destruct ((_ w1).2)]. case_bool_decide as Hne; [reflexivity|].
  destruct (current_frame c w w1 Hw1 Hc) as (x & Hx & Hcore). pose proof (unique_frame w w1 Hw1 Hu) as Hu1.
  split.
  - apply (crow_delete_at (path [Removed])). intros y Hy _. rewrite Hx in Hy. injection Hy as <-.
    eapply move_path; [by left|]. constructor. injection Hcore. congruence.
  - intros k Hk. apply (crow_delete_at quiet). intros y Hy Hp. apply bool_decide_eq_true in Hp.
    destruct Hk. apply (Hu1 k (cl_ID c) y x); [done..| |]; [injection Hcore; congruence|congruence].
Qed.

Lemma on_ext_answer {A} (m : prog externals A) w r : (on_ext m w).2 = r -> (m (w_ext w)).2 = r.
Proof. unfold on_ext. by destruct (m (w_ext w)). Qed.

Lemma pick_string_either (P : string -> Prop) old new v : old = v -> P new -> pick_string old new = v \/ P (pick_string old new).
Proof. intros Ho Hn. unfold pick_string. case_bool_decide; [by left|by right]. Qed.

Lemma accepted_tracks c w :
  cl_Status c = ClusterAccepted -> keyed_clusters w -> current c w ->
  tracks [Created] (cl_ID c) w (reconcileAcceptedCluster c w).1.
Proof.
  intros Hs Hk Hc. unfold reconcileAcceptedCluster.
  apply bind_tracks; [|by destruct ((Create _ _).2)]. unfold Create.
  destruct (GetProvider _) as [p|]; [|reflexivity]. apply bind_tracks_read; [preserves_tac|]. intros w1 Hw1.
  destruct ((on_ext _ w).2) as [[spec|]|] eqn:Hspec; [|reflexivity..]. cbv zeta.
  apply on_ext_answer, contract_create in Hspec.
  match goal with |- context [save_cluster ?x] => set (c' := x) end.
  assert (site c' = site c) as Hsite by by (unfold c'; destruct (cs_AdditionalInfo spec)).
  assert (cl_ID c' = cl_ID c) as Hid by by (injection Hsite).
  apply bind_tracks; [|by destruct ((save_cluster c' w1).2)]. unfold save_cluster.
  pose proof (current_key c w Hk Hc) as Hne. rewrite (bool_decide_eq_false_2 (cl_ID c' = "")) by congruence.
  destruct (current_frame c w w1 Hw1 Hc) as (x & Hx & Hcore). rewrite <- Hid in Hx |- *.
  assert (cl_Status x = ClusterAccepted /\ site c' = site x) as [Hxs Hss].
  { rewrite Hsite. unfold core in Hcore. split; congruence. }
  split.
  - apply (crow_save_at (path [Created]) c' x); [congruence|done|]. intros _ t.
    assert (created_as (cl_Status c')) as Hst by (unfold c'; by destruct (cs_AdditionalInfo spec)).
    split; (eapply move_path; [by left|]); constructor; try done;
      [rewrite <- Hss; simpl|simpl]; by repeat case_match.
  - intros k Hkc. apply (crow_save_at quiet c' x); [congruence|done|]. by intros ->.
Qed.

Lemma provisioning_tracks c w :
  cl_Status c = ClusterProvisioning -> keyed_clusters w -> current c w ->
  tracks [Checked] (cl_ID c) w (reconcileClusterStatus c w).1.
Proof.
  intros Hs Hk Hc. unfold reconcileClusterStatus. apply bind_tracks.
  - unfold CheckClusterStatus. destruct (GetProvider _) as [p|]; [|reflexivity].
    apply bind_tracks_read; [preserves_tac|]. intros w1 Hw1.
    destruct ((on_ext _ w).2) as [spec|] eqn:Hspec; [|reflexivity]. cbv zeta.
    apply on_ext_answer, contract_check in Hspec; [|exact Hs].
    match goal with |- context [Cluster_Update ?x] => set (c' := x) end.
    assert (site c' = site c /\ cl_ClusterID c' = cl_ClusterID c /\ checked_as (cl_Status c')) as (Hsite & Hcid & Hst)
      by by (unfold c'; destruct (_ && _)).
    assert (cl_ID c' = cl_ID c) as Hid by by (injection Hsite).
    apply bind_tracks; [|by destruct ((Cluster_Update c' w1).2)]. unfold Cluster_Update.
    destruct (bool_decide (cl_ID c' = "")); [reflexivity|]. apply bind_tracks; [|by destruct ((on_clusters _ w1).2)].
    rewrite Hid. apply tracks_update; [done| |].
    + intros x Hx. by apply bool_decide_eq_true in Hx.
    + intros x t Hx. destruct (current_frame c w w1 Hw1 Hc) as (y & Hy & Hcore). rewrite Hx in Hy. injection Hy as <-.
      right. exists Checked. split; [by left|]. injection Hcore as Ei Ep Er Em Et Ec Es. injection Hsite as _ Fp Fr Fm Ft.
      constructor; [congruence| | |simpl; apply pick_string_either; [congruence|done]]; unfold site; simpl;
        rewrite ?Fp, ?Fr, ?Fm, ?Ft, ?Hcid, <- ?Ep, <- ?Er, <- ?Em, <- ?Et, <- ?Ec, ?pick_string_same, ?pick_bool_same; done.
  - apply tracks_quiet, crows_eq_any; [apply _|].
    match goal with |- on_crows eq _ (?m _).1 => assert (preserves (on_crows eq) m) as Hm; [preserves_tac|apply Hm] end.
Qed.

Lemma provisioned_tracks c w :
  cl_Status c = ClusterProvisioned -> keyed_clusters w -> current c w ->
  tracks [Terraformed] (cl_ID c) w (reconcileProvisionedCluster c w).1.
Proof.
  intros Hs Hk Hc. unfold reconcileProvisionedCluster. pose proof (quiet_reconcileClusterDNS c w) as Hq.
  apply bind_tracks; [by apply tracks_quiet|]. set (w1 := (reconcileClusterDNS c w).1) in *.
  assert (keyed_clusters w1) as Hk1.
  { apply (keyed_path [] w); [|done]. intros k. by apply quiet_path, Hq. }
  assert (current c w1) as Hc1 by (eapply current_quiet; [apply Hq|done]).
  destruct ((reconcileClusterDNS c w).2); [reflexivity|].
  apply bind_tracks; [|by destruct ((reconcileAddonOperator c w1).2)]. unfold reconcileAddonOperator. simpl.
  apply bind_tracks.
  - apply tracks_UpdateStatus; [done..|]. intros x Hx.
    eapply (status_edge _ Terraformed c); [by left|done..|]. by constructor.
  - apply tracks_quiet, crows_eq_any; [apply _|].
    match goal with |- on_crows eq _ (?m _).1 => assert (preserves (on_crows eq) m) as Hm; [preserves_tac|apply Hm] end.
Qed.

Lemma quiet_trans_bind {A B} (m : prog world A) (k : A -> prog world B) w :
  on_crows quiet w (m w).1 -> on_crows quiet (m w).1 (k (m w).2 (m w).1).1 -> on_crows quiet w ((m ≫= k) w).1.
Proof. intros Hm Hk. rewrite prog_bind_run. by etransitivity. Qed.

Lemma quiet_reconcileReadyCluster c w : current c w -> on_crows quiet w (reconcileReadyCluster opts c w).1.
Proof.
  intros (x & Hx & Hcore). unfold reconcileReadyCluster. destruct (negb _); [reflexivity|].
  apply quiet_trans_bind.
  - unfold reconcileClusterInstanceType. destruct (wanted_instance_type opts c) as [t|]; [|reflexivity].
    case_bool_decide; [|reflexivity]. apply quiet_trans_bind; [|by destruct ((Cluster_Update _ _).2)].
    apply quiet_Cluster_Update. intros y Hy. simpl in Hy. rewrite Hx in Hy. by injection Hy as <-.
  - destruct ((reconcileClusterInstanceType opts c w).2); [reflexivity|].
    apply quiet_trans_bind; [apply quiet_reconcileClusterDNS|]. by destruct ((reconcileClusterDNS _ _).2).
Qed.

(** ** Ready clusters of a region *)

Definition has_ready (provider region : string) (w : world) : Prop :=
  exists k c, clusters w !! k = Some c /\ cl_Status c = ClusterReady /\ cl_CloudProvider c = provider /\
    cl_Region c = region.

(** No region loses its last ready cluster. *)
Definition keeps_ready : relation world :=
  fun w w' => forall provider region, has_ready provider region w -> has_ready provider region w'.

#[export] Instance keeps_ready_preorder : PreOrder keeps_ready.
Proof. split; [by intros w p r|]. intros w1 w2 w3 H12 H23 p r Hr. by apply H23, H12. Qed.

(** A ready cluster that only changes quietly stays ready where it is. *)
Lemma ready_quiet w w' k c :
  clusters w !! k = Some c -> cl_Status c = ClusterReady -> quiet (cluster_state w k) (cluster_state w' k) ->
  has_ready (cl_CloudProvider c) (cl_Region c) w'.
Proof.
  intros Hc Hs Hq. apply cluster_state_live in Hc. rewrite Hc in Hq.
  destruct (cluster_state w' k) as [|y|] eqn:E; try done. apply cluster_state_live in E.
  exists k, y. simpl in Hq. injection Hq. intros. split_and!; [done|congruence..].
Qed.

Lemma keeps_quiet w w' : on_crows quiet w w' -> keeps_ready w w'.
Proof. intros Hq p r (k & c & Hc & Hs & <- & <-). by apply (ready_quiet w w' k). Qed.

Lemma keeps_path ls w w' : Drained ∉ ls -> on_crows (path ls) w w' -> keeps_ready w w'.
Proof.
  intros Hls Hp p r (k & c & Hc & Hs & Hpr & Hre).
  pose (P (o : rowstate Cluster) := match o with
    | Live x => cl_Status x = ClusterReady /\ cl_CloudProvider x = p /\ cl_Region x = r | _ => False end).
  assert (P (cluster_state w' k)) as HP.
  { apply (path_inv ls P) with (cluster_state w k); [| |apply Hp|].
    - intros [|x|] [|y|]; simpl; try done. intros E (? & ? & ?). injection E. intros. split_and!; congruence.
    - intros l o o' Hl Ht. destruct Ht as [| x x' Hx| x x' Hx| x x' [Hx _]| x x' [Hx _]| x x' [Hx _]| x Hx|x x' [Hx _]];
        simpl; try done; intros (Hr & _); rewrite Hx in Hr; done.
    - apply cluster_state_live in Hc. by rewrite Hc. }
  destruct (cluster_state w' k) as [|x|] eqn:E; try done. apply cluster_state_live in E. exists k, x. done.
Qed.

(** The group of a region with more than one ready cluster has one besides [k]. *)
Lemma group_other provider region w l key n k :
  (ListGroupByProviderAndRegion [provider] [region] [ClusterReady] w).2 = Ok ((key, n) :: l) -> 1 < n ->
  exists k' c, k' <> k /\ clusters w !! k' = Some c /\ cl_Status c = ClusterReady /\
    cl_CloudProvider c = provider /\ cl_Region c = region.
Proof.
  unfold ListGroupByProviderAndRegion. simpl. rewrite prog_bind_run. set (p := fun c => _). set (g := fun c => _).
  destruct (on_clusters_run (db_group p g) w) as (_ & _ & Hres).
  destruct ((on_clusters (db_group p g) w).2) as [groups|]; [|done]. intros [= ->] Hn. symmetry in Hres.
  apply group_ok in Hres as [_ Hg]. destruct (proj1 (Hg key n) ltac:(by left)) as [Hsize _].
  fold (clusters w) in Hsize. unfold group_size in Hsize. set (m := matching _ _) in Hsize.
  assert (delete k m <> ∅) as Hne.
  { intros E. pose proof (map_size_delete k m) as Hd. rewrite E, map_size_empty in Hd.
    destruct (m !! k); simpl in Hd; lia. }
  apply map_choose in Hne as (k' & c & Hk'). apply lookup_delete_Some in Hk' as [Hk' Hc].
  apply matching_lookup in Hc as [Hc [Hp _]%andb_true_iff]. exists k', c. split; [done|]. unfold p in Hp.
  rewrite !andb_true_iff, !bool_decide_eq_true, !list_elem_of_singleton in Hp. naive_solver.
Qed.

Lemma empty_step c w :
  cl_Status c = ClusterReady -> keyed_clusters w -> current c w ->
  tracks [Drained] (cl_ID c) w (reconcileEmptyCluster c w).1 /\ keeps_ready w (reconcileEmptyCluster c w).1 /\
  ((reconcileEmptyCluster c w).2 = (false, None) -> on_crows eq w (reconcileEmptyCluster c w).1).
Proof.
  intros Hs Hk Hc. unfold reconcileEmptyCluster.
  assert (forall w' (res : bool * option error), on_crows eq w w' -> tracks [Drained] (cl_ID c) w w' /\ keeps_ready w w' /\
    (res = (false, None) -> on_crows eq w w')) as Hframe.
  { intros w' res Hw. assert (on_crows quiet w w') by (apply crows_eq_any; [apply _|done]).
    split_and!; [by apply tracks_quiet|by apply keeps_quiet|done]. }
  rewrite prog_bind_run.
  assert (on_crows eq w (FindNonEmptyClusterByID (cl_ClusterID c) w).1) as Hw1.
  { assert (preserves (on_crows eq) (FindNonEmptyClusterByID (cl_ClusterID c))) as Hm; [|apply Hm].
    unfold FindNonEmptyClusterByID. preserves_tac. }
  set (w1 := (FindNonEmptyClusterByID _ w).1) in *. destruct ((FindNonEmptyClusterByID _ w).2) as [[z|]|e]; [by apply Hframe| |by apply Hframe].
  rewrite prog_bind_run. set (grp := ListGroupByProviderAndRegion _ _ _).
  assert (on_crows eq w1 (grp w1).1) as Hw2.
  { assert (preserves (on_crows eq) grp) as Hm; [|apply Hm]. unfold grp, ListGroupByProviderAndRegion. preserves_tac. }
  assert (on_crows eq w (grp w1).1) as Hw3 by (etransitivity; [exact Hw1|exact Hw2]).
  destruct ((grp w1).2) as [[|[key n] l]|e] eqn:Hg; [by apply Hframe| |by apply Hframe].
  destruct (Z.leb_spec n 1) as [Hle|Hlt]; [by apply Hframe|].
  destruct (group_other _ _ w1 l key n (cl_ID c) Hg Hlt) as (k' & d & Hk' & Hd & Hds & Hdp & Hdr).
  set (w2 := (grp w1).1) in *.
  assert (tracks [Drained] (cl_ID c) w2 (Cluster_UpdateStatus c ClusterDeprovisioning w2).1) as Ht.
  { apply tracks_UpdateStatus; [by eapply keyed_frame|by eapply current_frame|]. intros x Hx.
    eapply (status_edge _ Drained c); [by left|done..|]. by constructor. }
  rewrite prog_bind_run. set (w3 := (Cluster_UpdateStatus c ClusterDeprovisioning w2).1) in *.
  assert (tracks [Drained] (cl_ID c) w w3 /\ keeps_ready w w3) as Hdone;
    [|destruct ((Cluster_UpdateStatus c ClusterDeprovisioning w2).2); by destruct Hdone].
  destruct (Hframe w2 (false, None) Hw3) as (Ht0 & Hk0 & _).
  split; [by etransitivity|]. etransitivity; [exact Hk0|].
  intros p r (k & x & Hx & Hxs & Hxp & Hxr). destruct (decide (k = cl_ID c)) as [->|Hne].
  - destruct (current_frame c w w2 Hw3 Hc) as (y & Hy & Hcore). rewrite Hx in Hy. injection Hy as <-.
    assert (cl_CloudProvider d = p /\ cl_Region d = r) as [<- <-].
    { unfold core, site in Hcore. injection Hcore. intros. split; congruence. }
    apply (ready_quiet w2 w3 k'); [|done|by apply Ht]. by rewrite (crows_eq _ _ Hw2).
  - subst. apply (ready_quiet w2 w3 k); [done..|]. by apply Ht.
Qed.

Lemma ready_step c w :
  cl_Status c = ClusterReady -> keyed_clusters w -> current c w ->
  tracks [Drained] (cl_ID c) w (reconcile_ready opts c w).1 /\ keeps_ready w (reconcile_ready opts c w).1.
Proof.
  intros Hs Hk Hc. unfold reconcile_ready. rewrite prog_bind_run.
  set (m := if IsDataPlaneAutoScalingEnabled _ then _ else _).
  assert (tracks [Drained] (cl_ID c) w (m w).1 /\ keeps_ready w (m w).1 /\
    ((m w).2 = (false, None) -> on_crows eq w (m w).1)) as (Ht & Hkeep & Hsame).
  { unfold m. destruct (IsDataPlaneAutoScalingEnabled _); [by apply empty_step|]. split_and!; [reflexivity..|by intros _ k]. }
  rewrite prog_bind_run. destruct ((m w).2) as [[] [e|]]; [by split..|].
  assert (on_crows quiet (m w).1 (reconcileReadyCluster opts c (m w).1).1) as Hq
    by by eapply quiet_reconcileReadyCluster, current_frame; [apply Hsame|].
  split; [etransitivity; [exact Ht|by apply tracks_quiet]|]. etransitivity; [exact Hkeep|by apply keeps_quiet].
Qed.
End steps.

Lemma tracks_mono `{Platform} `{Answers} ls ls' id w w' : ls ⊆ ls' -> tracks ls id w w' -> tracks ls' id w w'.
Proof. intros Hs [H1 H2]. split; [by eapply path_mono|done]. Qed.

Lemma crows_mono `{Platform} `{Answers} ls ls' w w' : ls ⊆ ls' -> on_crows (path ls) w w' -> on_crows (path ls') w w'.
Proof. intros Hs Hp k. by eapply path_mono. Qed.

(** ** The processors *)

Section processors.
Context `{PlatformLaws} `{!ExternalsLaws externals} `{Answers} `{!ProviderContract} `{Semver} (opts : ClusterManagerOptions).
Let auto : bool := IsDataPlaneAutoScalingEnabled (cm_DataplaneClusterConfig opts).

Lemma crows_emit_each es : preserves (on_crows eq) (emit_each es).
Proof. induction es as [|e es IH]; simpl; preserves_tac. Qed.

Lemma crows_per_cluster l : preserves (on_crows eq) (emit_centrals_per_cluster l).
Proof.
  induction l as [|[id n] l IH]; simpl; [preserves_tac|]. unfold GetExternalID. preserves_tac.
Qed.

Lemma crows_processMetrics : preserves (on_crows eq) (processMetrics opts).
Proof.
  pose proof crows_emit_each. pose proof crows_per_cluster.
  unfold processMetrics, setClusterStatusCountMetrics, setDinosaurPerClusterCountMetrics,
    setClusterStatusMaxCapacityMetrics, Cluster_CountByStatus, FindDinosaurInstanceCount. preserves_tac.
Qed.

Lemma fresh_id_nonempty w : (fresh_id w).2 <> "".
Proof. unfold fresh_id, on_ext. pose proof (new_id_nonempty (w_ext w)). by destruct (NewID (w_ext w)). Qed.

Lemma register_path c :
  cl_ID c = "" -> cl_Status c = ClusterAccepted -> cl_ClusterID c = "" -> cl_ProviderType c = ClusterProviderOCM ->
  preserves (on_crows (path [Registered])) (RegisterClusterJob c).
Proof.
  intros Hid Hs Hc Hp w. unfold RegisterClusterJob. rewrite prog_bind_run.
  transitivity (save_cluster c w).1; [|by destruct ((save_cluster c w).2)].
  unfold save_cluster. rewrite (bool_decide_eq_true_2 (cl_ID c = "")) by done. rewrite prog_bind_run.
  pose proof (fresh_id_nonempty w) as Hne.
  transitivity (fresh_id w).1; [apply crows_fresh_id; apply _|].
  set (c' := Cluster_BeforeCreate _ c). intros k. apply (crow_create_at (path [Registered])). intros t.
  eapply move_path; [by left|].
  assert (cl_Status c' = ClusterAccepted /\ cl_ClusterID c' = "" /\ cl_ID c' = (fresh_id w).2 /\
    cl_ProviderType c' = ClusterProviderOCM) as (Hs1 & Hs2 & Hs3 & Hs4).
  { unfold c', Cluster_BeforeCreate. rewrite Hs. simpl. rewrite Hid. simpl. by case_bool_decide. }
  constructor; unfold stamp_created; simpl; repeat case_match; simpl; congruence.
Qed.

Lemma regions_path : preserves (on_crows (path [Registered])) (reconcileClustersForRegions opts).
Proof.
  intros w. unfold reconcileClustersForRegions. destruct (negb _); [reflexivity|]. rewrite prog_bind_run.
  set (grp := ListGroupByProviderAndRegion _ _ _).
  assert (preserves (on_crows (path [Registered])) grp) as Hg by (unfold grp, ListGroupByProviderAndRegion; preserves_tac).
  etransitivity; [apply Hg|]. destruct ((grp w).2) as [groups|]; [|reflexivity]. generalize (grp w).1. clear Hg.
  induction (provider_regions _) as [|[p r] prs IH]; intros w1; [reflexivity|]. simpl.
  destruct (bool_decide _); [apply IH|]. rewrite prog_bind_run. etransitivity; [exact (register_path (region_request p r) eq_refl eq_refl eq_refl eq_refl w1)|].
  destruct ((RegisterClusterJob _ w1).2); [reflexivity|apply IH].
Qed.

Lemma regions_none : auto = false -> preserves (on_crows eq) (reconcileClustersForRegions opts).
Proof. unfold auto, reconcileClustersForRegions. intros -> w k. done. Qed.

(** One kind of move for the clusters of one status. *)
Lemma tracked_path ls (I : world -> Prop) status lf msg name step w :
  (forall w1 w2, on_crows (path ls) w1 w2 -> I w1 -> I w2) -> (forall w1 w2, on_crows eq w1 w2 -> I w1 -> I w2) ->
  (forall c w1, cl_Status c = status -> keyed_clusters w1 -> I w1 -> current c w1 ->
     tracks ls (cl_ID c) w1 (step c w1).1) ->
  keyed_clusters w -> I w ->
  on_crows (path ls) w (process_status status lf (tracked status msg name step) w).1.
Proof.
  intros HI HI' Hstep Hk Hi. apply (process_status_path _ I); [done..|]. intros c v Hs Hkv Hiv Hc.
  apply tracks_tracked. intros v1 Hv. apply Hstep; [done|by eapply keyed_frame|by eapply HI'|by eapply current_frame].
Qed.

Lemma deprovisioning_path w :
  keyed_clusters w ->
  on_crows (path (if auto then [Cleaned; Recalled] else [Cleaned])) w (processDeprovisioningClusters opts w).1.
Proof.
  intros Hk. apply (tracked_path _ (fun _ => True)); [done..| |done|done]. intros c v Hs Hkv _ Hc.
  apply deprovisioning_tracks; [destruct auto; set_solver| |done..]. unfold auto. intros ->. set_solver.
Qed.

Lemma cleanup_path w : keyed_clusters w -> unique_ids w -> on_crows (path [Removed]) w (processCleanupClusters w).1.
Proof.
  intros Hk Hu. apply (tracked_path _ unique_ids); [intros v1 v2; apply unique_path; set_solver|apply unique_frame| |done..].
  intros c v Hs _ Huv Hc. by apply cleanup_tracks.
Qed.

Lemma accepted_path w : keyed_clusters w -> on_crows (path [Created]) w (processAcceptedClusters w).1.
Proof. intros Hk. apply (tracked_path _ (fun _ => True)); [done..| |done|done]. intros. by apply accepted_tracks. Qed.

Lemma provisioning_path w : keyed_clusters w -> on_crows (path [Checked]) w (processProvisioningClusters w).1.
Proof. intros Hk. apply (tracked_path _ (fun _ => True)); [done..| |done|done]. intros. by apply provisioning_tracks. Qed.

Lemma provisioned_path w : keyed_clusters w -> on_crows (path [Terraformed]) w (processProvisionedClusters w).1.
Proof. intros Hk. apply (tracked_path _ (fun _ => True)); [done..| |done|done]. intros. by apply provisioned_tracks. Qed.

Lemma ready_path w :
  keyed_clusters w ->
  on_crows (path (if auto then [Drained] else [])) w (processReadyClusters opts w).1 /\
  keeps_ready w (processReadyClusters opts w).1.
Proof.
  intros Hk. apply (process_status_rel _ (fun _ => True) keeps_ready); [done| |done|done|].
  - intros w1 w2 He. apply keeps_quiet. apply crows_eq_any; [apply _|done].
  - intros c w1 Hs Hk1 _ Hc. destruct (ready_step opts c w1 Hs Hk1 Hc) as [Ht Hkeep]. split; [|done].
    unfold auto. destruct (IsDataPlaneAutoScalingEnabled _) eqn:E; [done|].
    unfold reconcile_ready. rewrite E. rewrite prog_bind_run. simpl. apply tracks_quiet.
    apply quiet_trans_bind; [by apply quiet_reconcileReadyCluster|reflexivity].
Qed.
End processors.

(** ** A pass of the manager *)

Lemma run_calm `{Platform} (ms : list (prog world (list error))) w :
  (run_processors (calm <$> ms) w).1 = foldl (fun w m => (m w).1) w ms.
Proof.
  revert w. induction ms as [|m ms IH]; intros w; [done|]. simpl. rewrite prog_bind_run.
  assert (calm m w = ((m w).1, ((m w).2, false))) as -> by (unfold calm; by rewrite prog_bind_run). simpl.
  rewrite prog_bind_run. simpl. apply IH.
Qed.

(** The moves of a pass without a configuration file. *)
Definition manager_labels (auto : bool) : list label :=
  [Created; Checked; Terraformed; Cleaned; Removed] ++ (if auto then [Registered; Recalled; Drained] else []).

Section passes.
Context `{PlatformLaws} `{!ExternalsLaws externals} `{Answers} `{!ProviderContract} `{Semver} (cmp_Equal : Cluster -> Cluster -> bool)
  (opts : ClusterManagerOptions).
Let conf : DataplaneClusterConfig := cm_DataplaneClusterConfig opts.

(** The processors of a pass, and what is known before and after each: the moves,
    that the rows stay keyed, and that no region loses its last ready cluster. *)
Definition stage (ls : list label) (w w' : world) : Prop :=
  on_crows (path ls) w w' /\ keyed_clusters w' /\ keeps_ready w w'.

Lemma stage_of ls ls' w w' :
  keyed_clusters w -> ls' ⊆ ls -> Drained ∉ ls' -> on_crows (path ls') w w' -> stage ls w w'.
Proof.
  intros Hk Hs Hd Hp. split_and!; [by eapply crows_mono|by eapply keyed_path|by eapply keeps_path].
Qed.

Lemma stage_trans ls w1 w2 w3 : stage ls w1 w2 -> stage ls w2 w3 -> stage ls w1 w3.
Proof. intros (H12 & _ & K12) (H23 & Hk & K23). split_and!; [by etransitivity|done|by etransitivity]. Qed.

(** Up to the removal of clusters, whose statement selects by cluster_id. *)
Lemma first_stages w :
  let auto := IsDataPlaneAutoScalingEnabled conf in
  let w3 := (processDeprovisioningClusters opts (reconcileClustersForRegions opts (processMetrics opts w).1).1).1 in
  keyed_clusters w -> unique_ids w -> stage (manager_labels auto) w w3 /\ unique_ids w3.
Proof.
  intros auto w3 Hk Hu. pose proof (crows_processMetrics opts w) as S1. set (w1 := (processMetrics opts w).1) in *.
  assert (keyed_clusters w1) as K1 by by eapply keyed_frame. assert (unique_ids w1) as U1 by by eapply unique_frame.
  assert (on_crows (path (if auto then [Registered] else [])) w1 (reconcileClustersForRegions opts w1).1) as S2.
  { destruct auto eqn:Ha; [apply regions_path|]. apply crows_eq_any; [apply _|by apply regions_none]. }
  set (w2 := (reconcileClustersForRegions opts w1).1) in *. assert (keyed_clusters w2) as K2 by by eapply keyed_path.
  assert (unique_ids w2) as U2 by (eapply unique_path, U1; [|exact S2]; destruct auto; set_solver).
  pose proof (deprovisioning_path opts w2 K2) as S3. fold conf auto w3 in S3.
  split; [|eapply unique_path, U2; [|exact S3]; destruct auto; set_solver].
  apply stage_trans with w1; [apply (stage_of _ []); [done|set_solver..|by apply crows_eq_any; [apply _|]]|].
  apply stage_trans with w2; [eapply stage_of, S2|eapply stage_of, S3]; try done; destruct auto; set_solver.
Qed.

Lemma pass_moves w :
  IsDataPlaneManualScalingEnabled conf = false -> keyed_clusters w -> unique_ids w ->
  stage (manager_labels (IsDataPlaneAutoScalingEnabled conf)) w (Reconcile cmp_Equal opts w).1.
Proof.
  intros Hman Hk Hu. unfold Reconcile.
  assert (reconcileClusterWithManualConfig cmp_Equal opts = calm (mret [])) as ->.
  { unfold reconcileClusterWithManualConfig. unfold conf in Hman. by rewrite Hman. }
  match goal with |- context [run_processors ?l] =>
    change l with (calm <$> [processMetrics opts; mret []; reconcileClustersForRegions opts;
      processDeprovisioningClusters opts; processCleanupClusters; processAcceptedClusters;
      processProvisioningClusters; processProvisionedClusters; processReadyClusters opts]) end.
  rewrite run_calm. cbn [foldl]. rewrite prog_ret_run. cbn [fst].
  destruct (first_stages w Hk Hu) as [S3 U3]. set (w3 := (processDeprovisioningClusters opts _).1) in *.
  set (auto := IsDataPlaneAutoScalingEnabled conf) in *. set (ls := manager_labels auto) in *.
  eapply stage_trans; [exact S3|]. destruct S3 as (_ & K3 & _).
  assert (stage ls w3 (processCleanupClusters w3).1) as S4
    by (eapply stage_of, cleanup_path; [done|set_solver..|done|done]).
  eapply stage_trans; [exact S4|]. destruct S4 as (_ & K4 & _).
  set (w4 := (processCleanupClusters w3).1) in *.
  assert (stage ls w4 (processAcceptedClusters w4).1) as S5 by (eapply stage_of, accepted_path; [done|set_solver..|done]).
  eapply stage_trans; [exact S5|]. destruct S5 as (_ & K5 & _).
  set (w5 := (processAcceptedClusters w4).1) in *.
  assert (stage ls w5 (processProvisioningClusters w5).1) as S6
    by (eapply stage_of, provisioning_path; [done|set_solver..|done]).
  eapply stage_trans; [exact S6|]. destruct S6 as (_ & K6 & _).
  set (w6 := (processProvisioningClusters w5).1) in *.
  assert (stage ls w6 (processProvisionedClusters w6).1) as S7
    by (eapply stage_of, provisioned_path; [done|set_solver..|done]).
  eapply stage_trans; [exact S7|]. destruct S7 as (_ & K7 & _).
  destruct (ready_path opts _ K7) as [S8 R8]. fold conf auto in S8.
  split_and!; [|by eapply keyed_path|done]. eapply crows_mono, S8. destruct auto eqn:?; set_solver.
Qed.


End passes.

Section ready.
Context `{PlatformLaws} `{!ExternalsLaws externals} `{Semver} (cmp_Equal : Cluster -> Cluster -> bool)
  (opts : ClusterManagerOptions).

(** C25. Automatic scaling gives up empty clusters, but a provider and region with a
    ready cluster before a pass has one after it, whatever fails. *)
Theorem Reconcile_keeps_ready w provider region :
  IsDataPlaneManualScalingEnabled (cm_DataplaneClusterConfig opts) = false -> keyed_clusters w -> unique_ids w ->
  has_ready provider region w -> has_ready provider region (Reconcile cmp_Equal opts w).1.
Proof.
  intros Hm Hk Hu. pose proof any_contract as Hany.
  apply (@pass_moves _ _ _ any_answer Hany _ cmp_Equal opts w Hm Hk Hu).
Qed.
End ready.

(** ** A pass on the concrete platform *)

Definition auto_opts : ClusterManagerOptions :=
  mkClusterManagerOptions (mkDataplaneClusterConfig AutoScaling (NewClusterConfig []) true)
    (mkProviderConfig [mkProvider "aws" true [mkRegion "us-east-1" true ∅]]).

(** Two empty ready clusters in a region, and a provisioned one. *)
Definition auto_world : @world mem_platform :=
  mem_world [] [ready_cluster "k1" "c1"; ready_cluster "k2" "c2"; set_cl_Status ClusterProvisioned (ready_cluster "k3" "c3")].

Lemma auto_world_unique : unique_ids auto_world.
Proof.
  assert (map_Forall (fun k1 c1 => map_Forall (fun k2 c2 => cl_ClusterID c1 = cl_ClusterID c2 -> k1 = k2) (clusters auto_world))
    (clusters auto_world)) as Hf by (apply (bool_decide_unpack _); vm_compute; exact I).
  intros k1 k2 c1 c2 Hc1 Hc2 E _. exact (Hf k1 c1 Hc1 k2 c2 Hc2 E).
Qed.

Definition auto_pass : world * (list error * bool) :=
  @Reconcile mem_platform simple_semver (fun x y => bool_decide (x = y)) auto_opts auto_world.


Lemma Reconcile_keeps_ready_witness :
  has_ready "aws" "us-east-1" auto_world /\ has_ready "aws" "us-east-1" auto_pass.1.
Proof.
  assert (has_ready "aws" "us-east-1" auto_world) as Hr.
  { exists "k1", (ready_cluster "k1" "c1"). split_and!; [vm_compute; reflexivity|reflexivity..]. }
  split; [exact Hr|].
  exact (@Reconcile_keeps_ready mem_platform _ _ simple_semver (fun x y => bool_decide (x = y)) auto_opts auto_world
      "aws" "us-east-1" ltac:(reflexivity) ltac:(vm_compute; reflexivity) auto_world_unique Hr).
Defined.
