(* ===== verification/ManualScaling.v ===== *)
(** * Manual scaling: the clusters follow the configuration file

    What [reconcileClusterWithManualConfig] of the cluster manager does to the
    clusters table: which rows it may change and how ([manual_change]), and what
    holds when it reports no error. *)

From S2P Require Import Prelude GoString GoFmt ServiceErrors CentralRequest Store Versions.
From S2P Require Import ClusterTypes World ClusterRows MemPlatform Config Providers ClusterService ClusterManager.
From S2P Require Import ClusterManagerProps.
Local Open Scope string_scope.
Local Open Scope Z_scope.

(** The row has the values of the configuration; an empty status or instance type
    of the file is replaced by a default when the row is created. *)
Definition conforms (m : ManualCluster) (x : Cluster) : Prop :=
  cl_ClusterID x = mc_ClusterID m /\ cl_CloudProvider x = mc_CloudProvider m /\ cl_Region x = mc_Region m /\
  cl_MultiAZ x = mc_MultiAZ m /\ cl_ProviderType x = mc_ProviderType m /\ cl_ClusterDNS x = mc_ClusterDNS m /\
  cl_Schedulable x = mc_Schedulable m /\ (mc_Status m <> "" -> cl_Status x = mc_Status m) /\
  (mc_SupportedInstanceType m <> "" -> cl_SupportedInstanceType x = mc_SupportedInstanceType m).

Definition configured (l : list ManualCluster) (id : string) : Prop := exists m, m ∈ l /\ mc_ClusterID m = id.

(** No central past acceptance is placed on the cluster. *)
Definition idle `{Platform} (w : world) (id : string) : Prop :=
  forall k r, centrals w !! k = Some r -> cr_ClusterID r = id -> cr_Status r = CentralRequestStatusAccepted.

(** What may happen to a row: nothing; it is registered or overwritten for a
    configured cluster; or it is given up, when it is not configured and idle. *)
Definition manual_change `{Platform} (l : list ManualCluster) (w : world) (o o' : rowstate Cluster) : Prop :=
  o' = o \/
  (exists m x', m ∈ l /\ o' = Live x' /\ conforms m x' /\
     (o = Absent /\ cl_ID x' <> "" \/ exists x, o = Live x /\ cl_ClusterID x = mc_ClusterID m /\ cl_ID x' = cl_ID x)) \/
  (exists x t, o = Live x /\ o' = Live (set_cl_UpdatedAt t (set_cl_Status ClusterDeprovisioning x)) /\
     ~ configured l (cl_ClusterID x) /\ idle w (cl_ClusterID x) /\ cl_Status x <> ClusterCleanup).

#[export] Instance manual_change_preorder `{Platform} l w : PreOrder (manual_change l w).
Proof.
  split; [by left|].
  intros o1 o2 o3 [->|[(m & x' & Hm & -> & Hc & Ho)|(x & t & -> & -> & Hn & Hi & Hs)]]; [done| |].
  - intros [->|[(m2 & x2 & Hm2 & -> & Hc2 & [[? _]|(y & [= <-] & Hy & Hid)])|(y & t & [= <-] & -> & Hn & _)]]; [by right; left; eauto 10|done| |].
    + right. left. exists m2, x2. split_and!; [done..|].
      destruct Ho as [[-> Hne]|(x & -> & Hx & Hid')]; [left; split; congruence|right].
      exists x. split_and!; [done| |congruence]. destruct Hc as [Hc _]. congruence.
    + exfalso. apply Hn. exists m. split; [done|]. symmetry. apply Hc.
  - intros [->|[(m2 & x2 & Hm2 & -> & Hc2 & [[? _]|(y & [= <-] & Hy & _)])|(y & t' & [= <-] & -> & Hn' & Hi' & Hs')]].
    + right. right. eauto 10.
    + done.
    + exfalso. apply Hn. by exists m2.
    + right. right. by exists x, t'.
Qed.

Section manual.
Context `{PlatformLaws} `{!ExternalsLaws externals} `{Semver} (cmp_Equal : Cluster -> Cluster -> bool) (opts : ClusterManagerOptions)
  (configuration : list ManualCluster).
Hypothesis config_read : dc_ClusterConfig (cm_DataplaneClusterConfig opts) = NewClusterConfig configuration.

(** ** Registration of missing clusters *)

(** The values a configuration sets. *)
Definition settings (x : Cluster) : string * string * string * bool * string * string * bool :=
  (cl_ClusterID x, cl_CloudProvider x, cl_Region x, cl_MultiAZ x, cl_ProviderType x, cl_ClusterDNS x, cl_Schedulable x).

Lemma created_settings id t c :
  let c' := stamp_created t (Cluster_BeforeCreate id c) in
  settings c' = settings c /\ (cl_Status c <> "" -> cl_Status c' = cl_Status c) /\
  (cl_SupportedInstanceType c <> "" -> cl_SupportedInstanceType c' = cl_SupportedInstanceType c).
Proof.
  assert (forall d : Cluster, settings (stamp_created t d) = settings d /\ cl_Status (stamp_created t d) = cl_Status d /\
    cl_SupportedInstanceType (stamp_created t d) = cl_SupportedInstanceType d) as Hst.
  { intros d. unfold stamp_created. cbn -[Z.eqb]. by destruct (_ =? 0), (_ =? 0). }
  cbv zeta. destruct (Hst (Cluster_BeforeCreate id c)) as (-> & -> & ->). clear Hst. unfold Cluster_BeforeCreate. cbv zeta.
  destruct (decide (cl_Status c = "")) as [E|E]; destruct (decide (cl_SupportedInstanceType c = "")) as [F|F];
    repeat case_bool_decide; split_and!; try done; intros ?; done.
Qed.

Lemma BeforeCreate_conforms id versions m t :
  conforms m (stamp_created t (Cluster_BeforeCreate id
    (set_cl_AvailableCentralOperatorVersions versions (manual_request m)))).
Proof.
  set (c := set_cl_AvailableCentralOperatorVersions _ _).
  destruct (created_settings id t c) as (E & Hs & Ht). set (c' := stamp_created _ _) in *. clearbody c'.
  unfold settings at 1 in E. injection E as E1 E2 E3 E4 E5 E6 E7. by split_and!.
Qed.

(** The row of a missing cluster, with or without versions. *)
Lemma register_row m c :
  (if (0 <? length (mc_AvailableCentralOperatorVersions m))%nat
   then SetAvailableCentralOperatorVersions (mc_AvailableCentralOperatorVersions m) (manual_request m)
   else Ok (manual_request m)) = Ok c ->
  exists versions, c = set_cl_AvailableCentralOperatorVersions versions (manual_request m).
Proof.
  destruct (0 <? _)%nat; [|intros [= <-]; by exists None]. unfold SetAvailableCentralOperatorVersions.
  destruct (CentralOperatorVersionsDeepSort _) as [sorted|]; [|done]. intros [= <-]. eauto.
Qed.

Lemma register_manual_change w0 m w :
  m ∈ configuration ->
  on_crows (manual_change configuration w0) w (register_manual m w).1 /\
  ((register_manual m w).2 = None ->
   exists k c, clusters (register_manual m w).1 !! k = Some c /\ cl_ClusterID c = mc_ClusterID m).
Proof.
  intros Hm. unfold register_manual. cbv zeta.
  destruct (if (0 <? _)%nat then _ else _) as [c|] eqn:E; [|by split; [reflexivity|]].
  apply register_row in E as [versions ->]. set (c := set_cl_AvailableCentralOperatorVersions versions _).
  rewrite prog_bind_run. unfold RegisterClusterJob. rewrite prog_bind_run. unfold save_cluster.
  rewrite (bool_decide_eq_true_2 (cl_ID c = "")) by done. rewrite prog_bind_run.
  set (w1 := (fresh_id w).1). set (c' := Cluster_BeforeCreate _ c).
  assert (on_crows (manual_change configuration w0) w w1) as Hw1 by (apply crows_fresh_id; apply _).
  set (mk := on_clusters (db_create c')).
  assert (on_crows (manual_change configuration w0) w1 (mk w1).1) as Hw2.
  { intros k. apply crow_create_at; [apply _|]. intros t. right. left. exists m, (stamp_created t c').
    split_and!; [done|done|apply BeforeCreate_conforms|left; split; [done|]].
    pose proof (fresh_id_nonempty w) as Hne.
    assert (cl_ID c' = (fresh_id w).2) as Hid.
    { unfold c', Cluster_BeforeCreate. cbv zeta. by repeat case_bool_decide. }
    unfold stamp_created. cbn -[Z.eqb]. destruct (_ =? 0), (_ =? 0); cbn; congruence. }
  destruct ((mk w1).2) as [c2|e] eqn:Er; simpl.
  - split; [by etransitivity|]. intros _. unfold mk in Er. destruct (on_clusters_run (db_create c') w1) as (Hr & _ & Hres).
    rewrite Hres in Er. destruct (create_ok c' (w_clusters w1) c2 Er) as (_ & _ & [t ->] & Hrows & _).
    exists (cl_ID c'), (stamp_created t c'). split; [|apply BeforeCreate_conforms].
    change (clusters (mk w1).1 !! cl_ID c' = Some (stamp_created t c')).
    unfold mk. rewrite Hr, Hrows. apply lookup_insert_eq.
  - split; [by etransitivity|done].
Qed.
(** Rows stay, with their identifiers. *)
Lemma change_persists w0 w w' k c :
  on_crows (manual_change configuration w0) w w' -> clusters w !! k = Some c ->
  exists c', clusters w' !! k = Some c' /\ cl_ClusterID c' = cl_ClusterID c.
Proof.
  intros Hw Hc. specialize (Hw k). apply cluster_state_live in Hc. rewrite Hc in Hw.
  destruct Hw as [E|[(m & x & Hm & E & Hx & [[? _]|(y & [= <-] & Hy & _)])|(x & t & [= <-] & E & _)]]; [|done| |];
    apply cluster_state_live in E; eexists; (split; [exact E|]); [done| |done].
  destruct Hx as [Hx _]. congruence.
Qed.

Lemma register_all_change w0 ms w :
  ms ⊆ configuration ->
  on_crows (manual_change configuration w0) w (register_all ms w).1 /\
  ((register_all ms w).2 = None -> forall m, m ∈ ms ->
   exists k c, clusters (register_all ms w).1 !! k = Some c /\ cl_ClusterID c = mc_ClusterID m).
Proof.
  revert w. induction ms as [|m ms IH]; intros w Hms.
  { split; [reflexivity|]. intros _ m Hm. by apply not_elem_of_nil in Hm. }
  simpl. rewrite prog_bind_run. destruct (register_manual_change w0 m w) as [Hch1 Hok1]; [apply Hms; by left|].
  destruct ((register_manual m w).2) as [e|] eqn:E; [by split|].
  destruct (IH (register_manual m w).1) as [Hch2 Hok2]; [intros x Hx; apply Hms; by right|].
  split; [by etransitivity|]. intros Hn m' [->|Hm']%elem_of_cons; [|by apply Hok2].
  destruct (Hok1 eq_refl) as (k & c & Hc & Hid). destruct (change_persists w0 _ _ k c Hch2 Hc) as (c' & Hc' & Hid').
  exists k, c'. split; [done|congruence].
Qed.

(** ** Update of existing clusters *)

Lemma apply_manual_conforms m versions c t :
  cl_ClusterID c = mc_ClusterID m -> conforms m (set_cl_UpdatedAt t (apply_manual m versions c)).
Proof. intros Hc. unfold conforms, apply_manual. simpl. done. Qed.

Lemma update_manual_change w0 m w :
  m ∈ configuration -> on_crows (manual_change configuration w0) w (update_manual cmp_Equal m w).1.
Proof.
  intros Hm. unfold update_manual. rewrite prog_bind_run. pose proof (crows_FindClusterByID (mc_ClusterID m) w) as Hw.
  assert (on_crows (manual_change configuration w0) w (FindClusterByID (mc_ClusterID m) w).1) as Hw'
    by (apply crows_eq_any; [apply _|done]).
  destruct ((FindClusterByID (mc_ClusterID m) w).2) as [[c|]|] eqn:Hf; [|done..].
  apply FindClusterByID_ok in Hf as [Hrow Hid]. set (w1 := (FindClusterByID _ w).1) in *.
  rewrite <- (crows_eq _ _ Hw) in Hrow.
  unfold SetAvailableCentralOperatorVersions. destruct (CentralOperatorVersionsDeepSort _) as [sorted|]; [|done].
  set (new := set_cl_AvailableCentralOperatorVersions _ _). destruct (cmp_Equal c new); [done|].
  rewrite prog_bind_run. unfold Cluster_Updates. change (cl_ID new) with (cl_ID c).
  etransitivity; [exact Hw'|]. destruct (bool_decide _); [reflexivity|]. rewrite prog_bind_run.
  set (up := on_clusters _). assert (on_crows (manual_change configuration w0) w1 (up w1).1) as Hup.
  { intros k. apply crow_update_at; [apply _|done|]. intros x t Hx Hp. apply bool_decide_eq_true in Hp.
    rewrite (clusters_id w1 k x Hx) in Hp. subst k. rewrite Hrow in Hx. injection Hx as <-. right. left.
    eexists m, _. split_and!; [done|done|by apply apply_manual_conforms|]. right. by exists c. }
  by destruct ((up w1).2).
Qed.

Lemma update_all_change w0 ms w :
  ms ⊆ configuration -> on_crows (manual_change configuration w0) w (update_all cmp_Equal ms w).1.
Proof.
  revert w. induction ms as [|m ms IH]; intros w Hms; [reflexivity|]. simpl. rewrite prog_bind_run.
  etransitivity; [apply (update_manual_change w0 m); apply Hms; by left|].
  destruct ((update_manual cmp_Equal m w).2) as [e|[|]]; [reflexivity..|]. apply IH. intros x Hx. apply Hms. by right.
Qed.

(** ** The identifiers of the table *)

Lemma ids_map_lookup (l : list Cluster) id :
  is_Some ((foldl (fun m v => <[cl_ClusterID v := v]> m) ∅ l : gmap string Cluster) !! id) <->
  exists v, v ∈ l /\ cl_ClusterID v = id.
Proof.
  assert (forall (m : gmap string Cluster), is_Some (foldl (fun m v => <[cl_ClusterID v := v]> m) m l !! id) <->
    is_Some (m !! id) \/ exists v, v ∈ l /\ cl_ClusterID v = id) as Hg.
  { induction l as [|a l IH]; intros m; simpl.
    - split; [by left|]. intros [?|(v & Hv & _)]; [done|]. by apply not_elem_of_nil in Hv.
    - rewrite IH, lookup_insert_is_Some. split.
      + intros [[E|[_ ?]]|(v & Hv & E)]; [right; exists a; split; [by left|done]|by left|].
        right. exists v. split; [by right|done].
      + intros [?|(v & [->|Hv]%elem_of_cons & E)]; [|by left; left|right; eauto].
        left. destruct (decide (cl_ClusterID a = id)); [by left|by right]. }
  rewrite Hg, lookup_empty. split; [intros [[? ?]|?]; done|by right].
Qed.

Lemma ids_map_id (l : list Cluster) id c :
  (foldl (fun m v => <[cl_ClusterID v := v]> m) ∅ l : gmap string Cluster) !! id = Some c -> cl_ClusterID c = id.
Proof.
  assert (forall (m : gmap string Cluster), (forall i x, m !! i = Some x -> cl_ClusterID x = i) ->
    forall i x, foldl (fun m v => <[cl_ClusterID v := v]> m) m l !! i = Some x -> cl_ClusterID x = i) as Hg.
  { induction l as [|a l IH]; intros m Hm i x; simpl; [apply Hm|]. apply IH. intros j y Hy.
    apply lookup_insert_Some in Hy as [[<- <-]|[_ Hy]]; [done|by apply Hm]. }
  apply Hg. intros i x Hx. by rewrite lookup_empty in Hx.
Qed.

Lemma ListAllClusterIds_ok w l :
  (ListAllClusterIds w).2 = Ok l ->
  forall id, (exists v, v ∈ l /\ cl_ClusterID v = id) <->
    exists k c, clusters w !! k = Some c /\ cl_ClusterID c = id /\ id <> "".
Proof.
  unfold ListAllClusterIds. rewrite prog_bind_run. set (p := fun c => _).
  destruct (on_clusters_run (db_find_by p cl_CreatedAt) w) as (_ & _ & Hres).
  destruct ((on_clusters (db_find_by p cl_CreatedAt) w).2) as [l'|]; [|done]. intros [= <-]. symmetry in Hres.
  apply find_by_ok in Hres as [Hl _]. intros id. split.
  - intros (v & (c & -> & Hc)%list_elem_of_fmap & <-). simpl. rewrite Hl in Hc.
    apply list_elem_of_fmap in Hc as ([k c'] & -> & Hc). apply elem_of_map_to_list, matching_lookup in Hc as [Hc Hp].
    apply bool_decide_eq_true in Hp. eauto.
  - intros (k & c & Hc & <- & Hne). exists (set_cl_ClusterID (cl_ClusterID c) zero_Cluster). split; [|done].
    apply list_elem_of_fmap. exists c. split; [done|]. rewrite Hl. apply list_elem_of_fmap. exists (k, c). split; [done|].
    apply elem_of_map_to_list, matching_lookup. split; [done|]. by apply bool_decide_eq_true.
Qed.
(** ** Clusters in excess *)

Lemma excess_unconfigured (clusterMap : gmap string Cluster) id :
  (forall i c, clusterMap !! i = Some c -> cl_ClusterID c = i) ->
  id ∈ ExcessClusters (dc_ClusterConfig (cm_DataplaneClusterConfig opts)) clusterMap <->
  is_Some (clusterMap !! id) /\ ~ configured configuration id.
Proof.
  intros Hmap. rewrite config_read, ExcessClusters_spec. split.
  - intros (i & c & Hc & <- & Hn). rewrite (Hmap i c Hc). split; [eauto|]. intros (m & Hm & Hid).
    rewrite Forall_forall in Hn. by apply (Hn m).
  - intros [[c Hc] Hn]. exists id, c. split_and!; [done|by apply Hmap|]. apply Forall_forall. intros m Hm Hid.
    apply Hn. by exists m.
Qed.

(** A cluster counted with no central is idle, and conversely. *)
Lemma counted_idle ids w counts id n :
  ids <> [] -> (FindDinosaurInstanceCount ids w).2 = Ok counts -> (id, n) ∈ counts -> id ∈ ids /\ (~ 0 < n <-> idle w id).
Proof.
  intros Hne Hc Hin. destruct (FindDinosaurInstanceCount_ok ids w counts Hne Hc) as [_ Hall].
  destruct (Hall id n Hin) as [Hid ->]. split; [done|]. set (m := matching _ _). split.
  - intros Hn k r Hr Hrid. destruct (decide (cr_Status r = CentralRequestStatusAccepted)) as [|Hs]; [done|].
    assert (m !! k = Some r) as Hm.
    { apply matching_lookup. split; [done|]. by rewrite !andb_true_iff, !bool_decide_eq_true, Hrid. }
    assert (m <> ∅) as Hm' by (intros E; by rewrite E, lookup_empty in Hm).
    apply map_size_non_empty_iff in Hm'. lia.
  - intros Hi Hpos. destruct (map_choose m) as (k & r & Hr).
    { intros E. rewrite E, map_size_empty in Hpos. lia. }
    apply matching_lookup in Hr as [Hr Hp]. rewrite !andb_true_iff, !bool_decide_eq_true in Hp.
    destruct Hp as [[Hs _] [= Hrid]]. by apply Hs, (Hi k r).
Qed.

(** The clusters selected for removal: in excess and idle. *)
Lemma selected_idle excess w counts id :
  excess <> [] -> (FindDinosaurInstanceCount excess w).2 = Ok counts ->
  id ∈ (filter (fun c : string * Z => ~ 0 < c.2) counts).*1 <-> id ∈ excess /\ idle w id.
Proof.
  intros Hex Hcounts. rewrite list_elem_of_fmap. split.
  - intros ([i n] & -> & [Hn Hin]%list_elem_of_filter). simpl.
    destruct (counted_idle excess w counts i n Hex Hcounts Hin) as [? Hi]. split; [done|]. by apply Hi.
  - intros [Hin Hi]. destruct (FindDinosaurInstanceCount_ok excess w counts Hex Hcounts) as [Hall _].
    apply Hall, list_elem_of_fmap in Hin as ([i n] & -> & Hin). exists (i, n). split; [done|].
    apply list_elem_of_filter. split; [|done].
    destruct (counted_idle excess w counts i n Hex Hcounts Hin) as [_ Hiff]. by apply Hiff.
Qed.

Lemma deprovision_excess_change w0 (clusterMap : gmap string Cluster) w :
  (forall i c, clusterMap !! i = Some c -> cl_ClusterID c = i) -> centrals w = centrals w0 ->
  on_crows (manual_change configuration w0) w (deprovision_excess opts clusterMap w).1 /\
  ((deprovision_excess opts clusterMap w).2 = [] -> forall k c, clusters w !! k = Some c ->
   is_Some (clusterMap !! cl_ClusterID c) -> ~ configured configuration (cl_ClusterID c) -> idle w0 (cl_ClusterID c) ->
   exists c', clusters (deprovision_excess opts clusterMap w).1 !! k = Some c' /\
     (cl_Status c' = ClusterDeprovisioning \/ cl_Status c' = ClusterCleanup)).
Proof.
  intros Hmap Hw0. unfold deprovision_excess. cbv zeta. set (excess := ExcessClusters _ _).
  assert (forall id, idle w id <-> idle w0 id) as Hidle by (intros id; unfold idle; by rewrite Hw0).
  destruct (Nat.eqb_spec (length excess) 0) as [Hz|Hne].
  { split; [reflexivity|]. intros _ k c Hc Hin Hn _. apply length_zero_iff_nil in Hz.
    assert (cl_ClusterID c ∈ excess) as Hex by (by apply excess_unconfigured). rewrite Hz in Hex.
    by apply not_elem_of_nil in Hex. }
  assert (excess <> []) as Hex by (intros E; by rewrite E in Hne). rewrite prog_bind_run.
  assert (on_crows eq w (FindDinosaurInstanceCount excess w).1) as Hw1.
  { assert (preserves (on_crows eq) (FindDinosaurInstanceCount excess)) as Hm; [|apply Hm].
    unfold FindDinosaurInstanceCount. preserves_tac. }
  destruct ((FindDinosaurInstanceCount excess w).2) as [counts|] eqn:Hcounts; [|split; [apply crows_eq_any; [apply _|done]|done]].
  set (w1 := (FindDinosaurInstanceCount excess w).1) in *. set (ids := (filter _ counts).*1).
  assert (forall id, id ∈ ids <-> id ∈ excess /\ idle w0 id) as Hids.
  { intros id. rewrite <- Hidle. by apply selected_idle. }
  assert (on_crows (manual_change configuration w0) w w1) as Hch1 by (apply crows_eq_any; [apply _|done]).
  apply crows_eq in Hw1. destruct (Nat.eqb_spec (length ids) 0) as [Hz|Hne2].
  { split; [done|]. intros _ k c Hc Hin Hn Hi. apply length_zero_iff_nil in Hz.
    assert (cl_ClusterID c ∈ ids) as Hx by (apply Hids; split; [by apply excess_unconfigured|done]).
    rewrite Hz in Hx. by apply not_elem_of_nil in Hx. }
  rewrite prog_bind_run. unfold UpdateMultiClusterStatus. simpl. destruct (Nat.eqb_spec (length ids) 0); [done|].
  rewrite prog_bind_run. set (p := fun c => _ && _). set (up := on_clusters (db_update p (set_cl_Status ClusterDeprovisioning))).
  assert (on_crows (manual_change configuration w0) w1 (up w1).1) as Hch2.
  { intros k. apply crow_update_at; [apply _|done|]. intros x t Hx Hp. apply andb_true_iff in Hp as [Hp Hs].
    apply bool_decide_eq_true, Hids in Hp as [Hin Hi]. apply bool_decide_eq_true in Hs. right. right.
    exists x, t. split_and!; [done..| |done|done]. by apply excess_unconfigured in Hin as [_ ?]. }
  destruct ((up w1).2) as [n'|] eqn:Hup; [|split; [by etransitivity|done]].
  rewrite prog_bind_run. set (w2 := (emit_times _ _ (up w1).1).1).
  assert (clusters w2 = clusters (up w1).1) as Hw2 by (unfold w2; apply emit_times_run).
  simpl. split; [etransitivity; [exact Hch1|etransitivity; [exact Hch2|apply crows_emit_times; apply _]]|].
  intros _ k c Hc Hin Hn Hi. rewrite Hw2. apply clusters_update_result in Hup as [t Ht]; [|done].
  fold up in Ht. rewrite Ht, updated_lookup, Hw1, Hc. simpl. eexists. split; [done|].
  destruct (p c) eqn:Hp; [by left|right]. unfold p in Hp. apply andb_false_iff in Hp as [Hp|Hp].
  - apply bool_decide_eq_false in Hp. destruct Hp. apply Hids. split; [by apply excess_unconfigured|done].
  - apply bool_decide_eq_false in Hp. by apply dec_stable.
Qed.
(** ** The processor *)

Lemma centrals_register_all ms : preserves (on_rows eq) (register_all ms).
Proof.
  induction ms as [|m ms IH]; simpl; [preserves_tac|]. unfold register_manual, RegisterClusterJob, save_cluster. preserves_tac.
Qed.

Lemma centrals_update_all ms : preserves (on_rows eq) (update_all cmp_Equal ms).
Proof. induction ms as [|m ms IH]; simpl; [preserves_tac|]. unfold update_manual, Cluster_Updates. preserves_tac. Qed.

Lemma centrals_manual : preserves (on_rows eq) (reconcileClusterWithManualConfig cmp_Equal opts).
Proof.
  pose proof centrals_register_all. pose proof centrals_update_all.
  unfold reconcileClusterWithManualConfig, deprovision_excess, ListAllClusterIds, FindDinosaurInstanceCount,
    UpdateMultiClusterStatus. preserves_tac.
Qed.

(** Every configured cluster has a row, and every idle cluster that is not
    configured has been given up. *)
Definition follows_configuration (w w' : world) : Prop :=
  (forall m, m ∈ configuration -> exists k c, clusters w' !! k = Some c /\ cl_ClusterID c = mc_ClusterID m) /\
  (forall k c, clusters w !! k = Some c -> cl_ClusterID c <> "" -> ~ configured configuration (cl_ClusterID c) ->
     idle w (cl_ClusterID c) ->
     exists c', clusters w' !! k = Some c' /\ (cl_Status c' = ClusterDeprovisioning \/ cl_Status c' = ClusterCleanup)).

Lemma manual_run w :
  IsDataPlaneManualScalingEnabled (cm_DataplaneClusterConfig opts) = true ->
  let r := reconcileClusterWithManualConfig cmp_Equal opts w in
  on_crows (manual_change configuration w) w r.1 /\ (r.2 = ([], false) -> follows_configuration w r.1).
Proof.
  intros Hman. cbv zeta. unfold reconcileClusterWithManualConfig. rewrite Hman. simpl. rewrite prog_bind_run.
  assert (on_crows eq w (ListAllClusterIds w).1 /\ on_rows eq w (ListAllClusterIds w).1) as [Hw1 Hr1].
  { split; [assert (preserves (on_crows eq) ListAllClusterIds) as Hm|assert (preserves (on_rows eq) ListAllClusterIds) as Hm];
      [unfold ListAllClusterIds; preserves_tac|apply Hm|unfold ListAllClusterIds; preserves_tac|apply Hm]. }
  destruct ((ListAllClusterIds w).2) as [l|] eqn:Hl; [|split; [apply crows_eq_any; [apply _|done]|done]].
  set (w1 := (ListAllClusterIds w).1) in *. set (ids := foldl _ ∅ l).
  assert (forall id, is_Some (ids !! id) <-> exists k c, clusters w !! k = Some c /\ cl_ClusterID c = id /\ id <> "") as Hids.
  { intros id. unfold ids. by rewrite ids_map_lookup, (ListAllClusterIds_ok w l Hl id). }
  assert (forall i c, ids !! i = Some c -> cl_ClusterID c = i) as Hmap by (intros i c; apply ids_map_id).
  assert (on_crows (manual_change configuration w) w w1) as C1 by (apply crows_eq_any; [apply _|done]).
  set (cfg := dc_ClusterConfig _). assert (clusterList cfg = configuration) as Hcfg by (unfold cfg; by rewrite config_read).
  rewrite prog_bind_run. destruct (register_all_change w (MissingClusters cfg ids) w1) as [C2 Hreg].
  { intros m [_ Hm]%list_elem_of_filter. by rewrite Hcfg in Hm. }
  set (w2 := (register_all _ w1).1) in *. destruct ((register_all _ w1).2); [by split; [etransitivity|]|].
  rewrite prog_bind_run. assert (on_crows (manual_change configuration w) w2 (update_all cmp_Equal (ExistingClusters cfg ids) w2).1) as C3.
  { apply update_all_change. intros m [_ Hm]%list_elem_of_filter. by rewrite Hcfg in Hm. }
  assert (on_rows eq w2 (update_all cmp_Equal (ExistingClusters cfg ids) w2).1) as Hr3 by apply centrals_update_all.
  assert (on_rows eq w1 w2) as Hr2 by apply centrals_register_all.
  set (w3 := (update_all _ _ w2).1) in *. assert (on_crows (manual_change configuration w) w w3) as C13
    by (etransitivity; [exact C1|by etransitivity]).
  destruct ((update_all _ _ w2).2) as [e|[|]]; [by split..|]. rewrite prog_bind_run. simpl.
  destruct (deprovision_excess_change w ids w3 Hmap) as [C4 Hexc].
  { by rewrite (rows_eq _ _ Hr3), (rows_eq _ _ Hr2), (rows_eq _ _ Hr1). }
  set (w4 := (deprovision_excess opts ids w3).1) in *.
  split; [by etransitivity|]. intros [= Hz]. split.
  - intros m Hm. destruct (decide (ids !! mc_ClusterID m = None)) as [Hno|Hyes].
    + destruct (Hreg eq_refl m) as (k & c & Hc & Hid).
      { apply list_elem_of_filter. split; [done|]. by rewrite Hcfg. }
      destruct (change_persists w w2 w4 k c) as (c' & Hc' & Hid'); [by etransitivity|done|]. exists k, c'. split; [done|congruence].
    + destruct (proj1 (Hids (mc_ClusterID m))) as (k & c & Hc & Hid & _).
      { destruct (ids !! mc_ClusterID m); [eauto|done]. }
      destruct (change_persists w w w4 k c) as (c' & Hc' & Hid'); [by etransitivity|done|]. exists k, c'. split; [done|congruence].
  - intros k c Hc Hne Hn Hi. destruct (change_persists w w w3 k c C13 Hc) as (c' & Hc' & Hid'). rewrite <- Hid' in *.
    apply (Hexc Hz k c' Hc'); [|done|done]. apply Hids. exists k, c. split_and!; [done|congruence|done].
Qed.

End manual.

(** ** A run *)

Definition manual_entry (id region : string) : ManualCluster :=
  mkManualCluster id id "aws" region true true 5 ClusterReady ClusterProviderStandalone "apps.example.com"
    AllInstanceTypeSupport [].

Definition manual_opts : ClusterManagerOptions :=
  mkClusterManagerOptions
    (mkDataplaneClusterConfig ManualScaling (NewClusterConfig [manual_entry "c1" "us-east-1"; manual_entry "c2" "eu-west-1"]) true)
    (mkProviderConfig []).

(** c1 is configured, c3 is not and idle, c4 is not but hosts a central. *)
Definition manual_world : @world mem_platform :=
  mem_world [set_ClusterID "c4" (sample_central "r" CentralRequestStatusReady "alice" "org-1")]
    [ready_cluster "k1" "c1"; ready_cluster "k3" "c3"; ready_cluster "k4" "c4"].

