(* ===== verification/Ocm.v ===== *)
(** * The client of OCM (pkg/client/ocm)

    client.go: every operation of the client on clusters, add-ons, sync sets,
    identity providers, subscriptions, quota and terms; id.go: the names of new
    clusters; types.go: the quota types.

    [OcmApi] are the requests of the SDK (ocm-sdk-go).  A request gives a [reply]:
    the status of the response, 0 if there was none, the body, and the error.  The
    accessors of the SDK give zero values on nil objects, so that a missing body is
    an empty one here; where the SDK tells a missing field from an empty one, the
    field is an option.  [Build] is the [Build] method of the SDK's builders. *)

From Stdlib Require Import QArith.
From S2P Require Import Prelude GoString GoFmt ServiceErrors CentralRequest ClusterTypes ProviderTypes World Effects.
Local Open Scope string_scope.
Local Open Scope Z_scope.

(** ** The objects of the SDK *)

Record reply (A : Type) := mkReply { rp_Status : Z; rp_Body : A; rp_Err : option error }.
Arguments mkReply {A} _ _ _.
Arguments rp_Status {A} _.
Arguments rp_Body {A} _.
Arguments rp_Err {A} _.

Definition ClusterStateReady : string := "ready".
Definition ClusterStateError : string := "error".
Definition AddOnInstallationStateReady : string := "ready".

Record OcmStatus := mkOcmStatus { os_State : string; os_ProvisionErrorMessage : string }.

(** [oc_Nodes]: the nodes of a cluster and, in them, the number of compute nodes. *)
Record OcmCluster := mkOcmCluster {
  oc_ID : string; oc_ExternalID : option string; oc_Status : OcmStatus; oc_Nodes : option (option Z)
}.

(** What [NewOCMClusterFromCluster] builds. *)
Record ClusterDefinition := mkClusterDefinition {
  cd_Name : string; cd_CloudProvider : string; cd_Region : string; cd_MultiAZ : bool; cd_Version : option string;
  cd_CCS : bool; cd_Managed : bool; cd_AccountID : string; cd_AccessKeyID : string; cd_SecretAccessKey : string;
  cd_ComputeMachineType : string
}.

Record Ingress := mkIngress { ing_Default : bool; ing_DNSName : string }.

Record OcmCloudProvider := mkOcmCloudProvider { ocp_ID : string; ocp_Name : string; ocp_DisplayName : string }.

Record OcmRegion := mkOcmRegion {
  ocr_ID : string; ocr_CloudProviderID : string; ocr_Name : string; ocr_DisplayName : string; ocr_SupportsMultiAZ : bool
}.

Record AddOnInstallation := mkAddOnInstallation {
  ai_ID : string; ai_State : string; ai_Parameters : option (list AddonParameter)
}.
Definition no_addon : AddOnInstallation := mkAddOnInstallation "" "" None.

(** The resources of a sync set come back as unstructured objects. *)
Record Syncset := mkSyncset { ss_ID : string; ss_Resources : list jvalue }.

Record OcmIdentityProvider := mkOcmIdentityProvider { oip_ID : string; oip_Name : string }.

Record IdentityProviderDefinition := mkIdentityProviderDefinition {
  ipd_Type : string; ipd_MappingMethod : string; ipd_Name : string; ipd_ClientID : string; ipd_ClientSecret : string;
  ipd_Email : list string; ipd_PreferredUsername : list string; ipd_ClaimName : list string; ipd_Issuer : string
}.

(** The compute nodes of the metrics are a float64. *)
Record SubscriptionMetrics := mkSubscriptionMetrics { sm_Nodes : option (option Q) }.

Record Organization := mkOrganization { oo_ID : string; oo_Name : string }.

Record TermsReviewResponse := mkTermsReview { tr_Required : bool; tr_RedirectURL : option string }.

Record AuthorizationResponse := mkAuthorizationResponse { auth_Allowed : bool; auth_SubscriptionID : string }.

Record SdkRelatedResource := mkSdkRelatedResource {
  srr_ResourceName : string; srr_Product : string; srr_BillingModel : string; srr_Cost : Z
}.

Record SdkQuotaCost := mkSdkQuotaCost {
  sqc_QuotaID : string; sqc_Allowed : Z; sqc_Consumed : Z; sqc_RelatedResources : list SdkRelatedResource;
  sqc_CloudAccounts : list CloudAccount
}.

Class OcmApi (X : Type) := {
  Build {A} : A -> result error A;
  (** clusters_mgmt/v1/clusters *)
  clusters_add : ClusterDefinition -> prog X (reply OcmCluster);
  cluster_get : string -> prog X (reply OcmCluster);
  cluster_status : string -> prog X (reply OcmStatus);
  cluster_update (id : string) (compute : Z) : prog X (reply OcmCluster);
  cluster_delete : string -> prog X (reply unit);
  ingresses_list : string -> prog X (reply (list Ingress));
  addons_list : string -> prog X (reply (list AddOnInstallation));
  addons_add (cluster addon : string) (params : option (list AddonParameter)) : prog X (reply AddOnInstallation);
  addon_get (cluster installation : string) : prog X (reply AddOnInstallation);
  addon_update (cluster installation : string) (params : list AddonParameter) : prog X (reply AddOnInstallation);
  syncsets_add (cluster id : string) (resources : list KResource) : prog X (reply Syncset);
  syncset_update (cluster id : string) (resources : list KResource) : prog X (reply Syncset);
  syncset_get (cluster id : string) : prog X (reply Syncset);
  syncset_delete (cluster id : string) : prog X (reply unit);
  idps_add (cluster : string) : IdentityProviderDefinition -> prog X (reply OcmIdentityProvider);
  idps_list : string -> prog X (reply (list OcmIdentityProvider));
  (** clusters_mgmt/v1/cloud_providers *)
  cloud_providers_list : prog X (reply (list OcmCloudProvider));
  cloud_regions_list : string -> prog X (reply (list OcmRegion));
  (** accounts_mgmt/v1 *)
  subscriptions_list (search : string) : prog X (reply (list (list SubscriptionMetrics)));
  subscription_delete : string -> prog X (reply unit);
  organizations_list (search : string) : prog X (reply (list Organization));
  cluster_authorizations : AuthorizationRequest -> prog X (reply (option AuthorizationResponse));
  quota_cost_list (organization flag : string) : prog X (reply (list SdkQuotaCost));
  (** authorizations/v1 *)
  terms_review (username site event : string) : prog X (reply (option TermsReviewResponse))
}.

(** ** Names of new clusters (id.go) *)

Definition MaxClusterNameLength : nat := 15.

(** [None] is the panic of slicing beyond the end; [xid] is the new identifier. *)
Definition Generate (prefix xid : string) : option string :=
  let s := Sprintf "%s%s" [VStr prefix; VStr xid] in
  if (MaxClusterNameLength <=? String.length s)%nat then Some (String.substring 0 MaxClusterNameLength s) else None.

(** ** Quota types (types.go) *)

Definition EvalQuota : string := "eval".
Definition StandardQuota : string := "standard".
Definition RHACSProduct : string := "RHACS".
Definition RHACSTrialProduct : string := "RHACSTrial".

Definition quota_GetProduct (t : string) : string :=
  if bool_decide (t = StandardQuota) then RHACSProduct else RHACSTrialProduct.
Definition quota_GetResourceName (t : string) : string := "rhacs".
Definition quota_Equals (t t1 : string) : bool :=
  bool_decide (quota_GetProduct t1 = quota_GetProduct t) && bool_decide (quota_GetResourceName t1 = quota_GetResourceName t).

(** ** The client

    [connected]: the connection of the client is not nil. *)

Section client.
Context `{OcmApi X} (connected : bool).

(** [if c.connection == nil { return ..., InvalidOCMConnection() }] *)
Definition guarded {A} (m : prog X (result error A)) : prog X (result error A) :=
  if connected then m else mret (Err (EService InvalidOCMConnection)).

(** A request whose error is wrapped by [f]. *)
Definition send {A} (f : error -> error) (m : prog X (reply A)) : prog X (result error A) :=
  r ← m; mret (match rp_Err r with Some e => Err (f e) | None => Ok (rp_Body r) end).

(** A request whose error becomes the service error of the response's status. *)
Definition send_status {A} (reason : string) (args : list fmt_arg) (m : prog X (reply A)) : prog X (result error A) :=
  r ← m;
  mret (match rp_Err r with
        | Some e => Err (EService (NewErrorFromHTTPStatusCode (rp_Status r) reason (args ++ [VStr (Error e)])))
        | None => Ok (rp_Body r)
        end).

Definition CreateCluster (cluster : ClusterDefinition) : prog X (result error OcmCluster) :=
  guarded (send (fun err => EService (New ErrorGeneral (Error err) [])) (clusters_add cluster)).

Definition GetExistingClusterMetrics (clusterID : string) : prog X (result error (option SubscriptionMetrics)) :=
  guarded (
    subscriptions ←? send (Errorf_w "retrieving subscriptions")
      (subscriptions_list (Sprintf "cluster_id='%s'" [VStr clusterID]));
    mret (match subscriptions with
          | [] => Ok None
          | _ :: _ :: _ => Err (EPlain (Sprintf "expected 1 subscription item, found %d" [VInt (Z.of_nat (length subscriptions))]))
          | [metrics] =>
              match metrics with
              | [] => Ok None
              | [m] => Ok (Some m)
              | _ => Err (EPlain (Sprintf "expected 1 subscription metric, found %d" [VInt (Z.of_nat (length metrics))]))
              end
          end)).

Definition ocm_GetOrganisationFromExternalID (externalID : string) : prog X (result error Organization) :=
  guarded (
    items ←? send (Errorf_w "retrieving organizations") (organizations_list (Sprintf "external_id='%s'" [VStr externalID]));
    mret (match items with
          | [] => Err (EService (New ErrorNotFound "organisation with external id '%s' not found" [VStr externalID]))
          | o :: _ => Ok o
          end)).

Definition TermsSitecode : string := "OCM".
Definition TermsEventcodeRegister : string := "register".

Definition GetRequiresTermsAcceptance (username : string) : prog X (result error (bool * string)) :=
  guarded (
    match Build (username, TermsSitecode, TermsEventcodeRegister) with
    | Err err => mret (Err (Errorf_w "creating terms review request" err))
    | Ok (username, site, event) =>
        response ←? send (Errorf_w "getting terms review") (terms_review username site event);
        mret (match response with
              | None => Err (EPlain "empty response from authorization post request")
              | Some r => Ok (tr_Required r, default "" (tr_RedirectURL r))
              end)
    end).

Definition GetClusterIngresses (clusterID : string) : prog X (result error (list Ingress)) :=
  guarded (send (Errorf_w "sending cluster ingresses list request") (ingresses_list clusterID)).

Definition GetCluster (clusterID : string) : prog X (result error OcmCluster) :=
  guarded (send (Errorf_w "sending get cluster request") (cluster_get clusterID)).

Definition GetClusterStatus (id : string) : prog X (result error OcmStatus) :=
  guarded (send (Errorf_w "sending cluster status request") (cluster_status id)).

Definition ocm_GetCloudProviders : prog X (result error (list OcmCloudProvider)) :=
  guarded (send (EWrap "error retrieving cloud provider list") cloud_providers_list).

Definition GetRegions (providerID : string) : prog X (result error (list OcmRegion)) :=
  guarded (send (EWrap "error retrieving cloud region list") (cloud_regions_list providerID)).

(** *** Add-ons *)

Definition newAddonParameterListBuilder (params : list AddonParameter) : option (list AddonParameter) :=
  match params with [] => None | _ => Some params end.

(** [paramsMap[item.ID()]] of a missing key is the empty string. *)
Definition sameParameters (parameterList params : list AddonParameter) : bool :=
  if negb (length parameterList =? length params)%nat then false
  else
    let paramsMap : gmap string string := foldl (fun m p => <[par_ID p := par_Value p]> m) ∅ params in
    forallb (fun item => bool_decide (default "" (paramsMap !! par_ID item) = par_Value item)) parameterList.

Definition CreateAddonWithParams (clusterID addonID : string) (params : list AddonParameter)
    : prog X (result error AddOnInstallation) :=
  guarded (
    match Build (addonID, newAddonParameterListBuilder params) with
    | Err err => mret (Err (Errorf_w "building addon installation" err))
    | Ok (addonID, addonParameters) =>
        send (Errorf_w "sending AddOnInstallationAdd request") (addons_add clusterID addonID addonParameters)
    end).

Definition CreateAddon (clusterID addonID : string) : prog X (result error AddOnInstallation) :=
  CreateAddonWithParams clusterID addonID [].

Definition GetAddon (clusterID addonID : string) : prog X (result error AddOnInstallation) :=
  guarded (
    items ←? send (Errorf_w "sending AddOnInstallationList request") (addons_list clusterID);
    mret (Ok (default no_addon (head (filter (fun a => ai_ID a = addonID) items))))).

Definition UpdateAddonParameters (clusterID addonInstallationID : string) (parameters : list AddonParameter)
    : prog X (result error AddOnInstallation) :=
  guarded (
    addon ←? send (Errorf_w "sending AddOnInstallationGet request") (addon_get clusterID addonInstallationID);
    let same := match ai_Parameters addon with Some ps => sameParameters ps parameters | None => false end in
    if same then mret (Ok addon)
    else match newAddonParameterListBuilder parameters with
    | None => mret (Ok addon)
    | Some ps =>
        match Build ps with
        | Err err => mret (Err (Errorf_w "building AddOnInstallation" err))
        | Ok ps => send (Errorf_w "sending AddOnInstallation update request") (addon_update clusterID addonInstallationID ps)
        end
    end).

(** *** The DNS name of a cluster *)

Definition ocm_GetClusterDNS (clusterID : string) : prog X (result error string) :=
  if bool_decide (clusterID = "") then mret (Err (EService (Validation "clusterID cannot be empty" [])))
  else
    ingresses ←? GetClusterIngresses clusterID;
    let clusterDNS := match head (filter (fun i => ing_Default i = true) ingresses) with
                      | Some i => ing_DNSName i | None => "" end in
    mret (if bool_decide (clusterDNS = "")
          then Err (EService (NotFound "Cluster %s: DNS is empty" [VStr clusterID]))
          else Ok clusterDNS).

(** *** Sync sets and identity providers *)

Definition CreateSyncSet (clusterID id : string) (resources : list KResource) : prog X (result error Syncset) :=
  guarded (send_status "ocm client failed to create syncset: %s" [] (syncsets_add clusterID id resources)).

Definition UpdateSyncSet (clusterID syncSetID : string) (resources : list KResource) : prog X (result error Syncset) :=
  guarded (send_status "ocm client failed to update syncset '%s': %s" [VStr syncSetID]
    (syncset_update clusterID syncSetID resources)).

Definition GetSyncSet (clusterID syncSetID : string) : prog X (result error Syncset) :=
  guarded (send_status "ocm client failed to get syncset '%s': %s" [VStr syncSetID] (syncset_get clusterID syncSetID)).

(** A status and an error, as they are. *)
Definition DeleteSyncSet (clusterID syncsetID : string) : prog X (Z * option error) :=
  if connected then r ← syncset_delete clusterID syncsetID; mret (rp_Status r, rp_Err r)
  else mret (0, Some (EService InvalidOCMConnection)).

Definition CreateIdentityProvider (clusterID : string) (idp : IdentityProviderDefinition)
    : prog X (result error OcmIdentityProvider) :=
  guarded (send_status "ocm client failed to create identity provider: %s" [] (idps_add clusterID idp)).

Definition GetIdentityProviderList (clusterID : string) : prog X (result error (list OcmIdentityProvider)) :=
  guarded (send_status "ocm client failed to get list of identity providers, err: %s" [] (idps_list clusterID)).

(** *** Compute nodes *)

Definition compute_of (c : OcmCluster) : Z := match oc_Nodes c with Some (Some n) => n | _ => 0 end.

Definition scaleComputeNodes (clusterID : string) (numNodes : Z) : prog X (result error OcmCluster) :=
  guarded (
    cluster ←? send (Errorf_w "retrieving cluster") (cluster_get clusterID);
    match Build (wrap64 (compute_of cluster + numNodes)) with
    | Err err => mret (Err (Errorf_w (Sprintf "scaling compute nodes by %d nodes" [VInt numNodes]) err))
    | Ok patch => send (Errorf_w "patching cluster with updated number of compute nodes") (cluster_update clusterID patch)
    end).

Definition ocm_ScaleUpComputeNodes (clusterID : string) (increment : Z) : prog X (result error OcmCluster) :=
  scaleComputeNodes clusterID increment.

Definition ocm_ScaleDownComputeNodes (clusterID : string) (decrement : Z) : prog X (result error OcmCluster) :=
  scaleComputeNodes clusterID (wrap64 (- decrement)).

Definition ocm_SetComputeNodes (clusterID : string) (numNodes : Z) : prog X (result error OcmCluster) :=
  guarded (
    match Build numNodes with
    | Err err => mret (Err (Errorf_w (Sprintf "building %d compute nodes" [VInt numNodes]) err))
    | Ok patch => send (Errorf_w "patching cluster with updated number of compute nodes") (cluster_update clusterID patch)
    end).

(** *** Deletion, quota and subscriptions *)

Definition DeleteCluster (clusterID : string) : prog X (Z * option error) :=
  if connected then
    r ← cluster_delete clusterID;
    mret (rp_Status r,
          match rp_Err r with
          | Some e => Some (EService (NewErrorFromHTTPStatusCode (rp_Status r) "OCM client failed to delete cluster '%s': %s"
                        [VStr clusterID; VStr (Error e)]))
          | None => None
          end)
  else mret (0, Some (EService InvalidOCMConnection)).

(** A response with the status 429 is taken as the answer. *)
Definition ocm_ClusterAuthorization (cb : AuthorizationRequest) : prog X (result error (option AuthorizationResponse)) :=
  guarded (
    r ← cluster_authorizations cb;
    mret (match rp_Err r with
          | Some _ => if negb (rp_Status r =? StatusTooManyRequests)
                      then Err (EService (NewErrorFromHTTPStatusCode (rp_Status r)
                             "OCM client failed to create cluster authorization" []))
                      else Ok (rp_Body r)
          | None => Ok (rp_Body r)
          end)).

Definition ocm_DeleteSubscription (id : string) : prog X (Z * option error) :=
  if connected then r ← subscription_delete id; mret (rp_Status r, rp_Err r)
  else mret (0, Some (EService InvalidOCMConnection)).

Definition FindSubscriptions (query : string) : prog X (result error (list (list SubscriptionMetrics))) :=
  guarded (send (Errorf_w "querying the accounts management service for subscriptions") (subscriptions_list query)).

Definition ocm_GetQuotaCostsForProduct (organizationID resourceName product : string)
    : prog X (result error (list SdkQuotaCost)) :=
  guarded (
    costs ←? send (Errorf_w "retrieving relatedResources from the QuotaCosts service")
      (quota_cost_list organizationID "fetchRelatedResources");
    mret (Ok (costs ≫= fun qc =>
      const qc <$> filter (fun rr => srr_ResourceName rr = resourceName /\ srr_Product rr = product) (sqc_RelatedResources qc)))).

Definition ocm_GetCustomerCloudAccounts (organizationID : string) (quotaIDs : list string)
    : prog X (result error (list CloudAccount)) :=
  guarded (
    costs ←? send (Errorf_w "error getting cloud accounts") (quota_cost_list organizationID "fetchCloudAccounts");
    mret (Ok (costs ≫= fun qc => if bool_decide (sqc_QuotaID qc ∈ quotaIDs) then sqc_CloudAccounts qc else []))).
End client.
