(* ===== verification/ClusterProviders.v ===== *)
(** * The cluster providers (internal/dinosaur/pkg/clusters)

    ocm_provider.go: clusters created and managed through OCM; cluster_builder.go:
    the definition of a new cluster; standalone_provider.go: clusters that exist
    already and are reached with a kubeconfig; provider.go: the factory.

    [Dynamic] is what the standalone provider uses of client-go: the client of a
    context, the REST mapping of a kind, and reading, creating and updating
    unstructured objects.  [Encoding] is the JSON encoding of resources and the
    conversion of unstructured objects to typed ones.  The body of a resource has
    the fields that the code sets. *)

From Stdlib Require Import QArith.
From S2P Require Import Prelude GoString GoFmt ServiceErrors CentralRequest Versions ClusterTypes ProviderTypes World Effects.
From S2P Require Import Config ClusterService Ocm.
Local Open Scope string_scope.
Local Open Scope Z_scope.

(** ** Configuration *)

Record OperatorInstallationConfig := mkOLM {
  olm_Namespace : string; olm_IndexImage : string; olm_CatalogSourceNamespace : string; olm_Package : string;
  olm_SubscriptionChannel : string
}.

Record AWSConfig := mkAWSConfig { aws_AccountID : string; aws_AccessKey : string; aws_SecretAccessKey : string }.

Record OCMConfig := mkOCMConfig { ocm_CentralOperatorAddonID : string; ocm_FleetshardAddonID : string }.

(** The fields of [DataplaneClusterConfig] that the providers read.
    [pc_Kubeconfig]: a kubeconfig has been read. *)
Record ProviderSettings := mkProviderSettings {
  pc_OpenshiftVersion : string; pc_ComputeMachineType : string; pc_Kubeconfig : bool;
  pc_CentralOperator : OperatorInstallationConfig; pc_FleetshardOperator : OperatorInstallationConfig;
  pc_Clusters : ClusterConfig
}.

Definition FindClusterNameByClusterID (conf : ClusterConfig) (clusterID : string) : string :=
  match head (filter (fun c => mc_ClusterID c = clusterID) (clusterList conf)) with
  | Some c => mc_Name c
  | None => ""
  end.

(** ** The definition of a new cluster (cluster_builder.go) *)

Definition ClusterNamePrefix : string := "mk-".

(** The three parts of the builder may be nil. *)
Record clusterBuilder := mkClusterBuilder {
  cb_idGenerator : option string; cb_awsConfig : option AWSConfig; cb_config : option ProviderSettings
}.

Definition NewClusterBuilder (aws : option AWSConfig) (config : option ProviderSettings) : clusterBuilder :=
  mkClusterBuilder (Some ClusterNamePrefix) aws config.

Definition builder_validate (b : clusterBuilder) : result error (string * AWSConfig * ProviderSettings) :=
  match cb_idGenerator b, cb_awsConfig b, cb_config b with
  | None, _, _ => Err (ETraced "idGenerator is not defined")
  | _, None, _ => Err (ETraced "awsConfig is not defined")
  | _, _, None => Err (ETraced "dataplaneClusterConfig is not defined")
  | Some p, Some a, Some c => Ok (p, a, c)
  end.

Section builder.
Context `{OcmApi X}.

(** [xid]: the identifier that the generator draws.  A name that cannot be cut to
    length is a panic, which ends the process. *)
Definition NewOCMClusterFromCluster (b : clusterBuilder) (xid : string) (request : option ClusterRequest)
    : result error ClusterDefinition :=
  '(prefix, aws, config) ← builder_validate b;
  match request with
  | None => Err (ETraced "cluster request is nil")
  | Some r =>
      match Generate prefix xid with
      | None => Err (EService nil_dereference)
      | Some name =>
          match Build (mkClusterDefinition name (clr_CloudProvider r) (clr_Region r) true
                   (if bool_decide (pc_OpenshiftVersion config <> "") then Some (pc_OpenshiftVersion config) else None)
                   true true (aws_AccountID aws) (aws_AccessKey aws) (aws_SecretAccessKey aws) (pc_ComputeMachineType config)) with
          | Err err => Err (Errorf_w "building cluster" err)
          | Ok c => Ok c
          end
      end
  end.
End builder.

(** ** Encodings *)

(** An unstructured object; its annotations and resource version are kept beside
    its body. *)
Record uobject := mkUobject {
  uo_Body : jvalue; uo_Annotations : option (gmap string string); uo_ResourceVersion : string
}.

Class Encoding := {
  json_Marshal : KResource -> result error string;
  json_Unmarshal : string -> result error uobject;
  (** [FromUnstructured] into a new object of the given Go type *)
  FromUnstructured : string -> jvalue -> option KResource
}.

(** ** The OCM provider *)

Definition with_cs_Status (st : string) (s : ClusterSpec) : ClusterSpec :=
  mkClusterSpec (cs_InternalID s) (cs_ExternalID s) st (cs_StatusDetails s) (cs_AdditionalInfo s).
Definition with_cs_StatusDetails (d : string) (s : ClusterSpec) : ClusterSpec :=
  mkClusterSpec (cs_InternalID s) (cs_ExternalID s) (cs_Status s) d (cs_AdditionalInfo s).
Definition with_cs_ExternalID (id : string) (s : ClusterSpec) : ClusterSpec :=
  mkClusterSpec (cs_InternalID s) id (cs_Status s) (cs_StatusDetails s) (cs_AdditionalInfo s).

Definition ipdAlreadyCreatedErrorToCheck : string := "already exists".

Module OCMProvider.
Section ocm.
Context `{OcmApi X} `{Encoding} (connected : bool) (builder : clusterBuilder) (config : OCMConfig).

(** [errors.Wrapf] *)
Definition wrapf (format : string) (args : list fmt_arg) (err : error) : error := EWrap (Sprintf format args) err.

Definition Create (xid : string) (request : option ClusterRequest) : prog X (result error (option ClusterSpec)) :=
  match NewOCMClusterFromCluster builder xid request with
  | Err err => mret (Err (wrapf "failed to build OCM cluster" [] err))
  | Ok newCluster =>
      createdCluster ←? with_err (wrapf "failed to create OCM cluster" []) (CreateCluster connected newCluster);
      mret (Ok (Some (mkClusterSpec (oc_ID createdCluster) (default "" (oc_ExternalID createdCluster))
        ClusterProvisioning "" None)))
  end.

Definition CheckClusterStatus (spec : ClusterSpec) : prog X (result error ClusterSpec) :=
  ocmCluster ←? with_err (wrapf "failed to get cluster %s" [VStr (cs_InternalID spec)]) (GetCluster connected (cs_InternalID spec));
  let clusterStatus := oc_Status ocmCluster in
  let spec := if bool_decide (cs_Status spec = "") then with_cs_Status ClusterProvisioning spec else spec in
  let spec := with_cs_StatusDetails (os_ProvisionErrorMessage clusterStatus) spec in
  let checked : result error ClusterSpec :=
    if bool_decide (os_State clusterStatus = ClusterStateReady) then
      if bool_decide (cs_ExternalID spec = "") then
        match oc_ExternalID ocmCluster with
        | None => Err (ETraced (Sprintf "External ID for cluster %s cannot be found" [VStr (oc_ID ocmCluster)]))
        | Some externalID => Ok (with_cs_Status ClusterProvisioned (with_cs_ExternalID externalID spec))
        end
      else Ok (with_cs_Status ClusterProvisioned spec)
    else Ok spec in
  mret (match checked with
        | Err err => Err err
        | Ok spec => Ok (if bool_decide (os_State clusterStatus = ClusterStateError)
                         then with_cs_Status ClusterFailed spec else spec)
        end).

Definition Delete (spec : ClusterSpec) : prog X (result error bool) :=
  '(code, err) ← DeleteCluster connected (cs_InternalID spec);
  mret (match err with
        | Some e => if negb (code =? StatusNotFound)
                    then Err (wrapf "failed to delete cluster %s" [VStr (cs_InternalID spec)] e)
                    else Ok (code =? StatusNotFound)
        | None => Ok (code =? StatusNotFound)
        end).

Definition GetClusterDNS (spec : ClusterSpec) : prog X (result error string) :=
  with_err (wrapf "failed to get dns for cluster %s" [VStr (cs_InternalID spec)]) (ocm_GetClusterDNS connected (cs_InternalID spec)).

(** *** Identity providers *)

Definition buildIdentityProvider (info : OpenIDIdentityProviderInfo) : result error IdentityProviderDefinition :=
  match Build (mkIdentityProviderDefinition "OpenIDIdentityProvider" "claim" (oid_Name info) (oid_ClientID info)
           (oid_ClientSecret info) ["email"] ["preferred_username"] ["last_name"; "preferred_username"] (oid_Issuer info)) with
  | Err err => Err (Errorf_w "building identity provider" err)
  | Ok p => Ok p
  end.

Definition addOpenIDIdentityProvider (spec : ClusterSpec) (info : OpenIDIdentityProviderInfo) : prog X (result error string) :=
  match buildIdentityProvider info with
  | Err buildErr => mret (Err (EWithStack buildErr))
  | Ok provider =>
      r ← CreateIdentityProvider connected (cs_InternalID spec) provider;
      match r with
      | Ok created => mret (Ok (oip_ID created))
      | Err createErr =>
          if Contains (Error createErr) ipdAlreadyCreatedErrorToCheck then
            rl ← GetIdentityProviderList connected (cs_InternalID spec);
            mret (match rl with
                  | Err listErr => Err (EWithStack listErr)
                  | Ok items =>
                      match head (filter (fun p => oip_Name p = oid_Name info) items) with
                      | Some p => Ok (oip_ID p)
                      | None => Err (EWithStack createErr)
                      end
                  end)
          else mret (Err (EWithStack createErr))
      end
  end.

Definition with_oid_ID (id : string) (o : OpenIDIdentityProviderInfo) : OpenIDIdentityProviderInfo :=
  mkOpenID id (oid_Name o) (oid_ClientID o) (oid_ClientSecret o) (oid_Issuer o).

Definition AddIdentityProvider (spec : ClusterSpec) (info : IdentityProviderInfo)
    : prog X (result error (option IdentityProviderInfo)) :=
  match idp_OpenID info with
  | None => mret (Ok None)
  | Some openID =>
      idpID ←? with_err (wrapf "failed to add identity provider for cluster %s" [VStr (cs_InternalID spec)])
        (addOpenIDIdentityProvider spec openID);
      mret (Ok (Some (mkIdentityProviderInfo (Some (with_oid_ID idpID openID)))))
  end.

(** *** Resources *)

(** The resources of the new sync set are compared with those of the existing one,
    converted to their types. *)
Definition syncsetResourcesChanged (existing : list jvalue) (new : list KResource) : bool :=
  if negb (length existing =? length new)%nat then true
  else existsb (fun p => negb (bool_decide (FromUnstructured (kr_Type p.2) p.1 = Some p.2))) (zip existing new).

Definition createSyncSet (clusterID : string) (resources : ResourceSet) : prog X (result error Syncset) :=
  match Build (rset_Name resources, rset_Resources resources) with
  | Err err => mret (Err (EWithStack err))
  | Ok (id, rs) => with_err (Errorf_w (Sprintf "creating SyncSet for cluster %q" [VStr clusterID])) (CreateSyncSet connected clusterID id rs)
  end.

Definition updateSyncSet (clusterID : string) (resources : ResourceSet) (existing : Syncset) : prog X (result error unit) :=
  match Build (rset_Resources resources) with
  | Err err => mret (Err (EWithStack err))
  | Ok rs =>
      if syncsetResourcesChanged (ss_Resources existing) rs then
        _ ←? with_err (Errorf_w (Sprintf "updating SyncSet %q for cluster %q" [VStr (rset_Name resources); VStr clusterID]))
          (UpdateSyncSet connected clusterID (rset_Name resources) rs);
        mret (Ok tt)
      else mret (Ok tt)
  end.

Definition ApplyResources (spec : ClusterSpec) (resources : ResourceSet) : prog X (result error ResourceSet) :=
  r ← GetSyncSet connected (cs_InternalID spec) (rset_Name resources);
  match r with
  | Err err =>
      let svcErr := ToServiceError err in
      if negb (Is404 svcErr) then
        mret (Err (Errorf_w (Sprintf "retrieving SyncSet %s for cluster %s" [VStr (rset_Name resources); VStr (cs_InternalID spec)])
          (EService svcErr)))
      else
        _ ←? with_err (wrapf "failed to create syncset for cluster %s" [VStr (cs_InternalID spec)])
          (createSyncSet (cs_InternalID spec) resources);
        mret (Ok resources)
  | Ok existing =>
      _ ←? with_err (wrapf "failed to update syncset for cluster %s" [VStr (cs_InternalID spec)])
        (updateSyncSet (cs_InternalID spec) resources existing);
      mret (Ok resources)
  end.

(** *** Compute nodes *)

Definition ScaleUp (spec : ClusterSpec) (increment : Z) : prog X (result error ClusterSpec) :=
  _ ←? with_err (wrapf "failed to scale up cluster %s by %d nodes" [VStr (cs_InternalID spec); VInt increment])
    (ocm_ScaleUpComputeNodes connected (cs_InternalID spec) increment);
  mret (Ok spec).

Definition ScaleDown (spec : ClusterSpec) (decrement : Z) : prog X (result error ClusterSpec) :=
  _ ←? with_err (wrapf "failed to scale down cluster %s by %d nodes" [VStr (cs_InternalID spec); VInt decrement])
    (ocm_ScaleDownComputeNodes connected (cs_InternalID spec) decrement);
  mret (Ok spec).

Definition SetComputeNodes (spec : ClusterSpec) (numNodes : Z) : prog X (result error ClusterSpec) :=
  _ ←? with_err (wrapf "failed to set compute nodes value of cluster %s to %d" [VStr (cs_InternalID spec); VInt numNodes])
    (ocm_SetComputeNodes connected (cs_InternalID spec) numNodes);
  mret (Ok spec).

(** [int(f)] truncates. *)
Definition truncate (q : Q) : Z := Z.quot (Qnum q) (Zpos (Qden q)).

Definition missing (format : string) (spec : ClusterSpec) : error := ETraced (Sprintf format [VStr (cs_InternalID spec)]).

(** The actual and the desired number. *)
Definition GetComputeNodes (spec : ClusterSpec) : prog X (result error (Z * Z)) :=
  ocmCluster ←? with_err (wrapf "failed to get cluster details %s" [VStr (cs_InternalID spec)]) (GetCluster connected (cs_InternalID spec));
  metrics ←? with_err (wrapf "failed to get metrics for cluster %s" [VStr (cs_InternalID spec)])
    (GetExistingClusterMetrics connected (cs_InternalID spec));
  mret (match metrics with
        | None => Err (missing "cluster ID %s has no metrics" spec)
        | Some m =>
            match sm_Nodes m with
            | None => Err (missing "Cluster ID %s has no node metrics" spec)
            | Some None => Err (missing "Cluster ID %s has no compute node metrics" spec)
            | Some (Some actual) =>
                match oc_Nodes ocmCluster with
                | None => Err (missing "Cluster ID %s has no desired node information" spec)
                | Some None => Err (missing "Cluster ID %s has no desired compute node information" spec)
                | Some (Some desired) => Ok (truncate actual, desired)
                end
            end
        end).

(** *** Add-ons *)

Definition installAddon (spec : ClusterSpec) (addonID : string) : prog X (result error bool) :=
  let clusterID := cs_InternalID spec in
  addon ←? with_err (wrapf "failed to get addon %s for cluster %s" [VStr addonID; VStr clusterID]) (GetAddon connected clusterID addonID);
  addon ←? (if bool_decide (ai_ID addon = "")
            then with_err (wrapf "failed to create addon %s for cluster %s" [VStr addonID; VStr clusterID])
                   (CreateAddon connected clusterID addonID)
            else mret (Ok addon));
  mret (Ok (bool_decide (ai_State addon = AddOnInstallationStateReady))).

(** The text of a failed update names the installation that the failed call
    returned, which is nil. *)
Definition installAddonWithParams (spec : ClusterSpec) (addonID : string) (params : list AddonParameter) : prog X (result error bool) :=
  let clusterID := cs_InternalID spec in
  addon ←? with_err (wrapf "failed to get addon %s for cluster %s" [VStr addonID; VStr clusterID]) (GetAddon connected clusterID addonID);
  addon ←? (if bool_decide (ai_ID addon = "")
            then with_err (wrapf "failed to create addon %s for cluster %s" [VStr addonID; VStr clusterID])
                   (CreateAddonWithParams connected clusterID addonID params)
            else mret (Ok addon));
  if bool_decide (ai_State addon = AddOnInstallationStateReady) then
    _ ←? with_err (wrapf "failed to update parameters for addon %s on cluster %s" [VStr ""; VStr clusterID])
      (UpdateAddonParameters connected clusterID (ai_ID addon) params);
    mret (Ok true)
  else mret (Ok false).

Definition InstallDinosaurOperator (spec : ClusterSpec) : prog X (result error bool) :=
  installAddon spec (ocm_CentralOperatorAddonID config).

Definition InstallFleetshard (spec : ClusterSpec) (params : list AddonParameter) : prog X (result error bool) :=
  installAddonWithParams spec (ocm_FleetshardAddonID config) params.

(** *** Cloud providers *)

Definition GetCloudProviders : prog X (result error (list CloudProviderInfo)) :=
  l ←? with_err (wrapf "failed to get cloud providers from OCM" []) (ocm_GetCloudProviders connected);
  mret (Ok ((fun i => mkCloudProviderInfo (ocp_ID i) (ocp_Name i) (ocp_DisplayName i)) <$> l)).

Definition GetCloudProviderRegions (info : CloudProviderInfo) : prog X (result error (list CloudProviderRegionInfo)) :=
  match Build (mkOcmCloudProvider (cpi_ID info) (cpi_Name info) (cpi_DisplayName info)) with
  | Err err => mret (Err (wrapf "failed to build cloud provider object" [] err))
  | Ok cp =>
      l ←? with_err (wrapf "failed to get regions for provider %s" [VStr (cpi_Name info)]) (GetRegions connected (ocp_ID cp));
      mret (Ok ((fun i => mkRegionInfo (ocr_ID i) (ocr_CloudProviderID i) (ocr_Name i) (ocr_DisplayName i) (ocr_SupportsMultiAZ i)) <$> l))
  end.
End ocm.
End OCMProvider.

(** ** The standalone provider *)

(** Where an object lives: the resource of its kind, its namespace when the kind is
    namespaced and the object names one, and its name. *)
Record locator := mkLocator { lo_Resource : string; lo_Namespace : option string; lo_Name : string }.

#[export] Instance locator_eq_dec : EqDecision locator.
Proof. solve_decision. Defined.
#[export] Instance locator_countable : Countable locator.
Proof.
  refine (inj_countable' (fun l => (lo_Resource l, lo_Namespace l, lo_Name l)) (fun '(r, n, m) => mkLocator r n m) _).
  by intros [].
Defined.

(** client-go, for the context (the name of a cluster in the kubeconfig). *)
Class Dynamic (X : Type) := {
  ClientConfig (context : string) : prog X (result error unit);
  NewDynamicClient (context : string) : prog X (result error unit);
  NewDiscoveryClient (context : string) : prog X (result error unit);
  (** the resource of a kind, and whether its scope is the namespace *)
  RESTMapping (context apiVersion kind : string) : prog X (result error (string * bool));
  dyn_Get (context : string) : locator -> prog X (result error uobject);
  dyn_Create (context : string) : locator -> uobject -> prog X (result error uobject);
  dyn_Update (context : string) : locator -> uobject -> prog X (result error uobject)
}.

Definition lastAppliedConfigurationAnnotation : string := "fleet-manager/last-applied-resource-configuration".
Definition dinosaurSREOpenIDPSecretName : string := "dinosaur-sre-idp-secret".
Definition centralOperatorCatalogSourceName : string := "managed-central-cs".
Definition centralOperatorOperatorGroupName : string := "managed-central-og".
Definition centralOperatorSubscriptionName : string := "managed-central-sub".
Definition fleetShardOperatorCatalogSourceName : string := "fleetshard-operator-cs".
Definition fleetShardOperatorOperatorGroupName : string := "fleetshard-operator-og".
Definition fleetShardOperatorSubscriptionName : string := "fleetshard-operator-sub".
Definition fleetShardOperatorParametersSecretName : string := "addon-fleetshard-operator-parameters".

(** *** The resources of the operators *)

Definition jmeta (name : string) (namespace : option string) : jvalue :=
  JObject (("name", JString name) ::
    match namespace with Some ns => [("namespace", JString ns)] | None => [] end).

(** A typed object: its kind, its metadata and its other fields. *)
Definition kresource (type apiVersion kind name : string) (namespace : option string) (fields : list (string * jvalue)) : KResource :=
  mkKResource type (JObject (("apiVersion", JString apiVersion) :: ("kind", JString kind) :: ("metadata", jmeta name namespace) :: fields)).

Definition jstrings (m : list (string * string)) : jvalue := JObject ((fun kv => (kv.1, JString kv.2)) <$> m).

Definition namespace_resource (name : string) : KResource := kresource "*v1.Namespace" "v1" "Namespace" name None [].

Definition catalog_source (name : string) (olm : OperatorInstallationConfig) : KResource :=
  kresource "*v1alpha1.CatalogSource" "operators.coreos.com/v1alpha1" "CatalogSource" name (Some (olm_CatalogSourceNamespace olm))
    [("spec", jstrings [("sourceType", "grpc"); ("image", olm_IndexImage olm)])].

Definition operator_group (name : string) (olm : OperatorInstallationConfig) : KResource :=
  kresource "*v1alpha2.OperatorGroup" "operators.coreos.com/v1alpha2" "OperatorGroup" name (Some (olm_Namespace olm))
    [("spec", JObject [])].

Definition subscription (name catalog : string) (olm : OperatorInstallationConfig) : KResource :=
  kresource "*v1alpha1.Subscription" "operators.coreos.com/v1alpha1" "Subscription" name (Some (olm_Namespace olm))
    [("spec", jstrings [("source", catalog); ("channel", olm_SubscriptionChannel olm);
       ("sourceNamespace", olm_CatalogSourceNamespace olm); ("installPlanApproval", "Automatic"); ("name", olm_Package olm)])].

Definition buildDinosaurOperatorNamespace (c : ProviderSettings) : KResource :=
  namespace_resource (olm_Namespace (pc_CentralOperator c)).
Definition buildDinosaurOperatorCatalogSource (c : ProviderSettings) : KResource :=
  catalog_source centralOperatorCatalogSourceName (pc_CentralOperator c).
Definition buildDinosaurOperatorOperatorGroup (c : ProviderSettings) : KResource :=
  operator_group centralOperatorOperatorGroupName (pc_CentralOperator c).
Definition buildDinosaurOperatorSubscription (c : ProviderSettings) : KResource :=
  subscription centralOperatorSubscriptionName centralOperatorCatalogSourceName (pc_CentralOperator c).

Definition buildFleetShardOperatorNamespace (c : ProviderSettings) : KResource :=
  namespace_resource (olm_Namespace (pc_FleetshardOperator c)).
Definition buildFleetShardOperatorCatalogSource (c : ProviderSettings) : KResource :=
  catalog_source fleetShardOperatorCatalogSourceName (pc_FleetshardOperator c).
Definition buildFleetShardOperatorOperatorGroup (c : ProviderSettings) : KResource :=
  operator_group fleetShardOperatorOperatorGroupName (pc_FleetshardOperator c).
Definition buildFleetShardOperatorSubscription (c : ProviderSettings) : KResource :=
  subscription fleetShardOperatorSubscriptionName fleetShardOperatorCatalogSourceName (pc_FleetshardOperator c).

(** The entries of the secret's map; later parameters win. *)
Definition buildFleetShardSyncSecret (c : ProviderSettings) (params : list AddonParameter) : KResource :=
  let data : gmap string string := foldl (fun m p => <[par_ID p := par_Value p]> m) ∅ params in
  kresource "*v1.Secret" "v1" "Secret" fleetShardOperatorParametersSecretName (Some (olm_Namespace (pc_FleetshardOperator c)))
    [("stringData", jstrings (map_to_list data))].

Definition buildOpenIDPClientSecret (openID : OpenIDIdentityProviderInfo) : KResource :=
  kresource "*v1.Secret" "v1" "Secret" dinosaurSREOpenIDPSecretName (Some "openshift-config")
    [("type", JString "Opaque"); ("stringData", jstrings [("clientSecret", oid_ClientSecret openID)])].

Definition buildIdentityProviderResource (openID : OpenIDIdentityProviderInfo) : KResource :=
  kresource "map[string]interface {}" "config.openshift.io/v1" "OAuth" "cluster" None
    [("spec", JObject [("identityProviders", JList [JObject [
       ("name", JString (oid_Name openID)); ("mappingMethod", JString "claim"); ("type", JString "OpenID");
       ("openID", JObject [("clientID", JString (oid_ClientID openID)); ("issuer", JString (oid_Issuer openID));
         ("clientSecret", jstrings [("name", dinosaurSREOpenIDPSecretName)]);
         ("claims", JObject [("email", JList [JString "email"]); ("preferredUsername", JList [JString "preferred_username"]);
            ("last_name", JList [JString "preferred_username"])])])]])])].

Module StandaloneProvider.
Section standalone.
Context `{Dynamic X} `{Encoding} (config : ProviderSettings).

(** *** Applying a resource *)

Definition shouldApplyChanges (existing : option uobject) (newConfiguration : string) : bool :=
  match existing with
  | None => true
  | Some o =>
      match uo_Annotations o with
      | None => true
      | Some annotations =>
          match annotations !! lastAppliedConfigurationAnnotation with
          | None => true
          | Some lastApplied => bool_decide (newConfiguration <> lastApplied)
          end
      end
  end.

Definition applyChangesFn (context : string) (lo : locator) (desired : uobject) (existing : option uobject)
    : prog X (result error uobject) :=
  match existing with
  | None => with_err (Errorf_w "creating new object") (dyn_Create context lo desired)
  | Some o => with_err (Errorf_w "updating object")
      (dyn_Update context lo (mkUobject (uo_Body desired) (uo_Annotations desired) (uo_ResourceVersion o)))
  end.

(** The object with the annotation that holds its own encoding. *)
Definition annotated (o : uobject) (newConfiguration : string) : uobject :=
  mkUobject (uo_Body o) (Some (<[lastAppliedConfigurationAnnotation := newConfiguration]> (default ∅ (uo_Annotations o))))
    (uo_ResourceVersion o).

Definition metadata_field (k : string) (o : uobject) : string :=
  jtext (match jfield "metadata" (uo_Body o) with Some m => jfield k m | None => None end).

(** An error of [Get] counts as a missing object. *)
Definition applyResource (context : string) (resource : KResource) : prog X (result error uobject) :=
  match json_Marshal resource with
  | Err err => mret (Err (Errorf_w "marshalling resource into JSON" err))
  | Ok data =>
      match json_Unmarshal data with
      | Err err => mret (Err (Errorf_w "unmarshalling data from JSON" err))
      | Ok obj =>
          let desired := annotated obj data in
          mapping ←? with_err (Errorf_w "getting REST mapping")
            (RESTMapping context (jtext (jfield "apiVersion" (uo_Body obj))) (jtext (jfield "kind" (uo_Body obj))));
          let namespace := metadata_field "namespace" obj in
          let lo := mkLocator mapping.1 (if bool_decide (namespace <> "") && mapping.2 then Some namespace else None)
                      (metadata_field "name" obj) in
          r ← dyn_Get context lo;
          let existing := match r with Ok o => Some o | Err _ => None end in
          match existing with
          | Some o => if shouldApplyChanges existing data then applyChangesFn context lo desired existing else mret (Ok o)
          | None => applyChangesFn context lo desired None
          end
      end
  end.

Fixpoint apply_all (context : string) (resources : list KResource) : prog X (result error unit) :=
  match resources with
  | [] => mret (Ok tt)
  | r :: rs => _ ←? applyResource context r; apply_all context rs
  end.

Definition ApplyResources (spec : ClusterSpec) (resources : ResourceSet) : prog X (result error ResourceSet) :=
  if negb (pc_Kubeconfig config) then mret (Ok resources)
  else
    let context := FindClusterNameByClusterID (pc_Clusters config) (cs_InternalID spec) in
    _ ←? with_err (Errorf_w "creating config") (ClientConfig context);
    _ ←? with_err (Errorf_w "creating dynamic client") (NewDynamicClient context);
    _ ←? with_err (Errorf_w "creating discovery client") (NewDiscoveryClient context);
    _ ←? apply_all context (rset_Resources resources);
    mret (Ok resources).

(** *** The provider's operations *)

Definition Create (request : option ClusterRequest) : prog X (result error (option ClusterSpec)) := mret (Ok None).

Definition Delete (spec : ClusterSpec) : prog X (result error bool) := mret (Ok true).

Definition CheckClusterStatus (spec : ClusterSpec) : prog X (result error ClusterSpec) :=
  mret (Ok (with_cs_Status ClusterProvisioned spec)).

Definition GetClusterDNS (spec : ClusterSpec) : prog X (result error string) := mret (Ok "").

Definition InstallDinosaurOperator (spec : ClusterSpec) : prog X (result error bool) :=
  _ ←? ApplyResources spec (mkResourceSet "" [buildDinosaurOperatorNamespace config; buildDinosaurOperatorCatalogSource config;
    buildDinosaurOperatorOperatorGroup config; buildDinosaurOperatorSubscription config]);
  mret (Ok true).

Definition InstallFleetshard (spec : ClusterSpec) (params : list AddonParameter) : prog X (result error bool) :=
  _ ←? ApplyResources spec (mkResourceSet "" [buildFleetShardOperatorNamespace config; buildFleetShardSyncSecret config params;
    buildFleetShardOperatorCatalogSource config; buildFleetShardOperatorOperatorGroup config; buildFleetShardOperatorSubscription config]);
  mret (Ok true).

(** Without OpenID information the builders dereference nil. *)
Definition AddIdentityProvider (spec : ClusterSpec) (info : IdentityProviderInfo) : prog X (result error (option IdentityProviderInfo)) :=
  match idp_OpenID info with
  | None => mret (Err (EService nil_dereference))
  | Some openID =>
      _ ←? ApplyResources spec (mkResourceSet "" [buildOpenIDPClientSecret openID; buildIdentityProviderResource openID]);
      mret (Ok (Some info))
  end.

Definition ScaleUp (spec : ClusterSpec) (increment : Z) : prog X (result error ClusterSpec) := mret (Ok spec).
Definition ScaleDown (spec : ClusterSpec) (decrement : Z) : prog X (result error ClusterSpec) := mret (Ok spec).
Definition SetComputeNodes (spec : ClusterSpec) (numNodes : Z) : prog X (result error ClusterSpec) := mret (Ok spec).
Definition GetComputeNodes (spec : ClusterSpec) : prog X (result error (Z * Z)) := mret (Ok (0, 0)).
End standalone.
End StandaloneProvider.
