(* ===== verification/Backends.v ===== *)
(** * The services behind the control plane

    The client of Route 53 (pkg/client/aws/client.go), and the implementation of
    [Externals] that the fleet manager runs with: the OCM client as account
    management service, the cluster providers selected by their type, the client of
    Route 53 and the dynamic clients of sso.redhat.com.

    The AWS SDK ([Route53]), the generated client of the dynamic clients
    ([AcsTenants]), the clock and the generators of identifiers ([Sources]) are
    parameters. *)

From S2P Require Import Prelude GoString GoFmt ServiceErrors CentralRequest Store Versions ClusterTypes ProviderTypes World Effects.
From S2P Require Import Config ClusterService Ocm ClusterProviders.
Local Open Scope string_scope.
Local Open Scope Z_scope.

(** ** Route 53 *)

(** An error of the SDK is a request failure or another error. *)
Record aws_error := mkAwsError { ae_RequestFailure : bool; ae_Err : error }.

(** A hosted zone: its identifier and its domain. *)
Record HostedZone := mkHostedZone { hz_Id : string; hz_Name : string }.

Class Route53 (X : Type) := {
  NewSession (region : string) : prog X (result error unit);
  (** the hosted zones from the given domain on, in order, at most [maxItems] *)
  ListHostedZonesByName (dnsName maxItems : string) : prog X (result aws_error (list HostedZone));
  r53_Change (zone : string) (batch : list ResourceRecordChange) : prog X (result aws_error (option ChangeInfo));
  r53_GetChange (id : string) : prog X (result aws_error ChangeInfo);
  (** [errors.BadRequest.UserWrapf] and [errors.Wrapf] of weberr *)
  BadRequest_UserWrapf : error -> string -> error;
  weberr_Wrapf : error -> string -> error
}.

Section aws.
Context `{Route53 X}.

Definition wrapAWSError (err : aws_error) (msg : string) : error :=
  if ae_RequestFailure err then BadRequest_UserWrapf (ae_Err err) msg else ae_Err err.

Definition newClient (region : string) : prog X (result error unit) :=
  with_err (Errorf_w "creating new session") (NewSession region).

Definition aws_GetChange (changeID : string) : prog X (result error ChangeInfo) :=
  with_err (fun e => wrapAWSError e "Failed to get Change.") (r53_GetChange changeID).

Definition ListHostedZonesByNameInput (dnsName : string) : prog X (result error (list HostedZone)) :=
  with_err (fun e => wrapAWSError e "Failed to get DNS zone.") (ListHostedZonesByName dnsName "1").

(** The batch goes to the first zone of the answer. *)
Definition aws_ChangeResourceRecordSets (dnsName : string) (batch : list ResourceRecordChange)
    : prog X (result error (option ChangeInfo)) :=
  zones ←? ListHostedZonesByNameInput dnsName;
  match zones with
  | [] => mret (Err (EPlain "No Hosted Zones found"))
  | zone :: _ =>
      with_err (fun e => weberr_Wrapf (wrapAWSError e "Failed to get DNS zone.") "failed to change resource record sets")
        (r53_Change (hz_Id zone) batch)
  end.
End aws.

(** ** The other sources *)

Class Sources (X : Type) := {
  clock_Now : prog X Z;
  api_NewID : prog X string;
  xid_New : prog X string
}.

Class AcsTenants (X : Type) := {
  acs_Create (name org : string) (redirectURIs : list string) : prog X (result error (string * string));
  acs_Delete (clientID : string) : prog X (result (option Z * error) unit)
}.

(** ** The implementation of [Externals] *)

Record BackendConfig := mkBackendConfig {
  bc_AmsConnected : bool; bc_OcmConnected : bool; bc_Aws : AWSConfig; bc_Settings : ProviderSettings; bc_Ocm : OCMConfig
}.

(** The quota costs and the answers as the quota service reads them. *)
Definition quota_cost (c : SdkQuotaCost) : QuotaCost :=
  mkQuotaCost (sqc_Allowed c) (sqc_Consumed c)
    ((fun r => mkRelatedResource (srr_BillingModel r) (srr_Cost r)) <$> sqc_RelatedResources c).

Definition authorization (r : option AuthorizationResponse) : bool * string :=
  match r with Some a => (auth_Allowed a, auth_SubscriptionID a) | None => (false, "") end.

Definition status_result {X} (m : prog X (Z * option error)) : prog X (result error unit) :=
  r ← m; mret (match r.2 with Some e => Err e | None => Ok tt end).

Section backends.
Context `{OcmApi X} `{!Dynamic X} `{Encoding} `{!Route53 X} `{!Sources X} `{!AcsTenants X} (conf : BackendConfig).

(** NewDefaultProviderFactory: the two providers. *)
Definition ocm_builder : clusterBuilder := NewClusterBuilder (Some (bc_Aws conf)) (Some (bc_Settings conf)).

(** [GetProvider] of the factory has resolved the type. *)
Definition dispatch {A} (provider : string) (standalone ocm : A) : A :=
  if bool_decide (provider = ClusterProviderStandalone) then standalone else ocm.

Definition ocm_create (request : ClusterRequest) : prog X (result error (option ClusterSpec)) :=
  xid ← xid_New;
  OCMProvider.Create (bc_OcmConnected conf) ocm_builder xid (Some request).

Definition backends : Externals X := {|
  Now := clock_Now;
  NewID := api_NewID;
  GetOrganisationFromExternalID id :=
    o ←? ocm_GetOrganisationFromExternalID (bc_AmsConnected conf) id; mret (Ok (oo_ID o, oo_Name o));
  GetQuotaCostsForProduct org resource product :=
    cs ←? ocm_GetQuotaCostsForProduct (bc_AmsConnected conf) org resource product; mret (Ok (quota_cost <$> cs));
  GetCustomerCloudAccounts org ids := ocm_GetCustomerCloudAccounts (bc_AmsConnected conf) org ids;
  ClusterAuthorization r := a ←? ocm_ClusterAuthorization (bc_AmsConnected conf) r; mret (Ok (authorization a));
  DeleteSubscription id := status_result (ocm_DeleteSubscription (bc_AmsConnected conf) id);
  NewAWSClient := newClient;
  ChangeResourceRecordSets domain batch := c ←? aws_ChangeResourceRecordSets domain batch; mret (Ok (Some c));
  GetChange := aws_GetChange;
  CreateAcsClient := acs_Create;
  DeleteAcsClient := acs_Delete;
  provider_Create p r := dispatch p (StandaloneProvider.Create (Some r)) (ocm_create r);
  provider_CheckClusterStatus p s :=
    dispatch p (StandaloneProvider.CheckClusterStatus s) (OCMProvider.CheckClusterStatus (bc_OcmConnected conf) s);
  provider_Delete p s := dispatch p (StandaloneProvider.Delete s) (OCMProvider.Delete (bc_OcmConnected conf) s);
  provider_GetClusterDNS p s :=
    dispatch p (StandaloneProvider.GetClusterDNS s) (OCMProvider.GetClusterDNS (bc_OcmConnected conf) s);
  provider_AddIdentityProvider p s i :=
    dispatch p (StandaloneProvider.AddIdentityProvider (bc_Settings conf) s i)
      (OCMProvider.AddIdentityProvider (bc_OcmConnected conf) s i);
  provider_ApplyResources p s r :=
    dispatch p (StandaloneProvider.ApplyResources (bc_Settings conf) s r)
      (OCMProvider.ApplyResources (bc_OcmConnected conf) s r);
  provider_InstallDinosaurOperator p s :=
    dispatch p (StandaloneProvider.InstallDinosaurOperator (bc_Settings conf) s)
      (OCMProvider.InstallDinosaurOperator (bc_OcmConnected conf) (bc_Ocm conf) s);
  provider_InstallFleetshard p s ps :=
    dispatch p (StandaloneProvider.InstallFleetshard (bc_Settings conf) s ps)
      (OCMProvider.InstallFleetshard (bc_OcmConnected conf) (bc_Ocm conf) s ps);
  provider_GetComputeNodes p s :=
    dispatch p (StandaloneProvider.GetComputeNodes s) (OCMProvider.GetComputeNodes (bc_OcmConnected conf) s);
  provider_SetComputeNodes p s n :=
    dispatch p (StandaloneProvider.SetComputeNodes s n) (OCMProvider.SetComputeNodes (bc_OcmConnected conf) s n);
  provider_ScaleUp p s n := dispatch p (StandaloneProvider.ScaleUp s n) (OCMProvider.ScaleUp (bc_OcmConnected conf) s n);
  provider_ScaleDown p s n := dispatch p (StandaloneProvider.ScaleDown s n) (OCMProvider.ScaleDown (bc_OcmConnected conf) s n)
|}.

(** The platform of the fleet manager: two tables and these services. *)
Definition backend_platform {T1 T2} `{!Store T1 CentralRequest} `{!Store T2 Cluster} : Platform := {|
  centrals_table := T1; clusters_table := T2; externals := X; platform_externals := backends
|}.
End backends.
