(* ===== verification/MemBackends.v ===== *)
(** * A concrete cloud

    An in-memory OCM, the objects of the data plane clusters, and fixed answers of
    the other services, on which the backends can be run. *)

From Stdlib Require Import QArith.
From S2P Require Import Prelude GoString GoFmt ServiceErrors CentralRequest Store Versions ClusterTypes ProviderTypes World Effects.
From S2P Require Import Config ClusterService Ocm ClusterProviders Backends.
Local Open Scope string_scope.
Local Open Scope Z_scope.

Record cloud := mkCloud {
  mb_clock : Z;
  mb_ids : list string;
  mb_clusters : gmap string OcmCluster;
  mb_addons : gmap string (list AddOnInstallation);
  mb_syncsets : gmap (string * string) (list KResource);
  mb_objects : gmap (string * locator) uobject
}.

Definition set_mb_clusters (m : gmap string OcmCluster) (x : cloud) : cloud :=
  mkCloud (mb_clock x) (mb_ids x) m (mb_addons x) (mb_syncsets x) (mb_objects x).
Definition set_mb_addons (m : gmap string (list AddOnInstallation)) (x : cloud) : cloud :=
  mkCloud (mb_clock x) (mb_ids x) (mb_clusters x) m (mb_syncsets x) (mb_objects x).
Definition set_mb_syncsets (m : gmap (string * string) (list KResource)) (x : cloud) : cloud :=
  mkCloud (mb_clock x) (mb_ids x) (mb_clusters x) (mb_addons x) m (mb_objects x).
Definition set_mb_objects (m : gmap (string * locator) uobject) (x : cloud) : cloud :=
  mkCloud (mb_clock x) (mb_ids x) (mb_clusters x) (mb_addons x) (mb_syncsets x) m.

Definition answer {A} (a : A) : prog cloud (reply A) := fun x => (x, mkReply 200 a None).
Definition refuse {A} (code : Z) (a : A) : prog cloud (reply A) := fun x => (x, mkReply code a (Some (EPlain "refused"))).

Definition no_cluster : OcmCluster := mkOcmCluster "" None (mkOcmStatus "" "") None.
Definition no_syncset : Syncset := mkSyncset "" [].

(** A request about an object that may not exist. *)
Definition about {K A B} `{Countable K} (f : cloud -> gmap K A) (k : K) (zero : B) (act : A -> prog cloud (reply B)) : prog cloud (reply B) :=
  fun x => match f x !! k with Some a => act a x | None => refuse StatusNotFound zero x end.

Definition addons_of (c : string) (x : cloud) : list AddOnInstallation := default [] (mb_addons x !! c).

#[export] Instance cloud_ocm : OcmApi cloud := {|
  Build A a := Ok a;
  clusters_add d := fun x =>
    let c := mkOcmCluster (cd_Name d) None (mkOcmStatus "pending" "") (Some (Some 3)) in
    (set_mb_clusters (<[cd_Name d := c]> (mb_clusters x)) x, mkReply 201 c None);
  cluster_get id := about mb_clusters id no_cluster answer;
  cluster_status id := about mb_clusters id (mkOcmStatus "" "") (fun c => answer (oc_Status c));
  cluster_update id n := about mb_clusters id no_cluster (fun c => fun x =>
    let c' := mkOcmCluster (oc_ID c) (oc_ExternalID c) (oc_Status c) (Some (Some n)) in
    (set_mb_clusters (<[id := c']> (mb_clusters x)) x, mkReply 200 c' None));
  cluster_delete id := about mb_clusters id tt (fun _ => fun x => (set_mb_clusters (delete id (mb_clusters x)) x, mkReply 204 tt None));
  ingresses_list id := answer [mkIngress false "other.example.com"; mkIngress true (id +:+ ".example.com")];
  addons_list c := fun x => answer (addons_of c x) x;
  addons_add c a ps := fun x =>
    let i := mkAddOnInstallation a "installing" ps in
    (set_mb_addons (<[c := (addons_of c x ++ [i])%list]> (mb_addons x)) x, mkReply 201 i None);
  addon_get c a := fun x =>
    match head (filter (fun i => ai_ID i = a) (addons_of c x)) with Some i => answer i x | None => refuse 404 no_addon x end;
  addon_update c a ps := fun x =>
    let change i := if bool_decide (ai_ID i = a) then mkAddOnInstallation a (ai_State i) (Some ps) else i in
    (set_mb_addons (<[c := change <$> addons_of c x]> (mb_addons x)) x, mkReply 200 (mkAddOnInstallation a "ready" (Some ps)) None);
  syncsets_add c id rs := fun x => (set_mb_syncsets (<[(c, id) := rs]> (mb_syncsets x)) x, mkReply 201 (mkSyncset id (kr_Body <$> rs)) None);
  syncset_update c id rs := about mb_syncsets (c, id) no_syncset (fun _ => fun x =>
    (set_mb_syncsets (<[(c, id) := rs]> (mb_syncsets x)) x, mkReply 200 (mkSyncset id (kr_Body <$> rs)) None));
  syncset_get c id := about mb_syncsets (c, id) no_syncset (fun rs => answer (mkSyncset id (kr_Body <$> rs)));
  syncset_delete c id := about mb_syncsets (c, id) tt (fun _ => fun x => (set_mb_syncsets (delete (c, id) (mb_syncsets x)) x, mkReply 204 tt None));
  idps_add c d := answer (mkOcmIdentityProvider "idp" (ipd_Name d));
  idps_list c := answer [];
  cloud_providers_list := answer [mkOcmCloudProvider "aws" "aws" "Amazon"];
  cloud_regions_list p := answer [mkOcmRegion "us-east-1" p "us-east-1" "US East" true];
  subscriptions_list _ := answer [[mkSubscriptionMetrics (Some (Some (7 # 2)%Q))]];
  subscription_delete _ := answer tt;
  organizations_list _ := answer [mkOrganization "org-1" "Acme"];
  cluster_authorizations _ := answer (Some (mkAuthorizationResponse true "subscription"));
  quota_cost_list _ _ := answer [];
  terms_review _ _ _ := answer (Some (mkTermsReview false None))
|}.

(** A printer of JSON, without the escaping of texts; a text decodes to the body it
    is the encoding of, among the given ones. *)
Fixpoint print_json (v : jvalue) : string :=
  match v with
  | JBool true => "true"
  | JBool false => "false"
  | JString s => "'" +:+ s +:+ "'"
  | JList l => "[" +:+ foldr (fun v acc => print_json v +:+ "," +:+ acc) "]" l
  | JObject fs => "{" +:+ foldr (fun f acc => f.1 +:+ ":" +:+ print_json f.2 +:+ "," +:+ acc) "}" fs
  end.

Definition table_encoding (bodies : list jvalue) : Encoding := {|
  json_Marshal r := Ok (print_json (kr_Body r));
  json_Unmarshal s :=
    match head (filter (fun b => print_json b = s) bodies) with
    | Some b => Ok (mkUobject b None "")
    | None => Err (EPlain "cannot unmarshal")
    end;
  FromUnstructured t b := Some (mkKResource t b)
|}.

#[export] Instance cloud_dynamic : Dynamic cloud := {|
  ClientConfig _ := mret (Ok tt);
  NewDynamicClient _ := mret (Ok tt);
  NewDiscoveryClient _ := mret (Ok tt);
  RESTMapping _ _ kind := mret (Ok (kind, negb (bool_decide (kind = "Namespace"))));
  dyn_Get c lo := fun x => (x, match mb_objects x !! (c, lo) with Some o => Ok o | None => Err (EPlain "not found") end);
  dyn_Create c lo o := fun x =>
    match mb_objects x !! (c, lo) with
    | Some _ => (x, Err (EPlain "already exists"))
    | None => let o := mkUobject (uo_Body o) (uo_Annotations o) "1" in (set_mb_objects (<[(c, lo) := o]> (mb_objects x)) x, Ok o)
    end;
  dyn_Update c lo o := fun x =>
    match mb_objects x !! (c, lo) with
    | Some o' =>
        if bool_decide (uo_ResourceVersion o' = uo_ResourceVersion o) then
          let o := mkUobject (uo_Body o) (uo_Annotations o) (uo_ResourceVersion o +:+ "1") in
          (set_mb_objects (<[(c, lo) := o]> (mb_objects x)) x, Ok o)
        else (x, Err (EPlain "conflict"))
    | None => (x, Err (EPlain "not found"))
    end
|}.

#[export] Instance cloud_route53 : Route53 cloud := {|
  NewSession _ := mret (Ok tt);
  ListHostedZonesByName d _ := mret (Ok [mkHostedZone "zone" d]);
  r53_Change _ _ := mret (Ok (Some (mkChangeInfo (Some "change") (Some "PENDING"))));
  r53_GetChange id := mret (Ok (mkChangeInfo (Some id) (Some "INSYNC")));
  BadRequest_UserWrapf e m := EWrap m e;
  weberr_Wrapf e m := EWrap m e
|}.

#[export] Instance cloud_sources : Sources cloud := {|
  clock_Now := fun x => (mkCloud (mb_clock x + 1) (mb_ids x) (mb_clusters x) (mb_addons x) (mb_syncsets x) (mb_objects x), mb_clock x);
  api_NewID := fun x => (mkCloud (mb_clock x) (tail (mb_ids x)) (mb_clusters x) (mb_addons x) (mb_syncsets x) (mb_objects x),
    match head (mb_ids x) with Some id => if bool_decide (id = "") then "id" else id | None => "id" end);
  xid_New := mret "cjf2mk5s1k7c73a0b1c0"
|}.

Lemma cloud_ids x : (api_NewID x).2 <> "".
Proof. simpl. destruct (head (mb_ids x)) as [id|]; [by case_bool_decide|done]. Qed.

#[export] Instance cloud_tenants : AcsTenants cloud := {|
  acs_Create name _ _ := mret (Ok ("client-" +:+ name, "secret"));
  acs_Delete _ := mret (Ok tt)
|}.

Definition sample_olm (ns : string) : OperatorInstallationConfig := mkOLM ns "index" "marketplace" "package" "stable".

Definition sample_settings (file : list ManualCluster) : ProviderSettings :=
  mkProviderSettings "4.12" "m5.2xlarge" true (sample_olm "rhacs") (sample_olm "fleetshard") (NewClusterConfig file).

Definition sample_conf : BackendConfig :=
  mkBackendConfig true true (mkAWSConfig "account" "key" "secret") (sample_settings []) (mkOCMConfig "central-addon" "fleetshard-addon").

Definition cloud_platform : Platform :=
  @backend_platform cloud _ _ (table_encoding []) _ _ _ sample_conf (mem CentralRequest) (mem Cluster) _ _.

(** The given clusters in the table and in OCM, no pending failure. *)
Definition cloud_world (ks : list Cluster) (known : list OcmCluster) : @world cloud_platform :=
  @mkWorld cloud_platform (mkMem ∅ ∅ [] 1000) (mkMem (list_to_map ((fun c => (cl_ID c, c)) <$> ks)) ∅ [] 1000)
    (mkCloud 1000 ["new1"; "new2"] (list_to_map ((fun c => (oc_ID c, c)) <$> known)) ∅ ∅ ∅) [].
