(* ===== verification/BackendsProps.v ===== *)
(** * The control plane on its backends

    The cluster manager runs on the implementation of the external services given
    by [backends].  The cluster providers discharge the interface of the lifecycle
    ([ProviderContract]): a new cluster is provisioning, and a checked one is
    provisioning, provisioned or failed.  From it: a pass of the manager makes no
    cluster ready, no standalone cluster is ever asked to be created, and a cluster
    is removed from the table only after OCM has answered that it does not know it. *)

From S2P Require Import Prelude GoString GoFmt ServiceErrors CentralRequest Store Versions ClusterTypes ProviderTypes World Effects.
From S2P Require Import ClusterRows Config Providers ClusterService ClusterManager ClusterManagerProps ManualScaling.
From S2P Require Import MemPlatform Ocm ClusterProviders Backends MemBackends.
Local Open Scope string_scope.
Local Open Scope Z_scope.

(** ** The answers of the providers *)

#[export] Instance documented : Answers := {|
  created_as st := st = ClusterProvisioning;
  checked_as st := st ∈ [ClusterProvisioning; ClusterProvisioned; ClusterFailed]
|}.

Lemma checked_other st : checked_as st -> st <> ClusterReady /\ st <> ClusterDeprovisioning /\ st <> ClusterAccepted.
Proof.
  intros Hs. simpl in Hs. repeat (apply elem_of_cons in Hs as [->|Hs]; [done|]). by apply not_elem_of_nil in Hs.
Qed.

(** ** Moves of one row *)

(** A cluster is made ready, or given up, only by a move that starts at a ready or
    given up cluster. *)
Definition unready (o : rowstate Cluster) : Prop :=
  match o with Live x => cl_Status x <> ClusterReady /\ cl_Status x <> ClusterDeprovisioning | _ => True end.

Lemma quiet_status (P : string -> string -> Prop) x y : core y = core x -> P (cl_ProviderType x) (cl_Status x) -> P (cl_ProviderType y) (cl_Status y).
Proof. intros E. by injection E as _ _ _ _ -> _ ->. Qed.

Lemma unready_quiet o o' : quiet o o' -> unready o -> unready o'.
Proof.
  destruct o as [|x|], o' as [|y|]; try done. simpl. intros E.
  by apply (quiet_status (fun _ s => s <> ClusterReady /\ s <> ClusterDeprovisioning)).
Qed.

Lemma unready_move l o o' : transition l o o' -> unready o -> unready o'.
Proof.
  destruct 1 as [x Hs| x x' _ _ Hs| x x' _ _ _ Hs| x x' [_ Hs]| x x' [Hs _]| x x' [Hs _]| |x x' [Hs _]]; simpl; try done.
  - by rewrite Hs.
  - simpl in Hs. by rewrite Hs.
  - destruct Hs as [Hs|(? & ? & _)%checked_other]; [by rewrite Hs|done].
  - injection Hs. by intros ->.
  - intros [_ Hn]. by destruct Hn.
  - intros [_ Hn]. by destruct Hn.
  - intros [Hn _]. by destruct Hn.
Qed.

(** Without automatic scaling nothing is recalled. *)
Definition not_ready (o : rowstate Cluster) : Prop := match o with Live x => cl_Status x <> ClusterReady | _ => True end.

Lemma not_ready_quiet o o' : quiet o o' -> not_ready o -> not_ready o'.
Proof. destruct o as [|x|], o' as [|y|]; try done. simpl. intros E. by apply (quiet_status (fun _ s => s <> ClusterReady)). Qed.

Lemma not_ready_move l o o' : l <> Recalled -> transition l o o' -> not_ready o -> not_ready o'.
Proof.
  intros Hl. destruct 1 as [x Hs| x x' _ _ Hs| x x' _ _ _ Hs| x x' [_ Hs]| | x x' [_ Hs]| |x x' [_ Hs]]; simpl; try done.
  - by rewrite Hs.
  - simpl in Hs. by rewrite Hs.
  - destruct Hs as [Hs|(? & _)%checked_other]; [by rewrite Hs|done].
  - injection Hs. by intros ->.
  - injection Hs. by intros ->.
  - injection Hs. by intros ->.
Qed.

Lemma ready_origin ls o x' :
  path ls o (Live x') -> cl_Status x' = ClusterReady ->
  exists x, o = Live x /\ (cl_Status x = ClusterReady \/ Recalled ∈ ls /\ cl_Status x = ClusterDeprovisioning).
Proof.
  intros Hp Hr.
  assert (unready o -> False) as Hu.
  { intros Ho. by destruct (path_inv ls unready unready_quiet (fun l o o' _ => unready_move l o o') _ _ Hp Ho) as [? _]. }
  assert (Recalled ∉ ls -> not_ready o -> False) as Hn.
  { intros Hl Ho. refine (path_inv ls not_ready not_ready_quiet _ _ _ Hp Ho Hr). intros l o1 o2 Hin.
    apply not_ready_move. by intros ->. }
  destruct o as [|x|]; [by destruct Hu| |by destruct Hu]. exists x. split; [done|]. simpl in Hu, Hn.
  destruct (decide (cl_Status x = ClusterReady)) as [|Hx]; [by left|right].
  destruct (decide (Recalled ∈ ls)) as [Hl|Hl]; [split; [done|]|by destruct (Hn Hl)].
  destruct (decide (cl_Status x = ClusterDeprovisioning)); [done|by destruct Hu].
Qed.

(** A standalone cluster is not waiting for its creation, and the row has a key. *)
Definition settled_row (o : rowstate Cluster) : Prop :=
  match o with Live x => (cl_ProviderType x = ClusterProviderStandalone -> cl_Status x <> ClusterAccepted) /\ cl_ID x <> "" | _ => True end.

Lemma settled_backend_quiet o o' : quiet o o' -> settled_row o -> settled_row o'.
Proof. destruct o as [|x|], o' as [|y|]; try done. simpl. intros E. by injection E as -> _ _ _ -> _ ->. Qed.

Lemma settled_move l o o' : transition l o o' -> settled_row o -> settled_row o'.
Proof.
  destruct 1 as [x Hs _ Hi Hp| x x' _ Hx Hs| x x' _ Hx _ Hs| x x' [_ Hs]| x x' [_ Hs]| x x' [_ Hs]| |x x' [_ Hs]]; simpl; try done.
  - rewrite Hp. by intros _.
  - injection Hx as -> _ _ _ _. simpl in Hs. rewrite Hs. by intros [_ ?].
  - injection Hx as -> _ _ _ _. intros [_ ?]. split; [|done]. intros _.
    destruct Hs as [->|(_ & _ & ?)%checked_other]; done.
  - injection Hs as -> _ _ _ _ _ ->. by intros [_ ?].
  - injection Hs as -> _ _ _ _ _ ->. by intros [_ ?].
  - injection Hs as -> _ _ _ _ _ ->. by intros [_ ?].
  - injection Hs as -> _ _ _ _ _ ->. by intros [_ ?].
Qed.

(** The removal of a row. *)
Definition removed (o o' : rowstate Cluster) : Prop := o' = o \/ o' = Dead.

#[export] Instance removed_preorder : PreOrder removed.
Proof. split; [by left|]. intros o1 o2 o3 [->| ->] [->| ->]; unfold removed; auto. Qed.

(** The configuration of a standalone cluster never has the status accepted: other
    statuses than the three listed are replaced when the file is read. *)
Lemma configured_status decoded m :
  ManualCluster_UnmarshalYAML decoded = Ok m -> mc_ProviderType m = ClusterProviderStandalone ->
  mc_Status m ∈ [ClusterProvisioning; ClusterProvisioned; ClusterReady].
Proof.
  unfold ManualCluster_UnmarshalYAML. destruct decoded as [c|e]; [|done]. simpl. case_bool_decide; [done|].
  destruct (bool_decide (mc_ProviderType c = _)) eqn:Ep; simpl.
  - apply bool_decide_eq_true in Ep. repeat (case_bool_decide; simpl; try done); intros [= <-]; simpl; intros _;
      first [done|by left].
  - apply bool_decide_eq_false in Ep. case_bool_decide; intros [= <-]; simpl; intros E; by destruct Ep.
Qed.

(** ** Passes of the manager *)

Section pass.
Context `{PlatformLaws} `{!ExternalsLaws externals} `{!ProviderContract} `{Semver} (cmp_Equal : Cluster -> Cluster -> bool) (opts : ClusterManagerOptions).
Let dataplane : DataplaneClusterConfig := cm_DataplaneClusterConfig opts.

Lemma pass_ready w k c :
  IsDataPlaneManualScalingEnabled dataplane = false -> keyed_clusters w -> unique_ids w ->
  clusters (Reconcile cmp_Equal opts w).1 !! k = Some c -> cl_Status c = ClusterReady ->
  exists x, clusters w !! k = Some x /\
    (cl_Status x = ClusterReady \/ IsDataPlaneAutoScalingEnabled dataplane = true /\ cl_Status x = ClusterDeprovisioning).
Proof.
  intros Hman Hk Hu Hc Hr. pose proof (pass_moves cmp_Equal opts w Hman Hk Hu) as (Hp & _ & _). specialize (Hp k).
  apply cluster_state_live in Hc. rewrite Hc in Hp. destruct (ready_origin _ _ _ Hp Hr) as (x & Hx & Hs).
  apply cluster_state_live in Hx. exists x. split; [done|]. destruct Hs as [?|[Hl ?]]; [by left|right]. split; [|done].
  fold dataplane in Hl. destruct (IsDataPlaneAutoScalingEnabled dataplane); [done|set_solver].
Qed.

(** *** Removal *)

Lemma FindCluster_criteria_ext fc w : w_ext (FindCluster_criteria fc w).1 = w_ext w.
Proof.
  unfold FindCluster_criteria. rewrite prog_bind_run. unfold on_clusters. destruct (db_first _ _) as [t r].
  by destruct r as [|[]].
Qed.

(** A cluster whose provider does not answer that it is gone stays, or is recalled. *)
Lemma deprovisioning_kept c w :
  (forall w1, w_ext w1 = w_ext w -> (Cluster_Delete c w1).2 <> Ok true) ->
  cl_Status c = ClusterDeprovisioning -> keyed_clusters w -> current c w ->
  tracks [Recalled] (cl_ID c) w (reconcileDeprovisioningCluster opts c w).1.
Proof.
  intros Hd Hs Hk Hc. unfold reconcileDeprovisioningCluster. set (delete := (mbind _ (Cluster_Delete c))).
  assert (forall w1, w_ext w1 = w_ext w -> tracks [Recalled] (cl_ID c) w1 (delete w1).1) as Hkeep.
  { intros w1 Hw1. unfold delete. apply bind_tracks_read; [unfold Cluster_Delete; preserves_tac|]. intros w2 _.
    specialize (Hd w1 Hw1). by destruct ((Cluster_Delete c w1).2) as [[|]|e]. }
  destruct (IsDataPlaneAutoScalingEnabled _); [|by apply Hkeep]. set (fc := mkCriteria _ _ _ _).
  pose proof (FindCluster_criteria_ext fc w) as He.
  assert (on_crows eq w (FindCluster_criteria fc w).1) as Hw1.
  { assert (preserves (on_crows eq) (FindCluster_criteria fc)) as Hm by (unfold FindCluster_criteria; preserves_tac). apply Hm. }
  apply bind_tracks.
  - apply tracks_quiet, crows_eq_any; [apply _|done].
  - destruct ((FindCluster_criteria _ w).2) as [[s|]|e]; [by apply Hkeep| |reflexivity].
    apply bind_tracks; [|by destruct ((Cluster_UpdateStatus _ _ _).2)].
    apply tracks_UpdateStatus; [by eapply keyed_frame|by eapply current_frame|].
    intros x Hx. eapply (status_edge _ Recalled c); [by left|done..|]. by constructor.
Qed.

(** *** Standalone clusters are never created *)

Definition settled (w : world) : Prop := forall k, settled_row (cluster_state w k).

Lemma settled_keyed w : settled w -> keyed_clusters w.
Proof.
  intros Hw. unfold keyed_clusters. destruct (clusters w !! "") as [c|] eqn:E; [|done]. exfalso.
  pose proof (clusters_id w "" c E) as Hid. apply cluster_state_live in E. specialize (Hw ""). rewrite E in Hw. by apply Hw.
Qed.

Lemma settled_live w :
  map_Forall (fun _ x => (cl_ProviderType x = ClusterProviderStandalone -> cl_Status x <> ClusterAccepted) /\ cl_ID x <> "") (clusters w) ->
  settled w.
Proof.
  intros Hw k. destruct (cluster_state w k) as [|x|] eqn:E; [done| |done]. apply cluster_state_live in E. exact (Hw k x E).
Qed.

Lemma settled_path ls w w' : on_crows (path ls) w w' -> settled w -> settled w'.
Proof.
  intros Hp Hw k. refine (path_inv ls settled_row settled_backend_quiet _ _ _ (Hp k) (Hw k)).
  intros l o o' _. apply settled_move.
Qed.

Lemma settled_frame w w' : on_crows eq w w' -> settled w -> settled w'.
Proof. intros He Hw k. rewrite <- (He k). apply Hw. Qed.

Lemma settled_cleanup w : settled w -> settled (processCleanupClusters w).1.
Proof.
  assert (preserves (on_crows removed) processCleanupClusters) as Hp.
  { assert (forall id, preserves (on_crows removed) (on_clusters (db_delete (fun c => bool_decide (cl_ClusterID c = id))))) as Hd.
    { intros id v k. apply (crow_delete_at removed). by right. }
    unfold processCleanupClusters, process_status, tracked, Cluster_ListByStatus, reconcileCleanupCluster, DeleteByClusterID,
      UpdateClusterStatusSinceCreatedMetric, since. preserves_tac. }
  intros Hw k. destruct (Hp w k) as [->| ->]; [apply Hw|done].
Qed.

(** The configuration file has been read with the checks of its entries. *)
Context (configuration : list ManualCluster).
Hypothesis config_read : dc_ClusterConfig dataplane = NewClusterConfig configuration.
Hypothesis file_read : Forall (fun m => exists d, ManualCluster_UnmarshalYAML d = Ok m) configuration.

Lemma settled_manual w : settled w -> settled (reconcileClusterWithManualConfig cmp_Equal opts w).1.
Proof.
  intros Hw. destruct (IsDataPlaneManualScalingEnabled dataplane) eqn:Hman.
  2:{ unfold reconcileClusterWithManualConfig. unfold dataplane in Hman. by rewrite Hman. }
  destruct (manual_run cmp_Equal opts _ config_read w Hman) as [Hch _]. intros k.
  destruct (Hch k) as [->|[(m & x' & Hm & -> & Hc & Ho)|(x & t & Hx & -> & _)]]; [apply Hw| |].
  - destruct Hc as (_ & _ & _ & _ & Hpt & _ & _ & Hst & _). destruct (proj1 (Forall_forall _ _) file_read m Hm) as [d Hd]. split.
    + rewrite Hpt. intros Ep. pose proof (configured_status d m Hd Ep) as Hin.
      rewrite Hst; repeat (apply elem_of_cons in Hin as [->|Hin]; [done|]); by apply not_elem_of_nil in Hin.
    + destruct Ho as [[_ ?]|(x & Hx & _ & ->)]; [done|]. specialize (Hw k). rewrite Hx in Hw. apply Hw.
  - specialize (Hw k). rewrite Hx in Hw. split; [done|apply Hw].
Qed.

Lemma run_processors_inv (I : world -> Prop) (ps : list processor) :
  Forall (fun p : processor => forall w, I w -> I (p w).1) ps -> forall w, I w -> I (run_processors ps w).1.
Proof.
  induction 1 as [|p ps Hp _ IH]; intros w Hw; [done|]. simpl. rewrite prog_bind_run.
  destruct (((p w).2).2); [by apply Hp|]. rewrite prog_bind_run. by apply IH, Hp.
Qed.

Lemma calm_run m (w : world) : (calm m w).1 = (m w).1.
Proof. unfold calm. by rewrite prog_bind_run. Qed.

(** A whole pass, in any scaling mode. *)
Lemma settled_pass w : settled w -> settled (Reconcile cmp_Equal opts w).1.
Proof.
  apply run_processors_inv. repeat apply Forall_cons_2; [..|done]; intros v Hv; rewrite ?calm_run.
  - eapply settled_frame, Hv. apply crows_processMetrics.
  - by apply settled_manual.
  - destruct (IsDataPlaneAutoScalingEnabled dataplane) eqn:Ha; [eapply settled_path, Hv; apply regions_path|].
    eapply settled_frame, Hv. by apply regions_none.
  - eapply settled_path, Hv. by apply deprovisioning_path, settled_keyed.
  - by apply settled_cleanup.
  - eapply settled_path, Hv. by apply accepted_path, settled_keyed.
  - eapply settled_path, Hv. by apply provisioning_path, settled_keyed.
  - eapply settled_path, Hv. by apply provisioned_path, settled_keyed.
  - eapply settled_path, Hv. by apply ready_path, settled_keyed.
Qed.
End pass.

(** ** The providers keep the interface *)

Section backends.
Context `{OcmApi X} `{!Dynamic X} `{Encoding} `{!Route53 X} `{!Sources X} `{!AcsTenants X} (conf : BackendConfig).
Context {T1 T2} `{!Store T1 CentralRequest} `{!Store T2 Cluster} `{!StoreLaws T1 CentralRequest} `{!StoreLaws T2 Cluster}.
Hypothesis new_ids : forall x : X, (api_NewID x).2 <> "".

#[local] Instance the_platform : Platform := backend_platform conf (T1 := T1) (T2 := T2).
#[local] Instance the_platform_laws : PlatformLaws.
Proof. split; typeclasses eauto. Qed.

#[local] Instance the_externals_laws : ExternalsLaws externals.
Proof. split. exact new_ids. Qed.

Lemma CreateCluster_spec xid r x s :
  (OCMProvider.Create (bc_OcmConnected conf) (ocm_builder conf) xid (Some r) x).2 = Ok (Some s) ->
  cs_Status s = ClusterProvisioning.
Proof.
  unfold OCMProvider.Create. destruct (NewOCMClusterFromCluster _ _ _) as [d|]; [|done].
  unfold try_bind, with_err. rewrite !prog_bind_run. cbn [fst snd mret prog_ret].
  destruct ((CreateCluster _ d x).2); [|done]. by intros [= <-].
Qed.

Lemma CheckClusterStatus_spec spec x s :
  cs_Status spec = ClusterProvisioning -> (OCMProvider.CheckClusterStatus (bc_OcmConnected conf) spec x).2 = Ok s -> checked_as (cs_Status s).
Proof.
  intros Hs. unfold OCMProvider.CheckClusterStatus. unfold try_bind, with_err. rewrite !prog_bind_run. cbn [fst snd mret prog_ret].
  destruct ((GetCluster _ _ x).2) as [c|]; [|done]. cbv zeta. rewrite Hs. simpl.
  repeat case_match; intros E; try done; injection E as <-; simpl; set_solver.
Qed.

(** The contract of the lifecycle, for both providers. *)
#[local] Instance providers_contract : ProviderContract.
Proof.
  split.
  - intros p r x s. unfold provider_Create. simpl. unfold dispatch. case_bool_decide; [done|].
    unfold ocm_create. rewrite prog_bind_run. apply CreateCluster_spec.
  - intros p spec x s Hs. unfold provider_CheckClusterStatus. simpl. unfold dispatch. case_bool_decide.
    + intros [= <-]. simpl. set_solver.
    + by apply CheckClusterStatus_spec.
Qed.

(** Only the standalone provider answers no cluster. *)
Lemma provider_Create_none p r (x : externals) :
  (provider_Create p r x).2 = Ok None -> p = ClusterProviderStandalone.
Proof.
  unfold provider_Create. simpl. unfold dispatch. case_bool_decide; [done|]. unfold ocm_create. rewrite prog_bind_run.
  unfold OCMProvider.Create. destruct (NewOCMClusterFromCluster _ _ _) as [d|]; [|done].
  unfold try_bind, with_err. rewrite !prog_bind_run. cbn [fst snd mret prog_ret]. by destruct ((CreateCluster _ d _).2).
Qed.

Lemma GetProvider_standalone t : GetProvider t = Ok ClusterProviderStandalone -> t = ClusterProviderStandalone.
Proof. unfold GetProvider. destruct (decide (t = "")) as [->|Ht]; [done|]. rewrite (bool_decide_eq_false_2 _ Ht). case_bool_decide; congruence. Qed.

Lemma general_code {A} err msg (e : ServiceError) : @general A err msg = Err e -> Code e = ErrorGeneral.
Proof. unfold general. intros [= <-]. by vm_compute. Qed.

Lemma Create_defined c w :
  (cl_ProviderType c = ClusterProviderStandalone -> cl_Status c <> ClusterAccepted) -> cl_Status c = ClusterAccepted ->
  (Create c w).2 <> Err nil_dereference.
Proof.
  intros Hc Hs Hr. assert (forall A err msg, @general A err msg <> Err nil_dereference) as Hg by (intros A err msg E; by apply general_code in E).
  unfold Create in Hr. destruct (GetProvider (cl_ProviderType c)) as [p|] eqn:Hp; [|by apply Hg in Hr].
  rewrite prog_bind_run in Hr. destruct ((on_ext _ w).2) as [[spec|]|] eqn:Ha.
  - cbv zeta in Hr. rewrite prog_bind_run in Hr. destruct ((save_cluster _ _).2); [done|by apply Hg in Hr].
  - apply on_ext_answer, provider_Create_none in Ha. subst p.
    exact (Hc (GetProvider_standalone _ Hp) Hs).
  - by apply Hg in Hr.
Qed.


(** ** The properties of the control plane *)

Section pass.
Context `{Semver} (cmp_Equal : Cluster -> Cluster -> bool) (opts : ClusterManagerOptions).
Let dataplane : DataplaneClusterConfig := cm_DataplaneClusterConfig opts.

(** On its backends, a pass of the cluster manager makes no cluster ready, which
    is the status that lets centrals be placed on a cluster: a cluster that is ready
    after a pass was ready before it or, with automatic scaling, was being
    deprovisioned. *)
Theorem backend_pass_ready w k c :
  IsDataPlaneManualScalingEnabled dataplane = false -> keyed_clusters w -> unique_ids w ->
  clusters (Reconcile cmp_Equal opts w).1 !! k = Some c -> cl_Status c = ClusterReady ->
  exists x, clusters w !! k = Some x /\
    (cl_Status x = ClusterReady \/ IsDataPlaneAutoScalingEnabled dataplane = true /\ cl_Status x = ClusterDeprovisioning).
Proof. apply pass_ready. Qed.

(** C30. The standalone provider creates no cluster and answers nil, which the service
    dereferences; it is never asked to.  That no standalone cluster is accepted is an
    invariant of the passes of the cluster manager, in every scaling mode, for a
    configuration file that was read with the checks of its entries; and while it
    holds the creation of an accepted cluster does not dereference nil. *)
Theorem backend_pass_settled configuration w :
  dc_ClusterConfig dataplane = NewClusterConfig configuration ->
  Forall (fun m => exists d, ManualCluster_UnmarshalYAML d = Ok m) configuration ->
  settled w ->
  settled (Reconcile cmp_Equal opts w).1 /\
  forall k c, clusters w !! k = Some c -> cl_Status c = ClusterAccepted -> (Create c w).2 <> Err nil_dereference.
Proof.
  intros Hcfg Hread Hw. split; [by eapply settled_pass|]. intros k c Hc Hs. apply Create_defined; [|done].
  apply cluster_state_live in Hc. specialize (Hw k). rewrite Hc in Hw. apply Hw.
Qed.

Lemma Cluster_Delete_ocm c w :
  GetProvider (cl_ProviderType c) = Ok ClusterProviderOCM -> (Cluster_Delete c w).2 = Ok true ->
  bc_OcmConnected conf = true /\ rp_Status (@cluster_delete X _ (cl_ClusterID c) (w_ext w)).2 = StatusNotFound.
Proof.
  intros Hp. unfold Cluster_Delete. rewrite Hp, prog_bind_run.
  destruct ((on_ext _ w).2) as [b|] eqn:Ha; [|done]. intros [= ->]. apply on_ext_answer in Ha.
  change ((OCMProvider.Delete (bc_OcmConnected conf) (buildClusterSpec c) (w_ext w)).2 = Ok true) in Ha.
  unfold OCMProvider.Delete, DeleteCluster in Ha.
  destruct (bc_OcmConnected conf); [|done]. rewrite !prog_bind_run in Ha. simpl in Ha. split; [done|].
  destruct (rp_Err _) as [e|]; [|by injection Ha as Ha%Z.eqb_eq].
  destruct (_ =? StatusNotFound) eqn:E; [by apply Z.eqb_eq in E|done].
Qed.

(** A cluster that is being deprovisioned is marked for removal only after OCM
    has answered 404 to the request to delete it, whatever else fails: any other
    answer, and a missing connection, leaves it where it is or recalls it. *)
Theorem cleanup_after_not_found c w x' :
  GetProvider (cl_ProviderType c) = Ok ClusterProviderOCM -> cl_Status c = ClusterDeprovisioning ->
  keyed_clusters w -> current c w ->
  clusters (reconcileDeprovisioningCluster opts c w).1 !! cl_ID c = Some x' -> cl_Status x' = ClusterCleanup ->
  bc_OcmConnected conf = true /\ rp_Status (@cluster_delete X _ (cl_ClusterID c) (w_ext w)).2 = StatusNotFound.
Proof.
  intros Hp Hs Hk Hc Hx Hst.
  destruct (decide (bc_OcmConnected conf = true /\ rp_Status (@cluster_delete X _ (cl_ClusterID c) (w_ext w)).2 = StatusNotFound))
    as [|Hn]; [done|]. exfalso.
  destruct (deprovisioning_kept opts c w) as [Hpath _]; [|done..|].
  { intros w1 Hw1 Hok. apply Hn. rewrite <- Hw1. by apply Cluster_Delete_ocm. }
  apply cluster_state_live in Hx. rewrite Hx in Hpath. destruct Hc as (x & Hrow & Hcore). apply cluster_state_live in Hrow.
  refine (path_inv [Recalled] (fun o => match o with Live y => cl_Status y <> ClusterCleanup | _ => True end) _ _ _ _ Hpath _ Hst).
  - intros [|y|] [|y'|]; try done. simpl. intros E. by apply (quiet_status (fun _ s => s <> ClusterCleanup)).
  - intros l o o' ->%list_elem_of_singleton Ht. inversion Ht as [| | | |y y' [_ E]| | |]; subst. intros _. injection E. by intros ->.
  - rewrite Hrow. injection Hcore as _ _ _ _ _ _ ->. by rewrite Hs.
Qed.
End pass.
End backends.

(** ** Runs on the concrete cloud *)

Definition plain_opts : ClusterManagerOptions :=
  mkClusterManagerOptions (mkDataplaneClusterConfig NoScaling (NewClusterConfig []) true)
    (mkProviderConfig [mkProvider "aws" true [mkRegion "us-east-1" true ∅]]).

Definition on_ocm (status : string) (c : Cluster) : Cluster := set_cl_ProviderType ClusterProviderOCM (set_cl_Status status c).

(** A ready cluster, one that OCM has just provisioned, a new one, and one that OCM
    does not know any more. *)
Definition cloud_clusters : list Cluster :=
  [on_ocm ClusterReady (ready_cluster "k1" "c1"); on_ocm ClusterProvisioning (ready_cluster "k2" "c2");
   on_ocm ClusterAccepted (ready_cluster "k3" ""); on_ocm ClusterDeprovisioning (ready_cluster "k4" "c4")].

Definition cloud_known : list OcmCluster :=
  (fun id => mkOcmCluster id (Some (id +:+ "-ext")) (mkOcmStatus ClusterStateReady "") (Some (Some 3))) <$> ["c1"; "c2"].

Definition cloud_start : @world cloud_platform := cloud_world cloud_clusters cloud_known.

Definition cloud_pass : @world cloud_platform :=
  (@Reconcile cloud_platform simple_semver (fun x y => bool_decide (x = y)) plain_opts cloud_start).1.

Lemma unique_by_decision `{Platform} (w : world) :
  map_Forall (fun k1 c1 => map_Forall (fun k2 c2 => cl_ClusterID c1 = cl_ClusterID c2 -> k1 = k2) (clusters w)) (clusters w) -> unique_ids w.
Proof. intros Hf k1 k2 c1 c2 Hc1 Hc2 E _. exact (Hf k1 c1 Hc1 k2 c2 Hc2 E). Qed.

Lemma backend_pass_ready_witness :
  ((fun c => (cl_ID c, cl_Status c)) <$> (map_to_list (@clusters cloud_platform cloud_pass)).*2) ≡ₚ
    [("k1", ClusterReady); ("k2", ClusterWaitingForFleetShardOperator); ("k3", ClusterProvisioning)] /\
  exists c, @clusters cloud_platform cloud_pass !! "k1" = Some c /\
    exists x, @clusters cloud_platform cloud_start !! "k1" = Some x /\
      (cl_Status x = ClusterReady \/ IsDataPlaneAutoScalingEnabled (cm_DataplaneClusterConfig plain_opts) = true /\ cl_Status x = ClusterDeprovisioning).
Proof.
  split; [apply (bool_decide_unpack _); vm_compute; exact I|].
  destruct (@clusters cloud_platform cloud_pass !! "k1") as [c|] eqn:E; [|vm_compute in E; done].
  exists c. split; [reflexivity|].
  refine (@backend_pass_ready cloud _ _ (table_encoding []) _ _ _ sample_conf (mem CentralRequest) (mem Cluster) _ _ _ _ cloud_ids
    simple_semver (fun x y => bool_decide (x = y)) plain_opts cloud_start "k1" c ltac:(reflexivity) ltac:(vm_compute; reflexivity) _ E _).
  - apply unique_by_decision. apply (bool_decide_unpack _). vm_compute. exact I.
  - vm_compute in E. injection E as <-. reflexivity.
Defined.

(** Standalone clusters from a file, with manual scaling. *)
Definition settled_start : @world cloud_platform := cloud_world [ready_cluster "k1" "c1"] [].

Definition settled_file : list ManualCluster := [manual_entry "c1" "us-east-1"; manual_entry "c2" "eu-west-1"].

Lemma backend_pass_settled_witness :
  settled (@Reconcile cloud_platform simple_semver (fun x y => bool_decide (x = y)) manual_opts settled_start).1.
Proof.
  refine (proj1 (@backend_pass_settled cloud _ _ (table_encoding []) _ _ _ sample_conf (mem CentralRequest) (mem Cluster) _ _ _ _ cloud_ids
    simple_semver (fun x y => bool_decide (x = y)) manual_opts settled_file settled_start ltac:(reflexivity) _ _)).
  - apply (Forall_impl (fun m => ManualCluster_UnmarshalYAML (Ok m) = Ok m)); [|intros m Hm; by exists (Ok m)].
    repeat (apply Forall_cons_2 || apply Forall_nil_2); reflexivity.
  - apply settled_live. apply (bool_decide_unpack _). vm_compute. exact I.
Defined.

(** A cluster that OCM does not know any more. *)
Definition given_up : Cluster := on_ocm ClusterDeprovisioning (ready_cluster "k4" "c4").

Definition given_up_pass : @world cloud_platform :=
  (@reconcileDeprovisioningCluster cloud_platform plain_opts given_up cloud_start).1.

Lemma cleanup_after_not_found_witness :
  exists x', @clusters cloud_platform given_up_pass !! "k4" = Some x' /\ cl_Status x' = ClusterCleanup /\
    rp_Status (@cluster_delete cloud _ "c4" (@w_ext cloud_platform cloud_start)).2 = StatusNotFound.
Proof.
  destruct (@clusters cloud_platform given_up_pass !! "k4") as [x'|] eqn:E; [|vm_compute in E; done].
  assert (cl_Status x' = ClusterCleanup) as Hs by (vm_compute in E; injection E as <-; reflexivity).
  exists x'. split_and!; [reflexivity|exact Hs|].
  refine (proj2 (@cleanup_after_not_found cloud _ _ (table_encoding []) _ _ _ sample_conf (mem CentralRequest) (mem Cluster) _ _ _ _
    plain_opts given_up cloud_start x' ltac:(reflexivity) ltac:(reflexivity) ltac:(vm_compute; reflexivity) _ E Hs)).
  exists given_up. split; reflexivity.
Defined.
