(* ===== verification/ProviderProps.v ===== *)
(** * What the cluster providers promise

    Parameters of add-ons are compared as maps; resources are applied once: the
    standalone provider writes an object only when the encoding recorded in its
    annotation differs, the OCM provider updates a sync set only when a resource
    differs; the names of new clusters and the merging of region lists.

    [DynamicLaws]: the objects of a cluster as the API server keeps them. *)

From S2P Require Import Prelude GoString GoFmt ServiceErrors CentralRequest Store Versions ClusterTypes ProviderTypes World Effects.
From S2P Require Import Config ClusterService Ocm ClusterProviders Backends MemBackends.
Local Open Scope string_scope.
Local Open Scope Z_scope.

(** ** Parameters of add-ons *)

Definition parameter_map (params : list AddonParameter) : gmap string string :=
  foldl (fun m p => <[par_ID p := par_Value p]> m) ∅ params.

Lemma parameter_map_lookup params i v :
  NoDup (par_ID <$> params) -> parameter_map params !! i = Some v <-> mkAddonParameter i v ∈ params.
Proof.
  unfold parameter_map. intros Hnd.
  enough (forall m : gmap string string, (forall p, p ∈ params -> m !! par_ID p = None) ->
    foldl (fun m p => <[par_ID p := par_Value p]> m) m params !! i = Some v <-> m !! i = Some v \/ mkAddonParameter i v ∈ params) as Hg.
  { rewrite Hg; [|intros; apply lookup_empty]. rewrite lookup_empty. naive_solver. }
  induction params as [|p params IH]; intros m Hm; simpl; [set_solver|].
  rewrite fmap_cons in Hnd. apply NoDup_cons in Hnd as [Hp Hnd]. rewrite IH; [|done|].
  - rewrite lookup_insert_Some, elem_of_cons. destruct p as [j u]. simpl. split.
    + intros [[[-> ->]|[_ ?]]|?]; auto.
    + intros [Hi|[[= -> ->]|?]]; [|auto..]. left. right. split; [|done]. intros ->.
      specialize (Hm _ (list_elem_of_here _ _)). simpl in Hm. congruence.
  - intros q Hq. rewrite lookup_insert_ne; [apply Hm; by right|]. intros E. apply Hp. rewrite E. by apply list_elem_of_fmap_2.
Qed.

(** The comparison of the installed parameters with the wanted ones decides
    whether they are the same, for distinct names and no empty installed value. *)
Theorem sameParameters_spec installed wanted :
  NoDup (par_ID <$> installed) -> NoDup (par_ID <$> wanted) -> Forall (fun p => par_Value p <> "") installed ->
  sameParameters installed wanted = true <-> installed ≡ₚ wanted.
Proof.
  intros Hi Hw He. unfold sameParameters. fold (parameter_map wanted).
  assert (forallb (fun item => bool_decide (default "" (parameter_map wanted !! par_ID item) = par_Value item)) installed = true <->
    installed ⊆ wanted) as Hsub.
  { rewrite forallb_forall. setoid_rewrite <- list_elem_of_In. setoid_rewrite bool_decide_eq_true.
    assert (forall x, x ∈ installed -> default "" (parameter_map wanted !! par_ID x) = par_Value x <-> x ∈ wanted) as Hx.
    { intros [i v] Hx. rewrite <- (parameter_map_lookup wanted i v Hw). simpl.
      assert (v <> "") as Hv by (by apply (proj1 (Forall_forall _ _) He _ Hx)).
      destruct (parameter_map wanted !! i); simpl; split; congruence. }
    split; intros Hall x Hin; [by apply Hx, Hall|by apply Hx, Hall]. }
  destruct (Nat.eqb_spec (length installed) (length wanted)) as [Hl|Hl]; simpl.
  - rewrite Hsub. split; [|by intros ->]. intros Hs.
    apply (submseteq_length_Permutation installed wanted); [|lia].
    apply NoDup_submseteq; [by eapply NoDup_fmap_1|done].
  - split; [done|]. intros Hp. by apply Permutation_length in Hp.
Qed.

(** A parameter that is installed with an empty value and is not wanted any more is
    not noticed when the numbers agree, and the wanted one is not installed. *)
Lemma UpdateAddonParameters_missed `{OcmApi X} cluster id wanted x addon installed :
  addon_get cluster id x = (x, mkReply 200 addon None) -> ai_Parameters addon = Some installed ->
  length installed = length wanted ->
  Forall (fun p => par_Value p = "" /\ parameter_map wanted !! par_ID p = None) installed ->
  UpdateAddonParameters true cluster id wanted x = (x, Ok addon).
Proof.
  intros Hg Ha Hl He. unfold UpdateAddonParameters, guarded, try_bind, send. unfold mbind, prog_bind, mret, prog_ret. rewrite Hg. simpl.
  rewrite Ha. enough (sameParameters installed wanted = true) as -> by done.
  unfold sameParameters. fold (parameter_map wanted). rewrite Hl, Nat.eqb_refl. simpl. apply forallb_forall. intros p Hp.
  apply list_elem_of_In in Hp. destruct (proj1 (Forall_forall _ _) He p Hp) as [-> ->]. done.
Qed.

(** ** Resources of a standalone cluster *)

Class DynamicLaws (X : Type) `{Dynamic X} := {
  object : X -> string -> locator -> option uobject;
  mapping : string -> string -> string -> result error (string * bool);
  (** discovery only reads, and the kinds do not change *)
  mapping_read c a k x : RESTMapping c a k x = (x, mapping c a k);
  (** a read changes nothing; what it finds is there *)
  get_read c lo x : (dyn_Get c lo x).1 = x;
  get_found c lo x o : (dyn_Get c lo x).2 = Ok o -> object x c lo = Some o;
  (** a write that succeeds stores the annotations it was given, and touches no other object *)
  create_stored c lo d x o : (dyn_Create c lo d x).2 = Ok o ->
    object (dyn_Create c lo d x).1 c lo = Some o /\ uo_Annotations o = uo_Annotations d;
  update_stored c lo d x o : (dyn_Update c lo d x).2 = Ok o ->
    object (dyn_Update c lo d x).1 c lo = Some o /\ uo_Annotations o = uo_Annotations d;
  create_other c lo d x c' lo' : (c', lo') <> (c, lo) -> object (dyn_Create c lo d x).1 c' lo' = object x c' lo';
  update_other c lo d x c' lo' : (c', lo') <> (c, lo) -> object (dyn_Update c lo d x).1 c' lo' = object x c' lo'
}.

Section standalone.
Context `{DynamicLaws X} `{Encoding}.
Import StandaloneProvider.

(** The encoding of a resource, its decoded object and where it belongs. *)
Definition locate (c : string) (r : KResource) : option (string * uobject * locator) :=
  match json_Marshal r with
  | Err _ => None
  | Ok data =>
      match json_Unmarshal data with
      | Err _ => None
      | Ok obj =>
          match mapping c (jtext (jfield "apiVersion" (uo_Body obj))) (jtext (jfield "kind" (uo_Body obj))) with
          | Err _ => None
          | Ok m =>
              let namespace := metadata_field "namespace" obj in
              Some (data, obj, mkLocator m.1 (if bool_decide (namespace <> "") && m.2 then Some namespace else None)
                (metadata_field "name" obj))
          end
      end
  end.

(** The recorded encoding of an object is the wanted one. *)
Definition records (data : string) (o : uobject) : Prop :=
  exists a, uo_Annotations o = Some a /\ a !! lastAppliedConfigurationAnnotation = Some data.

(** The run of [applyResource] from the read on. *)
Definition apply_at (c : string) (data : string) (obj : uobject) (lo : locator) : prog X (result error uobject) :=
  r ← dyn_Get c lo;
  match r with
  | Ok o => if shouldApplyChanges (Some o) data then applyChangesFn c lo (annotated obj data) (Some o) else mret (Ok o)
  | Err _ => applyChangesFn c lo (annotated obj data) None
  end.

Lemma applyResource_located c r x :
  match locate c r with
  | Some (data, obj, lo) => applyResource c r x = apply_at c data obj lo x
  | None => (applyResource c r x).1 = x /\ exists e, (applyResource c r x).2 = Err e
  end.
Proof.
  unfold locate, applyResource. destruct (json_Marshal r) as [data|]; [|by eauto].
  destruct (json_Unmarshal data) as [obj|]; [|by eauto]. unfold try_bind, with_err.
  unfold mbind, prog_bind, mret, prog_ret. rewrite mapping_read.
  destruct (mapping _ _ _) as [m|]; [|by eauto]. unfold apply_at, mbind, prog_bind, mret, prog_ret.
  by destruct (dyn_Get c _ x) as [x' [o|]].
Qed.

Lemma shouldApply_records o data : shouldApplyChanges (Some o) data = false <-> records data o.
Proof.
  unfold shouldApplyChanges, records. destruct (uo_Annotations o) as [a|]; [|naive_solver].
  destruct (a !! _) as [l|] eqn:E; [|naive_solver]. rewrite bool_decide_eq_false. split.
  - intros Hn. exists a. split; [done|]. rewrite E. f_equal. symmetry. by apply dec_stable.
  - intros (? & [= <-] & E') Hne. congruence.
Qed.

Lemma annotated_records o data obj : uo_Annotations o = uo_Annotations (annotated obj data) -> records data o.
Proof. unfold records. intros ->. eexists. split; [done|]. apply lookup_insert_eq. Qed.

Lemma apply_at_ok c data obj lo x o :
  (apply_at c data obj lo x).2 = Ok o -> object (apply_at c data obj lo x).1 c lo = Some o /\ records data o.
Proof.
  unfold apply_at. rewrite prog_bind_run, get_read. destruct ((dyn_Get c lo x).2) as [o0|] eqn:Hg.
  - destruct (shouldApplyChanges _ _) eqn:Hs.
    + unfold applyChangesFn, with_err. rewrite prog_bind_run. set (d := mkUobject _ _ _).
      destruct ((dyn_Update c lo d x).2) as [o1|] eqn:Hu; [|done]. intros [= <-].
      destruct (update_stored c lo d x o1 Hu) as [? Ha]. split; [done|]. by apply (annotated_records o1 data obj).
    + intros [= <-]. split; [by apply get_found|by apply shouldApply_records].
  - unfold applyChangesFn, with_err. rewrite prog_bind_run. destruct ((dyn_Create c lo _ x).2) as [o1|] eqn:Hu; [|done].
    intros [= <-]. destruct (create_stored c lo _ x o1 Hu) as [? Ha]. split; [done|]. by apply (annotated_records o1 data obj).
Qed.

Lemma apply_at_other c data obj lo x lo' :
  lo' <> lo -> object (apply_at c data obj lo x).1 c lo' = object x c lo'.
Proof.
  intros Hne. unfold apply_at. rewrite prog_bind_run, get_read. destruct ((dyn_Get c lo x).2) as [o0|].
  - destruct (shouldApplyChanges _ _); [|done]. unfold applyChangesFn, with_err. rewrite prog_bind_run. apply update_other. congruence.
  - unfold applyChangesFn, with_err. rewrite prog_bind_run. apply create_other. congruence.
Qed.

Lemma apply_at_settled c data obj lo x o :
  (dyn_Get c lo x).2 = Ok o -> records data o -> apply_at c data obj lo x = (x, Ok o).
Proof.
  intros Hg Hr. unfold apply_at, mbind, prog_bind. pose proof (get_read c lo x) as Hx. destruct (dyn_Get c lo x) as [x' r].
  cbn [fst snd] in *. subst. cbv beta iota. by rewrite (proj2 (shouldApply_records o data) Hr).
Qed.

(** The resource has been applied: its object records its encoding. *)
Definition applied (c : string) (x : X) (r : KResource) : Prop :=
  exists data obj lo o, locate c r = Some (data, obj, lo) /\ object x c lo = Some o /\ records data o.

Definition place (c : string) (r : KResource) : option locator := (fun l => l.2) <$> locate c r.

Lemma apply_all_ok c rs x :
  NoDup (place c <$> rs) -> (apply_all c rs x).2 = Ok tt ->
  Forall (applied c (apply_all c rs x).1) rs /\
  forall lo, Some lo ∉ place c <$> rs -> object (apply_all c rs x).1 c lo = object x c lo.
Proof.
  revert x. induction rs as [|r rs IH]; intros x Hnd Hok; [by split|]. simpl in *. unfold try_bind in *. rewrite prog_bind_run in *.
  apply NoDup_cons in Hnd as [Hr Hnd]. pose proof (applyResource_located c r x) as Hl.
  destruct (locate c r) as [[[data obj] lo]|] eqn:El.
  2:{ destruct Hl as [_ [e He]]. rewrite He in Hok. done. }
  rewrite Hl in *. pose proof (apply_at_ok c data obj lo x) as Hat. pose proof (apply_at_other c data obj lo x) as Hother.
  destruct ((apply_at c data obj lo x).2) as [o|]; [|done]. destruct (Hat o eq_refl) as [Ho Hrec].
  destruct (IH (apply_at c data obj lo x).1 Hnd Hok) as [Hall Hframe].
  assert (place c r = Some lo) as Hplace by (unfold place; by rewrite El). split.
  - apply Forall_cons. split; [|done]. exists data, obj, lo, o. split_and!; [done| |done].
    rewrite Hframe; [done|]. by rewrite <- Hplace.
  - intros lo' Hlo. rewrite Hplace in Hlo. rewrite Hframe by set_solver. apply Hother. set_solver.
Qed.

Lemma apply_all_settled c rs x :
  (forall lo o, object x c lo = Some o -> (dyn_Get c lo x).2 = Ok o) -> Forall (applied c x) rs ->
  apply_all c rs x = (x, Ok tt).
Proof.
  intros Hread. induction 1 as [|r rs (data & obj & lo & o & Hl & Ho & Hr) _ IH]; [done|]. simpl. unfold try_bind, mbind, prog_bind.
  pose proof (applyResource_located c r x) as Ha. rewrite Hl in Ha.
  rewrite Ha, (apply_at_settled c data obj lo x o); auto.
Qed.

(** Applying resources to a standalone cluster is idempotent: after a run that
    reports no error, the object of every resource records the encoding of the
    resource, and a second run that can read the objects writes nothing. *)
Theorem apply_all_idempotent c rs x x' :
  NoDup (place c <$> rs) -> apply_all c rs x = (x', Ok tt) ->
  (forall lo o, object x' c lo = Some o -> (dyn_Get c lo x').2 = Ok o) ->
  Forall (applied c x') rs /\ apply_all c rs x' = (x', Ok tt).
Proof.
  intros Hnd Hrun Hread. destruct (apply_all_ok c rs x Hnd) as [Hall _]; [by rewrite Hrun|]. rewrite Hrun in Hall.
  split; [done|]. by apply apply_all_settled.
Qed.
End standalone.

(** ** Sync sets of OCM *)

Section ocm.
Context `{OcmApi X} `{Encoding}.

(** The resources of the existing set, converted to the types of the new ones, are
    the new ones. *)
Definition same_resources (existing : list jvalue) (new : list KResource) : Prop :=
  Forall2 (fun b r => FromUnstructured (kr_Type r) b = Some r) existing new.

Lemma syncsetResourcesChanged_spec existing new :
  OCMProvider.syncsetResourcesChanged existing new = false <-> same_resources existing new.
Proof.
  unfold OCMProvider.syncsetResourcesChanged, same_resources.
  destruct (Nat.eqb_spec (length existing) (length new)) as [Hl|Hl]; simpl.
  2:{ split; [done|]. intros Hf. by apply Forall2_length in Hf. }
  revert new Hl. induction existing as [|b existing IH]; intros [|r new] Hl; try done; simpl.
  rewrite orb_false_iff, negb_false_iff, bool_decide_eq_true, Forall2_cons. rewrite IH; [done|]. by injection Hl.
Qed.

Lemma Is404_status code reason args : Is404 (NewErrorFromHTTPStatusCode code reason args) = (code =? StatusNotFound).
Proof.
  unfold NewErrorFromHTTPStatusCode.
  destruct (Z.eqb_spec code StatusNotFound) as [->|Hn]; [done|].
  destruct (_ && _); [|done]. destruct (_ =? StatusBadRequest); [done|]. destruct (_ =? StatusUnauthorized); [done|].
  destruct (_ =? StatusForbidden); [done|]. destruct (_ =? StatusMethodNotAllowed); [done|]. by destruct (_ =? StatusConflict).
Qed.

(** The OCM provider applies a set of resources with the fewest requests: a set
    that OCM has with the same resources is only read; one that differs is updated
    and one that OCM does not know is created, by one request with the wanted
    resources; and when OCM fails to answer nothing is written. *)
Theorem ocm_ApplyResources_requests spec rs (x : X) :
  (forall A (a : A), Build a = Ok a) ->
  let id := cs_InternalID spec in
  let got := syncset_get id (rset_Name rs) x in
  let run := OCMProvider.ApplyResources true spec rs x in
  match rp_Err got.2 with
  | None =>
      (same_resources (ss_Resources (rp_Body got.2)) (rset_Resources rs) -> run = (got.1, Ok rs)) /\
      (~ same_resources (ss_Resources (rp_Body got.2)) (rset_Resources rs) ->
         run.1 = (syncset_update id (rset_Name rs) (rset_Resources rs) got.1).1)
  | Some _ =>
      (rp_Status got.2 = StatusNotFound -> run.1 = (syncsets_add id (rset_Name rs) (rset_Resources rs) got.1).1) /\
      (rp_Status got.2 <> StatusNotFound -> run.1 = got.1 /\ exists e, run.2 = Err e)
  end.
Proof.
  intros HB id got run. 
  assert (match rp_Err got.2 with
    | Some e => if rp_Status got.2 =? StatusNotFound
                then run = (with_err (OCMProvider.wrapf "failed to create syncset for cluster %s" [VStr id])
                       (OCMProvider.createSyncSet true id rs) ≫= fun r => mret (const rs <$> r)) got.1
                else exists e', run = (got.1, Err e')
    | None => run = (with_err (OCMProvider.wrapf "failed to update syncset for cluster %s" [VStr id])
                 (OCMProvider.updateSyncSet true id rs (rp_Body got.2)) ≫= fun r => mret (const rs <$> r)) got.1
    end) as Hrun.
  { unfold run, OCMProvider.ApplyResources, GetSyncSet, guarded, send_status, try_bind.
    unfold mbind, prog_bind, mret, prog_ret. fold id got. destruct got as [x1 r]. simpl. destruct (rp_Err r) as [e|].
    - unfold ToServiceError. rewrite Is404_status. destruct (_ =? _); simpl; [|by eauto].
      by destruct (with_err _ _ x1) as [x2 [a|]].
    - by destruct (with_err _ _ x1) as [x2 [a|]]. }
  destruct (rp_Err got.2) as [e|].
  - destruct (Z.eqb_spec (rp_Status got.2) StatusNotFound) as [E|E]; (split; [|]); intros E'; try done.
    + rewrite Hrun. unfold OCMProvider.createSyncSet, with_err. rewrite HB, !prog_bind_run.
      unfold CreateSyncSet, guarded, send_status, with_err. by rewrite !prog_bind_run.
    + destruct Hrun as [e' ->]. eauto.
  - rewrite Hrun. unfold OCMProvider.updateSyncSet. rewrite HB. split; intros Hs.
    + apply syncsetResourcesChanged_spec in Hs. rewrite Hs. done.
    + destruct (OCMProvider.syncsetResourcesChanged _ _) eqn:E; [|by apply syncsetResourcesChanged_spec in E].
      unfold try_bind, UpdateSyncSet, guarded, send_status, with_err. rewrite !prog_bind_run.
      by destruct (rp_Err (syncset_update id (rset_Name rs) (rset_Resources rs) got.1).2).
Qed.
End ocm.

(** ** Names, regions and DNS *)

Lemma substring_take n s : (n <= String.length s)%nat ->
  String.length (String.substring 0 n s) = n /\ exists rest, s = String.substring 0 n s +:+ rest.
Proof.
  revert s. induction n as [|n IH]; intros s Hl; [split; [by destruct s|exists s; by destruct s]|].
  destruct s as [|a s]; [simpl in Hl; lia|]. simpl in Hl |- *. destruct (IH s) as [-> [rest Hr]]; [lia|].
  split; [done|]. exists rest.
  change (String a s = String a (String.substring 0 n s +:+ rest)). by rewrite <- Hr.
Qed.

(** The name of a new cluster has fifteen characters, of the prefix and of the new
    identifier, which has twenty. *)
Lemma Generate_length prefix xid :
  (MaxClusterNameLength <= String.length xid)%nat ->
  exists name rest, Generate prefix xid = Some name /\ String.length name = MaxClusterNameLength /\ prefix +:+ xid = name +:+ rest.
Proof.
  intros Hl. unfold Generate.
  assert (Sprintf "%s%s" [VStr prefix; VStr xid] = prefix +:+ xid) as ->.
  { transitivity (prefix +:+ (xid +:+ "")); [reflexivity|by rewrite string_append_nil_r]. }
  set (s := prefix +:+ xid).
  assert (MaxClusterNameLength <= String.length s)%nat as Hs by (unfold s; rewrite string_length_append; lia).
  rewrite (proj2 (Nat.leb_le _ _) Hs). destruct (substring_take MaxClusterNameLength s Hs) as [Hn [rest Hr]]. eauto.
Qed.

Lemma merge_steps source :
  forall known items, (forall id, is_Some (known !! id) <-> id ∈ ri_ID <$> items) -> NoDup (ri_ID <$> items) ->
  let r := (foldl merge_step (known, items) source).2 in
  NoDup (ri_ID <$> r) /\ items `prefix_of` r /\ (forall id, id ∈ ri_ID <$> r <-> id ∈ ri_ID <$> items \/ id ∈ ri_ID <$> source) /\
  (forall x, x ∈ r -> x ∈ items \/ x ∈ source).
Proof.
  induction source as [|a source IH]; intros known items Hk Hnd r.
  { split_and!; [done|done|set_solver|auto]. }
  unfold r. simpl. destruct (known !! ri_ID a) as [y|] eqn:E.
  - assert (ri_ID a ∈ ri_ID <$> items) as Ha by (apply Hk; eauto).
    destruct (IH known items Hk Hnd) as (? & ? & Hid & Hx). split_and!; [done|done| |].
    + intros id. rewrite Hid, elem_of_cons. split; [tauto|]. intros [?|[->|?]]; tauto.
    + intros x Hin. destruct (Hx x Hin); [by left|right; by right].
  - assert (ri_ID a ∉ ri_ID <$> items) as Ha by (rewrite <- Hk, E; by intros [? ?]).
    destruct (IH (<[ri_ID a := a]> known) (items ++ [a])%list) as (? & Hp & Hid & Hx).
    + intros id. rewrite lookup_insert_is_Some, Hk, fmap_app. set_solver.
    + rewrite fmap_app. apply NoDup_app. split_and!; [done|set_solver|apply NoDup_singleton].
    + split_and!; [done|by eapply prefix_app_l| |].
      * intros id. rewrite Hid, fmap_app, elem_of_app. simpl. rewrite !elem_of_cons, elem_of_nil. tauto.
      * intros x Hin. rewrite elem_of_cons. destruct (Hx x Hin) as [[?| ->%list_elem_of_singleton]%elem_of_app|?]; auto.
Qed.

Lemma known_regions_keys items id : is_Some (known_regions items !! id) <-> id ∈ ri_ID <$> items.
Proof.
  unfold known_regions.
  enough (forall m : gmap string CloudProviderRegionInfo, is_Some (foldl (fun m r => <[ri_ID r := r]> m) m items !! id) <->
    is_Some (m !! id) \/ id ∈ ri_ID <$> items) as Hg by (rewrite Hg, lookup_empty; split; [intros [[? ?]|?]; done|by right]).
  induction items as [|a items IH]; intros m; simpl; [set_solver|]. rewrite IH, lookup_insert_is_Some, elem_of_cons. split.
  - intros [[->|[_ ?]]|?]; auto.
  - intros [?|[->|?]]; [|by left; left|by right]. left. destruct (decide (ri_ID a = id)); auto.
Qed.

(** Merging lists of regions keeps the target as it is, in front, and adds the
    regions of the source whose identifiers are new, each once. *)
Lemma Merge_spec target source :
  NoDup (ri_ID <$> target) ->
  NoDup (ri_ID <$> Merge target source) /\ target `prefix_of` Merge target source /\
  (forall id, id ∈ ri_ID <$> Merge target source <-> id ∈ ri_ID <$> target \/ id ∈ ri_ID <$> source) /\
  (forall r, r ∈ Merge target source -> r ∈ target \/ r ∈ source).
Proof. intros Hnd. apply merge_steps; [|done]. intros id. apply known_regions_keys. Qed.

(** ** Runs on the concrete cloud *)

#[export] Instance cloud_dynamic_laws : DynamicLaws cloud.
Proof.
  refine {| object x c lo := mb_objects x !! (c, lo);
            mapping _ _ kind := Ok (kind, negb (bool_decide (kind = "Namespace"))) |}; simpl.
  - done.
  - done.
  - intros c lo x o. destruct (mb_objects x !! (c, lo)); congruence.
  - intros c lo d x o. destruct (mb_objects x !! (c, lo)); [done|]. intros [= <-]. simpl. by rewrite lookup_insert_eq.
  - intros c lo d x o. destruct (mb_objects x !! (c, lo)); [|done]. case_bool_decide; [|done]. intros [= <-]. simpl. by rewrite lookup_insert_eq.
  - intros c lo d x c' lo' Hne. destruct (mb_objects x !! (c, lo)); [done|]. simpl. by rewrite lookup_insert_ne.
  - intros c lo d x c' lo' Hne. destruct (mb_objects x !! (c, lo)); [|done]. case_bool_decide; [|done]. simpl. by rewrite lookup_insert_ne.
Defined.

Lemma sameParameters_spec_witness :
  sameParameters [mkAddonParameter "a" "1"; mkAddonParameter "b" "2"] [mkAddonParameter "b" "2"; mkAddonParameter "a" "1"] = true.
Proof.
  apply (sameParameters_spec [mkAddonParameter "a" "1"; mkAddonParameter "b" "2"] [mkAddonParameter "b" "2"; mkAddonParameter "a" "1"]).
  - apply (bool_decide_unpack _). vm_compute. exact I.
  - apply (bool_decide_unpack _). vm_compute. exact I.
  - apply (bool_decide_unpack _). vm_compute. exact I.
  - apply Permutation_swap.
Defined.

(** The missing parameter [b] is not installed. *)
Lemma sameParameters_missing : sameParameters [mkAddonParameter "a" ""] [mkAddonParameter "b" "2"] = true.
Proof. reflexivity. Qed.

Definition sample_resources : list KResource :=
  [buildFleetShardOperatorNamespace (sample_settings []); buildFleetShardOperatorSubscription (sample_settings [])].

Definition sample_encoding : Encoding := table_encoding (kr_Body <$> sample_resources).

Definition empty_cloud : cloud := mkCloud 1000 [] ∅ ∅ ∅ ∅.

Definition applied_cloud : cloud := (@StandaloneProvider.apply_all cloud _ sample_encoding "dev" sample_resources empty_cloud).1.

Lemma cloud_reads (x : cloud) c lo o : object x c lo = Some o -> (dyn_Get c lo x).2 = Ok o.
Proof. intros Ho. change (mb_objects x !! (c, lo) = Some o) in Ho. cbn. by rewrite Ho. Qed.

Lemma apply_all_idempotent_witness :
  size (mb_objects applied_cloud) = 2%nat /\
  @StandaloneProvider.apply_all cloud _ sample_encoding "dev" sample_resources applied_cloud = (applied_cloud, Ok tt).
Proof.
  split; [vm_compute; reflexivity|].
  refine (proj2 (@apply_all_idempotent cloud _ _ sample_encoding "dev" sample_resources empty_cloud applied_cloud _ _ _)).
  - apply (bool_decide_unpack _). vm_compute. exact I.
  - vm_compute. reflexivity.
  - exact (cloud_reads applied_cloud "dev").
Defined.

(** A set that OCM has already. *)
Lemma ocm_ApplyResources_requests_witness :
  let spec := mkClusterSpec "c1" "" ClusterReady "" None in
  let rs := mkResourceSet "set" sample_resources in
  let x := set_mb_syncsets {[ ("c1", "set") := sample_resources ]} empty_cloud in
  @OCMProvider.ApplyResources cloud _ sample_encoding true spec rs x = (x, Ok rs).
Proof.
  intros spec rs x.
  refine (proj1 (@ocm_ApplyResources_requests cloud _ sample_encoding spec rs x (fun _ _ => eq_refl)) _).
  vm_compute. repeat constructor.
Defined.
