(* ===== verification/CloudProviders.v ===== *)
(** * Cloud providers and regions of the API

    services/cloud_providers.go: the cloud providers and regions that the cluster
    providers in use know of, and their cache; handlers/cloud_providers.go: the two
    endpoints and the cache of their answers; presenters/cloudproviders.go;
    wellknown/cloud_regions.go: display names.

    [ClusterQueries] are the rows of the clusters table as the queries of these
    services see them: the structs they select into have no deletion time, so that
    deleted rows are read too.  The order of a DISTINCT query is the one of that
    list.  The clock of the caches counts nanoseconds. *)

From stdpp Require Import sorting.
From S2P Require Import Prelude GoString GoFmt ServiceErrors CentralRequest Versions ClusterTypes ProviderTypes World Effects.
From S2P Require Import MemPlatform Providers ApiFramework Config ClusterService Ocm ClusterProviders Backends MemBackends.
Local Open Scope string_scope.
Local Open Scope Z_scope.

(** ** Display names *)

Definition aws_region_names : list (string * string) :=
  [("af-south-1", "Africa (Cape Town)"); ("ap-east-1", "Asia Pacific (Hong Kong)");
   ("ap-northeast-1", "Asia Pacific (Tokyo)"); ("ap-northeast-2", "Asia Pacific (Seoul)");
   ("ap-northeast-3", "Asia Pacific (Osaka)"); ("ap-south-1", "Asia Pacific (Mumbai)");
   ("ap-south-2", "Asia Pacific (Hyderabad)"); ("ap-southeast-1", "Asia Pacific (Singapore)");
   ("ap-southeast-2", "Asia Pacific (Sydney)"); ("ap-southeast-3", "Asia Pacific (Jakarta)");
   ("ap-southeast-4", "Asia Pacific (Melbourne)"); ("ca-central-1", "Canada (Central)");
   ("eu-central-1", "Europe (Frankfurt)"); ("eu-central-2", "Europe (Zurich)"); ("eu-north-1", "Europe (Stockholm)");
   ("eu-south-1", "Europe (Milan)"); ("eu-south-2", "Europe (Spain)"); ("eu-west-1", "Europe (Ireland)");
   ("eu-west-2", "Europe (London)"); ("eu-west-3", "Europe (Paris)"); ("me-central-1", "Middle East (UAE)");
   ("me-south-1", "Middle East (Bahrain)"); ("sa-east-1", "South America (São Paulo)");
   ("us-east-1", "US East (N. Virginia)"); ("us-east-2", "US East (Ohio)"); ("us-gov-east-1", "AWS GovCloud (US-East)");
   ("us-gov-west-1", "AWS GovCloud (US-West)"); ("us-west-1", "US West (N. California)"); ("us-west-2", "US West (Oregon)")].

Definition cloudRegionDisplayNames : gmap string (gmap string string) := {[ "aws" := list_to_map aws_region_names ]}.

Definition GetCloudRegionDisplayName (providerName regionName : string) : string :=
  match cloudRegionDisplayNames !! providerName with
  | Some regions => match regions !! regionName with Some displayName => displayName | None => regionName end
  | None => regionName
  end.

Definition cloudPoviderIDToDisplayNameMapping : gmap string string :=
  list_to_map [("aws", "Amazon Web Services"); ("azure", "Microsoft Azure"); ("gcp", "Google Cloud Platform")].

Definition setDisplayName (providerID defaultDisplayName : string) : string :=
  match cloudPoviderIDToDisplayNameMapping !! ToLower providerID with
  | Some displayName => displayName
  | None => defaultDisplayName
  end.

(** ** Caches (go-cache) *)

(** The value and the time it expires at. *)
Abbreviation cache V := (gmap string (V * Z)).

Definition DefaultExpiration : Z := 300 * 10 ^ 9.

Definition cache_Get {V} (now : Z) (k : string) (c : cache V) : option V :=
  match c !! k with
  | Some (v, expiration) => if expiration <? now then None else Some v
  | None => None
  end.

Definition cache_Set {V} (now : Z) (k : string) (v : V) (c : cache V) : cache V := <[k := (v, now + DefaultExpiration)]> c.

(** ** Data *)

Record CloudProviderWithRegions := mkCloudProviderWithRegions { cpr_ID : string; cpr_RegionList : list CloudProviderRegionInfo }.

Record CloudProvider := mkCloudProvider { clp_ID : string; clp_Name : string; clp_DisplayName : string; clp_Enabled : bool }.

Record CloudRegion := mkCloudRegion {
  crg_ID : string; crg_CloudProvider : string; crg_DisplayName : string; crg_Enabled : bool; crg_SupportedInstanceTypes : list string
}.

Definition KindCloudRegion : string := "CloudRegion".
Definition KindCloudProvider : string := "CloudProvider".

Record ApiCloudProvider := mkApiCloudProvider {
  acp_Id : string; acp_Kind : string; acp_Name : string; acp_DisplayName : string; acp_Enabled : bool
}.

Record ApiCloudRegion := mkApiCloudRegion {
  acr_Id : string; acr_Kind : string; acr_DisplayName : string; acr_Enabled : bool; acr_SupportedInstanceTypes : list string
}.

Definition PresentCloudProvider (c : CloudProvider) : ApiCloudProvider :=
  mkApiCloudProvider (clp_ID c) KindCloudProvider (clp_Name c) (clp_DisplayName c) (clp_Enabled c).

Definition PresentCloudRegion (c : CloudRegion) : ApiCloudRegion :=
  mkApiCloudRegion (crg_ID c) KindCloudRegion (crg_DisplayName c) (crg_Enabled c) (crg_SupportedInstanceTypes c).

(** The bodies of the two endpoints; a cache holds either. *)
Inductive listing :=
| CloudRegionList (page size total : Z) (items : list ApiCloudRegion)
| CloudProviderList (page size total : Z) (items : list ApiCloudProvider).

Class ClusterQueries (X : Type) := { all_clusters : prog X (result error (list Cluster)) }.

(** What the services keep: the clients and the two caches. *)
Record cloud_services (X : Type) := mkCloudServices {
  sv_ext : X;
  sv_cache : cache (list CloudProviderWithRegions);
  sv_answers : cache listing
}.
Arguments mkCloudServices {X}.
Arguments sv_ext {X}.
Arguments sv_cache {X}.
Arguments sv_answers {X}.

Definition keyCloudProvidersWithRegions : string := "cloudProviderWithRegions".
Definition cloudProvidersCacheKey : string := "cloudProviderList".

Section services.
Context `{OcmApi X} `{!ClusterQueries X} `{!Sources X} (connected : bool).

(** ** The queries *)

Definition in_use (c : Cluster) : Prop := cl_Status c ∉ ClusterDeletionStatuses.

#[export] Instance in_use_dec c : Decision (in_use c).
Proof. unfold in_use. apply _. Defined.

Definition getAvailableClusterProviderTypes : prog X (result ServiceError (list string)) :=
  r ← all_clusters;
  mret (match r with
        | Err err => Err (NewWithCause ErrorGeneral (Some err) "Failed to list clusters providers" [])
        | Ok rows => Ok (remove_dups (cl_ProviderType <$> filter in_use rows))
        end).

Definition standalone_GetCloudProviders : prog X (result error (list CloudProviderInfo)) :=
  rows ←? all_clusters;
  let results := remove_dups (cl_CloudProvider <$> filter (fun c => cl_ProviderType c = ClusterProviderStandalone /\ in_use c) rows) in
  mret (Ok ((fun p => mkCloudProviderInfo p p p) <$> results)).

Definition standalone_GetCloudProviderRegions (info : CloudProviderInfo) : prog X (result error (list CloudProviderRegionInfo)) :=
  rows ←? all_clusters;
  let results := remove_dups ((fun c => (cl_Region c, cl_MultiAZ c)) <$>
    filter (fun c => cl_CloudProvider c = cpi_ID info /\ cl_ProviderType c = ClusterProviderStandalone /\ in_use c) rows) in
  mret (Ok ((fun r => mkRegionInfo r.1 (cpi_ID info) r.1 (GetCloudRegionDisplayName (cpi_ID info) r.1) r.2) <$> results)).

Definition provider_GetCloudProviders (p : string) : prog X (result error (list CloudProviderInfo)) :=
  dispatch p standalone_GetCloudProviders (OCMProvider.GetCloudProviders connected).

Definition provider_GetCloudProviderRegions (p : string) (info : CloudProviderInfo) : prog X (result error (list CloudProviderRegionInfo)) :=
  dispatch p (standalone_GetCloudProviderRegions info) (OCMProvider.GetCloudProviderRegions connected info).

(** ** The service *)

Definition found (m : gmap string (list CloudProviderRegionInfo)) (id : string) (regions : list CloudProviderRegionInfo)
    : gmap string (list CloudProviderRegionInfo) :=
  match m !! id with
  | None => <[id := regions]> m
  | Some existing => <[id := Merge existing regions]> m
  end.

(** The error of a failed query of regions is the one of the previous query, which
    is nil. *)
Fixpoint collect_regions (p : string) (items : list CloudProviderInfo) (m : gmap string (list CloudProviderRegionInfo))
    : prog X (result ServiceError (gmap string (list CloudProviderRegionInfo))) :=
  match items with
  | [] => mret (Ok m)
  | cp :: items =>
      r ← provider_GetCloudProviderRegions p cp;
      match r with
      | Err regionErr => mret (Err (NewWithCause ErrorGeneral None "failed to retrieve cloud regions" []))
      | Ok regions => collect_regions p items (found m (cpi_ID cp) regions)
      end
  end.

(** The cloud providers of a cluster provider. *)
Definition cloud_providers_of (t : string) : prog X (result ServiceError (string * list CloudProviderInfo)) :=
  match GetProvider t with
  | Err err => mret (general err "failed to find implementation")
  | Ok p =>
      r ← provider_GetCloudProviders p;
      mret (match r with
            | Err err => general err "failed to retrieve cloud provider list"
            | Ok items => Ok (p, items)
            end)
  end.

Fixpoint collect_types (types : list string) (m : gmap string (list CloudProviderRegionInfo))
    : prog X (result ServiceError (gmap string (list CloudProviderRegionInfo))) :=
  match types with
  | [] => mret (Ok m)
  | t :: types =>
      pi ←? cloud_providers_of t;
      m ←? collect_regions pi.1 pi.2 m;
      collect_types types m
  end.

Definition by_id (a b : CloudProviderWithRegions) : Prop := string_le (cpr_ID a) (cpr_ID b).
#[export] Instance by_id_dec : RelDecision by_id.
Proof. intros a b. unfold by_id. apply _. Defined.

Definition sorted_providers (m : gmap string (list CloudProviderRegionInfo)) : list CloudProviderWithRegions :=
  merge_sort by_id ((fun e => mkCloudProviderWithRegions e.1 e.2) <$> map_to_list m).

Definition GetCloudProvidersWithRegions : prog X (result ServiceError (list CloudProviderWithRegions)) :=
  results ←? getAvailableClusterProviderTypes;
  m ←? collect_types results ∅;
  mret (Ok (sorted_providers m)).

(** The providers in the order they are first met. *)
Definition visit (acc : gmap string bool * list CloudProvider) (cp : CloudProviderInfo) : gmap string bool * list CloudProvider :=
  match acc.1 !! cpi_ID cp with
  | Some _ => acc
  | None => (<[cpi_ID cp := true]> acc.1,
             (acc.2 ++ [mkCloudProvider (cpi_ID cp) (cpi_Name cp) (setDisplayName (cpi_ID cp) (cpi_DisplayName cp)) false])%list)
  end.

Fixpoint visit_types (types : list string) (acc : gmap string bool * list CloudProvider)
    : prog X (result ServiceError (list CloudProvider)) :=
  match types with
  | [] => mret (Ok acc.2)
  | t :: types => pi ←? cloud_providers_of t; visit_types types (foldl visit acc pi.2)
  end.

Definition service_ListCloudProviders : prog X (result ServiceError (list CloudProvider)) :=
  results ←? getAvailableClusterProviderTypes;
  visit_types results (∅, []).

Definition region_of (r : CloudProviderRegionInfo) : CloudRegion :=
  mkCloudRegion (ri_ID r) (ri_CloudProviderID r) (ri_DisplayName r) false [].

Definition service_ListCloudProviderRegions (id : string) : prog X (result ServiceError (list CloudRegion)) :=
  r ← GetCloudProvidersWithRegions;
  mret (match r with
        | Err err => Err (NewWithCause ErrorGeneral (Some (EService err)) "failed to retrieve cloud provider regions" [])
        | Ok cloudProviders =>
            Ok (match head (filter (fun c => cpr_ID c = id) cloudProviders) with
                | Some c => region_of <$> cpr_RegionList c
                | None => []
                end)
        end).

(** ** The caches *)

Definition on_sv {A} (m : prog X A) : prog (cloud_services X) A := fun s =>
  let '(x, a) := m (sv_ext s) in (mkCloudServices x (sv_cache s) (sv_answers s), a).

Definition set_sv_cache (c : cache (list CloudProviderWithRegions)) : prog (cloud_services X) unit := fun s =>
  (mkCloudServices (sv_ext s) c (sv_answers s), tt).
Definition set_sv_answers (c : cache listing) : prog (cloud_services X) unit := fun s =>
  (mkCloudServices (sv_ext s) (sv_cache s) c, tt).

Definition get_cache : prog (cloud_services X) (cache (list CloudProviderWithRegions)) := fun s => (s, sv_cache s).
Definition get_answers : prog (cloud_services X) (cache listing) := fun s => (s, sv_answers s).

Definition GetCachedCloudProvidersWithRegions : prog (cloud_services X) (result ServiceError (list CloudProviderWithRegions)) :=
  now ← on_sv clock_Now;
  c ← get_cache;
  match cache_Get now keyCloudProvidersWithRegions c with
  | Some v => mret (Ok v)
  | None =>
      v ←? on_sv GetCloudProvidersWithRegions;
      now ← on_sv clock_Now;
      c ← get_cache;
      _ ← set_sv_cache (cache_Set now keyCloudProvidersWithRegions v c);
      mret (Ok v)
  end.

(** ** The endpoints *)

Section handlers.
Context (supportedProviders : list Provider).

(** The region as the configuration knows it; a missing provider or region is the
    zero value. *)
Definition configured_region (id region : string) : Region :=
  default (mkRegion "" false ∅)
    (Region_GetByName (pv_Regions (default zero_Provider (Provider_GetByName supportedProviders id))) region).

Definition supported (id filter : string) (r : CloudRegion) : bool :=
  bool_decide (filter = "") || IsInstanceTypeSupported (configured_region id (crg_ID r)) filter.

Definition enable (id : string) (r : CloudRegion) : CloudRegion :=
  let types := rg_SupportedInstanceTypes (configured_region id (crg_ID r)) in
  mkCloudRegion (crg_ID r) (crg_CloudProvider r) (crg_DisplayName r) (0 <? Z.of_nat (size types)) (AsSlice types).

Definition region_list (id filter : string) (regions : list CloudRegion) : listing :=
  let items := (fun r => PresentCloudRegion (enable id r)) <$> base.filter (fun r => supported id filter r = true) regions in
  let n := int32 (Z.of_nat (length items)) in
  CloudRegionList 1 n n items.

Definition provider_list (providers : list CloudProvider) : listing :=
  let n := int32 (Z.of_nat (length providers)) in
  CloudProviderList 1 n n ((fun c => PresentCloudProvider (mkCloudProvider (clp_ID c) (clp_Name c) (clp_DisplayName c)
    (bool_decide (is_Some (Provider_GetByName supportedProviders (clp_ID c)))))) <$> providers).

(** The key of an answer. *)
Definition cache_id (id instanceTypeFilter : string) : string :=
  if bool_decide (instanceTypeFilter <> "") then id +:+ "-" +:+ instanceTypeFilter else id.

(** An answer that is cached under the key, or computed and cached. *)
Definition cached_answer (key : string) (compute : prog X (result ServiceError listing)) : prog (cloud_services X) (result ServiceError listing) :=
  now ← on_sv clock_Now;
  c ← get_answers;
  match cache_Get now key c with
  | Some v => mret (Ok v)
  | None =>
      v ←? on_sv compute;
      now ← on_sv clock_Now;
      c ← get_answers;
      _ ← set_sv_answers (cache_Set now key v c);
      mret (Ok v)
  end.

Definition fresh_regions (id filter : string) : prog X (result ServiceError listing) :=
  l ←? service_ListCloudProviderRegions id; mret (Ok (region_list id filter l)).

Definition fresh_providers : prog X (result ServiceError listing) :=
  l ←? service_ListCloudProviders; mret (Ok (provider_list l)).

(** The variables of the path and of the query: [id] and [instance_type]. *)
Definition ListCloudProviderRegions (id instanceTypeFilter : string) : prog (cloud_services X) (response listing) :=
  HandleGet (mkHandlerConfig None [ reading (fun _ => ValidateLength id "id" MinRequiredFieldLength None) ]
    (cached_answer (cache_id id instanceTypeFilter) (fresh_regions id instanceTypeFilter))).

Definition ListCloudProviders : prog (cloud_services X) (response listing) :=
  HandleGet (mkHandlerConfig None [] (cached_answer cloudProvidersCacheKey fresh_providers)).

(** ** Answers and caches *)

(** The requests of the two endpoints, the keys of their answers, and the answers
    without a cache. *)
Inductive request := Regions (id filter : string) | Providers.

Definition key_of (q : request) : string :=
  match q with Regions id f => cache_id id f | Providers => cloudProvidersCacheKey end.

Definition fresh (q : request) : prog X (result ServiceError listing) :=
  match q with Regions id f => fresh_regions id f | Providers => fresh_providers end.

Definition serve (q : request) : prog (cloud_services X) (result ServiceError listing) := cached_answer (key_of q) (fresh q).

Definition handle (q : request) : prog (cloud_services X) (response listing) :=
  match q with Regions id f => ListCloudProviderRegions id f | Providers => ListCloudProviders end.

Lemma handle_serve q s v : (handle q s).2 = RJson StatusOK v -> (handle q s).1 = (serve q s).1 /\ (serve q s).2 = Ok v.
Proof.
  intros Hr. assert (exists vs, handle q = run_action (mkHandlerConfig None vs (serve q)) StatusOK /\ forall s s', validated vs s s' -> s' = s) as (vs & Heq & Hvs).
  { destruct q; (eexists; split; [reflexivity|]); intros s1 s2 Hv; inversion Hv as [|? ? ? ? _ Hv']; subst; [|done].
    by inversion Hv'. }
  rewrite Heq in *. apply run_action_ok in Hr as (s1 & Hv & Ha & ->). apply Hvs in Hv. by subst s1.
Qed.

(** The run of [serve], by hit and miss. *)
Definition now_of (s : cloud_services X) : Z := (clock_Now (sv_ext s)).2.
Definition tick (s : cloud_services X) : cloud_services X := (on_sv clock_Now s).1.

Lemma serve_hit q s v :
  cache_Get (now_of s) (key_of q) (sv_answers s) = Some v -> serve q s = (tick s, Ok v).
Proof.
  unfold serve, cached_answer, tick, now_of, on_sv, mbind, prog_bind, get_answers. destruct (clock_Now (sv_ext s)) as [x n].
  simpl. by intros ->.
Qed.

Lemma serve_miss q s :
  cache_Get (now_of s) (key_of q) (sv_answers s) = None ->
  let x := sv_ext (tick s) in
  match (fresh q x).2 with
  | Ok v => (serve q s).2 = Ok v /\
      sv_answers (serve q s).1 = <[key_of q := (v, (clock_Now (fresh q x).1).2 + DefaultExpiration)]> (sv_answers s)
  | Err e => (serve q s).2 = Err e /\ sv_answers (serve q s).1 = sv_answers s
  end.
Proof.
  unfold serve, cached_answer, tick, now_of, on_sv, try_bind, mbind, prog_bind, get_answers, set_sv_answers, mret, prog_ret.
  destruct (clock_Now (sv_ext s)) as [x n]. simpl. intros ->. simpl. destruct (fresh q x) as [x1 [v|e]]; simpl; [|done].
  by destruct (clock_Now x1).
Qed.

(** Every cached answer is the answer to a request of [Q], computed at most five
    minutes before it expires. *)
Definition genuine (Q : request -> Prop) (s : cloud_services X) : Prop :=
  forall k v e, sv_answers s !! k = Some (v, e) ->
    exists q x, Q q /\ key_of q = k /\ (fresh q x).2 = Ok v /\ e = (clock_Now (fresh q x).1).2 + DefaultExpiration.

Lemma genuine_serve (Q : request -> Prop) q s : Q q -> genuine Q s -> genuine Q (serve q s).1.
Proof.
  intros Hq Hs. destruct (cache_Get (now_of s) (key_of q) (sv_answers s)) as [v|] eqn:E.
  - rewrite (serve_hit q s v E). unfold tick, on_sv. by destruct (clock_Now (sv_ext s)).
  - pose proof (serve_miss q s E) as Hm. cbv zeta in Hm. destruct ((fresh q _).2) as [v|e] eqn:Ef; destruct Hm as [_ Hm].
    + intros k u e. rewrite Hm. intros [[<- [= <- <-]]|[_ Hk]]%lookup_insert_Some; [|by apply Hs]. eauto 10.
    + intros k u e'. rewrite Hm. apply Hs.
Qed.

(** A sequence of requests. *)
Fixpoint serve_all (qs : list request) : prog (cloud_services X) unit :=
  match qs with [] => mret tt | q :: qs => _ ← handle q; serve_all qs end.

Lemma handle_state q s : (handle q s).1 = s \/ (handle q s).1 = (serve q s).1.
Proof.
  destruct q as [id f|]; simpl.
  - unfold ListCloudProviderRegions, HandleGet, run_action. simpl. unfold reading, mbind, prog_bind, mret, prog_ret.
    destruct (ValidateLength id "id" MinRequiredFieldLength None); [by left|right].
    unfold serve. simpl. by destruct (cached_answer _ _ s) as [s' [v|e]].
  - right. unfold ListCloudProviders, HandleGet, run_action, serve. simpl. unfold mbind, prog_bind, mret, prog_ret.
    by destruct (cached_answer _ _ s) as [s' [v|e]].
Qed.

Lemma genuine_serve_all (Q : request -> Prop) qs s : Forall Q qs -> genuine Q s -> genuine Q (serve_all qs s).1.
Proof.
  intros Hq. revert s. induction Hq as [|q qs Hq _ IH]; intros s Hs; [done|]. simpl. rewrite prog_bind_run. apply IH.
  destruct (handle_state q s) as [-> | ->]; [done|by apply genuine_serve].
Qed.

(** As long as no two of the requests made share the key of their answers, an
    answer of the endpoints is the answer to that very request, computed from the
    database and the providers at most five minutes ago. *)
Theorem answers_are_own qs q s0 v :
  sv_answers s0 = ∅ -> (forall q1 q2, q1 ∈ q :: qs -> q2 ∈ q :: qs -> key_of q1 = key_of q2 -> q1 = q2) ->
  let s := (serve_all qs s0).1 in
  (handle q s).2 = RJson StatusOK v ->
  exists x, (fresh q x).2 = Ok v /\ (x = sv_ext (tick s) \/ now_of s <= (clock_Now (fresh q x).1).2 + DefaultExpiration).
Proof.
  intros H0 Hinj s Hr. apply handle_serve in Hr as [_ Hr].
  assert (genuine (fun q' => q' ∈ qs) s) as Hg.
  { apply genuine_serve_all; [by apply Forall_forall|]. intros k u e. by rewrite H0, lookup_empty. }
  destruct (cache_Get (now_of s) (key_of q) (sv_answers s)) as [u|] eqn:E.
  - rewrite (serve_hit q s u E) in Hr. injection Hr as ->. unfold cache_Get in E.
    destruct (sv_answers s !! key_of q) as [[u e]|] eqn:Ek; [|done]. destruct (Z.ltb_spec e (now_of s)) as [|Hle]; [done|].
    injection E as ->. destruct (Hg _ _ _ Ek) as (q' & x & Hq' & Hk & Hf & ->).
    assert (q' = q) as -> by (apply Hinj; [by right|by left|done]). eauto.
  - pose proof (serve_miss q s E) as Hm. cbv zeta in Hm. destruct ((fresh q _).2) as [u|e] eqn:Ef; destruct Hm as [Hm _]; [|congruence].
    exists (sv_ext (tick s)). split; [congruence|by left].
Qed.

(** Requests with the same key get each other's answers: the regions of the
    provider [id-type] are answered for the regions of [id] with the instance type
    [type], and the regions of a provider called cloudProviderList are answered for
    the list of the cloud providers, until the answer expires. *)
Theorem answers_collide q1 q2 s v :
  key_of q1 = key_of q2 -> (serve q1 s).2 = Ok v -> cache_Get (now_of s) (key_of q1) (sv_answers s) = None ->
  let s1 := (serve q1 s).1 in
  now_of s1 <= (clock_Now (fresh q1 (sv_ext (tick s))).1).2 + DefaultExpiration ->
  (serve q2 s1).2 = Ok v.
Proof.
  intros Hk Hv Hm s1 Hn. pose proof (serve_miss q1 s Hm) as Hs. cbv zeta in Hs.
  destruct ((fresh q1 _).2) as [u|e]; destruct Hs as [Hu Hc]; [|congruence]. rewrite Hu in Hv. injection Hv as ->.
  rewrite (serve_hit q2 s1 v); [done|]. unfold s1 at 2. rewrite Hc, <- Hk. unfold cache_Get. rewrite lookup_insert_eq.
  by rewrite (proj2 (Z.ltb_ge _ _) Hn).
Qed.
End handlers.
End services.

Lemma colliding_keys id f : f <> "" -> key_of (Regions (id +:+ "-" +:+ f) "") = key_of (Regions id f).
Proof. intros Hf. simpl. unfold cache_id. by rewrite (bool_decide_eq_true_2 _ Hf). Qed.

(** ** Runs on the concrete cloud *)

Definition table_of (rows : list Cluster) : ClusterQueries cloud := {| all_clusters := mret (Ok rows) |}.

Definition standalone_in (region : string) (multiAZ : bool) (id : string) : Cluster :=
  set_cl_ProviderType ClusterProviderStandalone (set_cl_MultiAZ multiAZ (set_cl_Region region (ready_cluster id id))).

Definition sample_rows : list Cluster := [standalone_in "us-east-1" true "c1"; standalone_in "eu-west-1" true "c2"].

Definition sample_providers : list Provider :=
  [mkProvider "aws" true [mkRegion "us-east-1" true (list_to_map [("standard", mkInstanceTypeConfig None)] : gmap string InstanceTypeConfig); mkRegion "eu-west-1" false ∅]].

Definition sample_services : cloud_services cloud := mkCloudServices (mkCloud 1000 [] ∅ ∅ ∅ ∅) ∅ ∅.

Definition sample_handle (q : request) : prog (cloud_services cloud) (response listing) :=
  @handle cloud _ (table_of sample_rows) _ true sample_providers q.

Definition standard_regions : listing :=
  CloudRegionList 1 1 1 [mkApiCloudRegion "us-east-1" "CloudRegion" "US East (N. Virginia)" true ["standard"]].

Lemma answers_are_own_witness :
  let qs := [Providers; Regions "aws" "standard"] in
  let s := (@serve_all cloud _ (table_of sample_rows) _ true sample_providers qs sample_services).1 in
  (sample_handle (Regions "aws" "standard") s).2 = RJson StatusOK standard_regions /\
  exists x, (@fresh cloud _ (table_of sample_rows) true sample_providers (Regions "aws" "standard") x).2 = Ok standard_regions.
Proof.
  intros qs s.
  assert (forall q1 q2, q1 ∈ Regions "aws" "standard" :: qs -> q2 ∈ Regions "aws" "standard" :: qs -> key_of q1 = key_of q2 -> q1 = q2) as Hinj.
  { intros q1 q2 Hq1 Hq2. repeat (apply elem_of_cons in Hq1 as [->|Hq1]; [|try by apply not_elem_of_nil in Hq1]);
    repeat (apply elem_of_cons in Hq2 as [->|Hq2]; [|try by apply not_elem_of_nil in Hq2]); vm_compute; congruence. }
  assert ((sample_handle (Regions "aws" "standard") s).2 = RJson StatusOK standard_regions) as Hr by (vm_compute; reflexivity).
  split; [exact Hr|].
  destruct (@answers_are_own cloud _ (table_of sample_rows) _ true sample_providers qs
    (Regions "aws" "standard") sample_services standard_regions eq_refl Hinj Hr) as (x & Hx & _).
  exists x. exact Hx.
Defined.

(** The regions of a provider that does not exist are answered for the list of the
    cloud providers. *)
Lemma answers_collide_witness :
  let s1 := (@serve cloud _ (table_of sample_rows) _ true sample_providers (Regions "cloudProviderList" "") sample_services).1 in
  (@serve cloud _ (table_of sample_rows) _ true sample_providers Providers s1).2 = Ok (CloudRegionList 1 0 0 []).
Proof.
  exact (@answers_collide cloud _ (table_of sample_rows) _ true sample_providers (Regions "cloudProviderList" "") Providers
    sample_services (CloudRegionList 1 0 0 []) ltac:(reflexivity) ltac:(vm_compute; reflexivity) ltac:(vm_compute; reflexivity)
    ltac:(apply (bool_decide_unpack _); vm_compute; exact I)).
Defined.

(** A region with clusters in one and in several zones is listed twice. *)
Example region_listed_twice :
  (@service_ListCloudProviderRegions cloud _ (table_of [standalone_in "us-east-1" true "c1"; standalone_in "us-east-1" false "c2"])
     true "aws" (sv_ext sample_services)).2 =
  Ok [mkCloudRegion "us-east-1" "aws" "US East (N. Virginia)" false []; mkCloudRegion "us-east-1" "aws" "US East (N. Virginia)" false []].
Proof. vm_compute. reflexivity. Qed.
