(* ===== verification/ServiceAccounts.v ===== *)
(** * Service accounts of the data plane

    pkg/services/sso/redhatsso_service.go: the service account of a cluster's
    fleetshard; services/fleetshard_operator_addon.go: the add-on that is given the
    account.

    [AccountsApi] is the generated client of the service accounts of
    sso.redhat.com; like every client of that generator it reports a status of 300
    or more as an error ([AccountsLaws]).  The cluster manager's
    calls of the add-on are commented out in the source; the add-on is modelled as
    the component it is. *)

From S2P Require Import Prelude GoString GoFmt ServiceErrors CentralRequest Versions ClusterTypes ProviderTypes World Effects ClusterRows.
From S2P Require Import Config ClusterService Store MemPlatform.
Local Open Scope string_scope.
Local Open Scope Z_scope.

(** ** Service accounts *)

(** The answer of the API; every field may be missing. *)
Record ServiceAccountData := mkServiceAccountData {
  sad_Id : option string; sad_ClientId : option string; sad_Secret : option string; sad_Name : option string;
  sad_CreatedBy : option string; sad_Description : option string; sad_CreatedAt : option Z
}.

(** Times in nanoseconds. *)
Record ServiceAccount := mkServiceAccount {
  sa_ID : string; sa_ClientID : string; sa_ClientSecret : string; sa_Name : string; sa_CreatedBy : string;
  sa_Description : string; sa_CreatedAt : Z
}.

Definition SafeString (p : option string) : string := default "" p.
Definition SafeInt64 (p : option Z) : Z := default 0 p.

Definition convertServiceAccountDataToAPIServiceAccount (d : ServiceAccountData) : ServiceAccount :=
  mkServiceAccount (SafeString (sad_Id d)) (SafeString (sad_ClientId d)) (SafeString (sad_Secret d)) (SafeString (sad_Name d))
    (SafeString (sad_CreatedBy d)) (SafeString (sad_Description d)) (wrap64 (SafeInt64 (sad_CreatedAt d) * 1000000)).

Class AccountsApi (X : Type) := {
  CreateServiceAccount (name description : string) : prog X (result error ServiceAccountData);
  (** the status of the response and the error *)
  GetServiceAccount (id : string) : prog X (Z * option error);
  DeleteServiceAccount (id : string) : prog X (option error)
}.

Section accounts.
Context `{AccountsApi X}.

Definition RegisterAcsFleetshardOperatorServiceAccount (agentClusterID : string) : prog X (result ServiceError ServiceAccount) :=
  r ← CreateServiceAccount agentClusterID (Sprintf "service account for agent on cluster %s" [VStr agentClusterID]);
  mret (match r with
        | Err err => Err (NewWithCause ErrorGeneral (Some err) "failed to create agent service account" [])
        | Ok d => Ok (convertServiceAccountDataToAPIServiceAccount d)
        end).

Definition DeRegisterAcsFleetshardOperatorServiceAccount (agentClusterID : string) : prog X (option ServiceError) :=
  let failed err := Some (NewWithCause ErrorFailedToDeleteServiceAccount (Some err) "Failed to delete service account: %s" [VStr agentClusterID]) in
  r ← GetServiceAccount agentClusterID;
  match r.2 with
  | Some err => mret (failed err)
  | None =>
      if r.1 =? StatusNotFound then mret None
      else
        d ← DeleteServiceAccount agentClusterID;
        mret (match d with Some err => failed err | None => None end)
  end.
End accounts.

(** ** The add-on *)

Record AddonConfig := mkAddonConfig {
  ad_FleetshardAddonID : string; ad_ValidIssuerURI : string; ad_PublicHostURL : string; ad_PollInterval : string; ad_ResyncInterval : string
}.

Definition fleetshardOperatorParamSSOBaseURL : string := "sso-auth-server-url".
Definition fleetshardOperatorParamServiceAccountID : string := "sso-client-id".
Definition fleetshardOperatorParamServiceAccountSecret : string := "sso-secret".
Definition fleetshardOperatorParamClusterID : string := "cluster-id".
Definition fleetshardOperatorParamControlPlaneBaseURL : string := "control-plane-url".
Definition fleetshardOperatorParamPollinterval : string := "poll-interval".
Definition fleetshardOperatorParamResyncInterval : string := "resync-interval".

Definition buildAddonParams (c : AddonConfig) (acc : ServiceAccount) (clusterID : string) : list AddonParameter :=
  [ mkAddonParameter fleetshardOperatorParamSSOBaseURL (ad_ValidIssuerURI c);
    mkAddonParameter fleetshardOperatorParamServiceAccountID (sa_ClientID acc);
    mkAddonParameter fleetshardOperatorParamServiceAccountSecret (sa_ClientSecret acc);
    mkAddonParameter fleetshardOperatorParamControlPlaneBaseURL (ad_PublicHostURL c);
    mkAddonParameter fleetshardOperatorParamClusterID clusterID;
    mkAddonParameter fleetshardOperatorParamPollinterval (ad_PollInterval c);
    mkAddonParameter fleetshardOperatorParamResyncInterval (ad_ResyncInterval c) ].

(** The state is the world and, beside it, the identity server. *)
Section addon.
Context `{Platform} `{AccountsApi X} (conf : AddonConfig).

Definition on_world {A} (m : prog world A) : prog (world * X) A := fun s =>
  let '(w, a) := m s.1 in ((w, s.2), a).
Definition on_accounts {A} (m : prog X A) : prog (world * X) A := fun s =>
  let '(x, a) := m s.2 in ((s.1, x), a).

Definition getAddonParams (c : Cluster) : prog (world * X) (result ServiceError (list AddonParameter)) :=
  r ← on_accounts (RegisterAcsFleetshardOperatorServiceAccount (cl_ClusterID c));
  mret (match r with
        | Err pErr => Err (GeneralError "failed to create service account for cluster %s due to error: %v"
            [VStr (cl_ClusterID c); VStr (service_Error pErr)])
        | Ok acc => Ok (buildAddonParams conf acc (cl_ClusterID c))
        end).

(** The common part of [Provision] and [ReconcileParameters]. *)
Definition install_addon (msg : string) (c : Cluster) : prog (world * X) (result ServiceError bool) :=
  params ←? getAddonParams c;
  match GetProvider (cl_ProviderType c) with
  | Err err => mret (no_provider err)
  | Ok p =>
      r ← on_world (on_ext (provider_InstallFleetshard p (buildClusterSpec c) params));
      mret (match r with
            | Err err => Err (NewWithCause ErrorGeneral (Some err) msg [VStr (ad_FleetshardAddonID conf); VStr (cl_ClusterID c)])
            | Ok ready => Ok ready
            end)
  end.

Definition Provision (c : Cluster) : prog (world * X) (result ServiceError bool) :=
  install_addon "failed to install addon %s for cluster %s" c.

Definition ReconcileParameters (c : Cluster) : prog (world * X) (option ServiceError) :=
  r ← install_addon "failed to update parameters for addon %s for cluster %s" c;
  mret (match r with Err e => Some e | Ok _ => None end).

Definition RemoveServiceAccount (c : Cluster) : prog (world * X) (option ServiceError) :=
  on_accounts (DeRegisterAcsFleetshardOperatorServiceAccount (cl_ClusterID c)).
End addon.

(** *** What the service accounts become *)

(** The accounts that exist, by the identifier the server gives them.  A status of
    300 or more, that of an account that does not exist too, is an error of the
    client. *)
Class AccountsLaws (X : Type) `{AccountsApi X} := {
  accounts : X -> gmap string ServiceAccountData;
  create_added n d x a : (CreateServiceAccount n d x).2 = Ok a ->
    exists id, accounts x !! id = None /\ sad_Id a = Some id /\ sad_Name a = Some n /\
      accounts (CreateServiceAccount n d x).1 = <[id := a]> (accounts x);
  create_failed n d x e : (CreateServiceAccount n d x).2 = Err e -> accounts (CreateServiceAccount n d x).1 = accounts x;
  get_accounts id x : accounts (GetServiceAccount id x).1 = accounts x;
  get_missing id x : accounts x !! id = None -> exists e, (GetServiceAccount id x).2 = (StatusNotFound, Some e)
}.

Definition accounts_named (n : string) (m : gmap string ServiceAccountData) : nat :=
  size (filter (fun e : string * ServiceAccountData => sad_Name e.2 = Some n) m).

Section leak.
Context `{Platform} `{AccountsLaws X} (conf : AddonConfig).

Lemma on_accounts_run {A} (m : prog X A) (s : world * X) :
  (on_accounts m s).1.2 = (m s.2).1 /\ (on_accounts m s).2 = (m s.2).2.
Proof. unfold on_accounts. by destruct (m s.2). Qed.

Lemma addon_world_run {A} (m : prog world A) (s : world * X) : (on_world m s).1.2 = s.2.
Proof. unfold on_world. by destruct (m s.1). Qed.

Abbreviation named c s := (accounts_named (cl_ClusterID c) (accounts s.2)).

Lemma register_accounts n (x : X) a :
  (RegisterAcsFleetshardOperatorServiceAccount n x).2 = Ok a ->
  accounts_named n (accounts (RegisterAcsFleetshardOperatorServiceAccount n x).1) = S (accounts_named n (accounts x)).
Proof.
  unfold RegisterAcsFleetshardOperatorServiceAccount. rewrite prog_bind_run. simpl.
  destruct (CreateServiceAccount _ _ x) as [x' [d|]] eqn:E; [|done]. intros _. simpl.
  pose proof (create_added n (Sprintf "service account for agent on cluster %s" [VStr n]) x d) as Hc.
  rewrite E in Hc. destruct (Hc eq_refl) as (id & Hid & _ & Hn & Hacc). simpl in Hacc. rewrite Hacc.
  unfold accounts_named. rewrite map_filter_insert_True by done. rewrite map_size_insert_None; [done|].
  apply map_lookup_filter_None. by left.
Qed.

Lemma install_accounts_grow msg c (s : world * X) ready :
  (install_addon conf msg c s).2 = Ok ready -> named c (install_addon conf msg c s).1 = S (named c s).
Proof.
  unfold install_addon, getAddonParams, try_bind. rewrite !prog_bind_run.
  destruct (on_accounts_run (RegisterAcsFleetshardOperatorServiceAccount (cl_ClusterID c)) s) as [Hx Hr].
  destruct (on_accounts _ s) as [s1 r1]. simpl in Hx, Hr |- *.
  destruct r1 as [a|]; simpl; [|done]. symmetry in Hr. apply register_accounts in Hr. rewrite <- Hx in Hr.
  destruct (GetProvider (cl_ProviderType c)) as [p|]; [|done]. rewrite prog_bind_run.
  set (m := on_ext _). pose proof (addon_world_run m s1) as Hx2.
  destruct (on_world m s1) as [s2 [b|]]; simpl in Hx2 |- *; [|done]. by rewrite Hx2.
Qed.

(** A cluster's add-on that is reconciled [n] times without an error. *)
Fixpoint reconciled (n : nat) (c : Cluster) (s s' : world * X) : Prop :=
  match n with
  | O => s' = s
  | S k => exists s1, ReconcileParameters conf c s = (s1, None) /\ reconciled k c s1 s'
  end.

Lemma reconciled_accounts n c : forall s s', reconciled n c s s' -> named c s' = (n + named c s)%nat.
Proof.
  induction n as [|n IH]; intros s s'; simpl; [by intros ->|].
  intros (s1 & Hr & Hn). rewrite (IH _ _ Hn). unfold ReconcileParameters in Hr. rewrite prog_bind_run in Hr.
  destruct (install_addon _ _ c s) as [s2 [b|]] eqn:Hi; simpl in Hr; [|done]. inversion Hr; subst s2.
  match type of Hi with install_addon _ ?m _ _ = _ => pose proof (install_accounts_grow m c s b) as Hg end.
  rewrite Hi in Hg. simpl in Hg. rewrite (Hg eq_refl). lia.
Qed.

(** Every reconciliation of a cluster's add-on parameters registers one more
    service account named after the cluster, and removing the cluster's account
    asks for the account whose identifier is the cluster's: as long as no account
    has that identifier the removal fails, with the error of a deletion, and
    leaves every account in place.  The branch that should let a missing account
    pass is never taken. *)
Theorem accounts_leak n c (s s' : world * X) :
  reconciled n c s s' -> accounts s'.2 !! cl_ClusterID c = None ->
  named c s' = (n + named c s)%nat /\
  exists e, (RemoveServiceAccount c s').2 = Some e /\ Code e = ErrorFailedToDeleteServiceAccount /\
    accounts (RemoveServiceAccount c s').1.2 = accounts s'.2.
Proof.
  intros Hn Hid. split; [by apply reconciled_accounts|]. unfold RemoveServiceAccount.
  destruct (on_accounts_run (DeRegisterAcsFleetshardOperatorServiceAccount (cl_ClusterID c)) s') as [-> ->].
  unfold DeRegisterAcsFleetshardOperatorServiceAccount. rewrite prog_bind_run.
  destruct (get_missing _ _ Hid) as [e He]. pose proof (get_accounts (cl_ClusterID c) s'.2) as Hg.
  destruct (GetServiceAccount _ _) as [x r]. simpl in *. subst r. simpl. eauto.
Qed.
End leak.

(** *** A server *)

(** Accounts get the identifiers "sa-", "sa-1", "sa-11", ... *)
Record sso_server := mkSso { sso_next : string; sso_accounts : gmap string ServiceAccountData }.

#[export] Instance sso_api : AccountsApi sso_server := {|
  CreateServiceAccount n d := fun x =>
    match sso_accounts x !! sso_next x with
    | Some _ => (x, Err (EPlain "409 Conflict"))
    | None =>
        let a := mkServiceAccountData (Some (sso_next x)) (Some (sso_next x +:+ "-client")) (Some "secret") (Some n) None (Some d) None in
        (mkSso (sso_next x +:+ "1") (<[sso_next x := a]> (sso_accounts x)), Ok a)
    end;
  GetServiceAccount id := fun x =>
    (x, match sso_accounts x !! id with
        | Some _ => (200, None)
        | None => (StatusNotFound, Some (EPlain "404 Not Found"))
        end);
  DeleteServiceAccount id := fun x => (mkSso (sso_next x) (delete id (sso_accounts x)), None)
|}.

#[export] Instance sso_laws : AccountsLaws sso_server.
Proof.
  refine {| accounts := sso_accounts |}.
  - intros n d x a. simpl. destruct (sso_accounts x !! sso_next x) eqn:E; [done|]. intros [= <-]. by exists (sso_next x).
  - intros n d x e. simpl. by destruct (sso_accounts x !! sso_next x).
  - done.
  - intros id x Hn. simpl. rewrite Hn. eauto.
Defined.

Lemma pair_of_answer {A B} (p : A * B) b : p.2 = b -> p = (p.1, b).
Proof. by destruct p; intros <-. Qed.

Lemma accounts_leak_witness :
  let c := ready_cluster "k" "c1" in
  let conf := mkAddonConfig "acs-fleetshard" "https://sso" "https://fm" "15s" "60s" in
  let s := (mem_world [] [c], mkSso "sa-" ∅) in
  exists s', reconciled conf 2 c s s' /\ accounts_named "c1" (accounts s'.2) = 2%nat.
Proof.
  intros c conf s.
  exists (Nat.iter 2 (fun s => (ReconcileParameters conf c s).1) s).
  assert (Hr : reconciled conf 2 c s (Nat.iter 2 (fun s => (ReconcileParameters conf c s).1) s)).
  { simpl. do 2 (eexists; split; [apply pair_of_answer; vm_compute; reflexivity|]). reflexivity. }
  split; [exact Hr|].
  assert (Hid : accounts (Nat.iter 2 (fun s => (ReconcileParameters conf c s).1) s).2 !! cl_ClusterID c = None) by (vm_compute; reflexivity).
  exact (proj1 (accounts_leak conf 2 c s _ Hr Hid)).
Defined.
