(* ===== verification/CentralService.v ===== *)
(** * The central service (internal/dinosaur/pkg/services/dinosaur.go)

    The operations on central requests that the HTTP handlers and the workers
    call: registration under the capacity of the region and the quota, the
    transitions of the lifecycle, queries, deprovisioning, deletion and the DNS
    records.  Logging is left out; [mu] serialises [RegisterDinosaurJob], whose
    runs here are one step. *)

From S2P Require Import Prelude GoString GoFmt ServiceErrors QueryParser CentralRequest Store Versions.
From S2P Require Import ClusterTypes World Config Quota Namespace ClusterService.
Local Open Scope string_scope.
Local Open Scope Z_scope.

Definition dinosaurDeletionStatuses : list string :=
  [CentralRequestStatusDeleting; CentralRequestStatusDeprovision].

Definition dinosaurManagedCRStatuses : list string :=
  [ CentralRequestStatusProvisioning; CentralRequestStatusDeprovision;
    CentralRequestStatusReady; CentralRequestStatusFailed ].

Definition DinosaurRoutesActionCreate : string := "CREATE".
Definition DinosaurRoutesActionDelete : string := "DELETE".

(** ** Requests

    What the services read from the request context (pkg/auth): the claims of
    the token and two flags set by the middleware. *)

Record Claims := mkClaims {
  cl_username : string; cl_orgID : string; cl_isOrgAdmin : bool;
  cl_accountID : string; cl_subject : string; cl_userID : option string
}.

Record Ctx := mkCtx {
  ctx_claims : result error Claims;
  ctx_isAdmin : bool;
  ctx_filterByOrganisation : bool
}.

(** The configuration and the non-modelled texts the service is built with. *)
Record ServiceConfig := mkServiceConfig {
  sc_central : CentralConfig;
  sc_dataplane : DataplaneClusterConfig;
  sc_quota_list : QuotaManagementListConfig;
  (** the text of [validation.RegexError] *)
  sc_regex_error : string
}.

Record PagingMeta := mkPagingMeta { pm_Page : Z; pm_Size : Z; pm_Total : Z }.

(** ** DNS records *)

Definition buildResourceRecordChange (recordName clusterIngress action : string) : ResourceRecordChange :=
  mkRecordChange action recordName "CNAME" 300 clusterIngress.

Definition buildDinosaurClusterCNAMESRecordBatch (routes : list DataPlaneCentralRoute) (action : string)
    : list ResourceRecordChange :=
  (fun r => buildResourceRecordChange (route_Domain r) (route_Router r) action) <$> routes.

Section service.
Context `{Platform} (conf : ServiceConfig).

Definition failing (err : error) (msg : string) : option ServiceError :=
  Some (NewWithCause ErrorGeneral (Some err) msg []).

(** ** Registration *)

Definition HasAvailableCapacityInRegion (r : CentralRequest) : prog world (result ServiceError bool) :=
  let regionCapacity := GetCapacityForRegion (dc_ClusterConfig (sc_dataplane conf)) (cr_Region r) in
  if regionCapacity <=? 0 then mret (Ok false)
  else
    rc ← on_centrals (db_count (fun x => bool_decide (cr_Region x = cr_Region r)));
    match rc with
    | Err err => mret (general err "failed to count central request")
    | Ok count => mret (Ok (count <? regionCapacity))
    end.

Definition DetectInstanceType (r : CentralRequest) : prog world string :=
  match GetQuotaService (sc_quota_list conf) (cc_QuotaType (sc_central conf)) with
  | Err _ => mret EVAL
  | Ok qs =>
      rh ← CheckIfQuotaIsDefinedForInstanceType qs r STANDARD;
      match rh with
      | Err _ => mret EVAL
      | Ok true => mret STANDARD
      | Ok false => mret EVAL
      end
  end.

(** The live eval instances of the same owner and organisation. *)
Definition same_eval (r x : CentralRequest) : bool :=
  bool_decide (cr_InstanceType x = EVAL) && bool_decide (cr_Owner x = cr_Owner r) &&
  bool_decide (cr_OrganisationID x = cr_OrganisationID r).

Definition reserveQuota (r : CentralRequest) : prog world (result ServiceError string) :=
  let reserve : prog world (result ServiceError string) :=
    match GetQuotaService (sc_quota_list conf) (cc_QuotaType (sc_central conf)) with
    | Err factoryErr => mret (general (EService factoryErr) "unable to check quota")
    | Ok qs => ReserveQuota qs r (cr_InstanceType r)
    end in
  if bool_decide (cr_InstanceType r = EVAL) then
    if negb (cc_AllowEvaluatorInstance (sc_central conf)) then
      mret (Err (NewWithCause ErrorForbidden (Some ENilService) "central eval instances are not allowed" []))
    else
      rc ← on_centrals (db_count (same_eval r));
      match rc with
      | Err err => mret (general err "failed to count central eval instances")
      | Ok count =>
          if 0 <? count then
            mret (Err (TooManyDinosaurInstancesReached
              "only one eval instance is allowed; increase your account quota" []))
          else reserve
      end
  else reserve.

(** The request as it is stored: the fields the handler left empty are filled.  The
    struct is the caller's: it is returned as the code leaves it. *)
Definition RegisterDinosaurJob (r : CentralRequest) : prog world (CentralRequest * option ServiceError) :=
  id ← fresh_id;
  let r := set_ID id r in
  rcap ← HasAvailableCapacityInRegion r;
  match rcap with
  | Err err => mret (r, failing (EService err) "failed to create central request")
  | Ok false =>
      mret (r, Some (TooManyDinosaurInstancesReached (Sprintf "Cluster capacity(%d) exhausted in %s region"
        [VInt (GetCapacityForRegion (dc_ClusterConfig (sc_dataplane conf)) (cr_Region r));
         VStr (cr_Region r)]) []))
  | Ok true =>
      instanceType ← DetectInstanceType r;
      let r := set_InstanceType instanceType r in
      rc ← FindCluster r;
      match rc with
      | Err _ | Ok None =>
          mret (r, Some (TooManyDinosaurInstancesReached (Sprintf
            "Region %s cannot accept instance type: %s at this moment"
            [VStr (cr_Region r); VStr (cr_InstanceType r)]) []))
      | Ok (Some cluster) =>
          let r := set_ClusterID (cl_ClusterID cluster) r in
          rq ← reserveQuota r;
          match rq with
          | Err err => mret (r, Some err)
          | Ok subscriptionID =>
              let r := set_Status CentralRequestStatusAccepted r in
              let r := set_SubscriptionID subscriptionID r in
              let r := set_QuotaType (cc_QuotaType (sc_central conf)) r in
              rr ← on_centrals (db_create r);
              match rr with
              | Err err => mret (r, failing err "failed to create central request")
              | Ok r =>
                  d ← since (cr_CreatedAt r);
                  _ ← emit (CentralRequestsStatusSinceCreated CentralRequestStatusAccepted (cr_ID r)
                         (cr_ClusterID r) d);
                  mret (r, None)
              end
          end
      end
  end.

(** ** Updates *)

(** The rows [Model(r).Where("status not IN ...")] selects: the row with the
    identifier of [r], or every row when [r] has none. *)
Definition updatable (r x : CentralRequest) : bool :=
  (bool_decide (cr_ID r = "") || bool_decide (cr_ID x = cr_ID r)) &&
  bool_decide (cr_Status x ∉ dinosaurDeletionStatuses).

Definition Update (r : CentralRequest) : prog world (option ServiceError) :=
  ru ← on_centrals (db_update (updatable r) (fun x => merge x r));
  match ru with
  | Err err => mret (failing err "Failed to update central")
  | Ok _ => mret None
  end.

(** [fields] as the assignment it stands for. *)
Definition Updates (r : CentralRequest) (fields : CentralRequest -> CentralRequest)
    : prog world (option ServiceError) :=
  ru ← on_centrals (db_update (updatable r) fields);
  match ru with
  | Err err => mret (failing err "Failed to update central")
  | Ok _ => mret None
  end.

Definition GetByID (id : string) : prog world (result ServiceError CentralRequest) :=
  if bool_decide (id = "") then mret (Err (Validation "id is undefined" []))
  else
    r ← on_centrals (db_first (fun x => bool_decide (cr_ID x = id)));
    match r with
    | Err err => mret (Err (HandleGetError "CentralResource" "id" (VStr id) err))
    | Ok x => mret (Ok x)
    end.

Definition UpdateStatus (id status : string) : prog world (bool * option ServiceError) :=
  rg ← GetByID id;
  match rg with
  | Err err => mret (true, failing (EService err) "failed to update status")
  | Ok dinosaur =>
      if bool_decide (cr_Status dinosaur = CentralRequestStatusDeprovision) &&
         bool_decide (status <> CentralRequestStatusDeleting)
      then mret (false, Some (GeneralError "failed to update status: cluster is deprovisioning" []))
      else if bool_decide (cr_Status dinosaur = status)
      then mret (false, Some (GeneralError "failed to update status: the cluster %s is already in %s state"
        [VStr id; VStr status]))
      else
        deletionTimestamp ← (if bool_decide (status = CentralRequestStatusDeprovision)
                             then n ← now; mret (Some n) else mret None);
        let update := set_DeletionTimestamp deletionTimestamp (set_Status status zero_CentralRequest) in
        ru ← on_centrals (db_update (fun x => bool_decide (cr_ID x = id)) (fun x => merge x update));
        match ru with
        | Err err => mret (true, failing err "Failed to update central status")
        | Ok _ => mret (true, None)
        end
  end.

Definition VerifyAndUpdateDinosaurAdmin (ctx : Ctx) (r : CentralRequest) : prog world (option ServiceError) :=
  if negb (ctx_isAdmin ctx) then mret (Some (New ErrorUnauthenticated "User not authenticated" []))
  else
    rc ← FindClusterByID (cr_ClusterID r);
    match rc with
    | Err err => mret (Some (NewWithCause ErrorGeneral (Some (EService err))
        "Unable to find cluster associated with central request: %s" [VStr (cr_ID r)]))
    | Ok None => mret (Some (New ErrorValidation (Sprintf "Unable to get cluster for central %s"
        [VStr (cr_ID r)]) []))
    | Ok (Some _) => Update r
    end.

(** ** Acceptance and preparation *)

Definition AcceptCentralRequest (r : CentralRequest) : prog world (option ServiceError) :=
  match FormatNamespace (sc_regex_error conf) (cr_ID r) with
  | Err formatErr => mret (failing formatErr "invalid id format")
  | Ok namespace =>
      rh ← (if cc_EnableCentralExternalCertificate (sc_central conf)
            then mret (Ok (cc_CentralDomainName (sc_central conf)))
            else GetClusterDNS (cr_ClusterID r));
      match rh with
      | Err err => mret (failing (EService err) "error retrieving cluster DNS")
      | Ok host =>
          placement ← fresh_id;
          let updated := set_ID (cr_ID r) (set_Host host (set_PlacementID placement
            (set_Status CentralRequestStatusPreparing (set_Namespace namespace zero_CentralRequest)))) in
          ru ← Update updated;
          match ru with
          | Some err => mret (failing (EService err) "failed to update central request")
          | None => mret None
          end
      end
  end.

Definition PrepareDinosaurRequest (r : CentralRequest) : prog world (option ServiceError) :=
  if bool_decide (cr_ClientID r = "") then mret None
  else
    ro ← on_ext (GetOrganisationFromExternalID (cr_OrganisationID r));
    match ro with
    | Err err => mret (Some (OrganisationNotFound (cr_OrganisationID r) err))
    | Ok (_, orgName) =>
        if bool_decide (orgName = "")
        then mret (Some (OrganisationNameInvalid (cr_OrganisationID r) orgName))
        else
          let updated := set_ID (cr_ID r) (set_OrganisationName orgName
            (set_Status CentralRequestStatusProvisioning zero_CentralRequest)) in
          ru ← Update updated;
          match ru with
          | Some err => mret (failing (EService err) "failed to update central request")
          | None => mret None
          end
    end.

(** ** Queries *)

Definition ListByStatus (status : list string) : prog world (result ServiceError (list CentralRequest)) :=
  if (length status =? 0)%nat then mret (Err (GeneralError "no status provided" []))
  else
    r ← on_centrals (db_find (fun x => bool_decide (cr_Status x ∈ status)));
    match r with
    | Err err => mret (general err "failed to list by status")
    | Ok l => mret (Ok l)
    end.

(** The filter of a request: all rows for an administrator, else those of the
    user's organisation or of the user; [Err] when the user is not known. *)
Definition tenant_filter (ctx : Ctx) (claims : Claims) : result ServiceError (CentralRequest -> bool) :=
  if ctx_isAdmin ctx then Ok (fun _ => true)
  else if bool_decide (cl_username claims = "") then Err (Unauthenticated "user not authenticated" [])
  else if ctx_filterByOrganisation ctx
  then Ok (fun x => bool_decide (cr_OrganisationID x = cl_orgID claims))
  else Ok (fun x => bool_decide (cr_Owner x = cl_username claims)).

Definition Get (ctx : Ctx) (id : string) : prog world (result ServiceError CentralRequest) :=
  if bool_decide (id = "") then mret (Err (Validation "id is undefined" []))
  else match ctx_claims ctx with
  | Err err => mret (Err (NewWithCause ErrorUnauthenticated (Some err) "user not authenticated" []))
  | Ok claims =>
      match tenant_filter ctx claims with
      | Err err => mret (Err err)
      | Ok p =>
          r ← on_centrals (db_first (fun x => bool_decide (cr_ID x = id) && p x));
          match r with
          | Ok x => mret (Ok x)
          | Err err =>
              let resource := if ctx_isAdmin ctx then "CentralResource"
                else Sprintf "%s for user %s" [VStr "CentralResource"; VStr (cl_username claims)] in
              mret (Err (HandleGetError resource "id" (VStr id) err))
          end
      end
  end.

(** The search condition is evaluated by the database ([sql_eval]). *)
Definition ListCentrals (cap : nat -> nat) (sql_eval : string -> list string -> CentralRequest -> bool)
    (ctx : Ctx) (la : ListArguments)
    : prog world (result ServiceError (list CentralRequest * PagingMeta)) :=
  match ctx_claims ctx with
  | Err err => mret (Err (NewWithCause ErrorUnauthenticated (Some err) "user not authenticated" []))
  | Ok claims =>
      match tenant_filter ctx claims with
      | Err err => mret (Err err)
      | Ok p =>
          let searched : result ServiceError (CentralRequest -> bool) :=
            if bool_decide (la_Search la = "") then Ok p
            else match Parse cap (NewQueryParser []) (la_Search la) with
            | Ok q => Ok (fun x => p x && sql_eval (dq_Query q) (dq_Values q) x)
            | Err QPanic => Err nil_dereference
            | Err (QErr msg) => Err (NewWithCause ErrorFailedToParseSearch (Some (ETraced msg))
                "Unable to list central requests: %s" [VStr msg])
            end in
          match searched with
          | Err err => mret (Err err)
          | Ok p =>
              let order := match la_OrderBy la with [] => ["name"] | o => o end in
              rt ← on_centrals (db_count p);
              let total := match rt with Ok n => n | Err _ => 0 end in
              let size := if total <? la_Size la then total else la_Size la in
              rl ← on_centrals (db_page p order ((la_Page la - 1) * size) size);
              match rl with
              | Err err => mret (general err "Unable to list central requests")
              | Ok l => mret (Ok (l, mkPagingMeta (la_Page la) size total))
              end
          end
      end
  end.

Definition ListByClusterID (clusterID : string) : prog world (result ServiceError (list CentralRequest)) :=
  r ← on_centrals (db_find (fun x => bool_decide (cr_ClusterID x = clusterID) &&
        bool_decide (cr_Status x ∈ dinosaurManagedCRStatuses) && bool_decide (cr_Host x <> "")));
  match r with
  | Err err => mret (general err "unable to list central requests")
  | Ok l => mret (Ok l)
  end.

(** region, instance type and cluster, and number of centrals *)
Definition CountByRegionAndInstanceType : prog world (result error (list (list string * Z))) :=
  r ← on_centrals (db_group (fun _ => true) (fun x => [cr_Region x; cr_InstanceType x; cr_ClusterID x]));
  match r with
  | Err err => mret (Err (EService (NewWithCause ErrorGeneral (Some err) "Failed to count centrals" [])))
  | Ok l => mret (Ok l)
  end.

Definition CountByStatus (status : list string) : prog world (result error (list (string * Z))) :=
  r ← on_centrals (db_group (fun x => bool_decide (cr_Status x ∈ status)) (fun x => [cr_Status x]));
  match r with
  | Err err => mret (Err (EService (NewWithCause ErrorGeneral (Some err) "Failed to count centrals" [])))
  | Ok groups => mret (Ok (fill_counts status (group_name <$> groups)))
  end.

Record DinosaurComponentVersions := mkComponentVersions {
  dv_ID : string; dv_ClusterID : string; dv_DesiredDinosaurOperatorVersion : string;
  dv_ActualDinosaurOperatorVersion : string; dv_DinosaurOperatorUpgrading : bool;
  dv_DesiredDinosaurVersion : string; dv_ActualDinosaurVersion : string; dv_DinosaurUpgrading : bool
}.

(** The selected columns are named [..._central_...], the fields of the result
    [...Dinosaur...]: gorm scans a column into the field of the same name, so
    only the identifiers are filled. *)
Definition ListComponentVersions : prog world (result error (list DinosaurComponentVersions)) :=
  r ← on_centrals (db_find (fun _ => true));
  match r with
  | Err err => mret (Err (EService (NewWithCause ErrorGeneral (Some err) "failed to list component versions" [])))
  | Ok l => mret (Ok ((fun x => mkComponentVersions (cr_ID x) (cr_ClusterID x) "" "" false "" "" false) <$> l))
  end.

Definition ListDinosaursWithRoutesNotCreated : prog world (result ServiceError (list CentralRequest)) :=
  r ← on_centrals (db_find (fun x => bool_decide (cr_Routes x <> None) && negb (cr_RoutesCreated x)));
  match r with
  | Err err => mret (general err "failed to list central requests")
  | Ok l => mret (Ok l)
  end.

Definition ListCentralsWithoutAuthConfig : prog world (result ServiceError (list CentralRequest)) :=
  r ← on_centrals (db_find (fun x => bool_decide (cr_ClientID x = "") && bool_decide (cr_Host x <> "")));
  match r with
  | Err err => mret (general err "failed to list Central requests")
  | Ok l => mret (Ok (filter (fun x => CompareTo (cr_Status x) CentralRequestStatusPreparing <= 0) l))
  end.

(** ** Deprovisioning and deletion *)

Definition RegisterDinosaurDeprovisionJob (ctx : Ctx) (id : string) : prog world (option ServiceError) :=
  if bool_decide (id = "") then mret (Some (Validation "id is undefined" []))
  else match ctx_claims ctx with
  | Err err => mret (Some (NewWithCause ErrorUnauthenticated (Some err) "user not authenticated" []))
  | Ok claims =>
      let p x := bool_decide (cr_ID x = id) &&
        (if ctx_isAdmin ctx then true
         else if cl_isOrgAdmin claims then bool_decide (cr_OrganisationID x = cl_orgID claims)
         else bool_decide (cr_Owner x = cl_username claims)) in
      rf ← on_centrals (db_first p);
      match rf with
      | Err err => mret (Some (HandleGetError "CentralResource" "id" (VStr id) err))
      | Ok dinosaur =>
          _ ← emit (CentralTotalOperations CentralOperationDeprovision);
          ru ← UpdateStatus id CentralRequestStatusDeprovision;
          match ru with
          | (true, Some err) => mret (Some (HandleGetError "CentralResource" "id" (VStr id) (EService err)))
          | (true, None) =>
              _ ← emit (CentralSuccessOperations CentralOperationDeprovision);
              d ← since (cr_CreatedAt dinosaur);
              _ ← emit (CentralRequestsStatusSinceCreated CentralRequestStatusDeprovision (cr_ID dinosaur)
                     (cr_ClusterID dinosaur) d);
              mret None
          | (false, _) => mret None
          end
      end
  end.

(** The assignments of a deprovisioning update. *)
Definition deprovisioned (n : Z) (x : CentralRequest) : CentralRequest :=
  set_Status CentralRequestStatusDeprovision (set_DeletionTimestamp (Some n) x).

Definition deprovision_metrics : list metric :=
  [CentralTotalOperations CentralOperationDeprovision; CentralSuccessOperations CentralOperationDeprovision].

Definition DeprovisionDinosaurForUsers (users : list string) : prog world (option ServiceError) :=
  n ← now;
  ru ← on_centrals (db_update
         (fun x => bool_decide (cr_Owner x ∈ users) && bool_decide (cr_Status x ∉ dinosaurDeletionStatuses))
         (deprovisioned n));
  match ru with
  | Err err => mret (failing err "Unable to deprovision central requests for users")
  | Ok affected =>
      _ ← emit_times (Z.to_nat affected) deprovision_metrics;
      mret None
  end.

Definition hour : Z := 60 * minute.

Definition DeprovisionExpiredDinosaurs (dinosaurAgeInHours : Z) : prog world (option ServiceError) :=
  n ← now;
  ru ← on_centrals (db_update
         (fun x => bool_decide (cr_InstanceType x = EVAL) &&
            (cr_CreatedAt x <=? n - wrap64 (dinosaurAgeInHours * hour)) &&
            bool_decide (cr_Status x ∉ dinosaurDeletionStatuses))
         (deprovisioned n));
  match ru with
  | Err err => mret (failing err "unable to deprovision expired centrals")
  | Ok affected =>
      _ ← emit_times (Z.to_nat affected) deprovision_metrics;
      mret None
  end.

Definition ChangeDinosaurCNAMErecords (r : CentralRequest) (action : string)
    : prog world (result ServiceError (option (option ChangeInfo))) :=
  match GetRoutes r with
  | Err err => mret (general err "failed to get routes")
  | Ok None => mret (Err (NewWithCause ErrorGeneral None "failed to get routes" []))
  | Ok (Some routes) =>
      let batch := buildDinosaurClusterCNAMESRecordBatch routes action in
      rc ← on_ext (NewAWSClient (cr_Region r));
      match rc with
      | Err err => mret (general err "Unable to create aws client")
      | Ok _ =>
          ro ← on_ext (ChangeResourceRecordSets (cc_CentralDomainName (sc_central conf)) batch);
          match ro with
          | Err err => mret (general err "Unable to create domain record sets")
          | Ok output => mret (Ok output)
          end
      end
  end.

Definition GetCNAMERecordStatus (r : CentralRequest) : prog world (result error ChangeInfo) :=
  rc ← on_ext (NewAWSClient (cr_Region r));
  match rc with
  | Err err => mret (Err (EService (NewWithCause ErrorGeneral (Some err) "Unable to create aws client" [])))
  | Ok _ =>
      ro ← on_ext (GetChange (cr_RoutesCreationID r));
      match ro with
      | Err err => mret (Err (EService (NewWithCause ErrorGeneral (Some err) "Unable to CNAME record status" [])))
      | Ok info => mret (Ok info)
      end
  end.

(** [dbConn.Delete(r)]: the row with the identifier of [r]; without one gorm
    refuses the statement. *)
Definition delete_row_of (r : CentralRequest) : prog world (option ServiceError) :=
  rd ← (if bool_decide (cr_ID r = "") then mret (Err ErrMissingWhereClause)
        else on_centrals (db_delete (fun x => bool_decide (cr_ID x = cr_ID r))));
  match rd with
  | Err err => mret (Some (NewWithCause ErrorGeneral (Some err) "unable to delete central request with id %s"
      [VStr (cr_ID r)]))
  | Ok _ =>
      _ ← emit (CentralTotalOperations CentralOperationDelete);
      _ ← emit (CentralSuccessOperations CentralOperationDelete);
      mret None
  end.

Definition Delete (r : CentralRequest) (force : bool) : prog world (option ServiceError) :=
  if bool_decide (cr_ClusterID r <> "") then
    match GetRoutes r with
    | Err err => mret (failing err "failed to get routes")
    | Ok routes =>
        rd ← (if bool_decide (routes <> None) && cc_EnableCentralExternalCertificate (sc_central conf)
              then rc ← ChangeDinosaurCNAMErecords r DinosaurRoutesActionDelete;
                   mret (match rc with Err err => if force then None else Some err | Ok _ => None end)
              else mret None);
        match rd with
        | Some err => mret (Some err)
        | None => delete_row_of r
        end
    end
  else delete_row_of r.
End service.
