(* ===== verification/Auth.v ===== *)
(** * Authentication and authorisation (pkg/auth, pkg/acl)

    The claims of a token, the middlewares that stand in front of the handlers and
    the chains in which routes/route_loader.go composes them.  A middleware answers
    itself or hands the request, perhaps with a changed context, to the next
    handler.

    The verification of the token's issuer (golang-jwt), the cache of accepted
    terms (go-cache) with the account service behind it, and the audit log are
    parameters. *)

From S2P Require Import Prelude GoString GoFmt ServiceErrors World CentralService ApiFramework.
Local Open Scope string_scope.
Local Open Scope Z_scope.

(** ** Claims (acs_claims.go, context_config.go) *)

(** A JSON value of a token; [CNull] is Go's nil. *)
#[warnings="-register-all"] Inductive claim :=
| CNull
| CString (s : string)
| CBool (b : bool)
| CNumber (n : Z)
| CArray (l : list claim)
| CObject (fields : list (string * claim)).

Definition ACSClaims : Type := gmap string claim.

(** The names of the claims, which flags may change. *)
Record ClaimNames := mkClaimNames {
  tenantUsernameClaim : string; alternateTenantUsernameClaim : string;
  tenantIDClaim : string; alternateTenantIDClaim : string;
  tenantUserIDClaim : string; alternateTenantUserIDClaim : string;
  tenantOrgAdminClaim : string; tenantAccountIDClaim : string; tenantSubClaim : string
}.

Definition default_claims : ClaimNames :=
  mkClaimNames "username" "preferred_username" "org_id" "rh-org-id" "user_id" "rh-user-id"
    "is_org_admin" "account_id" "sub".

(** The value of a claim: nil when it is missing. *)
Definition claim_of (c : ACSClaims) (key : string) : claim := default CNull (c !! key).

(** [arrays.FindFirst] of the values that are not nil. *)
Fixpoint FindFirst_claim (values : list claim) : option claim :=
  match values with
  | [] => None
  | CNull :: values => FindFirst_claim values
  | val :: _ => Some val
  end.

Section claims.
Context (names : ClaimNames).

Definition first_string (c : ACSClaims) (key alternate : string) : result error string :=
  match FindFirst_claim [claim_of c key; claim_of c alternate] with
  | Some (CString s) => Ok s
  | _ => Err (EPlain (Sprintf "can't find neither %q or %q attribute in claims" [VStr key; VStr alternate]))
  end.

Definition GetUsername (c : ACSClaims) : result error string :=
  first_string c (tenantUsernameClaim names) (alternateTenantUsernameClaim names).
Definition GetUserID (c : ACSClaims) : result error string :=
  first_string c (tenantUserIDClaim names) (alternateTenantUserIDClaim names).
Definition GetOrgID (c : ACSClaims) : result error string :=
  first_string c (tenantIDClaim names) (alternateTenantIDClaim names).

Definition one_string (c : ACSClaims) (key : string) : result error string :=
  match claim_of c key with
  | CString s => Ok s
  | _ => Err (EPlain (Sprintf "can't find %q attribute in claims" [VStr key]))
  end.

Definition GetAccountID (c : ACSClaims) : result error string := one_string c (tenantAccountIDClaim names).
Definition GetSubject (c : ACSClaims) : result error string := one_string c (tenantSubClaim names).

Definition IsOrgAdmin (c : ACSClaims) : bool :=
  match claim_of c (tenantOrgAdminClaim names) with CBool b => b | _ => false end.

(** A string, or the empty string when there was an error. *)
Definition or_empty (r : result error string) : string := match r with Ok s => s | Err _ => "" end.

(** What the services read of the claims. *)
Definition read_claims (c : ACSClaims) : Claims :=
  mkClaims (or_empty (GetUsername c)) (or_empty (GetOrgID c)) (IsOrgAdmin c) (or_empty (GetAccountID c))
    (or_empty (GetSubject c)) (match GetUserID c with Ok u => Some u | Err _ => None end).
End claims.

(** ** Requests and their context (context.go) *)

Record http_request := mkRequest {
  rq_Method : string;
  (** [GetClaimsFromContext]: the claims of the token in the context *)
  rq_Claims : result error ACSClaims;
  rq_IsAdmin : bool;
  rq_FilterByOrganisation : bool;
  (** [r.URL.Query().Get], [mux.Vars(r)], [r.UserAgent()] *)
  rq_Query : string -> string;
  rq_Vars : string -> string;
  rq_UserAgent : string
}.

Definition SetIsAdminContext (r : http_request) (isAdmin : bool) : http_request :=
  mkRequest (rq_Method r) (rq_Claims r) isAdmin (rq_FilterByOrganisation r) (rq_Query r) (rq_Vars r) (rq_UserAgent r).

Definition SetFilterByOrganisationContext (r : http_request) (filter : bool) : http_request :=
  mkRequest (rq_Method r) (rq_Claims r) (rq_IsAdmin r) filter (rq_Query r) (rq_Vars r) (rq_UserAgent r).

(** The context as the services read it. *)
Definition request_ctx (names : ClaimNames) (r : http_request) : Ctx :=
  mkCtx (match rq_Claims r with Ok c => Ok (read_claims names c) | Err e => Err e end) (rq_IsAdmin r)
    (rq_FilterByOrganisation r).

(** ** Configuration (roles_authz.go, fleetshard_authz.go, access_control_list.go) *)

Record RolesConfiguration := mkRolesConfiguration { rc_HTTPMethod : string; rc_RoleNames : list string }.

(** A later entry for a method replaces an earlier one. *)
Definition GetRoleMapping (config : list RolesConfiguration) : gmap string (list string) :=
  foldl (fun m c => <[rc_HTTPMethod c := rc_RoleNames c]> m) ∅ config.

Definition allowedHTTPMethods : list string := ["GET"; "PATCH"; "DELETE"; "POST"].

Definition validateRolesConfiguration (configs : list RolesConfiguration) : option error :=
  head (omap (fun c => if bool_decide (rc_HTTPMethod c ∈ allowedHTTPMethods) then None
    else Some (EPlain (Sprintf "invalid http method used %q, expected to be one of [%s]"
      [VStr (rc_HTTPMethod c); VStr (Join "," allowedHTTPMethods)]))) configs).

Definition IsOrgIDAllowed (allowedOrgIDs : list string) (orgID : string) : bool := bool_decide (orgID ∈ allowedOrgIDs).

Definition IsUserDenied (deniedAccounts : list string) (username : string) : bool := bool_decide (username ∈ deniedAccounts).

Record AccessControlListConfig := mkACL { acl_DenyList : list string; acl_EnableDenyList : bool }.

(** ** Roles *)

Fixpoint strings_of (l : list claim) : option (list string) :=
  match l with
  | [] => Some []
  | CString s :: l => cons s <$> strings_of l
  | _ => None
  end.

(** [None]: a role that is not a string makes the code panic. *)
Definition getRealmRolesClaim (claims : ACSClaims) : option (list string) :=
  match claims !! "realm_access" with
  | Some (CObject fields) =>
      match list_find (fun f => f.1 = "roles") fields with
      | Some (_, (_, CArray arr)) => strings_of arr
      | _ => Some []
      end
  | _ => Some []
  end.

Definition hasRole (roles : list string) (roleName : string) : bool :=
  existsb (fun role => EqualFold role roleName) roles.

(** ** Middlewares *)

Section middlewares.
Context {S R : Type} (names : ClaimNames).

Definition handler : Type := http_request -> prog S (response R).
Definition middleware : Type := handler -> handler.

(** [ACSClaims.VerifyIssuer(cmp, true)] *)
Context (VerifyIssuer : ACSClaims -> string -> bool).

Definition RequireIssuer (issuers : list string) (code : Z) : middleware := fun next r =>
  match rq_Claims r with
  | Err _ => mret (RError (New code "" []))
  | Ok claims => if existsb (VerifyIssuer claims) issuers then next r else mret (RError (New code "" []))
  end.

Definition RequireOrgID (code : Z) : middleware := fun next r =>
  match rq_Claims r with
  | Err _ => mret (RError (New code "" []))
  | Ok claims =>
      if bool_decide (or_empty (GetOrgID names claims) = "") then mret (RError (New code "" [])) else next r
  end.

(** The cache, and the account service: does the user have to accept terms? *)
Context (cache_Get : string -> prog S (option bool)) (cache_Set : string -> bool -> prog S unit).
Context (GetRequiresTermsAcceptance : string -> prog S (result error bool)).

(** The end of the closure, once it is known whether terms are required. *)
Definition unless_required (code : Z) (next : handler) (r : http_request) (termsRequired : bool) : prog S (response R) :=
  if termsRequired then mret (RError (New code "required terms have not been accepted" [])) else next r.

Definition RequireTermsAcceptance (enabled : bool) (code : Z) : middleware := fun next r =>
  let answer := unless_required code next r in
  if enabled then
    match rq_Claims r with
    | Err err => mret (RError (NewWithCause code (Some err) "" []))
    | Ok claims =>
        let username := or_empty (GetUsername names claims) in
        cached ← cache_Get username;
        match cached with
        | Some termsRequired => answer termsRequired
        | None =>
            rt ← GetRequiresTermsAcceptance username;
            match rt with
            | Err err => mret (RError (NewWithCause code (Some err) "" []))
            | Ok termsRequired => _ ← cache_Set username termsRequired; answer termsRequired
            end
        end
    end
  else next r.

Definition Authorize (acl : AccessControlListConfig) : middleware := fun next r =>
  match rq_Claims r with
  | Err err => mret (RError (NewWithCause ErrorForbidden (Some err) "" []))
  | Ok claims =>
      let username := or_empty (GetUsername names claims) in
      if acl_EnableDenyList acl && IsUserDenied (acl_DenyList acl) username
      then mret (RError (New ErrorForbidden "User %q is not authorized to access the service." [VStr username]))
      else next (SetFilterByOrganisationContext r (bool_decide (or_empty (GetOrgID names claims) <> "")))
  end.

Definition RequireRealmRole (roleName : string) (code : Z) : middleware := fun next r =>
  match rq_Claims r with
  | Err _ => mret (RError (New code "" []))
  | Ok claims =>
      match getRealmRolesClaim claims with
      | None => mret RPanic
      | Some roles => if hasRole roles roleName then next r else mret (RError (New code "" []))
      end
  end.

Definition RequireRolesForMethods (roleMapping : gmap string (list string)) (code : Z) : middleware := fun next r =>
  match roleMapping !! rq_Method r with
  | None => mret (RError (New code "" []))
  | Some allowedRoles =>
      match rq_Claims r with
      | Err _ => mret (RError (New code "" []))
      | Ok claims =>
          match getRealmRolesClaim claims with
          | None => mret RPanic
          | Some realmRoles =>
              if existsb (hasRole realmRoles) allowedRoles then next (SetIsAdminContext r true)
              else mret (RError (New code "" []))
          end
      end
  end.

Definition checkAllowedOrgIDs (allowedOrgIDs : list string) : middleware := fun next r =>
  match rq_Claims r with
  | Err _ => mret (RError (NotFound "" []))
  | Ok claims =>
      if IsOrgIDAllowed allowedOrgIDs (or_empty (GetOrgID names claims)) then next r
      else mret (RError (NotFound "" []))
  end.

(** The two entries of the log; the error of the second is only logged. *)
Context (LogObject : http_request -> string -> prog S (option error)) (LogStatus : option Z -> prog S (option error)).

Definition AuditLog (code : Z) : middleware := fun next r =>
  match rq_Claims r with
  | Err _ => mret (RError (New code "" []))
  | Ok claims =>
      rl ← LogObject r (or_empty (GetUsername names claims));
      match rl with
      | Some _ => mret (RError (New code "" []))
      | None => resp ← next r; _ ← LogStatus (status_code resp); mret resp
      end
  end.

(** ** The routes (internal/dinosaur/pkg/routes/route_loader.go)

    A router's middlewares run in the order in which they were added, those of the
    outer router first. *)

Record RouteConfig := mkRouteConfig {
  ro_TokenIssuers : list string;
  ro_AdminIssuer : string;
  ro_FleetshardIssuer : string;
  ro_EnableTermsAcceptance : bool;
  ro_ACL : AccessControlListConfig;
  ro_AllowedOrgIDs : list string;
  ro_RolesConfig : list RolesConfiguration
}.
Context (conf : RouteConfig).

(** /centrals *)
Definition centrals_route : middleware := fun h =>
  RequireIssuer (ro_TokenIssuers conf) ErrorUnauthenticated
    (RequireOrgID ErrorUnauthenticated (Authorize (ro_ACL conf) h)).

(** POST /centrals *)
Definition create_route : middleware := fun h =>
  centrals_route (RequireTermsAcceptance (ro_EnableTermsAcceptance conf) ErrorTermsNotAccepted h).

(** /agent-clusters *)
Definition agent_route : middleware := fun h =>
  RequireOrgID ErrorNotFound
    (checkAllowedOrgIDs (ro_AllowedOrgIDs conf) (RequireIssuer [ro_FleetshardIssuer conf] ErrorNotFound h)).

(** /admin *)
Definition admin_route : middleware := fun h =>
  RequireIssuer [ro_AdminIssuer conf] ErrorNotFound
    (RequireRolesForMethods (GetRoleMapping (ro_RolesConfig conf)) ErrorNotFound (AuditLog ErrorNotFound h)).

(** ** What has been checked when a handler runs *)

(** The route [m] answers with an error or by its handler, on a request that [P]
    relates to the original one. *)
Definition guards (m : middleware) (P : http_request -> http_request -> Prop) : Prop :=
  forall next r s,
    (exists e, (m next r s).2 = RError e) \/ (m next r s).2 = RPanic \/
    exists r' s', P r r' /\ (m next r s).2 = (next r' s').2.

Lemma guards_compose (m1 m2 : middleware) P1 P2 P3 :
  guards m1 P1 -> guards m2 P2 -> (forall r r' r'', P1 r r' -> P2 r' r'' -> P3 r r'') ->
  guards (fun h => m1 (m2 h)) P3.
Proof.
  intros H1 H2 H3 next r s. destruct (H1 (m2 next) r s) as [?|[?|(r' & s' & Hp & ->)]]; [auto..|].
  destruct (H2 next r' s') as [?|[?|(r'' & s'' & Hq & ->)]]; [auto..|]. right. right. eauto.
Qed.

Definition issued (issuers : list string) (r r' : http_request) : Prop :=
  r' = r /\ exists c, rq_Claims r = Ok c /\ exists i, i ∈ issuers /\ VerifyIssuer c i = true.

Lemma guards_RequireIssuer issuers code : guards (RequireIssuer issuers code) (issued issuers).
Proof.
  intros next r s. unfold RequireIssuer. destruct (rq_Claims r) as [c|] eqn:Ec; [|left; by eexists].
  destruct (existsb _ _) eqn:E; [|left; by eexists]. right. right. exists r, s. split; [|done]. split; [done|].
  exists c. split; [done|]. apply existsb_exists in E as (i & Hi & Hv). exists i. by rewrite list_elem_of_In.
Qed.

Definition in_org (r r' : http_request) : Prop :=
  r' = r /\ exists c, rq_Claims r = Ok c /\ or_empty (GetOrgID names c) <> "".

Lemma guards_RequireOrgID code : guards (RequireOrgID code) in_org.
Proof.
  intros next r s. unfold RequireOrgID. destruct (rq_Claims r) as [c|] eqn:Ec; [|left; by eexists].
  case_bool_decide; [left; by eexists|]. right. right. exists r, s. split; [|done]. split; [done|eauto].
Qed.

Definition authorised (acl : AccessControlListConfig) (r r' : http_request) : Prop :=
  exists c, rq_Claims r = Ok c /\
    (acl_EnableDenyList acl = true -> or_empty (GetUsername names c) ∉ acl_DenyList acl) /\
    r' = SetFilterByOrganisationContext r (bool_decide (or_empty (GetOrgID names c) <> "")).

Lemma guards_Authorize acl : guards (Authorize acl) (authorised acl).
Proof.
  intros next r s. unfold Authorize. destruct (rq_Claims r) as [c|] eqn:Ec; [|left; by eexists]. cbv zeta.
  destruct (acl_EnableDenyList acl) eqn:Ed; simpl.
  - unfold IsUserDenied. case_bool_decide; [left; by eexists|]. right. right. eexists _, s. split; [|done]. by exists c.
  - right. right. eexists _, s. split; [|done]. exists c. by rewrite Ed.
Qed.

Lemma guards_RequireTermsAcceptance enabled code : guards (RequireTermsAcceptance enabled code) (fun r r' => r' = r).
Proof.
  assert (forall next r s b, (exists e, (unless_required code next r b s).2 = RError e) \/
    (unless_required code next r b s).2 = RPanic \/
    exists r' s', r' = r /\ (unless_required code next r b s).2 = (next r' s').2) as Ha.
  { intros next r s [|]; [left; by eexists|right; right; by exists r, s]. }
  intros next r s. unfold RequireTermsAcceptance. destruct enabled; [|right; right; by exists r, s].
  destruct (rq_Claims r) as [c|]; [|left; by eexists]. rewrite prog_bind_run.
  destruct ((cache_Get _ s).2) as [b|]; [apply Ha|]. rewrite prog_bind_run.
  destruct ((GetRequiresTermsAcceptance _ _).2) as [b|e]; [|left; by eexists]. rewrite prog_bind_run. apply Ha.
Qed.

Definition allowed_org (orgs : list string) (r r' : http_request) : Prop :=
  r' = r /\ exists c, rq_Claims r = Ok c /\ or_empty (GetOrgID names c) ∈ orgs.

Lemma guards_checkAllowedOrgIDs orgs : guards (checkAllowedOrgIDs orgs) (allowed_org orgs).
Proof.
  intros next r s. unfold checkAllowedOrgIDs, IsOrgIDAllowed. destruct (rq_Claims r) as [c|] eqn:Ec; [|left; by eexists].
  case_bool_decide; [|left; by eexists]. right. right. exists r, s. split; [|done]. split; [done|eauto].
Qed.

Definition with_role (config : list RolesConfiguration) (r r' : http_request) : Prop :=
  r' = SetIsAdminContext r true /\
  exists c roles allowed role, rq_Claims r = Ok c /\ getRealmRolesClaim c = Some roles /\
    GetRoleMapping config !! rq_Method r = Some allowed /\ role ∈ allowed /\ hasRole roles role = true.

Lemma guards_RequireRolesForMethods config code :
  guards (RequireRolesForMethods (GetRoleMapping config) code) (with_role config).
Proof.
  intros next r s. unfold RequireRolesForMethods. destruct (GetRoleMapping config !! rq_Method r) as [allowed|] eqn:Em;
    [|left; by eexists].
  destruct (rq_Claims r) as [c|] eqn:Ec; [|left; by eexists].
  destruct (getRealmRolesClaim c) as [roles|] eqn:Er; [|by right; left].
  destruct (existsb _ _) eqn:E; [|left; by eexists]. right. right. eexists _, s. split; [|done]. split; [done|].
  apply existsb_exists in E as (role & Hr & Hh). exists c, roles, allowed, role. by rewrite list_elem_of_In.
Qed.

Lemma guards_AuditLog code : guards (AuditLog code) (fun r r' => r' = r).
Proof.
  intros next r s. unfold AuditLog. destruct (rq_Claims r) as [c|]; [|left; by eexists]. rewrite prog_bind_run.
  destruct ((LogObject _ _ s).2); [left; by eexists|]. rewrite prog_bind_run. right. right.
  eexists r, _. split; [done|]. rewrite prog_bind_run. done.
Qed.

(** What the routes guarantee to their handlers. *)
Definition user_request (r r' : http_request) : Prop :=
  r' = SetFilterByOrganisationContext r true /\
  exists c, rq_Claims r = Ok c /\ or_empty (GetOrgID names c) <> "" /\
    (exists i, i ∈ ro_TokenIssuers conf /\ VerifyIssuer c i = true) /\
    (acl_EnableDenyList (ro_ACL conf) = true -> or_empty (GetUsername names c) ∉ acl_DenyList (ro_ACL conf)).

Lemma guards_centrals_route : guards centrals_route user_request.
Proof.
  apply (guards_compose (RequireIssuer (ro_TokenIssuers conf) ErrorUnauthenticated)
    (fun h => RequireOrgID ErrorUnauthenticated (Authorize (ro_ACL conf) h)) (issued (ro_TokenIssuers conf))
    (fun r r'' => exists r', in_org r r' /\ authorised (ro_ACL conf) r' r'')).
  - apply guards_RequireIssuer.
  - eapply guards_compose; [apply guards_RequireOrgID|apply guards_Authorize|eauto].
  - intros r r' r'' [-> (c & Hc & Hi)] (r1 & [-> (c1 & Hc1 & Ho)] & (c2 & Hc2 & Hd & ->)).
    assert (c1 = c) as -> by congruence. assert (c2 = c) as -> by congruence.
    split; [by rewrite bool_decide_eq_true_2|]. exists c. by split_and!.
Qed.

(** These middlewares have no effects of their own. *)
Lemma centrals_route_run next r s :
  (exists e, centrals_route next r s = (s, RError e)) \/
  exists r', user_request r r' /\ centrals_route next r s = next r' s.
Proof.
  unfold centrals_route, RequireIssuer. destruct (rq_Claims r) as [c|] eqn:Ec; [|left; by eexists].
  destruct (existsb _ _) eqn:Ei; [|left; by eexists]. unfold RequireOrgID. rewrite Ec.
  case_bool_decide as Ho; [left; by eexists|]. unfold Authorize. rewrite Ec. cbv zeta.
  destruct (acl_EnableDenyList (ro_ACL conf) && _) eqn:Ed; [left; by eexists|]. right.
  exists (SetFilterByOrganisationContext r true). rewrite (bool_decide_eq_true_2 (_ <> "")) by done.
  split; [|done]. split; [done|]. exists c. apply existsb_exists in Ei as (i & Hi & Hv).
  split_and!; [done|done|exists i; by rewrite list_elem_of_In|]. intros Hen. rewrite Hen in Ed. simpl in Ed.
  unfold IsUserDenied in Ed. by apply bool_decide_eq_false in Ed.
Qed.

Lemma guards_create_route : guards create_route user_request.
Proof.
  apply (guards_compose centrals_route (RequireTermsAcceptance (ro_EnableTermsAcceptance conf) ErrorTermsNotAccepted)
    user_request (fun r r' => r' = r)); [apply guards_centrals_route|apply guards_RequireTermsAcceptance|].
  by intros r r' r'' Hu ->.
Qed.

Definition agent_request (r r' : http_request) : Prop :=
  r' = r /\ exists c, rq_Claims r = Ok c /\ or_empty (GetOrgID names c) ∈ ro_AllowedOrgIDs conf /\
    or_empty (GetOrgID names c) <> "" /\ VerifyIssuer c (ro_FleetshardIssuer conf) = true.

Lemma guards_agent_route : guards agent_route agent_request.
Proof.
  apply (guards_compose (RequireOrgID ErrorNotFound)
    (fun h => checkAllowedOrgIDs (ro_AllowedOrgIDs conf) (RequireIssuer [ro_FleetshardIssuer conf] ErrorNotFound h)) in_org
    (fun r r'' => exists r', allowed_org (ro_AllowedOrgIDs conf) r r' /\ issued [ro_FleetshardIssuer conf] r' r'')).
  - apply guards_RequireOrgID.
  - eapply guards_compose; [apply guards_checkAllowedOrgIDs|apply guards_RequireIssuer|eauto].
  - intros r r' r'' [-> (c & Hc & Ho)] (r1 & [-> (c1 & Hc1 & Ha)] & [-> (c2 & Hc2 & i & Hi & Hv)]).
    assert (c1 = c) as -> by congruence. assert (c2 = c) as -> by congruence. apply list_elem_of_singleton in Hi as ->.
    split; [done|]. exists c. by split_and!.
Qed.

Definition admin_request (r r' : http_request) : Prop :=
  with_role (ro_RolesConfig conf) r r' /\ exists c, rq_Claims r = Ok c /\ VerifyIssuer c (ro_AdminIssuer conf) = true.

Lemma guards_admin_route : guards admin_route admin_request.
Proof.
  apply (guards_compose (RequireIssuer [ro_AdminIssuer conf] ErrorNotFound)
    (fun h => RequireRolesForMethods (GetRoleMapping (ro_RolesConfig conf)) ErrorNotFound (AuditLog ErrorNotFound h))
    (issued [ro_AdminIssuer conf]) (with_role (ro_RolesConfig conf))).
  - apply guards_RequireIssuer.
  - eapply guards_compose; [apply guards_RequireRolesForMethods|apply guards_AuditLog|]. by intros r r' r'' Hr ->.
  - intros r r' r'' [-> (c & Hc & i & Hi & Hv)] Hr. apply list_elem_of_singleton in Hi as ->.
    split; [done|]. by exists c.
Qed.

End middlewares.
