(* ===== verification/ConfigFiles.v ===== *)
(** * Reading the configuration files

    pkg/shared/config.go and project_root_dir.go: the files a configuration module
    names, and the modules themselves: [ReadFiles] of every module that the service
    registers, with its constructor's defaults for the file names.

    The host is a working directory and a file system; YAML is decoded by a
    library, which is a parameter: [UnmarshalStrict text v] is the value that is
    left in [v] and the error.  Flags are in Flags.v. *)

From S2P Require Import Prelude GoString GoFmt GoPath ServiceErrors CentralRequest Versions ClusterTypes Config Providers Auth.
Local Open Scope string_scope.
Local Open Scope Z_scope.

(** ** Errors of loading *)

(** [fs.ErrNotExist] is recognised through the wrapping of [fmt.Errorf] and of
    pkg/errors. *)
Inductive load_error :=
| NotExist (path : string)
| Failed (e : error)
| Within (msg : string) (inner : load_error).

Fixpoint load_Error (e : load_error) : string :=
  match e with
  | NotExist path => Sprintf "open %s: no such file or directory" [VStr path]
  | Failed e => Error e
  | Within msg inner => msg +:+ ": " +:+ load_Error inner
  end.

Fixpoint Is_ErrNotExist (e : load_error) : bool :=
  match e with NotExist _ => true | Failed _ => false | Within _ inner => Is_ErrNotExist inner end.

(** ** Loading programs *)

Definition loader (C : Type) : Type := prog C (option load_error).

Definition load_nothing {C} : loader C := mret None.
Definition load_fail {C} (e : error) : loader C := mret (Some (Failed e)).

(** [if err != nil { return err }] *)
Definition and_then {C} (m k : loader C) : loader C := fun c =>
  let '(c1, r) := m c in
  match r with Some e => (c1, Some e) | None => k c1 end.
Infix ";;?" := and_then (at level 60, right associativity).

(** The error wrapped with a message. *)
Definition within {C} (msg : string) (m : loader C) : loader C := fun c =>
  let '(c1, r) := m c in (c1, Within msg <$> r).

(** A loader of a field. *)
Definition field {C A} (get : C -> A) (set : A -> C -> C) (m : loader A) : loader C := fun c =>
  let '(a, r) := m (get c) in (set a c, r).

Definition when_ {C} (test : C -> bool) (m : loader C) : loader C := fun c => if test c then m c else (c, None).

(** A check of the value loaded so far. *)
Definition check {C} (test : C -> bool) (e : C -> error) : loader C := fun c =>
  if test c then (c, None) else (c, Some (Failed (e c))).

(** ** pkg/shared *)

Class Host := {
  cwd : string;
  ioutil_ReadFile (path : string) : result load_error string
}.

Class Yaml (A : Type) := { UnmarshalStrict (text : string) : loader A }.

Section shared.
Context `{Host}.

Fixpoint find_root (rootPath : string) (dirs : list string) : string :=
  match dirs with
  | [] => rootPath
  | d :: dirs =>
      let rootPath := rootPath +:+ "/" +:+ d in
      match ioutil_ReadFile (rootPath +:+ "/go.mod") with
      | Ok goModFile => if Contains goModFile "github.com/stackrox/acs-fleet-manager" then rootPath else find_root rootPath dirs
      | Err _ => find_root rootPath dirs
      end
  end.

Definition GetProjectRootDir : string := find_root "" (Split (Ascii.ascii_of_nat 47) cwd).

Definition BuildFullFilePath (filename : string) : string :=
  let unquotedFile := default filename (Unquote filename) in
  if bool_decide (unquotedFile = "") then ""
  else if negb (IsAbs unquotedFile) then path_Join GetProjectRootDir unquotedFile
  else unquotedFile.

Definition ReadFile (file : string) : result load_error string :=
  let absFilePath := BuildFullFilePath file in
  if bool_decide (absFilePath = "") then Ok ""
  else match ioutil_ReadFile absFilePath with
       | Ok buf => Ok buf
       | Err err => Err (Within (Sprintf "reading file %q" [VStr absFilePath]) err)
       end.

(** [loader]s of the value: what the pointer holds afterwards. *)
Definition ReadFileValueString (file : string) : loader string := fun val =>
  match ReadFile file with
  | Err err => (val, Some err)
  | Ok fileContents => (TrimSuffix fileContents (string_of_bytes [10%N]), None)
  end.

Definition ReadFileValueInt (file : string) : loader Z := fun val =>
  match ReadFile file with
  | Err err => (val, Some err)
  | Ok fileContents =>
      let '(n, ok) := Atoi fileContents in
      (n, if ok then None
          else Some (Within "reading int value from file"
                 (Failed (EPlain (Sprintf "strconv.Atoi: parsing %q: %s" [VStr fileContents;
                   VStr (if n =? 0 then "invalid syntax" else "value out of range")])))))
  end.

Definition ReadYamlFile `{Yaml A} (filename : string) : loader A := fun out =>
  match ReadFile filename with
  | Err err => (out, Some err)
  | Ok fileContents => within "unmarshalling YAML file contents" (UnmarshalStrict fileContents) out
  end.

(** The functions that read a file and decode it into a value, with their own
    messages: [readFileProvidersConfig], [readDenyListConfigFile],
    [readFleetShardAuthZConfigFile], [readRoleAuthZConfigFile],
    [readQuotaManagementListConfigFile] and [readOnlyUserListFile]. *)
Definition read_decoded `{Yaml A} (reading unmarshalling : string) (file : string) : loader A := fun val =>
  match ReadFile file with
  | Err err => (val, Some (Within reading err))
  | Ok fileContents => within unmarshalling (UnmarshalStrict fileContents) val
  end.
End shared.

(** ** The modules *)

Section modules.
Context `{Host}.

(** *** internal/dinosaur/pkg/config/aws.go *)

Record AWSConfig := mkAWSConfig {
  aws_AccountID : string; aws_AccountIDFile : string; aws_AccessKey : string; aws_AccessKeyFile : string;
  aws_SecretAccessKey : string; aws_SecretAccessKeyFile : string; aws_Route53AccessKey : string;
  aws_Route53AccessKeyFile : string; aws_Route53SecretAccessKey : string; aws_Route53SecretAccessKeyFile : string
}.
Definition set_aws_AccountID (v : string) (c : AWSConfig) : AWSConfig :=
  mkAWSConfig v (aws_AccountIDFile c) (aws_AccessKey c) (aws_AccessKeyFile c) (aws_SecretAccessKey c)
    (aws_SecretAccessKeyFile c) (aws_Route53AccessKey c) (aws_Route53AccessKeyFile c) (aws_Route53SecretAccessKey c)
    (aws_Route53SecretAccessKeyFile c).
Definition set_aws_AccessKey (v : string) (c : AWSConfig) : AWSConfig :=
  mkAWSConfig (aws_AccountID c) (aws_AccountIDFile c) v (aws_AccessKeyFile c) (aws_SecretAccessKey c)
    (aws_SecretAccessKeyFile c) (aws_Route53AccessKey c) (aws_Route53AccessKeyFile c) (aws_Route53SecretAccessKey c)
    (aws_Route53SecretAccessKeyFile c).
Definition set_aws_SecretAccessKey (v : string) (c : AWSConfig) : AWSConfig :=
  mkAWSConfig (aws_AccountID c) (aws_AccountIDFile c) (aws_AccessKey c) (aws_AccessKeyFile c) v
    (aws_SecretAccessKeyFile c) (aws_Route53AccessKey c) (aws_Route53AccessKeyFile c) (aws_Route53SecretAccessKey c)
    (aws_Route53SecretAccessKeyFile c).
Definition set_aws_Route53AccessKey (v : string) (c : AWSConfig) : AWSConfig :=
  mkAWSConfig (aws_AccountID c) (aws_AccountIDFile c) (aws_AccessKey c) (aws_AccessKeyFile c) (aws_SecretAccessKey c)
    (aws_SecretAccessKeyFile c) v (aws_Route53AccessKeyFile c) (aws_Route53SecretAccessKey c)
    (aws_Route53SecretAccessKeyFile c).
Definition set_aws_Route53SecretAccessKey (v : string) (c : AWSConfig) : AWSConfig :=
  mkAWSConfig (aws_AccountID c) (aws_AccountIDFile c) (aws_AccessKey c) (aws_AccessKeyFile c) (aws_SecretAccessKey c)
    (aws_SecretAccessKeyFile c) (aws_Route53AccessKey c) (aws_Route53AccessKeyFile c) v
    (aws_Route53SecretAccessKeyFile c).

Definition NewAWSConfig : AWSConfig :=
  mkAWSConfig "" "secrets/aws.accountid" "" "secrets/aws.accesskey" "" "secrets/aws.secretaccesskey"
    "" "secrets/aws.route53accesskey" "" "secrets/aws.route53secretaccesskey".

Definition AWSConfig_ReadFiles : loader AWSConfig := fun c =>
  (within "reading account ID file" (field aws_AccountID set_aws_AccountID (ReadFileValueString (aws_AccountIDFile c))) ;;?
   within "reading access key file" (field aws_AccessKey set_aws_AccessKey (ReadFileValueString (aws_AccessKeyFile c))) ;;?
   within "reading secret access key file" (field aws_SecretAccessKey set_aws_SecretAccessKey (ReadFileValueString (aws_SecretAccessKeyFile c))) ;;?
   within "reading route 53 access key file" (field aws_Route53AccessKey set_aws_Route53AccessKey (ReadFileValueString (aws_Route53AccessKeyFile c))) ;;?
   within "reading route 53 secret access key file"
     (field aws_Route53SecretAccessKey set_aws_Route53SecretAccessKey (ReadFileValueString (aws_Route53SecretAccessKeyFile c)))) c.

(** *** internal/dinosaur/pkg/config/central.go, central_lifespan.go, central_quota.go *)

Record CentralFiles := mkCentralFiles {
  cf_CentralTLSCert : string; cf_CentralTLSCertFile : string; cf_CentralTLSKey : string; cf_CentralTLSKeyFile : string;
  cf_EnableCentralExternalCertificate : bool; cf_CentralDomainName : string; cf_CentralDefaultVersion : string;
  cf_EnableDeletionOfExpiredCentral : bool; cf_CentralLifespanInHours : Z; cf_QuotaType : string;
  cf_AllowEvaluatorInstance : bool; cf_CentralIDPClientID : string; cf_CentralIDPClientSecret : string;
  cf_CentralIDPClientSecretFile : string; cf_CentralIDPIssuer : string
}.
Definition set_cf_CentralTLSCert (v : string) (c : CentralFiles) : CentralFiles :=
  mkCentralFiles v (cf_CentralTLSCertFile c) (cf_CentralTLSKey c) (cf_CentralTLSKeyFile c)
    (cf_EnableCentralExternalCertificate c) (cf_CentralDomainName c) (cf_CentralDefaultVersion c)
    (cf_EnableDeletionOfExpiredCentral c) (cf_CentralLifespanInHours c) (cf_QuotaType c) (cf_AllowEvaluatorInstance c)
    (cf_CentralIDPClientID c) (cf_CentralIDPClientSecret c) (cf_CentralIDPClientSecretFile c) (cf_CentralIDPIssuer c).
Definition set_cf_CentralTLSKey (v : string) (c : CentralFiles) : CentralFiles :=
  mkCentralFiles (cf_CentralTLSCert c) (cf_CentralTLSCertFile c) v (cf_CentralTLSKeyFile c)
    (cf_EnableCentralExternalCertificate c) (cf_CentralDomainName c) (cf_CentralDefaultVersion c)
    (cf_EnableDeletionOfExpiredCentral c) (cf_CentralLifespanInHours c) (cf_QuotaType c) (cf_AllowEvaluatorInstance c)
    (cf_CentralIDPClientID c) (cf_CentralIDPClientSecret c) (cf_CentralIDPClientSecretFile c) (cf_CentralIDPIssuer c).
Definition set_cf_CentralIDPClientSecret (v : string) (c : CentralFiles) : CentralFiles :=
  mkCentralFiles (cf_CentralTLSCert c) (cf_CentralTLSCertFile c) (cf_CentralTLSKey c) (cf_CentralTLSKeyFile c)
    (cf_EnableCentralExternalCertificate c) (cf_CentralDomainName c) (cf_CentralDefaultVersion c)
    (cf_EnableDeletionOfExpiredCentral c) (cf_CentralLifespanInHours c) (cf_QuotaType c) (cf_AllowEvaluatorInstance c)
    (cf_CentralIDPClientID c) v (cf_CentralIDPClientSecretFile c) (cf_CentralIDPIssuer c).

Definition NewCentralFiles : CentralFiles :=
  mkCentralFiles "" "secrets/central-tls.crt" "" "secrets/central-tls.key" false "rhacs-dev.com" "" true 48
    QuotaManagementListQuotaType true "" "" "secrets/central.idp-client-secret" "https://sso.redhat.com/auth/realms/redhat-external".

Definition CentralFiles_HasStaticAuth (c : CentralFiles) : bool := bool_decide (cf_CentralIDPClientID c <> "").

Definition CentralConfig_ReadFiles : loader CentralFiles := fun c =>
  (within "reading TLS certificate file" (field cf_CentralTLSCert set_cf_CentralTLSCert (ReadFileValueString (cf_CentralTLSCertFile c))) ;;?
   within "reading TLS key file" (field cf_CentralTLSKey set_cf_CentralTLSKey (ReadFileValueString (cf_CentralTLSKeyFile c))) ;;?
   when_ CentralFiles_HasStaticAuth
     (within "reading Central's IdP client secret file"
        (field cf_CentralIDPClientSecret set_cf_CentralIDPClientSecret (ReadFileValueString (cf_CentralIDPClientSecretFile c))) ;;?
      check (fun c => bool_decide (cf_CentralIDPClientSecret c <> ""))
        (fun c => ETraced (Sprintf "no client_secret specified for static client_id %q; auth configuration is either incorrect or insecure"
           [VStr (cf_CentralIDPClientID c)])) ;;?
      check (fun c => bool_decide (cf_CentralIDPIssuer c <> ""))
        (fun c => ETraced (Sprintf "no issuer specified for static client_id %q; auth configuration will likely not work properly"
           [VStr (cf_CentralIDPClientID c)])))) c.

(** *** pkg/client/ocm/config.go *)

Record OCMConfig := mkOCMConfig {
  oc_BaseURL : string; oc_AmsURL : string; oc_ClientID : string; oc_ClientIDFile : string; oc_ClientSecret : string;
  oc_ClientSecretFile : string; oc_SelfToken : string; oc_SelfTokenFile : string; oc_TokenURL : string; oc_Debug : bool;
  oc_EnableMock : bool; oc_MockMode : string; oc_CentralOperatorAddonID : string; oc_FleetshardAddonID : string
}.
Definition set_oc_ClientID (v : string) (c : OCMConfig) : OCMConfig :=
  mkOCMConfig (oc_BaseURL c) (oc_AmsURL c) v (oc_ClientIDFile c) (oc_ClientSecret c) (oc_ClientSecretFile c)
    (oc_SelfToken c) (oc_SelfTokenFile c) (oc_TokenURL c) (oc_Debug c) (oc_EnableMock c) (oc_MockMode c)
    (oc_CentralOperatorAddonID c) (oc_FleetshardAddonID c).
Definition set_oc_ClientSecret (v : string) (c : OCMConfig) : OCMConfig :=
  mkOCMConfig (oc_BaseURL c) (oc_AmsURL c) (oc_ClientID c) (oc_ClientIDFile c) v (oc_ClientSecretFile c)
    (oc_SelfToken c) (oc_SelfTokenFile c) (oc_TokenURL c) (oc_Debug c) (oc_EnableMock c) (oc_MockMode c)
    (oc_CentralOperatorAddonID c) (oc_FleetshardAddonID c).
Definition set_oc_SelfToken (v : string) (c : OCMConfig) : OCMConfig :=
  mkOCMConfig (oc_BaseURL c) (oc_AmsURL c) (oc_ClientID c) (oc_ClientIDFile c) (oc_ClientSecret c)
    (oc_ClientSecretFile c) v (oc_SelfTokenFile c) (oc_TokenURL c) (oc_Debug c) (oc_EnableMock c) (oc_MockMode c)
    (oc_CentralOperatorAddonID c) (oc_FleetshardAddonID c).

Definition MockModeStubServer : string := "stub-server".
Definition MockModeEmulateServer : string := "emulate-server".

Definition NewOCMConfig : OCMConfig :=
  mkOCMConfig "https://api-integration.6943.hive-integration.openshiftapps.com" "https://api.stage.openshift.com"
    "" "secrets/ocm-service.clientId" "" "secrets/ocm-service.clientSecret" "" "secrets/ocm-service.token"
    "https://sso.redhat.com/auth/realms/redhat-external/protocol/openid-connect/token" false false MockModeStubServer
    "managed-central" "fleetshard-operator".

(** An error of the token file counts only without client credentials. *)
Definition read_self_token : loader OCMConfig := fun c =>
  let '(c1, r) := field oc_SelfToken set_oc_SelfToken (ReadFileValueString (oc_SelfTokenFile c)) c in
  match r with
  | Some err =>
      if bool_decide (oc_ClientSecret c1 = "" \/ oc_ClientID c1 = "") then (c1, Some (Within "reading self token file" err)) else (c1, None)
  | None => (c1, None)
  end.

Definition OCMConfig_ReadFiles : loader OCMConfig := fun c =>
  if oc_EnableMock c then (c, None)
  else
    (within "reading client ID file" (field oc_ClientID set_oc_ClientID (ReadFileValueString (oc_ClientIDFile c))) ;;?
     within "reading client secret file" (field oc_ClientSecret set_oc_ClientSecret (ReadFileValueString (oc_ClientSecretFile c))) ;;?
     read_self_token) c.

(** *** pkg/db/config.go *)

Record DatabaseConfig := mkDatabaseConfig {
  db_Dialect : string; db_SSLMode : string; db_Debug : bool; db_MaxOpenConnections : Z; db_Host : string; db_Port : Z;
  db_Name : string; db_Username : string; db_Password : string; db_DatabaseCaCertFile : string; db_HostFile : string;
  db_PortFile : string; db_NameFile : string; db_UsernameFile : string; db_PasswordFile : string
}.
Definition set_db_Debug (v : bool) (c : DatabaseConfig) : DatabaseConfig :=
  mkDatabaseConfig (db_Dialect c) (db_SSLMode c) v (db_MaxOpenConnections c) (db_Host c) (db_Port c) (db_Name c)
    (db_Username c) (db_Password c) (db_DatabaseCaCertFile c) (db_HostFile c) (db_PortFile c) (db_NameFile c)
    (db_UsernameFile c) (db_PasswordFile c).
Definition set_db_Host (v : string) (c : DatabaseConfig) : DatabaseConfig :=
  mkDatabaseConfig (db_Dialect c) (db_SSLMode c) (db_Debug c) (db_MaxOpenConnections c) v (db_Port c) (db_Name c)
    (db_Username c) (db_Password c) (db_DatabaseCaCertFile c) (db_HostFile c) (db_PortFile c) (db_NameFile c)
    (db_UsernameFile c) (db_PasswordFile c).
Definition set_db_Port (v : Z) (c : DatabaseConfig) : DatabaseConfig :=
  mkDatabaseConfig (db_Dialect c) (db_SSLMode c) (db_Debug c) (db_MaxOpenConnections c) (db_Host c) v (db_Name c)
    (db_Username c) (db_Password c) (db_DatabaseCaCertFile c) (db_HostFile c) (db_PortFile c) (db_NameFile c)
    (db_UsernameFile c) (db_PasswordFile c).
Definition set_db_Name (v : string) (c : DatabaseConfig) : DatabaseConfig :=
  mkDatabaseConfig (db_Dialect c) (db_SSLMode c) (db_Debug c) (db_MaxOpenConnections c) (db_Host c) (db_Port c) v
    (db_Username c) (db_Password c) (db_DatabaseCaCertFile c) (db_HostFile c) (db_PortFile c) (db_NameFile c)
    (db_UsernameFile c) (db_PasswordFile c).
Definition set_db_Username (v : string) (c : DatabaseConfig) : DatabaseConfig :=
  mkDatabaseConfig (db_Dialect c) (db_SSLMode c) (db_Debug c) (db_MaxOpenConnections c) (db_Host c) (db_Port c)
    (db_Name c) v (db_Password c) (db_DatabaseCaCertFile c) (db_HostFile c) (db_PortFile c) (db_NameFile c)
    (db_UsernameFile c) (db_PasswordFile c).
Definition set_db_Password (v : string) (c : DatabaseConfig) : DatabaseConfig :=
  mkDatabaseConfig (db_Dialect c) (db_SSLMode c) (db_Debug c) (db_MaxOpenConnections c) (db_Host c) (db_Port c)
    (db_Name c) (db_Username c) v (db_DatabaseCaCertFile c) (db_HostFile c) (db_PortFile c) (db_NameFile c)
    (db_UsernameFile c) (db_PasswordFile c).

Definition NewDatabaseConfig : DatabaseConfig :=
  mkDatabaseConfig "postgres" "disable" false 50 "" 0 "" "" "" "secrets/db.ca_cert" "secrets/db.host" "secrets/db.port"
    "secrets/db.name" "secrets/db.user" "secrets/db.password".

Definition DatabaseConfig_ReadFiles : loader DatabaseConfig := fun c =>
  (within "reading database host file" (field db_Host set_db_Host (ReadFileValueString (db_HostFile c))) ;;?
   within "reading database port file" (field db_Port set_db_Port (ReadFileValueInt (db_PortFile c))) ;;?
   within "reading database username file" (field db_Username set_db_Username (ReadFileValueString (db_UsernameFile c))) ;;?
   within "reading database password file" (field db_Password set_db_Password (ReadFileValueString (db_PasswordFile c))) ;;?
   within "reading database name file" (field db_Name set_db_Name (ReadFileValueString (db_NameFile c)))) c.

Definition ConnectionString (c : DatabaseConfig) : string :=
  if bool_decide (db_SSLMode c <> "disable") then
    Sprintf "host=%s port=%d user=%s password='%s' dbname=%s sslmode=%s sslrootcert=%s"
      [VStr (db_Host c); VInt (db_Port c); VStr (db_Username c); VStr (db_Password c); VStr (db_Name c); VStr (db_SSLMode c);
       VStr (db_DatabaseCaCertFile c)]
  else
    Sprintf "host=%s port=%d user=%s password='%s' dbname=%s sslmode=%s"
      [VStr (db_Host c); VInt (db_Port c); VStr (db_Username c); VStr (db_Password c); VStr (db_Name c); VStr (db_SSLMode c)].

Definition LogSafeConnectionString (c : DatabaseConfig) : string :=
  if bool_decide (db_SSLMode c <> "disable") then
    Sprintf "host=%s port=%d user=%s password='<REDACTED>' dbname=%s sslmode=%s sslrootcert=<REDACTED>"
      [VStr (db_Host c); VInt (db_Port c); VStr (db_Username c); VStr (db_Name c); VStr (db_SSLMode c)]
  else
    Sprintf "host=%s port=%d user=%s password='<REDACTED>' dbname=%s sslmode=%s"
      [VStr (db_Host c); VInt (db_Port c); VStr (db_Username c); VStr (db_Name c); VStr (db_SSLMode c)].

(** *** pkg/client/observatorium/observability_config.go *)

Record ObservabilityConfiguration := mkObservabilityConfiguration {
  ob_RedHatSSOGatewayURL : string; ob_RedHatSSOAuthServerURL : string; ob_RedHatSSORealm : string;
  ob_RedHatSSOTenant : string; ob_RedHatSSOTokenRefresherURL : string; ob_MetricsClientID : string;
  ob_MetricsClientIDFile : string; ob_MetricsSecret : string; ob_MetricsSecretFile : string; ob_LogsClientID : string;
  ob_LogsClientIDFile : string; ob_LogsSecret : string; ob_LogsSecretFile : string; ob_Timeout : Z; ob_Insecure : bool;
  ob_Debug : bool; ob_EnableMock : bool; ob_ObservabilityConfigTag : string; ob_ObservabilityConfigRepo : string;
  ob_ObservabilityConfigChannel : string; ob_ObservabilityConfigAccessToken : string;
  ob_ObservabilityConfigAccessTokenFile : string
}.
Definition set_ob_MetricsClientID (v : string) (c : ObservabilityConfiguration) : ObservabilityConfiguration :=
  mkObservabilityConfiguration (ob_RedHatSSOGatewayURL c) (ob_RedHatSSOAuthServerURL c) (ob_RedHatSSORealm c)
    (ob_RedHatSSOTenant c) (ob_RedHatSSOTokenRefresherURL c) v (ob_MetricsClientIDFile c) (ob_MetricsSecret c)
    (ob_MetricsSecretFile c) (ob_LogsClientID c) (ob_LogsClientIDFile c) (ob_LogsSecret c) (ob_LogsSecretFile c)
    (ob_Timeout c) (ob_Insecure c) (ob_Debug c) (ob_EnableMock c) (ob_ObservabilityConfigTag c)
    (ob_ObservabilityConfigRepo c) (ob_ObservabilityConfigChannel c) (ob_ObservabilityConfigAccessToken c)
    (ob_ObservabilityConfigAccessTokenFile c).
Definition set_ob_MetricsSecret (v : string) (c : ObservabilityConfiguration) : ObservabilityConfiguration :=
  mkObservabilityConfiguration (ob_RedHatSSOGatewayURL c) (ob_RedHatSSOAuthServerURL c) (ob_RedHatSSORealm c)
    (ob_RedHatSSOTenant c) (ob_RedHatSSOTokenRefresherURL c) (ob_MetricsClientID c) (ob_MetricsClientIDFile c) v
    (ob_MetricsSecretFile c) (ob_LogsClientID c) (ob_LogsClientIDFile c) (ob_LogsSecret c) (ob_LogsSecretFile c)
    (ob_Timeout c) (ob_Insecure c) (ob_Debug c) (ob_EnableMock c) (ob_ObservabilityConfigTag c)
    (ob_ObservabilityConfigRepo c) (ob_ObservabilityConfigChannel c) (ob_ObservabilityConfigAccessToken c)
    (ob_ObservabilityConfigAccessTokenFile c).
Definition set_ob_LogsClientID (v : string) (c : ObservabilityConfiguration) : ObservabilityConfiguration :=
  mkObservabilityConfiguration (ob_RedHatSSOGatewayURL c) (ob_RedHatSSOAuthServerURL c) (ob_RedHatSSORealm c)
    (ob_RedHatSSOTenant c) (ob_RedHatSSOTokenRefresherURL c) (ob_MetricsClientID c) (ob_MetricsClientIDFile c)
    (ob_MetricsSecret c) (ob_MetricsSecretFile c) v (ob_LogsClientIDFile c) (ob_LogsSecret c) (ob_LogsSecretFile c)
    (ob_Timeout c) (ob_Insecure c) (ob_Debug c) (ob_EnableMock c) (ob_ObservabilityConfigTag c)
    (ob_ObservabilityConfigRepo c) (ob_ObservabilityConfigChannel c) (ob_ObservabilityConfigAccessToken c)
    (ob_ObservabilityConfigAccessTokenFile c).
Definition set_ob_LogsSecret (v : string) (c : ObservabilityConfiguration) : ObservabilityConfiguration :=
  mkObservabilityConfiguration (ob_RedHatSSOGatewayURL c) (ob_RedHatSSOAuthServerURL c) (ob_RedHatSSORealm c)
    (ob_RedHatSSOTenant c) (ob_RedHatSSOTokenRefresherURL c) (ob_MetricsClientID c) (ob_MetricsClientIDFile c)
    (ob_MetricsSecret c) (ob_MetricsSecretFile c) (ob_LogsClientID c) (ob_LogsClientIDFile c) v (ob_LogsSecretFile c)
    (ob_Timeout c) (ob_Insecure c) (ob_Debug c) (ob_EnableMock c) (ob_ObservabilityConfigTag c)
    (ob_ObservabilityConfigRepo c) (ob_ObservabilityConfigChannel c) (ob_ObservabilityConfigAccessToken c)
    (ob_ObservabilityConfigAccessTokenFile c).
Definition set_ob_EnableMock (v : bool) (c : ObservabilityConfiguration) : ObservabilityConfiguration :=
  mkObservabilityConfiguration (ob_RedHatSSOGatewayURL c) (ob_RedHatSSOAuthServerURL c) (ob_RedHatSSORealm c)
    (ob_RedHatSSOTenant c) (ob_RedHatSSOTokenRefresherURL c) (ob_MetricsClientID c) (ob_MetricsClientIDFile c)
    (ob_MetricsSecret c) (ob_MetricsSecretFile c) (ob_LogsClientID c) (ob_LogsClientIDFile c) (ob_LogsSecret c)
    (ob_LogsSecretFile c) (ob_Timeout c) (ob_Insecure c) (ob_Debug c) v (ob_ObservabilityConfigTag c)
    (ob_ObservabilityConfigRepo c) (ob_ObservabilityConfigChannel c) (ob_ObservabilityConfigAccessToken c)
    (ob_ObservabilityConfigAccessTokenFile c).
Definition set_ob_ObservabilityConfigAccessToken (v : string) (c : ObservabilityConfiguration) : ObservabilityConfiguration :=
  mkObservabilityConfiguration (ob_RedHatSSOGatewayURL c) (ob_RedHatSSOAuthServerURL c) (ob_RedHatSSORealm c)
    (ob_RedHatSSOTenant c) (ob_RedHatSSOTokenRefresherURL c) (ob_MetricsClientID c) (ob_MetricsClientIDFile c)
    (ob_MetricsSecret c) (ob_MetricsSecretFile c) (ob_LogsClientID c) (ob_LogsClientIDFile c) (ob_LogsSecret c)
    (ob_LogsSecretFile c) (ob_Timeout c) (ob_Insecure c) (ob_Debug c) (ob_EnableMock c) (ob_ObservabilityConfigTag c)
    (ob_ObservabilityConfigRepo c) (ob_ObservabilityConfigChannel c) v (ob_ObservabilityConfigAccessTokenFile c).

(** The timeout in nanoseconds. *)
Definition NewObservabilityConfigurationConfig : ObservabilityConfiguration :=
  mkObservabilityConfiguration "" "" "" "" "" "" "secrets/rhsso-metrics.clientId" "" "secrets/rhsso-metrics.clientSecret"
    "" "secrets/rhsso-logs.clientId" "" "secrets/rhsso-logs.clientSecret" 240000000000 true true false
    "main" "https://api.github.com/repos/bf2fc6cc711aee1a0c2a/observability-resources-mk/contents" "resources" ""
    "secrets/observability-config-access.token".

Definition ReadObservatoriumConfigFiles : loader ObservabilityConfiguration := fun c =>
  (within "reading observatorium config client ID file" (field ob_LogsClientID set_ob_LogsClientID (ReadFileValueString (ob_LogsClientIDFile c))) ;;?
   within "reading observatorium config secret file" (field ob_LogsSecret set_ob_LogsSecret (ReadFileValueString (ob_LogsSecretFile c))) ;;?
   within "reading observatorium config metrics client ID file"
     (field ob_MetricsClientID set_ob_MetricsClientID (ReadFileValueString (ob_MetricsClientIDFile c))) ;;?
   within "reading observatorium config metrics secret file"
     (field ob_MetricsSecret set_ob_MetricsSecret (ReadFileValueString (ob_MetricsSecretFile c)))) c.

Definition ObservabilityConfiguration_ReadFiles : loader ObservabilityConfiguration := fun c =>
  (ReadObservatoriumConfigFiles ;;?
   when_ (fun c => bool_decide (ob_ObservabilityConfigAccessToken c = "" /\ ob_ObservabilityConfigAccessTokenFile c <> ""))
     (within "reading observability config access token file"
        (field ob_ObservabilityConfigAccessToken set_ob_ObservabilityConfigAccessToken
           (ReadFileValueString (ob_ObservabilityConfigAccessTokenFile c))))) c.

(** *** Modules of one file: pkg/services/sentry/config.go, pkg/client/telemetry/config.go, pkg/server/server_config.go *)

Record SentryConfig := mkSentryConfig {
  sn_Enabled : bool; sn_Key : string; sn_URL : string; sn_Project : string; sn_Debug : bool; sn_Timeout : Z;
  sn_KeyFile : string
}.
Definition set_sn_Key (v : string) (c : SentryConfig) : SentryConfig :=
  mkSentryConfig (sn_Enabled c) v (sn_URL c) (sn_Project c) (sn_Debug c) (sn_Timeout c) (sn_KeyFile c).

Definition NewSentryConfig : SentryConfig := mkSentryConfig false "" "sentry.autom8.in" "8" false 0 "secrets/sentry.key".

Definition SentryConfig_ReadFiles : loader SentryConfig := fun c =>
  within "reading config files" (field sn_Key set_sn_Key (ReadFileValueString (sn_KeyFile c))) c.

Record TelemetryConfigImpl := mkTelemetryConfigImpl {
  tl_ClientID : string; tl_ClientName : string; tl_Endpoint : string; tl_StorageKey : string; tl_StorageKeyFile : string
}.
Definition set_tl_StorageKey (v : string) (c : TelemetryConfigImpl) : TelemetryConfigImpl :=
  mkTelemetryConfigImpl (tl_ClientID c) (tl_ClientName c) (tl_Endpoint c) v (tl_StorageKeyFile c).

Definition NewTelemetryConfig (HOSTNAME : option string) : TelemetryConfigImpl :=
  mkTelemetryConfigImpl (default "fleet-manager" HOSTNAME) "ACS Fleet Manager" "" "" "secrets/telemetry.storageKey".

Definition TelemetryConfig_ReadFiles : loader TelemetryConfigImpl := fun c =>
  let '(c1, _) := field tl_StorageKey set_tl_StorageKey (ReadFileValueString (tl_StorageKeyFile c)) c in (c1, None).

Record ServerConfig := mkServerConfig {
  sv_BindAddress : string; sv_HTTPSCertFile : string; sv_HTTPSKeyFile : string; sv_EnableHTTPS : bool;
  sv_JwksURL : string; sv_JwksFile : string; sv_TokenIssuerURL : string; sv_PublicHostURL : string;
  sv_EnableTermsAcceptance : bool; sv_ForceLeader : bool
}.
Definition set_sv_JwksFile (v : string) (c : ServerConfig) : ServerConfig :=
  mkServerConfig (sv_BindAddress c) (sv_HTTPSCertFile c) (sv_HTTPSKeyFile c) (sv_EnableHTTPS c) (sv_JwksURL c) v
    (sv_TokenIssuerURL c) (sv_PublicHostURL c) (sv_EnableTermsAcceptance c) (sv_ForceLeader c).

Definition NewServerConfig : ServerConfig :=
  mkServerConfig "localhost:8000" "" "" false "https://sso.redhat.com/auth/realms/redhat-external/protocol/openid-connect/certs"
    "config/jwks-file.json" "https://sso.redhat.com/auth/realms/redhat-external" "http://localhost" false false.

Definition ServerConfig_ReadFiles : loader ServerConfig := fun c => (set_sv_JwksFile (BuildFullFilePath (sv_JwksFile c)) c, None).

(** *** Lists decoded from YAML: pkg/acl, pkg/auth, pkg/quotamanagement, config/providers.go *)

Context `{!Yaml (list string)} `{!Yaml (list RolesConfiguration)} `{!Yaml ProviderConfig} `{!Yaml (list Organisation * list Account)}.

Record ACLFiles := mkACLFiles {
  al_DenyList : list string; al_DenyListConfigFile : string; al_EnableDenyList : bool
}.
Definition set_al_DenyList (v : list string) (c : ACLFiles) : ACLFiles :=
  mkACLFiles v (al_DenyListConfigFile c) (al_EnableDenyList c).

Definition NewAccessControlListConfig : ACLFiles := mkACLFiles [] "config/deny-list-configuration.yaml" false.

Definition AccessControlListConfig_ReadFiles : loader ACLFiles := fun c =>
  when_ al_EnableDenyList
    (field al_DenyList set_al_DenyList
       (read_decoded "reading file" (Sprintf "unmarshalling file %q" [VStr (al_DenyListConfigFile c)]) (al_DenyListConfigFile c))) c.

Record FleetShardAuthZConfig := mkFleetShardAuthZConfig {
  fz_Enabled : bool; fz_AllowedOrgIDs : list string; fz_AllowedOrgIDsFile : string
}.
Definition set_fz_AllowedOrgIDs (v : list string) (c : FleetShardAuthZConfig) : FleetShardAuthZConfig :=
  mkFleetShardAuthZConfig (fz_Enabled c) v (fz_AllowedOrgIDsFile c).

Definition NewFleetShardAuthZConfig : FleetShardAuthZConfig := mkFleetShardAuthZConfig true [] "config/fleetshard-authz-org-ids-prod.yaml".

Definition FleetShardAuthZConfig_ReadFiles : loader FleetShardAuthZConfig := fun c =>
  when_ fz_Enabled
    (field fz_AllowedOrgIDs set_fz_AllowedOrgIDs
       (read_decoded "reading FleedShard AuthZ config" "unmarshalling FleedShard AuthZ config" (fz_AllowedOrgIDsFile c))) c.

Record AdminRoleAuthZConfig := mkAdminRoleAuthZConfig {
  az_Enabled : bool; az_RolesConfigFile : string; az_RolesConfig : list RolesConfiguration
}.
Definition set_az_RolesConfig (v : list RolesConfiguration) (c : AdminRoleAuthZConfig) : AdminRoleAuthZConfig :=
  mkAdminRoleAuthZConfig (az_Enabled c) (az_RolesConfigFile c) v.

Definition NewAdminAuthZConfig : AdminRoleAuthZConfig := mkAdminRoleAuthZConfig true "config/admin-authz-roles-prod.yaml" [].

Definition validate_roles : loader AdminRoleAuthZConfig := fun c => (c, Failed <$> validateRolesConfiguration (az_RolesConfig c)).

Definition AdminRoleAuthZConfig_ReadFiles : loader AdminRoleAuthZConfig := fun c =>
  when_ az_Enabled
    (field az_RolesConfig set_az_RolesConfig
       (read_decoded "reading role authz config" "unmarshalling role authz config" (az_RolesConfigFile c)) ;;?
     validate_roles) c.

(** With the package variable [MaxAllowedInstances], which is a flag of the module. *)
Record QuotaListFiles := mkQuotaListFiles {
  qf_QuotaList : list Organisation * list Account; qf_QuotaListConfigFile : string;
  qf_EnableInstanceLimitControl : bool; qf_MaxAllowedInstances : Z
}.
Definition set_qf_QuotaList (v : list Organisation * list Account) (c : QuotaListFiles) : QuotaListFiles :=
  mkQuotaListFiles v (qf_QuotaListConfigFile c) (qf_EnableInstanceLimitControl c) (qf_MaxAllowedInstances c).

Definition NewQuotaManagementListConfig : QuotaListFiles :=
  mkQuotaListFiles ([], []) "config/quota-management-list-configuration.yaml" false 1.

(** A file that does not exist is no error. *)
Definition QuotaManagementListConfig_ReadFiles : loader QuotaListFiles := fun c =>
  let '(c1, r) := field qf_QuotaList set_qf_QuotaList
    (read_decoded "reading quota management list config file" "unmarshalling quota management list config file" (qf_QuotaListConfigFile c)) c in
  match r with
  | Some err => if Is_ErrNotExist err then (c1, None) else (c1, Some err)
  | None => (c1, None)
  end.

Record ProviderFiles := mkProviderFiles {
  pf_ProvidersConfig : ProviderConfig; pf_ProvidersConfigFile : string
}.
Definition set_pf_ProvidersConfig (v : ProviderConfig) (c : ProviderFiles) : ProviderFiles :=
  mkProviderFiles v (pf_ProvidersConfigFile c).

Definition NewSupportedProvidersConfig : ProviderFiles := mkProviderFiles (mkProviderConfig []) "config/provider-configuration.yaml".

Definition ProviderConfig_ReadFiles : loader ProviderFiles := fun c =>
  field pf_ProvidersConfig set_pf_ProvidersConfig
    (read_decoded "reading providers config file" "unmarshalling providers config file from YAML" (pf_ProvidersConfigFile c)) c.
End modules.

(** *** internal/dinosaur/pkg/config/dataplane_cluster_config.go *)

(** The contexts of a kubeconfig file. *)
Definition kubeconfig : Type := gset string.

Class KubeHost := {
  os_Stat (path : string) : option load_error;
  clientcmd_RawConfig (path : string) : result error kubeconfig;
  (** [yaml.Unmarshal] of the list of clusters: every element is decoded by its own
      method [UnmarshalYAML], which is given the decoding of the plain value *)
  Unmarshal_clusters (UnmarshalYAML : result error ManualCluster -> result error ManualCluster) (text : string)
    : result error (list ManualCluster)
}.

Class KubeHostLaws `{KubeHost} := {
  Unmarshal_clusters_elements f text l : Unmarshal_clusters f text = Ok l ->
    Forall (fun c => exists plain, f plain = Ok c) l
}.

Record OperatorInstallationConfig := mkOperatorInstallationConfig {
  ol_Namespace : string; ol_IndexImage : string; ol_CatalogSourceNamespace : string; ol_Package : string;
  ol_SubscriptionChannel : string
}.

Record DataplaneFiles := mkDataplaneFiles {
  dp_OpenshiftVersion : string; dp_ComputeMachineType : string; dp_ImagePullDockerConfigContent : string;
  dp_ImagePullDockerConfigFile : string; dp_DataPlaneClusterScalingType : string;
  dp_DataPlaneClusterConfigFile : string; dp_ReadOnlyUserList : list string; dp_ReadOnlyUserListFile : string;
  dp_ClusterConfig : ClusterConfig; dp_EnableReadyDataPlaneClustersReconcile : bool; dp_Kubeconfig : string;
  dp_RawKubernetesConfig : option kubeconfig; dp_CentralOperatorOLMConfig : OperatorInstallationConfig;
  dp_FleetshardOperatorOLMConfig : OperatorInstallationConfig
}.
Definition set_dp_ImagePullDockerConfigContent (v : string) (c : DataplaneFiles) : DataplaneFiles :=
  mkDataplaneFiles (dp_OpenshiftVersion c) (dp_ComputeMachineType c) v (dp_ImagePullDockerConfigFile c)
    (dp_DataPlaneClusterScalingType c) (dp_DataPlaneClusterConfigFile c) (dp_ReadOnlyUserList c)
    (dp_ReadOnlyUserListFile c) (dp_ClusterConfig c) (dp_EnableReadyDataPlaneClustersReconcile c) (dp_Kubeconfig c)
    (dp_RawKubernetesConfig c) (dp_CentralOperatorOLMConfig c) (dp_FleetshardOperatorOLMConfig c).
Definition set_dp_ReadOnlyUserList (v : list string) (c : DataplaneFiles) : DataplaneFiles :=
  mkDataplaneFiles (dp_OpenshiftVersion c) (dp_ComputeMachineType c) (dp_ImagePullDockerConfigContent c)
    (dp_ImagePullDockerConfigFile c) (dp_DataPlaneClusterScalingType c) (dp_DataPlaneClusterConfigFile c) v
    (dp_ReadOnlyUserListFile c) (dp_ClusterConfig c) (dp_EnableReadyDataPlaneClustersReconcile c) (dp_Kubeconfig c)
    (dp_RawKubernetesConfig c) (dp_CentralOperatorOLMConfig c) (dp_FleetshardOperatorOLMConfig c).
Definition set_dp_ClusterConfig (v : ClusterConfig) (c : DataplaneFiles) : DataplaneFiles :=
  mkDataplaneFiles (dp_OpenshiftVersion c) (dp_ComputeMachineType c) (dp_ImagePullDockerConfigContent c)
    (dp_ImagePullDockerConfigFile c) (dp_DataPlaneClusterScalingType c) (dp_DataPlaneClusterConfigFile c)
    (dp_ReadOnlyUserList c) (dp_ReadOnlyUserListFile c) v (dp_EnableReadyDataPlaneClustersReconcile c)
    (dp_Kubeconfig c) (dp_RawKubernetesConfig c) (dp_CentralOperatorOLMConfig c) (dp_FleetshardOperatorOLMConfig c).
Definition set_dp_RawKubernetesConfig (v : option kubeconfig) (c : DataplaneFiles) : DataplaneFiles :=
  mkDataplaneFiles (dp_OpenshiftVersion c) (dp_ComputeMachineType c) (dp_ImagePullDockerConfigContent c)
    (dp_ImagePullDockerConfigFile c) (dp_DataPlaneClusterScalingType c) (dp_DataPlaneClusterConfigFile c)
    (dp_ReadOnlyUserList c) (dp_ReadOnlyUserListFile c) (dp_ClusterConfig c)
    (dp_EnableReadyDataPlaneClustersReconcile c) (dp_Kubeconfig c) v (dp_CentralOperatorOLMConfig c)
    (dp_FleetshardOperatorOLMConfig c).

(** The part of the configuration that the services look at. *)
Definition dataplane_of (c : DataplaneFiles) : DataplaneClusterConfig :=
  mkDataplaneClusterConfig (dp_DataPlaneClusterScalingType c) (dp_ClusterConfig c) (dp_EnableReadyDataPlaneClustersReconcile c).

Definition getDefaultKubeconfig (home : option string) : string :=
  match home with None => "" | Some h => path_Join h ".kube/config" end.

Definition NewDataplaneClusterConfig (home : option string) : DataplaneFiles :=
  mkDataplaneFiles "" "m5.2xlarge" "" "secrets/image-pull.dockerconfigjson" ManualScaling "config/dataplane-cluster-configuration.yaml"
    [] "config/read-only-user-list.yaml" (mkClusterConfig [] ∅) true (getDefaultKubeconfig home) None
    (mkOperatorInstallationConfig "redhat-managed-central-operator" "quay.io/osd-addons/managed-central:production-82b42db" "openshift-marketplace" "managed-central" "alpha")
    (mkOperatorInstallationConfig "redhat-fleetshard-operator" "quay.io/osd-addons/fleetshard-operator:production-82b42db" "openshift-marketplace" "fleetshard-operator" "alpha").

Section dataplane.
Context `{Host} `{KubeHost} `{!Yaml (list string)}.

Definition readKubeconfig : loader DataplaneFiles := fun c =>
  match os_Stat (dp_Kubeconfig c) with
  | Some err =>
      (c, Some (if Is_ErrNotExist err then Failed (ETraced (Sprintf "The kubeconfig file %s does not exist" [VStr (dp_Kubeconfig c)]))
                else Within "retrieving FileInfo for kubeconfig" err))
  | None =>
      match clientcmd_RawConfig (dp_Kubeconfig c) with
      | Err err => (c, Some (Within "reading kubeconfig" (Failed err)))
      | Ok rawConfig => (set_dp_RawKubernetesConfig (Some rawConfig) c, None)
      end
  end.

Definition validateClusterIsInKubeconfigContext (rawConfig : kubeconfig) (cluster : ManualCluster) : option load_error :=
  if bool_decide (mc_Name cluster ∈ rawConfig) then None
  else Some (Failed (ETraced (Sprintf "standalone cluster with ID: %s, and Name %s not in kubeconfig context"
         [VStr (mc_ClusterID cluster); VStr (mc_Name cluster)]))).

(** A validation after [readKubeconfig] finds the contexts set. *)
Definition validate_context (cluster : ManualCluster) : loader DataplaneFiles := fun c =>
  (c, validateClusterIsInKubeconfigContext (default ∅ (dp_RawKubernetesConfig c)) cluster).

Fixpoint validate_standalone (clusters : list ManualCluster) : loader DataplaneFiles :=
  match clusters with
  | [] => load_nothing
  | cluster :: clusters =>
      if bool_decide (mc_ProviderType cluster <> ClusterProviderStandalone) then validate_standalone clusters
      else when_ (fun c => bool_decide (dp_RawKubernetesConfig c = None)) readKubeconfig ;;?
           validate_context cluster ;;? validate_standalone clusters
  end.

Definition readDataPlaneClusterConfig (file : string) : result load_error (list ManualCluster) :=
  let failed err := Err (Within "reading data plane cluster config file" err) in
  match ReadFile file with
  | Err err => failed err
  | Ok fileContents =>
      match Unmarshal_clusters ManualCluster_UnmarshalYAML fileContents with
      | Err err => failed (Failed err)
      | Ok l => Ok l
      end
  end.

Definition load_clusters : loader DataplaneFiles := fun c =>
  match readDataPlaneClusterConfig (dp_DataPlaneClusterConfigFile c) with
  | Err err => (c, Some err)
  | Ok l => validate_standalone l (set_dp_ClusterConfig (NewClusterConfig l) c)
  end.

Definition DataplaneClusterConfig_ReadFiles : loader DataplaneFiles := fun c =>
  (when_ (fun c => bool_decide (dp_ImagePullDockerConfigContent c = "" /\ dp_ImagePullDockerConfigFile c <> ""))
     (within "reading image pull docker config file"
        (field dp_ImagePullDockerConfigContent set_dp_ImagePullDockerConfigContent (ReadFileValueString (dp_ImagePullDockerConfigFile c)))) ;;?
   when_ (fun c => IsDataPlaneManualScalingEnabled (dataplane_of c)) load_clusters ;;?
   field dp_ReadOnlyUserList set_dp_ReadOnlyUserList
     (read_decoded "reading read-only user list file" "reading read-only user list file" (dp_ReadOnlyUserListFile c))) c.

End dataplane.
