(* ===== verification/Iam.v ===== *)
(** * The identity server: configuration and client

    pkg/client/iam/config.go: the realms and the additional issuers of tokens;
    pkg/client/iam/client.go: the client of Keycloak with its cache of tokens;
    pkg/shared/is_jwt_token_expired.go.  The HTTP client, the JSON decoder, the JWT
    parser and gocloak are parameters.  [issuers_of] is the list of issuers that
    routes/route_loader.go gives to the routes of Auth.v. *)

From Stdlib Require Import QArith.
From S2P Require Import Prelude GoString GoFmt GoPath ServiceErrors CentralRequest Versions ClusterTypes Config Providers ApiFramework Auth ConfigFiles.
Local Open Scope string_scope.
Local Open Scope Z_scope.

(** ** Configuration *)

Record AdditionalSSOIssuers := mkAdditionalSSOIssuers {
  ai_URIs : list string; ai_JWKSURIs : list string; ai_File : string; ai_Enabled : bool
}.
Definition set_ai_URIs (v : list string) (c : AdditionalSSOIssuers) : AdditionalSSOIssuers :=
  mkAdditionalSSOIssuers v (ai_JWKSURIs c) (ai_File c) (ai_Enabled c).
Definition set_ai_JWKSURIs (v : list string) (c : AdditionalSSOIssuers) : AdditionalSSOIssuers :=
  mkAdditionalSSOIssuers (ai_URIs c) v (ai_File c) (ai_Enabled c).

(** [make([]string, 0, n)] has length 0, and [copy] copies as many elements as the
    shorter of its arguments has. *)
Definition slice_copy {A} (dst src : list A) : list A :=
  (take (length dst) src ++ drop (length src) dst)%list.

Definition GetURIs (a : AdditionalSSOIssuers) : list string :=
  let uris := [] in slice_copy uris (ai_URIs a).

Record IAMRealmConfig := mkIAMRealmConfig {
  rl_BaseURL : string; rl_Realm : string; rl_ClientID : string; rl_ClientIDFile : string; rl_ClientSecret : string;
  rl_ClientSecretFile : string; rl_GrantType : string; rl_TokenEndpointURI : string; rl_JwksEndpointURI : string;
  rl_ValidIssuerURI : string; rl_APIEndpointURI : string
}.
Definition set_rl_ClientID (v : string) (c : IAMRealmConfig) : IAMRealmConfig :=
  mkIAMRealmConfig (rl_BaseURL c) (rl_Realm c) v (rl_ClientIDFile c) (rl_ClientSecret c) (rl_ClientSecretFile c)
    (rl_GrantType c) (rl_TokenEndpointURI c) (rl_JwksEndpointURI c) (rl_ValidIssuerURI c) (rl_APIEndpointURI c).
Definition set_rl_ClientSecret (v : string) (c : IAMRealmConfig) : IAMRealmConfig :=
  mkIAMRealmConfig (rl_BaseURL c) (rl_Realm c) (rl_ClientID c) (rl_ClientIDFile c) v (rl_ClientSecretFile c)
    (rl_GrantType c) (rl_TokenEndpointURI c) (rl_JwksEndpointURI c) (rl_ValidIssuerURI c) (rl_APIEndpointURI c).

Definition setDefaultURIs (baseURL : string) (c : IAMRealmConfig) : IAMRealmConfig :=
  let realm := baseURL +:+ "/auth/realms/" +:+ rl_Realm c in
  mkIAMRealmConfig baseURL (rl_Realm c) (rl_ClientID c) (rl_ClientIDFile c) (rl_ClientSecret c) (rl_ClientSecretFile c) (rl_GrantType c)
    (realm +:+ "/protocol/openid-connect/token") (realm +:+ "/protocol/openid-connect/certs") realm (rl_APIEndpointURI c).

Definition IsConfigured (c : IAMRealmConfig) : bool := bool_decide (rl_ClientID c <> "").

(** The order in which a map is walked is not specified: [walk] is any order. *)
Definition validatedFields (c : IAMRealmConfig) : list (string * string) :=
  [("clientId", rl_ClientID c); ("clientSecret", rl_ClientSecret c); ("baseURL", rl_BaseURL c); ("realm", rl_Realm c);
   ("tokenEndpointURI", rl_TokenEndpointURI c); ("validIssuerURI", rl_ValidIssuerURI c); ("apiEndpointURI", rl_APIEndpointURI c)].

Definition validateConfiguration (walk : list (string * string) -> list (string * string)) (c : IAMRealmConfig) : option error :=
  if negb (IsConfigured c) then None
  else
    match list_find (fun f : string * string => f.2 = "") (walk (validatedFields c)) with
    | Some (_, (fieldName, _)) => Some (EPlain (Sprintf "%s is empty" [VStr fieldName]))
    | None =>
        if bool_decide (rl_GrantType c <> "client_credentials")
        then Some (EPlain (Sprintf "grant type %q is not supported" [VStr (rl_GrantType c)]))
        else None
    end.

Record IAMConfig := mkIAMConfig {
  ia_BaseURL : string; ia_SsoBaseURL : string; ia_InternalSsoBaseURL : string; ia_Debug : bool;
  ia_InsecureSkipVerify : bool; ia_RedhatSSORealm : IAMRealmConfig; ia_InternalSSORealm : IAMRealmConfig;
  ia_MaxAllowedServiceAccounts : Z; ia_MaxLimitForGetClients : Z; ia_LimitCheckSkipOrgIDListFile : string;
  ia_LimitCheckSkipOrgIDList : list string; ia_AdditionalSSOIssuers : AdditionalSSOIssuers
}.
Definition set_ia_RedhatSSORealm (v : IAMRealmConfig) (c : IAMConfig) : IAMConfig :=
  mkIAMConfig (ia_BaseURL c) (ia_SsoBaseURL c) (ia_InternalSsoBaseURL c) (ia_Debug c) (ia_InsecureSkipVerify c) v
    (ia_InternalSSORealm c) (ia_MaxAllowedServiceAccounts c) (ia_MaxLimitForGetClients c)
    (ia_LimitCheckSkipOrgIDListFile c) (ia_LimitCheckSkipOrgIDList c) (ia_AdditionalSSOIssuers c).
Definition set_ia_InternalSSORealm (v : IAMRealmConfig) (c : IAMConfig) : IAMConfig :=
  mkIAMConfig (ia_BaseURL c) (ia_SsoBaseURL c) (ia_InternalSsoBaseURL c) (ia_Debug c) (ia_InsecureSkipVerify c)
    (ia_RedhatSSORealm c) v (ia_MaxAllowedServiceAccounts c) (ia_MaxLimitForGetClients c)
    (ia_LimitCheckSkipOrgIDListFile c) (ia_LimitCheckSkipOrgIDList c) (ia_AdditionalSSOIssuers c).
Definition set_ia_LimitCheckSkipOrgIDList (v : list string) (c : IAMConfig) : IAMConfig :=
  mkIAMConfig (ia_BaseURL c) (ia_SsoBaseURL c) (ia_InternalSsoBaseURL c) (ia_Debug c) (ia_InsecureSkipVerify c)
    (ia_RedhatSSORealm c) (ia_InternalSSORealm c) (ia_MaxAllowedServiceAccounts c) (ia_MaxLimitForGetClients c)
    (ia_LimitCheckSkipOrgIDListFile c) v (ia_AdditionalSSOIssuers c).
Definition set_ia_AdditionalSSOIssuers (v : AdditionalSSOIssuers) (c : IAMConfig) : IAMConfig :=
  mkIAMConfig (ia_BaseURL c) (ia_SsoBaseURL c) (ia_InternalSsoBaseURL c) (ia_Debug c) (ia_InsecureSkipVerify c)
    (ia_RedhatSSORealm c) (ia_InternalSSORealm c) (ia_MaxAllowedServiceAccounts c) (ia_MaxLimitForGetClients c)
    (ia_LimitCheckSkipOrgIDListFile c) (ia_LimitCheckSkipOrgIDList c) v.

Definition NewIAMConfig : IAMConfig :=
  mkIAMConfig "" "https://sso.redhat.com" "https://auth.redhat.com" false false
    (mkIAMRealmConfig "" "redhat-external" "" "secrets/redhatsso-service.clientId" "" "secrets/redhatsso-service.clientSecret"
       "client_credentials" "" "" "" "/auth/realms/redhat-external")
    (mkIAMRealmConfig "" "EmployeeIDP" "" "" "" "" "" "" "" "" "/auth/realms/EmployeeIDP")
    50 100 "config/service-account-limits-check-skip-org-id-list.yaml" [] (mkAdditionalSSOIssuers [] [] "" false).

Definition openidConfigurationPath : string := "/.well-known/openid-configuration".

(** An HTTP response: its status and the reading of its body. *)
Class Web := {
  http_Get (url : string) : result error (Z * result error string);
  json_jwks_uri (body : string) : result error string
}.

Section config.
Context `{Host} `{Web} `{!Yaml (list string)} (walk : list (string * string) -> list (string * string)).

Definition getOpenIDConfiguration (baseURL : string) : result load_error string :=
  let url := TrimRight (Ascii.ascii_of_nat 47) baseURL +:+ openidConfigurationPath in
  match http_Get url with
  | Err err => Err (Within (Sprintf "executing HTTP GET request for URL %q" [VStr url]) (Failed err))
  | Ok (status, body) =>
      if negb (status =? 200) then Err (Failed (ETraced (Sprintf "failed to GET %q, received status code %d" [VStr url; VInt status])))
      else
        match body with
        | Err err => Err (Within "reading response" (Failed err))
        | Ok bytes =>
            match json_jwks_uri bytes with
            | Err err => Err (Within "unmarshalling json" (Failed err))
            | Ok uri => Ok uri
            end
        end
  end.

Fixpoint resolve_all (jwksURIs uris : list string) : result load_error (list string) :=
  match uris with
  | [] => Ok jwksURIs
  | issuerURI :: uris =>
      match getOpenIDConfiguration issuerURI with
      | Err err => Err (Within (Sprintf "retrieving open-id configuration for %q" [VStr issuerURI]) err)
      | Ok JwksURI =>
          if bool_decide (JwksURI = "")
          then Err (Failed (ETraced (Sprintf "no jwks URI found within open-id configuration for %q" [VStr issuerURI])))
          else resolve_all (jwksURIs ++ [JwksURI])%list uris
      end
  end.

Definition resolveURIs : loader AdditionalSSOIssuers := fun a =>
  match resolve_all [] (ai_URIs a) with
  | Err err => (a, Some err)
  | Ok jwksURIs => (set_ai_JWKSURIs jwksURIs a, None)
  end.

(** The decoded list replaces the issuers; a fresh list is decoded into. *)
Definition readAdditionalIssuersFile (file : string) : loader AdditionalSSOIssuers := fun endpoints =>
  match ReadYamlFile file [] with
  | (_, Some err) => (endpoints, Some (Within "reading from yaml file" err))
  | (issuers, None) => (set_ai_URIs issuers endpoints, None)
  end.

Definition ignore_missing {C} (m : loader C) : loader C := fun c =>
  let '(c1, r) := m c in
  match r with
  | Some err => if Is_ErrNotExist err then (c1, None) else (c1, Some err)
  | None => (c1, None)
  end.

Definition load_issuers : loader AdditionalSSOIssuers := fun a =>
  when_ ai_Enabled (ignore_missing (readAdditionalIssuersFile (ai_File a)) ;;? resolveURIs) a.

Definition realm_default_uris : loader IAMConfig := fun c =>
  let c := set_ia_RedhatSSORealm (setDefaultURIs (ia_SsoBaseURL c) (ia_RedhatSSORealm c)) c in
  (set_ia_InternalSSORealm (setDefaultURIs (ia_InternalSsoBaseURL c) (ia_InternalSSORealm c)) c, None).

Definition validate_realm (msg : string) (realm : IAMConfig -> IAMRealmConfig) : loader IAMConfig := fun c =>
  (c, Within msg ∘ Failed <$> validateConfiguration walk (realm c)).

Definition IAMConfig_ReadFiles : loader IAMConfig := fun c =>
  let redhat := ia_RedhatSSORealm c in
  (within (Sprintf "reading Red Hat SSO Realm ClientID file %q" [VStr (rl_ClientIDFile redhat)])
     (field ia_RedhatSSORealm set_ia_RedhatSSORealm (field rl_ClientID set_rl_ClientID (ReadFileValueString (rl_ClientIDFile redhat)))) ;;?
   within (Sprintf "reading Red Hat SSO Real Client secret file %q" [VStr (rl_ClientSecretFile redhat)])
     (field ia_RedhatSSORealm set_ia_RedhatSSORealm (field rl_ClientSecret set_rl_ClientSecret (ReadFileValueString (rl_ClientSecretFile redhat)))) ;;?
   ignore_missing
     (within (Sprintf "reading the service account limits check skip org ID yaml file %q" [VStr (ia_LimitCheckSkipOrgIDListFile c)])
        (field ia_LimitCheckSkipOrgIDList set_ia_LimitCheckSkipOrgIDList (ReadYamlFile (ia_LimitCheckSkipOrgIDListFile c)))) ;;?
   realm_default_uris ;;?
   validate_realm "validating external RH SSO realm config" ia_RedhatSSORealm ;;?
   validate_realm "validating internal RH SSO realm config" ia_InternalSSORealm ;;?
   field ia_AdditionalSSOIssuers set_ia_AdditionalSSOIssuers load_issuers) c.
End config.

(** ** The client of Keycloak (client.go) *)

(** gocloak's structures, with the fields that are looked at. *)
Record kc_Client := mkKcClient {
  kc_ID : option string; kc_ClientID : option string; kc_Name : option string; kc_Attributes : option (gmap string string);
  kc_Description : option string; kc_RedirectURIs : option (list string)
}.
Record kc_Role := mkKcRole { kr_Name : option string; kr_ID : option string }.
Record kc_User := mkKcUser { ku_ID : option string; ku_Attributes : option (gmap string (list string)) }.
Record GetClientsParams := mkGetClientsParams {
  gp_ClientID : option string; gp_First : option Z; gp_Max : option Z; gp_SearchableAttributes : option string
}.
Record TokenOptions := mkTokenOptions { to_ClientID : string; to_GrantType : string; to_ClientSecret : string }.

(** An error of gocloak: [*gocloak.APIError] with its code, or another one. *)
Inductive kc_error := APIError (code : Z) (msg : string) | OtherError (e : error).
Definition kc_Error (e : kc_error) : error := match e with APIError _ msg => EPlain msg | OtherError e => e end.

Definition isNotFoundError (e : kc_error) : bool :=
  match e with APIError code _ => code =? 404 | OtherError _ => false end.

(** Every call names the realm and, but for [GetToken], the access token. *)
Class GoCloak (K : Type) := {
  (** [time.Now()] in nanoseconds *)
  go_Now : prog K Z;
  go_GetToken (realm : string) (options : TokenOptions) : prog K (result kc_error string);
  go_CreateClient (token realm : string) (client : kc_Client) : prog K (result kc_error string);
  go_GetClients (token realm : string) (params : GetClientsParams) : prog K (result kc_error (list kc_Client));
  go_GetClient (token realm internalID : string) : prog K (result kc_error kc_Client);
  go_GetClientSecret (token realm internalID : string) : prog K (result kc_error (option string));
  go_RegenerateClientSecret (token realm internalID : string) : prog K (result kc_error (option string));
  go_DeleteClient (token realm internalID : string) : prog K (option kc_error);
  go_GetClientServiceAccount (token realm internalID : string) : prog K (result kc_error kc_User);
  go_UpdateUser (token realm : string) (user : kc_User) : prog K (option kc_error);
  go_GetRealmRole (token realm name : string) : prog K (result kc_error kc_Role);
  go_CreateRealmRole (token realm : string) (role : kc_Role) : prog K (result kc_error string);
  go_GetRealmRolesByUserID (token realm userID : string) : prog K (result kc_error (list kc_Role));
  go_AddRealmRoleToUser (token realm userID : string) (roles : list kc_Role) : prog K (option kc_error)
}.

(** [jwt.Parse], with or without a function that finds the key; the claims have an
    expiration time or not. *)
Class Jwt := { jwt_Parse (token : string) (keyfunc : option (string -> string)) : result error (option Q) }.

(** golang-jwt verifies every token: without a key function parsing fails. *)
Class JwtLaws `{Jwt} := { jwt_Parse_unverifiable token : exists e, jwt_Parse token None = Err e }.

Definition OrgKey : string := "rh-org-id".
Definition UserKey : string := "rh-user-id".
Definition tokenLifeDuration : Z := 300000000000.
Definition cacheCleanupInterval : Z := 300000000000.

Definition setTokenEndpoints (config : IAMConfig) (c : IAMRealmConfig) : IAMRealmConfig :=
  let realm := ia_BaseURL config +:+ "/auth/realms/" +:+ rl_Realm c in
  mkIAMRealmConfig (rl_BaseURL c) (rl_Realm c) (rl_ClientID c) (rl_ClientIDFile c) (rl_ClientSecret c) (rl_ClientSecretFile c) (rl_GrantType c)
    (realm +:+ "/protocol/openid-connect/token") (realm +:+ "/protocol/openid-connect/certs") realm (rl_APIEndpointURI c).

(** [cache.Cache]: the tokens with the time at which they expire. *)
Definition token_cache : Type := gmap string (string * Z).
Record iamClient (K : Type) := mkIamClient { ic_server : K; ic_cache : token_cache }.
Arguments mkIamClient {_}. Arguments ic_server {_}. Arguments ic_cache {_}.

Section client.
Context `{GoCloak K} `{Jwt} (config : IAMConfig) (realmConfig : IAMRealmConfig).

Definition on_server {A} (m : prog K A) : prog (iamClient K) A := fun s =>
  let '(k, a) := m (ic_server s) in (mkIamClient k (ic_cache s), a).

Definition cached_at (now : Z) (key : string) : prog (iamClient K) (option string) := fun s =>
  (s, match ic_cache s !! key with
      | Some (v, expiration) => if expiration <? now then None else Some v
      | None => None
      end).
Definition put_until (expiration : Z) (key v : string) : prog (iamClient K) unit := fun s =>
  (mkIamClient (ic_server s) (<[key := (v, expiration)]> (ic_cache s)), tt).

Definition cache_Get (key : string) : prog (iamClient K) (option string) :=
  now ← on_server go_Now; cached_at now key.

Definition cache_Set (key v : string) (d : Z) : prog (iamClient K) unit :=
  now ← on_server go_Now; put_until (now + d) key v.

(** [None]: a token without an expiration time makes the type assertion panic. *)
Definition IsJWTTokenExpired (accessToken : string) (unix_now : Z) : option bool :=
  match jwt_Parse accessToken None with
  | Err _ => Some true
  | Ok None => None
  | Ok (Some exp) => Some (Qle_bool (exp - inject_Z unix_now) 0)
  end.

Definition GetCachedToken (tokenKey : string) : prog (iamClient K) (result error string) :=
  r ← cache_Get tokenKey;
  mret (match r with Some ct => Ok ct | None => Err (ETraced "failed to retrieve cached token") end).

(** The call returns no answer when it panics. *)
Definition GetToken : prog (iamClient K) (option (result error string)) :=
  let options := mkTokenOptions (rl_ClientID realmConfig) (rl_GrantType realmConfig) (rl_ClientSecret realmConfig) in
  let cachedTokenKey := Sprintf "%s%s" [VStr (rl_ValidIssuerURI realmConfig); VStr (rl_ClientID realmConfig)] in
  let ask :=
    r ← on_server (go_GetToken (rl_Realm realmConfig) options);
    match r with
    | Err err => mret (Some (Err (EWrap "failed to get new token from gocloak with error" (kc_Error err))))
    | Ok token => _ ← cache_Set cachedTokenKey token cacheCleanupInterval; mret (Some (Ok token))
    end in
  c ← GetCachedToken cachedTokenKey;
  let cachedToken := match c with Ok t => t | Err _ => "" end in
  if bool_decide (cachedToken = "") then ask
  else
    now ← on_server go_Now;
    match IsJWTTokenExpired cachedToken (now / 1000000000) with
    | None => mret None
    | Some false => mret (Some (Ok cachedToken))
    | Some true => ask
    end.

(** A call whose error is wrapped. *)
Definition wrapped {A} (msg : string) (m : prog K (result kc_error A)) : prog (iamClient K) (result error A) :=
  r ← on_server m; mret (match r with Ok a => Ok a | Err err => Err (Errorf_w msg (kc_Error err)) end).
Definition wrapped_err (msg : string) (m : prog K (option kc_error)) : prog (iamClient K) (option error) :=
  r ← on_server m; mret ((fun err => Errorf_w msg (kc_Error err)) <$> r).

Definition realm : string := rl_Realm realmConfig.

Definition CreateClient (client : kc_Client) (accessToken : string) : prog (iamClient K) (result error string) :=
  wrapped "creating client" (go_CreateClient accessToken realm client).

Definition getClient (clientID accessToken : string) : prog (iamClient K) (result error (list kc_Client)) :=
  wrapped "getting clients" (go_GetClients accessToken realm (mkGetClientsParams (Some clientID) None None None)).

(** The first client with the given identifier; [None] is a panic: a client
    without an identifier comes before it. *)
Fixpoint find_client (clientID : string) (clients : list kc_Client) : option (option kc_Client) :=
  match clients with
  | [] => Some None
  | client :: clients =>
      match kc_ClientID client with
      | None => None
      | Some id => if bool_decide (id = clientID) then Some (Some client) else find_client clientID clients
      end
  end.

Definition GetClient (clientID accessToken : string) : prog (iamClient K) (option (result error (option kc_Client))) :=
  r ← getClient clientID accessToken;
  mret (match r with Err e => Some (Err e) | Ok clients => Ok <$> find_client clientID clients end).

Definition IsClientExist (clientID accessToken : string) : prog (iamClient K) (option (result error string)) :=
  if bool_decide (clientID = "") then mret (Some (Err (ETraced "clientId cannot be empty")))
  else
    r ← getClient clientID accessToken;
    mret (match r with
          | Err e => Some (Err e)
          | Ok clients =>
              found ← find_client clientID clients;
              match found with None => Some (Ok "") | Some client => Ok <$> kc_ID client end
          end).

Definition GetClientSecret (internalClientID accessToken : string) : prog (iamClient K) (result error string) :=
  r ← wrapped "getting client secret" (go_GetClientSecret accessToken realm internalClientID);
  mret (match r with
        | Err e => Err e
        | Ok None => Err (ETraced "failed to retrieve credentials")
        | Ok (Some v) => Ok v
        end).

Definition DeleteClient (internalClientID accessToken : string) : prog (iamClient K) (option error) :=
  wrapped_err "deleting client" (go_DeleteClient accessToken realm internalClientID).

Definition GetClientByID (internalID accessToken : string) : prog (iamClient K) (result error kc_Client) :=
  wrapped "getting client by ID" (go_GetClient accessToken realm internalID).

Definition GetClientServiceAccount (accessToken internalClient : string) : prog (iamClient K) (result error kc_User) :=
  wrapped "getting client ServiceAccount" (go_GetClientServiceAccount accessToken realm internalClient).

Definition UpdateServiceAccountUser (accessToken : string) (serviceAccountUser : kc_User) : prog (iamClient K) (option error) :=
  wrapped_err "updating service account user" (go_UpdateUser accessToken realm serviceAccountUser).

Definition GetClients (accessToken : string) (first max : Z) (attribute : string) : prog (iamClient K) (result error (list kc_Client)) :=
  let max := if max =? 0 then ia_MaxLimitForGetClients config else max in
  wrapped "getting clients" (go_GetClients accessToken realm
    (mkGetClientsParams None (Some first) (if 0 <? max then Some max else None) (Some attribute))).

(** [None]: a client without attributes makes the code panic. *)
Definition IsSameOrg (client : kc_Client) (orgID : string) : option bool :=
  if bool_decide (orgID = "") then Some false
  else attributes ← kc_Attributes client; Some (bool_decide (default "" (attributes !! OrgKey) = orgID)).

Definition IsOwner (client : kc_Client) (userID : string) : option bool :=
  if bool_decide (userID = "") then Some false
  else attributes ← kc_Attributes client;
       Some (match attributes !! UserKey with Some rhUserID => bool_decide (rhUserID = userID) | None => false end).

Definition RegenerateClientSecret (accessToken id : string) : prog (iamClient K) (result error (option string)) :=
  wrapped "regenerating client secrets" (go_RegenerateClientSecret accessToken realm id).

Definition GetRealmRole (accessToken roleName : string) : prog (iamClient K) (result error (option kc_Role)) :=
  r ← on_server (go_GetRealmRole accessToken realm roleName);
  mret (match r with
        | Ok role => Ok (Some role)
        | Err err => if isNotFoundError err then Ok None else Err (Errorf_w "getting realm role" (kc_Error err))
        end).

Definition CreateRealmRole (accessToken roleName : string) : prog (iamClient K) (result error kc_Role) :=
  r ← wrapped "creating realm role" (go_CreateRealmRole accessToken realm (mkKcRole (Some roleName) None));
  match r with
  | Err e => mret (Err e)
  | Ok _ => wrapped "getting realm role" (go_GetRealmRole accessToken realm roleName)
  end.

Fixpoint find_role (roleName : string) (roles : list kc_Role) : option (option kc_Role) :=
  match roles with
  | [] => Some None
  | r :: roles =>
      match kr_Name r with
      | None => None
      | Some name => if bool_decide (name = roleName) then Some (Some r) else find_role roleName roles
      end
  end.

Definition UserHasRealmRole (accessToken userID roleName : string) : prog (iamClient K) (option (result error (option kc_Role))) :=
  r ← wrapped "getting realm roles by UserID" (go_GetRealmRolesByUserID accessToken realm userID);
  mret (match r with Err e => Some (Err e) | Ok roles => Ok <$> find_role roleName roles end).

Definition AddRealmRoleToUser (accessToken userID : string) (role : kc_Role) : prog (iamClient K) (option error) :=
  wrapped_err "adding realm to user" (go_AddRealmRoleToUser accessToken realm userID [role]).
End client.

(** ** Theorems *)

(** *** The configuration *)

Lemma GetURIs_empty a : GetURIs a = [].
Proof. unfold GetURIs, slice_copy. simpl. by rewrite drop_nil. Qed.

(** Whatever the order in which the fields are visited, a realm passes exactly if it
    is not configured or complete. *)
Lemma validateConfiguration_ok walk c : (forall l, walk l ≡ₚ l) ->
  validateConfiguration walk c = None <->
  (rl_ClientID c <> "" -> Forall (fun f => f.2 <> "") (validatedFields c) /\ rl_GrantType c = "client_credentials").
Proof.
  intros Hw. unfold validateConfiguration, IsConfigured. case_bool_decide as Hid; simpl; [|by split].
  destruct (list_find _ _) as [[i [n v]]|] eqn:E.
  - apply list_find_Some in E as (Hi & Hv & _). split; [done|]. intros HF. destruct (HF Hid) as [HF' _].
    rewrite <- (Hw (validatedFields c)) in HF'. by destruct (Forall_lookup_1 _ _ _ _ HF' Hi Hv).
  - apply list_find_None in E. rewrite (Hw (validatedFields c)) in E. split.
    + case_bool_decide; [done|]. intros _ _. split; [exact E|done].
    + intros HF. destruct (HF Hid) as [_ Hg]. rewrite bool_decide_eq_false_2; [done|]. intros Hn. by apply Hn.
Qed.

Section issuers.
Context `{Web}.

Lemma resolve_all_spec : forall uris acc l, resolve_all acc uris = Ok l ->
  exists new, l = (acc ++ new)%list /\ Forall2 (fun u k => getOpenIDConfiguration u = Ok k /\ k <> "") uris new.
Proof.
  induction uris as [|u uris IH]; intros acc l; simpl.
  - intros [= <-]. exists []. by rewrite app_nil_r.
  - destruct (getOpenIDConfiguration u) as [k|] eqn:E; [|done]. case_bool_decide as Hk; [done|].
    intros (new & -> & HF)%IH. exists (k :: new). rewrite <- app_assoc. split; [done|]. constructor; [done|exact HF].
Qed.
End issuers.

(** *** The routes *)

(** The issuers of tokens that routes/route_loader.go gives to the public routes. *)
Definition token_issuers (iam : IAMConfig) (server : ServerConfig) : list string :=
  (GetURIs (ia_AdditionalSSOIssuers iam) ++ [sv_TokenIssuerURL server])%list.

(** ... and to the federation of metrics. *)
Definition federate_issuers (iam : IAMConfig) (server : ServerConfig) : list string :=
  (GetURIs (ia_AdditionalSSOIssuers iam) ++ [sv_TokenIssuerURL server; rl_ValidIssuerURI (ia_RedhatSSORealm iam)])%list.

Definition route_config (iam : IAMConfig) (server : ServerConfig) (acl : ACLFiles) (fleetshard : FleetShardAuthZConfig)
    (roles : AdminRoleAuthZConfig) : RouteConfig :=
  mkRouteConfig (token_issuers iam server) (rl_ValidIssuerURI (ia_InternalSSORealm iam)) (rl_ValidIssuerURI (ia_RedhatSSORealm iam))
    (sv_EnableTermsAcceptance server) (mkACL (al_DenyList acl) (al_EnableDenyList acl)) (fz_AllowedOrgIDs fleetshard) (az_RolesConfig roles).

Section routes.
Context {S R : Type} (names : ClaimNames) (VerifyIssuer : ACSClaims -> string -> bool).

(** C34. The additional issuers of tokens are never accepted: whatever issuers the
    configuration adds, the routes of centrals answer "unauthenticated", without
    running the handler, to every request whose token is not of the main issuer.
    ([GetURIs] copies the issuers into a slice of length zero.) *)
Theorem additional_issuers_refused iam server acl fleetshard roles (next : handler) (r : http_request) (s : S) claims :
  rq_Claims r = Ok claims -> VerifyIssuer claims (sv_TokenIssuerURL server) = false ->
  centrals_route (R := R) names VerifyIssuer (route_config iam server acl fleetshard roles) next r s =
    (s, RError (New ErrorUnauthenticated "" [])).
Proof.
  intros Hc Hv. unfold centrals_route, RequireIssuer. rewrite Hc. simpl. unfold token_issuers.
  rewrite GetURIs_empty. simpl. by rewrite Hv.
Qed.
End routes.

Lemma additional_issuers_refused_witness :
  let iam := set_ia_AdditionalSSOIssuers (mkAdditionalSSOIssuers ["https://sso.stage"] ["https://sso.stage/certs"] "f" true) NewIAMConfig in
  let claims : ACSClaims := {[ "iss" := CString "https://sso.stage" ]} in
  let verify (c : ACSClaims) i := match c !! "iss" with Some (CString s) => bool_decide (s = i) | _ => false end in
  let r := mkRequest "GET" (Ok claims) false false (fun _ => "") (fun _ => "") "" in
  verify claims "https://sso.stage" = true /\
  (centrals_route (S := unit) (R := unit) default_claims verify
     (route_config iam NewServerConfig NewAccessControlListConfig NewFleetShardAuthZConfig NewAdminAuthZConfig)
     (fun _ => mret (RJson 200 tt)) r tt).2 = RError (New ErrorUnauthenticated "" []).
Proof.
  intros iam claims verify r. split; [vm_compute; reflexivity|].
  rewrite (additional_issuers_refused default_claims verify iam NewServerConfig NewAccessControlListConfig NewFleetShardAuthZConfig
    NewAdminAuthZConfig _ r tt claims); [reflexivity..].
Defined.

(** *** The cache of tokens *)

Section token.
Context `{GoCloak K} `{JwtLaws} (realmConfig : IAMRealmConfig).
(** The clock does not move the server. *)
Hypothesis now_server : forall k : K, (go_Now k).1 = k.

Lemma IsJWTTokenExpired_always token now : IsJWTTokenExpired token now = Some true.
Proof. unfold IsJWTTokenExpired. by destruct (jwt_Parse_unverifiable token) as [e ->]. Qed.

Lemma on_server_now (s : iamClient K) : on_server go_Now s = (s, (go_Now (ic_server s)).2).
Proof. unfold on_server. rewrite (surjective_pairing (go_Now _)), now_server. by destruct s. Qed.

Definition token_options : TokenOptions :=
  mkTokenOptions (rl_ClientID realmConfig) (rl_GrantType realmConfig) (rl_ClientSecret realmConfig).

(** The cache of tokens is never used: every token counts as expired, since it
    is parsed without a key, and whatever the cache holds, a token is asked of the
    server and its answer is the answer.  (The cache is still filled.) *)
Theorem GetToken_never_cached (s : iamClient K) :
  (forall token now, IsJWTTokenExpired token now = Some true) /\
  (GetToken realmConfig s).2 =
    Some (match (go_GetToken (rl_Realm realmConfig) token_options (ic_server s)).2 with
          | Ok token => Ok token
          | Err err => Err (EWrap "failed to get new token from gocloak with error" (kc_Error err))
          end).
Proof.
  split; [apply IsJWTTokenExpired_always|].
  unfold GetToken, GetCachedToken, cache_Get. rewrite !prog_bind_run, on_server_now. simpl.
  set (cached := match _ with Some _ => _ | None => _ end). case_bool_decide.
  - rewrite prog_bind_run. unfold on_server, token_options. destruct (go_GetToken _ _ _) as [k [t|e]]; simpl; [|done].
    by rewrite !prog_bind_run.
  - rewrite prog_bind_run, on_server_now. simpl. rewrite IsJWTTokenExpired_always.
    rewrite prog_bind_run. unfold on_server, token_options. destruct (go_GetToken _ _ _) as [k [t|e]]; simpl; [|done].
    by rewrite !prog_bind_run.
Qed.
End token.

(** *** A server of tokens *)

(** The number of tokens given out; a token is valid for the time its text says
    nothing about. *)
#[export] Instance counting_server : GoCloak nat := {|
  go_Now n := (n, 1000000000000);
  go_GetToken _ _ n := (S n, Ok ("token-" +:+ Sprintf "%d" [VInt (Z.of_nat n)]));
  go_CreateClient _ _ _ n := (n, Err (APIError 403 "403 Forbidden"));
  go_GetClients _ _ _ n := (n, Ok []);
  go_GetClient _ _ _ n := (n, Err (APIError 404 "404 Not Found"));
  go_GetClientSecret _ _ _ n := (n, Ok None);
  go_RegenerateClientSecret _ _ _ n := (n, Ok None);
  go_DeleteClient _ _ _ n := (n, None);
  go_GetClientServiceAccount _ _ _ n := (n, Err (APIError 404 "404 Not Found"));
  go_UpdateUser _ _ _ n := (n, None);
  go_GetRealmRole _ _ _ n := (n, Err (APIError 404 "404 Not Found"));
  go_CreateRealmRole _ _ _ n := (n, Ok "");
  go_GetRealmRolesByUserID _ _ _ n := (n, Ok []);
  go_AddRealmRoleToUser _ _ _ _ n := (n, None)
|}.

(** A parser that needs a key. *)
#[export] Instance keyed_jwt : Jwt := {|
  jwt_Parse _ keyfunc := match keyfunc with None => Err (EPlain "no Keyfunc was provided.") | Some _ => Ok None end
|}.

#[export] Instance keyed_jwt_laws : JwtLaws.
Proof. split. intros token. simpl. eauto. Qed.

(** The second request asks the server again, although the first token has just
    been put into the cache. *)
Lemma GetToken_never_cached_witness :
  let c := ia_RedhatSSORealm NewIAMConfig in
  let s1 := (GetToken c (mkIamClient 0%nat ∅)).1 in
  ic_cache s1 !! "" = Some ("token-0", 1300000000000) /\ (GetToken c s1).2 = Some (Ok "token-1").
Proof.
  intros c s1. split; [vm_compute; reflexivity|].
  assert (Hn : forall k : nat, (go_Now k).1 = k) by reflexivity.
  rewrite (proj2 (GetToken_never_cached c Hn s1)). vm_compute. reflexivity.
Defined.
