(* ===== verification/Flags.v ===== *)
(** * Command line flags and named environments

    The [AddFlags] method of every configuration module, and
    internal/dinosaur/pkg/environments: the defaults of the named environments.
    A flag set maps names to typed values; a module declares its flags with the
    values it has, and its variables follow the flags ([..._bound]).  pflag is a
    library: [Pflag] is how it parses texts. *)

From S2P Require Import Prelude GoString GoFmt GoPath ServiceErrors CentralRequest Versions ClusterTypes Config Providers Auth ConfigFiles Iam.
Local Open Scope string_scope.
Local Open Scope Z_scope.

(** ** pflag *)

(** Durations in nanoseconds. *)
Inductive flag_value :=
| FString (s : string)
| FBool (b : bool)
| FInt (z : Z)
| FDuration (d : Z)
| FStrings (l : list string).

Abbreviation FlagSet := (gmap string flag_value).

Class Pflag := {
  parse_bool (text : string) : option bool;
  parse_int (text : string) : option Z;
  parse_duration (text : string) : option Z;
  parse_strings (text : string) : option (list string)
}.

(** The texts of Go's booleans and of decimal numbers are understood. *)
Class PflagLaws `{Pflag} := {
  parse_bool_text b : parse_bool (if b : bool then "true" else "false") = Some b;
  parse_int_text text z : Atoi text = (z, true) -> HasPrefix text "0" = false \/ text = "0" -> parse_int text = Some z
}.

(** Declaring a name twice is a panic. *)
Definition declare (fs : FlagSet) (f : string * flag_value) : option FlagSet :=
  match fs !! f.1 with Some _ => None | None => Some (<[f.1 := f.2]> fs) end.

Fixpoint declare_all (fs : FlagSet) (l : list (string * flag_value)) : option FlagSet :=
  match l with [] => Some fs | f :: l => fs1 ← declare fs f; declare_all fs1 l end.

Definition flag_string (fs : FlagSet) (name old : string) : string :=
  match fs !! name with Some (FString s) => s | _ => old end.
Definition flag_bool (fs : FlagSet) (name : string) (old : bool) : bool :=
  match fs !! name with Some (FBool b) => b | _ => old end.
Definition flag_int (fs : FlagSet) (name : string) (old : Z) : Z :=
  match fs !! name with Some (FInt z) => z | _ => old end.
Definition flag_duration (fs : FlagSet) (name : string) (old : Z) : Z :=
  match fs !! name with Some (FDuration d) => d | _ => old end.
Definition flag_strings (fs : FlagSet) (name : string) (old : list string) : list string :=
  match fs !! name with Some (FStrings l) => l | _ => old end.

Section pflag.
Context `{Pflag}.

(** The value a text stands for, of the kind of the current one. *)
Definition parse_as (current : flag_value) (text : string) : option flag_value :=
  match current with
  | FString _ => Some (FString text)
  | FBool _ => FBool <$> parse_bool text
  | FInt _ => FInt <$> parse_int text
  | FDuration _ => FDuration <$> parse_duration text
  | FStrings _ => FStrings <$> parse_strings text
  end.

Definition FlagSet_Set (fs : FlagSet) (name text : string) : result error FlagSet :=
  match fs !! name with
  | None => Err (EPlain (Sprintf "no such flag -%s" [VStr name]))
  | Some current =>
      match parse_as current text with
      | None => Err (EPlain (Sprintf "invalid argument %q for %q flag" [VStr text; VStr name]))
      | Some v => Ok (<[name := v]> fs)
      end
  end.

(** [defaults] are the entries of a map in the order in which it is walked. *)
Fixpoint setConfigDefaults (fs : FlagSet) (defaults : list (string * string)) : result error FlagSet :=
  match defaults with
  | [] => Ok fs
  | (name, value) :: defaults =>
      match FlagSet_Set fs name value with
      | Err err => Err (Errorf_w "setting flag" err)
      | Ok fs => setConfigDefaults fs defaults
      end
  end.
End pflag.

(** ** The modules *)

(** *** internal/dinosaur/pkg/config *)

Definition AWSConfig_AddFlags (c : AWSConfig) : list (string * flag_value) :=
  [("aws-account-id-file", FString (aws_AccountIDFile c));
   ("aws-access-key-file", FString (aws_AccessKeyFile c));
   ("aws-secret-access-key-file", FString (aws_SecretAccessKeyFile c));
   ("aws-route53-access-key-file", FString (aws_Route53AccessKeyFile c));
   ("aws-route53-secret-access-key-file", FString (aws_Route53SecretAccessKeyFile c))].

Definition AWSConfig_bound (fs : FlagSet) (c : AWSConfig) : AWSConfig :=
  mkAWSConfig (aws_AccountID c) (flag_string fs "aws-account-id-file" (aws_AccountIDFile c)) (aws_AccessKey c)
    (flag_string fs "aws-access-key-file" (aws_AccessKeyFile c)) (aws_SecretAccessKey c)
    (flag_string fs "aws-secret-access-key-file" (aws_SecretAccessKeyFile c)) (aws_Route53AccessKey c)
    (flag_string fs "aws-route53-access-key-file" (aws_Route53AccessKeyFile c)) (aws_Route53SecretAccessKey c)
    (flag_string fs "aws-route53-secret-access-key-file" (aws_Route53SecretAccessKeyFile c)).

Definition CentralConfig_AddFlags (c : CentralFiles) : list (string * flag_value) :=
  [("central-tls-cert-file", FString (cf_CentralTLSCertFile c));
   ("central-tls-key-file", FString (cf_CentralTLSKeyFile c));
   ("enable-central-external-certificate", FBool (cf_EnableCentralExternalCertificate c));
   ("enable-deletion-of-expired-central", FBool (cf_EnableDeletionOfExpiredCentral c));
   ("central-lifespan", FInt (cf_CentralLifespanInHours c));
   ("central-domain-name", FString (cf_CentralDomainName c));
   ("central-default-version", FString (cf_CentralDefaultVersion c));
   ("quota-type", FString (cf_QuotaType c));
   ("allow-evaluator-instance", FBool (cf_AllowEvaluatorInstance c));
   ("central-idp-client-id", FString (cf_CentralIDPClientID c));
   ("central-idp-client-secret-file", FString (cf_CentralIDPClientSecretFile c));
   ("central-idp-issuer", FString (cf_CentralIDPIssuer c))].

Definition CentralConfig_bound (fs : FlagSet) (c : CentralFiles) : CentralFiles :=
  mkCentralFiles (cf_CentralTLSCert c) (flag_string fs "central-tls-cert-file" (cf_CentralTLSCertFile c)) (cf_CentralTLSKey c)
    (flag_string fs "central-tls-key-file" (cf_CentralTLSKeyFile c))
    (flag_bool fs "enable-central-external-certificate" (cf_EnableCentralExternalCertificate c))
    (flag_string fs "central-domain-name" (cf_CentralDomainName c))
    (flag_string fs "central-default-version" (cf_CentralDefaultVersion c))
    (flag_bool fs "enable-deletion-of-expired-central" (cf_EnableDeletionOfExpiredCentral c))
    (flag_int fs "central-lifespan" (cf_CentralLifespanInHours c)) (flag_string fs "quota-type" (cf_QuotaType c))
    (flag_bool fs "allow-evaluator-instance" (cf_AllowEvaluatorInstance c))
    (flag_string fs "central-idp-client-id" (cf_CentralIDPClientID c)) (cf_CentralIDPClientSecret c)
    (flag_string fs "central-idp-client-secret-file" (cf_CentralIDPClientSecretFile c))
    (flag_string fs "central-idp-issuer" (cf_CentralIDPIssuer c)).

Definition ProviderConfig_AddFlags (c : ProviderFiles) : list (string * flag_value) :=
  [("providers-config-file", FString (pf_ProvidersConfigFile c))].

Definition ProviderConfig_bound (fs : FlagSet) (c : ProviderFiles) : ProviderFiles :=
  mkProviderFiles (pf_ProvidersConfig c) (flag_string fs "providers-config-file" (pf_ProvidersConfigFile c)).

Record FleetshardConfig := mkFleetshardConfig {
  fh_PollInterval : string; fh_ResyncInterval : string
}.

Definition NewFleetshardConfig : FleetshardConfig := mkFleetshardConfig "15s" "60s".

Definition FleetshardConfig_AddFlags (c : FleetshardConfig) : list (string * flag_value) :=
  [("fleetshard-poll-interval", FString (fh_PollInterval c));
   ("fleetshard-resync-interval", FString (fh_ResyncInterval c))].

Definition FleetshardConfig_bound (fs : FlagSet) (c : FleetshardConfig) : FleetshardConfig :=
  mkFleetshardConfig (flag_string fs "fleetshard-poll-interval" (fh_PollInterval c))
    (flag_string fs "fleetshard-resync-interval" (fh_ResyncInterval c)).

Record CentralRequestConfig := mkCentralRequestConfig {
  rq_ExpirationTimeout : Z; rq_InternalUserAgents : list string
}.

Definition NewCentralRequestConfig : CentralRequestConfig := mkCentralRequestConfig 3600000000000 ["fleet-manager-probe-service"].

Definition CentralRequestConfig_AddFlags (c : CentralRequestConfig) : list (string * flag_value) :=
  [("central-request-expiration-timeout", FDuration (rq_ExpirationTimeout c));
   ("central-request-internal-user-agents", FStrings (rq_InternalUserAgents c))].

Definition CentralRequestConfig_bound (fs : FlagSet) (c : CentralRequestConfig) : CentralRequestConfig :=
  mkCentralRequestConfig (flag_duration fs "central-request-expiration-timeout" (rq_ExpirationTimeout c))
    (flag_strings fs "central-request-internal-user-agents" (rq_InternalUserAgents c)).

(** *** The flags of an operator's installation *)

Definition CentralOperatorOLM_flags (c : OperatorInstallationConfig) : list (string * flag_value) :=
  [("central-operator-cs-namespace", FString (ol_CatalogSourceNamespace c));
   ("central-operator-index-image", FString (ol_IndexImage c));
   ("central-operator-namespace", FString (ol_Namespace c));
   ("central-operator-package", FString (ol_Package c));
   ("central-operator-sub-channel", FString (ol_SubscriptionChannel c))].

Definition CentralOperatorOLM_bound (fs : FlagSet) (c : OperatorInstallationConfig) : OperatorInstallationConfig :=
  mkOperatorInstallationConfig (flag_string fs "central-operator-namespace" (ol_Namespace c))
    (flag_string fs "central-operator-index-image" (ol_IndexImage c))
    (flag_string fs "central-operator-cs-namespace" (ol_CatalogSourceNamespace c))
    (flag_string fs "central-operator-package" (ol_Package c))
    (flag_string fs "central-operator-sub-channel" (ol_SubscriptionChannel c)).

Definition FleetshardOperatorOLM_flags (c : OperatorInstallationConfig) : list (string * flag_value) :=
  [("fleetshard-operator-cs-namespace", FString (ol_CatalogSourceNamespace c));
   ("fleetshard-operator-index-image", FString (ol_IndexImage c));
   ("fleetshard-operator-namespace", FString (ol_Namespace c));
   ("fleetshard-operator-package", FString (ol_Package c));
   ("fleetshard-operator-sub-channel", FString (ol_SubscriptionChannel c))].

Definition FleetshardOperatorOLM_bound (fs : FlagSet) (c : OperatorInstallationConfig) : OperatorInstallationConfig :=
  mkOperatorInstallationConfig (flag_string fs "fleetshard-operator-namespace" (ol_Namespace c))
    (flag_string fs "fleetshard-operator-index-image" (ol_IndexImage c))
    (flag_string fs "fleetshard-operator-cs-namespace" (ol_CatalogSourceNamespace c))
    (flag_string fs "fleetshard-operator-package" (ol_Package c))
    (flag_string fs "fleetshard-operator-sub-channel" (ol_SubscriptionChannel c)).

Definition DataplaneClusterConfig_flags (c : DataplaneFiles) : list (string * flag_value) :=
  [("cluster-openshift-version", FString (dp_OpenshiftVersion c));
   ("cluster-compute-machine-type", FString (dp_ComputeMachineType c));
   ("image-pull-docker-config-file", FString (dp_ImagePullDockerConfigFile c));
   ("dataplane-cluster-config-file", FString (dp_DataPlaneClusterConfigFile c));
   ("dataplane-cluster-scaling-type", FString (dp_DataPlaneClusterScalingType c));
   ("read-only-user-list-file", FString (dp_ReadOnlyUserListFile c));
   ("enable-ready-dataplane-clusters-reconcile", FBool (dp_EnableReadyDataPlaneClustersReconcile c))].

(** The flag "kubeconfig" may have been declared before, by a library: its
    definition is replaced. *)
Definition addKubeconfigFlag (c : DataplaneFiles) (fs : FlagSet) : FlagSet := <["kubeconfig" := FString (dp_Kubeconfig c)]> fs.

Definition DataplaneClusterConfig_AddFlags (c : DataplaneFiles) (fs : FlagSet) : option FlagSet :=
  fs ← declare_all fs (DataplaneClusterConfig_flags c);
  let fs := addKubeconfigFlag c fs in
  fs ← declare_all fs (CentralOperatorOLM_flags (dp_CentralOperatorOLMConfig c));
  declare_all fs (FleetshardOperatorOLM_flags (dp_FleetshardOperatorOLMConfig c)).

Definition DataplaneClusterConfig_bound (fs : FlagSet) (c : DataplaneFiles) : DataplaneFiles :=
  mkDataplaneFiles (flag_string fs "cluster-openshift-version" (dp_OpenshiftVersion c))
    (flag_string fs "cluster-compute-machine-type" (dp_ComputeMachineType c)) (dp_ImagePullDockerConfigContent c)
    (flag_string fs "image-pull-docker-config-file" (dp_ImagePullDockerConfigFile c))
    (flag_string fs "dataplane-cluster-scaling-type" (dp_DataPlaneClusterScalingType c))
    (flag_string fs "dataplane-cluster-config-file" (dp_DataPlaneClusterConfigFile c)) (dp_ReadOnlyUserList c)
    (flag_string fs "read-only-user-list-file" (dp_ReadOnlyUserListFile c)) (dp_ClusterConfig c)
    (flag_bool fs "enable-ready-dataplane-clusters-reconcile" (dp_EnableReadyDataPlaneClustersReconcile c))
    (flag_string fs "kubeconfig" (dp_Kubeconfig c)) (dp_RawKubernetesConfig c)
    (CentralOperatorOLM_bound fs (dp_CentralOperatorOLMConfig c))
    (FleetshardOperatorOLM_bound fs (dp_FleetshardOperatorOLMConfig c)).

(** *** pkg/client, pkg/db *)

Definition OCMConfig_AddFlags (c : OCMConfig) : list (string * flag_value) :=
  [("ocm-client-id-file", FString (oc_ClientIDFile c));
   ("ocm-client-secret-file", FString (oc_ClientSecretFile c));
   ("self-token-file", FString (oc_SelfTokenFile c));
   ("ocm-base-url", FString (oc_BaseURL c));
   ("ams-base-url", FString (oc_AmsURL c));
   ("ocm-token-url", FString (oc_TokenURL c));
   ("ocm-debug", FBool (oc_Debug c));
   ("enable-ocm-mock", FBool (oc_EnableMock c));
   ("ocm-mock-mode", FString (oc_MockMode c));
   ("central-operator-addon-id", FString (oc_CentralOperatorAddonID c));
   ("fleetshard-addon-id", FString (oc_FleetshardAddonID c))].

Definition OCMConfig_bound (fs : FlagSet) (c : OCMConfig) : OCMConfig :=
  mkOCMConfig (flag_string fs "ocm-base-url" (oc_BaseURL c)) (flag_string fs "ams-base-url" (oc_AmsURL c)) (oc_ClientID c)
    (flag_string fs "ocm-client-id-file" (oc_ClientIDFile c)) (oc_ClientSecret c)
    (flag_string fs "ocm-client-secret-file" (oc_ClientSecretFile c)) (oc_SelfToken c)
    (flag_string fs "self-token-file" (oc_SelfTokenFile c)) (flag_string fs "ocm-token-url" (oc_TokenURL c))
    (flag_bool fs "ocm-debug" (oc_Debug c)) (flag_bool fs "enable-ocm-mock" (oc_EnableMock c))
    (flag_string fs "ocm-mock-mode" (oc_MockMode c)) (flag_string fs "central-operator-addon-id" (oc_CentralOperatorAddonID c))
    (flag_string fs "fleetshard-addon-id" (oc_FleetshardAddonID c)).

Definition DatabaseConfig_AddFlags (c : DatabaseConfig) : list (string * flag_value) :=
  [("db-ssl-certificate-file", FString (db_DatabaseCaCertFile c));
   ("db-host-file", FString (db_HostFile c));
   ("db-port-file", FString (db_PortFile c));
   ("db-user-file", FString (db_UsernameFile c));
   ("db-password-file", FString (db_PasswordFile c));
   ("db-name-file", FString (db_NameFile c));
   ("db-sslmode", FString (db_SSLMode c));
   ("enable-db-debug", FBool (db_Debug c));
   ("db-max-open-connections", FInt (db_MaxOpenConnections c))].

Definition DatabaseConfig_bound (fs : FlagSet) (c : DatabaseConfig) : DatabaseConfig :=
  mkDatabaseConfig (db_Dialect c) (flag_string fs "db-sslmode" (db_SSLMode c)) (flag_bool fs "enable-db-debug" (db_Debug c))
    (flag_int fs "db-max-open-connections" (db_MaxOpenConnections c)) (db_Host c) (db_Port c) (db_Name c) (db_Username c)
    (db_Password c) (flag_string fs "db-ssl-certificate-file" (db_DatabaseCaCertFile c))
    (flag_string fs "db-host-file" (db_HostFile c)) (flag_string fs "db-port-file" (db_PortFile c))
    (flag_string fs "db-name-file" (db_NameFile c)) (flag_string fs "db-user-file" (db_UsernameFile c))
    (flag_string fs "db-password-file" (db_PasswordFile c)).

Definition ObservabilityConfiguration_AddFlags (c : ObservabilityConfiguration) : list (string * flag_value) :=
  [("observability-red-hat-sso-tenant", FString (ob_RedHatSSOTenant c));
   ("observability-red-hat-sso-auth-server-url", FString (ob_RedHatSSOAuthServerURL c));
   ("observability-red-hat-sso-observatorium-gateway", FString (ob_RedHatSSOGatewayURL c));
   ("observability-red-hat-sso-token-refresher-url", FString (ob_RedHatSSOTokenRefresherURL c));
   ("observability-red-hat-sso-logs-client-id-file", FString (ob_LogsClientIDFile c));
   ("observability-red-hat-sso-metrics-client-id-file", FString (ob_MetricsClientIDFile c));
   ("observability-red-hat-sso-logs-secret-file", FString (ob_LogsSecretFile c));
   ("observability-red-hat-sso-metrics-secret-file", FString (ob_MetricsSecretFile c));
   ("observability-red-hat-sso-realm", FString (ob_RedHatSSORealm c));
   ("observatorium-timeout", FDuration (ob_Timeout c));
   ("observatorium-ignore-ssl", FBool (ob_Insecure c));
   ("enable-observatorium-mock", FBool (ob_EnableMock c));
   ("observatorium-debug", FBool (ob_Debug c));
   ("observability-config-repo", FString (ob_ObservabilityConfigRepo c));
   ("observability-config-channel", FString (ob_ObservabilityConfigChannel c));
   ("observability-config-access-token-file", FString (ob_ObservabilityConfigAccessTokenFile c));
   ("observability-config-tag", FString (ob_ObservabilityConfigTag c))].

Definition ObservabilityConfiguration_bound (fs : FlagSet) (c : ObservabilityConfiguration) : ObservabilityConfiguration :=
  mkObservabilityConfiguration (flag_string fs "observability-red-hat-sso-observatorium-gateway" (ob_RedHatSSOGatewayURL c))
    (flag_string fs "observability-red-hat-sso-auth-server-url" (ob_RedHatSSOAuthServerURL c))
    (flag_string fs "observability-red-hat-sso-realm" (ob_RedHatSSORealm c))
    (flag_string fs "observability-red-hat-sso-tenant" (ob_RedHatSSOTenant c))
    (flag_string fs "observability-red-hat-sso-token-refresher-url" (ob_RedHatSSOTokenRefresherURL c)) (ob_MetricsClientID c)
    (flag_string fs "observability-red-hat-sso-metrics-client-id-file" (ob_MetricsClientIDFile c)) (ob_MetricsSecret c)
    (flag_string fs "observability-red-hat-sso-metrics-secret-file" (ob_MetricsSecretFile c)) (ob_LogsClientID c)
    (flag_string fs "observability-red-hat-sso-logs-client-id-file" (ob_LogsClientIDFile c)) (ob_LogsSecret c)
    (flag_string fs "observability-red-hat-sso-logs-secret-file" (ob_LogsSecretFile c))
    (flag_duration fs "observatorium-timeout" (ob_Timeout c)) (flag_bool fs "observatorium-ignore-ssl" (ob_Insecure c))
    (flag_bool fs "observatorium-debug" (ob_Debug c)) (flag_bool fs "enable-observatorium-mock" (ob_EnableMock c))
    (flag_string fs "observability-config-tag" (ob_ObservabilityConfigTag c))
    (flag_string fs "observability-config-repo" (ob_ObservabilityConfigRepo c))
    (flag_string fs "observability-config-channel" (ob_ObservabilityConfigChannel c)) (ob_ObservabilityConfigAccessToken c)
    (flag_string fs "observability-config-access-token-file" (ob_ObservabilityConfigAccessTokenFile c)).

Definition TelemetryConfig_AddFlags (c : TelemetryConfigImpl) : list (string * flag_value) :=
  [("telemetry-endpoint", FString (tl_Endpoint c));
   ("telemetry-storage-key-secret-file", FString (tl_StorageKeyFile c))].

Definition TelemetryConfig_bound (fs : FlagSet) (c : TelemetryConfigImpl) : TelemetryConfigImpl :=
  mkTelemetryConfigImpl (tl_ClientID c) (tl_ClientName c) (flag_string fs "telemetry-endpoint" (tl_Endpoint c)) (tl_StorageKey c)
    (flag_string fs "telemetry-storage-key-secret-file" (tl_StorageKeyFile c)).

Definition IAMConfig_AddFlags (c : IAMConfig) : list (string * flag_value) :=
  [("sso-base-url", FString (ia_BaseURL c));
   ("sso-debug", FBool (ia_Debug c));
   ("sso-insecure", FBool (ia_InsecureSkipVerify c));
   ("max-allowed-service-accounts", FInt (ia_MaxAllowedServiceAccounts c));
   ("max-limit-for-sso-get-clients", FInt (ia_MaxLimitForGetClients c));
   ("redhat-sso-client-id-file", FString (rl_ClientIDFile (ia_RedhatSSORealm c)));
   ("redhat-sso-client-secret-file", FString (rl_ClientSecretFile (ia_RedhatSSORealm c)));
   ("redhat-sso-base-url", FString (ia_SsoBaseURL c));
   ("service-account-limits-check-skip-org-id-list-file", FString (ia_LimitCheckSkipOrgIDListFile c));
   ("enable-additional-sso-issuers", FBool (ai_Enabled (ia_AdditionalSSOIssuers c)));
   ("additional-sso-issuers-file", FString (ai_File (ia_AdditionalSSOIssuers c)));
   ("internal-sso-base-url", FString (ia_InternalSsoBaseURL c))].

Definition realm_bound (fs : FlagSet) (c : IAMRealmConfig) : IAMRealmConfig :=
  mkIAMRealmConfig (rl_BaseURL c) (rl_Realm c) (rl_ClientID c) (flag_string fs "redhat-sso-client-id-file" (rl_ClientIDFile c)) (rl_ClientSecret c)
    (flag_string fs "redhat-sso-client-secret-file" (rl_ClientSecretFile c)) (rl_GrantType c) (rl_TokenEndpointURI c) (rl_JwksEndpointURI c)
    (rl_ValidIssuerURI c) (rl_APIEndpointURI c).

Definition issuers_bound (fs : FlagSet) (a : AdditionalSSOIssuers) : AdditionalSSOIssuers :=
  mkAdditionalSSOIssuers (ai_URIs a) (ai_JWKSURIs a) (flag_string fs "additional-sso-issuers-file" (ai_File a))
    (flag_bool fs "enable-additional-sso-issuers" (ai_Enabled a)).

Definition IAMConfig_bound (fs : FlagSet) (c : IAMConfig) : IAMConfig :=
  mkIAMConfig (flag_string fs "sso-base-url" (ia_BaseURL c)) (flag_string fs "redhat-sso-base-url" (ia_SsoBaseURL c))
    (flag_string fs "internal-sso-base-url" (ia_InternalSsoBaseURL c)) (flag_bool fs "sso-debug" (ia_Debug c))
    (flag_bool fs "sso-insecure" (ia_InsecureSkipVerify c)) (realm_bound fs (ia_RedhatSSORealm c)) (ia_InternalSSORealm c)
    (flag_int fs "max-allowed-service-accounts" (ia_MaxAllowedServiceAccounts c))
    (flag_int fs "max-limit-for-sso-get-clients" (ia_MaxLimitForGetClients c))
    (flag_string fs "service-account-limits-check-skip-org-id-list-file" (ia_LimitCheckSkipOrgIDListFile c))
    (ia_LimitCheckSkipOrgIDList c) (issuers_bound fs (ia_AdditionalSSOIssuers c)).

(** *** pkg/server, pkg/services/sentry *)

Definition ServerConfig_AddFlags (c : ServerConfig) : list (string * flag_value) :=
  [("api-server-bindaddress", FString (sv_BindAddress c));
   ("https-cert-file", FString (sv_HTTPSCertFile c));
   ("https-key-file", FString (sv_HTTPSKeyFile c));
   ("enable-https", FBool (sv_EnableHTTPS c));
   ("enable-terms-acceptance", FBool (sv_EnableTermsAcceptance c));
   ("jwks-url", FString (sv_JwksURL c));
   ("jwks-file", FString (sv_JwksFile c));
   ("token-issuer-url", FString (sv_TokenIssuerURL c));
   ("public-host-url", FString (sv_PublicHostURL c));
   ("force-leader", FBool (sv_ForceLeader c))].

Definition ServerConfig_bound (fs : FlagSet) (c : ServerConfig) : ServerConfig :=
  mkServerConfig (flag_string fs "api-server-bindaddress" (sv_BindAddress c))
    (flag_string fs "https-cert-file" (sv_HTTPSCertFile c)) (flag_string fs "https-key-file" (sv_HTTPSKeyFile c))
    (flag_bool fs "enable-https" (sv_EnableHTTPS c)) (flag_string fs "jwks-url" (sv_JwksURL c))
    (flag_string fs "jwks-file" (sv_JwksFile c)) (flag_string fs "token-issuer-url" (sv_TokenIssuerURL c))
    (flag_string fs "public-host-url" (sv_PublicHostURL c)) (flag_bool fs "enable-terms-acceptance" (sv_EnableTermsAcceptance c))
    (flag_bool fs "force-leader" (sv_ForceLeader c)).

(** [MetricsConfig] and [HealthCheckConfig] *)
Record BindConfig := mkBindConfig {
  bc_BindAddress : string; bc_EnableHTTPS : bool
}.

Definition NewMetricsConfig : BindConfig := mkBindConfig "localhost:8080" false.
Definition NewHealthCheckConfig : BindConfig := mkBindConfig "localhost:8083" false.

Definition MetricsConfig_AddFlags (c : BindConfig) : list (string * flag_value) :=
  [("metrics-server-bindaddress", FString (bc_BindAddress c));
   ("enable-metrics-https", FBool (bc_EnableHTTPS c))].

Definition MetricsConfig_bound (fs : FlagSet) (c : BindConfig) : BindConfig :=
  mkBindConfig (flag_string fs "metrics-server-bindaddress" (bc_BindAddress c))
    (flag_bool fs "enable-metrics-https" (bc_EnableHTTPS c)).

Definition HealthCheckConfig_AddFlags (c : BindConfig) : list (string * flag_value) :=
  [("health-check-server-bindaddress", FString (bc_BindAddress c));
   ("enable-health-check-https", FBool (bc_EnableHTTPS c))].

Definition HealthCheckConfig_bound (fs : FlagSet) (c : BindConfig) : BindConfig :=
  mkBindConfig (flag_string fs "health-check-server-bindaddress" (bc_BindAddress c))
    (flag_bool fs "enable-health-check-https" (bc_EnableHTTPS c)).

Definition SentryConfig_AddFlags (c : SentryConfig) : list (string * flag_value) :=
  [("enable-sentry", FBool (sn_Enabled c));
   ("sentry-key-file", FString (sn_KeyFile c));
   ("sentry-url", FString (sn_URL c));
   ("sentry-project", FString (sn_Project c));
   ("enable-sentry-debug", FBool (sn_Debug c));
   ("sentry-timeout", FDuration (sn_Timeout c))].

Definition SentryConfig_bound (fs : FlagSet) (c : SentryConfig) : SentryConfig :=
  mkSentryConfig (flag_bool fs "enable-sentry" (sn_Enabled c)) (sn_Key c) (flag_string fs "sentry-url" (sn_URL c))
    (flag_string fs "sentry-project" (sn_Project c)) (flag_bool fs "enable-sentry-debug" (sn_Debug c))
    (flag_duration fs "sentry-timeout" (sn_Timeout c)) (flag_string fs "sentry-key-file" (sn_KeyFile c)).

(** *** pkg/acl, pkg/auth, pkg/quotamanagement *)

Definition ACLConfig_AddFlags (c : ACLFiles) : list (string * flag_value) :=
  [("deny-list-config-file", FString (al_DenyListConfigFile c));
   ("enable-deny-list", FBool (al_EnableDenyList c))].

Definition ACLConfig_bound (fs : FlagSet) (c : ACLFiles) : ACLFiles :=
  mkACLFiles (al_DenyList c) (flag_string fs "deny-list-config-file" (al_DenyListConfigFile c))
    (flag_bool fs "enable-deny-list" (al_EnableDenyList c)).

Definition FleetShardAuthZConfig_AddFlags (c : FleetShardAuthZConfig) : list (string * flag_value) :=
  [("fleetshard-authz-config-file", FString (fz_AllowedOrgIDsFile c));
   ("enable-fleetshard-authz", FBool (fz_Enabled c))].

Definition FleetShardAuthZConfig_bound (fs : FlagSet) (c : FleetShardAuthZConfig) : FleetShardAuthZConfig :=
  mkFleetShardAuthZConfig (flag_bool fs "enable-fleetshard-authz" (fz_Enabled c)) (fz_AllowedOrgIDs c)
    (flag_string fs "fleetshard-authz-config-file" (fz_AllowedOrgIDsFile c)).

Definition AdminRoleAuthZConfig_AddFlags (c : AdminRoleAuthZConfig) : list (string * flag_value) :=
  [("admin-authz-config-file", FString (az_RolesConfigFile c));
   ("enable-admin-authz", FBool (az_Enabled c))].

Definition AdminRoleAuthZConfig_bound (fs : FlagSet) (c : AdminRoleAuthZConfig) : AdminRoleAuthZConfig :=
  mkAdminRoleAuthZConfig (flag_bool fs "enable-admin-authz" (az_Enabled c))
    (flag_string fs "admin-authz-config-file" (az_RolesConfigFile c)) (az_RolesConfig c).

Definition QuotaManagementListConfig_AddFlags (c : QuotaListFiles) : list (string * flag_value) :=
  [("quota-management-list-config-file", FString (qf_QuotaListConfigFile c));
   ("max-allowed-instances", FInt (qf_MaxAllowedInstances c));
   ("enable-instance-limit-control", FBool (qf_EnableInstanceLimitControl c))].

Definition QuotaManagementListConfig_bound (fs : FlagSet) (c : QuotaListFiles) : QuotaListFiles :=
  mkQuotaListFiles (qf_QuotaList c) (flag_string fs "quota-management-list-config-file" (qf_QuotaListConfigFile c))
    (flag_bool fs "enable-instance-limit-control" (qf_EnableInstanceLimitControl c))
    (flag_int fs "max-allowed-instances" (qf_MaxAllowedInstances c)).

(** The names of the claims are package variables. *)
Definition ContextConfig_AddFlags (c : ClaimNames) : list (string * flag_value) :=
  [("tenant-username-claim", FString (tenantUsernameClaim c));
   ("tenant-id-claim", FString (tenantIDClaim c));
   ("alternate-tenant-id-claim", FString (alternateTenantIDClaim c));
   ("tenant-org-admin-claim", FString (tenantOrgAdminClaim c));
   ("alternate-tenant-username-claim", FString (alternateTenantUsernameClaim c));
   ("tenant-account-id-claim", FString (tenantAccountIDClaim c));
   ("tenant-user-id-claim", FString (tenantUserIDClaim c));
   ("alternate-tenant-user-id-claim", FString (alternateTenantUserIDClaim c))].

Definition ContextConfig_bound (fs : FlagSet) (c : ClaimNames) : ClaimNames :=
  mkClaimNames (flag_string fs "tenant-username-claim" (tenantUsernameClaim c))
    (flag_string fs "alternate-tenant-username-claim" (alternateTenantUsernameClaim c))
    (flag_string fs "tenant-id-claim" (tenantIDClaim c)) (flag_string fs "alternate-tenant-id-claim" (alternateTenantIDClaim c))
    (flag_string fs "tenant-user-id-claim" (tenantUserIDClaim c))
    (flag_string fs "alternate-tenant-user-id-claim" (alternateTenantUserIDClaim c))
    (flag_string fs "tenant-org-admin-claim" (tenantOrgAdminClaim c))
    (flag_string fs "tenant-account-id-claim" (tenantAccountIDClaim c)) (tenantSubClaim c).


(** ** The named environments *)

Definition DevelopmentEnv_Defaults : list (string * string) :=
  [("v", "10");
   ("ocm-debug", "false");
   ("ams-base-url", "https://api.stage.openshift.com");
   ("ocm-base-url", "https://api.stage.openshift.com");
   ("enable-ocm-mock", "true");
   ("enable-https", "false");
   ("enable-metrics-https", "false");
   ("enable-terms-acceptance", "false");
   ("api-server-bindaddress", "localhost:8000");
   ("enable-sentry", "false");
   ("enable-deny-list", "true");
   ("enable-instance-limit-control", "false");
   ("sso-base-url", "https://sso.redhat.com");
   ("enable-central-external-certificate", "false");
   ("cluster-compute-machine-type", "m5.2xlarge");
   ("allow-evaluator-instance", "true");
   ("quota-type", "quota-management-list");
   ("enable-deletion-of-expired-central", "true");
   ("dataplane-cluster-scaling-type", "manual");
   ("central-operator-addon-id", "managed-central-qe");
   ("fleetshard-addon-id", "fleetshard-operator-qe");
   ("observability-red-hat-sso-auth-server-url", "https://sso.redhat.com/auth");
   ("observability-red-hat-sso-realm", "redhat-external");
   ("observability-red-hat-sso-token-refresher-url", "http://localhost:8085");
   ("observability-red-hat-sso-observatorium-gateway", "https://observatorium-mst.api.stage.openshift.com");
   ("observability-red-hat-sso-tenant", "manageddinosaur");
   ("enable-additional-sso-issuers", "true");
   ("additional-sso-issuers-file", "config/additional-sso-issuers.yaml");
   ("jwks-file", "config/jwks-file-static.json");
   ("fleetshard-authz-config-file", "config/fleetshard-authz-org-ids-development.yaml");
   ("central-idp-client-id", "rhacs-ms-dev");
   ("central-idp-issuer", "https://sso.stage.redhat.com/auth/realms/redhat-external");
   ("admin-authz-config-file", "config/admin-authz-roles-dev.yaml")].

Definition IntegrationEnv_Defaults : list (string * string) :=
  [("v", "0");
   ("logtostderr", "true");
   ("ocm-base-url", "https://api-integration.6943.hive-integration.openshiftapps.com");
   ("ams-base-url", "https://api-integration.6943.hive-integration.openshiftapps.com");
   ("enable-https", "false");
   ("enable-metrics-https", "false");
   ("enable-terms-acceptance", "false");
   ("ocm-debug", "false");
   ("enable-ocm-mock", "true");
   ("ocm-mock-mode", MockModeEmulateServer);
   ("enable-sentry", "false");
   ("enable-deny-list", "true");
   ("enable-instance-limit-control", "true");
   ("max-allowed-instances", "1");
   ("sso-base-url", "https://sso.redhat.com");
   ("enable-central-external-certificate", "false");
   ("cluster-compute-machine-type", "m5.xlarge");
   ("allow-evaluator-instance", "true");
   ("quota-type", "quota-management-list");
   ("enable-deletion-of-expired-central", "true");
   ("dataplane-cluster-scaling-type", "auto");
   ("central-operator-addon-id", "managed-central-qe");
   ("fleetshard-addon-id", "fleetshard-operator-qe")].

Definition ProductionEnv_Defaults : list (string * string) :=
  [("ocm-base-url", "https://api.openshift.com");
   ("ams-base-url", "https://api.openshift.com");
   ("v", "1");
   ("ocm-debug", "false");
   ("enable-ocm-mock", "false");
   ("enable-sentry", "true");
   ("enable-deny-list", "true");
   ("max-allowed-instances", "1");
   ("sso-base-url", "https://sso.redhat.com");
   ("enable-central-external-certificate", "true");
   ("cluster-compute-machine-type", "m5.2xlarge")].

Definition StageEnv_Defaults : list (string * string) :=
  [("ocm-base-url", "https://api.stage.openshift.com");
   ("ams-base-url", "https://api.stage.openshift.com");
   ("enable-ocm-mock", "false");
   ("enable-deny-list", "true");
   ("max-allowed-instances", "1");
   ("sso-base-url", "https://sso.redhat.com");
   ("enable-central-external-certificate", "true");
   ("cluster-compute-machine-type", "m5.2xlarge");
   ("enable-additional-sso-issuers", "true");
   ("additional-sso-issuers-file", "config/additional-sso-issuers.yaml");
   ("jwks-file", "config/jwks-file-static.json");
   ("fleetshard-authz-config-file", "config/fleetshard-authz-org-ids-development.yaml");
   ("admin-authz-config-file", "config/admin-authz-roles-dev.yaml")].

Definition TestingEnv_Defaults : list (string * string) := [].
