(* ===== verification/Environment.v ===== *)
(** * Starting the service

    pkg/environments/environment.go: the configuration modules of the service,
    their flags, the defaults of the named environment, reading the files,
    validation, and starting and stopping the boot services.  pkg/providers/core.go
    and internal/dinosaur/providers.go: which modules there are.

    The dependency injection container is a library: the modules come in some order,
    constructing the services and invoking the hooks may fail. *)

From Stdlib Require Import QArith.
From S2P Require Import Prelude GoString GoFmt GoPath ServiceErrors CentralRequest Versions ClusterTypes Config Providers Auth ConfigFiles Iam Flags.
Local Open Scope string_scope.
Local Open Scope Z_scope.

(** ** The modules of the service *)

Inductive ModuleKind :=
| MHealthCheck | MDatabase | MServer | MOCM | MIAM | MACL
| MQuotaList | MMetrics | MContext | MFleetShardAuthZ | MAdminAuthZ | MTelemetry
| MSentry | MAWS | MProviders | MObservability | MCentral | MDataplane
| MFleetshard | MCentralRequest.

#[export] Instance ModuleKind_eq_dec : EqDecision ModuleKind.
Proof. solve_decision. Defined.

Definition modules : list ModuleKind :=
  [MHealthCheck; MDatabase; MServer; MOCM; MIAM; MACL; MQuotaList; MMetrics; MContext; MFleetShardAuthZ;
   MAdminAuthZ; MTelemetry; MSentry; MAWS; MProviders; MObservability; MCentral; MDataplane; MFleetshard; MCentralRequest].

Record Configs := mkConfigs {
  cs_HealthCheck : BindConfig;
  cs_Database : DatabaseConfig;
  cs_Server : ServerConfig;
  cs_OCM : OCMConfig;
  cs_IAM : IAMConfig;
  cs_ACL : ACLFiles;
  cs_QuotaList : QuotaListFiles;
  cs_Metrics : BindConfig;
  cs_Context : ClaimNames;
  cs_FleetShardAuthZ : FleetShardAuthZConfig;
  cs_AdminAuthZ : AdminRoleAuthZConfig;
  cs_Telemetry : TelemetryConfigImpl;
  cs_Sentry : SentryConfig;
  cs_AWS : AWSConfig;
  cs_Providers : ProviderFiles;
  cs_Observability : ObservabilityConfiguration;
  cs_Central : CentralFiles;
  cs_Dataplane : DataplaneFiles;
  cs_Fleetshard : FleetshardConfig;
  cs_CentralRequest : CentralRequestConfig
}.

Definition module_state (k : ModuleKind) : Type :=
  match k with
  | MHealthCheck => BindConfig
  | MDatabase => DatabaseConfig
  | MServer => ServerConfig
  | MOCM => OCMConfig
  | MIAM => IAMConfig
  | MACL => ACLFiles
  | MQuotaList => QuotaListFiles
  | MMetrics => BindConfig
  | MContext => ClaimNames
  | MFleetShardAuthZ => FleetShardAuthZConfig
  | MAdminAuthZ => AdminRoleAuthZConfig
  | MTelemetry => TelemetryConfigImpl
  | MSentry => SentryConfig
  | MAWS => AWSConfig
  | MProviders => ProviderFiles
  | MObservability => ObservabilityConfiguration
  | MCentral => CentralFiles
  | MDataplane => DataplaneFiles
  | MFleetshard => FleetshardConfig
  | MCentralRequest => CentralRequestConfig
  end.

Definition get_module (k : ModuleKind) (c : Configs) : module_state k :=
  match k with
  | MHealthCheck => cs_HealthCheck c
  | MDatabase => cs_Database c
  | MServer => cs_Server c
  | MOCM => cs_OCM c
  | MIAM => cs_IAM c
  | MACL => cs_ACL c
  | MQuotaList => cs_QuotaList c
  | MMetrics => cs_Metrics c
  | MContext => cs_Context c
  | MFleetShardAuthZ => cs_FleetShardAuthZ c
  | MAdminAuthZ => cs_AdminAuthZ c
  | MTelemetry => cs_Telemetry c
  | MSentry => cs_Sentry c
  | MAWS => cs_AWS c
  | MProviders => cs_Providers c
  | MObservability => cs_Observability c
  | MCentral => cs_Central c
  | MDataplane => cs_Dataplane c
  | MFleetshard => cs_Fleetshard c
  | MCentralRequest => cs_CentralRequest c
  end.

Definition set_module (k : ModuleKind) : module_state k -> Configs -> Configs :=
  match k with
  | MHealthCheck => fun v c =>
      mkConfigs v (cs_Database c) (cs_Server c) (cs_OCM c) (cs_IAM c) (cs_ACL c) (cs_QuotaList c) (cs_Metrics c) (cs_Context c) (cs_FleetShardAuthZ c) (cs_AdminAuthZ c) (cs_Telemetry c) (cs_Sentry c) (cs_AWS c) (cs_Providers c) (cs_Observability c) (cs_Central c) (cs_Dataplane c) (cs_Fleetshard c) (cs_CentralRequest c)
  | MDatabase => fun v c =>
      mkConfigs (cs_HealthCheck c) v (cs_Server c) (cs_OCM c) (cs_IAM c) (cs_ACL c) (cs_QuotaList c) (cs_Metrics c) (cs_Context c) (cs_FleetShardAuthZ c) (cs_AdminAuthZ c) (cs_Telemetry c) (cs_Sentry c) (cs_AWS c) (cs_Providers c) (cs_Observability c) (cs_Central c) (cs_Dataplane c) (cs_Fleetshard c) (cs_CentralRequest c)
  | MServer => fun v c =>
      mkConfigs (cs_HealthCheck c) (cs_Database c) v (cs_OCM c) (cs_IAM c) (cs_ACL c) (cs_QuotaList c) (cs_Metrics c) (cs_Context c) (cs_FleetShardAuthZ c) (cs_AdminAuthZ c) (cs_Telemetry c) (cs_Sentry c) (cs_AWS c) (cs_Providers c) (cs_Observability c) (cs_Central c) (cs_Dataplane c) (cs_Fleetshard c) (cs_CentralRequest c)
  | MOCM => fun v c =>
      mkConfigs (cs_HealthCheck c) (cs_Database c) (cs_Server c) v (cs_IAM c) (cs_ACL c) (cs_QuotaList c) (cs_Metrics c) (cs_Context c) (cs_FleetShardAuthZ c) (cs_AdminAuthZ c) (cs_Telemetry c) (cs_Sentry c) (cs_AWS c) (cs_Providers c) (cs_Observability c) (cs_Central c) (cs_Dataplane c) (cs_Fleetshard c) (cs_CentralRequest c)
  | MIAM => fun v c =>
      mkConfigs (cs_HealthCheck c) (cs_Database c) (cs_Server c) (cs_OCM c) v (cs_ACL c) (cs_QuotaList c) (cs_Metrics c) (cs_Context c) (cs_FleetShardAuthZ c) (cs_AdminAuthZ c) (cs_Telemetry c) (cs_Sentry c) (cs_AWS c) (cs_Providers c) (cs_Observability c) (cs_Central c) (cs_Dataplane c) (cs_Fleetshard c) (cs_CentralRequest c)
  | MACL => fun v c =>
      mkConfigs (cs_HealthCheck c) (cs_Database c) (cs_Server c) (cs_OCM c) (cs_IAM c) v (cs_QuotaList c) (cs_Metrics c) (cs_Context c) (cs_FleetShardAuthZ c) (cs_AdminAuthZ c) (cs_Telemetry c) (cs_Sentry c) (cs_AWS c) (cs_Providers c) (cs_Observability c) (cs_Central c) (cs_Dataplane c) (cs_Fleetshard c) (cs_CentralRequest c)
  | MQuotaList => fun v c =>
      mkConfigs (cs_HealthCheck c) (cs_Database c) (cs_Server c) (cs_OCM c) (cs_IAM c) (cs_ACL c) v (cs_Metrics c) (cs_Context c) (cs_FleetShardAuthZ c) (cs_AdminAuthZ c) (cs_Telemetry c) (cs_Sentry c) (cs_AWS c) (cs_Providers c) (cs_Observability c) (cs_Central c) (cs_Dataplane c) (cs_Fleetshard c) (cs_CentralRequest c)
  | MMetrics => fun v c =>
      mkConfigs (cs_HealthCheck c) (cs_Database c) (cs_Server c) (cs_OCM c) (cs_IAM c) (cs_ACL c) (cs_QuotaList c) v (cs_Context c) (cs_FleetShardAuthZ c) (cs_AdminAuthZ c) (cs_Telemetry c) (cs_Sentry c) (cs_AWS c) (cs_Providers c) (cs_Observability c) (cs_Central c) (cs_Dataplane c) (cs_Fleetshard c) (cs_CentralRequest c)
  | MContext => fun v c =>
      mkConfigs (cs_HealthCheck c) (cs_Database c) (cs_Server c) (cs_OCM c) (cs_IAM c) (cs_ACL c) (cs_QuotaList c) (cs_Metrics c) v (cs_FleetShardAuthZ c) (cs_AdminAuthZ c) (cs_Telemetry c) (cs_Sentry c) (cs_AWS c) (cs_Providers c) (cs_Observability c) (cs_Central c) (cs_Dataplane c) (cs_Fleetshard c) (cs_CentralRequest c)
  | MFleetShardAuthZ => fun v c =>
      mkConfigs (cs_HealthCheck c) (cs_Database c) (cs_Server c) (cs_OCM c) (cs_IAM c) (cs_ACL c) (cs_QuotaList c) (cs_Metrics c) (cs_Context c) v (cs_AdminAuthZ c) (cs_Telemetry c) (cs_Sentry c) (cs_AWS c) (cs_Providers c) (cs_Observability c) (cs_Central c) (cs_Dataplane c) (cs_Fleetshard c) (cs_CentralRequest c)
  | MAdminAuthZ => fun v c =>
      mkConfigs (cs_HealthCheck c) (cs_Database c) (cs_Server c) (cs_OCM c) (cs_IAM c) (cs_ACL c) (cs_QuotaList c) (cs_Metrics c) (cs_Context c) (cs_FleetShardAuthZ c) v (cs_Telemetry c) (cs_Sentry c) (cs_AWS c) (cs_Providers c) (cs_Observability c) (cs_Central c) (cs_Dataplane c) (cs_Fleetshard c) (cs_CentralRequest c)
  | MTelemetry => fun v c =>
      mkConfigs (cs_HealthCheck c) (cs_Database c) (cs_Server c) (cs_OCM c) (cs_IAM c) (cs_ACL c) (cs_QuotaList c) (cs_Metrics c) (cs_Context c) (cs_FleetShardAuthZ c) (cs_AdminAuthZ c) v (cs_Sentry c) (cs_AWS c) (cs_Providers c) (cs_Observability c) (cs_Central c) (cs_Dataplane c) (cs_Fleetshard c) (cs_CentralRequest c)
  | MSentry => fun v c =>
      mkConfigs (cs_HealthCheck c) (cs_Database c) (cs_Server c) (cs_OCM c) (cs_IAM c) (cs_ACL c) (cs_QuotaList c) (cs_Metrics c) (cs_Context c) (cs_FleetShardAuthZ c) (cs_AdminAuthZ c) (cs_Telemetry c) v (cs_AWS c) (cs_Providers c) (cs_Observability c) (cs_Central c) (cs_Dataplane c) (cs_Fleetshard c) (cs_CentralRequest c)
  | MAWS => fun v c =>
      mkConfigs (cs_HealthCheck c) (cs_Database c) (cs_Server c) (cs_OCM c) (cs_IAM c) (cs_ACL c) (cs_QuotaList c) (cs_Metrics c) (cs_Context c) (cs_FleetShardAuthZ c) (cs_AdminAuthZ c) (cs_Telemetry c) (cs_Sentry c) v (cs_Providers c) (cs_Observability c) (cs_Central c) (cs_Dataplane c) (cs_Fleetshard c) (cs_CentralRequest c)
  | MProviders => fun v c =>
      mkConfigs (cs_HealthCheck c) (cs_Database c) (cs_Server c) (cs_OCM c) (cs_IAM c) (cs_ACL c) (cs_QuotaList c) (cs_Metrics c) (cs_Context c) (cs_FleetShardAuthZ c) (cs_AdminAuthZ c) (cs_Telemetry c) (cs_Sentry c) (cs_AWS c) v (cs_Observability c) (cs_Central c) (cs_Dataplane c) (cs_Fleetshard c) (cs_CentralRequest c)
  | MObservability => fun v c =>
      mkConfigs (cs_HealthCheck c) (cs_Database c) (cs_Server c) (cs_OCM c) (cs_IAM c) (cs_ACL c) (cs_QuotaList c) (cs_Metrics c) (cs_Context c) (cs_FleetShardAuthZ c) (cs_AdminAuthZ c) (cs_Telemetry c) (cs_Sentry c) (cs_AWS c) (cs_Providers c) v (cs_Central c) (cs_Dataplane c) (cs_Fleetshard c) (cs_CentralRequest c)
  | MCentral => fun v c =>
      mkConfigs (cs_HealthCheck c) (cs_Database c) (cs_Server c) (cs_OCM c) (cs_IAM c) (cs_ACL c) (cs_QuotaList c) (cs_Metrics c) (cs_Context c) (cs_FleetShardAuthZ c) (cs_AdminAuthZ c) (cs_Telemetry c) (cs_Sentry c) (cs_AWS c) (cs_Providers c) (cs_Observability c) v (cs_Dataplane c) (cs_Fleetshard c) (cs_CentralRequest c)
  | MDataplane => fun v c =>
      mkConfigs (cs_HealthCheck c) (cs_Database c) (cs_Server c) (cs_OCM c) (cs_IAM c) (cs_ACL c) (cs_QuotaList c) (cs_Metrics c) (cs_Context c) (cs_FleetShardAuthZ c) (cs_AdminAuthZ c) (cs_Telemetry c) (cs_Sentry c) (cs_AWS c) (cs_Providers c) (cs_Observability c) (cs_Central c) v (cs_Fleetshard c) (cs_CentralRequest c)
  | MFleetshard => fun v c =>
      mkConfigs (cs_HealthCheck c) (cs_Database c) (cs_Server c) (cs_OCM c) (cs_IAM c) (cs_ACL c) (cs_QuotaList c) (cs_Metrics c) (cs_Context c) (cs_FleetShardAuthZ c) (cs_AdminAuthZ c) (cs_Telemetry c) (cs_Sentry c) (cs_AWS c) (cs_Providers c) (cs_Observability c) (cs_Central c) (cs_Dataplane c) v (cs_CentralRequest c)
  | MCentralRequest => fun v c =>
      mkConfigs (cs_HealthCheck c) (cs_Database c) (cs_Server c) (cs_OCM c) (cs_IAM c) (cs_ACL c) (cs_QuotaList c) (cs_Metrics c) (cs_Context c) (cs_FleetShardAuthZ c) (cs_AdminAuthZ c) (cs_Telemetry c) (cs_Sentry c) (cs_AWS c) (cs_Providers c) (cs_Observability c) (cs_Central c) (cs_Dataplane c) (cs_Fleetshard c) v
  end.

(** The configuration before the flags: [home] and [HOSTNAME] are of the host. *)
Definition new_configs (home HOSTNAME : option string) : Configs :=
  mkConfigs NewHealthCheckConfig NewDatabaseConfig NewServerConfig NewOCMConfig NewIAMConfig NewAccessControlListConfig NewQuotaManagementListConfig NewMetricsConfig default_claims NewFleetShardAuthZConfig NewAdminAuthZConfig (NewTelemetryConfig HOSTNAME) NewSentryConfig NewAWSConfig NewSupportedProvidersConfig NewObservabilityConfigurationConfig NewCentralFiles (NewDataplaneClusterConfig home) NewFleetshardConfig NewCentralRequestConfig.

(** ** Flags *)

(** A module declares its flags; a name that is declared already is a panic. *)
Definition module_AddFlags (c : Configs) (fs : FlagSet) (k : ModuleKind) : option FlagSet :=
  match k with
  | MHealthCheck => declare_all fs (HealthCheckConfig_AddFlags (cs_HealthCheck c))
  | MDatabase => declare_all fs (DatabaseConfig_AddFlags (cs_Database c))
  | MServer => declare_all fs (ServerConfig_AddFlags (cs_Server c))
  | MOCM => declare_all fs (OCMConfig_AddFlags (cs_OCM c))
  | MIAM => declare_all fs (IAMConfig_AddFlags (cs_IAM c))
  | MACL => declare_all fs (ACLConfig_AddFlags (cs_ACL c))
  | MQuotaList => declare_all fs (QuotaManagementListConfig_AddFlags (cs_QuotaList c))
  | MMetrics => declare_all fs (MetricsConfig_AddFlags (cs_Metrics c))
  | MContext => declare_all fs (ContextConfig_AddFlags (cs_Context c))
  | MFleetShardAuthZ => declare_all fs (FleetShardAuthZConfig_AddFlags (cs_FleetShardAuthZ c))
  | MAdminAuthZ => declare_all fs (AdminRoleAuthZConfig_AddFlags (cs_AdminAuthZ c))
  | MTelemetry => declare_all fs (TelemetryConfig_AddFlags (cs_Telemetry c))
  | MSentry => declare_all fs (SentryConfig_AddFlags (cs_Sentry c))
  | MAWS => declare_all fs (AWSConfig_AddFlags (cs_AWS c))
  | MProviders => declare_all fs (ProviderConfig_AddFlags (cs_Providers c))
  | MObservability => declare_all fs (ObservabilityConfiguration_AddFlags (cs_Observability c))
  | MCentral => declare_all fs (CentralConfig_AddFlags (cs_Central c))
  | MDataplane => DataplaneClusterConfig_AddFlags (cs_Dataplane c) fs
  | MFleetshard => declare_all fs (FleetshardConfig_AddFlags (cs_Fleetshard c))
  | MCentralRequest => declare_all fs (CentralRequestConfig_AddFlags (cs_CentralRequest c))
  end.

Fixpoint modules_AddFlags (c : Configs) (fs : FlagSet) (ks : list ModuleKind) : option FlagSet :=
  match ks with [] => Some fs | k :: ks => fs ← module_AddFlags c fs k; modules_AddFlags c fs ks end.

(** The variables of the modules follow the flags. *)
Definition bound_configs (fs : FlagSet) (c : Configs) : Configs :=
  mkConfigs
    (HealthCheckConfig_bound fs (cs_HealthCheck c))
    (DatabaseConfig_bound fs (cs_Database c))
    (ServerConfig_bound fs (cs_Server c))
    (OCMConfig_bound fs (cs_OCM c))
    (IAMConfig_bound fs (cs_IAM c))
    (ACLConfig_bound fs (cs_ACL c))
    (QuotaManagementListConfig_bound fs (cs_QuotaList c))
    (MetricsConfig_bound fs (cs_Metrics c))
    (ContextConfig_bound fs (cs_Context c))
    (FleetShardAuthZConfig_bound fs (cs_FleetShardAuthZ c))
    (AdminRoleAuthZConfig_bound fs (cs_AdminAuthZ c))
    (TelemetryConfig_bound fs (cs_Telemetry c))
    (SentryConfig_bound fs (cs_Sentry c))
    (AWSConfig_bound fs (cs_AWS c))
    (ProviderConfig_bound fs (cs_Providers c))
    (ObservabilityConfiguration_bound fs (cs_Observability c))
    (CentralConfig_bound fs (cs_Central c))
    (DataplaneClusterConfig_bound fs (cs_Dataplane c))
    (FleetshardConfig_bound fs (cs_Fleetshard c))
    (CentralRequestConfig_bound fs (cs_CentralRequest c)).

(** *** The named environments *)

Definition DevelopmentEnv : string := "development".
Definition TestingEnv : string := "testing".
Definition ProductionEnv : string := "production".
Definition StageEnv : string := "stage".
Definition IntegrationEnv : string := "integration".

Definition GetEnvironmentStrFromEnv (OCM_ENV : option string) : string :=
  match OCM_ENV with None => DevelopmentEnv | Some e => if bool_decide (e = "") then DevelopmentEnv else e end.

(** [EnvLoader]: the defaults, and what [ModifyConfiguration] changes; [DB_DEBUG]
    is of the host. *)
Record EnvLoader := mkEnvLoader {
  Defaults : list (string * string);
  ModifyConfiguration : option string -> Configs -> Configs
}.

Definition debug_database (DB_DEBUG : option string) (c : Configs) : Configs :=
  if bool_decide (DB_DEBUG = Some "true") then set_module MDatabase (set_db_Debug true (cs_Database c)) c else c.

Definition SimpleEnvLoader (defaults : list (string * string)) : EnvLoader := mkEnvLoader defaults (fun _ c => c).

Definition env_loaders : list (string * EnvLoader) :=
  [(DevelopmentEnv, SimpleEnvLoader DevelopmentEnv_Defaults);
   (ProductionEnv, SimpleEnvLoader ProductionEnv_Defaults);
   (StageEnv, SimpleEnvLoader StageEnv_Defaults);
   (IntegrationEnv, mkEnvLoader IntegrationEnv_Defaults (fun d c =>
      let c := debug_database d c in set_module MObservability (set_ob_EnableMock true (cs_Observability c)) c));
   (TestingEnv, mkEnvLoader TestingEnv_Defaults debug_database)].

Definition find_loader (name : string) : option EnvLoader :=
  snd ∘ snd <$> list_find (fun e : string * EnvLoader => e.1 = name) env_loaders.

Inductive startup (A : Type) :=
| Started (a : A)
| Refused (e : load_error)
| Panicked.
Arguments Started {_}. Arguments Refused {_}. Arguments Panicked {_}.

Section flags.
Context `{Pflag}.

(** [go_flags] are the flags of the Go packages the program is linked with.  Both
    the modules and the defaults come in an order that is not specified. *)
Definition Env_AddFlags (name : string) (go_flags : FlagSet) (order : list ModuleKind)
    (walk : list (string * string) -> list (string * string)) (c : Configs) : startup FlagSet :=
  match find_loader name with
  | None => Refused (Failed (ETraced (Sprintf "unsupported environment %q" [VStr name])))
  | Some namedEnv =>
      match modules_AddFlags c go_flags order with
      | None => Panicked
      | Some fs =>
          match setConfigDefaults fs (walk (Defaults namedEnv)) with
          | Err err => Refused (Failed err)
          | Ok fs => Started fs
          end
      end
  end.
End flags.

(** ** Reading the files *)

Section files.
Context `{Host} `{KubeHost} `{Web} (walk : list (string * string) -> list (string * string)).
Context `{!Yaml (list string)} `{!Yaml (list RolesConfiguration)} `{!Yaml ProviderConfig} `{!Yaml (list Organisation * list Account)}.

Definition module_ReadFiles (k : ModuleKind) : loader (module_state k) :=
  match k with
  | MHealthCheck => load_nothing
  | MDatabase => DatabaseConfig_ReadFiles
  | MServer => ServerConfig_ReadFiles
  | MOCM => OCMConfig_ReadFiles
  | MIAM => IAMConfig_ReadFiles walk
  | MACL => AccessControlListConfig_ReadFiles
  | MQuotaList => QuotaManagementListConfig_ReadFiles
  | MMetrics => load_nothing
  | MContext => load_nothing
  | MFleetShardAuthZ => FleetShardAuthZConfig_ReadFiles
  | MAdminAuthZ => AdminRoleAuthZConfig_ReadFiles
  | MTelemetry => TelemetryConfig_ReadFiles
  | MSentry => SentryConfig_ReadFiles
  | MAWS => AWSConfig_ReadFiles
  | MProviders => ProviderConfig_ReadFiles
  | MObservability => ObservabilityConfiguration_ReadFiles
  | MCentral => CentralConfig_ReadFiles
  | MDataplane => DataplaneClusterConfig_ReadFiles
  | MFleetshard => load_nothing
  | MCentralRequest => load_nothing
  end.

Fixpoint read_modules (ks : list ModuleKind) : loader Configs :=
  match ks with
  | [] => load_nothing
  | k :: ks => field (get_module k) (set_module k) (module_ReadFiles k) ;;? read_modules ks
  end.

(** *** Creating the services *)

(** [construct] is the construction of the services in the container; a hook that
    cannot be invoked ends the process. *)
Definition CreateServices (name : string) (DB_DEBUG : option string) (order : list ModuleKind)
    (construct : Configs -> option error) (before after : list (Configs -> bool)) (c : Configs) : startup Configs :=
  match read_modules order c with
  | (_, Some err) => Refused (Failed (ETraced (Sprintf "unable to read configuration files: %s" [VStr (load_Error err)])))
  | (c, None) =>
      match find_loader name with
      | None => Refused (Failed (ETraced (Sprintf "unsupported environment %q" [VStr name])))
      | Some namedEnv =>
          let c := ModifyConfiguration namedEnv DB_DEBUG c in
          if negb (forallb (fun hook => hook c) before) then Panicked
          else
            match construct c with
            | Some err => Refused (Within "creating services" (Failed err))
            | None =>
                match ProviderConfig_Validate (pf_ProvidersConfig (cs_Providers c)) with
                | Some err => Refused (Within "creating services" (Failed err))
                | None => if negb (forallb (fun hook => hook c) after) then Panicked else Started c
                end
            end
      end
  end.
End files.

(** ** Boot services *)

Inductive boot_event := BStart (service : nat) | BStop (service : nat).

(** The calls of [Start] and [Stop] on a list of services. *)
Definition Env_Start (services : list nat) : list boot_event := BStart <$> services.

(** [for i := range services { i = len(services) - 1 - i; services[i].Stop() }]: the
    loop variable is set anew by [range]. *)
Fixpoint stop_from (services : list nat) (i fuel : nat) : list boot_event :=
  match fuel with
  | O => []
  | S fuel =>
      (match services !! (length services - 1 - i)%nat with Some s => [BStop s] | None => [] end ++
       stop_from services (S i) fuel)%list
  end.
Definition Env_Stop (services : list nat) : list boot_event := stop_from services 0 (length services).

Definition Env_Run (services : list nat) : list boot_event := (Env_Start services ++ Env_Stop services)%list.
