(* ===== verification/EnvironmentProps.v ===== *)
(** * What starting the service establishes

    The files of the modules can be read in any order; the service that starts has a
    complete and validated configuration; every named environment sets flags that
    exist; boot services stop in the reverse of the order in which they start. *)

From Stdlib Require Import QArith.
From S2P Require Import Prelude GoString GoFmt GoPath ServiceErrors CentralRequest Versions ClusterTypes Config Providers Auth ConfigFiles Iam Flags Environment.
Local Open Scope string_scope.
Local Open Scope Z_scope.

(** ** Modules do not share state *)

Lemma get_set_module k v c : get_module k (set_module k v c) = v.
Proof. by destruct k. Qed.

Lemma get_set_module_ne j k v c : j <> k -> get_module j (set_module k v c) = get_module j c.
Proof. intros Hn. by destruct j; destruct k. Qed.

Lemma configs_ext c c' : (forall k, get_module k c = get_module k c') -> c = c'.
Proof.
  intros H. destruct c, c'.
  pose proof (H MHealthCheck). pose proof (H MDatabase). pose proof (H MServer). pose proof (H MOCM). pose proof (H MIAM).
  pose proof (H MACL). pose proof (H MQuotaList). pose proof (H MMetrics). pose proof (H MContext). pose proof (H MFleetShardAuthZ).
  pose proof (H MAdminAuthZ). pose proof (H MTelemetry). pose proof (H MSentry). pose proof (H MAWS). pose proof (H MProviders).
  pose proof (H MObservability). pose proof (H MCentral). pose proof (H MDataplane). pose proof (H MFleetshard). pose proof (H MCentralRequest).
  simpl in *. by subst.
Qed.

Lemma modules_NoDup : NoDup modules.
Proof. apply (bool_decide_unpack (NoDup modules)). vm_compute. exact I. Qed.

Lemma all_modules k : k ∈ modules.
Proof. unfold modules. destruct k; repeat ((left; reflexivity) || right). Qed.

Lemma and_then_ok {C} (m k : loader C) c c' :
  (m ;;? k) c = (c', None) <-> exists c1, m c = (c1, None) /\ k c1 = (c', None).
Proof.
  unfold and_then. destruct (m c) as [c1 [e|]].
  - split; [done|]. by intros (? & [=] & ?).
  - split; [by eauto|]. by intros (? & [= ->] & ?).
Qed.

Section order.
Context `{Host} `{KubeHost} `{Web} (walk : list (string * string) -> list (string * string)).
Context `{!Yaml (list string)} `{!Yaml (list RolesConfiguration)} `{!Yaml ProviderConfig} `{!Yaml (list Organisation * list Account)}.

Abbreviation reads k := (module_ReadFiles walk k).

(** Reading succeeds exactly if every module can be read on its own. *)
Lemma read_modules_ok ks c c' : NoDup ks ->
  read_modules walk ks c = (c', None) <->
  (forall k, k ∈ ks -> reads k (get_module k c) = (get_module k c', None)) /\
  (forall k, k ∉ ks -> get_module k c' = get_module k c).
Proof.
  intros Hnd. revert c. induction Hnd as [|k ks Hk Hnd IH]; intros c; simpl.
  - split.
    + intros [= ->]. split; [by intros k ?%elem_of_nil|done].
    + intros [_ Hs]. enough (c = c') as -> by done. apply configs_ext. intros k. symmetry. apply Hs, not_elem_of_nil.
  - rewrite and_then_ok. unfold field. split.
    + intros (c1 & E & Hr). apply IH in Hr as [Hin Hout].
      destruct (reads k (get_module k c)) as [v r] eqn:Ek. injection E as <- ->. split.
      * intros j [->|Hj]%elem_of_cons.
        { rewrite (Hout k Hk), get_set_module. exact Ek. }
        { assert (j <> k) by congruence. rewrite <- (Hin j Hj). by rewrite get_set_module_ne. }
      * intros j Hj. apply not_elem_of_cons in Hj as [Hne Hj]. by rewrite (Hout j Hj), get_set_module_ne.
    + intros [Hin Hout]. exists (set_module k (get_module k c') c). split.
      { rewrite (Hin k); [done|left]. }
      apply IH. split.
      * intros j Hj. assert (j <> k) by congruence. rewrite get_set_module_ne by done. apply Hin. by right.
      * intros j Hj. destruct (decide (j = k)) as [->|Hne]; [by rewrite get_set_module|].
        rewrite get_set_module_ne by done. apply Hout. by rewrite not_elem_of_cons.
Qed.

(** The configuration that is read does not depend on the order in which the
    injection container hands out the modules: if the files can be read in one
    order they can be read in every order, and the result is the same. *)
Theorem read_modules_order ks ks' c c' :
  ks ≡ₚ modules -> ks' ≡ₚ modules -> read_modules walk ks c = (c', None) -> read_modules walk ks' c = (c', None).
Proof.
  intros Hk Hk'. pose proof modules_NoDup.
  rewrite !read_modules_ok by (by rewrite ?Hk, ?Hk'). intros [Hin Hout].
  setoid_rewrite Hk'. setoid_rewrite Hk in Hin. setoid_rewrite Hk in Hout. by split.
Qed.
End order.

(** ** What each module has checked *)

Lemma within_ok {C} msg (m : loader C) c c' : within msg m c = (c', None) <-> m c = (c', None).
Proof. unfold within. destruct (m c) as [c1 [e|]]; simpl; split; congruence. Qed.

Lemma field_ok {C A} (get : C -> A) set (m : loader A) c c' :
  field get set m c = (c', None) <-> exists a, m (get c) = (a, None) /\ c' = set a c.
Proof.
  unfold field. destruct (m (get c)) as [a [e|]]; split.
  - congruence.
  - by intros (? & [=] & ?).
  - intros [= <-]. eauto.
  - by intros (? & [= ->] & ->).
Qed.

Lemma when_ok {C} test (m : loader C) c c' :
  when_ test m c = (c', None) <-> (test c = true /\ m c = (c', None)) \/ (test c = false /\ c' = c).
Proof. unfold when_. destruct (test c); split; [eauto| |intros [= ->]; eauto|]; intros [[? ?]|[? ?]]; congruence. Qed.

Lemma check_ok {C} test e (c c' : C) : check test e c = (c', None) <-> test c = true /\ c' = c.
Proof. unfold check. destruct (test c); split; [by intros [= ->]|by intros [_ ->]|congruence|by intros [? _]]. Qed.

(** The first step of a loader that has returned no error. *)
Ltac step_ok H :=
  first [apply and_then_ok in H as (? & ? & H) | apply within_ok in H | apply field_ok in H as (? & ? & ->) |
         apply check_ok in H as [? ->]].

Section checked.
Context `{Host}.

(** A static client comes with a secret and an issuer. *)
Lemma central_checked c c' : CentralConfig_ReadFiles c = (c', None) -> cf_CentralIDPClientID c' <> "" ->
  cf_CentralIDPClientSecret c' <> "" /\ cf_CentralIDPIssuer c' <> "".
Proof.
  unfold CentralConfig_ReadFiles. intros E Hid. do 2 step_ok E. apply when_ok in E as [[_ E]|[Hf ->]].
  - do 2 step_ok E. apply check_ok in E as [Hi ->].
    match goal with Hc : check _ _ _ = _ |- _ => apply check_ok in Hc as [Hs ->] end.
    by apply bool_decide_eq_true in Hs, Hi.
  - by apply bool_decide_eq_false, dec_stable in Hf.
Qed.

Lemma roles_checked `{!Yaml (list RolesConfiguration)} c c' : AdminRoleAuthZConfig_ReadFiles c = (c', None) -> az_Enabled c' = true ->
  Forall (fun r => rc_HTTPMethod r ∈ allowedHTTPMethods) (az_RolesConfig c').
Proof.
  unfold AdminRoleAuthZConfig_ReadFiles. intros [[_ E]|[Hf ->]]%when_ok Hen; [|congruence].
  apply and_then_ok in E as (c1 & _ & E). unfold validate_roles in E. injection E as -> E.
  unfold validateRolesConfiguration in E. induction (az_RolesConfig c') as [|r l IH]; [constructor|]. simpl in E.
  case_bool_decide; [|done]. constructor; [done|by apply IH].
Qed.
End checked.

(** *** Data plane clusters *)

(** A cluster of the configuration file, after its decoding. *)
Definition valid_manual (c : ManualCluster) : Prop :=
  mc_ClusterID c <> "" /\ mc_SupportedInstanceType c <> "" /\
  (mc_ProviderType c = ClusterProviderStandalone ->
   mc_ClusterDNS c <> "" /\ mc_Name c <> "" /\ mc_Status c ∈ [ClusterProvisioning; ClusterProvisioned; ClusterReady]).

Lemma UnmarshalYAML_valid d c : ManualCluster_UnmarshalYAML d = Ok c -> valid_manual c.
Proof.
  unfold ManualCluster_UnmarshalYAML. destruct d as [d|]; simpl; [|done].
  repeat (case_bool_decide; simpl; [try done|try done]); intros [= <-]; unfold valid_manual; simpl; split_and!; try done;
    intros _; split_and!; try done; left.
Qed.

Section dataplane.
Context `{Host} `{KubeHost} `{!KubeHostLaws} `{!Yaml (list string)}.

(** The contexts are those of the kubeconfig file. *)
Definition contexts_read (c : DataplaneFiles) : Prop :=
  forall raw, dp_RawKubernetesConfig c = Some raw -> clientcmd_RawConfig (dp_Kubeconfig c) = Ok raw.

(** A later state of the same configuration: the contexts stay once they are read. *)
Definition later (c c' : DataplaneFiles) : Prop :=
  dp_ClusterConfig c' = dp_ClusterConfig c /\ (contexts_read c -> contexts_read c') /\
  dp_DataPlaneClusterScalingType c' = dp_DataPlaneClusterScalingType c /\
  forall raw, dp_RawKubernetesConfig c = Some raw -> dp_RawKubernetesConfig c' = Some raw.

Lemma later_trans a b c : later a b -> later b c -> later a c.
Proof. intros (Ha & Hb & Hc & Hd) (Ka & Kb & Kc & Kd). split_and!; [congruence|by auto|congruence|by auto]. Qed.

Lemma readKubeconfig_ok c c' : dp_RawKubernetesConfig c = None -> readKubeconfig c = (c', None) ->
  later c c' /\ is_Some (dp_RawKubernetesConfig c').
Proof.
  intros Hn. unfold readKubeconfig. destruct (os_Stat _); [done|]. destruct (clientcmd_RawConfig _) as [raw|] eqn:E; [|done].
  intros [= <-]. split; [|by eexists]. split_and!; [done| |done|congruence]. intros _ r. simpl. by intros [= <-].
Qed.

Lemma validate_standalone_ok l : forall c c', validate_standalone l c = (c', None) ->
  later c c' /\ forall x, x ∈ l -> mc_ProviderType x = ClusterProviderStandalone ->
    exists raw, dp_RawKubernetesConfig c' = Some raw /\ mc_Name x ∈ raw.
Proof.
  induction l as [|a l IH]; intros c c'; simpl.
  { intros [= ->]. split; [by split_and!|]. by intros x ?%elem_of_nil. }
  case_bool_decide as Ha.
  { intros [Hl Hx]%IH. split; [done|]. intros x [->|Hin]%elem_of_cons; [done|by apply Hx]. }
  intros E. apply and_then_ok in E as (c1 & E1 & E). apply and_then_ok in E as (c2 & E2 & E).
  assert (later c c1 /\ is_Some (dp_RawKubernetesConfig c1)) as [Hc1 [raw Hraw]].
  { apply when_ok in E1 as [[Hn E1]|[Hn ->]]; [apply bool_decide_eq_true in Hn; by apply readKubeconfig_ok|].
    split; [by split_and!|]. apply bool_decide_eq_false in Hn. by apply not_eq_None_Some. }
  unfold validate_context in E2. injection E2 as <- E2. unfold validateClusterIsInKubeconfigContext in E2.
  rewrite Hraw in E2. simpl in E2. case_bool_decide as Hname; [|done].
  apply IH in E as [Hl Hx]. split; [by eapply later_trans|]. intros x [->|Hin]%elem_of_cons; [|by apply Hx].
  intros _. exists raw. split; [|done]. by apply Hl.
Qed.

Lemma dataplane_checked c c' :
  DataplaneClusterConfig_ReadFiles c = (c', None) -> contexts_read c -> dp_DataPlaneClusterScalingType c' = ManualScaling ->
  exists l, dp_ClusterConfig c' = NewClusterConfig l /\ Forall valid_manual l /\
    forall x, x ∈ l -> mc_ProviderType x = ClusterProviderStandalone ->
      exists raw, clientcmd_RawConfig (dp_Kubeconfig c') = Ok raw /\ mc_Name x ∈ raw.
Proof.
  unfold DataplaneClusterConfig_ReadFiles. intros E Hraw Hm. apply and_then_ok in E as (c1 & E1 & E).
  assert (contexts_read c1) as Hraw1.
  { apply when_ok in E1 as [[_ E1]|[_ ->]]; [|done]. step_ok E1. apply field_ok in E1 as (? & _ & ->). exact Hraw. }
  apply and_then_ok in E as (c2 & E2 & E). apply field_ok in E as (users & _ & ->). simpl in Hm.
  apply when_ok in E2 as [[_ E2]|[Hf ->]].
  - unfold load_clusters in E2. destruct (readDataPlaneClusterConfig _) as [l|] eqn:El; [|done].
    apply validate_standalone_ok in E2 as [Hl Hx]. exists l. destruct Hl as (Hcc & Hread & _ & _). split_and!; [by simpl; rewrite Hcc| |].
    + unfold readDataPlaneClusterConfig in El. destruct (ReadFile _); [|done].
      destruct (Unmarshal_clusters _ _) as [l'|] eqn:Eu; [|done]. injection El as ->.
      apply Unmarshal_clusters_elements in Eu. eapply Forall_impl; [exact Eu|]. intros x (plain & Hp). by eapply UnmarshalYAML_valid.
    + intros x Hin Hst. destruct (Hx x Hin Hst) as (raw & Hr & Hn). exists raw. split; [|done]. by apply (Hread Hraw1).
  - exfalso. unfold IsDataPlaneManualScalingEnabled in Hf. simpl in Hf. by apply bool_decide_eq_false in Hf.
Qed.
End dataplane.

(** *** The identity server *)

Definition realm_complete (base : string) (c : IAMRealmConfig) : Prop :=
  rl_ValidIssuerURI c = base +:+ "/auth/realms/" +:+ rl_Realm c /\
  rl_JwksEndpointURI c = rl_ValidIssuerURI c +:+ "/protocol/openid-connect/certs" /\
  rl_TokenEndpointURI c = rl_ValidIssuerURI c +:+ "/protocol/openid-connect/token" /\
  (rl_ClientID c <> "" -> Forall (fun f => f.2 <> "") (validatedFields c) /\ rl_GrantType c = "client_credentials").

Section iam.
Context `{Host} `{Web} `{!Yaml (list string)} (walk : list (string * string) -> list (string * string)).
Hypothesis walk_perm : forall l, walk l ≡ₚ l.

(** Every additional issuer has the address of its keys. *)
Definition issuers_resolved (a : AdditionalSSOIssuers) : Prop :=
  Forall2 (fun u k => getOpenIDConfiguration u = Ok k /\ k <> "") (ai_URIs a) (ai_JWKSURIs a).

Lemma load_issuers_ok a a' : load_issuers a = (a', None) -> ai_Enabled a' = true -> issuers_resolved a'.
Proof.
  unfold load_issuers. intros [[_ E]|[Hf ->]]%when_ok He; [|congruence]. apply and_then_ok in E as (a1 & _ & E).
  unfold resolveURIs in E. destruct (resolve_all _ _) as [l|] eqn:Er; [|done]. injection E as <-.
  apply resolve_all_spec in Er as (new & -> & HF). exact HF.
Qed.

Lemma iam_checked c c' : IAMConfig_ReadFiles walk c = (c', None) ->
  realm_complete (ia_SsoBaseURL c') (ia_RedhatSSORealm c') /\
  realm_complete (ia_InternalSsoBaseURL c') (ia_InternalSSORealm c') /\
  (ai_Enabled (ia_AdditionalSSOIssuers c') = true -> issuers_resolved (ia_AdditionalSSOIssuers c')).
Proof.
  unfold IAMConfig_ReadFiles. intros E. do 3 step_ok E. apply and_then_ok in E as (c4 & E4 & E).
  unfold realm_default_uris in E4. injection E4 as <-.
  apply and_then_ok in E as (c5 & E5 & E). unfold validate_realm in E5. injection E5 as <- E5.
  apply and_then_ok in E as (c6 & E6 & E). unfold validate_realm in E6. injection E6 as <- E6.
  rewrite fmap_None, (validateConfiguration_ok _ _ walk_perm) in E5. rewrite fmap_None, (validateConfiguration_ok _ _ walk_perm) in E6.
  apply field_ok in E as (a & Ea & ->). simpl in E5, E6 |- *.
  split; [|split]; [by split_and!..|]. intros He. by eapply load_issuers_ok.
Qed.
End iam.

(** ** The service that starts *)

Section startup.
Context `{Host} `{KubeHost} `{!KubeHostLaws} `{Web} (walk : list (string * string) -> list (string * string)).
Context `{!Yaml (list string)} `{!Yaml (list RolesConfiguration)} `{!Yaml ProviderConfig} `{!Yaml (list Organisation * list Account)}.
Hypothesis walk_perm : forall l, walk l ≡ₚ l.

(** What the components take for granted of the configuration. *)
Record validated (c : Configs) : Prop := {
  v_roles : az_Enabled (cs_AdminAuthZ c) = true ->
    Forall (fun r => rc_HTTPMethod r ∈ allowedHTTPMethods) (az_RolesConfig (cs_AdminAuthZ c));
  v_idp : cf_CentralIDPClientID (cs_Central c) <> "" ->
    cf_CentralIDPClientSecret (cs_Central c) <> "" /\ cf_CentralIDPIssuer (cs_Central c) <> "";
  v_redhat : realm_complete (ia_SsoBaseURL (cs_IAM c)) (ia_RedhatSSORealm (cs_IAM c));
  v_internal : realm_complete (ia_InternalSsoBaseURL (cs_IAM c)) (ia_InternalSSORealm (cs_IAM c));
  v_issuers : ai_Enabled (ia_AdditionalSSOIssuers (cs_IAM c)) = true -> issuers_resolved (ia_AdditionalSSOIssuers (cs_IAM c));
  v_clusters : dp_DataPlaneClusterScalingType (cs_Dataplane c) = ManualScaling ->
    exists l, dp_ClusterConfig (cs_Dataplane c) = NewClusterConfig l /\ Forall valid_manual l /\
      forall x, x ∈ l -> mc_ProviderType x = ClusterProviderStandalone ->
        exists raw, clientcmd_RawConfig (dp_Kubeconfig (cs_Dataplane c)) = Ok raw /\ mc_Name x ∈ raw;
  v_default_provider : exists p, GetDefault (pc_SupportedProviders (pf_ProvidersConfig (cs_Providers c))) = Ok p;
  v_default_regions : forall p, p ∈ pc_SupportedProviders (pf_ProvidersConfig (cs_Providers c)) ->
    exists r, GetDefaultRegion p = Ok r
}.

(** [ModifyConfiguration] changes only the debugging of the database and the mock
    of the observability service. *)
Lemma ModifyConfiguration_keeps name env d c k : find_loader name = Some env -> k <> MDatabase -> k <> MObservability ->
  get_module k (ModifyConfiguration env d c) = get_module k c.
Proof.
  intros Hf H1' H2'. assert (forall c, get_module k (debug_database d c) = get_module k c) as Hd.
  { intros c0. unfold debug_database. case_bool_decide; [by apply get_set_module_ne|done]. }
  unfold find_loader in Hf. destruct (list_find _ env_loaders) as [[i [n e]]|] eqn:El; [|done]. injection Hf as <-.
  apply list_find_Some in El as (Hi & _ & _). apply list_elem_of_lookup_2 in Hi. unfold env_loaders in Hi.
  repeat (apply elem_of_cons in Hi as [[= -> ->]|Hi]); [done..| | |by apply elem_of_nil in Hi]; cbn [snd ModifyConfiguration].
  - etransitivity; [by apply (get_set_module_ne k MObservability)|apply Hd].
  - apply Hd.
Qed.

(** C26. A service that has started has a validated configuration: the roles of the
    admin API name methods it serves; a static identity provider comes with a secret
    and an issuer; the endpoints of both realms are those of their base address,
    and a realm with a client has every field; every additional issuer has the
    address of its keys; with manual scaling every cluster has an identifier and an
    instance type, and every standalone cluster a DNS name, a status the manager
    knows and a context in the kubeconfig file; there is a default provider, and a
    default region for every provider. *)
Theorem CreateServices_validated name DB_DEBUG order construct before after c c' :
  order ≡ₚ modules -> dp_RawKubernetesConfig (cs_Dataplane c) = None ->
  CreateServices walk name DB_DEBUG order construct before after c = Started c' -> validated c'.
Proof.
  intros Ho Hraw. unfold CreateServices. destruct (read_modules walk order c) as [c1 [e|]] eqn:Er; [done|].
  destruct (find_loader name) as [env|] eqn:Ef; [|done]. destruct (negb _); [done|]. destruct (construct _); [done|].
  destruct (ProviderConfig_Validate _) eqn:Ev; [done|]. destruct (negb _); [done|]. intros [= <-].
  assert (NoDup order) as Hnd by (rewrite Ho; apply modules_NoDup).
  apply (read_modules_ok walk _ _ _ Hnd) in Er as [Er _].
  assert (forall k, k <> MDatabase -> k <> MObservability ->
    module_ReadFiles walk k (get_module k c) = (get_module k (ModifyConfiguration env DB_DEBUG c1), None)) as Hk.
  { intros k Hd Hob. rewrite (ModifyConfiguration_keeps name env DB_DEBUG c1 k Ef Hd Hob). apply Er. rewrite Ho. apply all_modules. }
  clear Er. pose proof (Hk MAdminAuthZ) as Hroles. pose proof (Hk MCentral) as Hcentral. pose proof (Hk MIAM) as Hiam.
  pose proof (Hk MDataplane) as Hdp. clear Hk. simpl in *.
  assert (Hiam' := iam_checked walk walk_perm _ _ (Hiam ltac:(done) ltac:(done))). destruct Hiam' as (Hred & Hint & Hiss).
  apply validated_defaults in Ev as [(p & Hp & _) Hregions].
  split; [by eapply roles_checked, Hroles|by eapply central_checked, Hcentral|done..| |by eexists|].
  - intros Hm. eapply dataplane_checked; [by apply Hdp|unfold contexts_read; congruence|done].
  - intros q Hq. destruct (Hregions q Hq) as (r & Hr & _). eauto.
Qed.
End startup.

(** ** A host *)

(** A host with a project directory, a port number in "db.port" and a text in every
    other file; one provider and one standalone cluster are configured. *)
#[export] Instance sample_host : Host := {|
  cwd := "/srv/fleet-manager";
  ioutil_ReadFile path := Ok (if HasSuffix path "db.port" then "5432" else "github.com/stackrox/acs-fleet-manager")
|}.

Definition sample_standalone : ManualCluster :=
  mkManualCluster "ctx" "cl-1" "aws" "us-east-1" true true 5 "" ClusterProviderStandalone "apps.example.com" "" [].

#[export] Instance sample_kube : KubeHost := {|
  os_Stat _ := None;
  clientcmd_RawConfig _ := Ok {[ "ctx" ]};
  Unmarshal_clusters f _ := match f (Ok sample_standalone) with Ok c => Ok [c] | Err e => Err e end
|}.

#[export] Instance sample_kube_laws : KubeHostLaws.
Proof.
  split. intros f text l. simpl. destruct (f (Ok sample_standalone)) as [c|] eqn:E; [|done]. intros [= <-].
  repeat constructor. by eexists.
Qed.

#[export] Instance sample_web : Web := {| http_Get _ := Ok (200, Ok "{}"); json_jwks_uri _ := Ok "https://sso/keys" |}.
#[export] Instance sample_strings : Yaml (list string) := {| UnmarshalStrict _ _ := (["https://sso.stage"], None) |}.
#[export] Instance sample_roles : Yaml (list RolesConfiguration) := {| UnmarshalStrict _ _ := ([mkRolesConfiguration "GET" ["reader"]], None) |}.
#[export] Instance sample_providers : Yaml ProviderConfig := {|
  UnmarshalStrict _ _ := (mkProviderConfig [mkProvider "aws" true [mkRegion "us-east-1" true ∅]], None) |}.
#[export] Instance sample_quota : Yaml (list Organisation * list Account) := {| UnmarshalStrict _ v := (v, None) |}.

Definition sample_configs : Configs :=
  let c := new_configs (Some "/root") None in
  let iam := cs_IAM c in
  set_module MIAM (set_ia_AdditionalSSOIssuers (mkAdditionalSSOIssuers [] [] "issuers.yaml" true) iam) c.

Lemma read_modules_order_witness :
  exists c', read_modules (fun l => l) modules sample_configs = (c', None) /\ read_modules (fun l => l) (rev modules) sample_configs = (c', None).
Proof.
  pose (c' := (read_modules (fun l => l) modules sample_configs).1). exists c'.
  assert (Hr : read_modules (fun l => l) modules sample_configs = (c', None)) by (vm_compute; reflexivity).
  split; [exact Hr|].
  refine (read_modules_order (fun l => l) modules (rev modules) sample_configs c' (reflexivity _) _ Hr).
  symmetry. apply Permutation_rev.
Defined.

Lemma CreateServices_validated_witness :
  exists c', CreateServices (fun l => l) StageEnv None modules (fun _ => None) [] [] sample_configs = Started c' /\ validated c'.
Proof.
  eexists. assert (Hs : CreateServices (fun l => l) StageEnv None modules (fun _ => None) [] [] sample_configs =
    Started (read_modules (fun l => l) modules sample_configs).1) by (vm_compute; reflexivity).
  split; [exact Hs|].
  refine (CreateServices_validated (fun l => l) _ StageEnv None modules (fun _ => None) [] [] sample_configs _ (reflexivity _) _ Hs).
  - intros l. reflexivity.
  - reflexivity.
Defined.

(** ** Boot services *)

Lemma stop_from_rev services : forall n i, (i + n = length services)%nat -> stop_from services i n = BStop <$> rev (take n services).
Proof.
  induction n as [|n IH]; intros i Hi; simpl; [done|].
  replace (length services - 1 - i)%nat with n by lia.
  destruct (lookup_lt_is_Some_2 services n) as [s Hs]; [lia|]. rewrite Hs, (IH (S i)) by lia.
  rewrite (take_S_r _ _ _ Hs), rev_app_distr. done.
Qed.

(** The boot services are stopped in the reverse of the order in which they were
    started, each exactly once. *)
Theorem Env_Run_order services : Env_Run services = ((BStart <$> services) ++ (BStop <$> rev services))%list.
Proof. unfold Env_Run, Env_Start, Env_Stop. rewrite stop_from_rev by lia. by rewrite firstn_all. Qed.
