(* ===== verification/FlagsProps.v ===== *)
(** * Every environment sets flags that exist

    No two modules declare the same flag, so registering them does not panic in any
    order, and every default of a named environment is a flag with a value of its
    kind. *)

From Stdlib Require Import QArith.
From S2P Require Import Prelude GoString GoFmt GoPath ServiceErrors CentralRequest Versions ClusterTypes Config Providers Auth ConfigFiles Iam Flags Environment EnvironmentProps.
Local Open Scope string_scope.
Local Open Scope Z_scope.

(** The flags of a module. *)
Definition module_flags (c : Configs) (k : ModuleKind) : list (string * flag_value) :=
  match k with
  | MHealthCheck => HealthCheckConfig_AddFlags (cs_HealthCheck c)
  | MDatabase => DatabaseConfig_AddFlags (cs_Database c)
  | MServer => ServerConfig_AddFlags (cs_Server c)
  | MOCM => OCMConfig_AddFlags (cs_OCM c)
  | MIAM => IAMConfig_AddFlags (cs_IAM c)
  | MACL => ACLConfig_AddFlags (cs_ACL c)
  | MQuotaList => QuotaManagementListConfig_AddFlags (cs_QuotaList c)
  | MMetrics => MetricsConfig_AddFlags (cs_Metrics c)
  | MContext => ContextConfig_AddFlags (cs_Context c)
  | MFleetShardAuthZ => FleetShardAuthZConfig_AddFlags (cs_FleetShardAuthZ c)
  | MAdminAuthZ => AdminRoleAuthZConfig_AddFlags (cs_AdminAuthZ c)
  | MTelemetry => TelemetryConfig_AddFlags (cs_Telemetry c)
  | MSentry => SentryConfig_AddFlags (cs_Sentry c)
  | MAWS => AWSConfig_AddFlags (cs_AWS c)
  | MProviders => ProviderConfig_AddFlags (cs_Providers c)
  | MObservability => ObservabilityConfiguration_AddFlags (cs_Observability c)
  | MCentral => CentralConfig_AddFlags (cs_Central c)
  | MDataplane =>
      (DataplaneClusterConfig_flags (cs_Dataplane c) ++ ([("kubeconfig", FString (dp_Kubeconfig (cs_Dataplane c)))] ++
       (CentralOperatorOLM_flags (dp_CentralOperatorOLMConfig (cs_Dataplane c)) ++
        FleetshardOperatorOLM_flags (dp_FleetshardOperatorOLMConfig (cs_Dataplane c)))))%list
  | MFleetshard => FleetshardConfig_AddFlags (cs_Fleetshard c)
  | MCentralRequest => CentralRequestConfig_AddFlags (cs_CentralRequest c)
  end.

Definition all_flags (c : Configs) (ks : list ModuleKind) : list (string * flag_value) := ks ≫= module_flags c.

(** The flags [l] have been added to [fs]. *)
Definition added (l : list (string * flag_value)) (fs fs' : FlagSet) : Prop :=
  (forall n v, (n, v) ∈ l -> fs' !! n = Some v) /\ (forall n, n ∉ l.*1 -> fs' !! n = fs !! n).

(** The flags can be declared: "kubeconfig" may exist. *)
Definition fresh_for (names : list string) (fs : FlagSet) : Prop := forall n, n ∈ names -> n <> "kubeconfig" -> fs !! n = None.

Lemma added_app l1 l2 fs fs1 fs2 : NoDup (l1 ++ l2)%list.*1 -> added l1 fs fs1 -> added l2 fs1 fs2 -> added (l1 ++ l2)%list fs fs2.
Proof.
  rewrite fmap_app. intros (_ & Hd & _)%NoDup_app [Ha Hb] [Hc He]. split.
  - intros n v [Hin|Hin]%elem_of_app; [|by apply Hc]. rewrite He; [by apply Ha|]. apply Hd. by apply (list_elem_of_fmap_2 fst _ (n, v)).
  - intros n. rewrite fmap_app, not_elem_of_app. intros [H1 H2]. by rewrite He, Hb.
Qed.

(** A step that adds the flags [l] wherever they can be declared. *)
Definition adds (step : FlagSet -> option FlagSet) (l : list (string * flag_value)) : Prop :=
  forall fs, fresh_for l.*1 fs -> exists fs', step fs = Some fs' /\ added l fs fs'.

Lemma adds_nothing : adds Some [].
Proof. intros fs _. exists fs. split; [done|]. split; [by intros ? ? ?%elem_of_nil|done]. Qed.

Lemma adds_seq s1 s2 l1 l2 : NoDup (l1 ++ l2)%list.*1 -> adds s1 l1 -> adds s2 l2 -> adds (fun fs => s1 fs ≫= s2) (l1 ++ l2)%list.
Proof.
  intros Hnd H1 H2 fs Hf. rewrite fmap_app in Hf. pose proof Hnd as Hnd'. rewrite fmap_app in Hnd'.
  apply NoDup_app in Hnd' as (_ & Hd & _).
  destruct (H1 fs) as (fs1 & -> & A1); [intros n Hn; apply Hf, elem_of_app; by left|].
  destruct (H2 fs1) as (fs2 & E2 & A2).
  { intros n Hn Hk. destruct A1 as [_ A1]. rewrite A1; [apply Hf; [apply elem_of_app; by right|done]|]. intros Hn'. by apply (Hd n). }
  exists fs2. split; [exact E2|]. by apply (added_app _ _ _ fs1).
Qed.

Lemma adds_insert n v : adds (fun fs => Some (<[n := v]> fs)) [(n, v)].
Proof.
  intros fs _. eexists. split; [done|]. split; [intros m w [= -> ->]%list_elem_of_singleton; by apply lookup_insert_eq|].
  intros m Hm. apply lookup_insert_ne. intros ->. apply Hm. left.
Qed.

Lemma adds_declare n v : n <> "kubeconfig" -> adds (fun fs => declare fs (n, v)) [(n, v)].
Proof.
  intros Hk fs Hf. assert (declare fs (n, v) = Some (<[n := v]> fs)) as ->.
  { unfold declare. simpl. rewrite (Hf n); [done|left|done]. }
  by apply adds_insert.
Qed.

Lemma adds_declare_all l : NoDup l.*1 -> "kubeconfig" ∉ l.*1 -> adds (fun fs => declare_all fs l) l.
Proof.
  induction l as [|[n v] l IH]; intros Hnd Hk; [apply adds_nothing|].
  apply not_elem_of_cons in Hk as [Hn Hk]. apply (adds_seq (fun fs => declare fs (n, v)) _ [(n, v)] l Hnd).
  - by apply adds_declare.
  - apply IH; [by apply NoDup_cons in Hnd as [_ ?]|done].
Qed.

(** The names of a module's flags do not depend on its state. *)
Ltac names_by_computation := match goal with |- ?P => apply (bool_decide_unpack P); vm_compute; exact I end.

Lemma module_AddFlags_ok c k : adds (fun fs => module_AddFlags c fs k) (module_flags c k).
Proof.
  destruct k; try (apply adds_declare_all; names_by_computation).
  apply (adds_seq (fun fs => declare_all fs _)); [names_by_computation|apply adds_declare_all; names_by_computation|].
  set (d := cs_Dataplane c).
  apply (adds_seq (fun fs => Some (addKubeconfigFlag d fs)) (fun fs => declare_all fs (CentralOperatorOLM_flags (dp_CentralOperatorOLMConfig d)) ≫=
    fun fs => declare_all fs (FleetshardOperatorOLM_flags (dp_FleetshardOperatorOLMConfig d)))); [names_by_computation|apply adds_insert|].
  apply (adds_seq (fun fs => declare_all fs _)); [names_by_computation|apply adds_declare_all; names_by_computation..].
Qed.

Lemma modules_AddFlags_ok c ks : NoDup (all_flags c ks).*1 -> adds (fun fs => modules_AddFlags c fs ks) (all_flags c ks).
Proof.
  induction ks as [|k ks IH]; intros Hnd; [apply adds_nothing|].
  apply (adds_seq (fun fs => module_AddFlags c fs k) _ (module_flags c k) _ Hnd); [apply module_AddFlags_ok|].
  apply IH. unfold all_flags in Hnd. simpl in Hnd. rewrite fmap_app in Hnd. by apply NoDup_app in Hnd as (_ & _ & ?).
Qed.

Lemma all_flags_names c : NoDup (all_flags c modules).*1.
Proof. names_by_computation. Qed.

(** ** Defaults *)

(** A text that pflag takes as a value of the kind of [v], by its documentation. *)
Definition well_formed (v : flag_value) (text : string) : bool :=
  match v with
  | FString _ => true
  | FBool _ => bool_decide (text = "true") || bool_decide (text = "false")
  | FInt _ => (Atoi text).2 && (negb (HasPrefix text "0") || bool_decide (text = "0"))
  | FDuration _ | FStrings _ => false
  end.

Section defaults.
Context `{PflagLaws}.

Lemma well_formed_parses v text : well_formed v text = true -> exists v', parse_as v text = Some v'.
Proof.
  destruct v; simpl; [by eauto| | |done..].
  - intros [->%bool_decide_eq_true| ->%bool_decide_eq_true]%orb_true_iff;
      [rewrite (parse_bool_text true)|rewrite (parse_bool_text false)]; simpl; eauto.
  - intros [Ha Hp]%andb_true_iff. destruct (Atoi text) as [n ok] eqn:Ea. simpl in Ha. subst ok.
    rewrite (parse_int_text text n Ea); [simpl; eauto|].
    apply orb_true_iff in Hp as [Hp| ->%bool_decide_eq_true]; [left; by apply negb_true_iff|by right].
Qed.

(** The flag [n] holds the value that [text] stands for. *)
Definition holds (fs : FlagSet) (n text : string) : Prop :=
  exists old v, parse_as old text = Some v /\ fs !! n = Some v.

Lemma setConfigDefaults_ok l : forall fs, NoDup l.*1 ->
  (forall n text, (n, text) ∈ l -> exists v, fs !! n = Some v /\ well_formed v text = true) ->
  exists fs', setConfigDefaults fs l = Ok fs' /\ (forall n text, (n, text) ∈ l -> holds fs' n text) /\
    (forall n, n ∉ l.*1 -> fs' !! n = fs !! n).
Proof.
  induction l as [|[n text] l IH]; intros fs Hnd Hl; simpl.
  { exists fs. split_and!; [done|by intros ? ? ?%elem_of_nil|done]. }
  apply NoDup_cons in Hnd as [Hn Hnd]. destruct (Hl n text) as (v & Hv & Hw); [left|].
  destruct (well_formed_parses v text Hw) as [v' Hp]. unfold FlagSet_Set. rewrite Hv, Hp.
  destruct (IH (<[n := v']> fs)) as (fs' & -> & Hh & Hs); [done| |].
  - intros m t Hm. destruct (Hl m t) as (w & Hw' & Hf); [by right|]. exists w. split; [|done].
    rewrite lookup_insert_ne; [done|]. intros <-. apply Hn. by apply (list_elem_of_fmap_2 fst _ (n, t)).
  - exists fs'. split_and!; [done| |].
    + intros m t [[= -> ->]|Hm]%elem_of_cons; [|by apply Hh]. exists v, v'. split; [done|].
      rewrite Hs by done. by apply lookup_insert_eq.
    + intros m Hm. apply not_elem_of_cons in Hm as [Hne Hm]. rewrite Hs by done. by apply lookup_insert_ne.
Qed.

(** The flags of the log library that environments set: of kind number and boolean,
    whatever their values. *)
Definition with_log_flags (go_flags : FlagSet) : Prop :=
  (exists z, go_flags !! "v" = Some (FInt z)) /\ (exists b, go_flags !! "logtostderr" = Some (FBool b)).

Definition default_ok (c : Configs) (e : string * string) : bool :=
  match (list_to_map (all_flags c modules) : FlagSet) !! e.1 with
  | Some v => well_formed v e.2
  | None => bool_decide (e.1 = "v") && well_formed (FInt 0) e.2 || bool_decide (e.1 = "logtostderr") && well_formed (FBool false) e.2
  end.

Lemma defaults_ok c name env : find_loader name = Some env ->
  NoDup (Defaults env).*1 /\ forall e, e ∈ Defaults env -> default_ok c e = true.
Proof.
  intros Hf. assert (forall d, bool_decide (NoDup d.*1) && forallb (default_ok c) d = true ->
    NoDup d.*1 /\ forall e, e ∈ d -> default_ok c e = true) as Hd.
  { intros d [Ha%bool_decide_eq_true Hb]%andb_true_iff. split; [done|]. intros e He.
    rewrite forallb_forall in Hb. apply Hb. by apply list_elem_of_In. }
  apply Hd. clear Hd. unfold find_loader in Hf. destruct (list_find _ env_loaders) as [[i [n e]]|] eqn:El; [|done]. injection Hf as <-.
  apply list_find_Some in El as (Hi & _ & _). apply list_elem_of_lookup_2 in Hi. unfold env_loaders in Hi.
  repeat (apply elem_of_cons in Hi as [[= -> ->]|Hi]); [vm_compute; reflexivity..|by apply elem_of_nil in Hi].
Qed.

(** The flags of every named environment exist: whatever the order of the
    modules and of the defaults, and whatever the state of the modules, registering
    the flags does not panic (no name is declared twice), setting the defaults does
    not fail, every default ends up as the value of its flag, and no other flag of
    the modules changes. *)
Theorem Env_AddFlags_ok name env go_flags order walk c :
  find_loader name = Some env -> order ≡ₚ modules -> (forall l, walk l ≡ₚ l) ->
  with_log_flags go_flags -> fresh_for (all_flags c modules).*1 go_flags ->
  exists fs, Env_AddFlags name go_flags order walk c = Started fs /\
    (forall n text, (n, text) ∈ Defaults env -> holds fs n text) /\
    (forall n v, (n, v) ∈ all_flags c modules -> n ∉ (Defaults env).*1 -> fs !! n = Some v).
Proof.
  intros Hf Ho Hw Hlog Hfresh. unfold Env_AddFlags. rewrite Hf.
  assert (all_flags c order ≡ₚ all_flags c modules) as Hperm by (unfold all_flags; by rewrite Ho).
  destruct (modules_AddFlags_ok c order) with (fs := go_flags) as (fs1 & -> & Ha & Hb).
  { rewrite Hperm. apply all_flags_names. }
  { intros n Hn. apply Hfresh. rewrite <- Hperm. exact Hn. }
  destruct (defaults_ok c name env Hf) as [Hnd Hok].
  destruct (setConfigDefaults_ok (walk (Defaults env)) fs1) as (fs & -> & Hh & Hs).
  - rewrite (Hw (Defaults env)). exact Hnd.
  - intros n text Hin. rewrite (Hw (Defaults env)) in Hin. apply Hok in Hin. unfold default_ok in Hin. cbn [fst snd] in Hin.
    destruct (list_to_map _ !! n) as [v|] eqn:E.
    + apply elem_of_list_to_map_2 in E. exists v. split; [apply Ha; rewrite Hperm; exact E|exact Hin].
    + apply not_elem_of_list_to_map_2 in E. rewrite Hb by (rewrite Hperm; exact E).
      destruct Hlog as [[z Hz] [b Hl]]. apply orb_true_iff in Hin as [[-> %bool_decide_eq_true Hv]%andb_true_iff|[-> %bool_decide_eq_true Hv]%andb_true_iff]; eauto.
  - exists fs. split_and!; [done| |].
    + intros n text Hin. apply Hh. rewrite (Hw (Defaults env)). exact Hin.
    + intros n v Hin Hn. rewrite Hs by (rewrite (Hw (Defaults env)); exact Hn). apply Ha. rewrite Hperm. exact Hin.
Qed.
End defaults.

(** ** Witness *)

#[export] Instance sample_pflag : Pflag := {|
  parse_bool text := if bool_decide (text = "true") then Some true else if bool_decide (text = "false") then Some false else None;
  parse_int text := if (Atoi text).2 then Some (Atoi text).1 else None;
  parse_duration _ := None;
  parse_strings text := Some [text]
|}.

#[export] Instance sample_pflag_laws : PflagLaws.
Proof. split; [by intros []|]. intros text z Ha _. simpl. by rewrite Ha. Qed.

Lemma Env_AddFlags_ok_witness :
  let go_flags : FlagSet := {[ "v" := FInt 0; "logtostderr" := FBool false; "kubeconfig" := FString "" ]} in
  exists fs, Env_AddFlags ProductionEnv go_flags (rev modules) (@rev _) sample_configs = Started fs /\
    holds fs "enable-deny-list" "true" /\ holds fs "v" "1".
Proof.
  intros go_flags.
  assert (Hlog : with_log_flags go_flags) by (split; eexists; vm_compute; reflexivity).
  assert (Hfresh : fresh_for (all_flags sample_configs modules).*1 go_flags).
  { intros n Hn Hk. destruct (go_flags !! n) as [x|] eqn:E; [exfalso|reflexivity]. revert Hn.
    assert (n = "v" \/ n = "logtostderr") as [-> | ->].
    { unfold go_flags in E. rewrite !lookup_insert_Some, lookup_singleton_Some in E. naive_solver. }
    - match goal with |- ?P -> _ => apply (bool_decide_unpack (~ P)); vm_compute; exact I end.
    - match goal with |- ?P -> _ => apply (bool_decide_unpack (~ P)); vm_compute; exact I end. }
  assert (Ho : rev modules ≡ₚ modules) by (symmetry; apply Permutation_rev).
  assert (Hw : forall l : list (string * string), rev l ≡ₚ l) by (intros l; symmetry; apply Permutation_rev).
  destruct (Env_AddFlags_ok ProductionEnv (SimpleEnvLoader ProductionEnv_Defaults) go_flags (rev modules) (@rev _) sample_configs
    eq_refl Ho Hw Hlog Hfresh) as (fs & Hs & Hd & _).
  exists fs. split; [exact Hs|]. split; apply Hd.
  - match goal with |- ?P => apply (bool_decide_unpack P); vm_compute; exact I end.
  - match goal with |- ?P => apply (bool_decide_unpack P); vm_compute; exact I end.
Defined.
