(* ===== verification/CentralProps.v ===== *)
(** * The central service: theorems

    The lifecycle of a central request and the contracts of the operations of
    [CentralService]. *)

From S2P Require Import Prelude GoString GoFmt ServiceErrors QueryParser CentralRequest Store Versions.
From S2P Require Import ClusterTypes World MemPlatform Config Quota Namespace ClusterService CentralService.
Local Open Scope string_scope.
Local Open Scope Z_scope.

(** ** The lifecycle of a key

    A request is registered once, lives, and is soft deleted; once it is being
    deleted it stays so until it is gone, and a key that is gone is never used
    again. *)

Definition in_deletion (r : CentralRequest) : Prop := cr_Status r ∈ dinosaurDeletionStatuses.

Definition lifecycle (o o' : rowstate CentralRequest) : Prop :=
  match o, o' with
  | Absent, _ => True
  | Live r, Live r' => cr_ID r' = cr_ID r /\ (in_deletion r -> in_deletion r')
  | Live _, Dead => True
  | Live _, Absent => False
  | Dead, Dead => True
  | Dead, _ => False
  end.

#[export] Instance lifecycle_preorder : PreOrder lifecycle.
Proof.
  split.
  - intros [|r|]; simpl; auto.
  - intros [|r|] [|r'|] [|r''|]; simpl; try done; naive_solver congruence.
Qed.

Lemma not_in_deletion r : bool_decide (cr_Status r ∉ dinosaurDeletionStatuses) = true -> ~ in_deletion r.
Proof. by rewrite bool_decide_eq_true. Qed.

Lemma updatable_spec r x :
  updatable r x = true <-> (cr_ID r = "" \/ cr_ID x = cr_ID r) /\ ~ in_deletion x.
Proof. unfold updatable, in_deletion. by rewrite andb_true_iff, orb_true_iff, !bool_decide_eq_true. Qed.

Lemma lifecycle_status r r' :
  cr_ID r' = cr_ID r -> (in_deletion r -> cr_Status r' = cr_Status r) \/ in_deletion r' ->
  lifecycle (Live r) (Live r').
Proof.
  intros Hid Hs. split; [done|]. intros Hd. destruct Hs as [Hs|Hs]; [|done].
  unfold in_deletion in *. by rewrite Hs.
Qed.

(** Frame: relations that every operation of a group respects.  [Q] may be the
    lifecycle or the equality of states. *)
Section frame.
Context `{PlatformLaws} (conf : ServiceConfig) (Q : relation (rowstate CentralRequest)) `{!PreOrder Q}.

Lemma rows_since t : preserves (on_rows Q) (since t).
Proof. unfold since. preserves_tac. Qed.

Lemma rows_HasAvailableCapacityInRegion r : preserves (on_rows Q) (HasAvailableCapacityInRegion conf r).
Proof. unfold HasAvailableCapacityInRegion. preserves_tac. Qed.

Lemma rows_DetectInstanceType r : preserves (on_rows Q) (DetectInstanceType conf r).
Proof.
  unfold DetectInstanceType. destruct (GetQuotaService _ _) eqn:E; [|preserves_tac].
  apply preserves_bind; [typeclasses eauto|by eapply quota_check_rows|intros ?]. preserves_tac.
Qed.

Lemma rows_reserveQuota r : preserves (on_rows Q) (reserveQuota conf r).
Proof.
  unfold reserveQuota.
  assert (preserves (on_rows Q)
    match GetQuotaService (sc_quota_list conf) (cc_QuotaType (sc_central conf)) with
    | Ok qs => ReserveQuota qs r (cr_InstanceType r)
    | Err factoryErr => mret (general (EService factoryErr) "unable to check quota")
    end).
  { destruct (GetQuotaService _ _) eqn:E; [by eapply quota_reserve_rows|preserves_tac]. }
  preserves_tac.
Qed.

Lemma rows_GetByID id : preserves (on_rows Q) (GetByID id).
Proof. unfold GetByID. preserves_tac. Qed.

Lemma rows_ListByStatus l : preserves (on_rows Q) (ListByStatus l).
Proof. unfold ListByStatus. preserves_tac. Qed.

Lemma rows_ListDinosaursWithRoutesNotCreated : preserves (on_rows Q) ListDinosaursWithRoutesNotCreated.
Proof. unfold ListDinosaursWithRoutesNotCreated. preserves_tac. Qed.

Lemma rows_ListCentralsWithoutAuthConfig : preserves (on_rows Q) ListCentralsWithoutAuthConfig.
Proof. unfold ListCentralsWithoutAuthConfig. preserves_tac. Qed.

Lemma rows_CountByStatus l : preserves (on_rows Q) (CountByStatus l).
Proof. unfold CountByStatus. preserves_tac. Qed.

Lemma rows_CountByRegion : preserves (on_rows Q) CountByRegionAndInstanceType.
Proof. unfold CountByRegionAndInstanceType. preserves_tac. Qed.

Lemma rows_ChangeDinosaurCNAMErecords r a : preserves (on_rows Q) (ChangeDinosaurCNAMErecords conf r a).
Proof. unfold ChangeDinosaurCNAMErecords. preserves_tac. Qed.

Lemma rows_GetCNAMERecordStatus r : preserves (on_rows Q) (GetCNAMERecordStatus r).
Proof. unfold GetCNAMERecordStatus. preserves_tac. Qed.

(** A status update respects [Q] when its assignment to the named row does. *)
Lemma rows_UpdateStatus id s w :
  s <> "" ->
  (forall x t n, centrals w !! id = Some x -> Q (Live x) (Live (set_UpdatedAt t (set_Status s
     (if bool_decide (s = CentralRequestStatusDeprovision) then set_DeletionTimestamp (Some n) x else x))))) ->
  on_rows Q w (UpdateStatus id s w).1.
Proof.
  intros Hs Hq. unfold UpdateStatus. apply bind_read; [done|unfold GetByID; preserves_tac|intros w1 E1].
  destruct ((GetByID id w).2) as [x|e]; [|reflexivity].
  destruct (_ && _); [reflexivity|]. destruct (bool_decide (cr_Status x = s)); [reflexivity|].
  set (ts := (if bool_decide (s = CentralRequestStatusDeprovision) then _ else _) : prog world (option Z)).
  apply bind_read; [done|unfold ts; preserves_tac|intros w2 E2].
  assert (exists n, (ts w1).2 = if bool_decide (s = CentralRequestStatusDeprovision) then Some n else None)
    as [n ->].
  { unfold ts. case_bool_decide; [|by exists 0]. rewrite prog_bind_run. eexists. reflexivity. }
  rewrite prog_bind_run. etransitivity; [|destruct ((on_centrals _ w2).2); reflexivity].
  apply rows_update_at; [done|intros; apply merge_ID|]. intros k y t Hy Hid.
  apply bool_decide_eq_true in Hid. rewrite E2, E1 in Hy. rewrite merge_status_update by done.
  specialize (Hq y t n). rewrite <- Hid, (centrals_id w k y Hy) in Hq.
  destruct (bool_decide (s = _)); by apply Hq.
Qed.

(** An update respects [Q] when the assignments to rows outside deletion do. *)
Lemma rows_Update r :
  (forall x t, ~ in_deletion x -> cr_ID r = "" \/ cr_ID x = cr_ID r ->
     Q (Live x) (Live (set_UpdatedAt t (merge x r)))) ->
  preserves (on_rows Q) (Update r).
Proof.
  intros Hq. unfold Update. apply preserves_bind; [typeclasses eauto| |intros ?; preserves_tac].
  apply rows_update; [done|done|]. intros x t [? ?]%updatable_spec. auto.
Qed.

Lemma rows_Updates r f :
  (forall x, cr_ID (f x) = cr_ID x) ->
  (forall x t, ~ in_deletion x -> cr_ID r = "" \/ cr_ID x = cr_ID r ->
     Q (Live x) (Live (set_UpdatedAt t (f x)))) ->
  preserves (on_rows Q) (Updates r f).
Proof.
  intros Hid Hq. unfold Updates. apply preserves_bind; [typeclasses eauto| |intros ?; preserves_tac].
  apply rows_update; [done|done|]. intros x t [? ?]%updatable_spec. auto.
Qed.
End frame.

#[export] Hint Resolve rows_since rows_HasAvailableCapacityInRegion rows_DetectInstanceType
  rows_reserveQuota rows_GetByID rows_ListByStatus rows_ListDinosaursWithRoutesNotCreated
  rows_ListCentralsWithoutAuthConfig rows_CountByStatus rows_CountByRegion
  rows_ChangeDinosaurCNAMErecords rows_GetCNAMERecordStatus : fleet.

(** Every operation of the service respects the lifecycle. *)
Section lifecycle.
Context `{PlatformLaws} (conf : ServiceConfig).

Lemma lifecycle_update x y : ~ in_deletion x -> cr_ID y = cr_ID x -> lifecycle (Live x) (Live y).
Proof. intros Hx Hid. by split. Qed.

Lemma lifecycle_Update r : preserves (on_rows lifecycle) (Update r).
Proof. apply rows_Update; [typeclasses eauto|]. intros x t Hx _. by apply lifecycle_update. Qed.

Lemma lifecycle_Updates r f :
  (forall x, cr_ID (f x) = cr_ID x) -> preserves (on_rows lifecycle) (Updates r f).
Proof.
  intros Hid. apply rows_Updates; [typeclasses eauto|done|]. intros x t Hx _.
  apply lifecycle_update; [done|]. apply Hid.
Qed.

Lemma deletion_status_nonempty s : s ∈ dinosaurDeletionStatuses -> s <> "".
Proof. intros Hs ->. revert Hs. by apply (bool_decide_unpack _). Qed.

(** A status update respects the lifecycle when it starts a deletion. *)
Lemma lifecycle_UpdateStatus id s :
  s ∈ dinosaurDeletionStatuses -> preserves (on_rows lifecycle) (UpdateStatus id s).
Proof.
  intros Hs w. apply rows_UpdateStatus; [typeclasses eauto|by apply deletion_status_nonempty|].
  intros x t n _. apply lifecycle_status; [by destruct (bool_decide _)|by right].
Qed.

Lemma lifecycle_RegisterDinosaurJob r : preserves (on_rows lifecycle) (RegisterDinosaurJob conf r).
Proof.
  unfold RegisterDinosaurJob.
  assert (forall x, preserves (on_rows lifecycle) (on_centrals (db_create x))).
  { intros x. by apply rows_create; [typeclasses eauto|]. }
  preserves_tac.
Qed.

Lemma lifecycle_AcceptCentralRequest r : preserves (on_rows lifecycle) (AcceptCentralRequest conf r).
Proof. unfold AcceptCentralRequest. pose proof lifecycle_Update. preserves_tac. Qed.

Lemma lifecycle_PrepareDinosaurRequest r : preserves (on_rows lifecycle) (PrepareDinosaurRequest r).
Proof. unfold PrepareDinosaurRequest. pose proof lifecycle_Update. preserves_tac. Qed.

Lemma lifecycle_VerifyAndUpdateDinosaurAdmin ctx r :
  preserves (on_rows lifecycle) (VerifyAndUpdateDinosaurAdmin ctx r).
Proof. unfold VerifyAndUpdateDinosaurAdmin. pose proof lifecycle_Update. preserves_tac. Qed.

Lemma lifecycle_RegisterDinosaurDeprovisionJob ctx id :
  preserves (on_rows lifecycle) (RegisterDinosaurDeprovisionJob ctx id).
Proof.
  unfold RegisterDinosaurDeprovisionJob.
  assert (preserves (on_rows lifecycle) (UpdateStatus id CentralRequestStatusDeprovision))
    by (apply lifecycle_UpdateStatus; by apply (bool_decide_unpack _)).
  preserves_tac.
Qed.

(** The bulk updates touch rows outside deletion only. *)
Lemma lifecycle_deprovision p n :
  (forall x, p x = true -> ~ in_deletion x) ->
  preserves (on_rows lifecycle) (on_centrals (db_update p (deprovisioned n))).
Proof.
  intros Hp. apply rows_update; [typeclasses eauto|done|]. intros x t Hx. apply lifecycle_update; auto.
Qed.

Lemma lifecycle_DeprovisionDinosaurForUsers users :
  preserves (on_rows lifecycle) (DeprovisionDinosaurForUsers users).
Proof.
  unfold DeprovisionDinosaurForUsers. apply preserves_bind; [typeclasses eauto|preserves_tac|intros n].
  apply preserves_bind; [typeclasses eauto| |intros ?; preserves_tac].
  apply lifecycle_deprovision. intros x [_ Hx]%andb_true_iff. by apply not_in_deletion.
Qed.

Lemma lifecycle_DeprovisionExpiredDinosaurs age :
  preserves (on_rows lifecycle) (DeprovisionExpiredDinosaurs age).
Proof.
  unfold DeprovisionExpiredDinosaurs. apply preserves_bind; [typeclasses eauto|preserves_tac|intros n].
  apply preserves_bind; [typeclasses eauto| |intros ?; preserves_tac].
  apply lifecycle_deprovision. intros x [_ Hx]%andb_true_iff. by apply not_in_deletion.
Qed.

Lemma lifecycle_Delete r force : preserves (on_rows lifecycle) (Delete conf r force).
Proof.
  unfold Delete, delete_row_of.
  assert (preserves (on_rows lifecycle) (on_centrals (db_delete (fun x => bool_decide (cr_ID x = cr_ID r)))))
    by by apply rows_delete; [typeclasses eauto|].
  preserves_tac.
Qed.
End lifecycle.

#[export] Hint Resolve lifecycle_Update lifecycle_RegisterDinosaurJob lifecycle_AcceptCentralRequest
  lifecycle_PrepareDinosaurRequest lifecycle_VerifyAndUpdateDinosaurAdmin
  lifecycle_RegisterDinosaurDeprovisionJob lifecycle_DeprovisionDinosaurForUsers
  lifecycle_DeprovisionExpiredDinosaurs lifecycle_Delete : fleet.

(** ** Contracts *)

Section contracts.
Context `{PlatformLaws} (conf : ServiceConfig).

(** A program that leaves every key in its state leaves the rows unchanged. *)
Lemma frame_rows {A} (m : prog world A) w : preserves (on_rows eq) m -> centrals (m w).1 = centrals w.
Proof. intros Hm. apply rows_eq, Hm. Qed.

Lemma GetByID_ok id w r :
  (GetByID id w).2 = Ok r -> centrals w !! id = Some r /\ cr_ID r = id.
Proof.
  unfold GetByID. case_bool_decide; [done|]. rewrite prog_bind_run.
  destruct ((on_centrals _ w).2) as [x|e] eqn:E; [|done]. intros [= <-].
  apply first_result in E as [Hx Hid]. apply bool_decide_eq_true in Hid. by rewrite <- Hid at 1.
Qed.

Lemma GetByID_nonempty id w r : (GetByID id w).2 = Ok r -> id <> "".
Proof. unfold GetByID. by case_bool_decide. Qed.

Lemma GetByID_rows id w : centrals (GetByID id w).1 = centrals w.
Proof. apply frame_rows, rows_GetByID, _. Qed.

(** A status update of a live central: a central being deprovisioned accepts
    only the status deleting, and a status is not set twice; in these cases
    nothing is written and the update is reported as not tried.  Otherwise, when
    the statement succeeds, the central has the new status, its deletion
    timestamp is set exactly when it starts to be deprovisioned, and neither its
    other fields nor any other row change. *)
Theorem UpdateStatus_spec id status w r :
  status <> "" -> centrals w !! id = Some r -> (GetByID id w).2 = Ok r ->
  let '(w', (tried, err)) := UpdateStatus id status w in
  if (bool_decide (cr_Status r = CentralRequestStatusDeprovision) &&
      bool_decide (status <> CentralRequestStatusDeleting)) || bool_decide (cr_Status r = status)
  then tried = false /\ err <> None /\ centrals w' = centrals w
  else tried = true /\
    match err with
    | Some _ => centrals w' = centrals w
    | None => exists t n,
        centrals w' = <[id := set_UpdatedAt t (set_Status status
          (if bool_decide (status = CentralRequestStatusDeprovision)
           then set_DeletionTimestamp (Some n) r else r))]> (centrals w)
    end.
Proof.
  intros Hne Hr Hget. destruct (UpdateStatus id status w) as [w' [tried err]] eqn:E. revert E.
  unfold UpdateStatus. rewrite prog_bind_run, Hget. pose proof (GetByID_rows id w) as Hrows.
  set (w1 := (GetByID id w).1) in *.
  destruct (bool_decide _ && bool_decide _); simpl.
  { intros [= <- <- <-]. split_and!; [done|discriminate|done]. }
  destruct (bool_decide (cr_Status r = status)).
  { intros [= <- <- <-]. split_and!; [done|discriminate|done]. }
  rewrite prog_bind_run.
  set (ts := (if bool_decide (status = CentralRequestStatusDeprovision) then _ else _) : prog world (option Z)).
  assert (centrals (ts w1).1 = centrals w) as Hts.
  { rewrite <- Hrows. apply frame_rows. unfold ts. preserves_tac. }
  assert (exists n, (ts w1).2 = if bool_decide (status = CentralRequestStatusDeprovision) then Some n else None)
    as [n Hn].
  { unfold ts. case_bool_decide; [|by exists 0]. rewrite prog_bind_run. eexists. reflexivity. }
  rewrite Hn. clear Hn. set (u := set_DeletionTimestamp _ _). set (w2 := (ts w1).1) in *.
  rewrite prog_bind_run.
  destruct ((on_centrals (db_update (fun x => bool_decide (cr_ID x = id)) (fun x => merge x u)) w2).2)
    as [m|e] eqn:Eu; simpl; intros [= <- <- <-]; (split; [done|]).
  - destruct (update_result _ _ _ _ (fun x => merge_ID x u) Eu) as [_ [t ->]]. exists t, n.
    rewrite Hts, (updated_row t _ _ _ id r Hr).
    + unfold u. rewrite merge_status_update by done. by destruct (bool_decide (status = _)).
    + intros k y Hy. by rewrite (centrals_id w k y Hy).
  - by rewrite (update_failed _ _ _ _ Eu).
Qed.
(** ** Registration *)

Definition region_count (region : string) (m : gmap string CentralRequest) : Z :=
  Z.of_nat (size (matching (fun x => bool_decide (cr_Region x = region)) m)).

Lemma region_count_insert region m k x :
  m !! k = None -> cr_Region x = region -> region_count region (<[k := x]> m) = region_count region m + 1.
Proof.
  intros Hk Hx. unfold region_count, matching.
  rewrite map_filter_insert_True by (simpl; by rewrite bool_decide_eq_true).
  rewrite map_size_insert_None; [lia|]. apply map_lookup_filter_None. by left.
Qed.

Lemma HasAvailableCapacityInRegion_true r w :
  (HasAvailableCapacityInRegion conf r w).2 = Ok true ->
  region_count (cr_Region r) (centrals w) <
  GetCapacityForRegion (dc_ClusterConfig (sc_dataplane conf)) (cr_Region r).
Proof.
  unfold HasAvailableCapacityInRegion. destruct (_ <=? 0); [done|]. rewrite prog_bind_run.
  destruct ((on_centrals _ w).2) as [n|e] eqn:E; [|done]. intros [= Hlt%Z.ltb_lt].
  apply count_result in E. unfold region_count. by rewrite <- E.
Qed.

Lemma reserveQuota_eval r w s :
  (reserveQuota conf r w).2 = Ok s -> cr_InstanceType r = EVAL ->
  cc_AllowEvaluatorInstance (sc_central conf) = true /\
  forall k x, centrals w !! k = Some x -> same_eval r x = false.
Proof.
  unfold reserveQuota. intros Hok Hev. rewrite bool_decide_eq_true_2 in Hok by done.
  destruct (cc_AllowEvaluatorInstance _); [|done]. simpl in Hok. rewrite prog_bind_run in Hok.
  destruct ((on_centrals _ w).2) as [n|e] eqn:E; [|done]. apply count_result in E.
  destruct (Z.ltb_spec 0 n); [done|]. split; [done|]. intros k x Hx.
  destruct (same_eval r x) eqn:Hs; [|done]. exfalso.
  assert (matching (same_eval r) (centrals w) <> ∅) as Hm.
  { intros Hem. assert (matching (same_eval r) (centrals w) !! k = Some x) as Hl
      by by apply matching_lookup. by rewrite Hem, lookup_empty in Hl. }
  apply map_size_non_empty_iff in Hm. lia.
Qed.

Lemma DetectInstanceType_cases r w :
  (DetectInstanceType conf r w).2 = EVAL \/ (DetectInstanceType conf r w).2 = STANDARD.
Proof.
  unfold DetectInstanceType. destruct (GetQuotaService _ _) as [qs|e]; [|by left].
  rewrite prog_bind_run.
  destruct ((CheckIfQuotaIsDefinedForInstanceType qs r STANDARD w).2) as [[]|]; auto.
Qed.

Lemma kept_HasAvailableCapacityInRegion r : preserves same_clusters (HasAvailableCapacityInRegion conf r).
Proof. unfold HasAvailableCapacityInRegion. preserves_tac. Qed.

Lemma kept_DetectInstanceType r : preserves same_clusters (DetectInstanceType conf r).
Proof.
  unfold DetectInstanceType. destruct (GetQuotaService _ _) eqn:E; [|preserves_tac].
  apply preserves_bind; [typeclasses eauto|by eapply quota_check_kept|intros ?]. preserves_tac.
Qed.

(** What a request determines of its central. *)
Definition request_fields (r : CentralRequest) : list string * bool * bool * option string * option string :=
  ([cr_Name r; cr_Region r; cr_CloudProvider r; cr_CloudAccountID r; cr_Owner r; cr_OwnerAccountID r;
    cr_OwnerUserID r; cr_OrganisationID r], cr_MultiAZ r, cr_Internal r, cr_Central r, cr_Scanner r).

Lemma stamp_created_fields t r :
  let x := stamp_created t r in
  cr_ID x = cr_ID r /\ cr_Status x = cr_Status r /\ request_fields x = request_fields r /\
  cr_ClusterID x = cr_ClusterID r /\ cr_InstanceType x = cr_InstanceType r.
Proof. simpl. destruct (cr_CreatedAt r =? 0); simpl; destruct (cr_UpdatedAt r =? 0); done. Qed.

Lemma request_fields_eq x r :
  request_fields x = request_fields r ->
  cr_Owner x = cr_Owner r /\ cr_OrganisationID x = cr_OrganisationID r /\ cr_Region x = cr_Region r /\
  cr_CloudProvider x = cr_CloudProvider r /\ cr_MultiAZ x = cr_MultiAZ r.
Proof. unfold request_fields. intros [= ? ? ? ? ? ? ? ? ? ? ? ?]. done. Qed.

(** The contract of a registration, on the world, the struct and the error it returns. *)
Definition registered (r : CentralRequest) (w : world) (out : world * (CentralRequest * option ServiceError)) : Prop :=
  match out.2.2 with
  | Some _ => centrals out.1 = centrals w
  | None => exists x c,
      out.2.1 = x /\ cr_ID x = (fresh_id w).2 /\
      centrals w !! cr_ID x = None /\ centrals out.1 = <[cr_ID x := x]> (centrals w) /\
      cr_Status x = CentralRequestStatusAccepted /\ request_fields x = request_fields r /\
      cr_ClusterID x = cl_ClusterID c /\ clusters w !! cl_ID c = Some c /\ fits x c /\
      region_count (cr_Region r) (centrals out.1) <=
        GetCapacityForRegion (dc_ClusterConfig (sc_dataplane conf)) (cr_Region r) /\
      (cr_InstanceType x = EVAL -> forall k y, centrals w !! k = Some y -> same_eval x y = false)
  end.

Lemma registration r w : registered r w (RegisterDinosaurJob conf r w).
Proof.
  unfold RegisterDinosaurJob. apply bind_frame2; [preserves_tac..|intros w0 E0 K0].
  set (r0 := set_ID _ r). apply bind_frame2; [preserves_tac|apply kept_HasAvailableCapacityInRegion|].
  intros w1 E1 K1. pose proof (HasAvailableCapacityInRegion_true r0 w0) as Hcap.
  destruct ((HasAvailableCapacityInRegion conf r0 w0).2) as [[|]|e]; [|red; simpl; congruence..].
  specialize (Hcap eq_refl). rewrite E0 in Hcap.
  apply bind_frame2; [preserves_tac|apply kept_DetectInstanceType|intros w2 E2 K2].
  set (r1 := set_InstanceType _ r0). apply bind_frame; [preserves_tac|intros w3 E3].
  pose proof (FindCluster_ok r1 w2) as Hfind.
  destruct ((FindCluster r1 w2).2) as [[c|]|e]; [|red; simpl; congruence..].
  destruct (Hfind c eq_refl) as (Hc & Hfits & _).
  set (r2 := set_ClusterID (cl_ClusterID c) r1). apply bind_frame; [preserves_tac|intros w4 E4].
  pose proof (reserveQuota_eval r2 w3) as Hev.
  destruct ((reserveQuota conf r2 w3).2) as [sub|e]; [|red; simpl; congruence].
  specialize (Hev _ eq_refl). set (r3 := set_QuotaType _ _). rewrite prog_bind_run.
  destruct ((on_centrals (db_create r3) w4).2) as [x|e] eqn:Hcr;
    [|red; simpl; rewrite (create_failed _ _ _ Hcr); congruence].
  destruct (create_result _ _ _ Hcr) as (Hnone & [t Hx] & Hrows).
  apply bind_frame; [preserves_tac|intros w5 E5]. apply bind_frame; [preserves_tac|intros w6 E6].
  destruct (stamp_created_fields t r3) as (Hid & Hst & Hrf & Hcl & Hty).
  rewrite <- Hx in Hid, Hst, Hrf, Hcl, Hty. destruct (request_fields_eq _ _ Hrf) as (Ho & Horg & Hreg & Hcp & Hmz).
  assert (centrals w4 = centrals w) as E by congruence.
  assert (centrals w6 = <[cr_ID x := x]> (centrals w)) as Hfin by (rewrite Hid, <- E; congruence).
  exists x, c. simpl. rewrite Hfin, Hid. rewrite E in Hnone. split_and!; try done.
  - congruence.
  - unfold fits in *. by rewrite Hcp, Hreg, Hmz, Hty.
  - rewrite region_count_insert by (by rewrite ?Hreg). simpl in Hcap. lia.
  - rewrite Hty. intros Het k y Hy. destruct Hev as [_ Hev]; [done|].
    specialize (Hev k y ltac:(congruence)). unfold same_eval in *. by rewrite Ho, Horg.
Qed.


(** A region whose only cluster is configured as unlimited (limit -1) never
    accepts a central: the limit enters the sum of the region's capacity, while
    the limit check of the cluster itself treats it as no limit. *)
Theorem unlimited_cluster_without_capacity c r w count :
  mc_CentralInstanceLimit c = -1 -> mc_Region c = cr_Region r ->
  sc_dataplane conf = mkDataplaneClusterConfig ManualScaling (NewClusterConfig [c]) true ->
  IsNumberOfDinosaurWithinClusterLimit (NewClusterConfig [c]) (mc_ClusterID c) count = true /\
  (HasAvailableCapacityInRegion conf r w).2 = Ok false.
Proof.
  intros Hl Hr Hconf. split.
  - unfold IsNumberOfDinosaurWithinClusterLimit. simpl. by rewrite lookup_insert_eq, Hl.
  - unfold HasAvailableCapacityInRegion, GetCapacityForRegion. rewrite Hconf. simpl.
    by rewrite bool_decide_eq_true_2, Hl.
Qed.

(** ** Updates *)

(** An update never touches a central that is being deleted, whatever the
    struct says; of the other centrals it changes at most the one it names, and
    only in the fields the struct sets. *)
Theorem Update_guarded r w k x :
  centrals w !! k = Some x ->
  (in_deletion x -> centrals (Update r w).1 !! k = Some x) /\
  (cr_ID r <> "" -> k <> cr_ID r -> centrals (Update r w).1 !! k = Some x) /\
  (centrals (Update r w).1 !! k = Some x \/
   exists t, centrals (Update r w).1 !! k = Some (set_UpdatedAt t (merge x r))).
Proof.
  intros Hx. unfold Update. rewrite prog_bind_run.
  set (m := on_centrals (db_update (updatable r) (fun y => merge y r))).
  assert (centrals ((match (m w).2 with
      | Ok _ => mret None | Err err => mret (failing err "Failed to update central") end : prog world _) (m w).1).1
    = centrals (m w).1) as -> by by destruct ((m w).2).
  assert (exists t, centrals (m w).1 !! k = Some (if updatable r x then set_UpdatedAt t (merge x r) else x) \/
    centrals (m w).1 !! k = Some x) as [t Hm].
  { destruct ((m w).2) as [n|e] eqn:E.
    - destruct (update_result _ _ _ _ (fun y => merge_ID y r) E) as [_ [t Ht]]. exists t. left.
      unfold m. rewrite Ht, updated_lookup, Hx. done.
    - exists 0. right. unfold m in *. by rewrite (update_failed _ _ _ _ E). }
  split_and!.
  - intros Hd. destruct Hm as [Hm|Hm]; [|done]. rewrite Hm.
    destruct (updatable r x) eqn:Hu; [|done]. by apply updatable_spec in Hu as [_ Hu].
  - intros Hne Hk. destruct Hm as [Hm|Hm]; [|done]. rewrite Hm.
    destruct (updatable r x) eqn:Hu; [|done]. apply updatable_spec in Hu as [[?|Hid] _]; [done|].
    destruct Hk. rewrite <- Hid. symmetry. by apply (centrals_id w).
  - destruct Hm as [Hm|Hm]; [|by left]. rewrite Hm. destruct (updatable r x); eauto.
Qed.

Lemma Update_failed r w err : (Update r w).2 = Some err -> centrals (Update r w).1 = centrals w.
Proof.
  unfold Update. rewrite prog_bind_run.
  destruct ((on_centrals (db_update (updatable r) (fun x => merge x r)) w).2) as [n|e] eqn:E; [done|].
  intros _. simpl. by rewrite (update_failed _ _ _ _ E).
Qed.

(** ** Tenants *)

(** What a request may see. *)
Definition visible_to (ctx : Ctx) (x : CentralRequest) : Prop :=
  exists claims, ctx_claims ctx = Ok claims /\
    (ctx_isAdmin ctx = true \/
     (cl_username claims <> "" /\
      if ctx_filterByOrganisation ctx then cr_OrganisationID x = cl_orgID claims
      else cr_Owner x = cl_username claims)).

Lemma tenant_filter_visible ctx claims p x :
  ctx_claims ctx = Ok claims -> tenant_filter ctx claims = Ok p -> p x = true -> visible_to ctx x.
Proof.
  unfold tenant_filter, visible_to. intros Hc Hp Hx. exists claims. split; [done|].
  destruct (ctx_isAdmin ctx); [by left|]. right. case_bool_decide; [done|]. split; [done|].
  destruct (ctx_filterByOrganisation ctx); injection Hp as <-; by apply bool_decide_eq_true in Hx.
Qed.

Lemma Get_ok ctx id w x :
  (Get ctx id w).2 = Ok x -> cr_ID x = id /\ centrals w !! id = Some x /\ visible_to ctx x.
Proof.
  unfold Get. case_bool_decide; [done|].
  destruct (ctx_claims ctx) as [claims|] eqn:Hc; [|done].
  destruct (tenant_filter ctx claims) as [p|] eqn:Hp; [|done]. rewrite prog_bind_run.
  destruct ((on_centrals _ w).2) as [y|e] eqn:E; [|done]. intros [= <-].
  apply first_result in E as [Hy [Hid Hv]%andb_true_iff]. apply bool_decide_eq_true in Hid as <-.
  split; [done|]. split; [done|]. by eapply tenant_filter_visible.
Qed.

Lemma ListCentrals_ok cap sql ctx la w l pm x :
  (ListCentrals cap sql ctx la w).2 = Ok (l, pm) -> x ∈ l -> centrals w !! cr_ID x = Some x /\ visible_to ctx x.
Proof.
  unfold ListCentrals. destruct (ctx_claims ctx) as [claims|] eqn:Hc; [|done].
  destruct (tenant_filter ctx claims) as [p|] eqn:Hp; [|done]. cbv zeta.
  set (searched := if bool_decide (la_Search la = "") then Ok p else _).
  assert (forall q y, searched = Ok q -> q y = true -> p y = true) as Hsub.
  { intros q y. unfold searched. case_bool_decide; [by intros [= ->]|].
    destruct (Parse _ _ _) as [dq|[]]; intros [= <-]. by intros [? _]%andb_true_iff. }
  destruct searched as [q|]; [|done]. specialize (Hsub q). rewrite prog_bind_run.
  set (rt := on_centrals (db_count q) w).
  assert (centrals rt.1 = centrals w) as Hrt by (apply frame_rows; preserves_tac).
  rewrite prog_bind_run.
  destruct ((on_centrals (db_page _ _ _ _) rt.1).2) as [l'|e] eqn:E; [|done].
  intros [= <- _] Hx. destruct (page_result _ _ _ _ _ _ _ E Hx) as [Hrow Hq]. rewrite Hrt in Hrow.
  split; [done|]. eapply tenant_filter_visible; eauto.
Qed.

(** Who may delete a central: an administrator, an organisation administrator of
    its organisation, or its owner. *)
Definition may_delete (ctx : Ctx) (x : CentralRequest) : Prop :=
  exists claims, ctx_claims ctx = Ok claims /\
    (if ctx_isAdmin ctx then True
     else if cl_isOrgAdmin claims then cr_OrganisationID x = cl_orgID claims
     else cr_Owner x = cl_username claims).

Lemma UpdateStatus_other id s w k :
  s <> "" -> k <> id -> centrals (UpdateStatus id s w).1 !! k = centrals w !! k.
Proof.
  intros Hs Hk.
  pose (same_but (o o' : rowstate CentralRequest) :=
    o' = o \/ exists x x', o = Live x /\ o' = Live x' /\ cr_ID x = id /\ cr_ID x' = id).
  assert (PreOrder same_but) as Hpre.
  { split; [by left|]. intros o1 o2 o3 [->|(x & y & -> & -> & Hx & Hy)]; [done|].
    intros [->|(? & z & _ & -> & _ & Hz)]; right; eauto 10. }
  assert (on_rows same_but w (UpdateStatus id s w).1) as Hr.
  { apply rows_UpdateStatus; [done..|]. intros x t n Hx. apply centrals_id in Hx.
    right. eexists _, _. split_and!; [done..|]. by destruct (bool_decide _). }
  apply option_eq. intros y. rewrite <- !central_state_live.
  destruct (Hr k) as [E|(x & x' & E & _ & Hid & _)]; [by rewrite E|].
  apply central_state_live, centrals_id in E. congruence.
Qed.

(** A deletion request changes only the central it names, and only if the caller may
    delete it; otherwise the table is unchanged. *)
Lemma RegisterDinosaurDeprovisionJob_authorised ctx id w k :
  centrals (RegisterDinosaurDeprovisionJob ctx id w).1 !! k <> centrals w !! k ->
  k = id /\ exists x, centrals w !! id = Some x /\ may_delete ctx x.
Proof.
  unfold RegisterDinosaurDeprovisionJob. case_bool_decide; [done|].
  destruct (ctx_claims ctx) as [claims|] eqn:Hc; [|done]. cbv zeta.
  set (p := fun x => bool_decide (cr_ID x = id) && _).
  apply (bind_frame (on_centrals (db_first p)) _ w
    (fun out => centrals out.1 !! k <> centrals w !! k -> _)); [preserves_tac|intros w1 E1].
  destruct ((on_centrals (db_first p) w).2) as [x|e] eqn:Hf; [|simpl; by rewrite E1].
  apply first_result in Hf as [Hx [Hid Hm]%andb_true_iff]. apply bool_decide_eq_true in Hid. rewrite Hid in Hx.
  apply (bind_frame _ _ w1 (fun out => centrals out.1 !! k <> centrals w !! k -> _));
    [preserves_tac|intros w2 E2].
  rewrite prog_bind_run. set (us := UpdateStatus id CentralRequestStatusDeprovision w2).
  assert (forall B (q : prog world B), preserves (on_rows eq) q -> centrals (q us.1).1 !! k <> centrals w !! k ->
    k = id) as Hk.
  { intros B q Hq. rewrite (frame_rows q us.1 Hq). intros Hne. destruct (decide (k = id)) as [|Hk]; [done|].
    destruct Hne. unfold us. rewrite UpdateStatus_other by done. congruence. }
  intros Hne. split.
  - revert Hne. destruct (us.2) as [[] [err|]]; apply Hk; preserves_tac.
  - exists x. split; [done|]. exists claims. split; [done|].
    destruct (ctx_isAdmin ctx); [done|]. by destruct (cl_isOrgAdmin claims); apply bool_decide_eq_true in Hm.
Qed.

(** Expiry: the nightly clean-up deprovisions exactly the eval instances at
    least as old as the configured lifespan (read against one clock value) that
    are not yet being deleted, and changes no other row. *)
Theorem DeprovisionExpiredDinosaurs_spec age w :
  let '(w', res) := DeprovisionExpiredDinosaurs age w in
  match res with
  | Some _ => centrals w' = centrals w
  | None => exists n t, n = (now w).2 /\ forall k,
      centrals w' !! k = (fun x =>
        if bool_decide (cr_InstanceType x = EVAL) && (cr_CreatedAt x <=? n - wrap64 (age * hour)) &&
           bool_decide (cr_Status x ∉ dinosaurDeletionStatuses)
        then set_UpdatedAt t (deprovisioned n x) else x) <$> centrals w !! k
  end.
Proof.
  unfold DeprovisionExpiredDinosaurs. rewrite prog_bind_run. set (n := (now w).2).
  assert (centrals (now w).1 = centrals w) as E0 by (apply frame_rows; preserves_tac).
  set (w0 := (now w).1) in *. clearbody w0. rewrite prog_bind_run.
  destruct ((on_centrals (db_update _ (deprovisioned n)) w0).2) as [m|e] eqn:E.
  - destruct (update_result _ (deprovisioned n) _ _ (fun y => eq_refl) E) as [_ [t Ht]].
    set (w1 := (on_centrals _ w0).1) in *.
    assert (centrals ((emit_times (Z.to_nat m) deprovision_metrics ≫= fun _ => mret (None : option ServiceError)) w1).1
      = centrals w1) as Hem by (apply frame_rows; preserves_tac).
    rewrite prog_bind_run in *. simpl in *. exists n, t. split; [done|]. intros k.
    rewrite Hem, Ht, updated_lookup, E0. done.
  - simpl. rewrite (update_failed _ _ _ _ E). done.
Qed.
End contracts.

(** ** Runs on the concrete platform *)

Definition east_cluster (limit : Z) : ManualCluster :=
  mkManualCluster "east" "c1" "aws" "us-east-1" false true limit ClusterReady ClusterProviderStandalone
    "apps.example.com" AllInstanceTypeSupport [].

(** One cluster for five centrals, quotas from a list in which nobody is registered. *)
Definition sample_config : ServiceConfig :=
  mkServiceConfig (mkCentralConfig false "" false 48 QuotaManagementListQuotaType true "" "" "" 60)
    (mkDataplaneClusterConfig ManualScaling (NewClusterConfig [east_cluster 5]) true)
    (mkQuotaList [] [] true 1) "invalid".

Definition unlimited_config : ServiceConfig :=
  mkServiceConfig (sc_central sample_config)
    (mkDataplaneClusterConfig ManualScaling (NewClusterConfig [east_cluster (-1)]) true)
    (sc_quota_list sample_config) (sc_regex_error sample_config).

Definition two_centrals : list CentralRequest :=
  [set_InstanceType EVAL (sample_central "a" CentralRequestStatusReady "alice" "org-1");
   set_InstanceType EVAL (sample_central "b" CentralRequestStatusDeprovision "bob" "org-2")].

Definition sample_world : @world mem_platform := mem_world two_centrals [ready_cluster "k1" "c1"].

Definition alice : Ctx := mkCtx (Ok (mkClaims "alice" "org-1" false "account" "subject" (Some "user"))) false false.

Lemma UpdateStatus_spec_witness :
  let a := set_InstanceType EVAL (sample_central "a" CentralRequestStatusReady "alice" "org-1") in
  let '(w', (tried, err)) := UpdateStatus "a" CentralRequestStatusDeprovision sample_world in
  tried = true /\ err = None /\ exists t n,
    centrals w' = <["a" := set_UpdatedAt t (set_Status CentralRequestStatusDeprovision
      (set_DeletionTimestamp (Some n) a))]> (centrals sample_world).
Proof.
  pose proof (UpdateStatus_spec "a" CentralRequestStatusDeprovision sample_world
    (set_InstanceType EVAL (sample_central "a" CentralRequestStatusReady "alice" "org-1"))
    ltac:(discriminate) ltac:(vm_compute; reflexivity) ltac:(vm_compute; reflexivity)) as Hs.
  assert ((UpdateStatus "a" CentralRequestStatusDeprovision sample_world).2 = (true, None)) as E
    by (vm_compute; reflexivity).
  destruct (UpdateStatus "a" CentralRequestStatusDeprovision sample_world) as [w' p].
  simpl in E. subst p. split; [reflexivity|]. split; [reflexivity|]. exact (proj2 Hs).
Defined.


Lemma unlimited_cluster_without_capacity_witness :
  IsNumberOfDinosaurWithinClusterLimit (NewClusterConfig [east_cluster (-1)]) "c1" 7 = true /\
  (HasAvailableCapacityInRegion unlimited_config (sample_central "" "" "carol" "org-1") sample_world).2 = Ok false.
Proof.
  exact (unlimited_cluster_without_capacity unlimited_config (east_cluster (-1))
    (sample_central "" "" "carol" "org-1") sample_world 7 eq_refl eq_refl eq_refl).
Defined.

Lemma Update_guarded_witness :
  let r := set_ID "b" (set_Status CentralRequestStatusReady zero_CentralRequest) in
  let b := set_InstanceType EVAL (sample_central "b" CentralRequestStatusDeprovision "bob" "org-2") in
  centrals (Update r sample_world).1 !! "b" = Some b.
Proof.
  refine (proj1 (Update_guarded (set_ID "b" (set_Status CentralRequestStatusReady zero_CentralRequest)) sample_world "b"
    (set_InstanceType EVAL (sample_central "b" CentralRequestStatusDeprovision "bob" "org-2"))
    ltac:(vm_compute; reflexivity)) _).
  by apply (bool_decide_unpack _).
Defined.

Lemma DeprovisionExpiredDinosaurs_spec_witness :
  (DeprovisionExpiredDinosaurs 0 sample_world).2 = None /\
  match DeprovisionExpiredDinosaurs 0 sample_world with
  | (w', Some _) => centrals w' = centrals sample_world
  | (w', None) => exists n t, n = (now sample_world).2 /\ forall k,
      centrals w' !! k = (fun x =>
        if bool_decide (cr_InstanceType x = EVAL) && (cr_CreatedAt x <=? n - wrap64 (0 * hour)) &&
           bool_decide (cr_Status x ∉ dinosaurDeletionStatuses)
        then set_UpdatedAt t (deprovisioned n x) else x) <$> centrals sample_world !! k
  end.
Proof.
  split; [vm_compute; reflexivity|]. pose proof (DeprovisionExpiredDinosaurs_spec 0 sample_world) as Hs.
  destruct (DeprovisionExpiredDinosaurs 0 sample_world) as [w' [e|]]; exact Hs.
Defined.
