(* ===== verification/DataPlane.v ===== *)
(** * Reports of the data plane

    services/data_plane_dinosaur.go and data_plane_cluster.go: the fleetshard
    synchronizer of a cluster reports the status of its centrals and of the
    cluster itself.  The handlers receive a pointer to the central or cluster
    they have read and assign to its fields; the operations here return the
    struct as they leave it. *)

From S2P Require Import Prelude GoString GoFmt ServiceErrors CentralRequest Store Versions.
From S2P Require Import ClusterTypes World MemPlatform Config Namespace ClusterService CentralService CentralProps.
Local Open Scope string_scope.
Local Open Scope Z_scope.

(** ** Central reports *)

Inductive centralStatus :=
| statusInstalling | statusReady | statusError | statusRejected | statusDeleted | statusUnknown.

Definition dinosaurOperatorUpdating : string := "DinosaurOperatorUpdating".
Definition dinosaurUpdating : string := "DinosaurUpdating".

(** The loop over the conditions; a ready condition that says nothing the switch
    knows is passed over. *)
Fixpoint getStatus_conditions (conditions : list DataPlaneCentralStatusCondition) : centralStatus :=
  match conditions with
  | [] => statusInstalling
  | c :: rest =>
      if EqualFold (cond_Type c) "Ready" then
        if EqualFold (cond_Status c) "True" then statusReady
        else if EqualFold (cond_Status c) "Unknown" then statusUnknown
        else if EqualFold (cond_Reason c) "Installing" then statusInstalling
        else if EqualFold (cond_Reason c) "Deleted" then statusDeleted
        else if EqualFold (cond_Reason c) "Error" then statusError
        else if EqualFold (cond_Reason c) "Rejected" then statusRejected
        else getStatus_conditions rest
      else getStatus_conditions rest
  end.

Definition getStatus (status : DataPlaneCentralStatus) : centralStatus :=
  getStatus_conditions (ds_Conditions status).

Fixpoint validateRouters (routesInRequest : list DataPlaneCentralRoute) (r : CentralRequest)
    (clusterDNS : string) : option error :=
  match routesInRequest with
  | [] => None
  | x :: rest =>
      if negb (HasSuffix (route_Router x) clusterDNS)
      then Some (ETraced (Sprintf "cluster router is not valid. router = %s, expected = %s"
        [VStr (route_Router x); VStr clusterDNS]))
      else if negb (HasSuffix (route_Domain x) (cr_Host r))
      then Some (ETraced (Sprintf "exposed domain is not valid. domain = %s, expected = %s"
        [VStr (route_Domain x); VStr (cr_Host r)]))
      else validateRouters rest r clusterDNS
  end.

(** The error [err], with another message. *)
Definition rewrapped (err : ServiceError) (reason : string) (values : list fmt_arg) : option ServiceError :=
  Some (NewWithCause (Code err) (Some (EService err)) reason values).

Section central_reports.
Context `{Platform}.

Definition checkCentralRequestCurrentStatus (r : CentralRequest) (status : string)
    : prog world (result ServiceError bool) :=
  rg ← GetByID (cr_ID r);
  match rg with
  | Err err => mret (Err err)
  | Ok currentInstance => mret (Ok (bool_decide (cr_Status currentInstance = status)))
  end.

Definition persistCentralRoutes (r : CentralRequest) (ks : DataPlaneCentralStatus) (cluster : Cluster)
    : prog world (CentralRequest * option ServiceError) :=
  match cr_Routes r with
  | Some _ => mret (r, None)
  | None =>
      rd ← GetClusterDNS (cl_ClusterID cluster);
      match rd with
      | Err err => mret (r, rewrapped err "failed to get DNS entry for cluster %s" [VStr (cl_ClusterID cluster)])
      | Ok clusterDNS =>
          match validateRouters (default [] (ds_Routes ks)) r clusterDNS with
          | Some routesErr =>
              mret (r, Some (NewWithCause ErrorBadRequest (Some routesErr) "routes are not valid" []))
          | None =>
              let r := SetRoutes (ds_Routes ks) r in
              ru ← Update r;
              match ru with
              | Some err => mret (r, rewrapped err "failed to update routes for central cluster %s" [VStr (cr_ID r)])
              | None => mret (r, None)
              end
          end
      end
  end.

Definition ready_fields (x : CentralRequest) : CentralRequest :=
  set_FailedReason "" (set_Status CentralRequestStatusReady x).

Definition setCentralClusterReady (r : CentralRequest) : prog world (option ServiceError) :=
  if negb (cr_RoutesCreated r) then mret None
  else
    rs ← checkCentralRequestCurrentStatus r CentralRequestStatusProvisioning;
    match rs with
    | Err err => mret (Some err)
    | Ok shouldSendMetric =>
        ru ← Updates r ready_fields;
        match ru with
        | Some err => mret (rewrapped err "failed to update status %s for central cluster %s"
            [VStr CentralRequestStatusReady; VStr (cr_ID r)])
        | None =>
            if (shouldSendMetric : bool) then
              d1 ← since (cr_CreatedAt r);
              _ ← emit (CentralRequestsStatusSinceCreated CentralRequestStatusReady (cr_ID r) (cr_ClusterID r) d1);
              d2 ← since (cr_CreatedAt r);
              _ ← emit (CentralCreationDuration d2);
              _ ← emit (CentralSuccessOperations CentralOperationCreate);
              _ ← emit (CentralTotalOperations CentralOperationCreate);
              mret None
            else mret None
        end
    end.

Definition setCentralClusterFailed (r : CentralRequest) (errMessage : string)
    : prog world (CentralRequest * option ServiceError) :=
  if bool_decide (cr_Status r = CentralRequestStatusFailed) then mret (r, None)
  else
    rs ← checkCentralRequestCurrentStatus r CentralRequestStatusProvisioning;
    match rs with
    | Err err => mret (r, Some err)
    | Ok shouldSendMetric =>
        let r := set_FailedReason (Sprintf "Central reported as failed: '%s'" [VStr errMessage])
                   (set_Status CentralRequestStatusFailed r) in
        ru ← Update r;
        match ru with
        | Some err => mret (r, rewrapped err "failed to update central cluster to %s status for central cluster %s"
            [VStr CentralRequestStatusFailed; VStr (cr_ID r)])
        | None =>
            if (shouldSendMetric : bool) then
              d ← since (cr_CreatedAt r);
              _ ← emit (CentralRequestsStatusSinceCreated CentralRequestStatusFailed (cr_ID r) (cr_ClusterID r) d);
              _ ← emit (CentralTotalOperations CentralOperationCreate);
              mret (r, None)
            else mret (r, None)
        end
    end.

Definition setCentralClusterDeleting (r : CentralRequest) : prog world (option ServiceError) :=
  ru ← UpdateStatus (cr_ID r) CentralRequestStatusDeleting;
  match ru with
  | (true, Some updateErr) => mret (rewrapped updateErr "failed to update status %s for central cluster %s"
      [VStr CentralRequestStatusDeleting; VStr (cr_ID r)])
  | (true, None) =>
      d ← since (cr_CreatedAt r);
      _ ← emit (CentralRequestsStatusSinceCreated CentralRequestStatusDeleting (cr_ID r) (cr_ClusterID r) d);
      mret None
  | (false, _) => mret None
  end.

Definition reassignCentralCluster (r : CentralRequest) : prog world (CentralRequest * option ServiceError) :=
  if bool_decide (cr_Status r = CentralRequestStatusProvisioning) then
    placement ← fresh_id;
    let r := set_PlacementID placement r in
    ru ← Update r;
    match ru with
    | Some err => mret (r, Some err)
    | None =>
        d ← since (cr_CreatedAt r);
        _ ← emit (CentralRequestsStatusSinceCreated CentralRequestStatusProvisioning (cr_ID r) (cr_ClusterID r) d);
        mret (r, None)
    end
  else mret (r, None).

(** The struct after the comparisons, and whether one of them found a change. *)
Definition version_fields (r : CentralRequest) (status : DataPlaneCentralStatus) : CentralRequest * bool :=
  let '(r, n) :=
    if bool_decide (ds_CentralVersion status <> "") &&
       bool_decide (ds_CentralVersion status <> cr_ActualCentralVersion r)
    then (set_ActualCentralVersion (ds_CentralVersion status) r, true) else (r, false) in
  let '(r, n) :=
    if bool_decide (ds_CentralOperatorVersion status <> "") &&
       bool_decide (ds_CentralOperatorVersion status <> cr_ActualCentralOperatorVersion r)
    then (set_ActualCentralOperatorVersion (ds_CentralOperatorVersion status) r, true) else (r, n) in
  match GetReadyCondition status with
  | None => (r, n)
  | Some readyCondition =>
      let operatorSet := bool_decide (cond_Reason readyCondition = dinosaurOperatorUpdating) in
      let prev := cr_CentralOperatorUpgrading r in
      let '(r, n) := if operatorSet && negb prev then (set_CentralOperatorUpgrading true r, true) else (r, n) in
      let '(r, n) := if negb operatorSet && prev then (set_CentralOperatorUpgrading false r, true) else (r, n) in
      let centralSet := bool_decide (cond_Reason readyCondition = dinosaurUpdating) in
      let prev := cr_CentralUpgrading r in
      let '(r, n) := if centralSet && negb prev then (set_CentralUpgrading true r, true) else (r, n) in
      if negb centralSet && prev then (set_CentralUpgrading false r, true) else (r, n)
  end.

Definition setCentralRequestVersionFields (r : CentralRequest) (status : DataPlaneCentralStatus)
    : prog world (CentralRequest * option ServiceError) :=
  let '(r, needsUpdate) := version_fields r status in
  if needsUpdate then
    ru ← Updates r (fun x => set_ActualCentralOperatorVersion (cr_ActualCentralOperatorVersion r)
           (set_ActualCentralVersion (cr_ActualCentralVersion r)
           (set_CentralOperatorUpgrading (cr_CentralOperatorUpgrading r)
           (set_CentralUpgrading (cr_CentralUpgrading r) x))));
    match ru with
    | Some err => mret (r, rewrapped err "failed to update actual version fields for central cluster %s"
        [VStr (cr_ID r)])
    | None => mret (r, None)
    end
  else mret (r, None).

(** The switch over the reported status. *)
Definition report_status (r : CentralRequest) (ks : DataPlaneCentralStatus) (cluster : Cluster)
    : prog world (CentralRequest * option ServiceError) :=
  match getStatus ks with
  | statusReady =>
      p ← persistCentralRoutes r ks cluster;
      match p with
      | (r, Some e) => mret (r, Some e)
      | (r, None) => e ← setCentralClusterReady r; mret (r, e)
      end
  | statusError =>
      setCentralClusterFailed r (match GetReadyCondition ks with Some c => cond_Message c | None => "" end)
  | statusDeleted => e ← setCentralClusterDeleting r; mret (r, e)
  | statusRejected => reassignCentralCluster r
  | statusUnknown | statusInstalling => mret (r, None)
  end.

(** One iteration; the errors are only logged. *)
Definition report_one (clusterID : string) (cluster : Cluster) (ks : DataPlaneCentralStatus) : prog world unit :=
  rg ← GetByID (ds_CentralClusterID ks);
  match rg with
  | Err _ => mret tt
  | Ok dinosaur =>
      if bool_decide (cr_ClusterID dinosaur <> clusterID) then mret tt
      else
        p ← report_status dinosaur ks cluster;
        _ ← setCentralRequestVersionFields p.1 ks;
        mret tt
  end.

Fixpoint report_all (clusterID : string) (cluster : Cluster) (status : list DataPlaneCentralStatus)
    : prog world unit :=
  match status with
  | [] => mret tt
  | ks :: rest => _ ← report_one clusterID cluster ks; report_all clusterID cluster rest
  end.

Definition UpdateDataPlaneCentralService (clusterID : string) (status : list DataPlaneCentralStatus)
    : prog world (option ServiceError) :=
  rc ← FindClusterByID clusterID;
  match rc with
  | Err err => mret (Some err)
  | Ok None => mret (Some (BadRequest "Cluster id %s not found" [VStr clusterID]))
  | Ok (Some cluster) => _ ← report_all clusterID cluster status; mret None
  end.
End central_reports.

(** ** Cluster reports *)

Record DataPlaneClusterStatusCondition := mkClusterCondition {
  cc_Type : string; cc_Reason : string; cc_Status : string; cc_Message : string
}.

Record DataPlaneClusterStatus := mkClusterStatus {
  dcs_Conditions : list DataPlaneClusterStatusCondition;
  dcs_AvailableDinosaurOperatorVersions : list CentralOperatorVersion
}.

(** observatorium.ObservabilityConfiguration and dbapi.DataPlaneClusterConfig, the
    four fields that are copied. *)
Record DataPlaneClusterConfigObservability := mkObservability {
  oc_AccessToken : string; oc_Channel : string; oc_Repository : string; oc_Tag : string
}.

Definition dataPlaneClusterStatusCondReadyName : string := "Ready".

(** strconv.ParseBool *)
Definition ParseBool (s : string) : result error bool :=
  if bool_decide (s ∈ ["1"; "t"; "T"; "TRUE"; "true"; "True"]) then Ok true
  else if bool_decide (s ∈ ["0"; "f"; "F"; "FALSE"; "false"; "False"]) then Ok false
  else Err (EPlain ("strconv.ParseBool: parsing " +:+ Quote s +:+ ": invalid syntax")).

Fixpoint isFleetShardOperatorReady (conditions : list DataPlaneClusterStatusCondition) : result error bool :=
  match conditions with
  | [] => Ok false
  | cond :: rest =>
      if bool_decide (cc_Type cond = dataPlaneClusterStatusCondReadyName) then
        match ParseBool (cc_Status cond) with
        | Err err => Err (Errorf_w (Sprintf "parsing data plane cluster condition %q"
            [VStr dataPlaneClusterStatusCondReadyName]) err)
        | Ok condVal => Ok condVal
        end
      else isFleetShardOperatorReady rest
  end.

Definition clusterCanProcessStatusReports (c : Cluster) : bool :=
  bool_decide (cl_Status c ∈ [ClusterReady; ClusterComputeNodeScalingUp; ClusterFull;
                              ClusterWaitingForFleetShardOperator]).

Section cluster_reports.
Context `{Platform} `{Semver}.

Definition GetDataPlaneClusterConfig (obs : DataPlaneClusterConfigObservability) (clusterID : string)
    : prog world (result ServiceError DataPlaneClusterConfigObservability) :=
  rc ← FindClusterByID clusterID;
  match rc with
  | Err err => mret (Err err)
  | Ok None => mret (Err (BadRequest "Cluster agent with ID '%s' not found" [VStr clusterID]))
  | Ok (Some _) => mret (Ok obs)
  end.

(** The first half of [setClusterStatus]: the reported operator versions. *)
Definition set_reported_versions (c : Cluster) (status : DataPlaneClusterStatus)
    : prog world (result error Cluster) :=
  let reported := dcs_AvailableDinosaurOperatorVersions status in
  match GetAvailableCentralOperatorVersions c with
  | Err err => mret (Err (Errorf_w "retrieving central operator versions" err))
  | Ok prev =>
      if (0 <? length reported)%nat && bool_decide (prev <> reported) then
        match SetAvailableCentralOperatorVersions reported c with
        | Err err => mret (Err (Errorf_w "updating central operator versions" err))
        | Ok c =>
            ru ← Cluster_Update c;
            match ru with
            | Some svcErr => mret (Err (Errorf_w "updating cluster" (EService svcErr)))
            | None => mret (Ok c)
            end
        end
      else mret (Ok c)
  end.

Definition setClusterStatus (c : Cluster) (status : DataPlaneClusterStatus) : prog world (option error) :=
  rv ← set_reported_versions c status;
  match rv with
  | Err err => mret (Some err)
  | Ok c =>
      if bool_decide (cl_Status c <> ClusterReady) then
        ru ← Cluster_UpdateStatus c ClusterReady;
        match ru with
        | Some err => mret (Some (Errorf_w (Sprintf "updating cluster status to %s" [VStr ClusterReady])
            (EService err)))
        | None =>
            _ ← (if bool_decide (cl_Status c = ClusterWaitingForFleetShardOperator)
                 then d ← since (cl_CreatedAt c); emit (ClusterCreationDuration d) else mret tt);
            _ ← UpdateClusterStatusSinceCreatedMetric c ClusterReady;
            mret None
        end
      else mret None
  end.

Definition UpdateDataPlaneClusterStatus (clusterID : string) (status : DataPlaneClusterStatus)
    : prog world (option ServiceError) :=
  rc ← FindClusterByID clusterID;
  match rc with
  | Err svcErr => mret (Some svcErr)
  | Ok None => mret (Some (BadRequest "Cluster agent with ID '%s' not found" [VStr clusterID]))
  | Ok (Some cluster) =>
      match isFleetShardOperatorReady (dcs_Conditions status) with
      | Err err => mret (Some (ToServiceError err))
      | Ok false =>
          if bool_decide (cl_Status cluster <> ClusterWaitingForFleetShardOperator) then
            ru ← Cluster_UpdateStatus cluster ClusterWaitingForFleetShardOperator;
            match ru with
            | Some err => mret (Some (ToServiceError (EService err)))
            | None =>
                _ ← UpdateClusterStatusSinceCreatedMetric cluster ClusterWaitingForFleetShardOperator;
                mret None
            end
          else mret None
      | Ok true =>
          rs ← setClusterStatus cluster status;
          match rs with
          | Some err => mret (Some (ToServiceError err))
          | None => mret None
          end
      end
  end.
End cluster_reports.

(** ** Theorems *)

(** What a report leaves alone: [kept] forgets the fields that a report may set. *)
Definition kept (x : CentralRequest) : CentralRequest :=
  set_Status "" (set_FailedReason "" (set_Routes None (set_PlacementID "" (set_ActualCentralVersion ""
    (set_ActualCentralOperatorVersion "" (set_CentralUpgrading false (set_CentralOperatorUpgrading false
      (set_UpdatedAt 0 x)))))))).

Lemma merge_kept x r : kept r = kept x -> kept (merge x r) = kept x.
Proof.
  destruct x, r. unfold kept, merge. simpl. intros [=]. subst.
  rewrite ?pick_string_same, ?pick_int_same, ?pick_bool_same, ?pick_option_same. reflexivity.
Qed.

Lemma kept_fields x y :
  kept x = kept y ->
  cr_ID x = cr_ID y /\ cr_ClusterID x = cr_ClusterID y /\ cr_RoutesCreated x = cr_RoutesCreated y /\
  cr_Owner x = cr_Owner y /\ cr_OrganisationID x = cr_OrganisationID y.
Proof. destruct x, y. unfold kept. simpl. by intros [=]. Qed.

(** The status a report may give to a central: failed, deleting, or ready once its
    routes exist; a central in deletion stays in deletion. *)
Definition reported_status (x x' : CentralRequest) : Prop :=
  (in_deletion x -> in_deletion x') /\
  (cr_Status x' = cr_Status x \/ cr_Status x' ∈ [CentralRequestStatusFailed; CentralRequestStatusDeleting] \/
   (cr_Status x' = CentralRequestStatusReady /\ cr_RoutesCreated x = true)).

(** A report of cluster [cid] on the centrals [ids]. *)
Definition reported (cid : string) (ids : list string) (o o' : rowstate CentralRequest) : Prop :=
  o' = o \/ exists x x', o = Live x /\ o' = Live x' /\
    cr_ClusterID x = cid /\ cr_ID x ∈ ids /\ kept x' = kept x /\ reported_status x x'.

#[export] Instance reported_preorder cid ids : PreOrder (reported cid ids).
Proof.
  split; [by left|]. intros o1 o2 o3 [->|(x & y & -> & -> & Hc & Hi & Hk & Hd & Hs)]; [done|].
  intros [->|(x' & z & [= <-] & -> & _ & _ & Hk' & Hd' & Hs')].
  - right. exists x, y. unfold reported_status. auto 10.
  - right. exists x, z. split_and!; [done..|congruence|split; [auto|]].
    destruct (kept_fields _ _ Hk) as (_ & _ & Hrc & _). rewrite <- Hrc.
    destruct Hs' as [Hs'|[Hs'|Hs']]; [|by right; left|by right; right].
    rewrite Hs'. rewrite Hrc. done.
Qed.

(** A report is one of the lifecycle's moves. *)
Lemma reported_lifecycle cid ids o o' : reported cid ids o o' -> lifecycle o o'.
Proof.
  intros [->|(x & x' & -> & -> & _ & _ & Hk & Hd & _)]; [reflexivity|].
  destruct (kept_fields _ _ Hk) as [Hid _]. by split.
Qed.

Section report_proofs.
Context `{PlatformLaws} (cid : string) (ids : list string).

(** The struct [r] is the row of its central, up to what a report may set. *)
Definition tracks (r : CentralRequest) (w : world) : Prop :=
  cr_ID r <> "" /\ exists x, centrals w !! cr_ID r = Some x /\ kept r = kept x.

Definition in_sync (r : CentralRequest) (w : world) : Prop :=
  cr_ID r <> "" /\ exists x, centrals w !! cr_ID r = Some x /\ kept r = kept x /\ cr_Status r = cr_Status x.

Lemma in_sync_tracks r w : in_sync r w -> tracks r w.
Proof. intros (Hne & x & Hx & Hk & _). split; eauto. Qed.

Lemma tracks_step r w w' : tracks r w -> on_rows (reported cid ids) w w' -> tracks r w'.
Proof.
  intros (Hne & x & Hx & Hk) Hr. split; [done|]. apply central_state_live in Hx.
  destruct (Hr (cr_ID r)) as [E|(y & x' & E & E' & _ & _ & Hk' & _)].
  - exists x. split; [|done]. apply central_state_live. congruence.
  - exists x'. split; [by apply central_state_live|]. congruence.
Qed.

Lemma tracks_kept r r' w : kept r' = kept r -> tracks r w -> tracks r' w.
Proof.
  intros Hk (Hne & x & Hx & Hx'). destruct (kept_fields _ _ Hk) as [Hid _].
  split; rewrite Hid; [done|]. exists x. split; [done|congruence].
Qed.

Lemma updatable_row r w k x :
  cr_ID r <> "" -> centrals w !! k = Some x -> updatable r x = true -> k = cr_ID r /\ ~ in_deletion x.
Proof.
  intros Hne Hk [[?|Hid] Hd]%updatable_spec; [done|]. split; [|done].
  rewrite <- Hid. symmetry. by apply (centrals_id w).
Qed.

(** Writing the struct back, with a status of its own or failed. *)
Lemma report_Update r w :
  tracks r w -> cr_ClusterID r = cid -> cr_ID r ∈ ids ->
  (cr_Status r = CentralRequestStatusFailed \/ exists x, centrals w !! cr_ID r = Some x /\ cr_Status r = cr_Status x) ->
  on_rows (reported cid ids) w (Update r w).1.
Proof.
  intros (Hne & x & Hx & Hk) Hcl Hin Hs. unfold Update. rewrite prog_bind_run.
  destruct (kept_fields _ _ Hk) as (Hid & Hcx & _).
  etransitivity; [|destruct ((on_centrals _ w).2); reflexivity].
  apply rows_update_at; [typeclasses eauto|intros; apply merge_ID|]. intros k y t Hy Hu.
  destruct (updatable_row r w k y Hne Hy Hu) as [-> Hd]. assert (x = y) as -> by congruence. right.
  exists y, (set_UpdatedAt t (merge y r)). split_and!; [done..|congruence|congruence| |split; [done|]].
  - transitivity (kept (merge y r)); [done|by apply merge_kept].
  - change (cr_Status (set_UpdatedAt t (merge y r))) with (cr_Status (merge y r)). rewrite merge_Status.
    case_bool_decide; [by left|].
    destruct Hs as [->|(x' & Hx' & Hs)]; [right; left; by left|left; congruence].
Qed.

(** Writing some of the fields. *)
Lemma report_Updates r f w :
  tracks r w -> cr_ClusterID r = cid -> cr_ID r ∈ ids ->
  (forall x, kept (f x) = kept x) ->
  (forall x, cr_Status (f x) = cr_Status x) \/
    (cr_RoutesCreated r = true /\ forall x, cr_Status (f x) = CentralRequestStatusReady) ->
  on_rows (reported cid ids) w (Updates r f w).1.
Proof.
  intros (Hne & x & Hx & Hk) Hcl Hin Hf Hs. unfold Updates. rewrite prog_bind_run.
  destruct (kept_fields _ _ Hk) as (Hid & Hcx & Hrc & _).
  etransitivity; [|destruct ((on_centrals _ w).2); reflexivity].
  apply rows_update_at; [typeclasses eauto|intros z; by destruct (kept_fields _ _ (Hf z))|].
  intros k y t Hy Hu. destruct (updatable_row r w k y Hne Hy Hu) as [-> Hd]. assert (x = y) as -> by congruence. right.
  exists y, (set_UpdatedAt t (f y)). split_and!; [done..|congruence|congruence|by rewrite <- (Hf y)|split; [done|]].
  change (cr_Status (set_UpdatedAt t (f y))) with (cr_Status (f y)).
  destruct Hs as [Hs|[Hrt Hs]]; rewrite Hs; [by left|right; right; split; [done|congruence]].
Qed.

Lemma returns_kept_persist r ks c : returns (fun p => kept p.1 = kept r) (persistCentralRoutes r ks c).
Proof. unfold persistCentralRoutes. returns_tac; done. Qed.

Lemma returns_kept_failed r msg : returns (fun p => kept p.1 = kept r) (setCentralClusterFailed r msg).
Proof. unfold setCentralClusterFailed. returns_tac; done. Qed.

Lemma returns_kept_reassign r : returns (fun p => kept p.1 = kept r) (reassignCentralCluster r).
Proof. unfold reassignCentralCluster. returns_tac; done. Qed.

Lemma returns_kept_status r ks c : returns (fun p => kept p.1 = kept r) (report_status r ks c).
Proof.
  unfold report_status. destruct (getStatus ks); try (returns_tac; done).
  - intros w. rewrite prog_bind_run. pose proof (returns_kept_persist r ks c w) as Hp.
    destruct ((persistCentralRoutes r ks c w).2) as [r' [e|]]; [done|by rewrite prog_bind_run].
  - apply returns_kept_failed.
  - apply returns_kept_reassign.
Qed.

Lemma rows_check Q `{!PreOrder Q} r s : preserves (on_rows Q) (checkCentralRequestCurrentStatus r s).
Proof. unfold checkCentralRequestCurrentStatus. preserves_tac. Qed.

Section of_central.
Context (r : CentralRequest) (Hcid : cr_ClusterID r = cid) (Hids : cr_ID r ∈ ids).

Lemma report_persist ks c w : in_sync r w -> on_rows (reported cid ids) w (persistCentralRoutes r ks c w).1.
Proof.
  intros (Hne & x & Hx & Hk & Hs). unfold persistCentralRoutes. destruct (cr_Routes r); [reflexivity|].
  apply bind_read; [typeclasses eauto|preserves_tac|intros w1 E1].
  destruct ((GetClusterDNS _ w).2) as [dns|e]; [|reflexivity].
  destruct (validateRouters _ _ _); [reflexivity|]. apply bind_rows; [typeclasses eauto| |intros _].
  - rewrite <- E1 in Hx. apply report_Update; [|done..|right; by exists x].
    split; [done|]. by exists x.
  - destruct ((Update _ w1).2); reflexivity.
Qed.

Lemma report_ready w : tracks r w -> on_rows (reported cid ids) w (setCentralClusterReady r w).1.
Proof.
  intros Ht. unfold setCentralClusterReady. destruct (cr_RoutesCreated r) eqn:Hrc; [|reflexivity]. simpl.
  apply bind_read; [typeclasses eauto|apply rows_check, _|intros w1 E1].
  destruct ((checkCentralRequestCurrentStatus _ _ w).2) as [b|e]; [|reflexivity].
  apply bind_rows; [typeclasses eauto| |intros _].
  - apply report_Updates; [|done..|by right]. unfold tracks. by rewrite E1.
  - destruct ((Updates _ _ w1).2); [reflexivity|]. destruct b; [|reflexivity].
    rows_tac.
Qed.

Lemma report_failed msg w : tracks r w -> on_rows (reported cid ids) w (setCentralClusterFailed r msg w).1.
Proof.
  intros Ht. unfold setCentralClusterFailed. destruct (bool_decide _); [reflexivity|].
  apply bind_read; [typeclasses eauto|apply rows_check, _|intros w1 E1].
  destruct ((checkCentralRequestCurrentStatus _ _ w).2) as [b|e]; [|reflexivity].
  set (r' := set_FailedReason _ _). apply bind_rows; [typeclasses eauto| |intros _].
  - apply report_Update; [|done..|by left]. apply (tracks_kept r); [done|]. unfold tracks. by rewrite E1.
  - destruct ((Update _ w1).2); [reflexivity|]. destruct b; [|reflexivity].
    rows_tac.
Qed.

Lemma report_deleting w : tracks r w -> on_rows (reported cid ids) w (setCentralClusterDeleting r w).1.
Proof.
  intros (Hne & x & Hx & Hk). unfold setCentralClusterDeleting.
  destruct (kept_fields _ _ Hk) as (Hid & Hcx & _).
  apply bind_rows; [typeclasses eauto| |intros _].
  - apply rows_UpdateStatus; [typeclasses eauto|done|]. intros y t n Hy. assert (x = y) as -> by congruence.
    right. eexists _, _. split_and!; [done..|congruence|congruence|done|].
    split; [intros _; by apply (bool_decide_unpack _)|right; left; right; by left].
  - rows_tac.
Qed.

Lemma report_reassign w : in_sync r w -> on_rows (reported cid ids) w (reassignCentralCluster r w).1.
Proof.
  intros (Hne & x & Hx & Hk & Hs). unfold reassignCentralCluster. destruct (bool_decide _); [|reflexivity].
  apply bind_read; [typeclasses eauto|preserves_tac|intros w1 E1]. rewrite <- E1 in Hx.
  apply bind_rows; [typeclasses eauto| |intros _].
  - apply report_Update; [|done..|right; by exists x]. split; [done|]. by exists x.
  - rows_tac.
Qed.

Lemma version_fields_kept status : kept (version_fields r status).1 = kept r.
Proof.
  unfold version_fields.
  destruct (bool_decide _ && bool_decide _), (bool_decide _ && bool_decide _);
    (destruct (GetReadyCondition status) as [c|]; [|done]);
    do 2 (destruct (bool_decide (_ = _)); simpl); repeat (case_match; simplify_eq); done.
Qed.

Lemma report_versions status w :
  tracks r w -> on_rows (reported cid ids) w (setCentralRequestVersionFields r status w).1.
Proof.
  intros Ht. unfold setCentralRequestVersionFields. pose proof (version_fields_kept status) as Hk.
  destruct (version_fields r status) as [r' [|]]; [|reflexivity]. simpl in Hk.
  destruct (kept_fields _ _ Hk) as (Hid & Hcl & _).
  apply bind_rows; [typeclasses eauto| |intros _].
  - apply report_Updates; [by eapply tracks_kept|congruence|congruence|done|by left].
  - destruct ((Updates _ _ w).2); reflexivity.
Qed.

End of_central.

Lemma report_status_rows r ks c w :
  cr_ClusterID r = cid -> cr_ID r ∈ ids -> in_sync r w ->
  on_rows (reported cid ids) w (report_status r ks c w).1.
Proof.
  intros Hc Hi Hs. pose proof (in_sync_tracks _ _ Hs) as Ht. unfold report_status.
  destruct (getStatus ks); try reflexivity; [|by apply report_failed|by apply report_reassign|].
  - apply bind_rows; [typeclasses eauto|by apply report_persist|intros Hp].
    pose proof (returns_kept_persist r ks c w) as Hk.
    destruct ((persistCentralRoutes r ks c w).2) as [r' [e|]]; [reflexivity|]. simpl in Hk.
    pose proof (kept_fields _ _ Hk) as (Hid & Hcl & _).
    apply bind_rows; [typeclasses eauto| |intros _; reflexivity].
    apply (report_ready r'); [congruence..|]. eapply tracks_kept; [done|]. by eapply tracks_step.
  - apply bind_rows; [typeclasses eauto|by apply report_deleting|intros _; reflexivity].
Qed.

Lemma report_one_rows c ks w :
  ds_CentralClusterID ks ∈ ids -> on_rows (reported cid ids) w (report_one cid c ks w).1.
Proof.
  intros Hin. unfold report_one. apply bind_read; [typeclasses eauto|preserves_tac|intros w1 E1].
  destruct ((GetByID (ds_CentralClusterID ks) w).2) as [r|e] eqn:Hg; [|reflexivity].
  case_bool_decide as Hc; [reflexivity|].
  pose proof (GetByID_nonempty _ _ _ Hg) as Hne. apply GetByID_ok in Hg as [Hr Hid].
  assert (in_sync r w1) as Hs.
  { split; [congruence|]. exists r. rewrite E1, Hid. done. }
  rewrite <- Hid in Hin. apply bind_rows; [typeclasses eauto|by apply report_status_rows|intros Hp].
  pose proof (returns_kept_status r ks c w1) as Hk. simpl in Hk.
  destruct (kept_fields _ _ Hk) as (Hid' & Hcl & _).
  apply bind_rows; [typeclasses eauto| |intros _; reflexivity].
  apply report_versions; [congruence..|]. eapply tracks_kept; [done|].
  eapply tracks_step; [by apply in_sync_tracks|done].
Qed.

Lemma report_all_rows c status w :
  (forall ks, ks ∈ status -> ds_CentralClusterID ks ∈ ids) ->
  on_rows (reported cid ids) w (report_all cid c status w).1.
Proof.
  revert w. induction status as [|ks status IH]; intros w Hin; [reflexivity|]. simpl.
  apply bind_rows; [typeclasses eauto|apply report_one_rows, Hin; by left|intros _].
  apply IH. intros ks' Hks. apply Hin. by right.
Qed.
End report_proofs.

Section report_theorems.
Context `{PlatformLaws}.

Lemma report_rows clusterID status w :
  on_rows (reported clusterID (ds_CentralClusterID <$> status)) w
    (UpdateDataPlaneCentralService clusterID status w).1.
Proof.
  unfold UpdateDataPlaneCentralService. apply bind_read; [typeclasses eauto|preserves_tac|intros w1 E1].
  destruct ((FindClusterByID clusterID w).2) as [[c|]|e]; [|reflexivity..].
  apply bind_rows; [typeclasses eauto| |intros _; reflexivity]. apply report_all_rows.
  intros ks Hks. apply list_elem_of_fmap. eauto.
Qed.

Lemma lifecycle_UpdateDataPlaneCentralService clusterID status :
  preserves (on_rows lifecycle) (UpdateDataPlaneCentralService clusterID status).
Proof. intros w k. eapply reported_lifecycle, report_rows. Qed.

(** C12. A report of a data plane cluster reaches its own centrals only: it adds
    and removes no row, and a row it changes belongs to a central that it names
    and that is placed on the reporting cluster.  Of such a row it changes at
    most the status and its reason, the routes, the placement, the actual
    versions and the upgrade flags. *)
Theorem UpdateDataPlaneCentralService_isolated clusterID status w k :
  match centrals w !! k, centrals (UpdateDataPlaneCentralService clusterID status w).1 !! k with
  | None, None => True
  | Some x, Some x' =>
      x' = x \/
      (cr_ClusterID x = clusterID /\ k ∈ ds_CentralClusterID <$> status /\ kept x' = kept x)
  | _, _ => False
  end.
Proof.
  pose proof (report_rows clusterID status w k) as Hr.
  set (w' := (UpdateDataPlaneCentralService clusterID status w).1) in *.
  destruct (centrals w !! k) as [x|] eqn:Hx, (centrals w' !! k) as [x'|] eqn:Hx'; try done;
    try apply central_state_live in Hx as Es; try apply central_state_live in Hx' as Es'.
  - destruct Hr as [E|(y & y' & Ey & Ey' & Hc & Hi & Hk & _)]; [left; congruence|right].
    assert (y = x /\ y' = x') as [-> ->] by (split; congruence).
    rewrite (centrals_id w k x Hx) in Hi. done.
  - destruct Hr as [E|(y & y' & _ & Ey' & _)].
    + rewrite Es in E. apply central_state_live in E. congruence.
    + apply central_state_live in Ey'. congruence.
  - destruct Hr as [E|(y & y' & Ey & _)].
    + rewrite Es' in E. symmetry in E. apply central_state_live in E. congruence.
    + apply central_state_live in Ey. congruence.
Qed.

(** C13. The statuses a report can set: a central becomes ready only when its
    routes have been created, or else failed or deleting; a central that is
    being deleted stays so, whatever the data plane reports. *)
Theorem UpdateDataPlaneCentralService_status clusterID status w k x x' :
  centrals w !! k = Some x ->
  centrals (UpdateDataPlaneCentralService clusterID status w).1 !! k = Some x' ->
  (in_deletion x -> in_deletion x') /\
  (cr_Status x' = cr_Status x \/ cr_Status x' ∈ [CentralRequestStatusFailed; CentralRequestStatusDeleting] \/
   (cr_Status x' = CentralRequestStatusReady /\ cr_RoutesCreated x = true)).
Proof.
  intros Hx%central_state_live Hx'%central_state_live.
  destruct (report_rows clusterID status w k) as [E|(y & y' & Ey & Ey' & _ & _ & _ & Hs)].
  - assert (x' = x) as -> by congruence. auto.
  - assert (y = x /\ y' = x') as [-> ->] by (split; congruence). done.
Qed.
End report_theorems.

#[export] Hint Resolve lifecycle_UpdateDataPlaneCentralService : fleet.

Section more_theorems.
Context `{PlatformLaws}.

Lemma validateRouters_spec l r dns :
  validateRouters l r dns = None <->
  forall x, x ∈ l -> HasSuffix (route_Router x) dns = true /\ HasSuffix (route_Domain x) (cr_Host r) = true.
Proof.
  induction l as [|x l IH]; simpl.
  - split; [intros _ x Hx; by apply not_elem_of_nil in Hx|done].
  - split.
    + destruct (HasSuffix (route_Router x) dns) eqn:Hr; [|done].
      destruct (HasSuffix (route_Domain x) (cr_Host r)) eqn:Hd; [|done]. simpl.
      intros Hl y [->|Hy]%elem_of_cons; [done|]. by apply IH.
    + intros Hall. destruct (Hall x) as [-> ->]; [by left|]. simpl. apply IH. intros y Hy. apply Hall. by right.
Qed.

(** Routes enter the database only after validation: when a report makes a
    central that had no routes carry some, every router is a name under the DNS
    name of the cluster, and every domain one under the host of the central;
    when the report is refused, the row keeps having none. *)
Theorem persistCentralRoutes_validated r ks c w :
  cr_Routes r = None ->
  let '(w', (r', err)) := persistCentralRoutes r ks c w in
  (r' = r /\ centrals w' = centrals w /\ err <> None) \/
  (r' = SetRoutes (ds_Routes ks) r /\
   exists dns, (GetClusterDNS (cl_ClusterID c) w).2 = Ok dns /\
     forall x, x ∈ default [] (ds_Routes ks) ->
       (exists p, route_Router x = p +:+ dns) /\ (exists p, route_Domain x = p +:+ cr_Host r)).
Proof.
  intros Hr. destruct (persistCentralRoutes r ks c w) as [w' [r' err]] eqn:E. revert E.
  unfold persistCentralRoutes. rewrite Hr, prog_bind_run.
  assert (centrals (GetClusterDNS (cl_ClusterID c) w).1 = centrals w) as Hrows by (apply frame_rows; preserves_tac).
  destruct ((GetClusterDNS (cl_ClusterID c) w).2) as [dns|e] eqn:Hd; [|intros [= <- <- <-]; by left].
  destruct (validateRouters _ r dns) eqn:Hv; [intros [= <- <- <-]; by left|].
  rewrite prog_bind_run. set (r1 := SetRoutes _ r). intros E. right.
  assert (r' = r1) as -> by (destruct ((Update r1 _).2); by injection E).
  split; [done|]. exists dns. split; [done|]. intros x Hx.
  rewrite <- !HasSuffix_spec. by apply (proj1 (validateRouters_spec _ _ _) Hv).
Qed.

Context `{Semver}.

Lemma set_reported_versions_ok c status w c' :
  clusters w !! cl_ID c = Some c -> (set_reported_versions c status w).2 = Ok c' ->
  cl_ID c' = cl_ID c /\ cl_Status c' = cl_Status c /\
  exists y, clusters (set_reported_versions c status w).1 = <[cl_ID c := y]> (clusters w) /\
    cl_Status y = cl_Status c.
Proof.
  intros Hc. unfold set_reported_versions. destruct (GetAvailableCentralOperatorVersions c); [|done].
  assert (exists y, clusters w = <[cl_ID c := y]> (clusters w) /\ cl_Status y = cl_Status c) as Hid
    by (exists c; by rewrite insert_id).
  destruct (_ && _); [|intros [= <-]; done]. unfold SetAvailableCentralOperatorVersions.
  destruct (CentralOperatorVersionsDeepSort _) as [vs|]; [|done]. set (c1 := set_cl_AvailableCentralOperatorVersions _ c).
  rewrite prog_bind_run. destruct ((Cluster_Update c1 w).2) eqn:Hu; [done|]. intros [= <-]. simpl.
  destruct (Cluster_Update_ok c1 w c Hu Hc) as [t Ht]. split_and!; [done..|].
  eexists. split; [exact Ht|]. simpl. apply pick_string_same.
Qed.

(** The status of a cluster after a report. *)
Definition status_reported (status : DataPlaneClusterStatus) : string :=
  match isFleetShardOperatorReady (dcs_Conditions status) with
  | Ok true => ClusterReady
  | _ => ClusterWaitingForFleetShardOperator
  end.

Lemma setClusterStatus_ok c status w :
  cl_ID c <> "" -> clusters w !! cl_ID c = Some c -> (setClusterStatus c status w).2 = None ->
  exists c', clusters (setClusterStatus c status w).1 = <[cl_ID c := c']> (clusters w) /\
    cl_Status c' = ClusterReady.
Proof.
  intros Hne Hc. unfold setClusterStatus. rewrite prog_bind_run.
  destruct ((set_reported_versions c status w).2) as [c1|e] eqn:Hv; [|done].
  destruct (set_reported_versions_ok c status w c1 Hc Hv) as (Hid & Hs & y & Hy & Hys).
  set (w1 := (set_reported_versions c status w).1) in *. case_bool_decide as Hst; [|intros _].
  - rewrite prog_bind_run. destruct ((Cluster_UpdateStatus c1 ClusterReady w1).2) eqn:Hu; [done|]. intros _.
    assert (clusters w1 !! cl_ID c1 = Some y) as Hy1 by (rewrite Hy, Hid; apply lookup_insert_eq).
    destruct (Cluster_UpdateStatus_ok c1 ClusterReady w1 y ltac:(congruence) Hu Hy1) as [t Ht].
    rewrite Hy, Hid, insert_insert_eq in Ht. eexists. split; [etransitivity; [|exact Ht]|done].
    kept_tac.
  - exists y. split; [done|]. congruence.
Qed.

(** A report of a cluster, when it succeeds, changes the row of the reporting
    cluster only: the cluster becomes ready, or falls back to waiting for the
    fleetshard operator when the operator is not ready, whatever its status was
    before; no central is touched. *)
Theorem UpdateDataPlaneClusterStatus_spec clusterID status w c :
  (FindClusterByID clusterID w).2 = Ok (Some c) -> cl_ID c <> "" ->
  (UpdateDataPlaneClusterStatus clusterID status w).2 = None ->
  let w' := (UpdateDataPlaneClusterStatus clusterID status w).1 in
  centrals w' = centrals w /\
  exists c', clusters w' = <[cl_ID c := c']> (clusters w) /\ cl_Status c' = status_reported status.
Proof.
  intros Hf Hne Hok. split.
  { apply frame_rows. unfold UpdateDataPlaneClusterStatus, setClusterStatus, set_reported_versions, UpdateClusterStatusSinceCreatedMetric.
    preserves_tac. }
  apply FindClusterByID_ok in Hf as Hrow. destruct Hrow as [Hc _]. revert Hok.
  unfold UpdateDataPlaneClusterStatus, status_reported. rewrite prog_bind_run, Hf.
  assert (clusters (FindClusterByID clusterID w).1 = clusters w) as Hw.
  { assert (preserves same_clusters (FindClusterByID clusterID)) as Hp; [|apply Hp].
    unfold FindClusterByID. assert (preserves same_clusters (on_clusters (db_first
      (fun c : Cluster => bool_decide (cl_ClusterID c = clusterID))))) by apply kept_read, first_same. preserves_tac. }
  set (w1 := (FindClusterByID clusterID w).1) in *. rewrite <- Hw in Hc |- *.
  destruct (isFleetShardOperatorReady _) as [[|]|e]; [| |done].
  - rewrite prog_bind_run. destruct ((setClusterStatus c status w1).2) eqn:E; [done|]. intros _.
    destruct (setClusterStatus_ok c status w1 Hne Hc E) as (c' & Hc' & Hs). exists c'. by split.
  - case_bool_decide as Hst; [|intros _].
    + rewrite prog_bind_run.
      destruct ((Cluster_UpdateStatus c ClusterWaitingForFleetShardOperator w1).2) eqn:E; [done|]. intros _.
      destruct (Cluster_UpdateStatus_ok c _ w1 c Hne E Hc) as [t Ht]. eexists.
      split; [etransitivity; [|exact Ht]; kept_tac|done].
    + exists c. rewrite insert_id by done. by split.
Qed.
End more_theorems.

(** ** Runs on the concrete platform *)

Definition ready_report (id : string) : DataPlaneCentralStatus :=
  mkCentralStatus id [mkCondition "Ready" "" "True" ""]
    (Some [mkRoute "acs-a.host" "router.apps.example.com"]) "3.70.0" "".

Definition provisioning_central : CentralRequest :=
  set_Host "host" (set_RoutesCreated true (sample_central "a" CentralRequestStatusProvisioning "alice" "org-1")).

Definition report_world : @world mem_platform :=
  mem_world [provisioning_central; set_ClusterID "c2" (sample_central "b" CentralRequestStatusReady "bob" "org-2")]
    [ready_cluster "k1" "c1"].

Lemma UpdateDataPlaneCentralService_isolated_witness :
  (UpdateDataPlaneCentralService "c1" [ready_report "a"; ready_report "b"] report_world).2 = None /\
  match centrals report_world !! "b",
    centrals (UpdateDataPlaneCentralService "c1" [ready_report "a"; ready_report "b"] report_world).1 !! "b" with
  | None, None => True
  | Some x, Some x' => x' = x \/ (cr_ClusterID x = "c1" /\ "b" ∈ ["a"; "b"] /\ kept x' = kept x)
  | _, _ => False
  end.
Proof.
  split; [vm_compute; reflexivity|].
  exact (UpdateDataPlaneCentralService_isolated "c1" [ready_report "a"; ready_report "b"] report_world "b").
Defined.

Lemma UpdateDataPlaneCentralService_status_witness :
  exists x', centrals (UpdateDataPlaneCentralService "c1" [ready_report "a"] report_world).1 !! "a" = Some x' /\
    cr_Status x' = CentralRequestStatusReady /\ (in_deletion provisioning_central -> in_deletion x').
Proof.
  eexists. split; [vm_compute; reflexivity|]. split; [reflexivity|].
  exact (proj1 (UpdateDataPlaneCentralService_status "c1" [ready_report "a"] report_world "a" provisioning_central _
    ltac:(vm_compute; reflexivity) ltac:(vm_compute; reflexivity))).
Defined.

Lemma persistCentralRoutes_validated_witness :
  let '(w', (r', err)) := persistCentralRoutes provisioning_central (ready_report "a") (ready_cluster "k1" "c1")
    report_world in
  (r' = provisioning_central /\ centrals w' = centrals report_world /\ err <> None) \/
  (r' = SetRoutes (ds_Routes (ready_report "a")) provisioning_central /\
   exists dns, (GetClusterDNS "c1" report_world).2 = Ok dns /\
     forall x, x ∈ default [] (ds_Routes (ready_report "a")) ->
       (exists p, route_Router x = p +:+ dns) /\ (exists p, route_Domain x = p +:+ "host")).
Proof.
  exact (persistCentralRoutes_validated provisioning_central (ready_report "a") (ready_cluster "k1" "c1")
    report_world eq_refl).
Defined.

Definition operator_ready : DataPlaneClusterStatus := mkClusterStatus [mkClusterCondition "Ready" "" "True" ""] [].

(** A cluster that is being deprovisioned. *)
Definition leaving_world : @world mem_platform :=
  mem_world [] [set_cl_Status ClusterDeprovisioning (ready_cluster "k1" "c1")].

#[local] Existing Instance simple_semver.

Lemma UpdateDataPlaneClusterStatus_spec_witness :
  let w' := (UpdateDataPlaneClusterStatus "c1" operator_ready leaving_world).1 in
  centrals w' = centrals leaving_world /\
  exists c', clusters w' = <["k1" := c']> (clusters leaving_world) /\ cl_Status c' = ClusterReady.
Proof.
  exact (UpdateDataPlaneClusterStatus_spec "c1" operator_ready leaving_world
    (set_cl_Status ClusterDeprovisioning (ready_cluster "k1" "c1"))
    ltac:(vm_compute; reflexivity) ltac:(discriminate) ltac:(vm_compute; reflexivity)).
Defined.
