(* ===== verification/Presenters.v ===== *)
(** * Presenters (internal/dinosaur/pkg/presenters)

    How a central is presented to users, administrators and the data plane, and
    how the reports of the data plane are read. *)

From S2P Require Import Prelude GoString GoFmt ServiceErrors CentralRequest Versions ClusterTypes Resources.
From S2P Require Import Store World CentralService DataPlane.
Local Open Scope string_scope.
Local Open Scope Z_scope.

(** ** The public API (dinosaur.go) *)

Definition sensorDataPort : Z := 443.

(** [public.CentralRequest] *)
Record PublicCentral := mkPublicCentral {
  pu_Id : string; pu_Kind : string; pu_Href : string; pu_Status : string; pu_CloudProvider : string;
  pu_CloudAccountId : string; pu_MultiAz : bool; pu_Region : string; pu_Owner : string; pu_Name : string;
  pu_CentralUIURL : string; pu_CentralDataURL : string; pu_CreatedAt : Z; pu_UpdatedAt : Z;
  pu_FailedReason : string; pu_Version : string; pu_InstanceType : string
}.

Definition PresentCentralRequest (request : CentralRequest) : PublicCentral :=
  let ui := if cr_RoutesCreated request && bool_decide (GetUIHost request <> "")
    then Sprintf "https://%s" [VStr (GetUIHost request)] else "" in
  let data := if cr_RoutesCreated request && bool_decide (GetDataHost request <> "")
    then Sprintf "%s:%d" [VStr (GetDataHost request); VInt sensorDataPort] else "" in
  mkPublicCentral (cr_ID request) "CentralRequest" (Sprintf "/api/rhacs/v1/centrals/%s" [VStr (cr_ID request)])
    (cr_Status request) (cr_CloudProvider request) (cr_CloudAccountID request) (cr_MultiAZ request)
    (cr_Region request) (cr_Owner request) (cr_Name request) ui data (cr_CreatedAt request)
    (cr_UpdatedAt request) (cr_FailedReason request) (cr_ActualCentralVersion request) (cr_InstanceType request).

(** ** The admin API (admin_dinosaur.go) *)

(** [admin.Central] *)
Record AdminCentral := mkAdminCentral {
  ad_Id : string; ad_Kind : string; ad_Href : string; ad_Status : string; ad_CloudProvider : string;
  ad_MultiAz : bool; ad_Region : string; ad_Owner : string; ad_Name : string; ad_Host : string;
  ad_CreatedAt : Z; ad_UpdatedAt : Z; ad_FailedReason : string; ad_ActualCentralVersion : string;
  ad_InstanceType : string; ad_Central : ApiResources; ad_Scanner : ApiScannerSpec
}.

Section present.
Context `{SpecCodec}.

(** A spec decoded into a zero struct; the error is only logged. *)
Definition no_resources : ResourceRequirements := mkResources ∅ ∅.

Definition decoded_central (text : string) : CentralSpec :=
  mkCentralSpec (decode_resources (decode_CentralSpec text).1 no_resources).1.

Definition zero_scaling : ScannerAnalyzerScaling := mkScaling "" 0 0 0.

Definition decoded_scanner (text : string) : ScannerSpec :=
  let doc := (decode_ScannerSpec text).1 in
  mkScannerSpec (decode_resources (js_Analyzer doc) no_resources).1 (decode_scaling doc zero_scaling)
    (decode_resources (js_Db doc) no_resources).1.

Definition no_api_resources : ApiResources := mkApiResources ∅ ∅.

Definition PresentDinosaurRequestAdminEndpoint (request : CentralRequest) : AdminCentral :=
  let adminCentral := match stored_text (cr_Central request) with
    | Some text => ConvertCoreV1ResourceRequirements (cs_Resources (decoded_central text))
    | None => no_api_resources
    end in
  let adminScanner := match stored_text (cr_Scanner request) with
    | Some text =>
        let scanner := decoded_scanner text in
        mkApiScannerSpec (ConvertCoreV1ResourceRequirements (ss_Analyzer scanner)) (ss_Scaling scanner)
          (ConvertCoreV1ResourceRequirements (ss_Db scanner))
    | None => mkApiScannerSpec no_api_resources zero_scaling no_api_resources
    end in
  mkAdminCentral (cr_ID request) "CentralRequest" (Sprintf "/api/rhacs/v1/centrals/%s" [VStr (cr_ID request)])
    (cr_Status request) (cr_CloudProvider request) (cr_MultiAZ request) (cr_Region request) (cr_Owner request)
    (cr_Name request) (GetUIHost request) (cr_CreatedAt request) (cr_UpdatedAt request) (cr_FailedReason request)
    (cr_ActualCentralVersion request) (cr_InstanceType request) adminCentral adminScanner.

(** ** The data plane's view (managedcentral.go) *)

Definition orDefaultQty (qty def : Quantity) : Quantity := if bool_decide (qty <> zero_Quantity) then qty else def.
Definition orDefaultString (s def : string) : string := if bool_decide (s <> "") then s else def.
Definition orDefaultInt32 (i def : Z) : Z := if negb (i =? 0) then i else def.

(** The quantities of a component: those of the spec, or the defaults.  A missing
    entry of a Go map reads as the zero value. *)
Definition present_resources (r : ResourceRequirements) (d : ComponentDefaults) : ApiResources :=
  let qty (l : ResourceList) (name : string) (def : Quantity) :=
    Quantity_String (orDefaultQty (default zero_Quantity (l !! name)) def) in
  mkApiResources
    (<[ResourceCPU := qty (rs_Requests r) ResourceCPU (cd_CPURequest d)]>
      {[ResourceMemory := qty (rs_Requests r) ResourceMemory (cd_MemoryRequest d)]})
    (<[ResourceCPU := qty (rs_Limits r) ResourceCPU (cd_CPULimit d)]>
      {[ResourceMemory := qty (rs_Limits r) ResourceMemory (cd_MemoryLimit d)]}).

Definition present_scaling (s d : ScannerAnalyzerScaling) : ScannerAnalyzerScaling :=
  mkScaling (orDefaultString (sa_AutoScaling s) (sa_AutoScaling d)) (orDefaultInt32 (sa_Replicas s) (sa_Replicas d))
    (orDefaultInt32 (sa_MinReplicas s) (sa_MinReplicas d)) (orDefaultInt32 (sa_MaxReplicas s) (sa_MaxReplicas d)).

Record ManagedCentralAuth := mkManagedAuth {
  ma_ClientId : string; ma_ClientSecret : string; ma_ClientOrigin : string; ma_OwnerOrgId : string;
  ma_OwnerOrgName : string; ma_OwnerUserId : string; ma_Issuer : string
}.

(** [private.ManagedCentral]; the deletion timestamp is text there. *)
Record ManagedCentral := mkManagedCentral {
  mg_Id : string; mg_Kind : string; mg_Name : string; mg_Namespace : string; mg_MasId : string;
  mg_MasPlacementId : string; mg_Internal : bool; mg_DeletionTimestamp : option Z;
  mg_Owners : list string; mg_Auth : ManagedCentralAuth; mg_UiHost : string; mg_TlsCert : string;
  mg_TlsKey : string; mg_DataHost : string; mg_DesiredVersion : string; mg_ActualVersion : string;
  mg_InstanceType : string; mg_Central : ApiResources; mg_Scanner : ApiScannerSpec; mg_ScannerDbHost : string;
  mg_RequestStatus : string
}.

Definition PresentManagedCentral (service : ServiceDefaults) (tlsCert tlsKey : string) (from : CentralRequest)
    : ManagedCentral :=
  let central := match stored_text (cr_Central from) with
    | Some text => decoded_central text | None => mkCentralSpec no_resources end in
  let scanner := match stored_text (cr_Scanner from) with
    | Some text => decoded_scanner text | None => mkScannerSpec no_resources zero_scaling no_resources end in
  mkManagedCentral (cr_ID from) "ManagedCentral" (cr_Name from) (cr_Namespace from) (cr_ID from) (cr_PlacementID from)
    (cr_Internal from) (cr_DeletionTimestamp from) [cr_Owner from]
    (mkManagedAuth (cr_ClientID from) (cr_ClientSecret from) (cr_ClientOrigin from) (cr_OrganisationID from)
      (cr_OrganisationName from) (cr_OwnerUserID from) (cr_Issuer from))
    (GetUIHost from) tlsCert tlsKey (GetDataHost from) (cr_DesiredCentralVersion from) (cr_ActualCentralVersion from)
    (cr_InstanceType from) (present_resources (cs_Resources central) (sd_Central service))
    (mkApiScannerSpec (present_resources (ss_Analyzer scanner) (sd_Analyzer service))
      (present_scaling (ss_Scaling scanner) (sd_Scaling service)) (present_resources (ss_Db scanner) (sd_Db service)))
    "dbhost.rhacs-psql-instance" (cr_Status from).
End present.

(** ** Reports (data_plane_dinosaur_status.go, data_plane_cluster_status.go) *)

(** [private.DataPlaneCentralStatus] *)
Record ApiCentralStatus := mkApiCentralStatus {
  acs_Conditions : list DataPlaneCentralStatusCondition; acs_Routes : option (list DataPlaneCentralRoute);
  acs_Central : string; acs_CentralOperator : string
}.

(** One entry per key, in the order in which the map is walked. *)
Definition ConvertDataPlaneDinosaurStatus (status : list (string * ApiCentralStatus)) : list DataPlaneCentralStatus :=
  (fun kv => mkCentralStatus kv.1 (acs_Conditions kv.2) (acs_Routes kv.2) (acs_Central kv.2) (acs_CentralOperator kv.2))
    <$> status.

(** [private.DataPlaneClusterUpdateStatusRequest]: conditions, and operators with
    their version, readiness and the central versions they support. *)
Record ApiClusterStatus := mkApiClusterStatus {
  ack_Conditions : list DataPlaneClusterStatusCondition; ack_CentralOperator : list (string * bool * list string)
}.

Definition ConvertDataPlaneClusterStatus (status : ApiClusterStatus) : DataPlaneClusterStatus :=
  mkClusterStatus (ack_Conditions status)
    ((fun '(version, ready, versions) => mkOperatorVersion version ready (mkCentralVersion <$> versions))
      <$> ack_CentralOperator status).
