(* ===== verification/CentralApi.v ===== *)
(** * The handlers of the API (internal/dinosaur/pkg/handlers)

    The validators of requests (validation.go), the handlers of users
    (dinosaur.go), of administrators (admin_dinosaur.go) and of the data plane
    (data_plane_dinosaur.go, data_plane_cluster.go), and the telemetry they emit
    (services/telemetry.go).

    A handler runs on the state of the process ([process]) and its local variables:
    the decoded payload and the request it builds.  The decoder of the body is a
    parameter: given the initial value of the variable it decodes into, it gives
    the value it leaves or an error. *)

From S2P Require Import Prelude GoString GoFmt Regex QueryParser ServiceErrors CentralRequest Store Versions.
From S2P Require Import ClusterTypes World Config Providers Resources ApiFramework DefaultVersion Namespace.
From S2P Require Import ClusterService CentralService Auth DataPlane Presenters.
Local Open Scope string_scope.
Local Open Scope Z_scope.

(** ** State *)

(** The database with the external services, the shared default specs and the
    table of default versions. *)
Record process `{Platform} `{Quantities} (V : Type) := mkProcess {
  pr_world : world; pr_defaults : Defaults; pr_versions : V
}.
Arguments mkProcess {_ _ V}.
Arguments pr_world {_ _ V}.
Arguments pr_defaults {_ _ V}.
Arguments pr_versions {_ _ V}.

Section lifts.
Context `{Platform} `{Quantities} {V L : Type}.

(** A handler's state: the process and the local variables. *)
Definition hstate : Type := process V * L.

Definition on_world {A} (m : prog world A) : prog hstate A := fun s =>
  let '(w, a) := m (pr_world s.1) in ((mkProcess w (pr_defaults s.1) (pr_versions s.1), s.2), a).
Definition on_defaults {A} (m : prog Defaults A) : prog hstate A := fun s =>
  let '(d, a) := m (pr_defaults s.1) in ((mkProcess (pr_world s.1) d (pr_versions s.1), s.2), a).
Definition on_versions {A} (m : prog V A) : prog hstate A := fun s =>
  let '(v, a) := m (pr_versions s.1) in ((mkProcess (pr_world s.1) (pr_defaults s.1) v, s.2), a).

(** Reading the local variables, and assigning to them. *)
Definition local {A} (f : L -> A) : prog hstate A := fun s => (s, f s.2).
Definition assign (f : L -> L) : prog hstate unit := fun s => ((s.1, f s.2), tt).

(** A handler starts with its variables at their initial values, which are gone
    when it has answered. *)
Definition run_locals {A} (init : process V -> L) (m : prog hstate A) : prog (process V) A := fun p =>
  let '(s, a) := m (p, init p) in (s.1, a).
End lifts.

(** ** Telemetry (services/telemetry.go) *)

Definition TenantGroupName : string := "Tenant".

Section telemetry.
Context `{Platform} (enabled : bool).

Definition getUserFromContext (ctx : Ctx) : option string :=
  match ctx_claims ctx with Ok claims => cl_userID claims | Err _ => None end.

Definition RegisterTenant (ctx : Ctx) (central : CentralRequest) : prog world unit :=
  if negb enabled then mret tt
  else match getUserFromContext ctx with
  | None => mret tt
  | Some user =>
      emit (TenantGroup user (cr_ID central)
        [("Cloud Account", cr_CloudAccountID central); ("Cloud Provider", cr_CloudProvider central);
         ("Instance Type", cr_InstanceType central); ("Organisation ID", cr_OrganisationID central);
         ("Region", cr_Region central); ("Tenant ID", cr_ID central)])
  end.

Definition error_text (requestErr : option error) : string := match requestErr with Some e => Error e | None => "" end.
Definition is_success (requestErr : option error) : bool := match requestErr with Some _ => false | None => true end.

Definition TrackCreationRequested (ctx : Ctx) (tenantID : string) (isAdmin : bool) (requestErr : option error)
    : prog world unit :=
  if negb enabled then mret tt
  else match getUserFromContext ctx with
  | None => mret tt
  | Some user => emit (CentralCreationRequested user tenantID (error_text requestErr) (is_success requestErr) isAdmin)
  end.

Definition TrackDeletionRequested (ctx : Ctx) (tenantID : string) (isAdmin : bool) (requestErr : option error)
    : prog world unit :=
  if negb enabled then mret tt
  else match getUserFromContext ctx with
  | None => mret tt
  | Some user => emit (CentralDeletionRequested user tenantID (error_text requestErr) (is_success requestErr) isAdmin)
  end.
End telemetry.

(** ** Validators (validation.go) *)

Definition MaxCentralNameLength : Z := 32.

Definition ValidDinosaurClusterNameRegexp : string := "^[a-z]([-a-z0-9]*[a-z0-9])?$".

(** [public.CentralRequestPayload] *)
Record CentralRequestPayload := mkPayload {
  cp_CloudProvider : string; cp_CloudAccountId : string; cp_MultiAz : bool; cp_Name : string; cp_Region : string;
  cp_Central : ApiResources; cp_Scanner : ApiScannerSpec
}.

Definition ValidDinosaurClusterName (value field : string) : option ServiceError :=
  if negb (MatchString name_re value)
  then Some (MalformedDinosaurClusterName "%s does not match %s" [VStr field; VStr ValidDinosaurClusterNameRegexp])
  else None.

(** The assignments of [ValidateDinosaurClaims]: those of the payload come first. *)
Definition set_payload (p : CentralRequestPayload) (r : CentralRequest) : CentralRequest :=
  mkCentralRequest (cr_ID r) (cr_CreatedAt r) (cr_UpdatedAt r) (cp_Region p) (cr_ClusterID r) (cp_CloudProvider p)
    (cp_CloudAccountId p) (cp_MultiAz p) (cp_Name p) (cr_Status r) (cr_SubscriptionID r) (cr_Owner r)
    (cr_OwnerAccountID r) (cr_OwnerUserID r) (cr_Host r) (cr_OrganisationID r) (cr_OrganisationName r)
    (cr_FailedReason r) (cr_PlacementID r) (cr_Central r) (cr_Scanner r) (cr_DesiredCentralVersion r)
    (cr_ActualCentralVersion r) (cr_DesiredCentralOperatorVersion r) (cr_ActualCentralOperatorVersion r)
    (cr_CentralUpgrading r) (cr_CentralOperatorUpgrading r) (cr_InstanceType r) (cr_QuotaType r) (cr_Routes r)
    (cr_RoutesCreated r) (cr_Namespace r) (cr_RoutesCreationID r) (cr_DeletionTimestamp r) (cr_Internal r)
    (cr_ClientID r) (cr_ClientSecret r) (cr_Issuer r) (cr_ClientOrigin r).

Definition set_owner (c : Claims) (r : CentralRequest) : CentralRequest :=
  mkCentralRequest (cr_ID r) (cr_CreatedAt r) (cr_UpdatedAt r) (cr_Region r) (cr_ClusterID r) (cr_CloudProvider r)
    (cr_CloudAccountID r) (cr_MultiAZ r) (cr_Name r) (cr_Status r) (cr_SubscriptionID r) (cl_username c)
    (cl_accountID c) (cl_subject c) (cr_Host r) (cl_orgID c) (cr_OrganisationName r)
    (cr_FailedReason r) (cr_PlacementID r) (cr_Central r) (cr_Scanner r) (cr_DesiredCentralVersion r)
    (cr_ActualCentralVersion r) (cr_DesiredCentralOperatorVersion r) (cr_ActualCentralOperatorVersion r)
    (cr_CentralUpgrading r) (cr_CentralOperatorUpgrading r) (cr_InstanceType r) (cr_QuotaType r) (cr_Routes r)
    (cr_RoutesCreated r) (cr_Namespace r) (cr_RoutesCreationID r) (cr_DeletionTimestamp r) (cr_Internal r)
    (cr_ClientID r) (cr_ClientSecret r) (cr_Issuer r) (cr_ClientOrigin r).

Definition set_Internal (v : bool) (r : CentralRequest) : CentralRequest :=
  mkCentralRequest (cr_ID r) (cr_CreatedAt r) (cr_UpdatedAt r) (cr_Region r) (cr_ClusterID r) (cr_CloudProvider r)
    (cr_CloudAccountID r) (cr_MultiAZ r) (cr_Name r) (cr_Status r) (cr_SubscriptionID r) (cr_Owner r)
    (cr_OwnerAccountID r) (cr_OwnerUserID r) (cr_Host r) (cr_OrganisationID r) (cr_OrganisationName r)
    (cr_FailedReason r) (cr_PlacementID r) (cr_Central r) (cr_Scanner r) (cr_DesiredCentralVersion r)
    (cr_ActualCentralVersion r) (cr_DesiredCentralOperatorVersion r) (cr_ActualCentralOperatorVersion r)
    (cr_CentralUpgrading r) (cr_CentralOperatorUpgrading r) (cr_InstanceType r) (cr_QuotaType r) (cr_Routes r)
    (cr_RoutesCreated r) (cr_Namespace r) (cr_RoutesCreationID r) (cr_DeletionTimestamp r) v
    (cr_ClientID r) (cr_ClientSecret r) (cr_Issuer r) (cr_ClientOrigin r).

Section resource_validators.
Context `{SpecCodec}.

Definition validateQuantity (qty path : string) : option ServiceError :=
  if bool_decide (qty = "") then None
  else match ParseQuantity qty with
       | Err err => Some (Validation "invalid resources: failed to parse quantity %q at %s due to: %v"
           [VStr qty; VStr path; VStr (Error err)])
       | Ok _ => None
       end.

(** The loop over the entries of the map, in the order it is walked. *)
Fixpoint validate_entries (entries : list (string * string)) (path : string) : option error :=
  match entries with
  | [] => None
  | (name, qty) :: entries =>
      if negb (bool_decide (name = ResourceCPU)) && negb (bool_decide (name = ResourceMemory))
      then Some (EService (Validation "unsupported resource type %q in %s" [VStr name; VStr path]))
      else if bool_decide (qty = "") then validate_entries entries path
      else match ParseQuantity qty with
           | Err err => Some (EService (Validation "invalid resources: failed to parse quantity %q at %s.%s due to: %v"
               [VStr qty; VStr path; VStr name; VStr (Error err)]))
           | Ok _ => validate_entries entries path
           end
  end.

Definition validateResourceList (resources : gmap string string) (path : string) : option error :=
  validate_entries (map_to_list resources) path.

Definition ValidateCentralSpec (payload : CentralRequestPayload) (dbCentral : CentralRequest)
    : CentralRequest * option ServiceError :=
  match validateResourceList (api_Requests (cp_Central payload)) "central.resources.requests" with
  | Some err => (dbCentral, Some (Validation "invalid resource requests for Central: %v" [VStr (Error err)]))
  | None =>
  match validateResourceList (api_Limits (cp_Central payload)) "central.resources.limits" with
  | Some err => (dbCentral, Some (Validation "invalid resource limits for Central: %v" [VStr (Error err)]))
  | None =>
      let central := encode_payload_central (cp_Central payload) in
      match (decode_CentralSpec central).2 with
      | Some err => (dbCentral, Some (Validation "invalid value as Central spec: %v" [VStr (Error err)]))
      | None => (set_Central (Some central) dbCentral, None)
      end
  end end.

(** The limits of the analyzer are checked a second time where those of the
    database are meant. *)
Definition ValidateScannerSpec (payload : CentralRequestPayload) (dbCentral : CentralRequest)
    : CentralRequest * option ServiceError :=
  let scanner := cp_Scanner payload in
  match validateResourceList (api_Requests (as_Analyzer scanner)) "scanner.analyzer.resources.requests" with
  | Some err => (dbCentral, Some (Validation "invalid resource requests for Scanner Analyzer: %v" [VStr (Error err)]))
  | None =>
  match validateResourceList (api_Limits (as_Analyzer scanner)) "scanner.analyzer.resources.limits" with
  | Some err => (dbCentral, Some (Validation "invalid resource limits for Scanner Analyzer: %v" [VStr (Error err)]))
  | None =>
  if negb (bool_decide (sa_AutoScaling (as_Scaling scanner) = "")) &&
     negb (bool_decide (sa_AutoScaling (as_Scaling scanner) = "Enabled")) &&
     negb (bool_decide (sa_AutoScaling (as_Scaling scanner) = "Disabled"))
  then (dbCentral, Some (Validation
    "invalid AutoScaling setting at Scanner.Analyzer.Scaling.AutoScaling, expected 'Enabled' or 'Disabled'" []))
  else
  match validateResourceList (api_Requests (as_Db scanner)) "scanner.db.resources.requests" with
  | Some err => (dbCentral, Some (Validation "invalid resource requests for Scanner DB: %v" [VStr (Error err)]))
  | None =>
  match validateResourceList (api_Limits (as_Analyzer scanner)) "scanner.db.resources.limits" with
  | Some err => (dbCentral, Some (Validation "invalid resource limits for Scanner DB: %v" [VStr (Error err)]))
  | None =>
      let text := encode_payload_scanner scanner in
      match (decode_ScannerSpec text).2 with
      | Some err => (dbCentral, Some (Validation "invalid value as Scanner spec: %v" [VStr (Error err)]))
      | None => (set_Scanner (Some text) dbCentral, None)
      end
  end end end end.
End resource_validators.

Definition validateCentralVersionString (version : string) : option ServiceError :=
  match ValidateCentralVersionString version with
  | Some err => Some (New ErrorValidation "validating central version string: %s" [VStr (Error err)])
  | None => None
  end.

(** The closure reads the version when it runs. *)
Definition ValidateUpdateCentralVersion (version : string) : option ServiceError :=
  if bool_decide (version = "") then None else validateCentralVersionString version.

(** [validateCentralVersionString(version.Version)] is a closure over the version at
    the time it is built. *)
Definition ValidateCentralDefaultVersion (version_when_built : string) : unit -> option ServiceError :=
  fun _ => validateCentralVersionString version_when_built.

(** ** Handlers *)

(** [public.CentralRequestList] and [private.CentralList] *)
Record ApiList (A : Type) := mkApiList { al_Kind : string; al_Page : Z; al_Size : Z; al_Total : Z; al_Items : list A }.
Arguments mkApiList {A}.
Arguments al_Kind {A}.
Arguments al_Page {A}.
Arguments al_Size {A}.
Arguments al_Total {A}.
Arguments al_Items {A}.

(** What the handlers are built with. *)
Record ApiConfig := mkApiConfig {
  ac_service : ServiceConfig;
  ac_providers : ProviderConfig;
  ac_InternalUserAgents : list string;
  ac_telemetry : bool;
  ac_claims : ClaimNames;
  ac_TLSCert : string; ac_TLSKey : string;
  ac_observability : DataPlaneClusterConfigObservability
}.

Section handlers.
Context `{Platform} `{Semver} `{SpecCodec} {V : Type} `{VersionTable V}.
Context (conf : ApiConfig) (service : ServiceDefaults).
(** the capacity of rune slices and the database's evaluation of a condition, see
    [ListCentrals] *)
Context (cap : nat -> nat) (sql_eval : string -> list string -> CentralRequest -> bool).

Definition ctx_of (r : http_request) : Ctx := request_ctx (ac_claims conf) r.

(** *** Validators that use the services *)

Definition ValidateDinosaurClusterNameIsUnique (ctx : Ctx) (name : string) : prog world (option ServiceError) :=
  rl ← ListCentrals cap sql_eval ctx (mkListArguments 1 1 [] (Sprintf "name = %s" [VStr name]) []);
  match rl with
  | Err err => mret (Some err)
  | Ok (_, pageMeta) => if 0 <? pm_Total pageMeta then mret (Some DuplicateDinosaurClusterName) else mret None
  end.

(** The request with its defaults, as the closure leaves it. *)
Definition ValidateCloudProvider (r : CentralRequest) : prog world (CentralRequest * option ServiceError) :=
  let supportedProviders := pc_SupportedProviders (ac_providers conf) in
  let r := if bool_decide (cr_CloudProvider r = "")
    then set_CloudProvider (match GetDefault supportedProviders with Ok p => pv_Name p | Err _ => "" end) r else r in
  match Provider_GetByName supportedProviders (cr_CloudProvider r) with
  | None => mret (r, Some (ProviderNotSupported "provider %s is not supported, supported providers are: %s"
      [VStr (cr_CloudProvider r); VStr (ProviderList_String supportedProviders)]))
  | Some provider =>
      let r := if bool_decide (cr_Region r = "")
        then set_Region (match GetDefaultRegion provider with Ok g => rg_Name g | Err _ => "" end) r else r in
      if negb (IsRegionSupported provider (cr_Region r))
      then mret (r, Some (RegionNotSupported "region %s is not supported for %s, supported regions are: %s"
        [VStr (cr_Region r); VStr (cr_CloudProvider r); VStr (RegionList_String (pv_Regions provider))]))
      else
        instanceType ← DetectInstanceType (ac_service conf) r;
        let region := default zero_Region (Region_GetByName (pv_Regions provider) (cr_Region r)) in
        if negb (IsInstanceTypeSupported region instanceType)
        then mret (r, Some (InstanceTypeNotSupported "instance type '%s' not supported for region '%s'"
          [VStr instanceType; VStr (rg_Name region)]))
        else mret (r, None)
  end.

Definition ValidateDinosaurClaims (ctx : Ctx) (payload : CentralRequestPayload) (r : CentralRequest)
    : CentralRequest * option ServiceError :=
  let r := set_payload payload r in
  match ctx_claims ctx with
  | Err _ => (r, Some (Unauthenticated "user not authenticated" []))
  | Ok claims => (set_owner claims r, None)
  end.

(** *** Closures over the local variables of the creation handlers *)

Abbreviation create_state := (@hstate _ _ V (CentralRequestPayload * CentralRequest)).

(** A validator of the payload. *)
Definition of_payload (f : CentralRequestPayload -> option ServiceError) : Validate create_state :=
  local (fun l => f l.1).

(** A validator that assigns to the request. *)
Definition on_request (m : CentralRequestPayload -> CentralRequest -> prog world (CentralRequest * option ServiceError))
    : Validate create_state :=
  l ← local (fun l => l);
  x ← on_world (m l.1 l.2);
  _ ← assign (fun l => (l.1, x.1));
  mret x.2.

Definition decode_payload (body : CentralRequestPayload -> result error CentralRequestPayload)
    : prog create_state (option error) :=
  l ← local (fun l => l);
  match body l.1 with
  | Err err => mret (Some err)
  | Ok payload => _ ← assign (fun l => (payload, l.2)); mret None
  end.

Definition zero_payload : CentralRequestPayload :=
  mkPayload "" "" false "" "" no_api_resources (mkApiScannerSpec no_api_resources zero_scaling no_api_resources).

(** The validators both creation handlers begin with. *)
Definition create_validators (r : http_request) : list (Validate create_state) :=
  [ reading (fun _ => ValidateAsyncEnabled (rq_Query r "async"));
    of_payload (fun p => ValidateLength (cp_Name p) "name" MinRequiredFieldLength (Some MaxCentralNameLength));
    of_payload (fun p => ValidDinosaurClusterName (cp_Name p) "name");
    (l ← local (fun l => l); on_world (ValidateDinosaurClusterNameIsUnique (ctx_of r) (cp_Name l.1)));
    on_request (fun p c => mret (ValidateDinosaurClaims (ctx_of r) p c));
    on_request (fun _ c => ValidateCloudProvider c);
    of_payload (fun p => ValidateMultiAZEnabled (cp_MultiAz p)) ].

(** *** Users (dinosaur.go) *)

Definition validateCentralResourcesUnspecified (p : CentralRequestPayload) : option ServiceError :=
  if bool_decide (api_Limits (cp_Central p) <> ∅) || bool_decide (api_Requests (cp_Central p) <> ∅)
  then Some (Forbidden "not allowed to specify central resources" []) else None.

Definition validateScannerResourcesUnspecified (p : CentralRequestPayload) : option ServiceError :=
  if bool_decide (api_Limits (as_Analyzer (cp_Scanner p)) <> ∅) || bool_decide (api_Requests (as_Analyzer (cp_Scanner p)) <> ∅)
  then Some (Forbidden "not allowed to specify scanner analyzer resources" [])
  else if bool_decide (api_Limits (as_Db (cp_Scanner p)) <> ∅) || bool_decide (api_Requests (as_Db (cp_Scanner p)) <> ∅)
  then Some (Forbidden "not allowed to specify scanner db resources" []) else None.

(** The action of both creation handlers, after the flag for internal requests. *)
Definition create_action (r : http_request) (isAdmin : bool) : prog create_state (result ServiceError PublicCentral) :=
  l ← local (fun l => l);
  x ← on_world (RegisterDinosaurJob (ac_service conf) l.2);
  _ ← assign (fun l => (l.1, x.1));
  _ ← (if isAdmin || negb (cr_Internal x.1) then
         _ ← on_world (RegisterTenant (ac_telemetry conf) (ctx_of r) x.1);
         on_world (TrackCreationRequested (ac_telemetry conf) (ctx_of r) (cr_ID x.1) isAdmin (AsError x.2))
       else mret tt);
  match x.2 with
  | Some svcErr => mret (Err svcErr)
  | None => mret (Ok (PresentCentralRequest x.1))
  end.

Definition public_Create (body : CentralRequestPayload -> result error CentralRequestPayload) (r : http_request)
    : prog (process V) (response PublicCentral) :=
  run_locals (fun _ => (zero_payload, zero_CentralRequest))
    (Handle (mkHandlerConfig (Some (decode_payload body))
      (create_validators r ++
       [ of_payload validateCentralResourcesUnspecified; of_payload validateScannerResourcesUnspecified ])%list
      (_ ← (if bool_decide (rq_UserAgent r ∈ ac_InternalUserAgents conf)
            then assign (fun l => (l.1, set_Internal true l.2)) else mret tt);
       create_action r false)) StatusAccepted).

(** Handlers without local variables. *)
Abbreviation plain_state := (@hstate _ _ V unit).

Definition public_Get (r : http_request) : prog (process V) (response PublicCentral) :=
  run_locals (fun _ => tt) (HandleGet (mkHandlerConfig None []
    (rg ← on_world (Get (ctx_of r) (rq_Vars r "id"));
     mret (match rg with Err err => Err err | Ok x => Ok (PresentCentralRequest x) end) : prog plain_state _))).

Definition public_Delete (r : http_request) : prog (process V) (response unit) :=
  run_locals (fun _ => tt) (HandleDelete (mkHandlerConfig None
    [ reading (fun _ => ValidateAsyncEnabled (rq_Query r "async")) ]
    (let id := rq_Vars r "id" in
     rg ← on_world (Get (ctx_of r) id);
     match rg with
     | Err err => mret (Err err)
     | Ok centralRequest =>
         err ← on_world (RegisterDinosaurDeprovisionJob (ctx_of r) id);
         _ ← (if negb (cr_Internal centralRequest)
              then on_world (TrackDeletionRequested (ac_telemetry conf) (ctx_of r) id false (AsError err)) else mret tt);
         mret (match err with Some e => Err e | None => Ok tt end)
     end : prog plain_state _)) StatusAccepted).

(** The list arguments of the query, or the error of their validation. *)
Definition list_arguments (r : http_request) : result ServiceError ListArguments :=
  let listArgs := NewListArguments (rq_Query r) in
  match ListArguments_Validate listArgs with
  | Some err => Err (NewWithCause ErrorMalformedRequest (Some err) "Unable to list central requests: %s" [VStr (Error err)])
  | None => Ok listArgs
  end.

Definition list_action {A} (kind : string) (present : CentralRequest -> A) (r : http_request)
    : prog plain_state (result ServiceError (ApiList A)) :=
  match list_arguments r with
  | Err err => mret (Err err)
  | Ok listArgs =>
      rl ← on_world (ListCentrals cap sql_eval (ctx_of r) listArgs);
      mret (match rl with
            | Err err => Err err
            | Ok (requests, paging) =>
                Ok (mkApiList kind (int32 (pm_Page paging)) (int32 (pm_Size paging)) (int32 (pm_Total paging))
                      (present <$> requests))
            end)
  end.

Definition public_List (r : http_request) : prog (process V) (response (ApiList PublicCentral)) :=
  run_locals (fun _ => tt) (HandleList (mkHandlerConfig None [] (list_action "CentralRequestList" PresentCentralRequest r))).

(** *** Administrators (admin_dinosaur.go) *)

(** The payload starts with the shared default specs. *)
Definition default_payload (p : process V) : CentralRequestPayload :=
  mkPayload "" "" false "" "" (ConvertCoreV1ResourceRequirements (df_Central (pr_defaults p)))
    (mkApiScannerSpec (ConvertCoreV1ResourceRequirements (df_Analyzer (pr_defaults p))) (sd_Scaling service)
      (ConvertCoreV1ResourceRequirements (df_Db (pr_defaults p)))).

Definition admin_Create (body : CentralRequestPayload -> result error CentralRequestPayload) (r : http_request)
    : prog (process V) (response PublicCentral) :=
  run_locals (fun p => (default_payload p, zero_CentralRequest))
    (Handle (mkHandlerConfig (Some (decode_payload body))
      (create_validators r ++
       [ on_request (fun p c => mret (ValidateCentralSpec p c)); on_request (fun p c => mret (ValidateScannerSpec p c)) ])%list
      (create_action r true)) StatusAccepted).

Definition admin_Get (r : http_request) : prog (process V) (response AdminCentral) :=
  run_locals (fun _ => tt) (HandleGet (mkHandlerConfig None []
    (rg ← on_world (Get (ctx_of r) (rq_Vars r "id"));
     mret (match rg with Err err => Err err | Ok x => Ok (PresentDinosaurRequestAdminEndpoint x) end) : prog plain_state _))).

Definition admin_List (r : http_request) : prog (process V) (response (ApiList AdminCentral)) :=
  run_locals (fun _ => tt)
    (HandleList (mkHandlerConfig None [] (list_action "CentralList" PresentDinosaurRequestAdminEndpoint r))).

Definition admin_Delete (r : http_request) : prog (process V) (response unit) :=
  run_locals (fun _ => tt) (HandleDelete (mkHandlerConfig None
    [ reading (fun _ => ValidateAsyncEnabled (rq_Query r "async")) ]
    (let id := rq_Vars r "id" in
     err ← on_world (RegisterDinosaurDeprovisionJob (ctx_of r) id);
     _ ← on_world (TrackDeletionRequested (ac_telemetry conf) (ctx_of r) id true (AsError err));
     mret (match err with Some e => Err e | None => Ok tt end) : prog plain_state _)) StatusAccepted).

Definition admin_DbDelete (r : http_request) : prog (process V) (response unit) :=
  run_locals (fun _ => tt) (HandleDelete (mkHandlerConfig None []
    (rg ← on_world (Get (ctx_of r) (rq_Vars r "id"));
     match rg with
     | Err err => mret (Err err)
     | Ok centralRequest =>
         err ← on_world (Delete (ac_service conf) centralRequest true);
         mret (match err with Some e => Err e | None => Ok tt end)
     end : prog plain_state _)) StatusOK).

Definition zero_update : CentralUpdateRequest :=
  mkUpdateRequest "" "" no_api_resources (mkApiScannerSpec no_api_resources zero_scaling no_api_resources).

Definition decode_update (body : CentralUpdateRequest -> result error CentralUpdateRequest)
    : prog (@hstate _ _ V CentralUpdateRequest) (option error) :=
  u ← local (fun u => u);
  match body u with
  | Err err => mret (Some err)
  | Ok u => _ ← assign (fun _ => u); mret None
  end.

Definition admin_Update (body : CentralUpdateRequest -> result error CentralUpdateRequest) (r : http_request)
    : prog (process V) (response AdminCentral) :=
  run_locals (fun _ => zero_update)
    (Handle (mkHandlerConfig (Some (decode_update body))
      [ local (fun u => ValidateUpdateCentralVersion (ur_CentralVersion u)) ]
      (rg ← on_world (Get (ctx_of r) (rq_Vars r "id"));
       match rg with
       | Err svcErr => mret (Err svcErr)
       | Ok centralRequest =>
           u ← local (fun u => u);
           ru ← on_defaults (updateCentralRequest service u centralRequest);
           match ru with
           | Err err => mret (Err (NewWithCause ErrorBadRequest (Some err) "Updating CentralRequest: %s" [VStr (Error err)]))
           | Ok centralRequest =>
               rv ← on_world (VerifyAndUpdateDinosaurAdmin (ctx_of r) centralRequest);
               match rv with
               | Some svcErr => mret (Err svcErr)
               | None => mret (Ok (PresentDinosaurRequestAdminEndpoint centralRequest))
               end
           end
       end)) StatusOK).

(** The variable the body is decoded into holds the zero struct when the validator
    is built. *)
Definition admin_SetCentralDefaultVersion (body : string -> result error string) (r : http_request)
    : prog (process V) (response unit) :=
  let initial := "" in
  run_locals (fun _ => initial)
    (Handle (mkHandlerConfig
      (Some (v ← local (fun v => v);
             match body v with
             | Err err => mret (Some err)
             | Ok v => _ ← assign (fun _ => v); mret None
             end))
      [ reading (fun _ => ValidateCentralDefaultVersion initial tt) ]
      (v ← local (fun v => v);
       rs ← on_versions (SetDefaultVersion v);
       mret (match rs with
             | Some err => Err (NewWithCause ErrorGeneral (Some err) "Set CentralDefaultVersion requests: %s" [VStr (Error err)])
             | None => Ok tt
             end))) StatusOK).

Definition admin_GetCentralDefaultVersion (r : http_request) : prog (process V) (response string) :=
  run_locals (fun _ => tt) (Handle (mkHandlerConfig None []
    (rv ← on_versions GetDefaultVersion;
     mret (match rv with
           | Err err => Err (NewWithCause ErrorGeneral (Some err) "Get CentralDefaultVersion requests: %s" [VStr (Error err)])
           | Ok version => Ok version
           end) : prog plain_state _)) StatusOK).

(** *** The data plane (data_plane_dinosaur.go, data_plane_cluster.go) *)

Definition UpdateDinosaurStatuses (body : result error (list (string * ApiCentralStatus))) (r : http_request)
    : prog (process V) (response unit) :=
  run_locals (fun _ => [])
    (Handle (mkHandlerConfig
      (Some (match body with Err err => mret (Some err) | Ok data => _ ← assign (fun _ => data); mret None end)) []
      (data ← local (fun data => data);
       err ← on_world (UpdateDataPlaneCentralService (rq_Vars r "id") (ConvertDataPlaneDinosaurStatus data));
       mret (match err with Some e => Err e | None => Ok tt end))) StatusOK).

Definition dataplane_GetAll (r : http_request) : prog (process V) (response (list ManagedCentral)) :=
  run_locals (fun _ => tt) (HandleGet (mkHandlerConfig None
    [ reading (fun _ => ValidateLength (rq_Vars r "id") "id" MinRequiredFieldLength None) ]
    (rl ← on_world (ListByClusterID (rq_Vars r "id"));
     mret (match rl with
           | Err err => Err err
           | Ok l => Ok (PresentManagedCentral service (ac_TLSCert conf) (ac_TLSKey conf) <$> l)
           end) : prog plain_state _))).

Definition dataplane_UpdateClusterStatus (body : result error ApiClusterStatus) (r : http_request)
    : prog (process V) (response unit) :=
  run_locals (fun _ => mkApiClusterStatus [] [])
    (Handle (mkHandlerConfig
      (Some (match body with Err err => mret (Some err) | Ok data => _ ← assign (fun _ => data); mret None end))
      [ reading (fun _ => ValidateLength (rq_Vars r "id") "id" MinRequiredFieldLength None) ]
      (data ← local (fun data => data);
       err ← on_world (UpdateDataPlaneClusterStatus (rq_Vars r "id") (ConvertDataPlaneClusterStatus data));
       mret (match err with Some e => Err e | None => Ok tt end))) StatusOK).

Definition dataplane_GetClusterConfig (r : http_request) : prog (process V) (response DataPlaneClusterConfigObservability) :=
  run_locals (fun _ => tt) (HandleGet (mkHandlerConfig None
    [ reading (fun _ => ValidateLength (rq_Vars r "id") "id" MinRequiredFieldLength None) ]
    (on_world (GetDataPlaneClusterConfig (ac_observability conf) (rq_Vars r "id")) : prog plain_state _))).
End handlers.
