(* ===== verification/CentralApiProps.v ===== *)
(** * The API: what its handlers do

    What a creation request must be like to be accepted and what it leaves, that
    users only get centrals of their organisation, and which handlers change the
    centrals table and how. *)

From S2P Require Import Prelude GoString GoFmt Regex QueryParser QueryProps ServiceErrors CentralRequest Store Versions.
From S2P Require Import ClusterTypes World MemPlatform Config Providers Resources ApiFramework NameSearch DefaultVersion Namespace.
From S2P Require Import Quota ClusterService CentralService Auth CentralProps DataPlane Presenters CentralApi.
Local Open Scope string_scope.
Local Open Scope Z_scope.

(** ** Frames *)

Section frames.
Context `{Platform} `{Quantities} {V L : Type}.

(** The centrals of a process, and of a handler's state. *)
Definition process_rows (Q : relation (rowstate CentralRequest)) (p p' : process V) : Prop :=
  on_rows Q (pr_world p) (pr_world p').
Definition handler_rows (Q : relation (rowstate CentralRequest)) (s s' : @hstate _ _ V L) : Prop :=
  process_rows Q s.1 s'.1.

#[export] Instance process_rows_preorder Q `{!PreOrder Q} : PreOrder (process_rows Q).
Proof. split; [intros p; unfold process_rows; reflexivity|]. intros p1 p2 p3. unfold process_rows. apply transitivity. Qed.

#[export] Instance handler_rows_preorder Q `{!PreOrder Q} : PreOrder (handler_rows Q).
Proof. split; [intros s; unfold handler_rows; reflexivity|]. intros s1 s2 s3. unfold handler_rows. apply transitivity. Qed.

Lemma on_world_run {A} (m : prog world A) (s : @hstate _ _ V L) :
  (on_world m s).1 = (mkProcess (m (pr_world s.1)).1 (pr_defaults s.1) (pr_versions s.1), s.2) /\
  (on_world m s).2 = (m (pr_world s.1)).2.
Proof. unfold on_world. by destruct (m (pr_world s.1)). Qed.

Lemma on_defaults_run {A} (m : prog Defaults A) (s : @hstate _ _ V L) :
  (on_defaults m s).1 = (mkProcess (pr_world s.1) (m (pr_defaults s.1)).1 (pr_versions s.1), s.2) /\
  (on_defaults m s).2 = (m (pr_defaults s.1)).2.
Proof. unfold on_defaults. by destruct (m (pr_defaults s.1)). Qed.

Lemma handler_on_world {A} Q (m : prog world A) :
  preserves (on_rows Q) m -> preserves (handler_rows Q) (on_world m).
Proof. intros Hm s. unfold handler_rows, process_rows. destruct (on_world_run m s) as [-> _]. apply Hm. Qed.

Section silent.
Context (Q : relation (rowstate CentralRequest)) `{!PreOrder Q}.

Lemma handler_on_defaults {A} (m : prog Defaults A) : preserves (handler_rows Q) (on_defaults m).
Proof. intros s. unfold handler_rows, process_rows. destruct (on_defaults_run m s) as [-> _]. reflexivity. Qed.

Lemma handler_on_versions {A} (m : prog V A) : preserves (handler_rows Q) (on_versions m).
Proof. intros s. unfold on_versions. destruct (m _). unfold handler_rows, process_rows. reflexivity. Qed.

Lemma handler_local {A} (f : L -> A) : preserves (handler_rows Q) (local f).
Proof. intros s. reflexivity. Qed.

Lemma handler_assign f : preserves (handler_rows Q) (assign f).
Proof. intros s. unfold handler_rows, process_rows. reflexivity. Qed.

Lemma handler_reading {A} (f : @hstate _ _ V L -> A) : preserves (handler_rows Q) (reading f).
Proof. intros s. reflexivity. Qed.
End silent.

Lemma run_locals_rows {A} Q init (m : prog (@hstate _ _ V L) A) :
  preserves (handler_rows Q) m -> preserves (process_rows Q) (run_locals init m).
Proof. intros Hm p. unfold run_locals. specialize (Hm (p, init p)). by destruct (m (p, init p)). Qed.

Lemma run_locals_run {A} init (m : prog (@hstate _ _ V L) A) p :
  run_locals init m p = ((m (p, init p)).1.1, (m (p, init p)).2).
Proof. unfold run_locals. by destruct (m (p, init p)). Qed.
End frames.
#[export] Hint Resolve handler_on_world handler_on_defaults handler_on_versions handler_local handler_assign
  handler_reading : fleet.

Section api.
Context `{PlatformLaws} `{Semver} `{SpecCodec} {V : Type} `{VersionTable V}.
Context (conf : ApiConfig) (service : ServiceDefaults).
Context (cap : nat -> nat) (sql_eval : string -> list string -> CentralRequest -> bool).

(** ** Validators leave the table alone *)

Lemma rows_ListCentrals ctx la : preserves (on_rows eq) (ListCentrals cap sql_eval ctx la).
Proof. unfold ListCentrals. preserves_tac. Qed.

Lemma rows_NameIsUnique ctx name : preserves (on_rows eq) (ValidateDinosaurClusterNameIsUnique cap sql_eval ctx name).
Proof. pose proof rows_ListCentrals. unfold ValidateDinosaurClusterNameIsUnique. preserves_tac. Qed.

Lemma rows_ValidateCloudProvider r : preserves (on_rows eq) (ValidateCloudProvider conf r).
Proof.
  assert (forall c, preserves (on_rows eq) (DetectInstanceType (ac_service conf) c)) by (intros; by apply rows_DetectInstanceType, _).
  unfold ValidateCloudProvider. preserves_tac.
Qed.

(** ** Cloud provider and region *)

(** The central is placed in a configured region of a configured provider, which
    offers an instance type; what the request names is kept. *)
Definition placed (r x : CentralRequest) : Prop :=
  (cr_CloudProvider r <> "" -> cr_CloudProvider x = cr_CloudProvider r) /\
  (cr_Region r <> "" -> cr_Region x = cr_Region r) /\
  exists pv g t, pv ∈ pc_SupportedProviders (ac_providers conf) /\ pv_Name pv = cr_CloudProvider x /\
    g ∈ pv_Regions pv /\ rg_Name g = cr_Region x /\ (t = EVAL \/ t = STANDARD) /\
    is_Some (rg_SupportedInstanceTypes g !! t).

(** What the validator may have assigned. *)
Definition sited (r x : CentralRequest) : Prop :=
  exists provider region, x = set_Region region (set_CloudProvider provider r).

Lemma ValidateCloudProvider_ok r w :
  (ValidateCloudProvider conf r w).2.2 = None ->
  placed r (ValidateCloudProvider conf r w).2.1 /\ sited r (ValidateCloudProvider conf r w).2.1.
Proof.
  unfold ValidateCloudProvider. cbv zeta. set (supported := pc_SupportedProviders _).
  set (r1 := if bool_decide (cr_CloudProvider r = "") then _ else r).
  assert (exists p, r1 = set_CloudProvider p r /\ (cr_CloudProvider r <> "" -> p = cr_CloudProvider r)) as (p & Er1 & Hp).
  { unfold r1. case_bool_decide; [eexists; split; [done|done]|]. exists (cr_CloudProvider r). by destruct r. }
  clearbody r1. subst r1. destruct (Provider_GetByName supported _) as [pv|] eqn:Epv; [|done].
  apply Provider_GetByName_ok in Epv as [Hpv Hname]. simpl in Hname.
  set (r2 := if bool_decide (cr_Region (set_CloudProvider p r) = "") then _ else _).
  assert (exists g, r2 = set_Region g (set_CloudProvider p r) /\ (cr_Region r <> "" -> g = cr_Region r)) as (g & Er2 & Hg).
  { unfold r2. simpl. case_bool_decide; [eexists; split; [done|done]|]. exists (cr_Region r). by destruct r. }
  clearbody r2. subst r2. destruct (IsRegionSupported pv _) eqn:Erg; simpl; [|done].
  unfold IsRegionSupported in Erg. apply bool_decide_eq_true in Erg as [region Ereg].
  rewrite prog_bind_run. simpl in Ereg |- *. rewrite Ereg. simpl.
  set (t := (DetectInstanceType _ _ w).2).
  assert (t = EVAL \/ t = STANDARD) as Ht by apply DetectInstanceType_cases.
  destruct (IsInstanceTypeSupported region t) eqn:Et; simpl; [|done]. intros _.
  apply Region_GetByName_ok in Ereg as [Hin Hrn]. apply IsInstanceTypeSupported_spec in Et.
  split; [|by exists p, g]. split_and!; [exact Hp|exact Hg|]. by exists pv, region, t.
Qed.

(** ** The validators of a creation *)

Abbreviation cstate := (@hstate _ _ V (CentralRequestPayload * CentralRequest)).

Lemma validated_cons_inv {S} (v : Validate S) vs s s' :
  validated (v :: vs) s s' -> (v s).2 = None /\ validated vs (v s).1 s'.
Proof. by inversion 1. Qed.

Lemma on_request_run m (s : cstate) :
  on_request m s =
  ((mkProcess (m s.2.1 s.2.2 (pr_world s.1)).1 (pr_defaults s.1) (pr_versions s.1),
    (s.2.1, (m s.2.1 s.2.2 (pr_world s.1)).2.1)), (m s.2.1 s.2.2 (pr_world s.1)).2.2).
Proof.
  unfold on_request. rewrite !prog_bind_run. unfold local. simpl. destruct (on_world_run (m s.2.1 s.2.2) s) as [-> ->]. done.
Qed.

(** What the checks of the payload's values have established. *)
Definition well_formed (r : http_request) (p : CentralRequestPayload) : Prop :=
  rq_Query r "async" = "true" /\ label_runes (runes (cp_Name p)) /\ len (cp_Name p) <= MaxCentralNameLength /\
  cp_MultiAz p = true.

(** No central the request may see has the name, as far as the database could tell. *)
Definition name_free (ctx : Ctx) (name : string) (w : world) : Prop :=
  forall claims p n, ctx_claims ctx = Ok claims -> tenant_filter ctx claims = Ok p ->
    (on_centrals (db_count (fun x => p x && sql_eval "name = ?" [name] x)) w).2 = Ok n ->
    forall k x, centrals w !! k = Some x -> p x = true -> sql_eval "name = ?" [name] x = false.

Lemma name_search name : Sprintf "name = %s" [VStr name] = "name = " +:+ name.
Proof. transitivity ("name = " +:+ (name +:+ "")); [reflexivity|]. by rewrite string_append_nil_r. Qed.

Lemma name_unique_ok ctx name w :
  MatchString name_re name = true -> (ValidateDinosaurClusterNameIsUnique cap sql_eval ctx name w).2 = None ->
  name_free ctx name w.
Proof.
  intros Hm Hu claims p n Hc Hp Hn k x Hx Hpx. revert Hu. unfold ValidateDinosaurClusterNameIsUnique.
  rewrite name_search, prog_bind_run. unfold ListCentrals. rewrite Hc, Hp. cbn [la_Search la_Size la_Page la_OrderBy].
  rewrite bool_decide_eq_false_2 by done. change (NewQueryParser []) with validColumns.
  rewrite (Parse_name_query_text cap name Hm). cbn [dq_Query dq_Values]. cbv zeta. rewrite prog_bind_run, Hn, prog_bind_run.
  apply count_result in Hn. set (q := fun x => _) in *.
  destruct ((on_centrals (db_page _ _ _ _) _).2); [|done]. rewrite prog_ret_run. cbn [fst snd pm_Total].
  destruct (Z.ltb_spec 0 n) as [E|E]; [intros Hd; discriminate Hd|]. intros _.
  destruct (sql_eval "name = ?" [name] x) eqn:Hs; [|done].
  assert (matching q (centrals w) !! k = Some x) as Hk by (apply matching_lookup; split; [done|]; unfold q; by rewrite Hpx).
  assert (matching q (centrals w) <> ∅) as Hne by (intros Ez; by rewrite Ez, lookup_empty in Hk).
  apply map_size_non_empty_iff in Hne. lia.
Qed.

Lemma ValidateLength_ok name :
  ValidateLength name "name" MinRequiredFieldLength (Some MaxCentralNameLength) = None -> len name <= MaxCentralNameLength.
Proof. unfold ValidateLength, ValidateMaxLength. destruct (Z.ltb_spec MaxCentralNameLength (len name)); [done|lia]. Qed.

Lemma ValidDinosaurClusterName_ok name : ValidDinosaurClusterName name "name" = None -> MatchString name_re name = true.
Proof. unfold ValidDinosaurClusterName. by destruct (MatchString name_re name). Qed.

(** The request after the claims and the provider have been set. *)
Definition requested (claims : Claims) (p : CentralRequestPayload) (c x : CentralRequest) : Prop :=
  let r := set_owner claims (set_payload p c) in placed r x /\ sited r x.

Lemma create_validators_ok r vs (s s' : cstate) :
  validated (create_validators conf cap sql_eval r ++ vs) s s' ->
  exists claims s1,
    ctx_claims (ctx_of conf r) = Ok claims /\ validated vs s1 s' /\ s1.2.1 = s.2.1 /\ process_rows eq s.1 s1.1 /\
    well_formed r s.2.1 /\ name_free (ctx_of conf r) (cp_Name s.2.1) (pr_world s.1) /\
    requested claims s.2.1 s.2.2 s1.2.2.
Proof.
  destruct s as [q [p c]]. unfold create_validators. cbn [app].
  intros [Ha Hv]%validated_cons_inv. unfold reading in Ha, Hv. cbn [fst snd] in Ha, Hv.
  apply validated_cons_inv in Hv as [Hl Hv]. unfold of_payload, local in Hl, Hv. cbn [fst snd] in Hl, Hv.
  apply validated_cons_inv in Hv as [Hn Hv]. cbn [fst snd] in Hn, Hv.
  apply ValidateLength_ok in Hl. apply ValidDinosaurClusterName_ok in Hn.
  apply validated_cons_inv in Hv as [Hu Hv]. rewrite prog_bind_run in Hu, Hv. cbn [fst snd] in Hu, Hv.
  set (m1 := ValidateDinosaurClusterNameIsUnique _ _ _ _) in *.
  destruct (on_world_run m1 (q, (p, c))) as [E1 E2]. rewrite E2 in Hu. rewrite E1 in Hv. cbn [fst snd] in Hu, Hv. clear E1 E2.
  pose proof (rows_NameIsUnique (ctx_of conf r) (cp_Name p) (pr_world q)) as R1. fold m1 in R1.
  apply (name_unique_ok _ _ _ Hn) in Hu. set (w1 := (m1 (pr_world q)).1) in *.
  apply validated_cons_inv in Hv as [Hc Hv]. rewrite on_request_run in Hc, Hv. cbn [fst snd] in Hc, Hv.
  unfold ValidateDinosaurClaims in Hc, Hv. destruct (ctx_claims (ctx_of conf r)) as [claims|]; [|done]. cbn [mret prog_ret fst snd pr_world] in Hc, Hv.
  apply validated_cons_inv in Hv as [Hp Hv]. rewrite on_request_run in Hp, Hv. cbn [fst snd pr_world pr_defaults pr_versions] in Hp, Hv.
  set (c1 := set_owner claims (set_payload p c)) in *.
  pose proof (rows_ValidateCloudProvider c1 w1) as R2. destruct (ValidateCloudProvider_ok c1 w1 Hp) as [Hpl Hsi].
  apply validated_cons_inv in Hv as [Hz Hv]. cbn [fst snd] in Hz, Hv.
  exists claims. eexists. split; [done|]. split; [exact Hv|]. cbn [fst snd]. split_and!; [done| | | |done].
  - unfold process_rows. cbn [pr_world]. by etransitivity.
  - split_and!; [|by apply name_re_spec|done|].
    + revert Ha. unfold ValidateAsyncEnabled. destruct (decide (rq_Query r "async" = "true")) as [->|E]; [done|].
      by rewrite bool_decide_eq_true_2.
    + revert Hz. unfold ValidateMultiAZEnabled. by destruct (cp_MultiAz p).
  - exact Hu.
Qed.

(** ** Creation *)

Lemma rows_telemetry Q `{!PreOrder Q} ctx x isAdmin err :
  preserves (on_rows Q) (RegisterTenant (ac_telemetry conf) ctx x) /\
  preserves (on_rows Q) (TrackCreationRequested (ac_telemetry conf) ctx (cr_ID x) isAdmin err) /\
  preserves (on_rows Q) (TrackDeletionRequested (ac_telemetry conf) ctx (cr_ID x) isAdmin err).
Proof. unfold RegisterTenant, TrackCreationRequested, TrackDeletionRequested. split_and!; preserves_tac. Qed.

(** The action: a registration, and telemetry after it. *)
Lemma create_action_run r isAdmin (s : cstate) :
  let reg := RegisterDinosaurJob (ac_service conf) s.2.2 (pr_world s.1) in
  let out := create_action conf r isAdmin s in
  on_rows eq reg.1 (pr_world out.1.1) /\
  out.2 = match reg.2.2 with Some e => Err e | None => Ok (PresentCentralRequest reg.2.1) end.
Proof.
  cbv zeta. unfold create_action. rewrite prog_bind_run. unfold local. cbn [fst snd]. rewrite prog_bind_run.
  set (m := RegisterDinosaurJob _ _). destruct (on_world_run m s) as [-> ->]. rewrite prog_bind_run. cbn [fst snd].
  unfold assign. cbn [fst snd]. set (x := (m (pr_world s.1)).2). set (s1 := (_, _) : cstate). rewrite prog_bind_run.
  set (t := if isAdmin || _ then _ else _ : prog cstate unit).
  assert (handler_rows eq s1 (t s1).1) as Ht.
  { assert (preserves (handler_rows eq) t) as Hp; [|apply Hp].
    unfold t. destruct (isAdmin || _); [|preserves_tac].
    destruct (rows_telemetry eq (ctx_of conf r) x.1 isAdmin (AsError x.2)) as (? & ? & _).
    apply preserves_bind; [apply _|by apply handler_on_world|intros _; by apply handler_on_world]. }
  unfold handler_rows, process_rows in Ht. destruct (x.2) as [e|]; split; try done; exact Ht.
Qed.

(** What an accepted creation has done. *)
Definition created (r : http_request) (payload : CentralRequestPayload) (w w' : world) (b : PublicCentral)
    (internal : bool) (central scanner : option string) : Prop :=
  exists claims x,
    ctx_claims (ctx_of conf r) = Ok claims /\ well_formed r payload /\
    name_free (ctx_of conf r) (cp_Name payload) w /\
    centrals w !! cr_ID x = None /\ centrals w' = <[cr_ID x := x]> (centrals w) /\
    cr_Status x = CentralRequestStatusAccepted /\ cr_Name x = cp_Name payload /\ cr_MultiAZ x = true /\
    cr_Owner x = cl_username claims /\ cr_OrganisationID x = cl_orgID claims /\
    cr_CloudAccountID x = cp_CloudAccountId payload /\ cr_Internal x = internal /\
    cr_Central x = central /\ cr_Scanner x = scanner /\
    placed (set_payload payload zero_CentralRequest) x /\ b = PresentCentralRequest x.

(** A registration of what the validators have built. *)
Lemma registered_created r claims payload c0 c w w1 w' b internal central scanner :
  ctx_claims (ctx_of conf r) = Ok claims -> well_formed r payload -> name_free (ctx_of conf r) (cp_Name payload) w ->
  requested claims payload zero_CentralRequest c0 ->
  c = set_Internal internal (set_Scanner scanner (set_Central central c0)) ->
  centrals w1 = centrals w ->
  let reg := RegisterDinosaurJob (ac_service conf) c w1 in
  centrals w' = centrals reg.1 -> reg.2.2 = None -> b = PresentCentralRequest reg.2.1 ->
  created r payload w w' b internal central scanner.
Proof.
  intros Hc Hwf Hfree [Hpl Hsi] -> Ew reg Ew' Hok ->. pose proof (registration (ac_service conf)
    (set_Internal internal (set_Scanner scanner (set_Central central c0))) w1) as Hreg.
  fold reg in Hreg. unfold registered in Hreg. rewrite Hok in Hreg.
  destruct Hreg as (x & cl & Hx & _ & Hnone & Hins & Hst & Hrf & _). rewrite Ew in Hnone, Hins.
  destruct Hsi as (pv & g & ->). unfold request_fields in Hrf. injection Hrf. intros.
  exists claims, x. split_and!; try done; try congruence.
  - simpl in *. destruct Hwf as (_ & _ & _ & Hmz). congruence.
  - destruct Hpl as (Hpl1 & Hpl2 & Hpl3). simpl in *.
    split_and!; simpl; [intros Hne; specialize (Hpl1 Hne); congruence|intros Hne; specialize (Hpl2 Hne); congruence|].
    destruct Hpl3 as (a & b' & t & ? & ? & ? & ? & ? & ?). exists a, b', t. split_and!; try done; try congruence.
Qed.

(** Decoding and validating leave the centrals alone. *)
Lemma decode_payload_rows body : preserves (handler_rows eq) (@decode_payload _ _ V body).
Proof. unfold decode_payload. preserves_tac. Qed.

Lemma of_payload_rows f : preserves (handler_rows eq) (@of_payload _ _ V f).
Proof. unfold of_payload. preserves_tac. Qed.

Lemma on_request_rows m :
  (forall p c, preserves (on_rows eq) (m p c)) -> preserves (handler_rows eq) (@on_request _ _ V m).
Proof. intros Hm. unfold on_request. preserves_tac. Qed.

Lemma create_validators_rows r : Forall (preserves (handler_rows eq)) (@create_validators _ _ V conf cap sql_eval r).
Proof.
  unfold create_validators. pose proof of_payload_rows. pose proof rows_NameIsUnique. pose proof rows_ValidateCloudProvider.
  repeat (constructor; [first [by auto | apply on_request_rows; intros; first [by auto | preserves_tac] | preserves_tac]|]).
  constructor.
Qed.

(** A creation, whatever the validators [vs] of the handler and what it does to the
    request [f] before the action: the answer comes from a registration of a request
    that passed the validators, or the centrals are as before. *)
Lemma create_cases (body : CentralRequestPayload -> result error CentralRequestPayload) r vs (pre : prog cstate unit)
    isAdmin (s : cstate) :
  Forall (preserves (handler_rows eq)) vs -> preserves (handler_rows eq) pre ->
  let out := Handle (mkHandlerConfig (Some (decode_payload body)) (create_validators conf cap sql_eval r ++ vs)%list
    (_ ← pre; create_action conf r isAdmin)) StatusAccepted s in
  match out.2 with
  | RJson status b => status = StatusAccepted /\ exists payload claims s1 s2,
      body s.2.1 = Ok payload /\ ctx_claims (ctx_of conf r) = Ok claims /\ well_formed r payload /\
      name_free (ctx_of conf r) (cp_Name payload) (pr_world s.1) /\ requested claims payload s.2.2 s1.2.2 /\
      s1.2.1 = payload /\ validated vs s1 s2 /\ centrals (pr_world (pre s2).1.1) = centrals (pr_world s.1) /\
      let reg := RegisterDinosaurJob (ac_service conf) (pre s2).1.2.2 (pr_world (pre s2).1.1) in
      centrals (pr_world out.1.1) = centrals reg.1 /\ reg.2.2 = None /\ b = PresentCentralRequest reg.2.1
  | RError _ => centrals (pr_world out.1.1) = centrals (pr_world s.1)
  | RPanic => False
  end.
Proof.
  intros Hvs Hpre. cbv zeta. unfold Handle. cbn [hc_MarshalInto]. rewrite prog_bind_run.
  pose proof (decode_payload_rows body s) as Hd.
  assert ((decode_payload body s) = match body s.2.1 with
     | Err err => (s, Some err) | Ok payload => ((s.1, (payload, s.2.2)), None) end) as Ed.
  { unfold decode_payload. rewrite prog_bind_run. unfold local. simpl. by destruct (body s.2.1). }
  rewrite Ed in Hd |- *. destruct (body s.2.1) as [payload|err]; cbn [fst snd]; [|done].
  set (s0 := (s.1, (payload, s.2.2)) : cstate) in *.
  assert (Forall (preserves (handler_rows eq)) (create_validators conf cap sql_eval r ++ vs)) as Hall
    by (apply Forall_app; split; [apply create_validators_rows|done]).
  pose proof (run_action_cases (handler_rows eq) (mkHandlerConfig (Some (decode_payload body))
    (create_validators conf cap sql_eval r ++ vs)%list (_ ← pre; create_action conf r isAdmin)) StatusAccepted s0 Hall) as Hc.
  cbv zeta in Hc. cbn [hc_Validate hc_Action] in Hc. set (out := run_action _ _ s0) in *.
  destruct (out.2) as [e|st b|]; [| |done].
  - destruct Hc as [Hc|(s1 & Hs & Ha)]; [by apply rows_eq|]. rewrite prog_bind_run in Ha.
    destruct (create_action_run r isAdmin (pre s1).1) as [Hrows Hres]. rewrite Ha in Hrows, Hres. cbn [fst snd] in Hrows, Hres.
    set (reg := RegisterDinosaurJob _ _ _) in *. destruct (reg.2.2) as [e'|] eqn:He; [|done].
    pose proof (registration (ac_service conf) (pre s1).1.2.2 (pr_world (pre s1).1.1)) as Hreg. fold reg in Hreg.
    unfold registered in Hreg. rewrite He in Hreg. rewrite (rows_eq _ _ Hrows), Hreg, (rows_eq _ _ (Hpre s1)).
    by apply rows_eq.
  - destruct Hc as [-> (s2 & Hv & Hs & Ha)]. split; [done|]. rewrite prog_bind_run in Ha.
    destruct (create_action_run r isAdmin (pre s2).1) as [Hrows Hres]. rewrite Ha in Hrows, Hres. cbn [fst snd] in Hrows, Hres.
    set (reg := RegisterDinosaurJob _ _ _) in *. destruct (reg.2.2) eqn:He; [done|]. injection Hres as ->.
    apply create_validators_ok in Hv as (claims & s1 & Hcl & Hvs2 & Hp & Hr1 & Hwf & Hfree & Hreq).
    exists payload, claims, s1, s2. cbn [fst snd s0] in *. split_and!; try done.
    + rewrite (rows_eq _ _ (Hpre s2)). by apply rows_eq.
    + by apply rows_eq.
Qed.

(** C11. Creating a central through the public API.  The answer is 202 with the
    presented central only for a request that is asynchronous, names the central
    with a label of at most 32 bytes, asks for several zones and for no resources
    of its own, in a configured region of a configured provider (or their
    defaults), with the name free among the centrals that the request may see;
    exactly one row is then added, which belongs to the user of the token, and
    which is presented.  On any other answer the centrals are as before. *)
Theorem public_Create_spec body r (p : process V) :
  let out := public_Create conf cap sql_eval body r p in
  match out.2 with
  | RJson status b =>
      status = StatusAccepted /\ exists payload,
        body zero_payload = Ok payload /\
        validateCentralResourcesUnspecified payload = None /\ validateScannerResourcesUnspecified payload = None /\
        created r payload (pr_world p) (pr_world out.1) b
          (bool_decide (rq_UserAgent r ∈ ac_InternalUserAgents conf)) None None
  | RError _ => centrals (pr_world out.1) = centrals (pr_world p)
  | RPanic => False
  end.
Proof.
  cbv zeta. unfold public_Create. rewrite run_locals_run. set (internal := bool_decide _).
  set (pre := (if internal then _ else _) : prog cstate unit). set (s := (p, _)). cbn [fst snd].
  assert (preserves (handler_rows eq) pre) as Hpre by (unfold pre; preserves_tac).
  pose proof (create_cases body r [of_payload validateCentralResourcesUnspecified; of_payload validateScannerResourcesUnspecified]
    pre false s ltac:(repeat constructor; apply of_payload_rows) Hpre) as Hc. cbv zeta in Hc.
  set (out := Handle (S:=cstate) (R:=PublicCentral) _ _ s) in *. destruct (out.2) as [e|st b|]; [done| |done].
  destruct Hc as [-> (payload & claims & s1 & s2 & Hb & Hcl & Hwf & Hfree & Hreq & Hp & Hv & Hrows & Hw & Hok & ->)].
  split; [done|]. exists payload. unfold of_payload, local in Hv.
  apply validated_cons_inv in Hv as [Hv1 Hv]. apply validated_cons_inv in Hv as [Hv2 Hv]. inversion Hv; subst.
  cbn [fst snd] in Hv1, Hv2, Hv. split_and!; [done..|].
  eapply (registered_created r claims _ (s1.2.2) _ _ _ _ _ internal None None Hcl Hwf Hfree Hreq); [|exact Hrows|exact Hw|exact Hok|done].
  unfold pre. destruct Hreq as [_ (pv & g & E)].
  destruct internal; unfold assign; cbn [mret prog_ret fst snd]; by rewrite E.
Qed.

Lemma ValidateCentralSpec_ok payload c :
  (ValidateCentralSpec payload c).2 = None ->
  (ValidateCentralSpec payload c).1 = set_Central (Some (encode_payload_central (cp_Central payload))) c.
Proof.
  unfold ValidateCentralSpec. destruct (validateResourceList _ _); [done|]. destruct (validateResourceList _ _); [done|].
  by destruct (decode_CentralSpec _).2.
Qed.

Lemma ValidateScannerSpec_ok payload c :
  (ValidateScannerSpec payload c).2 = None ->
  (ValidateScannerSpec payload c).1 = set_Scanner (Some (encode_payload_scanner (cp_Scanner payload))) c.
Proof.
  unfold ValidateScannerSpec. do 2 (destruct (validateResourceList _ _); [done|]). destruct (_ && _); [done|].
  do 2 (destruct (validateResourceList _ _); [done|]). by destruct (decode_ScannerSpec _).2.
Qed.

(** Creating a central as an administrator: as for users, with the specs of the
    payload, which starts from the shared defaults, stored with the row. *)
Lemma admin_Create_spec body r (p : process V) :
  let out := admin_Create conf service cap sql_eval body r p in
  match out.2 with
  | RJson status b =>
      status = StatusAccepted /\ exists payload,
        body (default_payload service p) = Ok payload /\
        created r payload (pr_world p) (pr_world out.1) b false
          (Some (encode_payload_central (cp_Central payload))) (Some (encode_payload_scanner (cp_Scanner payload)))
  | RError _ => centrals (pr_world out.1) = centrals (pr_world p)
  | RPanic => False
  end.
Proof.
  cbv zeta. unfold admin_Create. rewrite run_locals_run. set (s := (p, _)). cbn [fst snd].
  pose proof (create_cases body r [on_request (fun p c => mret (ValidateCentralSpec p c)); on_request (fun p c => mret (ValidateScannerSpec p c))]
    (mret tt) true s ltac:(repeat constructor; apply on_request_rows; intros; preserves_tac) ltac:(preserves_tac)) as Hc. cbv zeta in Hc.
  set (out := Handle (S:=cstate) (R:=PublicCentral) _ _ s) in Hc. change (Handle _ _ _) with out.
  destruct (out.2) as [e|st b|]; [done| |done].
  destruct Hc as [-> (payload & claims & s1 & s2 & Hb & Hcl & Hwf & Hfree & Hreq & Hp & Hv & Hrows & Hw & Hok & ->)].
  split; [done|]. exists payload. split; [done|].
  apply validated_cons_inv in Hv as [Hv1 Hv]. rewrite on_request_run in Hv1, Hv. cbn [fst snd mret prog_ret] in Hv1, Hv.
  apply validated_cons_inv in Hv as [Hv2 Hv]. rewrite on_request_run in Hv2, Hv. cbn [fst snd mret prog_ret] in Hv2, Hv.
  inversion Hv; subst s2. cbn [fst snd mret prog_ret pr_world] in *.
  eapply (registered_created r claims _ (s1.2.2) _ _ _ _ _ false _ _ Hcl Hwf Hfree Hreq); [|exact Hrows|exact Hw|exact Hok|done].
  rewrite ValidateScannerSpec_ok, ValidateCentralSpec_ok by done. rewrite Hp. destruct Hreq as [_ (pv & g & ->)]. done.
Qed.

(** ** Organisations *)

Section organisations.
Context (VerifyIssuer : ACSClaims -> string -> bool) (routes : RouteConfig).
Abbreviation names := (ac_claims conf).
Abbreviation route := (centrals_route names VerifyIssuer routes).

(** A live central of the organisation that the token of [r] names. *)
Definition own_central (r : http_request) (p : process V) (x : CentralRequest) : Prop :=
  exists c, rq_Claims r = Ok c /\ or_empty (GetOrgID names c) <> "" /\
    centrals (pr_world p) !! cr_ID x = Some x /\ cr_OrganisationID x = or_empty (GetOrgID names c).

Lemma visible_own r r' (p : process V) x :
  rq_IsAdmin r = false -> user_request names VerifyIssuer routes r r' ->
  centrals (pr_world p) !! cr_ID x = Some x -> visible_to (ctx_of conf r') x -> own_central r p x.
Proof.
  intros Ha (-> & c & Hc & Ho & _) Hx (claims & Hcl & Hv). unfold ctx_of, request_ctx in Hcl, Hv. simpl in Hcl, Hv.
  rewrite Hc in Hcl. injection Hcl as <-. rewrite Ha in Hv. destruct Hv as [?|[_ Hv]]; [done|]. exists c. by split_and!.
Qed.

Lemma public_Get_ok r (p : process V) status b :
  (public_Get conf r p).2 = RJson status b ->
  exists x, (Get (ctx_of conf r) (rq_Vars r "id") (pr_world p)).2 = Ok x /\ b = PresentCentralRequest x.
Proof.
  unfold public_Get, HandleGet. rewrite run_locals_run, run_action_plain. cbn [fst snd]. rewrite prog_bind_run. cbn [mret prog_ret fst snd].
  set (m := Get _ _). destruct (on_world_run (L:=unit) m (p, tt)) as [_ ->]. cbn [fst snd].
  destruct ((m (pr_world p)).2) as [x|]; [|done]. intros [= _ <-]. by exists x.
Qed.

Lemma public_List_ok r (p : process V) status b :
  (public_List conf cap sql_eval r p).2 = RJson status b ->
  exists la l pm, (ListCentrals cap sql_eval (ctx_of conf r) la (pr_world p)).2 = Ok (l, pm) /\
    al_Items b = PresentCentralRequest <$> l.
Proof.
  unfold public_List, HandleList, list_action. rewrite run_locals_run, run_action_plain. cbn [fst snd].
  destruct (list_arguments r) as [la|]; [|done]. rewrite prog_bind_run. cbn [mret prog_ret fst snd].
  set (m := ListCentrals _ _ _ _). destruct (on_world_run (L:=unit) m (p, tt)) as [_ ->]. cbn [fst snd].
  destruct ((m (pr_world p)).2) as [[l pm]|] eqn:E; [|done]. intros [= _ <-]. by exists la, l, pm.
Qed.

(** A deletion is a registration of the deletion of a central the request may see,
    or it leaves the centrals alone. *)
Lemma public_Delete_run r (p : process V) :
  let id := rq_Vars r "id" in
  let w := pr_world p in
  let w' := pr_world (public_Delete conf r p).1 in
  centrals w' = centrals w \/
  exists x w1, (Get (ctx_of conf r) id w).2 = Ok x /\ on_rows eq w w1 /\
    on_rows eq (RegisterDinosaurDeprovisionJob (ctx_of conf r) id w1).1 w'.
Proof.
  cbv zeta. unfold public_Delete, HandleDelete. rewrite run_locals_run. set (s := (p, tt)). cbn [fst snd].
  unfold run_action. cbn [hc_Validate hc_Action run_validators]. rewrite !prog_bind_run. unfold reading. cbn [fst snd].
  destruct (ValidateAsyncEnabled _); [by left|]. cbn [mret prog_ret fst snd]. rewrite !prog_bind_run.
  set (m := Get _ _). destruct (on_world_run (L:=unit) m s) as [-> ->]. unfold s. cbn [fst snd].
  assert (on_rows eq (pr_world p) (m (pr_world p)).1) as Hm by (assert (preserves (on_rows eq) m) as Hp by (unfold m, Get; preserves_tac); apply Hp).
  destruct ((m (pr_world p)).2) as [x|e] eqn:E; [|left; exact (rows_eq _ _ Hm)]. right. exists x, (m (pr_world p)).1.
  split_and!; [done|done|]. rewrite !prog_bind_run. set (m2 := RegisterDinosaurDeprovisionJob _ _).
  set (s1 := (mkProcess _ _ _, tt)). destruct (on_world_run (L:=unit) m2 s1) as [-> ->]. unfold s1. cbn [fst snd].
  set (s2 := (mkProcess _ _ _, tt)). set (err := (m2 _).2). set (t := if negb _ then _ else _).
  assert (handler_rows eq s2 (t s2).1) as Ht.
  { assert (preserves (handler_rows eq) t) as Hp; [|apply Hp]. unfold t. destruct (negb _); [|preserves_tac].
    apply handler_on_world. unfold TrackDeletionRequested. preserves_tac. }
  destruct err; exact Ht.
Qed.

(** C3. Users of the public API only reach the centrals of the organisation that
    their token names: what [Get] and [List] answer behind the middlewares of the
    route are live centrals of that organisation, and the only row that [Delete] can
    change is the one it names, if it belongs to the organisation and its caller
    administers the organisation or owns it. *)
Theorem public_routes_isolate r (p : process V) :
  rq_IsAdmin r = false ->
  (forall status b, (route (public_Get conf) r p).2 = RJson status b ->
     exists x, cr_ID x = rq_Vars r "id" /\ own_central r p x /\ b = PresentCentralRequest x) /\
  (forall status b, (route (public_List conf cap sql_eval) r p).2 = RJson status b ->
     Forall (fun item => exists x, own_central r p x /\ item = PresentCentralRequest x) (al_Items b)) /\
  (forall k, centrals (pr_world (route (public_Delete conf) r p).1) !! k <> centrals (pr_world p) !! k ->
     exists x c, k = rq_Vars r "id" /\ cr_ID x = k /\ own_central r p x /\ rq_Claims r = Ok c /\
       (IsOrgAdmin names c = true \/ cr_Owner x = or_empty (GetUsername names c))).
Proof.
  intros Ha. split_and!.
  - intros status b. destruct (centrals_route_run names VerifyIssuer routes (public_Get conf) r p) as [[e ->]|(r' & Hu & ->)];
      [done|]. intros (x & Hx & ->)%public_Get_ok. apply Get_ok in Hx as (Hid & Hx & Hv). destruct Hu as [-> Hu].
    exists x. split_and!; [done| |done]. eapply visible_own; [done|by split|by rewrite Hid|done].
  - intros status b. destruct (centrals_route_run names VerifyIssuer routes (public_List conf cap sql_eval) r p)
      as [[e ->]|(r' & Hu & ->)]; [done|]. intros (la & l & pm & Hl & ->)%public_List_ok.
    apply Forall_forall. intros item (x & -> & Hx)%list_elem_of_fmap. exists x. split; [|done].
    destruct (ListCentrals_ok _ _ _ _ _ _ _ _ Hl Hx). by eapply visible_own.
  - intros k. destruct (centrals_route_run names VerifyIssuer routes (public_Delete conf) r p) as [[e ->]|(r' & Hu & ->)];
      [done|]. intros Hk. destruct Hu as [Er Hu].
    destruct (public_Delete_run r' p) as [E|(x & w1 & Hx & E1 & E2)]; [destruct Hk; by rewrite E|].
    rewrite (rows_eq _ _ E2), <- (rows_eq _ _ E1) in Hk.
    apply RegisterDinosaurDeprovisionJob_authorised in Hk as (-> & y & Hy & claims & Hcl & Hm).
    apply Get_ok in Hx as (Hid & Hx & Hv). rewrite (rows_eq _ _ E1), Hx in Hy. injection Hy as <-.
    subst r'. pose proof Hu as (c & Hc & _). exists x, c.
    split_and!; [done|done|eapply visible_own; [done|by split|by rewrite Hid|done]|done|].
    unfold ctx_of, request_ctx in Hcl, Hm. simpl in Hcl, Hm. rewrite Hc in Hcl. injection Hcl as <-. rewrite Ha in Hm.
    simpl in Hm. destruct (IsOrgAdmin names c); auto.
Qed.
End organisations.

(** ** The default version cannot be set through the API *)

(** No request to set the default version of centrals succeeds: the validator is
    built with the version of the variable before the body is decoded into it, so
    that it always refuses the empty version, whatever the body; the answer is 400 and
    the table of versions is as before. *)
Theorem SetCentralDefaultVersion_refused body r (p : process V) :
  let out := admin_SetCentralDefaultVersion body r p in
  exists e, out.2 = RError e /\ HTTPCode e = 400 /\ pr_versions out.1 = pr_versions p.
Proof.
  cbv zeta. unfold admin_SetCentralDefaultVersion. rewrite run_locals_run. unfold Handle. cbn [hc_MarshalInto fst snd].
  rewrite !prog_bind_run. unfold local. cbn [fst snd].
  destruct (body "") as [v|e]; eexists; (split; [reflexivity|]); split; reflexivity.
Qed.
End api.

(** ** Runs on the concrete platform *)

(** One region, one cluster, nobody registered for standard instances. *)
Definition sample_api : ApiConfig :=
  mkApiConfig sample_config
    (mkProviderConfig [mkProvider "aws" true [mkRegion "us-east-1" true {[EVAL := mkInstanceTypeConfig None]}]])
    ["probe"] true default_claims "" "" (mkObservability "" "" "" "").

Definition multi_az_cluster : Cluster := set_cl_MultiAZ true (ready_cluster "k1" "c1").

Definition sample_process : @process mem_platform _ (list string) :=
  mkProcess (mem_world two_centrals [multi_az_cluster]) (init_defaults sample_defaults) [].

Definition user_claims (username org : string) : ACSClaims :=
  {["username" := CString username; "org_id" := CString org; "user_id" := CString "u1"]}.

Definition sample_request (meth username org id : string) : http_request :=
  mkRequest meth (Ok (user_claims username org)) false false
    (fun k => if bool_decide (k = "async") then "true" else "") (fun _ => id) "curl".

Definition sample_body (p : CentralRequestPayload) : result error CentralRequestPayload :=
  Ok (mkPayload "" "" true "rhacs" "" (cp_Central p) (cp_Scanner p)).

Definition sample_eval (query : string) (values : list string) (x : CentralRequest) : bool :=
  bool_decide (values = [cr_Name x]).

(** A creation that is accepted. *)
Lemma public_Create_spec_witness :
  let r := sample_request "POST" "carol" "org-1" "" in
  let out := public_Create sample_api (fun n => n) sample_eval sample_body r sample_process in
  exists payload b, out.2 = RJson StatusAccepted b /\ sample_body zero_payload = Ok payload /\
    created sample_api sample_eval r payload (pr_world sample_process) (pr_world out.1) b false None None.
Proof.
  intros r out. pose proof (public_Create_spec sample_api (fun n => n) sample_eval sample_body r sample_process) as Hs.
  cbv zeta in Hs. fold out in Hs.
  assert (match out.2 with RJson _ _ => true | _ => false end = true) as Hok by (vm_compute; reflexivity).
  destruct (out.2) as [e|st b|]; [discriminate Hok| |discriminate Hok].
  destruct Hs as [-> (payload & Hb & _ & _ & Hc)]. exists payload, b. split; [reflexivity|]. split; [exact Hb|exact Hc].
Defined.

(** ** Runs through the routes *)

Definition sample_issuer (c : ACSClaims) (issuer : string) : bool := bool_decide (issuer = "sso").

Definition sample_routes : RouteConfig :=
  mkRouteConfig ["sso"] "sso" "sso" true (mkACL ["mallory"] true) ["fleetshard"] [mkRolesConfiguration "GET" ["admin"]].

(** Alice gets and deletes the central of her organisation. *)
Lemma public_routes_isolate_witness :
  let a := set_InstanceType EVAL (sample_central "a" CentralRequestStatusReady "alice" "org-1") in
  let r := sample_request "GET" "alice" "org-1" "a" in
  own_central sample_api r sample_process a /\
  exists x c, cr_ID x = "a" /\ own_central sample_api r sample_process x /\ rq_Claims r = Ok c /\
    (IsOrgAdmin default_claims c = true \/ cr_Owner x = or_empty (GetUsername default_claims c)).
Proof.
  intros a r. destruct (public_routes_isolate sample_api (fun n => n) sample_eval sample_issuer sample_routes r sample_process eq_refl)
    as (Hget & _ & Hdelete).
  split.
  - assert ((centrals_route default_claims sample_issuer sample_routes (public_Get sample_api) r sample_process).2 =
      RJson StatusOK (PresentCentralRequest a)) as E by (vm_compute; reflexivity).
    destruct (Hget _ _ E) as (x & Hid & Hx & _). pose proof Hx as (c & _ & _ & Hrow & _).
    rewrite Hid in Hrow. vm_compute in Hrow. assert (x = a) as Ea by (vm_compute; congruence).
    rewrite Ea in Hx. exact Hx.
  - destruct (Hdelete "a") as (x & c & _ & Hid & Hrest); [vm_compute; discriminate|]. exists x, c. split; [exact Hid|exact Hrest].
Defined.

Definition no_cache (username : string) : prog unit (option bool) := mret None.
Definition keep_cache (username : string) (b : bool) : prog unit unit := mret tt.
Definition accepted_terms (username : string) : prog unit (result error bool) := mret (Ok false).
Definition quiet_log (r : http_request) (username : string) : prog unit (option error) := mret None.
Definition quiet_status (code : option Z) : prog unit (option error) := mret None.
Definition answer_user (r : http_request) : prog unit (response bool) := mret (RJson StatusOK (rq_IsAdmin r)).

