(* ===== verification/Workers.v ===== *)
(** * The workers of the control plane

    internal/dinosaur/pkg/workers/dinosaurmgrs: the managers that move the
    centrals through their lifecycle.  A [Reconcile] lists the rows it is
    responsible for and handles one after the other; an error is collected and
    the loop goes on.  The managers hold pointers to the structs they have read;
    an operation that assigns to such a struct before it writes it back builds
    the struct it writes. *)

From S2P Require Import Prelude GoString GoFmt ServiceErrors CentralRequest Store Versions.
From S2P Require Import ClusterTypes World MemPlatform Config Quota Namespace ClusterService CentralService CentralProps.
From S2P Require Import Auth.
Local Open Scope string_scope.
Local Open Scope Z_scope.

Definition oidcProviderCallbackPath : string := "/sso/providers/oidc/callback".
Definition dynamicClientsNameMaxLength : Z := 50.

(** One iteration of a loop: it is done, maybe with an error to collect, or it
    dereferences a nil pointer and the process panics. *)
Inductive outcome := Done (e : option error) | Panicked.

(** The collected errors, and whether the loop ended in a panic. *)
Fixpoint forM_outcomes {W A} (xs : list A) (f : A -> prog W outcome) : prog W (list error * bool) :=
  match xs with
  | [] => mret ([], false)
  | x :: xs =>
      o ← f x;
      match o with
      | Panicked => mret ([], true)
      | Done e => r ← forM_outcomes xs f; mret (option_list e ++ r.1, r.2)%list
      end
  end.

Section workers.
Context `{Platform} (conf : ServiceConfig).

(** [errors.Wrapf] of a service error *)
Definition wrapped (err : ServiceError) (msg : string) (values : list fmt_arg) : error :=
  EWrap (Sprintf msg values) (EService err).

(** A list of rows, or the error to collect and no row. *)
Definition listed (r : result ServiceError (list CentralRequest)) (msg : string)
    : list CentralRequest * list error :=
  match r with Ok l => (l, []) | Err err => ([], [wrapped err msg []]) end.

Definition status_metric (status : string) (r : CentralRequest) : prog world unit :=
  d ← since (cr_CreatedAt r);
  emit (CentralRequestsStatusSinceCreated status (cr_ID r) (cr_ClusterID r) d).

(** ** timeout.go *)

Definition timed_out_reason : string :=
  "Creation time went over the timeout. Interrupting central initialization.".

Definition FailIfTimeoutExceeded (timeout : Z) (r : CentralRequest) : prog world (option error) :=
  n ← now;
  if cr_CreatedAt r <? n - timeout then
    let r := set_FailedReason timed_out_reason (set_Status CentralRequestStatusFailed r) in
    ru ← Update r;
    match ru with
    | Some err => mret (Some (wrapped err "failed to update timed out central %s" [VStr (cr_ID r)]))
    | None =>
        _ ← status_metric CentralRequestStatusFailed r;
        _ ← emit (CentralTimeout (cr_ID r) (cr_ClusterID r));
        mret (Some (ETraced (Sprintf "Central request timed out: %s" [VStr (cr_ID r)])))
    end
  else mret None.

Definition centralRequestTimeout : Z := cc_ExpirationTimeout (sc_central conf).

(** ** accepted_centrals_mgr.go *)

(** No operator version is ready on the cluster: retry for a while, then fail. *)
Definition no_operator_version (r : CentralRequest) (cause : option error) : prog world (option error) :=
  durationSinceCreation ← since (cr_CreatedAt r);
  if durationSinceCreation <? AcceptedCentralMaxRetryDuration then mret None
  else
    let msg := Sprintf "failed to get desired central operator version %s" [VStr (cr_ID r)] in
    let err := match cause with Some err => EWrap msg err | None => ETraced msg end in
    let r := set_FailedReason (Error err) (set_Status CentralRequestStatusFailed r) in
    ru ← Update r;
    match ru with
    | Some err2 => mret (Some (wrapped err2 "failed to update failed central %s" [VStr (cr_ID r)]))
    | None => mret (Some err)
    end.

Definition reconcileAcceptedCentral (r : CentralRequest) : prog world (option error) :=
  rt ← FailIfTimeoutExceeded centralRequestTimeout r;
  match rt with
  | Some err => mret (Some err)
  | None =>
      rc ← FindCluster r;
      match rc with
      | Err err => mret (Some (EWrap (Sprintf "failed to find cluster for central request %s" [VStr (cr_ID r)]) err))
      | Ok None => mret None
      | Ok (Some cluster) =>
          let r := set_ClusterID (cl_ClusterID cluster) r in
          match GetAvailableAndReadyCentralOperatorVersions cluster with
          | Err err => no_operator_version r (Some err)
          | Ok ready =>
              match last ready with
              | None => no_operator_version r None
              | Some selected =>
                  let r := set_DesiredCentralOperatorVersion (ov_Version selected) r in
                  match last (ov_CentralVersions selected) with
                  | None => mret (Some (EPlain (Sprintf "failed to get Central version %s" [VStr (cr_ID r)])))
                  | Some v =>
                      let r := set_DesiredCentralVersion (cv_Version v) r in
                      ra ← AcceptCentralRequest conf r;
                      match ra with
                      | Some err => mret (Some (wrapped err "failed to accept Central %s with cluster details"
                          [VStr (cr_ID r)]))
                      | None => mret None
                      end
                  end
              end
          end
      end
  end.

Definition accepted_Reconcile : prog world (list error) :=
  rl ← ListByStatus [CentralRequestStatusAccepted];
  let '(l, errs) := listed rl "failed to list accepted centrals" in
  es ← forM_errs l (fun r =>
         _ ← status_metric CentralRequestStatusAccepted r;
         re ← reconcileAcceptedCentral r;
         mret ((fun err => EWrap (Sprintf "failed to reconcile accepted central %s" [VStr (cr_ID r)]) err) <$> re));
  mret (errs ++ es)%list.

(** ** preparing_dinosaurs_mgr.go *)

Definition handleDinosaurRequestCreationError (r : CentralRequest) (err : ServiceError) : prog world (option error) :=
  let failed := set_FailedReason (Reason err) (set_Status CentralRequestStatusFailed r) in
  let unprovisioned : prog world (option error) :=
    mret (Some (wrapped err "failed to provision central %s on cluster %s" [VStr (cr_ID r); VStr (cr_ClusterID r)])) in
  if IsServerErrorClass err then
    durationSinceCreation ← since (cr_CreatedAt r);
    if CentralMaxDurationWithProvisioningErrs <? durationSinceCreation then
      _ ← emit (CentralTotalOperations CentralOperationCreate);
      ru ← Update failed;
      match ru with
      | Some updateErr => mret (Some (wrapped updateErr
          "Failed to update central %s in failed state. Central failed reason %s"
          [VStr (cr_ID r); VStr (Reason err)]))
      | None =>
          _ ← status_metric CentralRequestStatusFailed failed;
          mret (Some (wrapped err "Central %s is in server error failed state. Maximum attempts has been reached"
            [VStr (cr_ID r)]))
      end
    else unprovisioned
  else if IsClientErrorClass err then
    _ ← emit (CentralTotalOperations CentralOperationCreate);
    ru ← Update failed;
    match ru with
    | Some _ => mret (Some (wrapped err "Failed to update central %s in failed state" [VStr (cr_ID r)]))
    | None =>
        _ ← status_metric CentralRequestStatusFailed failed;
        mret (Some (wrapped err "error creating central %s" [VStr (cr_ID r)]))
    end
  else unprovisioned.

Definition reconcilePreparingDinosaur (r : CentralRequest) : prog world (option error) :=
  rt ← FailIfTimeoutExceeded centralRequestTimeout r;
  match rt with
  | Some err => mret (Some err)
  | None =>
      rp ← PrepareDinosaurRequest r;
      match rp with
      | Some err => handleDinosaurRequestCreationError r err
      | None => mret None
      end
  end.

Definition preparing_Reconcile : prog world (list error) :=
  rl ← ListByStatus [CentralRequestStatusPreparing];
  let '(l, errs) := listed rl "failed to list preparing centrals" in
  es ← forM_errs l (fun r =>
         _ ← status_metric CentralRequestStatusPreparing r;
         re ← reconcilePreparingDinosaur r;
         mret ((fun err => EWrap (Sprintf "failed to reconcile preparing central %s" [VStr (cr_ID r)]) err) <$> re));
  mret (errs ++ es)%list.

(** ** provisioning_dinosaurs_mgr.go and ready_dinosaurs_mgr.go *)

Definition provisioning_Reconcile : prog world (list error) :=
  rl ← ListByStatus [CentralRequestStatusProvisioning];
  let '(l, errs) := listed rl "failed to list provisioning centrals" in
  es ← forM_errs l (fun r =>
         rt ← FailIfTimeoutExceeded centralRequestTimeout r;
         match rt with
         | Some err => mret (Some err)
         | None => _ ← status_metric CentralRequestStatusProvisioning r; mret None
         end);
  mret (errs ++ es)%list.

Definition ready_Reconcile : prog world (list error) :=
  rl ← ListByStatus [CentralRequestStatusReady];
  mret (listed rl "failed to list ready centrals").2.

(** ** dinosaurs_auth_config_mgr.go *)

(** [stringutils.Truncate] is a function of the module github.com/stackrox/rox;
    the issuer is the [ValidIssuerURI] of the configured realm. *)
Definition augmentWithStaticAuthConfig (r : CentralRequest) : CentralRequest :=
  set_Issuer (cc_CentralIDPIssuer (sc_central conf))
    (set_ClientSecret (cc_CentralIDPClientSecret (sc_central conf))
      (set_ClientID (cc_CentralIDPClientID (sc_central conf)) r)).

Definition augmentWithDynamicAuthConfig (Truncate : string -> Z -> string) (validIssuerURI : string)
    (r : CentralRequest) : prog world (result error CentralRequest) :=
  let name := Truncate (Sprintf "acsms-%s" [VStr (cr_Name r)]) dynamicClientsNameMaxLength in
  let redirectURIs := [Sprintf "https://%s%s" [VStr (GetUIHost r); VStr oidcProviderCallbackPath]] in
  rc ← on_ext (CreateAcsClient name (cr_OrganisationID r) redirectURIs);
  match rc with
  | Err err => mret (Err (EWrap (Sprintf "failed to create RHSSO dynamic client for %s" [VStr (cr_ID r)]) err))
  | Ok (clientID, secret) => mret (Ok (set_Issuer validIssuerURI (set_ClientSecret secret (set_ClientID clientID r))))
  end.

Definition auth_reconcileCentralRequest (Truncate : string -> Z -> string) (validIssuerURI : string)
    (r : CentralRequest) : prog world (option error) :=
  ra ← (if HasStaticAuth (sc_central conf) then mret (Ok (augmentWithStaticAuthConfig r))
        else augmentWithDynamicAuthConfig Truncate validIssuerURI r);
  match ra with
  | Err err => mret (Some (EWrap "failed to augment central request with auth config" err))
  | Ok r =>
      let r := set_ClientOrigin (if HasStaticAuth (sc_central conf) then AuthConfigStaticClientOrigin
                                 else AuthConfigDynamicClientOrigin) r in
      ru ← Update r;
      match ru with
      | Some err => mret (Some (wrapped err "failed to update central request %s" [VStr (cr_ID r)]))
      | None => mret None
      end
  end.

Definition auth_Reconcile (Truncate : string -> Z -> string) (validIssuerURI : string) : prog world (list error) :=
  rl ← ListCentralsWithoutAuthConfig;
  let '(l, errs) := listed rl "failed to list centrals without auth config" in
  es ← forM_errs l (auth_reconcileCentralRequest Truncate validIssuerURI);
  mret (errs ++ es)%list.

(** ** dinosaurs_routes_cname_mgr.go *)

(** The struct with the outcome of the DNS request ([Ok None]: no usable answer,
    the central is skipped). *)
Definition cname_records (r : CentralRequest) : prog world (result outcome (option CentralRequest)) :=
  if cc_EnableCentralExternalCertificate (sc_central conf) then
    if bool_decide (cr_RoutesCreationID r = "") then
      rc ← ChangeDinosaurCNAMErecords conf r DinosaurRoutesActionCreate;
      match rc with
      | Err err => mret (Err (Done (Some (EService err))))
      | Ok (Some (Some (mkChangeInfo (Some id) (Some status)))) =>
          mret (Ok (Some (set_RoutesCreated (bool_decide (status = "INSYNC")) (set_RoutesCreationID id r))))
      | Ok _ => mret (Ok None)
      end
    else
      rs ← GetCNAMERecordStatus r;
      match rs with
      | Err err => mret (Err (Done (Some err)))
      | Ok (mkChangeInfo _ (Some status)) =>
          mret (Ok (Some (set_RoutesCreated (bool_decide (status = "INSYNC")) r)))
      | Ok (mkChangeInfo _ None) => mret (Err Panicked)
      end
  else mret (Ok (Some (set_RoutesCreated true r))).

Definition routes_reconcile (r : CentralRequest) : prog world outcome :=
  rc ← cname_records r;
  match rc with
  | Err o => mret o
  | Ok None => mret (Done None)
  | Ok (Some r) =>
      ru ← Update r;
      mret (Done (EService <$> ru))
  end.

Definition routes_Reconcile : prog world (list error * bool) :=
  rl ← ListDinosaursWithRoutesNotCreated;
  let '(l, errs) := listed rl "failed to list centrals whose routes are not created" in
  r ← forM_outcomes l routes_reconcile;
  mret (errs ++ r.1, r.2)%list.

(** ** deleting_dinosaurs_mgr.go *)

Definition delete_client (r : CentralRequest) : prog world outcome :=
  if bool_decide (cr_ClientOrigin r = AuthConfigStaticClientOrigin) then mret (Done None)
  else if bool_decide (cr_ClientOrigin r = AuthConfigDynamicClientOrigin) then
    rd ← on_ext (DeleteAcsClient (cr_ClientID r));
    match rd with
    | Ok _ => mret (Done None)
    | Err (None, _) => mret Panicked
    | Err (Some code, err) =>
        if code =? StatusNotFound then mret (Done None)
        else mret (Done (Some (EWrap (Sprintf "failed to delete dynamic OIDC client id %s for central %s"
          [VStr (cr_ClientID r); VStr (cr_ID r)]) err)))
    end
  else mret (Done None).

Definition reconcileDeletingDinosaurs (r : CentralRequest) : prog world outcome :=
  match GetQuotaService (sc_quota_list conf) (cr_QuotaType r) with
  | Err factoryErr => mret (Done (Some (EService factoryErr)))
  | Ok quotaService =>
      rq ← DeleteQuota quotaService (cr_SubscriptionID r);
      match rq with
      | Some err => mret (Done (Some (wrapped err "failed to delete subscription id %s for central %s"
          [VStr (cr_SubscriptionID r); VStr (cr_ID r)])))
      | None =>
          rc ← delete_client r;
          match rc with
          | Panicked => mret Panicked
          | Done (Some err) => mret (Done (Some err))
          | Done None =>
              rd ← Delete conf r false;
              match rd with
              | Some err => mret (Done (Some (wrapped err "failed to delete central %s" [VStr (cr_ID r)])))
              | None => mret (Done None)
              end
          end
      end
  end.

Definition deleting_Reconcile : prog world (list error * bool) :=
  rl ← ListByStatus [CentralRequestStatusDeleting];
  let '(deleting, errs) := listed rl "failed to list deleting central requests" in
  rp ← ListByStatus [CentralRequestStatusDeprovision];
  let '(deprovisioning, errs') := listed rp "failed to list central deprovisioning requests" in
  let unprovisioned := filter (fun r => cr_Host r = "") deprovisioning in
  r ← forM_outcomes (deleting ++ unprovisioned)%list (fun r =>
        o ← reconcileDeletingDinosaurs r;
        mret (match o with
              | Done (Some err) => Done (Some (EWrap (Sprintf "failed to reconcile deleting central request %s"
                  [VStr (cr_ID r)]) err))
              | o => o
              end));
  mret (errs ++ errs' ++ r.1, r.2)%list.

(** ** dinosaurs_mgr.go *)

Definition dinosaurMetricsStatuses : list string :=
  [CentralRequestStatusAccepted; CentralRequestStatusPreparing; CentralRequestStatusProvisioning;
   CentralRequestStatusReady; CentralRequestStatusDeprovision; CentralRequestStatusDeleting;
   CentralRequestStatusFailed].

Fixpoint emit_all (es : list metric) : prog world unit :=
  match es with [] => mret tt | e :: es => _ ← emit e; emit_all es end.

Definition setDinosaurStatusCountMetric : prog world (list error) :=
  rc ← CountByStatus dinosaurMetricsStatuses;
  match rc with
  | Err err => mret [EWrap "failed to count Centrals by status" err]
  | Ok counters => _ ← emit_all ((fun c => CentralRequestsStatusCount c.1 c.2) <$> counters); mret []
  end.

Definition setClusterStatusCapacityUsedMetric : prog world (list error) :=
  rc ← CountByRegionAndInstanceType;
  match rc with
  | Err err => mret [EWrap "failed to count Centrals by region" err]
  | Ok regions =>
      _ ← emit_all ((fun g => ClusterStatusCapacityUsed (nth 0 g.1 "") (nth 1 g.1 "") (nth 2 g.1 "") g.2) <$> regions);
      mret []
  end.

Definition reconcileDeniedDinosaurOwners (deniedUsers : list string) : prog world (option ServiceError) :=
  if (length deniedUsers <? 1)%nat then mret None else DeprovisionDinosaurForUsers deniedUsers.

Definition general_Reconcile (acl : AccessControlListConfig) : prog world (list error) :=
  e1 ← setDinosaurStatusCountMetric;
  e2 ← setClusterStatusCapacityUsedMetric;
  r3 ← (if acl_EnableDenyList acl then reconcileDeniedDinosaurOwners (acl_DenyList acl) else mret None);
  let e3 := (fun err => wrapped err "Failed to deprovision central for denied owners %s"
    [VStr ("[" +:+ Join " " (acl_DenyList acl) +:+ "]")]) <$> option_list r3 in
  r4 ← (if cc_EnableDeletionOfExpiredCentral (sc_central conf)
        then DeprovisionExpiredDinosaurs (cc_CentralLifespanInHours (sc_central conf)) else mret None);
  let e4 := (fun err => wrapped err "failed to deprovision expired Central instances" []) <$> option_list r4 in
  mret (e1 ++ e2 ++ e3 ++ e4)%list.
End workers.
