(* ===== verification/WorkersProps.v ===== *)
(** * The workers: theorems

    What each manager may do to the rows it handles, when it runs on its own. *)

From S2P Require Import Prelude GoString GoFmt ServiceErrors CentralRequest Store Versions.
From S2P Require Import ClusterTypes World MemPlatform Config Quota Namespace ClusterService CentralService CentralProps.
From S2P Require Import Workers.
Local Open Scope string_scope.
Local Open Scope Z_scope.

(** No central has the empty identifier (an update through a struct without an
    identifier would select every row). *)
Definition keyed_rows `{Platform} (w : world) : Prop := centrals w !! "" = None.

Lemma keyed_row `{PlatformLaws} w r : keyed_rows w -> centrals w !! cr_ID r = Some r -> cr_ID r <> "".
Proof. unfold keyed_rows. congruence. Qed.

(** ** Moves along the pipeline *)

(** [pipeline_kept] forgets the fields that the managers of the creation pipeline
    may set. *)
Definition pipeline_kept (x : CentralRequest) : CentralRequest :=
  set_Status "" (set_FailedReason "" (set_Routes None (set_ClusterID "" (set_Host "" (set_PlacementID ""
    (set_Namespace "" (set_OrganisationName "" (set_UpdatedAt 0 x)))))))).

Lemma merge_pipeline x r : pipeline_kept r = pipeline_kept x -> pipeline_kept (merge x r) = pipeline_kept x.
Proof.
  destruct x, r. unfold pipeline_kept, merge. simpl. intros [=]. subst.
  rewrite ?pick_string_same, ?pick_int_same, ?pick_bool_same, ?pick_option_same. reflexivity.
Qed.

(** From one status to one of several. *)
Definition moves (from : string) (tos : list string) (o o' : rowstate CentralRequest) : Prop :=
  o' = o \/ exists x x', o = Live x /\ o' = Live x' /\
    cr_Status x = from /\ cr_Status x' ∈ tos /\ pipeline_kept x' = pipeline_kept x.

Lemma moves_preorder from tos : from ∉ tos -> PreOrder (moves from tos).
Proof.
  intros Hn. split; [by left|]. intros o1 o2 o3 [->|(x & y & -> & -> & Hx & Hy & Hk)]; [done|].
  intros [->|(y' & z & [= <-] & -> & Hy' & _)]; [right; eauto 10|]. by rewrite Hy' in Hy.
Qed.

#[export] Instance accepted_moves_preorder :
  PreOrder (moves CentralRequestStatusAccepted [CentralRequestStatusPreparing; CentralRequestStatusFailed]).
Proof. apply moves_preorder. by apply (bool_decide_unpack _). Qed.

#[export] Instance preparing_moves_preorder :
  PreOrder (moves CentralRequestStatusPreparing [CentralRequestStatusProvisioning; CentralRequestStatusFailed]).
Proof. apply moves_preorder. by apply (bool_decide_unpack _). Qed.

#[export] Instance provisioning_moves_preorder :
  PreOrder (moves CentralRequestStatusProvisioning [CentralRequestStatusFailed]).
Proof. apply moves_preorder. by apply (bool_decide_unpack _). Qed.

(** The row after a write of the struct [r]. *)
Lemma moves_write from tos x r t :
  cr_Status x = from -> cr_Status r ∈ tos -> cr_Status r <> "" -> pipeline_kept (merge x r) = pipeline_kept x ->
  moves from tos (Live x) (Live (set_UpdatedAt t (merge x r))).
Proof.
  intros Hx Hr Hne Hk. right. eexists _, _. split_and!; [done..| |exact Hk].
  change (cr_Status (merge x r) ∈ tos). rewrite merge_Status, bool_decide_eq_false_2; done.
Qed.

Section pipeline.
Context `{PlatformLaws} (conf : ServiceConfig).

Lemma rows_status_metric Q `{!PreOrder Q} s r : preserves (on_rows Q) (status_metric s r).
Proof. unfold status_metric. preserves_tac. Qed.
#[local] Hint Resolve rows_status_metric : fleet.

Lemma at_row_Update Q `{!PreOrder Q} r w :
  cr_ID r <> "" ->
  (forall x t, centrals w !! cr_ID r = Some x -> ~ in_deletion x ->
     Q (Live x) (Live (set_UpdatedAt t (merge x r)))) ->
  at_row (cr_ID r) Q w (Update r w).1.
Proof.
  intros Hne Hq. unfold Update. apply bind_at; [done| |intros _; at_tac].
  apply at_row_update; [done|intros; apply merge_ID| |].
  - intros x [[?|?] _]%updatable_spec; done.
  - intros x t Hx [_ Hd]%updatable_spec. auto.
Qed.

Section central.
Context (from : string) (tos : list string) `{!PreOrder (moves from tos)} (r : CentralRequest).
Context (Hne : cr_ID r <> "") (Hs : cr_Status r = from).

(** Writing back the struct, with another status. *)
Lemma moves_Update r' w :
  centrals w !! cr_ID r = Some r -> cr_ID r' = cr_ID r -> cr_Status r' ∈ tos -> cr_Status r' <> "" ->
  pipeline_kept r' = pipeline_kept r ->
  at_row (cr_ID r) (moves from tos) w (Update r' w).1.
Proof.
  intros Hr Hid Ht Hn Hk. rewrite <- Hid in *. apply at_row_Update; [done..|]. intros x t Hx _.
  assert (x = r) as -> by congruence. apply moves_write; [done..|]. by apply merge_pipeline.
Qed.

Lemma moves_timeout timeout w :
  CentralRequestStatusFailed ∈ tos -> centrals w !! cr_ID r = Some r ->
  at_row (cr_ID r) (moves from tos) w (FailIfTimeoutExceeded timeout r w).1.
Proof.
  intros Hf Hr. unfold FailIfTimeoutExceeded. apply bind_at_read; [done|preserves_tac|intros w1 E1].
  destruct (_ <? _); [|reflexivity]. rewrite <- E1 in Hr.
  apply bind_at; [done|by apply moves_Update|intros _]. destruct ((Update _ w1).2); at_tac.
Qed.

(** Without an error the timeout check has changed nothing. *)
Lemma timeout_none timeout w :
  (FailIfTimeoutExceeded timeout r w).2 = None ->
  centrals (FailIfTimeoutExceeded timeout r w).1 = centrals w.
Proof.
  unfold FailIfTimeoutExceeded. rewrite prog_bind_run.
  assert (centrals (now w).1 = centrals w) as E by (apply frame_rows; preserves_tac).
  destruct (_ <? _); [|done]. rewrite prog_bind_run.
  destruct ((Update _ (now w).1).2); [done|]. by rewrite !prog_bind_run.
Qed.
End central.

(** ** The bodies of the loops *)

Abbreviation accepted_moves :=
  (moves CentralRequestStatusAccepted [CentralRequestStatusPreparing; CentralRequestStatusFailed]).
Abbreviation preparing_moves :=
  (moves CentralRequestStatusPreparing [CentralRequestStatusProvisioning; CentralRequestStatusFailed]).
Abbreviation provisioning_moves :=
  (moves CentralRequestStatusProvisioning [CentralRequestStatusFailed]).

(** The struct an accepting update writes has only the fields it sets. *)
Lemma moves_Accept r r' w :
  cr_ID r <> "" -> cr_ID r' = cr_ID r -> cr_Status r = CentralRequestStatusAccepted ->
  centrals w !! cr_ID r = Some r -> at_row (cr_ID r) accepted_moves w (AcceptCentralRequest conf r' w).1.
Proof.
  intros Hne Hid Hs Hr. unfold AcceptCentralRequest.
  destruct (FormatNamespace _ _) as [ns|e]; [|reflexivity].
  apply bind_at_read; [typeclasses eauto|preserves_tac|intros w1 E1].
  case_match; [|reflexivity].
  apply bind_at_read; [typeclasses eauto|preserves_tac|intros w2 E2].
  set (u := set_ID _ _). rewrite <- E1, <- E2 in Hr. assert (cr_ID u = cr_ID r) as Hu by done.
  apply bind_at; [typeclasses eauto| |intros _; destruct ((Update u w2).2); reflexivity].
  rewrite <- Hu. apply at_row_Update; [typeclasses eauto|congruence|]. intros x t Hx _.
  assert (x = r) as -> by congruence. apply moves_write; [done|by left|done|]. by destruct r.
Qed.

Lemma moves_no_operator r r' cause w :
  cr_ID r <> "" -> cr_ID r' = cr_ID r -> cr_Status r = CentralRequestStatusAccepted ->
  pipeline_kept r' = pipeline_kept r -> centrals w !! cr_ID r = Some r ->
  at_row (cr_ID r) accepted_moves w (no_operator_version r' cause w).1.
Proof.
  intros Hne Hid Hs Hk Hr. unfold no_operator_version.
  apply bind_at_read; [typeclasses eauto|preserves_tac|intros w1 E1]. rewrite <- E1 in Hr.
  destruct (_ <? _); [reflexivity|]. cbv zeta. set (r1 := set_FailedReason _ _).
  apply bind_at; [typeclasses eauto| |intros _; destruct ((Update r1 w1).2); reflexivity].
  apply (moves_Update CentralRequestStatusAccepted); 
    [typeclasses eauto|done|done|done|exact Hid|right; by left|done|exact Hk].
Qed.

Lemma moves_accepted r w :
  cr_ID r <> "" -> cr_Status r = CentralRequestStatusAccepted -> centrals w !! cr_ID r = Some r ->
  at_row (cr_ID r) accepted_moves w (reconcileAcceptedCentral conf r w).1.
Proof.
  intros Hne Hs Hr. unfold reconcileAcceptedCentral. set (t := FailIfTimeoutExceeded _ r).
  apply bind_at; [typeclasses eauto|apply moves_timeout; [typeclasses eauto|done|done|right; by left|done]|intros _].
  destruct ((t w).2) eqn:Ht; [reflexivity|]. apply timeout_none in Ht. fold t in Ht. rewrite <- Ht in Hr.
  apply bind_at_read; [typeclasses eauto|preserves_tac|intros w2 E2]. rewrite <- E2 in Hr.
  destruct ((FindCluster r (t w).1).2) as [[c|]|e]; [|reflexivity..]. cbv zeta.
  destruct (GetAvailableAndReadyCentralOperatorVersions c) as [ready|e]; [|by apply moves_no_operator].
  destruct (last ready) as [sel|]; [|by apply moves_no_operator].
  destruct (last (ov_CentralVersions sel)) as [v|]; [|reflexivity].
  apply bind_at; [typeclasses eauto|by apply moves_Accept|intros _].
  destruct ((AcceptCentralRequest _ _ w2).2); reflexivity.
Qed.

Lemma moves_Prepare r w :
  cr_ID r <> "" -> cr_Status r = CentralRequestStatusPreparing -> centrals w !! cr_ID r = Some r ->
  at_row (cr_ID r) preparing_moves w (PrepareDinosaurRequest r w).1.
Proof.
  intros Hne Hs Hr. unfold PrepareDinosaurRequest. case_bool_decide; [reflexivity|].
  apply bind_at_read; [typeclasses eauto|preserves_tac|intros w1 E1]. rewrite <- E1 in Hr.
  destruct ((on_ext _ w).2) as [[? name]|e]; [|reflexivity]. case_bool_decide; [reflexivity|].
  set (u := set_ID _ _). assert (cr_ID u = cr_ID r) as Hu by done.
  apply bind_at; [typeclasses eauto| |intros _; destruct ((Update u w1).2); reflexivity].
  rewrite <- Hu. apply at_row_Update; [typeclasses eauto|done|]. intros x t Hx _.
  assert (x = r) as -> by congruence. apply moves_write; [done|by left|done|]. by destruct r.
Qed.

(** A failed preparation has changed nothing. *)
Lemma Prepare_failed r w :
  (PrepareDinosaurRequest r w).2 <> None -> centrals (PrepareDinosaurRequest r w).1 = centrals w.
Proof.
  unfold PrepareDinosaurRequest. case_bool_decide; [done|]. rewrite prog_bind_run.
  assert (forall A (m : prog externals A), centrals (on_ext m w).1 = centrals w) as He
    by (intros A m; apply on_ext_run).
  destruct ((on_ext _ w).2) as [[? name]|e]; [|intros _; apply He]. case_bool_decide; [intros _; apply He|].
  rewrite prog_bind_run. destruct ((Update _ _).2) as [err|] eqn:Hu; [|done]. intros _.
  etransitivity; [by apply (Update_failed _ _ err)|apply He].
Qed.

Lemma moves_creation_error r err w :
  cr_ID r <> "" -> cr_Status r = CentralRequestStatusPreparing -> centrals w !! cr_ID r = Some r ->
  at_row (cr_ID r) preparing_moves w (handleDinosaurRequestCreationError r err w).1.
Proof.
  intros Hne Hs Hr. unfold handleDinosaurRequestCreationError. cbv zeta. set (r1 := set_FailedReason _ _).
  assert (forall w1 B (k : option ServiceError -> prog world B), centrals w1 = centrals w ->
    (forall o, preserves (on_rows eq) (k o)) -> at_row (cr_ID r) preparing_moves w1 ((Update r1 ≫= k) w1).1) as Hu.
  { intros w1 B k E1 Hk. apply bind_at; [typeclasses eauto| |intros _; apply at_row_same; [typeclasses eauto|apply Hk]].
    rewrite <- E1 in Hr. apply (moves_Update CentralRequestStatusPreparing);
      [typeclasses eauto|done..|right; by left|done|done]. }
  destruct (IsServerErrorClass err); [|destruct (IsClientErrorClass err); [|reflexivity]].
  - apply bind_at_read; [typeclasses eauto|preserves_tac|intros w1 E1]. destruct (_ <? _); [|reflexivity].
    apply bind_at_read; [typeclasses eauto|preserves_tac|intros w2 E2].
    apply Hu; [congruence|intros [?|]; preserves_tac].
  - apply bind_at_read; [typeclasses eauto|preserves_tac|intros w2 E2].
    apply Hu; [congruence|intros [?|]; preserves_tac].
Qed.

Lemma moves_preparing r w :
  cr_ID r <> "" -> cr_Status r = CentralRequestStatusPreparing -> centrals w !! cr_ID r = Some r ->
  at_row (cr_ID r) preparing_moves w (reconcilePreparingDinosaur conf r w).1.
Proof.
  intros Hne Hs Hr. unfold reconcilePreparingDinosaur. set (t := FailIfTimeoutExceeded _ r).
  apply bind_at; [typeclasses eauto|apply moves_timeout; [typeclasses eauto|done|done|right; by left|done]|intros _].
  destruct ((t w).2) eqn:Ht; [reflexivity|]. apply timeout_none in Ht. fold t in Ht. rewrite <- Ht in Hr.
  apply bind_at; [typeclasses eauto|by apply moves_Prepare|intros _].
  destruct ((PrepareDinosaurRequest r (t w).1).2) eqn:Hp; [|reflexivity].
  apply moves_creation_error; [done..|]. rewrite Prepare_failed; [done|congruence].
Qed.

Lemma moves_provisioning r w :
  cr_ID r <> "" -> cr_Status r = CentralRequestStatusProvisioning -> centrals w !! cr_ID r = Some r ->
  at_row (cr_ID r) provisioning_moves w
    ((rt ← FailIfTimeoutExceeded (centralRequestTimeout conf) r;
      match rt with
      | Some err => mret (Some err)
      | None => _ ← status_metric CentralRequestStatusProvisioning r; mret None
      end) w).1.
Proof.
  intros Hne Hs Hr. set (t := FailIfTimeoutExceeded _ r).
  apply bind_at; [typeclasses eauto|apply moves_timeout; [typeclasses eauto|done|done|by left|done]|intros _].
  destruct ((t w).2); [reflexivity|at_tac].
Qed.

(** ** The loops *)

Lemma ListByStatus_ok status w l :
  (ListByStatus status w).2 = Ok l ->
  NoDup (cr_ID <$> l) /\ forall r, r ∈ l -> centrals w !! cr_ID r = Some r /\ cr_Status r ∈ status.
Proof.
  unfold ListByStatus. destruct (_ =? _)%nat; [done|]. rewrite prog_bind_run.
  destruct ((on_centrals _ w).2) as [l'|e] eqn:E; [|done]. intros [= <-].
  split; [by eapply find_nodup|]. intros r Hr. destruct (find_result _ _ _ _ E Hr) as [Hrow Hs].
  by apply bool_decide_eq_true in Hs.
Qed.

Lemma reconcile_rows Q `{!PreOrder Q} s msg (f : CentralRequest -> prog world (option error)) w :
  keyed_rows w ->
  (forall r w1, cr_ID r <> "" -> cr_Status r = s -> centrals w1 !! cr_ID r = Some r ->
     at_row (cr_ID r) Q w1 (f r w1).1) ->
  on_rows Q w ((rl ← ListByStatus [s];
    let '(l, errs) := listed rl msg in es ← forM_errs l f; mret (errs ++ es)%list) w).1.
Proof.
  intros Hkey Hf. apply bind_read; [done|preserves_tac|intros w1 E1].
  destruct ((ListByStatus [s] w).2) as [l|e] eqn:Hl; simpl; [|reflexivity].
  destruct (ListByStatus_ok _ _ _ Hl) as [Hnd Hin].
  apply bind_rows; [done| |intros _; reflexivity]. apply forM_rows; [done..| |].
  - intros r Hr. rewrite E1. by apply Hin.
  - intros r w2 Hr Hrow. destruct (Hin r Hr) as [Hr1 Hst]. apply Hf; [by eapply keyed_row| |done].
    by apply list_elem_of_singleton in Hst.
Qed.

Lemma accepted_rows w : keyed_rows w -> on_rows accepted_moves w (accepted_Reconcile conf w).1.
Proof.
  intros Hw. apply reconcile_rows; [typeclasses eauto|done|]. intros r w1 Hne Hs Hr.
  apply bind_at_read; [typeclasses eauto|preserves_tac|intros w2 E2]. rewrite <- E2 in Hr.
  apply bind_at; [typeclasses eauto|by apply moves_accepted|intros _; reflexivity].
Qed.

Lemma preparing_rows w : keyed_rows w -> on_rows preparing_moves w (preparing_Reconcile conf w).1.
Proof.
  intros Hw. apply reconcile_rows; [typeclasses eauto|done|]. intros r w1 Hne Hs Hr.
  apply bind_at_read; [typeclasses eauto|preserves_tac|intros w2 E2]. rewrite <- E2 in Hr.
  apply bind_at; [typeclasses eauto|by apply moves_preparing|intros _; reflexivity].
Qed.

Lemma provisioning_rows w : keyed_rows w -> on_rows provisioning_moves w (provisioning_Reconcile conf w).1.
Proof. intros Hw. apply reconcile_rows; [typeclasses eauto|done|]. apply moves_provisioning. Qed.

(** C16. The creation pipeline: the manager of accepted centrals moves accepted
    centrals to preparing or failed and touches nothing else; the manager of
    preparing centrals moves preparing ones to provisioning or failed; the
    manager of provisioning centrals moves provisioning ones to failed only.
    Whatever the databases and services answer, they add and remove no row, and
    leave owner, organisation, region, type, quota, versions and authentication
    of every central as they are. *)
Theorem pipeline_moves w :
  keyed_rows w ->
  on_rows (moves CentralRequestStatusAccepted [CentralRequestStatusPreparing; CentralRequestStatusFailed])
    w (accepted_Reconcile conf w).1 /\
  on_rows (moves CentralRequestStatusPreparing [CentralRequestStatusProvisioning; CentralRequestStatusFailed])
    w (preparing_Reconcile conf w).1 /\
  on_rows (moves CentralRequestStatusProvisioning [CentralRequestStatusFailed])
    w (provisioning_Reconcile conf w).1.
Proof. intros Hw. split_and!; [by apply accepted_rows|by apply preparing_rows|by apply provisioning_rows]. Qed.

(** The timeout check: a central older than the timeout is written back as
    failed, unless it is being deleted, and the caller gets an error; a younger
    one is left as it is and the caller gets none. *)
Theorem FailIfTimeoutExceeded_spec timeout r w :
  cr_ID r <> "" -> centrals w !! cr_ID r = Some r ->
  let '(w', err) := FailIfTimeoutExceeded timeout r w in
  if cr_CreatedAt r <? (now w).2 - timeout then
    err <> None /\ forall x', centrals w' !! cr_ID r = Some x' ->
      x' = r \/ (~ in_deletion r /\ cr_Status x' = CentralRequestStatusFailed /\
                 cr_FailedReason x' = timed_out_reason)
  else err = None /\ centrals w' = centrals w.
Proof.
  intros Hne Hr. destruct (FailIfTimeoutExceeded timeout r w) as [w' err] eqn:E. revert E.
  unfold FailIfTimeoutExceeded. rewrite prog_bind_run.
  assert (centrals (now w).1 = centrals w) as E0 by (apply frame_rows; preserves_tac).
  destruct (_ <? _); [|intros [= <- <-]; done]. rewrite prog_bind_run. set (w0 := (now w).1) in *.
  set (u := set_FailedReason timed_out_reason (set_Status CentralRequestStatusFailed r)).
  assert (forall x', centrals (Update u w0).1 !! cr_ID r = Some x' -> x' = r \/ (~ in_deletion r /\
    cr_Status x' = CentralRequestStatusFailed /\ cr_FailedReason x' = timed_out_reason)) as Hu.
  { intros x'. unfold Update. rewrite prog_bind_run.
    destruct ((on_centrals (db_update (updatable u) (fun x => merge x u)) w0).2) as [n|e] eqn:Hn; simpl.
    - destruct (update_result _ _ _ _ (fun x => merge_ID x u) Hn) as [_ [t ->]].
      rewrite updated_lookup, E0, Hr. simpl. intros [= <-].
      destruct (updatable u r) eqn:Hup; [right|by left]. apply updatable_spec in Hup as [_ Hd]. by destruct r.
    - rewrite (update_failed _ _ _ _ Hn), E0, Hr. intros [= <-]. by left. }
  destruct ((Update u w0).2); [intros [= <- <-]; done|]. rewrite !prog_bind_run. intros [= <- <-].
  split; [done|]. intros x'. assert (centrals (status_metric CentralRequestStatusFailed u (Update u w0).1).1 =
    centrals (Update u w0).1) as Hm by (apply frame_rows; preserves_tac).
  unfold centrals in *. simpl in *. rewrite Hm. apply Hu.
Qed.
End pipeline.

(** ** What an acceptance stores *)

Definition same_assignment (o o' : rowstate CentralRequest) : Prop :=
  o' = o \/ exists x x', o = Live x /\ o' = Live x' /\ cr_ClusterID x' = cr_ClusterID x /\
    cr_DesiredCentralVersion x' = cr_DesiredCentralVersion x /\
    cr_DesiredCentralOperatorVersion x' = cr_DesiredCentralOperatorVersion x.

#[export] Instance same_assignment_preorder : PreOrder same_assignment.
Proof.
  split; [by left|]. intros o1 o2 o3 [->|(x & y & -> & -> & ? & ? & ?)]; [done|].
  intros [->|(? & z & [= <-] & -> & ? & ? & ?)]; right; [eauto 10|]. exists x, z. split_and!; congruence.
Qed.

Section acceptance.
Context `{PlatformLaws} (conf : ServiceConfig).

Lemma assignment_Accept r : preserves (on_rows same_assignment) (AcceptCentralRequest conf r).
Proof.
  unfold AcceptCentralRequest.
  assert (forall h p ns, preserves (on_rows same_assignment) (Update (set_ID (cr_ID r) (set_Host h
    (set_PlacementID p (set_Status CentralRequestStatusPreparing (set_Namespace ns zero_CentralRequest))))))).
  { intros h p ns. apply rows_Update; [typeclasses eauto|]. intros x t _ _. right. eexists _, _.
    split_and!; [done..| | |]; by destruct x. }
  preserves_tac.
Qed.

Lemma assignment_row w w' r x' :
  centrals w !! cr_ID r = Some r -> on_rows same_assignment w w' -> centrals w' !! cr_ID r = Some x' ->
  cr_ClusterID x' = cr_ClusterID r /\ cr_DesiredCentralVersion x' = cr_DesiredCentralVersion r /\
  cr_DesiredCentralOperatorVersion x' = cr_DesiredCentralOperatorVersion r.
Proof.
  intros Hr%central_state_live Hq Hx'%central_state_live. specialize (Hq (cr_ID r)). rewrite Hr, Hx' in Hq.
  destruct Hq as [[= ->]|(x & y & [= <-] & [= <-] & Hq)]; done.
Qed.

(** Giving up without an error means trying again later. *)
Lemma no_operator_none r cause w :
  (no_operator_version r cause w).2 = None -> centrals (no_operator_version r cause w).1 = centrals w.
Proof.
  unfold no_operator_version. rewrite prog_bind_run.
  assert (centrals (since (cr_CreatedAt r) w).1 = centrals w) as Hs by (apply frame_rows; preserves_tac).
  destruct (_ <? _); [done|]. cbv zeta. rewrite prog_bind_run. by destruct ((Update _ _).2).
Qed.

(** The manager of accepted centrals selects a cluster and the newest ready
    versions for a central, but a run that reports no error never stores them:
    the accepting update writes host, placement, namespace and status only, so
    cluster and desired versions in the database stay what they were. *)
Theorem accepted_assignment_not_stored r w x' :
  centrals w !! cr_ID r = Some r -> (reconcileAcceptedCentral conf r w).2 = None ->
  centrals (reconcileAcceptedCentral conf r w).1 !! cr_ID r = Some x' ->
  cr_ClusterID x' = cr_ClusterID r /\ cr_DesiredCentralVersion x' = cr_DesiredCentralVersion r /\
  cr_DesiredCentralOperatorVersion x' = cr_DesiredCentralOperatorVersion r.
Proof.
  intros Hr. unfold reconcileAcceptedCentral. rewrite prog_bind_run.
  set (t := FailIfTimeoutExceeded _ r w). destruct (t.2) eqn:Ht; [done|]. apply timeout_none in Ht. fold t in Ht.
  rewrite prog_bind_run. set (w2 := (FindCluster r t.1).1).
  assert (centrals w2 = centrals w) as Hf by (rewrite <- Ht; apply frame_rows; preserves_tac).
  rewrite <- Hf in Hr.
  assert (forall v, centrals v = centrals w2 -> centrals v !! cr_ID r = Some x' ->
    cr_ClusterID x' = cr_ClusterID r /\ cr_DesiredCentralVersion x' = cr_DesiredCentralVersion r /\
    cr_DesiredCentralOperatorVersion x' = cr_DesiredCentralOperatorVersion r) as Hsame.
  { intros v -> Hx'. by assert (x' = r) as -> by congruence. }
  destruct ((FindCluster r t.1).2) as [[c|]|e]; [|by intros _; apply Hsame|done]. cbv zeta.
  destruct (GetAvailableAndReadyCentralOperatorVersions c) as [ready|e];
    [|intros Hn; apply Hsame; by apply no_operator_none].
  destruct (last ready) as [sel|]; [|intros Hn; apply Hsame; by apply no_operator_none].
  destruct (last (ov_CentralVersions sel)) as [v|]; [|done]. set (r' := set_DesiredCentralVersion _ _).
  rewrite prog_bind_run. destruct ((AcceptCentralRequest conf r' w2).2); [done|]. intros _ Hx'.
  by apply (assignment_row w2 (AcceptCentralRequest conf r' w2).1); [|apply assignment_Accept|].
Qed.
End acceptance.

(** ** Deletion *)

(** The centrals the deleting manager handles: those in status deleting, and those
    being deprovisioned that never got a host. *)
Definition deletable (x : CentralRequest) : Prop :=
  cr_Status x = CentralRequestStatusDeleting \/
  (cr_Status x = CentralRequestStatusDeprovision /\ cr_Host x = "").

Definition removes (o o' : rowstate CentralRequest) : Prop :=
  o' = o \/ exists x, o = Live x /\ o' = Dead /\ deletable x.

#[export] Instance removes_preorder : PreOrder removes.
Proof.
  split; [by left|]. intros o1 o2 o3 [->|(x & -> & -> & Hx)]; [done|].
  intros [->|(y & ? & _)]; [right; eauto|done].
Qed.

Section deletion.
Context `{PlatformLaws} (conf : ServiceConfig).

Lemma rows_delete_client Q `{!PreOrder Q} r : preserves (on_rows Q) (delete_client r).
Proof. unfold delete_client. preserves_tac. Qed.
#[local] Hint Resolve rows_delete_client : fleet.

(** The row of a central that is still what it was when it was listed. *)
Lemma removes_row w0 w r x :
  on_rows removes w0 w -> centrals w0 !! cr_ID r = Some r -> centrals w !! cr_ID r = Some x -> x = r.
Proof.
  intros Hq Hr%central_state_live Hx%central_state_live. specialize (Hq (cr_ID r)). rewrite Hr, Hx in Hq.
  by destruct Hq as [[= ->]|(y & _ & ? & _)].
Qed.

Lemma removes_Delete w r force :
  (forall x, centrals w !! cr_ID r = Some x -> deletable x) ->
  on_rows removes w (Delete conf r force w).1.
Proof.
  intros Hd. unfold Delete.
  assert (forall w1, centrals w1 = centrals w -> on_rows removes w1 (delete_row_of r w1).1) as Hrow.
  { intros w1 E1. unfold delete_row_of. case_bool_decide.
    - apply bind_read; [typeclasses eauto|preserves_tac|intros w2 E2; reflexivity].
    - apply bind_rows; [typeclasses eauto| |intros _; rows_tac]. apply rows_delete_at; [typeclasses eauto|].
      intros k x Hx Hid. apply bool_decide_eq_true in Hid. right. exists x. split_and!; [done..|].
      apply Hd. rewrite <- E1. rewrite <- Hid. by rewrite (centrals_id w1 k x Hx). }
  case_bool_decide; [|by apply Hrow]. destruct (GetRoutes r); [|reflexivity].
  apply bind_read; [typeclasses eauto|preserves_tac|intros w1 E1]. case_match; [reflexivity|by apply Hrow].
Qed.

Lemma removes_reconcile w r :
  (forall x, centrals w !! cr_ID r = Some x -> deletable x) ->
  on_rows removes w (reconcileDeletingDinosaurs conf r w).1.
Proof.
  intros Hd. unfold reconcileDeletingDinosaurs. destruct (GetQuotaService _ _) as [qs|] eqn:Hqs; [|reflexivity].
  apply bind_read; [typeclasses eauto|by eapply quota_delete_rows; [typeclasses eauto|]|intros w1 E1].
  case_match; [reflexivity|]. apply bind_read; [typeclasses eauto|preserves_tac|intros w2 E2].
  case_match; [|reflexivity]. case_match; [reflexivity|].
  apply bind_rows; [typeclasses eauto| |intros _; rows_tac]. apply removes_Delete. by rewrite E2, E1.
Qed.

Lemma forM_outcomes_inv {W A} (I : W -> Prop) (xs : list A) (f : A -> prog W outcome) :
  (forall x w, x ∈ xs -> I w -> I (f x w).1) -> forall w, I w -> I (forM_outcomes xs f w).1.
Proof.
  induction xs as [|x xs IH]; intros Hf w Hw; [done|]. simpl. rewrite prog_bind_run.
  assert (I (f x w).1) as Hx by (apply Hf; [by left|done]).
  destruct ((f x w).2); [|done]. rewrite prog_bind_run. simpl. apply IH; [|done].
  intros y v Hy. apply Hf. by right.
Qed.

Lemma forM_outcomes_rows Q `{!PreOrder Q} (l : list CentralRequest) (f : CentralRequest -> prog world outcome) w :
  NoDup (cr_ID <$> l) -> (forall r, r ∈ l -> centrals w !! cr_ID r = Some r) ->
  (forall r w1, r ∈ l -> centrals w1 !! cr_ID r = Some r -> at_row (cr_ID r) Q w1 (f r w1).1) ->
  on_rows Q w (forM_outcomes l f w).1.
Proof.
  revert w. induction l as [|r l IH]; intros w Hnd Hin Hf; [reflexivity|]. simpl.
  rewrite fmap_cons, NoDup_cons in Hnd. destruct Hnd as [Hr Hnd].
  pose proof (Hf r w ltac:(by left) (Hin r ltac:(by left))) as Hat.
  apply bind_rows; [done|by eapply at_row_rows|intros _]. destruct ((f r w).2); [|reflexivity].
  apply bind_rows; [done| |intros _; reflexivity].
  apply IH; [done| |intros r' w1 Hr'; apply Hf; by right]. intros r' Hr'.
  apply (at_row_other (cr_ID r) Q w); [done| |apply Hin; by right].
  intros E'. apply Hr. rewrite <- E'. by apply list_elem_of_fmap_2.
Qed.

Lemma deleting_rows w : on_rows removes w (deleting_Reconcile conf w).1.
Proof.
  unfold deleting_Reconcile. rewrite prog_bind_run.
  assert (on_rows eq w (ListByStatus [CentralRequestStatusDeleting] w).1) as E1 by rows_tac.
  set (w1 := (ListByStatus [CentralRequestStatusDeleting] w).1) in *.
  assert (on_rows eq w1 (ListByStatus [CentralRequestStatusDeprovision] w1).1) as E2 by rows_tac.
  assert (forall r, r ∈ (listed (ListByStatus [CentralRequestStatusDeleting] w).2
    "failed to list deleting central requests").1 -> centrals w !! cr_ID r = Some r /\ deletable r) as Hdel.
  { intros r. destruct ((ListByStatus [CentralRequestStatusDeleting] w).2) as [l|e] eqn:Hl;
      [|by intros ?%not_elem_of_nil]. intros Hr. destruct (ListByStatus_ok _ _ _ Hl) as [_ Hin].
    destruct (Hin r Hr) as [Hrow Hst%list_elem_of_singleton]. split; [done|by left]. }
  destruct (listed _ "failed to list deleting central requests") as [deleting errs]. rewrite prog_bind_run.
  set (w2 := (ListByStatus [CentralRequestStatusDeprovision] w1).1) in *.
  assert (forall r, r ∈ filter (fun r => cr_Host r = "") (listed (ListByStatus [CentralRequestStatusDeprovision] w1).2
    "failed to list central deprovisioning requests").1 -> centrals w !! cr_ID r = Some r /\ deletable r) as Hdep.
  { intros r [Hh Hr]%list_elem_of_filter. revert Hr.
    destruct ((ListByStatus [CentralRequestStatusDeprovision] w1).2) as [l|e] eqn:Hl;
      [|by intros ?%not_elem_of_nil]. intros Hr. destruct (ListByStatus_ok _ _ _ Hl) as [_ Hin].
    destruct (Hin r Hr) as [Hrow Hst%list_elem_of_singleton]. rewrite (rows_eq _ _ E1) in Hrow.
    split; [done|by right]. }
  destruct (listed _ "failed to list central deprovisioning requests") as [deprov errs']. rewrite prog_bind_run.
  simpl. apply (forM_outcomes_inv (fun v => on_rows removes w v)).
  - intros r v Hr Hv. etransitivity; [exact Hv|].
    apply bind_rows; [typeclasses eauto| |intros _; reflexivity]. apply removes_reconcile.
    intros x Hx. assert (centrals w !! cr_ID r = Some r /\ deletable r) as [Hrow Hd].
    { apply elem_of_app in Hr as [Hr|Hr]; [by apply Hdel|by apply Hdep]. }
    by rewrite (removes_row w v r x Hv Hrow Hx).
  - etransitivity; by apply rows_eq_any; [typeclasses eauto|].
Qed.

(** A successful deletion. *)
Lemma delete_row_of_gone r w : (delete_row_of r w).2 = None -> centrals (delete_row_of r w).1 !! cr_ID r = None.
Proof.
  unfold delete_row_of. rewrite prog_bind_run. case_bool_decide; [done|].
  set (p := fun x => bool_decide (cr_ID x = cr_ID r)).
  destruct ((on_centrals (db_delete p) w).2) as [n|e] eqn:E; [|done]. intros _.
  rewrite on_centrals_result in E. apply delete_ok in E as (_ & Hr & _).
  rewrite !prog_bind_run. unfold centrals. simpl. rewrite on_centrals_table, Hr.
  apply eq_None_not_Some. intros [x [Hx Hp]%matching_lookup]. apply (centrals_id w) in Hx.
  unfold p in Hp. by rewrite bool_decide_eq_true_2 in Hp.
Qed.

Lemma Delete_gone r force w : (Delete conf r force w).2 = None -> centrals (Delete conf r force w).1 !! cr_ID r = None.
Proof.
  unfold Delete. case_bool_decide; [|apply delete_row_of_gone]. destruct (GetRoutes r); [|done].
  rewrite prog_bind_run. case_match; [done|apply delete_row_of_gone].
Qed.

(** C19. The deleting manager removes only centrals that are in status deleting,
    or are being deprovisioned and never got a host, and changes no other row;
    and when it handles a central without an error, that central is gone. *)
Theorem deleting_Reconcile_removes w :
  on_rows removes w (deleting_Reconcile conf w).1 /\
  forall r, (reconcileDeletingDinosaurs conf r w).2 = Done None ->
    centrals (reconcileDeletingDinosaurs conf r w).1 !! cr_ID r = None.
Proof.
  split; [apply deleting_rows|]. intros r. unfold reconcileDeletingDinosaurs.
  destruct (GetQuotaService _ _) as [qs|]; [|done]. rewrite prog_bind_run.
  destruct ((DeleteQuota qs _ w).2); [done|]. rewrite prog_bind_run.
  destruct ((delete_client r _).2) as [[|]|]; [done| |done]. rewrite prog_bind_run.
  set (d := Delete conf r false _). destruct (d.2) eqn:Hd; [done|]. intros _. by apply Delete_gone.
Qed.
End deletion.

(** ** Runs on the concrete platform *)

Definition young_central (id status : string) : CentralRequest :=
  set_CreatedAt 990 (sample_central id status "alice" "org-1").

Definition versioned_cluster : Cluster :=
  set_cl_AvailableCentralOperatorVersions
    (Some (VJSON [mkOperatorVersion "operator.v1.0.0" true [mkCentralVersion "3.70.0"]])) (ready_cluster "k1" "c1").

Definition pipeline_world : @world mem_platform :=
  mem_world [set_InstanceType EVAL (young_central "a" CentralRequestStatusAccepted);
             sample_central "b" CentralRequestStatusPreparing "bob" "org-1";
             sample_central "d" CentralRequestStatusDeprovision "dora" "org-1"] [versioned_cluster].

Lemma pipeline_moves_witness :
  (accepted_Reconcile sample_config pipeline_world).2 = [] /\
  (cr_Status <$> centrals (accepted_Reconcile sample_config pipeline_world).1 !! "a")
    = Some CentralRequestStatusPreparing /\
  on_rows (moves CentralRequestStatusAccepted [CentralRequestStatusPreparing; CentralRequestStatusFailed])
    pipeline_world (accepted_Reconcile sample_config pipeline_world).1.
Proof.
  split; [vm_compute; reflexivity|]. split; [vm_compute; reflexivity|].
  exact (proj1 (pipeline_moves sample_config pipeline_world ltac:(vm_compute; reflexivity))).
Defined.

Lemma FailIfTimeoutExceeded_spec_witness :
  let b := sample_central "b" CentralRequestStatusPreparing "bob" "org-1" in
  (FailIfTimeoutExceeded 60 b pipeline_world).2 <> None /\
  exists x', centrals (FailIfTimeoutExceeded 60 b pipeline_world).1 !! "b" = Some x' /\
    (x' = b \/ (~ in_deletion b /\ cr_Status x' = CentralRequestStatusFailed /\
       cr_FailedReason x' = timed_out_reason)) /\ x' <> b.
Proof.
  pose proof (FailIfTimeoutExceeded_spec 60 (sample_central "b" CentralRequestStatusPreparing "bob" "org-1")
    pipeline_world ltac:(discriminate) ltac:(vm_compute; reflexivity)) as Hs.
  cbv zeta. destruct (centrals (FailIfTimeoutExceeded 60 _ pipeline_world).1 !! "b") as [x'|] eqn:E;
    [|vm_compute in E; discriminate].
  assert (x' <> sample_central "b" CentralRequestStatusPreparing "bob" "org-1") as Hx
    by (intros ->; vm_compute in E; discriminate).
  destruct (FailIfTimeoutExceeded 60 _ pipeline_world) as [w' err]. simpl in E.
  split; [exact (proj1 Hs)|]. exists x'. split; [done|]. split; [exact (proj2 Hs x' E)|done].
Defined.

Lemma accepted_assignment_not_stored_witness :
  let a := set_InstanceType EVAL (young_central "a" CentralRequestStatusAccepted) in
  exists x', centrals (reconcileAcceptedCentral sample_config a pipeline_world).1 !! "a" = Some x' /\
    cr_Status x' = CentralRequestStatusPreparing /\ cr_DesiredCentralVersion x' = "".
Proof.
  eexists. split; [vm_compute; reflexivity|]. split; [reflexivity|].
  exact (proj1 (proj2 (accepted_assignment_not_stored sample_config
    (set_InstanceType EVAL (young_central "a" CentralRequestStatusAccepted)) pipeline_world _
    ltac:(vm_compute; reflexivity) ltac:(vm_compute; reflexivity) ltac:(vm_compute; reflexivity)))).
Defined.

Lemma deleting_Reconcile_removes_witness :
  let d := sample_central "d" CentralRequestStatusDeprovision "dora" "org-1" in
  on_rows removes pipeline_world (deleting_Reconcile sample_config pipeline_world).1 /\
  centrals (reconcileDeletingDinosaurs sample_config d pipeline_world).1 !! "d" = None.
Proof.
  destruct (deleting_Reconcile_removes sample_config pipeline_world) as [Hall Hone].
  split; [exact Hall|].
  exact (Hone (sample_central "d" CentralRequestStatusDeprovision "dora" "org-1") ltac:(vm_compute; reflexivity)).
Defined.
