(* ===== verification/System.v ===== *)
(** * The fleet manager as a system

    The operations that the API, the data plane and the workers perform on the
    centrals, as steps of one transition system, and the invariants of its runs.
    A step is one whole operation; the interleaving of operations that hold
    structs read earlier is the subject of the last section. *)

From S2P Require Import Prelude GoString GoFmt ServiceErrors CentralRequest Store Versions.
From S2P Require Import ClusterTypes World MemPlatform Config Quota Namespace ClusterService CentralService CentralProps.
From S2P Require Import Providers ClusterManager ClusterManagerProps ManualScaling DataPlane Workers WorkersProps.
From S2P Require Import Resources ApiFramework DefaultVersion Auth Presenters CentralApi CentralApiProps.
Local Open Scope string_scope.
Local Open Scope Z_scope.

(** ** How a central may evolve *)

(** The fields that stay with a central for its whole life. *)
Definition tenant (x : CentralRequest) : string * string * string * string * string * Z :=
  (cr_ID x, cr_Owner x, cr_OrganisationID x, cr_Region x, cr_InstanceType x, cr_CreatedAt x).

(** A central is ready only once its routes exist. *)
Definition ready_routed (x : CentralRequest) : Prop :=
  cr_Status x = CentralRequestStatusReady -> cr_RoutesCreated x = true.

Definition evolves (o o' : rowstate CentralRequest) : Prop :=
  match o, o' with
  | Absent, Absent | Dead, Dead | Live _, Dead => True
  | Live x, Live x' =>
      tenant x' = tenant x /\ (in_deletion x -> in_deletion x') /\ (ready_routed x -> ready_routed x')
  | _, _ => False
  end.

#[export] Instance evolves_preorder : PreOrder evolves.
Proof.
  split.
  - intros [|x|]; simpl; auto.
  - intros [|x|] [|y|] [|z|]; simpl; try done. intros (? & ? & ?) (? & ? & ?). split_and!; [congruence|auto..].
Qed.

Lemma evolves_lifecycle o o' : evolves o o' -> lifecycle o o'.
Proof. destruct o, o'; simpl; try done. intros (Ht & Hd & _). split; [by injection Ht|done]. Qed.

(** A write to a row outside deletion, with a status of its own. *)
Lemma evolves_write x x' :
  tenant x' = tenant x -> ~ in_deletion x ->
  (cr_Status x' = CentralRequestStatusReady -> cr_Status x = CentralRequestStatusReady /\ cr_RoutesCreated x' = cr_RoutesCreated x) ->
  evolves (Live x) (Live x').
Proof.
  intros Ht Hd Hs. split_and!; [done|done|]. intros Hr Hr'. destruct (Hs Hr') as [H1 ->]. auto.
Qed.

Lemma evolves_moves from tos o o' :
  from ∉ dinosaurDeletionStatuses -> CentralRequestStatusReady ∉ tos -> moves from tos o o' -> evolves o o'.
Proof.
  intros Hf Ht [->|(x & x' & -> & -> & Hx & Hx' & Hk)]; [reflexivity|]. apply evolves_write.
  - destruct x, x'. unfold pipeline_kept in Hk. simpl in Hk. injection Hk. intros. subst. done.
  - unfold in_deletion. by rewrite Hx.
  - intros E. by rewrite E in Hx'.
Qed.

Lemma evolves_reported cid ids o o' : reported cid ids o o' -> evolves o o'.
Proof.
  intros [->|(x & x' & -> & -> & _ & _ & Hk & Hd & Hs)]; [reflexivity|].
  destruct (kept_fields _ _ Hk) as (_ & _ & Hrc & _).
  split_and!; [|done|].
  - destruct x, x'. unfold kept in Hk. simpl in Hk. injection Hk. intros. subst. done.
  - unfold ready_routed. rewrite Hrc. destruct Hs as [->|[Hs|[_ ?]]]; [done| |done].
    intros _ E. rewrite E in Hs. revert Hs. by apply (bool_decide_unpack _).
Qed.

Lemma evolves_removes o o' : removes o o' -> evolves o o'.
Proof. by intros [->|(x & -> & -> & _)]; [reflexivity|]. Qed.

(** ** Every operation but registration lets the rows evolve *)

Section operations.
Context `{PlatformLaws} (conf : ServiceConfig).

(** The fields of a row that a write of [r] keeps. *)
Lemma merge_tenant x r :
  cr_Owner r = "" \/ cr_Owner r = cr_Owner x -> cr_OrganisationID r = "" \/ cr_OrganisationID r = cr_OrganisationID x ->
  cr_Region r = "" \/ cr_Region r = cr_Region x -> cr_InstanceType r = "" \/ cr_InstanceType r = cr_InstanceType x ->
  cr_CreatedAt r = 0 \/ cr_CreatedAt r = cr_CreatedAt x ->
  tenant (merge x r) = tenant x.
Proof.
  intros Ho Horg Hreg Hty Hc. unfold tenant, merge. simpl.
  repeat f_equal.
  - destruct Ho as [->| ->]; [done|apply pick_string_same].
  - destruct Horg as [->| ->]; [done|apply pick_string_same].
  - destruct Hreg as [->| ->]; [done|apply pick_string_same].
  - destruct Hty as [->| ->]; [done|apply pick_string_same].
  - destruct Hc as [->| ->]; [done|apply pick_int_same].
Qed.

Lemma merge_RoutesCreated x r : cr_RoutesCreated (merge x r) = (cr_RoutesCreated x || cr_RoutesCreated r)%bool.
Proof. simpl. unfold pick_bool. destruct (cr_RoutesCreated r), (cr_RoutesCreated x); done. Qed.

(** A write of the struct of a row, of which the fields of the tenant and the
    status have not been assigned and no flag has been reset. *)
Lemma evolves_rewrite x r t :
  ~ in_deletion x -> tenant r = tenant x -> cr_Status r = cr_Status x ->
  evolves (Live x) (Live (set_UpdatedAt t (merge x r))).
Proof.
  intros Hd Ht Hs. split_and!; [|done|].
  - assert (tenant (merge x r) = tenant x) as <-; [|done]. injection Ht. intros. apply merge_tenant; auto.
  - unfold ready_routed. change (cr_Status (set_UpdatedAt t (merge x r))) with (cr_Status (merge x r)).
    change (cr_RoutesCreated (set_UpdatedAt t (merge x r))) with (cr_RoutesCreated (merge x r)).
    rewrite merge_Status, merge_RoutesCreated, Hs. intros Hr Hst.
    rewrite Hr; [done|]. by destruct (bool_decide _).
Qed.

Lemma evolves_UpdateStatus id s : s ∈ dinosaurDeletionStatuses -> preserves (on_rows evolves) (UpdateStatus id s).
Proof.
  intros Hs w. apply rows_UpdateStatus; [typeclasses eauto|by apply deletion_status_nonempty|].
  intros x t n _. split_and!.
  - by destruct (bool_decide _).
  - done.
  - intros _ E. exfalso. change (s = CentralRequestStatusReady) in E. subst s. revert Hs.
    by apply (bool_decide_unpack _).
Qed.

Lemma evolves_deprovision p n :
  (forall x, p x = true -> ~ in_deletion x) ->
  preserves (on_rows evolves) (on_centrals (db_update p (deprovisioned n))).
Proof.
  intros Hp. apply rows_update; [typeclasses eauto|done|]. intros x t Hx. by apply evolves_write; [|auto|].
Qed.

Lemma evolves_RegisterDinosaurDeprovisionJob ctx id :
  preserves (on_rows evolves) (RegisterDinosaurDeprovisionJob ctx id).
Proof.
  unfold RegisterDinosaurDeprovisionJob.
  assert (preserves (on_rows evolves) (UpdateStatus id CentralRequestStatusDeprovision))
    by (apply evolves_UpdateStatus; by apply (bool_decide_unpack _)).
  preserves_tac.
Qed.

Lemma evolves_DeprovisionDinosaurForUsers users : preserves (on_rows evolves) (DeprovisionDinosaurForUsers users).
Proof.
  unfold DeprovisionDinosaurForUsers. apply preserves_bind; [typeclasses eauto|preserves_tac|intros n].
  apply preserves_bind; [typeclasses eauto| |intros ?; preserves_tac].
  apply evolves_deprovision. intros x [_ Hx]%andb_true_iff. by apply not_in_deletion.
Qed.

Lemma evolves_DeprovisionExpiredDinosaurs age : preserves (on_rows evolves) (DeprovisionExpiredDinosaurs age).
Proof.
  unfold DeprovisionExpiredDinosaurs. apply preserves_bind; [typeclasses eauto|preserves_tac|intros n].
  apply preserves_bind; [typeclasses eauto| |intros ?; preserves_tac].
  apply evolves_deprovision. intros x [_ Hx]%andb_true_iff. by apply not_in_deletion.
Qed.

Lemma evolves_Delete r force : preserves (on_rows evolves) (Delete conf r force).
Proof.
  unfold Delete, delete_row_of.
  assert (preserves (on_rows evolves) (on_centrals (db_delete (fun x => bool_decide (cr_ID x = cr_ID r)))))
    by by apply rows_delete; [typeclasses eauto|].
  preserves_tac.
Qed.

(** Writing back the struct of a row. *)
Lemma evolves_Update_row r r' w :
  cr_ID r <> "" -> centrals w !! cr_ID r = Some r -> tenant r' = tenant r -> cr_Status r' = cr_Status r ->
  at_row (cr_ID r) evolves w (Update r' w).1.
Proof.
  intros Hne Hr Ht Hs. assert (cr_ID r' = cr_ID r) as Hid by by injection Ht. rewrite <- Hid in *.
  apply at_row_Update; [typeclasses eauto|done|]. intros x t Hx Hd. assert (x = r) as -> by congruence.
  by apply evolves_rewrite.
Qed.

Lemma evolves_VerifyAndUpdate r r' ctx w :
  cr_ID r <> "" -> centrals w !! cr_ID r = Some r -> tenant r' = tenant r -> cr_Status r' = cr_Status r ->
  on_rows evolves w (VerifyAndUpdateDinosaurAdmin ctx r' w).1.
Proof.
  intros Hne Hr Ht Hs. unfold VerifyAndUpdateDinosaurAdmin. destruct (negb _); [reflexivity|].
  apply bind_read; [typeclasses eauto|preserves_tac|intros w2 E2].
  case_match; [|reflexivity]. case_match; [|reflexivity].
  eapply at_row_rows; [typeclasses eauto|]. apply (evolves_Update_row r); [done|congruence|done..].
Qed.

(** The managers that list rows by other conditions than the status. *)
Lemma find_rows p w l :
  (on_centrals (db_find p) w).2 = Ok l ->
  NoDup (cr_ID <$> l) /\ forall r, r ∈ l -> centrals w !! cr_ID r = Some r.
Proof.
  intros Hl. split; [by eapply find_nodup|]. intros r Hr. by destruct (find_result _ _ _ _ Hl Hr).
Qed.

Lemma without_auth_rows w l :
  (ListCentralsWithoutAuthConfig w).2 = Ok l ->
  NoDup (cr_ID <$> l) /\ forall r, r ∈ l -> centrals w !! cr_ID r = Some r.
Proof.
  unfold ListCentralsWithoutAuthConfig. rewrite prog_bind_run.
  destruct ((on_centrals _ w).2) as [l'|e] eqn:E; [|done]. intros [= <-].
  destruct (find_rows _ _ _ E) as [Hnd Hin]. split; [|by intros r [_ Hr]%list_elem_of_filter; auto].
  by apply NoDup_fmap_filter.
Qed.

Lemma without_routes_rows w l :
  (ListDinosaursWithRoutesNotCreated w).2 = Ok l ->
  NoDup (cr_ID <$> l) /\ forall r, r ∈ l -> centrals w !! cr_ID r = Some r.
Proof.
  unfold ListDinosaursWithRoutesNotCreated. rewrite prog_bind_run.
  destruct ((on_centrals _ w).2) as [l'|e] eqn:E; [|done]. intros [= <-]. by apply (find_rows _ _ _ E).
Qed.

(** A struct that differs in fields of no tenant, and not in the status. *)
Definition like (r r' : CentralRequest) : Prop := tenant r' = tenant r /\ cr_Status r' = cr_Status r.

Lemma evolves_auth r tr uri w :
  cr_ID r <> "" -> centrals w !! cr_ID r = Some r ->
  at_row (cr_ID r) evolves w (auth_reconcileCentralRequest conf tr uri r w).1.
Proof.
  intros Hne Hr. unfold auth_reconcileCentralRequest.
  set (m := if HasStaticAuth _ then _ else _ : prog world (result error CentralRequest)).
  assert (returns (fun x => match x with Ok r' => like r r' | Err _ => True end) m) as Hm.
  { unfold m, augmentWithDynamicAuthConfig. returns_tac; done. }
  specialize (Hm w). apply bind_at_read;
    [typeclasses eauto|unfold m, augmentWithDynamicAuthConfig; preserves_tac|intros w1 E1]. rewrite <- E1 in Hr.
  destruct ((m w).2) as [r'|e]; [|reflexivity]. destruct Hm as [Ht Hs]. cbv zeta.
  apply bind_at; [typeclasses eauto| |intros _; at_tac]. by apply (evolves_Update_row r).
Qed.

Lemma evolves_auth_Reconcile tr uri w : keyed_rows w -> on_rows evolves w (auth_Reconcile conf tr uri w).1.
Proof.
  intros Hkey. unfold auth_Reconcile. apply bind_read; [typeclasses eauto|preserves_tac|intros w1 E1].
  destruct ((ListCentralsWithoutAuthConfig w).2) as [l|e] eqn:Hl; simpl; [|reflexivity].
  destruct (without_auth_rows _ _ Hl) as [Hnd Hin].
  apply bind_rows; [typeclasses eauto| |intros _; reflexivity].
  apply forM_rows; [typeclasses eauto|done|intros r Hr; rewrite E1; by apply Hin|].
  intros r w2 Hr Hrow. apply evolves_auth; [|done]. by apply (keyed_row w), Hin.
Qed.

Lemma evolves_routes r w :
  cr_ID r <> "" -> centrals w !! cr_ID r = Some r -> at_row (cr_ID r) evolves w (routes_reconcile conf r w).1.
Proof.
  intros Hne Hr. unfold routes_reconcile.
  assert (returns (fun x => match x with Ok (Some r') => like r r' | _ => True end) (cname_records conf r)) as Hm.
  { unfold cname_records. returns_tac; done. }
  specialize (Hm w). apply bind_at_read; [typeclasses eauto|unfold cname_records; preserves_tac|intros w1 E1].
  rewrite <- E1 in Hr. destruct ((cname_records conf r w).2) as [[r'|]|e]; [|reflexivity..].
  destruct Hm as [Ht Hs]. apply bind_at; [typeclasses eauto| |intros _; at_tac]. by apply (evolves_Update_row r).
Qed.

Lemma evolves_routes_Reconcile w : keyed_rows w -> on_rows evolves w (routes_Reconcile conf w).1.
Proof.
  intros Hkey. unfold routes_Reconcile. apply bind_read; [typeclasses eauto|preserves_tac|intros w1 E1].
  destruct ((ListDinosaursWithRoutesNotCreated w).2) as [l|e] eqn:Hl; simpl; [|reflexivity].
  destruct (without_routes_rows _ _ Hl) as [Hnd Hin].
  apply bind_rows; [typeclasses eauto| |intros _; reflexivity].
  apply forM_outcomes_rows; [typeclasses eauto|done|intros r Hr; rewrite E1; by apply Hin|].
  intros r w2 Hr Hrow. apply evolves_routes; [|done]. by apply (keyed_row w), Hin.
Qed.

Lemma rows_emit_all Q `{!PreOrder Q} es : preserves (on_rows Q) (emit_all es).
Proof. induction es; simpl; preserves_tac. Qed.

Lemma evolves_general_Reconcile acl : preserves (on_rows evolves) (general_Reconcile conf acl).
Proof.
  unfold general_Reconcile, setDinosaurStatusCountMetric, setClusterStatusCapacityUsedMetric,
    reconcileDeniedDinosaurOwners.
  pose proof rows_emit_all. pose proof evolves_DeprovisionDinosaurForUsers.
  pose proof evolves_DeprovisionExpiredDinosaurs. preserves_tac.
Qed.
End operations.

(** ** The cluster manager leaves the centrals alone *)

Section cluster_manager.
Context `{PlatformLaws} `{Semver} (cmp_Equal : Cluster -> Cluster -> bool) (opts : ClusterManagerOptions).

Lemma rows_process_status status failed handle :
  (forall c, preserves (on_rows eq) (handle c)) -> preserves (on_rows eq) (process_status status failed handle).
Proof.
  intros Hh. assert (forall l, preserves (on_rows eq) (forM_errs l handle)) as Hl.
  { induction l as [|c l IH]; simpl; preserves_tac. }
  unfold process_status, Cluster_ListByStatus. preserves_tac.
Qed.

Lemma rows_tracked status msg name step c :
  preserves (on_rows eq) (step c) -> preserves (on_rows eq) (tracked status msg name step c).
Proof. intros Hs. unfold tracked, UpdateClusterStatusSinceCreatedMetric. preserves_tac. Qed.

Lemma rows_reconcileClusterDNS c : preserves (on_rows eq) (reconcileClusterDNS c).
Proof. unfold reconcileClusterDNS, GetClusterDNS. preserves_tac. Qed.

Lemma rows_processMetrics : preserves (on_rows eq) (processMetrics opts).
Proof.
  assert (forall es, preserves (on_rows eq) (emit_each es)) as He.
  { induction es as [|e es IH]; simpl; preserves_tac. }
  assert (forall l, preserves (on_rows eq) (emit_centrals_per_cluster l)) as Hp.
  { induction l as [|[id n] l IH]; simpl; unfold GetExternalID; preserves_tac. }
  unfold processMetrics, setClusterStatusCountMetrics, setDinosaurPerClusterCountMetrics,
    setClusterStatusMaxCapacityMetrics, Cluster_CountByStatus, FindDinosaurInstanceCount. preserves_tac.
Qed.

Lemma rows_reconcileClustersForRegions : preserves (on_rows eq) (reconcileClustersForRegions opts).
Proof.
  assert (forall existing l, preserves (on_rows eq) (create_missing existing l)) as Hc.
  { intros existing. induction l as [|[p r] l IH]; simpl; unfold RegisterClusterJob, save_cluster; preserves_tac. }
  unfold reconcileClustersForRegions, ListGroupByProviderAndRegion. preserves_tac.
Qed.

Lemma rows_reconcileDeprovisioningCluster c : preserves (on_rows eq) (reconcileDeprovisioningCluster opts c).
Proof.
  unfold reconcileDeprovisioningCluster, Cluster_Delete, FindCluster_criteria.
  preserves_tac.
Qed.

Lemma rows_reconcile_ready c : preserves (on_rows eq) (reconcile_ready opts c).
Proof.
  pose proof rows_reconcileClusterDNS.
  unfold reconcile_ready, reconcileEmptyCluster, reconcileReadyCluster, reconcileClusterInstanceType,
    FindNonEmptyClusterByID, ListGroupByProviderAndRegion, Cluster_Update.
  preserves_tac.
Qed.

Lemma centrals_Reconcile : preserves (on_rows eq) (Reconcile cmp_Equal opts).
Proof.
  assert (forall ps, Forall (preserves (on_rows eq)) ps -> preserves (on_rows eq) (run_processors ps)) as Hrun.
  { induction 1 as [|p ps Hp Hps IH]; simpl; preserves_tac. }
  apply Hrun.
  repeat (apply Forall_cons; split; [try (unfold calm; apply preserves_bind; [typeclasses eauto| |intros; preserves_tac])|]);
    [..|by apply Forall_nil].
  - apply rows_processMetrics.
  - apply centrals_manual.
  - apply rows_reconcileClustersForRegions.
  - apply rows_process_status. intros c. apply rows_tracked, rows_reconcileDeprovisioningCluster.
  - apply rows_process_status. intros c. apply rows_tracked. unfold reconcileCleanupCluster, DeleteByClusterID. preserves_tac.
  - apply rows_process_status. intros c. apply rows_tracked. unfold reconcileAcceptedCluster, Create, save_cluster. preserves_tac.
  - apply rows_process_status. intros c. apply rows_tracked. unfold reconcileClusterStatus, CheckClusterStatus, save_cluster, UpdateClusterStatusSinceCreatedMetric. preserves_tac.
  - apply rows_process_status. intros c. apply rows_tracked.
    pose proof rows_reconcileClusterDNS.
    unfold reconcileProvisionedCluster, reconcileAddonOperator, UpdateClusterStatusSinceCreatedMetric. preserves_tac.
  - apply rows_process_status, rows_reconcile_ready.
Qed.
End cluster_manager.

(** ** The handlers of the API *)

Section handlers.
Context `{PlatformLaws} `{Semver} `{SpecCodec} {V : Type} `{VersionTable V}.
Context (api : ApiConfig) (service : ServiceDefaults).
Context (cap : nat -> nat) (sql_eval : string -> list string -> CentralRequest -> bool).

(** A creation registers a central, unless it leaves the table alone. *)
Definition registers (w w' : world) : Prop :=
  exists c w1, on_rows eq w w1 /\ on_rows eq (RegisterDinosaurJob (ac_service api) c w1).1 w'.

Lemma create_registers body r vs (pre : prog (@hstate _ _ V (CentralRequestPayload * CentralRequest)) unit) isAdmin init (p : process V) :
  Forall (preserves (handler_rows eq)) vs -> preserves (handler_rows eq) pre ->
  let out := run_locals init (Handle (mkHandlerConfig (Some (decode_payload body))
    (create_validators api cap sql_eval r ++ vs)%list (_ ← pre; create_action api r isAdmin)) StatusAccepted) p in
  registers (pr_world p) (pr_world out.1) \/ on_rows eq (pr_world p) (pr_world out.1).
Proof.
  intros Hvs Hpre. cbv zeta. rewrite run_locals_run. cbn [fst snd].
  edestruct (Handle_through (handler_rows eq) (decode_payload body) (create_validators api cap sql_eval r ++ vs)%list
    (_ ← pre; create_action api r isAdmin) StatusAccepted (p, init p)) as [HP|(s1 & HP & ->)].
  - apply decode_payload_rows.
  - apply Forall_app. split; [apply create_validators_rows|done].
  - by right.
  - left. rewrite prog_bind_run. destruct (create_action_run api r isAdmin (pre s1).1) as [Hrows _].
    eexists _, _. split; [|exact Hrows]. transitivity (pr_world s1.1); [exact HP|apply Hpre].
Qed.

Lemma public_Create_registers body r (p : process V) :
  let w' := pr_world (public_Create api cap sql_eval body r p).1 in
  registers (pr_world p) w' \/ on_rows eq (pr_world p) w'.
Proof.
  apply create_registers; [repeat constructor; apply of_payload_rows|]. preserves_tac.
Qed.

Lemma admin_Create_registers body r (p : process V) :
  let w' := pr_world (admin_Create api service cap sql_eval body r p).1 in
  registers (pr_world p) w' \/ on_rows eq (pr_world p) w'.
Proof.
  refine (create_registers body r
    [on_request (fun p c => mret (ValidateCentralSpec p c)); on_request (fun p c => mret (ValidateScannerSpec p c))]
    (mret tt) true (fun p => (default_payload service p, zero_CentralRequest)) p _ _); [repeat constructor; apply on_request_rows; intros; preserves_tac|].
  preserves_tac.
Qed.

(** A run of an action without validators that may change the table. *)
Lemma plain_rows {R} Q `{!PreOrder Q} decode vs (action : prog (@hstate _ _ V unit) (result ServiceError R)) st (p : process V) :
  Forall (preserves (handler_rows Q)) vs -> preserves (handler_rows Q) action ->
  on_rows Q (pr_world p) (pr_world (run_locals (fun _ => tt) (run_action (mkHandlerConfig decode vs action) st) p).1).
Proof.
  intros Hv Ha. apply (run_locals_rows Q (fun _ => tt)). apply run_action_preserves; [apply _|done|done].
Qed.

Lemma rows_TrackDeletion Q `{!PreOrder Q} ctx id isAdmin err :
  preserves (on_rows Q) (TrackDeletionRequested (ac_telemetry api) ctx id isAdmin err).
Proof. unfold TrackDeletionRequested. preserves_tac. Qed.

Lemma rows_Get Q `{!PreOrder Q} ctx id : preserves (on_rows Q) (Get ctx id).
Proof. unfold Get. preserves_tac. Qed.

Lemma public_Delete_evolves r (p : process V) : on_rows evolves (pr_world p) (pr_world (public_Delete api r p).1).
Proof.
  pose proof rows_TrackDeletion. pose proof rows_Get. pose proof evolves_RegisterDinosaurDeprovisionJob.
  apply plain_rows; [apply _|repeat constructor; preserves_tac|]. preserves_tac.
Qed.

Lemma admin_Delete_evolves r (p : process V) : on_rows evolves (pr_world p) (pr_world (admin_Delete api r p).1).
Proof.
  pose proof rows_TrackDeletion. pose proof evolves_RegisterDinosaurDeprovisionJob.
  apply plain_rows; [apply _|repeat constructor; preserves_tac|]. preserves_tac.
Qed.

Lemma admin_DbDelete_evolves r (p : process V) : on_rows evolves (pr_world p) (pr_world (admin_DbDelete api r p).1).
Proof.
  pose proof rows_Get. pose proof evolves_Delete. apply plain_rows; [apply _|constructor|]. preserves_tac.
Qed.

Lemma updateCentralRequest_like u x d c :
  (updateCentralRequest service u x d).2 = Ok c -> tenant c = tenant x /\ cr_Status c = cr_Status x.
Proof.
  unfold updateCentralRequest. rewrite prog_bind_run. destruct ((GetCentralSpec x d).2) as [c1|]; [|done].
  rewrite prog_bind_run. destruct ((GetScannerSpec _ x _).2) as [s1|]; [|done]. repeat (case_match; try done). by intros [= <-].
Qed.

Lemma decode_update_rows body : preserves (handler_rows eq) (@decode_update _ _ V body).
Proof. unfold decode_update. preserves_tac. Qed.

Lemma admin_Update_evolves body r (p : process V) :
  keyed_rows (pr_world p) -> on_rows evolves (pr_world p) (pr_world (admin_Update api service body r p).1).
Proof.
  intros Hkey. unfold admin_Update. rewrite run_locals_run. cbn [fst snd].
  match goal with |- context [Handle (mkHandlerConfig (Some ?d) ?vs ?a) ?st ?s] =>
    destruct (Handle_through (handler_rows eq) d vs a st s) as [HP|(s1 & HP & ->)] end.
  - apply decode_update_rows.
  - by repeat constructor.
  - apply rows_eq_any; [apply _|exact HP].
  - transitivity (pr_world s1.1); [apply rows_eq_any; [apply _|exact HP]|].
    assert (keyed_rows (pr_world s1.1)) as Hk1 by (unfold keyed_rows; by rewrite (rows_eq _ _ HP)).
    rewrite prog_bind_run. set (m := Get _ _). destruct (on_world_run m s1) as [-> ->].
    assert (on_rows eq (pr_world s1.1) (m (pr_world s1.1)).1) as Hm by (unfold m; apply rows_Get, _).
    assert (on_rows evolves (pr_world s1.1) (m (pr_world s1.1)).1) as Hm' by (by apply rows_eq_any; [apply _|]).
    destruct ((m (pr_world s1.1)).2) as [x|e] eqn:Hg; [|exact Hm']. apply Get_ok in Hg as (Hid & Hg & _). rewrite <- Hid in Hg.
    rewrite !prog_bind_run. unfold local. cbn [fst snd]. set (m2 := updateCentralRequest _ _ _).
    set (s2 := (_, _)). destruct (on_defaults_run m2 s2) as [-> ->]. unfold s2. cbn [fst snd pr_defaults pr_world pr_versions].
    destruct ((m2 _).2) as [c|e] eqn:Hu; [|exact Hm']. apply updateCentralRequest_like in Hu as [Ht Hs].
    rewrite prog_bind_run. set (m3 := VerifyAndUpdateDinosaurAdmin _ _). set (s3 := (_, _)).
    destruct (on_world_run m3 s3) as [-> ->]. unfold s3. cbn [fst snd pr_defaults pr_world pr_versions].
    transitivity (m3 (m (pr_world s1.1)).1).1; [|by destruct ((m3 _).2)].
    transitivity (m (pr_world s1.1)).1; [done|].
    apply (evolves_VerifyAndUpdate x); [by apply (keyed_row (pr_world s1.1))| |done..]. by rewrite (rows_eq _ _ Hm).
Qed.

(** The reports of the data plane. *)
Lemma UpdateDinosaurStatuses_evolves body r (p : process V) :
  on_rows evolves (pr_world p) (pr_world (UpdateDinosaurStatuses body r p).1).
Proof.
  unfold UpdateDinosaurStatuses. rewrite run_locals_run. cbn [fst snd].
  match goal with |- context [Handle (mkHandlerConfig (Some ?d) ?vs ?a) ?st ?s] =>
    destruct (Handle_through (handler_rows eq) d vs a st s) as [HP|(s1 & HP & ->)] end.
  - destruct body; preserves_tac.
  - constructor.
  - apply rows_eq_any; [apply _|exact HP].
  - transitivity (pr_world s1.1); [apply rows_eq_any; [apply _|exact HP]|]. rewrite !prog_bind_run. unfold local. cbn [fst snd].
    set (m := UpdateDataPlaneCentralService _ _). destruct (on_world_run m s1) as [-> _]. cbn [mret prog_ret fst snd pr_world].
    intros k. eapply evolves_reported, report_rows.
Qed.

Lemma dataplane_UpdateClusterStatus_rows body r (p : process V) :
  on_rows eq (pr_world p) (pr_world (dataplane_UpdateClusterStatus body r p).1).
Proof.
  apply (run_locals_rows eq (fun _ => mkApiClusterStatus [] [])).
  assert (forall id st, preserves (on_rows eq) (UpdateDataPlaneClusterStatus id st)) as Hu.
  { intros id st. unfold UpdateDataPlaneClusterStatus, setClusterStatus, set_reported_versions, UpdateClusterStatusSinceCreatedMetric.
    preserves_tac. }
  apply preserves_bind; [apply _|destruct body; preserves_tac|]. intros [e|]; [preserves_tac|].
  apply run_action_preserves; [apply _|by repeat constructor|]. cbn [hc_Action]. preserves_tac.
Qed.
End handlers.

(** ** Runs *)

Section runs.
Context `{PlatformLaws} `{!ExternalsLaws externals} `{Semver} `{SpecCodec} {V : Type} `{VersionTable V}.
Context (api : ApiConfig) (service : ServiceDefaults).
Context (cap : nat -> nat) (sql_eval : string -> list string -> CentralRequest -> bool).
Abbreviation conf := (ac_service api).

(** The requests to the API (those that are answered without changes are among
    [step_outside]), the runs of the managers, and whatever happens outside the
    centrals table: time, the clusters, the external services. *)
Inductive step : world -> world -> Prop :=
| step_outside w w' : on_rows eq w w' -> step w w'
| step_create body r (p : process V) : step (pr_world p) (pr_world (public_Create api cap sql_eval body r p).1)
| step_delete r (p : process V) : step (pr_world p) (pr_world (public_Delete api r p).1)
| step_admin_create body r (p : process V) :
    step (pr_world p) (pr_world (admin_Create api service cap sql_eval body r p).1)
| step_admin_update body r (p : process V) : step (pr_world p) (pr_world (admin_Update api service body r p).1)
| step_admin_delete r (p : process V) : step (pr_world p) (pr_world (admin_Delete api r p).1)
| step_admin_db_delete r (p : process V) : step (pr_world p) (pr_world (admin_DbDelete api r p).1)
| step_report body r (p : process V) : step (pr_world p) (pr_world (UpdateDinosaurStatuses body r p).1)
| step_cluster_report body r (p : process V) : step (pr_world p) (pr_world (dataplane_UpdateClusterStatus body r p).1)
| step_accepted w : step w (accepted_Reconcile conf w).1
| step_preparing w : step w (preparing_Reconcile conf w).1
| step_provisioning w : step w (provisioning_Reconcile conf w).1
| step_ready w : step w (ready_Reconcile w).1
| step_auth tr uri w : step w (auth_Reconcile conf tr uri w).1
| step_routes w : step w (routes_Reconcile conf w).1
| step_deleting w : step w (deleting_Reconcile conf w).1
| step_general acl w : step w (general_Reconcile conf acl w).1
| step_cluster_manager cmp_Equal opts w : step w (Reconcile cmp_Equal opts w).1.

(** A step is a registration or lets the rows evolve. *)
Lemma step_cases w w' : keyed_rows w -> step w w' -> registers api w w' \/ on_rows evolves w w'.
Proof.
  assert (forall A (m : prog world A) Q v, (forall o o', Q o o' -> evolves o o') -> on_rows Q v (m v).1 ->
    on_rows evolves v (m v).1) as Hsub by (intros A m Q v HQ Hm k; apply HQ, Hm).
  assert (forall v v', on_rows eq v v' -> on_rows evolves v v') as Heq by (intros; by apply rows_eq_any; [typeclasses eauto|]).
  intros Hkey Hstep. destruct Hstep.
  - by right; apply Heq.
  - destruct (public_Create_registers api cap sql_eval body r p); [by left|by right; apply Heq].
  - right. apply public_Delete_evolves.
  - destruct (admin_Create_registers api service cap sql_eval body r p); [by left|by right; apply Heq].
  - right. by apply admin_Update_evolves.
  - right. apply admin_Delete_evolves.
  - right. apply admin_DbDelete_evolves.
  - right. apply UpdateDinosaurStatuses_evolves.
  - right. apply Heq, dataplane_UpdateClusterStatus_rows.
  - right. eapply Hsub; [|by apply accepted_rows]. intros o o'. apply evolves_moves; by apply (bool_decide_unpack _).
  - right. eapply Hsub; [|by apply preparing_rows]. intros o o'. apply evolves_moves; by apply (bool_decide_unpack _).
  - right. eapply Hsub; [|by apply provisioning_rows]. intros o o'. apply evolves_moves; by apply (bool_decide_unpack _).
  - right. unfold ready_Reconcile. rows_tac.
  - right. by apply evolves_auth_Reconcile.
  - right. by apply evolves_routes_Reconcile.
  - right. eapply Hsub; [|apply deleting_rows]. intros o o'. apply evolves_removes.
  - right. apply evolves_general_Reconcile.
  - right. apply Heq, centrals_Reconcile.
Qed.

(** ** The invariant *)

Definition capacity (region : string) : Z :=
  GetCapacityForRegion (dc_ClusterConfig (sc_dataplane conf)) region.

Record invariant (w : world) : Prop := mkInvariant {
  inv_keyed : keyed_rows w;
  inv_routed : forall k x, centrals w !! k = Some x -> ready_routed x;
  inv_capacity : forall region, region_count region (centrals w) <= Z.max 0 (capacity region);
  inv_eval : forall k1 k2 x1 x2, centrals w !! k1 = Some x1 -> centrals w !! k2 = Some x2 ->
    cr_InstanceType x1 = EVAL -> cr_InstanceType x2 = EVAL -> cr_Owner x1 = cr_Owner x2 ->
    cr_OrganisationID x1 = cr_OrganisationID x2 -> k1 = k2
}.

Lemma evolves_back w w' k x' :
  on_rows evolves w w' -> centrals w' !! k = Some x' ->
  exists x, centrals w !! k = Some x /\ tenant x' = tenant x /\ (ready_routed x -> ready_routed x').
Proof.
  intros Hr Hx'%central_state_live. specialize (Hr k). rewrite Hx' in Hr.
  destruct (central_state w k) as [|x|] eqn:Hx; try done. destruct Hr as (Ht & _ & Hrr).
  exists x. split; [by apply central_state_live|done].
Qed.

Lemma region_count_mono region (m m' : gmap string CentralRequest) :
  (forall k x', m' !! k = Some x' -> exists x, m !! k = Some x /\ cr_Region x = cr_Region x') ->
  region_count region m' <= region_count region m.
Proof.
  intros Hm. unfold region_count. apply inj_le. rewrite <- !(size_dom (D := gset string)).
  apply subseteq_size. intros k. rewrite !elem_of_dom.
  intros [x' [Hx' Hr]%matching_lookup]. destruct (Hm k x' Hx') as (x & Hx & E). exists x.
  apply matching_lookup. split; [done|]. by rewrite E.
Qed.

Lemma evolves_invariant w w' : on_rows evolves w w' -> invariant w -> invariant w'.
Proof.
  intros Hr [Hkey Hrt Hcap Hev]. split.
  - apply eq_None_not_Some. intros [x' Hx']. destruct (evolves_back _ _ _ _ Hr Hx') as (x & Hx & _).
    unfold keyed_rows in Hkey. congruence.
  - intros k x' Hx'. destruct (evolves_back _ _ _ _ Hr Hx') as (x & Hx & _ & Hrr). eauto.
  - intros region. etransitivity; [|apply Hcap]. apply region_count_mono. intros k x' Hx'.
    destruct (evolves_back _ _ _ _ Hr Hx') as (x & Hx & Ht & _). exists x. split; [done|]. by injection Ht.
  - intros k1 k2 x1' x2' Hk1 Hk2 E1 E2 Eo Eg.
    destruct (evolves_back _ _ _ _ Hr Hk1) as (x1 & Hx1 & Ht1 & _).
    destruct (evolves_back _ _ _ _ Hr Hk2) as (x2 & Hx2 & Ht2 & _).
    injection Ht1. injection Ht2. intros. apply (Hev k1 k2 x1 x2); congruence.
Qed.

Lemma region_count_insert_ne region (m : gmap string CentralRequest) k x :
  m !! k = None -> cr_Region x <> region -> region_count region (<[k := x]> m) = region_count region m.
Proof.
  intros Hk Hx. unfold region_count, matching. rewrite map_filter_insert_False.
  - by rewrite delete_id.
  - simpl. by rewrite bool_decide_eq_true.
Qed.

Lemma register_invariant r w : invariant w -> invariant (RegisterDinosaurJob conf r w).1.
Proof.
  intros [Hkey Hrt Hcap Hev]. pose proof (registration conf r w) as Hreg. unfold registered in Hreg.
  destruct ((RegisterDinosaurJob conf r w).2.2) as [e|].
  { split; unfold keyed_rows in *; rewrite Hreg; auto. }
  destruct Hreg as (x & c & _ & Hid & Hnone & Hins & Hst & Hrf & _ & _ & _ & Hc & Hone).
  destruct (request_fields_eq _ _ Hrf) as (Ho & Horg & Hregion & _ & _).
  assert (cr_ID x <> "") as Hne.
  { rewrite Hid. unfold fresh_id, on_ext. pose proof (new_id_nonempty (w_ext w)). by destruct (NewID (w_ext w)). }
  split.
  - unfold keyed_rows. rewrite Hins, lookup_insert_ne by done. apply Hkey.
  - intros k y. rewrite Hins, lookup_insert_Some. intros [[_ <-]|[_ Hy]]; [|by eapply Hrt].
    unfold ready_routed. by rewrite Hst.
  - intros region. destruct (decide (cr_Region r = region)) as [<-|Hn]; [unfold capacity; lia|].
    rewrite Hins, region_count_insert_ne by congruence. apply Hcap.
  - assert (forall k y, centrals w !! k = Some y -> cr_InstanceType x = EVAL -> cr_InstanceType y = EVAL ->
      cr_Owner x = cr_Owner y -> cr_OrganisationID x = cr_OrganisationID y -> False) as Hfresh.
    { intros k y Hy Ex Ey Eo Eg. specialize (Hone Ex k y Hy). unfold same_eval in Hone.
      by rewrite !bool_decide_eq_true_2 in Hone by congruence. }
    intros k1 k2 x1 x2. rewrite Hins, !lookup_insert_Some.
    intros [[<- <-]|[_ Hx1]] [[<- <-]|[_ Hx2]] E1 E2 Eo Eg; [done| | |by eapply Hev].
    + by destruct (Hfresh k2 x2).
    + by destruct (Hfresh k1 x1).
Qed.

Lemma same_invariant w w' : on_rows eq w w' -> invariant w -> invariant w'.
Proof. intros He [Hkey Hrt Hcap Hev]. apply rows_eq in He. split; unfold keyed_rows in *; rewrite He; auto. Qed.

Lemma step_invariant w w' : step w w' -> invariant w -> invariant w'.
Proof.
  intros Hs Hi. destruct (step_cases w w' (inv_keyed w Hi) Hs) as [(c & w1 & E1 & E2)|Hr].
  - eapply same_invariant; [exact E2|]. apply register_invariant. by eapply same_invariant.
  - by apply (evolves_invariant w).
Qed.

Lemma rtc_invariant w w' : rtc step w w' -> invariant w -> invariant w'.
Proof. induction 1 as [|w w1 w2 Hs _ IH]; [done|]. intros Hi. by eapply IH, step_invariant. Qed.

Lemma empty_invariant w : centrals w = ∅ -> invariant w.
Proof.
  intros E. split; unfold keyed_rows; rewrite E.
  - apply lookup_empty.
  - intros k x Hx. by rewrite lookup_empty in Hx.
  - intros region. unfold region_count, matching. rewrite map_filter_empty, map_size_empty. lia.
  - intros k1 k2 x1 x2 Hx1. by rewrite lookup_empty in Hx1.
Qed.

(** C1. The system invariant: from an empty table, after any sequence of
    registrations, deprovisioning requests, admin updates and deletions, reports
    of the data plane and runs of the managers, with any outcome of the database
    statements and service calls: a central is ready only if its routes have
    been created, no region holds more centrals than its configured capacity,
    and no owner has two eval instances in one organisation. *)
Theorem system_invariant w w' :
  centrals w = ∅ -> rtc step w w' ->
  (forall k x, centrals w' !! k = Some x -> cr_Status x = CentralRequestStatusReady -> cr_RoutesCreated x = true) /\
  (forall region, region_count region (centrals w') <= Z.max 0 (capacity region)) /\
  (forall k1 k2 x1 x2, centrals w' !! k1 = Some x1 -> centrals w' !! k2 = Some x2 ->
     cr_InstanceType x1 = EVAL -> cr_InstanceType x2 = EVAL -> cr_Owner x1 = cr_Owner x2 ->
     cr_OrganisationID x1 = cr_OrganisationID x2 -> k1 = k2).
Proof. intros Hw Hr. by destruct (rtc_invariant w w' Hr (empty_invariant w Hw)) as [_ ? ? ?]. Qed.

(** The lifecycle holds across a run. *)
Lemma rtc_lifecycle w w' : invariant w -> rtc step w w' -> on_rows lifecycle w w'.
Proof.
  intros Hi Hr. revert Hi. induction Hr as [w|w w1 w2 Hs _ IH]; intros Hi; [reflexivity|].
  etransitivity; [|apply IH; by eapply step_invariant].
  destruct (step_cases w w1 (inv_keyed w Hi) Hs) as [(c & w0 & E1 & E2)|Hev].
  - transitivity w0; [by apply rows_eq_any; [apply _|]|].
    transitivity (RegisterDinosaurJob conf c w0).1; [apply lifecycle_RegisterDinosaurJob|by apply rows_eq_any; [apply _|]].
  - intros k. apply evolves_lifecycle, Hev.
Qed.

(** C7. The lifecycle of a central: once a central is being deleted it stays so
    until its row is gone, no operation gives a key another central, and a key
    whose central is gone is never used again. *)
Theorem central_lifecycle w w1 w2 k :
  centrals w = ∅ -> rtc step w w1 -> rtc step w1 w2 ->
  match central_state w1 k, central_state w2 k with
  | Live x, Live x' => cr_ID x' = cr_ID x /\ (in_deletion x -> in_deletion x')
  | Live _, Absent => False
  | Dead, Absent | Dead, Live _ => False
  | _, _ => True
  end.
Proof.
  intros Hw H01 H12. pose proof (rtc_invariant w w1 H01 (empty_invariant w Hw)) as Hi.
  pose proof (rtc_lifecycle w1 w2 Hi H12 k) as Hl.
  destruct (central_state w1 k), (central_state w2 k); done.
Qed.
End runs.

(** ** Interleavings

    The replicas of the fleet manager and their goroutines interleave between the
    statements of these operations, and write structs that they have read
    earlier.  At the level of the statements, with arbitrary structs, the
    guard of [Update] still protects a deletion that has begun. *)

Section interleaving.
Context `{PlatformLaws} (conf : ServiceConfig).

Inductive statement : world -> world -> Prop :=
| st_outside w w' : on_rows eq w w' -> statement w w'
| st_create r w : statement w (on_centrals (db_create r) w).1
| st_Update r w : statement w (Update r w).1
| st_Updates r f w : (forall x, cr_ID (f x) = cr_ID x) -> statement w (Updates r f w).1
| st_UpdateStatus id s w : s ∈ dinosaurDeletionStatuses -> statement w (UpdateStatus id s w).1
| st_users users w : statement w (DeprovisionDinosaurForUsers users w).1
| st_expired age w : statement w (DeprovisionExpiredDinosaurs age w).1
| st_Delete r force w : statement w (Delete conf r force w).1.

Lemma statement_lifecycle w w' : statement w w' -> on_rows lifecycle w w'.
Proof.
  destruct 1.
  - by apply rows_eq_any; [typeclasses eauto|].
  - by apply rows_create; [typeclasses eauto|].
  - apply lifecycle_Update.
  - by apply lifecycle_Updates.
  - by apply lifecycle_UpdateStatus.
  - apply lifecycle_DeprovisionDinosaurForUsers.
  - apply lifecycle_DeprovisionExpiredDinosaurs.
  - apply lifecycle_Delete.
Qed.

(** C6. Under any interleaving of statements with any (stale) structs, a central
    that is being deleted is never revived: it stays in a deletion status or is
    gone, and its key is not used for another central. *)
Theorem no_resurrection w w' k x :
  rtc statement w w' -> centrals w !! k = Some x -> in_deletion x ->
  (exists x', centrals w' !! k = Some x' /\ cr_ID x' = cr_ID x /\ in_deletion x') \/ central_state w' k = Dead.
Proof.
  intros Hr Hx%central_state_live Hd.
  assert (on_rows lifecycle w w') as Hl.
  { clear Hx. induction Hr as [w|w w1 w2 Hs _ IH]; [reflexivity|].
    etransitivity; [by apply statement_lifecycle|apply IH]. }
  specialize (Hl k). rewrite Hx in Hl. destruct (central_state w' k) as [|x'|] eqn:Hx'; [done| |by right].
  left. exists x'. destruct Hl as [Hid Hdel]. split; [by apply central_state_live|auto].
Qed.
End interleaving.

(** ** Runs on the concrete platform *)

#[local] Existing Instance simple_semver.

Definition empty_world : @world mem_platform := mem_world [] [set_cl_MultiAZ true versioned_cluster].

Definition process_of (w : @world mem_platform) : @process mem_platform _ (list string) :=
  mkProcess w (init_defaults sample_defaults) [].

Definition sample_step : relation (@world mem_platform) :=
  step (V := list string) sample_api sample_defaults (fun n => n) sample_eval.

(** Carol creates a central, and deletes it. *)
Definition created_world : @world mem_platform :=
  pr_world (public_Create sample_api (fun n => n) sample_eval sample_body (sample_request "POST" "carol" "org-1" "")
    (process_of empty_world)).1.

Definition deleted_world : @world mem_platform :=
  pr_world (public_Delete sample_api (sample_request "DELETE" "carol" "org-1" "aaa1") (process_of created_world)).1.

Lemma create_step w r : sample_step w (pr_world (public_Create sample_api (fun n => n) sample_eval sample_body r (process_of w)).1).
Proof. exact (step_create sample_api sample_defaults (fun n => n) sample_eval sample_body r (process_of w)). Qed.

Lemma delete_step w r : sample_step w (pr_world (public_Delete sample_api r (process_of w)).1).
Proof. exact (step_delete sample_api sample_defaults (fun n => n) sample_eval r (process_of w)). Qed.

Lemma created_run : rtc sample_step empty_world created_world.
Proof. apply rtc_once, create_step. Qed.

Lemma deleted_run : rtc sample_step created_world deleted_world.
Proof. apply rtc_once, delete_step. Qed.

Lemma system_invariant_witness :
  size (centrals created_world) = 1%nat /\
  forall region, region_count region (centrals created_world) <= Z.max 0 (capacity sample_api region).
Proof.
  split; [vm_compute; reflexivity|].
  exact (proj1 (proj2 (system_invariant sample_api sample_defaults (fun n => n) sample_eval empty_world created_world
    ltac:(vm_compute; reflexivity) created_run))).
Defined.

Lemma central_lifecycle_witness :
  exists x x', central_state created_world "aaa1" = Live x /\ central_state deleted_world "aaa1" = Live x' /\
    in_deletion x' /\ cr_ID x' = cr_ID x.
Proof.
  pose proof (central_lifecycle sample_api sample_defaults (fun n => n) sample_eval empty_world created_world deleted_world "aaa1"
    ltac:(vm_compute; reflexivity) created_run deleted_run) as Hl.
  assert (match central_state created_world "aaa1", central_state deleted_world "aaa1" with
    | Live _, Live x' => bool_decide (cr_Status x' ∈ dinosaurDeletionStatuses) | _, _ => false end = true) as Hb
    by (vm_compute; reflexivity).
  destruct (central_state created_world "aaa1") as [|x|]; [discriminate Hb| |discriminate Hb].
  destruct (central_state deleted_world "aaa1") as [|x'|]; [discriminate Hb| |discriminate Hb].
  exists x, x'. split; [reflexivity|]. split; [reflexivity|]. split; [by apply bool_decide_eq_true in Hb|exact (proj1 Hl)].
Defined.

(** A manager writes back the struct of a central that has been deprovisioned since. *)
Lemma no_resurrection_witness :
  let d := sample_central "d" CentralRequestStatusDeprovision "dora" "org-1" in
  let stale := set_Status CentralRequestStatusReady d in
  (exists x', centrals (Update stale pipeline_world).1 !! "d" = Some x' /\ cr_ID x' = "d" /\ in_deletion x') \/
  central_state (Update stale pipeline_world).1 "d" = Dead.
Proof.
  exact (no_resurrection sample_config pipeline_world _ "d"
    (sample_central "d" CentralRequestStatusDeprovision "dora" "org-1")
    (rtc_l _ _ _ _ (st_Update sample_config (set_Status CentralRequestStatusReady
       (sample_central "d" CentralRequestStatusDeprovision "dora" "org-1")) pipeline_world) (rtc_refl _ _))
    ltac:(vm_compute; reflexivity) ltac:(by apply (bool_decide_unpack _))).
Defined.
