(* ===== verification/LeaderElection.v ===== *)
(** * Leader election of the workers

    pkg/workers/leader_election_mgr.go: every replica of the fleet manager tries
    to obtain, for each of its workers, the lease of the worker's type, and runs
    the workers for which it holds the lease. *)

From S2P Require Import Prelude GoString GoFmt ServiceErrors.
Local Open Scope string_scope.
Local Open Scope Z_scope.

Definition second : Z := 1000000000.
Definition mgrRepeatInterval : Z := 15 * second.
Definition leaseRenewTime : Z := 60 * second.

(** api.LeaderLease; [Expires] is a pointer. *)
Record LeaderLease := mkLease { ll_Leader : string; ll_LeaseType : string; ll_Expires : option Z }.

Record leaderLeaseAcquisition := mkAcquisition { acquired : bool; currentLease : LeaderLease }.

(** [Err tt]: a nil pointer is dereferenced. *)
Definition isExpired (n : Z) (lease : LeaderLease) : result unit bool :=
  if bool_decide (ll_Leader lease = "") then Ok true
  else match ll_Expires lease with
  | None => Err tt
  | Some e => Ok (e <? n)
  end.

(** ** acquireLeaderLease

    The function reads the lease, decides, and if it may take or extend the lease
    locks the row and writes it in a transaction.  [first_phase] is what happens
    up to the transaction, on the answer to the first query; [second_phase] is
    the transaction, on the answer to the locking query and to the update.  The
    clock is read [n], [n1], [n2], [n3] in this order. *)

Inductive attempt :=
| Failed (err : error)
| Panics
| Decided (a : leaderLeaseAcquisition)
| Attempt (lease : LeaderLease) (newExpiryTime : Z).

Definition first_phase (workerID workerType : string) (rows : result error (list LeaderLease)) (n n1 n2 : Z)
    : attempt :=
  match rows with
  | Err err => Failed (EWrap "failed to retrieve leader leases" err)
  | Ok [] => Failed (ETraced (Sprintf "expected to find a lease entry, found none for :%s" [VStr workerType]))
  | Ok (lease :: _) =>
      let newExpiryTime := n + leaseRenewTime in
      match isExpired n1 lease with
      | Err _ => Panics
      | Ok true => Attempt lease newExpiryTime
      | Ok false =>
          if bool_decide (ll_Leader lease = workerID) then
            match ll_Expires lease with
            | None => Panics
            | Some e => if e <? n2 + 30 * second then Attempt lease newExpiryTime
                        else Decided (mkAcquisition true lease)
            end
          else Decided (mkAcquisition false lease)
      end
  end.

(** The answer, and the lease that the transaction writes and commits. *)
Definition second_phase (workerID : string) (lease : LeaderLease) (newExpiryTime : Z)
    (locked : result error (list LeaderLease)) (updated : result error unit) (n3 : Z)
    : attempt * option LeaderLease :=
  match locked with
  | Err err => (Failed (EWrap "failed to retrieve leader leases" err), None)
  | Ok [] =>
      match isExpired n3 lease with
      | Err _ => (Panics, None)
      | Ok true => (Decided (mkAcquisition false lease), None)
      | Ok false => (Decided (mkAcquisition true lease), None)
      end
  | Ok (_ :: _) =>
      match updated with
      | Err err => (Failed (EWrap "failed to update leader lease" err), None)
      | Ok _ =>
          let lease := mkLease workerID (ll_LeaseType lease) (Some newExpiryTime) in
          (Decided (mkAcquisition true lease), Some lease)
      end
  end.

(** The whole function when nothing runs between its statements and none fails:
    the lease of the type before and after, at a clock that stands still. *)
Definition acquireLeaderLease (workerID workerType : string) (n : Z) (lease : LeaderLease)
    : attempt * LeaderLease :=
  match first_phase workerID workerType (Ok [lease]) n n n with
  | Attempt l newExpiryTime =>
      let '(a, w) := second_phase workerID l newExpiryTime (Ok [lease]) (Ok tt) n in (a, default lease w)
  | a => (a, lease)
  end.

Definition is_leader (a : attempt) : bool := match a with Decided a => acquired a | _ => false end.

Definition isWorkerLeader (forceLeader : bool) (workerID workerType : string) (n : Z) (lease : LeaderLease)
    : bool * LeaderLease :=
  if forceLeader then (true, lease)
  else let '(a, lease) := acquireLeaderLease workerID workerType n lease in (is_leader a, lease).

(** ** startWorkers *)

Record worker := mkWorker { wk_ID : string; wk_Type : string; wk_IsRunning : bool }.

(** One pass over the workers of a replica; the leases are indexed by their type,
    and a type without a lease entry is an error. *)
Fixpoint startWorkers (forceLeader : bool) (n : Z) (leases : gmap string LeaderLease) (ws : list worker)
    : list worker * gmap string LeaderLease :=
  match ws with
  | [] => ([], leases)
  | w :: ws =>
      let '(isLeader, leases) :=
        match leases !! wk_Type w with
        | Some lease =>
            let '(b, lease) := isWorkerLeader forceLeader (wk_ID w) (wk_Type w) n lease in
            (b, <[wk_Type w := lease]> leases)
        | None => (forceLeader, leases)
        end in
      let running :=
        if isLeader && negb (wk_IsRunning w) then true
        else if negb isLeader && wk_IsRunning w then false
        else wk_IsRunning w in
      let '(ws, leases) := startWorkers forceLeader n leases ws in
      (mkWorker (wk_ID w) (wk_Type w) running :: ws, leases)
  end.

(** ** Replicas that interleave

    The lease of one type, the replica that holds the lock on its row, the
    replicas that run the worker, and where each replica is in the function.  The
    statements of different replicas interleave; the row is locked from the
    locking query to the end of the transaction, and a query that skips locked
    rows answers no row. *)

Inductive position := Idle | Trying (lease : LeaderLease) (newExpiryTime : Z) | Holding (lease : LeaderLease) (newExpiryTime : Z).

Record election := mkElection {
  el_clock : Z;
  el_lease : LeaderLease;
  el_lock : option string;
  el_position : gmap string position;
  el_running : gset string
}.

Definition settle (w : string) (a : attempt) (s : election) : election :=
  mkElection (el_clock s) (el_lease s) (el_lock s) (<[w := Idle]> (el_position s))
    (if is_leader a then {[ w ]} ∪ el_running s else el_running s ∖ {[ w ]}).

Definition read_lease (w ty : string) (s : election) : election :=
  match first_phase w ty (Ok [el_lease s]) (el_clock s) (el_clock s) (el_clock s) with
  | Attempt l e => mkElection (el_clock s) (el_lease s) (el_lock s) (<[w := Trying l e]> (el_position s)) (el_running s)
  | a => settle w a s
  end.

Definition lock_lease (w : string) (s : election) : election :=
  match el_position s !! w with
  | Some (Trying l e) =>
      match el_lock s with
      | Some _ => settle w (second_phase w l e (Ok []) (Ok tt) (el_clock s)).1 s
      | None => mkElection (el_clock s) (el_lease s) (Some w) (<[w := Holding l e]> (el_position s)) (el_running s)
      end
  | _ => s
  end.

Definition commit_lease (w : string) (s : election) : election :=
  match el_position s !! w with
  | Some (Holding l e) =>
      let '(a, written) := second_phase w l e (Ok [el_lease s]) (Ok tt) (el_clock s) in
      settle w a (mkElection (el_clock s) (default (el_lease s) written) None (el_position s) (el_running s))
  | _ => s
  end.

Inductive election_step (ty : string) : election -> election -> Prop :=
| el_tick s d : 0 <= d ->
    election_step ty s (mkElection (el_clock s + d) (el_lease s) (el_lock s) (el_position s) (el_running s))
| el_read w s : w <> "" -> (el_position s !! w = None \/ el_position s !! w = Some Idle) ->
    election_step ty s (read_lease w ty s)
| el_lock_row w s : election_step ty s (lock_lease w s)
| el_commit w s : election_step ty s (commit_lease w s).

(** ** Theorems *)

(** [w] holds the lease for at least half a minute. *)
Definition holds (w : string) (n : Z) (lease : LeaderLease) : Prop :=
  ll_Leader lease = w /\ exists e, ll_Expires lease = Some e /\ n + 30 * second <= e.

Lemma acquire_cases w ty n lease :
  w <> "" ->
  let '(a, lease') := acquireLeaderLease w ty n lease in
  if is_leader a then holds w n lease' else lease' = lease /\ ~ holds w n lease.
Proof.
  intros Hw. unfold acquireLeaderLease, first_phase, isExpired.
  assert (holds w n (mkLease w (ll_LeaseType lease) (Some (n + leaseRenewTime)))) as Hnew.
  { split; [done|]. eexists. split; [done|]. unfold leaseRenewTime, second. lia. }
  destruct (bool_decide (ll_Leader lease = "")) eqn:Hl.
  { simpl. exact Hnew. }
  clear Hl. destruct (ll_Expires lease) as [e|] eqn:He; simpl.
  - destruct (Z.ltb_spec e n); [exact Hnew|]. case_bool_decide as Hlw; simpl.
    + destruct (Z.ltb_spec e (n + 30 * second)); simpl; [exact Hnew|]. split; [done|]. eauto.
    + split; [done|]. by intros [? _].
  - split; [done|]. intros (_ & e & E & _). congruence.
Qed.

Lemma holds_refuses w w' ty n n' lease :
  w <> "" -> w' <> w -> n <= n' <= n + 30 * second -> holds w n lease ->
  acquireLeaderLease w' ty n' lease = (Decided (mkAcquisition false lease), lease).
Proof.
  intros Hw Hne Hn (Hl & e & He & Hle). unfold acquireLeaderLease, first_phase, isExpired.
  rewrite He, Hl. rewrite bool_decide_eq_false_2 by done.
  destruct (Z.ltb_spec e n'); [lia|]. by rewrite bool_decide_eq_false_2 by congruence.
Qed.

(** C36. One leader at a time, when the attempts do not overlap: a worker that has
    obtained the lease holds it for half a minute, twice the interval in which it
    asks again; in this time every other worker of the type is refused and leaves
    the lease as it is, and the leader itself keeps obtaining it. *)
Theorem acquire_exclusive w w' ty n n' lease :
  w <> "" -> w' <> w -> n <= n' <= n + 30 * second ->
  is_leader (acquireLeaderLease w ty n lease).1 = true ->
  let lease' := (acquireLeaderLease w ty n lease).2 in
  acquireLeaderLease w' ty n' lease' = (Decided (mkAcquisition false lease'), lease') /\
  is_leader (acquireLeaderLease w ty n' lease').1 = true /\ 2 * mgrRepeatInterval = 30 * second.
Proof.
  intros Hw Hne Hn Hl. pose proof (acquire_cases w ty n lease Hw) as Hc.
  destruct (acquireLeaderLease w ty n lease) as [a lease1]. simpl in *. rewrite Hl in Hc.
  split_and!; [by eapply holds_refuses| |done].
  destruct Hc as (Hlead & e & He & Hle). unfold acquireLeaderLease, first_phase, isExpired.
  rewrite He, Hlead, bool_decide_eq_false_2 by done. destruct (Z.ltb_spec e n'); [done|].
  rewrite bool_decide_eq_true_2 by done. by destruct (Z.ltb_spec e (n' + 30 * second)).
Qed.

#[local] Arguments isWorkerLeader : simpl never.

Lemma startWorkers_other n leases ws ty :
  ty ∉ wk_Type <$> ws -> (startWorkers false n leases ws).2 !! ty = leases !! ty.
Proof.
  revert leases. induction ws as [|w ws IH]; intros leases Hty; [done|]. simpl.
  rewrite fmap_cons, not_elem_of_cons in Hty. destruct Hty as [Hne Hty].
  destruct (leases !! wk_Type w) as [lease|].
  - destruct (isWorkerLeader _ _ _ _ _) as [b lease']. specialize (IH (<[wk_Type w := lease']> leases) Hty).
    destruct (startWorkers _ _ _ ws). simpl in *. by rewrite IH, lookup_insert_ne.
  - specialize (IH leases Hty). by destruct (startWorkers _ _ _ ws).
Qed.

(** A pass of the election manager over its workers (of distinct types) leaves
    running exactly the workers that hold the lease of their type, for at least
    half a minute. *)
Theorem startWorkers_leaders n leases ws w :
  NoDup (wk_Type <$> ws) -> (forall v, v ∈ ws -> wk_ID v <> "") ->
  w ∈ (startWorkers false n leases ws).1 ->
  wk_IsRunning w = true <->
  exists lease, (startWorkers false n leases ws).2 !! wk_Type w = Some lease /\ holds (wk_ID w) n lease.
Proof.
  revert leases. induction ws as [|v ws IH]; intros leases Hnd Hid; [by intros ?%not_elem_of_nil|].
  rewrite fmap_cons, NoDup_cons in Hnd. destruct Hnd as [Hv Hnd]. simpl.
  pose proof (acquire_cases (wk_ID v) (wk_Type v) n) as Hc.
  destruct (match leases !! wk_Type v with Some _ => _ | None => _ end) as [b ls] eqn:Hb.
  pose proof (startWorkers_other n ls ws (wk_Type v) Hv) as Ho.
  specialize (IH ls Hnd ltac:(intros u Hu; apply Hid; by right)).
  destruct (startWorkers false n ls ws) as [ws' ls']. simpl in *. intros [->|Hw]%elem_of_cons; [|by apply IH].
  simpl. rewrite Ho.
  assert ((if b && negb (wk_IsRunning v) then true else if negb b && wk_IsRunning v then false else wk_IsRunning v) = b)
    as -> by (by destruct b, (wk_IsRunning v)).
  destruct (leases !! wk_Type v) as [lease|] eqn:Hl; [|injection Hb as <- <-; rewrite Hl; naive_solver].
  unfold isWorkerLeader in Hb. specialize (Hc lease ltac:(apply Hid; by left)).
  destruct (acquireLeaderLease _ _ _ lease) as [a lease']. injection Hb as <- <-. rewrite lookup_insert_eq.
  destruct (is_leader a); [naive_solver|]. destruct Hc as [-> Hn]. split; [done|]. by intros (? & [= <-] & ?).
Qed.

(** ** Two leaders *)

Definition race_start : election :=
  mkElection 100 (mkLease "" "deleting" None) None ∅ ∅.

(** Two replicas read the expired lease before either of them has written it. *)
Definition race_end : election :=
  commit_lease "b" (lock_lease "b" (commit_lease "a" (lock_lease "a" (read_lease "b" "deleting" (read_lease "a" "deleting" race_start))))).

(** The lease is checked outside the transaction that takes it: two replicas
    that both read an expired lease take it one after the other, the second
    without looking at the lease it has locked, and both run the worker at the
    same time. *)
Theorem two_leaders :
  rtc (election_step "deleting") race_start race_end /\
  el_clock race_end = el_clock race_start /\ el_running race_end = {[ "a"; "b" ]} /\
  ll_Leader (el_lease race_end) = "b".
Proof.
  split; [|vm_compute; done]. unfold race_end.
  eapply rtc_l; [apply (el_read _ "a"); [done|by left]|].
  eapply rtc_l; [apply (el_read _ "b"); [done|left; vm_compute; reflexivity]|].
  eapply rtc_l; [apply (el_lock_row _ "a")|]. eapply rtc_l; [apply (el_commit _ "a")|].
  eapply rtc_l; [apply (el_lock_row _ "b")|]. eapply rtc_l; [apply (el_commit _ "b")|]. apply rtc_refl.
Qed.

(** ** Witnesses *)

Lemma acquire_exclusive_witness :
  let free := mkLease "" "deleting" None in
  let lease' := mkLease "a" "deleting" (Some (100 + leaseRenewTime)) in
  acquireLeaderLease "a" "deleting" 100 free = (Decided (mkAcquisition true lease'), lease') /\
  acquireLeaderLease "b" "deleting" 200 lease' = (Decided (mkAcquisition false lease'), lease').
Proof.
  split; [vm_compute; reflexivity|].
  exact (proj1 (acquire_exclusive "a" "b" "deleting" 100 200 (mkLease "" "deleting" None)
    ltac:(discriminate) ltac:(discriminate) ltac:(unfold second; lia) ltac:(vm_compute; reflexivity))).
Defined.

Lemma startWorkers_leaders_witness :
  let ws := [mkWorker "a" "deleting" false; mkWorker "c" "ready" true] in
  let leases := <["deleting" := mkLease "" "deleting" None]> (<["ready" := mkLease "x" "ready" (Some leaseRenewTime)]> ∅) in
  (startWorkers false 100 leases ws).1 = [mkWorker "a" "deleting" true; mkWorker "c" "ready" false] /\
  exists lease, (startWorkers false 100 leases ws).2 !! "deleting" = Some lease /\ holds "a" 100 lease.
Proof.
  split; [vm_compute; reflexivity|].
  apply (startWorkers_leaders 100
    (<["deleting" := mkLease "" "deleting" None]> (<["ready" := mkLease "x" "ready" (Some leaseRenewTime)]> ∅))
    [mkWorker "a" "deleting" false; mkWorker "c" "ready" true] (mkWorker "a" "deleting" true)).
  - by apply (bool_decide_unpack _).
  - intros v [->|[->|?%not_elem_of_nil]%elem_of_cons]%elem_of_cons; done.
  - vm_compute. left.
  - reflexivity.
Defined.
