(* ===== verification/WorkerLoop.v ===== *)
(** * The loops of the workers and their manager

    pkg/workers/reconciler.go and worker_interface.go: a worker that is started runs
    its passes in a goroutine of its own until its stop channel is closed;
    leader_election_mgr.go: the manager's goroutine starts and stops the workers at
    every tick, and at the end stops them all, while [Stop] waits.

    The state is that of one process: the position of the manager's goroutine, of
    the goroutine that calls [Start] and [Stop], and the goroutines of the workers'
    loops.  A step of the relation [step] is one action of one of them.  A loop reads
    the stop channel through the pointer of the worker at every turn, so that the
    channel is the worker's, not the loop's.  Whether the worker holds its lease is
    decided anew at every step ([isWorkerLeader] of LeaderElection.v). *)

From S2P Require Import Prelude.
Local Open Scope string_scope.

(** ** Workers *)

(** A loop is in a pass ([runReconcile]), or waits in its [select]. *)
Inductive loop := InPass | Selecting.

(** The stop channel before the first start is nil. *)
Inductive chan := NilChan | OpenChan | ClosedChan.

#[export] Instance loop_eq_dec : EqDecision loop.
Proof. solve_decision. Defined.
#[export] Instance chan_eq_dec : EqDecision chan.
Proof. solve_decision. Defined.

Record worker := mkWorker { wk_isRunning : bool; wk_imStop : chan; wk_syncTeardown : nat; wk_loops : list loop }.

#[export] Instance worker_eq_dec : EqDecision worker.
Proof. solve_decision. Defined.

Definition new_worker : worker := mkWorker false NilChan 0 [].

(** [Reconciler.Start] *)
Definition start_worker (w : worker) : worker :=
  mkWorker true OpenChan (S (wk_syncTeardown w)) (InPass :: wk_loops w).

(** [Reconciler.Stop] up to the waiting: closing a nil channel panics, and a closed
    channel is not waited for. *)
Inductive stop_outcome := Panicked | AlreadyClosed (w : worker) | Waits (w : worker).

Definition set_isRunning (b : bool) (w : worker) : worker := mkWorker b (wk_imStop w) (wk_syncTeardown w) (wk_loops w).

Definition stop_worker (w : worker) : stop_outcome :=
  match wk_imStop w with
  | NilChan => Panicked
  | ClosedChan => AlreadyClosed (set_isRunning false w)
  | OpenChan => Waits (mkWorker (wk_isRunning w) ClosedChan (wk_syncTeardown w) (wk_loops w))
  end.

(** A step of one of the loops: the end of a pass, the tick, or the end of the loop. *)
Inductive loop_step : worker -> worker -> Prop :=
| l_pass_done w l1 l2 :
    wk_loops w = (l1 ++ InPass :: l2)%list ->
    loop_step w (mkWorker (wk_isRunning w) (wk_imStop w) (wk_syncTeardown w) (l1 ++ Selecting :: l2)%list)
| l_tick w l1 l2 :
    wk_loops w = (l1 ++ Selecting :: l2)%list ->
    loop_step w (mkWorker (wk_isRunning w) (wk_imStop w) (wk_syncTeardown w) (l1 ++ InPass :: l2)%list)
| l_stop w l1 l2 :
    wk_loops w = (l1 ++ Selecting :: l2)%list -> wk_imStop w = ClosedChan ->
    loop_step w (mkWorker (wk_isRunning w) ClosedChan (pred (wk_syncTeardown w)) (l1 ++ l2)%list).

(** ** The process *)

(** [Sweep]: in [startWorkers], with the workers still to consider; [AfterStart]
    and [AfterStop]: between the call of the worker and the change of the group;
    [StopWaits]: in [Stop] of the worker.  The flag tells the tear-down from a sweep. *)
Inductive manager :=
| Sweep (todo : list string)
| AfterStart (w : string) (todo : list string)
| StopWaits (down : bool) (w : string) (todo : list string)
| AfterStop (down : bool) (w : string) (todo : list string)
| Waiting
| TearDown (todo : list string)
| Exited.

(** The caller is in [Start], has returned from it, is in [Stop], or has returned. *)
Inductive caller := InStart | Up | InStop | Down.

#[export] Instance manager_eq_dec : EqDecision manager.
Proof. solve_decision. Defined.
#[export] Instance caller_eq_dec : EqDecision caller.
Proof. solve_decision. Defined.

Record process := mkProcess {
  pr_manager : manager; pr_caller : caller; pr_tearDown : bool; pr_workerGrp : Z; pr_workers : gmap string worker
}.

Definition resume (down : bool) (todo : list string) : manager := if down then TearDown todo else Sweep todo.

Definition at_manager (m : manager) (p : process) : process :=
  mkProcess m (pr_caller p) (pr_tearDown p) (pr_workerGrp p) (pr_workers p).
Definition with_group (d : Z) (p : process) : process :=
  mkProcess (pr_manager p) (pr_caller p) (pr_tearDown p) (pr_workerGrp p + d)%Z (pr_workers p).
Definition with_worker (k : string) (w : worker) (p : process) : process :=
  mkProcess (pr_manager p) (pr_caller p) (pr_tearDown p) (pr_workerGrp p) (<[k := w]> (pr_workers p)).

(** The call of [worker.Stop()] from a sweep or from the tear-down. *)
Definition call_stop (down : bool) (k : string) (todo : list string) (w : worker) (p : process) : option process :=
  match stop_worker w with
  | Panicked => None
  | AlreadyClosed w' => Some (at_manager (AfterStop down k todo) (with_worker k w' p))
  | Waits w' => Some (at_manager (StopWaits down k todo) (with_worker k w' p))
  end.

Section process.
Context (ids : list string).

Inductive step : process -> process -> Prop :=
| s_start k todo w p :
    pr_manager p = Sweep (k :: todo) -> pr_workers p !! k = Some w -> wk_isRunning w = false ->
    step p (at_manager (AfterStart k todo) (with_worker k (start_worker w) p))
| s_started k todo p :
    pr_manager p = AfterStart k todo -> step p (at_manager (Sweep todo) (with_group 1 p))
| s_skip k todo p :
    pr_manager p = Sweep (k :: todo) -> step p (at_manager (Sweep todo) p)
| s_sweep_stop k todo w p p' :
    pr_manager p = Sweep (k :: todo) -> pr_workers p !! k = Some w -> wk_isRunning w = true ->
    call_stop false k todo w p = Some p' -> step p p'
| s_stop_wait down k todo w p :
    pr_manager p = StopWaits down k todo -> pr_workers p !! k = Some w -> wk_syncTeardown w = 0%nat ->
    step p (at_manager (AfterStop down k todo) (with_worker k (set_isRunning false w) p))
| s_stopped down k todo p :
    pr_manager p = AfterStop down k todo -> step p (at_manager (resume down todo) (with_group (-1) p))
| s_swept p :
    pr_manager p = Sweep [] ->
    step p (mkProcess Waiting (if decide (pr_caller p = InStart) then Up else pr_caller p) (pr_tearDown p) (pr_workerGrp p) (pr_workers p))
| s_tick p : pr_manager p = Waiting -> step p (at_manager (Sweep ids) p)
| s_torn p : pr_manager p = Waiting -> pr_tearDown p = true -> step p (at_manager (TearDown ids) p)
| s_down_skip k todo w p :
    pr_manager p = TearDown (k :: todo) -> pr_workers p !! k = Some w -> wk_isRunning w = false ->
    step p (at_manager (TearDown todo) p)
| s_down_stop k todo w p p' :
    pr_manager p = TearDown (k :: todo) -> pr_workers p !! k = Some w -> wk_isRunning w = true ->
    call_stop true k todo w p = Some p' -> step p p'
| s_exit p : pr_manager p = TearDown [] -> step p (at_manager Exited p)
| s_call_stop p :
    pr_caller p = Up -> step p (mkProcess (pr_manager p) InStop true (pr_workerGrp p) (pr_workers p))
| s_return p :
    pr_caller p = InStop -> pr_workerGrp p = 0%Z -> step p (mkProcess (pr_manager p) Down (pr_tearDown p) (pr_workerGrp p) (pr_workers p))
| s_loop k w w' p :
    pr_workers p !! k = Some w -> loop_step w w' -> step p (with_worker k w' p).

Definition initial : process := mkProcess (Sweep ids) InStart false 0 (list_to_map ((fun k => (k, new_worker)) <$> ids)).

Definition reachable : process -> Prop := rtc step initial.
End process.

(** ** The invariant *)

(** [stopping]: the manager waits for this worker. *)
Definition good_worker (stopping : bool) (w : worker) : Prop :=
  wk_syncTeardown w = length (wk_loops w) /\
  if wk_isRunning w
  then if stopping then wk_imStop w = ClosedChan /\ (length (wk_loops w) <= 1)%nat
       else wk_imStop w = OpenChan /\ length (wk_loops w) = 1%nat
  else wk_loops w = [] /\ stopping = false.

Definition waits_for (m : manager) (k : string) : bool :=
  match m with StopWaits _ k' _ => bool_decide (k = k') | _ => false end.

Definition running (ws : gmap string worker) : gmap string worker := filter (fun kw => wk_isRunning kw.2 = true) ws.

(** The group counts the running workers, except while a worker is between its own
    start or stop and the change of the group. *)
Definition pending (m : manager) : Z :=
  match m with AfterStart _ _ => -1 | AfterStop _ _ _ => 1 | _ => 0 end.

(** The workers that the tear-down has still to stop. *)
Definition remaining (m : manager) (k : string) : Prop :=
  match m with
  | TearDown todo | AfterStop true _ todo => k ∈ todo
  | StopWaits true k' todo => k = k' \/ k ∈ todo
  | Exited => False
  | _ => True
  end.

(** The worker that was just started or stopped. *)
Definition named (m : manager) (ws : gmap string worker) : Prop :=
  match m with
  | AfterStart k _ => exists w, ws !! k = Some w /\ wk_isRunning w = true
  | StopWaits _ k _ => exists w, ws !! k = Some w /\ wk_isRunning w = true
  | _ => True
  end.

Definition invariant (ids : list string) (p : process) : Prop :=
  (forall k w, pr_workers p !! k = Some w -> good_worker (waits_for (pr_manager p) k) w /\ k ∈ ids) /\
  pr_workerGrp p = (Z.of_nat (size (running (pr_workers p))) + pending (pr_manager p))%Z /\
  (forall k w, pr_workers p !! k = Some w -> wk_isRunning w = true -> remaining (pr_manager p) k) /\
  named (pr_manager p) (pr_workers p).

Lemma running_insert_size ws k w w' :
  ws !! k = Some w ->
  (Z.of_nat (size (running (<[k := w']> ws))) =
   Z.of_nat (size (running ws)) - (if wk_isRunning w then 1 else 0) + (if wk_isRunning w' then 1 else 0))%Z.
Proof.
  intros Hk. unfold running.
  assert (Z.of_nat (size (filter (fun kw : string * worker => wk_isRunning kw.2 = true) ws)) =
    Z.of_nat (size (filter (fun kw => wk_isRunning kw.2 = true) (delete k ws))) + (if wk_isRunning w then 1 else 0))%Z as ->.
  { rewrite <- (insert_delete_id ws k w Hk) at 1. destruct (wk_isRunning w) eqn:E.
    - rewrite map_filter_insert_True by done. rewrite map_size_insert_None; [lia|]. apply map_lookup_filter_None. left. apply lookup_delete_eq.
    - rewrite map_filter_insert_not'; [lia|simpl; congruence|]. intros y. by rewrite lookup_delete_eq. }
  rewrite <- (insert_delete_eq ws k w'). destruct (wk_isRunning w') eqn:E.
  - rewrite map_filter_insert_True by done. rewrite map_size_insert_None; [lia|]. apply map_lookup_filter_None. left. apply lookup_delete_eq.
  - rewrite map_filter_insert_not'; [lia|simpl; congruence|]. intros y. by rewrite lookup_delete_eq.
Qed.

(** Loops keep it. *)
Lemma loop_step_good w w' b : loop_step w w' -> good_worker b w -> good_worker b w' /\ wk_isRunning w' = wk_isRunning w.
Proof.
  intros [? l1 l2 Hl|? l1 l2 Hl|? l1 l2 Hl Hc] [Hs Hg]; unfold good_worker; simpl; (split; [|done]); rewrite Hl in Hs, Hg;
    rewrite ?length_app in *; simpl in *.
  - split; [lia|]. destruct (wk_isRunning w0), b; [done..| |]; destruct Hg as [Hg _]; by destruct l1.
  - split; [lia|]. destruct (wk_isRunning w0), b; [done..| |]; destruct Hg as [Hg _]; by destruct l1.
  - split; [lia|]. destruct (wk_isRunning w0), b; [split; [done|]; lia|destruct Hg as [Hg _]; congruence| |];
      destruct Hg as [Hg _]; by destruct l1.
Qed.

(** A change of the manager's position, and of one worker. *)
Lemma invariant_move ids p p' :
  invariant ids p -> pr_workers p' = pr_workers p ->
  (forall k, waits_for (pr_manager p') k = waits_for (pr_manager p) k) ->
  (pr_workerGrp p' - pending (pr_manager p') = pr_workerGrp p - pending (pr_manager p))%Z ->
  (forall k, k ∈ ids -> remaining (pr_manager p) k -> remaining (pr_manager p') k \/
     forall w, pr_workers p !! k = Some w -> wk_isRunning w = false) ->
  named (pr_manager p') (pr_workers p') -> invariant ids p'.
Proof.
  intros (Hw & Hg & Hr & _) Ews Ewait Egrp Hrem Hn. split_and!; [| | |done].
  - intros k w Hk. rewrite Ews in Hk. rewrite Ewait. by apply Hw.
  - rewrite Ews. lia.
  - intros k w Hk Hrun. rewrite Ews in Hk. destruct (Hw k w Hk) as [_ Hid].
    destruct (Hrem k Hid (Hr k w Hk Hrun)) as [|Hno]; [done|]. by rewrite (Hno w Hk) in Hrun.
Qed.

Lemma invariant_change ids p p' k w w' :
  invariant ids p -> pr_workers p !! k = Some w -> pr_workers p' = <[k := w']> (pr_workers p) ->
  good_worker (waits_for (pr_manager p') k) w' ->
  (forall k', k' <> k -> waits_for (pr_manager p') k' = waits_for (pr_manager p) k') ->
  (pr_workerGrp p' - pending (pr_manager p') =
   pr_workerGrp p - pending (pr_manager p) - (if wk_isRunning w then 1 else 0) + (if wk_isRunning w' then 1 else 0))%Z ->
  (forall k', k' <> k -> remaining (pr_manager p) k' -> remaining (pr_manager p') k') ->
  (wk_isRunning w' = true -> remaining (pr_manager p') k) ->
  named (pr_manager p') (pr_workers p') -> invariant ids p'.
Proof.
  intros (Hw & Hg & Hr & _) Hk Ews Hgood Ewait Egrp Hrem Hremk Hn. split_and!; [| | |done].
  - intros k' v Hv. rewrite Ews in Hv. apply lookup_insert_Some in Hv as [[<- <-]|[Hne Hv]].
    + split; [done|]. by apply (Hw k w).
    + rewrite Ewait by done. by apply Hw.
  - rewrite Ews, (running_insert_size _ k w w' Hk). lia.
  - intros k' v Hv Hrun. rewrite Ews in Hv. apply lookup_insert_Some in Hv as [[<- <-]|[Hne Hv]]; [by apply Hremk|].
    apply Hrem; [done|]. by apply (Hr k' v).
Qed.

(** A call of [Stop] finds the channel open, and waits. *)
Lemma call_stop_waits ids p p' down k todo w :
  invariant ids p -> waits_for (pr_manager p) k = false -> pr_workers p !! k = Some w -> wk_isRunning w = true ->
  call_stop down k todo w p = Some p' ->
  p' = at_manager (StopWaits down k todo) (with_worker k (mkWorker true ClosedChan (wk_syncTeardown w) (wk_loops w)) p) /\
  good_worker true (mkWorker true ClosedChan (wk_syncTeardown w) (wk_loops w)).
Proof.
  intros (Hw & _) Hno Hk Hrun. destruct (Hw k w Hk) as [[Hs Hg] _]. rewrite Hno, Hrun in Hg. destruct Hg as [Hc Hl].
  unfold call_stop, stop_worker. rewrite Hc, Hrun. intros [= <-]. split; [done|]. split; [done|]. simpl. split; [done|lia].
Qed.

Lemma invariant_step ids p p' : step ids p p' -> invariant ids p -> invariant ids p'.
Proof.
  intros Hs Hi. pose proof Hi as (Hw & Hg & Hr & Hn).
  destruct Hs as [k todo w p E Hk Hrun|k todo p E|k todo p E|k todo w p p' E Hk Hrun Hc|down k todo w p E Hk Hz|down k todo p E|p E|p E|p E Et
    |k todo w p E Hk Hrun|k todo w p p' E Hk Hrun Hc|p E|p Ec|p Ec Hz|k w w' p Hk Hl]; rewrite ?E in *.
  - (* s_start *) destruct (Hw k w Hk) as [[Hsync Hgood] _]. rewrite Hrun in Hgood. destruct Hgood as [Hloops _].
    eapply invariant_change; [exact Hi|exact Hk|done|..]; simpl; rewrite ?E, ?Hrun; simpl; try done.
    + unfold good_worker. simpl. by rewrite Hsync, Hloops.
    + lia.
    + exists (start_worker w). by rewrite lookup_insert_eq.
  - (* s_started *) eapply invariant_move; [exact Hi|..]; simpl; rewrite ?E; simpl; try done; try lia; auto.
  - (* s_skip *) eapply invariant_move; [exact Hi|..]; simpl; rewrite ?E; simpl; try done; try lia; auto.
  - (* s_sweep_stop *) apply (call_stop_waits ids) in Hc as [-> Hgood]; [|done|by rewrite E|done|done].
    eapply invariant_change; [exact Hi|exact Hk|done|..]; simpl; rewrite ?E, ?Hrun; simpl; try done.
    + by rewrite bool_decide_eq_true_2.
    + intros k' Hne. by rewrite bool_decide_eq_false_2.
    + lia.
    + eexists. by rewrite lookup_insert_eq.
  - (* s_stop_wait *) destruct Hn as (v & Hv & Hrun). rewrite Hk in Hv. injection Hv as <-. destruct (Hw k w Hk) as [[Hsync Hgood] _].
    assert (wk_loops w = []) as Hloops by (apply length_zero_iff_nil; lia).
    eapply invariant_change; [exact Hi|exact Hk|done|..]; simpl; rewrite ?E, ?Hrun; simpl; try done.
    + intros k' Hne. by rewrite bool_decide_eq_false_2.
    + lia.
    + intros k' Hne. destruct down; [|done]. by intros [?|?].
  - (* s_stopped *) eapply invariant_move; [exact Hi|..]; simpl; rewrite ?E; simpl; try done; destruct down; simpl; try done; try lia; auto.
  - (* s_swept *) eapply invariant_move; [exact Hi|..]; simpl; rewrite ?E; simpl; try done; try lia; auto.
  - (* s_tick *) eapply invariant_move; [exact Hi|..]; simpl; rewrite ?E; simpl; try done; try lia; auto.
  - (* s_torn *) eapply invariant_move; [exact Hi|..]; simpl; rewrite ?E; simpl; try done; try lia; auto.
  - (* s_down_skip *) eapply invariant_move; [exact Hi|..]; simpl; rewrite ?E; simpl; try done; try lia.
    intros k' _ [->|?]%elem_of_cons; [right|by left]. intros v Hv. by rewrite Hk in Hv; injection Hv as <-.
  - (* s_down_stop *) apply (call_stop_waits ids) in Hc as [-> Hgood]; [|done|by rewrite E|done|done].
    eapply invariant_change; [exact Hi|exact Hk|done|..]; simpl; rewrite ?E, ?Hrun; simpl; try done.
    + by rewrite bool_decide_eq_true_2.
    + intros k' Hne. by rewrite bool_decide_eq_false_2.
    + lia.
    + intros k' Hne [?|?]%elem_of_cons; auto.
    + by left.
    + eexists. by rewrite lookup_insert_eq.
  - (* s_exit *) eapply invariant_move; [exact Hi|..]; simpl; rewrite ?E; simpl; try done; try lia. intros k _ ?%not_elem_of_nil. done.
  - (* s_call_stop *) exact Hi.
  - (* s_return *) exact Hi.
  - (* s_loop *) destruct (Hw k w Hk) as [Hgood Hid]. destruct (loop_step_good w w' _ Hl Hgood) as [Hgood' Erun].
    eapply invariant_change; [exact Hi|exact Hk|done|..]; simpl; rewrite ?Erun; simpl; try done.
    + lia.
    + intros Hrun. by apply (Hr k w).
    + unfold named in *. destruct (pr_manager p) as [| k' ? | ? k' ? | | | |]; try done; destruct Hn as (v & Hv & Hrun);
        (destruct (decide (k' = k)) as [->|Hne]; [exists w'; rewrite lookup_insert_eq, Erun; split; [done|congruence]|
          exists v; by rewrite lookup_insert_ne]).
Qed.

Lemma initial_workers ids k w : pr_workers (initial ids) !! k = Some w -> w = new_worker /\ k ∈ ids.
Proof.
  simpl. intros Hk. apply elem_of_list_to_map_2, list_elem_of_fmap in Hk as (k' & [= <- <-] & Hk). done.
Qed.

Lemma invariant_initial ids : invariant ids (initial ids).
Proof.
  split_and!; [| |done|done].
  - intros k w Hk. by apply initial_workers in Hk as [-> ?].
  - simpl. enough (running (list_to_map ((fun k => (k, new_worker)) <$> ids)) = ∅) as -> by by rewrite map_size_empty.
    apply map_empty_filter_2. intros k w Hk Hr. by apply (initial_workers ids) in Hk as [-> _].
Qed.

Lemma invariant_reachable ids p : reachable ids p -> invariant ids p.
Proof.
  intros Hr. unfold reachable in Hr. remember (initial ids) as p0 eqn:E0.
  assert (invariant ids p0) as Hi by (subst; apply invariant_initial). clear E0.
  induction Hr as [|p0 p1 p2 Hs _ IH]; [done|]. apply IH. by eapply invariant_step.
Qed.

(** C28. Whatever the leases decide and however the goroutines interleave, a worker
    has at most one loop, so that its passes never overlap; a worker that was
    stopped has none; stopping a running worker never closes a nil channel; and when
    the manager's goroutine has ended no worker runs. *)
Theorem workers_exclusive ids p k w :
  reachable ids p -> pr_workers p !! k = Some w ->
  (length (wk_loops w) <= 1)%nat /\ (wk_isRunning w = false -> wk_loops w = []) /\
  (wk_isRunning w = true -> stop_worker w <> Panicked) /\ (pr_manager p = Exited -> wk_loops w = [] /\ pr_workerGrp p = 0%Z).
Proof.
  intros Hr Hk. destruct (invariant_reachable ids p Hr) as (Hw & Hg & Hrem & _). destruct (Hw k w Hk) as [[_ Hgood] _].
  destruct (wk_isRunning w) eqn:Hrun.
  - assert (stop_worker w <> Panicked) as Hp by (unfold stop_worker; destruct (waits_for _ _), Hgood as [-> _]; done).
    split_and!; [destruct (waits_for _ _); lia|done|done|]. intros E. specialize (Hrem k w Hk Hrun). by rewrite E in Hrem.
  - destruct Hgood as [-> _]. split_and!; [simpl; lia|done|done|]. intros E. split; [done|]. rewrite Hg, E. simpl.
    enough (running (pr_workers p) = ∅) as -> by by rewrite map_size_empty.
    apply map_empty_filter_2. intros k' v Hv Hv'. specialize (Hrem k' v Hv Hv'). by rewrite E in Hrem.
Qed.

(** ** Stopping *)

(** [Stop] of the manager may return while a worker is in a pass: the group that
    it waits for counts a worker only after the worker was started. *)
Theorem Stop_returns_early :
  exists p w, reachable ["w"] p /\ pr_caller p = Down /\ pr_workers p !! "w" = Some w /\ wk_loops w = [InPass].
Proof.
  set (run := start_worker new_worker). exists (mkProcess (AfterStart "w" []) Down true 0 {[ "w" := run ]}), run.
  split_and!; [|done|done|done]. unfold reachable.
  assert (initial ["w"] = mkProcess (Sweep ["w"]) InStart false 0 {[ "w" := new_worker ]}) as -> by done.
  eapply rtc_l; [by eapply (s_skip _ "w")|]. eapply rtc_l; [by apply s_swept|]. simpl.
  eapply rtc_l; [by apply s_tick|]. eapply rtc_l; [by eapply (s_start _ "w" [] new_worker)|].
  eapply rtc_l; [by apply s_call_stop|]. eapply rtc_l; [by apply s_return|]. reflexivity.
Qed.

(** *** The tear-down can always finish *)

Section exit.
Context (ids : list string).

(** The manager considers workers that exist. *)
Definition proper (p : process) : Prop :=
  (forall k, k ∈ ids -> is_Some (pr_workers p !! k)) /\
  match pr_manager p with
  | Sweep todo | AfterStart _ todo | TearDown todo | StopWaits _ _ todo | AfterStop _ _ todo => todo ⊆ ids
  | _ => True
  end.

(** The tear-down was asked for. *)
Definition closing (p : process) : Prop := invariant ids p /\ pr_tearDown p = true /\ proper p.

Definition can_exit (p : process) : Prop := exists p', rtc (step ids) p p' /\ pr_manager p' = Exited.

Lemma can_exit_step p p' : step ids p p' -> can_exit p' -> can_exit p.
Proof. intros Hs (q & Hr & Hq). exists q. split; [by eapply rtc_l|done]. Qed.

Lemma insert_is_Some (ws : gmap string worker) k k' (w : worker) : is_Some (ws !! k') -> is_Some (<[k := w]> ws !! k').
Proof. intros Hk. apply lookup_insert_is_Some'. by right. Qed.

Lemma proper_step p p' : step ids p p' -> proper p -> proper p' /\ (pr_tearDown p = true -> pr_tearDown p' = true).
Proof.
  intros Hs (Hd & Hm). unfold proper.
  destruct Hs as [k todo w p E Hk Hrun|k todo p E|k todo p E|k todo w p p' E Hk Hrun Hc|down k todo w p E Hk Hz|down k todo p E|p E|p E|p E Et
    |k todo w p E Hk Hrun|k todo w p p' E Hk Hrun Hc|p E|p Ec|p Ec Hz|k w w' p Hk Hl]; rewrite ?E in Hm;
    try (assert (exists w', p' = at_manager (StopWaits false k todo) (with_worker k w' p) \/ p' = at_manager (AfterStop false k todo) (with_worker k w' p) \/
        p' = at_manager (StopWaits true k todo) (with_worker k w' p) \/ p' = at_manager (AfterStop true k todo) (with_worker k w' p))
      as (w' & [->|[->|[->| ->]]]) by (unfold call_stop in Hc; destruct (stop_worker w); naive_solver));
    simpl; (split; [|done]); (split; [intros; by eauto using insert_is_Some|]); try done; try set_solver.
  destruct down; simpl; done.
Qed.

Lemma closing_step p p' : step ids p p' -> closing p -> closing p'.
Proof.
  intros Hs (Hi & Ht & Hp). destruct (proper_step p p' Hs Hp) as [? ?]. split; [by eapply invariant_step|auto].
Qed.

Lemma proper_reachable p : reachable ids p -> proper p.
Proof.
  intros Hr. unfold reachable in Hr. remember (initial ids) as p0 eqn:E0.
  assert (proper p0) as Hp.
  { subst. split; [|simpl; set_solver]. intros k Hk. simpl. apply not_eq_None_Some. intros Hn.
    apply (not_elem_of_list_to_map_2 (M := gmap string)) in Hn. apply Hn. rewrite <- list_fmap_compose. apply list_elem_of_fmap. eauto. }
  clear E0. induction Hr as [|p0 p1 p2 Hs _ IH]; [done|]. apply IH. by apply (proper_step p0).
Qed.

(** A worker whose channel is closed comes to its end: the pass, then the loop. *)
Lemma loops_end k p :
  closing p -> waits_for (pr_manager p) k = true ->
  exists p', rtc (step ids) p p' /\ closing p' /\ pr_manager p' = pr_manager p /\
    exists w, pr_workers p' !! k = Some w /\ wk_syncTeardown w = 0%nat.
Proof.
  intros Hc Hwait.
  assert (forall q w, closing q -> pr_manager q = pr_manager p -> pr_workers q !! k = Some w -> wk_loops w = [Selecting] ->
    exists p', rtc (step ids) q p' /\ closing p' /\ pr_manager p' = pr_manager p /\
      exists w, pr_workers p' !! k = Some w /\ wk_syncTeardown w = 0%nat) as Hsel.
  { intros q w Hq Hm Hw Hl. pose proof Hq as ((Hgood & _) & _). destruct (Hgood k w Hw) as [[Hs Hg] _].
    rewrite Hm, Hwait, Hl in Hg. rewrite Hl in Hs. destruct (wk_isRunning w); [|by destruct Hg].
    assert (step ids q (with_worker k (mkWorker (wk_isRunning w) ClosedChan (pred (wk_syncTeardown w)) ([] ++ [])) q)) as Hstep.
    { eapply s_loop; [done|]. apply (l_stop w [] []); [done|apply Hg]. }
    eexists. split_and!; [by eapply rtc_once|by eapply closing_step|done|]. eexists. split; [apply lookup_insert_eq|]. simpl. by rewrite Hs. }
  pose proof Hc as ((Hgood & _ & _ & Hn) & _).
  assert (exists w, pr_workers p !! k = Some w) as [w Hw].
  { destruct (pr_manager p) as [| |down k' todo| | | |]; try done. apply bool_decide_eq_true in Hwait as ->. naive_solver. }
  destruct (Hgood k w Hw) as [[Hs Hg] _]. rewrite Hwait in Hg.
  destruct (wk_loops w) as [|l [|? ?]] eqn:Hl; [| |destruct (wk_isRunning w); [simpl in Hg; lia|by destruct Hg]].
  - exists p. split_and!; [done|done|done|]. by exists w.
  - destruct l; [|by apply (Hsel p w)].
    assert (step ids p (with_worker k (mkWorker (wk_isRunning w) (wk_imStop w) (wk_syncTeardown w) ([] ++ [Selecting])) p)) as Hstep.
    { eapply s_loop; [done|]. by apply (l_pass_done w [] []). }
    destruct (Hsel _ (mkWorker (wk_isRunning w) (wk_imStop w) (wk_syncTeardown w) [Selecting]) (closing_step _ _ Hstep Hc)) as (p' & Hr & Hc' & Hm & Hz);
      [done|apply lookup_insert_eq|done|]. exists p'. split_and!; [by eapply rtc_l|done|done|done].
Qed.

(** The tear-down passes a worker. *)
Lemma stop_passes down k todo p :
  (forall q, closing q -> pr_manager q = resume down todo -> can_exit q) ->
  closing p -> pr_manager p = StopWaits down k todo \/ pr_manager p = AfterStop down k todo -> can_exit p.
Proof.
  intros Hnext.
  assert (forall q, closing q -> pr_manager q = AfterStop down k todo -> can_exit q) as Hafter.
  { intros q Hq Hm. pose proof (s_stopped ids down k todo q Hm) as Hs. eapply can_exit_step; [exact Hs|].
    apply Hnext; [by eapply closing_step|done]. }
  intros Hc [Hm|Hm]; [|by apply Hafter].
  destruct (loops_end k p Hc) as (p' & Hr & Hc' & Hm' & w & Hw & Hz); [rewrite Hm; by apply bool_decide_eq_true|].
  rewrite Hm in Hm'. pose proof (s_stop_wait ids down k todo w p' Hm' Hw Hz) as Hs.
  destruct (Hafter _ (closing_step _ _ Hs Hc') eq_refl) as (q & Hrq & Hq). exists q. split; [|done].
  etransitivity; [exact Hr|]. by eapply rtc_l.
Qed.

Lemma teardown_exits todo p : closing p -> pr_manager p = TearDown todo -> can_exit p.
Proof.
  revert p. induction todo as [|k todo IH]; intros p Hc Hm.
  { eapply can_exit_step; [by apply s_exit|]. eexists. split; [reflexivity|done]. }
  pose proof Hc as (Hi & _ & Hd & Hsub). rewrite Hm in Hsub. destruct (Hd k) as [w Hw]; [set_solver|].
  destruct (wk_isRunning w) eqn:Hrun.
  - pose proof Hi as (Hgood & _). destruct (Hgood k w Hw) as [[_ Hg] _]. rewrite Hrun, Hm in Hg. destruct Hg as [Hopen _].
    assert (call_stop true k todo w p = Some (at_manager (StopWaits true k todo) (with_worker k (mkWorker true ClosedChan (wk_syncTeardown w) (wk_loops w)) p))) as Hcall.
    { unfold call_stop, stop_worker. by rewrite Hopen, Hrun. }
    pose proof (s_down_stop ids k todo w p _ Hm Hw Hrun Hcall) as Hs. eapply can_exit_step; [exact Hs|].
    apply (stop_passes true k todo); [by apply IH|by eapply closing_step|by left].
  - pose proof (s_down_skip ids k todo w p Hm Hw Hrun) as Hs. eapply can_exit_step; [exact Hs|]. apply IH; [by eapply closing_step|done].
Qed.

Lemma sweep_exits todo p : closing p -> pr_manager p = Sweep todo -> can_exit p.
Proof.
  assert (forall q, closing q -> pr_manager q = Waiting -> can_exit q) as Hwaiting.
  { intros q Hq Hm. pose proof Hq as (_ & Ht & _). pose proof (s_torn ids q Hm Ht) as Hs. eapply can_exit_step; [exact Hs|].
    eapply teardown_exits; [by eapply closing_step|done]. }
  revert p. induction todo as [|k todo IH]; intros p Hc Hm.
  - pose proof (s_swept ids p Hm) as Hs. eapply can_exit_step; [exact Hs|]. apply Hwaiting; [by eapply closing_step|done].
  - pose proof (s_skip ids k todo p Hm) as Hs. eapply can_exit_step; [exact Hs|]. apply IH; [by eapply closing_step|done].
Qed.

Lemma closing_exits p : closing p -> can_exit p.
Proof.
  intros Hc. pose proof Hc as (_ & Ht & _). destruct (pr_manager p) as [todo|k todo|down k todo|down k todo| |todo|] eqn:Hm.
  - by eapply sweep_exits.
  - pose proof (s_started ids k todo p Hm) as Hs. eapply can_exit_step; [exact Hs|]. eapply sweep_exits; [by eapply closing_step|done].
  - apply (stop_passes down k todo); [|done|by left]. intros q Hq Hmq. destruct down; [by eapply teardown_exits|by eapply sweep_exits].
  - apply (stop_passes down k todo); [|done|by right]. intros q Hq Hmq. destruct down; [by eapply teardown_exits|by eapply sweep_exits].
  - pose proof (s_torn ids p Hm Ht) as Hs. eapply can_exit_step; [exact Hs|]. eapply teardown_exits; [by eapply closing_step|done].
  - by eapply teardown_exits.
  - exists p. by split.
Qed.

(** C29. Once the tear-down was asked for, the manager can always finish, from every
    state the process can get into: no worker's stop blocks it for ever, since a pass
    that ends and a loop that sees its channel closed let it go on. *)
Theorem shutdown_never_stuck p : reachable ids p -> pr_tearDown p = true -> can_exit p.
Proof.
  intros Hr Ht. apply closing_exits. split_and!; [by apply invariant_reachable|done|by apply proper_reachable].
Qed.
End exit.

(** A process with a running worker that is asked to stop. *)
Definition stopping_process : process := mkProcess Waiting InStop true 1 {[ "w" := start_worker new_worker ]}.

Lemma stopping_reachable : reachable ["w"] stopping_process.
Proof.
  unfold reachable. assert (initial ["w"] = mkProcess (Sweep ["w"]) InStart false 0 {[ "w" := new_worker ]}) as -> by reflexivity.
  eapply rtc_l; [by eapply (s_start _ "w" [] new_worker)|]. eapply rtc_l; [by eapply s_started|]. eapply rtc_l; [by apply s_swept|].
  eapply rtc_l; [by apply s_call_stop|]. reflexivity.
Qed.

Lemma workers_exclusive_witness : exists w, pr_workers stopping_process !! "w" = Some w /\ (length (wk_loops w) <= 1)%nat.
Proof.
  exists (start_worker new_worker). split; [reflexivity|].
  exact (proj1 (workers_exclusive ["w"] stopping_process "w" (start_worker new_worker) stopping_reachable ltac:(reflexivity))).
Defined.

Lemma shutdown_never_stuck_witness : can_exit ["w"] stopping_process.
Proof. exact (shutdown_never_stuck ["w"] stopping_process stopping_reachable ltac:(reflexivity)). Defined.
