(* ===== verification/Kube.v ===== *)
(** * The cluster of the data plane (fleetshard/pkg/k8s, fleetshard/pkg/util)

    What the fleetshard synchronizer sees of Kubernetes: objects of several kinds,
    read and written through controller-runtime's client ([Kube]), and the code
    that works on single objects: the routes of a central (k8s/route.go), the
    revision annotation (util/revision.go), the proxy settings
    (reconciler/proxy.go) and the statuses that are reported
    (reconciler/status.go, reconciler/errors.go).

    An operation of the client may fail at any time.  [KubeLaws] says what a
    successful operation and a failed one leave; nothing is said about what other
    clients of the cluster do between two operations. *)

From stdpp Require Import sorting.
From S2P Require Import Prelude GoString GoFmt ServiceErrors CentralRequest Versions World Effects Resources Presenters.
Local Open Scope string_scope.
Local Open Scope Z_scope.

(** ** Errors

    The errors of the API server carry a reason, which [apiErrors.IsNotFound] finds
    behind any number of wrappings, as [errors.As] finds the errors of AWS and of
    PostgreSQL; the variables of reconciler/errors.go are
    compared with [errors.Is]. *)

Inductive kreason := ReasonNotFound | ReasonAlreadyExists | ReasonOther.

Inductive kerr :=
| KStatus (reason : kreason) (msg : string)
| KAws (code msg : string)
| KPq (condition msg : string)
| KText (msg : string)
| KWrap (msg : string) (inner : kerr)
| ErrBusy
| ErrCentralNotChanged
| ErrDeletionInProgress
| ErrCentralTLSSecretNotFound.

#[export] Instance kreason_eq_dec : EqDecision kreason.
Proof. solve_decision. Defined.
#[export] Instance kerr_eq_dec : EqDecision kerr.
Proof. solve_decision. Defined.

Fixpoint kerr_text (e : kerr) : string :=
  match e with
  | KStatus _ msg | KAws _ msg | KPq _ msg | KText msg => msg
  | KWrap msg e => msg +:+ ": " +:+ kerr_text e
  | ErrBusy => "reconciler still busy"
  | ErrCentralNotChanged => "central not changed"
  | ErrDeletionInProgress => "deletion in progress"
  | ErrCentralTLSSecretNotFound => "central-tls secret not found"
  end.

(** The error at the end of the chain of wrappings. *)
Fixpoint root_cause (e : kerr) : kerr := match e with KWrap _ e => root_cause e | e => e end.

Definition IsNotFound (e : kerr) : bool :=
  match root_cause e with KStatus ReasonNotFound _ => true | _ => false end.
Definition IsAlreadyExists (e : kerr) : bool :=
  match root_cause e with KStatus ReasonAlreadyExists _ => true | _ => false end.

(** [errors.Is] for an error value that wraps nothing. *)
Definition errors_Is (e target : kerr) : bool := bool_decide (root_cause e = target).

Definition IsSkippable (err : kerr) : bool :=
  errors_Is err ErrBusy || errors_Is err ErrCentralNotChanged || errors_Is err ErrDeletionInProgress.

(** ** Objects *)

(** [metav1.ObjectMeta].  A nil map and an empty one are not told apart by the code
    that reads them. *)
Record ObjectMeta := mkMeta {
  om_Name : string; om_Namespace : string; om_Labels : gmap string string; om_Annotations : gmap string string;
  om_ResourceVersion : string; om_Deleting : bool
}.

Definition set_annotations (a : gmap string string) (m : ObjectMeta) : ObjectMeta :=
  mkMeta (om_Name m) (om_Namespace m) (om_Labels m) a (om_ResourceVersion m) (om_Deleting m).
Definition set_namespace (ns : string) (m : ObjectMeta) : ObjectMeta :=
  mkMeta (om_Name m) ns (om_Labels m) (om_Annotations m) (om_ResourceVersion m) (om_Deleting m).
Definition set_version (v : string) (m : ObjectMeta) : ObjectMeta :=
  mkMeta (om_Name m) (om_Namespace m) (om_Labels m) (om_Annotations m) v (om_Deleting m).

(** [openshiftRouteV1.TLSConfig], with the fields that are set. *)
Record TLSConfig := mkTLS { tls_Termination : string; tls_Key : string; tls_Certificate : string; tls_DestinationCA : string }.
Record RouteIngress := mkIngress {
  ri_Host : string; ri_RouterCanonicalHostname : string; ri_Conditions : list (string * string)
}.
Record RouteBody := mkRouteBody {
  rt_Host : string; rt_TargetPort : string; rt_To : string * string; rt_TLS : TLSConfig; rt_Ingress : list RouteIngress
}.

(** [v1alpha1.ScannerAnalyzerScaling]: pointers to the values of the API. *)
Record ScalingV1 := mkScalingV1 {
  sv_AutoScaling : option string; sv_Replicas : option Z; sv_MinReplicas : option Z; sv_MaxReplicas : option Z
}.

Definition ConvertPrivateScalingToV1 (scaling : ScannerAnalyzerScaling) : ScalingV1 :=
  mkScalingV1 (Some (sa_AutoScaling scaling)) (Some (sa_Replicas scaling)) (Some (sa_MinReplicas scaling))
    (Some (sa_MaxReplicas scaling)).

(** The spec of the custom resource Central, with the fields that are set. *)
Record CentralCRSpec `{Quantities} := mkCentralCRSpec {
  ks_RouteEnabled : bool;
  ks_MonitoringEnabled : bool;
  ks_CentralResources : ResourceRequirements;
  ks_TelemetryEnabled : bool; ks_TelemetryEndpoint : string; ks_TelemetryKey : string;
  ks_AnalyzerResources : ResourceRequirements; ks_AnalyzerScaling : ScalingV1; ks_ScannerDbResources : ResourceRequirements;
  ks_ScannerMonitoringEnabled : bool;
  ks_EnvVars : list (string * string); ks_CustomAnnotations : gmap string string; ks_CustomLabels : gmap string string;
  ks_AdminPasswordGenerationDisabled : bool;
  (** connection string and name of the secret with the password *)
  ks_DB : option (string * string);
  (** additional certificates, by name *)
  ks_TLS : option (list (string * string))
}.

Inductive kind := KCentral | KNamespace | KSecret | KRoute | KDeployment | KService | KOther (gvk : string).

#[export] Instance kind_eq_dec : EqDecision kind.
Proof. solve_decision. Defined.

(** What the objects of a kind hold beside their metadata: of a namespace whether it
    is terminating, of a deployment its available and unavailable replicas. *)
Definition body_of `{Quantities} (k : kind) : Type :=
  match k with
  | KCentral => CentralCRSpec
  | KNamespace => bool
  | KSecret => gmap string string
  | KRoute => RouteBody
  | KDeployment => Z * Z
  | KService => list (string * Z)
  | KOther _ => string
  end.

Record kobj `{Quantities} (k : kind) := mkObj { ko_meta : ObjectMeta; ko_body : body_of k }.
Arguments mkObj {_} _ _ _.
Arguments ko_meta {_ _}.
Arguments ko_body {_ _}.

(** [ctrlClient.ObjectKey]: namespace and name; a namespace has none. *)
Definition ObjectKey : Type := string * string.

Definition key_of `{Quantities} {k} (o : kobj k) : ObjectKey :=
  (match k with KNamespace => "" | _ => om_Namespace (ko_meta o) end, om_Name (ko_meta o)).

(** The namespace an object belongs to; a namespace belongs to itself. *)
Definition scope (k : kind) (key : ObjectKey) : string := match k with KNamespace => key.2 | _ => key.1 end.

(** ** The client *)

Class Kube `{Quantities} (W : Type) := {
  kview : W -> forall k, gmap ObjectKey (kobj k);
  kget : forall k, ObjectKey -> prog W (result kerr (kobj k));
  kcreate : forall {k}, kobj k -> prog W (option kerr);
  kupdate : forall {k}, kobj k -> prog W (option kerr);
  kdelete : forall {k}, kobj k -> prog W (option kerr)
}.

(** The objects outside a namespace stay as they are. *)
Definition outside `{Kube W} (ns : string) (w w' : W) : Prop :=
  forall k key, scope k key <> ns -> kview w' k !! key = kview w k !! key.

#[export] Instance outside_preorder `{Kube W} ns : PreOrder (outside (W:=W) ns).
Proof.
  split; [by intros w k key _|]. intros w1 w2 w3 H12 H23 k key Hk. rewrite (H23 k key Hk). by apply H12.
Qed.

(** Nothing is there that was not there before. *)
Definition no_new `{Kube W} (w w' : W) : Prop := forall k key, kview w k !! key = None -> kview w' k !! key = None.

#[export] Instance no_new_preorder `{Kube W} : PreOrder (no_new (W:=W)).
Proof. split; [by intros w k key|]. intros w1 w2 w3 H12 H23 k key Hk. by apply H23, H12. Qed.

(** No object changes. *)
Definition same_view `{Kube W} (w w' : W) : Prop := forall k, kview w' k = kview w k.

#[export] Instance same_view_preorder `{Kube W} : PreOrder (same_view (W:=W)).
Proof. split; [by intros w k|]. intros w1 w2 w3 H12 H23 k. by rewrite H23. Qed.

(** What an object holds, the fields the server keeps apart. *)
Definition same_content `{Quantities} {k} (o o' : kobj k) : Prop :=
  ko_body o' = ko_body o /\ om_Annotations (ko_meta o') = om_Annotations (ko_meta o) /\
  om_Labels (ko_meta o') = om_Labels (ko_meta o).

(** Reading changes nothing and gives the object.  Writing an object changes that
    object only; if it succeeds the object has the content that was sent, and if it
    fails it may have or not.  Deleting
    an object changes objects of its namespace only (deleting a namespace may empty
    it); deleting and updating create nothing. *)
Class KubeLaws `{Kube W} := {
  kview_keyed w k key o : kview w k !! key = Some o -> key_of o = key;
  kget_same k key : preserves same_view (kget k key);
  kget_found k key w o : (kget k key w).2 = Ok o -> kview w k !! key = Some o;
  kget_missing k key w e : (kget k key w).2 = Err e -> IsNotFound e = true -> kview w k !! key = None;
  kcreate_frame k (o : kobj k) w k' key :
    k' <> k \/ key <> key_of o -> kview (kcreate o w).1 k' !! key = kview w k' !! key;
  kcreate_done k (o : kobj k) w :
    (kcreate o w).2 = None -> exists o', kview (kcreate o w).1 k !! key_of o = Some o' /\ same_content o o';
  kupdate_frame k (o : kobj k) w k' key :
    k' <> k \/ key <> key_of o -> kview (kupdate o w).1 k' !! key = kview w k' !! key;
  kupdate_done k (o : kobj k) w :
    (kupdate o w).2 = None -> exists o', kview (kupdate o w).1 k !! key_of o = Some o' /\ same_content o o';
  kcreate_effect k (o : kobj k) w :
    kview (kcreate o w).1 k !! key_of o = kview w k !! key_of o \/
    exists o', kview (kcreate o w).1 k !! key_of o = Some o' /\ same_content o o';
  kupdate_effect k (o : kobj k) w :
    kview (kupdate o w).1 k !! key_of o = kview w k !! key_of o \/
    exists o', kview (kupdate o w).1 k !! key_of o = Some o' /\ same_content o o';
  kupdate_no_new k (o : kobj k) : preserves no_new (kupdate o);
  kdelete_outside k (o : kobj k) : preserves (outside (scope k (key_of o))) (kdelete o);
  kdelete_no_new k (o : kobj k) : preserves no_new (kdelete o)
}.

Section kube_laws.
Context `{KubeLaws W}.

Lemma same_view_outside ns (w w' : W) : same_view w w' -> outside ns w w'.
Proof. intros Hs k key _. by rewrite Hs. Qed.

Lemma same_view_no_new (w w' : W) : same_view w w' -> no_new w w'.
Proof. intros Hs k key. by rewrite Hs. Qed.

Lemma kcreate_outside k (o : kobj k) : preserves (outside (scope k (key_of o))) (kcreate o).
Proof.
  intros w k' key Hs. apply kcreate_frame. destruct (decide (k' = k)) as [->|Hk]; [|by left].
  right. intros ->. by apply Hs.
Qed.

Lemma kupdate_outside k (o : kobj k) : preserves (outside (scope k (key_of o))) (kupdate o).
Proof.
  intros w k' key Hs. apply kupdate_frame. destruct (decide (k' = k)) as [->|Hk]; [|by left].
  right. intros ->. by apply Hs.
Qed.
End kube_laws.

(** ** Routes (k8s/route.go) *)

Definition ManagedByLabelKey : string := "app.kubernetes.io/managed-by".
Definition ManagedByFleetshardValue : string := "rhacs-fleetshard".
Definition centralReencryptRouteName : string := "managed-central-reencrypt".
Definition centralPassthroughRouteName : string := "managed-central-passthrough".
Definition centralTLSSecretName : string := "central-tls".

Section routes.
Context `{Kube W}.

Definition findRoute (namespace routeName : string) : prog W (result kerr (kobj KRoute)) :=
  with_err (KWrap (Sprintf "retrieving route %q from Kubernetes" [VStr routeName])) (kget KRoute (namespace, routeName)).

Definition FindReencryptRoute (namespace : string) : prog W (result kerr (kobj KRoute)) :=
  findRoute namespace centralReencryptRouteName.
Definition FindPassthroughRoute (namespace : string) : prog W (result kerr (kobj KRoute)) :=
  findRoute namespace centralPassthroughRouteName.

(** The first condition of the type decides. *)
Definition isAdmitted (ingress : RouteIngress) : bool :=
  match list_find (fun c => c.1 = "Admitted") (ri_Conditions ingress) with
  | Some (_, (_, status)) => bool_decide (status = "True")
  | None => false
  end.

Definition findFirstAdmittedIngress (namespace routeName : string) : prog W (result kerr RouteIngress) :=
  r ← findRoute namespace routeName;
  mret (match (r : result kerr (kobj KRoute)) with
        | Err _ => Err (KText "route not found")
        | Ok route =>
            match list_find (fun i => isAdmitted i = true) (rt_Ingress (ko_body route)) with
            | Some (_, ingress) => Ok ingress
            | None => Err (KText (Sprintf "unable to find admitted ingress. route: %s/%s"
                [VStr (om_Namespace (ko_meta route)); VStr (om_Name (ko_meta route))]))
            end
        end).

Definition FindReencryptIngress (namespace : string) : prog W (result kerr RouteIngress) :=
  findFirstAdmittedIngress namespace centralReencryptRouteName.
Definition FindPassthroughIngress (namespace : string) : prog W (result kerr RouteIngress) :=
  findFirstAdmittedIngress namespace centralPassthroughRouteName.

Definition createCentralRoute (name namespace host : string) (tls : TLSConfig) : prog W (result kerr unit) :=
  with_err (KWrap (Sprintf "creating route %s/%s" [VStr namespace; VStr name]))
    (unit_result (kcreate (mkObj KRoute
      (mkMeta name namespace {[ManagedByLabelKey := ManagedByFleetshardValue]} ∅ "" false)
      (mkRouteBody host "https" ("Service", "central") tls [])))).

Definition CreateReencryptRoute (remoteCentral : ManagedCentral) : prog W (result kerr unit) :=
  let namespace := mg_Namespace remoteCentral in
  rs ← kget KSecret (namespace, centralTLSSecretName);
  match rs with
  | Err err =>
      if IsNotFound err then mret (Err ErrCentralTLSSecretNotFound)
      else mret (Err (KWrap (Sprintf "get central TLS secret %s/%s" [VStr namespace; VStr (mg_Name remoteCentral)]) err))
  | Ok centralTLSSecret =>
      match ko_body centralTLSSecret !! "ca.pem" with
      | None => mret (Err (KText (Sprintf "could not find centrals ca certificate 'ca.pem' in secret/%s" [VStr centralTLSSecretName])))
      | Some centralCA =>
          createCentralRoute centralReencryptRouteName namespace (mg_UiHost remoteCentral)
            (mkTLS "reencrypt" (mg_TlsKey remoteCentral) (mg_TlsCert remoteCentral) centralCA)
      end
  end.

Definition CreatePassthroughRoute (remoteCentral : ManagedCentral) : prog W (result kerr unit) :=
  createCentralRoute centralPassthroughRouteName (mg_Namespace remoteCentral) (mg_DataHost remoteCentral)
    (mkTLS "passthrough" "" "" "").
End routes.

(** ** The revision annotation (util/revision.go) *)

Definition RevisionAnnotationKey : string := "rhacs.redhat.com/revision".

(** On the annotations of a central. *)
Definition IncrementCentralRevision (name : string) (annotations : gmap string string) : result kerr (gmap string string) :=
  match annotations !! RevisionAnnotationKey with
  | None => Ok (<[RevisionAnnotationKey := "1"]> annotations)
  | Some revisionString =>
      match Atoi revisionString with
      | (revision, true) => Ok (<[RevisionAnnotationKey := pretty (wrap64 (revision + 1))]> annotations)
      | (_, false) => Err (KText (Sprintf "failed to increment central revision %s" [VStr name]))
      end
  end.

(** ** Proxy settings (reconciler/proxy.go) *)

Definition directServicesAndPorts : list (string * list Z) :=
  [("central", [443]); ("scanner", [8080; 8443]); ("scanner-db", [5432])].

(** The targets, for the entries of the map in the order in which it is walked. *)
Definition noProxyTargets (namespace : string) (entries : list (string * list Z)) : list string :=
  mjoin ((fun e : string * list Z => mjoin ((fun port =>
    [Sprintf "%s:%d" [VStr e.1; VInt port]; Sprintf "%s.%s:%d" [VStr e.1; VStr namespace; VInt port];
     Sprintf "%s.%s.svc:%d" [VStr e.1; VStr namespace; VInt port]]) <$> e.2)) <$> entries).

Definition proxy_env_vars (namespace : string) (entries : list (string * list Z)) : list (string * string) :=
  let proxyURL := Sprintf "http://egress-proxy.%s.svc:3128" [VStr namespace] in
  let noProxyStr := Join "," (sort_Strings (noProxyTargets namespace entries)) in
  (((fun n => (n, proxyURL)) <$> ["http_proxy"; "HTTP_PROXY"; "https_proxy"; "HTTPS_PROXY"; "all_proxy"; "ALL_PROXY"]) ++
   ((fun n => (n, noProxyStr)) <$> ["no_proxy"; "NO_PROXY"]))%list.

Definition getProxyEnvVars (namespace : string) : list (string * string) := proxy_env_vars namespace directServicesAndPorts.

(** ** Reported statuses (reconciler/status.go) *)

Definition status_of (status reason : string) : ApiCentralStatus :=
  mkApiCentralStatus [mkCondition "Ready" reason status ""] None "" "".

Definition readyStatus : ApiCentralStatus := status_of "True" "".
Definition deletedStatus : ApiCentralStatus := status_of "False" "Deleted".
Definition installingStatus : ApiCentralStatus := status_of "False" "Installing".

(** ** The order of maps does not show *)

(** The proxy settings of a namespace are the same in every pass: they do not depend on
    the order in which the map of services is walked. *)
Theorem getProxyEnvVars_order namespace entries :
  entries ≡ₚ directServicesAndPorts -> proxy_env_vars namespace entries = getProxyEnvVars namespace.
Proof.
  intros He. unfold getProxyEnvVars, proxy_env_vars. cbv zeta.
  by rewrite (sort_Strings_perm (noProxyTargets namespace entries) (noProxyTargets namespace directServicesAndPorts))
    by (unfold noProxyTargets; by rewrite He).
Qed.

Lemma getProxyEnvVars_order_witness :
  proxy_env_vars "ns" [("scanner-db", [5432]); ("central", [443]); ("scanner", [8080; 8443])] = getProxyEnvVars "ns".
Proof.
  exact (getProxyEnvVars_order "ns" [("scanner-db", [5432]); ("central", [443]); ("scanner", [8080; 8443])]
    ltac:(apply (bool_decide_unpack _); vm_compute; exact I)).
Defined.
