(* ===== verification/ManagedDB.v ===== *)
(** * Managed databases (fleetshard/pkg/central/cloudprovider, fleetshard/pkg/central/postgres)

    The client that provisions a database in AWS RDS for a central
    (awsclient/rds.go), connection strings (postgres/dbconnection.go) and the
    initialisation of a fresh database (postgres/dbinit.go).  The AWS API and the
    SQL connections are parameters ([AWS], [Postgres]). *)

From S2P Require Import Prelude GoString GoFmt ServiceErrors World Effects Resources Kube.
Local Open Scope string_scope.
Local Open Scope Z_scope.

(** ** Connections (dbconnection.go) *)

Record DBConnection := mkDBConnection {
  db_host : string; db_port : Z; db_database : string; db_user_ : string; db_password : string; db_sslrootcert : string
}.

Definition sslMode : string := "verify-full".

Definition NewDBConnection (host : string) (port : Z) (user database : string) : result kerr DBConnection :=
  if bool_decide (host = "") then Err (KText "host parameter cannot be empty")
  else if port =? 0 then Err (KText "port parameter cannot be 0")
  else if bool_decide (user = "") then Err (KText "user parameter cannot be empty")
  else if bool_decide (database = "") then Err (KText "database parameter cannot be empty")
  else Ok (mkDBConnection host port database user "" "").

Definition WithPassword (password : string) (c : DBConnection) : DBConnection :=
  mkDBConnection (db_host c) (db_port c) (db_database c) (db_user_ c) password (db_sslrootcert c).
Definition WithSSLRootCert (sslrootcert : string) (c : DBConnection) : DBConnection :=
  mkDBConnection (db_host c) (db_port c) (db_database c) (db_user_ c) (db_password c) sslrootcert.
Definition GetConnectionForUser (userName : string) (c : DBConnection) : DBConnection :=
  mkDBConnection (db_host c) (db_port c) (db_database c) userName (db_password c) (db_sslrootcert c).
Definition with_database (database : string) (c : DBConnection) : DBConnection :=
  mkDBConnection (db_host c) (db_port c) database (db_user_ c) (db_password c) (db_sslrootcert c).

Definition AsConnectionString (c : DBConnection) : string :=
  let connectionString := Sprintf "host=%s port=%d user=%s dbname=%s sslmode=%s"
    [VStr (db_host c); VInt (db_port c); VStr (db_user_ c); VStr (db_database c); VStr sslMode] in
  if bool_decide (db_sslrootcert c <> "")
  then Sprintf "%s sslrootcert=%s" [VStr connectionString; VStr (db_sslrootcert c)] else connectionString.

Definition asConnectionStringWithPassword (c : DBConnection) : string :=
  AsConnectionString c +:+ Sprintf " password=%s" [VStr (db_password c)].

(** ** The RDS client (rds.go) *)

Definition dbAvailableStatus : string := "available".
Definition dbDeletingStatus : string := "deleting".
Definition dbUser : string := "rhacs_master".
Definition dbPrefix : string := "rhacs-".
Definition dbInstanceSuffix : string := "-db-instance".
Definition dbFailoverSuffix : string := "-db-failover".
Definition dbClusterSuffix : string := "-db-cluster".
Definition dbEngine : string := "aurora-postgresql".
Definition dbEngineVersion : string := "13.9".
Definition dbAutoVersionUpgrade : bool := false.
Definition dbInstanceClass : string := "db.serverless".
Definition dbPostgresPort : Z := 5432.
Definition dbName : string := "postgres".
Definition dbBackupRetentionPeriod : Z := 30.
Definition dbInstancePromotionTier : Z := 2.
Definition dbCACertificateType : string := "rds-ca-rsa4096-g1".
Definition dataplaneClusterNameKey : string := "DataplaneClusterName".

Definition ErrCodeDBClusterNotFoundFault : string := "DBClusterNotFoundFault".
Definition ErrCodeDBInstanceNotFoundFault : string := "DBInstanceNotFound".

Definition getClusterID (databaseID : string) : string := dbPrefix +:+ databaseID +:+ dbClusterSuffix.
Definition getInstanceID (databaseID : string) : string := dbPrefix +:+ databaseID +:+ dbInstanceSuffix.
Definition getFailoverInstanceID (databaseID : string) : string := dbPrefix +:+ databaseID +:+ dbFailoverSuffix.

Record DBCluster := mkDBCluster { dc_Status : string; dc_Endpoint : string }.

(** Requests; capacities are in tenths of an ACU. *)
Record CreateDBClusterInput := mkClusterInput {
  ci_Identifier : string; ci_Engine : string; ci_EngineVersion : string; ci_MasterUsername : string;
  ci_MasterUserPassword : string; ci_SecurityGroups : list string; ci_SubnetGroup : string; ci_MinCapacity : Z;
  ci_MaxCapacity : Z; ci_BackupRetentionPeriod : Z; ci_StorageEncrypted : bool; ci_Tags : list (string * string)
}.
Record CreateDBInstanceInput := mkInstanceInput {
  ii_Class : string; ii_ClusterIdentifier : string; ii_Identifier : string; ii_Engine : string; ii_PubliclyAccessible : bool;
  ii_PerformanceInsights : bool; ii_PromotionTier : Z; ii_CACertificate : string; ii_AutoMinorVersionUpgrade : bool;
  ii_Tags : list (string * string)
}.

Definition dbMinCapacity : Z := 5.
Definition dbMaxCapacity : Z := 160.

Definition newCreateCentralDBClusterInput (clusterID dbPassword securityGroup subnetGroup dataplaneClusterName : string)
    : CreateDBClusterInput :=
  mkClusterInput clusterID dbEngine dbEngineVersion dbUser dbPassword [securityGroup] subnetGroup dbMinCapacity
    dbMaxCapacity dbBackupRetentionPeriod true [(dataplaneClusterNameKey, dataplaneClusterName)].

Definition newCreateCentralDBInstanceInput (clusterID instanceID dataplaneClusterName : string) (performanceInsights : bool)
    : CreateDBInstanceInput :=
  mkInstanceInput dbInstanceClass clusterID instanceID dbEngine false performanceInsights dbInstancePromotionTier
    dbCACertificateType dbAutoVersionUpgrade [(dataplaneClusterNameKey, dataplaneClusterName)].

(** The API of RDS, with the clusters and the statuses of the instances it keeps. *)
Class AWS (W : Type) := {
  rds_clusters : W -> gmap string DBCluster;
  rds_instances : W -> gmap string string;
  DescribeDBClusters : string -> prog W (result kerr (list DBCluster));
  DescribeDBInstances : string -> prog W (result kerr (list string));
  CreateDBCluster : CreateDBClusterInput -> prog W (option kerr);
  CreateDBInstance : CreateDBInstanceInput -> prog W (option kerr);
  (** the flag: skip the final snapshot *)
  DeleteDBCluster : string -> bool -> prog W (option kerr);
  DeleteDBInstance : string -> bool -> prog W (option kerr)
}.

Record RDSConfig := mkRDSConfig {
  rd_SecurityGroup : string; rd_SubnetGroup : string; rd_PerformanceInsights : bool; rd_ClusterName : string
}.

Section rds.
Context `{AWS W} (conf : RDSConfig).

Definition describeDBCluster (clusterID : string) : prog W (result kerr DBCluster) :=
  r ← DescribeDBClusters clusterID;
  mret (match r with
        | Err err => Err (KWrap "retrieving DB cluster description" err)
        | Ok [c] => Ok c
        | Ok l => Err (KText (Sprintf "unexpected number of DB clusters: %d" [VInt (Z.of_nat (length l))]))
        end).

Definition describeDBInstance (instanceID : string) : prog W (result kerr string) :=
  r ← DescribeDBInstances instanceID;
  mret (match r with
        | Err err => Err (KWrap "retrieving DB instance state" err)
        | Ok [s] => Ok s
        | Ok l => Err (KText (Sprintf "unexpected number of DB instances: %d" [VInt (Z.of_nat (length l))]))
        end).

Definition aws_code (e : kerr) : option string := match root_cause e with KAws code _ => Some code | _ => None end.

(** The status, if the cluster or instance exists. *)
Definition clusterStatus (clusterID : string) : prog W (result kerr (option string)) :=
  r ← describeDBCluster clusterID;
  mret (match r with
        | Ok c => Ok (Some (dc_Status c))
        | Err err => if bool_decide (aws_code err = Some ErrCodeDBClusterNotFoundFault) then Ok None else Err err
        end).

Definition instanceStatus (instanceID : string) : prog W (result kerr (option string)) :=
  r ← describeDBInstance instanceID;
  mret (match r with
        | Ok s => Ok (Some s)
        | Err err => if bool_decide (aws_code err = Some ErrCodeDBInstanceNotFoundFault) then Ok None else Err err
        end).

Definition ensureDBClusterCreated (clusterID masterPassword : string) : prog W (result kerr unit) :=
  st ←? with_err (KWrap "checking if DB cluster exists") (clusterStatus clusterID);
  match st with
  | Some _ => mret (Ok tt)
  | None => with_err (KWrap "creating DB cluster") (unit_result (CreateDBCluster
      (newCreateCentralDBClusterInput clusterID masterPassword (rd_SecurityGroup conf) (rd_SubnetGroup conf) (rd_ClusterName conf))))
  end.

Definition ensureDBInstanceCreated (instanceID clusterID : string) : prog W (result kerr unit) :=
  st ←? with_err (KWrap "checking if DB instance exists") (instanceStatus instanceID);
  match st with
  | Some _ => mret (Ok tt)
  | None => with_err (KWrap "creating DB instance") (unit_result (CreateDBInstance
      (newCreateCentralDBInstanceInput clusterID instanceID (rd_ClusterName conf) (rd_PerformanceInsights conf))))
  end.

Definition ensureInstanceDeleted (instanceID : string) : prog W (result kerr unit) :=
  st ←? with_err (KWrap "getting DB instance status") (instanceStatus instanceID);
  match st with
  | None => mret (Ok tt)
  | Some status =>
      if bool_decide (status <> dbDeletingStatus)
      then with_err (KWrap "deleting DB instance") (unit_result (DeleteDBInstance instanceID true)) else mret (Ok tt)
  end.

Definition ensureClusterDeleted (clusterID : string) : prog W (result kerr unit) :=
  st ←? with_err (KWrap "getting DB cluster status") (clusterStatus clusterID);
  match st with
  | None => mret (Ok tt)
  | Some status =>
      if bool_decide (status <> dbDeletingStatus)
      then with_err (KWrap "deleting DB cluster") (unit_result (DeleteDBCluster clusterID true)) else mret (Ok tt)
  end.

(** [ticks]: how often the ticker fires before the context is done. *)
Fixpoint waitForInstanceToBeAvailable (ticks : nat) (instanceID : string) : prog W (result kerr unit) :=
  st ←? instanceStatus instanceID;
  match st with
  | None => mret (Err (KText (Sprintf "DB instance does not exist: %s" [VStr instanceID])))
  | Some status =>
      if bool_decide (status = dbAvailableStatus) then mret (Ok tt)
      else match ticks with
           | O => mret (Err (KWrap "waiting for RDS instance to be available" (KText "context deadline exceeded")))
           | S ticks => waitForInstanceToBeAvailable ticks instanceID
           end
  end.

Definition EnsureDBProvisioned (ticks : nat) (databaseID masterPassword : string) : prog W (result kerr unit) :=
  let clusterID := getClusterID databaseID in
  let instanceID := getInstanceID databaseID in
  let failoverID := getFailoverInstanceID databaseID in
  _ ←? with_err (KWrap (Sprintf "ensuring DB cluster %s exists" [VStr clusterID])) (ensureDBClusterCreated clusterID masterPassword);
  _ ←? with_err (KWrap (Sprintf "ensuring DB instance %s exists in cluster %s" [VStr instanceID; VStr clusterID]))
         (ensureDBInstanceCreated instanceID clusterID);
  _ ←? with_err (KWrap (Sprintf "ensuring failover DB instance %s exists in cluster %s" [VStr failoverID; VStr clusterID]))
         (ensureDBInstanceCreated failoverID clusterID);
  waitForInstanceToBeAvailable ticks instanceID.

Definition EnsureDBDeprovisioned (databaseID : string) : prog W (result kerr unit) :=
  _ ←? ensureInstanceDeleted (getInstanceID databaseID);
  _ ←? ensureInstanceDeleted (getFailoverInstanceID databaseID);
  ensureClusterDeleted (getClusterID databaseID).

Definition GetDBConnection (databaseID : string) : prog W (result kerr DBConnection) :=
  c ←? describeDBCluster (getClusterID databaseID);
  mret (match NewDBConnection (dc_Endpoint c) dbPostgresPort dbUser dbName with
        | Ok connection => Ok connection
        | Err err => Err (KWrap "incorrect DB connection parameters" err)
        end).
End rds.

(** ** Initialisation of a database (dbinit.go) *)

(** [stackroxDBClones.CurrentClone] *)
Definition centralDBName : string := "central_active".

(** Connections are named by the text they are opened with.  [sql_query] gives the
    first column of the first row, or no row. *)
Class Postgres (W : Type) := {
  sql_open : string -> prog W (option kerr);
  sql_exec : string -> string -> prog W (option kerr);
  sql_query : string -> string -> list string -> prog W (result kerr (option string));
  tx_begin : string -> prog W (option kerr);
  tx_exec : string -> string -> prog W (option kerr);
  tx_commit : string -> prog W (option kerr);
  tx_rollback : string -> prog W (option kerr)
}.

Section init.
Context `{Postgres W}.

(** The statements of the transaction. *)
Definition create_user_statements (con userName userPassword : string) : prog W (result kerr unit) :=
  _ ←? with_err (KWrap "creating DB user") (unit_result (tx_exec con
         ("CREATE USER " +:+ userName +:+ " WITH NOSUPERUSER INHERIT CREATEDB NOREPLICATION VALID UNTIL 'infinity' PASSWORD '"
          +:+ userPassword +:+ "'")));
  _ ←? with_err (KWrap "granting pg_signal_backend to Central DB user")
         (unit_result (tx_exec con ("GRANT pg_signal_backend TO " +:+ userName)));
  with_err (KWrap "granting pg_read_all_stats to Central DB user")
    (unit_result (tx_exec con ("GRANT pg_read_all_stats TO " +:+ userName))).

(** The deferred closure commits or rolls back; it assigns an error of the commit
    to a variable that is no longer read. *)
Definition createNonPrivilegedUser (con userName userPassword : string) : prog W (result kerr unit) :=
  _ ←? with_err (KWrap "beginning PostgreSQL transaction") (unit_result (tx_begin con));
  r ← create_user_statements con userName userPassword;
  _ ← (match r with Ok _ => tx_commit con | Err _ => tx_rollback con end);
  mret r.

Definition changeUserPassword (con userName userPassword : string) : prog W (result kerr unit) :=
  with_err (KWrap (Sprintf "changing the password of DB user %s" [VStr userName]))
    (unit_result (sql_exec con ("ALTER USER " +:+ userName +:+ " WITH PASSWORD '" +:+ userPassword +:+ "'"))).

Definition pq_condition (e : kerr) : option string := match root_cause e with KPq name _ => Some name | _ => None end.

Definition initializeCentralDBUser (con userName userPassword : string) : prog W (result kerr unit) :=
  r ← createNonPrivilegedUser con userName userPassword;
  match r with
  | Ok _ => mret (Ok tt)
  | Err err =>
      if bool_decide (pq_condition err = Some "duplicate_object") then changeUserPassword con userName userPassword
      else mret (Err err)
  end.

Definition createCentralDB (con databaseName owner currentUser : string) : prog W (result kerr unit) :=
  _ ←? with_err (KWrap (Sprintf "granting %s role to %s" [VStr owner; VStr currentUser]))
         (unit_result (sql_exec con ("GRANT " +:+ owner +:+ " TO " +:+ currentUser)));
  rq ← sql_query con "SELECT datname FROM pg_database WHERE datname=$1" [databaseName];
  match rq with
  | Err err => mret (Err (KWrap "checking if central_active DB exists" err))
  | Ok (Some _) => mret (Ok tt)
  | Ok None =>
      with_err (KWrap "creating central_active DB")
        (unit_result (sql_exec con ("CREATE DATABASE " +:+ databaseName +:+ " OWNER " +:+ owner)))
  end.

Definition installExtensions (con : DBConnection) : prog W (result kerr unit) :=
  let db := asConnectionStringWithPassword con in
  _ ←? with_err (KWrap "opening DB") (unit_result (sql_open db));
  with_err (KWrap "creating extension") (unit_result (sql_exec db "CREATE EXTENSION IF NOT EXISTS pg_stat_statements")).

Definition InitializeDatabase (con : DBConnection) (userName userPassword : string) : prog W (result kerr unit) :=
  let db := asConnectionStringWithPassword con in
  _ ←? with_err (KWrap "opening DB") (unit_result (sql_open db));
  _ ←? initializeCentralDBUser db userName userPassword;
  _ ←? createCentralDB db centralDBName userName (db_user_ con);
  installExtensions (with_database centralDBName con).
End init.
