(* ===== verification/ManagedDBProps.v ===== *)
(** * Properties of managed databases

    Databases of different centrals share an AWS account: the client works on the
    cluster and the two instances of its database only.  A database that was
    provisioned is there and available; one that was deprovisioned is gone or being
    deleted. *)

From S2P Require Import Prelude GoString GoFmt ServiceErrors World Effects Resources Kube ManagedDB.
Local Open Scope string_scope.
Local Open Scope Z_scope.

(** ** Names *)

Lemma append_inj_suffix (s t u v : string) :
  s +:+ u = t +:+ v -> String.length u = String.length v -> s = t /\ u = v.
Proof.
  revert t. induction s as [|x s IH]; intros [|y t] E Hl; change ("" +:+ ?r) with r in *.
  - done.
  - rewrite E in Hl. rewrite string_length_append in Hl. cbn in Hl. lia.
  - rewrite <- E in Hl. rewrite string_length_append in Hl. cbn in Hl. lia.
  - injection E as -> E. by apply IH in E as [-> ->].
Qed.

Lemma names_apart a b : a <> b ->
  getClusterID a <> getClusterID b /\
  getInstanceID a <> getInstanceID b /\ getInstanceID a <> getFailoverInstanceID b /\
  getFailoverInstanceID a <> getInstanceID b /\ getFailoverInstanceID a <> getFailoverInstanceID b.
Proof.
  intros Hab. unfold getClusterID, getInstanceID, getFailoverInstanceID.
  repeat split; intros E; apply (inj (String.append dbPrefix)) in E; apply append_inj_suffix in E as [? ?]; done.
Qed.

(** ** The API of AWS *)

Definition same_rds `{AWS W} (w w' : W) : Prop := rds_clusters w' = rds_clusters w /\ rds_instances w' = rds_instances w.

#[export] Instance same_rds_preorder `{AWS W} : PreOrder (same_rds (W:=W)).
Proof. split; [done|]. unfold same_rds. intros w1 w2 w3 [-> ->] [-> ->]. done. Qed.

(** Describing changes nothing; creating and deleting change what they name.  What was
    created is there; what was deleted is gone or being deleted. *)
Class AWSLaws `{AWS W} := {
  describe_clusters_same id : preserves same_rds (DescribeDBClusters id);
  describe_clusters_found id w c : (DescribeDBClusters id w).2 = Ok [c] -> rds_clusters w !! id = Some c;
  describe_clusters_missing id w e : (DescribeDBClusters id w).2 = Err e ->
    aws_code e = Some ErrCodeDBClusterNotFoundFault -> rds_clusters w !! id = None;
  describe_instances_same id : preserves same_rds (DescribeDBInstances id);
  describe_instances_found id w st : (DescribeDBInstances id w).2 = Ok [st] -> rds_instances w !! id = Some st;
  describe_instances_missing id w e : (DescribeDBInstances id w).2 = Err e ->
    aws_code e = Some ErrCodeDBInstanceNotFoundFault -> rds_instances w !! id = None;
  create_cluster_frame i w : rds_instances (CreateDBCluster i w).1 = rds_instances w /\
    forall id, id <> ci_Identifier i -> rds_clusters (CreateDBCluster i w).1 !! id = rds_clusters w !! id;
  create_cluster_done i w : (CreateDBCluster i w).2 = None -> is_Some (rds_clusters (CreateDBCluster i w).1 !! ci_Identifier i);
  create_instance_frame i w : rds_clusters (CreateDBInstance i w).1 = rds_clusters w /\
    forall id, id <> ii_Identifier i -> rds_instances (CreateDBInstance i w).1 !! id = rds_instances w !! id;
  create_instance_done i w : (CreateDBInstance i w).2 = None -> is_Some (rds_instances (CreateDBInstance i w).1 !! ii_Identifier i);
  delete_cluster_frame id b w : rds_instances (DeleteDBCluster id b w).1 = rds_instances w /\
    forall id', id' <> id -> rds_clusters (DeleteDBCluster id b w).1 !! id' = rds_clusters w !! id';
  delete_cluster_done id b w : (DeleteDBCluster id b w).2 = None ->
    forall c, rds_clusters (DeleteDBCluster id b w).1 !! id = Some c -> dc_Status c = dbDeletingStatus;
  delete_instance_frame id b w : rds_clusters (DeleteDBInstance id b w).1 = rds_clusters w /\
    forall id', id' <> id -> rds_instances (DeleteDBInstance id b w).1 !! id' = rds_instances w !! id';
  delete_instance_done id b w : (DeleteDBInstance id b w).2 = None ->
    forall st, rds_instances (DeleteDBInstance id b w).1 !! id = Some st -> st = dbDeletingStatus
}.

(** ** One database leaves the others alone *)

(** What belongs to a database stays. *)
Definition keeps_db `{AWS W} (id : string) (w w' : W) : Prop :=
  rds_clusters w' !! getClusterID id = rds_clusters w !! getClusterID id /\
  rds_instances w' !! getInstanceID id = rds_instances w !! getInstanceID id /\
  rds_instances w' !! getFailoverInstanceID id = rds_instances w !! getFailoverInstanceID id.

#[export] Instance keeps_db_preorder `{AWS W} id : PreOrder (keeps_db (W:=W) id).
Proof. split; [done|]. unfold keeps_db. intros w1 w2 w3 (? & ? & ?) (? & ? & ?). repeat split; etransitivity; eassumption. Qed.

Section isolation.
Context `{AWSLaws W} (conf : RDSConfig) (id other : string) (Hne : other <> id).

Lemma same_keeps_db w w' : same_rds w w' -> keeps_db other w w'.
Proof. intros [Hc Hi]. unfold keeps_db. by rewrite Hc, Hi. Qed.

Lemma cluster_status_same cid : preserves same_rds (clusterStatus cid).
Proof. unfold clusterStatus, describeDBCluster. pose proof describe_clusters_same. err_tac. Qed.

Lemma instance_status_same iid : preserves same_rds (instanceStatus iid).
Proof. unfold instanceStatus, describeDBInstance. pose proof describe_instances_same. err_tac. Qed.

Lemma cluster_status_keeps cid : preserves (keeps_db other) (clusterStatus cid).
Proof. eapply preserves_weaken; [apply same_keeps_db|apply cluster_status_same]. Qed.

Lemma instance_status_keeps iid : preserves (keeps_db other) (instanceStatus iid).
Proof. eapply preserves_weaken; [apply same_keeps_db|apply instance_status_same]. Qed.
Hint Resolve cluster_status_keeps instance_status_keeps : fleet.

Lemma create_cluster_keeps i : ci_Identifier i = getClusterID id -> preserves (keeps_db other) (CreateDBCluster i).
Proof.
  intros Hi w. destruct (create_cluster_frame i w) as [Hs Hf], (names_apart other id Hne) as (Hc & _).
  unfold keeps_db. rewrite Hs, Hf; [done|congruence].
Qed.

Lemma delete_cluster_keeps b : preserves (keeps_db other) (DeleteDBCluster (getClusterID id) b).
Proof.
  intros w. destruct (delete_cluster_frame (getClusterID id) b w) as [Hs Hf], (names_apart other id Hne) as (Hc & _).
  unfold keeps_db. rewrite Hs, Hf; done.
Qed.

(** The two instances of the database. *)
Definition own_instance (iid : string) : Prop := iid = getInstanceID id \/ iid = getFailoverInstanceID id.

Lemma create_instance_keeps i : own_instance (ii_Identifier i) -> preserves (keeps_db other) (CreateDBInstance i).
Proof.
  intros Hi w. destruct (create_instance_frame i w) as [Hs Hf], (names_apart other id Hne) as (_ & H1' & H2' & H3' & H4').
  unfold keeps_db. rewrite Hs. split; [done|]. split; apply Hf; destruct Hi; congruence.
Qed.

Lemma delete_instance_keeps iid b : own_instance iid -> preserves (keeps_db other) (DeleteDBInstance iid b).
Proof.
  intros Hi w. destruct (delete_instance_frame iid b w) as [Hs Hf], (names_apart other id Hne) as (_ & H1' & H2' & H3' & H4').
  unfold keeps_db. rewrite Hs. split; [done|]. split; apply Hf; destruct Hi; congruence.
Qed.

Lemma own_main : own_instance (getInstanceID id).
Proof. by left. Qed.
Lemma own_failover : own_instance (getFailoverInstanceID id).
Proof. by right. Qed.
Hint Resolve create_cluster_keeps delete_cluster_keeps create_instance_keeps delete_instance_keeps own_main own_failover : fleet.

Lemma wait_keeps ticks iid : preserves (keeps_db other) (waitForInstanceToBeAvailable ticks iid).
Proof. induction ticks; cbn [waitForInstanceToBeAvailable]; err_tac. Qed.
Hint Resolve wait_keeps : fleet.

Lemma provisioned_keeps ticks password : preserves (keeps_db other) (EnsureDBProvisioned conf ticks id password).
Proof. unfold EnsureDBProvisioned, ensureDBClusterCreated, ensureDBInstanceCreated. err_tac. Qed.

Lemma deprovisioned_keeps : preserves (keeps_db other) (EnsureDBDeprovisioned id).
Proof. unfold EnsureDBDeprovisioned, ensureInstanceDeleted, ensureClusterDeleted. err_tac. Qed.
End isolation.

(** Databases do not interfere: provisioning and deprovisioning a database leaves
    the cluster, the instance and the failover instance of every other database as
    they are, whatever fails. *)
Theorem databases_isolated `{AWSLaws W} conf ticks id other password (w : W) :
  other <> id ->
  keeps_db other w (EnsureDBProvisioned conf ticks id password w).1 /\
  keeps_db other w (EnsureDBDeprovisioned id w).1.
Proof. intros Hne. split; [by apply provisioned_keeps|by apply deprovisioned_keeps]. Qed.

(** ** What provisioning and deprovisioning achieve *)

Section outcomes.
Context `{AWSLaws W} (conf : RDSConfig).

(** Looking for a cluster or an instance gives its status. *)
Lemma wp_clusterStatus cid (Q : W -> result kerr (option string) -> Prop) w :
  (forall w', same_rds w w' -> Q w' (Ok (dc_Status <$> rds_clusters w !! cid))) ->
  (forall w' e, same_rds w w' -> Q w' (Err e)) -> wp (clusterStatus cid) Q w.
Proof.
  intros Hok Herr. unfold wp. pose proof (cluster_status_same cid w) as Hs. revert Hs.
  unfold clusterStatus, describeDBCluster. rewrite !prog_bind_run. cbn [fst snd mret prog_ret]. intros Hs.
  pose proof (describe_clusters_found cid w) as Hf. pose proof (describe_clusters_missing cid w) as Hm.
  destruct ((DescribeDBClusters cid w).2) as [[|c [|c' l]]|e]; try (by apply Herr).
  - specialize (Hok _ Hs). by rewrite (Hf c eq_refl) in Hok.
  - case_bool_decide as Hc; [|by apply Herr]. specialize (Hok _ Hs). by rewrite (Hm e eq_refl Hc) in Hok.
Qed.

Lemma wp_instanceStatus iid (Q : W -> result kerr (option string) -> Prop) w :
  (forall w', same_rds w w' -> Q w' (Ok (rds_instances w !! iid))) ->
  (forall w' e, same_rds w w' -> Q w' (Err e)) -> wp (instanceStatus iid) Q w.
Proof.
  intros Hok Herr. unfold wp. pose proof (instance_status_same iid w) as Hs. revert Hs.
  unfold instanceStatus, describeDBInstance. rewrite !prog_bind_run. cbn [fst snd mret prog_ret]. intros Hs.
  pose proof (describe_instances_found iid w) as Hf. pose proof (describe_instances_missing iid w) as Hm.
  destruct ((DescribeDBInstances iid w).2) as [[|st [|st' l]]|e]; try (by apply Herr).
  - specialize (Hok _ Hs). by rewrite (Hf st eq_refl) in Hok.
  - case_bool_decide as Hc; [|by apply Herr]. specialize (Hok _ Hs). by rewrite (Hm e eq_refl Hc) in Hok.
Qed.

Lemma cluster_created cid password w :
  wp (ensureDBClusterCreated conf cid password)
    (fun w' r => rds_instances w' = rds_instances w /\ (r = Ok tt -> is_Some (rds_clusters w' !! cid))) w.
Proof.
  apply wp_try, wp_with_err, wp_clusterStatus; [|by intros w' e [_ Hi]]. intros w1 [Hc Hi].
  destruct (rds_clusters w !! cid) as [c|] eqn:E; cbn.
  - apply wp_ret. split; [done|]. intros _. by rewrite Hc, E.
  - apply wp_with_err, wp_unit_result, wp_intro. destruct (create_cluster_frame (newCreateCentralDBClusterInput cid password
      (rd_SecurityGroup conf) (rd_SubnetGroup conf) (rd_ClusterName conf)) w1) as [Hf _]. split; [by rewrite Hf|].
    destruct ((CreateDBCluster _ w1).2) eqn:Ec; [done|]. intros _. exact (create_cluster_done _ _ Ec).
Qed.

(** Instances that are there stay. *)
Definition more_instances (w w' : W) : Prop :=
  rds_clusters w' = rds_clusters w /\ forall j, is_Some (rds_instances w !! j) -> is_Some (rds_instances w' !! j).

Lemma instance_created iid cid w :
  wp (ensureDBInstanceCreated conf iid cid)
    (fun w' r => more_instances w w' /\ (r = Ok tt -> is_Some (rds_instances w' !! iid))) w.
Proof.
  apply wp_try, wp_with_err, wp_instanceStatus.
  2:{ intros w' e [Hc Hi]. split; [|done]. split; [done|]. by rewrite Hi. }
  intros w1 [Hc Hi]. destruct (rds_instances w !! iid) as [st|] eqn:E; cbn.
  - apply wp_ret. unfold more_instances. rewrite Hc, Hi. split; [done|]. intros _. by rewrite E.
  - apply wp_with_err, wp_unit_result, wp_intro.
    set (i := newCreateCentralDBInstanceInput cid iid (rd_ClusterName conf) (rd_PerformanceInsights conf)).
    destruct (create_instance_frame i w1) as [Hs Hf]. split.
    + split; [by rewrite Hs|]. intros j Hj. rewrite Hf; [by rewrite Hi|]. intros ->. cbn in Hj. rewrite E in Hj. by destruct Hj.
    + destruct ((CreateDBInstance i w1).2) eqn:Ec; [done|]. intros _. exact (create_instance_done _ _ Ec).
Qed.

Lemma wait_available ticks iid w :
  wp (waitForInstanceToBeAvailable ticks iid)
    (fun w' r => same_rds w w' /\ (r = Ok tt -> rds_instances w' !! iid = Some dbAvailableStatus)) w.
Proof.
  revert w. induction ticks as [|ticks IH]; intros w; cbn [waitForInstanceToBeAvailable];
    (apply wp_try, wp_instanceStatus; [|by split]); intros w1 Hs; (destruct (rds_instances w !! iid) as [st|] eqn:E; [|by apply wp_ret]);
    case_bool_decide as Hst; try (apply wp_ret; split; [done|]; intros _; destruct Hs as [_ ->]; by rewrite E, Hst).
  - by apply wp_ret.
  - eapply wp_mono; [apply IH|]. intros w2 r [Hs2 Hr]. split; [by etransitivity|done].
Qed.

Lemma instance_deleted iid w :
  wp (ensureInstanceDeleted iid)
    (fun w' r => rds_clusters w' = rds_clusters w /\ (forall j, j <> iid -> rds_instances w' !! j = rds_instances w !! j) /\
       (r = Ok tt -> forall st, rds_instances w' !! iid = Some st -> st = dbDeletingStatus)) w.
Proof.
  apply wp_try, wp_with_err, wp_instanceStatus; [|by intros w' e [Hc Hi]; rewrite Hc, Hi]. intros w1 [Hc Hi].
  destruct (rds_instances w !! iid) as [st|] eqn:E; [|apply wp_ret; rewrite Hc, Hi; split; [done|]; split; [done|]; intros _ st; by rewrite E].
  case_bool_decide as Hst.
  - apply wp_with_err, wp_unit_result, wp_intro. destruct (delete_instance_frame iid true w1) as [Hs Hf].
    split; [by rewrite Hs|]. split; [intros j Hj; by rewrite Hf, Hi|].
    destruct ((DeleteDBInstance iid true w1).2) eqn:Ed; [done|]. intros _. exact (delete_instance_done _ _ _ Ed).
  - apply wp_ret. rewrite Hc, Hi. split; [done|]. split; [done|]. intros _ st'. rewrite E. intros [= <-].
    exact Hst.
Qed.

Lemma cluster_deleted cid w :
  wp (ensureClusterDeleted cid)
    (fun w' r => rds_instances w' = rds_instances w /\
       (r = Ok tt -> forall c, rds_clusters w' !! cid = Some c -> dc_Status c = dbDeletingStatus)) w.
Proof.
  apply wp_try, wp_with_err, wp_clusterStatus; [|by intros w' e [Hc Hi]]. intros w1 [Hc Hi].
  destruct (rds_clusters w !! cid) as [c|] eqn:E; cbn [fmap option_fmap option_map]; [|apply wp_ret; rewrite Hc, Hi; split; [done|]; intros _ c; by rewrite E].
  case_bool_decide as Hst.
  - apply wp_with_err, wp_unit_result, wp_intro. destruct (delete_cluster_frame cid true w1) as [Hs _]. split; [by rewrite Hs|].
    destruct ((DeleteDBCluster cid true w1).2) eqn:Ed; [done|]. intros _. exact (delete_cluster_done _ _ _ Ed).
  - apply wp_ret. rewrite Hc, Hi. split; [done|]. intros _ c'. rewrite E. intros [= <-]. exact Hst.
Qed.
End outcomes.

(** A database that was provisioned is there: its cluster and both instances
    exist, and the instance Central connects to is available. *)
Theorem provisioned_available `{AWSLaws W} conf ticks id password (w : W) :
  let '(w', r) := EnsureDBProvisioned conf ticks id password w in
  r = Ok tt ->
  is_Some (rds_clusters w' !! getClusterID id) /\ is_Some (rds_instances w' !! getFailoverInstanceID id) /\
  rds_instances w' !! getInstanceID id = Some dbAvailableStatus.
Proof.
  rewrite (surjective_pairing (EnsureDBProvisioned _ _ _ _ w)).
  enough (wp (EnsureDBProvisioned conf ticks id password) (fun w' r => r = Ok tt ->
    is_Some (rds_clusters w' !! getClusterID id) /\ is_Some (rds_instances w' !! getFailoverInstanceID id) /\
    rds_instances w' !! getInstanceID id = Some dbAvailableStatus) w) as Hw by exact Hw.
  unfold EnsureDBProvisioned.
  apply wp_try, wp_with_err. eapply wp_mono; [apply cluster_created|]. intros w1 [[]|e] [_ Hc]; [|done]. specialize (Hc eq_refl).
  apply wp_try, wp_with_err. eapply wp_mono; [apply instance_created|]. intros w2 [[]|e] [[Hc2 _] _]; [|done].
  apply wp_try, wp_with_err. eapply wp_mono; [apply instance_created|]. intros w3 [[]|e] [[Hc3 _] Hf]; [|done].
  eapply wp_mono; [apply wait_available|]. intros w4 r [[Hc4 Hi4] Hr] ->. rewrite Hc4, Hc3, Hc2, Hi4 in *. auto.
Qed.

(** A database that was deprovisioned is going: its cluster and both instances are
    gone or being deleted. *)
Theorem deprovisioned_deleting `{AWSLaws W} id (w : W) :
  let '(w', r) := EnsureDBDeprovisioned id w in
  r = Ok tt ->
  (forall c, rds_clusters w' !! getClusterID id = Some c -> dc_Status c = dbDeletingStatus) /\
  (forall st, rds_instances w' !! getInstanceID id = Some st -> st = dbDeletingStatus) /\
  (forall st, rds_instances w' !! getFailoverInstanceID id = Some st -> st = dbDeletingStatus).
Proof.
  rewrite (surjective_pairing (EnsureDBDeprovisioned _ w)).
  enough (wp (EnsureDBDeprovisioned id) (fun w' r => r = Ok tt ->
    (forall c, rds_clusters w' !! getClusterID id = Some c -> dc_Status c = dbDeletingStatus) /\
    (forall st, rds_instances w' !! getInstanceID id = Some st -> st = dbDeletingStatus) /\
    (forall st, rds_instances w' !! getFailoverInstanceID id = Some st -> st = dbDeletingStatus)) w) as Hw by exact Hw.
  unfold EnsureDBDeprovisioned.
  apply wp_try. eapply wp_mono; [apply instance_deleted|]. intros w1 [[]|e] (_ & _ & H1'); [|done].
  apply wp_try. eapply wp_mono; [apply instance_deleted|]. intros w2 [[]|e] (_ & Hf & H2'); [|done].
  eapply wp_mono; [apply cluster_deleted|]. intros w3 r [Hi Hc] ->. rewrite Hi. split; [by apply Hc|].
  split; [|by apply H2']. rewrite Hf; [by apply H1'|].
  unfold getInstanceID, getFailoverInstanceID. intros E. apply (inj (String.append dbPrefix)), append_inj_suffix in E as [_ E]; done.
Qed.

(** ** An account in memory *)

(** New instances are available at once; deleted instances are being deleted, deleted
    clusters are gone. *)
Record account := mkAccount { ac_clusters : gmap string DBCluster; ac_instances : gmap string string }.

#[export] Instance account_aws : AWS account := {|
  rds_clusters := ac_clusters;
  rds_instances := ac_instances;
  DescribeDBClusters id w := (w, match ac_clusters w !! id with
    | Some c => Ok [c] | None => Err (KAws ErrCodeDBClusterNotFoundFault "no such cluster") end);
  DescribeDBInstances id w := (w, match ac_instances w !! id with
    | Some st => Ok [st] | None => Err (KAws ErrCodeDBInstanceNotFoundFault "no such instance") end);
  CreateDBCluster i w := (mkAccount (<[ci_Identifier i := mkDBCluster "available" (ci_Identifier i +:+ ".rds")]> (ac_clusters w))
    (ac_instances w), None);
  CreateDBInstance i w := (mkAccount (ac_clusters w) (<[ii_Identifier i := dbAvailableStatus]> (ac_instances w)), None);
  DeleteDBCluster id _ w := (mkAccount (base.delete id (ac_clusters w)) (ac_instances w), None);
  DeleteDBInstance id _ w := (mkAccount (ac_clusters w) (<[id := dbDeletingStatus]> (ac_instances w)), None)
|}.

#[export] Instance account_laws : AWSLaws (W:=account).
Proof.
  split; try done; cbn.
  - intros id w c. by destruct (ac_clusters w !! id); intros [= <-].
  - intros id w e. by destruct (ac_clusters w !! id).
  - intros id w st. by destruct (ac_instances w !! id); intros [= <-].
  - intros id w e. by destruct (ac_instances w !! id).
  - intros i w. split; [done|]. intros id Hid. by rewrite lookup_insert_ne.
  - intros i w _. by rewrite lookup_insert_eq.
  - intros i w. split; [done|]. intros id Hid. by rewrite lookup_insert_ne.
  - intros i w _. by rewrite lookup_insert_eq.
  - intros id _ w. split; [done|]. intros id' Hid. by rewrite lookup_delete_ne.
  - intros id _ w _ c. by rewrite lookup_delete_eq.
  - intros id _ w. split; [done|]. intros id' Hid. by rewrite lookup_insert_ne.
  - intros id _ w _ st. rewrite lookup_insert_eq. by intros [= <-].
Qed.

Definition sample_rds : RDSConfig := mkRDSConfig "sg-1" "subnets" true "cluster-1".
Definition provisioned : account := (EnsureDBProvisioned sample_rds 3 "a" "pw" (mkAccount ∅ ∅)).1.

Lemma databases_isolated_witness :
  keeps_db "a" provisioned (EnsureDBProvisioned sample_rds 3 "b" "pw" provisioned).1 /\
  keeps_db "a" provisioned (EnsureDBDeprovisioned "b" provisioned).1.
Proof. exact (databases_isolated sample_rds 3 "b" "a" "pw" provisioned ltac:(discriminate)). Defined.

Lemma provisioned_available_witness : rds_instances provisioned !! "rhacs-a-db-instance" = Some "available".
Proof.
  assert ((EnsureDBProvisioned sample_rds 3 "a" "pw" (mkAccount ∅ ∅)).2 = Ok tt) as E by (vm_compute; reflexivity).
  pose proof (provisioned_available sample_rds 3 "a" "pw" (mkAccount ∅ ∅)) as Hp.
  rewrite (surjective_pairing (EnsureDBProvisioned sample_rds 3 "a" "pw" (mkAccount ∅ ∅))) in Hp. exact (proj2 (proj2 (Hp E))).
Defined.

Lemma deprovisioned_deleting_witness : exists st,
  rds_instances (EnsureDBDeprovisioned "a" provisioned).1 !! "rhacs-a-db-failover" = Some st /\ st = "deleting".
Proof.
  assert ((EnsureDBDeprovisioned "a" provisioned).2 = Ok tt) as E by (vm_compute; reflexivity).
  assert (is_Some (rds_instances (EnsureDBDeprovisioned "a" provisioned).1 !! getFailoverInstanceID "a")) as [st Hst]
    by (vm_compute; by eexists).
  pose proof (deprovisioned_deleting "a" provisioned) as Hp.
  rewrite (surjective_pairing (EnsureDBDeprovisioned "a" provisioned)) in Hp.
  exists st. split; [exact Hst|]. exact (proj2 (proj2 (Hp E)) st Hst).
Defined.

(** ** Initialisation *)

(** A commit that fails is not noticed: if the statements succeed, creating the user
    succeeds. *)
Lemma commit_error_ignored `{Postgres W} con user password (w : W) :
  (tx_begin con w).2 = None -> (create_user_statements con user password (tx_begin con w).1).2 = Ok tt ->
  (createNonPrivilegedUser con user password w).2 = Ok tt.
Proof.
  intros Hb Hs. unfold createNonPrivilegedUser, try_bind, with_err, unit_result. rewrite !prog_bind_run. cbn [fst snd mret prog_ret].
  by rewrite Hb, !prog_bind_run, Hs.
Qed.
