(* ===== verification/CentralReconciler.v ===== *)
(** * The reconciler of a central (fleetshard/pkg/central/reconciler)

    reconciler.go and init_auth.go: a pass over one central installs, updates or
    deletes its objects in the cluster and gives the status to report.  The client
    of Central's own API (central/client/client.go) works on an abstract HTTP
    transport.

    [Shard] are the services a pass uses: the Kubernetes client, the database
    service ([DBClient], implemented by ManagedDB.v), the initialisation of a
    database, random passwords, the reader of the CA bundle and HTTP.  Rendering of
    the Helm chart, the digest of a central and [urlfmt.GetServerFromURL] of the
    stackrox libraries are parameters. *)

From S2P Require Import Prelude GoString GoFmt ServiceErrors CentralRequest World Effects Resources Presenters Kube ManagedDB.
Local Open Scope string_scope.
Local Open Scope Z_scope.

(** ** Constants *)

Definition helmReleaseName : string := "tenant-resources".
Definition managedServicesAnnotation : string := "platform.stackrox.io/managed-services".
Definition pauseReconcileAnnotation : string := "stackrox.io/pause-reconcile".
Definition envAnnotationKey : string := "rhacs.redhat.com/environment".
Definition clusterNameAnnotationKey : string := "rhacs.redhat.com/cluster-name".
Definition orgNameAnnotationKey : string := "rhacs.redhat.com/org-name".
Definition instanceTypeLabelKey : string := "rhacs.redhat.com/instance-type".
Definition orgIDLabelKey : string := "rhacs.redhat.com/org-id".
Definition tenantIDLabelKey : string := "rhacs.redhat.com/tenant".
Definition operatorVersionKey : string := "stackrox.io/operator-version".
Definition defaultOperatorVersion : string := "rhacs-operator.v3.74.0".
Definition dbUserTypeAnnotation : string := "platform.stackrox.io/user-type".
Definition dbUserTypeMaster : string := "master".
Definition dbUserTypeCentral : string := "central".
Definition dbCentralUserName : string := "rhacs_central".
Definition centralDbSecretName : string := "central-db-password".
Definition CentralDatabaseCACertificateBaseName : string := "rds-ca-bundle".
Definition caPath : string := "/usr/local/share/ca-certificates/".
Definition DatabaseCACertificatePathFleetshard : string := caPath +:+ "aws-rds-ca-global-bundle.pem".
Definition DatabaseCACertificatePathCentral : string :=
  caPath +:+ "00-" +:+ CentralDatabaseCACertificateBaseName +:+ ".crt".
Definition centralHtpasswdSecretName : string := "central-htpasswd".
Definition adminPasswordSecretKey : string := "password".
Definition centralServiceName : string := "central".
Definition oidcType : string := "oidc".

(** ** Services *)

(** cloudprovider/dbclient.go *)
Class DBClient (W : Type) := {
  db_EnsureProvisioned : string -> string -> prog W (result kerr unit);
  db_EnsureDeprovisioned : string -> prog W (result kerr unit);
  db_GetConnection : string -> prog W (result kerr DBConnection)
}.

(** The client of RDS implements it; waiting ends after [ticks]. *)
Definition rds_client `{AWS W} (conf : RDSConfig) (ticks : nat) : DBClient W := {|
  db_EnsureProvisioned := EnsureDBProvisioned conf ticks;
  db_EnsureDeprovisioned := EnsureDBDeprovisioned;
  db_GetConnection := GetDBConnection
|}.

(** A request to Central: method, address with path, password of the user admin,
    body; and a response: status code and body. *)
Record http_call := mkCall { hc_Method : string; hc_Url : string; hc_Password : string; hc_Body : string }.

(** [unstructured.Unstructured]: an object of any kind the model has no name for. *)
Definition unstructured `{Quantities} : Type := { gvk : string & kobj (KOther gvk) }.

(** [chartutil.Values], a table of tables. *)
Definition chart_values : Type := gmap string (gmap string string).

Class Shard `{Quantities} (W : Type) := {
  shard_kube :: Kube W;
  shard_db :: DBClient W;
  (** [managedDBInitFunc] *)
  init_db : DBConnection -> string -> string -> prog W (result kerr unit);
  (** [random.GenerateString(25, random.AlphanumericCharacters)] *)
  GenerateString : prog W (result kerr string);
  (** [os.ReadFile(DatabaseCACertificatePathFleetshard)]: what was read, and the error *)
  read_ca : prog W (string * option kerr);
  (** [httpClient.Do] *)
  http_do : http_call -> prog W (result kerr (Z * string));
  (** [chartutil.ToRenderValues], for a release, a namespace, a chart and values *)
  render_values : Type;
  ToRenderValues : string -> string -> string -> chart_values -> result kerr render_values;
  (** [engine.Render]: the files of a chart with their contents, in the order in which
      the map is walked *)
  engine_Render : string -> render_values -> prog W (result kerr (list (string * string)));
  (** [k8sutil.UnstructuredFromYAMLMulti] *)
  UnstructuredFromYAMLMulti : string -> result kerr (list unstructured)
}.

(** The message types of Central's API, and the library that encodes them. *)
Record Group := mkGroup { gr_AuthProviderId : string; gr_Key : string; gr_Value : string; gr_Forced : bool; gr_RoleName : string }.
Record AuthProvider := mkAuthProvider {
  ap_Name : string; ap_Type : string; ap_UiEndpoint : string; ap_Enabled : bool; ap_Config : gmap string string;
  ap_ClaimMappings : gmap string string; ap_ExtraUiEndpoints : list string; ap_RequiredAttributes : list (string * string);
  ap_Forced : bool; ap_Active : bool
}.

Class Messages := {
  marshal_provider : AuthProvider -> result kerr string;
  (** the identifier of the provider in a response *)
  unmarshal_provider : string -> result kerr string;
  marshal_group : Group -> result kerr string;
  (** type and name of the providers in a response *)
  unmarshal_logins : string -> result kerr (list (string * string));
  (** the field [error] of a response, if it is JSON *)
  unmarshal_error : string -> option string;
  GetServerFromURL : string -> string;
  (** [util.MD5SumFromJSONStruct] *)
  MD5SumFromJSONStruct : ManagedCentral -> result kerr string
}.

(** ** The client of Central (client.go) *)

Definition couldNotParseReason : string := "could not parse a reason for request to fail".

Section client.
Context `{Shard W} `{Messages} (central : ManagedCentral) (address pass : string).

Definition extractCentralError (body : string) : string :=
  match unmarshal_error body with
  | Some e => if bool_decide (e <> "") then e else couldNotParseReason
  | None => couldNotParseReason
  end.

(** [message]: the encoded request message, or its error. *)
Definition SendRequestToCentral (message : result kerr string) (method path : string) : prog W (result kerr string) :=
  match message with
  | Err e => mret (Err (KWrap "creating HTTP request to central" (KWrap "marshalling new request to central" e)))
  | Ok body =>
      resp ←? with_err (KWrap "sending new request to central") (http_do (mkCall method (address +:+ path) pass body));
      if (200 <=? resp.1) && (resp.1 <? 300) then mret (Ok resp.2)
      else mret (Err (KText (Error (EService (NewErrorFromHTTPStatusCode resp.1 "failed to execute request: %s %s with reason %q"
        [VStr method; VStr path; VStr (extractCentralError resp.2)])))))
  end.

Definition SendGroupRequest (group : Group) : prog W (result kerr unit) :=
  r ← SendRequestToCentral (marshal_group group) "POST" "/v1/groups";
  mret (match r with
        | Ok _ => Ok tt
        | Err e => Err (KWrap (Sprintf "failed to create group for central %s/%s"
            [VStr (mg_Namespace central); VStr (mg_Name central)]) e)
        end).

(** A response message, decoded. *)
Definition decoded {A} (decode : string -> result kerr A) (r : result kerr string) : result kerr A :=
  match r with
  | Err e => Err e
  | Ok body => match decode body with Ok a => Ok a | Err e => Err (KWrap "decoding response body" e) end
  end.

Definition SendAuthProviderRequest (request : AuthProvider) : prog W (result kerr string) :=
  with_err (KWrap (Sprintf "failed to create auth provider for central %s/%s" [VStr (mg_Namespace central); VStr (mg_Name central)]))
    (r ← SendRequestToCentral (marshal_provider request) "POST" "/v1/authProviders"; mret (decoded unmarshal_provider r)).

Definition GetLoginAuthProviders : prog W (result kerr (list (string * string))) :=
  with_err (KWrap (Sprintf "failed to get login auth providers from central %s/%s" [VStr (mg_Namespace central); VStr (mg_Name central)]))
    (r ← SendRequestToCentral (Ok "") "GET" "/v1/login/authproviders"; mret (decoded unmarshal_logins r)).
End client.

(** ** The auth provider of a central (init_auth.go) *)

Section init_auth.
Context `{Shard W} `{Messages}.

Definition groupCreators : list (string -> ManagedCentralAuth -> Group) :=
  [ (fun providerId _ => mkGroup providerId "" "" false "None");
    (fun providerId auth => mkGroup providerId "userid" (ma_OwnerUserId auth) true "Admin");
    (fun providerId _ => mkGroup providerId "groups" "admin:org:all" true "Admin");
    (fun providerId _ => mkGroup providerId "rh_is_org_admin" "true" true "Admin") ].

Definition isCentralDeploymentReady (central : ManagedCentral) : prog W (result kerr bool) :=
  r ← kget KDeployment (mg_Namespace central, "central");
  mret (match (r : result kerr (kobj KDeployment)) with
        | Err err => if IsNotFound err then Ok false
            else Err (KWrap "retrieving central deployment resource from Kubernetes" err)
        | Ok deployment => Ok ((0 <? (ko_body deployment).1) && ((ko_body deployment).2 =? 0))
        end).

Definition authProviderName (central : ManagedCentral) : string :=
  let issuer := ma_Issuer (mg_Auth central) in
  let name :=
    if Contains issuer "sso.stage.redhat" then "Red Hat SSO (stage)"
    else if Contains issuer "sso.redhat" then "Red Hat SSO" else GetServerFromURL issuer in
  if bool_decide (name = "") then "SSO" else name.

Definition getHTTPSServicePort (service : kobj KService) : result kerr Z :=
  match list_find (fun p => p.1 = "https") (ko_body service) with
  | Some (_, (_, port)) => Ok port
  | None => Err (KText (Sprintf "no `https` port is present in %s/%s service"
      [VStr (om_Namespace (ko_meta service)); VStr (om_Name (ko_meta service))]))
  end.

Definition getServiceAddress (central : ManagedCentral) : prog W (result kerr string) :=
  service ←? with_err (KWrap "getting k8s service for central") (kget KService (mg_Namespace central, centralServiceName));
  mret (match getHTTPSServicePort (service : kobj KService) with
        | Err err => Err err
        | Ok port => Ok (Sprintf "https://%s.%s.svc.cluster.local:%d"
            [VStr centralServiceName; VStr (mg_Namespace central); VInt port])
        end).

Definition existsRHSSOAuthProvider (central : ManagedCentral) : prog W (result kerr bool) :=
  ready ←? isCentralDeploymentReady central;
  if negb ready then mret (Ok false)
  else
    ra ← getServiceAddress central;
    match ra with
    | Err err => if IsNotFound err then mret (Ok false) else mret (Err err)
    | Ok address =>
        logins ←? with_err (KWrap "sending GetLoginAuthProviders request to central") (GetLoginAuthProviders central address "");
        mret (Ok (bool_decide ((oidcType, authProviderName central) ∈ logins)))
    end.

Definition getAdminPassword (central : ManagedCentral) : prog W (result kerr string) :=
  secret ←? with_err (KWrap "getting admin password secret") (kget KSecret (mg_Namespace central, centralHtpasswdSecretName));
  let password := default "" (ko_body (secret : kobj KSecret) !! adminPasswordSecretKey) in
  if bool_decide (password = "")
  then mret (Err (KText (Sprintf "no password present in %s secret" [VStr centralHtpasswdSecretName])))
  else mret (Ok password).

Definition createAuthProviderRequest (central : ManagedCentral) : AuthProvider :=
  let auth := mg_Auth central in
  mkAuthProvider (authProviderName central) oidcType (mg_UiHost central) true
    {["issuer" := ma_Issuer auth; "client_id" := ma_ClientId auth; "client_secret" := ma_ClientSecret auth;
      "mode" := "post"; "disable_offline_access_scope" := "true"]}
    {["realm_access.roles" := "groups"; "org_id" := "rh_org_id"; "is_org_admin" := "rh_is_org_admin"]}
    ["localhost:8443"]
    [(if bool_decide (ma_ClientOrigin auth = AuthConfigStaticClientOrigin) then "orgid" else "rh_org_id", ma_OwnerOrgId auth)]
    true true.

(** The text of an [errors.ErrorList]. *)
Definition error_list (errs : list kerr) : string :=
  "[" +:+ string_concat ((fun e => ";" +:+ kerr_text e) <$> errs) +:+ "]".

(** The loop over the groups: every request is sent, the errors are collected. *)
Fixpoint send_groups (central : ManagedCentral) (address pass : string) (groups : list Group) : prog W (list kerr) :=
  match groups with
  | [] => mret []
  | g :: groups =>
      r ← SendGroupRequest central address pass g;
      errs ← send_groups central address pass groups;
      mret (match r with Ok _ => errs | Err e => e :: errs end)
  end.

Definition createRHSSOAuthProvider (central : ManagedCentral) : prog W (result kerr unit) :=
  pass ←? getAdminPassword central;
  address ←? getServiceAddress central;
  providerId ←? with_err (KWrap "sending AuthProvider request to central")
    (SendAuthProviderRequest central address pass (createAuthProviderRequest central));
  errs ← send_groups central address pass ((fun creator => creator providerId (mg_Auth central)) <$> groupCreators);
  match errs with
  | [] => mret (Ok tt)
  | _ => mret (Err (KWrap "sending group request(s) to central" (KText (error_list errs))))
  end.
End init_auth.

(** ** Charts (charts/render.go) *)

Section charts.
Context `{Shard W}.

Fixpoint parse_files (chart : string) (files : list (string * string)) : result kerr (list unstructured) :=
  match files with
  | [] => Ok []
  | (fileName, contents) :: files =>
      if negb (HasSuffix fileName ".yaml") then parse_files chart files
      else match UnstructuredFromYAMLMulti contents with
           | Err err => Err (KWrap (Sprintf "failed to parse file %s in chart %s" [VStr fileName; VStr chart]) err)
           | Ok objs =>
               match parse_files chart files with
               | Err err => Err err
               | Ok rest => Ok (objs ++ rest)%list
               end
           end
  end.

Definition RenderToObjects (releaseName namespace chart : string) (values : chart_values)
    : prog W (result kerr (list unstructured)) :=
  match ToRenderValues releaseName namespace chart values with
  | Err err => mret (Err (KWrap (Sprintf "failed to create render values for chart %s" [VStr chart]) err))
  | Ok renderVals =>
      files ←? with_err (KWrap (Sprintf "failed to render chart %s" [VStr chart])) (engine_Render chart renderVals);
      mret (parse_files chart files)
  end.
End charts.

(** ** The reconciler (reconciler.go) *)

(** [CentralReconcilerOptions] *)
Record Options := mkOptions {
  op_UseRoutes : bool; op_WantsAuthProvider : bool; op_EgressProxyImage : string; op_ManagedDBEnabled : bool;
  op_TelemetryEndpoint : string; op_TelemetryKey : string; op_ClusterName : string; op_Environment : string;
  op_FeatureFlagUpgradeOperatorEnabled : bool
}.

(** The fields of [CentralReconciler] that change, the package variables of
    db_ca_certs.go ([rs_ca]: what [once] has read, if it has run), and the rest of
    the world. *)
Record rstate (W : Type) := mkRState {
  rs_busy : bool; rs_lastCentralHash : string; rs_hasAuthProvider : bool; rs_ca : option string; rs_world : W
}.
Arguments mkRState {_}.
Arguments rs_busy {_}.
Arguments rs_lastCentralHash {_}.
Arguments rs_hasAuthProvider {_}.
Arguments rs_ca {_}.
Arguments rs_world {_}.

Definition lift {W A} (m : prog W A) : prog (rstate W) A := fun s =>
  (mkRState (rs_busy s) (rs_lastCentralHash s) (rs_hasAuthProvider s) (rs_ca s) (m (rs_world s)).1, (m (rs_world s)).2).

Definition set_busy {W} (b : bool) (s : rstate W) : rstate W :=
  mkRState b (rs_lastCentralHash s) (rs_hasAuthProvider s) (rs_ca s) (rs_world s).
Definition set_hash {W} (h : string) (s : rstate W) : rstate W :=
  mkRState (rs_busy s) h (rs_hasAuthProvider s) (rs_ca s) (rs_world s).
Definition set_hasAuthProvider {W} (b : bool) (s : rstate W) : rstate W :=
  mkRState (rs_busy s) (rs_lastCentralHash s) b (rs_ca s) (rs_world s).
Definition set_ca {W} (ca : option string) (s : rstate W) : rstate W :=
  mkRState (rs_busy s) (rs_lastCentralHash s) (rs_hasAuthProvider s) ca (rs_world s).

Definition reads {W A} (f : rstate W -> A) : prog (rstate W) A := fun s => (s, f s).
Definition modify {W} (f : rstate W -> rstate W) : prog (rstate W) unit := fun s => (f s, tt).

(** [[16]byte{}] *)
Definition zero_hash : string := string_of_bytes (repeat 0%N 16).

Definition isRemoteCentralProvisioning (c : ManagedCentral) : bool :=
  bool_decide (mg_RequestStatus c = CentralRequestStatusProvisioning).
Definition isRemoteCentralReady (c : ManagedCentral) : bool := bool_decide (mg_RequestStatus c = CentralRequestStatusReady).

Section reconciler.
Context `{Shard W} `{Messages} (opts : Options).
Local Abbreviation M A := (prog (rstate W) (result kerr A)).

(** postgres.GetDatabaseCACertificates: the error is local to the call that runs [once]. *)
Definition GetDatabaseCACertificates : M string :=
  ca ← reads rs_ca;
  match ca with
  | Some data => mret (Ok data)
  | None =>
      r ← lift read_ca;
      _ ← modify (set_ca (Some r.1));
      mret (match r.2 with Some err => Err (KWrap "reading DB server CA file" err) | None => Ok r.1 end)
  end.

Definition centralChanged (central : ManagedCentral) : M bool :=
  last ← reads rs_lastCentralHash;
  mret (match MD5SumFromJSONStruct central with
        | Err err => Err (KWrap "hashing central" err)
        | Ok currentHash => Ok (bool_decide (last <> currentHash))
        end).

Definition setLastCentralHash (central : ManagedCentral) : M unit :=
  match MD5SumFromJSONStruct central with
  | Err err => mret (Err (KWrap "calculating MD5 from JSON" err))
  | Ok hash => _ ← modify (set_hash hash); mret (Ok tt)
  end.

Definition shouldSkipReadyCentral (remoteCentral : ManagedCentral) : prog (rstate W) bool :=
  has ← reads rs_hasAuthProvider;
  mret (Bool.eqb (op_WantsAuthProvider opts) has && isRemoteCentralReady remoteCentral &&
        bool_decide (mg_ActualVersion remoteCentral = mg_DesiredVersion remoteCentral)).

(** *** Namespaces *)

Definition getNamespace (name : string) : M (kobj KNamespace) :=
  with_err (KWrap (Sprintf "retrieving resource for namespace %q from Kubernetes" [VStr name])) (lift (kget KNamespace ("", name))).

Definition createTenantNamespace (namespace : kobj KNamespace) : M unit :=
  with_err (KWrap (Sprintf "creating namespace %q" [VStr (om_Name (ko_meta namespace))])) (lift (unit_result (kcreate namespace))).

Definition ensureNamespaceExists (name : string) (labels annotations : gmap string string) : M unit :=
  r ← getNamespace name;
  match (r : result kerr (kobj KNamespace)) with
  | Ok _ => mret (Ok tt)
  | Err err =>
      if IsNotFound err then createTenantNamespace (mkObj KNamespace (mkMeta name "" labels annotations "" false) false)
      else mret (Err (KWrap (Sprintf "getting namespace %s" [VStr name]) err))
  end.

Definition ensureNamespaceDeleted (name : string) : M bool :=
  r ← getNamespace name;
  match (r : result kerr (kobj KNamespace)) with
  | Err err =>
      mret (if IsNotFound err then Ok true else Err (KWrap (Sprintf "delete central namespace %s" [VStr name]) err))
  | Ok namespace =>
      if (ko_body namespace : bool) then mret (Ok false)
      else
        _ ←? with_err (KWrap (Sprintf "delete central namespace %s" [VStr name])) (lift (unit_result (kdelete namespace)));
        mret (Ok false)
  end.

(** *** The database and its secret *)

Definition get_db_secret (namespace : string) : M (kobj KSecret) := lift (kget KSecret (namespace, centralDbSecretName)).

Definition setPassword (userType password : string) (secret : kobj KSecret) : kobj KSecret :=
  mkObj KSecret (set_annotations (<[dbUserTypeAnnotation := userType]> (om_Annotations (ko_meta secret))) (ko_meta secret))
    {["password" := password]}.

Definition ensureCentralDBSecretExists (namespace userType password : string) : M unit :=
  r ← get_db_secret namespace;
  match (r : result kerr (kobj KSecret)) with
  | Ok secret =>
      with_err (KWrap "updating Central DB secret") (lift (unit_result (kupdate (setPassword userType password secret))))
  | Err err =>
      if negb (IsNotFound err) then mret (Err (KWrap "getting Central DB secret" err))
      else
        let secret := mkObj KSecret (mkMeta centralDbSecretName namespace {[ManagedByLabelKey := ManagedByFleetshardValue]}
          {[managedServicesAnnotation := "true"]} "" false) ∅ in
        with_err (KWrap "creating Central DB secret") (lift (unit_result (kcreate (setPassword userType password secret))))
  end.

Definition centralDBSecretExists (namespace : string) : M bool :=
  r ← get_db_secret namespace;
  mret (match (r : result kerr (kobj KSecret)) with
        | Ok _ => Ok true
        | Err err => if IsNotFound err then Ok false else Err (KWrap "getting central DB secret" err)
        end).

Definition centralDBUserExists (namespace : string) : M bool :=
  r ← get_db_secret namespace;
  mret (match (r : result kerr (kobj KSecret)) with
        | Ok secret => Ok (bool_decide (om_Annotations (ko_meta secret) !! dbUserTypeAnnotation = Some dbUserTypeCentral))
        | Err err => if IsNotFound err then Ok false else Err (KWrap "getting central DB secret" err)
        end).

Definition ensureCentralDBSecretDeleted (namespace : string) : M bool :=
  r ← get_db_secret namespace;
  match (r : result kerr (kobj KSecret)) with
  | Err err => mret (if IsNotFound err then Ok true else Err (KWrap "deleting Central DB secret" err))
  | Ok secret =>
      _ ←? with_err (fun _ => KText (Sprintf "deleting central DB secret %s/%s" [VStr namespace; VStr centralDbSecretName]))
             (lift (unit_result (kdelete secret)));
      mret (Ok false)
  end.

Definition getDBPasswordFromSecret (namespace : string) : M string :=
  r ← get_db_secret namespace;
  mret (match (r : result kerr (kobj KSecret)) with
        | Err err => Err (KWrap "getting Central DB password from secret" err)
        | Ok secret => match ko_body secret !! "password" with
            | Some dbPassword => Ok dbPassword
            | None => Err (KText "central DB secret does not contain password field: %!w(<nil>)")
            end
        end).

Definition generateDBPassword : M string := with_err (KWrap "generating DB password") (lift GenerateString).

Definition ensureManagedCentralDBInitialized (remoteCentral : ManagedCentral) : M unit :=
  let namespace := mg_Namespace remoteCentral in
  exists_ ←? centralDBSecretExists namespace;
  _ ←? (if exists_ : bool then mret (Ok tt)
        else
          dbMasterPassword ←? with_err (KWrap "generating Central DB master password") generateDBPassword;
          with_err (KWrap "ensuring that DB secret exists")
            (ensureCentralDBSecretExists namespace dbUserTypeMaster dbMasterPassword));
  dbMasterPassword ←? with_err (KWrap "getting DB password from secret") (getDBPasswordFromSecret namespace);
  _ ←? with_err (KWrap "provisioning RDS DB") (lift (db_EnsureProvisioned (mg_Id remoteCentral) dbMasterPassword));
  dbConnection ←? with_err (KWrap "getting RDS DB connection data") (lift (db_GetConnection (mg_Id remoteCentral)));
  dbCentralPassword ←? with_err (KWrap "generating Central DB password") generateDBPassword;
  _ ←? with_err (KWrap "initializing managed DB")
         (lift (init_db (WithSSLRootCert DatabaseCACertificatePathFleetshard (WithPassword dbMasterPassword dbConnection))
            dbCentralUserName dbCentralPassword));
  ensureCentralDBSecretExists namespace dbUserTypeCentral dbCentralPassword.

Definition getCentralDBConnectionString (remoteCentral : ManagedCentral) : M string :=
  userExists ←? centralDBUserExists (mg_Namespace remoteCentral);
  _ ←? (if userExists : bool then mret (Ok tt)
        else with_err (KWrap "initializing managed DB") (ensureManagedCentralDBInitialized remoteCentral));
  dbConnection ←? with_err (KWrap "getting RDS DB connection data") (lift (db_GetConnection (mg_Id remoteCentral)));
  mret (Ok (AsConnectionString (WithSSLRootCert DatabaseCACertificatePathCentral (GetConnectionForUser dbCentralUserName dbConnection)))).

(** *** The custom resource *)

Definition disablePauseReconcileIfPresent (central : kobj KCentral) : M (kobj KCentral) :=
  if bool_decide (om_Annotations (ko_meta central) !! pauseReconcileAnnotation = Some "true") then
    let central := mkObj KCentral (set_annotations (<[pauseReconcileAnnotation := "false"]> (om_Annotations (ko_meta central)))
      (ko_meta central)) (ko_body central) in
    _ ←? with_err (fun err => KText ("removing pause reconcile annotation: " +:+ kerr_text err)) (lift (unit_result (kupdate central)));
    mret (Ok central)
  else mret (Ok central).

Definition ensureCentralCRDeleted (namespace name : string) : M bool :=
  r ← lift (kget KCentral (namespace, name));
  let what := Sprintf "delete central CR %s/%s" [VStr namespace; VStr name] in
  match (r : result kerr (kobj KCentral)) with
  | Err err => mret (if IsNotFound err then Ok true else Err (KWrap what err))
  | Ok central =>
      central ←? disablePauseReconcileIfPresent central;
      _ ←? with_err (KWrap what) (lift (unit_result (kdelete (central : kobj KCentral))));
      mret (Ok false)
  end.

(** *** The resources of the chart *)

Definition chartValues : chart_values :=
  let vals : chart_values := {["labels" := {[ManagedByLabelKey := ManagedByFleetshardValue]}]} in
  if bool_decide (op_EgressProxyImage opts <> "")
  then <["egressProxy" := {["image" := op_EgressProxyImage opts]}]> vals else vals.

Definition in_namespace (namespace : string) (obj : unstructured) : unstructured :=
  if bool_decide (om_Namespace (ko_meta (projT2 obj)) = "")
  then existT (projT1 obj) (mkObj _ (set_namespace namespace (ko_meta (projT2 obj))) (ko_body (projT2 obj))) else obj.

Definition object_text (what : string) (ns name : string) (gvk : string) : string :=
  Sprintf "%s object %s/%s of type %v" [VStr what; VStr ns; VStr name; VStr gvk].

(** One turn of the loop of ensureChartResourcesExist. *)
Definition ensure_object_exists (obj : unstructured) : M unit :=
  let '(existT gvk o) := obj in
  let ns := om_Namespace (ko_meta o) in
  let name := om_Name (ko_meta o) in
  r ← lift (kget (KOther gvk) (ns, name));
  match (r : result kerr (kobj (KOther gvk))) with
  | Ok out =>
      with_err (KWrap (object_text "failed to update" ns ns gvk))
        (lift (unit_result (kupdate (mkObj (KOther gvk) (set_version (om_ResourceVersion (ko_meta out)) (ko_meta o)) (ko_body o)))))
  | Err err =>
      if negb (IsNotFound err) then mret (Err (KWrap (object_text "failed to retrieve" ns name gvk) err))
      else
        rc ← lift (kcreate o);
        mret (match rc with
              | Some err => if negb (IsAlreadyExists err) then Err (KWrap (object_text "failed to create" ns name gvk) err) else Ok tt
              | None => Ok tt
              end)
  end.

Fixpoint ensure_objects_exist (objs : list unstructured) : M unit :=
  match objs with
  | [] => mret (Ok tt)
  | obj :: objs => _ ←? ensure_object_exists obj; ensure_objects_exist objs
  end.

Definition render (namespace : string) : M (list unstructured) :=
  with_err (KWrap "rendering resources chart") (lift (RenderToObjects helmReleaseName namespace "tenant-resources" chartValues)).

Definition ensureChartResourcesExist (remoteCentral : ManagedCentral) : M unit :=
  objs ←? render (mg_Namespace remoteCentral);
  ensure_objects_exist (in_namespace (mg_Namespace remoteCentral) <$> objs).

(** One turn of the loop of ensureChartResourcesDeleted: whether to wait. *)
Definition ensure_object_deleted (obj : unstructured) : M bool :=
  let '(existT gvk o) := obj in
  let ns := om_Namespace (ko_meta o) in
  let name := om_Name (ko_meta o) in
  r ← lift (kget (KOther gvk) (ns, name));
  match (r : result kerr (kobj (KOther gvk))) with
  | Err err => mret (if IsNotFound err then Ok false else Err (KWrap (object_text "retrieving" ns name gvk) err))
  | Ok out =>
      if om_Deleting (ko_meta out) then mret (Ok true)
      else
        rd ← lift (kdelete out);
        mret (match rd with
              | Some err => if negb (IsNotFound err) then Err (KWrap (object_text "retrieving" ns name gvk) err) else Ok false
              | None => Ok false
              end)
  end.

Fixpoint ensure_objects_deleted (waitForDelete : bool) (objs : list unstructured) : M bool :=
  match objs with
  | [] => mret (Ok (negb waitForDelete))
  | obj :: objs => wait ←? ensure_object_deleted obj; ensure_objects_deleted (waitForDelete || wait) objs
  end.

Definition ensureChartResourcesDeleted (remoteCentral : ManagedCentral) : M bool :=
  objs ←? render (mg_Namespace remoteCentral);
  ensure_objects_deleted false (in_namespace (mg_Namespace remoteCentral) <$> objs).

(** *** Routes *)

Definition ensureReencryptRouteExists (remoteCentral : ManagedCentral) : M unit :=
  let namespace := mg_Namespace remoteCentral in
  r ← lift (FindReencryptRoute namespace);
  match (r : result kerr (kobj KRoute)) with
  | Ok _ => mret (Ok tt)
  | Err err =>
      if negb (IsNotFound err)
      then mret (Err (KWrap (Sprintf "retrieving reencrypt route for namespace %q" [VStr namespace]) err))
      else with_err (KWrap (Sprintf "creating reencrypt route for central %s" [VStr (mg_Id remoteCentral)]))
             (lift (CreateReencryptRoute remoteCentral))
  end.

Definition ensurePassthroughRouteExists (remoteCentral : ManagedCentral) : M unit :=
  let namespace := mg_Namespace remoteCentral in
  r ← lift (FindPassthroughRoute namespace);
  match (r : result kerr (kobj KRoute)) with
  | Ok _ => mret (Ok tt)
  | Err err =>
      if negb (IsNotFound err)
      then mret (Err (KWrap (Sprintf "retrieving passthrough route for namespace %q" [VStr namespace]) err))
      else with_err (KWrap (Sprintf "creating passthrough route for central %s" [VStr (mg_Id remoteCentral)]))
             (lift (CreatePassthroughRoute remoteCentral))
  end.

Definition ensureRoutesExist (remoteCentral : ManagedCentral) : M unit :=
  _ ←? ensureReencryptRouteExists remoteCentral;
  ensurePassthroughRouteExists remoteCentral.

(** [namespace], [name]: those of the route the supplier looks for, for the messages. *)
Definition ensureRouteDeleted (namespace name : string) (routeSupplier : prog W (result kerr (kobj KRoute))) : M bool :=
  r ← lift routeSupplier;
  match (r : result kerr (kobj KRoute)) with
  | Err err =>
      mret (if IsNotFound err then Ok true
            else Err (KWrap (Sprintf "get central route %s/%s" [VStr namespace; VStr name]) err))
  | Ok route =>
      _ ←? with_err (KWrap (Sprintf "delete central route %s/%s" [VStr namespace; VStr name])) (lift (unit_result (kdelete route)));
      mret (Ok false)
  end.

Definition ensureReencryptRouteDeleted (namespace : string) : M bool :=
  ensureRouteDeleted namespace centralReencryptRouteName (FindReencryptRoute namespace).
Definition ensurePassthroughRouteDeleted (namespace : string) : M bool :=
  ensureRouteDeleted namespace centralPassthroughRouteName (FindPassthroughRoute namespace).

Definition getRouteStatus (ingress : RouteIngress) : DataPlaneCentralRoute :=
  mkRoute (ri_Host ingress) (ri_RouterCanonicalHostname ingress).

Definition getRoutesStatuses (namespace : string) : M (list DataPlaneCentralRoute) :=
  reencryptIngress ←? with_err (KWrap "obtaining ingress for reencrypt route") (lift (FindReencryptIngress namespace));
  passthroughIngress ←? with_err (KWrap "obtaining ingress for passthrough route") (lift (FindPassthroughIngress namespace));
  mret (Ok [getRouteStatus reencryptIngress; getRouteStatus passthroughIngress]).

(** *** Deletion *)

Definition ensureCentralDeleted (remoteCentral : ManagedCentral) : M bool :=
  let namespace := mg_Namespace remoteCentral in
  routesDeleted ←? (if op_UseRoutes opts then
      reencryptRouteDeleted ←? ensureReencryptRouteDeleted namespace;
      passthroughRouteDeleted ←? ensurePassthroughRouteDeleted namespace;
      mret (Ok (reencryptRouteDeleted && passthroughRouteDeleted))
    else mret (Ok true));
  centralDeleted ←? ensureCentralCRDeleted namespace (mg_Name remoteCentral);
  dbDeleted ←? (if op_ManagedDBEnabled opts then
      _ ←? with_err (fun err => KText ("deprovisioning DB: " +:+ kerr_text err)) (lift (db_EnsureDeprovisioned (mg_Id remoteCentral)));
      ensureCentralDBSecretDeleted namespace
    else mret (Ok true));
  chartResourcesDeleted ←? ensureChartResourcesDeleted remoteCentral;
  nsDeleted ←? ensureNamespaceDeleted namespace;
  mret (Ok (routesDeleted && centralDeleted && dbDeleted && chartResourcesDeleted && nsDeleted)).

(** *** The wanted custom resource *)

Definition central_labels (remoteCentral : ManagedCentral) : gmap string string :=
  let labels := {[ManagedByLabelKey := ManagedByFleetshardValue; tenantIDLabelKey := mg_Id remoteCentral;
    instanceTypeLabelKey := mg_InstanceType remoteCentral; orgIDLabelKey := ma_OwnerOrgId (mg_Auth remoteCentral)]} in
  if op_FeatureFlagUpgradeOperatorEnabled opts then <[operatorVersionKey := defaultOperatorVersion]> labels else labels.

(** The resources of central, of the scanner's analyzer and of its database. *)
Definition convert_resources (remoteCentral : ManagedCentral)
    : result kerr (ResourceRequirements * ResourceRequirements * ResourceRequirements) :=
  let convert what res := match ConvertResourceRequirementsToCoreV1 res with
    | Ok r => Ok r | Err err => Err (KWrap what (KText (Error err))) end in
  match convert "converting Central resources" (mg_Central remoteCentral) with
  | Err err => Err err
  | Ok central =>
      match convert "converting Scanner Analyzer resources" (as_Analyzer (mg_Scanner remoteCentral)) with
      | Err err => Err err
      | Ok analyzer =>
          match convert "converting Scanner DB resources" (as_Db (mg_Scanner remoteCentral)) with
          | Err err => Err err
          | Ok db => Ok (central, analyzer, db)
          end
      end
  end.

Definition wanted_spec (remoteCentral : ManagedCentral)
    (resources : ResourceRequirements * ResourceRequirements * ResourceRequirements) (adminPasswordGenerationDisabled : bool)
    (db : option (string * string)) (tls : option (list (string * string))) : CentralCRSpec :=
  let orgName := ma_OwnerOrgName (mg_Auth remoteCentral) in
  let orgID := ma_OwnerOrgId (mg_Auth remoteCentral) in
  {| ks_RouteEnabled := op_UseRoutes opts;
     ks_MonitoringEnabled := true;
     ks_CentralResources := resources.1.1;
     ks_TelemetryEnabled := bool_decide (op_TelemetryKey opts <> "") && negb (mg_Internal remoteCentral);
     ks_TelemetryEndpoint := op_TelemetryEndpoint opts; ks_TelemetryKey := op_TelemetryKey opts;
     ks_AnalyzerResources := resources.1.2; ks_AnalyzerScaling := ConvertPrivateScalingToV1 (as_Scaling (mg_Scanner remoteCentral));
     ks_ScannerDbResources := resources.2;
     ks_ScannerMonitoringEnabled := true;
     ks_EnvVars := getProxyEnvVars (mg_Namespace remoteCentral);
     ks_CustomAnnotations := {[envAnnotationKey := op_Environment opts; clusterNameAnnotationKey := op_ClusterName opts;
       orgNameAnnotationKey := orgName]};
     ks_CustomLabels := {[orgIDLabelKey := orgID; tenantIDLabelKey := mg_Id remoteCentral;
       instanceTypeLabelKey := mg_InstanceType remoteCentral]};
     ks_AdminPasswordGenerationDisabled := adminPasswordGenerationDisabled;
     ks_DB := db; ks_TLS := tls |}.

Definition wanted_meta (remoteCentral : ManagedCentral) : ObjectMeta :=
  mkMeta (mg_Name remoteCentral) (mg_Namespace remoteCentral) (central_labels remoteCentral)
    {[managedServicesAnnotation := "true"; orgNameAnnotationKey := ma_OwnerOrgName (mg_Auth remoteCentral)]} "" false.

(** The custom resource is created, or an existing one gets the wanted spec. *)
Definition apply_central (remoteCentral : ManagedCentral) (spec : CentralCRSpec) : M unit :=
  let namespace := mg_Namespace remoteCentral in
  let name := mg_Name remoteCentral in
  let text verb := Sprintf "%s central %s/%s" [VStr verb; VStr namespace; VStr name] in
  r ← lift (kget KCentral (namespace, name));
  match (r : result kerr (kobj KCentral)) with
  | Err err =>
      if negb (IsNotFound err) then mret (Err (KWrap (text "unable to check the existence of") err))
      else
        let meta := wanted_meta remoteCentral in
        match IncrementCentralRevision name (om_Annotations meta) with
        | Err err => mret (Err (KWrap "incrementing central's revision" err))
        | Ok annotations =>
            with_err (KWrap (text "creating new"))
              (lift (unit_result (kcreate (mkObj KCentral (set_annotations annotations meta) spec))))
        end
  | Ok existingCentral =>
      match IncrementCentralRevision (om_Name (ko_meta existingCentral)) (om_Annotations (ko_meta existingCentral)) with
      | Err err => mret (Err (KWrap "incrementing central's revision" err))
      | Ok annotations =>
          with_err (KWrap (text "updating"))
            (lift (unit_result (kupdate (mkObj KCentral (set_annotations annotations (ko_meta existingCentral)) spec))))
      end
  end.

(** Connection string and certificates for the custom resource. *)
Definition database_settings (remoteCentral : ManagedCentral)
    : M (option (string * string) * option (list (string * string))) :=
  if negb (op_ManagedDBEnabled opts) then mret (Ok (None, None))
  else
    connection ←? with_err (KWrap "getting Central DB connection string") (getCentralDBConnectionString remoteCentral);
    ca ← GetDatabaseCACertificates;
    mret (Ok (Some (connection, centralDbSecretName),
              match ca with Ok dbCA => Some [(CentralDatabaseCACertificateBaseName, dbCA)] | Err _ => None end)).

(** Whether the secret with Central's certificate was found. *)
Definition ensure_routes (remoteCentral : ManagedCentral) : M bool :=
  if negb (op_UseRoutes opts) then mret (Ok true)
  else
    r ← ensureRoutesExist remoteCentral;
    mret (match r with
          | Ok _ => Ok true
          | Err err => if errors_Is err ErrCentralTLSSecretNotFound then Ok false else Err (KWrap "updating routes" err)
          end).

(** *** A pass *)

Definition check_auth_provider (remoteCentral : ManagedCentral) : M unit :=
  has ← reads rs_hasAuthProvider;
  if op_WantsAuthProvider opts && negb has then
    exists_ ←? lift (existsRHSSOAuthProvider remoteCentral);
    _ ← (if exists_ : bool then modify (set_hasAuthProvider true) else mret tt);
    mret (Ok tt)
  else mret (Ok tt).

Definition create_auth_provider (remoteCentral : ManagedCentral) : M unit :=
  has ← reads rs_hasAuthProvider;
  if op_WantsAuthProvider opts && negb has && negb (isRemoteCentralReady remoteCentral) then
    _ ←? lift (createRHSSOAuthProvider remoteCentral);
    _ ← modify (set_hasAuthProvider true);
    mret (Ok tt)
  else mret (Ok tt).

(** The part of a pass that installs or updates, from the namespace on. *)
Definition install (remoteCentral : ManagedCentral) (changed : bool)
    (resources : ResourceRequirements * ResourceRequirements * ResourceRequirements) : M ApiCentralStatus :=
  let namespace := mg_Namespace remoteCentral in
  let name := mg_Name remoteCentral in
  let auth := mg_Auth remoteCentral in
  has ← reads rs_hasAuthProvider;
  _ ←? with_err (KWrap (Sprintf "unable to ensure that namespace %s exists" [VStr namespace]))
         (ensureNamespaceExists namespace {[orgIDLabelKey := ma_OwnerOrgId auth; tenantIDLabelKey := mg_Id remoteCentral]}
            {[orgNameAnnotationKey := ma_OwnerOrgName auth]});
  _ ←? with_err (KWrap (Sprintf "unable to install chart resource for central %s/%s" [VStr namespace; VStr name]))
         (ensureChartResourcesExist remoteCentral);
  settings ←? database_settings remoteCentral;
  _ ←? apply_central remoteCentral (wanted_spec remoteCentral resources has settings.1 settings.2);
  centralTLSSecretFound ←? ensure_routes remoteCentral;
  centralDeploymentReady ←? lift (isCentralDeploymentReady remoteCentral);
  if negb centralDeploymentReady || negb centralTLSSecretFound then
    mret (if isRemoteCentralProvisioning remoteCentral && negb changed then Err ErrCentralNotChanged else Ok installingStatus)
  else
    _ ←? create_auth_provider remoteCentral;
    routes ←? (if op_UseRoutes opts && negb (isRemoteCentralReady remoteCentral)
               then routes ←? getRoutesStatuses namespace; mret (Ok (Some routes)) else mret (Ok None));
    _ ←? with_err (KWrap "setting central reconcilation cache") (setLastCentralHash remoteCentral);
    mret (Ok (mkApiCentralStatus (acs_Conditions readyStatus) routes "" "")).

Definition delete (remoteCentral : ManagedCentral) : M ApiCentralStatus :=
  deleted ←? with_err (KWrap (Sprintf "delete central %s/%s" [VStr (mg_Namespace remoteCentral); VStr (mg_Name remoteCentral)]))
    (ensureCentralDeleted remoteCentral);
  mret (if deleted : bool then Ok deletedStatus else Err ErrDeletionInProgress).

(** The pass, once the reconciler is blocked. *)
Definition pass (remoteCentral : ManagedCentral) : M ApiCentralStatus :=
  changed ←? with_err (KWrap "checking if central changed") (centralChanged remoteCentral);
  skip ← shouldSkipReadyCentral remoteCentral;
  if negb changed && skip then mret (Err ErrCentralNotChanged)
  else match convert_resources remoteCentral with
       | Err err => mret (Err err)
       | Ok resources =>
           _ ←? check_auth_provider remoteCentral;
           if bool_decide (mg_DeletionTimestamp remoteCentral <> None) then delete remoteCentral
           else install remoteCentral changed resources
       end.

Definition Reconcile (remoteCentral : ManagedCentral) : M ApiCentralStatus :=
  busy ← reads rs_busy;
  if busy : bool then mret (Err ErrBusy)
  else
    _ ← modify (set_busy true);
    r ← pass remoteCentral;
    _ ← modify (set_busy false);
    mret r.

(** [NewCentralReconciler], in a process with the certificates [ca] read so far. *)
Definition NewCentralReconciler (ca : option string) (w : W) : rstate W := mkRState false zero_hash false ca w.
End reconciler.
