(* ===== verification/CentralReconcilerProps.v ===== *)
(** * Properties of the reconciler of a central

    What a pass leaves in the cluster and what it reports, for any cluster that
    keeps [ShardLaws].  Operations may fail at any point. *)

From S2P Require Import Prelude GoString GoFmt ServiceErrors CentralRequest World Effects Resources Presenters Kube ManagedDB CentralReconciler.
Local Open Scope string_scope.
Local Open Scope Z_scope.

(** ** Laws *)

(** Databases, HTTP, random numbers, files and templates are apart from the objects of
    the cluster; the objects of the tenant chart name no namespace or the tenant's. *)
Class ShardLaws `{Shard W} := {
  shard_kube_laws :: KubeLaws (W:=W);
  provision_same id p : preserves same_view (db_EnsureProvisioned id p);
  deprovision_same id : preserves same_view (db_EnsureDeprovisioned id);
  connection_same id : preserves same_view (db_GetConnection id);
  init_same c u p : preserves same_view (init_db c u p);
  random_same : preserves same_view GenerateString;
  read_ca_same : preserves same_view read_ca;
  http_same c : preserves same_view (http_do c);
  engine_same chart v : preserves same_view (engine_Render chart v);
  tenant_chart_inside ns vals w objs :
    (RenderToObjects helmReleaseName ns "tenant-resources" vals w).2 = Ok objs ->
    Forall (fun o : unstructured => om_Namespace (ko_meta (projT2 o)) = "" \/ om_Namespace (ko_meta (projT2 o)) = ns) objs
}.

(** ** Reasoning *)

(** A relation on the worlds, for programs of the reconciler. *)
Definition on_world {W} (R : relation W) : relation (rstate W) := fun s s' => R (rs_world s) (rs_world s').

#[export] Instance on_world_preorder {W} (R : relation W) `{!PreOrder R} : PreOrder (on_world R).
Proof. split; [intros s; unfold on_world; reflexivity|]. intros s1 s2 s3. unfold on_world. by etransitivity. Qed.

Lemma preserves_lift {W A} (R : relation W) (m : prog W A) : preserves R m -> preserves (on_world R) (lift m).
Proof. intros Hm s. apply Hm. Qed.

Lemma preserves_wp {S A} (R : relation S) (m : prog S A) s : preserves R m -> wp m (fun s' _ => R s s') s.
Proof. intros Hm. apply Hm. Qed.

(** A property of the value is passed on. *)
Lemma preserves_try_post {S A B} (R : relation S) `{!PreOrder R} (P : A -> Prop) (m : prog S (result kerr A))
    (k : A -> prog S (result kerr B)) :
  preserves R m -> (forall s a, (m s).2 = Ok a -> P a) -> (forall a, P a -> preserves R (k a)) -> preserves R (try_bind m k).
Proof.
  intros Hm HP Hk s. unfold try_bind. rewrite prog_bind_run. transitivity (m s).1; [apply Hm|].
  destruct ((m s).2) as [a|e] eqn:E; [|reflexivity]. eapply Hk, HP, E.
Qed.

Section reading.
Context `{KubeLaws W} {S : Type} (proj : S -> W).

(** A program that reads the object of a kind with a key. *)
Record reading (k : kind) (key : ObjectKey) (m : prog S (result kerr (kobj k))) : Prop := {
  rd_same s : same_view (proj s) (proj (m s).1);
  rd_found s o : (m s).2 = Ok o -> kview (proj s) k !! key = Some o;
  rd_missing s e : (m s).2 = Err e -> IsNotFound e = true -> kview (proj s) k !! key = None
}.

Lemma reading_with_err k key m t : reading k key m -> reading k key (with_err (KWrap t) m).
Proof.
  intros [Hs Hf Hm]. split; intros s; unfold with_err; rewrite prog_bind_run.
  - apply Hs.
  - intros o. destruct ((m s).2) as [o'|e] eqn:E; intros [= <-]. by apply Hf.
  - intros e. destruct ((m s).2) as [o'|e'] eqn:E; intros [= <-]. intros He. by apply (Hm s e').
Qed.

(** Reading, the object or the error in hand: it has the key it was read with. *)
Lemma wp_reading k key m Q s :
  reading k key m ->
  (forall s' o, same_view (proj s) (proj s') -> kview (proj s) k !! key = Some o -> key_of o = key -> Q s' (Ok o)) ->
  (forall s' e, same_view (proj s) (proj s') -> (IsNotFound e = true -> kview (proj s) k !! key = None) -> Q s' (Err e)) ->
  wp m Q s.
Proof.
  intros [Hs Hf Hm] Hok Herr. unfold wp. destruct ((m s).2) as [o|e] eqn:E.
  - apply Hok; [apply Hs|by apply Hf|]. eapply kview_keyed. by apply Hf.
  - apply Herr; [apply Hs|]. by apply Hm.
Qed.
End reading.

Lemma reading_kget `{KubeLaws W} k key : reading (fun w : W => w) k key (kget k key).
Proof. split; [apply kget_same|apply kget_found|apply kget_missing]. Qed.

Lemma reading_lift `{KubeLaws W} k key (m : prog W (result kerr (kobj k))) :
  reading (fun w : W => w) k key m -> reading rs_world k key (lift m).
Proof. intros [Hs Hf Hm]. split; intros s; [apply Hs|apply Hf|apply Hm]. Qed.

Lemma preserves_reading `{KubeLaws W} (R : relation W) `{!PreOrder R} k key m {B} (f : result kerr (kobj k) -> prog (rstate W) B) :
  (forall w w', same_view w w' -> R w w') -> reading rs_world k key m ->
  (forall o, key_of o = key -> preserves (on_world R) (f (Ok o))) -> (forall e, preserves (on_world R) (f (Err e))) ->
  preserves (on_world R) (m ≫= f).
Proof.
  intros HR Hr Hok Herr s. rewrite prog_bind_run. transitivity (m s).1; [apply HR, Hr|].
  destruct ((m s).2) as [o|e] eqn:E; [apply Hok|apply Herr]. eapply kview_keyed. by apply (rd_found _ _ _ _ Hr).
Qed.


(** [shard_tac] follows the structure of a program. *)
Ltac shard_step :=
  lazymatch goal with
  | |- preserves (on_world _) (lift _) => apply preserves_lift
  | |- preserves (on_world _) (reads _) => intros ?; unfold on_world; reflexivity
  | |- preserves (on_world _) (modify _) => intros ?; unfold on_world; reflexivity
  | |- _ => err_step
  end.

Ltac shard_tac := repeat (first [solve [eauto with fleet typeclass_instances] | shard_step | progress cbv zeta]).

#[export] Hint Resolve kget_same provision_same deprovision_same connection_same init_same random_same read_ca_same
  http_same engine_same : fleet.

(** ** Programs that change no object *)

Section quiet.
Context `{ShardLaws W} `{Messages} (opts : Options).

Lemma request_same address pass message method path :
  preserves same_view (SendRequestToCentral address pass message method path).
Proof. unfold SendRequestToCentral. shard_tac. Qed.
Hint Resolve request_same : fleet.

Lemma group_same central address pass g : preserves same_view (SendGroupRequest central address pass g).
Proof. unfold SendGroupRequest. shard_tac. Qed.

Lemma provider_same central address pass r : preserves same_view (SendAuthProviderRequest central address pass r).
Proof. unfold SendAuthProviderRequest. shard_tac. Qed.

Lemma logins_same central address pass : preserves same_view (GetLoginAuthProviders central address pass).
Proof. unfold GetLoginAuthProviders. shard_tac. Qed.
Hint Resolve group_same provider_same logins_same : fleet.

Lemma deployment_same central : preserves same_view (isCentralDeploymentReady central).
Proof. unfold isCentralDeploymentReady. shard_tac. Qed.

Lemma address_same central : preserves same_view (getServiceAddress central).
Proof. unfold getServiceAddress. shard_tac. Qed.
Hint Resolve deployment_same address_same : fleet.

Lemma exists_provider_same central : preserves same_view (existsRHSSOAuthProvider central).
Proof. unfold existsRHSSOAuthProvider. shard_tac. Qed.

Lemma groups_same central address pass gs : preserves same_view (send_groups central address pass gs).
Proof. induction gs; cbn [send_groups]; shard_tac. Qed.
Hint Resolve groups_same : fleet.

Lemma create_provider_same central : preserves same_view (createRHSSOAuthProvider central).
Proof. unfold createRHSSOAuthProvider, getAdminPassword. shard_tac. Qed.

Lemma render_same release ns chart vals : preserves same_view (RenderToObjects release ns chart vals).
Proof. unfold RenderToObjects. shard_tac. Qed.
Hint Resolve exists_provider_same create_provider_same render_same : fleet.

Lemma ca_same : preserves (on_world same_view) GetDatabaseCACertificates.
Proof. unfold GetDatabaseCACertificates. shard_tac. Qed.

Lemma changed_same c : preserves (on_world same_view) (centralChanged c).
Proof. unfold centralChanged. shard_tac. Qed.

Lemma set_hash_same c : preserves (on_world same_view) (setLastCentralHash c).
Proof. unfold setLastCentralHash. shard_tac. Qed.

Lemma skip_same c : preserves (on_world same_view) (shouldSkipReadyCentral opts c).
Proof. unfold shouldSkipReadyCentral. shard_tac. Qed.

Lemma check_provider_same c : preserves (on_world same_view) (check_auth_provider opts c).
Proof. unfold check_auth_provider. shard_tac. Qed.

Lemma create_auth_same c : preserves (on_world same_view) (create_auth_provider opts c).
Proof. unfold create_auth_provider. shard_tac. Qed.

Lemma routes_statuses_same ns : preserves (on_world same_view) (getRoutesStatuses ns).
Proof.
  unfold getRoutesStatuses, FindReencryptIngress, FindPassthroughIngress, findFirstAdmittedIngress, findRoute. shard_tac.
Qed.

Lemma secret_exists_same ns : preserves (on_world same_view) (centralDBSecretExists ns).
Proof. unfold centralDBSecretExists, get_db_secret. shard_tac. Qed.

Lemma user_exists_same ns : preserves (on_world same_view) (centralDBUserExists ns).
Proof. unfold centralDBUserExists, get_db_secret. shard_tac. Qed.

Lemma secret_password_same ns : preserves (on_world same_view) (getDBPasswordFromSecret ns).
Proof. unfold getDBPasswordFromSecret, get_db_secret. shard_tac. Qed.

Lemma generate_same : preserves (on_world same_view) generateDBPassword.
Proof. unfold generateDBPassword. shard_tac. Qed.

Lemma render_chart_same ns : preserves (on_world same_view) (render opts ns).
Proof. unfold render. shard_tac. Qed.

Lemma quiet_outside ns {A} (m : prog (rstate W) A) : preserves (on_world same_view) m -> preserves (on_world (outside ns)) m.
Proof. apply preserves_weaken. intros s s'. apply same_view_outside. Qed.

Lemma quiet_no_new {A} (m : prog (rstate W) A) : preserves (on_world same_view) m -> preserves (on_world no_new) m.
Proof. apply preserves_weaken. intros s s'. apply same_view_no_new. Qed.
End quiet.

#[export] Hint Resolve ca_same changed_same set_hash_same skip_same check_provider_same create_auth_same routes_statuses_same
  secret_exists_same user_exists_same secret_password_same generate_same render_chart_same deployment_same quiet_outside quiet_no_new : fleet.

Section readings.
Context `{ShardLaws W}.

Lemma reading_namespace name : reading rs_world KNamespace ("", name) (getNamespace name).
Proof. apply reading_with_err, reading_lift, reading_kget. Qed.

Lemma reading_db_secret ns : reading rs_world KSecret (ns, centralDbSecretName) (get_db_secret ns).
Proof. apply reading_lift, reading_kget. Qed.

Lemma reading_reencrypt ns : reading rs_world KRoute (ns, centralReencryptRouteName) (lift (FindReencryptRoute ns)).
Proof. apply reading_lift, reading_with_err, reading_kget. Qed.

Lemma reading_passthrough ns : reading rs_world KRoute (ns, centralPassthroughRouteName) (lift (FindPassthroughRoute ns)).
Proof. apply reading_lift, reading_with_err, reading_kget. Qed.
End readings.

(** ** A pass stays inside the namespace of its central *)

Section writes.
Context `{KubeLaws W} (ns : string) (k : kind) (o : kobj k).

Lemma kcreate_inside : scope k (key_of o) = ns -> preserves (outside ns) (kcreate o).
Proof. intros <-. apply kcreate_outside. Qed.
Lemma kupdate_inside : scope k (key_of o) = ns -> preserves (outside ns) (kupdate o).
Proof. intros <-. apply kupdate_outside. Qed.
Lemma kdelete_inside : scope k (key_of o) = ns -> preserves (outside ns) (kdelete o).
Proof. intros <-. apply kdelete_outside. Qed.
End writes.

(** The namespace of an object that is built from one that was read. *)
Ltac scope_tac := solve [reflexivity | match goal with Hk : key_of _ = _ |- _ => first [by rewrite Hk | revert Hk; unfold setPassword, key_of; cbn; congruence] end].

Ltac reading_tac :=
  first [apply reading_namespace | apply reading_db_secret | apply reading_reencrypt | apply reading_passthrough
        | apply reading_lift, reading_kget].

Ltac inside_step :=
  lazymatch goal with
  | |- preserves (on_world (outside ?ns)) (mbind _ (lift (kget _ _))) =>
      eapply preserves_reading; [typeclasses eauto|apply same_view_outside|reading_tac|intros ? ?|intros ?]
  | |- preserves (on_world (outside ?ns)) (mbind _ (getNamespace _)) =>
      eapply preserves_reading; [typeclasses eauto|apply same_view_outside|reading_tac|intros ? ?|intros ?]
  | |- preserves (on_world (outside ?ns)) (mbind _ (get_db_secret _)) =>
      eapply preserves_reading; [typeclasses eauto|apply same_view_outside|reading_tac|intros ? ?|intros ?]
  | |- preserves (outside _) (kcreate _) =>
      apply kcreate_inside
  | |- preserves (outside _) (kupdate _) =>
      apply kupdate_inside
  | |- preserves (outside _) (kdelete _) =>
      apply kdelete_inside
  | |- preserves (on_world (outside _)) (lift _) =>
      first [apply quiet_outside; solve [shard_tac] | apply preserves_lift]
  | |- _ => shard_step
  end.

Ltac inside_tac := repeat (first [solve [eauto with fleet typeclass_instances] | inside_step | scope_tac | progress cbv zeta]).

Section isolation.
Context `{ShardLaws W} `{Messages} (opts : Options) (c : ManagedCentral).
Local Abbreviation ns := (mg_Namespace c).
Local Abbreviation inside := (preserves (on_world (outside ns))).

Lemma namespace_exists_inside labels annotations : inside (ensureNamespaceExists ns labels annotations).
Proof. unfold ensureNamespaceExists, createTenantNamespace. inside_tac. Qed.

Lemma namespace_deleted_inside : inside (ensureNamespaceDeleted ns).
Proof. unfold ensureNamespaceDeleted. inside_tac. Qed.

Lemma secret_exists_inside userType password : inside (ensureCentralDBSecretExists ns userType password).
Proof. unfold ensureCentralDBSecretExists. inside_tac. Qed.

Lemma secret_deleted_inside : inside (ensureCentralDBSecretDeleted ns).
Proof. unfold ensureCentralDBSecretDeleted. inside_tac. Qed.
Hint Resolve namespace_exists_inside namespace_deleted_inside secret_exists_inside secret_deleted_inside : fleet.

Lemma database_inside : inside (ensureManagedCentralDBInitialized c).
Proof. unfold ensureManagedCentralDBInitialized. inside_tac. Qed.
Hint Resolve database_inside : fleet.

Lemma connection_inside : inside (getCentralDBConnectionString c).
Proof. unfold getCentralDBConnectionString. inside_tac. Qed.
Hint Resolve connection_inside : fleet.

Lemma pause_inside o : key_of o = (ns, mg_Name c) -> inside (disablePauseReconcileIfPresent o).
Proof. intros Hk. unfold disablePauseReconcileIfPresent. inside_tac. Qed.

Lemma pause_key o s o' : (disablePauseReconcileIfPresent o s).2 = Ok o' -> key_of o' = key_of o.
Proof.
  unfold disablePauseReconcileIfPresent. case_bool_decide; [|by intros [= <-]].
  unfold try_bind. rewrite prog_bind_run. by destruct ((with_err _ _ s).2); intros [= <-].
Qed.

Lemma cr_deleted_inside : inside (ensureCentralCRDeleted ns (mg_Name c)).
Proof.
  unfold ensureCentralCRDeleted. inside_step; [|inside_tac].
  eapply (preserves_try_post _ (fun o' => key_of o' = (ns, mg_Name c))); [by apply pause_inside| |intros o' Ho'; inside_tac].
  intros s o' Ho'. by rewrite (pause_key _ _ _ Ho').
Qed.
Hint Resolve cr_deleted_inside : fleet.

(** The objects of the chart. *)
Definition belongs (o : unstructured) : Prop := om_Namespace (ko_meta (projT2 o)) = ns.

Lemma in_namespace_belongs vals w objs :
  (RenderToObjects helmReleaseName ns "tenant-resources" vals w).2 = Ok objs -> Forall belongs (in_namespace ns <$> objs).
Proof.
  intros Hr. apply tenant_chart_inside in Hr. rewrite Forall_fmap. eapply Forall_impl; [exact Hr|].
  intros [g o] Ho. unfold belongs, in_namespace. cbn in *. case_bool_decide; [done|]. by destruct Ho.
Qed.

Lemma objects_exist_inside objs : Forall belongs objs -> inside (ensure_objects_exist objs).
Proof.
  induction 1 as [|[g o] objs Ho _ IH]; cbn [ensure_objects_exist]; [inside_tac|].
  apply preserves_try; [typeclasses eauto| |intros _; exact IH]. unfold belongs in Ho. cbn in Ho.
  unfold ensure_object_exists. inside_tac.
Qed.

Lemma objects_deleted_inside objs : Forall belongs objs -> forall b, inside (ensure_objects_deleted b objs).
Proof.
  induction 1 as [|[g o] objs Ho _ IH]; intros b; cbn [ensure_objects_deleted]; [inside_tac|].
  apply preserves_try; [typeclasses eauto| |intros b'; apply IH]. unfold belongs in Ho. cbn in Ho.
  unfold ensure_object_deleted. inside_tac.
Qed.

Lemma render_belongs s objs : (render opts ns s).2 = Ok objs -> Forall belongs (in_namespace ns <$> objs).
Proof.
  unfold render, with_err. rewrite prog_bind_run. cbn [lift snd].
  destruct ((RenderToObjects _ _ _ _ (rs_world s)).2) as [l|e] eqn:E; intros [= <-]. by eapply in_namespace_belongs.
Qed.

Lemma chart_exists_inside : inside (ensureChartResourcesExist opts c).
Proof.
  eapply preserves_try_post; [typeclasses eauto|inside_tac|apply render_belongs|]. intros objs. apply objects_exist_inside.
Qed.

Lemma chart_deleted_inside : inside (ensureChartResourcesDeleted opts c).
Proof.
  eapply preserves_try_post; [typeclasses eauto|inside_tac|apply render_belongs|].
  intros objs Hobjs. by apply objects_deleted_inside.
Qed.
Hint Resolve chart_exists_inside chart_deleted_inside : fleet.

Lemma create_route_inside name host tls : preserves (outside ns) (createCentralRoute name ns host tls).
Proof. unfold createCentralRoute. inside_tac. Qed.
Hint Resolve create_route_inside : fleet.

Lemma reencrypt_inside : preserves (outside ns) (CreateReencryptRoute c).
Proof.
  unfold CreateReencryptRoute. apply preserves_bind; [typeclasses eauto| |intros r; shard_tac].
  eapply preserves_weaken; [apply same_view_outside|]. apply kget_same.
Qed.

Lemma routes_exist_inside : inside (ensureRoutesExist c).
Proof.
  unfold ensureRoutesExist, ensureReencryptRouteExists, ensurePassthroughRouteExists.
  repeat ((apply preserves_try; [typeclasses eauto| |intros _]) ||
          (eapply preserves_reading; [typeclasses eauto|apply same_view_outside|reading_tac|intros ? ?|intros ?])).
  all: inside_tac. apply reencrypt_inside.
Qed.

Lemma route_deleted_inside name m : reading rs_world KRoute (ns, name) (lift m) -> inside (ensureRouteDeleted ns name m).
Proof.
  intros Hm. unfold ensureRouteDeleted.
  eapply preserves_reading; [typeclasses eauto|apply same_view_outside|exact Hm|intros ? ?|intros ?]; inside_tac.
Qed.

Lemma central_deleted_inside : inside (ensureCentralDeleted opts c).
Proof.
  unfold ensureCentralDeleted, ensureReencryptRouteDeleted, ensurePassthroughRouteDeleted.
  inside_tac; apply route_deleted_inside; reading_tac.
Qed.

Lemma apply_central_inside spec : inside (apply_central opts c spec).
Proof. unfold apply_central. inside_tac. Qed.
Hint Resolve routes_exist_inside central_deleted_inside apply_central_inside : fleet.

Lemma install_inside changed resources : inside (install opts c changed resources).
Proof. unfold install, database_settings, ensure_routes. inside_tac. Qed.

Lemma pass_inside : inside (pass opts c).
Proof. unfold pass, delete. inside_tac. apply install_inside. Qed.
End isolation.

(** C4. A pass over a central leaves every object outside the central's namespace as
    it was, whatever fails: no pass touches the objects of another tenant. *)
Theorem Reconcile_isolated `{ShardLaws W} `{Messages} opts c (s : rstate W) :
  outside (mg_Namespace c) (rs_world s) (rs_world (Reconcile opts c s).1).
Proof.
  assert (preserves (on_world (outside (mg_Namespace c))) (Reconcile opts c)) as Hr; [|apply Hr].
  pose proof (pass_inside opts c). unfold Reconcile. shard_tac.
Qed.

(** ** Deletion *)

(** A program that creates nothing and answers [true] only if an object is gone. *)
Definition gone `{Shard W} (k : kind) (key : ObjectKey) (m : prog (rstate W) (result kerr bool)) : Prop :=
  forall s, wp m (fun s' r => no_new (rs_world s) (rs_world s') /\ (r = Ok true -> kview (rs_world s') k !! key = None)) s.

Section deletion.
Context `{ShardLaws W} `{Messages} (opts : Options) (c : ManagedCentral).
Local Abbreviation ns := (mg_Namespace c).
Local Abbreviation shrinking := (preserves (on_world (no_new (W:=W)))).

Lemma delete_then_false (f : kerr -> kerr) k (o : kobj k) :
  shrinking (_ ←? with_err f (lift (unit_result (kdelete o))); mret (Ok false)) /\
  forall s, (try_bind (with_err f (lift (unit_result (kdelete o)))) (fun _ => mret (Ok false)) s).2 <> Ok true.
Proof.
  split; [shard_tac; apply kdelete_no_new|]. intros s. unfold try_bind. rewrite prog_bind_run. by case_match.
Qed.

Lemma gone_reading k key m f g :
  reading rs_world k key m ->
  (forall e, f (Err e) = mret (if IsNotFound e then Ok true else Err (g e))) ->
  (forall o, shrinking (f (Ok o)) /\ forall s, (f (Ok o) s).2 <> Ok true) ->
  gone k key (m ≫= f).
Proof.
  intros Hm Hf Ho s. apply wp_bind. eapply wp_reading; [exact Hm| |].
  - intros s' o Hs _ _. destruct (Ho o) as [Hn Hr]. split.
    + etransitivity; [apply same_view_no_new, Hs|apply Hn].
    + intros He. by destruct (Hr s').
  - intros s' e Hs He. rewrite Hf. split; [by apply same_view_no_new|]. cbn. intros Hr. rewrite (Hs k).
    destruct (IsNotFound e); [by apply He|done].
Qed.

Lemma route_gone name m : reading rs_world KRoute (ns, name) (lift m) -> gone KRoute (ns, name) (ensureRouteDeleted ns name m).
Proof. intros Hm. eapply gone_reading; [exact Hm|done|]. intros o. apply delete_then_false. Qed.

Lemma secret_gone : gone KSecret (ns, centralDbSecretName) (ensureCentralDBSecretDeleted ns).
Proof. eapply gone_reading; [apply reading_db_secret|done|]. intros o. apply delete_then_false. Qed.

Lemma namespace_gone : gone KNamespace ("", ns) (ensureNamespaceDeleted ns).
Proof.
  eapply gone_reading; [apply reading_namespace|done|]. intros o. cbn beta iota.
  destruct (ko_body o); [|apply delete_then_false]. split; [shard_tac|done].
Qed.

Lemma cr_gone name : gone KCentral (ns, name) (ensureCentralCRDeleted ns name).
Proof.
  eapply gone_reading; [apply reading_lift, reading_kget|done|]. intros o. cbn beta iota. split.
  - unfold disablePauseReconcileIfPresent. shard_tac; apply kupdate_no_new || apply kdelete_no_new.
  - intros s. unfold try_bind at 1. rewrite prog_bind_run. case_match; [|done]. apply delete_then_false.
Qed.

Lemma chart_shrinks : shrinking (ensureChartResourcesDeleted opts c).
Proof.
  apply preserves_try; [typeclasses eauto|auto with fleet|]. intros objs. generalize false.
  induction (in_namespace ns <$> objs) as [|[g o] l IH]; intros b; cbn [ensure_objects_deleted]; [shard_tac|].
  apply preserves_try; [typeclasses eauto| |intros b'; apply IH]. unfold ensure_object_deleted.
  apply preserves_bind; [typeclasses eauto| |intros r].
  - apply quiet_no_new. shard_tac.
  - shard_tac. apply kdelete_no_new.
Qed.

(** The objects whose removal a pass waits for. *)
Definition tracked : list (kind * ObjectKey) :=
  ((if op_UseRoutes opts then [(KRoute, (ns, centralReencryptRouteName)); (KRoute, (ns, centralPassthroughRouteName))] else []) ++
   [(KCentral, (ns, mg_Name c))] ++
   (if op_ManagedDBEnabled opts then [(KSecret, (ns, centralDbSecretName))] else []) ++
   [(KNamespace, ("", ns))])%list.

Definition absent (w : W) (l : list (kind * ObjectKey)) : Prop := Forall (fun o => kview w o.1 !! o.2 = None) l.

Lemma absent_no_new w w' l : no_new w w' -> absent w l -> absent w' l.
Proof. intros Hn Ha. eapply Forall_impl; [exact Ha|]. intros [k key]. apply Hn. Qed.

(** A step of a deletion, one answer of several. *)
Lemma wp_clears (s0 s : rstate W) L (m : prog (rstate W) (result kerr bool)) (k : bool -> prog (rstate W) (result kerr bool)) Q :
  (forall s', wp m (fun s'' r => no_new (rs_world s') (rs_world s'') /\ (r = Ok true -> absent (rs_world s'') L)) s') ->
  no_new (rs_world s0) (rs_world s) ->
  (forall s' b, no_new (rs_world s0) (rs_world s') -> no_new (rs_world s) (rs_world s') ->
     (b = true -> absent (rs_world s') L) -> wp (k b) Q s') ->
  (forall s' e, no_new (rs_world s0) (rs_world s') -> Q s' (Err e)) ->
  wp (try_bind m k) Q s.
Proof.
  intros Hm Hs0 Hok Herr. apply wp_try. eapply wp_mono; [apply Hm|]. intros s' [b|e] [Hn Ha].
  - apply Hok; [by etransitivity|done|]. intros ->. by apply Ha.
  - apply Herr. by etransitivity.
Qed.

Lemma gone_clears k key m : gone k key m ->
  forall s, wp m (fun s' r => no_new (rs_world s) (rs_world s') /\ (r = Ok true -> absent (rs_world s') [(k, key)])) s.
Proof.
  intros Hg s. eapply wp_mono; [apply Hg|]. intros s' r [Hn Ha]. split; [done|]. intros Hr.
  apply Forall_singleton. by apply Ha.
Qed.

Lemma routes_clear s :
  wp (if op_UseRoutes opts then
        r ←? ensureReencryptRouteDeleted ns; p ←? ensurePassthroughRouteDeleted ns; mret (Ok (r && p))
      else mret (Ok true))
    (fun s' r => no_new (rs_world s) (rs_world s') /\ (r = Ok true -> absent (rs_world s')
       (if op_UseRoutes opts then [(KRoute, (ns, centralReencryptRouteName)); (KRoute, (ns, centralPassthroughRouteName))] else []))) s.
Proof.
  destruct (op_UseRoutes opts); [|by split; [|intros _; constructor]].
  eapply (wp_clears s); [apply gone_clears, route_gone, reading_reencrypt|done| |by split]. intros s1 b1 Hn1 _ Ha1.
  eapply (wp_clears s); [apply gone_clears, route_gone, reading_passthrough|done| |by split]. intros s2 b2 Hn2 Hn12 Ha2.
  split; [done|]. cbn. intros [= [-> ->]%andb_prop]. apply (Forall_app_2 _ [_] [_]).
  - eapply absent_no_new; [exact Hn12|]. by apply Ha1.
  - by apply Ha2.
Qed.

Lemma database_clear s :
  wp (if op_ManagedDBEnabled opts then
        _ ←? with_err (fun err => KText ("deprovisioning DB: " +:+ kerr_text err)) (lift (db_EnsureDeprovisioned (mg_Id c)));
        ensureCentralDBSecretDeleted ns
      else mret (Ok true))
    (fun s' r => no_new (rs_world s) (rs_world s') /\ (r = Ok true -> absent (rs_world s')
       (if op_ManagedDBEnabled opts then [(KSecret, (ns, centralDbSecretName))] else []))) s.
Proof.
  destruct (op_ManagedDBEnabled opts); [|by split; [|intros _; constructor]].
  apply wp_try, wp_with_err. eapply wp_mono; [apply preserves_wp, preserves_lift, deprovision_same|].
  intros s1 [_|e] Hs; [|by split; [apply same_view_no_new|]].
  eapply wp_mono; [apply gone_clears, secret_gone|]. intros s2 r [Hn Ha]. split; [|exact Ha].
  etransitivity; [apply same_view_no_new, Hs|done].
Qed.

Lemma ensureCentralDeleted_clears s :
  wp (ensureCentralDeleted opts c)
    (fun s' r => no_new (rs_world s) (rs_world s') /\ (r = Ok true -> absent (rs_world s') tracked)) s.
Proof.
  unfold ensureCentralDeleted, tracked.
  eapply (wp_clears s); [apply routes_clear|done| |by split]. intros s1 b1 Hn1 _ Ha1.
  eapply (wp_clears s); [apply gone_clears, cr_gone|done| |by split]. intros s2 b2 Hn2 Hn12 Ha2.
  eapply (wp_clears s); [apply database_clear|done| |by split]. intros s3 b3 Hn3 Hn23 Ha3.
  eapply (wp_clears s _ []); [|done| |by split].
  { intros s'. split; [apply chart_shrinks|intros _; constructor]. }
  intros s4 b4 Hn4 Hn34 _.
  eapply (wp_clears s); [apply gone_clears, namespace_gone|done| |by split]. intros s5 b5 Hn5 Hn45 Ha5.
  apply wp_ret. split; [done|]. intros [= Hb]. repeat apply andb_prop in Hb as [Hb ?].
  assert (no_new (rs_world s3) (rs_world s5)) as Hn35 by (by etransitivity).
  assert (no_new (rs_world s2) (rs_world s5)) as Hn25 by (by etransitivity).
  apply Forall_app_2; [|apply (Forall_app_2 _ [_]); [|apply Forall_app_2]]; 
    [eapply absent_no_new; [|by apply Ha1]; by etransitivity|eapply absent_no_new; [|by apply Ha2]; done
    |eapply absent_no_new; [|by apply Ha3]; done|by apply Ha5].
Qed.
End deletion.

(** ** A pass *)

Lemma Reconcile_run `{Shard W} `{Messages} opts c (s : rstate W) :
  Reconcile opts c s =
    if rs_busy s then (s, Err ErrBusy)
    else (set_busy false (pass opts c (set_busy true s)).1, (pass opts c (set_busy true s)).2).
Proof. unfold Reconcile. rewrite prog_bind_run. cbn. destruct (rs_busy s); [done|]. by rewrite !prog_bind_run. Qed.

Section passes.
Context `{ShardLaws W} `{Messages} (opts : Options) (c : ManagedCentral).
Local Abbreviation ns := (mg_Namespace c).

(** The beginning of a pass, for a relation that looking for the auth provider keeps. *)
Lemma wp_pass_rel (R : relation W) `{!PreOrder R} Q s :
  preserves (on_world R) (check_auth_provider opts c) ->
  (forall s' e, R (rs_world s) (rs_world s') -> Q s' (Err e)) ->
  (forall s' changed resources, R (rs_world s) (rs_world s') -> convert_resources c = Ok resources ->
     wp (if bool_decide (mg_DeletionTimestamp c <> None) then delete opts c else install opts c changed resources) Q s') ->
  wp (pass opts c) Q s.
Proof.
  intros Hc Herr Hok. unfold pass. apply wp_try, wp_with_err.
  assert (preserves (on_world R) (centralChanged c)) as Hch by (unfold centralChanged; shard_tac).
  assert (preserves (on_world R) (shouldSkipReadyCentral opts c)) as Hsk by (unfold shouldSkipReadyCentral; shard_tac).
  eapply wp_mono; [apply preserves_wp, Hch|]. intros s1 [changed|e] Hs1; [|by apply Herr].
  apply wp_bind. eapply wp_mono; [apply preserves_wp, Hsk|]. intros s2 skip Hs2.
  assert (R (rs_world s) (rs_world s2)) as Hs by (by etransitivity).
  destruct (negb changed && skip); [by apply wp_ret, Herr|]. destruct (convert_resources c) as [r|e] eqn:Er; [|by apply wp_ret, Herr].
  apply wp_try. eapply wp_mono; [apply preserves_wp, Hc|]. intros s3 [_|e] Hs3.
  - apply Hok; [by etransitivity|done].
  - apply Herr. by etransitivity.
Qed.

Lemma wp_pass Q s :
  (forall s' e, same_view (rs_world s) (rs_world s') -> Q s' (Err e)) ->
  (forall s' changed resources, same_view (rs_world s) (rs_world s') -> convert_resources c = Ok resources ->
     wp (if bool_decide (mg_DeletionTimestamp c <> None) then delete opts c else install opts c changed resources) Q s') ->
  wp (pass opts c) Q s.
Proof. apply wp_pass_rel; [typeclasses eauto|apply check_provider_same]. Qed.

Lemma pass_deletes s :
  mg_DeletionTimestamp c <> None ->
  wp (pass opts c) (fun s' r => no_new (rs_world s) (rs_world s') /\
    forall st, r = Ok st -> st = deletedStatus /\ absent (rs_world s') (tracked opts c)) s.
Proof.
  intros Hd. apply wp_pass; [by intros s' e Hs; split; [apply same_view_no_new|]|].
  intros s1 changed res Hs1 _. rewrite bool_decide_eq_true_2 by done. unfold delete. apply wp_try, wp_with_err.
  eapply wp_mono; [apply ensureCentralDeleted_clears|]. intros s2 r [Hn Ha].
  assert (no_new (rs_world s) (rs_world s2)) as Hn2 by (etransitivity; [apply same_view_no_new, Hs1|done]).
  destruct r as [[]|e]; (split; [done|]); intros st [= <-]. split; [done|by apply Ha].
Qed.
End passes.

(** C10. A pass over a central that is to be deleted creates no object, whatever fails;
    if it reports a status, the status is [Deleted], and the routes, the custom
    resource, the secret of the database and the namespace are gone from the cluster. *)
Theorem Reconcile_deletes `{ShardLaws W} `{Messages} opts c (s : rstate W) :
  mg_DeletionTimestamp c <> None ->
  let '(s', r) := Reconcile opts c s in
  no_new (rs_world s) (rs_world s') /\
  forall st, r = Ok st -> st = deletedStatus /\ absent (rs_world s') (tracked opts c).
Proof.
  intros Hd. rewrite Reconcile_run. destruct (rs_busy s); [done|].
  apply (pass_deletes opts c (set_busy true s) Hd).
Qed.

(** ** Installation *)

(** An object stays as it is. *)
Definition keeps `{Kube W} (k : kind) (key : ObjectKey) (w w' : W) : Prop := kview w' k !! key = kview w k !! key.

#[export] Instance keeps_preorder `{Kube W} k key : PreOrder (keeps (W:=W) k key).
Proof. split; [done|]. unfold keeps. intros w1 w2 w3 H12 H23. by rewrite H23. Qed.

Section keeps.
Context `{ShardLaws W} `{Messages} (opts : Options) (c : ManagedCentral) (k : kind) (key : ObjectKey).
Local Abbreviation kept := (preserves (on_world (keeps (W:=W) k key))).

Lemma same_view_keeps (w w' : W) : same_view w w' -> keeps k key w w'.
Proof. intros Hs. unfold keeps. by rewrite Hs. Qed.

Lemma quiet_keeps {A} (m : prog (rstate W) A) : preserves (on_world same_view) m -> kept m.
Proof. apply preserves_weaken. intros s s'. apply same_view_keeps. Qed.

Lemma kcreate_keeps k' (o : kobj k') : k <> k' -> preserves (keeps (W:=W) k key) (kcreate o).
Proof. intros Hk w. apply kcreate_frame. by left. Qed.

Lemma kupdate_keeps k' (o : kobj k') : k <> k' -> preserves (keeps (W:=W) k key) (kupdate o).
Proof. intros Hk w. apply kupdate_frame. by left. Qed.
End keeps.

(** [keeps_tac] proves that a program that writes other kinds keeps an object. *)
Ltac keeps_step :=
  lazymatch goal with
  | |- preserves (keeps _ _) (kcreate _) => apply kcreate_keeps; discriminate
  | |- preserves (keeps _ _) (kupdate _) => apply kupdate_keeps; discriminate
  | |- preserves (keeps _ _) (kget _ _) => eapply preserves_weaken; [apply same_view_keeps|apply kget_same]
  | |- preserves (on_world (keeps _ _)) (lift _) => first [apply quiet_keeps; solve [shard_tac] | apply preserves_lift]
  | |- _ => shard_step
  end.

Ltac keeps_tac := repeat (first [apply quiet_keeps; solve [eauto with fleet typeclass_instances] | solve [eauto with fleet typeclass_instances] | keeps_step | progress cbv zeta]).

Section installs.
Context `{ShardLaws W} `{Messages} (opts : Options) (c : ManagedCentral).
Local Abbreviation ns := (mg_Namespace c).
Local Abbreviation key := ((mg_Namespace c, mg_Name c) : ObjectKey).
Local Abbreviation kept := (preserves (on_world (keeps (W:=W) KCentral key))).

Lemma namespace_keeps labels annotations : kept (ensureNamespaceExists ns labels annotations).
Proof. unfold ensureNamespaceExists, getNamespace, createTenantNamespace. keeps_tac. Qed.

Lemma chart_keeps : kept (ensureChartResourcesExist opts c).
Proof.
  apply preserves_try; [typeclasses eauto|keeps_tac|]. intros objs.
  induction (in_namespace ns <$> objs) as [|[g o] l IH]; cbn [ensure_objects_exist]; [keeps_tac|].
  apply preserves_try; [typeclasses eauto| |intros _; exact IH]. unfold ensure_object_exists. keeps_tac.
Qed.

Lemma secret_keeps userType password : kept (ensureCentralDBSecretExists ns userType password).
Proof. unfold ensureCentralDBSecretExists, get_db_secret. keeps_tac. Qed.
Hint Resolve secret_keeps : fleet.

Lemma settings_keeps : kept (database_settings opts c).
Proof. unfold database_settings, getCentralDBConnectionString, ensureManagedCentralDBInitialized. keeps_tac. Qed.

Lemma settings_db s settings :
  (database_settings opts c s).2 = Ok settings -> op_ManagedDBEnabled opts = true <-> is_Some settings.1.
Proof.
  unfold database_settings. destruct (op_ManagedDBEnabled opts); cbn [negb].
  - unfold try_bind. rewrite prog_bind_run. case_match; [|done]. rewrite prog_bind_run. intros [= <-]. done.
  - intros [= <-]. split; [done|by intros [? ?]].
Qed.

Lemma settings_spec s :
  wp (database_settings opts c) (fun s' r => keeps KCentral key (rs_world s) (rs_world s') /\
    forall settings, r = Ok settings -> op_ManagedDBEnabled opts = true <-> is_Some settings.1) s.
Proof. split; [apply settings_keeps|]. intros settings. apply settings_db. Qed.

Lemma routes_keeps : kept (ensure_routes opts c).
Proof.
  unfold ensure_routes, ensureRoutesExist, ensureReencryptRouteExists, ensurePassthroughRouteExists,
    CreateReencryptRoute, CreatePassthroughRoute, FindReencryptRoute, FindPassthroughRoute, findRoute, createCentralRoute.
  keeps_tac.
Qed.

(** The annotations the revision is counted in: those of the custom resource, or those
    of a new one. *)
Definition counted_in (o : option (kobj KCentral)) : gmap string string :=
  match o with Some o => om_Annotations (ko_meta o) | None => om_Annotations (wanted_meta opts c) end.
Definition previous (w : W) : gmap string string := counted_in (kview w KCentral !! key).

(** The custom resource has a spec, and annotations with the next revision. *)
Definition applied (w w' : W) (spec : CentralCRSpec) : Prop :=
  exists o, kview w' KCentral !! key = Some o /\ ko_body o = spec /\
    IncrementCentralRevision (mg_Name c) (previous w) = Ok (om_Annotations (ko_meta o)).

Lemma applied_keeps w w0 w1 w2 spec :
  keeps KCentral key w w0 -> keeps KCentral key w1 w2 -> applied w0 w1 spec -> applied w w2 spec.
Proof.
  intros E1 E2 (o & Ho & Hb & Ha). exists o. split; [exact (eq_trans E2 Ho)|]. split; [done|].
  rewrite <- Ha. f_equal. unfold previous. f_equal. symmetry. exact E1.
Qed.

Lemma wp_written (m : prog W (option kerr)) t w s spec annotations k0 :
  (forall w0, (m w0).2 = None -> exists o', kview (m w0).1 KCentral !! k0 = Some o' /\ ko_body o' = spec /\
     om_Annotations (ko_meta o') = annotations) ->
  k0 = key -> IncrementCentralRevision (mg_Name c) (previous w) = Ok annotations ->
  wp (with_err (t : kerr -> kerr) (lift (unit_result m))) (fun s' r => r = Ok tt -> applied w (rs_world s') spec) s.
Proof.
  intros Hm -> Ha. apply wp_with_err. unfold wp, unit_result, lift. cbn [fst snd]. rewrite prog_bind_run. cbn.
  destruct ((m (rs_world s)).2) eqn:E; [done|]. intros _. destruct (Hm _ E) as (o' & Ho & Hb & Han).
  exists o'. by rewrite Han.
Qed.

Lemma apply_central_spec spec s :
  wp (apply_central opts c spec) (fun s' r => r = Ok tt -> applied (rs_world s) (rs_world s') spec) s.
Proof.
  unfold apply_central. apply wp_bind. eapply wp_reading; [apply reading_lift, reading_kget| |]; cbn beta iota zeta.
  - intros s1 o _ Ho Hk.
    assert (om_Name (ko_meta o) = mg_Name c) as Hn by (unfold key_of in Hk; congruence). rewrite Hn.
    destruct (IncrementCentralRevision _ (om_Annotations (ko_meta o))) as [a|e] eqn:Ei; [|done].
    eapply (wp_written _ _ _ _ _ a); [|exact Hk|by rewrite <- Ei; unfold previous; rewrite Ho].
    intros w0 Hw. apply kupdate_done in Hw as (o' & Ho' & Hb & Ha & _). by exists o'.
  - intros s1 e _ He. destruct (IsNotFound e) eqn:En; [|done]. cbn [negb].
    destruct (IncrementCentralRevision _ _) as [a|e'] eqn:Ei; [|done].
    eapply (wp_written _ _ _ _ _ a); [|reflexivity|by unfold previous; rewrite He].
    intros w0 Hw. apply kcreate_done in Hw as (o' & Ho' & Hb & Ha & _). by exists o'.
Qed.

Definition deployed (w : W) : Prop :=
  exists d : kobj KDeployment, kview w KDeployment !! (ns, "central") = Some d /\ 0 < (ko_body d).1 /\ (ko_body d).2 = 0.

Lemma deployment_ready s :
  wp (lift (isCentralDeploymentReady c)) (fun s' r => same_view (rs_world s) (rs_world s') /\ (r = Ok true -> deployed (rs_world s'))) s.
Proof.
  unfold wp, lift. cbn [fst snd rs_world]. split; [apply deployment_same|].
  unfold isCentralDeploymentReady. rewrite prog_bind_run. cbn [fst snd].
  destruct ((kget KDeployment (ns, "central") (rs_world s)).2) as [d|e] eqn:E; cbn.
  - intros [= [Hl%Z.ltb_lt Hr%Z.eqb_eq]%andb_prop]. exists d. split; [|done].
    rewrite (kget_same KDeployment (ns, "central") (rs_world s) KDeployment). by apply kget_found.
  - by destruct (IsNotFound e).
Qed.

(** The auth provider is there, or not wanted, or was there before. *)
Definition provided (s : rstate W) : Prop :=
  op_WantsAuthProvider opts = true -> rs_hasAuthProvider s = true \/ isRemoteCentralReady c = true.

Lemma create_auth_provided s : wp (create_auth_provider opts c) (fun s' r => r = Ok tt -> provided s') s.
Proof.
  unfold create_auth_provider, provided. apply wp_bind. unfold wp at 1. cbn [reads fst snd].
  destruct (op_WantsAuthProvider opts), (rs_hasAuthProvider s) eqn:Eh, (isRemoteCentralReady c); cbn [andb negb];
    try (apply wp_ret; intros; by auto).
  apply wp_try. unfold wp at 1. destruct ((lift _ s).2); [|done]. intros _ _. by left.
Qed.

Definition same_has (s s' : rstate W) : Prop := rs_hasAuthProvider s' = rs_hasAuthProvider s.
#[export] Instance same_has_preorder : PreOrder same_has.
Proof. split; [done|]. unfold same_has. intros s1 s2 s3 E1 E2. by rewrite E2. Qed.

Lemma lift_has {A} (m : prog W A) : preserves same_has (lift m).
Proof. done. Qed.
Hint Resolve lift_has : fleet.

Lemma statuses_has : preserves same_has (getRoutesStatuses ns).
Proof. unfold getRoutesStatuses. shard_tac. Qed.

Lemma set_hash_has : preserves same_has (setLastCentralHash c).
Proof. unfold setLastCentralHash. shard_tac. intros s'. done. Qed.

(** The report of a central that is ready. *)
Definition closing : prog (rstate W) (result kerr ApiCentralStatus) :=
  routes ←? (if op_UseRoutes opts && negb (isRemoteCentralReady c)
             then routes ←? getRoutesStatuses ns; mret (Ok (Some routes)) else mret (Ok None));
  _ ←? with_err (KWrap "setting central reconcilation cache") (setLastCentralHash c);
  mret (Ok (mkApiCentralStatus (acs_Conditions readyStatus) routes "" "")).

Lemma closing_spec s :
  wp closing (fun s' r => same_view (rs_world s) (rs_world s') /\ same_has s s' /\ forall st, r = Ok st ->
    acs_Conditions st = acs_Conditions readyStatus /\
    (op_UseRoutes opts && negb (isRemoteCentralReady c) = true <-> is_Some (acs_Routes st))) s.
Proof.
  pose proof set_hash_has. pose proof statuses_has. split; [|split].
  - assert (preserves (on_world same_view) closing) as Hc; [|apply Hc]. unfold closing. shard_tac.
  - assert (preserves same_has closing) as Hc; [|apply Hc]. unfold closing. shard_tac.
  - intros st. unfold closing, try_bind at 1. rewrite prog_bind_run. destruct (_ && _).
    + unfold try_bind at 1 2. rewrite prog_bind_run. destruct ((getRoutesStatuses ns s).2) as [l|e]; [|done]. cbn [mret prog_ret fst snd].
      unfold try_bind. rewrite prog_bind_run. case_match; intros [= <-]. done.
    + cbn [mret prog_ret fst snd]. unfold try_bind. rewrite prog_bind_run. case_match; intros [= <-].
      split; [done|]. cbn. split; [done|by intros [? ?]].
Qed.

(** The end of an installation, from the custom resource that was applied on. *)
Definition finish (changed : bool) : prog (rstate W) (result kerr ApiCentralStatus) :=
  centralTLSSecretFound ←? ensure_routes opts c;
  centralDeploymentReady ←? lift (isCentralDeploymentReady c);
  if negb centralDeploymentReady || negb centralTLSSecretFound then
    mret (if isRemoteCentralProvisioning c && negb changed then Err ErrCentralNotChanged else Ok installingStatus)
  else
    _ ←? create_auth_provider opts c;
    closing.

(** What a status says. *)
Definition reports (s' : rstate W) (st : ApiCentralStatus) : Prop :=
  st = installingStatus \/
  (acs_Conditions st = acs_Conditions readyStatus /\ deployed (rs_world s') /\ provided s' /\
   (op_UseRoutes opts && negb (isRemoteCentralReady c) = true <-> is_Some (acs_Routes st))).

Lemma deployed_same w w' : same_view w w' -> deployed w -> deployed w'.
Proof. intros Hs (d & Hd & Hr). exists d. by rewrite (Hs KDeployment). Qed.

Lemma finish_spec changed s :
  wp (finish changed) (fun s' r => keeps KCentral key (rs_world s) (rs_world s') /\ forall st, r = Ok st -> reports s' st) s.
Proof.
  unfold finish. apply wp_try. eapply wp_mono; [apply preserves_wp, routes_keeps|]. intros s1 [found|e] Hk; [|by split].
  apply wp_try. eapply wp_mono; [apply deployment_ready|]. intros s2 r [Hs2 Hd].
  assert (keeps KCentral key (rs_world s) (rs_world s2)) as Hk2.
  { etransitivity; [exact Hk|by apply same_view_keeps]. }
  destruct r as [ready|e]; [|by split]. destruct (negb ready || negb found) eqn:Eb.
  { apply wp_ret. split; [done|]. intros st. destruct (_ && _); intros [= <-]. by left. }
  apply orb_false_iff in Eb as [->%negb_false_iff _]. specialize (Hd eq_refl).
  assert (wp (create_auth_provider opts c) (fun s' r => same_view (rs_world s2) (rs_world s') /\ (r = Ok tt -> provided s')) s2) as Hc.
  { split; [apply create_auth_same|apply create_auth_provided]. }
  apply wp_try. eapply wp_mono; [exact Hc|]. intros s3 r [Hs3 Hp].
  assert (keeps KCentral key (rs_world s) (rs_world s3)) as Hk3.
  { etransitivity; [exact Hk2|by apply same_view_keeps]. }
  destruct r as [[]|e]; [|by split]. specialize (Hp eq_refl).
  eapply wp_mono; [apply closing_spec|]. intros s4 r (Hs4 & Hh & Hst). split.
  { etransitivity; [exact Hk3|by apply same_view_keeps]. }
  intros st ->. destruct (Hst st eq_refl) as [Hcond Hroutes]. right. split; [done|]. split; [|split; [|done]].
  - eapply deployed_same; [exact Hs4|]. by eapply deployed_same.
  - unfold provided. by rewrite Hh.
Qed.

Lemma install_spec changed resources s :
  wp (install opts c changed resources) (fun s' r => forall st, r = Ok st ->
    reports s' st /\ exists db tls, (op_ManagedDBEnabled opts = true <-> is_Some db) /\
      applied (rs_world s) (rs_world s') (wanted_spec opts c resources (rs_hasAuthProvider s) db tls)) s.
Proof.
  unfold install. apply wp_bind. unfold wp at 1. cbn [reads fst snd].
  apply wp_try, wp_with_err. eapply wp_mono; [apply preserves_wp, namespace_keeps|]. intros s1 [_|e] Hk1; [|done].
  apply wp_try, wp_with_err. eapply wp_mono; [apply preserves_wp, chart_keeps|]. intros s2 [_|e] Hk2; [|done].
  apply wp_try. eapply wp_mono; [apply settings_spec|]. intros s3 [settings|e] [Hk3 Hdb]; [|done].
  apply wp_try. eapply wp_mono; [apply apply_central_spec|]. intros s4 [[]|e] Ha; [|done].
  eapply wp_mono; [apply (finish_spec changed)|]. intros s5 r [Hk5 Hr] st ->. split; [by apply Hr|].
  exists settings.1, settings.2. split; [by apply Hdb|]. eapply applied_keeps; [|exact Hk5|by apply Ha].
  do 2 (etransitivity; [eassumption|]). done.
Qed.
End installs.

#[export] Hint Resolve lift_has : fleet.

Lemma pass_installs `{ShardLaws W} `{Messages} opts c (s : rstate W) :
  mg_DeletionTimestamp c = None ->
  wp (pass opts c) (fun s' r => forall st, r = Ok st -> reports opts c s' st /\
    exists resources has db tls, convert_resources c = Ok resources /\ (op_ManagedDBEnabled opts = true <-> is_Some db) /\
    applied opts c (rs_world s) (rs_world s') (wanted_spec opts c resources has db tls)) s.
Proof.
  intros Hd. apply wp_pass; [done|]. intros s1 changed resources Hs Hc. rewrite bool_decide_eq_false_2 by (by rewrite Hd; intros []).
  eapply wp_mono; [apply install_spec|]. intros s2 r Hr st ->. destruct (Hr st eq_refl) as (Hrep & db & tls & Hdb & Ha).
  split; [done|]. exists resources, (rs_hasAuthProvider s1), db, tls. split; [done|]. split; [done|].
  eapply applied_keeps; [|reflexivity|exact Ha]. by apply same_view_keeps.
Qed.


(** ** The secret of the database *)

(** Every database has an endpoint, and a password for the user of Central. *)
Class Passwords (W : Type) := { endpoint : string -> string; user_password : W -> string -> option string }.

Definition same_passwords `{Passwords W} (w w' : W) : Prop := user_password w' = user_password w.

(** [init_db] sets the password if it succeeds; nothing else an installation does
    changes passwords. *)
Class DatabaseLaws `{ShardLaws W} `{!Passwords W} := {
  connection_endpoint id w con : (db_GetConnection id w).2 = Ok con -> db_host con = endpoint id;
  init_sets con user p w : (init_db con user p w).2 = Ok tt -> user_password (init_db con user p w).1 (db_host con) = Some p;
  kget_passwords k key : preserves same_passwords (kget k key);
  kcreate_passwords k (o : kobj k) : preserves same_passwords (kcreate o);
  kupdate_passwords k (o : kobj k) : preserves same_passwords (kupdate o);
  provision_passwords id p : preserves same_passwords (db_EnsureProvisioned id p);
  connection_passwords id : preserves same_passwords (db_GetConnection id);
  random_passwords : preserves same_passwords GenerateString;
  read_ca_passwords : preserves same_passwords read_ca;
  http_passwords call : preserves same_passwords (http_do call);
  engine_passwords chart v : preserves same_passwords (engine_Render chart v)
}.

Section secrets.
Context `{DatabaseLaws W} `{Messages} (opts : Options) (c : ManagedCentral).
Local Abbreviation ns := (mg_Namespace c).
Local Abbreviation secret_key := ((mg_Namespace c, centralDbSecretName) : ObjectKey).

(** Neither the secret nor a password changes. *)
Definition untouched (w w' : W) : Prop := keeps KSecret secret_key w w' /\ same_passwords w w'.

#[export] Instance untouched_preorder : PreOrder untouched.
Proof.
  split; [by intros w|]. intros w1 w2 w3 [K12 P12] [K23 P23]. split; [by etransitivity|].
  unfold same_passwords in *. by rewrite P23.
Qed.

Local Abbreviation calm := (preserves (on_world untouched)).

Lemma calm_intro {A} (m : prog W A) : preserves same_view m -> preserves same_passwords m -> preserves untouched m.
Proof. intros Hs Hp w. split; [by apply same_view_keeps, Hs|apply Hp]. Qed.

Lemma kcreate_calm k (o : kobj k) : KSecret <> k -> preserves untouched (kcreate o).
Proof. intros Hk w. split; [by apply kcreate_keeps|apply kcreate_passwords]. Qed.

Lemma kupdate_calm k (o : kobj k) : KSecret <> k -> preserves untouched (kupdate o).
Proof. intros Hk w. split; [by apply kupdate_keeps|apply kupdate_passwords]. Qed.

Lemma kget_calm k key : preserves untouched (kget k key).
Proof. apply calm_intro; [apply kget_same|apply kget_passwords]. Qed.
Lemma provision_calm id p : preserves untouched (db_EnsureProvisioned id p).
Proof. apply calm_intro; [apply provision_same|apply provision_passwords]. Qed.
Lemma connection_calm id : preserves untouched (db_GetConnection id).
Proof. apply calm_intro; [apply connection_same|apply connection_passwords]. Qed.
Lemma random_calm : preserves untouched GenerateString.
Proof. apply calm_intro; [apply random_same|apply random_passwords]. Qed.
Lemma read_ca_calm : preserves untouched read_ca.
Proof. apply calm_intro; [apply read_ca_same|apply read_ca_passwords]. Qed.
Lemma http_calm call : preserves untouched (http_do call).
Proof. apply calm_intro; [apply http_same|apply http_passwords]. Qed.
Lemma engine_calm chart v : preserves untouched (engine_Render chart v).
Proof. apply calm_intro; [apply engine_same|apply engine_passwords]. Qed.
Hint Resolve kget_calm provision_calm connection_calm random_calm read_ca_calm http_calm engine_calm : fleet.

Ltac calm_step :=
  lazymatch goal with
  | |- preserves untouched (kcreate _) => apply kcreate_calm; discriminate
  | |- preserves untouched (kupdate _) => apply kupdate_calm; discriminate
  | |- _ => shard_step
  end.
Ltac calm_tac := repeat (first [solve [eauto with fleet typeclass_instances] | calm_step | progress cbv zeta]).

Lemma send_groups_calm address pass gs : preserves untouched (send_groups c address pass gs).
Proof. unfold SendGroupRequest, SendRequestToCentral in *. induction gs; cbn [send_groups]; unfold SendGroupRequest, SendRequestToCentral; calm_tac. Qed.
Hint Resolve send_groups_calm : fleet.

Lemma create_auth_calm : calm (create_auth_provider opts c).
Proof.
  unfold create_auth_provider, createRHSSOAuthProvider, getAdminPassword, getServiceAddress, SendAuthProviderRequest,
    SendRequestToCentral. calm_tac.
Qed.

Lemma check_auth_calm : calm (check_auth_provider opts c).
Proof.
  unfold check_auth_provider, existsRHSSOAuthProvider, isCentralDeploymentReady, getServiceAddress, GetLoginAuthProviders,
    SendRequestToCentral. calm_tac.
Qed.

Lemma routes_calm : calm (ensure_routes opts c).
Proof.
  unfold ensure_routes, ensureRoutesExist, ensureReencryptRouteExists, ensurePassthroughRouteExists,
    CreateReencryptRoute, CreatePassthroughRoute, FindReencryptRoute, FindPassthroughRoute, findRoute, createCentralRoute.
  calm_tac.
Qed.

Lemma namespace_calm labels annotations : calm (ensureNamespaceExists ns labels annotations).
Proof. unfold ensureNamespaceExists, getNamespace, createTenantNamespace. calm_tac. Qed.

Lemma chart_calm : calm (ensureChartResourcesExist opts c).
Proof.
  unfold ensureChartResourcesExist, render, RenderToObjects. apply preserves_try; [typeclasses eauto|calm_tac|]. intros objs.
  induction (in_namespace ns <$> objs) as [|[g o] l IH]; cbn [ensure_objects_exist]; [calm_tac|].
  apply preserves_try; [typeclasses eauto| |intros _; exact IH]. unfold ensure_object_exists. calm_tac.
Qed.

Lemma apply_calm spec : calm (apply_central opts c spec).
Proof. unfold apply_central. calm_tac. Qed.

Lemma finish_calm changed : calm (finish opts c changed).
Proof.
  pose proof create_auth_calm. pose proof routes_calm.
  unfold finish, closing, isCentralDeploymentReady, getRoutesStatuses, FindReencryptIngress, FindPassthroughIngress,
    findFirstAdmittedIngress, findRoute, setLastCentralHash. calm_tac.
Qed.

(** A secret that is marked as the user's holds the password of the user. *)
Definition marked (o : kobj KSecret) : Prop := om_Annotations (ko_meta o) !! dbUserTypeAnnotation = Some dbUserTypeCentral.
Definition opens (w : W) : Prop :=
  forall o, kview w KSecret !! secret_key = Some o -> marked o ->
    exists p, ko_body o !! "password" = Some p /\ user_password w (endpoint (mg_Id c)) = Some p.
Definition unmarked (w : W) : Prop := forall o, kview w KSecret !! secret_key = Some o -> ~ marked o.

Lemma unmarked_opens w : unmarked w -> opens w.
Proof. intros Hu o Ho Hm. by destruct (Hu o Ho). Qed.

Lemma keeps_unmarked w w' : keeps KSecret secret_key w w' -> unmarked w -> unmarked w'.
Proof. intros Hk Hu o Ho. apply Hu. by rewrite <- Hk. Qed.

Lemma untouched_opens w w' : untouched w w' -> opens w -> opens w'.
Proof.
  intros [Hk Hp] Ho o Hl Hm. destruct (Ho o) as (p & Hb & Hu); [by rewrite <- Hk|done|].
  exists p. by rewrite Hp.
Qed.

(** Writing the secret: it stays, or it has the user type and the password. *)
Definition written (userType password : string) (w w' : W) : Prop :=
  same_passwords w w' /\ (keeps KSecret secret_key w w' \/
    exists o, kview w' KSecret !! secret_key = Some o /\
      om_Annotations (ko_meta o) !! dbUserTypeAnnotation = Some userType /\ ko_body o !! "password" = Some password).

Lemma secret_written userType password : preserves (on_world (written userType password)) (ensureCentralDBSecretExists ns userType password).
Proof.
  intros s. unfold on_world, ensureCentralDBSecretExists. rewrite prog_bind_run.
  pose proof (rd_same _ _ _ _ (reading_db_secret ns) s KSecret) as Hs.
  pose proof (preserves_lift _ _ (kget_passwords KSecret secret_key) s) as Hp. unfold on_world in Hp.
  change (lift (kget KSecret secret_key)) with (get_db_secret ns) in Hp.
  set (s1 := (get_db_secret ns s).1) in *. unfold written, keeps. rewrite <- Hs. unfold same_passwords in *. rewrite <- Hp.
  destruct ((get_db_secret ns s).2) as [o|e] eqn:E.
  - assert (key_of o = secret_key) as Hk by (eapply kview_keyed, (rd_found _ _ _ _ (reading_db_secret ns)), E).
    unfold with_err. rewrite prog_bind_run. unfold lift, unit_result. cbn [fst snd rs_world]. rewrite prog_bind_run. cbn [fst].
    split; [apply kupdate_passwords|].
    destruct (kupdate_effect KSecret (setPassword userType password o) (rs_world s1)) as [Hc|(o' & Ho' & Hb & Ha & _)];
      replace (key_of (setPassword userType password o)) with secret_key in * by done; [by left|right].
    exists o'. rewrite Ha, Hb. cbn. by rewrite !lookup_insert_eq.
  - destruct (IsNotFound e); cbn [negb]; [|by split; [|left]].
    unfold with_err. rewrite prog_bind_run. unfold lift, unit_result. cbn [fst snd rs_world]. rewrite prog_bind_run. cbn [fst].
    set (o := setPassword _ _ _). split; [apply kcreate_passwords|].
    destruct (kcreate_effect KSecret o (rs_world s1)) as [Hc|(o' & Ho' & Hb & Ha & _)];
      replace (key_of o) with secret_key in * by done; [by left|right].
    exists o'. rewrite Ha, Hb. cbn. by rewrite !lookup_insert_eq.
Qed.

Lemma written_unmarked userType password w w' :
  userType <> dbUserTypeCentral -> written userType password w w' -> unmarked w -> unmarked w'.
Proof.
  intros Hn [_ [Hk|(o & Ho & Ha & _)]] Hu; [by eapply keeps_unmarked|]. intros o' Ho' Hm. unfold marked in Hm. congruence.
Qed.

Lemma written_opens password w w' :
  written dbUserTypeCentral password w w' -> unmarked w -> user_password w (endpoint (mg_Id c)) = Some password -> opens w'.
Proof.
  intros [Hp [Hk|(o & Ho & _ & Hb)]] Hu Hw; [by apply unmarked_opens; eapply keeps_unmarked|].
  intros o' Ho' _. exists password. rewrite Hp. split; [|done]. congruence.
Qed.

(** A step that keeps the secret. *)
Lemma wp_kept {A B} (m : prog (rstate W) (result kerr A)) (k : A -> prog (rstate W) (result kerr B)) s :
  calm m -> unmarked (rs_world s) ->
  (forall s' a, unmarked (rs_world s') -> (m s).2 = Ok a -> wp (k a) (fun s' _ => opens (rs_world s')) s') ->
  wp (try_bind m k) (fun s' _ => opens (rs_world s')) s.
Proof.
  intros Hm Hu Hk. apply wp_try. assert (unmarked (rs_world (m s).1)) as Hu' by (eapply keeps_unmarked; [apply Hm|done]).
  unfold wp at 1. destruct ((m s).2) as [a|e] eqn:E; [by apply Hk|by apply unmarked_opens].
Qed.

Lemma generate_calm : calm generateDBPassword.
Proof. unfold generateDBPassword. calm_tac. Qed.

Lemma master_unmarked s (exists_ : bool) :
  unmarked (rs_world s) ->
  wp (if exists_ then mret (Ok tt)
      else dbMasterPassword ←? with_err (KWrap "generating Central DB master password") generateDBPassword;
           with_err (KWrap "ensuring that DB secret exists") (ensureCentralDBSecretExists ns dbUserTypeMaster dbMasterPassword))
    (fun s' _ => unmarked (rs_world s')) s.
Proof.
  intros Hu. destruct exists_; [done|]. apply wp_try, wp_with_err. unfold wp at 1.
  assert (unmarked (rs_world (generateDBPassword s).1)) as Hu' by (eapply keeps_unmarked; [apply generate_calm|done]).
  destruct ((generateDBPassword s).2) as [p|e]; [|done]. apply wp_with_err. unfold wp.
  eapply written_unmarked; [|apply secret_written|done]. done.
Qed.

Lemma initialized_opens s :
  unmarked (rs_world s) -> wp (ensureManagedCentralDBInitialized c) (fun s' _ => opens (rs_world s')) s.
Proof.
  intros Hu. unfold ensureManagedCentralDBInitialized. pose proof generate_calm.
  apply wp_kept; [unfold centralDBSecretExists, get_db_secret; calm_tac|done|]. intros s1 exists_ Hu1 _.
  apply wp_try. eapply wp_mono; [by apply master_unmarked|]. intros s2 [_|e] Hu2; [|by apply unmarked_opens].
  apply wp_kept; [unfold getDBPasswordFromSecret, get_db_secret; calm_tac|done|]. intros s3 master Hu3 _.
  apply wp_kept; [calm_tac|done|]. intros s4 _ Hu4 _.
  apply wp_kept; [calm_tac|done|]. intros s5 con Hu5 Hcon.
  assert (db_host con = endpoint (mg_Id c)) as Hhost.
  { revert Hcon. unfold with_err. rewrite prog_bind_run. cbn.
    destruct ((db_GetConnection (mg_Id c) (rs_world s4)).2) eqn:E; intros [= <-]. by eapply connection_endpoint. }
  apply wp_kept; [calm_tac|done|]. intros s6 p Hu6 _.
  apply wp_try, wp_with_err. unfold wp at 1, lift. cbn [fst snd]. set (r := init_db _ _ _ (rs_world s6)).
  assert (unmarked r.1) as Hu7 by (eapply keeps_unmarked; [apply same_view_keeps, init_same|done]).
  destruct (r.2) as [[]|e] eqn:Er; [|by apply unmarked_opens].
  apply init_sets in Er. unfold wp. eapply (written_opens p); [apply secret_written|done|].
  rewrite <- Hhost. exact Er.
Qed.

Lemma user_exists_unmarked s : (centralDBUserExists ns s).2 = Ok false -> unmarked (rs_world s).
Proof.
  unfold centralDBUserExists. rewrite prog_bind_run. cbn [mret prog_ret fst snd].
  pose proof (rd_found _ _ _ _ (reading_db_secret ns) s) as Hf. pose proof (rd_missing _ _ _ _ (reading_db_secret ns) s) as Hm.
  destruct ((get_db_secret ns s).2) as [o|e].
  - intros [= Hb%bool_decide_eq_false] o' Ho'. rewrite (Hf o eq_refl) in Ho'. by injection Ho' as <-.
  - destruct (IsNotFound e) eqn:En; [|done]. intros _ o' Ho'. by rewrite (Hm e eq_refl En) in Ho'.
Qed.

Lemma user_exists_calm : calm (centralDBUserExists ns).
Proof. unfold centralDBUserExists, get_db_secret. calm_tac. Qed.

Lemma wp_opens {A B} (m : prog (rstate W) (result kerr A)) (k : A -> prog (rstate W) (result kerr B)) s :
  wp m (fun s' _ => opens (rs_world s')) s ->
  (forall s' a, opens (rs_world s') -> wp (k a) (fun s' _ => opens (rs_world s')) s') ->
  wp (try_bind m k) (fun s' _ => opens (rs_world s')) s.
Proof. intros Hm Hk. apply wp_try. eapply wp_mono; [exact Hm|]. intros s' [a|e] Ho; [by apply Hk|done]. Qed.

Lemma wp_calm {A} (m : prog (rstate W) A) s : calm m -> opens (rs_world s) -> wp m (fun s' _ => opens (rs_world s')) s.
Proof. intros Hm Ho. eapply untouched_opens; [apply Hm|done]. Qed.

Lemma connection_opens s :
  opens (rs_world s) -> wp (getCentralDBConnectionString c) (fun s' _ => opens (rs_world s')) s.
Proof.
  intros Ho. unfold getCentralDBConnectionString. apply wp_try. unfold wp at 1.
  pose proof (user_exists_unmarked s) as Hu. pose proof (user_exists_calm s) as Hc. unfold on_world in Hc.
  pose proof (untouched_opens _ _ Hc Ho). destruct ((centralDBUserExists ns s).2) as [b|e]; [|done].
  apply wp_opens; [|intros s' _ Ho'; apply wp_calm; [calm_tac|done]].
  destruct b; [done|]. apply wp_with_err, initialized_opens. eapply keeps_unmarked; [apply Hc|by apply Hu].
Qed.

Lemma install_opens changed resources s :
  opens (rs_world s) -> wp (install opts c changed resources) (fun s' _ => opens (rs_world s')) s.
Proof.
  intros Ho. unfold install. apply wp_bind. unfold wp at 1. cbn [reads fst snd].
  apply wp_opens; [apply wp_with_err, wp_calm; [apply namespace_calm|done]|]. intros s1 _ Ho1.
  apply wp_opens; [apply wp_with_err, wp_calm; [apply chart_calm|done]|]. intros s2 _ Ho2.
  apply wp_opens; [|intros s3 settings Ho3].
  - unfold database_settings. destruct (op_ManagedDBEnabled opts); cbn [negb]; [|done].
    apply wp_opens; [by apply wp_with_err, connection_opens|]. intros s3 con Ho3. apply wp_calm; [|done].
    unfold GetDatabaseCACertificates. calm_tac.
  - apply wp_opens; [apply wp_calm; [apply apply_calm|done]|]. intros s4 _ Ho4.
    apply (wp_calm (finish opts c changed)); [apply finish_calm|done].
Qed.
End secrets.


(** ** Where the reconciler falls short *)

(** A deletion waits for Central: while the auth provider is wanted and not known,
    and Central's deployment is ready but its API does not answer, a pass over a
    central that is to be deleted fails and deletes nothing. *)
Theorem deletion_needs_central `{ShardLaws W} `{Messages} opts c (s : rstate W) e :
  op_WantsAuthProvider opts = true -> rs_busy s = false -> rs_hasAuthProvider s = false ->
  isRemoteCentralReady c = false -> (existsRHSSOAuthProvider c (rs_world s)).2 = Err e ->
  (exists e', (Reconcile opts c s).2 = Err e') /\ same_view (rs_world s) (rs_world (Reconcile opts c s).1).
Proof.
  intros Hw Hb Hh Hst He. rewrite Reconcile_run, Hb. cbn [fst snd].
  unfold pass, try_bind at 1 3. rewrite !prog_bind_run. unfold with_err, centralChanged. rewrite !prog_bind_run. cbn [reads fst snd mret prog_ret].
  destruct (MD5SumFromJSONStruct c) as [h|e']; [|by split; [eexists|]].
  rewrite !prog_bind_run. unfold shouldSkipReadyCentral. rewrite !prog_bind_run. cbn [reads fst snd mret prog_ret].
  rewrite Hst, andb_false_r, andb_false_l, andb_false_r. destruct (convert_resources c) as [r|e']; [|by split; [eexists|]].
  assert (check_auth_provider opts c (set_busy true s) =
    ((lift (existsRHSSOAuthProvider c) (set_busy true s)).1, Err e)) as Hc.
  { unfold check_auth_provider. rewrite prog_bind_run. cbn [reads fst snd]. rewrite Hw. cbn [set_busy rs_hasAuthProvider].
    rewrite Hh. cbn [negb andb]. unfold try_bind. rewrite prog_bind_run. unfold lift. cbn [fst snd rs_world set_busy].
    by rewrite He. }
  unfold try_bind. rewrite !prog_bind_run, Hc. cbn [fst snd]. split; [by exists e|]. apply exists_provider_same.
Qed.

(** The certificates of the databases are read once: if the read fails, the call
    that read them fails, and every later call succeeds with what was read of the file. *)
Theorem ca_error_reported_once `{Shard W} (s : rstate W) data err :
  rs_ca s = None -> (read_ca (rs_world s)).2 = (data, Some err) ->
  let first := GetDatabaseCACertificates s in
  first.2 = Err (KWrap "reading DB server CA file" err) /\
  forall s', rs_ca s' = rs_ca first.1 -> GetDatabaseCACertificates s' = (s', Ok data).
Proof.
  intros Hca Hr. cbv zeta. unfold GetDatabaseCACertificates. rewrite prog_bind_run. cbn [reads fst snd]. rewrite Hca.
  rewrite prog_bind_run. unfold lift. cbn [fst snd]. rewrite prog_bind_run. cbn [modify fst snd mret prog_ret].
  rewrite Hr. cbn. split; [done|]. intros s' Hs'. rewrite prog_bind_run. cbn. by rewrite Hs'.
Qed.
