(* ===== verification/MemShard.v ===== *)
(** * A data plane in memory

    An instance of [Shard] that keeps its laws: a cluster whose deleted namespaces
    are terminating and whose other deleted objects vanish, databases that remember
    the password of Central's user, and a Central that answers or not.  It shows
    that the hypotheses of the reconciler's theorems can hold, and runs passes. *)

From S2P Require Import Prelude GoString GoFmt ServiceErrors CentralRequest World Effects Resources Presenters Kube ManagedDB.
From S2P Require Import CentralReconciler CentralReconcilerProps.
Local Open Scope string_scope.
Local Open Scope Z_scope.

Record mem := mkMem {
  m_objs : forall k, gmap ObjectKey (kobj k);
  m_passwords : gmap string string;
  (** Central answers; its auth providers, groups, and how many group requests it refuses *)
  m_up : bool; m_providers : list string; m_groups : list string; m_refuse : nat;
  m_ca : string * option kerr
}.

(** The maps of a kind, changed. *)
Definition upd_kind (k : kind) (f : gmap ObjectKey (kobj k) -> gmap ObjectKey (kobj k))
    (m : forall k, gmap ObjectKey (kobj k)) (k' : kind) : gmap ObjectKey (kobj k') :=
  match decide (k = k') with
  | left e => match e in _ = k0 return gmap ObjectKey (kobj k0) with eq_refl => f (m k) end
  | right _ => m k'
  end.

Lemma upd_kind_eq k f m : upd_kind k f m k = f (m k).
Proof. unfold upd_kind. destruct (decide (k = k)) as [e|]; [|done]. by rewrite (proof_irrel e eq_refl). Qed.

Lemma upd_kind_ne k f m k' : k' <> k -> upd_kind k f m k' = m k'.
Proof. intros Hk. unfold upd_kind. destruct (decide (k = k')); [congruence|done]. Qed.

Definition set_objs (objs : forall k, gmap ObjectKey (kobj k)) (w : mem) : mem :=
  mkMem objs (m_passwords w) (m_up w) (m_providers w) (m_groups w) (m_refuse w) (m_ca w).

(** Objects under their own key. *)
Definition mem_view (w : mem) (k : kind) : gmap ObjectKey (kobj k) := filter (fun o => key_of o.2 = o.1) (m_objs w k).

Definition not_found : kerr := KStatus ReasonNotFound "not found".

Definition put {k} (o : kobj k) (w : mem) : mem := set_objs (upd_kind k (<[key_of o := o]>) (m_objs w)) w.
Definition take_out {k} (o : kobj k) (w : mem) : mem := set_objs (upd_kind k (base.delete (key_of o)) (m_objs w)) w.

(** The object of a namespace, terminating. *)
Definition terminating (o : kobj KNamespace) : kobj KNamespace := mkObj KNamespace (ko_meta o) true.

Definition mem_delete {k} : kobj k -> mem -> mem :=
  match k with KNamespace => fun o => put (terminating o) | _ => take_out end.

#[export] Instance mem_kube : Kube mem := {|
  kview := mem_view;
  kget k key w := (w, match mem_view w k !! key with Some o => Ok o | None => Err not_found end);
  kcreate k o w := match mem_view w k !! key_of o with
    | Some _ => (w, Some (KStatus ReasonAlreadyExists "already exists")) | None => (put o w, None) end;
  kupdate k o w := match mem_view w k !! key_of o with Some _ => (put o w, None) | None => (w, Some not_found) end;
  kdelete k o w := match mem_view w k !! key_of o with Some _ => (mem_delete o w, None) | None => (w, Some not_found) end
|}.

Lemma put_view k (o : kobj k) w : mem_view (put o w) k = <[key_of o := o]> (mem_view w k).
Proof. unfold mem_view, put. cbn. by rewrite upd_kind_eq, map_filter_insert_True. Qed.

Lemma put_other k (o : kobj k) w k' : k' <> k -> mem_view (put o w) k' = mem_view w k'.
Proof. intros Hk. unfold mem_view, put. cbn. by rewrite upd_kind_ne. Qed.

Lemma take_out_view k (o : kobj k) w : mem_view (take_out o w) k = base.delete (key_of o) (mem_view w k).
Proof. unfold mem_view, take_out. cbn. by rewrite upd_kind_eq, map_filter_delete. Qed.

Lemma take_out_other k (o : kobj k) w k' : k' <> k -> mem_view (take_out o w) k' = mem_view w k'.
Proof. intros Hk. unfold mem_view, take_out. cbn. by rewrite upd_kind_ne. Qed.

(** Putting an object changes its key only. *)
Lemma put_frame k (o : kobj k) w k' key :
  k' <> k \/ key <> key_of o -> mem_view (put o w) k' !! key = mem_view w k' !! key.
Proof.
  intros Hk. destruct (decide (k' = k)) as [->|Hne]; [|by rewrite put_other]. rewrite put_view.
  destruct Hk as [|Hk]; [done|]. by rewrite lookup_insert_ne.
Qed.

Lemma same_content_refl {k} (o : kobj k) : same_content o o.
Proof. done. Qed.

Lemma take_out_frame k (o : kobj k) w k' key :
  k' <> k \/ key <> key_of o -> mem_view (take_out o w) k' !! key = mem_view w k' !! key.
Proof.
  intros Hk. destruct (decide (k' = k)) as [->|Hne]; [|by rewrite take_out_other]. rewrite take_out_view.
  destruct Hk as [|Hk]; [done|]. by rewrite lookup_delete_ne.
Qed.

Lemma mem_delete_cases k (o : kobj k) w :
  (exists o' : kobj k, key_of o' = key_of o /\ mem_delete o w = put o' w) \/ mem_delete o w = take_out o w.
Proof. destruct k; try (by right). left. by exists (terminating o). Qed.

(** Deleting changes the key of the object only. *)
Lemma mem_delete_frame k (o : kobj k) w k' key :
  k' <> k \/ key <> key_of o -> mem_view (mem_delete o w) k' !! key = mem_view w k' !! key.
Proof.
  intros Hk. destruct (mem_delete_cases k o w) as [(o' & Ho' & ->)| ->]; [|by apply take_out_frame].
  apply put_frame. by rewrite Ho'.
Qed.

Lemma mem_delete_keeps_none k (o : kobj k) w k' key :
  mem_view w k !! key_of o <> None -> mem_view w k' !! key = None -> mem_view (mem_delete o w) k' !! key = None.
Proof.
  intros Ho Hn. rewrite mem_delete_frame; [done|]. destruct (decide (k' = k)) as [->|]; [|by left].
  right. intros ->. done.
Qed.

#[export] Instance mem_kube_laws : KubeLaws (W:=mem).
Proof.
  split; cbn [kview kget kcreate kupdate kdelete mem_kube].
  - intros w k key o Ho. by apply map_lookup_filter_Some in Ho as [_ Ho].
  - done.
  - intros k key w o. cbn. by destruct (mem_view w k !! key); intros [= <-].
  - intros k key w e. cbn. by destruct (mem_view w k !! key).
  - intros k o w k' key Hk. destruct (mem_view w k !! key_of o); [done|]. by apply put_frame.
  - intros k o w. destruct (mem_view w k !! key_of o); [done|]. intros _. exists o. cbn.
    rewrite put_view, lookup_insert_eq. done.
  - intros k o w k' key Hk. destruct (mem_view w k !! key_of o); [|done]. by apply put_frame.
  - intros k o w. destruct (mem_view w k !! key_of o); [|done]. intros _. exists o. cbn.
    rewrite put_view, lookup_insert_eq. done.
  - intros k o w. destruct (mem_view w k !! key_of o) eqn:E; [left; exact E|]. right. exists o. cbn.
    rewrite put_view, lookup_insert_eq. done.
  - intros k o w. destruct (mem_view w k !! key_of o) eqn:E; [|left; exact E]. right. exists o. cbn.
    rewrite put_view, lookup_insert_eq. done.
  - intros k o w k' key Hn. cbn. cbn in Hn. destruct (mem_view w k !! key_of o) eqn:Eo; [|done]. cbn.
    rewrite put_frame; [done|]. destruct (decide (k' = k)) as [->|]; [|by left]. right. intros ->. congruence.
  - intros k o w k' key Hs. cbn. destruct (mem_view w k !! key_of o) eqn:Eo; [|done]. cbn.
    apply mem_delete_frame. destruct (decide (k' = k)) as [->|]; [|by left]. right. by intros ->.
  - intros k o w k' key Hn. cbn. cbn in Hn. destruct (mem_view w k !! key_of o) eqn:Eo; [|done]. cbn.
    apply mem_delete_keeps_none; [by rewrite Eo|done].
Qed.

(** ** The other services *)

Definition set_passwords (p : gmap string string) (w : mem) : mem :=
  mkMem (m_objs w) p (m_up w) (m_providers w) (m_groups w) (m_refuse w) (m_ca w).
Definition set_central (providers groups : list string) (refuse : nat) (w : mem) : mem :=
  mkMem (m_objs w) (m_passwords w) (m_up w) providers groups refuse (m_ca w).

Definition mem_endpoint (id : string) : string := id +:+ ".rds.example".

#[export] Instance mem_db : DBClient mem := {|
  db_EnsureProvisioned _ _ w := (w, Ok tt);
  db_EnsureDeprovisioned _ w := (w, Ok tt);
  db_GetConnection id w := (w, NewDBConnection (mem_endpoint id) dbPostgresPort dbUser dbName)
|}.

(** Central keeps auth providers by name and the bodies of groups. *)
Definition mem_http (call : http_call) : prog mem (result kerr (Z * string)) := fun w =>
  if negb (m_up w) then (w, Err (KText "connection refused"))
  else if HasSuffix (hc_Url call) "/v1/login/authproviders" then (w, Ok (200, Join "|" (m_providers w)))
  else if HasSuffix (hc_Url call) "/v1/authProviders"
  then (set_central (hc_Body call :: m_providers w) (m_groups w) (m_refuse w) w, Ok (200, "provider-id"))
  else match m_refuse w with
       | O => (set_central (m_providers w) (hc_Body call :: m_groups w) 0 w, Ok (200, "{}"))
       | S n => (set_central (m_providers w) (m_groups w) n w, Ok (500, "{}"))
       end.

Definition chart_object (contents : string) : unstructured :=
  existT "v1/ConfigMap" (mkObj (KOther "v1/ConfigMap") (mkMeta "egress-proxy-config" "" ∅ ∅ "" false) contents).

#[export] Instance mem_shard : Shard mem := {|
  init_db con _ p w := (set_passwords (<[db_host con := p]> (m_passwords w)) w, Ok tt);
  GenerateString w := (w, Ok "s3cr3t");
  read_ca w := (w, m_ca w);
  http_do := mem_http;
  render_values := unit;
  ToRenderValues _ _ _ _ := Ok tt;
  engine_Render _ _ w := (w, Ok [("tenant-resources/templates/egress-proxy.yaml", "allow all"); ("NOTES.txt", "")]);
  UnstructuredFromYAMLMulti contents := Ok [chart_object contents]
|}.

Lemma mem_http_view call : preserves same_view (mem_http call).
Proof. intros w k. unfold mem_http. repeat case_match; done. Qed.

#[export] Instance mem_shard_laws : ShardLaws (W:=mem).
Proof.
  split; try done; [typeclasses eauto|apply mem_http_view|].
  intros ns vals w objs [= <-]. by repeat constructor.
Qed.

#[export] Instance mem_passwords : Passwords mem := {| endpoint := mem_endpoint; user_password w host := m_passwords w !! host |}.

#[export] Instance mem_database_laws : DatabaseLaws (W:=mem).
Proof.
  split; try done.
  - intros id w con. cbn. unfold NewDBConnection, mem_endpoint. case_bool_decide as Hb; [by destruct id|]. by intros [= <-].
  - intros con user p w _. cbn. by rewrite lookup_insert_eq.
  - intros k o w. cbn. by case_match.
  - intros k o w. cbn. by case_match.
  - intros call w. unfold same_passwords. cbn. unfold mem_http. by repeat case_match.
Qed.

#[export] Instance mem_messages : Messages := {|
  marshal_provider p := Ok (ap_Name p);
  unmarshal_provider body := Ok body;
  marshal_group g := Ok (gr_Key g +:+ "=" +:+ gr_Value g +:+ ":" +:+ gr_RoleName g);
  unmarshal_logins body := Ok ((fun name => (oidcType, name)) <$> (if bool_decide (body = "") then [] else Split (Ascii.ascii_of_nat 124) body));
  unmarshal_error _ := None;
  GetServerFromURL url := url;
  MD5SumFromJSONStruct c := Ok (mg_Id c +:+ "/" +:+ mg_RequestStatus c +:+ "/" +:+ mg_DesiredVersion c)
|}.

(** ** A central and its cluster *)

Definition sample_options : Options := mkOptions true true "" true "https://telemetry" "key" "cluster-1" "stage" false.

Definition sample_managed (status : string) (deletion : option Z) : ManagedCentral :=
  let res := mkApiResources {["cpu" := "1"]} {["memory" := "2Gi"]} in
  mkManagedCentral "c1" "ManagedCentral" "my-central" "rhacs-c1" "c1" "p1" false deletion ["alice"]
    (mkManagedAuth "client" "secret" "shared" "org-1" "Org" "u1" "https://sso.redhat.com/auth")
    "acs-c1.example" "" "" "acs-data-c1.example" "" "" "standard" res (mkApiScannerSpec res (mkScaling "Enabled" 1 1 3) res)
    "dbhost" status.

Definition empty_cluster : mem := mkMem (fun _ => ∅) ∅ true [] [] 0 ("CERT", None).

(** What the operator does with the custom resource: a deployment, a service, secrets. *)
Definition operate (w : mem) : mem :=
  let meta name := mkMeta name "rhacs-c1" ∅ ∅ "" false in
  put (mkObj KDeployment (meta "central") (1, 0))
  (put (mkObj KService (meta "central") [("https", 443)])
  (put (mkObj KSecret (meta "central-htpasswd") {["password" := "admin"]})
  (put (mkObj KSecret (meta "central-tls") {["ca.pem" := "CA"]}) w))).

(** The router admits the routes. *)
Definition admit_routes (w : mem) : mem :=
  set_objs (upd_kind KRoute (fmap (fun o : kobj KRoute => mkObj KRoute (ko_meta o)
    (mkRouteBody (rt_Host (ko_body o)) (rt_TargetPort (ko_body o)) (rt_To (ko_body o)) (rt_TLS (ko_body o))
      [mkIngress (rt_Host (ko_body o)) "router.example" [("Admitted", "True")]]))) (m_objs w)) w.

Definition act (f : mem -> mem) (s : rstate mem) : rstate mem := 
  mkRState (rs_busy s) (rs_lastCentralHash s) (rs_hasAuthProvider s) (rs_ca s) (f (rs_world s)).

Definition installed : rstate mem := (Reconcile sample_options (sample_managed "provisioning" None) (NewCentralReconciler None empty_cluster)).1.
Definition operated : rstate mem :=
  (Reconcile sample_options (sample_managed "provisioning" None) (act operate installed)).1.
Definition routed : rstate mem := act admit_routes operated.

(** The whole installation: the first pass reports nothing but [Installing], the
    second creates the routes, which are not admitted yet; the third reports ready. *)
Example installation_runs :
  (Reconcile sample_options (sample_managed "provisioning" None) (NewCentralReconciler None empty_cluster)).2 = Ok installingStatus /\
  (Reconcile sample_options (sample_managed "provisioning" None) routed).2 =
    Ok (mkApiCentralStatus (acs_Conditions readyStatus)
      (Some [mkRoute "acs-c1.example" "router.example"; mkRoute "acs-data-c1.example" "router.example"]) "" "").
Proof. split; vm_compute; reflexivity. Qed.

(** ** The theorems at work *)

(** Another tenant's route in the same cluster. *)
Definition other_route : kobj KRoute :=
  mkObj KRoute (mkMeta centralReencryptRouteName "rhacs-c2" ∅ ∅ "" false) (mkRouteBody "h" "https" ("Service", "central") (mkTLS "" "" "" "") []).
Definition shared : rstate mem := act (put other_route) operated.

Lemma Reconcile_isolated_witness :
  let s' := (Reconcile sample_options (sample_managed "deprovision" (Some 1)) shared).1 in
  kview (rs_world s') KRoute !! ("rhacs-c2", centralReencryptRouteName) = Some other_route /\
  kview (rs_world s') KRoute !! ("rhacs-c1", centralReencryptRouteName) = None.
Proof.
  assert (kview (rs_world shared) KRoute !! ("rhacs-c2", centralReencryptRouteName) = Some other_route) as E
    by (vm_compute; reflexivity).
  split; [|vm_compute; reflexivity].
  exact (eq_trans (Reconcile_isolated sample_options (sample_managed "deprovision" (Some 1)) shared KRoute
    ("rhacs-c2", centralReencryptRouteName) ltac:(discriminate)) E).
Defined.

(** The cluster after the objects are gone. *)
Definition cleared : rstate mem := act (fun _ => empty_cluster) operated.

Lemma Reconcile_deletes_witness :
  let c := sample_managed "deprovision" (Some 1) in
  (Reconcile sample_options c cleared).2 = Ok deletedStatus /\
  absent (rs_world (Reconcile sample_options c cleared).1) (tracked sample_options c).
Proof.
  assert ((Reconcile sample_options (sample_managed "deprovision" (Some 1)) cleared).2 = Ok deletedStatus) as E
    by (vm_compute; reflexivity).
  split; [exact E|].
  pose proof (Reconcile_deletes sample_options (sample_managed "deprovision" (Some 1)) cleared ltac:(discriminate)) as Hd.
  destruct (Reconcile sample_options (sample_managed "deprovision" (Some 1)) cleared) as [s' r].
  exact (proj2 (proj2 Hd deletedStatus E)).
Defined.



(** ** Where the reconciler falls short *)

(** Central refuses the four requests for groups of the pass that creates the auth provider. *)
Definition refusing : rstate mem := act (fun w => set_central [] [] 4 (operate w)) installed.

(** The groups of the auth provider are not retried: if Central refuses them, the
    pass fails, but the next pass finds the auth provider and reports the central
    ready, and no group was ever created. *)
Theorem groups_not_retried :
  let c := sample_managed "provisioning" None in
  let failed := Reconcile sample_options c refusing in
  let next := Reconcile sample_options c (act admit_routes failed.1) in
  (exists e, failed.2 = Err (KWrap "sending group request(s) to central" e)) /\
  (exists routes, next.2 = Ok (mkApiCentralStatus (acs_Conditions readyStatus) routes "" "")) /\
  m_providers (rs_world next.1) = ["Red Hat SSO"] /\ m_groups (rs_world next.1) = [].
Proof.
  cbv zeta. split; [|split; [|split; vm_compute; reflexivity]].
  - eexists (KText _). vm_compute. reflexivity.
  - eexists. vm_compute. reflexivity.
Qed.

(** Central is up for Kubernetes, but does not answer, and fleetshard has been restarted. *)
Definition unreachable : rstate mem :=
  let w := rs_world operated in
  NewCentralReconciler None (mkMem (m_objs w) (m_passwords w) false (m_providers w) (m_groups w) (m_refuse w) (m_ca w)).

Lemma deletion_needs_central_witness :
  let c := sample_managed "deprovision" (Some 1) in
  (exists e', (Reconcile sample_options c unreachable).2 = Err e') /\
  same_view (rs_world unreachable) (rs_world (Reconcile sample_options c unreachable).1).
Proof.
  assert (match (existsRHSSOAuthProvider (sample_managed "deprovision" (Some 1)) (rs_world unreachable)).2 with
    | Err _ => true | Ok _ => false end = true) as Ee by (vm_compute; reflexivity).
  destruct ((existsRHSSOAuthProvider (sample_managed "deprovision" (Some 1)) (rs_world unreachable)).2) as [b|e] eqn:E;
    [discriminate Ee|].
  exact (deletion_needs_central sample_options (sample_managed "deprovision" (Some 1)) unreachable e eq_refl eq_refl eq_refl
    eq_refl E).
Defined.

Definition without_ca : rstate mem :=
  NewCentralReconciler None (mkMem (fun _ => ∅) ∅ true [] [] 0 ("", Some (KText "no such file"))).

Lemma ca_error_reported_once_witness :
  (exists e, (GetDatabaseCACertificates without_ca).2 = Err e) /\
  (GetDatabaseCACertificates (GetDatabaseCACertificates without_ca).1).2 = Ok "".
Proof.
  assert ((read_ca (rs_world without_ca)).2 = ("", Some (KText "no such file"))) as Er by reflexivity.
  destruct (ca_error_reported_once without_ca "" (KText "no such file") eq_refl Er) as [Hf Hn].
  split; [by eexists; exact Hf|]. rewrite (Hn _ eq_refl). reflexivity.
Defined.
