(* ===== verification/CentralDeletion.v ===== *)
(** * The deletion of a central ends

    If the services answer and the cluster finalises the objects that are marked for
    deletion, one after the other in any order, then a pass reports the central as
    deleted after at most one pass more than there are objects. *)

From S2P Require Import Prelude GoString GoFmt ServiceErrors CentralRequest World Effects Resources Presenters Kube ManagedDB.
From S2P Require Import CentralReconciler CentralReconcilerProps.
Local Open Scope string_scope.
Local Open Scope Z_scope.

(** An object that is marked for deletion; a namespace is terminating then. *)
Definition dying `{Quantities} {k} : kobj k -> Prop :=
  match k with KNamespace => fun o => ko_body o = true | _ => fun o => om_Deleting (ko_meta o) = true end.

(** Gone or marked. *)
Definition doomed `{Kube W} (w : W) (x : kind * ObjectKey) : Prop := forall o, kview w x.1 !! x.2 = Some o -> dying o.

(** Reads, updates and deletions of objects that are there succeed; a deleted object is
    gone or marked, and marks stay. *)
Class ReliableKube `{Kube W} := {
  kget_present k key w o : kview w k !! key = Some o -> (kget k key w).2 = Ok o;
  kget_absent k key w : kview w k !! key = None -> exists e, (kget k key w).2 = Err e /\ IsNotFound e = true;
  kupdate_present k (o : kobj k) w : is_Some (kview w k !! key_of o) -> (kupdate o w).2 = None;
  kdelete_present k (o : kobj k) w : is_Some (kview w k !! key_of o) -> (kdelete o w).2 = None;
  kdelete_dooms k (o : kobj k) w : doomed (kdelete o w).1 (k, key_of o);
  kdelete_marks k (o : kobj k) w x : doomed w x -> doomed (kdelete o w).1 x
}.

(** The services for the deletion of a central: its database can be removed, and its
    chart renders to [objs]. *)
Record deletable `{Shard W} (opts : Options) (c : ManagedCentral) (objs : list unstructured) : Prop := {
  deprovision_works (w : W) : (db_EnsureDeprovisioned (mg_Id c) w).2 = Ok tt;
  render_works (w : W) : (RenderToObjects helmReleaseName (mg_Namespace c) "tenant-resources" (chartValues opts) w).2 = Ok objs
}.

Section deletion.
Context `{ShardLaws W} `{!ReliableKube (W:=W)} `{Messages} (opts : Options) (c : ManagedCentral) (objs : list unstructured).
Local Abbreviation ns := (mg_Namespace c).
Local Abbreviation St := (rstate W).

Lemma doomed_same (w w' : W) x : same_view w w' -> doomed w x -> doomed w' x.
Proof. intros Hs Hd o. rewrite (Hs x.1). apply Hd. Qed.

Lemma lookup_same (w w' : W) k key r : same_view w w' -> kview w' k !! key = r -> kview w k !! key = r.
Proof. intros Hs. by rewrite (Hs k). Qed.

(** ** One object *)

(** What a step of the deletion does: it answers, with [true] if the objects of [L]
    were not there; it marks them, and unmarks and creates nothing. *)
Definition settles (L : list (kind * ObjectKey)) (m : prog St (result kerr bool)) : Prop :=
  forall s, wp m (fun s' r =>
    (exists b, r = Ok b /\ (absent (rs_world s) L -> b = true)) /\
    (forall x, x ∈ L \/ doomed (rs_world s) x -> doomed (rs_world s') x) /\
    no_new (rs_world s) (rs_world s')) s.

Record sure (k : kind) (key : ObjectKey) (m : prog St (result kerr (kobj k))) : Prop := {
  sure_reading : reading rs_world k key m;
  sure_present s o : kview (rs_world s) k !! key = Some o -> (m s).2 = Ok o;
  sure_absent s : kview (rs_world s) k !! key = None -> exists e, (m s).2 = Err e /\ IsNotFound e = true
}.

Lemma sure_with_err k key m t : sure k key m -> sure k key (with_err (KWrap t) m).
Proof.
  intros [Hr Hp Ha]. split; [by apply reading_with_err| |]; intros s; unfold with_err; rewrite prog_bind_run.
  - intros o Ho. by rewrite (Hp s o Ho).
  - intros Hn. destruct (Ha s Hn) as (e & -> & He). by exists (KWrap t e).
Qed.

Lemma sure_kget k key : sure k key (lift (kget k key)).
Proof.
  split; [apply reading_lift, reading_kget| |]; intros s; [apply kget_present|apply kget_absent].
Qed.

Lemma sure_route name : sure KRoute (ns, name) (lift (findRoute ns name)).
Proof.
  split; [apply reading_lift, reading_with_err, reading_kget| |]; intros s; unfold lift, findRoute, with_err; cbn [snd];
    rewrite prog_bind_run.
  - intros o Ho. by rewrite (kget_present _ _ _ _ Ho).
  - intros Hn. destruct (kget_absent _ _ _ Hn) as (e & -> & He). by eexists.
Qed.

(** The shape of the deletions: nothing to do, or a body that deletes what was read. *)
Lemma settles_read k key m f :
  sure k key m ->
  (forall e, IsNotFound e = true -> f (Err e) = mret (Ok true)) ->
  (forall o s, kview (rs_world s) k !! key = Some o -> key_of o = key ->
     wp (f (Ok o)) (fun s' r => (exists b, r = Ok b) /\
       (forall x, x = (k, key) \/ doomed (rs_world s) x -> doomed (rs_world s') x) /\ no_new (rs_world s) (rs_world s')) s) ->
  settles [(k, key)] (m ≫= f).
Proof.
  intros [Hr Hp Ha] Hnone Hsome s. apply wp_bind. unfold wp at 1.
  pose proof (rd_same _ _ _ _ Hr s) as Hs. destruct (kview (rs_world s) k !! key) as [o|] eqn:E.
  - rewrite (Hp s o E). eapply wp_mono.
    + apply Hsome; [by rewrite (Hs k)|by eapply kview_keyed].
    + intros s' r ((b & ->) & Hd & Hn). split; [|split].
      * exists b. split; [done|]. intros Habs. discriminate (eq_trans (eq_sym E) (proj1 (Forall_singleton _ _) Habs)).
      * intros x Hx. apply Hd. rewrite list_elem_of_singleton in Hx. destruct Hx as [Hx|Hx]; [by left|right].
        by eapply doomed_same.
      * etransitivity; [by apply same_view_no_new|done].
  - destruct (Ha s E) as (e & -> & He). rewrite (Hnone e He). apply wp_ret. split; [by exists true|]. split.
    + intros x Hx. rewrite list_elem_of_singleton in Hx. destruct Hx as [->|Hx]; [|by eapply doomed_same].
      intros o Ho. discriminate (eq_trans (eq_sym E) (lookup_same _ _ _ _ _ Hs Ho)).
    + by apply same_view_no_new.
Qed.

Lemma delete_settles (t : kerr -> kerr) k (o : kobj k) s :
  is_Some (kview (rs_world s) k !! key_of o) ->
  wp (_ ←? with_err t (lift (unit_result (kdelete o))); mret (Ok false))
    (fun s' r => (exists b, r = Ok b) /\ (forall x, x = (k, key_of o) \/ doomed (rs_world s) x -> doomed (rs_world s') x) /\
       no_new (rs_world s) (rs_world s')) s.
Proof.
  intros Ho. apply wp_try, wp_with_err. unfold wp, lift, unit_result. cbn [fst snd]. rewrite prog_bind_run. cbn.
  rewrite kdelete_present by done. cbn. split; [by eexists|]. split; [|apply kdelete_no_new].
  intros x [->|Hx]; [apply kdelete_dooms|by apply kdelete_marks].
Qed.

Lemma route_settles name : settles [(KRoute, (ns, name))] (ensureRouteDeleted ns name (findRoute ns name)).
Proof.
  apply settles_read; [apply sure_route|by intros e ->|]. intros o s Ho Hk. rewrite <- Hk in *.
  apply delete_settles. by rewrite Ho.
Qed.

Lemma secret_settles : settles [(KSecret, (ns, centralDbSecretName))] (ensureCentralDBSecretDeleted ns).
Proof.
  apply settles_read; [apply sure_kget|by intros e ->|]. intros o s Ho Hk. rewrite <- Hk in *.
  apply delete_settles. by rewrite Ho.
Qed.

Lemma namespace_settles : settles [(KNamespace, ("", ns))] (ensureNamespaceDeleted ns).
Proof.
  apply settles_read; [apply sure_with_err, sure_kget|by intros e ->|]. intros o s Ho Hk. rewrite <- Hk in *. cbn beta iota.
  destruct (ko_body o) eqn:Eb; [|apply delete_settles; by rewrite Ho].
  apply wp_ret. split; [by eexists|]. split; [|done]. intros x [->|Hx]; [|done].
  intros o'. cbn. rewrite Ho. by intros [= <-].
Qed.

Lemma doomed_update k (o : kobj k) w x : x <> (k, key_of o) -> doomed w x -> doomed (kupdate o w).1 x.
Proof.
  intros Hx Hd o' Ho'. apply Hd. rewrite <- Ho'. symmetry. apply kupdate_frame. destruct x as [k' key]. cbn in *.
  destruct (decide (k' = k)) as [->|]; [|by left]. right. intros ->. done.
Qed.

Lemma pause_settles (o : kobj KCentral) s :
  is_Some (kview (rs_world s) KCentral !! key_of o) ->
  wp (disablePauseReconcileIfPresent o) (fun s' r => exists o', r = Ok o' /\ key_of o' = key_of o /\
    is_Some (kview (rs_world s') KCentral !! key_of o) /\
    (forall x, x <> (KCentral, key_of o) -> doomed (rs_world s) x -> doomed (rs_world s') x) /\
    no_new (rs_world s) (rs_world s')) s.
Proof.
  intros Ho. unfold disablePauseReconcileIfPresent. case_bool_decide; [|by apply wp_ret; exists o].
  set (o' := mkObj KCentral _ _). assert (key_of o' = key_of o) as Hk by done.
  apply wp_try, wp_with_err. unfold wp, lift, unit_result. cbn [fst snd]. rewrite prog_bind_run. cbn.
  assert ((kupdate o' (rs_world s)).2 = None) as Hu by (apply kupdate_present; by rewrite Hk).
  rewrite Hu. exists o'. split; [done|]. split; [done|]. split; [|split; [|apply kupdate_no_new]].
  - destruct (kupdate_done _ _ _ Hu) as (o'' & Ho'' & _). rewrite <- Hk. cbn. by rewrite Ho''.
  - intros x Hx. by apply doomed_update.
Qed.

Lemma cr_settles name : settles [(KCentral, (ns, name))] (ensureCentralCRDeleted ns name).
Proof.
  apply settles_read; [apply sure_kget|by intros e ->|]. intros o s Ho Hk. rewrite <- Hk in *. cbn beta iota zeta.
  apply wp_try. eapply wp_mono; [apply pause_settles; by rewrite Ho|].
  intros s1 r (o' & -> & Hk' & Ho' & Hd & Hn). eapply wp_mono; [apply delete_settles; by rewrite Hk'|].
  intros s2 r' (Hb & Hd2 & Hn2). split; [done|]. split; [|by etransitivity].
  intros x Hx. apply Hd2. rewrite Hk'. destruct (decide (x = (KCentral, key_of o))); [by left|].
  destruct Hx as [|Hx]; [done|]. right. by apply Hd.
Qed.

(** ** Several objects *)

(** What the steps so far have left, from [s0] on. *)
Definition settled (s0 : St) (L : list (kind * ObjectKey)) (s : St) : Prop :=
  (forall x, x ∈ L \/ doomed (rs_world s0) x -> doomed (rs_world s) x) /\ no_new (rs_world s0) (rs_world s).

Lemma settled_refl s : settled s [] s.
Proof. split; [|done]. intros x [Hx|Hx]; [by apply elem_of_nil in Hx|done]. Qed.

Lemma settled_quiet s0 L s s' : same_view (rs_world s) (rs_world s') -> settled s0 L s -> settled s0 L s'.
Proof.
  intros Hs [Hd Hn]. split; [|etransitivity; [exact Hn|by apply same_view_no_new]].
  intros x Hx. eapply doomed_same; [exact Hs|]. by apply Hd.
Qed.

Lemma wp_settles {A} s0 s L L' m (k : bool -> prog St (result kerr A)) Q :
  settles L' m -> settled s0 L s ->
  (forall s' b, settled s0 (L ++ L')%list s' -> (absent (rs_world s0) L' -> b = true) -> wp (k b) Q s') ->
  wp (try_bind m k) Q s.
Proof.
  intros Hm [Hd Hn] Hk. apply wp_try. eapply wp_mono; [apply Hm|]. intros s' r ((b & -> & Hb) & Hd' & Hn').
  apply Hk; [split; [|by etransitivity]|intros Ha; by apply Hb; eapply absent_no_new].
  intros x Hx. rewrite elem_of_app in Hx. apply Hd'. destruct Hx as [[Hx|Hx]|Hx]; [right|by left|right]; apply Hd; auto.
Qed.

Lemma absent_app w L1 L2 : absent w (L1 ++ L2)%list <-> absent w L1 /\ absent w L2.
Proof. apply Forall_app. Qed.

(** Steps in sequence, as one. *)
Lemma settles_skip : settles [] (mret (Ok true)).
Proof. intros s. apply wp_ret. split; [by exists true|]. apply settled_refl. Qed.

Lemma settles_quiet L m (k : prog St (result kerr bool)) :
  preserves (on_world same_view) m -> (forall s, (m s).2 = Ok tt) -> settles L k -> settles L (_ ←? m; k).
Proof.
  intros Hm Hr Hk s. apply wp_try. unfold wp at 1. rewrite Hr. pose proof (Hm s) as Hs. unfold on_world in Hs.
  eapply wp_mono; [apply Hk|]. intros s' r ((b & -> & Hb) & Hd & Hn). split; [|split].
  - exists b. split; [done|]. intros Ha. apply Hb. eapply absent_no_new; [by apply same_view_no_new|done].
  - intros x Hx. apply Hd. destruct Hx as [Hx|Hx]; [by left|right]. by eapply doomed_same.
  - etransitivity; [by apply same_view_no_new|done].
Qed.

(** The objects of the chart. *)
Definition chart_key (o : unstructured) : kind * ObjectKey :=
  (KOther (projT1 o), (om_Namespace (ko_meta (projT2 o)), om_Name (ko_meta (projT2 o)))).

(** The answer of the loop is whether to wait: not if the object was not there. *)
Lemma object_settles o s :
  wp (ensure_object_deleted o) (fun s' r => (exists b, r = Ok b /\ (absent (rs_world s) [chart_key o] -> b = false)) /\
    settled s [chart_key o] s') s.
Proof.
  destruct o as [g o]. unfold ensure_object_deleted, chart_key. cbn [projT1 projT2].
  set (key := (om_Namespace (ko_meta o), om_Name (ko_meta o)) : ObjectKey).
  apply wp_bind. unfold wp at 1. destruct (sure_kget (KOther g) key) as [Hr Hp Ha].
  pose proof (rd_same _ _ _ _ Hr s) as Hs. destruct (kview (rs_world s) (KOther g) !! key) as [out|] eqn:E.
  - rewrite (Hp s out E). assert (key_of out = key) as Hk by (by eapply kview_keyed).
    set (s1 := (lift _ s).1) in *.
    assert (forall b, absent (rs_world s) [(KOther g, key)] -> b = false) as Hb.
    { intros b Habs. discriminate (eq_trans (eq_sym E) (proj1 (Forall_singleton _ _) Habs)). }
    destruct (om_Deleting (ko_meta out)) eqn:Ed.
    + apply wp_ret. split; [exists true; by auto|]. split; [|by apply same_view_no_new].
      intros x [->%list_elem_of_singleton|Hx]; [|by eapply doomed_same].
      intros o' Ho'. by injection (eq_trans (eq_sym E) (lookup_same _ _ _ _ _ Hs Ho')) as <-.
    + apply wp_bind. unfold wp, lift. cbn [fst snd]. rewrite kdelete_present.
      2:{ rewrite Hk, (Hs (KOther g)). by rewrite E. }
      split; [exists false; by auto|]. split; [|etransitivity; [by apply same_view_no_new|apply kdelete_no_new]].
      intros x [->%list_elem_of_singleton|Hx]; [rewrite <- Hk; apply kdelete_dooms|].
      apply kdelete_marks. by eapply doomed_same.
  - destruct (Ha s E) as (e & -> & He). rewrite He. apply wp_ret. split; [by exists false|].
    split; [|by apply same_view_no_new]. intros x [->%list_elem_of_singleton|Hx]; [|by eapply doomed_same].
    intros o' Ho'. discriminate (eq_trans (eq_sym E) (lookup_same _ _ _ _ _ Hs Ho')).
Qed.

Lemma objects_settle l (wait : bool) s :
  wp (ensure_objects_deleted wait l) (fun s' r =>
    (exists b, r = Ok b /\ (wait = false -> absent (rs_world s) (chart_key <$> l) -> b = true)) /\
    settled s (chart_key <$> l) s') s.
Proof.
  revert wait s. induction l as [|o l IH]; intros wait s; cbn [ensure_objects_deleted].
  { apply wp_ret. split; [exists (negb wait); split; [done|by intros ->]|]. apply settled_refl. }
  apply wp_try. eapply wp_mono; [apply object_settles|]. intros s1 r ((b & -> & Hb) & Hd1 & Hn1).
  eapply wp_mono; [apply IH|]. intros s2 r ((b' & -> & Hb') & Hd2 & Hn2). rewrite fmap_cons. split; [|split].
  - exists b'. split; [done|]. intros -> [Ha Hl]%(Forall_app _ [_]). apply Hb'; [by rewrite Hb|].
    by eapply absent_no_new.
  - intros x Hx. rewrite elem_of_cons in Hx. apply Hd2. destruct Hx as [[->|Hx]|Hx]; [right|by left|right]; apply Hd1;
      [left; apply list_elem_of_singleton; done|by right].
  - by etransitivity.
Qed.

Local Abbreviation chart_keys := (chart_key <$> (in_namespace ns <$> objs)).

Lemma chart_settles : deletable opts c objs -> settles chart_keys (ensureChartResourcesDeleted opts c).
Proof.
  intros [_ Hr] s. unfold ensureChartResourcesDeleted. apply wp_try. unfold wp at 1.
  assert ((render opts ns s).2 = Ok objs) as Ho.
  { unfold render, with_err. rewrite prog_bind_run. cbn [lift snd]. by rewrite Hr. }
  rewrite Ho. pose proof (render_chart_same opts ns s) as Hs. unfold on_world in Hs.
  eapply wp_mono; [apply objects_settle|]. intros s' r ((b & -> & Hb) & Hd & Hn). split; [|split].
  - exists b. split; [done|]. intros Ha. apply Hb; [done|]. eapply absent_no_new; [by apply same_view_no_new|done].
  - intros x Hx. apply Hd. destruct Hx as [Hx|Hx]; [by left|right]. by eapply doomed_same.
  - etransitivity; [by apply same_view_no_new|done].
Qed.

(** ** A pass *)

(** The objects of the central: those a pass waits for, and those of the chart. *)
Definition owned : list (kind * ObjectKey) := (tracked opts c ++ chart_keys)%list.

Lemma routes_settle :
  settles (if op_UseRoutes opts then [(KRoute, (ns, centralReencryptRouteName)); (KRoute, (ns, centralPassthroughRouteName))] else [])
    (if op_UseRoutes opts then
       r ←? ensureReencryptRouteDeleted ns; p ←? ensurePassthroughRouteDeleted ns; mret (Ok (r && p))
     else mret (Ok true)).
Proof.
  destruct (op_UseRoutes opts); [|apply settles_skip]. intros s.
  eapply (wp_settles s s []); [apply route_settles|apply settled_refl|]. intros s1 b1 Hs1 Hb1.
  eapply (wp_settles s); [apply route_settles|exact Hs1|]. intros s2 b2 Hs2 Hb2. apply wp_ret. split; [|exact Hs2].
  exists (b1 && b2). split; [done|]. intros [Ha1 Ha2]%(Forall_app _ [_]). by rewrite Hb1, Hb2.
Qed.

Lemma database_settles :
  deletable opts c objs ->
  settles (if op_ManagedDBEnabled opts then [(KSecret, (ns, centralDbSecretName))] else [])
    (if op_ManagedDBEnabled opts then
       _ ←? with_err (fun err => KText ("deprovisioning DB: " +:+ kerr_text err)) (lift (db_EnsureDeprovisioned (mg_Id c)));
       ensureCentralDBSecretDeleted ns
     else mret (Ok true)).
Proof.
  intros [Hw _]. destruct (op_ManagedDBEnabled opts); [|apply settles_skip]. apply settles_quiet; [shard_tac| |apply secret_settles].
  intros s. unfold with_err. rewrite prog_bind_run. unfold lift. cbn [fst snd mret prog_ret]. by rewrite (Hw (rs_world s)).
Qed.

Lemma ensureCentralDeleted_settles : deletable opts c objs -> settles owned (ensureCentralDeleted opts c).
Proof.
  intros Hdel s. unfold ensureCentralDeleted.
  eapply (wp_settles s s []); [apply routes_settle|apply settled_refl|]. intros s1 b1 Hs1 Hb1.
  eapply (wp_settles s); [apply cr_settles|exact Hs1|]. intros s2 b2 Hs2 Hb2.
  eapply (wp_settles s); [by apply database_settles|exact Hs2|]. intros s3 b3 Hs3 Hb3.
  eapply (wp_settles s); [by apply chart_settles|exact Hs3|]. intros s4 b4 Hs4 Hb4.
  eapply (wp_settles s); [apply namespace_settles|exact Hs4|]. intros s5 b5 [Hd Hn] Hb5. apply wp_ret. unfold owned, tracked.
  split; [|split; [|exact Hn]].
  - exists (b1 && b2 && b3 && b4 && b5). split; [done|]. rewrite !absent_app. intros [(Ha1 & Ha2 & Ha3 & Ha5) Ha4].
    by rewrite Hb1, Hb2, Hb3, Hb4, Hb5.
  - intros x Hx. apply Hd. destruct Hx as [Hx|Hx]; [left|by right]. rewrite !elem_of_app in *. tauto.
Qed.

(** A reconciler that can delete: it is free, and need not ask Central for its auth
    provider. *)
Definition free (s : St) : Prop := rs_busy s = false /\ (op_WantsAuthProvider opts = true -> rs_hasAuthProvider s = true).

(** A central that is to be deleted, as the fleet manager sends it. *)
Record condemned : Prop := {
  cd_deletion : mg_DeletionTimestamp c <> None;
  cd_status : isRemoteCentralReady c = false;
  cd_hash : exists h, MD5SumFromJSONStruct c = Ok h;
  cd_resources : exists r, convert_resources c = Ok r
}.

Lemma check_auth_skipped s : (op_WantsAuthProvider opts = true -> rs_hasAuthProvider s = true) -> check_auth_provider opts c s = (s, Ok tt).
Proof.
  intros Hh. unfold check_auth_provider. rewrite prog_bind_run. cbn [reads fst snd].
  destruct (op_WantsAuthProvider opts); cbn [andb]; [|done]. by rewrite (Hh eq_refl).
Qed.

Lemma Reconcile_condemned s :
  condemned -> free s ->
  Reconcile opts c s =
    (set_busy false (delete opts c (set_busy true s)).1, (delete opts c (set_busy true s)).2).
Proof.
  intros [Hd Hst (h & Hh) (r & Hr)] [Hb Ha]. rewrite Reconcile_run, Hb. set (s1 := set_busy true s).
  enough (pass opts c s1 = delete opts c s1) as -> by done.
  unfold pass, try_bind at 1. rewrite prog_bind_run. unfold with_err at 1, centralChanged. rewrite !prog_bind_run. cbn [reads fst snd mret prog_ret].
  rewrite Hh, prog_bind_run. unfold shouldSkipReadyCentral. rewrite prog_bind_run. cbn [reads fst snd mret prog_ret].
  rewrite Hst, andb_false_r, andb_false_l, andb_false_r, Hr. unfold try_bind at 1. rewrite prog_bind_run.
  rewrite check_auth_skipped by exact Ha. cbn [fst snd]. by rewrite bool_decide_eq_true_2.
Qed.

(** ** Passes and finalisers *)

(** How many of the objects are left. *)
Definition remaining (w : W) : nat := length (filter (fun x => is_Some (kview w x.1 !! x.2)) owned).

(** What happens to the cluster between two passes: nothing is created for the central,
    and if objects are left and all of them are marked, at least one is finalised. *)
Record finalises (env : relation W) : Prop := {
  env_no_new w w' : env w w' -> no_new w w';
  env_progress w w' : env w w' -> remaining w <> 0%nat -> (forall x, x ∈ owned -> doomed w x) -> (remaining w' < remaining w)%nat
}.

(** At most [n] passes, whatever happens between them, until one reports [Deleted];
    those before report that the deletion is in progress. *)
Inductive deleted_within (env : relation W) : nat -> St -> Prop :=
| deleted_now n s : (Reconcile opts c s).2 = Ok deletedStatus -> deleted_within env (S n) s
| deleted_later n s :
    (Reconcile opts c s).2 = Err ErrDeletionInProgress ->
    (forall w', env (rs_world (Reconcile opts c s).1) w' ->
       let s1 := (Reconcile opts c s).1 in
       deleted_within env n (mkRState (rs_busy s1) (rs_lastCentralHash s1) (rs_hasAuthProvider s1) (rs_ca s1) w')) ->
    deleted_within env (S n) s.

Lemma remaining_no_new w w' : no_new w w' -> (remaining w' <= remaining w)%nat.
Proof.
  intros Hn. unfold remaining. induction owned as [|x l IH]; [done|]. rewrite !filter_cons.
  destruct (decide (is_Some (kview w' x.1 !! x.2))) as [Hx|Hx], (decide (is_Some (kview w x.1 !! x.2))) as [Hy|Hy];
    cbn [length]; try lia.
  apply eq_None_not_Some, Hn in Hy. rewrite Hy in Hx. by destruct Hx.
Qed.

Lemma absent_remaining w : absent w owned -> remaining w = 0%nat.
Proof.
  unfold remaining. induction 1 as [|x l Hx _ IH]; [done|]. rewrite filter_cons.
  destruct (decide _) as [[o Ho]|]; [congruence|done].
Qed.

Lemma remaining_absent w : remaining w = 0%nat -> absent w owned.
Proof.
  intros Hr%length_zero_iff_nil. apply Forall_forall. intros x Hx. apply eq_None_not_Some. intros Hs.
  exact (filter_nil_not_elem_of _ _ _ Hr Hs Hx).
Qed.

Lemma ensureCentralDeleted_has : preserves (same_has (W:=W)) (ensureCentralDeleted opts c).
Proof.
  assert (forall b l, preserves (same_has (W:=W)) (ensure_objects_deleted b l)) as Hl.
  { intros b l. revert b. induction l as [|[g o] l IH]; intros b; cbn [ensure_objects_deleted]; [shard_tac|].
    unfold ensure_object_deleted. shard_tac. }
  unfold ensureCentralDeleted, ensureReencryptRouteDeleted, ensurePassthroughRouteDeleted, ensureRouteDeleted,
    ensureCentralCRDeleted, disablePauseReconcileIfPresent, ensureCentralDBSecretDeleted, get_db_secret,
    ensureChartResourcesDeleted, render, ensureNamespaceDeleted, getNamespace. shard_tac.
Qed.

Lemma delete_condemned s :
  deletable opts c objs ->
  wp (delete opts c) (fun s' r =>
    (r = Ok deletedStatus \/ (r = Err ErrDeletionInProgress /\ remaining (rs_world s) <> 0%nat)) /\
    (forall x, x ∈ owned -> doomed (rs_world s') x) /\ no_new (rs_world s) (rs_world s') /\ same_has s s') s.
Proof.
  intros Hd. unfold delete. apply wp_try, wp_with_err.
  assert (wp (ensureCentralDeleted opts c) (fun s' _ => same_has s s') s) as Hh by apply ensureCentralDeleted_has.
  pose proof (ensureCentralDeleted_settles Hd s) as Hs. unfold wp in *.
  destruct Hs as ((b & -> & Hb) & Hdoom & Hn). destruct b; cbn [mret prog_ret fst snd].
  - split; [by left|]. split; [by auto|done].
  - split; [|by auto]. right. split; [done|]. intros Hr%remaining_absent. by apply Hb in Hr.
Qed.
End deletion.

(** C8. The deletion of a central ends.  If the services answer, the reconciler is free
    and the cluster finalises the objects that are marked, in any order and one or more
    at a time, then after at most one pass more than there are objects a pass reports
    [Deleted], and every pass before it reports that the deletion is in progress. *)
Theorem deletion_completes `{ShardLaws W} `{!ReliableKube (W:=W)} `{Messages} opts c objs env (s : rstate W) :
  deletable opts c objs -> condemned c -> finalises opts c objs env -> free opts s ->
  deleted_within opts c env (S (remaining opts c objs (rs_world s))) s.
Proof.
  intros Hdel Hc [Hnew Hprog]. remember (remaining opts c objs (rs_world s)) as n eqn:En.
  assert (remaining opts c objs (rs_world s) <= n)%nat as Hle by lia. clear En. revert s Hle.
  induction n as [|n IH]; intros s Hle Hf; pose proof (delete_condemned opts c objs (set_busy true s) Hdel) as Hw;
    pose proof (Reconcile_condemned opts c s Hc Hf) as Er; unfold wp in Hw; cbn [set_busy rs_world] in Hw;
    destruct Hw as ([Hr|[Hr Hne]] & Hdoom & Hnn & Hh).
  - apply deleted_now. by rewrite Er.
  - lia.
  - apply deleted_now. by rewrite Er.
  - apply deleted_later; [by rewrite Er|]. rewrite Er. cbn [fst]. intros w' Hw'. apply IH.
    + cbn [rs_world set_busy] in Hw' |- *. pose proof (remaining_no_new opts c objs _ _ Hnn).
      pose proof (remaining_no_new opts c objs _ _ (Hnew _ _ Hw')).
      destruct (decide (remaining opts c objs (rs_world (delete opts c (set_busy true s)).1) = 0%nat)); [lia|].
      pose proof (Hprog _ _ Hw' n0 Hdoom). lia.
    + split; [done|]. cbn. intros Hwant. unfold same_has in Hh. rewrite Hh. by apply Hf.
Qed.

(** ** The data plane in memory deletes *)

From S2P Require Import MemShard.

#[export] Instance dying_dec {k} (o : kobj k) : Decision (dying o).
Proof. destruct k; cbn; apply _. Defined.

Lemma mem_delete_dooms k (o : kobj k) w : doomed (kdelete o w).1 (k, key_of o).
Proof.
  intros o' Ho'. cbn in Ho'. destruct (mem_view w k !! key_of o) eqn:E; cbn in Ho'; [|congruence].
  destruct k; cbn [mem_delete] in Ho'; try (rewrite take_out_view, lookup_delete_eq in Ho'; done).
  change (key_of o) with (key_of (terminating o)) in Ho'. rewrite put_view, lookup_insert_eq in Ho'. by injection Ho' as <-.
Qed.

#[export] Instance mem_reliable : ReliableKube (W:=mem).
Proof.
  split.
  - intros k key w o Ho. cbn in *. by rewrite Ho.
  - intros k key w Hn. cbn in *. rewrite Hn. by eexists.
  - intros k o w [o' Ho']. cbn in *. by rewrite Ho'.
  - intros k o w [o' Ho']. cbn in *. by rewrite Ho'.
  - apply mem_delete_dooms.
  - intros k o w [k' key] Hd. destruct (decide ((k', key) = (k, key_of o))) as [->|Hne]; [apply mem_delete_dooms|].
    intros o' Ho'. apply Hd. cbn in *. destruct (mem_view w k !! key_of o); [|done]. cbn in Ho'.
    rewrite mem_delete_frame in Ho'; [done|]. destruct (decide (k' = k)) as [->|]; [|by left]. right. by intros ->.
Qed.

(** Everything that is marked goes. *)
Definition sweep (w : mem) : mem := set_objs (fun k => filter (fun o => ~ dying o.2) (m_objs w k)) w.

Lemma sweep_view w k key o : mem_view (sweep w) k !! key = Some o <-> mem_view w k !! key = Some o /\ ~ dying o.
Proof. unfold mem_view, sweep. cbn. rewrite !map_lookup_filter_Some. cbn. tauto. Qed.

Lemma sweep_finalises opts c objs : finalises (W:=mem) opts c objs (fun w w' => w' = sweep w).
Proof.
  split.
  - intros w w' -> k key Hn. apply eq_None_not_Some. intros [o [Ho _]%sweep_view]. cbn in Hn. congruence.
  - intros w w' -> Hr Hd. enough (remaining opts c objs (sweep w) = 0%nat) by lia.
    apply absent_remaining, Forall_forall. intros x Hin. apply eq_None_not_Some. intros [o [Ho Hn]%sweep_view].
    by apply Hn, (Hd x Hin).
Qed.

Definition sample_objs : list unstructured := [chart_object "allow all"].

Lemma sample_deletable c : deletable (W:=mem) sample_options c sample_objs.
Proof. by split. Qed.

Definition doomed_central : ManagedCentral := sample_managed "deprovision" (Some 1).

Lemma deletion_completes_witness :
  remaining sample_options doomed_central sample_objs (rs_world operated) = 6%nat /\
  deleted_within sample_options doomed_central (fun w w' => w' = sweep w) 7 operated.
Proof.
  assert (remaining sample_options doomed_central sample_objs (rs_world operated) = 6%nat) as Er by (vm_compute; reflexivity).
  split; [exact Er|]. rewrite <- Er.
  refine (deletion_completes sample_options doomed_central sample_objs _ operated (sample_deletable _) _ (sweep_finalises _ _ _) _).
  - split; [discriminate|vm_compute; reflexivity|exact (ex_intro _ _ eq_refl)|].
    assert (match convert_resources doomed_central with Ok _ => true | Err _ => false end = true) as Ec by (vm_compute; reflexivity).
    destruct (convert_resources doomed_central) as [r|e]; [by exists r|discriminate Ec].
  - split; [vm_compute; reflexivity|intros _; vm_compute; reflexivity].
Defined.
