(* ===== verification/FleetshardRuntime.v ===== *)
(** * The runtime of the fleetshard synchronizer (fleetshard/pkg/runtime/runtime.go)

    A tick fetches the centrals of the cluster from the fleet manager, makes sure that
    every central has a reconciler, starts a goroutine for every central, and drops
    the reconcilers of centrals that are no longer listed.  The goroutines run passes
    and report.  A step starts a goroutine (the compare-and-swap of [Reconcile]) or
    ends one; goroutines of different reconcilers overlap in any way. *)

From S2P Require Import Prelude GoString GoFmt ServiceErrors CentralRequest World Effects Resources Presenters DataPlane Kube ManagedDB.
From S2P Require Import CentralReconciler CentralReconcilerProps MemShard.
Local Open Scope string_scope.
Local Open Scope Z_scope.

(** ** State *)

(** The fields of a reconciler that change. *)
Record cell := mkCell { ce_busy : bool; ce_lastCentralHash : string; ce_hasAuthProvider : bool }.

Definition new_cell : cell := mkCell false zero_hash false.

(** Reconcilers are objects on the heap ([rt_cells]); the registry maps identifiers of
    centrals to them.  Goroutines hold a reconciler and a copy of the central.
    [rt_sent] are the statuses sent to the fleet manager, [rt_errors] counts
    unexpected errors. *)
Record runtime (W : Type) := mkRuntime {
  rt_reconcilers : gmap string nat; rt_cells : list cell; rt_ca : option string; rt_world : W;
  rt_pending : list (nat * ManagedCentral); rt_running : list (nat * ManagedCentral);
  rt_sent : list (string * ApiCentralStatus); rt_errors : nat
}.
Arguments mkRuntime {_}.
Arguments rt_reconcilers {_}.
Arguments rt_cells {_}.
Arguments rt_ca {_}.
Arguments rt_world {_}.
Arguments rt_pending {_}.
Arguments rt_running {_}.
Arguments rt_sent {_}.
Arguments rt_errors {_}.

(** [k8s.IsRoutesResourceEnabled] for an answer of the REST mapper, and
    [Runtime.routesAvailable]. *)
Definition IsRoutesResourceEnabled (resourceFor : result kerr unit) : result kerr bool :=
  match resourceFor with Err _ => Ok false | Ok _ => Ok true end.

Definition routesAvailable (resourceFor : result kerr unit) : bool :=
  match IsRoutesResourceEnabled resourceFor with
  | Err _ => true
  | Ok available => available
  end.

(** ** The operator (central/operator/upgrade.go) *)

Definition operatorNamespace : string := "stackrox-operator".
Definition releaseName : string := "rhacs-operator".
Definition operatorImage : string := "quay.io/rhacs-eng/stackrox-operator:3.74.0".

Section operator.
Context `{Shard W}.

(** One turn of the loop of InstallOrUpgrade; two of the errors are formatted, not wrapped. *)
Definition upgrade_object (obj : unstructured) : prog W (result kerr unit) :=
  let '(existT gvk o) := obj in
  let ns := om_Namespace (ko_meta o) in
  let name := om_Name (ko_meta o) in
  let text what err := KText (Sprintf "%s %s/%s of type %v %s" [VStr what; VStr ns; VStr name; VStr gvk; VStr (kerr_text err)]) in
  r ← kget (KOther gvk) (ns, name);
  match (r : result kerr (kobj (KOther gvk))) with
  | Ok out =>
      with_err (text "failed to update ACS Operator")
        (unit_result (kupdate (mkObj (KOther gvk) (set_version (om_ResourceVersion (ko_meta out)) (ko_meta o)) (ko_body o))))
  | Err err =>
      if negb (IsNotFound err) then mret (Err (text "failed to retrieve object" err))
      else
        rc ← kcreate o;
        mret (match rc with
              | Some err => if negb (IsAlreadyExists err) then Err (KWrap (object_text "failed to create" ns name gvk) err) else Ok tt
              | None => Ok tt
              end)
  end.

Fixpoint upgrade_objects (objs : list unstructured) : prog W (result kerr unit) :=
  match objs with
  | [] => mret (Ok tt)
  | obj :: objs => _ ←? upgrade_object obj; upgrade_objects objs
  end.

Definition InstallOrUpgrade : prog W (result kerr unit) :=
  objs ←? with_err (KWrap "installing operator chart")
    (RenderToObjects releaseName operatorNamespace "rhacs-operator" {["operator" := {["image" := operatorImage]}]});
  upgrade_objects (in_namespace operatorNamespace <$> objs).

Definition upgradeOperator : prog W (result kerr unit) := with_err (KWrap "operator upgrade") InstallOrUpgrade.
End operator.

Section runtime.
Context `{Shard W} `{Messages} (opts : Options).

(** ** A tick *)

(** The body of the loop over the list: a reconciler for the central, and a goroutine. *)
Definition tick_one (central : ManagedCentral) (r : runtime W) : runtime W :=
  match rt_reconcilers r !! mg_Id central with
  | Some i =>
      mkRuntime (rt_reconcilers r) (rt_cells r) (rt_ca r) (rt_world r) (rt_pending r ++ [(i, central)]) (rt_running r)
        (rt_sent r) (rt_errors r)
  | None =>
      let i := length (rt_cells r) in
      mkRuntime (<[mg_Id central := i]> (rt_reconcilers r)) (rt_cells r ++ [new_cell]) (rt_ca r) (rt_world r)
        (rt_pending r ++ [(i, central)]) (rt_running r) (rt_sent r) (rt_errors r)
  end%list.

Definition deleteStaleReconcilers (items : list ManagedCentral) (r : runtime W) : runtime W :=
  mkRuntime (filter (fun kv => kv.1 ∈ mg_Id <$> items) (rt_reconcilers r)) (rt_cells r) (rt_ca r) (rt_world r)
    (rt_pending r) (rt_running r) (rt_sent r) (rt_errors r).

(** [items]: the answer of the fleet manager; nothing is done if there is none. *)
Definition tick (items : result kerr (list ManagedCentral)) (r : runtime W) : runtime W :=
  match items with
  | Err _ => r
  | Ok items => deleteStaleReconcilers items (fold_left (fun r c => tick_one c r) items r)
  end.

(** ** Goroutines *)

Definition handleReconcileResult (central : ManagedCentral) (res : result kerr ApiCentralStatus) (r : runtime W) : runtime W :=
  match res with
  | Err err =>
      mkRuntime (rt_reconcilers r) (rt_cells r) (rt_ca r) (rt_world r) (rt_pending r) (rt_running r) (rt_sent r)
        (if IsSkippable err then rt_errors r else S (rt_errors r))
  | Ok status =>
      mkRuntime (rt_reconcilers r) (rt_cells r) (rt_ca r) (rt_world r) (rt_pending r) (rt_running r)
        (rt_sent r ++ [(mg_Id central, status)])%list (rt_errors r)
  end.

Definition set_cells (cells : list cell) (r : runtime W) : runtime W :=
  mkRuntime (rt_reconcilers r) cells (rt_ca r) (rt_world r) (rt_pending r) (rt_running r) (rt_sent r) (rt_errors r).
Definition set_tasks (pending running : list (nat * ManagedCentral)) (r : runtime W) : runtime W :=
  mkRuntime (rt_reconcilers r) (rt_cells r) (rt_ca r) (rt_world r) pending running (rt_sent r) (rt_errors r).

(** The reconciler's state in the process. *)
Definition state_of (r : runtime W) (ce : cell) : rstate W :=
  mkRState (ce_busy ce) (ce_lastCentralHash ce) (ce_hasAuthProvider ce) (rt_ca r) (rt_world r).

(** The swap of [Reconcile]: the goroutine blocks the reconciler, or is done. *)
Definition start (before after : list (nat * ManagedCentral)) (i : nat) (central : ManagedCentral) (ce : cell)
    (r : runtime W) : runtime W :=
  if ce_busy ce then handleReconcileResult central (Err ErrBusy) (set_tasks (before ++ after) (rt_running r) r)
  else set_tasks (before ++ after) (rt_running r ++ [(i, central)])
         (set_cells (<[i := mkCell true (ce_lastCentralHash ce) (ce_hasAuthProvider ce)]> (rt_cells r)) r).

(** The pass, the reset of the deferred call and the report. *)
Definition finish_pass (before after : list (nat * ManagedCentral)) (i : nat) (central : ManagedCentral) (ce : cell)
    (r : runtime W) : runtime W :=
  let p := pass opts central (state_of r ce) in
  let s := p.1 in
  handleReconcileResult central p.2
    (mkRuntime (rt_reconcilers r) (<[i := mkCell false (rs_lastCentralHash s) (rs_hasAuthProvider s)]> (rt_cells r)) (rs_ca s)
       (rs_world s) (rt_pending r) (before ++ after) (rt_sent r) (rt_errors r)).

Inductive rstep : runtime W -> runtime W -> Prop :=
| rs_tick items r : rstep r (tick items r)
| rs_start before after i central ce r :
    rt_pending r = (before ++ (i, central) :: after)%list -> rt_cells r !! i = Some ce -> rstep r (start before after i central ce r)
| rs_finish before after i central ce r :
    rt_running r = (before ++ (i, central) :: after)%list -> rt_cells r !! i = Some ce ->
    rstep r (finish_pass before after i central ce r)
(** other clients of the cluster *)
| rs_world_changes r w :
    rstep r (mkRuntime (rt_reconcilers r) (rt_cells r) (rt_ca r) w (rt_pending r) (rt_running r) (rt_sent r) (rt_errors r)).
End runtime.

(** ** At most one pass per reconciler *)

Definition running_of {W} (i : nat) (r : runtime W) : nat := length (filter (fun t => t.1 = i) (rt_running r)).

(** Reconcilers of the registry exist and belong to one central; a reconciler is
    blocked exactly while a pass of it runs. *)
Record inv {W} (r : runtime W) : Prop := {
  inv_registered id i : rt_reconcilers r !! id = Some i -> (i < length (rt_cells r))%nat;
  inv_own id id' i : rt_reconcilers r !! id = Some i -> rt_reconcilers r !! id' = Some i -> id = id';
  inv_running : Forall (fun t => (t.1 < length (rt_cells r))%nat) (rt_running r);
  inv_busy i ce : rt_cells r !! i = Some ce -> running_of i r = (if ce_busy ce then 1 else 0)%nat
}.

Definition initial {W} (w : W) : runtime W := mkRuntime ∅ [] None w [] [] [] 0.

Lemma initial_inv {W} (w : W) : inv (initial w).
Proof. split; cbn; try done. Qed.

Section invariant.
Context `{Shard W} `{Messages} (opts : Options).

Lemma running_out i r : inv r -> (length (rt_cells r) <= i)%nat -> running_of (W:=W) i r = 0%nat.
Proof.
  intros Hi Hl. unfold running_of. apply length_zero_iff_nil. destruct (filter _ _) as [|t l] eqn:E; [done|]. exfalso.
  assert (t ∈ filter (fun t => t.1 = i) (rt_running r)) as Ht by (rewrite E; left).
  apply list_elem_of_filter in Ht as [<- Ht]. pose proof (inv_running r Hi) as Hr. rewrite Forall_forall in Hr.
  specialize (Hr t Ht). cbn in Hr. lia.
Qed.

Lemma tick_one_inv c r : inv (W:=W) r -> inv (tick_one c r).
Proof.
  intros Hi. unfold tick_one. destruct (rt_reconcilers r !! mg_Id c) as [i|] eqn:E; [by destruct Hi; split|].
  pose proof (running_out (length (rt_cells r)) r Hi (le_n _)) as H0'. destruct Hi as [Hr Ho Hrun Hb]. split; cbn.
  - intros id i. rewrite length_app. cbn. rewrite lookup_insert. case_decide; [intros [= <-]; lia|].
    intros Hl%Hr. lia.
  - intros id id' i. rewrite !lookup_insert. do 2 case_decide; try congruence; [intros [= <-] Hl%Hr|intros Hl%Hr [= <-]|apply Ho]; lia.
  - eapply Forall_impl; [exact Hrun|]. intros t Ht. rewrite length_app. cbn in *. lia.
  - intros i ce Hc. rewrite lookup_app in Hc. destruct (rt_cells r !! i) as [ce'|] eqn:Ec.
    + injection Hc as <-. by apply Hb.
    + apply list_lookup_singleton_Some in Hc as [Hl <-]. apply lookup_ge_None in Ec.
      replace i with (length (rt_cells r)) by lia. exact H0'.
Qed.

Lemma tick_inv items r : inv (W:=W) r -> inv (tick items r).
Proof.
  destruct items as [items|e]; [|done]. unfold tick. intros Hi.
  assert (inv (fold_left (fun r c => tick_one c r) items r)) as Hf.
  { revert r Hi. induction items as [|c items IH]; intros r Hi; [done|]. cbn. by apply IH, tick_one_inv. }
  destruct Hf as [Hr Ho Hrun Hb]. split; cbn; [| |done|done].
  - intros id i [Hl _]%map_lookup_filter_Some. by eapply Hr.
  - intros id id' i [Hl _]%map_lookup_filter_Some [Hl' _]%map_lookup_filter_Some. by eapply Ho.
Qed.

Lemma handle_inv c res r : inv (W:=W) r -> inv (handleReconcileResult c res r).
Proof. destruct res; intros []; by split. Qed.

(** A goroutine that is gone or new, and the flag of its reconciler. *)
Lemma running_app (l l' : list (nat * ManagedCentral)) i :
  length (filter (fun t => t.1 = i) (l ++ l')%list) = (length (filter (fun t => t.1 = i) l) + length (filter (fun t => t.1 = i) l'))%nat.
Proof. by rewrite filter_app, length_app. Qed.

Lemma start_inv before after i c ce r :
  inv (W:=W) r -> rt_cells r !! i = Some ce -> inv (start before after i c ce r).
Proof.
  intros Hi Hc. unfold start. destruct (ce_busy ce) eqn:Eb; [apply handle_inv; by destruct Hi; split|].
  pose proof (lookup_lt_Some _ _ _ Hc). destruct Hi as [Hr Ho Hrun Hb]. split; cbn; rewrite ?length_insert; try done.
  - apply Forall_app. split; [done|]. by constructor.
  - intros j ce' Hj. unfold running_of. cbn [rt_running set_tasks]. rewrite running_app, filter_cons, filter_nil. cbn [fst].
    rewrite list_lookup_insert in Hj. case_decide as Hd.
    + destruct Hd as [-> _]. injection Hj as <-. rewrite decide_True by done. specialize (Hb _ _ Hc). rewrite Eb in Hb.
      unfold running_of in Hb. rewrite Hb. done.
    + rewrite decide_False by (intros ->; by apply Hd). specialize (Hb _ _ Hj). unfold running_of in Hb. cbn. lia.
Qed.

Lemma finish_inv before after i c ce r :
  inv (W:=W) r -> rt_running r = (before ++ (i, c) :: after)%list -> rt_cells r !! i = Some ce ->
  inv (finish_pass opts before after i c ce r).
Proof.
  intros Hi Hrun Hc. apply handle_inv. destruct Hi as [Hr Ho Hf Hb]. split; cbn; rewrite ?length_insert; try done.
  - rewrite Hrun in Hf. apply Forall_app in Hf as [Hf1 Hf2%Forall_cons]. apply Forall_app. by destruct Hf2.
  - intros j ce' Hj. unfold running_of. cbn [rt_running]. rewrite running_app.
    rewrite list_lookup_insert in Hj. case_decide as Hd.
    + destruct Hd as [-> _]. injection Hj as <-. cbn [ce_busy]. specialize (Hb _ _ Hc). unfold running_of in Hb.
      rewrite Hrun, running_app, filter_cons_True in Hb by done. cbn [length] in Hb. destruct (ce_busy ce); lia.
    + specialize (Hb _ _ Hj). unfold running_of in Hb. rewrite Hrun, running_app, filter_cons_False in Hb; [done|].
      cbn. intros ->. apply Hd. split; [done|]. by eapply lookup_lt_Some.
Qed.

Lemma rstep_inv r r' : rstep opts r r' -> inv r -> inv r'.
Proof.
  intros [items r0|before after i c ce r0 Hp Hc|before after i c ce r0 Hp Hc|r0 w] Hi;
    [by apply tick_inv|by apply start_inv|by apply finish_inv|by destruct Hi; split].
Qed.
End invariant.

(** C18. Whatever ticks, goroutines and other clients do, at most one pass of a reconciler
    runs at a time, and centrals share no reconciler. *)
Theorem one_pass_per_reconciler `{Shard W} `{Messages} opts (w : W) r :
  rtc (rstep opts) (initial w) r ->
  (forall i, (running_of i r <= 1)%nat) /\
  (forall id id' i, rt_reconcilers r !! id = Some i -> rt_reconcilers r !! id' = Some i -> id = id').
Proof.
  intros Hr. assert (inv r) as Hi.
  { pose proof (initial_inv w) as Hw. revert Hw. induction Hr as [|r1 r2 r3 Hs _ IH]; [done|]. intros Hw.
    by eapply IH, rstep_inv. }
  split; [|apply (inv_own r Hi)]. intros i. destruct (rt_cells r !! i) as [ce|] eqn:E.
  - rewrite (inv_busy r Hi i ce E). destruct (ce_busy ce); lia.
  - apply lookup_ge_None in E. rewrite (running_out i r Hi E). lia.
Qed.

(** ** The registry follows the list *)

Section registry.
Context `{Shard W} `{Messages} (opts : Options).

Lemma tick_one_registered c r : dom (rt_reconcilers (tick_one (W:=W) c r)) = {[mg_Id c]} ∪ dom (rt_reconcilers r).
Proof.
  unfold tick_one. destruct (rt_reconcilers r !! mg_Id c) as [i|] eqn:E; cbn; [|by rewrite dom_insert_L].
  apply elem_of_dom_2 in E. set_solver.
Qed.

Lemma ticks_registered items r :
  dom (rt_reconcilers (fold_left (fun r c => tick_one (W:=W) c r) items r)) = list_to_set (mg_Id <$> items) ∪ dom (rt_reconcilers r).
Proof.
  revert r. induction items as [|c items IH]; intros r; cbn; [set_solver|]. rewrite IH, tick_one_registered. set_solver.
Qed.
End registry.

(** After a tick the registry has a reconciler for exactly the centrals of the
    fleet manager's list; reconcilers that were there keep their state. *)
Theorem registry_follows_list `{Shard W} items (r : runtime W) :
  dom (rt_reconcilers (tick (Ok items) r)) = list_to_set (mg_Id <$> items) /\
  forall c i, c ∈ items -> rt_reconcilers r !! mg_Id c = Some i -> rt_reconcilers (tick (Ok items) r) !! mg_Id c = Some i.
Proof.
  unfold tick, deleteStaleReconcilers. cbn [rt_reconcilers]. split.
  - apply set_eq. intros id. rewrite elem_of_dom, elem_of_list_to_set. split.
    + by intros [i [_ Hin]%map_lookup_filter_Some].
    + intros Hin. assert (id ∈ dom (rt_reconcilers (fold_left (fun r c => tick_one c r) items r))) as [i Hi]%elem_of_dom.
      { rewrite ticks_registered. apply elem_of_union_l. by apply elem_of_list_to_set. }
      exists i. by apply map_lookup_filter_Some.
  - intros c i Hc Hi. apply map_lookup_filter_Some. split; [|by apply (list_elem_of_fmap_2 mg_Id)].
    clear Hc. revert r Hi. induction items as [|c' items IH]; intros r Hi; [done|]. cbn. apply IH.
    unfold tick_one. destruct (rt_reconcilers r !! mg_Id c') eqn:E; [done|]. cbn.
    rewrite lookup_insert_ne; [done|]. congruence.
Qed.

(** ** What the fleet manager makes of a report *)

(** C9. The fleet manager understands every status a pass reports, and what it
    concludes is so: [Deleted] only for a central that was to be deleted and whose
    objects are gone, [Ready] only for one whose deployment is available; anything else
    is [Installing].  A central that is to be deleted is never reported otherwise. *)
Theorem reports_understood `{ShardLaws W} `{Messages} opts c (s : rstate W) st :
  (Reconcile opts c s).2 = Ok st ->
  let w' := rs_world (Reconcile opts c s).1 in
  exists ks, ConvertDataPlaneDinosaurStatus [(mg_Id c, st)] = [ks] /\ ds_CentralClusterID ks = mg_Id c /\
    (getStatus ks = statusDeleted <-> mg_DeletionTimestamp c <> None) /\
    match getStatus ks with
    | statusDeleted => absent w' (tracked opts c)
    | statusReady => deployed c w'
    | statusInstalling => True
    | _ => False
    end.
Proof.
  rewrite Reconcile_run. destruct (rs_busy s); [done|]. cbn [fst snd]. intros Hst. eexists. split; [reflexivity|].
  split; [reflexivity|]. unfold getStatus. cbn [ds_Conditions].
  destruct (decide (mg_DeletionTimestamp c = None)) as [Hd|Hd].
  - destruct (pass_installs opts c (set_busy true s) Hd st Hst) as [[->|(Hcond & Hdep & _)] _]; [by vm_compute; split|].
    cbn [fst snd]. rewrite Hcond. change (getStatus_conditions (acs_Conditions readyStatus)) with statusReady. by split.
  - destruct (pass_deletes opts c (set_busy true s) Hd) as [_ Hdel]. destruct (Hdel st Hst) as [-> Habs].
    cbn [fst snd]. change (getStatus_conditions (acs_Conditions deletedStatus)) with statusDeleted. by split.
Qed.

(** ** The resources of a central reach its custom resource *)

(** What the fleet manager wants for a component: the stored quantities, or the defaults. *)
Definition effective `{Quantities} (r : ResourceRequirements) (d : ComponentDefaults) : ResourceRequirements :=
  let qty (l : ResourceList) name def := orDefaultQty (default zero_Quantity (l !! name)) def in
  mkResources
    (<[ResourceCPU := qty (rs_Requests r) ResourceCPU (cd_CPURequest d)]>
      {[ResourceMemory := qty (rs_Requests r) ResourceMemory (cd_MemoryRequest d)]})
    (<[ResourceCPU := qty (rs_Limits r) ResourceCPU (cd_CPULimit d)]>
      {[ResourceMemory := qty (rs_Limits r) ResourceMemory (cd_MemoryLimit d)]}).

#[export] Instance resources_equiv `{Quantities} : Equiv ResourceRequirements :=
  fun r r' => rs_Requests r ≡ rs_Requests r' /\ rs_Limits r ≡ rs_Limits r'.

Section resources.
Context `{QuantityLaws}.

Lemma presented_list_converts (a b : Quantity) :
  exists l, apiResourcesToCoreV1 (<[ResourceCPU := Quantity_String a]> {[ResourceMemory := Quantity_String b]}) = Ok l /\
    l ≡ <[ResourceCPU := a]> {[ResourceMemory := b]}.
Proof.
  destruct (Parse_String a) as (a' & Ea & Ha), (Parse_String b) as (b' & Eb & Hb).
  set (m := <[ResourceCPU := Quantity_String a]> {[ResourceMemory := Quantity_String b]}).
  exists (quantities m). split.
  - unfold apiResourcesToCoreV1. apply (to_core_entries_order _ m); [done|]. rewrite (right_id_L ∅ (∪)). split; [|done].
    apply map_Forall_insert_2; [by rewrite Ea|]. intros name qty [<- <-]%lookup_singleton_Some. by rewrite Eb.
  - intros name. unfold quantities, m. rewrite lookup_omap.
    destruct (decide (ResourceCPU = name)) as [<-|Hc]; [rewrite !lookup_insert_eq|rewrite !lookup_insert_ne by done].
    { cbn. rewrite bool_decide_eq_false_2 by apply String_nonempty. rewrite Ea. by constructor. }
    destruct (decide (ResourceMemory = name)) as [<-|Hm]; [rewrite !lookup_singleton_eq|by rewrite !lookup_singleton_ne].
    cbn. rewrite bool_decide_eq_false_2 by apply String_nonempty. rewrite Eb. by constructor.
Qed.

Lemma presented_resources_convert r d :
  exists r', ConvertResourceRequirementsToCoreV1 (present_resources r d) = Ok r' /\ r' ≡ effective r d.
Proof.
  unfold ConvertResourceRequirementsToCoreV1, present_resources. cbn [api_Requests api_Limits].
  edestruct presented_list_converts as (l & -> & Hl). edestruct presented_list_converts as (l' & -> & Hl').
  exists (mkResources l l'). split; [done|]. split; [exact Hl|exact Hl'].
Qed.
End resources.

(** The specs of a row, as the presenter reads them. *)
Definition stored_central `{SpecCodec} (row : CentralRequest) : CentralSpec :=
  match stored_text (cr_Central row) with Some text => decoded_central text | None => mkCentralSpec no_resources end.
Definition stored_scanner `{SpecCodec} (row : CentralRequest) : ScannerSpec :=
  match stored_text (cr_Scanner row) with
  | Some text => decoded_scanner text | None => mkScannerSpec no_resources zero_scaling no_resources end.


(** ** Runs *)

Definition sample_item : ManagedCentral := sample_managed "provisioning" None.
Definition ticked : runtime mem := tick (Ok [sample_item]) (initial empty_cluster).
Definition started : runtime mem := start [] [] 0 sample_item new_cell ticked.

Lemma started_reachable : rtc (rstep sample_options) (initial empty_cluster) started.
Proof.
  eapply rtc_l; [exact (rs_tick sample_options (Ok [sample_item]) (initial empty_cluster))|].
  apply rtc_once. apply (rs_start sample_options [] [] 0 sample_item new_cell ticked); reflexivity.
Qed.

Lemma one_pass_per_reconciler_witness : (running_of 0 started <= 1)%nat /\ running_of 0 started = 1%nat.
Proof.
  split; [|vm_compute; reflexivity].
  exact (proj1 (one_pass_per_reconciler sample_options empty_cluster started started_reachable) 0%nat).
Defined.

Lemma registry_follows_list_witness :
  rt_reconcilers ticked !! "c1" = Some 0%nat /\ rt_reconcilers (tick (Ok [sample_item; sample_item]) ticked) !! "c1" = Some 0%nat.
Proof.
  assert (rt_reconcilers ticked !! "c1" = Some 0%nat) as E by (vm_compute; reflexivity).
  split; [exact E|].
  exact (proj2 (registry_follows_list [sample_item; sample_item] ticked) sample_item 0%nat
    ltac:(apply elem_of_cons; left; reflexivity) E).
Defined.

Lemma reports_understood_witness :
  exists ks, ConvertDataPlaneDinosaurStatus [("c1", deletedStatus)] = [ks] /\ getStatus ks = statusDeleted.
Proof.
  assert ((Reconcile sample_options (sample_managed "deprovision" (Some 1)) cleared).2 = Ok deletedStatus) as E
    by (vm_compute; reflexivity).
  destruct (reports_understood sample_options (sample_managed "deprovision" (Some 1)) cleared deletedStatus E) as (ks & Hk & _ & Hd & _).
  exists ks. split; [exact Hk|]. apply Hd. discriminate.
Defined.


(** A tick drops the reconciler of a central that is not listed, even while a pass of
    it runs; if the central is listed again, a second pass of it runs beside the first. *)
Definition overlapping : runtime mem :=
  start [] [] 1 sample_item new_cell (tick (Ok [sample_item]) (tick (Ok []) started)).

Example passes_of_a_central_overlap :
  rtc (rstep sample_options) (initial empty_cluster) overlapping /\
  (fun t => mg_Id t.2) <$> rt_running overlapping = ["c1"; "c1"].
Proof.
  split; [|vm_compute; reflexivity]. etransitivity; [exact started_reachable|].
  eapply rtc_l; [exact (rs_tick sample_options (Ok []) started)|].
  eapply rtc_l; [exact (rs_tick sample_options (Ok [sample_item]) _)|].
  apply rtc_once. apply (rs_start sample_options [] [] 1 sample_item new_cell); reflexivity.
Qed.

(** The mapper's errors count as absence: routes are never assumed despite an error. *)
Example routes_not_assumed e : routesAvailable (Err e) = false.
Proof. reflexivity. Qed.
