(* ===== verification/Probe.v ===== *)
(** * The probe (probe/)

    A service that creates a central through the public API of the fleet manager,
    waits until it is ready, checks it and deletes it, over and over.
    pkg/probe/probe.go: one run and its clean-up; pkg/runtime/runtime.go: runs with
    timeouts and metrics; internal/cli/cli.go: interrupts; config/config.go.

    [ProbeEnv] is what the probe uses of its surroundings: contexts and tickers, the
    client of the public API, the HTTP client, random bytes and the clock.
    [select_tick] is the [select] of the retry loops: it waits for the tick or the
    end of the context.  The loops have no bound of their own: a run that is still
    waiting when [fuel] is used up is [Spinning].  Requests and their answers are
    recorded in a log. *)

From S2P Require Import Prelude GoString GoFmt ServiceErrors World Effects.
Local Open Scope string_scope.
Local Open Scope Z_scope.

(** ** Data *)

Record Config := mkConfig {
  pb_AuthType : string; pb_DataCloudProvider : string; pb_DataPlaneRegion : string; pb_RHSSOClientID : string;
  pb_OCMUsername : string; pb_ProbeName : string; pb_ProbeCleanUpTimeout : Z; pb_ProbePollPeriod : Z;
  pb_ProbeRunTimeout : Z; pb_ProbeRunWaitPeriod : Z; pb_ProbeUsername : string
}.

Definition set_pb_ProbeUsername (u : string) (c : Config) : Config :=
  mkConfig (pb_AuthType c) (pb_DataCloudProvider c) (pb_DataPlaneRegion c) (pb_RHSSOClientID c) (pb_OCMUsername c)
    (pb_ProbeName c) (pb_ProbeCleanUpTimeout c) (pb_ProbePollPeriod c) (pb_ProbeRunTimeout c) (pb_ProbeRunWaitPeriod c) u.

(** The errors of the list are joined by the error list of the common library. *)
Definition GetConfig (join : list error -> error) (parsed : result error Config) : result error Config :=
  match parsed with
  | Err err => Err (EWrap "unable to parse runtime configuration from environment" err)
  | Ok c =>
      let '(c, configErrors) :=
        if bool_decide (pb_AuthType c = "RHSSO") then
          (set_pb_ProbeUsername (Sprintf "service-account-%s" [VStr (pb_RHSSOClientID c)]) c,
           if bool_decide (pb_RHSSOClientID c = "") then [ETraced "RHSSO_SERVICE_ACCOUNT_CLIENT_ID unset in the environment"] else [])
        else if bool_decide (pb_AuthType c = "OCM") then
          (set_pb_ProbeUsername (pb_OCMUsername c) c,
           if bool_decide (pb_OCMUsername c = "") then [ETraced "OCM_USERNAME unset in the environment"] else [])
        else (c, [ETraced "AUTH_TYPE not supported"]) in
      match configErrors with
      | [] => Ok c
      | _ => Err (EWrap "unexpected configuration settings" (join configErrors))
      end
  end.

(** The fields of public.CentralRequest that the probe reads. *)
Record Central := mkCentral {
  pcr_Id : string; pcr_Name : string; pcr_Owner : string; pcr_Status : string; pcr_InstanceType : string; pcr_CentralUIURL : string
}.

#[export] Instance Central_eq_dec : EqDecision Central.
Proof. solve_decision. Defined.

Record Payload := mkPayload { pl_Name : string; pl_MultiAz : bool; pl_CloudProvider : string; pl_Region : string }.

(** A response; its body, if there is one, decodes to the code and the reason of an
    error of the API. *)
Record http_reply := mkHttpReply { hr_StatusCode : Z; hr_Body : option (result error (string * string)) }.

Record api_answer (A : Type) := mkApiAnswer { aa_Body : A; aa_Resp : option http_reply; aa_Err : option error }.
Arguments mkApiAnswer {A}.
Arguments aa_Body {A}.
Arguments aa_Resp {A}.
Arguments aa_Err {A}.

Class ProbeEnv (X : Type) := {
  Context : Type;
  Background : Context;
  WithTimeout : Context -> Z -> prog X Context;
  CancelContext : Context -> prog X unit;
  Ticker : Type;
  NewTicker : Z -> prog X Ticker;
  StopTicker : Ticker -> prog X unit;
  select_tick : Context -> Ticker -> prog X (option error);
  time_Now : prog X Z;
  rand_hex : prog X (result error string);
  api_CreateCentral : Context -> bool -> Payload -> prog X (api_answer Central);
  api_DeleteCentralById : Context -> string -> bool -> prog X (api_answer unit);
  api_GetCentralById : Context -> string -> prog X (api_answer Central);
  api_GetCentrals : Context -> prog X (api_answer (list Central));
  NewHeadRequest : Context -> string -> option error;
  http_Do : Context -> string -> prog X (result error http_reply)
}.

(** The requests that were sent, with what they were answered. *)
Inductive sent :=
| SCreate (name : string) (answer : option Central)
| SGet (id : string) (status : option Z) (answer : option Central)
| SDelete (id : string) (accepted : bool)
| SList (answer : option (list Central))
| SHead (url : string) (status : option Z).

#[export] Instance sent_eq_dec : EqDecision sent.
Proof. solve_decision. Defined.

Inductive probe_metric :=
| StartedRuns (region : string) | SucceededRuns (region : string) | FailedRuns (region : string)
| LastStartedTimestamp (region : string) (t : Z) | LastSuccessTimestamp (region : string) (t : Z)
| LastFailureTimestamp (region : string) (t : Z) | TotalDuration (elapsed : Z) (region : string).

Record probe_state (X : Type) := mkProbeState { ps_env : X; ps_sent : list sent; ps_metrics : list probe_metric }.
Arguments mkProbeState {X}.
Arguments ps_env {X}.
Arguments ps_sent {X}.
Arguments ps_metrics {X}.

Inductive halt := Failed (e : error) | Spinning.

(** An error on its way up. *)
Definition failing (f : error -> error) (h : halt) : halt := match h with Failed e => Failed (f e) | Spinning => Spinning end.

Definition Canceled : error := EPlain "context canceled".
Definition DeadlineExceeded : error := EPlain "context deadline exceeded".

(** [errors.Is(err, context.Canceled)]: along the chain of wrapped errors. *)
Fixpoint is_canceled (e : error) : bool :=
  match e with
  | EPlain m => bool_decide (m = "context canceled")
  | EFmtWrap _ inner | EWrap _ inner | EWithStack inner => is_canceled inner
  | _ => false
  end.

Definition extractCentralError (resp : option http_reply) : string :=
  match resp with
  | None => ""
  | Some r =>
      match hr_Body r with
      | None => ""
      | Some (Err _) => "parsing HTTP response"
      | Some (Ok (code, reason)) =>
          Sprintf "request responded with %d: central error %s and reason %s" [VInt (hr_StatusCode r); VStr code; VStr reason]
      end
  end.

Definition STANDARD : string := "standard".
Definition StateReady : string := "ready".
Definition StatusNotFound : Z := 404.

Definition Is2xxStatusCode (code : Z) : bool := (200 <=? code) && (code <? 300).

Section probe.
Context `{ProbeEnv X} (config : Config) (fuel : nat).

Abbreviation task A := (prog (probe_state X) (result halt A)).

Definition env {A} (m : prog X A) : prog (probe_state X) A := fun s =>
  let '(x, a) := m (ps_env s) in (mkProbeState x (ps_sent s) (ps_metrics s), a).
Definition note (e : sent) : prog (probe_state X) unit := fun s =>
  (mkProbeState (ps_env s) (ps_sent s ++ [e])%list (ps_metrics s), tt).
Definition count (m : probe_metric) : prog (probe_state X) unit := fun s =>
  (mkProbeState (ps_env s) (ps_sent s) (ps_metrics s ++ [m])%list, tt).

(** A request and its entry in the log. *)
Definition request {A} (m : prog X (api_answer A)) (entry : api_answer A -> sent) : prog (probe_state X) (api_answer A) :=
  r ← env m;
  _ ← note (entry r);
  mret r.

Definition good {A} (r : api_answer A) : option A := match aa_Err r with None => Some (aa_Body r) | Some _ => None end.
Definition code_of {A} (r : api_answer A) : option Z := hr_StatusCode <$> aa_Resp r.

(** ** Retries *)

Fixpoint retry_loop {A} (n : nat) (ctx : Context) (t : Ticker) (fn : task A) : task A :=
  match n with
  | O => mret (Err Spinning)
  | S n =>
      ev ← env (select_tick ctx t);
      match ev with
      | Some done => mret (Err (Failed (EWrap "retry failed" done)))
      | None =>
          r ← fn;
          match r with
          | Ok a => mret (Ok a)
          | Err Spinning => mret (Err Spinning)
          | Err (Failed _) => retry_loop n ctx t fn
          end
      end
  end.

Definition retryUntilSucceededWithResponse {A} (ctx : Context) (fn : task A) (interval : Z) : task A :=
  t ← env (NewTicker interval);
  r ← retry_loop fuel ctx t fn;
  _ ← env (StopTicker t);
  mret r.

Definition retryUntilSucceeded (ctx : Context) (fn : task unit) (interval : Z) : task unit :=
  retryUntilSucceededWithResponse ctx fn interval.

(** ** One run *)

Definition newCentralName : task string :=
  r ← env rand_hex;
  mret (match r with
        | Err err => Err (Failed (EWrap "reading random bytes for unique central name" err))
        | Ok rndString => Ok (Sprintf "%s-%s" [VStr (pb_ProbeName config); VStr rndString])
        end).

Definition ensureStateFunc (ctx : Context) (id targetState : string) : task Central :=
  r ← request (api_GetCentralById ctx id) (fun r => SGet id (code_of r) (good r));
  mret (match aa_Err r with
        | Some err => Err (Failed (EWrap (Sprintf "central instance %s not reachable" [VStr id])
            (EWrap (extractCentralError (aa_Resp r)) err)))
        | None =>
            if bool_decide (pcr_Status (aa_Body r) = targetState) then Ok (aa_Body r)
            else Err (Failed (ETraced (Sprintf "central instance %s not in target state %q" [VStr id; VStr targetState])))
        end).

Definition ensureCentralState (ctx : Context) (id targetState : string) : task Central :=
  with_err (failing (EWrap "ensure central state failed"))
    (retryUntilSucceededWithResponse ctx (ensureStateFunc ctx id targetState) (pb_ProbePollPeriod config)).

Definition ensureDeletedFunc (ctx : Context) (id : string) : task unit :=
  r ← request (api_GetCentralById ctx id) (fun r => SGet id (code_of r) (good r));
  mret (match aa_Err r with
        | Some err =>
            if bool_decide (code_of r = Some StatusNotFound) then Ok tt
            else Err (Failed (EWrap (Sprintf "central instance %s not reachable" [VStr id])
              (EWrap (extractCentralError (aa_Resp r)) err)))
        | None => Err (Failed (ETraced (Sprintf "central instance %s not deleted" [VStr id])))
        end).

Definition ensureCentralDeleted (ctx : Context) (id : string) : task unit :=
  with_err (failing (EWrap "ensure central deleted failed"))
    (retryUntilSucceeded ctx (ensureDeletedFunc ctx id) (pb_ProbePollPeriod config)).

Definition createCentral (ctx : Context) : task Central :=
  centralName ←? with_err (failing (EWrap "failed to create central name")) newCentralName;
  r ← request (api_CreateCentral ctx true (mkPayload centralName true (pb_DataCloudProvider config) (pb_DataPlaneRegion config)))
        (fun r => SCreate centralName (good r));
  match aa_Err r with
  | Some err => mret (Err (Failed (EWrap "creation of central instance failed" (EWrap (extractCentralError (aa_Resp r)) err))))
  | None =>
      with_err (failing (EWrap (Sprintf "central instance %s did not reach ready state" [VStr (pcr_Id (aa_Body r))])))
        (ensureCentralState ctx (pcr_Id (aa_Body r)) StateReady)
  end.

Definition pingFunc (ctx : Context) (url : string) : task unit :=
  match NewHeadRequest ctx url with
  | Some err => mret (Err (Failed (EWrap "failed to create request" err)))
  | None =>
      r ← env (http_Do ctx url);
      _ ← note (SHead url (match r with Ok h => Some (hr_StatusCode h) | Err _ => None end));
      mret (match r with
            | Err err => Err (Failed (EWrap "URL not reachable" err))
            | Ok response =>
                if negb (Is2xxStatusCode (hr_StatusCode response))
                then Err (Failed (ETraced (Sprintf "URL ping did not succeed: %s" [VStr (extractCentralError (Some response))])))
                else Ok tt
            end)
  end.

Definition pingURL (ctx : Context) (url : string) : task unit :=
  with_err (failing (EWrap "URL ping failed")) (retryUntilSucceeded ctx (pingFunc ctx url) (pb_ProbePollPeriod config)).

Definition verifyCentral (ctx : Context) (central : Central) : task unit :=
  if bool_decide (pcr_InstanceType central <> STANDARD) then
    mret (Err (Failed (ETraced (Sprintf "central has wrong instance type: expected %s, got %s"
      [VStr STANDARD; VStr (pcr_InstanceType central)]))))
  else
    with_err (failing (EWrap (Sprintf "could not reach central UI URL of instance %s" [VStr (pcr_Id central)])))
      (pingURL ctx (pcr_CentralUIURL central)).

Definition deleteCentral (ctx : Context) (central : Central) : task unit :=
  r ← request (api_DeleteCentralById ctx (pcr_Id central) true)
        (fun r => SDelete (pcr_Id central) (bool_decide (aa_Err r = None)));
  match aa_Err r with
  | Some err => mret (Err (Failed (EWrap (Sprintf "deletion of central instance %s failed" [VStr (pcr_Id central)])
      (EWrap (extractCentralError (aa_Resp r)) err))))
  | None =>
      with_err (failing (EWrap (Sprintf "central instance %s with status %s could not be deleted"
          [VStr (pcr_Id central); VStr (pcr_Status central)])))
        (ensureCentralDeleted ctx (pcr_Id central))
  end.

Definition recordElapsedTime (start : Z) : prog (probe_state X) unit :=
  now ← env time_Now;
  count (TotalDuration (now - start) (pb_DataPlaneRegion config)).

Definition Execute (ctx : Context) : task unit :=
  start ← env time_Now;
  r ← (central ←? createCentral ctx;
       _ ←? verifyCentral ctx central;
       deleteCentral ctx central);
  _ ← recordElapsedTime start;
  mret r.

(** ** Clean-up *)

Definition mine (c : Central) : Prop :=
  pcr_Owner c = pb_ProbeUsername config /\ HasPrefix (pcr_Name c) (pb_ProbeName config) = true.

#[export] Instance mine_dec c : Decision (mine c).
Proof. unfold mine. apply _. Defined.

(** Whether all deletions succeeded. *)
Fixpoint delete_mine (ctx : Context) (items : list Central) (success : bool) : task bool :=
  match items with
  | [] => mret (Ok success)
  | c :: items =>
      if decide (mine c) then
        r ← deleteCentral ctx c;
        match r with
        | Ok _ => delete_mine ctx items success
        | Err (Failed _) => delete_mine ctx items false
        | Err Spinning => mret (Err Spinning)
        end
      else delete_mine ctx items success
  end.

Definition cleanupFunc (ctx : Context) : task unit :=
  r ← request (api_GetCentrals ctx) (fun r => SList (good r));
  match aa_Err r with
  | Some err => mret (Err (Failed (EWrap "could not list centrals" (EWrap (extractCentralError (aa_Resp r)) err))))
  | None =>
      success ←? delete_mine ctx (aa_Body r) true;
      mret (if success : bool then Ok tt else Err (Failed (ETraced "central clean up not successful")))
  end.

Definition CleanUp (ctx : Context) : task unit :=
  with_err (failing (EWrap "cleanup centrals failed")) (retryUntilSucceeded ctx (cleanupFunc ctx) (pb_ProbePollPeriod config)).

(** ** Runs *)

Definition errCleanupFailed : string := "cleanup failed".

(** The error that is returned after the clean-up, which has a context of its own. *)
Definition after_cleanup (run cleanup : result halt unit) : result halt unit :=
  match cleanup with
  | Ok _ => run
  | Err Spinning => Err Spinning
  | Err (Failed err) =>
      match run with
      | Err (Failed e) => Err (Failed (EWrap (Sprintf "%s: %s" [VStr errCleanupFailed; VStr (Error err)]) e))
      | Err Spinning => Err Spinning
      | Ok _ => Err (Failed (EWrap errCleanupFailed err))
      end
  end.

Definition RunSingle (ctx : Context) : task unit :=
  let region := pb_DataPlaneRegion config in
  _ ← count (StartedRuns region);
  now ← env time_Now;
  _ ← count (LastStartedTimestamp region now);
  probeRunCtx ← env (WithTimeout ctx (pb_ProbeRunTimeout config));
  r ← Execute probeRunCtx;
  match r with
  | Err Spinning => mret (Err Spinning)
  | _ =>
      _ ← count (match r with Ok _ => SucceededRuns region | Err _ => FailedRuns region end);
      now ← env time_Now;
      _ ← count (match r with Ok _ => LastSuccessTimestamp region now | Err _ => LastFailureTimestamp region now end);
      let errReturn := match r with Err h => Err (failing (EWrap "probe run failed") h) | Ok _ => Ok tt end in
      cleanupCtx ← env (WithTimeout Background (pb_ProbeCleanUpTimeout config));
      rc ← CleanUp cleanupCtx;
      _ ← env (CancelContext cleanupCtx);
      _ ← env (CancelContext probeRunCtx);
      mret (after_cleanup errReturn rc)
  end.

Fixpoint run_loop (n : nat) (ctx : Context) (t : Ticker) : task unit :=
  match n with
  | O => mret (Err Spinning)
  | S n =>
      ev ← env (select_tick ctx t);
      match ev with
      | Some done => mret (Err (Failed (EWrap "probe context invalid" done)))
      | None =>
          r ← RunSingle ctx;
          match r with Err Spinning => mret (Err Spinning) | _ => run_loop n ctx t end
      end
  end.

Definition RunLoop (ctx : Context) : task unit :=
  t ← env (NewTicker (pb_ProbeRunWaitPeriod config));
  r ← run_loop fuel ctx t;
  _ ← env (StopTicker t);
  mret r.

(** ** The command line *)

Definition errInterruptSignal : error := ETraced "received interrupt signal".

(** [ctx]: the context that the signal cancels. *)
Definition handleInterrupt (runFunc : Context -> task unit) (ctx : Context) : task unit :=
  r ← runFunc ctx;
  _ ← env (CancelContext ctx);
  mret (match r with
        | Err (Failed err) => if is_canceled err then Err (Failed errInterruptSignal) else r
        | _ => r
        end).
End probe.
