(* ===== verification/ProbeProps.v ===== *)
(** * What the probe promises

    The probe deletes nothing but its own centrals; a run that reports success has
    seen a central through its whole life; and runs end, if the contexts do. *)

From S2P Require Import Prelude GoString GoFmt ServiceErrors World Effects Probe.
Local Open Scope string_scope.
Local Open Scope Z_scope.

(** The API answers a request for a central with the central of that identifier. *)
Class ApiLaws (X : Type) `{ProbeEnv X} := {
  get_answers_id ctx id x : aa_Err (api_GetCentralById ctx id x).2 = None -> pcr_Id (aa_Body (api_GetCentralById ctx id x).2) = id
}.

Section log.
Context `{ProbeEnv X} (config : Config) (fuel : nat).

(** ** The log grows *)

Definition grows (s s' : probe_state X) : Prop := ps_sent s `prefix_of` ps_sent s'.

#[export] Instance grows_preorder : PreOrder grows.
Proof. unfold grows. split; intros ?; [done|]. intros ? ?. apply transitivity. Qed.

Lemma env_sent {A} (m : prog X A) s : ps_sent (env m s).1 = ps_sent s.
Proof. unfold env. by destruct (m (ps_env s)). Qed.

Lemma env_metrics {A} (m : prog X A) s : ps_metrics (env m s).1 = ps_metrics s.
Proof. unfold env. by destruct (m (ps_env s)). Qed.

Lemma env_answer {A} (m : prog X A) s : (env m s).2 = (m (ps_env s)).2.
Proof. unfold env. by destruct (m (ps_env s)). Qed.

Lemma request_run {A} (m : prog X (api_answer A)) entry s :
  (request m entry s).2 = (m (ps_env s)).2 /\ ps_sent (request m entry s).1 = (ps_sent s ++ [entry (m (ps_env s)).2])%list.
Proof. unfold request. rewrite !prog_bind_run, env_answer. simpl. by rewrite env_sent. Qed.

(** ** Retries

    [fn] is tried in states that satisfy [P], which growing keeps, and respects [R]. *)
Lemma retry_loop_rel {A} (P : probe_state X -> Prop) (R : relation (probe_state X)) `{!PreOrder R} n ctx t (fn : prog (probe_state X) (result halt A)) s :
  (forall v w, R v w -> P v -> P w) -> (forall B (m : prog X B) v, R v (env m v).1) ->
  (forall v, P v -> R v (fn v).1) -> P s -> R s (retry_loop n ctx t fn s).1.
Proof.
  intros HP Henv Hfn. revert s. induction n as [|n IH]; intros s Hs; [reflexivity|]. simpl. rewrite prog_bind_run.
  set (s1 := (env _ s).1). assert (R s s1) as Hs1 by apply Henv. assert (P s1) as Ps1 by eauto.
  destruct ((env _ s).2); [done|]. rewrite prog_bind_run. assert (R s (fn s1).1) as Hf by (etransitivity; [exact Hs1|by apply Hfn]).
  destruct ((fn s1).2) as [a|[e|]]; [done| |done]. etransitivity; [exact Hf|]. apply IH. eauto.
Qed.

Lemma retry_rel {A} (P : probe_state X -> Prop) (R : relation (probe_state X)) `{!PreOrder R} ctx (fn : prog (probe_state X) (result halt A)) i s :
  (forall v w, R v w -> P v -> P w) -> (forall B (m : prog X B) v, R v (env m v).1) ->
  (forall v, P v -> R v (fn v).1) -> P s -> R s (retryUntilSucceededWithResponse fuel ctx fn i s).1.
Proof.
  intros HP Henv Hfn Hs. unfold retryUntilSucceededWithResponse. rewrite !prog_bind_run. set (s1 := (env _ s).1).
  assert (R s s1) as Hs1 by apply Henv. etransitivity; [exact Hs1|].
  transitivity (retry_loop fuel ctx (env (NewTicker i) s).2 fn s1).1; [apply (retry_loop_rel P R); eauto|apply Henv].
Qed.

(** A successful retry ends with a successful try. *)
Lemma retry_loop_ok {A} n ctx t (fn : prog (probe_state X) (result halt A)) s a :
  (forall v, grows v (fn v).1) -> (retry_loop n ctx t fn s).2 = Ok a ->
  exists v, grows s v /\ (fn v).2 = Ok a /\ (retry_loop n ctx t fn s).1 = (fn v).1.
Proof.
  intros Hfn. revert s. induction n as [|n IH]; intros s; simpl; [done|]. rewrite !prog_bind_run.
  set (s1 := (env _ s).1). assert (grows s s1) as Hs1 by (unfold grows, s1; by rewrite env_sent).
  destruct ((env _ s).2); [done|]. rewrite prog_bind_run. destruct ((fn s1).2) as [b|[e|]] eqn:Ef; [| |done].
  - intros [= ->]. exists s1. by rewrite Ef.
  - intros Hr. destruct (IH _ Hr) as (v & Hg & Hv & Heq). exists v. split_and!; [|done|done].
    etransitivity; [exact Hs1|]. etransitivity; [apply Hfn|done].
Qed.

Lemma retry_ok {A} ctx (fn : prog (probe_state X) (result halt A)) i s a :
  (forall v, grows v (fn v).1) -> (retryUntilSucceededWithResponse fuel ctx fn i s).2 = Ok a ->
  exists v, grows s v /\ (fn v).2 = Ok a /\ ps_sent (retryUntilSucceededWithResponse fuel ctx fn i s).1 = ps_sent (fn v).1.
Proof.
  intros Hfn. unfold retryUntilSucceededWithResponse. rewrite !prog_bind_run. set (s1 := (env _ s).1). cbn [fst snd mret prog_ret].
  intros Hr. destruct (retry_loop_ok fuel ctx _ fn s1 a Hfn Hr) as (v & Hg & Hv & Heq). exists v. split_and!; [|done|].
  - etransitivity; [|exact Hg]. unfold grows, s1. by rewrite env_sent.
  - rewrite env_sent, Heq. done.
Qed.

(** ** Only its own centrals *)

Definition owned (log : list sent) (id : string) : Prop :=
  (exists name c, SCreate name (Some c) ∈ log /\ pcr_Id c = id) \/
  (exists l c, SList (Some l) ∈ log /\ c ∈ l /\ (pcr_Owner c = pb_ProbeUsername config /\ HasPrefix (pcr_Name c) (pb_ProbeName config) = true) /\ pcr_Id c = id).

Lemma owned_grows log log' id : log `prefix_of` log' -> owned log id -> owned log' id.
Proof.
  intros [k ->] [(name & c & Hc & Hid)|(l & c & Hl & Hc & Hm & Hid)]; [left; exists name, c|right; exists l, c];
    rewrite elem_of_app; auto.
Qed.

(** Every deletion that was requested is of such a central. *)
Definition careful (log : list sent) : Prop :=
  forall log1 id b log2, log = (log1 ++ SDelete id b :: log2)%list -> owned log1 id.

Lemma careful_snoc log e :
  careful log -> (forall id b, e = SDelete id b -> owned log id) -> careful (log ++ [e])%list.
Proof.
  intros Hlog He log1 id b log2 E. destruct log2 as [|y log2 _] using rev_ind.
  - apply app_inj_tail in E as [-> ->]. by apply (He id b).
  - rewrite app_comm_cons, app_assoc in E. apply app_inj_tail in E as [-> _]. by apply (Hlog log1 id b log2).
Qed.

(** A step that keeps to it. *)
Definition careful_step (s s' : probe_state X) : Prop := grows s s' /\ (careful (ps_sent s) -> careful (ps_sent s')).

#[export] Instance careful_step_preorder : PreOrder careful_step.
Proof.
  split; [by split|]. intros s1 s2 s3 [G12 C12] [G23 C23]. split; [by etransitivity|auto].
Qed.

Lemma careful_env {A} (m : prog X A) s : careful_step s (env m s).1.
Proof. unfold careful_step, grows. by rewrite env_sent. Qed.

Lemma careful_count m s : careful_step s (count m s).1.
Proof. split; [|done]. unfold grows. simpl. reflexivity. Qed.

Lemma careful_request {A} (m : prog X (api_answer A)) entry s :
  (forall r id b, entry r = SDelete id b -> owned (ps_sent s) id) -> careful_step s (request m entry s).1.
Proof.
  intros He. destruct (request_run m entry s) as [_ Hr]. unfold careful_step, grows. rewrite Hr.
  split; [by apply prefix_app_r|]. intros Hc. apply careful_snoc; [done|]. intros id b. apply He.
Qed.

Lemma careful_retry {A} ctx (fn : prog (probe_state X) (result halt A)) i log s :
  (forall v, log `prefix_of` ps_sent v -> careful_step v (fn v).1) -> log `prefix_of` ps_sent s ->
  careful_step s (retryUntilSucceededWithResponse fuel ctx fn i s).1.
Proof.
  intros Hfn Hs. apply (retry_rel (fun v => log `prefix_of` ps_sent v) careful_step); [|apply @careful_env|done|done].
  intros v w [Hg _] Hv. by etransitivity.
Qed.

Lemma careful_get ctx id entry s :
  (forall r i b, entry r <> SDelete i b) -> careful_step s (request (api_GetCentralById ctx id) entry s).1.
Proof. intros He. apply careful_request. intros r i b E. by apply He in E. Qed.

Lemma careful_ensureState ctx id st s : careful_step s (ensureCentralState config fuel ctx id st s).1.
Proof.
  unfold ensureCentralState, with_err. rewrite prog_bind_run. apply (careful_retry _ _ _ []); [|apply prefix_nil].
  intros v _. unfold ensureStateFunc. rewrite prog_bind_run. by apply careful_get.
Qed.

Lemma careful_deleteCentral ctx c s : owned (ps_sent s) (pcr_Id c) -> careful_step s (deleteCentral config fuel ctx c s).1.
Proof.
  intros Ho. unfold deleteCentral. rewrite prog_bind_run.
  match goal with |- context [request ?m ?e s] => set (req := request m e s); assert (careful_step s req.1) as Hd end.
  { apply careful_request. by intros r id b [= <- _]. }
  destruct (aa_Err req.2); [done|]. etransitivity; [exact Hd|]. unfold with_err. rewrite prog_bind_run.
  unfold ensureCentralDeleted, with_err. rewrite prog_bind_run. apply (careful_retry _ _ _ []); [|apply prefix_nil].
  intros v _. unfold ensureDeletedFunc. rewrite prog_bind_run. by apply careful_get.
Qed.

Lemma careful_delete_mine ctx items b s :
  (forall c, c ∈ items -> mine config c -> owned (ps_sent s) (pcr_Id c)) ->
  careful_step s (delete_mine config fuel ctx items b s).1.
Proof.
  revert b s. induction items as [|c items IH]; intros b s Ho; [done|]. simpl. destruct (decide (mine config c)) as [Hm|].
  2:{ apply IH. intros d Hd. apply Ho. by right. }
  rewrite prog_bind_run. assert (careful_step s (deleteCentral config fuel ctx c s).1) as Hd.
  { apply careful_deleteCentral, Ho; [by left|done]. }
  assert (forall b, careful_step (deleteCentral config fuel ctx c s).1 (delete_mine config fuel ctx items b (deleteCentral config fuel ctx c s).1).1) as Hrest.
  { intros b'. apply IH. intros d Hin Hmd. eapply owned_grows; [apply Hd|]. apply Ho; [by right|done]. }
  destruct ((deleteCentral config fuel ctx c s).2) as [[]|[e|]]; [| |done]; (etransitivity; [exact Hd|apply Hrest]).
Qed.

Lemma careful_CleanUp ctx s : careful_step s (CleanUp config fuel ctx s).1.
Proof.
  unfold CleanUp, with_err. rewrite prog_bind_run. apply (careful_retry _ _ _ []); [|apply prefix_nil]. intros v _.
  unfold cleanupFunc. rewrite prog_bind_run. destruct (request_run (api_GetCentrals ctx) (fun r => SList (good r)) v) as [Hr Hl].
  assert (careful_step v (request (api_GetCentrals ctx) (fun r => SList (good r)) v).1) as Hv by by apply careful_request.
  set (req := request _ _ v) in *. destruct (aa_Err req.2) eqn:Ee; [done|]. etransitivity; [exact Hv|].
  unfold try_bind. rewrite prog_bind_run. set (run := delete_mine _ _ _ _ _ _).
  assert (careful_step req.1 run.1) as Hrun; [|by destruct (run.2)].
  apply careful_delete_mine. intros c Hc Hm. right. exists (aa_Body req.2), c. split; [|done].
  rewrite Hl, <- Hr. unfold good. rewrite Ee. apply elem_of_app. right. by left.
Qed.

(** ** What success means *)

Lemma grows_get ctx id entry s : grows s (request (api_GetCentralById ctx id) entry s).1.
Proof. unfold grows. destruct (request_run (api_GetCentralById ctx id) entry s) as [_ ->]. by apply prefix_app_r. Qed.

Lemma ensureStateFunc_ok ctx id st s c :
  (ensureStateFunc ctx id st s).2 = Ok c ->
  pcr_Status c = st /\ exists code, ps_sent (ensureStateFunc ctx id st s).1 = (ps_sent s ++ [SGet id code (Some c)])%list /\
    (ApiLaws X -> pcr_Id c = id).
Proof.
  unfold ensureStateFunc. rewrite !prog_bind_run.
  destruct (request_run (api_GetCentralById ctx id) (fun r => SGet id (code_of r) (good r)) s) as [Hr Hl].
  set (req := request _ _ s) in *. cbn [fst snd mret prog_ret]. destruct (aa_Err req.2) eqn:Ee; [done|]. case_bool_decide as Hst; [|done].
  intros [= <-]. split; [done|]. exists (code_of req.2). split.
  - rewrite Hl, <- Hr. unfold good. by rewrite Ee.
  - intros Hlaws. rewrite Hr in *. by apply get_answers_id.
Qed.

Lemma ensureCentralState_ok ctx id st s c :
  (ensureCentralState config fuel ctx id st s).2 = Ok c ->
  pcr_Status c = st /\ exists mid code, ps_sent (ensureCentralState config fuel ctx id st s).1 = (ps_sent s ++ mid ++ [SGet id code (Some c)])%list /\
    (ApiLaws X -> pcr_Id c = id).
Proof.
  unfold ensureCentralState, with_err. rewrite !prog_bind_run. cbn [fst snd mret prog_ret].
  destruct ((retryUntilSucceededWithResponse _ _ _ _ s).2) as [a|] eqn:Er; [|done]. intros [= ->].
  apply retry_ok in Er as (v & [mid Hg] & Hv & Hl).
  2:{ intros v. unfold ensureStateFunc. rewrite prog_bind_run. apply grows_get. }
  destruct (ensureStateFunc_ok ctx id st v c Hv) as (Hst & code & Hlog & Hid). split; [done|]. exists mid, code.
  split; [|done]. by rewrite Hl, Hlog, Hg, app_assoc.
Qed.

Lemma createCentral_ok ctx s c :
  (createCentral config fuel ctx s).2 = Ok c ->
  exists rnd new mid code,
    ps_sent (createCentral config fuel ctx s).1 =
      (ps_sent s ++ [SCreate (pb_ProbeName config +:+ "-" +:+ rnd) (Some new)] ++ mid ++ [SGet (pcr_Id new) code (Some c)])%list /\
    pcr_Status c = StateReady /\ (ApiLaws X -> pcr_Id c = pcr_Id new).
Proof.
  unfold createCentral, newCentralName, try_bind, with_err. rewrite !prog_bind_run. cbn [fst snd mret prog_ret]. rewrite env_answer.
  destruct ((rand_hex (ps_env s)).2) as [rnd|]; [|done]. rewrite !prog_bind_run. set (s1 := (env rand_hex s).1).
  set (name := Sprintf _ _). assert (name = pb_ProbeName config +:+ "-" +:+ rnd) as Hname.
  { transitivity (pb_ProbeName config +:+ ("-" +:+ (rnd +:+ ""))); [reflexivity|]. by rewrite string_append_nil_r. }
  match goal with |- context [request ?m ?e s1] => destruct (request_run m e s1) as [Hr Hl]; set (req := request m e s1) in * end.
  destruct (aa_Err req.2) eqn:Ee; [done|]. rewrite prog_bind_run. cbn [fst snd mret prog_ret].
  destruct ((ensureCentralState _ _ _ _ _ req.1).2) as [a|] eqn:Es; [|done]. intros [= ->].
  apply ensureCentralState_ok in Es as (Hst & mid & code & Hlog & Hid). exists rnd, (aa_Body req.2), mid, code.
  split_and!; [|done|done]. rewrite Hlog, Hl, <- Hr, <- Hname. unfold good. rewrite Ee. unfold s1. rewrite env_sent. by rewrite <- !app_assoc.
Qed.

Lemma pingURL_ok ctx url s :
  (pingURL config fuel ctx url s).2 = Ok tt ->
  exists mid code, ps_sent (pingURL config fuel ctx url s).1 = (ps_sent s ++ mid ++ [SHead url (Some code)])%list /\ Is2xxStatusCode code = true.
Proof.
  unfold pingURL, with_err. rewrite !prog_bind_run. cbn [fst snd mret prog_ret].
  destruct ((retryUntilSucceeded _ _ _ _ s).2) as [[]|] eqn:Er; [|done]. intros _.
  assert (forall v, ps_sent (pingFunc ctx url v).1 = ps_sent v \/
    exists e, ps_sent (pingFunc ctx url v).1 = (ps_sent v ++ [e])%list) as Hp.
  { intros v. unfold pingFunc. destruct (NewHeadRequest ctx url); [by left|right]. eexists. rewrite !prog_bind_run. simpl.
    by rewrite env_sent. }
  apply retry_ok in Er as (v & [mid Hg] & Hv & Hl).
  2:{ intros v. unfold grows. destruct (Hp v) as [->|[h ->]]; [done|by apply prefix_app_r]. }
  unfold retryUntilSucceeded. rewrite Hl. unfold pingFunc in *. destruct (NewHeadRequest ctx url); [done|].
  rewrite !prog_bind_run in *. cbn [fst snd mret prog_ret note ps_sent] in *. rewrite env_answer in *. rewrite env_sent.
  destruct ((http_Do ctx url (ps_env v)).2) as [h|]; [|done]. destruct (Is2xxStatusCode (hr_StatusCode h)) eqn:E2; [|done].
  exists mid, (hr_StatusCode h). split; [|done]. by rewrite Hg, app_assoc.
Qed.

Lemma deleteCentral_ok ctx c s :
  (deleteCentral config fuel ctx c s).2 = Ok tt ->
  exists mid, ps_sent (deleteCentral config fuel ctx c s).1 =
    (ps_sent s ++ [SDelete (pcr_Id c) true] ++ mid ++ [SGet (pcr_Id c) (Some StatusNotFound) None])%list.
Proof.
  unfold deleteCentral. rewrite !prog_bind_run.
  match goal with |- context [request ?m ?e s] => destruct (request_run m e s) as [Hr Hl]; set (req := request m e s) in * end.
  destruct (aa_Err req.2) eqn:Ee; [done|]. unfold with_err. rewrite !prog_bind_run. cbn [fst snd mret prog_ret].
  unfold ensureCentralDeleted, with_err. rewrite !prog_bind_run. cbn [fst snd mret prog_ret].
  destruct ((retryUntilSucceeded _ _ _ _ req.1).2) as [[]|] eqn:Er; [|done]. intros _.
  apply retry_ok in Er as (v & [mid Hg] & Hv & Hlog).
  2:{ intros v. unfold ensureDeletedFunc. rewrite prog_bind_run. apply grows_get. }
  exists mid. unfold retryUntilSucceeded. rewrite Hlog. unfold ensureDeletedFunc in *. rewrite !prog_bind_run in *.
  destruct (request_run (api_GetCentralById ctx (pcr_Id c)) (fun r => SGet (pcr_Id c) (code_of r) (good r)) v) as [Hr2 Hl2].
  set (req2 := request _ _ v) in *. cbn [fst snd mret prog_ret] in *. destruct (aa_Err req2.2) eqn:Ee2; [|done].
  case_bool_decide as Hcode; [|done]. rewrite Hl2, <- Hr2, Hcode, Hg, Hl. unfold good. rewrite Ee2, <- Hr, bool_decide_eq_true_2 by done.
  by rewrite <- !app_assoc.
Qed.

(** A run of the probe that reports success has seen a central through its life:
    it created one with a name of its own, read it back ready and of the standard
    type, reached its URL, had its deletion accepted, and in the end was told that
    it does not exist, in this order. *)
Theorem Execute_success `{!ApiLaws X} ctx s :
  (Execute config fuel ctx s).2 = Ok tt ->
  exists rnd new central code l1 l2 ping l3,
    ps_sent (Execute config fuel ctx s).1 =
      (ps_sent s ++ [SCreate (pb_ProbeName config +:+ "-" +:+ rnd) (Some new)] ++
       l1 ++ [SGet (pcr_Id new) code (Some central)] ++
       l2 ++ [SHead (pcr_CentralUIURL central) (Some ping)] ++
       [SDelete (pcr_Id new) true] ++ l3 ++ [SGet (pcr_Id new) (Some StatusNotFound) None])%list /\
    pcr_Status central = StateReady /\ pcr_InstanceType central = STANDARD /\ Is2xxStatusCode ping = true.
Proof.
  unfold Execute. rewrite !prog_bind_run. unfold recordElapsedTime. rewrite !prog_bind_run. cbn [fst snd mret prog_ret count ps_sent].
  rewrite env_sent. set (s1 := (env time_Now s).1). assert (ps_sent s1 = ps_sent s) as Hs1 by apply env_sent.
  unfold try_bind. rewrite !prog_bind_run. destruct ((createCentral config fuel ctx s1).2) as [central|] eqn:Ec; [|done].
  apply createCentral_ok in Ec as (rnd & new & l1 & code & Hl1 & Hst & Hid). specialize (Hid _).
  set (s2 := (createCentral config fuel ctx s1).1) in *. rewrite !prog_bind_run.
  destruct ((verifyCentral config fuel ctx central s2).2) as [[]|] eqn:Ev; [|done]. unfold verifyCentral in *.
  case_bool_decide as Hty; [done|]. unfold with_err in *. rewrite !prog_bind_run in *. cbn [fst snd mret prog_ret] in *.
  destruct ((pingURL config fuel ctx _ s2).2) as [[]|] eqn:Ep; [|done]. apply pingURL_ok in Ep as (l2 & ping & Hl2 & H2).
  set (s3 := (pingURL config fuel ctx _ s2).1) in *. intros Hd. apply deleteCentral_ok in Hd as [l3 Hl3].
  exists rnd, new, central, code, l1, l2, ping, l3. split_and!; [|done..].
  rewrite Hl3, Hl2, Hl1, Hs1, Hid. by rewrite <- !app_assoc.
Qed.

Lemma careful_createCentral ctx s : careful_step s (createCentral config fuel ctx s).1.
Proof.
  unfold createCentral, newCentralName, try_bind, with_err. rewrite !prog_bind_run. set (s1 := (env rand_hex s).1).
  assert (careful_step s s1) as H1 by apply careful_env. cbn [fst snd mret prog_ret].
  destruct ((env rand_hex s).2) as [rnd|]; [|done]. rewrite !prog_bind_run.
  match goal with |- context [request ?m ?e s1] => assert (careful_step s (request m e s1).1) as H2 end.
  { etransitivity; [exact H1|]. by apply careful_request. }
  destruct (aa_Err _); [done|]. etransitivity; [exact H2|]. rewrite prog_bind_run. apply careful_ensureState.
Qed.

Lemma careful_head ctx url : preserves careful_step (r ← env (http_Do ctx url); note (SHead url (match r with Ok h => Some (hr_StatusCode h) | Err _ => None end))).
Proof.
  intros s. rewrite prog_bind_run. etransitivity; [apply (careful_env (http_Do ctx url))|]. unfold careful_step, grows. simpl.
  split; [by apply prefix_app_r|]. intros Hc. by apply careful_snoc.
Qed.

Lemma careful_verifyCentral ctx c s : careful_step s (verifyCentral config fuel ctx c s).1.
Proof.
  unfold verifyCentral. case_bool_decide; [done|]. unfold with_err. rewrite prog_bind_run. unfold pingURL, with_err. rewrite prog_bind_run.
  apply (careful_retry _ _ _ []); [|apply prefix_nil]. intros v _. unfold pingFunc. destruct (NewHeadRequest _ _); [done|].
  pose proof (careful_head ctx (pcr_CentralUIURL c) v) as Hh. rewrite !prog_bind_run in *. exact Hh.
Qed.

Lemma careful_Execute `{!ApiLaws X} ctx s : careful_step s (Execute config fuel ctx s).1.
Proof.
  unfold Execute, recordElapsedTime. rewrite !prog_bind_run. cbn [fst snd mret prog_ret]. set (s1 := (env time_Now s).1).
  etransitivity; [apply (careful_env time_Now)|]. fold s1.
  etransitivity; [|etransitivity; [apply (careful_env time_Now)|apply careful_count]].
  unfold try_bind. rewrite !prog_bind_run. pose proof (careful_createCentral ctx s1) as H2.
  destruct ((createCentral config fuel ctx s1).2) as [central|] eqn:Ec; [|done].
  apply createCentral_ok in Ec as (rnd & new & l1 & code & Hl1 & _ & Hid). specialize (Hid _).
  set (s2 := (createCentral config fuel ctx s1).1) in *. etransitivity; [exact H2|]. rewrite !prog_bind_run.
  pose proof (careful_verifyCentral ctx central s2) as H3. set (s3 := (verifyCentral config fuel ctx central s2).1) in *.
  destruct ((verifyCentral config fuel ctx central s2).2); [|done]. etransitivity; [exact H3|]. apply careful_deleteCentral.
  left. exists (pb_ProbeName config +:+ "-" +:+ rnd), new. split; [|by symmetry].
  apply (elem_of_prefix (ps_sent s2)); [|apply H3]. rewrite Hl1. apply elem_of_app. right. by left.
Qed.

Lemma careful_RunSingle `{!ApiLaws X} ctx : preserves careful_step (RunSingle config fuel ctx).
Proof.
  assert (forall A (m : prog X A), preserves careful_step (env m)) as H1 by (intros A m s; apply careful_env).
  assert (forall m, preserves careful_step (count m)) as H2 by (intros m s; apply careful_count).
  assert (forall c, preserves careful_step (Execute config fuel c)) as H3 by (intros c s; apply careful_Execute).
  assert (forall c, preserves careful_step (CleanUp config fuel c)) as H4 by (intros c s; apply careful_CleanUp).
  unfold RunSingle. err_tac.
Qed.

Lemma careful_run_loop `{!ApiLaws X} n ctx t s : careful_step s (run_loop config fuel n ctx t s).1.
Proof.
  revert s. induction n as [|n IH]; intros s; [done|]. simpl. rewrite prog_bind_run. etransitivity; [apply (careful_env (select_tick ctx t))|].
  destruct ((env (select_tick ctx t) s).2); [done|]. rewrite prog_bind_run. etransitivity; [apply careful_RunSingle|].
  destruct ((RunSingle config fuel ctx _).2) as [|[|]]; [apply IH|apply IH|done].
Qed.

(** C32. Whatever the API answers and whenever it is stopped, the probe requests the
    deletion of no central but those it created and those that were listed to it as
    owned by its own account under a name that starts with the name of the probe. *)
Theorem RunLoop_deletes_own `{!ApiLaws X} ctx s :
  careful (ps_sent s) -> careful (ps_sent (RunLoop config fuel ctx s).1).
Proof.
  unfold RunLoop. rewrite !prog_bind_run. cbn [fst mret prog_ret]. rewrite env_sent. intros Hs. apply careful_run_loop. by rewrite env_sent.
Qed.
End log.

(** ** Runs end

    [patience]: how many more ticks a [select] on a context may answer before it
    answers that the context is done.  A context with a timeout has a bound on them,
    a tick uses one up, and requests add none. *)
Class Patience (X : Type) `{ProbeEnv X} := {
  patience : Context -> X -> nat;
  patience_tick ctx t x : (select_tick ctx t x).2 = None -> (patience ctx (select_tick ctx t x).1 < patience ctx x)%nat;
  patience_done ctx t x : (patience ctx (select_tick ctx t x).1 <= patience ctx x)%nat;
  patience_ticker ctx i x : (patience ctx (NewTicker i x).1 <= patience ctx x)%nat;
  patience_stop ctx t x : (patience ctx (StopTicker t x).1 <= patience ctx x)%nat;
  patience_now ctx x : (patience ctx (time_Now x).1 <= patience ctx x)%nat;
  patience_rand ctx x : (patience ctx (rand_hex x).1 <= patience ctx x)%nat;
  patience_create ctx b p x : (patience ctx (api_CreateCentral ctx b p x).1 <= patience ctx x)%nat;
  patience_delete ctx id b x : (patience ctx (api_DeleteCentralById ctx id b x).1 <= patience ctx x)%nat;
  patience_get ctx id x : (patience ctx (api_GetCentralById ctx id x).1 <= patience ctx x)%nat;
  patience_list ctx x : (patience ctx (api_GetCentrals ctx x).1 <= patience ctx x)%nat;
  patience_head ctx url x : (patience ctx (http_Do ctx url x).1 <= patience ctx x)%nat
}.

Section ends.
Context `{Patience X} (config : Config) (fuel : nat) (ctx : Context).

Definition calmer (s s' : probe_state X) : Prop := (patience ctx (ps_env s') <= patience ctx (ps_env s))%nat.

#[local] Instance calmer_preorder : PreOrder calmer.
Proof. unfold calmer. split; intros ?; [done|]. intros ? ?. lia. Qed.

Lemma calmer_env {A} (m : prog X A) : (forall x, (patience ctx (m x).1 <= patience ctx x)%nat) -> preserves calmer (env m).
Proof. intros Hm s. unfold calmer, env. specialize (Hm (ps_env s)). by destruct (m (ps_env s)). Qed.

Lemma calmer_note e : preserves calmer (note e).
Proof. intros s. unfold calmer. done. Qed.

Lemma calmer_request {A} (m : prog X (api_answer A)) entry :
  (forall x, (patience ctx (m x).1 <= patience ctx x)%nat) -> preserves calmer (request m entry).
Proof. intros Hm. pose proof (calmer_env m Hm). pose proof calmer_note. unfold request. preserves_tac. Qed.

Lemma calmer_retry {A} (fn : prog (probe_state X) (result halt A)) i :
  preserves calmer fn -> preserves calmer (retryUntilSucceededWithResponse fuel ctx fn i).
Proof.
  intros Hfn. pose proof (fun t => calmer_env _ (patience_done ctx t)) as Hd.
  assert (forall n t, preserves calmer (retry_loop n ctx t fn)) as Hl.
  { induction n as [|n IH]; intros t; simpl; preserves_tac. }
  pose proof (calmer_env _ (patience_ticker ctx i)). pose proof (fun t => calmer_env _ (patience_stop ctx t)).
  unfold retryUntilSucceededWithResponse. preserves_tac.
Qed.

(** A loop with enough fuel ends, if its tries do. *)
Lemma retry_loop_ends {A} n t (fn : prog (probe_state X) (result halt A)) s :
  (patience ctx (ps_env s) < n)%nat -> preserves calmer fn ->
  (forall v, calmer s v -> (fn v).2 <> Err Spinning) -> (retry_loop n ctx t fn s).2 <> Err Spinning.
Proof.
  revert s. induction n as [|n IH]; intros s Hn Hc Hf; [lia|]. simpl. rewrite prog_bind_run, env_answer.
  assert (calmer s (env (select_tick ctx t) s).1) as H1 by (apply calmer_env, patience_done).
  destruct ((select_tick ctx t (ps_env s)).2) eqn:Et; [done|]. set (s1 := (env (select_tick ctx t) s).1) in *.
  assert (patience ctx (ps_env s1) < patience ctx (ps_env s))%nat as Hlt.
  { apply patience_tick in Et. unfold s1, env. by destruct (select_tick ctx t (ps_env s)). }
  rewrite prog_bind_run. pose proof (Hf s1 H1) as Hs1. pose proof (Hc s1) as H2. destruct ((fn s1).2) as [a|[e|]]; [done| |done].
  apply IH; [unfold calmer in H2; lia|done|]. intros v Hv. apply Hf. etransitivity; [exact H1|]. by etransitivity.
Qed.

(** A task that ends from every state with as much patience at most. *)
Definition ends {A} (m : prog (probe_state X) (result halt A)) : Prop :=
  forall s, (patience ctx (ps_env s) < fuel)%nat -> (m s).2 <> Err Spinning.

Lemma ends_retry {A} (fn : prog (probe_state X) (result halt A)) i :
  preserves calmer fn -> ends fn -> ends (retryUntilSucceededWithResponse fuel ctx fn i).
Proof.
  intros Hc Hf s Hs. unfold retryUntilSucceededWithResponse. rewrite !prog_bind_run. cbn [fst snd mret prog_ret].
  pose proof (calmer_env _ (patience_ticker ctx i) s) as H1. unfold calmer in H1.
  apply retry_loop_ends; [lia|done|]. intros v Hv. apply Hf. unfold calmer in Hv. lia.
Qed.

Lemma ends_try {A B} (m : prog (probe_state X) (result halt A)) (k : A -> prog (probe_state X) (result halt B)) :
  preserves calmer m -> ends m -> (forall a, ends (k a)) -> ends (try_bind m k).
Proof.
  intros Hc Hm Hk s Hs. unfold try_bind. rewrite prog_bind_run. specialize (Hm s Hs). specialize (Hc s). unfold calmer in Hc.
  destruct ((m s).2) as [a|[e|]]; [apply Hk; lia|done|done].
Qed.

Lemma ends_failing {A} f (m : prog (probe_state X) (result halt A)) : ends m -> ends (with_err (failing f) m).
Proof. intros Hm s Hs. unfold with_err. rewrite prog_bind_run. specialize (Hm s Hs). by destruct ((m s).2) as [a|[e|]]. Qed.

Lemma ends_bind {A B} (m : prog (probe_state X) A) (k : A -> prog (probe_state X) (result halt B)) :
  preserves calmer m -> (forall a, ends (k a)) -> ends (m ≫= k).
Proof. intros Hc Hk s Hs. rewrite prog_bind_run. apply Hk. specialize (Hc s). unfold calmer in Hc. lia. Qed.

Lemma ends_ret {A} (r : result halt A) : r <> Err Spinning -> ends (mret r).
Proof. intros Hr s _. done. Qed.

(** The pieces of a run. *)
Ltac calm_tac :=
  repeat (first
    [ solve [eauto with fleet typeclass_instances]
    | apply calmer_retry | apply calmer_note
    | (apply calmer_request || apply calmer_env);
      first [apply patience_create | apply patience_delete | apply patience_get | apply patience_list | apply patience_head
            | apply patience_now | apply patience_rand]
    | err_step | progress cbv zeta ]).

Ltac ends_tac :=
  repeat (first
    [ solve [eauto with typeclass_instances]
    | apply ends_failing | apply ends_retry; [calm_tac|] | apply ends_try; [calm_tac| |intros ?]
    | apply ends_ret; by repeat case_match
    | apply ends_bind; [calm_tac|intros ?]
    | match goal with |- ends (match ?x with _ => _ end) => destruct x end
    | progress cbv zeta ]).

Lemma deleteCentral_ends c : preserves calmer (deleteCentral config fuel ctx c) /\ ends (deleteCentral config fuel ctx c).
Proof.
  unfold deleteCentral, ensureCentralDeleted, retryUntilSucceeded, ensureDeletedFunc. split; [calm_tac|ends_tac].
Qed.

Lemma createCentral_ends : preserves calmer (createCentral config fuel ctx) /\ ends (createCentral config fuel ctx).
Proof.
  unfold createCentral, newCentralName, ensureCentralState, ensureStateFunc. split; [calm_tac|ends_tac].
Qed.

Lemma verifyCentral_ends c : preserves calmer (verifyCentral config fuel ctx c) /\ ends (verifyCentral config fuel ctx c).
Proof.
  unfold verifyCentral, pingURL, retryUntilSucceeded, pingFunc. split; [calm_tac|ends_tac].
Qed.

Lemma delete_mine_ends items b : preserves calmer (delete_mine config fuel ctx items b) /\ ends (delete_mine config fuel ctx items b).
Proof.
  revert b. induction items as [|c items IH]; intros b; simpl; [split; [calm_tac|ends_tac]|].
  pose proof (deleteCentral_ends c) as [Hc He]. pose proof (fun b => proj1 (IH b)) as IHc. pose proof (fun b => proj2 (IH b)) as IHe.
  destruct (decide _); [|apply IH]. split; [calm_tac|]. intros s Hs. rewrite prog_bind_run. specialize (He s Hs). specialize (Hc s).
  unfold calmer in Hc. destruct ((deleteCentral config fuel ctx c s).2) as [[]|[e|]]; [apply IHe; lia..|done].
Qed.

Lemma CleanUp_ends : preserves calmer (CleanUp config fuel ctx) /\ ends (CleanUp config fuel ctx).
Proof.
  pose proof (fun l b => proj1 (delete_mine_ends l b)). pose proof (fun l b => proj2 (delete_mine_ends l b)).
  unfold CleanUp, retryUntilSucceeded, cleanupFunc. split; [calm_tac|ends_tac].
Qed.

Lemma Execute_ends : ends (Execute config fuel ctx).
Proof.
  destruct createCentral_ends as [Hc1 He1]. pose proof (fun c => proj1 (verifyCentral_ends c)) as Hc2.
  pose proof (fun c => proj2 (verifyCentral_ends c)) as He2. pose proof (fun c => proj2 (deleteCentral_ends c)) as He3.
  pose proof (fun c => proj1 (deleteCentral_ends c)) as Hc3.
  intros s Hs. unfold Execute. rewrite !prog_bind_run. cbn [fst snd mret prog_ret].
  pose proof (calmer_env _ (patience_now ctx) s) as H1. unfold calmer in H1.
  match goal with |- (?m ?s1).2 <> _ => assert (ends m) as Hm; [ends_tac|apply Hm; lia] end.
Qed.
End ends.

(** C33. With contexts that end, a run of the probe ends, clean-up included: the
    number of tries that its two timeouts allow is fuel enough for every loop. *)
Theorem RunSingle_terminates `{Patience X} config fuel ctx (s : probe_state X) :
  (forall parent d (x : X), (patience (WithTimeout parent d x).2 (WithTimeout parent d x).1 < fuel)%nat) ->
  (RunSingle config fuel ctx s).2 <> Err Spinning.
Proof.
  intros Hb. unfold RunSingle. rewrite !prog_bind_run. set (s1 := (count _ (env time_Now _).1).1).
  assert (forall parent d v, patience (env (WithTimeout parent d) v).2 (ps_env (env (WithTimeout parent d) v).1) < fuel)%nat as Hp.
  { intros parent d v. specialize (Hb parent d (ps_env v)). unfold env. by destruct (WithTimeout parent d (ps_env v)). }
  pose proof (Execute_ends config fuel _ _ (Hp ctx (pb_ProbeRunTimeout config) s1)) as He.
  set (run := Execute _ _ _ _) in *. destruct run as [s2 r]. cbn [fst snd] in *.
  destruct r as [u|[e|]]; [| |done]; rewrite !prog_bind_run; cbn [fst snd mret prog_ret];
    match goal with |- context [CleanUp config fuel ?c ?v] =>
      pose proof (proj2 (CleanUp_ends config fuel c) v (Hp Background (pb_ProbeCleanUpTimeout config) _)) as Hc;
      destruct ((CleanUp config fuel c v).2) as [[]|[e'|]] end; done.
Qed.

(** ** Runs on a concrete fleet manager

    A central becomes ready when it is read, and is gone when it is read after its
    deletion was requested; a context allows five ticks. *)

Record fleet := mkFleet { fl_left : nat; fl_centrals : gmap string Central }.

Definition ok_answer {A} (a : A) : api_answer A := mkApiAnswer a (Some (mkHttpReply 200 None)) None.
Definition no_central : Central := mkCentral "" "" "" "" "" "".
Definition with_status (st : string) (c : Central) : Central :=
  mkCentral (pcr_Id c) (pcr_Name c) (pcr_Owner c) st (pcr_InstanceType c) (pcr_CentralUIURL c).
Definition gone {A} (a : A) : api_answer A := mkApiAnswer a (Some (mkHttpReply StatusNotFound None)) (Some (EPlain "404 Not Found")).

Definition fleet_get (id : string) : prog fleet (api_answer Central) := fun x =>
  match fl_centrals x !! id with
  | None => (x, gone no_central)
  | Some c =>
      if bool_decide (pcr_Status c = "deprovision") then (mkFleet (fl_left x) (delete id (fl_centrals x)), ok_answer (mkCentral id (pcr_Name c) (pcr_Owner c) (pcr_Status c) (pcr_InstanceType c) (pcr_CentralUIURL c)))
      else (mkFleet (fl_left x) (<[id := with_status StateReady c]> (fl_centrals x)), ok_answer (mkCentral id (pcr_Name c) (pcr_Owner c) (pcr_Status c) (pcr_InstanceType c) (pcr_CentralUIURL c)))
  end.

#[export] Instance fleet_env : ProbeEnv fleet := {|
  Context := unit; Background := tt;
  WithTimeout _ _ := fun x => (mkFleet 5 (fl_centrals x), tt);
  CancelContext _ := mret tt;
  Ticker := unit;
  NewTicker _ := mret tt;
  StopTicker _ := mret tt;
  select_tick _ _ := fun x => match fl_left x with
    | O => (x, Some DeadlineExceeded) | S n => (mkFleet n (fl_centrals x), None) end;
  time_Now := mret 1000;
  rand_hex := mret (Ok "beef");
  api_CreateCentral _ _ p := fun x =>
    let c := mkCentral "id-1" (pl_Name p) "service-account-probe" "accepted" STANDARD "https://central" in
    (mkFleet (fl_left x) (<["id-1" := c]> (fl_centrals x)), ok_answer c);
  api_DeleteCentralById _ id _ := fun x =>
    match fl_centrals x !! id with
    | Some c => (mkFleet (fl_left x) (<[id := with_status "deprovision" c]> (fl_centrals x)), ok_answer tt)
    | None => (x, gone tt)
    end;
  api_GetCentralById _ id := fleet_get id;
  api_GetCentrals _ := fun x => (x, ok_answer (map_to_list (fl_centrals x)).*2);
  NewHeadRequest _ _ := None;
  http_Do _ _ := mret (Ok (mkHttpReply 200 None))
|}.

#[export] Instance fleet_api : ApiLaws fleet.
Proof. split. intros ctx id x. simpl. unfold fleet_get. destruct (fl_centrals x !! id); [|done]. by case_bool_decide. Qed.

#[export] Instance fleet_patience : Patience fleet.
Proof.
  refine {| patience _ x := fl_left x |}; simpl; try done.
  - intros _ _ [[|n] cs]; simpl; [done|lia].
  - intros _ _ [[|n] cs]; simpl; lia.
  - intros _ id _ [n cs]; simpl. by destruct (cs !! id).
  - intros _ id [n cs]; unfold fleet_get; simpl. destruct (cs !! id); [|done]. by case_bool_decide.
Defined.

Definition probe_config : Config := mkConfig "RHSSO" "aws" "us-east-1" "probe" "" "probe" 300 5 1800 30 "service-account-probe".

(** A central that was left behind, and one of another owner. *)
Definition fleet_start : probe_state fleet :=
  mkProbeState (mkFleet 9 (list_to_map [("id-0", mkCentral "id-0" "probe-dead" "service-account-probe" "ready" STANDARD "");
    ("id-9", mkCentral "id-9" "probe-else" "somebody" "ready" STANDARD "")])) [] [].

Lemma Execute_success_witness :
  exists rnd new central code l1 l2 ping l3,
    ps_sent (Execute probe_config 10 tt fleet_start).1 =
      ([] ++ [SCreate ("probe" +:+ "-" +:+ rnd) (Some new)] ++ l1 ++ [SGet (pcr_Id new) code (Some central)] ++
       l2 ++ [SHead (pcr_CentralUIURL central) (Some ping)] ++
       [SDelete (pcr_Id new) true] ++ l3 ++ [SGet (pcr_Id new) (Some StatusNotFound) None])%list /\
    pcr_Status central = StateReady /\ pcr_InstanceType central = STANDARD /\ Is2xxStatusCode ping = true.
Proof. exact (Execute_success probe_config 10 tt fleet_start ltac:(vm_compute; reflexivity)). Defined.

Lemma RunLoop_deletes_own_witness :
  (exists b, SDelete "id-0" b ∈ ps_sent (RunLoop probe_config 10 tt fleet_start).1) /\
  careful probe_config (ps_sent (RunLoop probe_config 10 tt fleet_start).1).
Proof.
  split.
  - exists true. apply (bool_decide_unpack _). vm_compute. exact I.
  - apply (@RunLoop_deletes_own fleet fleet_env probe_config 10 fleet_api tt fleet_start). intros log1 id b log2 E. destruct log1; discriminate E.
Defined.

Lemma RunSingle_terminates_witness : (RunSingle probe_config 6 tt fleet_start).2 <> Err Spinning.
Proof. apply (@RunSingle_terminates fleet fleet_env fleet_patience probe_config 6 tt fleet_start). intros parent d x. simpl. lia. Defined.
