(* ===== verification/Schema.v ===== *)
(** * The schema of the database

    The Go structs that gorm maps to tables, as lists of fields: the copies that the
    schema migrations of internal/dinosaur/pkg/migrations declare, and the structs
    that the program reads and writes rows with.  A table is named by its Go type
    and a column by its Go field; gorm derives the SQL names from them, and a column
    that SQL text names is the column of the field it is derived from. *)

From S2P Require Import Prelude.
Local Open Scope string_scope.

(** The types of the fields; a named string type is a string. *)
Inductive gotype := TString | TBool | TTime | TTimePtr | TDeletedAt | TJSON | TUint64.

#[export] Instance gotype_eq_dec : EqDecision gotype.
Proof. solve_decision. Defined.

(** The value of a column; NULL is the absence of a value. *)
Inductive dbval := VText (s : string) | VTime (t : Z) | VBool (b : bool).

#[export] Instance dbval_eq_dec : EqDecision dbval.
Proof. solve_decision. Defined.

(** The gorm tag of a field; a field that is ignored has no column. *)
Inductive gormtag := TagNone | TagPrimaryKey | TagIndex | TagUniqueIndex (name : string) | TagDefault (v : dbval) | TagIgnored.

Record field := mkField { f_name : string; f_type : gotype; f_tag : gormtag }.
Record model := mkModel { m_type : string; m_fields : list field }.

Abbreviation row := (gmap string dbval).
Record table := mkTable { t_columns : gmap string gotype; t_rows : list row }.
Abbreviation tableset := (gmap string table).

Definition ignored (f : field) : bool := match f_tag f with TagIgnored => true | _ => false end.

(** The fields of a model that have a column, which are gorm's [FieldsByDBName]. *)
Definition FieldsByDBName (m : model) : list field := filter (fun f => ignored f = false) (m_fields m).

Definition columns_of (m : model) : gmap string gotype :=
  list_to_map ((fun f => (f_name f, f_type f)) <$> FieldsByDBName m).

(** [Schema.LookUpField] *)
Definition LookUpField (m : model) (name : string) : option field :=
  head (filter (fun f => f_name f = name) (FieldsByDBName m)).

(** ** The embedded structs (pkg/db/migrations.go, pkg/api/metadata_types.go) *)

Definition Model_fields : list field :=
  [ mkField "ID" TString TagPrimaryKey;
    mkField "CreatedAt" TTime TagNone;
    mkField "UpdatedAt" TTime TagNone;
    mkField "DeletedAt" TDeletedAt TagIndex ].

Definition Meta_fields : list field :=
  [ mkField "ID" TString TagNone;
    mkField "CreatedAt" TTime TagNone;
    mkField "UpdatedAt" TTime TagNone;
    mkField "DeletedAt" TDeletedAt TagNone ].

(** ** The structs of the migrations *)

Definition addCloudAccountIDToCentralRequest_AuthConfig : list field :=
  [ mkField "ClientID" TString TagNone;
    mkField "ClientSecret" TString TagNone;
    mkField "Issuer" TString TagNone;
    mkField "ClientOrigin" TString TagNone ].

Definition addCloudAccountIDToCentralRequest_CentralRequest : model := mkModel "CentralRequest"
  (Meta_fields
  ++ [ mkField "Region" TString TagNone;
    mkField "ClusterID" TString TagIndex;
    mkField "CloudProvider" TString TagNone;
    mkField "CloudAccountID" TString TagNone;
    mkField "MultiAZ" TBool TagNone;
    mkField "Name" TString TagIndex;
    mkField "Status" TString TagIndex;
    mkField "SubscriptionID" TString TagNone;
    mkField "Owner" TString TagIndex;
    mkField "OwnerAccountID" TString TagNone;
    mkField "OwnerUserID" TString TagNone;
    mkField "Host" TString TagNone;
    mkField "OrganisationID" TString TagIndex;
    mkField "FailedReason" TString TagNone;
    mkField "PlacementID" TString TagNone;
    mkField "Central" TJSON TagNone;
    mkField "Scanner" TJSON TagNone;
    mkField "DesiredCentralVersion" TString TagNone;
    mkField "ActualCentralVersion" TString TagNone;
    mkField "DesiredCentralOperatorVersion" TString TagNone;
    mkField "ActualCentralOperatorVersion" TString TagNone;
    mkField "CentralUpgrading" TBool TagNone;
    mkField "CentralOperatorUpgrading" TBool TagNone;
    mkField "InstanceType" TString TagNone;
    mkField "QuotaType" TString TagNone;
    mkField "Routes" TJSON TagNone;
    mkField "RoutesCreated" TBool TagNone;
    mkField "Namespace" TString TagNone;
    mkField "RoutesCreationID" TString TagNone;
    mkField "DeletionTimestamp" TTimePtr TagNone ]
  ++ addCloudAccountIDToCentralRequest_AuthConfig).

Definition addCentralRequest_CentralRequest : model := mkModel "CentralRequest"
  (Model_fields
  ++ [ mkField "Region" TString TagNone;
    mkField "ClusterID" TString TagIndex;
    mkField "CloudProvider" TString TagNone;
    mkField "MultiAZ" TBool TagNone;
    mkField "Name" TString TagIndex;
    mkField "Status" TString TagIndex;
    mkField "SubscriptionID" TString TagNone;
    mkField "Owner" TString TagIndex;
    mkField "OwnerAccountID" TString TagNone;
    mkField "Host" TString TagNone;
    mkField "OrganisationID" TString TagIndex;
    mkField "FailedReason" TString TagNone;
    mkField "PlacementID" TString TagNone;
    mkField "DesiredCentralVersion" TString TagNone;
    mkField "ActualCentralVersion" TString TagNone;
    mkField "DesiredCentralOperatorVersion" TString TagNone;
    mkField "ActualCentralOperatorVersion" TString TagNone;
    mkField "CentralUpgrading" TBool TagNone;
    mkField "CentralOperatorUpgrading" TBool TagNone;
    mkField "InstanceType" TString TagNone;
    mkField "QuotaType" TString TagNone;
    mkField "Routes" TJSON TagNone;
    mkField "RoutesCreated" TBool TagNone;
    mkField "Namespace" TString TagNone;
    mkField "RoutesCreationID" TString TagNone;
    mkField "DeletionTimestamp" TTimePtr TagNone ]).

Definition addClusters_Cluster : model := mkModel "Cluster"
  (Model_fields
  ++ [ mkField "CloudProvider" TString TagNone;
    mkField "ClusterID" TString (TagUniqueIndex "uix_clusters_cluster_id");
    mkField "ExternalID" TString TagNone;
    mkField "MultiAZ" TBool TagNone;
    mkField "Region" TString TagNone;
    mkField "Status" TString TagIndex;
    mkField "StatusDetails" TString TagIgnored;
    mkField "IdentityProviderID" TString TagNone;
    mkField "ClusterDNS" TString TagNone;
    mkField "ProviderType" TString TagNone;
    mkField "ProviderSpec" TString TagNone;
    mkField "ClusterSpec" TString TagNone;
    mkField "AvailableCentralOperatorVersions" TJSON TagNone;
    mkField "SupportedInstanceType" TString TagNone ]).

Definition addLeaderLease_LeaderLease : model := mkModel "LeaderLease"
  (Model_fields
  ++ [ mkField "Leader" TString TagNone;
    mkField "LeaseType" TString TagNone;
    mkField "Expires" TTimePtr TagNone ]).

Definition addOwnerUserIDToCentralRequest_CentralRequest : model := mkModel "CentralRequest"
  (Model_fields
  ++ [ mkField "Region" TString TagNone;
    mkField "ClusterID" TString TagIndex;
    mkField "CloudProvider" TString TagNone;
    mkField "MultiAZ" TBool TagNone;
    mkField "Name" TString TagIndex;
    mkField "Status" TString TagIndex;
    mkField "SubscriptionID" TString TagNone;
    mkField "Owner" TString TagIndex;
    mkField "OwnerAccountID" TString TagNone;
    mkField "OwnerUserID" TString TagNone;
    mkField "Host" TString TagNone;
    mkField "OrganisationID" TString TagIndex;
    mkField "FailedReason" TString TagNone;
    mkField "PlacementID" TString TagNone;
    mkField "DesiredCentralVersion" TString TagNone;
    mkField "ActualCentralVersion" TString TagNone;
    mkField "DesiredCentralOperatorVersion" TString TagNone;
    mkField "ActualCentralOperatorVersion" TString TagNone;
    mkField "CentralUpgrading" TBool TagNone;
    mkField "CentralOperatorUpgrading" TBool TagNone;
    mkField "InstanceType" TString TagNone;
    mkField "QuotaType" TString TagNone;
    mkField "Routes" TJSON TagNone;
    mkField "RoutesCreated" TBool TagNone;
    mkField "Namespace" TString TagNone;
    mkField "RoutesCreationID" TString TagNone;
    mkField "DeletionTimestamp" TTimePtr TagNone ]).

Definition addResourcesToCentralRequest_CentralRequest : model := mkModel "CentralRequest"
  (Model_fields
  ++ [ mkField "Region" TString TagNone;
    mkField "ClusterID" TString TagIndex;
    mkField "CloudProvider" TString TagNone;
    mkField "MultiAZ" TBool TagNone;
    mkField "Name" TString TagIndex;
    mkField "Status" TString TagIndex;
    mkField "SubscriptionID" TString TagNone;
    mkField "Owner" TString TagIndex;
    mkField "OwnerAccountID" TString TagNone;
    mkField "OwnerUserID" TString TagNone;
    mkField "Host" TString TagNone;
    mkField "OrganisationID" TString TagIndex;
    mkField "FailedReason" TString TagNone;
    mkField "PlacementID" TString TagNone;
    mkField "DesiredCentralVersion" TString TagNone;
    mkField "ActualCentralVersion" TString TagNone;
    mkField "DesiredCentralOperatorVersion" TString TagNone;
    mkField "ActualCentralOperatorVersion" TString TagNone;
    mkField "CentralUpgrading" TBool TagNone;
    mkField "CentralOperatorUpgrading" TBool TagNone;
    mkField "InstanceType" TString TagNone;
    mkField "QuotaType" TString TagNone;
    mkField "Routes" TJSON TagNone;
    mkField "RoutesCreated" TBool TagNone;
    mkField "Namespace" TString TagNone;
    mkField "RoutesCreationID" TString TagNone;
    mkField "DeletionTimestamp" TTimePtr TagNone;
    mkField "Central" TJSON TagNone;
    mkField "Scanner" TJSON TagNone ]).

Definition addAuthConfigToCentralRequest_AuthConfig : list field :=
  [ mkField "ClientID" TString TagNone;
    mkField "ClientSecret" TString TagNone;
    mkField "Issuer" TString TagNone ].

Definition addAuthConfigToCentralRequest_CentralRequest : model := mkModel "CentralRequest"
  (Model_fields
  ++ [ mkField "Region" TString TagNone;
    mkField "ClusterID" TString TagNone;
    mkField "CloudProvider" TString TagNone;
    mkField "MultiAZ" TBool TagNone;
    mkField "Name" TString TagNone;
    mkField "Status" TString TagNone;
    mkField "SubscriptionID" TString TagNone;
    mkField "Owner" TString TagNone;
    mkField "OwnerAccountID" TString TagNone;
    mkField "OwnerUserID" TString TagNone;
    mkField "Host" TString TagNone;
    mkField "OrganisationID" TString TagNone;
    mkField "FailedReason" TString TagNone;
    mkField "PlacementID" TString TagNone;
    mkField "Central" TJSON TagNone;
    mkField "Scanner" TJSON TagNone;
    mkField "DesiredCentralVersion" TString TagNone;
    mkField "ActualCentralVersion" TString TagNone;
    mkField "DesiredCentralOperatorVersion" TString TagNone;
    mkField "ActualCentralOperatorVersion" TString TagNone;
    mkField "CentralUpgrading" TBool TagNone;
    mkField "CentralOperatorUpgrading" TBool TagNone;
    mkField "InstanceType" TString TagNone;
    mkField "QuotaType" TString TagNone;
    mkField "Routes" TJSON TagNone;
    mkField "RoutesCreated" TBool TagNone;
    mkField "Namespace" TString TagNone;
    mkField "RoutesCreationID" TString TagNone;
    mkField "DeletionTimestamp" TTimePtr TagNone ]
  ++ addAuthConfigToCentralRequest_AuthConfig).

Definition addSkipSchedulingToClusters_Cluster : model := mkModel "Cluster"
  (Model_fields
  ++ [ mkField "CloudProvider" TString TagNone;
    mkField "ClusterID" TString (TagUniqueIndex "uix_clusters_cluster_id");
    mkField "ExternalID" TString TagNone;
    mkField "MultiAZ" TBool TagNone;
    mkField "Region" TString TagNone;
    mkField "Status" TString TagIndex;
    mkField "StatusDetails" TString TagIgnored;
    mkField "IdentityProviderID" TString TagNone;
    mkField "ClusterDNS" TString TagNone;
    mkField "ProviderType" TString TagNone;
    mkField "ProviderSpec" TString TagNone;
    mkField "ClusterSpec" TString TagNone;
    mkField "AvailableCentralOperatorVersions" TJSON TagNone;
    mkField "SupportedInstanceType" TString TagNone;
    mkField "SkipScheduling" TBool (TagDefault (VBool false)) ]).

Definition addClientOriginToCentralRequest_AuthConfig : list field :=
  [ mkField "ClientID" TString TagNone;
    mkField "ClientSecret" TString TagNone;
    mkField "Issuer" TString TagNone;
    mkField "ClientOrigin" TString TagNone ].

Definition addClientOriginToCentralRequest_CentralRequest : model := mkModel "CentralRequest"
  (Model_fields
  ++ [ mkField "Region" TString TagNone;
    mkField "ClusterID" TString TagNone;
    mkField "CloudProvider" TString TagNone;
    mkField "MultiAZ" TBool TagNone;
    mkField "Name" TString TagNone;
    mkField "Status" TString TagNone;
    mkField "SubscriptionID" TString TagNone;
    mkField "Owner" TString TagNone;
    mkField "OwnerAccountID" TString TagNone;
    mkField "OwnerUserID" TString TagNone;
    mkField "Host" TString TagNone;
    mkField "OrganisationID" TString TagNone;
    mkField "FailedReason" TString TagNone;
    mkField "PlacementID" TString TagNone;
    mkField "Central" TJSON TagNone;
    mkField "Scanner" TJSON TagNone;
    mkField "DesiredCentralVersion" TString TagNone;
    mkField "ActualCentralVersion" TString TagNone;
    mkField "DesiredCentralOperatorVersion" TString TagNone;
    mkField "ActualCentralOperatorVersion" TString TagNone;
    mkField "CentralUpgrading" TBool TagNone;
    mkField "CentralOperatorUpgrading" TBool TagNone;
    mkField "InstanceType" TString TagNone;
    mkField "QuotaType" TString TagNone;
    mkField "Routes" TJSON TagNone;
    mkField "RoutesCreated" TBool TagNone;
    mkField "Namespace" TString TagNone;
    mkField "RoutesCreationID" TString TagNone;
    mkField "DeletionTimestamp" TTimePtr TagNone ]
  ++ addClientOriginToCentralRequest_AuthConfig).

Definition changeCentralClientOrigin_AuthConfig : list field :=
  [ mkField "ClientID" TString TagNone;
    mkField "ClientSecret" TString TagNone;
    mkField "Issuer" TString TagNone;
    mkField "ClientOrigin" TString TagNone ].

Definition changeCentralClientOrigin_CentralRequest : model := mkModel "CentralRequest"
  (Model_fields
  ++ [ mkField "Region" TString TagNone;
    mkField "ClusterID" TString TagNone;
    mkField "CloudProvider" TString TagNone;
    mkField "MultiAZ" TBool TagNone;
    mkField "Name" TString TagNone;
    mkField "Status" TString TagNone;
    mkField "SubscriptionID" TString TagNone;
    mkField "Owner" TString TagNone;
    mkField "OwnerAccountID" TString TagNone;
    mkField "OwnerUserID" TString TagNone;
    mkField "Host" TString TagNone;
    mkField "OrganisationID" TString TagNone;
    mkField "FailedReason" TString TagNone;
    mkField "PlacementID" TString TagNone;
    mkField "Central" TJSON TagNone;
    mkField "Scanner" TJSON TagNone;
    mkField "DesiredCentralVersion" TString TagNone;
    mkField "ActualCentralVersion" TString TagNone;
    mkField "DesiredCentralOperatorVersion" TString TagNone;
    mkField "ActualCentralOperatorVersion" TString TagNone;
    mkField "CentralUpgrading" TBool TagNone;
    mkField "CentralOperatorUpgrading" TBool TagNone;
    mkField "InstanceType" TString TagNone;
    mkField "QuotaType" TString TagNone;
    mkField "Routes" TJSON TagNone;
    mkField "RoutesCreated" TBool TagNone;
    mkField "Namespace" TString TagNone;
    mkField "RoutesCreationID" TString TagNone;
    mkField "DeletionTimestamp" TTimePtr TagNone ]
  ++ changeCentralClientOrigin_AuthConfig).

Definition addOrganisationNameToCentralRequest_AuthConfig : list field :=
  [ mkField "ClientID" TString TagNone;
    mkField "ClientSecret" TString TagNone;
    mkField "Issuer" TString TagNone;
    mkField "ClientOrigin" TString TagNone ].

Definition addOrganisationNameToCentralRequest_CentralRequest : model := mkModel "CentralRequest"
  (Meta_fields
  ++ [ mkField "Region" TString TagNone;
    mkField "ClusterID" TString TagIndex;
    mkField "CloudProvider" TString TagNone;
    mkField "CloudAccountID" TString TagNone;
    mkField "MultiAZ" TBool TagNone;
    mkField "Name" TString TagIndex;
    mkField "Status" TString TagIndex;
    mkField "SubscriptionID" TString TagNone;
    mkField "Owner" TString TagIndex;
    mkField "OwnerAccountID" TString TagNone;
    mkField "OwnerUserID" TString TagNone;
    mkField "Host" TString TagNone;
    mkField "OrganisationID" TString TagIndex;
    mkField "OrganisationName" TString TagNone;
    mkField "FailedReason" TString TagNone;
    mkField "PlacementID" TString TagNone;
    mkField "Central" TJSON TagNone;
    mkField "Scanner" TJSON TagNone;
    mkField "DesiredCentralVersion" TString TagNone;
    mkField "ActualCentralVersion" TString TagNone;
    mkField "DesiredCentralOperatorVersion" TString TagNone;
    mkField "ActualCentralOperatorVersion" TString TagNone;
    mkField "CentralUpgrading" TBool TagNone;
    mkField "CentralOperatorUpgrading" TBool TagNone;
    mkField "InstanceType" TString TagNone;
    mkField "QuotaType" TString TagNone;
    mkField "Routes" TJSON TagNone;
    mkField "RoutesCreated" TBool TagNone;
    mkField "Namespace" TString TagNone;
    mkField "RoutesCreationID" TString TagNone;
    mkField "DeletionTimestamp" TTimePtr TagNone ]
  ++ addOrganisationNameToCentralRequest_AuthConfig).

Definition addInternalToCentralRequest_AuthConfig : list field :=
  [ mkField "ClientID" TString TagNone;
    mkField "ClientSecret" TString TagNone;
    mkField "Issuer" TString TagNone;
    mkField "ClientOrigin" TString TagNone ].

Definition addInternalToCentralRequest_CentralRequest : model := mkModel "CentralRequest"
  (Meta_fields
  ++ [ mkField "Region" TString TagNone;
    mkField "ClusterID" TString TagIndex;
    mkField "CloudProvider" TString TagNone;
    mkField "CloudAccountID" TString TagNone;
    mkField "MultiAZ" TBool TagNone;
    mkField "Name" TString TagIndex;
    mkField "Status" TString TagIndex;
    mkField "SubscriptionID" TString TagNone;
    mkField "Owner" TString TagIndex;
    mkField "OwnerAccountID" TString TagNone;
    mkField "OwnerUserID" TString TagNone;
    mkField "Host" TString TagNone;
    mkField "OrganisationID" TString TagIndex;
    mkField "OrganisationName" TString TagNone;
    mkField "FailedReason" TString TagNone;
    mkField "PlacementID" TString TagNone;
    mkField "Central" TJSON TagNone;
    mkField "Scanner" TJSON TagNone;
    mkField "DesiredCentralVersion" TString TagNone;
    mkField "ActualCentralVersion" TString TagNone;
    mkField "DesiredCentralOperatorVersion" TString TagNone;
    mkField "ActualCentralOperatorVersion" TString TagNone;
    mkField "CentralUpgrading" TBool TagNone;
    mkField "CentralOperatorUpgrading" TBool TagNone;
    mkField "InstanceType" TString TagNone;
    mkField "QuotaType" TString TagNone;
    mkField "Routes" TJSON TagNone;
    mkField "RoutesCreated" TBool TagNone;
    mkField "Namespace" TString TagNone;
    mkField "RoutesCreationID" TString TagNone;
    mkField "DeletionTimestamp" TTimePtr TagNone;
    mkField "Internal" TBool TagNone ]
  ++ addInternalToCentralRequest_AuthConfig).

Definition addCentralDefaultVersion_CentralDefaultVersion : model := mkModel "CentralDefaultVersion"
  ([ mkField "ID" TUint64 TagPrimaryKey;
    mkField "CreatedAt" TTime TagNone;
    mkField "Version" TString TagNone ]).

Definition dropSkipSchedulingFromClusters_Cluster : model := mkModel "Cluster"
  (Model_fields
  ++ [ mkField "SkipScheduling" TBool (TagDefault (VBool false)) ]).

Definition addSchedulableToClusters_Cluster : model := mkModel "Cluster"
  (Model_fields
  ++ [ mkField "Schedulable" TBool TagNone ]).


(** ** The structs of the program *)

Definition dbapi_AuthConfig : list field :=
  [ mkField "ClientID" TString TagNone;
    mkField "ClientSecret" TString TagNone;
    mkField "Issuer" TString TagNone;
    mkField "ClientOrigin" TString TagNone ].

Definition dbapi_CentralRequest : model := mkModel "CentralRequest"
  (Meta_fields
  ++ [ mkField "Region" TString TagNone;
    mkField "ClusterID" TString TagIndex;
    mkField "CloudProvider" TString TagNone;
    mkField "CloudAccountID" TString TagNone;
    mkField "MultiAZ" TBool TagNone;
    mkField "Name" TString TagIndex;
    mkField "Status" TString TagIndex;
    mkField "SubscriptionID" TString TagNone;
    mkField "Owner" TString TagIndex;
    mkField "OwnerAccountID" TString TagNone;
    mkField "OwnerUserID" TString TagNone;
    mkField "Host" TString TagNone;
    mkField "OrganisationID" TString TagIndex;
    mkField "OrganisationName" TString TagNone;
    mkField "FailedReason" TString TagNone;
    mkField "PlacementID" TString TagNone;
    mkField "Central" TJSON TagNone;
    mkField "Scanner" TJSON TagNone;
    mkField "DesiredCentralVersion" TString TagNone;
    mkField "ActualCentralVersion" TString TagNone;
    mkField "DesiredCentralOperatorVersion" TString TagNone;
    mkField "ActualCentralOperatorVersion" TString TagNone;
    mkField "CentralUpgrading" TBool TagNone;
    mkField "CentralOperatorUpgrading" TBool TagNone;
    mkField "InstanceType" TString TagNone;
    mkField "QuotaType" TString TagNone;
    mkField "Routes" TJSON TagNone;
    mkField "RoutesCreated" TBool TagNone;
    mkField "Namespace" TString TagNone;
    mkField "RoutesCreationID" TString TagNone;
    mkField "DeletionTimestamp" TTimePtr TagNone;
    mkField "Internal" TBool TagNone ]
  ++ dbapi_AuthConfig).

Definition api_Cluster : model := mkModel "Cluster"
  (Meta_fields
  ++ [ mkField "CloudProvider" TString TagNone;
    mkField "ClusterID" TString (TagUniqueIndex "");
    mkField "ExternalID" TString TagNone;
    mkField "MultiAZ" TBool TagNone;
    mkField "Region" TString TagNone;
    mkField "Status" TString TagIndex;
    mkField "StatusDetails" TString TagIgnored;
    mkField "IdentityProviderID" TString TagNone;
    mkField "ClusterDNS" TString TagNone;
    mkField "ProviderType" TString TagNone;
    mkField "ProviderSpec" TJSON TagNone;
    mkField "ClusterSpec" TJSON TagNone;
    mkField "AvailableCentralOperatorVersions" TJSON TagNone;
    mkField "SupportedInstanceType" TString TagNone;
    mkField "Schedulable" TBool TagNone ]).

Definition api_LeaderLease : model := mkModel "LeaderLease"
  (Meta_fields
  ++ [ mkField "Leader" TString TagNone;
    mkField "LeaseType" TString TagNone;
    mkField "Expires" TTimePtr TagNone ]).

Definition dbapi_CentralDefaultVersion : model := mkModel "CentralDefaultVersion"
  ([ mkField "ID" TUint64 TagNone;
    mkField "CreatedAt" TTime TagNone;
    mkField "Version" TString TagNone ]).
