(* ===== verification/Migrations.v ===== *)
(** * Schema migrations

    pkg/db/migrations.go and the migrations of internal/dinosaur/pkg/migrations.

    gorm is the class [Database]: the statements that the migrations send, with the
    laws [DatabaseLaws] of what a statement that succeeded or failed leaves, and when
    an answering database succeeds.  gormigrate is the class [Gormigrate]: [Migrate]
    runs in order the migrations whose identifier is not in the table of migrations
    and records each, [RollbackLast] undoes the last recorded one.  The indexes of the
    tables are not part of the schema.  The last part implements both classes in memory. *)

From S2P Require Import Prelude GoString GoFmt ServiceErrors World Effects LeaderElection Schema.
Local Open Scope string_scope.
Local Open Scope Z_scope.

(** ** What statements do to the tables *)

Definition fill_default (f : field) (r : row) : row :=
  match f_tag f with TagDefault v => <[f_name f := v]> r | _ => r end.

Definition add_column (f : field) (t : table) : table :=
  mkTable (<[f_name f := f_type f]> (t_columns t)) (fill_default f <$> t_rows t).

Definition drop_column (name : string) (t : table) : table :=
  mkTable (delete name (t_columns t)) (delete name <$> t_rows t).

Definition add_missing (t : table) (f : field) : table :=
  match t_columns t !! f_name f with Some _ => t | None => add_column f t end.

(** CREATE TABLE, or ALTER TABLE for the columns that are missing. *)
Definition automigrated (m : model) (ts : tableset) : tableset :=
  <[m_type m := foldl add_missing (default (mkTable ∅ []) (ts !! m_type m)) (FieldsByDBName m)]> ts.

Definition types_agree (m : model) (ts : tableset) : bool :=
  forallb (fun f => match t_columns (default (mkTable ∅ []) (ts !! m_type m)) !! f_name f with
                    | Some ty => bool_decide (ty = f_type f) | None => true end) (FieldsByDBName m).

Definition has_column (ts : tableset) (t name : string) : bool :=
  match ts !! t with Some t => bool_decide (is_Some (t_columns t !! name)) | None => false end.

Definition can_add (m : model) (name : string) (ts : tableset) : bool :=
  bool_decide (is_Some (ts !! m_type m)) && bool_decide (is_Some (LookUpField m name)) &&
  negb (has_column ts (m_type m) name).

Definition column_added (m : model) (name : string) (ts : tableset) : tableset :=
  match LookUpField m name with
  | Some f => alter (add_column f) (m_type m) ts
  | None => ts
  end.

Definition has_columns (m : model) (ts : tableset) : bool :=
  bool_decide (is_Some (ts !! m_type m)) && forallb (fun f => has_column ts (m_type m) (f_name f)) (FieldsByDBName m).

(** A row of the struct has values for its columns only. *)
Definition row_fits (m : model) (r : row) : bool := bool_decide (dom r ⊆ dom (columns_of m)).

Definition append_row (r : row) (t : table) : table := mkTable (t_columns t) (t_rows t ++ [r]).

(** A row that an UPDATE of one column leaves: gorm also writes UpdatedAt, and does
    not touch the rows that are soft deleted. *)
Definition updated_row (p : row -> bool) (name : string) (v : dbval) (r r' : row) : Prop :=
  if p r && bool_decide (r !! "DeletedAt" = None)
  then delete "UpdatedAt" r' = delete "UpdatedAt" (<[name := v]> r)
  else r' = r.

(** ** gorm *)

Class Database (D : Type) := {
  tables : D -> tableset;
  (** every statement is answered *)
  online : D -> Prop;
  AutoMigrate : model -> prog D (result error unit);
  AddColumn : model -> string -> prog D (result error unit);
  DropColumn : model -> string -> prog D (result error unit);
  HasColumn : model -> string -> prog D bool;
  DropTable : string -> prog D (result error unit);
  HasTable : string -> prog D bool;
  CreateRow : model -> row -> prog D (result error unit);
  (** [Model(m).Where(p).Update(name, v)] *)
  UpdateRows : model -> (row -> bool) -> string -> dbval -> prog D (result error unit);
  Exec : string -> prog D (result error unit);
  (** the first identifier of a table of migrations, or the empty string, and the
      number of its rows *)
  ScanID : string -> prog D (result error string);
  ScanCount : string -> prog D (result error Z);
  Clock : prog D Z;
  FreshID : prog D string
}.

Section laws.
Context {D : Type} `{Database D}.

(** A statement succeeds only when [pre] holds, and does when the database answers;
    it has the effect [eff] when it succeeds and none otherwise. *)
Definition statement (m : prog D (result error unit)) (pre : tableset -> bool) (eff : tableset -> tableset -> Prop) : Prop :=
  forall d, let '(d', r) := m d in
    match r with Ok _ => pre (tables d) = true /\ eff (tables d) (tables d') | Err _ => tables d' = tables d end /\
    (online d -> online d' /\ (pre (tables d) = true -> r = Ok tt)).

(** A statement that only reads. *)
Definition reads {A} (m : prog D A) (ans : tableset -> A -> Prop) : Prop :=
  forall d, let '(d', a) := m d in tables d' = tables d /\ (online d -> online d' /\ ans (tables d) a).

Definition ids (t : table) : list string :=
  omap (fun r : row => match r !! "id" with Some (VText s) => Some s | _ => None end) (t_rows t).
End laws.

Class DatabaseLaws (D : Type) `{Database D} := {
  AutoMigrate_law m : statement (AutoMigrate m) (types_agree m) (fun ts ts' => ts' = automigrated m ts);
  AddColumn_law m name : statement (AddColumn m name) (can_add m name) (fun ts ts' => ts' = column_added m name ts);
  DropColumn_law m name :
    statement (DropColumn m name) (fun ts => has_column ts (m_type m) name)
      (fun ts ts' => ts' = alter (drop_column name) (m_type m) ts);
  DropTable_law name : statement (DropTable name) (fun _ => true) (fun ts ts' => ts' = delete name ts);
  CreateRow_law m r :
    statement (CreateRow m r) (fun ts => has_columns m ts && row_fits m r)
      (fun ts ts' => exists r', r ⊆ r' /\ row_fits m r' = true /\ ts' = alter (append_row r') (m_type m) ts);
  UpdateRows_law m p name v :
    statement (UpdateRows m p name v) (fun ts => has_column ts (m_type m) name)
      (fun ts ts' => exists t rs, ts !! m_type m = Some t /\ Forall2 (updated_row p name v) (t_rows t) rs /\
                                  ts' = <[m_type m := mkTable (t_columns t) rs]> ts);
  HasColumn_law m name : reads (HasColumn m name) (fun ts b => b = has_column ts (m_type m) name);
  HasTable_law name : reads (HasTable name) (fun ts b => b = bool_decide (is_Some (ts !! name)));
  ScanID_law name :
    reads (ScanID name) (fun ts r => match ts !! name with
                                     | None => is_Ok r = false
                                     | Some t => exists s, r = Ok s /\ (s ∈ ids t \/ ids t = [] /\ s = "")
                                     end);
  ScanCount_law name :
    reads (ScanCount name) (fun ts r => match ts !! name with
                                        | None => is_Ok r = false
                                        | Some t => r = Ok (Z.of_nat (length (ids t)))
                                        end);
  Clock_law : reads Clock (fun _ _ => True);
  FreshID_law : reads FreshID (fun _ s => s <> "")
}.

(** ** gormigrate *)

Record migration (D : Type) := mkMigration {
  mg_ID : string;
  mg_Migrate : prog D (result error unit);
  mg_Rollback : prog D (result error unit)
}.
Arguments mkMigration {D}.
Arguments mg_ID {D}.
Arguments mg_Migrate {D}.
Arguments mg_Rollback {D}.

Record gormOptions := mkOptions { TableName : string; IDColumnName : string; IDColumnSize : Z; UseTransaction : bool }.

Class Gormigrate (D : Type) := {
  gm_Migrate : gormOptions -> list (migration D) -> prog D (result error unit);
  gm_MigrateTo : gormOptions -> list (migration D) -> string -> prog D (result error unit);
  gm_RollbackLast : gormOptions -> list (migration D) -> prog D (result error unit);
  gm_RollbackTo : gormOptions -> list (migration D) -> string -> prog D (result error unit)
}.

Section gormigrate.
Context {D : Type} `{Database D}.
Variable (o : gormOptions).

Definition migrations_table : model := mkModel (TableName o) [mkField "id" TString TagPrimaryKey].

Definition id_row (id : string) : row := {["id" := VText id]}.

Definition applied_ids (ts : tableset) : list string := match ts !! TableName o with Some t => ids t | None => [] end.
Definition applied (d : D) (m : migration D) : bool := bool_decide (mg_ID m ∈ applied_ids (tables d)).

(** The step from [d] to [d'] has the effect [eff], and keeps the database answering. *)
Definition becomes (eff : tableset -> tableset) (d d' : D) : Prop := tables d' = eff (tables d) /\ (online d -> online d').

Definition recorded (id : string) (ts : tableset) : tableset := alter (append_row (id_row id)) (TableName o) ts.
Definition forgotten (id : string) (ts : tableset) : tableset :=
  alter (fun t => mkTable (t_columns t) (filter (fun r : row => r !! "id" <> Some (VText id)) (t_rows t))) (TableName o) ts.

(** The migrations that remain are run in order, each recorded when it has succeeded,
    up to the first that fails; a database that does not answer may stop it anywhere. *)
Inductive run_pending : list (migration D) -> D -> D -> result error unit -> Prop :=
| run_none d : run_pending [] d d (Ok tt)
| run_skip m ms d d' r : applied d m = true -> run_pending ms d d' r -> run_pending (m :: ms) d d' r
| run_fails m ms d e : applied d m = false -> (mg_Migrate m d).2 = Err e -> run_pending (m :: ms) d (mg_Migrate m d).1 (Err e)
| run_one m ms d d1 d' r :
    applied d m = false -> (mg_Migrate m d).2 = Ok tt -> becomes (recorded (mg_ID m)) (mg_Migrate m d).1 d1 ->
    run_pending ms d1 d' r -> run_pending (m :: ms) d d' r
| run_unrecorded m ms d d' e :
    applied d m = false -> (mg_Migrate m d).2 = Ok tt -> ~ online (mg_Migrate m d).1 -> tables d' = tables (mg_Migrate m d).1 ->
    run_pending (m :: ms) d d' (Err e)
| run_stopped ms d d' e : ~ online d -> tables d' = tables d -> run_pending ms d d' (Err e).

(** The last migration of the list that was run. *)
Definition last_applied (ms : list (migration D)) (d : D) : option (migration D) := last (filter (fun m => applied d m = true) ms).
End gormigrate.

Class GormigrateLaws (D : Type) `{Database D, Gormigrate D} := {
  gm_Migrate_law o ms d :
    ms <> [] -> NoDup (mg_ID <$> ms) ->
    let '(d', r) := gm_Migrate o ms d in
    (~ online d /\ tables d' = tables d /\ is_Ok r = false) \/
    exists d1, becomes (automigrated (migrations_table o)) d d1 /\ run_pending o ms d1 d' r;
  gm_RollbackLast_law o ms d :
    ms <> [] ->
    let '(d', r) := gm_RollbackLast o ms d in
    match last_applied o ms d with
    | None => tables d' = tables d /\ is_Ok r = false
    | Some m =>
        (~ online d /\ tables d' = tables d /\ is_Ok r = false) \/
        let '(d1, r1) := mg_Rollback m d in
        match r1 with
        | Err _ => d' = d1 /\ is_Ok r = false
        | Ok _ => (~ online d1 /\ tables d' = tables d1 /\ is_Ok r = false) \/
                  (r = Ok tt /\ becomes (forgotten o (mg_ID m)) d1 d')
        end
    end
}.

(** ** pkg/db/migrations.go *)

(** A loop that returns the first error. *)
Fixpoint for_each {D A} (xs : list A) (f : A -> prog D (result error unit)) : prog D (result error unit) :=
  match xs with
  | [] => mret (Ok tt)
  | x :: xs => try_bind (f x) (fun _ => for_each xs f)
  end.

Section operations.
Context {D : Type} `{Database D, Gormigrate D}.

(** [glog.Fatalf] ends the process: [Err] is its message. *)
Definition or_die {A} (msg : string) (m : prog D (result error A)) : prog D (result string A) :=
  with_err (fun err => msg +:+ ": " +:+ Error err) m.

Section migration.
Context (o : gormOptions) (migrations : list (migration D)).

Definition Migrate : prog D (result string unit) := or_die "Could not migrate" (gm_Migrate o migrations).
Definition MigrateTo (id : string) : prog D (result string unit) := or_die "Could not migrate" (gm_MigrateTo o migrations id).
Definition RollbackTo (id : string) : prog D (result string unit) := or_die "Could not migrate" (gm_RollbackTo o migrations id).

Definition CountMigrationsApplied : prog D (result string Z) :=
  b ← HasTable (TableName o);
  if (b : bool) then or_die "Could not get migration count" (ScanCount (TableName o)) else mret (Ok 0).

Definition deleteMigrationTableIfEmpty : prog D (result string unit) :=
  b ← HasTable (TableName o);
  if (b : bool) then
    result ←? CountMigrationsApplied;
    if result =? 0 then or_die "Could not drop migration table" (DropTable (TableName o)) else mret (Ok tt)
  else mret (Ok tt).

Definition RollbackLast : prog D (result string unit) :=
  _ ←? or_die "Could not migrate" (gm_RollbackLast o migrations);
  deleteMigrationTableIfEmpty.

(** The loop of RollbackAll, [None] when the fuel did not suffice. *)
Fixpoint rollback_loop (fuel : nat) : prog D (option (result string unit)) :=
  match fuel with
  | O => mret None
  | S fuel =>
      r ← ScanID (TableName o);
      match r with
      | Err _ => mret (Some (Ok tt))
      | Ok id =>
          if bool_decide (id = "") then mret (Some (Ok tt)) else
          r ← or_die "Could not rollback last migration" (gm_RollbackLast o migrations);
          match r with Err msg => mret (Some (Err msg)) | Ok _ => rollback_loop fuel end
      end
  end.

Definition RollbackAll (fuel : nat) : prog D (option (result string unit)) :=
  r ← rollback_loop fuel;
  match r with
  | Some (Ok _) => r ← deleteMigrationTableIfEmpty; mret (Some r)
  | r => mret r
  end.
End migration.

(** *** Actions

    [caller] is the position of the call, and [order] the order in which Go ranges
    over the map of the fields. *)

Definition MigrationAction := bool -> prog D (result error unit).

Definition CreateTableAction (caller : string) (t : model) : MigrationAction := fun apply =>
  with_err (EWrap caller) (if apply then AutoMigrate t else DropTable (m_type t)).

Definition AddTableColumnsAction (caller : string) (order : list field) (t : model) : MigrationAction := fun apply =>
  for_each order (fun f => with_err (EWrap caller) (if apply then AddColumn t (f_name f) else DropColumn t (f_name f))).

(** The optional name of the table replaces the one of the schema, which gorm caches; that
    later uses of the same struct see it too is not modelled. *)
Definition DropTableColumnsAction (caller : string) (order : list field) (t : model) (tableName : option string) : MigrationAction := fun apply =>
  let t := mkModel (default (m_type t) tableName) (m_fields t) in
  for_each order (fun f => with_err (EWrap caller) (if apply then DropColumn t (f_name f) else AddColumn t (f_name f))).

Definition ExecAction (caller applySQL unapplySQL : string) : MigrationAction := fun apply =>
  let sql := if apply then applySQL else unapplySQL in
  if bool_decide (sql = "") then mret (Ok tt) else with_err (EWrap caller) (Exec sql).

Definition FuncAction (caller : string) (applyFunc unapplyFunc : prog D (result error unit)) : MigrationAction := fun apply =>
  with_err (EWrap caller) (if apply then applyFunc else unapplyFunc).

Definition CreateMigrationFromActions (id : string) (actions : list MigrationAction) : migration D :=
  mkMigration id (for_each actions (fun action => action true)) (for_each (reverse actions) (fun action => action false)).
End operations.

(** ** The migrations (internal/dinosaur/pkg/migrations) *)

Definition dinosaurLeaseTypes : list string :=
  ["accepted_dinosaur"; "preparing_dinosaur"; "provisioning_dinosaur"; "deleting_dinosaur"; "ready_dinosaur"; "dinosaur_dns";
   "general_dinosaur_worker"].
Definition clusterLeaseTypes : list string := ["cluster"].
Definition centralAuthLeaseType : string := "central_auth_config".
Definition initialCentralDefaultVersion : string := "quay.io/rhacs-eng/stackrox-operator:3.74.1".

(** [db.DinosaurAdditionalLeasesExpireTime], set when the process starts. *)
Definition DinosaurAdditionalLeasesExpireTime (processStart : Z) : Z := processStart + 60 * second.

Section migrations.
Context {D : Type} `{Database D}.
Variable (processStart : Z).

Definition no_error : prog D (result error unit) := mret (Ok tt).

(** The row of an [api.LeaderLease]. *)
Definition lease_row (leaseType leader : string) (expires : Z) : row :=
  <["Expires" := VTime expires]> (<["LeaseType" := VText leaseType]> {["Leader" := VText leader]}).

(** [tx.Create(&api.LeaderLease{...})] *)
Definition create_lease (expires : Z) (leaseType : string) : prog D (result error unit) :=
  leader ← FreshID; CreateRow api_LeaderLease (lease_row leaseType leader expires).

Definition addCentralRequest : migration D :=
  mkMigration "20220114114500"
    (with_err (Errorf_w "migrating 20220114114500") (AutoMigrate addCentralRequest_CentralRequest))
    (with_err (Errorf_w "rolling back 20220114114500") (DropTable (m_type addCentralRequest_CentralRequest))).

Definition addClusters : migration D :=
  mkMigration "20220114114501"
    (with_err (Errorf_w "migrating 20220114114501") (AutoMigrate addClusters_Cluster))
    (with_err (Errorf_w "rolling back 20220114114501") (DropTable (m_type addClusters_Cluster))).

Definition addLeaderLease : migration D :=
  mkMigration "20220114114503"
    (_ ←? with_err (Errorf_w "migrating 20220114114503") (AutoMigrate addLeaderLease_LeaderLease);
     n ← Clock;
     let clusterLeaseExpireTime := n + 60 * second in
     _ ←? for_each clusterLeaseTypes (create_lease clusterLeaseExpireTime);
     for_each dinosaurLeaseTypes (create_lease (DinosaurAdditionalLeasesExpireTime processStart)))
    (with_err (Errorf_w "rolling back 20220114114503") (DropTable (m_type addLeaderLease_LeaderLease))).

Definition sampleMigration : migration D := mkMigration "20220114115000" no_error no_error.

Definition addOwnerUserIDToCentralRequest : migration D :=
  mkMigration "20220630220500"
    (with_err (Errorf_w "migrating 20220630220500") (AddColumn addOwnerUserIDToCentralRequest_CentralRequest "OwnerUserID"))
    (with_err (Errorf_w "rolling back 20220630220500") (DropColumn addOwnerUserIDToCentralRequest_CentralRequest "OwnerUserID")).

(** The loops over the new columns of two migrations. *)
Definition add_each (m : model) (newColumns : list string) : prog D (result error unit) :=
  for_each newColumns (fun col => with_err (Errorf_w (Sprintf "adding new column %q" [VStr col])) (AddColumn m col)).
Definition drop_each (m : model) (newColumns : list string) : prog D (result error unit) :=
  for_each newColumns (fun col => with_err (Errorf_w (Sprintf "removing column %q" [VStr col])) (DropColumn m col)).

Definition addResourcesToCentralRequest : migration D :=
  let newColumns := ["Central"; "Scanner"] in
  mkMigration "20220728000000"
    (add_each addResourcesToCentralRequest_CentralRequest newColumns)
    (drop_each addResourcesToCentralRequest_CentralRequest newColumns).

Definition addAuthConfigToCentralRequest : migration D :=
  let newColumns := ["ClientID"; "ClientSecret"; "Issuer"] in
  mkMigration "20220826000000"
    (add_each addAuthConfigToCentralRequest_CentralRequest newColumns)
    (drop_each addAuthConfigToCentralRequest_CentralRequest newColumns).

Definition addCentralAuthLease : migration D :=
  mkMigration "202209141000"
    (create_lease (DinosaurAdditionalLeasesExpireTime processStart) centralAuthLeaseType)
    no_error.

Definition addSkipSchedulingToClusters : migration D :=
  mkMigration "20220916000000"
    (with_err (Errorf_w "migrating 20220916000000") (AutoMigrate addSkipSchedulingToClusters_Cluster))
    (with_err (Errorf_w "rolling back 20220916000000") (DropColumn addSkipSchedulingToClusters_Cluster "SkipScheduling")).

(** [client_origin IS NULL] and [client_origin = ?] *)
Definition origin_is_null (r : row) : bool := bool_decide (r !! "ClientOrigin" = None).
Definition origin_is (s : string) (r : row) : bool := bool_decide (r !! "ClientOrigin" = Some (VText s)).

Definition addClientOriginToCentralRequest : migration D :=
  mkMigration "202210051700"
    (_ ←? with_err (Errorf_w "adding new colum ClientOrigin in migration 202210051700")
            (AddColumn addClientOriginToCentralRequest_CentralRequest "ClientOrigin");
     with_err (Errorf_w "setting shared_static_sso as initial value for new column ClientOrigin in migration 202210051700")
       (UpdateRows addClientOriginToCentralRequest_CentralRequest origin_is_null "ClientOrigin" (VText "shared_static_sso")))
    (with_err (Errorf_w "rolling back new column ClientOrigin in migration 202210051700")
       (DropColumn addClientOriginToCentralRequest_CentralRequest "ClientOrigin")).

Definition changeCentralClientOrigin : migration D :=
  mkMigration "202210271100"
    (with_err (Errorf_w "setting shared_static_rhsso instead of shared_static_sso as value for ClientOrigin in migration 202210271100")
       (UpdateRows changeCentralClientOrigin_CentralRequest (origin_is "shared_static_sso") "ClientOrigin" (VText "shared_static_rhsso")))
    no_error.

Definition addCloudAccountIDToCentralRequest : migration D :=
  mkMigration "202210311200"
    (with_err (Errorf_w "adding new column CloudAccountID in migration 202210311200")
       (AddColumn addCloudAccountIDToCentralRequest_CentralRequest "CloudAccountID"))
    (with_err (Errorf_w "rolling back new column CloudAccountID in migration 202210311200")
       (DropColumn addCloudAccountIDToCentralRequest_CentralRequest "CloudAccountID")).

(** The guarded changes of one column that the later migrations make. *)
Definition add_if_missing (m : model) (colName : string) (msg : string) : prog D (result error unit) :=
  b ← HasColumn m colName;
  if (b : bool) then mret (Ok tt) else with_err (EWrap msg) (AddColumn m colName).
Definition drop_if_present (m : model) (colName : string) (msg : string) : prog D (result error unit) :=
  b ← HasColumn m colName;
  if (b : bool) then with_err (EWrap msg) (DropColumn m colName) else mret (Ok tt).

Definition addOrganisationNameToCentralRequest : migration D :=
  let id := "202212150000" in
  let colName := "OrganisationName" in
  mkMigration id
    (add_if_missing addOrganisationNameToCentralRequest_CentralRequest colName
       (Sprintf "adding column %q in migration %q" [VStr colName; VStr id]))
    (drop_if_present addOrganisationNameToCentralRequest_CentralRequest colName
       (Sprintf "rolling back column %q in migration %q" [VStr colName; VStr id])).

Definition addInternalToCentralRequest : migration D :=
  let id := "202301301200" in
  let colName := "Internal" in
  mkMigration id
    (add_if_missing addInternalToCentralRequest_CentralRequest colName
       (Sprintf "adding column %s in migration %s" [VStr colName; VStr id]))
    (drop_if_present addInternalToCentralRequest_CentralRequest colName
       (Sprintf "rolling back from column %s in migration %s" [VStr colName; VStr id])).

Definition addCentralDefaultVersion : migration D :=
  let migrationID := "20230321000000" in
  mkMigration migrationID
    (_ ←? with_err (Errorf_w (Sprintf "migrating %s" [VStr migrationID])) (AutoMigrate addCentralDefaultVersion_CentralDefaultVersion);
     with_err (Errorf_w (Sprintf "migrating %s" [VStr migrationID]))
       (CreateRow addCentralDefaultVersion_CentralDefaultVersion {["Version" := VText initialCentralDefaultVersion]}))
    (with_err (Errorf_w "rolling back 20230321000000") (DropTable (m_type addCentralDefaultVersion_CentralDefaultVersion))).

Definition dropSkipSchedulingFromClusters : migration D :=
  let id := "202303221200" in
  let colName := "SkipScheduling" in
  mkMigration id
    (drop_if_present dropSkipSchedulingFromClusters_Cluster colName
       (Sprintf "rolling back from column %s in migration %s" [VStr colName; VStr id]))
    (add_if_missing dropSkipSchedulingFromClusters_Cluster colName
       (Sprintf "adding column %s in migration %s" [VStr colName; VStr id])).

Definition addSchedulableToClusters : migration D :=
  let id := "202303231200" in
  let colName := "Schedulable" in
  mkMigration id
    (add_if_missing addSchedulableToClusters_Cluster colName
       (Sprintf "adding column %s in migration %s" [VStr colName; VStr id]))
    (drop_if_present addSchedulableToClusters_Cluster colName
       (Sprintf "rolling back from column %s in migration %s" [VStr colName; VStr id])).

Definition getMigrations : list (migration D) :=
  [ addCentralRequest; addClusters; addLeaderLease; sampleMigration; addOwnerUserIDToCentralRequest; addResourcesToCentralRequest;
    addAuthConfigToCentralRequest; addCentralAuthLease; addSkipSchedulingToClusters; addClientOriginToCentralRequest;
    changeCentralClientOrigin; addCloudAccountIDToCentralRequest; addOrganisationNameToCentralRequest; addInternalToCentralRequest;
    addCentralDefaultVersion; dropSkipSchedulingFromClusters; addSchedulableToClusters ].
End migrations.

(** The options that [migrations.New] passes. *)
Definition New_options : gormOptions := mkOptions "migrations" "id" 255 false.

(** ** A database in memory

    An instance of the two classes, on which the definitions run. *)

Record memdb := mkMemdb { md_tables : tableset; md_clock : Z; md_fail : list bool }.

Definition memdb_down : error := EPlain "connection refused".
Definition memdb_refused : error := EPlain "statement refused".

(** A statement: it fails when the schedule says so. *)
Definition md_stmt (pre : tableset -> bool) (eff : tableset -> tableset) : prog memdb (result error unit) := fun d =>
  match md_fail d with
  | true :: fs => (mkMemdb (md_tables d) (md_clock d) fs, Err memdb_down)
  | fs => if pre (md_tables d) then (mkMemdb (eff (md_tables d)) (md_clock d) (tail fs), Ok tt)
          else (mkMemdb (md_tables d) (md_clock d) (tail fs), Err memdb_refused)
  end.

Definition md_update (p : row -> bool) (name : string) (v : dbval) (t : table) : table :=
  mkTable (t_columns t) ((fun r => if p r && bool_decide (r !! "DeletedAt" = None) then <[name := v]> r else r) <$> t_rows t).

#[export] Instance memdb_database : Database memdb := {|
  tables := md_tables;
  online d := Forall (fun b => b = false) (md_fail d);
  AutoMigrate m := md_stmt (types_agree m) (automigrated m);
  AddColumn m name := md_stmt (can_add m name) (column_added m name);
  DropColumn m name := md_stmt (fun ts => has_column ts (m_type m) name) (alter (drop_column name) (m_type m));
  HasColumn m name := fun d => (d, has_column (md_tables d) (m_type m) name);
  DropTable name := md_stmt (fun _ => true) (delete name);
  HasTable name := fun d => (d, bool_decide (is_Some (md_tables d !! name)));
  CreateRow m r := md_stmt (fun ts => has_columns m ts && row_fits m r) (alter (append_row r) (m_type m));
  UpdateRows m p name v := md_stmt (fun ts => has_column ts (m_type m) name) (alter (md_update p name v) (m_type m));
  Exec _ := md_stmt (fun _ => false) id;
  ScanID name := fun d => (d, match md_tables d !! name with Some t => Ok (default "" (head (ids t))) | None => Err memdb_refused end);
  ScanCount name := fun d => (d, match md_tables d !! name with Some t => Ok (Z.of_nat (length (ids t))) | None => Err memdb_refused end);
  Clock := fun d => (d, md_clock d);
  FreshID := fun d => (d, "b2c1f0d4-55a7-4c4a-8a53-0d9d2a1f6c11")
|}.

Section laws.
Implicit Types (d : memdb).

Lemma md_stmt_statement pre eff (R : tableset -> tableset -> Prop) :
  (forall ts, pre ts = true -> R ts (eff ts)) -> statement (md_stmt pre eff) pre R.
Proof.
  intros HR d. unfold md_stmt. destruct d as [ts n [|[] fs]]; simpl.
  - destruct (pre ts) eqn:E; simpl; split; auto. intros _. split; [done|congruence].
  - split; [done|]. intros Hf. by inversion Hf.
  - destruct (pre ts) eqn:E; simpl; (split; [auto|]); intros Hf; inversion Hf; subst; (split; [done|congruence]).
Qed.

Lemma pure_reads {A} (f : memdb -> A) (ans : tableset -> A -> Prop) :
  (forall d, ans (md_tables d) (f d)) -> reads (fun d => (d, f d)) ans.
Proof. intros Hf d. simpl. auto. Qed.
End laws.

#[export] Instance memdb_laws : DatabaseLaws memdb.
Proof.
  split.
  - intros m. by apply md_stmt_statement.
  - intros m name. by apply md_stmt_statement.
  - intros m name. by apply md_stmt_statement.
  - intros name. by apply md_stmt_statement.
  - intros m r. apply md_stmt_statement. intros ts [_ Hfit]%andb_true_iff. by exists r.
  - intros m p name v. apply md_stmt_statement. intros ts Hc. unfold has_column in Hc.
    destruct (ts !! m_type m) as [t|] eqn:Ht; [|done]. exists t, (t_rows (md_update p name v t)). split_and!; [done| |].
    + simpl. apply Forall2_fmap_r, Forall_Forall2_diag, Forall_forall. intros r _. unfold updated_row. simpl. destruct (p r && bool_decide (r !! "DeletedAt" = None)) ; reflexivity.
    + apply map_eq. intros T. destruct (decide (m_type m = T)) as [<-|Hne].
      * by rewrite lookup_alter_eq, lookup_insert_eq, Ht.
      * by rewrite lookup_alter_ne, lookup_insert_ne.
  - intros m name. by apply pure_reads.
  - intros name. by apply pure_reads.
  - intros name. apply pure_reads. intros d. destruct (md_tables d !! name) as [t|]; [|done].
    eexists. split; [done|]. destruct (ids t) as [|s l]; [by right|by left; left].
  - intros name. apply pure_reads. intros d. by destruct (md_tables d !! name).
  - by apply pure_reads.
  - by apply pure_reads.
Qed.

(** *** The migrator *)

Section migrator.
Variable (o : gormOptions).

Fixpoint md_pending (ms : list (migration memdb)) : prog memdb (result error unit) :=
  match ms with
  | [] => mret (Ok tt)
  | m :: ms => fun d =>
      if applied o d m then md_pending ms d
      else (try_bind (mg_Migrate m) (fun _ => try_bind (md_stmt (fun _ => true) (recorded o (mg_ID m))) (fun _ => md_pending ms))) d
  end.

Definition md_Migrate (ms : list (migration memdb)) : prog memdb (result error unit) :=
  try_bind (md_stmt (fun _ => true) (automigrated (migrations_table o))) (fun _ => md_pending ms).

Definition md_RollbackLast (ms : list (migration memdb)) : prog memdb (result error unit) := fun d =>
  match last_applied o ms d with
  | None => (d, Err (EPlain "gormigrate: Could not find last run migration"))
  | Some m => try_bind (mg_Rollback m) (fun _ => md_stmt (fun _ => true) (forgotten o (mg_ID m))) d
  end.

(** The outcomes of a statement that needs nothing. *)
Lemma md_stmt_cases eff d :
  let '(d', r) := md_stmt (fun _ => true) eff d in
  (r = Ok tt /\ becomes eff d d') \/ (~ online d /\ tables d' = tables d /\ is_Ok r = false).
Proof.
  unfold md_stmt, becomes. destruct d as [ts n [|[] fs]]; simpl; [by left|..].
  - right. split; [|done]. intros Hf. by inversion Hf.
  - left. split_and!; [done..|]. intros Hf. by inversion Hf.
Qed.

Lemma md_pending_run ms d : run_pending o ms d (md_pending ms d).1 (md_pending ms d).2.
Proof.
  revert d. induction ms as [|m ms IH]; intros d; [apply run_none|]. cbn [md_pending].
  destruct (applied o d m) eqn:Ha; [by apply run_skip|]. unfold try_bind. rewrite prog_bind_run.
  destruct (mg_Migrate m d) as [d1 [[]|e]] eqn:Hm; simpl.
  - rewrite prog_bind_run. pose proof (md_stmt_cases (recorded o (mg_ID m)) d1) as Hs.
    destruct (md_stmt _ _ d1) as [d2 [[]|e]]; simpl.
    + destruct Hs as [[_ Hb]|(_ & _ & Hr)]; [|done]. eapply run_one; [done|by rewrite Hm|by rewrite Hm|apply IH].
    + destruct Hs as [[Hr _]|(Hoff & Ht & _)]; [done|]. eapply run_unrecorded; [done|by rewrite Hm..].
  - replace d1 with (mg_Migrate m d).1 by (by rewrite Hm). apply run_fails; [done|by rewrite Hm].
Qed.
End migrator.

#[export] Instance memdb_gormigrate : Gormigrate memdb := {|
  gm_Migrate := md_Migrate;
  gm_MigrateTo _ _ _ := mret (Err memdb_refused);
  gm_RollbackLast := md_RollbackLast;
  gm_RollbackTo _ _ _ := mret (Err memdb_refused)
|}.

#[export] Instance memdb_gormigrate_laws : GormigrateLaws memdb.
Proof.
  split.
  - intros o ms d _ _. simpl. unfold md_Migrate, try_bind. rewrite prog_bind_run.
    pose proof (md_stmt_cases (automigrated (migrations_table o)) d) as Hs. destruct (md_stmt _ _ d) as [d1 [[]|e]]; simpl.
    + destruct Hs as [[_ Hb]|(_ & _ & Hr)]; [|done]. pose proof (md_pending_run o ms d1) as Hp.
      destruct (md_pending o ms d1) as [d' r]. right. by exists d1.
    + destruct Hs as [[Hr _]|Hs]; [done|]. by left.
  - intros o ms d _. simpl. unfold md_RollbackLast. destruct (last_applied o ms d) as [m|]; [|done].
    unfold try_bind. rewrite prog_bind_run. destruct (mg_Rollback m d) as [d1 [[]|e]]; simpl; [|by right].
    pose proof (md_stmt_cases (forgotten o (mg_ID m)) d1) as Hs. destruct (md_stmt _ _ d1) as [d2 r].
    right. destruct Hs as [Hs|Hs]; [by right|by left].
Qed.

(** A new database. *)
Definition new_database : memdb := mkMemdb ∅ 1000 [].
