(* ===== verification/MigrationsProps.v ===== *)
(** * The migrations are correct

    Programs over a database that answers are run on an abstraction of its tables:
    the columns, and of each row the values that are known.  The effects of the
    statements respect the abstraction, so that a migration of the abstraction, which
    computes, tells what the migration does to the database. *)

From S2P Require Import Prelude GoString GoFmt ServiceErrors World Effects LeaderElection Schema Migrations.
Local Open Scope string_scope.
Local Open Scope Z_scope.

(** ** Abstractions of tables *)

(** [r0] has values of [r], and its identifier in a table of migrations. *)
Definition row_abs (r0 r : row) : Prop := r0 ⊆ r /\ r0 !! "id" = r !! "id".

Definition table_abs (t0 t : table) : Prop := t_columns t0 = t_columns t /\ Forall2 row_abs (t_rows t0) (t_rows t).

Definition abstracts (ts0 ts : tableset) : Prop := forall T, option_Forall2 table_abs (ts0 !! T) (ts !! T).

Section abstraction.
Implicit Types (ts : tableset) (t : table).

Lemma row_abs_insert k v r0 r : row_abs r0 r -> row_abs (<[k := v]> r0) (<[k := v]> r).
Proof.
  intros [Hs Hi]. split; [by apply insert_mono|].
  destruct (decide (k = "id")) as [->|Hk]; [by rewrite !lookup_insert_eq|by rewrite !lookup_insert_ne].
Qed.

Lemma row_abs_delete k r0 r : row_abs r0 r -> row_abs (delete k r0) (delete k r).
Proof.
  intros [Hs Hi]. split; [by apply delete_mono|].
  destruct (decide (k = "id")) as [->|Hk]; [by rewrite !lookup_delete_eq|by rewrite !lookup_delete_ne].
Qed.

Lemma abs_alter (f : table -> table) T ts0 ts :
  (forall t0 t, table_abs t0 t -> table_abs (f t0) (f t)) -> abstracts ts0 ts -> abstracts (alter f T ts0) (alter f T ts).
Proof.
  intros Hf Ha T'. specialize (Ha T'). destruct (decide (T = T')) as [->|Hne].
  - rewrite !lookup_alter_eq. destruct Ha; constructor; auto.
  - by rewrite !lookup_alter_ne.
Qed.

Lemma abs_insert T t0 t ts0 ts : table_abs t0 t -> abstracts ts0 ts -> abstracts (<[T := t0]> ts0) (<[T := t]> ts).
Proof.
  intros Ht Ha T'. specialize (Ha T'). destruct (decide (T = T')) as [->|Hne].
  - rewrite !lookup_insert_eq. by constructor.
  - by rewrite !lookup_insert_ne.
Qed.

Lemma abs_delete T ts0 ts : abstracts ts0 ts -> abstracts (delete T ts0) (delete T ts).
Proof.
  intros Ha T'. specialize (Ha T'). destruct (decide (T = T')) as [->|Hne].
  - rewrite !lookup_delete_eq. constructor.
  - by rewrite !lookup_delete_ne.
Qed.

Lemma abs_add_column f t0 t : table_abs t0 t -> table_abs (add_column f t0) (add_column f t).
Proof.
  intros [Hc Hr]. split; simpl; [by rewrite Hc|]. apply Forall2_fmap. eapply Forall2_impl; [exact Hr|].
  intros r0 r Hrr. unfold fill_default. destruct (f_tag f); [exact Hrr..|by apply row_abs_insert|exact Hrr].
Qed.

Lemma abs_drop_column c t0 t : table_abs t0 t -> table_abs (drop_column c t0) (drop_column c t).
Proof.
  intros [Hc Hr]. split; simpl; [by rewrite Hc|]. apply Forall2_fmap. eapply Forall2_impl; [exact Hr|].
  intros r0 r Hrr. by apply row_abs_delete.
Qed.

Lemma abs_append r0 r t0 t : row_abs r0 r -> table_abs t0 t -> table_abs (append_row r0 t0) (append_row r t).
Proof. intros Hrr [Hc Hr]. split; [done|]. by apply Forall2_app; [|constructor]. Qed.

Lemma abs_lookup ts0 ts T : abstracts ts0 ts -> table_abs (default (mkTable ∅ []) (ts0 !! T)) (default (mkTable ∅ []) (ts !! T)).
Proof. intros Ha. destruct (Ha T); simpl; [done|by split]. Qed.

Lemma abs_automigrated m ts0 ts : abstracts ts0 ts -> abstracts (automigrated m ts0) (automigrated m ts).
Proof.
  intros Ha. apply abs_insert; [|done]. pose proof (abs_lookup ts0 ts (m_type m) Ha) as Ht. revert Ht.
  generalize (default (mkTable ∅ []) (ts0 !! m_type m)) (default (mkTable ∅ []) (ts !! m_type m)).
  induction (FieldsByDBName m) as [|f fs IH]; intros t0 t Ht; simpl; [done|]. apply IH.
  unfold add_missing. rewrite (proj1 Ht). case_match; [done|by apply abs_add_column].
Qed.

Lemma abs_column_added m c ts0 ts : abstracts ts0 ts -> abstracts (column_added m c ts0) (column_added m c ts).
Proof. intros Ha. unfold column_added. case_match; [|done]. apply abs_alter; [apply abs_add_column|done]. Qed.

(** What is known of the rows after an update of column [c]. *)
Definition update_known (c : string) (t : table) : table := mkTable (t_columns t) (delete "UpdatedAt" ∘ delete c <$> t_rows t).

Lemma abs_updated_row p c v r0 r r' :
  c <> "id" -> row_abs r0 r -> updated_row p c v r r' -> row_abs (delete "UpdatedAt" (delete c r0)) r'.
Proof.
  intros Hc [Hs Hi] Hu. unfold updated_row in Hu.
  assert (Hl : forall k, k <> "UpdatedAt" -> k <> c -> r' !! k = r !! k).
  { intros k Hk1 Hk2. destruct (p r && _); [|by subst].
    assert (Hk := f_equal (.!! k) Hu). simpl in Hk. by rewrite !lookup_delete_ne, lookup_insert_ne in Hk by done. }
  split.
  - apply map_subseteq_spec. intros k x [Hk1 [Hk2 Hx]%lookup_delete_Some]%lookup_delete_Some.
    rewrite Hl by done. by eapply lookup_weaken.
  - rewrite !lookup_delete_ne by done. by rewrite Hl.
Qed.

Lemma abs_updated p c v T t rs ts0 ts :
  c <> "id" -> ts !! T = Some t -> Forall2 (updated_row p c v) (t_rows t) rs -> abstracts ts0 ts ->
  abstracts (alter (update_known c) T ts0) (<[T := mkTable (t_columns t) rs]> ts).
Proof.
  intros Hc Ht Hrs Ha T'. specialize (Ha T'). destruct (decide (T = T')) as [->|Hne].
  - rewrite lookup_alter_eq, lookup_insert_eq. rewrite Ht in Ha. inversion Ha as [t0 ? [Hcols Hr] E1 E2|]; subst. simpl.
    constructor. split; [done|]. simpl. clear -Hc Hr Hrs. revert rs Hrs.
    induction Hr as [|r0 r l0 l Hrr _ IH]; intros rs Hrs; inversion Hrs; subst; simpl; constructor; [by eapply abs_updated_row|by apply IH].
  - rewrite lookup_alter_ne, lookup_insert_ne by done. exact Ha.
Qed.

Lemma abs_ids t0 t : table_abs t0 t -> ids t0 = ids t.
Proof.
  intros [_ Hr]. unfold ids. induction Hr as [|r0 r l0 l [_ Hi] _ IH]; [done|].
  cbn. rewrite Hi. destruct (r !! "id") as [[]|]; [f_equal|..]; exact IH.
Qed.

Lemma abs_applied o ts0 ts : abstracts ts0 ts -> applied_ids o ts0 = applied_ids o ts.
Proof. intros Ha. unfold applied_ids. destruct (Ha (TableName o)); [by apply abs_ids|done]. Qed.

Lemma abs_recorded o id ts0 ts : abstracts ts0 ts -> abstracts (recorded o id ts0) (recorded o id ts).
Proof. intros Ha. apply abs_alter; [|done]. intros. by apply abs_append. Qed.

Lemma abs_forgotten o id ts0 ts : abstracts ts0 ts -> abstracts (forgotten o id ts0) (forgotten o id ts).
Proof.
  intros Ha. apply abs_alter; [|done]. intros t0 t [Hc Hr]. split; [done|]. simpl. clear Hc.
  induction Hr as [|r0 r l0 l Hrr _ IH]; [constructor|]. rewrite !filter_cons. destruct Hrr as [Hs Hi].
  rewrite <- Hi. case_decide; [by constructor|done].
Qed.

Lemma abs_has_column ts0 ts T c : abstracts ts0 ts -> has_column ts0 T c = has_column ts T c.
Proof. intros Ha. unfold has_column. destruct (Ha T) as [t0 t [-> _]|]; done. Qed.

Lemma abs_is_Some ts0 ts T : abstracts ts0 ts -> bool_decide (is_Some (ts0 !! T)) = bool_decide (is_Some (ts !! T)).
Proof. intros Ha. apply bool_decide_ext. destruct (Ha T); [by split|done]. Qed.

Lemma abs_types_agree m ts0 ts : abstracts ts0 ts -> types_agree m ts0 = types_agree m ts.
Proof. intros Ha. unfold types_agree. by rewrite (proj1 (abs_lookup _ _ (m_type m) Ha)). Qed.

Lemma abs_can_add m c ts0 ts : abstracts ts0 ts -> can_add m c ts0 = can_add m c ts.
Proof. intros Ha. unfold can_add. by rewrite (abs_is_Some ts0 ts), (abs_has_column ts0 ts). Qed.

Lemma abs_has_columns m ts0 ts : abstracts ts0 ts -> has_columns m ts0 = has_columns m ts.
Proof.
  intros Ha. unfold has_columns. rewrite (abs_is_Some ts0 ts) by done. f_equal.
  induction (FieldsByDBName m) as [|f fs IH]; [done|]. simpl. by rewrite (abs_has_column ts0 ts), IH.
Qed.
End abstraction.

(** ** Running programs on the abstraction *)

Section simulation.
Context {D : Type} `{Database D, !DatabaseLaws D}.

(** On a database that answers and that [ts0] abstracts, the program succeeds and
    ends in one that answers and that [ts1] abstracts. *)
Definition sim {E} (p : prog D (result E unit)) (ts0 ts1 : tableset) : Prop :=
  forall d, online d -> abstracts ts0 (tables d) -> wp p (fun d' r => r = Ok tt /\ online d' /\ abstracts ts1 (tables d')) d.

Lemma sim_ret {E} ts : sim (E := E) (mret (Ok tt)) ts ts.
Proof. by intros d Hd Ha. Qed.

Lemma sim_try {E} (p q : prog D (result E unit)) a b c : sim p a b -> sim q b c -> sim (try_bind p (fun _ => q)) a c.
Proof.
  intros Hp Hq d Hd Ha. apply wp_try. eapply wp_mono; [by apply Hp|].
  intros d' r (-> & Hd' & Hb). by apply Hq.
Qed.

Lemma sim_with_err {E E'} (f : E -> E') (p : prog D (result E unit)) a b : sim p a b -> sim (with_err f p) a b.
Proof. intros Hp d Hd Ha. apply wp_with_err. eapply wp_mono; [by apply Hp|]. by intros d' r (-> & Hd' & Hb). Qed.

Lemma sim_statement (m : prog D (result error unit)) pre eff ts0 ts1 :
  statement m pre eff -> (forall ts, abstracts ts0 ts -> pre ts = true) ->
  (forall ts ts', abstracts ts0 ts -> eff ts ts' -> abstracts ts1 ts') -> sim m ts0 ts1.
Proof.
  intros Hm Hpre Heff d Hd Ha. specialize (Hm d). unfold wp. destruct (m d) as [d' r]. simpl.
  destruct Hm as [Hr Hon]. destruct (Hon Hd) as [Hd' Hok]. rewrite Hok in Hr |- * by (by apply Hpre).
  destruct Hr as [_ Hr]. eauto.
Qed.

Lemma sim_AutoMigrate m ts : types_agree m ts = true -> sim (AutoMigrate m) ts (automigrated m ts).
Proof.
  intros Hok. eapply sim_statement; [apply AutoMigrate_law|..].
  - intros ts' Ha. cbv beta. by rewrite <- (abs_types_agree m ts).
  - intros ts1 ts2 Ha ->. by apply abs_automigrated.
Qed.

Lemma sim_AddColumn m c ts : can_add m c ts = true -> sim (AddColumn m c) ts (column_added m c ts).
Proof.
  intros Hok. eapply sim_statement; [apply AddColumn_law|..].
  - intros ts' Ha. cbv beta. by rewrite <- (abs_can_add m c ts).
  - intros ts1 ts2 Ha ->. by apply abs_column_added.
Qed.

Lemma sim_DropColumn m c ts :
  has_column ts (m_type m) c = true -> sim (DropColumn m c) ts (alter (drop_column c) (m_type m) ts).
Proof.
  intros Hok. eapply sim_statement; [apply DropColumn_law|..].
  - intros ts' Ha. cbv beta. by rewrite <- (abs_has_column ts).
  - intros ts1 ts2 Ha ->. apply abs_alter; [apply abs_drop_column|done].
Qed.

Lemma sim_DropTable T ts : sim (DropTable T) ts (delete T ts).
Proof. eapply sim_statement; [apply DropTable_law|done|]. intros ts1 ts2 Ha ->. by apply abs_delete. Qed.

(** Only [r0] of the new row is remembered. *)
Lemma sim_CreateRow m r0 r ts :
  has_columns m ts = true -> row_fits m r = true -> columns_of m !! "id" = None -> r0 ⊆ r ->
  sim (CreateRow m r) ts (alter (append_row r0) (m_type m) ts).
Proof.
  intros Hok Hfit Hid Hsub. eapply sim_statement; [apply CreateRow_law|..].
  - intros ts' Ha. cbv beta. by rewrite <- (abs_has_columns m ts), Hok, Hfit.
  - intros ts1 ts2 Ha (r' & Hr & Hfit'%bool_decide_eq_true & ->).
    assert (Hnone : r' !! "id" = None).
    { apply not_elem_of_dom. intros Hin%Hfit'. by apply not_elem_of_dom in Hid. }
    assert (Hr0 : r0 ⊆ r') by (by etransitivity).
    intros T. specialize (Ha T). destruct (decide (m_type m = T)) as [->|Hne]; [|by rewrite !lookup_alter_ne].
    rewrite !lookup_alter_eq. destruct Ha as [t0 t Ht|]; constructor. apply abs_append; [|done]. split; [done|].
    rewrite Hnone. destruct (r0 !! "id") eqn:E; [|done]. eapply lookup_weaken in E; [|done]. congruence.
Qed.

Lemma sim_UpdateRows m p c v ts :
  c <> "id" -> has_column ts (m_type m) c = true -> sim (UpdateRows m p c v) ts (alter (update_known c) (m_type m) ts).
Proof.
  intros Hc Hok. eapply sim_statement; [apply UpdateRows_law|..].
  - intros ts' Ha. cbv beta. by rewrite <- (abs_has_column ts).
  - intros ts1 ts2 Ha (t & rs & Ht & Hrs & ->). by eapply abs_updated.
Qed.

Lemma sim_reads {A E} (m : prog D A) ans (k : A -> prog D (result E unit)) a b :
  reads m ans -> (forall x, (forall ts, abstracts a ts -> ans ts x -> sim (k x) a b)) -> sim (m ≫= k) a b.
Proof.
  intros Hm Hk d Hd Ha. apply wp_bind. specialize (Hm d). unfold wp at 1. destruct (m d) as [d' x]. simpl.
  destruct Hm as [Heq Hon]. destruct (Hon Hd) as [Hd' Hx]. apply (Hk x (tables d)); [done..|by rewrite Heq].
Qed.

Lemma sim_HasColumn {E} m c (k : bool -> prog D (result E unit)) a b :
  sim (k (has_column a (m_type m) c)) a b -> sim (HasColumn m c ≫= k) a b.
Proof.
  intros Hk. eapply sim_reads; [apply HasColumn_law|]. intros x ts Ha ->. by rewrite <- (abs_has_column a).
Qed.

Lemma sim_HasTable {E} T (k : bool -> prog D (result E unit)) a b :
  sim (k (bool_decide (is_Some (a !! T)))) a b -> sim (HasTable T ≫= k) a b.
Proof. intros Hk. eapply sim_reads; [apply HasTable_law|]. intros x ts Ha ->. by rewrite <- (abs_is_Some a). Qed.

Lemma sim_Clock {E} (k : Z -> prog D (result E unit)) a b : (forall n, sim (k n) a b) -> sim (Clock ≫= k) a b.
Proof. intros Hk. eapply sim_reads; [apply Clock_law|]. intros x ts _ _. apply Hk. Qed.

Lemma sim_create_lease expires ty ts :
  has_columns api_LeaderLease ts = true ->
  sim (create_lease expires ty) ts (alter (append_row {["LeaseType" := VText ty]}) "LeaderLease" ts).
Proof.
  intros Hok. unfold create_lease. eapply sim_reads; [apply FreshID_law|]. intros leader ts' _ _.
  apply (sim_CreateRow api_LeaderLease); [done| |by vm_compute|].
  - apply bool_decide_eq_true. intros k. unfold lease_row. rewrite !dom_insert, dom_singleton.
    rewrite !elem_of_union, !elem_of_singleton. intros [->|[->| ->]]; by apply elem_of_dom; eexists; vm_compute.
  - unfold lease_row. apply map_singleton_subseteq_l. rewrite lookup_insert_ne by done. apply lookup_insert_eq.
Qed.
End simulation.

Ltac sim_step :=
  lazymatch goal with
  | |- sim (mret (Ok tt)) _ _ => apply sim_ret
  | |- sim no_error _ _ => apply sim_ret
  | |- sim (with_err _ _) _ _ => apply sim_with_err
  | |- sim (try_bind _ _) _ _ => eapply sim_try
  | |- sim (AutoMigrate _) _ _ => apply sim_AutoMigrate; vm_compute; reflexivity
  | |- sim (AddColumn _ _) _ _ => apply sim_AddColumn; vm_compute; reflexivity
  | |- sim (DropColumn _ _) _ _ => apply sim_DropColumn; vm_compute; reflexivity
  | |- sim (DropTable _) _ _ => apply sim_DropTable
  | |- sim (UpdateRows _ _ _ _) _ _ => apply sim_UpdateRows; [done|vm_compute; reflexivity]
  | |- sim (CreateRow _ ?r) _ _ => apply (sim_CreateRow _ r); [vm_compute; reflexivity..|reflexivity]
  | |- sim (create_lease _ _) _ _ => apply sim_create_lease; vm_compute; reflexivity
  | |- sim (HasColumn _ _ ≫= _) _ _ => apply sim_HasColumn
  | |- sim (Clock ≫= _) _ _ => apply sim_Clock; intros ?
  end.

(** The rest of the automation: loops, guards and branches compute. *)
Ltac sim_tac := repeat (sim_step || (progress cbn [for_each clusterLeaseTypes dinosaurLeaseTypes])
  || (progress unfold add_each, drop_each, add_if_missing, drop_if_present)
  || (lazymatch goal with |- sim (if ?b then _ else _) _ _ => let v := eval vm_compute in b in change b with v; cbv iota end)
  || (progress cbv beta zeta)).

(** ** An empty database is migrated to the schema of the program *)

Definition lease_types_installed : list string := clusterLeaseTypes ++ dinosaurLeaseTypes ++ [centralAuthLeaseType].

Definition migration_ids : list string :=
  [ "20220114114500"; "20220114114501"; "20220114114503"; "20220114115000"; "20220630220500"; "20220728000000"; "20220826000000";
    "202209141000"; "20220916000000"; "202210051700"; "202210271100"; "202210311200"; "202212150000"; "202301301200";
    "20230321000000"; "202303221200"; "202303231200" ].

(** The tables that the structs of the program expect, except that two columns of the
    clusters have the type of the migration; one lease of each type, the initial
    version, and a record of every migration. *)
Definition installed : tableset := list_to_map
  [ ("CentralRequest", mkTable (columns_of dbapi_CentralRequest) []);
    ("Cluster", mkTable (<["ProviderSpec" := TString]> (<["ClusterSpec" := TString]> (columns_of api_Cluster))) []);
    ("LeaderLease", mkTable (columns_of api_LeaderLease) ((fun ty => {["LeaseType" := VText ty]}) <$> lease_types_installed));
    ("CentralDefaultVersion",
       mkTable (columns_of dbapi_CentralDefaultVersion) [{["Version" := VText initialCentralDefaultVersion]}]);
    ("migrations", mkTable {["id" := TString]} (id_row <$> migration_ids)) ].

Lemma installed_migrations : installed !! "migrations" = Some (mkTable {["id" := TString]} (id_row <$> migration_ids)).
Proof. vm_compute. reflexivity. Qed.

Lemma installed_ids : applied_ids New_options installed = migration_ids.
Proof. vm_compute. reflexivity. Qed.

Section run.
Context {D : Type} `{Database D, !DatabaseLaws D}.
Implicit Types (m : migration D) (ms : list (migration D)).

Inductive chain (o : gormOptions) : list (migration D) -> tableset -> tableset -> Prop :=
| chain_nil ts : chain o [] ts ts
| chain_skip m ms ts ts' : bool_decide (mg_ID m ∈ applied_ids o ts) = true -> chain o ms ts ts' -> chain o (m :: ms) ts ts'
| chain_run m ms ts ts1 ts' :
    bool_decide (mg_ID m ∈ applied_ids o ts) = false -> sim (mg_Migrate m) ts ts1 -> chain o ms (recorded o (mg_ID m) ts1) ts' ->
    chain o (m :: ms) ts ts'.

Lemma applied_abs o ts d m : abstracts ts (tables d) -> applied o d m = bool_decide (mg_ID m ∈ applied_ids o ts).
Proof. intros Ha. unfold applied. by rewrite <- (abs_applied o ts). Qed.

Lemma chain_pending o ms ts ts' d d' r :
  chain o ms ts ts' -> online d -> abstracts ts (tables d) -> run_pending o ms d d' r ->
  r = Ok tt /\ online d' /\ abstracts ts' (tables d').
Proof.
  intros Hc. revert d. induction Hc as [ts|m ms ts ts' Hin _ IH|m ms ts ts1 ts' Hin Hsim _ IH]; intros d Hd Ha Hr.
  - inversion Hr; subst; naive_solver.
  - rewrite <- (applied_abs o ts d m Ha) in Hin. inversion Hr; subst; try congruence; try done. by eapply IH.
  - rewrite <- (applied_abs o ts d m Ha) in Hin. destruct (Hsim d Hd Ha) as (Hok & Hd1 & Ha1).
    inversion Hr; subst; try congruence; try done.
    match goal with Hb : becomes _ _ _ |- _ => destruct Hb as [Hts Hon] end.
    eapply IH; [by apply Hon| |done]. rewrite Hts. by apply abs_recorded.
Qed.

Context `{!Gormigrate D, !GormigrateLaws D}.

Lemma sim_Migrate o ms ts ts' :
  ms <> [] -> NoDup (mg_ID <$> ms) -> chain o ms (automigrated (migrations_table o) ts) ts' -> sim (Migrate o ms) ts ts'.
Proof.
  intros Hne Hnd Hc. apply sim_with_err. intros d Hd Ha. unfold wp. pose proof (gm_Migrate_law o ms d Hne Hnd) as Hl.
  destruct (gm_Migrate o ms d) as [d' r]. destruct Hl as [(Hoff & _)|(d1 & [Ht1 Hd1] & Hrun)]; [done|]. simpl.
  eapply chain_pending; [exact Hc|by apply Hd1| |exact Hrun]. rewrite Ht1. by apply abs_automigrated.
Qed.

Lemma sim_RollbackLast o ms m ts ts1 :
  ms <> [] -> last (filter (fun m => bool_decide (mg_ID m ∈ applied_ids o ts) = true) ms) = Some m ->
  sim (mg_Rollback m) ts ts1 -> sim (gm_RollbackLast o ms) ts (forgotten o (mg_ID m) ts1).
Proof.
  intros Hne Hl Hs d Hd Ha. unfold wp. pose proof (gm_RollbackLast_law o ms d Hne) as Hlaw.
  destruct (gm_RollbackLast o ms d) as [d' r]. simpl.
  assert (Hlast : last_applied o ms d = Some m).
  { unfold last_applied. rewrite <- Hl. f_equal. apply list_filter_iff. intros x. by rewrite (applied_abs o ts). }
  rewrite Hlast in Hlaw. destruct Hlaw as [(Hoff & _)|Hlaw]; [done|].
  destruct (Hs d Hd Ha) as (Hok & Hd1 & Ha1). destruct (mg_Rollback m d) as [d1 r1]. simpl in *. subst r1.
  destruct Hlaw as [(Hoff & _)|(-> & [Ht Hon])]; [done|]. rewrite Ht. split_and!; [done|by apply Hon|by apply abs_forgotten].
Qed.
End run.

Ltac open_migration :=
  lazymatch goal with
  | |- sim (mg_Migrate ?m) ?a ?b => let m' := eval hnf in m in change (sim (mg_Migrate m') a b); cbn [mg_Migrate]
  | |- sim (mg_Rollback ?m) ?a ?b => let m' := eval hnf in m in change (sim (mg_Rollback m') a b); cbn [mg_Rollback]
  end.

Ltac chain_tac := repeat (eapply chain_run; [vm_compute; reflexivity|open_migration; sim_tac|]); apply chain_nil.

Section theorems.
Context {D : Type} `{Database D, !DatabaseLaws D, !Gormigrate D, !GormigrateLaws D}.
Variable (start : Z).

Abbreviation migrate := (Migrate New_options (getMigrations (D := D) start)).

Lemma getMigrations_ids : mg_ID <$> getMigrations (D := D) start = migration_ids.
Proof. reflexivity. Qed.

Lemma getMigrations_NoDup : NoDup (mg_ID <$> getMigrations (D := D) start).
Proof. rewrite getMigrations_ids. apply (bool_decide_unpack (NoDup migration_ids)). by vm_compute. Qed.

Lemma sim_install : sim migrate ∅ installed.
Proof.
  apply sim_Migrate; [done|apply getMigrations_NoDup|].
  assert (Hc : exists ts, chain New_options (getMigrations (D := D) start) (automigrated (migrations_table New_options) ∅) ts /\ ts = installed).
  { eexists. split; [unfold getMigrations; chain_tac|vm_cast_no_check (eq_refl installed)]. }
  by destruct Hc as (ts & Hc & <-).
Qed.

Lemma abstracts_empty ts : abstracts ∅ ts <-> ts = ∅.
Proof.
  split; [|intros ->; intros T; rewrite lookup_empty; constructor].
  intros Ha. apply map_eq. intros T. specialize (Ha T). rewrite lookup_empty in Ha |- *. by inversion Ha.
Qed.


Lemma pending_none o ms d d' r :
  online d -> Forall (fun m => applied o d m = true) ms -> run_pending o ms d d' r -> d' = d /\ r = Ok tt.
Proof.
  intros Hd Hall Hr. induction Hr; try (inversion Hall; subst; congruence); try done.
  inversion Hall; subst. by apply IHHr.
Qed.

Lemma automigrated_again t ts m :
  ts !! m_type m = Some t -> Forall (fun f => is_Some (t_columns t !! f_name f)) (FieldsByDBName m) -> automigrated m ts = ts.
Proof.
  intros Ht Hf. unfold automigrated. rewrite Ht. simpl. rewrite insert_id; [done|]. rewrite Ht. f_equal.
  induction Hf as [|f fs [ty Hty] _ IH]; [done|]. simpl. unfold add_missing at 2. by rewrite Hty.
Qed.

(** A migrated database is not migrated again. *)
Theorem Migrate_again d :
  online d -> abstracts installed (tables d) -> wp migrate (fun d' r => r = Ok tt /\ tables d' = tables d) d.
Proof.
  intros Hd Ha. apply wp_with_err. unfold wp.
  pose proof (gm_Migrate_law New_options (getMigrations start) d ltac:(done) getMigrations_NoDup) as Hl.
  destruct (gm_Migrate _ _ d) as [d' r]. destruct Hl as [(Hoff & _)|(d1 & [Ht1 Hd1] & Hrun)]; [done|]. simpl.
  assert (Ht : tables d1 = tables d).
  { rewrite Ht1. pose proof (Ha "migrations") as Hm. rewrite installed_migrations in Hm.
    inversion Hm as [t0 t [Hcols _] E1 E2|]; subst. symmetry in E2. eapply automigrated_again; [exact E2|].
    rewrite <- Hcols. constructor; [by eexists|constructor]. }
  eapply pending_none in Hrun as [-> ->]; [done|by apply Hd1|].
  apply Forall_forall. intros m Hm. rewrite (applied_abs _ installed) by (by rewrite Ht). apply bool_decide_eq_true.
  assert (Hin : mg_ID m ∈ mg_ID <$> getMigrations (D := D) start) by (by apply list_elem_of_fmap_2).
  by rewrite getMigrations_ids, <- installed_ids in Hin.
Qed.
End theorems.

(** ** Rolling back *)

Section rollback.
Context {D : Type} `{Database D, !DatabaseLaws D, !Gormigrate D, !GormigrateLaws D}.
Implicit Types (ms : list (migration D)).

(** [n] rollbacks of the last migration take [ts] to [ts']. *)
Inductive unchain (o : gormOptions) (ms : list (migration D)) : nat -> tableset -> tableset -> Prop :=
| unchain_O ts : unchain o ms 0 ts ts
| unchain_S n m ts ts1 ts' :
    bool_decide ("" ∈ applied_ids o ts) = false ->
    last (filter (fun m => bool_decide (mg_ID m ∈ applied_ids o ts) = true) ms) = Some m -> sim (mg_Rollback m) ts ts1 ->
    unchain o ms n (forgotten o (mg_ID m) ts1) ts' -> unchain o ms (S n) ts ts'.

Fixpoint repeat_prog {E} (n : nat) (p : prog D (result E unit)) : prog D (result E unit) :=
  match n with O => mret (Ok tt) | S n => try_bind p (fun _ => repeat_prog n p) end.

Lemma sim_repeat o ms n ts ts' : ms <> [] -> unchain o ms n ts ts' -> sim (repeat_prog n (gm_RollbackLast o ms)) ts ts'.
Proof.
  intros Hne Hu. induction Hu as [ts|n m ts ts1 ts' _ Hl Hs _ IH]; [apply sim_ret|].
  eapply sim_try; [by eapply sim_RollbackLast|exact IH].
Qed.

(** A known identifier that is not empty keeps the loop going. *)
Lemma sim_ScanID {A} T t ts (k : result error string -> prog D A) Q d :
  online d -> abstracts ts (tables d) -> ts !! T = Some t ->
  (forall d' s, online d' -> abstracts ts (tables d') -> s ∈ ids t \/ ids t = [] /\ s = "" -> wp (k (Ok s)) Q d') ->
  wp (ScanID T ≫= k) Q d.
Proof.
  intros Hd Ha Ht Hk. apply wp_bind. pose proof (ScanID_law T d) as Hl. unfold wp at 1. destruct (ScanID T d) as [d' r]. simpl.
  destruct Hl as [Heq Hon]. destruct (Hon Hd) as [Hd' Hr]. destruct (Ha T) as [t0 t' Ht'|]; simplify_eq.
  destruct Hr as (s & -> & Hs). apply Hk; [done|by rewrite Heq|]. by rewrite (abs_ids _ _ Ht').
Qed.

Lemma applied_table o ts id : id ∈ applied_ids o ts -> exists t, ts !! TableName o = Some t /\ applied_ids o ts = ids t.
Proof. unfold applied_ids. destruct (ts !! TableName o) as [t|]; [by eexists|by intros ?%not_elem_of_nil]. Qed.

Lemma wp_rollback_loop o ms n ts ts' t' fuel d :
  ms <> [] -> unchain o ms n ts ts' -> ts' !! TableName o = Some t' -> ids t' = [] -> (n < fuel)%nat ->
  online d -> abstracts ts (tables d) ->
  wp (rollback_loop o ms fuel) (fun d' r => r = Some (Ok tt) /\ online d' /\ abstracts ts' (tables d')) d.
Proof.
  intros Hne Hu Ht' Hids. revert fuel d.
  induction Hu as [ts|n m ts ts1 ts' Hemp Hl Hs _ IH]; intros [|fuel] d Hf Hd Ha; try lia; cbn [rollback_loop].
  - eapply sim_ScanID; [done|done|exact Ht'|]. intros d' s Hd' Ha' [Hin|[_ ->]]; [|by apply wp_ret].
    rewrite Hids in Hin. by apply not_elem_of_nil in Hin.
  - assert (Hm : mg_ID m ∈ applied_ids o ts).
    { apply last_Some_elem_of, list_elem_of_filter in Hl as [Hb _]. by apply bool_decide_eq_true in Hb. }
    destruct (applied_table o ts (mg_ID m) Hm) as (t & Ht & Hti).
    eapply sim_ScanID; [done|done|exact Ht|]. intros d' s Hd' Ha' Hs'.
    apply bool_decide_eq_false in Hemp. rewrite Hti in Hm, Hemp.
    rewrite bool_decide_eq_false_2; [|intros ->; destruct Hs' as [Hin|[He _]]; [done|by rewrite He in Hm; apply not_elem_of_nil in Hm]].
    apply wp_bind. eapply wp_mono; [apply (sim_with_err _ _ _ _ (sim_RollbackLast o ms m ts ts1 Hne Hl Hs)); done|].
    intros d2 r2 (-> & Hd2 & Ha2). apply IH; done || lia.
Qed.

Lemma last_filter_at (p : migration D -> bool) ms k m :
  ms !! k = Some m -> p m = true -> forallb (negb ∘ p) (drop (S k) ms) = true -> last (filter (fun x => p x = true) ms) = Some m.
Proof.
  intros Hk Hp Hrest. rewrite <- (take_drop_middle ms k m Hk), filter_app, filter_cons_True by done.
  replace (filter (fun x => p x = true) (drop (S k) ms)) with (@nil (migration D)); [by apply last_snoc|].
  symmetry.
  revert Hrest. induction (drop (S k) ms) as [|x l IH]; simpl; [done|]. intros [Hx Hl]%andb_true_iff.
  rewrite filter_cons_False; [by apply IH|]. by destruct (p x).
Qed.

Lemma forallb_drop_ids (p : string -> bool) ms k :
  forallb (fun id => negb (p id)) (drop k (mg_ID <$> ms)) = true -> forallb (negb ∘ (fun m => p (mg_ID m))) (drop k ms) = true.
Proof.
  rewrite <- fmap_drop. generalize (drop k ms). intros l.
  induction l as [|x l IH]; [done|]. simpl. intros [-> Hl]%andb_true_iff. by apply IH.
Qed.

Lemma unchain_at o ms n k m ts ts1 ts' :
  ms !! k = Some m ->
  bool_decide ("" ∈ applied_ids o ts) = false -> bool_decide (mg_ID m ∈ applied_ids o ts) = true ->
  forallb (fun id => negb (bool_decide (id ∈ applied_ids o ts))) (drop (S k) (mg_ID <$> ms)) = true ->
  sim (mg_Rollback m) ts ts1 -> unchain o ms n (forgotten o (mg_ID m) ts1) ts' -> unchain o ms (S n) ts ts'.
Proof.
  intros Hk Hemp Hm Hrest Hs Hu. eapply unchain_S; [done| |exact Hs|exact Hu].
  eapply (last_filter_at (fun m => bool_decide (mg_ID m ∈ applied_ids o ts))); [exact Hk|exact Hm|].
  exact (forallb_drop_ids (fun id => bool_decide (id ∈ applied_ids o ts)) ms (S k) Hrest).
Qed.

Lemma wp_reads {A} (m : prog D A) ans (Q : D -> A -> Prop) d :
  reads m ans -> online d -> (forall d' x, online d' -> tables d' = tables d -> ans (tables d) x -> Q d' x) -> wp m Q d.
Proof.
  intros Hm Hd HQ. specialize (Hm d). unfold wp. destruct (m d) as [d' x]. destruct Hm as [Heq Hon].
  destruct (Hon Hd) as [Hd' Hx]. by apply HQ.
Qed.

(** The count of the migrations of a database that answers. *)
Lemma CountMigrationsApplied_ok o t d :
  online d -> tables d !! TableName o = Some t ->
  wp (CountMigrationsApplied o) (fun d' r => r = Ok (Z.of_nat (length (ids t))) /\ online d' /\ tables d' = tables d) d.
Proof.
  intros Hd Ht. apply wp_bind. eapply wp_reads; [apply HasTable_law|done|]. intros d1 b Hd1 Heq1 ->.
  rewrite bool_decide_eq_true_2 by (by eexists). apply wp_with_err. eapply wp_reads; [apply ScanCount_law|done|].
  intros d2 r Hd2 Heq2 Hr. rewrite Heq1, Ht in Hr. rewrite Hr. split_and!; [done|done|congruence].
Qed.

Lemma sim_delete_empty o t ts :
  ts !! TableName o = Some t -> ids t = [] -> sim (deleteMigrationTableIfEmpty o) ts (delete (TableName o) ts).
Proof.
  intros Ht Hids. apply sim_HasTable. rewrite bool_decide_eq_true_2 by (by eexists). intros d Hd Ha. apply wp_try.
  assert (Hx : exists t', tables d !! TableName o = Some t' /\ ids t' = []).
  { pose proof (Ha (TableName o)) as Hl. rewrite Ht in Hl. inversion Hl as [t0 t' Htt E1 E2|]; subst.
    exists t'. split; [done|]. by rewrite <- (abs_ids _ _ Htt). }
  destruct Hx as (t' & Ht' & Hids').
  eapply wp_mono; [by apply CountMigrationsApplied_ok|]. intros d1 r (-> & Hd1 & Heq). rewrite Hids'. cbn -[wp].
  apply (sim_with_err _ _ _ _ (sim_DropTable (TableName o) ts)); [done|by rewrite Heq].
Qed.
End rollback.

Ltac unchain_tac k :=
  eapply (unchain_at _ _ _ k); [reflexivity|vm_compute; reflexivity..|open_migration; sim_tac|
    lazymatch k with O => apply unchain_O | S ?k => unchain_tac k end].

Section rollback_theorems.
Context {D : Type} `{Database D, !DatabaseLaws D, !Gormigrate D, !GormigrateLaws D}.
Variable (start : Z).

Lemma unchain_installed :
  unchain New_options (getMigrations (D := D) start) 17 installed {["migrations" := mkTable {["id" := TString]} []]}.
Proof.
  assert (Hu : exists ts, unchain New_options (getMigrations (D := D) start) 17 installed ts /\
                          ts = {["migrations" := mkTable {["id" := TString]} []]}).
  { eexists. split; [unchain_tac 16%nat|]. vm_compute. reflexivity. }
  by destruct Hu as (ts & Hu & <-).
Qed.

(** C27. The rollback of all migrations undoes the installation: on a migrated database
    that answers, the loop of RollbackAll ends, after one round for each migration, no
    rollback fails, and no table is left. *)
Theorem RollbackAll_empties fuel d :
  (17 < fuel)%nat -> online d -> abstracts installed (tables d) ->
  wp (RollbackAll New_options (getMigrations start) fuel) (fun d' r => r = Some (Ok tt) /\ online d' /\ tables d' = ∅) d.
Proof.
  intros Hf Hd Ha. apply wp_bind.
  eapply wp_mono; [eapply wp_rollback_loop; [|apply unchain_installed|reflexivity|reflexivity|..]; done|].
  intros d1 r (-> & Hd1 & Ha1). apply wp_bind.
  eapply wp_mono; [eapply sim_delete_empty; [..|done|exact Ha1]; reflexivity|].
  intros d2 r (-> & Hd2 & Ha2). split_and!; [done|done|]. apply abstracts_empty. by rewrite delete_singleton_eq in Ha2.
Qed.
End rollback_theorems.

(** ** The loop of RollbackAll ends on every database *)

Section termination.
Context {D : Type} `{Database D, !DatabaseLaws D, !Gormigrate D, !GormigrateLaws D}.
Variable (o : gormOptions).

(** The table of migrations is as it was. *)
Definition same_migrations : relation D := fun d d' => tables d' !! TableName o = tables d !! TableName o.

#[local] Instance same_migrations_preorder : PreOrder same_migrations.
Proof. split; unfold same_migrations; [by intros d|by intros d1 d2 d3 -> ->]. Qed.

Lemma statement_same (p : prog D (result error unit)) pre eff :
  statement p pre eff -> (forall ts ts', eff ts ts' -> ts' !! TableName o = ts !! TableName o) -> preserves same_migrations p.
Proof.
  intros Hp Heff d. specialize (Hp d). destruct (p d) as [d' r]. unfold same_migrations. simpl.
  destruct Hp as [Hr _]. destruct r as [u|e]; [destruct Hr as [_ Hr]; by apply Heff|by rewrite Hr].
Qed.

Lemma DropColumn_same m c : m_type m <> TableName o -> preserves same_migrations (DropColumn m c).
Proof. intros Hne. eapply statement_same; [apply DropColumn_law|]. intros ts ts' ->. by rewrite lookup_alter_ne. Qed.

Lemma AddColumn_same m c : m_type m <> TableName o -> preserves same_migrations (AddColumn m c).
Proof.
  intros Hne. eapply statement_same; [apply AddColumn_law|]. intros ts ts' ->. unfold column_added.
  case_match; [by rewrite lookup_alter_ne|done].
Qed.

Lemma DropTable_same T : T <> TableName o -> preserves same_migrations (DropTable T).
Proof. intros Hne. eapply statement_same; [apply DropTable_law|]. intros ts ts' ->. by rewrite lookup_delete_ne. Qed.

Lemma reads_same {A} (p : prog D A) ans : reads p ans -> preserves same_migrations p.
Proof. intros Hp d. specialize (Hp d). destruct (p d) as [d' a]. unfold same_migrations. simpl. by destruct Hp as [-> _]. Qed.

Lemma HasColumn_same m c : preserves same_migrations (HasColumn m c).
Proof. eapply reads_same, HasColumn_law. Qed.

#[local] Hint Resolve DropColumn_same AddColumn_same DropTable_same HasColumn_same : fleet.

Lemma forgotten_shorter id ts :
  id ∈ applied_ids o ts -> (length (applied_ids o (forgotten o id ts)) < length (applied_ids o ts))%nat.
Proof.
  unfold applied_ids, forgotten. rewrite lookup_alter_eq. destruct (ts !! TableName o) as [t|]; [|by intros ?%not_elem_of_nil].
  simpl. unfold ids. simpl.
  assert (Hle : forall l : list row, (length (omap (fun r : row => match r !! "id" with Some (VText s) => Some s | _ => None end)
      (filter (fun r : row => r !! "id" <> Some (VText id)) l)) <=
      length (omap (fun r : row => match r !! "id" with Some (VText s) => Some s | _ => None end) l))%nat).
  { induction l as [|r l IH]; [done|]. rewrite filter_cons. case_decide; cbn; destruct (r !! "id") as [[]|]; simpl; lia. }
  induction (t_rows t) as [|r l IH]; [by intros ?%not_elem_of_nil|]. rewrite filter_cons. specialize (Hle l).
  case_decide as Hd; cbn.
  - destruct (r !! "id") as [[s| |]|]; cbn; [|exact IH..].
    intros [->|Hin]%elem_of_cons; [congruence|]. apply IH in Hin. cbn in Hin. lia.
  - rewrite Hd. cbn. intros _. cbn in Hle. lia.
Qed.

Lemma rollback_loop_ends ms fuel d :
  ms <> [] -> Forall (fun m => preserves same_migrations (mg_Rollback m)) ms ->
  (length (applied_ids o (tables d)) < fuel)%nat -> (rollback_loop o ms fuel d).2 <> None.
Proof.
  intros Hne Hms. revert d. induction fuel as [|fuel IH]; intros d Hf; [lia|]. cbn [rollback_loop]. run_step.
  pose proof (ScanID_law (TableName o) d) as Hs. destruct (ScanID (TableName o) d) as [d1 [id|e]]; destruct Hs as [Heq _]; [|done].
  simpl. case_bool_decide; [done|]. run_step. unfold or_die, with_err. run_step.
  pose proof (gm_RollbackLast_law o ms d1 Hne) as Hl. destruct (gm_RollbackLast o ms d1) as [d2 [[]|e]]; [|done]. simpl. apply IH.
  destruct (last_applied o ms d1) as [m|] eqn:Hlast; [|naive_solver]. destruct Hl as [(_ & _ & ?)|Hl]; [done|].
  apply last_Some_elem_of, list_elem_of_filter in Hlast as [Happ Hin]. rewrite Forall_forall in Hms. specialize (Hms m Hin d1).
  unfold same_migrations in Hms. destruct (mg_Rollback m d1) as [d3 [[]|e]]; [|naive_solver].
  destruct Hl as [(_ & _ & ?)|(_ & Ht & _)]; [done|]. apply bool_decide_eq_true in Happ. simpl in Hms.
  assert (Hids : applied_ids o (tables d3) = applied_ids o (tables d)) by (unfold applied_ids; by rewrite Hms, Heq).
  rewrite Ht. rewrite Heq, <- Hids in Happ. apply forgotten_shorter in Happ. rewrite Hids in Happ. lia.
Qed.
End termination.

Section termination_theorem.
Context {D : Type} `{Database D, !DatabaseLaws D, !Gormigrate D, !GormigrateLaws D}.
Variable (start : Z).

#[local] Instance same_migrations_pre : PreOrder (same_migrations (D := D) New_options) := same_migrations_preorder New_options.
#[local] Hint Resolve DropColumn_same AddColumn_same DropTable_same HasColumn_same : fleet.
#[local] Hint Extern 1 (_ <> _) => discriminate : fleet.

Lemma rollbacks_same : Forall (fun m => preserves (same_migrations New_options) (mg_Rollback m)) (getMigrations (D := D) start).
Proof.
  unfold getMigrations. repeat constructor;
    (lazymatch goal with |- preserves ?R (mg_Rollback ?m) => let m' := eval hnf in m in change (preserves R (mg_Rollback m')) end);
    cbn [mg_Rollback]; unfold no_error, add_each, drop_each, add_if_missing, drop_if_present; cbn [for_each]; err_tac; try (case_match; err_tac).
Qed.

(** The unbounded loop of RollbackAll ends on every database, whether it answers or
    not and whatever its tables hold: more rounds than there are recorded migrations are
    never needed. *)
Theorem RollbackAll_terminates fuel (d : D) :
  (length (applied_ids New_options (tables d)) < fuel)%nat -> (RollbackAll New_options (getMigrations start) fuel d).2 <> None.
Proof.
  intros Hf. unfold RollbackAll. run_step. assert (Hne : getMigrations (D := D) start <> []) by done.
  pose proof (rollback_loop_ends _ _ _ d Hne rollbacks_same Hf) as Hl.
  destruct (rollback_loop _ _ _ d) as [d' [[u|e]|]]; simpl in *; [|done..]. by run_step.
Qed.
End termination_theorem.

(** ** On the concrete database *)

Lemma new_database_migrated (start : Z) :
  online (Migrate New_options (getMigrations start) new_database).1 /\
  abstracts installed (tables (Migrate New_options (getMigrations start) new_database).1).
Proof. destruct (sim_install start new_database) as (_ & Hd & Ha); [constructor|by apply abstracts_empty|done]. Qed.


Lemma RollbackAll_empties_witness :
  wp (RollbackAll New_options (getMigrations 0) 18) (fun d' r => r = Some (Ok tt) /\ online d' /\ tables d' = ∅)
    (Migrate New_options (getMigrations 0) new_database).1.
Proof. apply (RollbackAll_empties 0 18); [lia|apply new_database_migrated..]. Defined.

(** A database with a record of an unknown migration, whose next statement fails. *)
Definition stuck_database : memdb := mkMemdb {["migrations" := mkTable {["id" := TString]} [id_row "unknown"]]} 0 [true].

Lemma RollbackAll_terminates_witness : (RollbackAll New_options (getMigrations 0) 2 stuck_database).2 <> None.
Proof. apply (RollbackAll_terminates 0 2 stuck_database). vm_compute. lia. Defined.
