(* ===== verification/MigrationsData.v ===== *)
(** * What the migrations do to the rows

    The leases that the workers need, the client origins of existing centrals, a
    rollback that is not undone by migrating again, and the order of the identifiers.
    [DataMigration]: internal/dinosaur/pkg/services/data_migration.go, which fills in the
    names of organisations at the start of the server. *)

From S2P Require Import Prelude GoString GoFmt ServiceErrors CentralRequest Store World Effects LeaderElection Schema Migrations MigrationsProps.
Local Open Scope string_scope.
Local Open Scope Z_scope.

(** ** The leases of the workers *)

Definition acceptedCentralWorkerType : string := "accepted_dinosaur".
Definition preparingCentralWorkerType : string := "preparing_dinosaur".
Definition provisioningCentralWorkerType : string := "provisioning_dinosaur".
Definition deletingCentralWorkerType : string := "deleting_dinosaur".
Definition readyCentralWorkerType : string := "ready_dinosaur".
Definition centralDNSWorkerType : string := "dinosaur_dns".
Definition generalWorkerType : string := "general_dinosaur_worker".
Definition centralAuthConfigManagerWorkerType : string := "central_auth_config".
Definition clusterWorkerType : string := "cluster".

Definition worker_types : list string :=
  [ clusterWorkerType; generalWorkerType; acceptedCentralWorkerType; preparingCentralWorkerType; deletingCentralWorkerType;
    provisioningCentralWorkerType; readyCentralWorkerType; centralDNSWorkerType; centralAuthConfigManagerWorkerType ].

(** The rows that [lease_type = ?] selects. *)
Definition leases_of (ty : string) (ts : tableset) : list row :=
  match ts !! "LeaderLease" with
  | Some t => filter (fun r : row => r !! "LeaseType" = Some (VText ty)) (t_rows t)
  | None => []
  end.

(** The types of the leases, where every row is known to have one. *)
Definition typed_leases (tys : list string) (ts : tableset) : Prop :=
  exists t, ts !! "LeaderLease" = Some t /\ Forall2 (fun ty (r : row) => r !! "LeaseType" = Some (VText ty)) tys (t_rows t).

Lemma typed_leases_count tys ts ty : typed_leases tys ts -> length (leases_of ty ts) = length (filter (fun x => x = ty) tys).
Proof.
  intros (t & Ht & Hr). unfold leases_of. rewrite Ht. induction Hr as [|x r xs rs Hx _ IH]; [done|].
  rewrite !filter_cons, Hx. case_decide as H1; case_decide as H2; simpl; [by rewrite IH|congruence..|done].
Qed.

Lemma abstracts_leases ts0 ts tys t0 :
  abstracts ts0 ts -> ts0 !! "LeaderLease" = Some t0 -> t_rows t0 = (fun ty => {["LeaseType" := VText ty]}) <$> tys -> typed_leases tys ts.
Proof.
  intros Ha Ht0 Hrows. pose proof (Ha "LeaderLease") as Hl. rewrite Ht0 in Hl. inversion Hl as [? t [_ Hr] E1 E2|]; subst.
  exists t. split; [done|]. rewrite Hrows, Forall2_fmap_l in Hr. eapply Forall2_impl; [exact Hr|].
  intros ty r [Hs _]. eapply lookup_weaken; [|exact Hs]. apply lookup_singleton_eq.
Qed.

Lemma installed_leases :
  installed !! "LeaderLease" =
  Some (mkTable (columns_of api_LeaderLease) ((fun ty => {["LeaseType" := VText ty]}) <$> lease_types_installed)).
Proof. vm_compute. reflexivity. Qed.

Section leases.
Context {D : Type} `{Database D, !DatabaseLaws D, !Gormigrate D, !GormigrateLaws D}.
Variable (start : Z).

(** A new installation has, for every worker that the fleet manager starts, exactly
    one lease of the type that the worker asks for, so that the leader election of no
    worker fails for want of a lease. *)
Theorem workers_have_leases (d : D) ty :
  online d -> tables d = ∅ -> ty ∈ worker_types ->
  length (leases_of ty (tables (Migrate New_options (getMigrations start) d).1)) = 1%nat.
Proof.
  intros Hd Ht Hty. destruct (sim_install start d Hd (proj2 (abstracts_empty _) Ht)) as (_ & _ & Ha).
  erewrite typed_leases_count; [|by eapply abstracts_leases; [exact Ha|apply installed_leases|]].
  elem_cases Hty; vm_compute; reflexivity.
Qed.

(** *** A rollback that migrating again does not undo *)

Lemma sim_keep_table o t ts :
  ts !! TableName o = Some t -> bool_decide (ids t = []) = false -> sim (D := D) (deleteMigrationTableIfEmpty o) ts ts.
Proof.
  intros Ht Hids. apply sim_HasTable. rewrite bool_decide_eq_true_2 by (by eexists). intros d Hd Ha. apply wp_try.
  assert (Hx : exists t', tables d !! TableName o = Some t' /\ ids t' <> []).
  { pose proof (Ha (TableName o)) as Hl. rewrite Ht in Hl. inversion Hl as [t0 t' Htt E1 E2|]; subst.
    exists t'. split; [done|]. apply bool_decide_eq_false in Hids. by rewrite <- (abs_ids _ _ Htt). }
  destruct Hx as (t' & Ht' & Hids'). eapply wp_mono; [by apply CountMigrationsApplied_ok|]. intros d1 r (-> & Hd1 & Heq).
  destruct (Z.of_nat (length (ids t')) =? 0) eqn:E; [|apply wp_ret; by rewrite Heq].
  apply Z.eqb_eq in E. destruct (ids t'); [done|simpl in E; lia].
Qed.

(** The command rollback-last while it does not undo the first migration. *)
Lemma sim_rollback_last o ms k (m : migration D) ts ts1 t :
  ms !! k = Some m -> bool_decide (mg_ID m ∈ applied_ids o ts) = true ->
  forallb (fun id => negb (bool_decide (id ∈ applied_ids o ts))) (drop (S k) (mg_ID <$> ms)) = true ->
  sim (mg_Rollback m) ts ts1 -> forgotten o (mg_ID m) ts1 !! TableName o = Some t -> bool_decide (ids t = []) = false ->
  sim (RollbackLast o ms) ts (forgotten o (mg_ID m) ts1).
Proof.
  intros Hk Hm Hrest Hs Ht Hids. eapply sim_try; [|by eapply sim_keep_table]. apply sim_with_err.
  eapply sim_RollbackLast; [by intros ->| |done].
  eapply (last_filter_at (fun m => bool_decide (mg_ID m ∈ applied_ids o ts))); [exact Hk|exact Hm|exact (forallb_drop_ids (fun id => bool_decide (id ∈ applied_ids o ts)) ms (S k) Hrest)].
Qed.
End leases.

Ltac rollback_last_tac k :=
  eapply sim_try; [eapply (sim_rollback_last _ _ k); [reflexivity|vm_compute; reflexivity|vm_compute; reflexivity|open_migration; sim_tac|vm_compute; reflexivity|vm_compute; reflexivity]|].

Ltac rechain_tac :=
  repeat first [eapply chain_run; [vm_compute; reflexivity|open_migration; sim_tac|]
               |eapply chain_skip; [vm_compute; reflexivity|]]; apply chain_nil.

Section duplicate.
Context {D : Type} `{Database D, !DatabaseLaws D, !Gormigrate D, !GormigrateLaws D}.
Variable (start : Z).

(** The rollback of the migration that adds the lease of the authentication worker does
    not remove the lease: after ten rollbacks and a new migration there are two of them. *)
Theorem rollback_duplicates_lease (d : D) :
  online d -> abstracts installed (tables d) ->
  wp (try_bind (repeat_prog 10 (RollbackLast New_options (getMigrations start))) (fun _ => Migrate New_options (getMigrations start)))
    (fun d' r => r = Ok tt /\ length (leases_of centralAuthConfigManagerWorkerType (tables d')) = 2%nat) d.
Proof.
  intros Hd Ha.
  assert (Hs : exists ts t0, sim (try_bind (repeat_prog 10 (RollbackLast New_options (getMigrations (D := D) start)))
      (fun _ => Migrate New_options (getMigrations start))) installed ts /\ ts !! "LeaderLease" = Some t0 /\
      t_rows t0 = (fun ty => {["LeaseType" := VText ty]}) <$> (lease_types_installed ++ [centralAuthLeaseType])%list).
  { do 2 eexists. split; [|split].
    - eapply sim_try.
      + cbn [repeat_prog]. rollback_last_tac 16%nat. rollback_last_tac 15%nat. rollback_last_tac 14%nat. rollback_last_tac 13%nat.
        rollback_last_tac 12%nat. rollback_last_tac 11%nat. rollback_last_tac 10%nat. rollback_last_tac 9%nat.
        rollback_last_tac 8%nat. rollback_last_tac 7%nat. apply sim_ret.
      + apply sim_Migrate; [done|apply getMigrations_NoDup|]. unfold getMigrations. rechain_tac.
    - vm_compute. reflexivity.
    - vm_compute. reflexivity. }
  destruct Hs as (ts & t0 & Hs & Ht0 & Hrows). eapply wp_mono; [by apply Hs|]. intros d' r (-> & _ & Ha'). split; [done|].
  erewrite typed_leases_count; [|by eapply abstracts_leases]. reflexivity.
Qed.
End duplicate.

(** *** The leases are not free at first *)

(** The row as leader_election_mgr.go reads it. *)
Definition lease_of_row (r : row) : LeaderLease :=
  let text name := match r !! name with Some (VText s) => s | _ => "" end in
  mkLease (text "Leader") (text "LeaseType") (match r !! "Expires" with Some (VTime t) => Some t | _ => None end).

(** A lease that a migration creates is held, for a minute after the start of the
    migrating process, by a leader that no replica is; the comments of the migrations
    call it already expired. *)
Theorem new_lease_is_held start ty leader workerID n :
  leader <> "" -> workerID <> leader -> n <= start + 60 * second ->
  acquireLeaderLease workerID ty n (lease_of_row (lease_row ty leader (DinosaurAdditionalLeasesExpireTime start))) =
  (Decided (mkAcquisition false (mkLease leader ty (Some (DinosaurAdditionalLeasesExpireTime start)))),
   mkLease leader ty (Some (DinosaurAdditionalLeasesExpireTime start))).
Proof.
  intros Hl Hw Hn.
  assert (Hrow : lease_of_row (lease_row ty leader (DinosaurAdditionalLeasesExpireTime start)) =
                 mkLease leader ty (Some (DinosaurAdditionalLeasesExpireTime start))) by reflexivity.
  rewrite Hrow. unfold acquireLeaderLease, first_phase, isExpired. simpl. rewrite bool_decide_eq_false_2 by done.
  replace (DinosaurAdditionalLeasesExpireTime start <? n) with false; [by rewrite bool_decide_eq_false_2|].
  symmetry. apply Z.ltb_ge. exact Hn.
Qed.

(** ** The origin of the clients of existing centrals *)

Section origins.
Context {D : Type} `{Database D, !DatabaseLaws D}.

Definition live_row (r : row) : Prop := r !! "DeletedAt" = None.

(** What the two migrations make of a row. *)
Definition origin_migrated (r r' : row) : Prop :=
  r' !! "DeletedAt" = r !! "DeletedAt" /\
  (live_row r -> r' !! "ClientOrigin" = Some (VText "shared_static_rhsso")) /\
  (forall k, k <> "ClientOrigin" -> k <> "UpdatedAt" -> r' !! k = r !! k).

Lemma updated_row_lookup p c v r r' k : updated_row p c v r r' -> k <> c -> k <> "UpdatedAt" -> r' !! k = r !! k.
Proof.
  intros Hu Hc Hk. unfold updated_row in Hu. destruct (p r && _); [|by subst].
  assert (He := f_equal (.!! k) Hu). simpl in He. by rewrite !lookup_delete_ne, lookup_insert_ne in He.
Qed.

Lemma updated_row_match p c v r r' : updated_row p c v r r' -> p r = true -> live_row r -> c <> "UpdatedAt" -> r' !! c = Some v.
Proof.
  intros Hu Hp Hl Hc. unfold updated_row in Hu. rewrite Hp, bool_decide_eq_true_2 in Hu by done. simpl in Hu.
  assert (He := f_equal (.!! c) Hu). simpl in He. by rewrite !lookup_delete_ne, lookup_insert_eq in He.
Qed.

Lemma origin_rows r r1 r2 :
  r !! "ClientOrigin" = None -> updated_row origin_is_null "ClientOrigin" (VText "shared_static_sso") r r1 ->
  updated_row (origin_is "shared_static_sso") "ClientOrigin" (VText "shared_static_rhsso") r1 r2 -> origin_migrated r r2.
Proof.
  intros Hn H1 H2.
  assert (Hk : forall k, k <> "ClientOrigin" -> k <> "UpdatedAt" -> r2 !! k = r !! k).
  { intros k Hk1 Hk2. rewrite (updated_row_lookup _ _ _ _ _ k H2), (updated_row_lookup _ _ _ _ _ k H1); done. }
  split_and!; [by apply Hk| |done]. intros Hl.
  assert (Ho : r1 !! "ClientOrigin" = Some (VText "shared_static_sso")).
  { eapply updated_row_match; [exact H1|by apply bool_decide_eq_true|done|done]. }
  eapply updated_row_match; [exact H2|by apply bool_decide_eq_true| |done].
  unfold live_row. by rewrite (updated_row_lookup _ _ _ _ _ "DeletedAt" H1).
Qed.

Lemma wp_statement (m : prog D (result error unit)) pre eff (Q : D -> result error unit -> Prop) d :
  statement m pre eff -> (forall d', eff (tables d) (tables d') -> Q d' (Ok tt)) -> (forall d' e, Q d' (Err e)) -> wp m Q d.
Proof.
  intros Hm Hok Herr. specialize (Hm d). unfold wp. destruct (m d) as [d' [[]|e]]; [|apply Herr].
  destruct Hm as [[_ He] _]. by apply Hok.
Qed.

Lemma fill_default_none (f : field) r : f_tag f = TagNone -> fill_default f r = r.
Proof. unfold fill_default. by intros ->. Qed.

(** The two migrations that introduce the origin of a central's client leave, when they
    succeed on a table of centrals of any content, every central that is not soft deleted
    with the origin of the shared static client, and change nothing else of any row; the
    misspelt value that the first of them writes does not survive the second. *)
Theorem client_origin_backfilled (d : D) t :
  tables d !! "CentralRequest" = Some t -> Forall (fun r : row => r !! "ClientOrigin" = None) (t_rows t) ->
  wp (try_bind (mg_Migrate addClientOriginToCentralRequest) (fun _ => mg_Migrate changeCentralClientOrigin))
    (fun d' r => r = Ok tt ->
       exists t', tables d' !! "CentralRequest" = Some t' /\ Forall2 origin_migrated (t_rows t) (t_rows t')) d.
Proof.
  intros Ht Hnull. apply wp_try, wp_try, wp_with_err.
  eapply wp_statement; [apply AddColumn_law| |done]. intros d1 Heq1.
  apply wp_with_err. eapply wp_statement; [apply UpdateRows_law| |done]. intros d2 (t1 & rs1 & Ht1 & Hr1 & Heq2).
  apply wp_with_err. eapply wp_statement; [apply UpdateRows_law| |done]. intros d3 (t2 & rs2 & Ht2 & Hr2 & Heq3) _.
  rewrite Heq1 in Ht1. unfold column_added in Ht1.
  assert (Hf : LookUpField addClientOriginToCentralRequest_CentralRequest "ClientOrigin" =
               Some (mkField "ClientOrigin" TString TagNone)) by reflexivity.
  rewrite Hf in Ht1. change (m_type addClientOriginToCentralRequest_CentralRequest) with "CentralRequest" in *.
  change (m_type changeCentralClientOrigin_CentralRequest) with "CentralRequest" in *.
  rewrite lookup_alter_eq, Ht in Ht1. simplify_eq/=. rewrite Heq2, lookup_insert_eq in Ht2. simplify_eq/=.
  eexists. split; [rewrite Heq3; apply lookup_insert_eq|]. simpl. clear -Hnull Hr1 Hr2. revert rs1 rs2 Hr1 Hr2.
  induction Hnull as [|r l Hr _ IH]; intros rs1 rs2 Hr1 Hr2; inversion Hr1; subst; inversion Hr2; subst; constructor.
  - by eapply origin_rows.
  - by eapply IH.
Qed.
End origins.

(** ** The order of the identifiers *)

(** Of neighbours, whether the first is before the second. *)
Fixpoint ascending {A} (lt : A -> A -> bool) (xs : list A) : bool :=
  match xs with
  | x :: ((y :: _) as rest) => lt x y && ascending lt rest
  | _ => true
  end.

(** The identifiers of the list ascend as texts, but not as the numbers that they are said
    to be: those with seconds are a hundred times as large as those without. *)
Theorem migration_ids_not_ascending {D} `{Database D} (start : Z) :
  let ids := mg_ID <$> getMigrations (D := D) start in
  ascending String.ltb ids = true /\
  Forall (fun id => (Atoi id).2 = true) ids /\
  ascending (fun a b => (Atoi a).1 <? (Atoi b).1) ids = false.
Proof.
  cbv zeta. rewrite getMigrations_ids. split_and!; [vm_compute; reflexivity| |vm_compute; reflexivity].
  apply (bool_decide_unpack _). vm_compute. exact I.
Qed.

(** ** The data migration

    services/data_migration.go: centrals without the name of their organisation get it from
    the account management service when the service starts. *)

Module DataMigration.

Section data_migration.
Context `{Platform}.
(** The answer of [ScanRows] for the row at an index of the cursor. *)
Variable (scan : nat -> option error).

(** [COALESCE(organisation_name, '') = ''] *)
Definition nameless (r : CentralRequest) : bool := bool_decide (cr_OrganisationName r = "").

(** The loop over the cursor: the rows migrated, and the error that ended it. *)
Fixpoint migrate_rows (i : nat) (cursor : list CentralRequest) (migratedCnt : Z) : prog world (Z * option error) :=
  match cursor with
  | [] => mret (migratedCnt, None)
  | central :: cursor =>
      match scan i with
      | Some err => mret (migratedCnt, Some (EWrap "scanning row record" err))
      | None =>
          ro ← on_ext (GetOrganisationFromExternalID (cr_OrganisationID central));
          match ro with
          | Err err =>
              mret (migratedCnt, Some (EWrap (Sprintf "fetching organisation name to %q from OCM for central instance %q"
                [VStr ""; VStr (cr_ID central)]) err))
          | Ok (_, name) =>
              ru ← on_centrals (db_update (fun r => bool_decide (cr_ID r = cr_ID central)) (set_OrganisationName name));
              match ru with
              | Err err =>
                  mret (migratedCnt, Some (EWrap (Sprintf "updating organisation name to %q for central instance %q"
                    [VStr name; VStr (cr_ID central)]) err))
              | Ok _ => migrate_rows (S i) cursor (migratedCnt + 1)
              end
          end
      end
  end.

Definition migrateOrganisationNames : prog world (Z * option error) :=
  r ← on_centrals (db_find nameless);
  match r with
  | Err err => mret (0, Some (EWrap "querying rows requiring data migration" err))
  | Ok rows => migrate_rows 0 rows 0
  end.

(** The error is logged. *)
Definition DataMigration_Start : prog world unit := _ ← migrateOrganisationNames; mret tt.

Context `{!PlatformLaws}.

(** The central [r] got the name that account management gave for its organisation. *)
Definition named_by_ams (r r' : CentralRequest) : Prop :=
  exists (x : externals) org name now, (GetOrganisationFromExternalID (cr_OrganisationID r) x).2 = Ok (org, name) /\
    r' = stamp_updated now (set_OrganisationName name r).

Lemma update_one name id w n :
  (on_centrals (db_update (fun r => bool_decide (cr_ID r = id)) (set_OrganisationName name)) w).2 = Ok n ->
  exists now, forall k,
    centrals (on_centrals (db_update (fun r => bool_decide (cr_ID r = id)) (set_OrganisationName name)) w).1 !! k =
    if bool_decide (k = id) then (fun r => stamp_updated now (set_OrganisationName name r)) <$> centrals w !! k else centrals w !! k.
Proof.
  intros Hok. destruct (on_centrals_run (db_update (fun r => bool_decide (cr_ID r = id)) (set_OrganisationName name)) w) as (Hr & _ & H2).
  rewrite H2 in Hok. apply update_ok in Hok as (_ & (now & Hrows) & _); [|done]. exists now. intros k. rewrite Hr, Hrows.
  unfold updated, centrals. rewrite lookup_fmap. destruct (rows (w_centrals w) !! k) as [r|] eqn:E; [|by case_bool_decide].
  simpl. apply rows_id in E. simpl in E. rewrite E. by case_bool_decide.
Qed.

Lemma update_one_failed name id w e :
  (on_centrals (db_update (fun r => bool_decide (cr_ID r = id)) (set_OrganisationName name)) w).2 = Err e ->
  centrals (on_centrals (db_update (fun r => bool_decide (cr_ID r = id)) (set_OrganisationName name)) w).1 = centrals w.
Proof.
  intros He. destruct (on_centrals_run (db_update (fun r => bool_decide (cr_ID r = id)) (set_OrganisationName name)) w) as (Hr & _ & H2).
  rewrite H2 in He. apply update_err in He as [He _]. by rewrite Hr.
Qed.

(** The rows of [l1] were named, all others are as they were. *)
Definition named_rows (l1 : list CentralRequest) (w w' : world) : Prop :=
  (forall k, k ∉ cr_ID <$> l1 -> centrals w' !! k = centrals w !! k) /\
  (forall c, c ∈ l1 -> centrals w !! cr_ID c = Some c -> exists r', centrals w' !! cr_ID c = Some r' /\ named_by_ams c r').

Lemma named_rows_nil w w' : centrals w' = centrals w -> named_rows [] w w'.
Proof. intros Hw. split; [intros k _; by rewrite Hw|]. by intros c ?%not_elem_of_nil. Qed.

Lemma named_rows_cons c l1 org name now (x : externals) w w1 w' :
  (GetOrganisationFromExternalID (cr_OrganisationID c) x).2 = Ok (org, name) ->
  (forall k, centrals w1 !! k = if bool_decide (k = cr_ID c) then (fun r => stamp_updated now (set_OrganisationName name r)) <$> centrals w !! k
                                else centrals w !! k) ->
  cr_ID c ∉ cr_ID <$> l1 -> named_rows l1 w1 w' -> named_rows (c :: l1) w w'.
Proof.
  intros Hans Hw1 Hnew [Hout Hin]. split.
  - intros k [Hk Hk']%not_elem_of_cons. rewrite Hout by done. rewrite Hw1. by rewrite bool_decide_eq_false_2.
  - intros c' [->|Hc]%elem_of_cons Hlive.
    + rewrite Hout by done. rewrite Hw1, bool_decide_eq_true_2, Hlive by done. eexists. split; [done|]. by exists x, org, name, now.
    + apply Hin; [done|]. rewrite Hw1, bool_decide_eq_false_2; [done|]. intros Heq. apply Hnew. rewrite <- Heq. by apply list_elem_of_fmap_2.
Qed.

Lemma migrate_rows_spec l : forall i cnt w, NoDup (cr_ID <$> l) ->
  let '(w', (n, oe)) := migrate_rows i l cnt w in
  exists l1 l2, l = (l1 ++ l2)%list /\ n = cnt + Z.of_nat (length l1) /\ (oe = None -> l2 = []) /\ named_rows l1 w w'.
Proof.
  induction l as [|c l IH]; intros i cnt w Hnd; simpl.
  { exists [], []. split_and!; [done|simpl; lia|done|by apply named_rows_nil]. }
  assert (Hstop : forall w' (oe : option error) n, centrals w' = centrals w -> n = cnt -> oe <> None ->
    exists l1 l2, (c :: l = l1 ++ l2)%list /\ n = cnt + Z.of_nat (length l1) /\ (oe = None -> l2 = []) /\ named_rows l1 w w').
  { intros w' oe n Hw -> Hoe. exists [], (c :: l). split_and!; [done|simpl; lia|done|by apply named_rows_nil]. }
  destruct (scan i) as [err|]; [by apply Hstop|]. rewrite prog_bind_run.
  destruct (on_ext_run (GetOrganisationFromExternalID (cr_OrganisationID c)) w) as [Hext _].
  assert (Hans : (on_ext (GetOrganisationFromExternalID (cr_OrganisationID c)) w).2 = (GetOrganisationFromExternalID (cr_OrganisationID c) (w_ext w)).2).
  { unfold on_ext. by destruct (GetOrganisationFromExternalID _ _). }
  destruct (on_ext _ w) as [w1 [[org name]|err]]; simpl in *; [|by apply Hstop]. rewrite prog_bind_run.
  pose proof (update_one name (cr_ID c) w1) as Hup. pose proof (update_one_failed name (cr_ID c) w1) as Hfail.
  destruct (on_centrals _ w1) as [w2 [u|err]]; simpl in *; [|by apply Hstop; [rewrite (Hfail err), Hext| |]].
  destruct (Hup u eq_refl) as [now Hw2]. apply NoDup_cons in Hnd as [Hnew Hnd]. specialize (IH (S i) (cnt + 1) w2 Hnd).
  destruct (migrate_rows (S i) l (cnt + 1) w2) as [w' [n oe]]. destruct IH as (l1 & l2 & -> & -> & Hoe & Hn).
  exists (c :: l1), l2. split_and!; [done|simpl; lia|done|]. symmetry in Hans.
  eapply named_rows_cons; [exact Hans| | |exact Hn].
  - intros k. by rewrite Hw2, Hext.
  - rewrite fmap_app in Hnew. set_solver.
Qed.

(** The data migration gives a name to a prefix of the centrals without one, as the
    query lists them: each of them ends with the name that account management gave for its
    organisation, every other central, and in particular every central that has a name, is
    left as it is, the count is the number of centrals named, and without an error all
    centrals without a name were named. *)
Theorem migrateOrganisationNames_spec w :
  let '(w', (n, oe)) := migrateOrganisationNames w in
  exists named, n = Z.of_nat (length named) /\ named_rows named w w' /\
    (forall c, c ∈ named -> centrals w !! cr_ID c = Some c /\ nameless c = true) /\
    (oe = None -> forall k c, centrals w !! k = Some c -> nameless c = true -> c ∈ named).
Proof.
  unfold migrateOrganisationNames. rewrite prog_bind_run.
  destruct (on_centrals_run (db_find nameless) w) as (Hr & _ & H2). destruct (find_same nameless (w_centrals w)) as [Hsame _].
  pose proof (find_ok nameless (w_centrals w)) as Hfind. rewrite <- H2 in Hfind. rewrite Hsame in Hr.
  destruct (on_centrals (db_find nameless) w) as [w1 [l|err]]; simpl in *.
  2: { exists []. split_and!; [done|by apply named_rows_nil|by intros c ?%not_elem_of_nil|done]. }
  specialize (Hfind l eq_refl).
  assert (Hl : forall c, c ∈ l <-> centrals w !! cr_ID c = Some c /\ nameless c = true).
  { intros c. rewrite Hfind, list_elem_of_fmap. split.
    - intros ([k r] & -> & Hk%elem_of_map_to_list). apply matching_lookup in Hk as [Hk Hp]. simpl. pose proof (rows_id _ _ _ Hk) as Hid.
      simpl in Hid. unfold centrals. by rewrite Hid.
    - intros [Hk Hp]. exists (cr_ID c, c). split; [done|]. apply elem_of_map_to_list. by apply matching_lookup. }
  assert (Hnd : NoDup (cr_ID <$> l)).
  { rewrite Hfind. rewrite <- list_fmap_compose.
    replace (cr_ID ∘ snd <$> map_to_list (matching nameless (rows (w_centrals w)))) with ((map_to_list (matching nameless (rows (w_centrals w)))).*1).
    - apply NoDup_fst_map_to_list.
    - apply list_fmap_ext. intros i [k r] Hk%list_elem_of_lookup_2%elem_of_map_to_list. apply matching_lookup in Hk as [Hk _].
      symmetry. simpl. by apply rows_id in Hk. }
  pose proof (migrate_rows_spec l 0%nat 0 w1 Hnd) as Hspec. destruct (migrate_rows 0 l 0 w1) as [w' [n oe]].
  destruct Hspec as (l1 & l2 & -> & -> & Hoe & Hn). exists l1. split_and!; [lia| | |].
  - change (rows (w_centrals w)) with (centrals w) in Hr. unfold named_rows. rewrite <- Hr. exact Hn.
  - intros c Hc. apply Hl. set_solver.
  - intros ->. specialize (Hoe eq_refl) as ->. intros k c Hk Hc. rewrite app_nil_r in Hl. apply Hl. split; [|done].
    pose proof (rows_id _ _ _ Hk) as Hid. simpl in Hid. unfold centrals. by rewrite Hid.
Qed.
End data_migration.

End DataMigration.
