(* ===== verification/Transactions.v ===== *)
(** * The transaction of a request

    pkg/db/context.go, the transactions of pkg/db/connection.go and the middleware of
    pkg/db/transaction_middleware.go, which the route loader puts around the API.  The
    object in the request's context is shared by all that handle the request: it is part
    of the state, absent when the context has no transaction.  database/sql is the class
    [Sql]. *)

From S2P Require Import Prelude GoString GoFmt ServiceErrors World Effects ApiFramework.
Local Open Scope string_scope.
Local Open Scope Z_scope.

(** Transactions of database/sql, by a handle; [sql_open] are those that hold a
    connection. *)
Class Sql (S : Type) := {
  sql_open : S -> gset Z;
  sql_Begin : prog S (result error Z);
  (** [select txid_current()] in the transaction *)
  sql_txid : Z -> prog S (result error Z);
  sql_Commit : Z -> prog S (option error);
  sql_Rollback : Z -> prog S (option error)
}.

Class SqlLaws (S : Type) `{Sql S} := {
  Begin_law s : let '(s', r) := sql_Begin s in
    match r with Ok h => (h ∉ sql_open s) /\ sql_open s' = {[h]} ∪ sql_open s | Err _ => sql_open s' = sql_open s end;
  txid_law h s : sql_open (sql_txid h s).1 = sql_open s;
  (** the connection is given back whatever the database answers *)
  Commit_law h s : sql_open (sql_Commit h s).1 = sql_open s ∖ {[h]};
  Rollback_law h s : sql_open (sql_Rollback h s).1 = sql_open s ∖ {[h]}
}.

Section transactions.
Context {S : Type} `{Sql S}.

(** [tf_tx] is nil in an object that was never begun. *)
Record txFactory := mkTx {
  tf_resolved : bool;
  tf_rollbackFlag : bool;
  tf_tx : option Z;
  tf_txid : Z;
  tf_postCommitActions : list (prog S unit)
}.

(** The database, and the transaction of the context. *)
Record request := mkRequest { rq_db : S; rq_tx : option txFactory }.

Definition on_db {A} (m : prog S A) : prog request A := fun q =>
  let '(s, a) := m (rq_db q) in (mkRequest s (rq_tx q), a).

Definition set_tx (tx : txFactory) : prog request unit := fun q => (mkRequest (rq_db q) (Some tx), tt).

Definition defaultRollbackPolicy : bool := false.

(** [f.begin()] on the object [f]: the object after it. *)
Definition begin (f : txFactory) : prog S (result error txFactory) :=
  tx ←? with_err (Errorf_w "beginning DB transaction") sql_Begin;
  txid ←? with_err (Errorf_w "scanning row") (sql_txid tx);
  mret (Ok (mkTx false defaultRollbackPolicy (Some tx) txid (tf_postCommitActions f))).

Definition markedForRollback (f : txFactory) : bool := tf_rollbackFlag f.

(** [conn] is the error of [f.DB.DB()], if it has one. *)
Definition newTransaction (conn : option error) : prog S (result error txFactory) :=
  match conn with
  | Some err => mret (Err (Errorf_w "getting DB connection" err))
  | None => begin (mkTx false false None 0 [])
  end.

(** The context has a transaction afterwards when there was no error. *)
Definition NewContext (conn : option error) : prog request (option error) := fun q =>
  let '(s, r) := newTransaction conn (rq_db q) in
  match r with
  | Err err => (mkRequest s (rq_tx q), Some err)
  | Ok tx => (mkRequest s (Some tx), None)
  end.

Definition no_transaction : error := EPlain "Could not retrieve transaction from context".

(** [for _, f := range postCommitActions { f() }] *)
Fixpoint run_actions (fs : list (prog S unit)) : prog S unit :=
  match fs with
  | [] => mret tt
  | f :: fs => _ ← f; run_actions fs
  end.

(** [None]: a nil transaction is dereferenced. *)
Definition Resolve : prog request (option (option error)) := fun q =>
  match rq_tx q with
  | None => (q, Some (Some no_transaction))
  | Some tx =>
      if tf_resolved tx then (q, Some None) else
      let postCommitActions := tf_postCommitActions tx in
      let tx := mkTx true (tf_rollbackFlag tx) (tf_tx tx) (tf_txid tx) [] in
      match tf_tx tx with
      | None => (mkRequest (rq_db q) (Some tx), None)
      | Some h =>
          if markedForRollback tx then
            let '(s, r) := sql_Rollback h (rq_db q) in
            (mkRequest s (Some tx),
             Some (match r with Some err => Some (EPlain ("Could not rollback transaction: " +:+ Error err)) | None => None end))
          else
            let '(s, r) := sql_Commit h (rq_db q) in
            match r with
            | Some err => (mkRequest s (Some tx), Some (Some (EPlain ("Could not commit transaction: " +:+ Error err))))
            | None => let '(s, _) := run_actions postCommitActions s in (mkRequest s (Some tx), Some None)
            end
      end
  end.

Definition Begin : prog request (option error) := fun q =>
  match rq_tx q with
  | None => (q, Some no_transaction)
  | Some tx =>
      let '(s, r) := begin tx (rq_db q) in
      match r with
      | Err err => (mkRequest s (Some tx), Some (EPlain ("Could not begin transaction: " +:+ Error err)))
      | Ok tx => (mkRequest s (Some tx), None)
      end
  end.

Definition AddPostCommitAction (f : prog S unit) : prog request (option error) := fun q =>
  match rq_tx q with
  | None => (q, Some no_transaction)
  | Some tx =>
      (mkRequest (rq_db q) (Some (mkTx (tf_resolved tx) (tf_rollbackFlag tx) (tf_tx tx) (tf_txid tx) (tf_postCommitActions tx ++ [f])%list)), None)
  end.

Definition FromContext (q : request) : result ServiceError (option Z) :=
  match rq_tx q with
  | None => Err (GeneralError "Could not retrieve transaction from context" [])
  | Some tx => Ok (tf_tx tx)
  end.

(** Both outcomes are logged. *)
Definition MarkForRollback : prog request unit := fun q =>
  match rq_tx q with
  | None => (q, tt)
  | Some tx => (mkRequest (rq_db q) (Some (mkTx (tf_resolved tx) true (tf_tx tx) (tf_txid tx) (tf_postCommitActions tx))), tt)
  end.

(** The middleware around a handler; [RPanic] is a handler that panics, which the
    deferred function does not catch, and an error of Resolve is logged.  [None] when
    Resolve itself panics. *)
Definition transactionMiddleware {R} (conn : option error) (next : prog request (response R)) : prog request (option (response R)) :=
  err ← NewContext conn;
  match err with
  | Some _ => mret (Some (RError (GeneralError "" [])))
  | None =>
      resp ← next;
      resolved ← Resolve;
      mret (match resolved with Some _ => Some resp | None => None end)
  end.

(** ** What handlers do with the transaction *)

(** A step of a handler: a use of the database, a mark, or the registration of a post
    commit action. *)
Inductive step := SDb (m : prog S unit) | SMark | SPost (f : prog S unit).

Definition run_step (st : step) : prog request unit :=
  match st with
  | SDb m => on_db m
  | SMark => MarkForRollback
  | SPost f => _ ← AddPostCommitAction f; mret tt
  end.

Fixpoint run_steps {R} (sts : list step) (resp : response R) : prog request (response R) :=
  match sts with
  | [] => mret resp
  | st :: sts => _ ← run_step st; run_steps sts resp
  end.

(** The uses of the database in order, whether a step marks, and the actions in order. *)
Definition db_effects (sts : list step) : prog S unit :=
  run_actions (omap (fun st => match st with SDb m => Some m | _ => None end) sts).
Definition marks (sts : list step) : bool := existsb (fun st => match st with SMark => true | _ => false end) sts.
Definition posts (sts : list step) : list (prog S unit) := omap (fun st => match st with SPost f => Some f | _ => None end) sts.

(** The end of the transaction [h] on the database [s]. *)
Definition settle (rollback : bool) (h : Z) (actions : list (prog S unit)) (s : S) : S :=
  if rollback then (sql_Rollback h s).1
  else match (sql_Commit h s).2 with
       | Some _ => (sql_Commit h s).1
       | None => (run_actions actions (sql_Commit h s).1).1
       end.

Lemma run_steps_spec {R} sts (resp : response R) s res flag h id acts :
  run_steps sts resp (mkRequest s (Some (mkTx res flag h id acts))) =
  (mkRequest (db_effects sts s).1 (Some (mkTx res (flag || marks sts) h id (acts ++ posts sts))), resp).
Proof.
  revert s flag acts. induction sts as [|st sts IH]; intros s flag acts; [by rewrite orb_false_r, app_nil_r|].
  cbn [run_steps]. rewrite prog_bind_run. destruct st as [m| |f]; simpl.
  - unfold on_db. simpl. destruct (m s) as [s1 u] eqn:E. simpl. rewrite IH. unfold db_effects. simpl. rewrite prog_bind_run, E. done.
  - rewrite IH. simpl. by rewrite orb_true_r.
  - rewrite IH. unfold db_effects. simpl. by rewrite <- app_assoc.
Qed.

(** What a new transaction is. *)
Lemma newTransaction_Ok s0 s tx :
  newTransaction None s0 = (s, Ok tx) ->
  exists h id s1, sql_Begin s0 = (s1, Ok h) /\ sql_txid h s1 = (s, Ok id) /\ tx = mkTx false false (Some h) id [].
Proof.
  simpl. unfold begin, try_bind, with_err. rewrite !prog_bind_run. destruct (sql_Begin s0) as [s1 [h|e]]; simpl; [|done].
  rewrite !prog_bind_run. destruct (sql_txid h s1) as [s2 [id|e]] eqn:E; simpl; [|done]. rewrite prog_ret_run. intros ?. simplify_eq.
  by exists h, id, s1.
Qed.

Lemma middleware_run {R} sts (resp : response R) q s h id :
  newTransaction None (rq_db q) = (s, Ok (mkTx false false (Some h) id [])) ->
  transactionMiddleware None (run_steps sts resp) q =
  (mkRequest (settle (marks sts) h (posts sts) (db_effects sts s).1) (Some (mkTx true (marks sts) (Some h) id [])), Some resp).
Proof.
  intros Hn. unfold transactionMiddleware. rewrite prog_bind_run. unfold NewContext. rewrite Hn. simpl.
  rewrite prog_bind_run, run_steps_spec. simpl. rewrite prog_bind_run. unfold Resolve, settle. simpl.
  destruct (marks sts); simpl.
  - by destruct (sql_Rollback h _) as [s3 r].
  - destruct (sql_Commit h _) as [s3 [e|]]; simpl; [done|]. by destruct (run_actions (posts sts) s3) as [s4 u].
Qed.

(** C31. The transaction that the middleware begins for a request is settled exactly once,
    after everything that the handler does: it is rolled back when a step of the handler
    has marked it, and committed otherwise, a panicking handler included; the post commit
    actions run, once and in the order of their registration, after a successful commit
    and not otherwise; and the client gets the answer of the handler in every case, also
    when the commit fails. *)
Theorem middleware_settles {R} sts (resp : response R) q tx s :
  newTransaction None (rq_db q) = (s, Ok tx) ->
  exists h, tf_tx tx = Some h /\
  transactionMiddleware None (run_steps sts resp) q =
  (mkRequest (settle (marks sts) h (posts sts) (db_effects sts s).1) (Some (mkTx true (marks sts) (Some h) (tf_txid tx) [])), Some resp).
Proof. intros Hn. destruct (newTransaction_Ok _ _ _ Hn) as (h & id & s1 & _ & _ & ->). exists h. split; [done|]. by apply middleware_run. Qed.

(** A second Resolve does nothing, whatever the first one met. *)
Theorem Resolve_once q q' r : Resolve q = (q', Some r) -> rq_tx q <> None -> Resolve q' = (q', Some None).
Proof.
  unfold Resolve. destruct q as [s [tx|]]; [|done]. simpl. intros Hr _. destruct (tf_resolved tx) eqn:E; [simplify_eq/=; by rewrite E|].
  destruct (tf_tx tx) as [h|]; [|done]. destruct (tf_rollbackFlag tx).
  - destruct (sql_Rollback h s) as [s1 r1]. by simplify_eq/=.
  - destruct (sql_Commit h s) as [s1 [e|]]; [by simplify_eq/=|]. destruct (run_actions _ s1). by simplify_eq/=.
Qed.

(** ** Connections *)

Context `{!SqlLaws S}.

Definition keeps_open (m : prog S unit) : Prop := forall s, sql_open (m s).1 = sql_open s.

Lemma run_actions_open fs s : Forall keeps_open fs -> sql_open (run_actions fs s).1 = sql_open s.
Proof.
  intros Hf. revert s. induction Hf as [|f fs Hk _ IH]; intros s; [done|]. simpl. by rewrite prog_bind_run, IH, Hk.
Qed.

(** The transaction of a request gives its connection back. *)
Theorem middleware_releases {R} sts (resp : response R) q tx s :
  newTransaction None (rq_db q) = (s, Ok tx) -> Forall (fun st => match st with SDb m | SPost m => keeps_open m | SMark => True end) sts ->
  sql_open (rq_db (transactionMiddleware None (run_steps sts resp) q).1) = sql_open (rq_db q).
Proof.
  intros Hn Hsts. destruct (newTransaction_Ok _ _ _ Hn) as (h & id & s1 & Hb & Ht & ->). rewrite (middleware_run _ _ _ _ _ _ Hn). simpl.
  assert (Hdb : Forall keeps_open (omap (fun st => match st with SDb m => Some m | _ => None end) sts)).
  { clear -Hsts. induction Hsts as [|[] ? ? ? ?]; simpl; [constructor|by constructor|done|done]. }
  assert (Hpost : Forall keeps_open (posts sts)).
  { clear -Hsts. unfold posts. induction Hsts as [|[] ? ? ? ?]; simpl; [constructor|done|done|by constructor]. }
  assert (Hs : (h ∉ sql_open (rq_db q)) /\ sql_open s = {[h]} ∪ sql_open (rq_db q)).
  { pose proof (Begin_law (rq_db q)) as Hl. rewrite Hb in Hl. pose proof (txid_law h s1) as Ht'. rewrite Ht in Ht'. simpl in Ht'. by rewrite Ht'. }
  assert (Hend : sql_open (settle (marks sts) h (posts sts) (db_effects sts s).1) = sql_open (db_effects sts s).1 ∖ {[h]}).
  { unfold settle. destruct (marks sts); [apply Rollback_law|]. destruct (sql_Commit h _).2; [apply Commit_law|].
    rewrite run_actions_open by done. apply Commit_law. }
  unfold db_effects in Hend |- *. rewrite Hend, run_actions_open by done. destruct Hs as [Hn1 ->]. set_solver.
Qed.

(** When the identifier of a new transaction cannot be read, the transaction stays open
    and nothing refers to it. *)
Theorem begin_leaks conn q h s s' e :
  conn = None -> sql_Begin (rq_db q) = (s, Ok h) -> sql_txid h s = (s', Err e) ->
  let '(q', err) := NewContext conn q in
  is_Some err /\ rq_tx q' = rq_tx q /\ sql_open (rq_db q') = {[h]} ∪ sql_open (rq_db q).
Proof.
  intros -> Hb Ht. unfold NewContext. simpl. unfold begin, try_bind, with_err. rewrite !prog_bind_run, Hb. simpl.
  rewrite !prog_bind_run, Ht. simpl. split_and!; [by eexists|done|]. pose proof (txid_law h s) as Hl. rewrite Ht in Hl. simpl in Hl.
  rewrite Hl. pose proof (Begin_law (rq_db q)) as Hlaw. rewrite Hb in Hlaw. by destruct Hlaw.
Qed.
End transactions.
Arguments txFactory S : clear implicits.
Arguments request S : clear implicits.

(** ** A concrete database/sql *)

Inductive sql_event := EvBegin (h : Z) | EvCommit (h : Z) | EvRollback (h : Z) | EvNote (s : string).

Record memsql := mkMemsql { msq_open : gset Z; msq_log : list sql_event; msq_commit : option error }.

(** A handle that is not in use. *)
Definition fresh_handle (s : memsql) : Z := fresh (msq_open s).

#[export] Instance memsql_sql : Sql memsql := {|
  sql_open := msq_open;
  sql_Begin := fun s => (mkMemsql ({[fresh_handle s]} ∪ msq_open s) (msq_log s ++ [EvBegin (fresh_handle s)]) (msq_commit s), Ok (fresh_handle s));
  sql_txid h := fun s => (s, Ok 7);
  sql_Commit h := fun s => (mkMemsql (msq_open s ∖ {[h]}) (msq_log s ++ [EvCommit h]) (msq_commit s), msq_commit s);
  sql_Rollback h := fun s => (mkMemsql (msq_open s ∖ {[h]}) (msq_log s ++ [EvRollback h]) (msq_commit s), None)
|}.

#[export] Instance memsql_laws : SqlLaws memsql.
Proof. split; [|done..]. intros s. cbn. split; [exact (is_fresh (msq_open s))|done]. Qed.

(** An action that leaves a note. *)
Definition note (text : string) : prog memsql unit := fun s => (mkMemsql (msq_open s) (msq_log s ++ [EvNote text]) (msq_commit s), tt).

Definition idle_sql : memsql := mkMemsql ∅ [] None.

(** A request whose handler registers two actions around a statement. *)
Lemma middleware_settles_witness :
  exists h, Some 0 = Some h /\
  transactionMiddleware None (run_steps [SPost (note "first"); SDb (note "insert"); SPost (note "second")] (RJson 202 tt)) (mkRequest idle_sql None) =
  (mkRequest (mkMemsql ∅ [EvBegin 0; EvNote "insert"; EvCommit 0; EvNote "first"; EvNote "second"] None) (Some (mkTx true false (Some 0) 7 [])),
   Some (RJson 202 tt)).
Proof.
  destruct (middleware_settles [SPost (note "first"); SDb (note "insert"); SPost (note "second")] (RJson 202 tt) (mkRequest idle_sql None)
    (mkTx false false (Some 0) 7 []) (mkMemsql {[0]} [EvBegin 0] None)) as (h & Hh & Heq).
  - vm_compute. reflexivity.
  - exists h. split; [exact Hh|]. simpl in Hh. injection Hh as <-. rewrite Heq. vm_compute. reflexivity.
Defined.
