(* ===== verification/Observatorium.v ===== *)
(** * Metrics of centrals

    pkg/client/observatorium (the client, its service and its mock),
    internal/dinosaur/pkg/services/observatorium_service.go, the presenters and handlers
    of metrics, and the collector of federated metrics.  A float64 is only copied: it is
    a type parameter [F].  Prometheus is the class [Prom].  Go ranges over a map in any
    order: the order of the fetchers is a parameter. *)

From S2P Require Import Prelude GoString GoFmt ServiceErrors CentralRequest Store World Effects ApiFramework.
From S2P Require Import Namespace ClusterService CentralService CentralProps LeaderElection.
Local Open Scope string_scope.
Local Open Scope Z_scope.

(** ** Data *)

Record Sample (F : Type) := mkSample { sm_Metric : gmap string string; sm_Value : F; sm_Timestamp : Z }.
Arguments mkSample {F}. Arguments sm_Metric {F}. Arguments sm_Value {F}. Arguments sm_Timestamp {F}.
Record SamplePair (F : Type) := mkSamplePair { sp_Timestamp : Z; sp_Value : F }.
Arguments mkSamplePair {F}. Arguments sp_Timestamp {F}. Arguments sp_Value {F}.
Record SampleStream (F : Type) := mkSampleStream { ss_Metric : gmap string string; ss_Values : list (SamplePair F) }.
Arguments mkSampleStream {F}. Arguments ss_Metric {F}. Arguments ss_Values {F}.

(** The values that Prometheus answers with; other types by their name. *)
Inductive PromValue (F : Type) := PVector (v : list (Sample F)) | PMatrix (m : list (SampleStream F)) | POther (ty : string).
Arguments PVector {F}. Arguments PMatrix {F}. Arguments POther {F}.

Definition ClusterStateUnknown : string := "unknown".
Definition ClusterStateReady : string := "ready".
Definition RangeQuery : string := "query_range".
Definition Query_type : string := "query".

(** observatorium.Metric *)
Record Metric (F : Type) := mkMetric { mt_Matrix : list (SampleStream F); mt_Vector : list (Sample F); mt_Err : option error }.
Arguments mkMetric {F}. Arguments mt_Matrix {F}. Arguments mt_Vector {F}. Arguments mt_Err {F}.

Record Range := mkRange { rg_Start : Z; rg_End : Z; rg_Step : Z }.
Record MetricsReqParams := mkParams { mp_Filters : list string; mp_ResultType : string; mp_Range : Range }.

(** The zero value of the parameters, but for the type of result. *)
Definition no_params (ty : string) : MetricsReqParams := mkParams [] ty (mkRange 0 0 0).

Definition minute : Z := 60 * second.

(** [FillDefaults] at the time [n]. *)
Definition FillDefaults (n : Z) (q : MetricsReqParams) : MetricsReqParams :=
  mkParams (mp_Filters q) (mp_ResultType q) (mkRange (n - 5 * minute) n (30 * second)).

(** ** Prometheus *)

Class Prom (P F : Type) := {
  prom_Query : string -> prog P (result error (PromValue F));
  prom_QueryRange : string -> Range -> prog P (result error (PromValue F));
  prom_Now : prog P Z
}.

(** [%T] of a value *)
Definition type_name {F} (v : PromValue F) : string :=
  match v with PVector _ => "model.Vector" | PMatrix _ => "model.Matrix" | POther ty => ty end.

Definition failed_metric {F} (err : error) : Metric F := mkMetric [] [] (Some err).

Definition wrong_type {F} (v : PromValue F) (expected : string) : error :=
  ETraced (Sprintf "Prometheus client got data of type %s, but expected %s" [VStr (type_name v); VStr expected]).

(** ** The client (client.go) *)

Section client.
Context {P F : Type} `{Prom P F}.

Definition send (query : string) : prog P (result error (PromValue F)) :=
  with_err (Errorf_w "executing POST request") (prom_Query query).
Definition sendRange (query : string) (bounds : Range) : prog P (result error (PromValue F)) :=
  with_err (Errorf_w "executing range POST request") (prom_QueryRange query bounds).

(** Warnings are logged. *)
Definition client_Query (queryTemplate label : string) : prog P (Metric F) :=
  values ← send (Sprintf queryTemplate [VStr label]);
  mret (match values with
        | Err err => failed_metric err
        | Ok (PVector v) => mkMetric [] v None
        | Ok v => failed_metric (wrong_type v "model.Vector")
        end).

Definition client_QueryRange (queryTemplate label : string) (bounds : Range) : prog P (Metric F) :=
  values ← sendRange (Sprintf queryTemplate [VStr label]) bounds;
  mret (match values with
        | Err err => failed_metric err
        | Ok (PMatrix m) => mkMetric m [] None
        | Ok v => failed_metric (wrong_type v "model.Matrix")
        end).

(** ** The service of the client (api.go) *)

Record fetcher := mkFetcher { ft_metric : string; ft_labels : string }.

(** The last sample decides; [one] is the test for the value 1. *)
Definition GetDinosaurState (one : F -> bool) (name resourceNamespace : string) : prog P (string * option error) :=
  let metric := "dinosaur_operator_resource_state{%s}" in
  let labels := Sprintf "kind=~'Dinosaur', name=~'%s',resource_namespace=~'%s'" [VStr name; VStr resourceNamespace] in
  result ← client_Query metric labels;
  mret (match mt_Err result with
        | Some err => ("", Some err)
        | None => (foldl (fun _ s => if one (sm_Value s) then ClusterStateReady else ClusterStateUnknown) "" (mt_Vector result), None)
        end).

Definition volume_labels (namespace : string) : string :=
  Sprintf ("persistentvolumeclaim=~" +:+ dquote +:+ "data-.*-dinosaur-[0-9]*$" +:+ dquote +:+ ", namespace=~'%s'") [VStr namespace].

Definition fetchers (namespace : string) : list (string * fetcher) :=
  [ ("kubelet_volume_stats_available_bytes",
       mkFetcher "kubelet_volume_stats_available_bytes{%s}" (volume_labels namespace));
    ("kubelet_volume_stats_used_bytes",
       mkFetcher "kubelet_volume_stats_used_bytes{%s}" (volume_labels namespace));
    ("dinosaur_namespace:haproxy_server_bytes_in_total:rate5m",
       mkFetcher "dinosaur_namespace:haproxy_server_bytes_in_total:rate5m{%s}" (Sprintf "exported_namespace=~'%s'" [VStr namespace]));
    ("dinosaur_namespace:haproxy_server_bytes_out_total:rate5m",
       mkFetcher "dinosaur_namespace:haproxy_server_bytes_out_total:rate5m{%s}" (Sprintf "exported_namespace=~'%s'" [VStr namespace]));
    ("dinosaur_namespace:dinosaur_server_socket_server_metrics_connection_count:sum",
       mkFetcher "dinosaur_namespace:dinosaur_server_socket_server_metrics_connection_count:sum{%s}" (Sprintf "namespace=~'%s'" [VStr namespace]));
    ("dinosaur_namespace:dinosaur_server_socket_server_metrics_connection_creation_rate:sum",
       mkFetcher "dinosaur_namespace:dinosaur_server_socket_server_metrics_connection_creation_rate:sum{%s}"
         (Sprintf "namespace=~'%s'" [VStr namespace])) ].

Definition fetchMetricsResult (rq : MetricsReqParams) (f : fetcher) : prog P (Metric F) :=
  if bool_decide (mp_ResultType rq = RangeQuery) then client_QueryRange (ft_metric f) (ft_labels f) (mp_Range rq)
  else if bool_decide (mp_ResultType rq = Query_type) then client_Query (ft_metric f) (ft_labels f)
  else mret (failed_metric (ETraced (Sprintf "Unsupported Result Type %q" [VStr (mp_ResultType rq)]))).

(** One fetch: the metrics and the failures so far. *)
Definition fetch_one (rq : MetricsReqParams) (msg : string) (f : fetcher) (acc : list (Metric F) * list string)
    : prog P (list (Metric F) * list string) :=
  result ← fetchMetricsResult rq f;
  let failed := match mt_Err result with
                | Some err => (acc.2 ++ [Sprintf "%s: %s" [VStr msg; VStr (Error err)]])%list
                | None => acc.2
                end in
  mret ((acc.1 ++ [result])%list, failed).

(** The loop over the filters that a request has. *)
Fixpoint fetch_filtered (rq : MetricsReqParams) (msg : string) (f : fetcher) (filters : list string) (acc : list (Metric F) * list string)
    : prog P (list (Metric F) * list string) :=
  match filters with
  | [] => mret acc
  | filter :: filters =>
      if bool_decide (filter = msg) then acc ← fetch_one rq msg f acc; fetch_filtered rq msg f filters acc
      else fetch_filtered rq msg f filters acc
  end.

Fixpoint fetch_all (rq : MetricsReqParams) (fs : list (string * fetcher)) (acc : list (Metric F) * list string)
    : prog P (list (Metric F) * list string) :=
  match fs with
  | [] => mret acc
  | (msg, f) :: fs =>
      acc ← (if bool_decide (mp_Filters rq = []) then fetch_one rq msg f acc else fetch_filtered rq msg f (mp_Filters rq) acc);
      fetch_all rq fs acc
  end.

(** [order] is the order in which the map of the fetchers is ranged over; the metrics are
    appended to the caller's slice also when there is an error. *)
Definition GetMetrics (order : list (string * fetcher) -> list (string * fetcher)) (namespace : string) (rq : MetricsReqParams)
    : prog P (list (Metric F) * option error) :=
  acc ← fetch_all rq (order (fetchers namespace)) ([], []);
  let '(metrics, failedMetrics) := acc in
  mret (metrics, if bool_decide (failedMetrics = []) then None
                 else Some (ETraced (Sprintf "Failed to fetch metrics data [%s]" [VStr (Join "," failedMetrics)]))).
End client.

(** The conjunction of warnings that is logged. *)
Definition all (items : list string) (conjunction : string) : string :=
  let quoted := (fun item => Sprintf "'%s'" [VStr item]) <$> items in
  match reverse quoted with
  | [] => ""
  | [q] => q
  | q :: rest => Sprintf "%s %s %s" [VStr (Join ", " (reverse rest)); VStr conjunction; VStr q]
  end.

(** ** Presenters (presenters/metric.go) *)

Definition getSupportedLables : list string :=
  ["__name__"; "dinosaur_operator_io_cluster"; "topic"; "persistentvolumeclaim"; "statefulset_kubernetes_io_pod_name";
   "exported_service"; "exported_pod"; "route"].

Definition isAllowedLabel (lable : string) : bool := bool_decide (lable ∈ getSupportedLables).

Section presenters.
Context {F : Type}.

Record public_Values := mkValues { pv_Timestamp : Z; pv_Value : F }.
Record public_RangeQuery := mkRangeQuery { rq_Metric : gmap string string; rq_Values : list public_Values }.
Record public_InstantQuery := mkInstantQuery { iq_Metric : gmap string string; iq_Timestamp : Z; iq_Value : F }.

(** The loop over the labels that both conversions have. *)
Definition labelSet (metric : gmap string string) : gmap string string := filter (fun kv => isAllowedLabel kv.1 = true) metric.

Definition convertSamplePair (from : SamplePair F) : public_Values := mkValues (sp_Timestamp from) (sp_Value from).
Definition convertSampleStream (from : SampleStream F) : public_RangeQuery :=
  mkRangeQuery (labelSet (ss_Metric from)) (convertSamplePair <$> ss_Values from).
Definition convertSample (from : Sample F) : public_InstantQuery :=
  mkInstantQuery (labelSet (sm_Metric from)) (sm_Timestamp from) (sm_Value from).
Definition convertMatrix (from : list (SampleStream F)) : list public_RangeQuery := convertSampleStream <$> from.
Definition convertVector (from : list (Sample F)) : list public_InstantQuery := convertSample <$> from.

(** [Matrix.String] *)
Variable (matrix_text : list (SampleStream F) -> string).

Definition metric_error (m : Metric F) (err : error) : ServiceError :=
  GeneralError "error in metric %s: %v" [VStr (matrix_text (mt_Matrix m)); VStr (Error err)].

Fixpoint present {A} (convert : Metric F -> list A) (metrics : list (Metric F)) (out : list A) : result ServiceError (list A) :=
  match metrics with
  | [] => Ok out
  | m :: metrics =>
      match mt_Err m with
      | Some err => Err (metric_error m err)
      | None => present convert metrics (out ++ convert m)%list
      end
  end.

Definition PresentMetricsByRangeQuery (metrics : list (Metric F)) : result ServiceError (list public_RangeQuery) :=
  present (fun m => convertMatrix (mt_Matrix m)) metrics [].
Definition PresentMetricsByInstantQuery (metrics : list (Metric F)) : result ServiceError (list public_InstantQuery) :=
  present (fun m => convertVector (mt_Vector m)) metrics [].
End presenters.

(** ** The service and the handlers *)

(** What the handlers use of a request. *)
Record metrics_request := mkMetricsRequest { mr_id : string; mr_get : string -> string; mr_filters : list string }.

(** [strings.TrimSpace], of ASCII white space. *)
Definition is_space (c : Ascii.ascii) : bool := bool_decide (Ascii.nat_of_ascii c ∈ [9; 10; 11; 12; 13; 32]%nat).
Fixpoint trim_left (s : string) : string :=
  match s with
  | EmptyString => EmptyString
  | String c r => if is_space c then trim_left r else s
  end.
Fixpoint trim_right (s : string) : string :=
  match s with
  | EmptyString => EmptyString
  | String c r => let r := trim_right r in if is_space c && bool_decide (r = "") then "" else String c r
  end.
Definition TrimSpace (s : string) : string := trim_right (trim_left s).

(** The clock is read once, in FillDefaults. *)
Definition extractMetricsQueryParams (n : Z) (r : metrics_request) (q : MetricsReqParams) : MetricsReqParams :=
  let q := FillDefaults n q in
  let rg := mp_Range q in
  let dur := mr_get r "duration" in
  let start :=
    if bool_decide (dur = "") then rg_Start rg
    else let '(num, ok) := Atoi dur in
         if ok then let duration := wrap64 (num * minute) in rg_End rg + wrap64 (- duration) else rg_Start rg in
  let step := mr_get r "interval" in
  let step :=
    if bool_decide (step = "") then rg_Step rg
    else let '(num, ok) := Atoi step in if ok then wrap64 (num * second) else rg_Step rg in
  let filters := if bool_decide (mr_filters r = []) then mp_Filters q else mr_filters r in
  mkParams filters (mp_ResultType q) (mkRange start (rg_End rg) step).

(** The metadata of the federated metrics (constants/metrics.go). *)
Inductive ValueType := CounterValue | GaugeValue | UntypedValue.
Record MetricsMetadata := mkMetadata {
  md_Name : string; md_Help : string; md_Type : ValueType; md_TypeName : string; md_VariableLabels : list string
}.

Definition DinosaurServerBrokertopicmetricsMessagesInTotalDesc : string := "Attribute exposed for management (dinosaur.server<type=BrokerTopicMetrics, name=MessagesInPerSec, topic=__dinosaur_operator_canary><>Count)".
Definition DinosaurServerBrokertopicmetricsBytesInTotalDesc : string := "Attribute exposed for management (dinosaur.server<type=BrokerTopicMetrics, name=BytesInPerSec, topic=__dinosaur_operator_canary><>Count)".
Definition DinosaurServerBrokertopicmetricsBytesOutTotalDesc : string := "Attribute exposed for management (dinosaur.server<type=BrokerTopicMetrics, name=BytesOutPerSec, topic=__dinosaur_operator_canary><>Count)".
Definition DinosaurControllerDinosaurcontrollerOfflinePartitionsCountDesc : string := "Attribute exposed for management (dinosaur.controller<type=DinosaurController, name=OfflinePartitionsCount><>Value)".
Definition DinosaurControllerDinosaurcontrollerGlobalPartitionCountDesc : string := "Attribute exposed for management (dinosaur.controller<type=DinosaurController, name=GlobalPartitionCount><>Value)".
Definition DinosaurTopicDinosaurLogLogSizeSumDesc : string := "Attribute exposed for management (dinosaur.log<type=Log, name=Size, topic=__consumer_offsets, partition=18><>Value)".
Definition DinosaurBrokerQuotaSoftlimitbytesDesc : string := "Attribute exposed for management (io.dinosaur_operator.dinosaur.quotas<type=StorageChecker, name=SoftLimitBytes><>Value)".
Definition DinosaurBrokerQuotaTotalstorageusedbytesDesc : string := "Attribute exposed for management (io.dinosaur_operator.dinosaur.quotas<type=StorageChecker, name=TotalStorageUsedBytes><>Value)".
Definition KubeletVolumeStatsAvailableBytesDesc : string := "Number of available bytes in the volume".
Definition KubeletVolumeStatsUsedBytesDesc : string := "Number of used bytes in the volume".
Definition HaproxyServerBytesInTotalDesc : string := "Current total of incoming bytes".
Definition HaproxyServerBytesOutTotalDesc : string := "Current total of outgoing bytes".
Definition DinosaurTopicPartitionsSumDesc : string := "Number of topic partitions for this Dinosaur".
Definition DinosaurTopicPartitionsCountDesc : string := "Number of Topics for this Dinosaur".
Definition DinosaurConsumergroupMembersDesc : string := "Amount of members in a consumer group".
Definition DinosaurServerSocketServerMetricsConnectionCountDesc : string := "Current number of total dinosaur connections".
Definition DinosaurServerSocketServerMetricsConnectionCreationRateDesc : string := "Current rate of connections creation".

Definition GetMetricsMetaData : gmap string MetricsMetadata := list_to_map
  [ ("dinosaur_server_brokertopicmetrics_messages_in_total",
       mkMetadata "dinosaur_server_brokertopicmetrics_messages_in_total" DinosaurServerBrokertopicmetricsMessagesInTotalDesc GaugeValue "GAUGE" ["topic"; "statefulset_kubernetes_io_pod_name"; "dinosaur_operator_io_cluster"]);
    ("dinosaur_server_brokertopicmetrics_bytes_in_total",
       mkMetadata "dinosaur_server_brokertopicmetrics_bytes_in_total" DinosaurServerBrokertopicmetricsBytesInTotalDesc GaugeValue "GAUGE" ["topic"; "statefulset_kubernetes_io_pod_name"; "dinosaur_operator_io_cluster"]);
    ("dinosaur_server_brokertopicmetrics_bytes_out_total",
       mkMetadata "dinosaur_server_brokertopicmetrics_bytes_out_total" DinosaurServerBrokertopicmetricsBytesOutTotalDesc GaugeValue "GAUGE" ["topic"; "statefulset_kubernetes_io_pod_name"; "dinosaur_operator_io_cluster"]);
    ("dinosaur_controller_dinosaurcontroller_offline_partitions_count",
       mkMetadata "dinosaur_controller_dinosaurcontroller_offline_partitions_count" DinosaurControllerDinosaurcontrollerOfflinePartitionsCountDesc GaugeValue "GAUGE" ["statefulset_kubernetes_io_pod_name"; "dinosaur_operator_io_cluster"]);
    ("dinosaur_controller_dinosaurcontroller_global_partition_count",
       mkMetadata "dinosaur_controller_dinosaurcontroller_global_partition_count" DinosaurControllerDinosaurcontrollerGlobalPartitionCountDesc GaugeValue "GAUGE" ["statefulset_kubernetes_io_pod_name"; "dinosaur_operator_io_cluster"]);
    ("dinosaur_topic:dinosaur_log_log_size:sum",
       mkMetadata "dinosaur_topic:dinosaur_log_log_size:sum" DinosaurTopicDinosaurLogLogSizeSumDesc GaugeValue "GAUGE" ["topic"]);
    ("dinosaur_broker_quota_softlimitbytes",
       mkMetadata "dinosaur_broker_quota_softlimitbytes" DinosaurBrokerQuotaSoftlimitbytesDesc GaugeValue "GAUGE" ["statefulset_kubernetes_io_pod_name"; "dinosaur_operator_io_cluster"]);
    ("dinosaur_broker_quota_totalstorageusedbytes",
       mkMetadata "dinosaur_broker_quota_totalstorageusedbytes" DinosaurBrokerQuotaTotalstorageusedbytesDesc GaugeValue "GAUGE" ["statefulset_kubernetes_io_pod_name"; "dinosaur_operator_io_cluster"]);
    ("kubelet_volume_stats_available_bytes",
       mkMetadata "kubelet_volume_stats_available_bytes" KubeletVolumeStatsAvailableBytesDesc GaugeValue "GAUGE" ["persistentvolumeclaim"]);
    ("kubelet_volume_stats_used_bytes",
       mkMetadata "kubelet_volume_stats_used_bytes" KubeletVolumeStatsUsedBytesDesc GaugeValue "GAUGE" ["persistentvolumeclaim"]);
    ("dinosaur_namespace:haproxy_server_bytes_in_total:rate5m",
       mkMetadata "dinosaur_namespace:haproxy_server_bytes_in_total:rate5m" HaproxyServerBytesInTotalDesc GaugeValue "GAUGE" []);
    ("dinosaur_namespace:haproxy_server_bytes_out_total:rate5m",
       mkMetadata "dinosaur_namespace:haproxy_server_bytes_out_total:rate5m" HaproxyServerBytesOutTotalDesc GaugeValue "GAUGE" []);
    ("dinosaur_topic:dinosaur_topic_partitions:sum",
       mkMetadata "dinosaur_topic:dinosaur_topic_partitions:sum" DinosaurTopicPartitionsSumDesc GaugeValue "GAUGE" []);
    ("dinosaur_topic:dinosaur_topic_partitions:count",
       mkMetadata "dinosaur_topic:dinosaur_topic_partitions:count" DinosaurTopicPartitionsCountDesc GaugeValue "GAUGE" []);
    ("consumergroup:dinosaur_consumergroup_members:count",
       mkMetadata "consumergroup:dinosaur_consumergroup_members:count" DinosaurConsumergroupMembersDesc GaugeValue "GAUGE" []);
    ("dinosaur_namespace:dinosaur_server_socket_server_metrics_connection_count:sum",
       mkMetadata "dinosaur_namespace:dinosaur_server_socket_server_metrics_connection_count:sum" DinosaurServerSocketServerMetricsConnectionCountDesc GaugeValue "GAUGE" []);
    ("dinosaur_namespace:dinosaur_server_socket_server_metrics_connection_creation_rate:sum",
       mkMetadata "dinosaur_namespace:dinosaur_server_socket_server_metrics_connection_creation_rate:sum" DinosaurServerSocketServerMetricsConnectionCreationRateDesc GaugeValue "GAUGE" []) ].

(** What [prometheus.MustNewConstMetric] is given; it panics when there are not as many
    label values as variable labels. *)
Record ConstMetric (F : Type) := mkConstMetric { cm_Desc : MetricsMetadata; cm_Value : F; cm_Labels : list string }.
Arguments mkConstMetric {F}. Arguments cm_Desc {F}. Arguments cm_Value {F}. Arguments cm_Labels {F}.

Definition MustNewConstMetric {F} (md : MetricsMetadata) (value : F) (labels : list string) : option (ConstMetric F) :=
  if bool_decide (length labels = length (md_VariableLabels md)) then Some (mkConstMetric md value labels) else None.

(** A label that a metric does not have is the empty string. *)
Definition label (metric : gmap string string) (name : string) : string := default "" (metric !! name).

Definition extractLabelValues (metadata : gmap string MetricsMetadata) (metricLabels : gmap string string) : list string :=
  match metadata !! label metricLabels "__name__" with
  | Some metric => label metricLabels <$> md_VariableLabels metric
  | None => []
  end.

(** The metrics that are sent, [None] for a panic. *)
Fixpoint collect_vector {F} (metadata : gmap string MetricsMetadata) (v : list (Sample F)) : option (list (ConstMetric F)) :=
  match v with
  | [] => Some []
  | s :: v =>
      match metadata !! label (sm_Metric s) "__name__" with
      | Some md =>
          match md_Type md with
          | GaugeValue | CounterValue =>
              m ← MustNewConstMetric md (sm_Value s) (extractLabelValues metadata (sm_Metric s));
              ms ← collect_vector metadata v;
              Some (m :: ms)
          | _ => collect_vector metadata v
          end
      | None => collect_vector metadata v
      end
  end.

Fixpoint Collect {F} (metadata : gmap string MetricsMetadata) (metrics : list (Metric F)) : option (list (ConstMetric F)) :=
  match metrics with
  | [] => Some []
  | m :: metrics => a ← collect_vector metadata (mt_Vector m); b ← Collect metadata metrics; Some (a ++ b)%list
  end.

Section handlers.
Context {P F : Type} `{Platform} `{Prom P F}.
Variable (order : list (string * fetcher) -> list (string * fetcher)).
Variable (matrix_text : list (SampleStream F) -> string).

(** The state of the service: the fleet manager's world and Prometheus. *)
Abbreviation mstate := (world * P)%type.

Definition on_fleet {A} (m : prog world A) : prog mstate A := fun s => let '(w, a) := m s.1 in ((w, s.2), a).
Definition on_prom {A} (m : prog P A) : prog mstate A := fun s => let '(p, a) := m s.2 in ((s.1, p), a).

(** The metrics, the identifier and the error. *)
Definition GetMetricsByDinosaurID (ctx : Ctx) (id : string) (query : MetricsReqParams)
    : prog mstate (list (Metric F) * string * option ServiceError) :=
  r ← on_fleet (Get ctx id);
  match r with
  | Err err => mret ([], "", Some err)
  | Ok dinosaurRequest =>
      a ← on_prom (GetMetrics order (cr_Namespace dinosaurRequest) query);
      let '(metrics, getErr) := a in
      mret (metrics, cr_ID dinosaurRequest,
            match getErr with
            | Some err => Some (NewWithCause ErrorGeneral (Some err) "failed to retrieve metrics" [])
            | None => None
            end)
  end.

Record MetricsList (A : Type) := mkMetricsList { ml_Kind : string; ml_Id : string; ml_Items : list A }.
Arguments mkMetricsList {A}. Arguments ml_Id {A}. Arguments ml_Items {A}.

(** The common part of the two actions. *)
Definition query_action {A} (ctx : Ctx) (r : metrics_request) (ty kind : string)
    (presented : list (Metric F) -> result ServiceError (list A)) : prog mstate (result ServiceError (MetricsList A)) :=
  n ← on_prom prom_Now;
  let params := extractMetricsQueryParams n r (no_params ty) in
  a ← GetMetricsByDinosaurID ctx (mr_id r) params;
  let '(metrics, foundDinosaurID, err) := a in
  match err with
  | Some err => mret (Err err)
  | None => mret (match presented metrics with
                  | Err err => Err err
                  | Ok items => Ok (mkMetricsList kind foundDinosaurID items)
                  end)
  end.

Definition GetMetricsByRangeQuery (ctx : Ctx) (r : metrics_request) : prog mstate (response (MetricsList (@public_RangeQuery F))) :=
  HandleGet (mkHandlerConfig None
    [reading (fun _ => ValidatQueryParam (mr_get r) "duration"); reading (fun _ => ValidatQueryParam (mr_get r) "interval")]
    (query_action ctx r RangeQuery "MetricsRangeQueryList" (PresentMetricsByRangeQuery matrix_text))).

Definition GetMetricsByInstantQuery (ctx : Ctx) (r : metrics_request) : prog mstate (response (MetricsList (@public_InstantQuery F))) :=
  HandleGet (mkHandlerConfig None [] (query_action ctx r Query_type "MetricsInstantQueryList" (PresentMetricsByInstantQuery matrix_text))).

(** [promHandler] answers with the metrics that the collector sends. *)
Definition FederateMetrics {R} (promHandler : list (ConstMetric F) -> response R) (ctx : Ctx) (r : metrics_request)
    : prog mstate (response R) :=
  let dinosaurID := TrimSpace (mr_id r) in
  if bool_decide (dinosaurID = "") then
    mret (RError (mkServiceError ErrorBadRequest "missing path parameter: central id" StatusBadRequest None))
  else
    a ← GetMetricsByDinosaurID ctx dinosaurID (no_params Query_type);
    let '(metrics, _, err) := a in
    match err with
    | Some err =>
        mret (RError (if bool_decide (Code err = ErrorNotFound) then err
                      else mkServiceError (Code err) "error getting metrics" StatusInternalServerError None))
    | None => mret (match Collect GetMetricsMetaData metrics with Some ms => promHandler ms | None => RPanic end)
    end.
End handlers.

(** ** The mock (api_mock.go) *)

Definition fakeMetricData (name : string) (value : Z) : SampleStream Z :=
  mkSampleStream (list_to_map [("__name__", name); ("pod", "whatever"); ("dinosaur_operator_io_cluster", "whatever")])
    [mkSamplePair 0 value; mkSamplePair 0 value].

Definition rangeQuerydata : list (string * list (SampleStream Z)) :=
  [ ("kubelet_volume_stats_available_bytes", [fakeMetricData "kubelet_volume_stats_available_bytes" 220792516608]);
    ("dinosaur_server_brokertopicmetrics_messages_in_total", [fakeMetricData "dinosaur_server_brokertopicmetrics_messages_in_total" 3040]);
    ("dinosaur_server_brokertopicmetrics_bytes_in_total", [fakeMetricData "dinosaur_server_brokertopicmetrics_bytes_in_total" 293617]);
    ("dinosaur_server_brokertopicmetrics_bytes_out_total", [fakeMetricData "dinosaur_server_brokertopicmetrics_bytes_out_total" 152751]);
    ("dinosaur_controller_dinosaurcontroller_offline_partitions_count", [fakeMetricData "dinosaur_controller_dinosaurcontroller_offline_partitions_count" 0]);
    ("dinosaur_controller_dinosaurcontroller_global_partition_count", [fakeMetricData "dinosaur_controller_dinosaurcontroller_global_partition_count" 0]);
    ("dinosaur_broker_quota_softlimitbytes", [fakeMetricData "dinosaur_broker_quota_softlimitbytes" 10000]);
    ("dinosaur_broker_quota_totalstorageusedbytes", [fakeMetricData "dinosaur_broker_quota_totalstorageusedbytes" 1237582]);
    ("dinosaur_topic:dinosaur_log_log_size:sum", [fakeMetricData "dinosaur_topic:dinosaur_log_log_size:sum" 220]);
    ("dinosaur_namespace:dinosaur_server_socket_server_metrics_connection_creation_rate:sum", [fakeMetricData "dinosaur_namespace:dinosaur_server_socket_server_metrics_connection_creation_rate:sum" 20]);
    ("dinosaur_topic:dinosaur_topic_partitions:sum", [fakeMetricData "dinosaur_topic:dinosaur_topic_partitions:sum" 20]);
    ("dinosaur_topic:dinosaur_topic_partitions:count", [fakeMetricData "dinosaur_topic:dinosaur_topic_partitions:count" 20]);
    ("consumergroup:dinosaur_consumergroup_members:count", [fakeMetricData "consumergroup:dinosaur_consumergroup_members:count" 20]);
    ("dinosaur_namespace:dinosaur_server_socket_server_metrics_connection_count:sum", [fakeMetricData "dinosaur_namespace:dinosaur_server_socket_server_metrics_connection_count:sum" 20]) ].

Definition queryData : list (string * list (Sample Z)) :=
  [ ("dinosaur_operator_resource_state",
       [mkSample (list_to_map [("dinosaur_operator_io_kind", "Dinosaur"); ("dinosaur_operator_io_name", "test-dinosaur"); ("namespace", "my-dinosaur-namespace")]) 1 1607506882175]);
    ("dinosaur_server_brokertopicmetrics_bytes_in_total",
       [mkSample (list_to_map [("__name__", "dinosaur_server_brokertopicmetrics_bytes_in_total"); ("pod", "whatever"); ("dinosaur_operator_io_cluster", "whatever"); ("topic", "whatever")]) 293617 1607506882175]);
    ("dinosaur_server_brokertopicmetrics_messages_in_total",
       [mkSample (list_to_map [("__name__", "dinosaur_server_brokertopicmetrics_messages_in_total"); ("pod", "whatever"); ("dinosaur_operator_io_cluster", "whatever"); ("topic", "whatever")]) 1016 1607506882175]);
    ("dinosaur_broker_quota_softlimitbytes",
       [mkSample (list_to_map [("__name__", "dinosaur_broker_quota_softlimitbytes"); ("pod", "whatever"); ("dinosaur_operator_io_cluster", "whatever"); ("topic", "whatever")]) 30000 1607506882175]);
    ("dinosaur_broker_quota_totalstorageusedbytes",
       [mkSample (list_to_map [("__name__", "dinosaur_broker_quota_totalstorageusedbytes"); ("pod", "whatever"); ("dinosaur_operator_io_cluster", "whatever"); ("topic", "whatever")]) 2207924332 1607506882175]);
    ("kubelet_volume_stats_available_bytes",
       [mkSample (list_to_map [("__name__", "kubelet_volume_stats_available_bytes"); ("persistentvolumeclaim", "whatever")]) 220792492032 1607506882175]) ].

(** The data of the first key that the query contains. *)
Definition mock_lookup {A} (data : list (string * list A)) (query : string) : list A :=
  match head (filter (fun kv => Contains query kv.1 = true) data) with Some kv => kv.2 | None => [] end.
Definition getMockQueryData (query : string) : list (Sample Z) := mock_lookup queryData query.
Definition getMockQueryRangeData (query : string) : list (SampleStream Z) := mock_lookup rangeQuerydata query.

(** The mock, with the queries that it has got. *)
#[export] Instance MockAPI : Prom (list string) Z := {|
  prom_Query q := fun log => ((log ++ [q])%list, Ok (PVector (getMockQueryData q)));
  prom_QueryRange q _ := fun log => ((log ++ [q])%list, Ok (PMatrix (getMockQueryRangeData q)));
  prom_Now := fun log => (log, 1607506882175000000)
|}.

(** ** Correctness *)

(** The queries about a namespace. *)
Definition queries_of (namespace : string) : list string :=
  (fun f => Sprintf (ft_metric f.2) [VStr (ft_labels f.2)]) <$> fetchers namespace.

Section queries.
Context {P F : Type} `{Prom P F}.
Variable (order : list (string * fetcher) -> list (string * fetcher)) (order_elem : forall l x, x ∈ order l -> x ∈ l).
Context (R : relation P) `{!PreOrder R}.

(** The relation holds of every query about the namespace. *)
Definition holds_of_queries (namespace : string) : Prop :=
  forall q, q ∈ queries_of namespace -> preserves R (prom_Query q) /\ forall bounds, preserves R (prom_QueryRange q bounds).

Section namespace.
Context (namespace : string) (Hq : holds_of_queries namespace).

Lemma fetchMetricsResult_queries rq msg f :
  (msg, f) ∈ fetchers namespace -> preserves R (fetchMetricsResult rq f).
Proof.
  intros Hf. destruct (Hq (Sprintf (ft_metric f) [VStr (ft_labels f)])) as [H1 H2]; [by apply list_elem_of_fmap; exists (msg, f)|].
  unfold fetchMetricsResult. case_bool_decide; [|case_bool_decide; [|by apply preserves_ret]];
    (apply preserves_bind; [done|apply preserves_with_err; auto|intros ?; by apply preserves_ret]).
Qed.

Lemma fetch_one_queries rq msg f acc : (msg, f) ∈ fetchers namespace -> preserves R (fetch_one rq msg f acc).
Proof.
  intros Hf. apply preserves_bind; [done|by eapply fetchMetricsResult_queries|]. intros ?. cbv zeta. by apply preserves_ret.
Qed.

Lemma fetch_filtered_queries rq msg f l acc : (msg, f) ∈ fetchers namespace -> preserves R (fetch_filtered rq msg f l acc).
Proof.
  intros Hf. revert acc. induction l as [|x l IH]; intros acc; [by apply preserves_ret|].
  cbn [fetch_filtered]. case_bool_decide; [|apply IH]. apply preserves_bind; [done|by apply fetch_one_queries|intros ?; apply IH].
Qed.

Lemma fetch_all_queries rq fs acc : (forall x, x ∈ fs -> x ∈ fetchers namespace) -> preserves R (fetch_all rq fs acc).
Proof.
  revert acc. induction fs as [|[msg f] fs IH]; intros acc Hfs; [by apply preserves_ret|]. cbn [fetch_all].
  assert (Hf : (msg, f) ∈ fetchers namespace) by (apply Hfs; by left).
  apply preserves_bind; [done| |intros acc'; apply IH; intros x Hx; apply Hfs; by right].
  case_bool_decide; [by apply fetch_one_queries|by apply fetch_filtered_queries].
Qed.

Lemma GetMetrics_queries rq : preserves R (GetMetrics order namespace rq).
Proof.
  apply preserves_bind; [done|apply fetch_all_queries; by intros x Hx%order_elem|]. intros [ms fs]. by apply preserves_ret.
Qed.
End namespace.
End queries.

Section isolation.
Context {P F : Type} `{Platform, !PlatformLaws} `{Prom P F}.
Variable (order : list (string * fetcher) -> list (string * fetcher)) (order_elem : forall l x, x ∈ order l -> x ∈ l).
Context (R : relation P) `{!PreOrder R}.

Lemma GetMetricsByDinosaurID_queries ctx id query (w : world) (p : P) :
  (forall x, centrals w !! id = Some x -> visible_to ctx x -> holds_of_queries R (cr_Namespace x)) ->
  R p (GetMetricsByDinosaurID (F := F) order ctx id query (w, p)).1.2.
Proof.
  intros Hq. unfold GetMetricsByDinosaurID. rewrite prog_bind_run. unfold on_fleet at 2. simpl. unfold on_fleet. simpl.
  pose proof (Get_ok ctx id w) as Hget. destruct (Get ctx id w) as [w1 [x|err]]; simpl in *; [|reflexivity].
  destruct (Hget x eq_refl) as (_ & Hx & Hv). rewrite prog_bind_run. unfold on_prom. simpl.
  pose proof (GetMetrics_queries order order_elem R (cr_Namespace x) (Hq x Hx Hv) query p) as Hr.
  destruct (GetMetrics order (cr_Namespace x) query p) as [p1 [ms [e|]]]; exact Hr.
Qed.

Lemma query_action_queries {A} ctx r ty kind (presented : list (Metric F) -> result ServiceError (list A)) (w : world) (p : P) :
  preserves R prom_Now ->
  (forall x, centrals w !! mr_id r = Some x -> visible_to ctx x -> holds_of_queries R (cr_Namespace x)) ->
  R p (query_action order ctx r ty kind presented (w, p)).1.2.
Proof.
  intros Hnow Hq. unfold query_action. rewrite prog_bind_run. unfold on_prom at 2. simpl. specialize (Hnow p).
  unfold on_prom. simpl. destruct (prom_Now p) as [p1 n]. simpl in *. rewrite prog_bind_run.
  pose proof (GetMetricsByDinosaurID_queries ctx (mr_id r) (extractMetricsQueryParams n r (no_params ty)) w p1 Hq) as Hr.
  destruct (GetMetricsByDinosaurID _ _ _ _ _) as [s [[ms id] [e|]]]; simpl in *; by etransitivity.
Qed.

(** Every query that the three endpoints of metrics send to Prometheus is about the namespace
    of the central that the request names and that the user may see: whatever relation the
    queries about such namespaces preserve, the endpoints preserve. *)
Theorem metrics_isolated ctx r promHandler mtext (w : world) (p : P) :
  preserves R prom_Now ->
  (forall id x, id = mr_id r \/ id = TrimSpace (mr_id r) -> centrals w !! id = Some x -> visible_to ctx x ->
    holds_of_queries R (cr_Namespace x)) ->
  R p (GetMetricsByRangeQuery (F := F) order mtext ctx r (w, p)).1.2 /\
  R p (GetMetricsByInstantQuery (F := F) order mtext ctx r (w, p)).1.2 /\
  R p (FederateMetrics (F := F) (R := unit) order promHandler ctx r (w, p)).1.2.
Proof.
  intros Hnow Hq. split_and!.
  - unfold GetMetricsByRangeQuery, HandleGet, run_action. rewrite prog_bind_run. simpl. rewrite !prog_bind_run. simpl.
    destruct (ValidatQueryParam (mr_get r) "duration"); [reflexivity|]. simpl. rewrite prog_bind_run. simpl.
    destruct (ValidatQueryParam (mr_get r) "interval"); [reflexivity|]. simpl. rewrite prog_bind_run.
    pose proof (query_action_queries ctx r RangeQuery "MetricsRangeQueryList" (PresentMetricsByRangeQuery mtext) w p Hnow) as Hr.
    destruct (query_action _ _ _ _ _ _ _) as [s [a|e]]; apply Hr; eauto.
  - unfold GetMetricsByInstantQuery, HandleGet, run_action. rewrite prog_bind_run. simpl. rewrite prog_bind_run.
    pose proof (query_action_queries ctx r Query_type "MetricsInstantQueryList" (PresentMetricsByInstantQuery mtext) w p Hnow) as Hr.
    destruct (query_action _ _ _ _ _ _ _) as [s [a|e]]; apply Hr; eauto.
  - unfold FederateMetrics. cbv zeta. case_bool_decide; [reflexivity|]. rewrite prog_bind_run.
    pose proof (GetMetricsByDinosaurID_queries ctx (TrimSpace (mr_id r)) (no_params Query_type) w p) as Hr.
    destruct (GetMetricsByDinosaurID _ _ _ _ _) as [s [[ms id] [e|]]]; apply Hr; eauto.
Qed.
End isolation.

(** *** What is presented *)

(** Only the supported labels are presented, with the values that they have. *)
Theorem presented_labels {F} mtext (metrics : list (Metric F)) items x k v :
  PresentMetricsByRangeQuery mtext metrics = Ok items -> x ∈ items -> rq_Metric x !! k = Some v ->
  k ∈ getSupportedLables /\ exists m s, m ∈ metrics /\ s ∈ mt_Matrix m /\ ss_Metric s !! k = Some v.
Proof.
  unfold PresentMetricsByRangeQuery. assert (Hout : forall out, present mtext (fun m => convertMatrix (mt_Matrix m)) metrics out = Ok items ->
    x ∈ items -> x ∈ out \/ exists m s, m ∈ metrics /\ s ∈ mt_Matrix m /\ x = convertSampleStream s).
  { induction metrics as [|m ms IH]; intros out; simpl; [intros [= ->]; auto|]. destruct (mt_Err m); [done|].
    intros Hp Hx. destruct (IH _ Hp Hx) as [[Ho|(s & -> & Hs)%list_elem_of_fmap]%elem_of_app|(m' & s & Hm & Hs & ->)]; [by left|right..].
    - exists m, s. split_and!; [by left|done|done].
    - exists m', s. split_and!; [by right|done|done]. }
  intros Hp Hx Hk. destruct (Hout [] Hp Hx) as [?%not_elem_of_nil|(m & s & Hm & Hs & ->)]; [done|].
  simpl in Hk. apply map_lookup_filter_Some in Hk as [Hk Hl]. split; [by apply bool_decide_eq_true in Hl|]. by exists m, s.
Qed.

(** The collector of federated metrics never panics. *)
Theorem Collect_no_panic {F} metadata (metrics : list (Metric F)) : Collect metadata metrics <> None.
Proof.
  assert (Hv : forall v : list (Sample F), exists ms, collect_vector metadata v = Some ms).
  { induction v as [|s v [ms IH]]; [by eexists|]. simpl. destruct (metadata !! label (sm_Metric s) "__name__") as [md|] eqn:E; [|by eexists].
    assert (Hc : exists m, MustNewConstMetric md (sm_Value s) (extractLabelValues metadata (sm_Metric s)) = Some m).
    { unfold MustNewConstMetric, extractLabelValues. rewrite E, length_fmap, bool_decide_eq_true_2 by done. by eexists. }
    destruct Hc as [m Hm]. rewrite IH, Hm. destruct (md_Type md); by eexists. }
  assert (Hm : exists ms, Collect metadata metrics = Some ms); [|by destruct Hm as [ms ->]].
  induction metrics as [|m l [ms IH]]; [by eexists|]. simpl. destruct (Hv (mt_Vector m)) as [ms' ->]. rewrite IH. by eexists.
Qed.

(** *** Bounds of the interval *)

(** A duration of at most 153722867 minutes is subtracted exactly, and the interval ends now. *)
Theorem duration_exact n r q num :
  mr_get r "duration" <> "" -> Atoi (mr_get r "duration") = (num, true) -> 0 <= num <= 153722867 ->
  rg_Start (mp_Range (extractMetricsQueryParams n r q)) = n - num * minute /\
  rg_End (mp_Range (extractMetricsQueryParams n r q)) = n.
Proof.
  intros Hd Ha Hn. unfold extractMetricsQueryParams. simpl. rewrite bool_decide_eq_false_2, Ha by done.
  assert (wrap64 (num * minute) = num * minute) as -> by (apply wrap64_id; unfold minute, second; lia).
  rewrite wrap64_id by (unfold minute, second; lia). split; [lia|done].
Qed.

(** One minute more overflows: the interval starts after its end. *)
Theorem duration_overflow n r q :
  mr_get r "duration" = "153722868" ->
  n < rg_Start (mp_Range (extractMetricsQueryParams n r q)).
Proof.
  intros Hd. unfold extractMetricsQueryParams. simpl. rewrite Hd.
  assert (Atoi "153722868" = (153722868, true)) as -> by (vm_compute; reflexivity).
  rewrite bool_decide_eq_false_2 by done.
  assert (wrap64 (- wrap64 (153722868 * minute)) = 9223371993709551616) as -> by (vm_compute; reflexivity). lia.
Qed.
