(* ===== verification/AdminPassword.v ===== *)
(** * The admin password of a central

    pkg/shared/central_admin_password.go: switching the password of the user admin on and
    off by the custom resource of a central.  [concurrency.PollWithTimeout] is a parameter:
    it calls its function until it answers true or the time is over, and other clients of
    the cluster work in between. *)

From S2P Require Import Prelude GoString GoFmt ServiceErrors CentralRequest Versions World Effects Resources Presenters Kube ManagedDB.
From S2P Require Import CentralReconciler CentralReconcilerProps Observatorium.
Local Open Scope string_scope.
Local Open Scope Z_scope.

Definition centralHTPasswdSecret : string := "central-htpasswd".

Section admin_password.
Context `{Shard W} `{Messages}.
(** Polling in intervals of ten seconds for five minutes. *)
Variable (PollWithTimeout : prog W bool -> prog W bool).

(** A GET of /v1/groups as the user admin; [{}] encodes the empty message. *)
Definition basic_auth_works (uiEndpoint password : string) : prog W bool :=
  r ← http_do (mkCall "GET" (uiEndpoint +:+ "/v1/groups") password "{}");
  mret (match r with Err _ => false | Ok resp => (200 <=? resp.1) && (resp.1 <? 300) end).

Definition waitForBasicAuthProvider (uiEndpoint name namespace password : string) : prog W (option kerr) :=
  succeeded ← PollWithTimeout (basic_auth_works uiEndpoint password);
  mret (if (succeeded : bool) then None
        else Some (KText (Sprintf "no successful request could be done with basic auth provider for central instance %s/%s"
               [VStr namespace; VStr name]))).

Definition secret_exists (namespace secretName : string) : prog W bool :=
  r ← kget KSecret (namespace, secretName); mret (is_Ok r).

Definition getSecretWithWait (namespace secretName : string) : prog W (result kerr (kobj KSecret)) :=
  exists_ ← PollWithTimeout (secret_exists namespace secretName);
  if (exists_ : bool) then
    with_err (KWrap (Sprintf "retrieving secret %s/%s" [VStr namespace; VStr secretName])) (kget KSecret (namespace, secretName))
  else mret (Err (KText (Sprintf "timed out waiting for secret %s/%s to be created" [VStr namespace; VStr secretName]))).

Definition centralNamespace (centralID : string) : string := Sprintf "rhacs-%s" [VStr centralID].

(** The custom resource with the generation of the password disabled or not. *)
Definition set_disabled (b : bool) (s : CentralCRSpec) : CentralCRSpec :=
  {| ks_RouteEnabled := ks_RouteEnabled s; ks_MonitoringEnabled := ks_MonitoringEnabled s; ks_CentralResources := ks_CentralResources s;
     ks_TelemetryEnabled := ks_TelemetryEnabled s; ks_TelemetryEndpoint := ks_TelemetryEndpoint s; ks_TelemetryKey := ks_TelemetryKey s;
     ks_AnalyzerResources := ks_AnalyzerResources s; ks_AnalyzerScaling := ks_AnalyzerScaling s;
     ks_ScannerDbResources := ks_ScannerDbResources s; ks_ScannerMonitoringEnabled := ks_ScannerMonitoringEnabled s;
     ks_EnvVars := ks_EnvVars s; ks_CustomAnnotations := ks_CustomAnnotations s; ks_CustomLabels := ks_CustomLabels s;
     ks_AdminPasswordGenerationDisabled := b; ks_DB := ks_DB s; ks_TLS := ks_TLS s |}.

(** The change that both functions make when the flag has the other value: the flag, the
    next revision, and the update. *)
Definition switch_generation (b : bool) (name ns : string) (central : kobj KCentral) : prog W (result kerr unit) :=
  let '(mkObj _ meta body) := central in
  match IncrementCentralRevision (om_Name meta) (om_Annotations meta) with
  | Err err => mret (Err (KWrap (Sprintf "increasing central revision for central instance %s/%s" [VStr ns; VStr name]) err))
  | Ok annotations =>
      with_err (KWrap (Sprintf "updating central instance %s/%s" [VStr ns; VStr name]))
        (unit_result (kupdate (mkObj KCentral (set_annotations annotations meta) (set_disabled b body))))
  end.

(** [Get] of the custom resource with its error. *)
Definition get_central (ns name : string) : prog W (result kerr (kobj KCentral)) :=
  with_err (KWrap (Sprintf "retrieving central instance %s/%s" [VStr ns; VStr name])) (kget KCentral (ns, name)).

Definition EnableAdminPassword (centralID centralName centralUIEndpoint : string) : prog W (result kerr string) :=
  let ns := centralNamespace centralID in
  central ←? get_central ns centralName;
  _ ←? (if ks_AdminPasswordGenerationDisabled (ko_body central) then switch_generation false centralName ns central else mret (Ok tt));
  secret ←? with_err (KWrap (Sprintf "waiting for secret containing admin password for central %s/%s" [VStr ns; VStr centralName]))
              (getSecretWithWait ns centralHTPasswdSecret);
  let password := TrimSpace (default "" (ko_body secret !! "password")) in
  if bool_decide (password = "") then
    mret (Err (KText (Sprintf "admin password was empty for central instance %s/%s" [VStr ns; VStr centralName])))
  else
    _ ←? with_err (KWrap (Sprintf "waiting for basic auth provider for central %s/%s" [VStr ns; VStr centralName]))
           (unit_result (waitForBasicAuthProvider centralUIEndpoint centralName ns password));
    mret (Ok password).

Definition DisableAdminPassword (centralID centralName : string) : prog W (result kerr unit) :=
  let ns := centralNamespace centralID in
  central ←? get_central ns centralName;
  if negb (ks_AdminPasswordGenerationDisabled (ko_body central)) then switch_generation true centralName ns central else mret (Ok tt).

(** ** What the two functions leave *)

Context `{!ShardLaws (W:=W)}.

(** The custom resource of the central. *)
Definition cr_of (centralID centralName : string) (w : W) : option (kobj KCentral) :=
  kview w KCentral !! (centralNamespace centralID, centralName).

(** All objects but the custom resource stay as they are. *)
Definition only_cr (centralID centralName : string) : relation W := fun w w' =>
  forall k key, k <> KCentral \/ key <> (centralNamespace centralID, centralName) -> kview w' k !! key = kview w k !! key.

#[export] Instance only_cr_preorder centralID centralName : PreOrder (only_cr centralID centralName).
Proof. split; [by intros w k key _|]. intros w1 w2 w3 H12 H23 k key Hk. rewrite (H23 k key Hk). by apply H12. Qed.

Lemma get_central_run ns name w :
  same_view w (get_central ns name w).1 /\
  forall o, (get_central ns name w).2 = Ok o -> kview w KCentral !! (ns, name) = Some o /\ key_of o = (ns, name).
Proof.
  unfold get_central, with_err. rewrite prog_bind_run. pose proof (kget_same KCentral (ns, name) w) as Hs.
  pose proof (kget_found KCentral (ns, name) w) as Hf. destruct (kget KCentral (ns, name) w) as [w1 [o|e]]; simpl in *; (split; [done|]).
  - intros o' [= <-]. specialize (Hf o eq_refl). split; [done|]. by eapply kview_keyed.
  - done.
Qed.

Lemma switch_generation_run b name ns (o : kobj KCentral) w :
  (forall k key, k <> KCentral \/ key <> key_of o -> kview (switch_generation b name ns o w).1 k !! key = kview w k !! key) /\
  ((switch_generation b name ns o w).2 = Ok tt ->
   exists o', kview (switch_generation b name ns o w).1 KCentral !! key_of o = Some o' /\ ks_AdminPasswordGenerationDisabled (ko_body o') = b).
Proof.
  destruct o as [meta body]. unfold switch_generation. destruct (IncrementCentralRevision _ _) as [a|e]; [|done].
  unfold with_err, unit_result. rewrite !prog_bind_run.
  pose proof (fun k => kupdate_frame KCentral (mkObj KCentral (set_annotations a meta) (set_disabled b body)) w k) as Hfr.
  pose proof (kupdate_done KCentral (mkObj KCentral (set_annotations a meta) (set_disabled b body)) w) as Hd.
  destruct (kupdate _ w) as [w1 [e|]]; simpl in *; (split; [intros k key Hk; by apply Hfr|]); [done|]. intros _.
  destruct (Hd eq_refl) as (o' & Ho & Hb & _). exists o'. split; [exact Ho|]. by rewrite Hb.
Qed.

(** Switching the password off changes at most the custom resource of the central, and when
    it succeeds the resource has the generation of the password disabled. *)
Theorem DisableAdminPassword_done id name w :
  only_cr id name w (DisableAdminPassword id name w).1 /\
  ((DisableAdminPassword id name w).2 = Ok tt ->
   exists o, cr_of id name (DisableAdminPassword id name w).1 = Some o /\ ks_AdminPasswordGenerationDisabled (ko_body o) = true).
Proof.
  unfold DisableAdminPassword. unfold try_bind. rewrite prog_bind_run.
  destruct (get_central_run (centralNamespace id) name w) as [Hs Ho]. destruct (get_central _ name w) as [w1 [o|e]]; simpl in *.
  2: { split; [intros k key _; by rewrite Hs|done]. }
  destruct (Ho o eq_refl) as [Hw Hk]. destruct (ks_AdminPasswordGenerationDisabled (ko_body o)) eqn:E; simpl.
  - split; [intros k key _; by rewrite Hs|]. intros _. exists o. split; [|done]. unfold cr_of. by rewrite Hs.
  - destruct (switch_generation_run true name (centralNamespace id) o w1) as [Hfr Hd]. rewrite Hk in Hfr, Hd. split; [|exact Hd].
    intros k key Hne. rewrite Hfr by done. by rewrite Hs.
Qed.

(** Once it is off, switching it off again changes no object. *)
Theorem DisableAdminPassword_again id name w o :
  cr_of id name w = Some o -> ks_AdminPasswordGenerationDisabled (ko_body o) = true -> same_view w (DisableAdminPassword id name w).1.
Proof.
  intros Hw Hd. unfold DisableAdminPassword, try_bind. rewrite prog_bind_run.
  destruct (get_central_run (centralNamespace id) name w) as [Hs Ho]. destruct (get_central _ name w) as [w1 [o'|e]]; simpl in *; [|done].
  destruct (Ho o' eq_refl) as [Hw' _]. unfold cr_of in Hw. rewrite Hw in Hw'. injection Hw' as <-. by rewrite Hd.
Qed.

(** What is documented of the poll: an answer true is the answer of the last call. *)
Definition poll_law : Prop :=
  forall f w, (PollWithTimeout f w).2 = true -> exists w1, (f w1).2 = true /\ (PollWithTimeout f w).1 = (f w1).1.

(** A password that is handed out is not empty, has no white space around it, and Central has
    accepted a request with it; the secret held it when it was read. *)
Theorem EnableAdminPassword_works id name endpoint w :
  poll_law ->
  wp (EnableAdminPassword id name endpoint) (fun w' r => forall p, r = Ok p ->
    p <> "" /\ (exists w1, (basic_auth_works endpoint p w1).2 = true /\ w' = (basic_auth_works endpoint p w1).1) /\
    exists (w2 : W) secret, kview w2 KSecret !! (centralNamespace id, centralHTPasswdSecret) = Some secret /\
      p = TrimSpace (default "" (ko_body secret !! "password"))) w.
Proof.
  intros Hp. unfold EnableAdminPassword. cbv zeta. apply wp_try, wp_intro. destruct (get_central _ name w).2 as [o|e]; [|done].
  apply wp_try, wp_intro. case_match; [|done]. apply wp_try, wp_with_err. unfold getSecretWithWait. apply wp_bind, wp_intro.
  destruct (PollWithTimeout _ _).2; [|by apply wp_ret]. apply wp_with_err, wp_intro.
  set (w3 := (PollWithTimeout _ _).1). destruct (kget KSecret _ w3).2 as [secret|e] eqn:Hget; [|done].
  case_bool_decide as Hne; [by apply wp_ret|]. apply wp_try, wp_with_err, wp_unit_result. unfold waitForBasicAuthProvider.
  apply wp_bind, wp_intro. set (w4 := (kget KSecret _ w3).1).
  pose proof (Hp (basic_auth_works endpoint (TrimSpace (default "" (ko_body secret !! "password")))) w4) as Hpoll.
  destruct (PollWithTimeout _ w4).2; [|by apply wp_ret]. apply wp_ret, wp_ret. intros p [= <-]. split_and!; [done|by apply Hpoll|].
  exists w3, secret. split; [by apply kget_found|done].
Qed.
End admin_password.

(** ** A concrete poll *)

(** A poll of at most [n] calls, with nothing in between. *)
Fixpoint poll_n {W} (n : nat) (f : prog W bool) : prog W bool := fun w =>
  match n with
  | O => (w, false)
  | S n => let '(w', b) := f w in if b then (w', true) else poll_n n f w'
  end.

Lemma poll_n_law {W} n (f : prog W bool) w :
  (poll_n n f w).2 = true -> exists w1, (f w1).2 = true /\ (poll_n n f w).1 = (f w1).1.
Proof.
  revert w. induction n as [|n IH]; intros w; simpl; [done|]. destruct (f w) as [w' b] eqn:E. destruct b; [|apply IH].
  intros _. exists w. by rewrite E.
Qed.
