(* ===== verification/ClusterResources.v ===== *)
(** * The resources of data plane clusters

    The builders of clusters_mgr.go (internal/dinosaur/pkg/workers) for the resources that
    every data plane cluster gets: the operator of the observability stack, the groups and
    bindings of users, and the secrets to pull images.  Of them [buildResourceSet] has only
    the secrets; reconcileClusterResources hands the set to the provider of a cluster.  The
    encoding of bytes in a JSON object is a parameter. *)

From S2P Require Import Prelude GoString GoFmt ServiceErrors CentralRequest Store Versions ClusterTypes World MemPlatform.
From S2P Require Import Config ClusterService ClusterManager ConfigFiles ProviderTypes ClusterProviders Observatorium.
Local Open Scope string_scope.
Local Open Scope Z_scope.

Definition observabilityCatalogSourceImage : string := "quay.io/rhoas/observability-operator-index:v3.0.8".
Definition observabilityOperatorGroupName : string := "observability-operator-group-name".
Definition observabilityCatalogSourceName : string := "observability-operator-manifests".
Definition observabilitySubscriptionName : string := "observability-operator".
Definition observatoriumSSOSecretName : string := "observatorium-configuration-red-hat-sso".
Definition observatoriumAuthType : string := "redhat".
Definition dinosaurOperatorAddonNamespace : string := "redhat-managed-central-operator".
Definition dinosaurOperatorQEAddonNamespace : string := "redhat-managed-dinosaur-operator-qe".
Definition fleetshardAddonNamespace : string := "redhat-fleetshard-operator".
Definition fleetshardQEAddonNamespace : string := "redhat-fleetshard-operator-qe".
Definition mkReadOnlyGroupName : string := "mk-readonly-access".
Definition mkSREGroupName : string := "dinosaur-sre".
Definition mkReadOnlyRoleBindingName : string := "mk-dedicated-readers".
Definition mkSRERoleBindingName : string := "dinosaur-sre-cluster-admin".
Definition dedicatedReadersRoleBindingName : string := "dedicated-readers".
Definition clusterAdminRoleName : string := "cluster-admin".

(** ** The observability stack *)

Definition buildObservabilityNamespaceResource : KResource := namespace_resource observabilityNamespace.

Definition buildObservatoriumSSOSecretResource (c : ObservabilityConfiguration) : KResource :=
  kresource "*v1.Secret" "v1" "Secret" observatoriumSSOSecretName (Some observabilityNamespace)
    [("stringData", jstrings
        [("authType", observatoriumAuthType); ("gateway", ob_RedHatSSOGatewayURL c); ("tenant", ob_RedHatSSOTenant c);
         ("redHatSsoAuthServerUrl", ob_RedHatSSOAuthServerURL c); ("redHatSsoRealm", ob_RedHatSSORealm c);
         ("metricsClientId", ob_MetricsClientID c); ("metricsSecret", ob_MetricsSecret c);
         ("logsClientId", ob_LogsClientID c); ("logsSecret", ob_LogsSecret c)]);
     ("type", JString "Opaque")].

Definition buildObservabilityCatalogSourceResource : KResource :=
  kresource "*v1alpha1.CatalogSource" "operators.coreos.com/v1alpha1" "CatalogSource" observabilityCatalogSourceName
    (Some observabilityNamespace)
    [("spec", jstrings [("sourceType", "grpc"); ("image", observabilityCatalogSourceImage)])].

Definition buildObservabilityOperatorGroupResource : KResource :=
  kresource "*v1alpha2.OperatorGroup" "operators.coreos.com/v1alpha2" "OperatorGroup" observabilityOperatorGroupName
    (Some observabilityNamespace)
    [("spec", JObject [("targetNamespaces", JList [JString observabilityNamespace])])].

Definition buildObservabilitySubscriptionResource : KResource :=
  kresource "*v1alpha1.Subscription" "operators.coreos.com/v1alpha1" "Subscription" observabilitySubscriptionName
    (Some observabilityNamespace)
    [("spec", jstrings [("source", observabilityCatalogSourceName); ("sourceNamespace", observabilityNamespace);
                        ("name", observabilitySubscriptionName); ("channel", "alpha");
                        ("startingCSV", "observability-operator.v3.0.8"); ("installPlanApproval", "Automatic")])].

(** ** Groups and bindings *)

Definition group_resource (name : string) (users : list string) : KResource :=
  kresource "*v1.Group" "user.openshift.io/v1" "Group" name None [("users", JList (JString <$> users))].

Definition binding_resource (name group role : string) : KResource :=
  kresource "*v1.ClusterRoleBinding" "rbac.authorization.k8s.io/v1" "ClusterRoleBinding" name None
    [("subjects", JList [jstrings [("kind", "Group"); ("name", group); ("apiVersion", "rbac.authorization.k8s.io")]]);
     ("roleRef", jstrings [("kind", "ClusterRole"); ("name", role); ("apiVersion", "rbac.authorization.k8s.io")])].

Definition buildReadOnlyGroupResource (c : DataplaneFiles) : KResource :=
  group_resource mkReadOnlyGroupName (dp_ReadOnlyUserList c).
Definition buildDedicatedReaderClusterRoleBindingResource : KResource :=
  binding_resource mkReadOnlyRoleBindingName mkReadOnlyGroupName dedicatedReadersRoleBindingName.
(** [users] is the field SREUsers of the configuration, which nothing sets. *)
Definition buildSREGroupResource (users : list string) : KResource := group_resource mkSREGroupName users.
Definition buildDinosaurSREClusterRoleBindingResource : KResource :=
  binding_resource mkSRERoleBindingName mkSREGroupName clusterAdminRoleName.

(** ** The set *)

Section resource_set.
Variable (base64 : string -> string) (content : string) (ocmConfig : OCMConfig).

(** [content] is ImagePullDockerConfigContent of the configuration. *)
Definition buildImagePullSecret (namespace : string) : option KResource :=
  if bool_decide (TrimSpace content = "") then None
  else Some (kresource "*v1.Secret" "v1" "Secret" imagePullSecretName (Some namespace)
               [("data", jstrings [(".dockercfg", base64 content)]); ("type", JString "kubernetes.io/dockercfg")]).

Definition buildResourceSet : ResourceSet :=
  let managedDinosaurOperatorNamespace :=
    if bool_decide (ocm_CentralOperatorAddonID ocmConfig = "managed-central-qe") then dinosaurOperatorQEAddonNamespace
    else dinosaurOperatorAddonNamespace in
  let fleetshardNS :=
    if bool_decide (ocm_FleetshardAddonID ocmConfig = "fleetshard-operator-qe") then fleetshardQEAddonNamespace
    else fleetshardAddonNamespace in
  let append r s := match s with Some s => (r ++ [s])%list | None => r end in
  mkResourceSet syncsetName
    (append (append [] (buildImagePullSecret managedDinosaurOperatorNamespace)) (buildImagePullSecret fleetshardNS)).
End resource_set.

Section reconcile.
Context `{Platform}.

Definition reconcileClusterResources (base64 : string -> string) (content : string) (ocmConfig : OCMConfig) (cluster : Cluster)
    : prog world (option error) :=
  r ← ClusterService.ApplyResources cluster (buildResourceSet base64 content ocmConfig);
  mret (match r with
        | Some err => Some (wrap_service err "failed to apply resources for cluster %s" [VStr (cl_ClusterID cluster)])
        | None => None
        end).

Definition reconcileDinosaurOperator (provisionedCluster : Cluster) : prog world (result ServiceError bool) :=
  ClusterService.InstallDinosaurOperator provisionedCluster.
End reconcile.

(** ** Properties *)

(** What identifies an object on a cluster: kind, namespace and name. *)
Definition resource_key (r : KResource) : string * string * string :=
  let meta := default (JObject []) (jfield "metadata" (kr_Body r)) in
  (jtext (jfield "kind" (kr_Body r)), jtext (jfield "namespace" meta), jtext (jfield "name" meta)).

(** All the resources that are built for a cluster, those that are commented out of the
    set included. *)
Definition built (base64 : string -> string) (content : string) (ocmConfig : OCMConfig) (files : DataplaneFiles)
    (users : list string) (c : ObservabilityConfiguration) : list KResource :=
  [buildReadOnlyGroupResource files; buildDedicatedReaderClusterRoleBindingResource; buildSREGroupResource users;
   buildDinosaurSREClusterRoleBindingResource; buildObservabilityNamespaceResource; buildObservatoriumSSOSecretResource c;
   buildObservabilityCatalogSourceResource; buildObservabilityOperatorGroupResource; buildObservabilitySubscriptionResource] ++
  rset_Resources (buildResourceSet base64 content ocmConfig).

(** Whatever the configuration, no two of the resources are the same object, so that the
    order in which they are applied does not matter. *)
Theorem built_distinct base64 content ocmConfig files users c :
  NoDup (resource_key <$> built base64 content ocmConfig files users c).
Proof.
  unfold built, buildResourceSet, buildImagePullSecret.
  repeat case_bool_decide; cbn -[String.eqb]; apply (bool_decide_unpack _); vm_compute; exact I.
Qed.

(** The set has both secrets or none, none exactly when the configured content is blank;
    the secrets hold the content as it was read. *)
Theorem buildResourceSet_secrets base64 content ocmConfig :
  let rs := rset_Resources (buildResourceSet base64 content ocmConfig) in
  if bool_decide (TrimSpace content = "") then rs = []
  else length rs = 2%nat /\
       Forall (fun r => jfield "data" (kr_Body r) = Some (jstrings [(".dockercfg", base64 content)]) /\
                        (resource_key r).1.1 = "Secret" /\ (resource_key r).2 = imagePullSecretName) rs.
Proof. unfold buildResourceSet, buildImagePullSecret. case_bool_decide; [done|]. split; [done|]. by repeat constructor. Qed.

(** Applying the resources of a cluster touches neither the database nor the metrics. *)
Theorem reconcileClusterResources_frame `{Platform} base64 content ocmConfig c w :
  let w' := (reconcileClusterResources base64 content ocmConfig c w).1 in
  w_centrals w' = w_centrals w /\ w_clusters w' = w_clusters w /\ w_metrics w' = w_metrics w.
Proof.
  cbv zeta. unfold reconcileClusterResources, ClusterService.ApplyResources. destruct (GetProvider _) as [p|e]; [|done].
  rewrite !prog_bind_run. unfold on_ext. destruct (provider_ApplyResources _ _ _ _) as [x [r|e]]; done.
Qed.
