(* ===== verification/Routes.v ===== *)
(** * The routes of the API server

    The table of routes that internal/dinosaur/pkg/routes/route_loader.go builds, under the
    main router and the handlers around it of pkg/server/api_server.go, with the public
    paths of internal/dinosaur/pkg/handlers/authentication.go.

    gorilla/mux and the authentication handler of the OCM SDK are not part of the
    repository.  The tree of routers is data here; what mux documents about it is the class
    [MuxLaws]: paths that are not clean are redirected, the first route whose template and
    methods match is taken, the middlewares of the outer router run first, a path that
    matches for other methods only is answered with 405 and another one with 404.  The CORS
    handler, which adds headers and answers preflight requests, is left out.

    The second half shows what a request that reaches a handler has passed, and that no
    route hides another. *)

From S2P Require Import Prelude GoString GoFmt ServiceErrors World Effects ApiFramework Auth GoPath.
Local Open Scope string_scope.
Local Open Scope Z_scope.

(** ** Routers *)

Inductive handler_id :=
| HOpenAPI | HErrorsList | HErrorsGet | HStatusGet
| HCentralGet | HCentralDelete | HCentralList | HCentralCreate
| HMetricsRange | HMetricsInstant | HFederate
| HCloudProviders | HCloudProviderRegions | HCloudAccounts
| HMetadata | HVersionMetadata
| HAgentConfig | HAgentClusterStatus | HAgentCentralStatuses | HAgentCentrals
| HAdminDbDelete | HAdminSetDefaultVersion | HAdminGetDefaultVersion | HAdminList | HAdminGet | HAdminDelete | HAdminUpdate | HAdminCreate.

#[export] Instance handler_id_eq_dec : EqDecision handler_id.
Proof. solve_decision. Defined.

(** The middlewares; the first six look at no token. *)
Inductive mw :=
| MwSentry | MwOperationID | MwRequestLogging | MwMetrics | MwTransaction | MwCompress
| MwIssuer (issuers : list string) (code : Z) | MwOrgID (code : Z) | MwACL | MwTerms (code : Z)
| MwAllowedOrgs | MwRoles (code : Z) | MwAudit (code : Z).

(** [HandleFunc(template, handler).Name(event).Methods(method)] and
    [PathPrefix(prefix).Subrouter()], in the order in which they were added; a subrouter
    of [NewRoute()] has the empty prefix. *)
#[warnings="-register-all"] Inductive entry :=
| ERoute (template : string) (method : string) (event : string) (h : handler_id)
| ESub (prefix : string) (uses : list mw) (entries : list entry).

(** A route with everything that its routers add to it. *)
Record flat := mkFlat { fl_template : string; fl_method : string; fl_mws : list mw; fl_handler : handler_id }.

Fixpoint flatten (prefix : string) (mws : list mw) (e : entry) : list flat :=
  match e with
  | ERoute template method _ h => [mkFlat (prefix +:+ template) method mws h]
  | ESub p uses entries => concat (flatten (prefix +:+ p) (mws ++ uses) <$> entries)
  end.

(** ** The table *)

Definition APIEndpoint : string := "/api".
Definition DinosaursFleetManagementAPIPrefix : string := "rhacs".
Definition Version : string := "v1".

Section table.
Variable (conf : RouteConfig).

Definition centrals_router : list entry :=
  [ ERoute "/{id}" "GET" "get-central" HCentralGet;
    ERoute "/{id}" "DELETE" "delete-central" HCentralDelete;
    ERoute "" "GET" "list-central" HCentralList;
    ESub "" [MwTerms ErrorTermsNotAccepted] [ERoute "" "POST" "" HCentralCreate];
    ESub "/{id}/metrics" []
      [ ERoute "/query_range" "GET" "get-metrics" HMetricsRange;
        ERoute "/query" "GET" "get-metrics-instant" HMetricsInstant ] ].

Definition agent_router : list entry :=
  [ ERoute "/{id}" "GET" "get-dataplane-cluster-config" HAgentConfig;
    ERoute "/{id}/status" "PUT" "update-dataplane-cluster-status" HAgentClusterStatus;
    ERoute "/{id}/centrals/status" "PUT" "update-dataplane-centrals-status" HAgentCentralStatuses;
    ERoute "/{id}/centrals" "GET" "list-dataplane-centrals" HAgentCentrals ].

Definition admin_router : list entry :=
  [ ESub "/centrals" []
      [ ESub "/db" [] [ERoute "/{id}" "DELETE" "admin-db-delete-central" HAdminDbDelete];
        ERoute "/default-version" "POST" "admin-set-centrals-default-version" HAdminSetDefaultVersion;
        ERoute "/default-version" "GET" "admin-get-centrals-default-version" HAdminGetDefaultVersion;
        ERoute "" "GET" "admin-list-centrals" HAdminList;
        ERoute "/{id}" "GET" "admin-get-central" HAdminGet;
        ERoute "/{id}" "DELETE" "admin-delete-central" HAdminDelete;
        ERoute "/{id}" "PATCH" "admin-update-central" HAdminUpdate;
        ESub "" [] [ERoute "" "POST" "" HAdminCreate] ] ].

(** The issuers of the federate endpoint: those of the other routes and the realm of the
    fleetshard operators. *)
Definition federate_chain : list mw :=
  [MwIssuer (ro_TokenIssuers conf ++ [ro_FleetshardIssuer conf]) ErrorUnauthenticated; MwOrgID ErrorUnauthenticated; MwACL].

Definition v1_router : list entry :=
  [ ERoute "/openapi" "GET" "" HOpenAPI;
    ESub "/errors" [] [ERoute "" "GET" "" HErrorsList; ERoute "/{id}" "GET" "" HErrorsGet];
    ESub "/status" [MwIssuer (ro_TokenIssuers conf) ErrorUnauthenticated] [ERoute "" "GET" "" HStatusGet];
    ESub "/centrals" [MwIssuer (ro_TokenIssuers conf) ErrorUnauthenticated; MwOrgID ErrorUnauthenticated; MwACL] centrals_router;
    ESub "/centrals/{id}/metrics/federate" federate_chain [ERoute "" "GET" "get-federate-metrics" HFederate];
    ESub "/cloud_providers" []
      [ ERoute "" "GET" "list-cloud-providers" HCloudProviders;
        ERoute "/{id}/regions" "GET" "list-regions" HCloudProviderRegions ];
    ESub "/cloud_accounts" [] [ERoute "" "GET" "get-cloud-accounts" HCloudAccounts];
    ERoute "" "GET" "" HVersionMetadata;
    ESub "/agent-clusters" [MwOrgID ErrorNotFound; MwAllowedOrgs; MwIssuer [ro_FleetshardIssuer conf] ErrorNotFound] agent_router;
    ESub "/admin" [MwIssuer [ro_AdminIssuer conf] ErrorNotFound; MwRoles ErrorNotFound; MwAudit ErrorNotFound] admin_router ].

(** The base path of [AddRoutes], and the main router of [NewAPIServer] with it. *)
Definition buildAPIBaseRouter (basePath : string) : entry :=
  ESub basePath [MwMetrics; MwTransaction; MwCompress] [ESub "/v1" [] v1_router; ERoute "" "GET" "" HMetadata].

Definition AddRoutes : entry := buildAPIBaseRouter (Sprintf "%s/%s" [VStr APIEndpoint; VStr DinosaursFleetManagementAPIPrefix]).

Definition mainRouter : entry := ESub "" [MwSentry; MwOperationID; MwRequestLogging] [AddRoutes].

Definition routes : list flat := flatten "" [] mainRouter.
End table.

(** ** What mux documents *)

Definition slash : Ascii.ascii := Ascii.ascii_of_nat 47.
Definition segments (s : string) : list string := Split slash s.

(** [{name}] *)
Definition variable (seg : string) : option string :=
  if HasPrefix seg "{" && HasSuffix seg "}" then Some (String.substring 1 (String.length seg - 2) seg) else None.

(** A variable stands for one segment that is not empty. *)
Fixpoint match_segments (tpl path : list string) : option (list (string * string)) :=
  match tpl, path with
  | [], [] => Some []
  | t :: tpl, s :: path =>
      match variable t with
      | Some x => if bool_decide (s = "") then None else cons (x, s) <$> match_segments tpl path
      | None => if bool_decide (t = s) then match_segments tpl path else None
      end
  | _, _ => None
  end.

Definition path_vars (f : flat) (path : string) : option (list (string * string)) :=
  match_segments (segments (fl_template f)) (segments path).

Inductive outcome :=
| Reached (f : flat) (vars : list (string * string))
| NoMethod
| NoRoute
| Redirected
| Refused.

Definition takes (method path : string) (f : flat) : bool :=
  bool_decide (fl_method f = method) && bool_decide (is_Some (path_vars f path)).

Definition first_match (fs : list flat) (method path : string) : outcome :=
  match List.find (takes method path) fs with
  | Some f => Reached f (default [] (path_vars f path))
  | None => if existsb (fun f => bool_decide (is_Some (path_vars f path))) fs then NoMethod else NoRoute
  end.

(** An absolute path without empty segments but the last, and without [.] and [..]. *)
Definition clean (path : string) : bool :=
  match segments path with
  | "" :: segs =>
      bool_decide (segs <> []) && forallb (fun s => bool_decide (s <> "." /\ s <> "..")) segs &&
      forallb (fun s => bool_decide (s <> "")) (removelast segs)
  | _ => false
  end.

Class Mux := { dispatch : entry -> string -> string -> outcome }.
Class MuxLaws `{Mux} := {
  dispatch_clean r method path : clean path = true -> dispatch r method path = first_match (flatten "" [] r) method path;
  dispatch_unclean r method path : clean path = false -> dispatch r method path = Redirected
}.

(** ** The server *)

(** The four expressions of NewAuthenticationBuilder; the last one has no end anchor, so
    that everything that starts like the errors endpoint is public. *)
Definition is_public (path : string) : bool :=
  bool_decide (path ∈ ["/api/rhacs"; "/api/rhacs/"; "/api/rhacs/v1"; "/api/rhacs/v1/"; "/api/rhacs/v1/openapi"; "/api/rhacs/v1/openapi/"]) ||
  HasPrefix path "/api/rhacs/v1/errors".

Section server.
Context `{Mux} (conf : RouteConfig).

Definition removeTrailingSlash {A} (next : string -> A) (path : string) : A := next (TrimSuffix path "/").

(** The authentication handler lets the requests through that are public or have a valid
    token. *)
Definition authentication (valid : bool) (next : string -> outcome) (path : string) : outcome :=
  if is_public path || valid then next path else Refused.

Definition serve (valid : bool) (method : string) : string -> outcome :=
  removeTrailingSlash (authentication valid (dispatch (mainRouter conf) method)).
End server.

(** ** Properties

    Which requests reach which handler, and what has been checked of their token then. *)

(** *** Segments *)

Lemma segments_Join segs :
  segs <> [] -> Forall (fun s => slash ∉ String.list_ascii_of_string s) segs -> segments (Join "/" segs) = segs.
Proof.
  intros Hne Hs. induction Hs as [|s segs Hs Hss IH]; [done|]. destruct segs as [|s' segs].
  - clear IH Hss Hne. simpl. induction s as [|a s IHs]; [done|]. unfold segments in *. simpl in *.
    apply not_elem_of_cons in Hs as [Ha Hs]. rewrite bool_decide_eq_false_2 by congruence. by rewrite IHs.
  - specialize (IH ltac:(done)). change (Join "/" (s :: s' :: segs)) with (s +:+ "/" +:+ Join "/" (s' :: segs)).
    clear Hne Hss. revert IH. generalize (Join "/" (s' :: segs)). unfold segments. intros rest IH.
    induction s as [|a s IHs]; simpl in *.
    + exact (f_equal (cons "") IH).
    + apply not_elem_of_cons in Hs as [Ha Hs]. rewrite bool_decide_eq_false_2 by congruence. by rewrite IHs.
Qed.

Lemma path_segments p : p = Join "/" (segments p).
Proof. symmetry. apply (Join_Split slash). Qed.

Lemma match_literals lits tpl path vars :
  Forall (fun t => variable t = None) lits -> match_segments (lits ++ tpl) path = Some vars -> exists rest, path = (lits ++ rest)%list.
Proof.
  intros Hl. revert path. induction Hl as [|t lits Ht _ IH]; intros path; simpl; [eauto|].
  destruct path as [|s path]; [done|]. rewrite Ht. case_bool_decide; [|done]. subst. intros Hm.
  destruct (IH _ Hm) as [rest ->]. eauto.
Qed.

(** *** Public paths *)

(** A path below /api/rhacs/v1 whose next segment does not start like openapi or errors is
    not public. *)
Lemma not_public a x rest :
  a <> Ascii.ascii_of_nat 101 -> a <> Ascii.ascii_of_nat 111 ->
  is_public (Join "/" ("" :: "api" :: "rhacs" :: "v1" :: String a x :: rest)) = false.
Proof.
  intros He Ho. unfold is_public. apply orb_false_iff.
  assert (exists t, Join "/" ("" :: "api" :: "rhacs" :: "v1" :: String a x :: rest) = "/api/rhacs/v1/" +:+ String a t) as [t ->].
  { destruct rest; [by exists x|]. by eexists (x +:+ "/" +:+ _). }
  split.
  - apply bool_decide_eq_false. intros Hin. simpl in Hin.
    repeat (apply elem_of_cons in Hin as [Hin|Hin]; [cbv in Hin; first [discriminate Hin|injection Hin as -> _; by apply Ho]|]).
    by apply elem_of_nil in Hin.
  - unfold HasPrefix. lazy [String.append]. simpl. case_match; [|done]. subst. by destruct He.
Qed.

(** *** What the middlewares of a route have checked *)

Section chains.
Context {S R : Type} (names : ClaimNames) (VerifyIssuer : ACSClaims -> string -> bool).
Context (cache_Get : string -> prog S (option bool)) (cache_Set : string -> bool -> prog S unit)
  (GetRequiresTermsAcceptance : string -> prog S (result error bool)).
Context (LogObject : http_request -> string -> prog S (option error)) (LogStatus : option Z -> prog S (option error)).
Context (conf : RouteConfig).

(** The middlewares of Auth.v; the others do not look at the token, and are the identity here. *)
Definition auth_mw (m : mw) : middleware (S := S) (R := R) :=
  match m with
  | MwIssuer issuers code => RequireIssuer VerifyIssuer issuers code
  | MwOrgID code => RequireOrgID names code
  | MwACL => Authorize names (ro_ACL conf)
  | MwTerms code => RequireTermsAcceptance names cache_Get cache_Set GetRequiresTermsAcceptance (ro_EnableTermsAcceptance conf) code
  | MwAllowedOrgs => checkAllowedOrgIDs names (ro_AllowedOrgIDs conf)
  | MwRoles code => RequireRolesForMethods (GetRoleMapping (ro_RolesConfig conf)) code
  | MwAudit code => AuditLog names LogObject LogStatus code
  | _ => fun next => next
  end.

(** The first middleware is the outermost. *)
Definition chain (mws : list mw) : middleware (S := S) (R := R) := fun next => foldr auth_mw next mws.

(** The configuration with the issuers of the federate endpoint. *)
Definition federate_conf : RouteConfig :=
  mkRouteConfig (ro_TokenIssuers conf ++ [ro_FleetshardIssuer conf]) (ro_AdminIssuer conf) (ro_FleetshardIssuer conf)
    (ro_EnableTermsAcceptance conf) (ro_ACL conf) (ro_AllowedOrgIDs conf) (ro_RolesConfig conf).

(** How the request of a handler comes from the one that was sent. *)
Definition promise (h : handler_id) : http_request -> http_request -> Prop :=
  match h with
  | HOpenAPI | HErrorsList | HErrorsGet | HMetadata | HVersionMetadata => fun r r' => r' = r
  | HCloudProviders | HCloudProviderRegions | HCloudAccounts => fun r r' => r' = r
  | HStatusGet => issued VerifyIssuer (ro_TokenIssuers conf)
  | HCentralGet | HCentralDelete | HCentralList | HCentralCreate | HMetricsRange | HMetricsInstant => user_request names VerifyIssuer conf
  | HFederate => user_request names VerifyIssuer federate_conf
  | HAgentConfig | HAgentClusterStatus | HAgentCentralStatuses | HAgentCentrals => agent_request names VerifyIssuer conf
  | _ => admin_request VerifyIssuer conf
  end.

(** The handlers that need no token. *)
Definition public_handlers : list handler_id := [HOpenAPI; HErrorsList; HErrorsGet; HMetadata; HVersionMetadata].

Lemma guards_none : guards (S := S) (R := R) (fun next => next) (fun r r' => r' = r).
Proof. intros next r s. right. right. by exists r, s. Qed.

Lemma chain_guards f : f ∈ routes conf -> guards (chain (fl_mws f)) (promise (fl_handler f)).
Proof.
  intros Hf. repeat (apply elem_of_cons in Hf as [->|Hf]; [|]); [..|by apply elem_of_nil in Hf];
    first [exact guards_none|exact (guards_RequireIssuer VerifyIssuer _ _)|exact (guards_centrals_route names VerifyIssuer conf)
          |exact (guards_create_route names VerifyIssuer cache_Get cache_Set GetRequiresTermsAcceptance conf)
          |exact (guards_centrals_route names VerifyIssuer federate_conf)
          |exact (guards_agent_route names VerifyIssuer conf)|exact (guards_admin_route names VerifyIssuer LogObject LogStatus conf)].
Qed.
End chains.

(** A template below /api/rhacs/v1 that is not public, whatever its variables are. *)
Definition protected (f : flat) : bool :=
  match segments (fl_template f) with
  | a :: b :: c :: d :: String e x :: _ =>
      bool_decide ([a; b; c; d] = [""; "api"; "rhacs"; "v1"]) && bool_decide (variable (String e x) = None) &&
      bool_decide (e <> Ascii.ascii_of_nat 101 /\ e <> Ascii.ascii_of_nat 111)
  | _ => false
  end.

Lemma protected_not_public f path vars : protected f = true -> path_vars f path = Some vars -> is_public path = false.
Proof.
  unfold protected, path_vars. destruct (segments (fl_template f)) as [|a [|b [|c [|d [|[|e x] tpl]]]]]; [done..|].
  rewrite !andb_true_iff, !bool_decide_eq_true. intros [[[= -> -> -> ->] Hx] [He Ho]] Hm.
  destruct (match_literals [""; "api"; "rhacs"; "v1"; String e x] tpl _ _ ltac:(by repeat constructor) Hm) as [rest Hr].
  rewrite (path_segments path), Hr. by apply not_public.
Qed.

Lemma routes_protected conf : forallb (fun f => protected f || bool_decide (fl_handler f ∈ public_handlers)) (routes conf) = true.
Proof. vm_compute. reflexivity. Qed.

Lemma public_routes conf f path vars :
  f ∈ routes conf -> path_vars f path = Some vars -> is_public path = true -> fl_handler f ∈ public_handlers.
Proof.
  intros Hf Hv Hp. pose proof (proj1 (forallb_forall _ _) (routes_protected conf) f (proj1 (list_elem_of_In _ _) Hf)) as H.
  apply orb_true_iff in H as [H|H]; [|by apply bool_decide_eq_true in H].
  by rewrite (protected_not_public _ _ _ H Hv) in Hp.
Qed.

Lemma first_match_Reached fs method path f vars :
  first_match fs method path = Reached f vars -> f ∈ fs /\ fl_method f = method /\ path_vars f path = Some vars.
Proof.
  unfold first_match. destruct (List.find _ fs) as [f'|] eqn:E; [|by case_match]. intros [= -> <-].
  apply find_some in E as [Hin Ht]. apply andb_true_iff in Ht as [Hm Hv]. apply bool_decide_eq_true in Hm, Hv.
  split_and!; [by apply list_elem_of_In|done|]. by destruct Hv as [v ->].
Qed.


(** *** Every route can be reached *)

(** A segment of a path that mux does not clean away. *)
Definition is_segment (id : string) : Prop :=
  id <> "" /\ id <> "." /\ id <> ".." /\ (slash ∉ String.list_ascii_of_string id).

Definition fill (id : string) (tpl : list string) : list string :=
  (fun t => match variable t with Some _ => id | None => t end) <$> tpl.

(** The path of a route with the identifier [id]. *)
Definition instantiate (f : flat) (id : string) : string := Join "/" (fill id (segments (fl_template f))).

(** No path for [tf] is one for [tg]: at some position both have different texts, or [tg]
    has the text default-version. *)
Fixpoint apart (tg tf : list string) : bool :=
  match tg, tf with
  | [], [] => false
  | g :: tg, f :: tf =>
      match variable g, variable f with
      | None, None => negb (bool_decide (g = f))
      | None, Some _ => bool_decide (g = "default-version")
      | _, _ => false
      end || apart tg tf
  | _, _ => true
  end.

Lemma apart_none id tg tf : id <> "default-version" -> apart tg tf = true -> match_segments tg (fill id tf) = None.
Proof.
  intros Hid. revert tf. induction tg as [|g tg IH]; intros [|f tf]; simpl; [done..|]. intros Hd.
  destruct (variable g) as [x|] eqn:Eg; destruct (variable f) as [y|] eqn:Ef; simpl in Hd;
    try (rewrite (IH _ Hd); by case_bool_decide).
  - case_bool_decide as Hg; [subst; by rewrite bool_decide_eq_false_2 by congruence|].
    case_bool_decide; [|done]. by apply IH.
  - destruct (bool_decide (g = f)); simpl in Hd; [|done]. by apply IH.
Qed.

Fixpoint separated (fs : list flat) : bool :=
  match fs with
  | [] => true
  | g :: fs =>
      forallb (fun f => negb (bool_decide (fl_method g = fl_method f)) || apart (segments (fl_template g)) (segments (fl_template f))) fs &&
      separated fs
  end.

Lemma routes_separated conf : separated (routes conf) = true.
Proof. vm_compute. reflexivity. Qed.

(** The templates are absolute, their texts need no cleaning. *)
Definition wholesome (f : flat) : bool :=
  match segments (fl_template f) with
  | "" :: segs => bool_decide (segs <> []) && forallb (fun t => bool_decide (t <> "" /\ t <> "." /\ t <> "..")) segs
  | _ => false
  end.

Lemma routes_wholesome conf : forallb wholesome (routes conf) = true.
Proof. vm_compute. reflexivity. Qed.

Lemma segments_no_slash s : Forall (fun t => slash ∉ String.list_ascii_of_string t) (segments s).
Proof.
  unfold segments. induction s as [|a s IH]; simpl; [by repeat constructor; apply not_elem_of_nil|].
  case_bool_decide as Ha; [constructor; [apply not_elem_of_nil|done]|]. destruct (Split slash s) as [|w ws]; [by repeat constructor; set_solver|].
  inversion IH; subst. constructor; [|done]. simpl. apply not_elem_of_cons. split; [congruence|done].
Qed.

Lemma instantiate_segments f id : is_segment id -> wholesome f = true -> segments (instantiate f id) = fill id (segments (fl_template f)).
Proof.
  intros (_ & _ & _ & Hid) Hw. apply segments_Join.
  - unfold wholesome in Hw. by destruct (segments (fl_template f)).
  - unfold fill. apply Forall_fmap. eapply Forall_impl; [apply segments_no_slash|]. intros t Ht. simpl. by case_match.
Qed.

Lemma instantiate_clean f id : is_segment id -> wholesome f = true -> clean (instantiate f id) = true.
Proof.
  intros Hid Hw. unfold clean. rewrite instantiate_segments by done. unfold wholesome in Hw.
  destruct (segments (fl_template f)) as [|t segs]; [done|]. destruct t; [|done]. simpl.
  apply andb_true_iff in Hw as [Hne Hs]. apply bool_decide_eq_true in Hne.
  assert (Forall (fun s => s <> "" /\ s <> "." /\ s <> "..") (fill id segs)) as Hf.
  { unfold fill. apply Forall_fmap, Forall_forall. intros t Ht. simpl. destruct Hid as (? & ? & ? & _).
    rewrite forallb_forall in Hs. specialize (Hs t (proj1 (list_elem_of_In _ _) Ht)). apply bool_decide_eq_true in Hs. by case_match. }
  rewrite !andb_true_iff, !forallb_forall. split_and!.
  - apply bool_decide_eq_true. by destruct segs.
  - intros s Hin%list_elem_of_In. apply bool_decide_eq_true. rewrite Forall_forall in Hf. by destruct (Hf s Hin) as (? & ? & ?).
  - intros s Hin. apply bool_decide_eq_true. rewrite Forall_forall in Hf. apply (Hf s), list_elem_of_In.
    clear -Hin. induction (fill id segs) as [|x [|y l] IH]; [done..|]. simpl in *. destruct Hin as [->|Hin]; auto.
Qed.

Lemma match_fill id tpl : is_segment id -> is_Some (match_segments tpl (fill id tpl)).
Proof.
  intros (Hid & _). induction tpl as [|t tpl [vars IH]]; simpl; [by eexists|]. destruct (variable t) as [x|] eqn:E.
  - rewrite bool_decide_eq_false_2 by done. rewrite IH. by eexists.
  - rewrite bool_decide_eq_true_2 by done. rewrite IH. by eexists.
Qed.

Lemma separated_split fs l1 f l2 g :
  separated fs = true -> fs = (l1 ++ f :: l2)%list -> g ∈ l1 ->
  fl_method g <> fl_method f \/ apart (segments (fl_template g)) (segments (fl_template f)) = true.
Proof.
  intros Hs ->. induction l1 as [|h l1 IH]; intros Hg; [by apply elem_of_nil in Hg|]. simpl in Hs. apply andb_true_iff in Hs as [Hh Hs].
  apply elem_of_cons in Hg as [->|Hg]; [|by apply IH]. rewrite forallb_forall in Hh.
  specialize (Hh f (in_elt f l1 l2)). apply orb_true_iff in Hh as [Hh|Hh]; [left|by right].
  by case_bool_decide.
Qed.

Lemma find_first {A} (p : A -> bool) l1 x l2 :
  Forall (fun y => p y = false) l1 -> p x = true -> List.find p (l1 ++ x :: l2) = Some x.
Proof. intros Hl Hx. induction Hl as [|y l1 Hy _ IH]; simpl; [by rewrite Hx|]. by rewrite Hy. Qed.

(** No route hides another: every identifier that is a segment of a path, but the text
    default-version, is given to the handler of the route. *)
Theorem every_route_reachable `{MuxLaws} conf f id :
  f ∈ routes conf -> is_segment id -> id <> "default-version" ->
  exists vars, dispatch (mainRouter conf) (fl_method f) (instantiate f id) = Reached f vars /\ Forall (fun v => v.2 = id) vars.
Proof.
  intros Hf Hid Hdv. assert (wholesome f = true) as Hw.
  { exact (proj1 (forallb_forall _ _) (routes_wholesome conf) f (proj1 (list_elem_of_In _ _) Hf)). }
  rewrite dispatch_clean by by apply instantiate_clean. unfold first_match. change (flatten "" [] (mainRouter conf)) with (routes conf).
  destruct (list_elem_of_split _ _ Hf) as (l1 & l2 & Hs). rewrite Hs. destruct (match_fill id (segments (fl_template f)) Hid) as [vars Hv].
  rewrite find_first.
  - exists vars. unfold path_vars. rewrite instantiate_segments, Hv by done. split; [done|].
    revert vars Hv. induction (segments (fl_template f)) as [|t tpl IH]; intros vars; simpl; [by intros [= <-]|].
    destruct (variable t); [|case_bool_decide; [apply IH|done]]. case_bool_decide; [done|].
    destruct (match_segments tpl (fill id tpl)) as [v|]; [|done]. intros [= <-]. constructor; [done|by apply IH].
  - apply Forall_forall. intros g Hg. unfold takes, path_vars. rewrite instantiate_segments by done.
    destruct (separated_split _ _ _ _ _ (routes_separated conf) Hs Hg) as [Hm|Ha]; [by rewrite bool_decide_eq_false_2|].
    rewrite apart_none by done. by rewrite andb_false_r.
  - unfold takes, path_vars. rewrite instantiate_segments, Hv by done. by rewrite !bool_decide_eq_true_2 by (done || by eexists).
Qed.

(** The exception: the default version is served for GET and POST, but DELETE and PATCH of
    the same path are those of a central with that identifier. *)
Theorem default_version_routes `{MuxLaws} conf :
  let p := "/api/rhacs/v1/admin/centrals/default-version" in
  let handler method := match dispatch (mainRouter conf) method p with Reached f vars => Some (fl_handler f, vars) | _ => None end in
  handler "GET" = Some (HAdminGetDefaultVersion, []) /\ handler "POST" = Some (HAdminSetDefaultVersion, []) /\
  handler "DELETE" = Some (HAdminDelete, [("id", "default-version")]) /\ handler "PATCH" = Some (HAdminUpdate, [("id", "default-version")]).
Proof. cbv beta zeta. rewrite !dispatch_clean by reflexivity. split_and!; vm_compute; reflexivity. Qed.

(** *** A router *)

#[export] Instance plain_mux : Mux := {|
  dispatch r method path := if clean path then first_match (flatten "" [] r) method path else Redirected
|}.

#[export] Instance plain_mux_laws : MuxLaws.
Proof. split; intros r method path Hc; simpl; by rewrite Hc. Qed.

Definition sample_route_config : RouteConfig := mkRouteConfig ["https://sso"] "https://internal" "https://fleetshard" true (mkACL ["mallory"] true) ["org"] [].

