(* ===== verification/InfoApi.v ===== *)
(** * The informational endpoints

    The list of errors (pkg/handlers/errors.go, helpers.go), the metadata of the API
    (pkg/api/metadata.go), the answers for unknown routes (pkg/api/error.go), the status and
    the cloud accounts (handlers/service_status.go, cloud_accounts.go with their presenters). *)

From stdpp Require Import sorting.
From S2P Require Import Prelude GoString GoFmt ServiceErrors CentralRequest Store Versions ClusterTypes World Effects Namespace Quota ApiFramework Auth.
Local Open Scope string_scope.
Local Open Scope Z_scope.

(** What these handlers use of a request. *)
Record info_request := mkInfoRequest {
  ir_Method : string; ir_Path : string; ir_RequestURI : string; ir_id : string; ir_get : string -> string
}.

(** ** The errors *)

(** Whether the whole list is taken: the test of [DetermineListRange]. *)
Definition whole_list (total page size : Z) : bool :=
  let low := wrap64 (wrap64 (page - 1) * size) in
  let high := wrap64 (low + size) in
  (low <? 0) || (total <=? low) || (total <=? high).

Definition DetermineListRange {A} (items : list A) (page size : Z) : list A * Z :=
  let total := Z.of_nat (length items) in
  let low := wrap64 (wrap64 (page - 1) * size) in
  let high := wrap64 (low + size) in
  if whole_list total page size then (items, total)
  else (take (Z.to_nat (high - low)) (drop (Z.to_nat low) items), total).

Definition by_code : relation ServiceError := fun a b => Code a <= Code b.
#[export] Instance by_code_dec : RelDecision by_code := fun a b => decide (Code a <= Code b).

Record ErrorList := mkErrorList { el_Kind : string; el_Page : Z; el_Size : Z; el_Total : Z; el_Items : list OpenapiError }.

Definition PresentError (err : ServiceError) (url : string) : OpenapiError := AsOpenapiError err "" url.

Section errors.
Context {S : Type}.

(** [sort.SliceStable] by the code. *)
Definition errors_List (r : info_request) : prog S (response ErrorList) :=
  HandleList (mkHandlerConfig None [] (
    let listArgs := NewListArguments (ir_get r) in
    let allErrors := merge_sort by_code Errors in
    let '(list, total) := DetermineListRange allErrors (la_Page listArgs) (la_Size listArgs) in
    mret (Ok (mkErrorList "ErrorList" (int32 (la_Page listArgs)) (int32 (Z.of_nat (length list))) (int32 total)
                ((fun e => PresentError e (ir_RequestURI r)) <$> list))))).

Definition errors_Get (r : info_request) : prog S (response OpenapiError) :=
  HandleGet (mkHandlerConfig None [] (
    let not_found := NotFound "No error with id %s exists" [VStr (ir_id r)] in
    mret (let '(value, ok) := Atoi (ir_id r) in
          if negb ok then Err not_found
          else match Find value with
               | None => Err not_found
               | Some sErr => Ok (PresentError sErr (ir_RequestURI r))
               end))).
End errors.

(** ** Metadata *)

Record CollectionMetadata := mkCollection { cmd_ID : string; cmd_HREF : string; cmd_Kind : string }.
Record VersionMetadata := mkVersionMetadata { vm_ID : string; vm_HREF : string; vm_Kind : string; vm_Collections : list CollectionMetadata }.
Record Metadata := mkApiMetadata { mdt_ID : string; mdt_HREF : string; mdt_Kind : string; mdt_Versions : list VersionMetadata }.

(** [href := v.HREF; if href == "" { href = v.ID }] under the path of the request *)
Definition below (path href id : string) : string :=
  Sprintf "%s/%s" [VStr path; VStr (if bool_decide (href = "") then id else href)].

Definition Metadata_ServeHTTP (m : Metadata) (path : string) : Metadata :=
  mkApiMetadata (mdt_ID m) path "API"
    ((fun v => mkVersionMetadata (vm_ID v) (below path (vm_HREF v) (vm_ID v)) "APIVersion" []) <$> mdt_Versions m).

Definition VersionMetadata_ServeHTTP (v : VersionMetadata) (path : string) : VersionMetadata :=
  mkVersionMetadata (vm_ID v) path "APIVersion"
    ((fun c => mkCollection (cmd_ID c) (below path (cmd_HREF c) (cmd_ID c)) (cmd_Kind c)) <$> vm_Collections v).

(** The metadata of the route loader. *)
Definition v1Metadata : VersionMetadata :=
  mkVersionMetadata "v1" "" "" [mkCollection "centrals" "" "CentralList"; mkCollection "cloud_providers" "" "CloudProviderList"].
Definition apiMetadata : Metadata := mkApiMetadata "rhacs" "" "" [v1Metadata].

(** ** Unknown routes

    The status and the body; an error of the writer is only reported. *)

Definition SendNotFound (r : info_request) : Z * OpenapiError :=
  let reason := Sprintf "The requested resource '%s' doesn't exist" [VStr (ir_Path r)] in
  (StatusNotFound, AsOpenapiError (NotFound reason []) "" (ir_RequestURI r)).

Definition SendMethodNotAllowed (r : info_request) : Z * OpenapiError :=
  let reason := Sprintf "Method: %s is not allowed or not yet implemented for %s" [VStr (ir_Method r); VStr (ir_Path r)] in
  (StatusMethodNotAllowed, AsOpenapiError (NotImplemented reason []) "" (ir_RequestURI r)).

Definition SendUnauthorized (r : info_request) (message : string) : Z * OpenapiError :=
  (StatusUnauthorized, AsOpenapiError (Unauthorized message []) "" (ir_RequestURI r)).

Definition SendPanic : Z * OpenapiError := (StatusInternalServerError, AsOpenapiError UnableToSendErrorResponse "" "").

(** ** Status and cloud accounts *)

(** The presenter returns a nil pointer, which is encoded as null. *)
Definition PresentServiceStatus : option unit := None.

Record public_CloudAccount := mkPublicCloudAccount { pca_CloudAccountId : string; pca_CloudProviderId : string }.
Definition PresentCloudAccounts (cloudAccounts : list CloudAccount) : list public_CloudAccount :=
  (fun c => mkPublicCloudAccount (ca_CloudAccountID c) (ca_CloudProviderID c)) <$> cloudAccounts.

Section accounts.
Context `{Platform} (names : ClaimNames).

(** The deny list decides only what is logged. *)
Definition status_Get (acl : AccessControlListConfig) (r : http_request) : prog world (response (option unit)) :=
  HandleGet (mkHandlerConfig None [] (
    match rq_Claims r with
    | Err _ => mret (Ok PresentServiceStatus)
    | Ok claims =>
        let username := or_empty (GetUsername names claims) in
        if acl_EnableDenyList acl then
          if IsUserDenied (acl_DenyList acl) username then mret (Ok PresentServiceStatus) else mret (Ok PresentServiceStatus)
        else mret (Ok PresentServiceStatus)
    end)).

Definition cloudAccounts_action (r : http_request) : prog world (result ServiceError (list public_CloudAccount)) :=
  match rq_Claims r with
  | Err err => mret (Err (NewWithCause ErrorUnauthenticated (Some err) "user not authenticated" []))
  | Ok claims =>
      match GetOrgID names claims with
      | Err err => mret (Err (NewWithCause ErrorForbidden (Some err) "cannot make request without orgID claim" []))
      | Ok orgID =>
          ro ← on_ext (GetOrganisationFromExternalID orgID);
          match ro with
          | Err err => mret (Err (OrganisationNotFound orgID err))
          | Ok (id, _) =>
              rc ← on_ext (GetCustomerCloudAccounts id [RHACSMarketplaceQuotaID]);
              match rc with
              | Err err => mret (Err (NewWithCause ErrorGeneral (Some err) "failed to fetch cloud accounts from AMS" []))
              | Ok cloudAccounts => mret (Ok (PresentCloudAccounts cloudAccounts))
              end
          end
      end
  end.

Definition cloudAccounts_Get (r : http_request) : prog world (response (list public_CloudAccount)) :=
  HandleGet (mkHandlerConfig None [] (cloudAccounts_action r)).

(** The accounts of an answer are those that AMS has for the organisation of the caller's
    token; without a token that names one, nothing is asked. *)
Theorem cloudAccounts_own r w status body :
  (cloudAccounts_Get r w).2 = RJson status body ->
  exists claims orgID x id name x' accounts,
    rq_Claims r = Ok claims /\ GetOrgID names claims = Ok orgID /\
    GetOrganisationFromExternalID orgID (w_ext w) = (x, Ok (id, name)) /\
    GetCustomerCloudAccounts id [RHACSMarketplaceQuotaID] x = (x', Ok accounts) /\ body = PresentCloudAccounts accounts.
Proof.
  unfold cloudAccounts_Get, HandleGet. rewrite run_action_plain. cbn [fst snd]. unfold cloudAccounts_action.
  destruct (rq_Claims r) as [claims|e]; [|done]. destruct (GetOrgID names claims) as [orgID|e] eqn:Eo; [|done].
  rewrite prog_bind_run. unfold on_ext. destruct (GetOrganisationFromExternalID orgID (w_ext w)) as [x [[id name]|e]] eqn:Ex; [|done].
  cbn [fst snd]. rewrite prog_bind_run. cbn [w_ext]. destruct (GetCustomerCloudAccounts id [RHACSMarketplaceQuotaID] x) as [x' [accounts|e]] eqn:Ea; [|done].
  intros [= _ <-]. by exists claims, orgID, x, id, name, x', accounts.
Qed.

(** Nobody is refused: the status has the same answer for everyone. *)
Theorem status_everyone acl r w : status_Get acl r w = (w, RJson StatusOK None).
Proof.
  unfold status_Get, HandleGet. rewrite run_action_plain. destruct (rq_Claims r); [|done]. cbv zeta.
  destruct (acl_EnableDenyList acl); [|done]. by destruct (IsUserDenied _ _).
Qed.
End accounts.

(** ** The pages of a list *)

(** A page that ends before the last element has the elements of that page. *)
Theorem DetermineListRange_page {A} (items : list A) page size :
  1 <= page -> 0 <= size -> page * size < Z.of_nat (length items) < 2 ^ 63 ->
  DetermineListRange items page size =
  (take (Z.to_nat size) (drop (Z.to_nat ((page - 1) * size)) items), Z.of_nat (length items)).
Proof.
  intros Hp Hs Ht. assert (Hb : 0 <= (page - 1) * size <= page * size) by nia.
  destruct (decide (size = 0)) as [->|Hs0].
  - unfold DetermineListRange, whole_list. rewrite !Z.mul_0_r. change (wrap64 (wrap64 0 + 0)) with 0. change (wrap64 0) with 0.
    destruct (Z.of_nat (length items) <=? 0) eqn:E; [lia|]. done.
  - assert (page < 2 ^ 63) by nia. unfold DetermineListRange, whole_list. rewrite !(wrap64_id (page - 1)) by lia.
    rewrite !(wrap64_id ((page - 1) * size)) by lia. rewrite !wrap64_id by nia.
    replace ((page - 1) * size <? 0) with false by lia. replace (Z.of_nat (length items) <=? (page - 1) * size) with false by nia.
    replace (Z.of_nat (length items) <=? (page - 1) * size + size) with false by nia. simpl. repeat f_equal. lia.
Qed.

(** The last page is not the rest of the list but the whole list, so that a client that
    reads all pages gets the elements before the last page twice. *)
Theorem DetermineListRange_last {A} (items : list A) page size :
  1 <= page < 2 ^ 63 -> 0 <= size -> (page - 1) * size < Z.of_nat (length items) <= page * size -> page * size < 2 ^ 63 ->
  DetermineListRange items page size = (items, Z.of_nat (length items)).
Proof.
  intros Hp Hs Ht Hb. assert (0 <= (page - 1) * size) by nia. unfold DetermineListRange, whole_list.
  rewrite !(wrap64_id (page - 1)) by lia. rewrite !(wrap64_id ((page - 1) * size)) by lia. rewrite !wrap64_id by nia.
  replace (Z.of_nat (length items) <=? (page - 1) * size + size) with true by nia. by rewrite !orb_true_r.
Qed.

(** Of the 43 errors, the third page of twenty has all. *)
Theorem errors_last_page {S} (s : S) uri method path id :
  let get k := if bool_decide (k = "size") then "20" else if bool_decide (k = "page") then "3" else "" in
  exists l, (errors_List (mkInfoRequest method path uri id get) s).2 = RJson StatusOK l /\
    el_Size l = el_Total l /\ el_Total l = 43 /\ length (el_Items l) = 43%nat.
Proof. eexists. split; [reflexivity|]. split_and!; vm_compute; reflexivity. Qed.

(** ** The error of an identifier *)

Lemma Find_code code e : Find code = Some e -> Code e = code /\ e ∈ Errors.
Proof.
  unfold Find. destruct (list_find _ Errors) as [[i e']|] eqn:E; [|done]. intros [= <-].
  apply list_find_Some in E as (Hl & Hc & _). split; [done|]. by eapply list_elem_of_lookup_2.
Qed.

Lemma Find_complete e : e ∈ Errors -> is_Some (Find (Code e)).
Proof.
  intros He. unfold Find. destruct (list_find_elem_of (fun x => Code x = Code e) Errors e He eq_refl) as [p ->]. by eexists.
Qed.

(** The answer is the error that has the number as its code, for exactly the numbers that are
    codes; everything else is not found. *)
Theorem errors_Get_spec {S} (r : info_request) (s : S) :
  let '(value, ok) := Atoi (ir_id r) in
  if bool_decide (ok = true /\ value ∈ all_codes)
  then exists e, e ∈ Errors /\ Code e = value /\ errors_Get r s = (s, RJson StatusOK (PresentError e (ir_RequestURI r)))
  else errors_Get r s = (s, RError (NotFound "No error with id %s exists" [VStr (ir_id r)])).
Proof.
  destruct (Atoi (ir_id r)) as [value ok] eqn:Ea.
  assert (errors_Get r s = (s, if negb ok then RError (NotFound "No error with id %s exists" [VStr (ir_id r)])
    else match Find value with Some e => RJson StatusOK (PresentError e (ir_RequestURI r))
         | None => RError (NotFound "No error with id %s exists" [VStr (ir_id r)]) end)) as ->.
  { unfold errors_Get, HandleGet. rewrite run_action_plain. cbn [mret prog_ret fst snd]. rewrite Ea. destruct ok; [|done]. simpl.
    by destruct (Find value). }
  assert (value ∈ all_codes <-> is_Some (Find value)) as Hc.
  { rewrite <- Errors_codes, list_elem_of_fmap. split.
    - intros (e & -> & He). by apply Find_complete.
    - intros [e He]. destruct (Find_code _ _ He). eauto. }
  case_bool_decide as Hd.
  - destruct Hd as [-> Hv]. apply Hc in Hv as [e He]. rewrite He. destruct (Find_code _ _ He) as [Hce Hin]. by exists e.
  - destruct ok; [|done]. simpl. destruct (Find value) eqn:Ef; [|done]. destruct Hd. split; [done|]. apply Hc. by eexists.
Qed.

(** ** The text of an unknown path *)

(** A path without a percent sign is named in the answer as it is. *)
Theorem SendNotFound_names_path r :
  37%N ∉ bytes_of (ir_Path r) ->
  SendNotFound r = (StatusNotFound, AsOpenapiError (mkServiceError ErrorNotFound ("The requested resource '" +:+ ir_Path r +:+ "' doesn't exist") StatusNotFound None) "" (ir_RequestURI r)).
Proof.
  intros Hp. unfold SendNotFound, NotFound, New, NewWithCause.
  assert (Sprintf "The requested resource '%s' doesn't exist" [VStr (ir_Path r)] = "The requested resource '" +:+ ir_Path r +:+ "' doesn't exist") as -> by reflexivity.
  rewrite bool_decide_eq_true_2 by done. rewrite Sprintf_plain; [reflexivity|].
  rewrite !bytes_of_append, !elem_of_app. intros [H|[H|H]]; [|done|]; revert H; apply (bool_decide_unpack (_ ∉ _)); vm_compute; exact I.
Qed.

(** The text is used as a format again: a percent sign in the path garbles it. *)
Theorem SendNotFound_garbled :
  oe_Reason (SendNotFound (mkInfoRequest "GET" "/api/100%done" "/api/100%25done" "" (fun _ => ""))).2 =
  "The requested resource '/api/100%!d(MISSING)one' doesn't exist".
Proof. vm_compute. reflexivity. Qed.
