(* ===== verification/RequestLog.v ===== *)
(** * Logs and metrics of requests

    pkg/logger, pkg/server/logging and pkg/handlers/metrics_middleware.go: the events that
    routes are named after, the prefix of log lines, the copy of a request that is logged,
    and the two wrappers of the response writer that remember its status.  What net/http
    documents of a response writer, that the first status counts and that it is 200 when
    none was written, is [client_status]. *)

From S2P Require Import Prelude GoString GoFmt ServiceErrors World Effects ApiFramework Auth Routes.
Local Open Scope string_scope.
Local Open Scope Z_scope.

(** ** Events (logger.go) *)

Record LogEvent := mkLogEvent { le_Type : string; le_Description : string }.

Definition logEventSeparator : string := "$$".

(** [strings.Split(s, "$$")] *)
Fixpoint split_dollars (s : string) : list string :=
  match s with
  | EmptyString => [""]
  | String a rest =>
      match rest with
      | String b rest' =>
          if bool_decide (a = Ascii.ascii_of_nat 36) && bool_decide (b = Ascii.ascii_of_nat 36) then "" :: split_dollars rest'
          else match split_dollars rest with w :: ws => String a w :: ws | [] => [String a ""] end
      | EmptyString => [String a ""]
      end
  end.

Definition NewLogEventFromString (s : string) : LogEvent :=
  match split_dollars s with
  | ty :: desc :: _ => mkLogEvent ty desc
  | [ty] => mkLogEvent ty ""
  | [] => mkLogEvent "" ""
  end.

(** The optional description is empty when it is left out. *)
Definition NewLogEvent (eventType description : string) : LogEvent := mkLogEvent eventType description.

Definition LogEvent_ToString (l : LogEvent) : string :=
  if bool_decide (le_Description l <> "")
  then Sprintf "%s%s%s" [VStr (le_Type l); VStr logEventSeparator; VStr (le_Description l)]
  else le_Type l.

(** ** The prefix of a line *)

(** The first of the claims that is set, the empty text when none is; a claim that is no
    string makes the type assertion panic. *)
Fixpoint first_set (cs : list claim) : option string :=
  match cs with
  | [] => Some ""
  | CNull :: cs => first_set cs
  | CString s :: _ => Some s
  | _ => None
  end.

(** [claims] are those of the token of the context, none when it has no token. *)
Definition getSessionFromClaims (claims : option ACSClaims) : option string :=
  match claims with
  | None => Some ""
  | Some claims => first_set [claim_of claims "session_state"]
  end.

Definition getUsernameFromClaims (claims : option ACSClaims) : option string :=
  match claims with
  | None => Some ""
  | Some claims => first_set [claim_of claims "username"; claim_of claims "preferred_username"]
  end.

(** The values of the context that a line may show. *)
Record log_context := mkLogContext {
  lc_Claims : option ACSClaims; lc_Action : option string; lc_ActionResult : option string;
  lc_RemoteAddr : option string; lc_txid : option Z; lc_opid : option string; lc_Hub : bool
}.

(** [lg_sentryHub] is whether the logger has the hub of the request. *)
Record logger := mkLogger {
  lg_context : log_context; lg_level : Z; lg_accountID : string; lg_username : string; lg_session : string; lg_sentryHub : bool
}.

(** [None] when a claim is of another type. *)
Definition NewUHCLogger (ctx : log_context) : option logger :=
  username ← getUsernameFromClaims (lc_Claims ctx);
  session ← getSessionFromClaims (lc_Claims ctx);
  Some (mkLogger ctx 1 "" username session (lc_Hub ctx)).

Definition logger_V (level : Z) (l : logger) : logger :=
  mkLogger (lg_context l) level (lg_accountID l) (lg_username l) (lg_session l) false.

(** Whether an event is sent to the hub of the request, and not to the global one. *)
Definition captureSentryEvent (l : logger) : bool := lg_sentryHub l.

Definition part (name value : string) : string := name +:+ "='" +:+ value +:+ "' ".
Definition part_of (name : string) (value : option string) : string := match value with Some v => part name v | None => "" end.
Definition part_if (name value : string) : string := if bool_decide (value <> "") then part name value else "".

Definition prepareLogPrefix (l : logger) (fmt : string) (args : list fmt_arg) : string :=
  let orig := Sprintf fmt args in
  let c := lg_context l in
  part_if "user" (lg_username l) +:+
  match lc_Action c with Some event => part "action" event +:+ part_of "result" (lc_ActionResult c) | None => "" end +:+
  part_of "src_ip" (lc_RemoteAddr c) +:+
  part_if "session" (lg_session l) +:+
  part_of "tx_id" ((fun z => pretty z) <$> lc_txid c) +:+
  part_if "accountID" (lg_accountID l) +:+
  part_of "opid" (lc_opid c) +:+ orig.

(** The cache of InfoChangedInt32, by the address of the counter; the answer is whether the
    line is logged.  [LoadOrStore] stores a value only when there is none. *)
Definition InfoChangedInt32 (counter : positive) (value : Z) : prog (gmap positive Z) bool := fun cache =>
  match cache !! counter with
  | Some val => (cache, negb (val =? value))
  | None => (<[counter := value]> cache, true)
  end.

(** ** Operation identifiers (operationid_middleware.go) *)

Definition WithOpID (fresh : string) (ctx : log_context) : log_context :=
  match lc_opid ctx with
  | Some _ => ctx
  | None => mkLogContext (lc_Claims ctx) (lc_Action ctx) (lc_ActionResult ctx) (lc_RemoteAddr ctx) (lc_txid ctx) (Some fresh) (lc_Hub ctx)
  end.

Definition GetOperationID (ctx : log_context) : string := default "" (lc_opid ctx).

(** ** The copy of a request that is logged (server/logging) *)

Definition secretNames : list string := ["authorization"].

Definition redact_header (name : string) (value : list string) : list string :=
  if existsb (EqualFold name) secretNames then ["REDACTED"] else value.

(** The headers of the copy; the request itself keeps its own. *)
Definition redactRequest (header : gmap string (list string)) : gmap string (list string) := map_imap (fun k v => Some (redact_header k v)) header.

(** [RequestLoggingMiddleware]: the context for the handler of a route with the name [name]. *)
Definition logging_context (name remoteAddr : string) (ctx : log_context) : log_context :=
  let action := le_Type (NewLogEventFromString name) in
  mkLogContext (lc_Claims ctx) (if bool_decide (action <> "") then Some action else lc_Action ctx) (lc_ActionResult ctx)
    (Some remoteAddr) (lc_txid ctx) (lc_opid ctx) (lc_Hub ctx).

(** ** The wrappers of the response writer *)

Inductive write := WHeader (code : Z) | WBody (body : string).

(** What net/http documents. *)
Definition client_status (ws : list write) : Z := match ws with WHeader code :: _ => code | _ => 200 end.

(** metricsResponseWrapper and loggingWriter *)
Record writer := mkWriter { wr_code : Z; wr_body : string }.

Definition metrics_write (w : writer) (e : write) : writer :=
  match e with
  | WHeader code => mkWriter code (wr_body w)
  | WBody _ => if wr_code w =? 0 then mkWriter StatusOK (wr_body w) else w
  end.

Definition logging_write (w : writer) (e : write) : writer :=
  match e with WHeader code => mkWriter code (wr_body w) | WBody body => mkWriter (wr_code w) body end.

Definition metrics_code (ws : list write) : Z := wr_code (foldl metrics_write (mkWriter 0 "") ws).
Definition GetResponseStatusCode (ws : list write) : Z := wr_code (foldl logging_write (mkWriter 0 "") ws).
Definition logged_body (ws : list write) : string := wr_body (foldl logging_write (mkWriter 0 "") ws).

(** ** The labels of the metrics (metrics_middleware.go) *)

Definition PathVarSub : string := "-".

(** [metricsPathVarRE.ReplaceAllString(template, "-")] for [{[^}]*}]: [open] holds what was
    read since an opening brace, in reverse. *)
Fixpoint replace_vars (open : option (list N)) (bs : list N) : list N :=
  match bs, open with
  | [], None => []
  | [], Some pending => 123%N :: rev pending
  | b :: bs, None => if (b =? 123)%N then replace_vars (Some []) bs else b :: replace_vars None bs
  | b :: bs, Some pending => if (b =? 125)%N then bytes_of PathVarSub ++ replace_vars None bs else replace_vars (Some (b :: pending)) bs
  end.

(** The label of a route, [None] for a request without one. *)
Definition metrics_path (template : option string) : string :=
  match template with
  | Some t => string_of_bytes (replace_vars None (bytes_of t))
  | None => "/" +:+ PathVarSub
  end.

Definition metrics_labels (method : string) (template : option string) (ws : list write) : string * string * string :=
  (method, metrics_path template, pretty (metrics_code ws)).

(** ** Properties *)

(** The Authorization header of a logged request is never the one of the request, however
    it is spelt; the other headers are kept. *)
Theorem redactRequest_hides header name value :
  redactRequest header !! name = Some value <->
  exists v, header !! name = Some v /\ value = (if EqualFold name "authorization" then ["REDACTED"] else v).
Proof.
  unfold redactRequest. rewrite map_lookup_imap, bind_Some. unfold redact_header, secretNames. cbn [existsb]. setoid_rewrite orb_false_r.
  split; intros (v & Hv & H); exists v; (split; [done|]); congruence.
Qed.

Lemma split_dollars_none s : Ascii.ascii_of_nat 36 ∉ String.list_ascii_of_string s -> split_dollars s = [s].
Proof.
  induction s as [|a s IH]; [done|]. simpl. intros [Ha Hs]%not_elem_of_cons. destruct s as [|b s]; [done|].
  rewrite bool_decide_eq_false_2 by congruence. cbn [andb]. by rewrite IH.
Qed.

Lemma split_dollars_app s t :
  Ascii.ascii_of_nat 36 ∉ String.list_ascii_of_string s -> split_dollars (s +:+ "$$" +:+ t) = s :: split_dollars t.
Proof.
  induction s as [|a s IH]; intros Hs; [reflexivity|]. simpl in Hs. apply not_elem_of_cons in Hs as [Ha Hs]. specialize (IH Hs).
  change (String a s +:+ "$$" +:+ t) with (String a (s +:+ "$$" +:+ t)).
  destruct (s +:+ "$$" +:+ t) as [|b rest] eqn:E; [by destruct s|]. cbn [split_dollars].
  rewrite bool_decide_eq_false_2 by congruence. cbn [andb].
  change (match split_dollars (String b rest) with w :: ws => String a w :: ws | [] => [String a ""] end = String a s :: split_dollars t).
  by rewrite IH.
Qed.

(** An event that is written as the name of a route is read back, when it has no dollar
    sign. *)
Theorem LogEvent_roundtrip l :
  Ascii.ascii_of_nat 36 ∉ String.list_ascii_of_string (le_Type l) ->
  Ascii.ascii_of_nat 36 ∉ String.list_ascii_of_string (le_Description l) ->
  NewLogEventFromString (LogEvent_ToString l) = l.
Proof.
  intros Ht Hd. destruct l as [ty d]. unfold LogEvent_ToString, NewLogEventFromString. simpl in *. case_bool_decide as Hne.
  - assert (Sprintf "%s%s%s" [VStr ty; VStr logEventSeparator; VStr d] = ty +:+ "$$" +:+ d) as ->.
    { transitivity (ty +:+ "$$" +:+ d +:+ ""); [reflexivity|]. by rewrite string_append_nil_r. }
    rewrite split_dollars_app by done. by rewrite split_dollars_none.
  - subst. by rewrite split_dollars_none.
Qed.

(** The cache keeps the first value: once a counter has left it every call is logged, whether
    the counter has changed or not, and the return to the first value is not logged. *)
Theorem InfoChangedInt32_stale counter first v :
  v <> first ->
  let cache := (InfoChangedInt32 counter first ∅).1 in
  InfoChangedInt32 counter v cache = (cache, true) /\ InfoChangedInt32 counter v (InfoChangedInt32 counter v cache).1 = (cache, true) /\
  InfoChangedInt32 counter first (InfoChangedInt32 counter v cache).1 = (cache, false).
Proof.
  intros Hv. cbv zeta. assert (Hc : (InfoChangedInt32 counter first ∅).1 = {[counter := first]}) by (unfold InfoChangedInt32; by rewrite lookup_empty).
  assert (Hl : forall x, InfoChangedInt32 counter x {[counter := first]} = ({[counter := first]}, negb (first =? x))).
  { intros x. unfold InfoChangedInt32. by rewrite lookup_singleton_eq. }
  rewrite Hc, !Hl. cbn [fst]. rewrite ?Hl, Z.eqb_refl. by replace (first =? v) with false by lia.
Qed.

(** *** The status of a response *)

Definition bodies (bs : list string) : list write := WBody <$> bs.

Lemma metrics_bodies bs w : wr_code w <> 0 -> foldl metrics_write w (bodies bs) = w.
Proof. intros Hw. induction bs as [|b bs IH]; [done|]. simpl. replace (wr_code w =? 0) with false by lia. exact IH. Qed.

Lemma logging_bodies bs w : wr_code (foldl logging_write w (bodies bs)) = wr_code w.
Proof. revert w. induction bs as [|b bs IH]; intros w; [done|]. simpl. by rewrite IH. Qed.

(** A handler that writes one status and then its body, or a body only, is counted with the
    status that the client gets; one that writes nothing is counted with the status 0, and
    the client gets 200. *)
Theorem metrics_code_right code bs :
  (code <> 0 -> metrics_code (WHeader code :: bodies bs) = client_status (WHeader code :: bodies bs)) /\
  (bs <> [] -> metrics_code (bodies bs) = client_status (bodies bs)) /\
  metrics_code [] = 0 /\ client_status [] = 200.
Proof.
  unfold metrics_code. split_and!; [| |done..].
  - intros Hc. simpl. by rewrite metrics_bodies.
  - intros Hb. destruct bs as [|b bs]; [done|]. simpl. by rewrite metrics_bodies.
Qed.

(** The logged status, also of the audit log, is that of the client only when the handler
    writes one: with a body alone it is 0. *)
Theorem logged_status code bs :
  GetResponseStatusCode (WHeader code :: bodies bs) = client_status (WHeader code :: bodies bs) /\
  GetResponseStatusCode (bodies bs) = 0 /\ client_status (bodies bs) = 200.
Proof. unfold GetResponseStatusCode. split_and!; [simpl; by rewrite logging_bodies|by rewrite logging_bodies|by destruct bs]. Qed.

(** *** The labels *)

Definition no_braces (bs : list N) : bool := forallb (fun b => negb (b =? 123)%N && negb (b =? 125)%N) bs.

(** The path label of every route is free of variables, so that a series exists for a route
    and not for an identifier. *)
Theorem labels_of_routes conf f : f ∈ routes conf -> no_braces (bytes_of (metrics_path (Some (fl_template f)))) = true.
Proof.
  assert (forallb (fun f => no_braces (bytes_of (metrics_path (Some (fl_template f))))) (routes conf) = true) as H by (vm_compute; reflexivity).
  rewrite forallb_forall in H. intros Hf. by apply H, list_elem_of_In.
Qed.

(** *** Loggers *)

(** A logger with another level is a logger of the same request, with the same prefix, but
    for its hub: errors that are reported through it are not those of the request. *)
Theorem logger_V_loses_hub l level fmt args :
  prepareLogPrefix (logger_V level l) fmt args = prepareLogPrefix l fmt args /\ captureSentryEvent (logger_V level l) = false.
Proof. done. Qed.

(** A token whose name is no text, which claims may be, makes every logger of its requests
    panic; otherwise a logger is made, and its lines start with the name if there is one. *)
Theorem NewUHCLogger_total ctx :
  (exists l, NewUHCLogger ctx = Some l /\ lg_sentryHub l = lc_Hub ctx) <->
  is_Some (getUsernameFromClaims (lc_Claims ctx)) /\ is_Some (getSessionFromClaims (lc_Claims ctx)).
Proof.
  unfold NewUHCLogger. destruct (getUsernameFromClaims _) as [u|]; simpl; [|split; [by intros (l & ? & _)|by intros [[? ?] _]]].
  destruct (getSessionFromClaims _) as [s|]; simpl; [|split; [by intros (l & ? & _)|by intros [_ [? ?]]]].
  split; [by split; eexists|]. intros _. by eexists.
Qed.

Example numeric_username : NewUHCLogger (mkLogContext (Some {["username" := CNumber 7]}) None None None None None true) = None.
Proof. reflexivity. Qed.
