(* ===== verification/FleetClient.v ===== *)
(** * The client of the fleet manager

    pkg/client/fleetmanager: the three kinds of authentication of the client that the probe,
    the data plane synchronizer and the command line tools use, and its transport.  The OCM
    SDK, the OpenID provider and oauth2 are the class [Tokens]. *)

From S2P Require Import Prelude GoString GoFmt ServiceErrors Versions World Effects LeaderElection.
Local Open Scope string_scope.
Local Open Scope Z_scope.

Record RHSSOOption := mkRHSSOOption { so_ClientID : string; so_ClientSecret : string; so_Realm : string; so_Endpoint : string }.
Record OCMOption := mkOCMOption { oo_RefreshToken : string; oo_EnableLogger : bool }.
Record StaticOption := mkStaticOption { to_StaticToken : string }.
Record Option_ := mkOption { op_Sso : RHSSOOption; op_Ocm : OCMOption; op_Static : StaticOption }.

Record client_credentials := mkCredentials { cc_ClientID : string; cc_ClientSecret : string; cc_TokenURL : string; cc_Scopes : list string }.

(** The extra field of a token: a string, or something else. *)
Inductive id_token := IdText (s : string) | IdOther.

Class Tokens (X : Type) := {
  (** [builder.Logger] with a new logger *)
  ocm_logger : prog X (result error unit);
  ocm_connect (clientID token : string) (logs : bool) : prog X (result error Z);
  (** the access token of a connection, refreshed when it expires within the margin *)
  ocm_tokens (conn margin : Z) : prog X (result error string);
  (** the token URL of the provider *)
  oidc_provider (issuer : string) : prog X (result error string);
  oauth_token (cfg : client_credentials) : prog X (result error (string * option id_token))
}.

Definition ocmTokenExpirationMargin : Z := 5 * 60 * second.
Definition ocmClientID : string := "cloud-services".
Definition ocmAuthName : string := "OCM".
Definition rhSSOAuthName : string := "RHSSO".
Definition staticTokenAuthName : string := "STATIC_TOKEN".

(** The implementations of the interface Auth. *)
Inductive Auth_ := ocmAuth (conn : Z) | rhSSOAuth (tokenSource : client_credentials) | staticTokenAuth (token : string).

(** The requests of the client, by their headers. *)
Abbreviation headers := (gmap string (list string)).

Definition setBearer (token : string) (h : headers) : headers := <["Authorization" := [Sprintf "Bearer %s" [VStr token]]]> h.

Section client.
Context {X : Type} `{Tokens X}.

Definition ocm_CreateAuth (o : Option_) : prog X (result error Auth_) :=
  let initialToken := oo_RefreshToken (op_Ocm o) in
  if bool_decide (initialToken = "") then mret (Err (ETraced "empty ocm token"))
  else
    _ ←? (if oo_EnableLogger (op_Ocm o) then with_err (Errorf_w "creating Glog logger") ocm_logger else mret (Ok tt));
    conn ←? with_err (Errorf_w "creating connection") (ocm_connect ocmClientID initialToken (oo_EnableLogger (op_Ocm o)));
    _ ←? with_err (Errorf_w "retrieving tokens") (ocm_tokens conn 0);
    mret (Ok (ocmAuth conn)).

Definition rhsso_CreateAuth (o : Option_) : prog X (result error Auth_) :=
  let issuer := Sprintf "%s/auth/realms/%s" [VStr (so_Endpoint (op_Sso o)); VStr (so_Realm (op_Sso o))] in
  url ←? with_err (EWrap (Sprintf "retrieving open-id configuration from %q" [VStr issuer])) (oidc_provider issuer);
  mret (Ok (rhSSOAuth (mkCredentials (so_ClientID (op_Sso o)) (so_ClientSecret (op_Sso o)) url ["openid"]))).

Definition static_CreateAuth (o : Option_) : prog X (result error Auth_) :=
  let staticToken := to_StaticToken (op_Static o) in
  if bool_decide (staticToken = "") then mret (Err (ETraced "no static token set")) else mret (Ok (staticTokenAuth staticToken)).

Definition authFactoryRegistry : list (string * (Option_ -> prog X (result error Auth_))) :=
  [(ocmAuthName, ocm_CreateAuth); (rhSSOAuthName, rhsso_CreateAuth); (staticTokenAuthName, static_CreateAuth)].

Definition getAllAuthTypes : list string := sort_Strings (fst <$> authFactoryRegistry).

Definition newAuth (t : string) (opt : Option_) : prog X (result error Auth_) :=
  match head (filter (fun f => f.1 = t) authFactoryRegistry) with
  | None => mret (Err (ETraced (Sprintf "invalid auth type found: %q, must be one of [%s]" [VStr t; VStr (Join "," getAllAuthTypes)])))
  | Some factory => with_err (Errorf_w "creating Auth") (factory.2 opt)
  end.

Definition AddAuth (a : Auth_) (h : headers) : prog X (result error headers) :=
  match a with
  | ocmAuth conn =>
      access ←? with_err (EWrap "retrieving access token via OCM auth type") (ocm_tokens conn ocmTokenExpirationMargin);
      mret (Ok (setBearer access h))
  | rhSSOAuth cfg =>
      token ←? with_err (EWrap "retrieving token from token source") (oauth_token cfg);
      mret (Ok (setBearer token.1 h))
  | staticTokenAuth token => mret (Ok (setBearer token h))
  end.

Definition RetrieveIDToken (a : Auth_) : prog X (result error string) :=
  match a with
  | ocmAuth conn => with_err (EWrap "retrieving access token via OCM auth type") (ocm_tokens conn ocmTokenExpirationMargin)
  | rhSSOAuth cfg =>
      t ←? with_err (EWrap "retrieving token from token source") (oauth_token cfg);
      mret (match t.2 with
            | None => Err (ETraced "no ID token could be retrieved")
            | Some (IdText s) => Ok s
            | Some IdOther => Err (ETraced "ID token was in an unsupported format")
            end)
  | staticTokenAuth _ => mret (Err (ETraced "retrieving ID tokens using the static token auth type is currently not supported"))
  end.

(** The transport around the default one; [shown] is the request as it is printed. *)
Definition RoundTrip {A} (shown : headers -> string) (transport : headers -> prog X (result error A)) (a : Auth_) (h : headers)
    : prog X (result error A) :=
  h ←? with_err (EWrap (Sprintf "setting auth on req %s" [VStr (shown h)])) (AddAuth a h);
  transport h.

(** ** Properties *)

(** Which of the factories runs: the one of the name, and for other names the error that
    lists the three in order. *)
Theorem newAuth_factories t opt x :
  newAuth t opt x =
  if bool_decide (t = ocmAuthName) then with_err (Errorf_w "creating Auth") (ocm_CreateAuth opt) x
  else if bool_decide (t = rhSSOAuthName) then with_err (Errorf_w "creating Auth") (rhsso_CreateAuth opt) x
  else if bool_decide (t = staticTokenAuthName) then with_err (Errorf_w "creating Auth") (static_CreateAuth opt) x
  else (x, Err (ETraced (Sprintf "invalid auth type found: %q, must be one of [%s]" [VStr t; VStr "OCM,RHSSO,STATIC_TOKEN"]))).
Proof.
  unfold newAuth, authFactoryRegistry. rewrite !filter_cons. cbn [fst].
  repeat (case_decide; case_bool_decide; try congruence; try done).
Qed.

(** The tokens that an authentication hands out at [x]. *)
Definition hands_out (a : Auth_) (x : X) (token : string) : Prop :=
  match a with
  | ocmAuth conn => (ocm_tokens conn ocmTokenExpirationMargin x).2 = Ok token
  | rhSSOAuth cfg => exists i, (oauth_token cfg x).2 = Ok (token, i)
  | staticTokenAuth t => token = t
  end.

(** A request is sent at most once, with exactly one value of the Authorization header: the
    bearer token that the authentication has handed out for it; a header of the caller is
    replaced.  Without a token nothing is sent. *)
Theorem RoundTrip_authenticated {A} shown (transport : headers -> prog X (result error A)) a h x :
  (exists x' e, RoundTrip shown transport a h x = (x', Err (EWrap (Sprintf "setting auth on req %s" [VStr (shown h)]) e)) /\
     (AddAuth a h x).1 = x') \/
  exists token x', hands_out a x token /\ (AddAuth a h x).1 = x' /\
    RoundTrip shown transport a h x = transport (<["Authorization" := ["Bearer " +:+ token]]> h) x'.
Proof.
  assert (Hs : forall token, setBearer token h = <["Authorization" := ["Bearer " +:+ token]]> h).
  { intros token. unfold setBearer. repeat f_equal. transitivity ("Bearer " +:+ (token +:+ "")); [reflexivity|]. by rewrite string_append_nil_r. }
  unfold RoundTrip, try_bind, with_err. rewrite !prog_bind_run.
  destruct a as [conn|cfg|token]; unfold AddAuth, try_bind, with_err; rewrite ?prog_bind_run; simpl.
  - destruct (ocm_tokens _ _ x) as [x1 [t|e]] eqn:E; simpl; [right|left; eauto]. exists t, x1. by rewrite Hs.
  - destruct (oauth_token _ x) as [x1 [[t i]|e]] eqn:E; simpl; [right|left; eauto]. exists t, x1. rewrite Hs. eauto.
  - right. exists token, x. by rewrite Hs.
Qed.
End client.
